(* ===== verification/_CoqProject ===== *)
-Q . S2P
Prelude.v
AssocList.v
HexCodec.v
BaseConvert.v
Rudics.v
Double.v
Time.v
As.v
Seawater.v
Prog.v
Proto.v
Queue.v
QueueManager.v
QueueManagerProofs.v
UdpDriver.v
Route.v
Mac.v
Nmea.v
MoosString.v
Iridium.v
IridiumFsm.v
IridiumSbd.v
DriverBase.v
DirectIp.v
IridiumDriver.v
IridiumCall.v
ShoreDriver.v
ShoreLink.v
Benthos.v
BenthosDriver.v
BenthosLink.v
BenthosExchange.v
FrontSeatData.v
FrontSeat.v
FrontSeatChart.v
Bluefin.v
BluefinIncoming.v
BluefinLink.v
Legacy.v
Abc.v
AbcLink.v
MmData.v
MessageVal.v
AbcFrontSeat.v
IverDriver.v
WavegliderSerial.v
Waveglider.v
MoosMessage.v
MoosCommas.v
MoosCommasLink.v
MoosFormat.v
MoosFormatLink.v
MoosTranslator.v
MoosApp.v
PTranslator.v
AcommsHandler.v
AcommsDrivers.v
AcommsRestart.v
AcommsLink.v
ModemApp.v
Bridge.v
BridgeProofs.v
BridgeLink.v
PbDriver.v
StoreServer.v
StoreLink.v
UFieldDriver.v
BluefinComms.v
MmDriver.v
MmReceive.v
MmQueue.v
MmLive.v
MmLink.v
FileTransfer.v
Mosh.v
IpCodecs.v
IpGateway.v
