(* ===== verification/Prelude.v ===== *)
(** * Goby underwater autonomy: a verification development

    Goby links autonomous vehicles over slow and lossy channels (acoustic modems,
    Iridium, UDP) and connects them to the computers of the vehicles. This
    library models the C++ code of its acoustic communications stack, of the
    vehicle interface, of the exchange with MOOS, and of the applications on
    top, and proves the theorems that make these parts correct. Paths are below
    src/src/.

    ** The program

    A message enters a node through the queue manager, which keeps a queue per
    DCCL message type (acomms/queue). When the medium access control
    (acomms/amac) gives the node a slot, the modem driver (acomms/modemdriver)
    asks the manager for data; the manager lets its queues compete and packs the
    winners' messages into frames. The receiving driver acknowledges the frames
    and hands them to its own manager, which delivers the messages, or gives
    them to the router (acomms/route) when they are for somebody else. The
    applications put these parts together: pAcommsHandler (apps/moos) has the
    whole stack and makes messages of MOOS variables; goby_bridge and
    goby_modemdriver (apps/acomms) split it into a gateway between subnets and
    one process per modem, which exchange messages in publish/subscribe groups;
    others send files, mosh sessions and IP packets. iFrontSeat (apps/moos)
    runs the driver of a vehicle (moos/frontseat) and takes courses for it.

    ** The files

    Foundations:
    - [Prelude]: byte strings, machine integers, [result], tactics, hints,
      lemmas on lists, multimaps and [boost::circular_buffer]. [AssocList]:
      [std::map] as a sorted association list. [Double]: IEEE double arithmetic.
      [Prog]: computations with a state, events and exceptions, in which a
      member function keeps what it changed before it throws, and their triples.
    - [HexCodec] (util/binary.h), [BaseConvert] (util/base_convert.h), [Time]
      (common/time.{h,cpp}), [As] (util/as.h), [Nmea]
      (util/linebasedcomms/nmea_sentence.cpp), [Seawater] (util/seawater,
      util/sci.h): codecs, conversions and formulas.
    - [Proto]: the protobuf messages of acomms/protobuf as records, and the
      interfaces to protobuf reflection, to the DCCL codec and to boost's string
      algorithms as classes with laws, with one concrete instance ([Sample]).

    Queues, access and routing:
    - [Queue] (acomms/queue/queue.{h,cpp}): [Queue.Queue] is the class [Queue];
      an iterator into [messages_] is the number of its node, so that a dangling
      iterator is a value the theorems exclude.
    - [QueueManager] (acomms/queue/queue_manager.{h,cpp}): [QueueManager] is the
      class, with one definition per member function. The slots connected to
      its signals are the record [Environment]; the signals it emits are the
      list of [Event]s an operation returns. [QueueManagerProofs] holds its
      invariants and theorems.
    - [Mac] (acomms/amac/mac_manager.cpp), [Route] (acomms/route/route.cpp).

    Modem drivers (acomms/modemdriver unless another directory is named), each
    with the files that prove what two of them do with each other:
    - [DriverBase] (driver_base.cpp): the line and the log of every driver.
    - [UdpDriver] (udp_driver.cpp, acomms/bind.h): the driver, and the node made
      of a driver bound to a queue manager.
    - [Abc], [AbcLink] (abc_driver.cpp, apps/acomms/abc_modem_simulator).
    - [MmData], [MmDriver], [MmReceive] (mm_driver.cpp), with [MmQueue] (its queue
      of commands as a labelled step relation), [MmLive] and [MmLink]: the Micro-Modem.
    - [Rudics] (rudics_packet.cpp), [Iridium] (iridium_driver_common.h and the
      reactions that carry data), [IridiumFsm] (iridium_driver_fsm.cpp, all
      states put together), [IridiumDriver] (iridium_driver.cpp), [IridiumSbd]
      and [IridiumCall]: the mobile side of Iridium. [DirectIp]
      (iridium_shore_sbd.h), [ShoreDriver] (iridium_shore_driver.cpp) and
      [ShoreLink]: the shore side.
    - [Benthos] (benthos_atm900_driver_fsm.cpp), [BenthosDriver]
      (benthos_atm900_driver.cpp), [BenthosLink] and [BenthosExchange].
    - [PbDriver] (pb/pb_modem_driver.cpp), [StoreServer]
      (apps/acomms/goby_store_server) and [StoreLink].
    - [UFieldDriver] (moos/moos_ufield_sim_driver.cpp), [BluefinComms]
      (moos/moos_bluefin_driver.cpp).

    Vehicles:
    - [FrontSeatData], [FrontSeat] (moos/frontseat/frontseat.cpp,
      apps/moos/iFrontSeat): the state machine over a class of drivers.
      [FrontSeatChart]: its chart as a step relation. [Legacy]
      (legacy_translator.cpp): the translation of the older variables.
    - [Bluefin], [BluefinIncoming], [BluefinLink] (moos/frontseat/bluefin),
      [AbcFrontSeat] (share/examples/moos/abc_frontseat_driver and its
      simulator), [IverDriver] (moos/frontseat/iver), [WavegliderSerial] and
      [Waveglider] (moos/frontseat/waveglider): the instances.

    MOOS:
    - [MoosString] (moos/moos_string.h, modem_id_convert.cpp), [MessageVal]
      (moos/transitional/message_val.cpp, message_algorithms.cpp and the
      algorithms of moos_translator.cpp), [MoosMessage], [MoosCommas],
      [MoosFormat] (moos/moos_protobuf_helpers.h) with [MoosCommasLink] and
      [MoosFormatLink], [MoosTranslator] (moos/moos_translator.h).
    - [MoosApp] (moos/goby_moos_app.h), [PTranslator] (apps/moos/pTranslator),
      [AcommsHandler] (apps/moos/pAcommsHandler) with [AcommsDrivers],
      [AcommsRestart] and [AcommsLink].

    Further applications (apps/acomms):
    - [ModemApp] (goby_modemdriver), [Bridge] (goby_bridge), [BridgeProofs] and
      [BridgeLink]; [FileTransfer], [Mosh], [IpGateway] (goby_file_transfer,
      goby_mosh_relay, goby_ip_gateway) and [IpCodecs] (acomms/ip_codecs.cpp).

    ** What the theorems show

    - Queues and manager: in every reachable state the two acknowledgement tables
      agree and no iterator dangles; an acknowledgement releases exactly the
      messages that wait on the frame; a data request is answered within the
      limits of the frame; the priority contest picks a maximal competitor; packed
      messages are unpacked again; bounded queues and expiry behave as configured.
    - Links: for each driver, what the driver of one node sends reaches the
      other one's manager as the same frames, and its acknowledgement releases
      them: UDP, the Micro-Modem's data cycle, an Iridium call between mobiles or
      with the shore, the Benthos modem, the store server, the example modem,
      uField and Bluefin communications. Packets are free of reserved characters
      and accepted only with their CRC; NMEA sentences survive printing and
      parsing and reject a corrupted character.
    - State machines: Iridium's machine is online only on a call; the
      Micro-Modem driver writes one command at a time, as a stop-and-wait
      specification says, and gives up a silent modem; the store server refines a
      log; the clients of the shore driver are a one-to-one table.
    - Access and routing: the timer never finds a dangling slot, the slots follow
      the schedule, two nodes never transmit in the same slot of a decentralized
      cycle, [update] finds the next slot; forwarding reaches the destination.
    - Vehicles: commands are accepted in the command state only, which is entered
      only with a helm in control, and is reached with a driver that works; a
      course of the helm becomes the vehicle's own command (Bluefin, the example
      vehicle, the Wave Glider); what the Iver reports becomes the published
      status; frames of the Wave Glider's serial line are read as they were written.
    - MOOS: messages written as pairs or by a format string are read back;
      subscriptions survive reconnection; translators with the same entry agree.
    - Applications: pAcommsHandler carries a message from the variables of one
      node to those of another, never uses a driver that is not connected, and a
      driver runs exactly when it does not wait for its restart; the bridge stays
      consistent, and relays a frame between the modem applications of two
      subnets; a file is written once and exactly in any order of its
      fragments; datagrams are reassembled; a UDP packet crosses the gateways with
      its addresses and ports, and verifying checksums.
    - Defects the model exhibits are theorems or evaluated examples too (an
      undecodable message that blocks the shore driver or deafens the Wave
      Glider's, a passphrase that persists, a file of a multiple of the fragment
      size, startup of a running MAC, mixed datagrams, a transmission lost and a
      late response in the modem application).

    ** Fuel and bounds

    [while] loops without a structural measure take fuel: the packing loop of a
    data request (the number of queued messages is enough: every iteration
    removes a message or marks it as waiting), the acknowledgement loop of a
    frame (the length of the table), decoding of a packed frame (its length, as
    no encoding is empty), the loop of [Mac.update] that skips slots (the number
    of slots for each cycle that has passed), the reading loop of a file, the
    digit loop of [BaseConvert] (the number of bits), the information elements
    of a DirectIP message (its remaining bytes) and the binary logarithm (32
    bits). The queues of posted events take [EVENT_FUEL], 10 for the Iridium
    machine and 6 for Benthos: the reactions to an event post only events of a
    smaller weight. The theorems show that this fuel is enough; running out is a
    value of its own. The applications hand the fuel of the managers and the
    MACs through as parameters. Loops on doubles (the iteration of [salinity],
    the turning of angles, yaws and courses into their range) take a fuel argument,
    and their theorems hold for the inputs on which it is enough. Calls of the format
    techniques for embedded messages are one level deep, which is shown to
    agree with the recursive functions. Loops that wait (startup of a driver,
    the data request of the modem application) take what each poll delivers as
    a list; its end is the timeout. The readers of the serial lines work byte
    by byte and need no fuel.

    Integers are [Z], reduced to their width where the C++ type wraps ([u8] to
    [u64], [s32]); a [double] is the binary64 of the standard library. Undefined
    behaviour (signed overflow, a conversion out of range, an access out of
    range) is an error value.

    ** What is not modelled

    Logging, printing and terminal displays; sockets, serial lines, the file
    system and timers (events or arguments of the handlers instead); the libraries
    protobuf, DCCL, boost, ZeroMQ and MOOS (interfaces, with the laws that the
    code relies on). The DCCL wrapper (acomms/dccl), the dispatch over
    publish/subscribe (pb/application.cpp) and the communication over lines
    (util/linebasedcomms/interface.cpp) only call these libraries; the
    application framework (common) reads configurations and command lines; moos_node
    and moos_gateway pass messages between the two transports; Liaison and the
    HDF5 tools are a web interface and file formats of libraries; DCCLv1
    (moos/transitional) is kept for older missions only, and of it the values
    and algorithms are modelled. An operation of the queue manager or of the MAC that
    throws has no state as its result: what it changed before is not modelled,
    also where an application catches the exception and goes on. *)

From Stdlib Require Export ZArith Lia List.
From Stdlib Require String Ascii.
From stdpp Require Export prelude.
Export String.StringSyntax.

#[global] Open Scope Z_scope.

(** ** Bytes and strings

    A [std::string] is a sequence of [char]; every operation of the modelled
    code masks or compares characters in a way that does not depend on the
    signedness of [char], so a string is a list of integers in [0, 256). *)

Abbreviation bytes := (list Z).

Definition is_byte (b : Z) : Prop := 0 <= b < 256.
Definition wf_bytes (s : bytes) : Prop := Forall is_byte s.

(** String literals of the source: [B "CFG"] is the byte string ["CFG"]. *)
Definition B (s : String.string) : bytes :=
  List.map (fun c => Z.of_N (Ascii.N_of_ascii c)) (String.list_ascii_of_string s).
Arguments B s%_string_scope.

Declare Scope goby_scope.
Delimit Scope goby_scope with goby.
Open Scope goby_scope.

(** ** Machine integers *)

Definition wrap (w : Z) (z : Z) : Z := z mod 2 ^ w.
Definition u8 (z : Z) : Z := wrap 8 z.
Definition u16 (z : Z) : Z := wrap 16 z.
Definition u32 (z : Z) : Z := wrap 32 z.
Definition u64 (z : Z) : Z := wrap 64 z.
(** two's complement 32 bit [int] *)
Definition s32 (z : Z) : Z := (z + 2 ^ 31) mod 2 ^ 32 - 2 ^ 31.
Definition s64 (z : Z) : Z := (z + 2 ^ 63) mod 2 ^ 64 - 2 ^ 63.

(** ** Errors: a C++ exception is the [Err] case of a result. *)

Inductive result (E A : Type) : Type :=
| Ok (a : A)
| Err (e : E).
Arguments Ok {E A} a.
Arguments Err {E A} e.

Definition rbind {E A C : Type} (r : result E A) (k : A -> result E C) : result E C :=
  match r with
  | Ok a => k a
  | Err e => Err e
  end.

Notation "'let?' x ':=' c 'in' k" := (rbind c (fun x => k))
  (at level 10, x pattern, c at level 100, k at level 200) : goby_scope.

Definition is_ok {E A : Type} (r : result E A) : bool :=
  match r with Ok _ => true | Err _ => false end.

(** ** Tactics and hints *)

Create HintDb goby.

(** case analysis on the next conditional or match of the goal *)
Ltac split_if :=
  match goal with
  | |- context [if ?b then _ else _] => destruct b eqn:?
  | |- context [match ?x with _ => _ end] => destruct x eqn:?
  end.

Ltac split_if_in H :=
  match type of H with
  | context [if ?b then _ else _] => destruct b eqn:?
  | context [match ?x with _ => _ end] => destruct x eqn:?
  end.

(** turn boolean comparisons in the context into propositions *)
Ltac to_prop :=
  repeat match goal with
  | H : (_ =? _) = true |- _ => apply Z.eqb_eq in H
  | H : (_ =? _) = false |- _ => apply Z.eqb_neq in H
  | H : (_ <? _) = true |- _ => apply Z.ltb_lt in H
  | H : (_ <? _) = false |- _ => apply Z.ltb_ge in H
  | H : (_ <=? _) = true |- _ => apply Z.leb_le in H
  | H : (_ <=? _) = false |- _ => apply Z.leb_gt in H
  | H : (_ && _) = true |- _ => apply andb_true_iff in H; destruct H
  | H : (_ || _) = false |- _ => apply orb_false_iff in H; destruct H
  | H : negb _ = true |- _ => apply negb_true_iff in H
  | H : negb _ = false |- _ => apply negb_false_iff in H
  | H : bool_decide _ = true |- _ => apply bool_decide_eq_true in H
  | H : bool_decide _ = false |- _ => apply bool_decide_eq_false in H
  end.

(** ** Generic lemmas *)

(** A decidable statement about the integers of [0, n) can be checked by evaluation. *)
Lemma Z_range_forall (n : nat) (P : Z -> bool) :
  forallb (fun k => P (Z.of_nat k)) (seq 0 n) = true ->
  forall z, 0 <= z < Z.of_nat n -> P z = true.
Proof.
  intros H z Hz. rewrite forallb_forall in H.
  specialize (H (Z.to_nat z)). rewrite Z2Nat.id in H by lia.
  apply H, in_seq. lia.
Qed.


Lemma wrap_small w z : 0 <= z < 2 ^ w -> wrap w z = z.
Proof. apply Z.mod_small. Qed.

Lemma wrap_bound w z : 0 <= w -> 0 <= wrap w z < 2 ^ w.
Proof. intros Hw. apply Z.mod_pos_bound, Z.pow_pos_nonneg; lia. Qed.

Lemma u8_is_byte z : is_byte (u8 z).
Proof. apply (wrap_bound 8); lia. Qed.

Lemma wf_bytes_app s t : wf_bytes (s ++ t) <-> wf_bytes s /\ wf_bytes t.
Proof. apply Forall_app. Qed.

Lemma wf_bytes_take n s : wf_bytes s -> wf_bytes (take n s).
Proof. apply Forall_take. Qed.

Lemma wf_bytes_drop n s : wf_bytes s -> wf_bytes (drop n s).
Proof. apply Forall_drop. Qed.

#[export] Hint Resolve u8_is_byte wf_bytes_take wf_bytes_drop : goby.

(** Two digits below [b] are determined by their positional value. *)
Lemma digit_div_mod b lo hi :
  0 <= lo < b -> (lo + b * hi) mod b = lo /\ (lo + b * hi) / b = hi.
Proof.
  intros H. split.
  - rewrite Z.mul_comm, Z.mod_add by lia. apply Z.mod_small; lia.
  - rewrite Z.mul_comm, Z.div_add by lia. rewrite Z.div_small by lia. lia.
Qed.

(** ** Lists used as C++ containers *)

(** [std::multimap::insert]: after the entries with the same key. *)
Fixpoint mm_insert {A : Type} (k : Z) (v : A) (l : list (Z * A)) : list (Z * A) :=
  match l with
  | [] => [(k, v)]
  | (k', v') :: rest => if k <? k' then (k, v) :: l else (k', v') :: mm_insert k v rest
  end.

(** [erase] of the element an iterator points to, found as the first one with [p]. *)
Fixpoint remove_first {A : Type} (p : A -> bool) (l : list A) : list A :=
  match l with
  | [] => []
  | x :: rest => if p x then rest else x :: remove_first p rest
  end.

Lemma mm_insert_perm {A} k (v : A) l : mm_insert k v l ≡ₚ (k, v) :: l.
Proof.
  induction l as [|[k' v'] l IH]; simpl; [done|]. split_if; [done|].
  rewrite IH. apply Permutation_swap.
Qed.

Lemma remove_first_sublist {A} (p : A -> bool) l : sublist (remove_first p l) l.
Proof.
  induction l as [|x l IH]; simpl; [constructor|]. split_if.
  - apply sublist_cons. done.
  - apply sublist_skip. done.
Qed.

Lemma remove_first_elem_of {A} (p : A -> bool) l x : x ∈ remove_first p l -> x ∈ l.
Proof. induction l as [|y l IH]; simpl; [done|]. split_if; set_solver. Qed.

Lemma remove_first_perm {A} (p : A -> bool) l x :
  List.find p l = Some x -> l ≡ₚ x :: remove_first p l.
Proof.
  induction l as [|y l IH]; simpl; [done|]. split_if.
  - intros [= ->]. done.
  - intros H. rewrite (IH H) at 1. apply Permutation_swap.
Qed.

Lemma remove_first_not_found {A} (p : A -> bool) l :
  List.find p l = None -> remove_first p l = l.
Proof. induction l as [|y l IH]; simpl; [done|]. split_if; [done | intros H; rewrite IH; done]. Qed.

Lemma find_elem_of {A} (p : A -> bool) l x : List.find p l = Some x -> x ∈ l /\ p x = true.
Proof. intros H. apply List.find_some in H as [H1 H2]. split; [apply list_elem_of_In|]; done. Qed.

Lemma find_none_elem_of {A} (p : A -> bool) l x : List.find p l = None -> x ∈ l -> p x = false.
Proof. intros H Hx. apply (List.find_none p l H), list_elem_of_In, Hx. Qed.

Lemma find_split {A} (p : A -> bool) l x :
  List.find p l = Some x <->
  exists l1 l2, l = l1 ++ x :: l2 /\ p x = true /\ Forall (fun y => p y = false) l1.
Proof.
  split.
  - induction l as [|y l IH]; simpl; [done|]. split_if.
    + intros [= ->]. exists [], l. auto.
    + intros H. destruct (IH H) as (l1 & l2 & -> & ? & ?). exists (y :: l1), l2. auto.
  - intros (l1 & l2 & -> & Hx & H). induction H as [|y l1 Hy _ IH]; simpl; [by rewrite Hx|].
    rewrite Hy. done.
Qed.

(** Removal by a key that occurs at most once. *)
Section RemoveKey.
Context {A : Type} (f : A -> nat).
Implicit Types (l : list A) (k : nat).

Lemma remove_key_elem_of k l x :
  NoDup (map f l) ->
  x ∈ remove_first (fun e => Nat.eqb (f e) k) l <-> x ∈ l /\ f x <> k.
Proof.
  induction l as [|y l IH]; simpl; intros Hn; [set_solver|].
  apply NoDup_cons in Hn as [Hy Hn]. destruct (Nat.eqb_spec (f y) k) as [E|E].
  - split; [|set_solver]. intros Hx. split; [set_solver|]. intros Ex. apply Hy.
    rewrite E, <- Ex. apply list_elem_of_fmap. eauto.
  - rewrite !elem_of_cons, IH by done. split; [|tauto]. intros [->|[? ?]]; auto.
Qed.

Lemma remove_key_map k l :
  map f (remove_first (fun e => Nat.eqb (f e) k) l) = remove_first (fun n => Nat.eqb n k) (map f l).
Proof. induction l as [|y l IH]; simpl; [done|]. split_if; [done | simpl; by rewrite IH]. Qed.

Lemma remove_first_NoDup {C} (p : C -> bool) (l : list C) : NoDup l -> NoDup (remove_first p l).
Proof. intros H. eapply sublist_NoDup; [exact H | apply remove_first_sublist]. Qed.

Lemma remove_key_NoDup k l :
  NoDup (map f l) -> NoDup (map f (remove_first (fun e => Nat.eqb (f e) k) l)).
Proof. intros H. rewrite remove_key_map. by apply remove_first_NoDup. Qed.

Lemma find_key_elem_of k l x :
  List.find (fun e => Nat.eqb (f e) k) l = Some x -> x ∈ l /\ f x = k.
Proof. intros H. apply find_elem_of in H as [? ?%Nat.eqb_eq]. done. Qed.

Lemma find_key_None k l : List.find (fun e => Nat.eqb (f e) k) l = None <-> k ∉ map f l.
Proof.
  induction l as [|y l IH]; simpl; [set_solver|]. destruct (Nat.eqb_spec (f y) k) as [E|E].
  - split; [done|]. intros H. destruct H. rewrite E. set_solver.
  - rewrite IH. set_solver.
Qed.

Lemma find_key_unique k l x :
  NoDup (map f l) -> x ∈ l -> f x = k -> List.find (fun e => Nat.eqb (f e) k) l = Some x.
Proof.
  induction l as [|y l IH]; simpl; intros Hn Hx E; [set_solver|].
  apply NoDup_cons in Hn as [Hy Hn]. destruct (Nat.eqb_spec (f y) k) as [E'|E'].
  - apply elem_of_cons in Hx as [->|Hx]; [done|]. destruct Hy. rewrite E', <- E.
    apply list_elem_of_fmap. eauto.
  - apply elem_of_cons in Hx as [->|Hx]; [done|]. auto.
Qed.

End RemoveKey.

Lemma s32_small z : - 2 ^ 31 <= z < 2 ^ 31 -> s32 z = z.
Proof. intros H. unfold s32. rewrite Z.mod_small by lia. lia. Qed.

Lemma s64_small z : - 2 ^ 63 <= z < 2 ^ 63 -> s64 z = z.
Proof. intros H. unfold s64. rewrite Z.mod_small; lia. Qed.

(** ** Text *)

(** [std::string::compare(0, n, p) == 0] *)
Definition starts_with (p s : bytes) : bool := bool_decide (take (length p) s = p).

(** [std::string::find(p) != npos] *)
Fixpoint contains (p s : bytes) : bool :=
  starts_with p s || match s with _ :: s => contains p s | [] => false end.

(** [std::string::find(p)] *)
Fixpoint find_text (p s : bytes) : option nat :=
  if starts_with p s then Some O
  else match s with _ :: s => S <$> find_text p s | [] => None end.

(** [std::string::substr(pos, n)]: [None] is [std::out_of_range] *)
Definition substr (pos n : nat) (s : bytes) : option bytes :=
  if (length s <? pos)%nat then None else Some (take n (drop pos s)).

(** ** Circular buffers *)

(** [boost::circular_buffer::push_back]: when full, the oldest is overwritten *)
Definition circular_push {A : Type} (capacity : nat) (x : A) (l : list A) : list A :=
  if Nat.eqb capacity 0 then l
  else if (length l <? capacity)%nat then l ++ [x] else drop 1 l ++ [x].

Lemma circular_push_last {A} n (x : A) l : (0 < n)%nat -> last (circular_push n x l) = Some x.
Proof.
  intros H. unfold circular_push. destruct (Nat.eqb_spec n 0); [lia|]. destruct (_ <? _)%nat; apply last_snoc.
Qed.

Lemma circular_push_room {A} n (x : A) l : (length l < n)%nat -> circular_push n x l = l ++ [x].
Proof.
  intros H. unfold circular_push. destruct (Nat.eqb_spec n 0); [lia|].
  by replace (length l <? n)%nat with true by (symmetry; apply Nat.ltb_lt; lia).
Qed.

(** [push_front]: when full, the newest is overwritten *)
Definition circular_push_front {A : Type} (capacity : nat) (x : A) (l : list A) : list A :=
  take capacity (x :: l).

Lemma filter_filter {A} (p p' : A -> bool) l :
  List.filter p' (List.filter p l) = List.filter (fun x => p x && p' x) l.
Proof.
  induction l as [|x l IH]; simpl; [done|]. destruct (p x); simpl; [|done].
  destruct (p' x); by rewrite IH.
Qed.
