(* ===== verification/AssocList.v ===== *)
(** * Ordered association lists: the [std::map] of the program

    Keys are integers in increasing order, each at most once. *)

From Stdlib Require Import Sorting.Sorted.
From S2P Require Import Prelude.

(** [find] and [operator[] =] *)
Fixpoint al_lookup {A : Type} (k : Z) (l : list (Z * A)) : option A :=
  match l with
  | [] => None
  | (k', v) :: rest => if k =? k' then Some v else al_lookup k rest
  end.

Fixpoint al_insert {A : Type} (k : Z) (v : A) (l : list (Z * A)) : list (Z * A) :=
  match l with
  | [] => [(k, v)]
  | (k', v') :: rest =>
      if k =? k' then (k, v) :: rest
      else if k <? k' then (k, v) :: l
      else (k', v') :: al_insert k v rest
  end.

(** [std::map::insert]: an existing entry is kept *)
Definition al_insert_new {A : Type} (k : Z) (v : A) (l : list (Z * A)) : list (Z * A) :=
  match al_lookup k l with Some _ => l | None => al_insert k v l end.

(** [erase] *)
Definition al_erase {A : Type} (k : Z) (l : list (Z * A)) : list (Z * A) :=
  remove_first (fun e => fst e =? k) l.


Section AssocList.
Context {A : Type}.
Implicit Types l : list (Z * A).

Lemma al_lookup_insert k k' v l :
  al_lookup k' (al_insert k v l) = if k' =? k then Some v else al_lookup k' l.
Proof.
  induction l as [|[j w] l IH]; simpl; [done|].
  destruct (k =? j) eqn:Ekj; to_prop; [subst; simpl; by destruct (k' =? j)|].
  destruct (k <? j); simpl; [done|]. rewrite IH.
  destruct (k' =? j) eqn:E1, (k' =? k) eqn:E2; to_prop; auto; lia.
Qed.

Lemma al_lookup_elem k v l : al_lookup k l = Some v -> (k, v) ∈ l.
Proof.
  induction l as [|[j w] l IH]; simpl; [done|]. destruct (k =? j) eqn:E; to_prop; [|set_solver].
  intros [= ->]. subst. set_solver.
Qed.

Lemma al_insert_keys k v v0 l :
  StronglySorted Z.lt (map fst l) -> al_lookup k l = Some v0 ->
  map fst (al_insert k v l) = map fst l.
Proof.
  induction l as [|[j w] l IH]; simpl; [done|]. intros S. inversion_clear S as [|? ? S' F].
  destruct (k =? j) eqn:E; to_prop; [intros _; simpl; by subst|]. intros H.
  apply al_lookup_elem in H as Hin.
  assert (j < k) by (rewrite Forall_forall in F; apply F, list_elem_of_fmap; by exists (k, v0)).
  replace (k <? j) with false by (symmetry; apply Z.ltb_ge; lia). simpl. by rewrite IH.
Qed.

Lemma al_insert_elem k v l i w : (i, w) ∈ al_insert k v l -> i = k \/ (i, w) ∈ l.
Proof.
  induction l as [|[j u] l IH]; simpl; [rewrite list_elem_of_singleton; intros [= ->]; auto|].
  destruct (k =? j); [|destruct (k <? j)]; rewrite !elem_of_cons; naive_solver.
Qed.

Lemma al_insert_sorted k v l :
  StronglySorted Z.lt (map fst l) -> StronglySorted Z.lt (map fst (al_insert k v l)).
Proof.
  induction l as [|[j w] l IH]; simpl; intros S; [repeat constructor|].
  inversion_clear S as [|? ? S' F]. destruct (k =? j) eqn:E; to_prop; [subst; by constructor|].
  destruct (k <? j) eqn:E'; to_prop; simpl.
  - repeat constructor; auto. eapply Forall_impl; [exact F | simpl; lia].
  - constructor; [auto|]. rewrite Forall_forall in *. intros i Hi.
    apply list_elem_of_fmap in Hi as [[i' v'] [-> Hi]]. simpl.
    destruct (al_insert_elem _ _ _ _ _ Hi) as [->|Hk]; [lia|].
    apply F, list_elem_of_fmap. by exists (i', v').
Qed.

Lemma al_lookup_key k l : k ∈ map fst l <-> is_Some (al_lookup k l).
Proof.
  induction l as [|[j w] l IH]; simpl; [split; [set_solver | by intros [? ?]]|].
  rewrite elem_of_cons, IH. destruct (k =? j) eqn:E; to_prop; [split; eauto|].
  split; [intros [?|?]; done | auto].
Qed.

(** a quantity summed over the values *)
Definition al_sum (f : A -> nat) l : nat := list_sum (map (fun e => f (snd e)) l).

Lemma al_sum_insert f k v v0 l :
  StronglySorted Z.lt (map fst l) -> al_lookup k l = Some v0 ->
  (al_sum f (al_insert k v l) + f v0 = al_sum f l + f v)%nat.
Proof.
  unfold al_sum. induction l as [|[j w] l IH]; simpl; [done|]. intros S. inversion_clear S as [|? ? S' F].
  destruct (k =? j) eqn:E; to_prop; [intros [= ->]; simpl; lia|]. intros H.
  apply al_lookup_elem in H as Hin.
  assert (j < k) by (rewrite Forall_forall in F; apply F, list_elem_of_fmap; by exists (k, v0)).
  replace (k <? j) with false by (symmetry; apply Z.ltb_ge; lia). simpl. specialize (IH S' H). lia.
Qed.

Lemma al_insert_twice k v v' l : al_insert k v (al_insert k v' l) = al_insert k v l.
Proof.
  induction l as [|[j w] l IH]; simpl; [by rewrite Z.eqb_refl|].
  destruct (k =? j) eqn:E; simpl; [by rewrite Z.eqb_refl|].
  destruct (k <? j) eqn:E'; simpl; [by rewrite Z.eqb_refl|]. by rewrite E, E', IH.
Qed.

Lemma al_insert_length k v l :
  al_lookup k l = None -> length (al_insert k v l) = S (length l).
Proof.
  induction l as [|[j w] l IH]; simpl; [done|]. destruct (k =? j); [done|]. intros H.
  destruct (k <? j); [done|]. simpl. by rewrite IH.
Qed.

Lemma al_insert_new_lookup k k' v l :
  al_lookup k' (al_insert_new k v l) =
    match al_lookup k' l with Some w => Some w | None => if k' =? k then Some v else None end.
Proof.
  unfold al_insert_new. destruct (al_lookup k l) as [w|] eqn:E.
  - destruct (al_lookup k' l) eqn:E'; [done|]. destruct (k' =? k) eqn:Ek; to_prop; congruence.
  - rewrite al_lookup_insert. destruct (k' =? k) eqn:Ek; to_prop.
    + by rewrite Ek, E.
    + by destruct (al_lookup k' l).
Qed.

Lemma al_insert_new_sorted k v l :
  StronglySorted Z.lt (map fst l) -> StronglySorted Z.lt (map fst (al_insert_new k v l)).
Proof. unfold al_insert_new. destruct (al_lookup k l); [done | apply al_insert_sorted]. Qed.

Lemma al_insert_new_nonempty k v l : al_insert_new k v l <> [].
Proof.
  unfold al_insert_new. destruct (al_lookup k l) as [w|] eqn:E.
  - intros ->. done.
  - intros H. apply (f_equal length) in H. by rewrite al_insert_length in H.
Qed.

Lemma al_sorted_lookup k v l :
  StronglySorted Z.lt (map fst l) -> (k, v) ∈ l -> al_lookup k l = Some v.
Proof.
  induction l as [|[j w] l IH]; simpl; intros S H; [set_solver|]. inversion_clear S as [|? ? S' F].
  apply elem_of_cons in H as [[= -> ->]|H]; [by rewrite Z.eqb_refl|].
  assert (j < k) by (rewrite Forall_forall in F; apply F, list_elem_of_fmap; by exists (k, v)).
  replace (k =? j) with false by (symmetry; apply Z.eqb_neq; lia). auto.
Qed.

End AssocList.

(** ** Dense keys *)

Lemma sorted_length (l : list Z) : forall a b,
  StronglySorted Z.lt l -> Forall (fun z => a <= z < b) l -> a <= b -> Z.of_nat (length l) <= b - a.
Proof.
  induction l as [|x l IH]; intros a b S F Hab; cbn [length]; [lia|].
  inversion_clear S as [|? ? S' Fx]. apply Forall_cons in F as [Hx F].
  assert (H : Z.of_nat (length l) <= b - (x + 1)); [|lia].
  apply IH; [done | | lia]. rewrite Forall_forall in *. intros z Hz.
  specialize (F z Hz). specialize (Fx z Hz). lia.
Qed.

(** A strictly increasing list of integers from an interval of its own length
    is that interval. *)
Lemma sorted_dense (l : list Z) : forall a,
  StronglySorted Z.lt l -> Forall (fun z => a <= z < a + Z.of_nat (length l)) l ->
  l = map (fun i => a + Z.of_nat i) (seq 0 (length l)).
Proof.
  induction l as [|x l IH]; intros a S F; [done|]. inversion_clear S as [|? ? S' Fx].
  apply Forall_cons in F as [Hx F]. cbn [length] in *.
  assert (F' : Forall (fun z => x + 1 <= z < a + Z.of_nat (S (length l))) l).
  { rewrite Forall_forall in *. intros z Hz. specialize (F z Hz). specialize (Fx z Hz). lia. }
  pose proof (sorted_length l (x + 1) _ S' F' ltac:(lia)) as Hlen.
  assert (x = a) by lia. subst x. simpl. f_equal; [lia|]. rewrite <- seq_shift, map_map.
  rewrite (IH (a + 1) S') at 1.
  - apply map_ext. intros i. lia.
  - eapply Forall_impl; [exact F' | simpl; lia].
Qed.

Lemma al_erase_lookup {A} k k' (l : list (Z * A)) : StronglySorted Z.lt (map fst l) -> al_lookup k' (al_erase k l) = if k' =? k then None else al_lookup k' l.
Proof.
  unfold al_erase. induction l as [|[j v] l IH]; cbn [map fst remove_first al_lookup]; [by destruct (k' =? k)|]. intros [Hs Hf]%StronglySorted_inv. destruct (j =? k) eqn:E; to_prop.
  - subst j. destruct (k' =? k) eqn:E'; to_prop; [|done]. subst k'. destruct (al_lookup k l) as [w|] eqn:El; [|done]. exfalso.
    rewrite Forall_forall in Hf. pose proof (Hf k (proj2 (al_lookup_key k l) (mk_is_Some _ _ El))). lia.
  - cbn [al_lookup]. rewrite (IH Hs). destruct (k' =? j) eqn:E1, (k' =? k) eqn:E2; to_prop; auto; congruence.
Qed.

Lemma al_erase_sorted {A} k (l : list (Z * A)) : StronglySorted Z.lt (map fst l) -> StronglySorted Z.lt (map fst (al_erase k l)).
Proof.
  unfold al_erase. induction l as [|[j v] l IH]; cbn [map fst remove_first]; [done|]. intros [Hs Hf]%StronglySorted_inv. destruct (j =? k); [done|]. cbn [map fst]. constructor; [by apply IH|].
  rewrite Forall_forall in *. intros x Hx. apply Hf. apply list_elem_of_fmap in Hx as (y & -> & Hy). apply list_elem_of_fmap. exists y. split; [done|]. by apply remove_first_elem_of in Hy.
Qed.
