(* ===== verification/HexCodec.v ===== *)
(** * util/binary.h: hexadecimal encoding of byte strings *)

From S2P Require Import Prelude.

(** The character written for a nibble ([char0_9_to_number] = 48,
    [charA_F_to_number] = 55, [chara_f_to_number] = 87). *)
Definition nibble_char (upper_case : bool) (n : Z) : Z :=
  if (0 <=? n) && (n <=? 9) then n + 48
  else n + (if upper_case then 55 else 87).

Fixpoint hex_encode_up (upper_case : bool) (inp : bytes) : bytes :=
  match inp with
  | [] => []
  | c :: rest =>
      let msn := Z.land (Z.shiftr c 4) 15 in
      let lsn := Z.land c 15 in
      nibble_char upper_case msn :: nibble_char upper_case lsn :: hex_encode_up upper_case rest
  end.

Definition hex_encode (inp : bytes) : bytes := hex_encode_up false inp.

(** The nibble a character stands for; characters that are not hexadecimal
    digits leave the (zero) output nibble unchanged. *)
Definition char_nibble (c : Z) : Z :=
  if (48 <=? c) && (c <=? 57) then Z.land (c - 48) 15
  else if (65 <=? c) && (c <=? 70) then Z.land (c - 55) 15
  else if (97 <=? c) && (c <=? 102) then Z.land (c - 87) 15
  else 0.

Fixpoint hex_decode_even (inp : bytes) : bytes :=
  match inp with
  | hi :: lo :: rest =>
      Z.lor (Z.lor 0 (Z.shiftl (char_nibble hi) 4)) (char_nibble lo) :: hex_decode_even rest
  | _ => []
  end.

(** An odd number of characters is read as if a zero nibble preceded it. *)
Definition hex_decode (inp : bytes) : bytes :=
  if Nat.odd (length inp) then
    match inp with
    | lo :: rest => char_nibble lo :: hex_decode_even rest
    | [] => []
    end
  else hex_decode_even inp.

(** ** Nibbles and characters *)

Lemma nibble_char_range u n :
  0 <= n < 16 -> 0 <= nibble_char u n < 256.
Proof. intros H. unfold nibble_char. repeat split_if; to_prop; lia. Qed.

Lemma char_nibble_char u n : 0 <= n < 16 -> char_nibble (nibble_char u n) = n.
Proof.
  intros H. apply Z.eqb_eq. destruct u.
  - apply (Z_range_forall 16 (fun n => char_nibble (nibble_char true n) =? n)); [reflexivity | lia].
  - apply (Z_range_forall 16 (fun n => char_nibble (nibble_char false n) =? n)); [reflexivity | lia].
Qed.

Lemma byte_nibbles c :
  is_byte c ->
  0 <= Z.land (Z.shiftr c 4) 15 < 16 /\ 0 <= Z.land c 15 < 16 /\
  Z.lor (Z.lor 0 (Z.shiftl (Z.land (Z.shiftr c 4) 15) 4)) (Z.land c 15) = c.
Proof.
  intros H.
  assert (E : ((0 <=? Z.land (Z.shiftr c 4) 15) && (Z.land (Z.shiftr c 4) 15 <? 16)
     && ((0 <=? Z.land c 15) && (Z.land c 15 <? 16))
     && (Z.lor (Z.lor 0 (Z.shiftl (Z.land (Z.shiftr c 4) 15) 4)) (Z.land c 15) =? c)) = true).
  { apply (Z_range_forall 256 (fun c => (0 <=? Z.land (Z.shiftr c 4) 15) && (Z.land (Z.shiftr c 4) 15 <? 16)
     && ((0 <=? Z.land c 15) && (Z.land c 15 <? 16))
     && (Z.lor (Z.lor 0 (Z.shiftl (Z.land (Z.shiftr c 4) 15) 4)) (Z.land c 15) =? c)));
    [vm_compute; reflexivity | exact H]. }
  to_prop. lia.
Qed.

Lemma length_hex_encode_up u s : length (hex_encode_up u s) = (2 * length s)%nat.
Proof. induction s as [|c s IH]; simpl; [done | rewrite IH; lia]. Qed.

Lemma hex_encode_up_wf u s : wf_bytes s -> wf_bytes (hex_encode_up u s).
Proof.
  induction 1 as [|c s Hc _ IH]; [constructor|]. simpl.
  destruct (byte_nibbles c Hc) as (? & ? & _).
  repeat constructor; try apply nibble_char_range; auto.
Qed.

Lemma hex_encode_up_digits u s c : c ∈ hex_encode_up u s -> 48 <= c.
Proof.
  assert (H : forall n, 0 <= Z.land n 15 -> 48 <= nibble_char u (Z.land n 15)).
  { intros n Hn. unfold nibble_char. repeat split_if; to_prop; lia. }
  induction s as [|x s IH]; cbn [hex_encode_up]; rewrite ?elem_of_cons, ?elem_of_nil; [done|].
  intros [-> | [-> | Hc]]; [apply H, Z.land_nonneg; lia.. | by apply IH].
Qed.

Lemma hex_encode_up_chars u s c : c ∈ hex_encode_up u s -> wf_bytes s -> 48 <= c <= 57 \/ 65 <= c <= 70 \/ 97 <= c <= 102.
Proof.
  assert (H : forall n, 0 <= n < 16 -> 48 <= nibble_char u n <= 57 \/ 65 <= nibble_char u n <= 70 \/ 97 <= nibble_char u n <= 102).
  { intros n Hn. unfold nibble_char. repeat split_if; to_prop; lia. }
  induction s as [|x s IH]; cbn [hex_encode_up]; rewrite ?elem_of_cons, ?elem_of_nil; [done|].
  intros Hc Hw. inversion_clear Hw as [|? ? Hx Hw']. destruct (byte_nibbles x Hx) as (H1 & H2 & _).
  destruct Hc as [-> | [-> | Hc]]; [by apply H.. | by apply IH].
Qed.

Lemma hex_encode_chars s c : c ∈ hex_encode s -> wf_bytes s -> 48 <= c <= 57 \/ 97 <= c <= 102.
Proof.
  assert (H : forall n, 0 <= n < 16 -> 48 <= nibble_char false n <= 57 \/ 97 <= nibble_char false n <= 102).
  { intros n Hn. unfold nibble_char. repeat split_if; to_prop; try lia; done. }
  unfold hex_encode. induction s as [|x s IH]; cbn [hex_encode_up]; rewrite ?elem_of_cons, ?elem_of_nil; [done|].
  intros Hc Hw. inversion_clear Hw as [|? ? Hx Hw']. destruct (byte_nibbles x Hx) as (H1 & H2 & _).
  destruct Hc as [-> | [-> | Hc]]; [by apply H.. | by apply IH].
Qed.

Lemma hex_decode_even_encode u s :
  wf_bytes s -> hex_decode_even (hex_encode_up u s) = s.
Proof.
  induction 1 as [|c s Hc _ IH]; [done|].
  destruct (byte_nibbles c Hc) as (H1 & H2 & H3).
  cbn [hex_encode_up hex_decode_even].
  rewrite !char_nibble_char, H3, IH by lia. done.
Qed.

Lemma hex_decode_even_length s : Nat.odd (length s) = false -> hex_decode s = hex_decode_even s.
Proof. intros H. unfold hex_decode. rewrite H. done. Qed.

(** Decoding the hexadecimal form of a byte string, in either letter case, returns the string,
    and the form has two characters per byte. *)
Lemma hex_decode_encode (u : bool) (s : bytes) :
  wf_bytes s ->
  hex_decode (hex_encode_up u s) = s /\ length (hex_encode_up u s) = (2 * length s)%nat.
Proof.
  intros H. split; [|apply length_hex_encode_up].
  rewrite hex_decode_even_length.
  - apply hex_decode_even_encode, H.
  - rewrite length_hex_encode_up. apply Nat.odd_even.
Qed.

Lemma hex_roundtrip s : wf_bytes s -> hex_decode (hex_encode s) = s.
Proof. intros H. apply (hex_decode_encode false s H). Qed.

(** ** Decoding is the left inverse on every string of lower-case digits *)

Definition is_hex_lower (c : Z) : bool :=
  ((48 <=? c) && (c <=? 57)) || ((97 <=? c) && (c <=? 102)).

Lemma nibble_char_nibble c :
  is_hex_lower c = true ->
  nibble_char false (char_nibble c) = c /\ 0 <= char_nibble c < 16.
Proof.
  intros H. assert (Hc : 0 <= c < Z.of_nat 256).
  { unfold is_hex_lower in H. apply orb_true_iff in H as [H|H]; to_prop; lia. }
  assert (E : (negb (is_hex_lower c) || ((nibble_char false (char_nibble c) =? c)
      && ((0 <=? char_nibble c) && (char_nibble c <? 16)))) = true).
  { apply (Z_range_forall 256 (fun c => negb (is_hex_lower c) || ((nibble_char false (char_nibble c) =? c)
      && ((0 <=? char_nibble c) && (char_nibble c <? 16))))); [vm_compute; reflexivity | exact Hc]. }
  rewrite H in E. simpl in E. to_prop. lia.
Qed.

Lemma nibbles_byte h l :
  0 <= h < 16 -> 0 <= l < 16 ->
  Z.lor (Z.lor 0 (Z.shiftl h 4)) l = 16 * h + l /\
  Z.land (Z.shiftr (16 * h + l) 4) 15 = h /\ Z.land (16 * h + l) 15 = l.
Proof.
  intros Hh Hl.
  assert (E : forall k, 0 <= k < Z.of_nat 256 ->
    ((Z.lor (Z.lor 0 (Z.shiftl (k / 16) 4)) (k mod 16) =? k)
     && ((Z.land (Z.shiftr k 4) 15 =? k / 16) && (Z.land k 15 =? k mod 16))) = true)
    by (apply Z_range_forall; vm_compute; reflexivity).
  specialize (E (16 * h + l) ltac:(lia)).
  destruct (digit_div_mod 16 l h Hl) as [Em Ed].
  replace (16 * h + l) with (l + 16 * h) in * by lia. rewrite Em, Ed in E. to_prop. lia.
Qed.

(** The other way round, for lower case digits. *)
Lemma hex_encode_decode (h : bytes) :
  forallb is_hex_lower h = true -> Nat.even (length h) = true ->
  hex_encode (hex_decode h) = h.
Proof.
  intros Hh He. rewrite hex_decode_even_length
    by (rewrite <- Nat.negb_even, He; reflexivity).
  assert (Hlen : exists n, length h = (n + n)%nat).
  { apply Nat.even_spec in He as [n Hn]. exists n. lia. }
  destruct Hlen as [n Hn]. revert h Hn Hh He. induction n as [|n IH]; intros h Hn Hh He.
  - destruct h; [done | simpl in Hn; lia].
  - destruct h as [|a [|b h]]; simpl in Hn; try lia.
    cbn [forallb] in Hh. to_prop.
    destruct (nibble_char_nibble a) as [Ha Ra]; [done|].
    destruct (nibble_char_nibble b) as [Hb Rb]; [done|].
    unfold hex_encode. cbn [hex_decode_even hex_encode_up].
    destruct (nibbles_byte (char_nibble a) (char_nibble b) Ra Rb) as (E1 & E2 & E3).
    rewrite E1, E2, E3, Ha, Hb. do 2 f_equal. apply IH; auto. lia.
Qed.

Example hex_encode_decode_tom : hex_encode (hex_decode (B "544f4d")) = B "544f4d".
Proof. apply hex_encode_decode; reflexivity. Qed.
