(* ===== verification/BaseConvert.v ===== *)
(** * util/base_convert.h: change of base of a little-endian digit string

    The GMP integer of the source is a [Z]; the two loops of [base_convert]
    are [bc_read] (most significant digit first, counting leading zeros) and
    [bc_write] (repeated division). *)

From S2P Require Import Prelude.

(** State of the reading loop: [base10], [ms_zeros], [non_zero_byte]. The list
    is the source from its last character down to index 0, so the last element
    is the one with [i = 0], after which no multiplication happens. *)
Fixpoint bc_read (source_base : Z) (rsource : bytes) (base10 : Z) (ms_zeros : nat)
    (non_zero_byte : bool) : Z * nat :=
  match rsource with
  | [] => (base10, ms_zeros)
  | c :: rest =>
      let byte := Z.land 255 c in
      let base10 := base10 + byte in
      let base10 := match rest with [] => base10 | _ => base10 * source_base end in
      if (byte =? 0) && negb non_zero_byte
      then bc_read source_base rest base10 (S ms_zeros) non_zero_byte
      else bc_read source_base rest base10 ms_zeros true
  end.

(** The writing loop, with one unit of fuel per iteration. *)
Fixpoint bc_write (fuel : nat) (sink_base : Z) (base10 : Z) : bytes :=
  match fuel with
  | O => []
  | S fuel =>
      if base10 =? 0 then []
      else Z.land 255 (base10 mod sink_base) :: bc_write fuel sink_base (base10 / sink_base)
  end.

(** Each iteration at least halves [base10]: the number of its bits is enough fuel. *)
Definition bc_fuel (base10 : Z) : nat := S (Z.to_nat (Z.log2 base10)).

Definition base_convert (source : bytes) (source_base sink_base : Z) : bytes :=
  let '(base10, ms_zeros) := bc_read source_base (rev source) 0 0 false in
  bc_write (bc_fuel base10) sink_base base10 ++ repeat 0 ms_zeros.

(** ** Specification: positional value and canonical digits *)

Fixpoint value (b : Z) (s : bytes) : Z :=
  match s with
  | [] => 0
  | d :: s => d + b * value b s
  end.

Definition digits_of (b : Z) (s : bytes) : Prop := Forall (fun d => 0 <= d < b) s.

(** no zero in the most significant (last) position *)
Definition canonical (s : bytes) : Prop := last s <> Some 0.

Lemma land255 d b : 0 <= d < b -> b <= 256 -> Z.land 255 d = d.
Proof.
  intros. rewrite Z.land_comm. change 255 with (Z.ones 8).
  rewrite Z.land_ones by lia. apply Z.mod_small. lia.
Qed.

Lemma value_app b s t : value b (s ++ t) = value b s + b ^ Z.of_nat (length s) * value b t.
Proof.
  induction s as [|d s IH]; simpl length; simpl.
  - rewrite Z.pow_0_r. lia.
  - rewrite IH. rewrite Nat2Z.inj_succ, Z.pow_succ_r by lia. ring.
Qed.

Lemma value_zeros b n : value b (repeat 0 n) = 0.
Proof. induction n as [|n IH]; simpl; [done | rewrite IH; lia]. Qed.

Lemma value_nonneg b s : 0 <= b -> digits_of b s -> 0 <= value b s.
Proof. intros Hb. induction 1; simpl; nia. Qed.

Lemma value_pos b s : 0 < b -> digits_of b s -> canonical s -> s <> [] -> 0 < value b s.
Proof.
  intros Hb. induction 1 as [|d s Hd Hs IH]; intros Hc Hn; [done|].
  destruct s as [|d' s].
  - simpl. unfold canonical in Hc. simpl in Hc. assert (d <> 0) by congruence. lia.
  - assert (0 < value b (d' :: s)) by (apply IH; [exact Hc | done]).
    change (value b (d :: d' :: s)) with (d + b * value b (d' :: s)). nia.
Qed.

(** ** The reading loop *)

Lemma bc_read_app b s : forall base10 z,
  digits_of b s -> b <= 256 ->
  bc_read b (rev s) base10 z true = (if decide (s = []) then base10 else
     base10 * b ^ Z.of_nat (pred (length s)) + value b s, z).
Proof.
  induction s as [|d s IH] using rev_ind; intros base10 z Hd Hb; [done|].
  apply Forall_app in Hd as [Hs Hd]. inversion_clear Hd as [|? ? Hd0 _].
  rewrite rev_app_distr. cbn [rev app bc_read]. rewrite (land255 d b) by done.
  rewrite andb_false_r.
  destruct (decide (s ++ [d] = [])) as [E|_]; [destruct s; discriminate E|].
  rewrite length_app, Nat.add_comm, value_app. simpl value. simpl pred.
  destruct (decide (s = [])) as [->|Hne].
  - simpl. rewrite Z.pow_0_r. f_equal. lia.
  - destruct (rev s) as [|x r] eqn:E.
    { apply (f_equal (@length Z)) in E. rewrite length_rev in E. destruct s; simpl in *; [done|lia]. }
    rewrite IH by done.
    f_equal. destruct (length s) as [|n] eqn:L; [destruct s; simpl in L; [done|lia]|].
    simpl pred. rewrite Nat2Z.inj_succ, Z.pow_succ_r by lia. ring.
Qed.

Lemma bc_read_zeros b n : forall s z,
  bc_read b (repeat 0 n ++ s) 0 z false = bc_read b s 0 (n + z) false.
Proof.
  induction n as [|n IH]; intros s z; [done|].
  cbn [repeat app bc_read]. rewrite Z.land_0_r. simpl (0 =? 0). cbn [andb negb].
  assert (E : (match repeat 0 n ++ s with [] => 0 + 0 | _ => (0 + 0) * b end) = 0)
    by (destruct (repeat 0 n ++ s); lia).
  rewrite E, IH. f_equal. lia.
Qed.

Lemma bc_read_canonical b s :
  digits_of b s -> b <= 256 -> canonical s ->
  bc_read b (rev s) 0 0 false = (value b s, O).
Proof.
  intros Hs Hb Hc. destruct s as [|d s _] using rev_ind; [done|].
  pose proof Hs as Hs'. apply Forall_app in Hs' as [Hs0 Hd]. inversion_clear Hd as [|? ? Hd0 _].
  assert (Hd1 : d <> 0). { unfold canonical in Hc. rewrite last_snoc in Hc. congruence. }
  pose proof (bc_read_app b (s ++ [d]) 0 0 Hs Hb) as H.
  destruct (decide (s ++ [d] = [])) as [E|_]; [destruct s; discriminate E|].
  rewrite rev_app_distr in *. cbn [rev app bc_read] in *. rewrite (land255 d b) in * by done.
  destruct (d =? 0) eqn:E; to_prop; [done|]. cbn [andb] in *. rewrite H. f_equal; lia.
Qed.

(** ** The writing loop *)

Lemma bc_write_value b : forall fuel v,
  2 <= b <= 256 -> 0 <= v < 2 ^ Z.of_nat fuel ->
  value b (bc_write fuel b v) = v /\ digits_of b (bc_write fuel b v)
  /\ canonical (bc_write fuel b v).
Proof.
  induction fuel as [|fuel IH]; intros v Hb Hv.
  - simpl in *. replace v with 0 by lia. repeat split; [constructor | done].
  - cbn [bc_write]. destruct (v =? 0) eqn:E; to_prop.
    + subst. repeat split; [constructor | done].
    + rewrite Nat2Z.inj_succ, Z.pow_succ_r in Hv by lia.
      assert (Hq : 0 <= v / b < 2 ^ Z.of_nat fuel).
      { split; [apply Z.div_pos; lia|]. apply Z.div_lt_upper_bound; nia. }
      pose proof (Z.mod_pos_bound v b ltac:(lia)) as Hm.
      destruct (IH (v / b) Hb Hq) as (I1 & I2 & I3).
      rewrite (land255 _ b) by lia. repeat split.
      * simpl. rewrite I1. pose proof (Z.div_mod v b ltac:(lia)). lia.
      * constructor; [lia | done].
      * unfold canonical in *. destruct (bc_write fuel b (v / b)) as [|x l] eqn:L; [|exact I3].
        simpl in I1. simpl. pose proof (Z.div_mod v b ltac:(lia)). intros [= H0]. nia.
Qed.

Lemma bc_fuel_enough v : 0 <= v -> v < 2 ^ Z.of_nat (bc_fuel v).
Proof.
  intros H. unfold bc_fuel. rewrite Nat2Z.inj_succ, Z2Nat.id by apply Z.log2_nonneg.
  destruct (Z.eq_dec v 0) as [->|]; [reflexivity|]. apply Z.log2_spec. lia.
Qed.

(** A canonical digit string is determined by its value. *)
Lemma value_inj b s : forall t,
  0 < b -> digits_of b s -> digits_of b t -> canonical s -> canonical t ->
  value b s = value b t -> s = t.
Proof.
  induction s as [|d s IH]; intros t Hb Hs Ht Cs Ct E.
  - destruct t as [|e t]; [done|]. pose proof (value_pos b (e :: t) Hb Ht Ct ltac:(done)). simpl in *. lia.
  - destruct t as [|e t].
    + pose proof (value_pos b (d :: s) Hb Hs Cs ltac:(done)). simpl in *. lia.
    + inversion_clear Hs as [|? ? Hd Hs']. inversion_clear Ht as [|? ? He Ht'].
      simpl in E. destruct (digit_div_mod b d (value b s) Hd) as [M1 D1].
      destruct (digit_div_mod b e (value b t) He) as [M2 D2]. rewrite E in M1, D1.
      assert (tail_can : forall x l, canonical (x :: l) -> canonical l).
      { intros x [|y l] H; [done | exact H]. }
      f_equal; [congruence|]. apply IH; eauto; congruence.
Qed.

(** ** Splitting off the most significant zeros *)

Lemma split_zeros b s : digits_of b s ->
  exists core n, s = core ++ repeat 0 n /\ canonical core /\ digits_of b core.
Proof.
  induction s as [|d s IH] using rev_ind; intros H.
  - exists [], O. repeat split; [done | constructor].
  - pose proof H as H'. apply Forall_app in H' as [Hs Hd]. destruct (decide (d = 0)) as [->|Hd0].
    + destruct (IH Hs) as (core & n & -> & C & D). exists core, (S n). repeat split; auto.
      rewrite <- app_assoc. f_equal. clear. induction n as [|n IHn]; [done|]. simpl. f_equal. exact IHn.
    + exists (s ++ [d]), O. rewrite app_nil_r. repeat split; auto.
      unfold canonical. rewrite last_snoc. congruence.
Qed.

(** The count of leading zeros only accumulates. *)
Lemma bc_read_shift b r : forall v z k,
  bc_read b r v z false
    = (fst (bc_read b r v 0 false), (snd (bc_read b r v 0 false) + z)%nat)
  /\ bc_read b r v (k + z) true
    = (fst (bc_read b r v k true), (snd (bc_read b r v k true) + z)%nat).
Proof.
  induction r as [|c r IH]; intros v z k; [simpl; split; f_equal; lia|].
  split; cbn [bc_read].
  - destruct (_ && _).
    + rewrite (proj1 (IH _ (S z) 0%nat)), (proj1 (IH _ 1%nat 0%nat)). simpl. f_equal. lia.
    + apply (proj2 (IH _ z 0%nat)).
  - rewrite andb_false_r. apply (proj2 (IH _ z k)).
Qed.

Lemma base_convert_split b1 b2 core n :
  2 <= b1 <= 256 -> digits_of b1 core -> canonical core ->
  base_convert (core ++ repeat 0 n) b1 b2
  = bc_write (bc_fuel (value b1 core)) b2 (value b1 core) ++ repeat 0 n.
Proof.
  intros Hb D C. unfold base_convert. rewrite rev_app_distr, rev_repeat, bc_read_zeros.
  rewrite (proj1 (bc_read_shift b1 _ _ _ 0)), (bc_read_canonical b1 core D ltac:(lia) C). simpl.
  rewrite Nat.add_0_r. done.
Qed.

Lemma base_convert_digits s b1 b2 :
  2 <= b1 <= 256 -> 2 <= b2 <= 256 -> digits_of b1 s -> digits_of b2 (base_convert s b1 b2).
Proof.
  intros H1 H2 D. destruct (split_zeros b1 s D) as (core & n & -> & C & Dc).
  rewrite base_convert_split by done.
  pose proof (value_nonneg b1 core ltac:(lia) Dc) as Hv.
  destruct (bc_write_value b2 (bc_fuel (value b1 core)) (value b1 core) H2) as (_ & W & _).
  { split; [done | apply bc_fuel_enough, Hv]. }
  apply Forall_app. split; [exact W|]. apply Forall_forall.
  intros x Hx. apply list_elem_of_In, repeat_spec in Hx. lia.
Qed.

Lemma base_convert_value s b1 b2 :
  2 <= b1 <= 256 -> 2 <= b2 <= 256 -> digits_of b1 s ->
  value b2 (base_convert s b1 b2) = value b1 s.
Proof.
  intros H1 H2 D. destruct (split_zeros b1 s D) as (core & n & -> & C & Dc).
  rewrite base_convert_split by done. rewrite !value_app, !value_zeros, !Z.mul_0_r, !Z.add_0_r.
  pose proof (value_nonneg b1 core ltac:(lia) Dc) as Hv.
  apply bc_write_value; [done | split; [done | apply bc_fuel_enough, Hv]].
Qed.

Lemma base_convert_inverse s b1 b2 :
  2 <= b1 <= 256 -> 2 <= b2 <= 256 -> digits_of b1 s ->
  base_convert (base_convert s b1 b2) b2 b1 = s.
Proof.
  intros H1 H2 D. destruct (split_zeros b1 s D) as (core & n & -> & C & Dc).
  rewrite base_convert_split by done.
  pose proof (value_nonneg b1 core ltac:(lia) Dc) as Hv.
  destruct (bc_write_value b2 (bc_fuel (value b1 core)) (value b1 core) H2) as (V & W & K).
  { split; [done | apply bc_fuel_enough, Hv]. }
  rewrite base_convert_split by done. rewrite V. f_equal.
  destruct (bc_write_value b1 (bc_fuel (value b1 core)) (value b1 core) H1) as (V' & W' & K').
  { split; [done | apply bc_fuel_enough, Hv]. }
  apply (value_inj b1); auto. lia.
Qed.

(** Between any two bases from 2 to 256 the conversion of a digit string yields digits of the
    new base with the same value, and converting back restores the string, most significant zeros
    included. *)
Lemma base_convert_roundtrip (s : bytes) (b1 b2 : Z) :
  2 <= b1 <= 256 -> 2 <= b2 <= 256 -> digits_of b1 s ->
  digits_of b2 (base_convert s b1 b2)
  /\ value b2 (base_convert s b1 b2) = value b1 s
  /\ base_convert (base_convert s b1 b2) b2 b1 = s.
Proof.
  intros. auto using base_convert_digits, base_convert_value, base_convert_inverse.
Qed.

Example base_convert_roundtrip_witness :
  base_convert (base_convert [7; 255; 13; 0; 0] 256 252) 252 256 = [7; 255; 13; 0; 0].
Proof.
  apply (base_convert_roundtrip [7; 255; 13; 0; 0] 256 252); [lia | lia |].
  repeat constructor; lia.
Qed.
