(* ===== verification/Rudics.v ===== *)
(** * acomms/modemdriver/rudics_packet.{h,cpp}: framing of packets on a RUDICS line

    A packet is followed by its CRC32, rewritten in base [256 - |reserved|] so
    that |reserved| byte values are free, and terminated by a carriage return.
    The CRC of boost is a parameter. *)

From S2P Require Import Prelude BaseConvert.

Inductive RudicsPacketException : Type :=
| PacketTooShortForCR
| PacketTooShortForCRC32
| BadCRC32.

(** [htonl] followed by reading the four bytes of the union *)
Definition uint32_to_byte_string (i : Z) : bytes :=
  [Z.land (Z.shiftr i 24) 255; Z.land (Z.shiftr i 16) 255;
   Z.land (Z.shiftr i 8) 255; Z.land i 255].

(** [memcpy] of four bytes followed by [ntohl] *)
Definition byte_string_to_uint32 (s : bytes) : Z :=
  match s with
  | a :: b :: c :: d :: _ =>
      Z.lor (Z.shiftl a 24) (Z.lor (Z.shiftl b 16) (Z.lor (Z.shiftl c 8) d))
  | _ => 0
  end.

(** [std::replace] *)
Definition replace (old new : Z) (s : bytes) : bytes :=
  map (fun c => if c =? old then new else c) s.

(** the default value of [reserved] *)
Definition default_reserved : bytes := [0; 13; 10; 255].

(** step 3 of [serialize_rudics_packet], for the indices from [i] on *)
Fixpoint escape_from (reduced_base i : Z) (reserved : bytes) (pkt : bytes) : bytes :=
  match reserved with
  | [] => pkt
  | r :: reserved =>
      escape_from reduced_base (i + 1) reserved (replace r (u8 (reduced_base + i)) pkt)
  end.

(** step 3 of [parse_rudics_packet] *)
Fixpoint unescape_from (reduced_base i : Z) (reserved : bytes) (pkt : bytes) : bytes :=
  match reserved with
  | [] => pkt
  | r :: reserved =>
      unescape_from reduced_base (i + 1) reserved (replace (u8 (reduced_base + i)) r pkt)
  end.

Section Rudics.
(** [boost::crc_32_type] over a byte string *)
Variable crc32 : bytes -> Z.

Definition serialize_rudics_packet (bs reserved : bytes) (include_crc : bool) : bytes :=
  let bs := if include_crc then bs ++ uint32_to_byte_string (crc32 bs) else bs in
  let reduced_base := 256 - Z.of_nat (length reserved) in
  let rudics_pkt := base_convert bs 256 reduced_base in
  escape_from reduced_base 0 reserved rudics_pkt ++ [13].

Definition parse_rudics_packet (rudics_pkt reserved : bytes) (include_crc : bool)
  : result RudicsPacketException bytes :=
  if (length rudics_pkt <? 1)%nat then Err PacketTooShortForCR
  else
    let rudics_pkt := take (length rudics_pkt - 1) rudics_pkt in
    let reduced_base := 256 - Z.of_nat (length reserved) in
    let rudics_pkt := List.filter (fun c => negb (bool_decide (c ∈ reserved))) rudics_pkt in
    let rudics_pkt := unescape_from reduced_base 0 reserved rudics_pkt in
    let bs := base_convert rudics_pkt reduced_base 256 in
    if include_crc then
      if (length bs <? 4)%nat then Err PacketTooShortForCRC32
      else
        let crc_str := drop (length bs - 4) bs in
        let given_crc := byte_string_to_uint32 crc_str in
        let bs := take (length bs - 4) bs in
        if given_crc =? crc32 bs then Ok bs else Err BadCRC32
    else Ok bs.

End Rudics.

(** ** The CRC bytes *)

Lemma land_255_mod x : 0 <= x -> Z.land x 255 = x mod 256.
Proof. intros. change 255 with (Z.ones 8). rewrite Z.land_ones by lia. done. Qed.

Lemma lor_shiftl_add a b n : 0 <= n -> 0 <= b < 2 ^ n -> Z.lor (Z.shiftl a n) b = a * 2 ^ n + b.
Proof.
  intros Hn Hb. rewrite <- Z.shiftl_mul_pow2 by lia. symmetry. apply Z.add_nocarry_lor.
  rewrite <- (Z.mod_small b (2 ^ n)), <- (Z.land_ones b n) by lia.
  rewrite (Z.land_comm b), Z.land_assoc, Z.land_ones, Z.shiftl_mul_pow2, Z.mod_mul, Z.land_0_l by lia.
  done.
Qed.

Lemma uint32_byte_string i :
  0 <= i < 2 ^ 32 -> byte_string_to_uint32 (uint32_to_byte_string i) = i.
Proof.
  intros H. unfold byte_string_to_uint32, uint32_to_byte_string.
  assert (Hs : forall n, 0 <= n -> 0 <= Z.shiftr i n) by (intros; apply Z.shiftr_nonneg; lia).
  rewrite !land_255_mod by auto with lia. rewrite !Z.shiftr_div_pow2 by lia.
  change (2 ^ 24) with (256 * 256 * 256). change (2 ^ 16) with (256 * 256). change (2 ^ 8) with 256.
  rewrite <- !Z.div_div by lia. set (a := i / 256). set (b := a / 256).
  assert (Hi : i = 256 * a + i mod 256) by (apply Z.div_mod; lia).
  assert (Ha : a = 256 * b + a mod 256) by (apply Z.div_mod; lia).
  assert (Hb : b = 256 * (b / 256) + b mod 256) by (apply Z.div_mod; lia).
  pose proof (Z.mod_pos_bound i 256 ltac:(lia)). pose proof (Z.mod_pos_bound a 256 ltac:(lia)).
  pose proof (Z.mod_pos_bound b 256 ltac:(lia)).
  rewrite (Z.mod_small (b / 256)) by lia.
  rewrite (lor_shiftl_add _ (i mod 256) 8) by lia.
  rewrite (lor_shiftl_add (b mod 256)) by lia.
  rewrite (lor_shiftl_add (b / 256)) by lia. lia.
Qed.

Lemma uint32_to_byte_string_wf i : wf_bytes (uint32_to_byte_string i).
Proof.
  repeat constructor; (apply Z.land_nonneg; lia) || idtac;
    (change 255 with (Z.ones 8); rewrite Z.land_ones by lia; apply Z.mod_pos_bound; lia).
Qed.

(** ** Escaping *)

Section Escaping.
Variable reserved : bytes.
Let rb : Z := 256 - Z.of_nat (length reserved).

(** What the scheme needs of [reserved]: distinct bytes, at least two left over
    as digits, and a reserved byte above the reduced base stands at its own index. *)
Definition wf_reserved : Prop :=
  NoDup reserved /\ wf_bytes reserved /\ 2 <= rb /\
  forall i r, reserved !! i = Some r -> r < rb \/ r = rb + Z.of_nat i.

Hypothesis Hres : wf_reserved.

(** what the replacements do to one character *)
Fixpoint esc1 (i : Z) (rs : bytes) (c : Z) : Z :=
  match rs with
  | [] => c
  | r :: rs => esc1 (i + 1) rs (if c =? r then u8 (rb + i) else c)
  end.

Fixpoint unesc1 (i : Z) (rs : bytes) (c : Z) : Z :=
  match rs with
  | [] => c
  | r :: rs => unesc1 (i + 1) rs (if c =? u8 (rb + i) then r else c)
  end.

Lemma escape_from_map rs : forall i s, escape_from rb i rs s = map (esc1 i rs) s.
Proof.
  induction rs as [|r rs IH]; intros i s; simpl; [symmetry; apply map_id|].
  rewrite IH. unfold replace. rewrite map_map. done.
Qed.

Lemma unescape_from_map rs : forall i s, unescape_from rb i rs s = map (unesc1 i rs) s.
Proof.
  induction rs as [|r rs IH]; intros i s; simpl; [symmetry; apply map_id|].
  rewrite IH. unfold replace. rewrite map_map. done.
Qed.

Lemma u8_code (i : nat) : (i < length reserved)%nat -> u8 (rb + Z.of_nat i) = rb + Z.of_nat i.
Proof. intros H. apply wrap_small. destruct Hres as (_ & _ & ? & _). unfold rb in *. lia. Qed.

(** [rs] is the suffix of [reserved] from index [i] *)
Definition suffix_at (i : nat) (rs : bytes) : Prop := drop i reserved = rs.

Lemma suffix_at_cons i r rs :
  suffix_at i (r :: rs) -> reserved !! i = Some r /\ suffix_at (S i) rs /\ (i < length reserved)%nat.
Proof.
  unfold suffix_at. intros H. assert (Hl : reserved !! i = Some r).
  { rewrite <- (Nat.add_0_r i), <- lookup_drop, H. done. }
  repeat split; [done | | eapply lookup_lt_Some, Hl].
  replace (S i) with (i + 1)%nat by lia. rewrite <- drop_drop, H. done.
Qed.

(** codes already written are left alone *)
Lemma esc1_code rs : forall (i j : nat),
  suffix_at i rs -> (j < i)%nat -> esc1 (Z.of_nat i) rs (rb + Z.of_nat j) = rb + Z.of_nat j.
Proof.
  induction rs as [|r rs IH]; intros i j Hs Hj; [done|]. simpl.
  apply suffix_at_cons in Hs as (Hr & Hs & _).
  destruct Hres as (_ & _ & _ & Hw). specialize (Hw _ _ Hr).
  destruct (_ =? r) eqn:E; to_prop; [lia|].
  replace (Z.of_nat i + 1) with (Z.of_nat (S i)) by lia. apply IH; [done | lia].
Qed.

Lemma esc1_spec rs : forall (i : nat) c,
  suffix_at i rs -> c < rb ->
  (esc1 (Z.of_nat i) rs c = c /\ c ∉ rs) \/
  (exists j, reserved !! j = Some c /\ esc1 (Z.of_nat i) rs c = rb + Z.of_nat j).
Proof.
  induction rs as [|r rs IH]; intros i c Hs Hc; [left; split; [done | set_solver]|]. simpl.
  apply suffix_at_cons in Hs as (Hr & Hs & Hi).
  replace (Z.of_nat i + 1) with (Z.of_nat (S i)) by lia.
  destruct (c =? r) eqn:E; to_prop.
  - subst. right. exists i. split; [done|]. rewrite u8_code by done. apply esc1_code; [done | lia].
  - destruct (IH (S i) c Hs Hc) as [[H1 H2]|H]; [left; split; [done | set_solver] | right; done].
Qed.

Lemma unesc1_digit rs : forall (i : nat) c,
  suffix_at i rs -> c < rb -> unesc1 (Z.of_nat i) rs c = c.
Proof.
  induction rs as [|r rs IH]; intros i c Hs Hc; [done|]. simpl.
  apply suffix_at_cons in Hs as (_ & Hs & Hi). rewrite u8_code by done.
  destruct (_ =? _) eqn:E; to_prop; [lia|].
  replace (Z.of_nat i + 1) with (Z.of_nat (S i)) by lia. auto.
Qed.

Lemma unesc1_code rs : forall (i j : nat) c,
  suffix_at i rs -> (i <= j)%nat -> reserved !! j = Some c -> c < rb ->
  unesc1 (Z.of_nat i) rs (rb + Z.of_nat j) = c.
Proof.
  induction rs as [|r rs IH]; intros i j c Hs Hij Hj Hc.
  - apply lookup_lt_Some in Hj. unfold suffix_at in Hs.
    apply (f_equal length) in Hs. rewrite length_drop in Hs. simpl in Hs. lia.
  - simpl. apply suffix_at_cons in Hs as (Hr & Hs & Hi). rewrite u8_code by done.
    replace (Z.of_nat i + 1) with (Z.of_nat (S i)) by lia.
    destruct (_ =? _) eqn:E; to_prop.
    + assert (i = j) by lia. subst. assert (r = c) by congruence. subst. apply unesc1_digit; auto.
    + apply IH; auto. lia.
Qed.

(** Every digit is escaped to a byte outside [reserved], from which it is recovered. *)
Lemma escape_char c :
  c < rb -> (esc1 0 reserved c ∉ reserved) /\ unesc1 0 reserved (esc1 0 reserved c) = c.
Proof.
  intros Hc. assert (Hs : suffix_at 0 reserved) by done.
  pose proof (esc1_spec reserved 0 c Hs Hc) as Hspec. change (Z.of_nat 0) with 0 in Hspec.
  destruct Hspec as [[-> Hn]|(j & Hj & ->)].
  - split; [done|]. apply (unesc1_digit reserved 0); auto.
  - split; [|apply (unesc1_code reserved 0 j); auto; lia].
    intros Hin. apply list_elem_of_lookup in Hin as [k Hk].
    destruct Hres as (_ & _ & _ & Hw). destruct (Hw _ _ Hk) as [?|E]; [lia|].
    assert (k = j) by lia. subst. rewrite Hj in Hk. injection Hk. lia.
Qed.

Lemma escape_digits s :
  digits_of rb s ->
  Forall (fun c => c ∉ reserved) (escape_from rb 0 reserved s) /\
  unescape_from rb 0 reserved
    (List.filter (fun c => negb (bool_decide (c ∈ reserved))) (escape_from rb 0 reserved s)) = s.
Proof.
  rewrite escape_from_map, unescape_from_map. intros D. induction D as [|d s [Hd0 Hd] _ [IH1 IH2]]; [done|].
  destruct (escape_char d Hd) as [Hn Hu]. simpl. split; [constructor; done|].
  rewrite bool_decide_false by done. simpl. rewrite Hu, IH2. done.
Qed.

End Escaping.

Lemma default_reserved_wf : wf_reserved default_reserved.
Proof.
  repeat split.
  - unfold default_reserved. repeat constructor; set_solver.
  - repeat constructor; lia.
  - simpl. lia.
  - intros i r H. do 4 (destruct i as [|i]; [injection H as <-; simpl; lia|]).
    rewrite lookup_ge_None_2 in H by (simpl; lia). done.
Qed.

(** ** Packets *)

Lemma digits_256 s : wf_bytes s <-> digits_of 256 s.
Proof. done. Qed.

(** Parsing inverts serialization, for every CRC function with 32 bit values. *)
Lemma rudics_roundtrip (crc32 : bytes -> Z) (bs reserved : bytes) (include_crc : bool) :
  (forall s, 0 <= crc32 s < 2 ^ 32) ->
  wf_reserved reserved -> wf_bytes bs ->
  parse_rudics_packet crc32 (serialize_rudics_packet crc32 bs reserved include_crc)
    reserved include_crc = Ok bs.
Proof.
  intros Hcrc Hr Hb. unfold parse_rudics_packet, serialize_rudics_packet.
  set (rb := 256 - Z.of_nat (length reserved)).
  set (payload := if include_crc then bs ++ uint32_to_byte_string (crc32 bs) else bs).
  assert (Hrb : 2 <= rb <= 256) by (destruct Hr as (_ & _ & ? & _); unfold rb; lia).
  assert (Hp : wf_bytes payload).
  { unfold payload. destruct include_crc; [|done].
    apply wf_bytes_app. split; [done | apply uint32_to_byte_string_wf]. }
  destruct (escape_digits reserved Hr (base_convert payload 256 rb)) as [_ Hesc].
  { apply base_convert_digits; [lia | lia | exact Hp]. }
  fold rb in Hesc. rewrite length_app. simpl length. rewrite Nat.add_sub.
  replace (_ <? 1)%nat with false by (symmetry; apply Nat.ltb_ge; lia).
  rewrite take_app_length, Hesc, base_convert_inverse by (done || lia).
  unfold payload. destruct include_crc; [|done].
  rewrite length_app. simpl length. rewrite Nat.add_sub, take_app_length, drop_app_length.
  replace (_ <? 4)%nat with false by (symmetry; apply Nat.ltb_ge; lia).
  rewrite uint32_byte_string, Z.eqb_refl by auto. done.
Qed.

Definition crc_sum (s : bytes) : Z := u32 (foldr Z.add 0 s).

Example rudics_roundtrip_example :
  parse_rudics_packet crc_sum
    (serialize_rudics_packet crc_sum [0; 13; 255; 7] default_reserved true) default_reserved true
  = Ok [0; 13; 255; 7].
Proof. vm_compute. reflexivity. Qed.

(** A serialized RUDICS packet is a body without any reserved character followed by the
    carriage return. *)
Lemma rudics_no_reserved (crc32 : bytes -> Z) (bs reserved : bytes) (include_crc : bool) :
  wf_reserved reserved -> wf_bytes bs ->
  exists body, serialize_rudics_packet crc32 bs reserved include_crc = body ++ [13]
    /\ Forall (fun c => c ∉ reserved) body.
Proof.
  intros Hr Hb. unfold serialize_rudics_packet. eexists. split; [reflexivity|].
  apply escape_digits; [done|]. destruct Hr as (_ & _ & ? & _).
  apply base_convert_digits; [lia | lia |].
  destruct include_crc; [|done]. apply wf_bytes_app. split; [done | apply uint32_to_byte_string_wf].
Qed.

Example rudics_no_reserved_witness :
  exists body, serialize_rudics_packet crc_sum [0; 13; 10; 255] default_reserved false = body ++ [13]
    /\ Forall (fun c => c ∉ default_reserved) body.
Proof.
  apply rudics_no_reserved; [apply default_reserved_wf | repeat constructor; lia].
Qed.

(** With the CRC included, a packet is accepted only if the unescaped body converts to the
    returned bytes followed by four bytes that are the CRC of these bytes. *)
Lemma parse_rudics_accepts (crc32 : bytes -> Z) (pkt reserved bs : bytes) :
  parse_rudics_packet crc32 pkt reserved true = Ok bs ->
  pkt <> [] /\
  exists crc_str, length crc_str = 4%nat /\ byte_string_to_uint32 crc_str = crc32 bs /\
    base_convert (unescape_from (256 - Z.of_nat (length reserved)) 0 reserved
      (List.filter (fun c => negb (bool_decide (c ∈ reserved))) (take (length pkt - 1) pkt)))
      (256 - Z.of_nat (length reserved)) 256 = bs ++ crc_str.
Proof.
  unfold parse_rudics_packet. destruct (_ <? 1)%nat eqn:E1; [done|].
  apply Nat.ltb_ge in E1. set (all := base_convert _ _ _).
  destruct (_ <? 4)%nat eqn:E2; [done|]. apply Nat.ltb_ge in E2.
  destruct (_ =? _) eqn:E3; [|done]. to_prop. intros [= <-].
  split; [intros ->; simpl in E1; lia|].
  exists (drop (length all - 4) all). rewrite length_drop, take_drop. repeat split; [lia | done].
Qed.

Example parse_rudics_accepts_witness :
  [200; 3; 3; 13] <> [] /\ exists crc_str, length crc_str = 4%nat /\
    byte_string_to_uint32 crc_str = crc_sum [5] /\
    base_convert (unescape_from 252 0 default_reserved
      (List.filter (fun c => negb (bool_decide (c ∈ default_reserved)))
        (take 7 (serialize_rudics_packet crc_sum [5] default_reserved true)))) 252 256 = [5] ++ crc_str.
Proof.
  split; [discriminate|].
  apply (parse_rudics_accepts crc_sum (serialize_rudics_packet crc_sum [5] default_reserved true)
           default_reserved [5]). vm_compute. reflexivity.
Qed.
