(* ===== verification/Double.v ===== *)
(** * IEEE-754 binary64

    The [double]s of the queueing code (priorities, waiting times) are the
    specification floats of the Standard Library at precision 53 and maximal
    exponent 1024, so that the arithmetic of the model rounds exactly where
    the program's does. *)

From Stdlib Require Import SpecFloat.
From S2P Require Import Prelude.

Abbreviation double := spec_float.

Definition dadd : double -> double -> double := SFadd 53 1024.
Definition dmul : double -> double -> double := SFmul 53 1024.
Definition ddiv : double -> double -> double := SFdiv 53 1024.
Definition dsub : double -> double -> double := SFsub 53 1024.
Definition dlt : double -> double -> bool := SFltb.
Definition deq : double -> double -> bool := SFeqb.

(** conversion of an integer *)
Definition double_of_Z (z : Z) : double := binary_normalize 53 1024 z 0 false.

(** conversion to an integer type: truncation towards zero *)
Definition double_to_Z (d : double) : Z :=
  match d with
  | S754_finite s m e =>
      let v := if 0 <=? e then Zpos m * 2 ^ e else Zpos m / 2 ^ (- e) in
      if s then - v else v
  | _ => 0
  end.

(** [floor] *)
Definition dfloor (d : double) : double :=
  match d with
  | S754_finite s m e =>
      if 0 <=? e then d else double_of_Z ((if s then Zneg m else Zpos m) / 2 ^ (- e))
  | _ => d
  end.

(** [std::abs] *)
Definition dabs (d : double) : double := SFabs d.

Definition d1e6 : double := double_of_Z 1000000.

Example double_computes :
  double_to_Z (dmul (ddiv (double_of_Z 3) (double_of_Z 2)) d1e6) = 1500000.
Proof. vm_compute. reflexivity. Qed.

(** ** The comparisons are those of a key ordered lexicographically *)

Definition is_nan (d : double) : bool := match d with S754_nan => true | _ => false end.

Definition dkey (d : double) : Z * Z * Z :=
  match d with
  | S754_nan => (0, 0, 0)
  | S754_infinity true => (-2, 0, 0)
  | S754_infinity false => (2, 0, 0)
  | S754_zero _ => (0, 0, 0)
  | S754_finite true m e => (-1, - e, Zneg m)
  | S754_finite false m e => (1, e, Zpos m)
  end.

Definition key_lt (a b : Z * Z * Z) : Prop :=
  let '(a1, a2, a3) := a in let '(b1, b2, b3) := b in
  a1 < b1 \/ (a1 = b1 /\ (a2 < b2 \/ (a2 = b2 /\ a3 < b3))).

Lemma SFcompare_key f g :
  is_nan f = false -> is_nan g = false ->
  match SFcompare f g with
  | Some Lt => key_lt (dkey f) (dkey g)
  | Some Eq => dkey f = dkey g
  | Some Gt => key_lt (dkey g) (dkey f)
  | None => False
  end.
Proof.
  destruct f as [s1|s1| |s1 m1 e1], g as [s2|s2| |s2 m2 e2]; try done; intros _ _;
    destruct s1, s2; simpl; try lia; try done.
  - destruct (Z.compare_spec e1 e2); simpl; try lia.
    change (Pos.compare_cont Eq m1 m2) with (Pos.compare m1 m2).
    destruct (Pos.compare_spec m1 m2); simpl; subst; lia || done.
  - destruct (Z.compare_spec e1 e2); simpl; try lia.
    change (Pos.compare_cont Eq m1 m2) with (Pos.compare m1 m2).
    destruct (Pos.compare_spec m1 m2); simpl; subst; lia || done.
Qed.

Lemma key_lt_irrefl a : ~ key_lt a a.
Proof. destruct a as [[a1 a2] a3]. simpl. lia. Qed.

Lemma key_lt_trans a b c : key_lt a b -> key_lt b c -> key_lt a c.
Proof. destruct a as [[? ?] ?], b as [[? ?] ?], c as [[? ?] ?]. simpl. lia. Qed.

Lemma dlt_key f g :
  dlt f g = true <-> is_nan f = false /\ is_nan g = false /\ key_lt (dkey f) (dkey g).
Proof.
  unfold dlt, SFltb. destruct (is_nan f) eqn:Nf.
  { destruct f; try done. simpl. split; [discriminate | intros (? & ? & ?); done]. }
  destruct (is_nan g) eqn:Ng.
  { destruct g; try done. destruct f; simpl; (split; [discriminate | intros (? & ? & ?); done]). }
  pose proof (SFcompare_key f g Nf Ng) as H.
  destruct (SFcompare f g) as [[]|]; split; try done; intros (_ & _ & K).
  - rewrite H in K. destruct (key_lt_irrefl _ K).
  - destruct (key_lt_irrefl _ (key_lt_trans _ _ _ H K)).
Qed.

Lemma deq_key f g :
  deq f g = true <-> is_nan f = false /\ is_nan g = false /\ dkey f = dkey g.
Proof.
  unfold deq, SFeqb. destruct (is_nan f) eqn:Nf.
  { destruct f; try done. simpl. split; [discriminate | intros (? & ? & ?); done]. }
  destruct (is_nan g) eqn:Ng.
  { destruct g; try done. destruct f; simpl; (split; [discriminate | intros (? & ? & ?); done]). }
  pose proof (SFcompare_key f g Nf Ng) as H.
  destruct (SFcompare f g) as [[]|]; split; try done; intros (_ & _ & K);
    rewrite K in H; destruct (key_lt_irrefl _ H).
Qed.

Lemma dlt_trans f g h : dlt f g = true -> dlt g h = true -> dlt f h = true.
Proof.
  rewrite !dlt_key. intros (? & ? & ?) (? & ? & ?). repeat split; auto. eapply key_lt_trans; eauto.
Qed.

Lemma deq_dlt f g h : deq f g = true -> dlt h g = true -> dlt h f = true.
Proof. rewrite deq_key, !dlt_key. intros (? & ? & ->) (? & ? & ?). auto. Qed.

Lemma deq_dlt_l f g h : deq f g = true -> dlt g h = true -> dlt f h = true.
Proof. rewrite deq_key, !dlt_key. intros (? & ? & ->) (? & ? & ?). auto. Qed.

Lemma deq_trans f g h : deq f g = true -> deq g h = true -> deq f h = true.
Proof. rewrite !deq_key. intros (? & ? & ->) (? & ? & ->). auto. Qed.

Lemma deq_sym f g : deq f g = true -> deq g f = true.
Proof. rewrite !deq_key. intros (? & ? & ->). auto. Qed.
