(* ===== verification/Time.v ===== *)
(** * common/time.{h,cpp}: conversions between time representations

    A [boost::posix_time::ptime] is a number of microseconds since 1970-01-01
    (the resolution of the library), [None] for [not_a_date_time]; its date and
    time of day are the quotient and the remainder by the length of a day. *)

From Stdlib Require Import SpecFloat.
From S2P Require Import Prelude Double.

(** linear arithmetic with division by constants *)
#[local] Ltac Zify.zify_post_hook ::= Z.to_euclidean_division_equations.

Abbreviation ptime := (option Z).

Definition us_per_day : Z := 86400000000.
Definition MICROSEC_IN_SEC : Z := 1000000.

(** [given_time.date() - date(1970, 1, 1)] in days, and [time_of_day()] *)
Definition date_days (t : Z) : Z := t / us_per_day.
Definition time_of_day (t : Z) : Z := t mod us_per_day.

Definition ptime2unix_double (given_time : ptime) : double :=
  match given_time with
  | None => double_of_Z (-1)
  | Some t =>
      let date_diff := date_days t in
      let time_diff := time_of_day t in
      dadd (dadd (dmul (dmul (double_of_Z date_diff) (double_of_Z 24)) (double_of_Z 3600))
                 (double_of_Z (time_diff / MICROSEC_IN_SEC)))
           (ddiv (double_of_Z (time_diff mod MICROSEC_IN_SEC)) (double_of_Z 1000000))
  end.

Definition unix_double2ptime (given_time : double) : ptime :=
  if deq given_time (double_of_Z (-1)) then None
  else
    let sec := dfloor given_time in
    let micro_s := double_to_Z (dmul (dsub given_time sec) d1e6) in
    let d := double_to_Z (ddiv (ddiv sec (double_of_Z 3600)) (double_of_Z 24)) in
    let sec := dsub sec (dmul (dmul (double_of_Z d) (double_of_Z 3600)) (double_of_Z 24)) in
    let h := double_to_Z (ddiv sec (double_of_Z 3600)) in
    let sec := dsub sec (double_of_Z (h * 3600)) in
    let m := double_to_Z (ddiv sec (double_of_Z 60)) in
    let sec := dsub sec (double_of_Z (m * 60)) in
    let s := double_to_Z sec in
    Some (d * us_per_day + ((h * 60 + m) * 60 + s) * MICROSEC_IN_SEC + micro_s).

Definition uint64_max : Z := 2 ^ 64 - 1.

Definition ptime2unix_microsec (given_time : ptime) : Z :=
  match given_time with
  | None => uint64_max
  | Some t =>
      let date_diff := date_days t in
      let time_diff := time_of_day t in
      u64 (u64 date_diff * 24 * 3600 * MICROSEC_IN_SEC
           + u64 (time_diff / MICROSEC_IN_SEC) * MICROSEC_IN_SEC
           + u64 (time_diff mod MICROSEC_IN_SEC) / (1000000 / MICROSEC_IN_SEC))
  end.

Definition unix_microsec2ptime (given_time : Z) : ptime :=
  if given_time =? uint64_max then None
  else
    let m := given_time / MICROSEC_IN_SEC / 60 in
    let s := u64 (given_time / MICROSEC_IN_SEC - m * 60) in
    let micro_s := u64 (given_time - u64 ((s + m * 60) * MICROSEC_IN_SEC)) in
    Some (m * 60 * MICROSEC_IN_SEC + s * MICROSEC_IN_SEC + micro_s).

(** [goby_time<double>()] from the clock in microseconds *)
Definition goby_time_double (now : Z) : double := ddiv (double_of_Z now) d1e6.

(** ** NMEA times *)

(** boost's [lexical_cast<int>] of a string, [None] for [bad_lexical_cast] *)
Class LexicalCast : Type := { lexical_cast_int : bytes -> option Z }.

(** Outcomes of the conversion: a time, [std::out_of_range] out of [substr], or
    a conversion of a [double] out of the range of [int]. *)
Inductive nmea_time : Type :=
| NmeaTime (t : ptime)
| NmeaOutOfRange
| NmeaIntOverflow.

Fixpoint find_char (c : Z) (s : bytes) : option nat :=
  match s with
  | [] => None
  | x :: s => if x =? c then Some 0%nat else S <$> find_char c s
  end.

(** [universal_day] is the current date in days since the epoch *)
Definition nmea_time2ptime `{LexicalCast} (universal_day : Z) (mt : bytes) : nmea_time :=
  if (length mt <? 6)%nat then NmeaTime None
  else
    let '(s_fs, dot_pos) :=
      match find_char 46 mt with
      | Some p => (drop (p + 1) mt, p)
      | None => (B "0", length mt)
      end in
    if (dot_pos <? 6)%nat then NmeaOutOfRange
    else
      let part k := lexical_cast_int (take 2 (drop (dot_pos - k) mt)) in
      match part 6%nat, part 4%nat, part 2%nat, lexical_cast_int s_fs with
      | Some hour, Some min, Some sec, Some fs =>
          if (6 <? length s_fs)%nat then NmeaIntOverflow
          else
            let micro_sec := fs * 10 ^ Z.of_nat (6 - length s_fs) in
            if (2147483647 <? Z.abs micro_sec) then NmeaIntOverflow
            else NmeaTime (Some (universal_day * us_per_day
                   + ((hour * 60 + min) * 60 + sec) * MICROSEC_IN_SEC + micro_sec))
      | _, _, _, _ => NmeaTime None
      end.

(** ** Microseconds *)

Lemma date_time_split t : date_days t * us_per_day + time_of_day t = t.
Proof. unfold date_days, time_of_day, us_per_day. lia. Qed.

Lemma ptime2unix_microsec_exact t :
  0 <= t < uint64_max -> ptime2unix_microsec (Some t) = t.
Proof.
  unfold ptime2unix_microsec, uint64_max. intros H.
  pose proof (date_time_split t) as E. unfold us_per_day, MICROSEC_IN_SEC in *.
  assert (0 <= date_days t) by (unfold date_days, us_per_day; lia).
  assert (0 <= time_of_day t < 86400000000) by (unfold time_of_day, us_per_day; lia).
  change (1000000 / 1000000) with 1. rewrite Z.div_1_r.
  unfold u64. rewrite (wrap_small 64 (date_days t)), (wrap_small 64 (time_of_day t / 1000000)),
    (wrap_small 64 (time_of_day t mod 1000000)) by lia.
  rewrite wrap_small; lia.
Qed.

Lemma unix_microsec2ptime_exact u :
  0 <= u < uint64_max -> unix_microsec2ptime u = Some u.
Proof.
  intros H. unfold unix_microsec2ptime, uint64_max, MICROSEC_IN_SEC in *.
  replace (u =? 2 ^ 64 - 1) with false by (symmetry; apply Z.eqb_neq; lia).
  set (m := u / 1000000 / 60).
  assert (Es : u64 (u / 1000000 - m * 60) = u / 1000000 - m * 60) by (apply wrap_small; unfold m; lia).
  rewrite Es.
  replace (u / 1000000 - m * 60 + m * 60) with (u / 1000000) by lia.
  unfold u64. rewrite (wrap_small 64 (u / 1000000 * 1000000)) by lia.
  rewrite wrap_small by lia. f_equal. lia.
Qed.

(** The conversions between uint64 microseconds and ptime are inverse to each other over the
    whole range, not-a-date-time included. *)
Lemma unix_microsec_ptime_roundtrip u t :
  0 <= u <= uint64_max -> 0 <= t < uint64_max ->
  ptime2unix_microsec (unix_microsec2ptime u) = u /\
  unix_microsec2ptime (ptime2unix_microsec (Some t)) = Some t /\
  unix_microsec2ptime (ptime2unix_microsec None) = None.
Proof.
  intros Hu Ht. split; [|split; [|reflexivity]].
  - destruct (Z.eq_dec u uint64_max) as [->|Hne]; [reflexivity|].
    rewrite unix_microsec2ptime_exact by lia. apply ptime2unix_microsec_exact. lia.
  - rewrite ptime2unix_microsec_exact by lia. by apply unix_microsec2ptime_exact.
Qed.

Example unix_microsec_ptime_roundtrip_witness :
  ptime2unix_microsec (unix_microsec2ptime 1530000000123456) = 1530000000123456.
Proof. apply (unix_microsec_ptime_roundtrip 1530000000123456 0); unfold uint64_max; lia. Qed.

Example double_conversions :
  unix_double2ptime (ddiv (double_of_Z 3061000001) (double_of_Z 2)) = Some 1530500000500000 /\
  ptime2unix_double (Some 1530500000500000) = ddiv (double_of_Z 3061000001) (double_of_Z 2).
Proof. split; vm_compute; reflexivity. Qed.

(** ** Well-formed and malformed NMEA times *)

Definition digit_char (d : Z) : Z := 48 + d.
Definition two_digits (n : Z) : bytes := [digit_char (n / 10); digit_char (n mod 10)].

(** fixed width decimal digits *)
Fixpoint digits (w : nat) (n : Z) : bytes :=
  match w with
  | O => []
  | S w => digits w (n / 10) ++ [digit_char (n mod 10)]
  end.

(** Documented behaviour of [lexical_cast] on unsigned decimal numerals. *)
Class LexicalCastLaws `{LexicalCast} : Prop := {
  lexical_cast_digits : forall w n, (0 < w <= 9)%nat -> 0 <= n < 10 ^ Z.of_nat w ->
    lexical_cast_int (digits w n) = Some n
}.

Lemma find_char_app c s t : c ∉ s -> find_char c (s ++ c :: t) = Some (length s).
Proof.
  induction s as [|x s IH]; simpl; intros H; [by rewrite Z.eqb_refl|].
  replace (x =? c) with false by (symmetry; apply Z.eqb_neq; set_solver). rewrite IH; [done | set_solver].
Qed.

Lemma length_digits w n : length (digits w n) = w.
Proof. revert n. induction w as [|w IH]; intros n; simpl; [done|]. rewrite length_app, IH. simpl. lia. Qed.

Section Nmea.
Context {LC : LexicalCast} {LL : LexicalCastLaws}.

Lemma two_digits_cast n : 0 <= n < 100 -> lexical_cast_int (two_digits n) = Some n.
Proof.
  intros H. rewrite <- (lexical_cast_digits 2 n) by (simpl; lia). f_equal. simpl. unfold two_digits.
  do 2 f_equal. unfold digit_char. f_equal. symmetry. apply Z.mod_small. lia.
Qed.

(** A time HHMMSS with one to six fractional digits is converted to the instant of the day to
    the microsecond. *)
Lemma nmea_time2ptime_parses day h m s w fs :
  0 <= h < 100 -> 0 <= m < 100 -> 0 <= s < 100 -> (0 < w <= 6)%nat -> 0 <= fs < 10 ^ Z.of_nat w ->
  nmea_time2ptime day (two_digits h ++ two_digits m ++ two_digits s ++ 46 :: digits w fs) =
  NmeaTime (Some (day * us_per_day
    + ((h * 60 + m) * 60 + s) * MICROSEC_IN_SEC + fs * 10 ^ Z.of_nat (6 - w))).
Proof.
  intros Hh Hm Hs Hw Hf. unfold nmea_time2ptime.
  set (pre := two_digits h ++ two_digits m ++ two_digits s).
  replace (two_digits h ++ two_digits m ++ two_digits s ++ 46 :: digits w fs)
    with (pre ++ 46 :: digits w fs) by (unfold pre; by rewrite <- !app_assoc).
  assert (Hpre : 46 ∉ pre).
  { unfold pre, two_digits, digit_char. rewrite !elem_of_app, !elem_of_cons, elem_of_nil. lia. }
  assert (Hlen : length pre = 6%nat) by reflexivity.
  rewrite length_app, Hlen. cbn [length Nat.add]. replace (_ <? 6)%nat with false by done.
  rewrite find_char_app by done. rewrite Hlen. cbn [Nat.add].
  change (drop 7 (pre ++ 46 :: digits w fs)) with (digits w fs).
  change (6 <? 6)%nat with false. cbn [Nat.sub].
  change (take 2 (drop 0 (pre ++ 46 :: digits w fs))) with (two_digits h).
  change (take 2 (drop 2 (pre ++ 46 :: digits w fs))) with (two_digits m).
  change (take 2 (drop 4 (pre ++ 46 :: digits w fs))) with (two_digits s).
  rewrite !two_digits_cast by done. rewrite lexical_cast_digits, length_digits by (done || lia).
  replace (6 <? w)%nat with false by (symmetry; apply Nat.ltb_ge; lia).
  assert (Hmul : 0 <= fs * 10 ^ Z.of_nat (6 - w) <= 1000000).
  { assert (Hpow : 10 ^ Z.of_nat w * 10 ^ Z.of_nat (6 - w) = 1000000).
    { rewrite <- Z.pow_add_r by lia. replace (Z.of_nat w + Z.of_nat (6 - w)) with 6 by lia. reflexivity. }
    pose proof (Z.pow_pos_nonneg 10 (Z.of_nat (6 - w)) ltac:(lia) ltac:(lia)). nia. }
  replace (2147483647 <? _) with false by (symmetry; apply Z.ltb_ge; lia). done.
Qed.

(** A time of at least six characters with fewer than six digits before the point throws an
    out-of-range exception that is not caught. *)
Lemma nmea_time2ptime_short_prefix (day : Z) (pre rest : bytes) :
  46 ∉ pre -> (length pre < 6)%nat -> (6 <= length (pre ++ 46%Z :: rest))%nat ->
  nmea_time2ptime day (pre ++ 46 :: rest) = NmeaOutOfRange.
Proof.
  intros H1 H2 H3. unfold nmea_time2ptime.
  replace (length (pre ++ 46%Z :: rest) <? 6)%nat with false by (symmetry; apply Nat.ltb_ge; lia).
  rewrite find_char_app by done.
  replace (length pre <? 6)%nat with true by (symmetry; apply Nat.ltb_lt; lia). done.
Qed.

End Nmea.

(** ** A concrete numeral reader *)
Module TimeWitness.

Fixpoint read_digits (acc : Z) (s : bytes) : option Z :=
  match s with
  | [] => Some acc
  | c :: s => if (48 <=? c) && (c <=? 57) then read_digits (10 * acc + (c - 48)) s else None
  end.

#[export] Instance cast : LexicalCast :=
  {| lexical_cast_int := fun s => match s with [] => None | _ => read_digits 0 s end |}.

Lemma read_digits_app acc s t :
  read_digits acc (s ++ t) = match read_digits acc s with Some a => read_digits a t | None => None end.
Proof. revert acc. induction s as [|c s IH]; intros acc; simpl; [done|]. split_if; [apply IH | done]. Qed.

Lemma read_digits_digits w : forall n, 0 <= n < 10 ^ Z.of_nat w -> read_digits 0 (digits w n) = Some n.
Proof.
  induction w as [|w IH]; intros n H; simpl; [simpl in H; f_equal; lia|].
  rewrite read_digits_app, IH.
  - simpl. unfold digit_char.
    replace ((48 <=? 48 + n mod 10) && (48 + n mod 10 <=? 57)) with true; [f_equal; lia|].
    symmetry. apply andb_true_iff. split; apply Z.leb_le; lia.
  - rewrite Nat2Z.inj_succ, Z.pow_succ_r in H by lia. lia.
Qed.

#[export] Instance cast_laws : LexicalCastLaws.
Proof.
  constructor. intros w n Hw Hn. simpl. destruct (digits w n) eqn:E.
  - apply (f_equal length) in E. rewrite length_digits in E. simpl in E. lia.
  - rewrite <- E. by apply read_digits_digits.
Qed.

Example nmea_time2ptime_parses_witness :
  nmea_time2ptime 17000 (B "123456.25") = NmeaTime (Some 1468845296250000).
Proof. exact (nmea_time2ptime_parses 17000 12 34 56 2 25 ltac:(lia) ltac:(lia) ltac:(lia) ltac:(lia) ltac:(simpl; lia)). Qed.

Example nmea_time2ptime_short_prefix_3456 : nmea_time2ptime 17000 (B "3456.25") = NmeaOutOfRange.
Proof.
  exact (nmea_time2ptime_short_prefix 17000 (B "3456") (B "25")
    ltac:(apply (bool_decide_unpack _); vm_compute; exact I) ltac:(simpl; lia) ltac:(simpl; lia)).
Qed.

End TimeWitness.
