(* ===== verification/As.v ===== *)
(** * util/as.h: conversions between numbers and text

    [boost::lexical_cast] is an interface; [goby::util::as] returns the largest
    value of the type (or NaN) where it fails. *)

From Stdlib Require Import SpecFloat DecimalString Decimal DecimalZ String Ascii.
From S2P Require Import Prelude Double Time.

(** boost's [lexical_cast] to [unsigned] and to [double] *)
Class LexicalNumbers : Type := {
  lexical_cast_uint : bytes -> option Z;
  lexical_cast_double : bytes -> option double
}.

(** [as<int>] and [as<int32>] *)
Definition as_int `{LexicalCast} (s : bytes) : Z := default (2 ^ 31 - 1) (lexical_cast_int s).

(** [as<unsigned>] and [as<uint32>] *)
Definition as_uint32 `{LexicalNumbers} (s : bytes) : Z := default (2 ^ 32 - 1) (lexical_cast_uint s).

Definition as_double `{LexicalNumbers} (s : bytes) : double := default S754_nan (lexical_cast_double s).

(** an enumeration: 0 where the cast fails *)
Definition as_enum `{LexicalCast} (s : bytes) : Z := default 0 (lexical_cast_int s).

Definition to_lower (c : Z) : Z := if (65 <=? c) && (c <=? 90) then c + 32 else c.
Definition to_upper (c : Z) : Z := if (97 <=? c) && (c <=? 122) then c - 32 else c.

(** [boost::iequals] *)
Definition iequals (s t : bytes) : bool := bool_decide (map to_lower s = map to_lower t).

Definition as_bool (s : bytes) : bool := iequals s (B "true") || iequals s (B "1").

(** [as<std::string>] of an integer *)
Definition as_string (z : Z) : bytes := B (NilZero.string_of_int (Z.to_int z)).

(** [static_cast<int>], where its result is defined *)
Definition int_cast (d : double) : option Z :=
  match d with
  | S754_zero _ => Some 0
  | S754_finite _ _ _ => let v := double_to_Z d in if (- 2 ^ 31 <=? v) && (v <? 2 ^ 31) then Some v else None
  | _ => None
  end.

(** [static_cast<uint64>], where its result is defined *)
Definition uint64_cast (d : double) : option Z :=
  match d with
  | S754_zero _ => Some 0
  | S754_finite _ _ _ => let v := double_to_Z d in if (0 <=? v) && (v <? 2 ^ 64) then Some v else None
  | _ => None
  end.

(** What is documented of [lexical_cast]: it reads the decimal digits it writes. *)
Class LexicalDecimal `{LexicalCast, LexicalNumbers} : Prop := {
  lexical_cast_int_string : forall z, - 2 ^ 31 <= z < 2 ^ 31 -> lexical_cast_int (as_string z) = Some z;
  lexical_cast_uint_string : forall z, 0 <= z < 2 ^ 32 -> lexical_cast_uint (as_string z) = Some z
}.

Section Laws.
Context `{LD : LexicalDecimal}.

Lemma as_int_string z : - 2 ^ 31 <= z < 2 ^ 31 -> as_int (as_string z) = z.
Proof. intros. unfold as_int. by rewrite lexical_cast_int_string. Qed.

Lemma as_uint32_string z : 0 <= z < 2 ^ 32 -> as_uint32 (as_string z) = z.
Proof. intros. unfold as_uint32. by rewrite lexical_cast_uint_string. Qed.

End Laws.

(** ** The text of a number has digits and a sign only *)

Lemma string_of_uint_digits u c : c ∈ B (NilEmpty.string_of_uint u) -> 48 <= c <= 57.
Proof.
  induction u; cbn [NilEmpty.string_of_uint B list_ascii_of_string map]; rewrite ?elem_of_cons, ?elem_of_nil;
    try (intros [-> | H]; [cbn; lia | by apply IHu]); done.
Qed.

Lemma as_string_digits z c : c ∈ as_string z -> c = 45 \/ 48 <= c <= 57.
Proof.
  assert (H : forall u, c ∈ B (NilZero.string_of_uint u) -> 48 <= c <= 57).
  { intros u Hc. destruct u; try apply (string_of_uint_digits _ _ Hc).
    cbn in Hc. rewrite elem_of_cons, elem_of_nil in Hc. lia. }
  unfold as_string, NilZero.string_of_int. destruct (Z.to_int z) as [u|u]; intros Hc.
  - right. by apply (H u).
  - cbn [B list_ascii_of_string map] in Hc. rewrite elem_of_cons in Hc. destruct Hc as [-> | Hc]; [by left|].
    right. by apply (H u).
Qed.

(** ** A concrete reader *)

Module Reader.

Definition string_of_bytes (s : bytes) : string :=
  string_of_list_ascii (List.map (fun c => ascii_of_N (Z.to_N c)) s).

Definition read_Z (s : bytes) : option Z := Z.of_int <$> NilZero.int_of_string (string_of_bytes s).

Lemma string_of_B s : string_of_bytes (B s) = s.
Proof.
  unfold string_of_bytes, B. rewrite map_map.
  transitivity (string_of_list_ascii (list_ascii_of_string s)); [|apply string_of_list_ascii_of_string].
  f_equal. rewrite <- (List.map_id (list_ascii_of_string s)) at 2. apply map_ext.
  intros a. rewrite N2Z.id. apply ascii_N_embedding.
Qed.

Lemma read_as_string z : read_Z (as_string z) = Some z.
Proof.
  unfold read_Z, as_string. rewrite string_of_B.
  rewrite NilZero.isi; [simpl; by rewrite DecimalZ.of_to | |]; destruct z; simpl; try discriminate;
    intros [= E]; by apply (DecimalPos.Unsigned.to_uint_nonnil p).
Qed.

#[export] Instance cast : LexicalCast := {|
  lexical_cast_int := fun s =>
    match read_Z s with
    | Some z => if (- 2 ^ 31 <=? z) && (z <? 2 ^ 31) then Some z else None
    | None => None
    end |}.

#[export] Instance numbers : LexicalNumbers := {|
  lexical_cast_uint := fun s =>
    match read_Z s with
    | Some z => if (0 <=? z) && (z <? 2 ^ 32) then Some z else None
    | None => None
    end;
  lexical_cast_double := fun s => double_of_Z <$> read_Z s |}.

#[export] Instance decimal : LexicalDecimal.
Proof.
  split; intros z Hz; simpl; rewrite read_as_string;
    (replace (_ && _) with true; [done|]); symmetry; apply andb_true_iff; split;
    (apply Z.leb_le || apply Z.ltb_lt); lia.
Qed.

End Reader.
