(* ===== verification/Seawater.v ===== *)
(** * util/seawater/*.h and util/sci.h: formulas of the sea, rounding, logarithms

    The formulas are evaluated in binary64 in the order of the source, so that
    the model rounds where the program does. A literal of the source is [lit m k],
    [m] / 10^[k] correctly rounded (both are exact). The sine of the C library is
    a parameter; [sqrt] is that of IEEE-754. *)

From Stdlib Require Import SpecFloat.
From S2P Require Import Prelude Double.

Declare Scope double_scope.
Delimit Scope double_scope with D.
Infix "+" := dadd : double_scope.
Infix "-" := dsub : double_scope.
Infix "*" := dmul : double_scope.
Infix "/" := ddiv : double_scope.
Notation "- x" := (SFopp x) : double_scope.

(** [std::sqrt], [<=] and a decimal literal *)
Definition dsqrt : double -> double := SFsqrt 53 1024.
Definition dle : double -> double -> bool := SFleb.
Definition lit (m k : Z) : double := ddiv (double_of_Z m) (double_of_Z (10 ^ k)).
Definition int (z : Z) : double := double_of_Z z.

#[local] Open Scope double_scope.

(** ** salinity.h *)

Module SalinityCalculator.

Definition SAL (XR XT : double) : double :=
  ((((lit 27081 4 * XR - lit 70261 4) * XR + lit 140941 4) * XR + lit 253851 4) * XR - lit 1692 4) * XR + lit 80 4
  + (XT / (lit 10 1 + lit 162 4 * XT))
    * (((((- lit 144 4 * XR + lit 636 4) * XR - lit 375 4) * XR - lit 66 4) * XR - lit 56 4) * XR + lit 5 4).

Definition DSAL (XR XT : double) : double :=
  ((((lit 135405 4 * XR - lit 281044 4) * XR + lit 422823 4) * XR + lit 507702 4) * XR - lit 1692 4)
  + (XT / (lit 10 1 + lit 162 4 * XT))
    * ((((- lit 720 4 * XR + lit 2544 4) * XR - lit 1125 4) * XR - lit 132 4) * XR - lit 56 4).

Definition RT35 (XT : double) : double :=
  (((lit 10031 13 * XT - lit 69698 11) * XT + lit 1104259 10) * XT + lit 200564 7) * XT + lit 6766097 7.

Definition C (XP : double) : double := ((lit 3989 18 * XP - lit 6370 13) * XP + lit 2070 8) * XP.
Definition B (XT : double) : double := (lit 4464 7 * XT + lit 3426 5) * XT + lit 10 1.
Definition A (XT : double) : double := - lit 3107 6 * XT + lit 4215 4.

(** the loop of the inversion, entered with the values of [RT], [SI] and [N] *)
Fixpoint invert (fuel : nat) (CND DT RT SI N : double) : option double :=
  match fuel with
  | O => None
  | S fuel =>
      let RT := RT + (CND - SI) / DSAL RT DT in
      let SI := SAL RT DT in
      let N := N + int 1 in
      let DELS := dabs (SI - CND) in
      if dlt DELS (lit 1 4) || dle (int 10) N then invert fuel CND DT RT SI N else Some RT
  end.

(** [None]: the loop is still running when the fuel is spent *)
Definition salinity (fuel : nat) (cnd_milli_siemens_per_cm temp_deg_c pressure_dbar : double) (M : bool) : option double :=
  let CND := cnd_milli_siemens_per_cm / lit 42914 3 in
  let T := temp_deg_c in
  let P := pressure_dbar in
  if (negb M && dle CND (lit 5 4)) || (M && dle CND (lit 2 1)) then Some (int 0)
  else
    let DT := T - int 15 in
    if negb M
    then
      let Res := CND in
      let RT := Res / (RT35 T * (lit 10 1 + C P / (B T + A T * Res))) in
      Some (SAL (dsqrt (dabs RT)) DT)
    else
      let RT := dsqrt (CND / int 35) in
      match invert fuel CND DT RT (SAL RT DT) (int 0) with
      | None => None
      | Some RT =>
          let RTT := RT35 T * RT * RT in
          let AT := A T in
          let BT := B T in
          let CP := C P in
          let CP := RTT * (CP + BT) in
          let BT := BT - RTT * AT in
          let Res := dsqrt (dabs (BT * BT + int 4 * AT * CP)) - BT in
          Some (lit 5 1 * Res / AT)
      end.

End SalinityCalculator.

(** ** swstate.h *)

Definition density_anomaly (S T P0 : double) : double :=
  let R3500 := lit 10281063 4 in
  let R4 := lit 48314 8 in
  let DR350 := lit 28106331 6 in
  let P := P0 / int 10 in
  let SR := dsqrt (dabs S) in
  let R1 := ((((lit 6536332 15 * T - lit 1120083 12) * T + lit 1001685 10) * T - lit 9095290 9) * T + lit 6793952 8) * T
            - lit 28263737 6 in
  let R2 := (((lit 53875 13 * T - lit 82467 11) * T + lit 76438 9) * T - lit 40899 7) * T + lit 824493 6 in
  let R3 := (- lit 16546 10 * T + lit 10227 8) * T - lit 572466 8 in
  let SIG := (R4 * S + R3 * SR + R2) * S + R1 in
  let V350P := lit 10 1 / R3500 in
  let SVA := - SIG * V350P / (R3500 + SIG) in
  let E := (lit 91697 14 * T + lit 20816 12) * T - lit 99348 11 in
  let BW := (lit 52787 12 * T - lit 612293 11) * T + lit 347718 10 in
  let B := BW + E * S in
  let D := lit 191075 9 in
  let C := (- lit 16078 10 * T - lit 10981 9) * T + lit 22838 7 in
  let AW := ((- lit 577905 12 * T + lit 116092 9) * T + lit 143713 8) * T - lit 1194975 7 in
  let A := (D * SR + C) * S + AW in
  let B1 := (- lit 53009 8 * T + lit 16483 6) * T + lit 7944 5 in
  let A1 := ((- lit 61670 9 * T + lit 109987 7) * T - lit 603459 6) * T + lit 546746 4 in
  let KW := (((- lit 5155288 11 * T + lit 1360477 8) * T - lit 2327105 6) * T + lit 1484206 4) * T - lit 193006 2 in
  let K0 := (B1 * SR + A1) * S + KW in
  let DK := (B * P + A) * P + K0 in
  let K35 := (lit 503217 10 * P + lit 3359406 6) * P + lit 2158227 2 in
  let GAM := P / K35 in
  let PK := lit 10 1 - GAM in
  let SVA := SVA * PK + (V350P + SVA) * P * DK / (K35 * (K35 + DK)) in
  let V350P := V350P * PK in
  let DR35P := GAM / V350P in
  let DVAN := SVA / (V350P * (V350P + SVA)) in
  DR350 + DR35P - DVAN.

(** ** depth.h, pressure.h *)

Section Sine.
Variable sin : double -> double.

Definition pressure2depth (P LAT : double) : double :=
  let X := sin (LAT / lit 5729578 5) in
  let X := X * X in
  let GR := lit 9780318 6 * (lit 10 1 + (lit 52788 7 + lit 236 7 * X) * X) + lit 1092 9 * P in
  let DEPTH := (((- lit 182 17 * P + lit 2279 13) * P - lit 22512 9) * P + lit 972659 5) * P in
  DEPTH / GR.

Definition depth2pressure (DPTH XLAT : double) : double :=
  let pi := lit 314159 5 in
  let PLAT := dabs (XLAT * pi / int 180) in
  let D := sin PLAT in
  let C1 := lit 592 5 + (D * D) * lit 525 5 in
  ((int 1 - C1) - dsqrt (((int 1 - C1) * (int 1 - C1)) - (lit 884 8 * DPTH))) / lit 442 8.

End Sine.

(** ** sci.h *)

Definition mackenzie_soundspeed (T S D : double) : double :=
  lit 144896 2 + lit 4591 3 * T - lit 5304 5 * T * T + lit 2374 7 * T * T * T + lit 1340 3 * (S - int 35)
  + lit 1630 5 * D + lit 1675 10 * D * D - lit 1025 5 * T * (S - int 35) - lit 7139 16 * T * D * D * D.

Section Power.
Variable pow : double -> double -> double.   (* of the C library *)

(** the conversion of [final] to [unsigned long] is defined for 0 <= [final] only *)
Definition unbiased_round (r dec : double) : double :=
  let ex := pow (lit 100 1) dec in
  let final := dfloor (r * ex) in
  let s := (r * ex) - final in
  if dlt s (lit 5 1) || (deq s (lit 5 1) && negb (Z.testbit (double_to_Z final) 0))
  then final / ex
  else (final + int 1) / ex.

End Power.

Close Scope double_scope.

(** [while (v >>= 1) r++] *)
Fixpoint shift_count (fuel : nat) (v r : Z) : Z :=
  match fuel with
  | O => r
  | S fuel =>
      let v := Z.shiftr v 1 in
      if v =? 0 then r else shift_count fuel v (u32 (r + 1))
  end.

Definition UNSIGNED_BITS : nat := 32.

Definition ceil_log2 (v : Z) : Z :=
  let r := if Z.land v (u32 (v - 1)) =? 0 then 0 else 1 in
  shift_count UNSIGNED_BITS v r.

Definition ceil_log2_int (i : Z) : Z := ceil_log2 (u32 i).

(** ** Values and inversion *)

(** the distance of a value from a decimal is at most 10^-[k] *)
Definition near (x : double) (m k : Z) (k' : Z) : bool := dle (dabs (dsub x (lit m k))) (lit 1 k').

(** the check values of the references *)
Example seawater_check_values :
  near (density_anomaly (int 40) (int 40) (int 10000)) 5982037 5 5 = true /\
  match SalinityCalculator.salinity 0 (dmul (lit 1888091 6) (lit 42914 3)) (int 40) (int 10000) false with
  | Some s => near s 40 0 5
  | None => false
  end = true /\
  near (mackenzie_soundspeed (int 25) (int 35) (int 1000)) 1550744 3 3 = true.
Proof. repeat split; vm_compute; reflexivity. Qed.

(** one round of the loop *)
Definition next (CND DT RT SI : double) : double := dadd RT (ddiv (dsub CND SI) (SalinityCalculator.DSAL RT DT)).

(** values that stay close to the solution are iterated for ever *)
Lemma invert_cycle (CND DT : double) (P : double -> Prop) :
  (forall RT, P RT -> P (next CND DT RT (SalinityCalculator.SAL RT DT)) /\
     dlt (dabs (dsub (SalinityCalculator.SAL (next CND DT RT (SalinityCalculator.SAL RT DT)) DT) CND)) (lit 1 4) = true) ->
  forall fuel RT N, P RT -> SalinityCalculator.invert fuel CND DT RT (SalinityCalculator.SAL RT DT) N = None.
Proof.
  intros H fuel. induction fuel as [|fuel IH]; intros RT N HP; [done|]. cbn [SalinityCalculator.invert].
  fold (next CND DT RT (SalinityCalculator.SAL RT DT)). destruct (H RT HP) as [HP' ->]. by apply IH.
Qed.

Definition standard_conductivity : double := dmul (int 35) (lit 42914 3).

(** The conversion to conductivity divides its argument, a salinity, by the conductivity 42.914, too.
    With the argument for which its loop looks for the conductivity of the salinity 35 (at 15 degrees
    and the surface), the loop does not end, whatever the fuel: its condition is the negation of the
    intended one. *)
Lemma salinity_inversion_diverges (fuel : nat) :
  SalinityCalculator.salinity fuel standard_conductivity (int 15) (int 0) true = None.
Proof.
  set (P := fun RT => RT = S754_finite false 4503599627370496 (-52) \/ RT = S754_finite false 9007199254740991 (-53)).
  unfold SalinityCalculator.salinity. cbv zeta.
  replace (ddiv standard_conductivity (lit 42914 3)) with (int 35) by (vm_compute; reflexivity).
  replace (dsub (int 15) (int 15)) with (int 0) by (vm_compute; reflexivity).
  replace (dsqrt (ddiv (int 35) (int 35))) with (S754_finite false 4503599627370496 (-52)) by (vm_compute; reflexivity).
  change ((negb true && dle (int 35) (lit 5 4)) || (true && dle (int 35) (lit 2 1))) with (dle (int 35) (lit 2 1)).
  replace (dle (int 35) (lit 2 1)) with false by (vm_compute; reflexivity). cbn [negb].
  rewrite (invert_cycle (int 35) (int 0) P); [done | | by left].
  intros RT [-> | ->]; (split; [|vm_compute; reflexivity]); [right | left]; vm_compute; reflexivity.
Qed.

(** ** Logarithm *)

Lemma shift_count_spec fuel : forall v r,
  0 < v < 2 ^ Z.of_nat fuel -> 0 <= r -> r + Z.log2 v < 2 ^ 32 -> shift_count fuel v r = r + Z.log2 v.
Proof.
  induction fuel as [|fuel IH]; intros v r Hv Hr Hb; [cbn in Hv; lia|]. cbn [shift_count].
  pose proof (Z.log2_shiftr v 1 ltac:(lia)) as Hl. rewrite Z.shiftr_div_pow2 in Hl |- * by lia. change (2 ^ 1) with 2 in *.
  pose proof (Z.div_mod v 2 ltac:(lia)). pose proof (Z.mod_pos_bound v 2 ltac:(lia)).
  destruct (v / 2 =? 0) eqn:E; to_prop.
  - assert (v = 1) as -> by lia. cbn. lia.
  - assert (Hv2 : 0 < v / 2) by lia.
    assert (1 <= Z.log2 v) by (apply Z.log2_le_pow2; lia).
    assert (Z.log2 v = 1 + Z.log2 (v / 2)) by lia.
    unfold u32. rewrite (wrap_small 32) by (pose proof (Z.log2_nonneg (v / 2)); lia).
    rewrite IH; [lia | | lia | lia].
    rewrite Nat2Z.inj_succ, Z.pow_succ_r in Hv by lia. split; [done|]. lia.
Qed.

Lemma land_pred_pow2 k : 0 <= k -> Z.land (2 ^ k) (2 ^ k - 1) = 0.
Proof.
  intros Hk. replace (2 ^ k - 1) with (Z.ones k) by (rewrite Z.ones_equiv; lia).
  rewrite Z.land_ones, Z.mod_same by lia. done.
Qed.

Lemma land_pred_pos v : 2 ^ Z.log2 v < v -> Z.land v (v - 1) <> 0.
Proof.
  intros H E. assert (Hv : 1 < v). { pose proof (Z.log2_nonneg v). pose proof (Z.pow_pos_nonneg 2 (Z.log2 v) ltac:(lia) ltac:(lia)). lia. }
  pose proof (Z.log2_spec v ltac:(lia)) as Hs.
  assert (Hl : Z.log2 (v - 1) = Z.log2 v) by (apply Z.log2_unique; [apply Z.log2_nonneg | lia]).
  assert (Hb : Z.testbit (Z.land v (v - 1)) (Z.log2 v) = true).
  { rewrite Z.land_spec, Z.bit_log2 by lia. rewrite <- Hl at 1. apply Z.bit_log2. lia. }
  by rewrite E, Z.bits_0 in Hb.
Qed.

(** C35: For every unsigned 32 bit number but 0 the shifting loop computes the least exponent whose
    power of two is at least the number. *)
Theorem ceil_log2_is_log2_up (v : Z) : 0 < v < 2 ^ 32 -> ceil_log2 v = Z.log2_up v.
Proof.
  intros Hv. assert (Hlog : 0 <= Z.log2 v < 32) by (split; [apply Z.log2_nonneg | apply Z.log2_lt_pow2; lia]).
  unfold ceil_log2. unfold u32. rewrite (wrap_small 32) by lia.
  pose proof (Z.log2_spec v ltac:(lia)) as Hs. pose proof (Z.le_log2_log2_up v) as H1. pose proof (Z.le_log2_up_succ_log2 v) as H2.
  destruct (Z.eq_dec v (2 ^ Z.log2 v)) as [E|E].
  - assert (Z.land v (v - 1) = 0) as -> by (rewrite E; apply land_pred_pow2; lia).
    cbn [Z.eqb]. rewrite shift_count_spec by (unfold UNSIGNED_BITS; lia).
    assert (Z.log2_up v = Z.log2 v) as -> by (rewrite E at 1; apply Z.log2_up_pow2; lia). lia.
  - rewrite (proj2 (Z.eqb_neq _ _) (land_pred_pos v ltac:(lia))), shift_count_spec by (unfold UNSIGNED_BITS; lia).
    assert (Z.log2 v <> Z.log2_up v); [|lia].
    intros H. apply Z.log2_log2_up_exact in H as [b Hb]; [|lia]. apply E. rewrite Hb at 2.
    destruct (Z.le_gt_cases 0 b); [by rewrite Z.log2_pow2 | rewrite Z.pow_neg_r in Hb; lia].
Qed.

Lemma ceil_log2_is_log2_up_witness : ceil_log2 1025 = Z.log2_up 1025 /\ ceil_log2 328529398 = Z.log2_up 328529398.
Proof. split; apply (ceil_log2_is_log2_up _); lia. Defined.
