(* ===== verification/Prog.v ===== *)
(** * Computations with state, events and exceptions

    A member function of a driver changes the driver, emits events and may
    leave with an exception; what it changed before the exception stays. The
    monad below is the notation for such functions. A triple speaks about both
    ways a computation ends; [keeps] is the triple of an invariant; [tracks]
    relates the state before, the events and the state behind. *)

From S2P Require Import Prelude.

Section Prog.
Context {S Ev X : Type}.

Definition prog (A : Type) : Type := S -> S * list Ev * result X A.

Definition pret {A : Type} (a : A) : prog A := fun s => (s, [], Ok a).

Definition pbind {A C : Type} (m : prog A) (k : A -> prog C) : prog C := fun s =>
  match m s with
  | (s1, e1, Ok a) => let '(s2, e2, r) := k a s1 in (s2, e1 ++ e2, r)
  | (s1, e1, Err x) => (s1, e1, Err x)
  end.

Definition pthrow {A : Type} (x : X) : prog A := fun s => (s, [], Err x).
Definition pget : prog S := fun s => (s, [], Ok s).
Definition pread {A : Type} (f : S -> A) : prog A := fun s => (s, [], Ok (f s)).
Definition pmod (f : S -> S) : prog unit := fun s => (f s, [], Ok tt).
Definition pemit (e : Ev) : prog unit := fun s => (s, [e], Ok tt).
Definition plift {A : Type} (r : result X A) : prog A := fun s => (s, [], r).

(** [try m catch]: [h] gives the handler of the exceptions that are caught *)
Definition pcatch {A : Type} (m : prog A) (h : X -> option (prog A)) : prog A := fun s =>
  match m s with
  | (s1, e1, Err x) =>
      match h x with
      | Some k => let '(s2, e2, r) := k s1 in (s2, e1 ++ e2, r)
      | None => (s1, e1, Err x)
      end
  | r => r
  end.

Definition pwhen (b : bool) (m : prog unit) : prog unit := if b then m else pret tt.

(** a loop over a list *)
Fixpoint pfor {A : Type} (l : list A) (body : A -> prog unit) : prog unit :=
  match l with
  | [] => pret tt
  | a :: l => pbind (body a) (fun _ => pfor l body)
  end.

(** ** Triples *)

Definition triple {A : Type} (P : S -> Prop) (m : prog A) (Q : A -> S -> Prop) (R : X -> S -> Prop) : Prop :=
  forall s, P s -> match m s with (s', _, Ok a) => Q a s' | (s', _, Err x) => R x s' end.

Definition keeps {A : Type} (I : S -> Prop) (m : prog A) : Prop :=
  triple I m (fun _ => I) (fun _ => I).

Lemma triple_bind {A C} (P : S -> Prop) (Q : A -> S -> Prop) (Q' : C -> S -> Prop) R m k :
  triple P m Q R -> (forall a, triple (Q a) (k a) Q' R) -> triple P (pbind m k) Q' R.
Proof.
  intros Hm Hk s Hs. specialize (Hm s Hs). unfold pbind. destruct (m s) as [[s1 e1] [a|x]]; [|done].
  specialize (Hk a s1 Hm). by destruct (k a s1) as [[s2 e2] [c|y]].
Qed.

Lemma triple_conseq {A} (P P' : S -> Prop) (Q Q' : A -> S -> Prop) (R R' : X -> S -> Prop) m :
  triple P m Q R -> (forall s, P' s -> P s) -> (forall a s, Q a s -> Q' a s) ->
  (forall x s, R x s -> R' x s) -> triple P' m Q' R'.
Proof.
  intros H HP HQ HR s Hs. specialize (H s (HP s Hs)). destruct (m s) as [[s1 e1] [a|x]]; auto.
Qed.

Lemma keeps_ret {A} I (a : A) : keeps I (pret a).
Proof. by intros s. Qed.
Lemma keeps_throw {A} I x : keeps I (@pthrow A x).
Proof. by intros s. Qed.
Lemma keeps_get I : keeps I pget.
Proof. by intros s. Qed.
Lemma keeps_read {A} I (f : S -> A) : keeps I (pread f).
Proof. by intros s. Qed.
Lemma keeps_emit I e : keeps I (pemit e).
Proof. by intros s. Qed.
Lemma keeps_lift {A} I (r : result X A) : keeps I (plift r).
Proof. intros s. by destruct r. Qed.
Lemma keeps_mod (I : S -> Prop) f : (forall s, I s -> I (f s)) -> keeps I (pmod f).
Proof. by intros H s Hs; apply H. Qed.

Lemma keeps_bind {A C} I (m : prog A) (k : A -> prog C) :
  keeps I m -> (forall a, keeps I (k a)) -> keeps I (pbind m k).
Proof. intros Hm Hk. by apply (triple_bind _ (fun _ => I)). Qed.

Lemma keeps_catch {A} I (m : prog A) h :
  keeps I m -> (forall x k, h x = Some k -> keeps I k) -> keeps I (pcatch m h).
Proof.
  intros Hm Hh s Hs. specialize (Hm s Hs). unfold pcatch. destruct (m s) as [[s1 e1] [a|x]]; [done|].
  destruct (h x) as [k|] eqn:E; [|done]. specialize (Hh x k E s1 Hm).
  by destruct (k s1) as [[s2 e2] [c|y]].
Qed.

Lemma keeps_when I b m : keeps I m -> keeps I (pwhen b m).
Proof. intros H. destruct b; [done | apply keeps_ret]. Qed.

Lemma keeps_for {A} I (l : list A) body : (forall a, keeps I (body a)) -> keeps I (pfor l body).
Proof. intros H. induction l; simpl; [apply keeps_ret | by apply keeps_bind]. Qed.

(** a triple that keeps another invariant as well *)
Lemma triple_and {A} (P I : S -> Prop) (m : prog A) Q R :
  triple P m Q R -> keeps I m ->
  triple (fun s => P s /\ I s) m (fun a s => Q a s /\ I s) (fun x s => R x s /\ I s).
Proof.
  intros H HI s [Hs Is]. specialize (H s Hs). specialize (HI s Is).
  by destruct (m s) as [[s1 e1] [a|x]].
Qed.

(** ** Exceptions *)

Definition raises {A : Type} (P : X -> Prop) (m : prog A) : Prop :=
  forall s, match snd (m s) with Ok _ => True | Err x => P x end.

Lemma raises_bind {A C} P (m : prog A) (k : A -> prog C) :
  raises P m -> (forall a, raises P (k a)) -> raises P (pbind m k).
Proof.
  intros Hm Hk s. specialize (Hm s). unfold pbind. destruct (m s) as [[s1 e1] [a|x]]; [|done].
  specialize (Hk a s1). by destruct (k a s1) as [[s2 e2] r].
Qed.

Lemma raises_throw {A} (P : X -> Prop) x : P x -> raises P (@pthrow A x).
Proof. by intros H s. Qed.

Lemma raises_catch {A} (P Q : X -> Prop) (m : prog A) h :
  raises Q m -> (forall x, Q x -> match h x with Some k => raises P k | None => P x end) -> raises P (pcatch m h).
Proof.
  intros Hm Hh s. specialize (Hm s). unfold pcatch. destruct (m s) as [[s1 e1] [a|x]]; [done|].
  specialize (Hh x Hm). destruct (h x) as [k|]; [|done]. specialize (Hh s1). by destruct (k s1) as [[s2 e2] r].
Qed.

Lemma raises_when P b m : raises P m -> raises P (pwhen b m).
Proof. intros H. by destruct b. Qed.

Lemma raises_for {A} P (l : list A) body : (forall a, raises P (body a)) -> raises P (pfor l body).
Proof. intros H. induction l; simpl; [done | by apply raises_bind]. Qed.

(** ** States and events

    A relation between the state before, the events and the state behind that
    holds of every computation put together of parts for which it holds. *)

Class Composes (R : S -> list Ev -> S -> Prop) : Prop := {
  composes_refl : forall s, R s [] s;
  composes_trans : forall s e1 s1 e2 s2, R s e1 s1 -> R s1 e2 s2 -> R s (e1 ++ e2) s2
}.

Definition tracks {A : Type} (R : S -> list Ev -> S -> Prop) (m : prog A) : Prop :=
  forall s, let '(s', ev, _) := m s in R s ev s'.

Section Tracks.
Context (R : S -> list Ev -> S -> Prop) {CR : Composes R}.

Lemma tracks_ret {A} (a : A) : tracks R (pret a).
Proof. intros s. apply composes_refl. Qed.
Lemma tracks_throw {A} x : tracks R (@pthrow A x).
Proof. intros s. apply composes_refl. Qed.
Lemma tracks_get : tracks R pget.
Proof. intros s. apply composes_refl. Qed.
Lemma tracks_read {A} (f : S -> A) : tracks R (pread f).
Proof. intros s. apply composes_refl. Qed.
Lemma tracks_lift {A} (r : result X A) : tracks R (plift r).
Proof. intros s. apply composes_refl. Qed.
Lemma tracks_emit e : (forall s, R s [e] s) -> tracks R (pemit e).
Proof. intros H s. apply H. Qed.
Lemma tracks_mod f : (forall s, R s [] (f s)) -> tracks R (pmod f).
Proof. intros H s. apply H. Qed.

Lemma tracks_bind {A C} (m : prog A) (k : A -> prog C) : tracks R m -> (forall a, tracks R (k a)) -> tracks R (pbind m k).
Proof.
  intros Hm Hk s. specialize (Hm s). unfold pbind. destruct (m s) as [[s1 e1] [a|x]]; [|exact Hm].
  specialize (Hk a s1). destruct (k a s1) as [[s2 e2] r]. by apply (composes_trans _ _ s1).
Qed.

Lemma tracks_catch {A} (m : prog A) h : tracks R m -> (forall x k, h x = Some k -> tracks R k) -> tracks R (pcatch m h).
Proof.
  intros Hm Hh s. specialize (Hm s). unfold pcatch. destruct (m s) as [[s1 e1] [a|x]]; [exact Hm|].
  destruct (h x) as [k|] eqn:E; [|exact Hm]. specialize (Hh x k E s1). destruct (k s1) as [[s2 e2] r]. by apply (composes_trans _ _ s1).
Qed.

Lemma tracks_when b m : tracks R m -> tracks R (pwhen b m).
Proof. intros Hm. destruct b; [exact Hm | apply tracks_ret]. Qed.

Lemma tracks_for {A} (l : list A) body : (forall a, tracks R (body a)) -> tracks R (pfor l body).
Proof. intros Hb. induction l as [|a l IH]; cbn [pfor]; [apply tracks_ret | by apply tracks_bind]. Qed.

(** the rest of a computation whose beginning is known *)
Lemma tracks_then {A C} (m : prog A) (k : A -> prog C) s s1 e1 a :
  m s = (s1, e1, Ok a) -> R s e1 s1 -> tracks R (k a) -> let '(s', ev, _) := pbind m k s in R s ev s'.
Proof. unfold pbind. intros -> H Hk. specialize (Hk s1). destruct (k a s1) as [[s2 e2] r]. by apply (composes_trans _ _ s1). Qed.

End Tracks.

Lemma tracks_weaken {A} (R R' : S -> list Ev -> S -> Prop) (m : prog A) :
  (forall s ev s', R s ev s' -> R' s ev s') -> tracks R m -> tracks R' m.
Proof. intros H Hm s. specialize (Hm s). destruct (m s) as [[s' ev] r]. by apply H. Qed.

(** ** Equations *)

Lemma pbind_ok {A C} (m : prog A) (k : A -> prog C) s s1 e1 a :
  m s = (s1, e1, Ok a) -> pbind m k s = (let '(s2, e2, r) := k a s1 in (s2, e1 ++ e2, r)).
Proof. unfold pbind. by intros ->. Qed.

Lemma pbind_err {A C} (m : prog A) (k : A -> prog C) s s1 e1 x :
  m s = (s1, e1, Err x) -> pbind m k s = (s1, e1, Err x).
Proof. unfold pbind. by intros ->. Qed.

(** a step without events *)
Lemma pbind_quiet {A C} (m : prog A) (k : A -> prog C) s s1 a :
  m s = (s1, [], Ok a) -> pbind m k s = k a s1.
Proof. unfold pbind. intros ->. by destruct (k a s1) as [[s2 e2] r]. Qed.

Lemma pbind_ret {A C} (a : A) (k : A -> prog C) s : pbind (pret a) k s = k a s.
Proof. by apply pbind_quiet. Qed.
Lemma pbind_read {A C} (f : S -> A) (k : A -> prog C) s : pbind (pread f) k s = k (f s) s.
Proof. by apply pbind_quiet. Qed.
Lemma pbind_get {C} (k : S -> prog C) s : pbind pget k s = k s s.
Proof. unfold pbind, pget. by destruct (k s s) as [[? ?] ?]. Qed.
Lemma pbind_mod {C} (f : S -> S) (k : unit -> prog C) s : pbind (pmod f) k s = k tt (f s).
Proof. by apply pbind_quiet. Qed.
Lemma pbind_lift {A C} (a : A) (k : A -> prog C) s : pbind (plift (Ok a)) k s = k a s.
Proof. by apply pbind_quiet. Qed.
Lemma pbind_assoc {A C D} (m : prog A) (k : A -> prog C) (l : C -> prog D) s :
  pbind (pbind m k) l s = pbind m (fun a => pbind (k a) l) s.
Proof.
  unfold pbind. destruct (m s) as [[s1 e1] [a|x]]; [|done]. destruct (k a s1) as [[s2 e2] [c|x]]; [|done].
  destruct (l c s2) as [[s3 e3] r]. by rewrite app_assoc.
Qed.

End Prog.
Arguments prog S Ev X A : clear implicits.

Declare Scope prog_scope.
Delimit Scope prog_scope with prog.

Notation "'let!' x ':=' c 'in' k" := (pbind c (fun x => k))
  (at level 10, x pattern, c at level 100, k at level 200) : prog_scope.
Notation "c ';;' k" := (pbind c (fun _ => k)) (at level 100, k at level 200, right associativity) : prog_scope.

Create HintDb prog.
#[export] Hint Resolve keeps_ret keeps_throw keeps_get keeps_read keeps_emit keeps_lift : prog.

(** decompose a computation down to its assignments *)
Ltac keeps_step :=
  match goal with
  | |- keeps _ (pbind _ _) => apply keeps_bind; [|intros ?]
  | |- keeps _ (pret _) => apply keeps_ret
  | |- keeps _ (pthrow _) => apply keeps_throw
  | |- keeps _ pget => apply keeps_get
  | |- keeps _ (pread _) => apply keeps_read
  | |- keeps _ (pemit _) => apply keeps_emit
  | |- keeps _ (plift _) => apply keeps_lift
  | |- keeps _ (pwhen _ _) => apply keeps_when
  | |- keeps _ (pfor _ _) => apply keeps_for; intros ?
  | |- keeps _ (if ?b then _ else _) => destruct b eqn:?
  | |- keeps _ (match ?x with _ => _ end) => destruct x eqn:?
  | |- keeps _ (let _ := _ in _) => cbv zeta
  | |- keeps _ _ => solve [auto with prog nocore]
  end.
Ltac keeps_all := repeat keeps_step.

Ltac tracks_step :=
  match goal with
  | |- tracks _ (pbind _ _) => apply tracks_bind; [apply _ | |intros ?]
  | |- tracks _ (pret _) => apply tracks_ret; apply _
  | |- tracks _ (pthrow _) => apply tracks_throw; apply _
  | |- tracks _ pget => apply tracks_get; apply _
  | |- tracks _ (pread _) => apply tracks_read; apply _
  | |- tracks _ (plift _) => apply tracks_lift; apply _
  | |- tracks _ (pwhen _ _) => apply tracks_when; [apply _|]
  | |- tracks _ (pfor _ _) => apply tracks_for; [apply _|]; intros ?
  | |- tracks _ (if ?b then _ else _) => destruct b eqn:?
  | |- tracks _ (match ?x with _ => _ end) => destruct x eqn:?
  | |- tracks _ (let _ := _ in _) => cbv zeta
  | |- tracks _ _ => solve [auto with prog nocore]
  end.
Ltac tracks_all := repeat tracks_step.

Ltac raises_step :=
  match goal with
  | |- raises _ (pbind _ _) => apply raises_bind; [|intros ?]
  | |- raises _ (pthrow _) => apply raises_throw
  | |- raises _ (pwhen _ _) => apply raises_when
  | |- raises _ (pfor _ _) => apply raises_for; intros ?
  | |- raises _ (if ?b then _ else _) => destruct b eqn:?
  | |- raises _ (match ?x with _ => _ end) => destruct x eqn:?
  | |- raises _ (let _ := _ in _) => cbv zeta
  | |- raises _ _ => first [intros ?; exact I | solve [auto with prog nocore]]
  end.
Ltac raises_all := repeat raises_step.
