(* ===== verification/Proto.v ===== *)
(** * Data shared by the acoustic communications components

    The protobuf messages of acomms/protobuf that the modelled code reads and
    writes, and the interfaces to the libraries it calls (protobuf reflection,
    the DCCL codec, boost string algorithms). An optional field is an [option];
    its getter returns the default of the .proto file when it is not set. *)

From Stdlib Require Import SpecFloat.
From S2P Require Import Prelude Double.

(** ** acomms/acomms_constants.h *)

Definition BROADCAST_ID : Z := 0.
Definition QUERY_DESTINATION_ID : Z := -1.
Definition QUERY_SOURCE_ID : Z := -1.

(** ** acomms/protobuf/modem_message.proto *)

Inductive TransmissionType : Type := UNKNOWN | DATA | ACK | DRIVER_SPECIFIC.

#[export] Instance TransmissionType_eq_dec : EqDecision TransmissionType.
Proof. solve_decision. Defined.

Record ModemTransmission : Type := MkTransmission {
  mt_src : option Z;
  mt_dest : option Z;
  mt_time : option Z;
  mt_rate : option Z;
  mt_type : option TransmissionType;
  mt_max_num_frames : option Z;
  mt_max_frame_bytes : option Z;
  mt_ack_requested : option bool;
  mt_frame : list bytes;
  mt_frame_start : option Z;
  mt_acked_frame : list Z;
  mt_slot_seconds : option double;
  mt_always_initiate : option bool;
  mt_slot_index : option Z
}.

Definition set_mt_src (v : option Z) (r : ModemTransmission) : ModemTransmission :=
  MkTransmission v (mt_dest r) (mt_time r) (mt_rate r) (mt_type r) (mt_max_num_frames r)
    (mt_max_frame_bytes r) (mt_ack_requested r) (mt_frame r) (mt_frame_start r)
    (mt_acked_frame r) (mt_slot_seconds r) (mt_always_initiate r) (mt_slot_index r).
Definition set_mt_dest (v : option Z) (r : ModemTransmission) : ModemTransmission :=
  MkTransmission (mt_src r) v (mt_time r) (mt_rate r) (mt_type r) (mt_max_num_frames r)
    (mt_max_frame_bytes r) (mt_ack_requested r) (mt_frame r) (mt_frame_start r)
    (mt_acked_frame r) (mt_slot_seconds r) (mt_always_initiate r) (mt_slot_index r).
Definition set_mt_time (v : option Z) (r : ModemTransmission) : ModemTransmission :=
  MkTransmission (mt_src r) (mt_dest r) v (mt_rate r) (mt_type r) (mt_max_num_frames r)
    (mt_max_frame_bytes r) (mt_ack_requested r) (mt_frame r) (mt_frame_start r)
    (mt_acked_frame r) (mt_slot_seconds r) (mt_always_initiate r) (mt_slot_index r).
Definition set_mt_rate (v : option Z) (r : ModemTransmission) : ModemTransmission :=
  MkTransmission (mt_src r) (mt_dest r) (mt_time r) v (mt_type r) (mt_max_num_frames r)
    (mt_max_frame_bytes r) (mt_ack_requested r) (mt_frame r) (mt_frame_start r)
    (mt_acked_frame r) (mt_slot_seconds r) (mt_always_initiate r) (mt_slot_index r).
Definition set_mt_type (v : option TransmissionType) (r : ModemTransmission) : ModemTransmission :=
  MkTransmission (mt_src r) (mt_dest r) (mt_time r) (mt_rate r) v (mt_max_num_frames r)
    (mt_max_frame_bytes r) (mt_ack_requested r) (mt_frame r) (mt_frame_start r)
    (mt_acked_frame r) (mt_slot_seconds r) (mt_always_initiate r) (mt_slot_index r).
Definition set_mt_max_num_frames (v : option Z) (r : ModemTransmission) : ModemTransmission :=
  MkTransmission (mt_src r) (mt_dest r) (mt_time r) (mt_rate r) (mt_type r) v
    (mt_max_frame_bytes r) (mt_ack_requested r) (mt_frame r) (mt_frame_start r)
    (mt_acked_frame r) (mt_slot_seconds r) (mt_always_initiate r) (mt_slot_index r).
Definition set_mt_max_frame_bytes (v : option Z) (r : ModemTransmission) : ModemTransmission :=
  MkTransmission (mt_src r) (mt_dest r) (mt_time r) (mt_rate r) (mt_type r)
    (mt_max_num_frames r) v (mt_ack_requested r) (mt_frame r) (mt_frame_start r)
    (mt_acked_frame r) (mt_slot_seconds r) (mt_always_initiate r) (mt_slot_index r).
Definition set_mt_ack_requested (v : option bool) (r : ModemTransmission) : ModemTransmission :=
  MkTransmission (mt_src r) (mt_dest r) (mt_time r) (mt_rate r) (mt_type r)
    (mt_max_num_frames r) (mt_max_frame_bytes r) v (mt_frame r) (mt_frame_start r)
    (mt_acked_frame r) (mt_slot_seconds r) (mt_always_initiate r) (mt_slot_index r).
Definition set_mt_frame (v : list bytes) (r : ModemTransmission) : ModemTransmission :=
  MkTransmission (mt_src r) (mt_dest r) (mt_time r) (mt_rate r) (mt_type r)
    (mt_max_num_frames r) (mt_max_frame_bytes r) (mt_ack_requested r) v (mt_frame_start r)
    (mt_acked_frame r) (mt_slot_seconds r) (mt_always_initiate r) (mt_slot_index r).
Definition set_mt_frame_start (v : option Z) (r : ModemTransmission) : ModemTransmission :=
  MkTransmission (mt_src r) (mt_dest r) (mt_time r) (mt_rate r) (mt_type r)
    (mt_max_num_frames r) (mt_max_frame_bytes r) (mt_ack_requested r) (mt_frame r) v
    (mt_acked_frame r) (mt_slot_seconds r) (mt_always_initiate r) (mt_slot_index r).
Definition set_mt_acked_frame (v : list Z) (r : ModemTransmission) : ModemTransmission :=
  MkTransmission (mt_src r) (mt_dest r) (mt_time r) (mt_rate r) (mt_type r)
    (mt_max_num_frames r) (mt_max_frame_bytes r) (mt_ack_requested r) (mt_frame r)
    (mt_frame_start r) v (mt_slot_seconds r) (mt_always_initiate r) (mt_slot_index r).
Definition set_mt_slot_seconds (v : option double) (r : ModemTransmission) : ModemTransmission :=
  MkTransmission (mt_src r) (mt_dest r) (mt_time r) (mt_rate r) (mt_type r)
    (mt_max_num_frames r) (mt_max_frame_bytes r) (mt_ack_requested r) (mt_frame r)
    (mt_frame_start r) (mt_acked_frame r) v (mt_always_initiate r) (mt_slot_index r).
Definition set_mt_always_initiate (v : option bool) (r : ModemTransmission) : ModemTransmission :=
  MkTransmission (mt_src r) (mt_dest r) (mt_time r) (mt_rate r) (mt_type r)
    (mt_max_num_frames r) (mt_max_frame_bytes r) (mt_ack_requested r) (mt_frame r)
    (mt_frame_start r) (mt_acked_frame r) (mt_slot_seconds r) v (mt_slot_index r).
Definition set_mt_slot_index (v : option Z) (r : ModemTransmission) : ModemTransmission :=
  MkTransmission (mt_src r) (mt_dest r) (mt_time r) (mt_rate r) (mt_type r)
    (mt_max_num_frames r) (mt_max_frame_bytes r) (mt_ack_requested r) (mt_frame r)
    (mt_frame_start r) (mt_acked_frame r) (mt_slot_seconds r) (mt_always_initiate r) v.

Definition empty_transmission : ModemTransmission :=
  MkTransmission None None None None None None None None [] None [] None None None.

Definition src (m : ModemTransmission) : Z := default (-1) (mt_src m).
Definition dest (m : ModemTransmission) : Z := default (-1) (mt_dest m).
Definition time (m : ModemTransmission) : Z := default 0 (mt_time m).
Definition rate (m : ModemTransmission) : Z := default 0 (mt_rate m).
Definition type (m : ModemTransmission) : TransmissionType := default UNKNOWN (mt_type m).
Definition max_num_frames (m : ModemTransmission) : Z := default 1 (mt_max_num_frames m).
Definition max_frame_bytes (m : ModemTransmission) : Z := default 0 (mt_max_frame_bytes m).
Definition has_max_frame_bytes (m : ModemTransmission) : bool := bool_decide (is_Some (mt_max_frame_bytes m)).
Definition has_dest (m : ModemTransmission) : bool := bool_decide (is_Some (mt_dest m)).
Definition has_ack_requested (m : ModemTransmission) : bool := bool_decide (is_Some (mt_ack_requested m)).
Definition ack_requested (m : ModemTransmission) : bool := default true (mt_ack_requested m).
Definition frame_size (m : ModemTransmission) : nat := length (mt_frame m).
Definition frame_start (m : ModemTransmission) : Z := default 0 (mt_frame_start m).
Definition slot_seconds (m : ModemTransmission) : double := default (double_of_Z 10) (mt_slot_seconds m).
Definition always_initiate (m : ModemTransmission) : bool := default false (mt_always_initiate m).

(** ** acomms/protobuf/queue.proto *)

Record QueuedMessageMeta : Type := MkMeta {
  qm_non_repeated_size : option Z;
  qm_ack_requested : option bool;
  qm_src : option Z;
  qm_dest : option Z;
  qm_time : option Z;
  qm_last_sent_time : option Z;
  qm_encoded_message : option bytes
}.

Definition set_qm_non_repeated_size (v : option Z) (r : QueuedMessageMeta) : QueuedMessageMeta :=
  MkMeta v (qm_ack_requested r) (qm_src r) (qm_dest r) (qm_time r) (qm_last_sent_time r)
    (qm_encoded_message r).
Definition set_qm_ack_requested (v : option bool) (r : QueuedMessageMeta) : QueuedMessageMeta :=
  MkMeta (qm_non_repeated_size r) v (qm_src r) (qm_dest r) (qm_time r) (qm_last_sent_time r)
    (qm_encoded_message r).
Definition set_qm_src (v : option Z) (r : QueuedMessageMeta) : QueuedMessageMeta :=
  MkMeta (qm_non_repeated_size r) (qm_ack_requested r) v (qm_dest r) (qm_time r)
    (qm_last_sent_time r) (qm_encoded_message r).
Definition set_qm_dest (v : option Z) (r : QueuedMessageMeta) : QueuedMessageMeta :=
  MkMeta (qm_non_repeated_size r) (qm_ack_requested r) (qm_src r) v (qm_time r)
    (qm_last_sent_time r) (qm_encoded_message r).
Definition set_qm_time (v : option Z) (r : QueuedMessageMeta) : QueuedMessageMeta :=
  MkMeta (qm_non_repeated_size r) (qm_ack_requested r) (qm_src r) (qm_dest r) v
    (qm_last_sent_time r) (qm_encoded_message r).
Definition set_qm_last_sent_time (v : option Z) (r : QueuedMessageMeta) : QueuedMessageMeta :=
  MkMeta (qm_non_repeated_size r) (qm_ack_requested r) (qm_src r) (qm_dest r) (qm_time r) v
    (qm_encoded_message r).
Definition set_qm_encoded_message (v : option bytes) (r : QueuedMessageMeta) : QueuedMessageMeta :=
  MkMeta (qm_non_repeated_size r) (qm_ack_requested r) (qm_src r) (qm_dest r) (qm_time r)
    (qm_last_sent_time r) v.

Definition empty_meta : QueuedMessageMeta := MkMeta None None None None None None None.

Definition meta_size (m : QueuedMessageMeta) : Z := default 0 (qm_non_repeated_size m).
Definition meta_ack (m : QueuedMessageMeta) : bool := default false (qm_ack_requested m).
Definition meta_src (m : QueuedMessageMeta) : Z := default 0 (qm_src m).
Definition meta_dest (m : QueuedMessageMeta) : Z := default 0 (qm_dest m).
Definition meta_time (m : QueuedMessageMeta) : Z := default 0 (qm_time m).
Definition meta_last_sent (m : QueuedMessageMeta) : Z := default 0 (qm_last_sent_time m).

Inductive Manipulator : Type :=
| NO_MANIP | NO_QUEUE | NO_DEQUEUE | LOOPBACK | ON_DEMAND | LOOPBACK_AS_SENT | PROMISCUOUS.

#[export] Instance Manipulator_eq_dec : EqDecision Manipulator.
Proof. solve_decision. Defined.

Inductive RoleType : Type := SOURCE_ID | DESTINATION_ID | TIMESTAMP.

#[export] Instance RoleType_eq_dec : EqDecision RoleType.
Proof. solve_decision. Defined.

Inductive RoleSetting : Type := STATIC | FIELD_VALUE.

Record Role : Type := MkRole {
  role_type : RoleType;
  role_setting : RoleSetting;
  role_field : bytes;
  role_static_value : option Z
}.

Record QueuedMessageEntry : Type := MkEntry {
  cfg_protobuf_name : bytes;
  cfg_ack : bool;
  cfg_blackout_time : Z;
  cfg_max_queue : Z;
  cfg_newest_first : bool;
  cfg_ttl : Z;
  cfg_value_base : double;
  cfg_manipulator : list Manipulator;
  cfg_role : list Role
}.

(** ** Libraries *)

(** What [boost::any] holds when protobuf reflection returns the value of a field. *)
Inductive any (M : Type) : Type :=
| AnyEmpty
| AnyInt32 (z : Z)
| AnyInt64 (z : Z)
| AnyUint32 (z : Z)
| AnyUint64 (z : Z)
| AnyDouble (d : double)
| AnyString (s : bytes)
| AnyMessage (m : M)
| AnyOther.
Arguments AnyEmpty {M}.
Arguments AnyInt32 {M} z.
Arguments AnyInt64 {M} z.
Arguments AnyUint32 {M} z.
Arguments AnyUint64 {M} z.
Arguments AnyDouble {M} d.
Arguments AnyString {M} s.
Arguments AnyMessage {M} m.
Arguments AnyOther {M}.

(** Protobuf descriptors and reflection ([DCCLTypeHelper] included). *)
Class Protobuf : Type := {
  Msg : Type;
  Descriptor : Type;
  FieldDescriptor : Type;
  GetDescriptor : Msg -> Descriptor;
  full_name : Descriptor -> bytes;
  FindFieldByName : Descriptor -> bytes -> option FieldDescriptor;
  is_repeated : FieldDescriptor -> bool;
  is_message_type : FieldDescriptor -> bool;
  get_value : FieldDescriptor -> Msg -> any Msg;
  new_protobuf_message : Descriptor -> Msg;
  IsInitialized : Msg -> bool
}.

(** The DCCL codec: identifier of a type, size of an encoded message, and the
    two directions, which fail with a [DCCLException] as [None]. The first
    argument is the passphrase in force ([merge_cfg]). *)
Class DCCLCodec `{Protobuf} : Type := {
  codec_id : Descriptor -> Z;
  codec_validate : Descriptor -> bool;
  codec_size : Msg -> Z;
  codec_encode : option bytes -> Msg -> option bytes;
  codec_encode_head : option bytes -> Msg -> option bytes;
  codec_decode : option bytes -> bytes -> option Msg;
  codec_decode_head : option bytes -> bytes -> option Msg
}.

(** Documented behaviour of the codec: an encoding is never empty, and has the
    length [size] announces. *)
Class DCCLCodecLaws `{DCCLCodec} : Prop := {
  codec_size_pos : forall m, 0 < codec_size m;
  codec_encode_size : forall pass m b, codec_encode pass m = Some b -> Z.of_nat (length b) = codec_size m
}.

(** boost string algorithms: [boost::split] on a set of delimiters, and the
    text form of a time point in microseconds. *)
Class BoostText : Type := {
  boost_split : (Z -> bool) -> bytes -> list bytes;
  ptime_of_string : bytes -> Z
}.

(** joining pieces with a delimiter *)
Fixpoint join (d : Z) (pieces : list bytes) : bytes :=
  match pieces with
  | [] => []
  | [p] => p
  | p :: rest => p ++ d :: join d rest
  end.

(** The documented behaviour of [boost::split] for one delimiter: the pieces
    joined again are the input, there is at least one, and none contains it. *)
Class BoostTextLaws `{BoostText} : Prop := {
  boost_split_join : forall d s, join d (boost_split (Z.eqb d) s) = s;
  boost_split_nonempty : forall d s, boost_split (Z.eqb d) s <> [];
  boost_split_free : forall d s, Forall (fun p => d ∉ p) (boost_split (Z.eqb d) s)
}.

(** A reference implementation, used to instantiate the interface. *)
Fixpoint split_on (p : Z -> bool) (s : bytes) : list bytes :=
  match s with
  | [] => [[]]
  | c :: s =>
      if p c then [] :: split_on p s
      else match split_on p s with
           | [] => [[c]]
           | piece :: rest => (c :: piece) :: rest
           end
  end.

Lemma split_on_nonempty p s : split_on p s <> [].
Proof. destruct s; simpl; [done|]. repeat split_if; done. Qed.

Lemma split_on_join d s : join d (split_on (Z.eqb d) s) = s.
Proof.
  induction s as [|c s IH]; [done|]. simpl. pose proof (split_on_nonempty (Z.eqb d) s).
  destruct (split_on (Z.eqb d) s) as [|piece rest] eqn:E; [done|].
  destruct (d =? c) eqn:Ec; to_prop.
  - rewrite <- Ec. simpl. simpl in IH. by rewrite IH.
  - destruct rest; simpl in IH |- *; by rewrite IH.
Qed.

Lemma split_on_free d s : Forall (fun p => d ∉ p) (split_on (Z.eqb d) s).
Proof.
  induction s as [|c s IH]; simpl; [repeat constructor; set_solver|].
  destruct (d =? c) eqn:Ec; to_prop; [constructor; [set_solver | done]|].
  destruct (split_on (Z.eqb d) s) as [|piece rest]; inversion_clear IH; repeat constructor; set_solver.
Qed.

(** ** A concrete instance of the interfaces

    Messages of a fixed layout (type, length, source, destination, body), used
    to evaluate the model on concrete inputs. *)
Module Sample.

Record msg : Type := MkMsg {
  m_type : Z;
  m_src : Z;
  m_dest : Z;
  m_body : bytes
}.

Inductive field : Type := FSrc | FDest.

Definition encode (m : msg) : bytes :=
  m_type m :: Z.of_nat (length (m_body m)) :: m_src m :: m_dest m :: m_body m.

Definition decode (s : bytes) : option msg :=
  match s with
  | t :: n :: sr :: de :: body =>
      if (Z.to_nat n <=? length body)%nat then Some (MkMsg t sr de (take (Z.to_nat n) body)) else None
  | _ => None
  end.

Definition decode_head (s : bytes) : option msg :=
  match s with
  | t :: _ :: sr :: de :: _ => Some (MkMsg t sr de [])
  | _ => None
  end.

Definition protobuf : Protobuf := {|
  Msg := msg;
  Descriptor := Z;
  FieldDescriptor := field;
  GetDescriptor := m_type;
  full_name := fun d => [d];
  FindFieldByName := fun _ n =>
    if bool_decide (n = B "src") then Some FSrc
    else if bool_decide (n = B "dest") then Some FDest else None;
  is_repeated := fun _ => false;
  is_message_type := fun _ => false;
  get_value := fun f m => match f with FSrc => AnyInt32 (m_src m) | FDest => AnyInt32 (m_dest m) end;
  new_protobuf_message := fun d => MkMsg d 0 0 [];
  IsInitialized := fun _ => true
|}.

Definition codec : @DCCLCodec protobuf :=
  Build_DCCLCodec protobuf (fun d : Z => d) (fun _ => true)
    (fun m : msg => 4 + Z.of_nat (length (m_body m)))
    (fun _ m => Some (encode m))
    (fun _ m => Some (take 4 (encode m)))
    (fun _ s => decode s)
    (fun _ s => decode_head s).

Definition codec_laws : @DCCLCodecLaws protobuf codec.
Proof.
  constructor; [intros m; simpl; lia|]. intros pass m b. simpl. intros [= <-].
  unfold encode. simpl. lia.
Qed.

Definition text : BoostText := {|
  boost_split := split_on;
  ptime_of_string := fun _ => 0
|}.

Definition text_laws : @BoostTextLaws text :=
  Build_BoostTextLaws text split_on_join (fun d s => split_on_nonempty (Z.eqb d) s) split_on_free.

(** a queue configuration: acknowledged, newest first, two messages at most *)
Definition entry : QueuedMessageEntry :=
  MkEntry (B "sample") true 0 2 true 1800 (double_of_Z 1) []
    [MkRole DESTINATION_ID FIELD_VALUE (B "dest") None;
     MkRole SOURCE_ID FIELD_VALUE (B "src") None].

End Sample.
