(* ===== verification/Queue.v ===== *)
(** * acomms/queue/queue.{h,cpp}: one DCCL message queue

    [messages_] is a [std::list] whose nodes are referred to by the iterators
    of [waiting_for_ack_]: a node carries an identity, drawn from a counter when
    it is pushed, and the multimap holds identities. Where the source would
    dereference an iterator that does not point to a node the model returns
    [None]. Times are microseconds; [now] is the value of [goby_time()]. *)

From Stdlib Require Import SpecFloat.
From S2P Require Import Prelude Double Proto.

Inductive QueueException : Type :=
| InvalidRoleType
| NoSuchField
| RepeatedRoleField
| ChildOfNonMessage
| StaticWithoutValue
| StaticTimestamp
| RoleAssignedTwice
| NoQueueForMessage
| FailedDCCLValidation.

Section Queue.
Context `{P : Protobuf} `{D : !DCCLCodec} `{T : BoostText}.

Record QueuedMessage : Type := MkQueued {
  dccl_msg : Msg;
  meta : QueuedMessageMeta
}.

(** What the owner of the queue observes through its signals. *)
Inductive Event : Type :=
| SigReceive (m : Msg)
| SigAck (ack : ModemTransmission) (m : Msg)
| SigExpire (m : Msg)
| SigQueueSize (dccl_id : Z) (size : nat)
| SigInRoute (mt : QueuedMessageMeta) (m : Msg) (modem_id : Z).

Record Queue : Type := MkQueue {
  q_desc : Descriptor;
  q_cfg : QueuedMessageEntry;
  q_roles : list (RoleType * bytes);
  q_last_send_time : Z;
  q_messages : list (nat * QueuedMessage);
  q_waiting_for_ack : list (Z * nat);
  q_static_meta : QueuedMessageMeta;
  q_next_node : nat
}.

Definition set_q_desc (v : Descriptor) (r : Queue) : Queue :=
  MkQueue v (q_cfg r) (q_roles r) (q_last_send_time r) (q_messages r) (q_waiting_for_ack r)
    (q_static_meta r) (q_next_node r).
Definition set_q_cfg (v : QueuedMessageEntry) (r : Queue) : Queue :=
  MkQueue (q_desc r) v (q_roles r) (q_last_send_time r) (q_messages r) (q_waiting_for_ack r)
    (q_static_meta r) (q_next_node r).
Definition set_q_roles (v : list (RoleType * bytes)) (r : Queue) : Queue :=
  MkQueue (q_desc r) (q_cfg r) v (q_last_send_time r) (q_messages r) (q_waiting_for_ack r)
    (q_static_meta r) (q_next_node r).
Definition set_q_last_send_time (v : Z) (r : Queue) : Queue :=
  MkQueue (q_desc r) (q_cfg r) (q_roles r) v (q_messages r) (q_waiting_for_ack r)
    (q_static_meta r) (q_next_node r).
Definition set_q_messages (v : list (nat * QueuedMessage)) (r : Queue) : Queue :=
  MkQueue (q_desc r) (q_cfg r) (q_roles r) (q_last_send_time r) v (q_waiting_for_ack r)
    (q_static_meta r) (q_next_node r).
Definition set_q_waiting_for_ack (v : list (Z * nat)) (r : Queue) : Queue :=
  MkQueue (q_desc r) (q_cfg r) (q_roles r) (q_last_send_time r) (q_messages r) v
    (q_static_meta r) (q_next_node r).
Definition set_q_static_meta (v : QueuedMessageMeta) (r : Queue) : Queue :=
  MkQueue (q_desc r) (q_cfg r) (q_roles r) (q_last_send_time r) (q_messages r)
    (q_waiting_for_ack r) v (q_next_node r).
Definition set_q_next_node (v : nat) (r : Queue) : Queue :=
  MkQueue (q_desc r) (q_cfg r) (q_roles r) (q_last_send_time r) (q_messages r)
    (q_waiting_for_ack r) (q_static_meta r) v.

Definition size (q : Queue) : nat := length (q_messages q).

Definition newest_msg_time (q : Queue) : Z :=
  match last (q_messages q) with
  | Some (_, m) => meta_time (meta m)
  | None => 0
  end.

Definition id (q : Queue) : Z := codec_id (q_desc q).

(** ** Roles *)

(** [roles_[r]]: the empty string when the role is not configured *)
Definition role_of (r : RoleType) (roles : list (RoleType * bytes)) : bytes :=
  match List.find (fun e => bool_decide (fst e = r)) roles with
  | Some (_, f) => f
  | None => []
  end.

(** the loop of [find_queue_field] over the components of the name *)
Fixpoint find_queue_field_loop (field_names : list bytes) (current_msg : Msg)
  : result QueueException (any Msg) :=
  match field_names with
  | [] => Ok AnyEmpty
  | field_name :: rest =>
      match FindFieldByName (GetDescriptor current_msg) field_name with
      | None => Err NoSuchField
      | Some field_desc =>
          if is_repeated field_desc then Err RepeatedRoleField
          else match rest with
          | [] => Ok (get_value field_desc current_msg)
          | _ :: _ =>
              if negb (is_message_type field_desc) then Err ChildOfNonMessage
              else match get_value field_desc current_msg with
                   | AnyMessage m => find_queue_field_loop rest m
                   | _ => Ok AnyEmpty
                   end
          end
      end
  end.

Definition find_queue_field (field_name : bytes) (msg : Msg) : result QueueException (any Msg) :=
  find_queue_field_loop (boost_split (Z.eqb 46) field_name) msg.

(** an address taken from a field: converted to [int], broadcast when absent *)
Definition address_of_any (v : any Msg) : result QueueException Z :=
  match v with
  | AnyInt32 z | AnyInt64 z | AnyUint32 z | AnyUint64 z => Ok (s32 z)
  | AnyEmpty => Ok BROADCAST_ID
  | _ => Err InvalidRoleType
  end.

(** the time stamp taken from a field, [None] when the field is absent *)
Definition time_of_any (v : any Msg) : result QueueException (option Z) :=
  match v with
  | AnyUint64 z => Ok (Some z)
  | AnyDouble d =>
      Ok (Some (u64 (double_to_Z (dmul (double_of_Z (u64 (double_to_Z d))) d1e6))))
  | AnyString s => Ok (Some (ptime_of_string s))
  | AnyEmpty => Ok None
  | _ => Err InvalidRoleType
  end.

Definition meta_from_msg (q : Queue) (msg : Msg) : result QueueException QueuedMessageMeta :=
  let m := set_qm_non_repeated_size (Some (codec_size msg)) (q_static_meta q) in
  let? m :=
    if bool_decide (role_of DESTINATION_ID (q_roles q) = []) then Ok m
    else let? v := find_queue_field (role_of DESTINATION_ID (q_roles q)) msg in
         let? d := address_of_any v in Ok (set_qm_dest (Some d) m) in
  let? m :=
    if bool_decide (role_of SOURCE_ID (q_roles q) = []) then Ok m
    else let? v := find_queue_field (role_of SOURCE_ID (q_roles q)) msg in
         let? s := address_of_any v in Ok (set_qm_src (Some s) m) in
  if bool_decide (role_of TIMESTAMP (q_roles q) = []) then Ok m
  else let? v := find_queue_field (role_of TIMESTAMP (q_roles q)) msg in
       let? t := time_of_any v in
       Ok (match t with Some t => set_qm_time (Some t) m | None => m end).

(** ** Configuration *)

Fixpoint process_roles (new_msg : Msg) (rs : list Role) (roles : list (RoleType * bytes))
    (static_meta : QueuedMessageMeta)
  : result QueueException (list (RoleType * bytes) * QueuedMessageMeta) :=
  match rs with
  | [] => Ok (roles, static_meta)
  | r :: rs =>
      let? (rfield, static_meta) :=
        match role_setting r with
        | STATIC =>
            match role_static_value r with
            | None => Err StaticWithoutValue
            | Some v =>
                match role_type r with
                | DESTINATION_ID => Ok ([], set_qm_dest (Some v) static_meta)
                | SOURCE_ID => Ok ([], set_qm_src (Some v) static_meta)
                | TIMESTAMP => Err StaticTimestamp
                end
            end
        | FIELD_VALUE =>
            let? _ := find_queue_field (role_field r) new_msg in
            Ok (role_field r, static_meta)
        end in
      if bool_decide (Exists (fun e => fst e = role_type r) roles) then Err RoleAssignedTwice
      else process_roles new_msg rs (roles ++ [(role_type r, rfield)]) static_meta
  end.

Definition process_cfg (q : Queue) : result QueueException Queue :=
  let? (roles, static_meta) :=
    process_roles (new_protobuf_message (q_desc q)) (cfg_role (q_cfg q)) [] empty_meta in
  Ok (set_q_roles roles (set_q_static_meta static_meta q)).

Definition set_cfg (cfg : QueuedMessageEntry) (q : Queue) : result QueueException Queue :=
  process_cfg (set_q_cfg cfg q).

(** the constructor *)
Definition new_queue (now : Z) (desc : Descriptor) (cfg : QueuedMessageEntry)
  : result QueueException Queue :=
  process_cfg (MkQueue desc cfg [] now [] [] empty_meta 0).

(** ** Acknowledgement bookkeeping *)

Definition find_ack_value (w : list (Z * nat)) (node : nat) : option (Z * nat) :=
  List.find (fun e => Nat.eqb (snd e) node) w.

Definition is_waiting (w : list (Z * nat)) (node : nat) : bool :=
  match find_ack_value w node with Some _ => true | None => false end.

(** if the node was waiting for an acknowledgement, forget that *)
Definition erase_ack (w : list (Z * nat)) (node : nat) : list (Z * nat) :=
  remove_first (fun e => Nat.eqb (snd e) node) w.

Definition lookup_node (node : nat) (ms : list (nat * QueuedMessage)) : option QueuedMessage :=
  match List.find (fun e => Nat.eqb (fst e) node) ms with
  | Some (_, m) => Some m
  | None => None
  end.

Definition erase_node (node : nat) (ms : list (nat * QueuedMessage)) : list (nat * QueuedMessage) :=
  remove_first (fun e => Nat.eqb (fst e) node) ms.

Definition update_node (node : nat) (m : QueuedMessage) (ms : list (nat * QueuedMessage))
  : list (nat * QueuedMessage) :=
  map (fun e => if Nat.eqb (fst e) node then (fst e, m) else e) ms.

(** ** Pushing *)

(** the parent's side of [push_message]: manipulators and addresses *)
Record Parent : Type := MkParent {
  p_has : Z -> Manipulator -> bool;
  p_modem_id : Z;
  p_cfg_modem_id : Z;
  p_minimum_ack_wait_seconds : double;
  p_out_route : QueuedMessageMeta -> Msg -> Z -> QueuedMessageMeta
}.

(** the message dropped when the queue is over its limit *)
Definition node_to_erase (newest_first : bool) (ms : list (nat * QueuedMessage)) : option nat :=
  if newest_first then fst <$> head ms else fst <$> last ms.

Definition enforce_max_queue (q : Queue) : Queue :=
  if negb (cfg_max_queue (q_cfg q) =? 0) && (cfg_max_queue (q_cfg q) <? Z.of_nat (size q))
  then match node_to_erase (cfg_newest_first (q_cfg q)) (q_messages q) with
       | Some node =>
           set_q_messages (erase_node node (q_messages q))
             (set_q_waiting_for_ack (erase_ack (q_waiting_for_ack q) node) q)
       | None => q
       end
  else q.

Definition push_message_meta (p : Parent) (now : Z) (m : Msg) (mt : QueuedMessageMeta) (q : Queue)
  : Queue * list Event * bool :=
  let ev0 :=
    if p_has p (id q) LOOPBACK && negb (bool_decide (is_Some (qm_encoded_message mt)))
    then [SigReceive m] else [] in
  let mt := p_out_route p mt m (p_cfg_modem_id p) in
  if p_has p (id q) NO_QUEUE then (q, ev0, true)
  else if meta_dest mt =? p_modem_id p then
    let ack_msg :=
      set_mt_type (Some ACK) (set_mt_dest (Some (meta_dest mt)) (set_mt_src (Some (meta_dest mt))
        (set_mt_time (Some now) empty_transmission))) in
    (q, ev0 ++ [SigReceive m]
        ++ (if meta_ack mt || cfg_ack (q_cfg q) then [SigAck ack_msg m] else []), true)
  else
    let mt := match qm_time mt with None => set_qm_time (Some now) mt | _ => mt end in
    if meta_size mt =? 0 then (q, ev0, false)
    else
      let mt := match qm_ack_requested mt with
                | None => set_qm_ack_requested (Some (cfg_ack (q_cfg q))) mt | _ => mt end in
      let q := set_q_messages (q_messages q ++ [(q_next_node q, MkQueued m mt)])
                 (set_q_next_node (S (q_next_node q)) q) in
      (enforce_max_queue q, ev0, true).

Definition push_message (p : Parent) (now : Z) (m : Msg) (q : Queue)
  : result QueueException (Queue * list Event * bool) :=
  let? mt := meta_from_msg q m in Ok (push_message_meta p now m mt q).

(** ** Sending *)

(** the order in which [next_message_it] and [pop_message] look at the messages *)
Definition send_order (q : Queue) : list (nat * QueuedMessage) :=
  if cfg_newest_first (q_cfg q) then rev (q_messages q) else q_messages q.

Definition next_message_it (q : Queue) : option (nat * QueuedMessage) :=
  List.find (fun e => negb (is_waiting (q_waiting_for_ack q) (fst e))) (send_order q).

Definition give_data (now frame : Z) (q : Queue) : option (Queue * QueuedMessage) :=
  match next_message_it q with
  | None => None
  | Some (node, m) =>
      let ack := meta_ack (meta m) && negb (meta_dest (meta m) =? BROADCAST_ID) in
      let mt := set_qm_last_sent_time (Some now) (set_qm_ack_requested (Some ack) (meta m)) in
      let m := MkQueued (dccl_msg m) mt in
      let w := if ack then mm_insert frame node (q_waiting_for_ack q) else q_waiting_for_ack q in
      Some (set_q_last_send_time now (set_q_waiting_for_ack w
              (set_q_messages (update_node node m (q_messages q)) q)), m)
  end.

(** common/time.h: [time_duration2double], for a duration in microseconds *)
Definition time_duration2double (us : Z) : double :=
  if (2147483647 / 3600) <? Z.quot us 3600000000 then S754_infinity false
  else dadd (double_of_Z (Z.quot us 1000000))
            (ddiv (double_of_Z (Z.rem us 1000000)) (double_of_Z 1000000)).

Definition priority_value (now : Z) (q : Queue) : double :=
  dmul (ddiv (time_duration2double (now - q_last_send_time q)) (double_of_Z (cfg_ttl (q_cfg q))))
       (cfg_value_base (q_cfg q)).

(** can the next message go in this frame? ([data_size] is [data.size()]) *)
Definition message_fits (now : Z) (q : Queue) (request_msg : ModemTransmission) (data_size : Z)
    (next_msg : QueuedMessageMeta) : bool :=
  if now <? q_last_send_time q + cfg_blackout_time (q_cfg q) * 1000000 then false
  else if has_max_frame_bytes request_msg
          && (u64 (max_frame_bytes request_msg - data_size) <? meta_size next_msg) then false
  else if has_dest request_msg
          && negb ((dest request_msg =? QUERY_DESTINATION_ID)
                   || (meta_dest next_msg =? BROADCAST_ID)
                   || (dest request_msg =? meta_dest next_msg)) then false
  else if has_ack_requested request_msg && negb (ack_requested request_msg)
          && meta_ack next_msg && negb (dest request_msg =? BROADCAST_ID) then false
  else true.

(** the priority, the last send time, and whether the queue competes *)
Definition get_priority_values (now : Z) (q : Queue) (request_msg : ModemTransmission)
    (data_size : Z) : option (double * Z * bool) :=
  if (size q <=? length (q_waiting_for_ack q))%nat
  then Some (priority_value now q, q_last_send_time q, false)
  else match next_message_it q with
       | None => None
       | Some (_, m) =>
           Some (priority_value now q, q_last_send_time q,
                 message_fits now q request_msg data_size (meta m))
       end.

(** ** Removing *)

(** [None] on an empty list, whose "back" iterator the source would dereference *)
Definition pop_message (q : Queue) : option (Queue * bool) :=
  match q_messages q with
  | [] => None
  | _ =>
      match List.find (fun e => negb (meta_ack (meta (snd e)))) (send_order q) with
      | Some (node, _) => Some (set_q_messages (erase_node node (q_messages q)) q, true)
      | None => Some (q, false)
      end
  end.

(** the inner [option] is the boolean of the source with [removed_msg] *)
Definition pop_message_ack (frame : Z) (q : Queue) : option (Queue * option Msg) :=
  match List.find (fun e => fst e =? frame) (q_waiting_for_ack q) with
  | None => Some (q, None)
  | Some (_, node) =>
      match lookup_node node (q_messages q) with
      | None => None
      | Some m =>
          Some (set_q_messages (erase_node node (q_messages q))
                  (set_q_waiting_for_ack
                     (remove_first (fun e => fst e =? frame) (q_waiting_for_ack q)) q),
                Some (dccl_msg m))
      end
  end.

Definition expired (now ttl : Z) (m : QueuedMessage) : bool :=
  meta_time (meta m) + ttl * 1000000 <? now.

Fixpoint expire_loop (now ttl : Z) (ms : list (nat * QueuedMessage)) (w : list (Z * nat))
  : list (nat * QueuedMessage) * list (Z * nat) * list Msg :=
  match ms with
  | [] => ([], w, [])
  | (node, m) :: rest =>
      if expired now ttl m then
        let '(ms', w', ex) := expire_loop now ttl rest (erase_ack w node) in
        (ms', w', dccl_msg m :: ex)
      else (ms, w, [])
  end.

Definition expire (now : Z) (q : Queue) : Queue * list Msg :=
  let '(ms, w, ex) := expire_loop now (cfg_ttl (q_cfg q)) (q_messages q) (q_waiting_for_ack q) in
  (set_q_messages ms (set_q_waiting_for_ack w q), ex).

Definition flush (q : Queue) : Queue := set_q_messages [] (set_q_waiting_for_ack [] q).

(** must the entry be dropped by [clear_ack_queue]? *)
Definition ack_wait_over (p : Parent) (now start_frame : Z) (q : Queue) (e : Z * nat) : bool :=
  if start_frame <=? fst e then true
  else match lookup_node (snd e) (q_messages q) with
       | None => false
       | Some m =>
           dlt (dadd (double_of_Z (meta_last_sent (meta m)))
                     (dmul (p_minimum_ack_wait_seconds p) d1e6)) (double_of_Z now)
       end.

Definition clear_ack_queue (p : Parent) (now start_frame : Z) (q : Queue) : Queue * bool :=
  let w := List.filter (fun e => negb (ack_wait_over p now start_frame q e)) (q_waiting_for_ack q) in
  (set_q_waiting_for_ack w q, bool_decide (w = [])).

End Queue.

(** ** The invariant of a queue *)

Section Invariant.
Context `{P : Protobuf} `{D : !DCCLCodec} `{T : BoostText}.

(** [waiting_for_ack_] holds each node at most once, only nodes of the list
    (no dangling iterator), and only messages that ask for an acknowledgement
    and have a destination that can give one. *)
Record queue_wf (q : Queue) : Prop := {
  wf_nodes : NoDup (map fst (q_messages q));
  wf_fresh : Forall (fun n => (n < q_next_node q)%nat) (map fst (q_messages q));
  wf_acks : NoDup (map snd (q_waiting_for_ack q));
  wf_waiting : forall f n, (f, n) ∈ q_waiting_for_ack q ->
    exists m, (n, m) ∈ q_messages q /\ meta_ack (meta m) = true
              /\ meta_dest (meta m) <> BROADCAST_ID;
  wf_sizes : forall n m, (n, m) ∈ q_messages q -> meta_size (meta m) <> 0
}.

(** at most [max_queue] messages (zero: no limit) *)
Definition queue_bounded (q : Queue) : Prop :=
  cfg_max_queue (q_cfg q) = 0 \/ Z.of_nat (size q) <= cfg_max_queue (q_cfg q).

Implicit Types q : Queue.

Lemma is_waiting_spec w n : is_waiting w n = true <-> n ∈ map (@snd Z nat) w.
Proof.
  unfold is_waiting, find_ack_value. destruct (List.find _ w) as [e|] eqn:E.
  - split; [|done]. intros _. apply (find_key_elem_of snd) in E as [? <-].
    apply list_elem_of_fmap. eauto.
  - apply (find_key_None snd) in E. split; [done | intros; done].
Qed.

Lemma send_order_perm q : send_order q ≡ₚ q_messages q.
Proof. unfold send_order. destruct (cfg_newest_first _); [symmetry; apply Permutation_rev | done]. Qed.

Lemma send_order_elem_of q e : e ∈ send_order q <-> e ∈ q_messages q.
Proof. by rewrite send_order_perm. Qed.

Lemma next_message_elem_of q node m :
  next_message_it q = Some (node, m) ->
  (node, m) ∈ q_messages q /\ node ∉ map snd (q_waiting_for_ack q).
Proof.
  intros H. apply find_elem_of in H as [H1 H2]. rewrite send_order_elem_of in H1. split; [done|].
  intros Hin. apply is_waiting_spec in Hin. simpl in H2. rewrite Hin in H2. done.
Qed.

(** One node fewer in the list, and no longer waiting. *)
Lemma erase_node_wf q node w :
  queue_wf q -> NoDup (map snd w) ->
  (forall f n, (f, n) ∈ w -> (f, n) ∈ q_waiting_for_ack q /\ n <> node) ->
  queue_wf (set_q_messages (erase_node node (q_messages q)) (set_q_waiting_for_ack w q)).
Proof.
  intros [W1 W2 W3 W4 W5] Hw Hsub. constructor; simpl.
  - by apply remove_key_NoDup.
  - unfold erase_node. rewrite remove_key_map. rewrite Forall_forall in *.
    intros n Hn. apply remove_first_elem_of in Hn. auto.
  - done.
  - intros f n Hn. destruct (Hsub f n Hn) as [Hq Hne].
    destruct (W4 f n Hq) as (m & Hm & ?). exists m. split; [|done].
    apply (remove_key_elem_of fst); auto.
  - intros n m Hm. apply (remove_key_elem_of fst) in Hm as [Hm _]; eauto.
Qed.

Lemma erase_ack_elem_of w node f n :
  NoDup (map snd w) -> (f, n) ∈ erase_ack w node -> (f, n) ∈ w /\ n <> node.
Proof. intros Hn H. apply (remove_key_elem_of snd) in H; auto. Qed.

Lemma erase_ack_NoDup w node :
  NoDup (map (@snd Z nat) w) -> NoDup (map snd (erase_ack w node)).
Proof. apply remove_key_NoDup. Qed.

Lemma erase_both_wf q node :
  queue_wf q ->
  queue_wf (set_q_messages (erase_node node (q_messages q))
             (set_q_waiting_for_ack (erase_ack (q_waiting_for_ack q) node) q)).
Proof.
  intros W. apply erase_node_wf; [done | apply erase_ack_NoDup, W |].
  intros f n. apply erase_ack_elem_of, W.
Qed.

Lemma append_wf q m :
  queue_wf q -> meta_size (meta m) <> 0 ->
  queue_wf (set_q_messages (q_messages q ++ [(q_next_node q, m)])
             (set_q_next_node (S (q_next_node q)) q)).
Proof.
  intros [W1 W2 W3 W4 W5] Hm. constructor; simpl; auto.
  - rewrite map_app. simpl. apply NoDup_app. repeat split; [done | | apply NoDup_singleton].
    intros n Hn Hn'. rewrite Forall_forall in W2. apply W2 in Hn.
    apply list_elem_of_singleton in Hn'. lia.
  - rewrite map_app, Forall_app. split; [|repeat constructor; lia].
    eapply Forall_impl; [exact W2 | simpl; lia].
  - intros f n Hn. destruct (W4 f n Hn) as (m' & ? & ?). exists m'. split; [set_solver | done].
  - intros n m' Hn. apply elem_of_app in Hn as [Hn|Hn]; [eauto|].
    apply list_elem_of_singleton in Hn. congruence.
Qed.

Lemma enforce_max_queue_wf q : queue_wf q -> queue_wf (enforce_max_queue q).
Proof.
  intros W. unfold enforce_max_queue. repeat split_if; auto. by apply erase_both_wf.
Qed.

Lemma push_message_meta_wf p now m mt q q' evs b :
  queue_wf q -> push_message_meta p now m mt q = (q', evs, b) -> queue_wf q'.
Proof.
  intros W. unfold push_message_meta. cbv zeta.
  destruct (p_has p (id q) NO_QUEUE); [intros [= <- _ _]; done|].
  destruct (_ =? p_modem_id p); [intros [= <- _ _]; done|].
  destruct (meta_size _ =? 0) eqn:E; [intros [= <- _ _]; done|].
  intros [= <- _ _]. apply enforce_max_queue_wf, append_wf; [done|]. to_prop.
  simpl. destruct (qm_ack_requested _); done.
Qed.

Lemma update_node_fst node m ms : map fst (update_node node m ms) = map fst ms.
Proof.
  unfold update_node. rewrite map_map. apply map_ext. intros [n x]. simpl. by destruct (Nat.eqb n node).
Qed.

Lemma update_node_elem_of node m ms n x :
  (n, x) ∈ update_node node m ms ->
  ((n, x) ∈ ms /\ n <> node) \/ (n = node /\ x = m /\ exists y, (node, y) ∈ ms).
Proof.
  unfold update_node. intros H. apply list_elem_of_fmap in H as [[n' x'] [E H]]. simpl in E.
  destruct (Nat.eqb_spec n' node); injection E as -> ->; subst; eauto.
Qed.

Lemma update_node_mem node m ms n x :
  (n, x) ∈ ms -> (n, if Nat.eqb n node then m else x) ∈ update_node node m ms.
Proof.
  intros H. unfold update_node. apply list_elem_of_fmap. exists (n, x). split; [|done].
  simpl. by destruct (Nat.eqb n node).
Qed.

Lemma give_data_wf now frame q q' m :
  queue_wf q -> give_data now frame q = Some (q', m) -> queue_wf q'.
Proof.
  intros [W1 W2 W3 W4 W5]. unfold give_data. destruct (next_message_it q) as [[node m0]|] eqn:E; [|done].
  apply next_message_elem_of in E as [Hin Hnw].
  set (ack := meta_ack _ && _). intros [= <- <-]. constructor; simpl.
  - by rewrite update_node_fst.
  - by rewrite update_node_fst.
  - destruct ack; [|done]. rewrite mm_insert_perm. simpl. by apply NoDup_cons.
  - intros f n Hn.
    assert (Hc : (n = node /\ ack = true) \/ (n <> node /\ (f, n) ∈ q_waiting_for_ack q)).
    { destruct ack.
      - rewrite mm_insert_perm in Hn. apply elem_of_cons in Hn as [[= -> ->]|Hn]; [auto|].
        right. split; [|done]. intros ->. apply Hnw, list_elem_of_fmap. eexists (_, _). eauto.
      - right. split; [|done]. intros ->. apply Hnw, list_elem_of_fmap. eexists (_, _). eauto. }
    destruct Hc as [[-> Hack]|[Hne Hn']].
    + eexists. split; [apply (update_node_mem node _ _ node m0 Hin)|]. rewrite Nat.eqb_refl. simpl.
      pose proof Hack as Hd. unfold ack in Hd. apply andb_true_iff in Hd as [_ Hd]. to_prop.
      split; [exact Hack | done].
    + destruct (W4 f n Hn') as (x & Hx & ?). exists x. split; [|done].
      pose proof (update_node_mem node (MkQueued (dccl_msg m0) (set_qm_last_sent_time (Some now)
        (set_qm_ack_requested (Some ack) (meta m0)))) _ n x Hx) as Hu.
      destruct (Nat.eqb_spec n node); [done | exact Hu].
  - intros n x Hx. apply update_node_elem_of in Hx as [[Hx _]|(-> & -> & _)]; [eauto|].
    simpl. eapply W5, Hin.
Qed.

Lemma lookup_node_spec q n m :
  NoDup (map fst (q_messages q)) ->
  lookup_node n (q_messages q) = Some m <-> (n, m) ∈ q_messages q.
Proof.
  intros Hn. unfold lookup_node. split.
  - destruct (List.find _ _) as [[n' m']|] eqn:E; [|done]. intros [= ->].
    apply (find_key_elem_of fst) in E as [? E]. simpl in E. by subst.
  - intros H. rewrite (find_key_unique fst n _ (n, m)); auto.
Qed.

(** A waiting node can always be dereferenced. *)
Lemma waiting_lookup q f n :
  queue_wf q -> (f, n) ∈ q_waiting_for_ack q ->
  exists m, lookup_node n (q_messages q) = Some m /\ (n, m) ∈ q_messages q
    /\ meta_ack (meta m) = true.
Proof.
  intros W H. destruct (wf_waiting q W f n H) as (m & Hm & ? & _). exists m.
  rewrite lookup_node_spec by apply W. auto.
Qed.

Lemma pop_message_wf q q' b : queue_wf q -> pop_message q = Some (q', b) -> queue_wf q'.
Proof.
  intros W. unfold pop_message. destruct (q_messages q) as [|x l] eqn:Eq; [done|].
  destruct (List.find _ _) as [[node m]|] eqn:E; [|intros [= <- _]; done].
  intros [= <- _]. apply find_elem_of in E as [Hin Hack]. rewrite send_order_elem_of in Hin.
  simpl in Hack. to_prop. rewrite <- Eq.
  apply (erase_node_wf q node (q_waiting_for_ack q)); [done | apply W |].
  intros f n Hn. split; [done|]. intros ->.
  destruct (wf_waiting q W f node Hn) as (m' & Hm' & Hack' & _).
  assert (m' = m); [|congruence].
  rewrite <- (lookup_node_spec q) in Hin by apply W.
  rewrite <- (lookup_node_spec q) in Hm' by apply W. congruence.
Qed.

Lemma remove_frame_waiting w frame f0 node :
  NoDup (map (@snd Z nat) w) ->
  List.find (fun e => fst e =? frame) w = Some (f0, node) ->
  NoDup (map snd (remove_first (fun e => fst e =? frame) w)) /\
  forall f n, (f, n) ∈ remove_first (fun e => fst e =? frame) w -> (f, n) ∈ w /\ n <> node.
Proof.
  intros Hn E. pose proof (remove_first_perm _ _ _ E) as Hp.
  assert (Hn' : NoDup (map snd ((f0, node) :: remove_first (fun e => fst e =? frame) w)))
    by (rewrite <- Hp; done).
  simpl in Hn'. apply NoDup_cons in Hn' as [H1 H2]. split; [done|].
  intros f n H. split; [by apply remove_first_elem_of in H|].
  intros ->. apply H1, list_elem_of_fmap. eexists (_, _). eauto.
Qed.

Lemma pop_message_ack_wf frame q q' r :
  queue_wf q -> pop_message_ack frame q = Some (q', r) -> queue_wf q'.
Proof.
  intros W. unfold pop_message_ack.
  destruct (List.find _ _) as [[f0 node]|] eqn:E; [|intros [= <- _]; done].
  destruct (lookup_node _ _); [|done]. intros [= <- _].
  destruct (remove_frame_waiting _ _ _ _ (wf_acks q W) E). by apply erase_node_wf.
Qed.

(** With the invariant the acknowledgement of a frame is always processed. *)
Lemma pop_message_ack_defined frame q : queue_wf q -> is_Some (pop_message_ack frame q).
Proof.
  intros W. unfold pop_message_ack. destruct (List.find _ _) as [[f0 node]|] eqn:E; [|eauto].
  apply find_elem_of in E as [E _]. destruct (waiting_lookup q f0 node W E) as (m & -> & _). eauto.
Qed.

Lemma expire_loop_wf now q : forall ms w ms' w' ex,
  queue_wf (set_q_messages ms (set_q_waiting_for_ack w q)) ->
  expire_loop now (cfg_ttl (q_cfg q)) ms w = (ms', w', ex) ->
  queue_wf (set_q_messages ms' (set_q_waiting_for_ack w' q)).
Proof.
  induction ms as [|[node m] ms IH]; intros w ms' w' ex W; simpl; [intros [= <- <- _]; done|].
  destruct (expired _ _ _); [|intros [= <- <- _]; done].
  destruct (expire_loop _ _ ms _) as [[ms1 w1] ex1] eqn:E. intros [= <- <- _].
  eapply IH in E; [exact E|].
  pose proof (erase_both_wf _ node W) as W'.
  cbn [q_messages q_waiting_for_ack set_q_messages set_q_waiting_for_ack] in W'.
  unfold erase_node in W'. cbn [remove_first fst] in W'. rewrite Nat.eqb_refl in W'. exact W'.
Qed.

Lemma expire_wf now q q' ex : queue_wf q -> expire now q = (q', ex) -> queue_wf q'.
Proof.
  intros W. unfold expire. destruct (expire_loop _ _ _ _) as [[ms w] ex'] eqn:E.
  intros [= <- _]. eapply expire_loop_wf; [|exact E]. destruct q; exact W.
Qed.

Lemma flush_wf q : queue_wf q -> queue_wf (flush q).
Proof. intros W. constructor; simpl; try constructor; set_solver. Qed.

Lemma filter_sublist {A} (f : A -> bool) l : sublist (List.filter f l) l.
Proof. induction l as [|x l IH]; simpl; [constructor|]. split_if; by constructor. Qed.

Lemma clear_ack_queue_wf p now start q q' b :
  queue_wf q -> clear_ack_queue p now start q = (q', b) -> queue_wf q'.
Proof.
  intros [W1 W2 W3 W4 W5] [= <- _]. constructor; simpl; auto.
  - eapply sublist_NoDup; [exact W3|]. apply (fmap_sublist snd), filter_sublist.
  - intros f n Hn. apply list_elem_of_In, filter_In in Hn as [Hn _].
    apply list_elem_of_In in Hn. eauto.
Qed.

Lemma set_cfg_wf cfg q q' : queue_wf q -> set_cfg cfg q = Ok q' -> queue_wf q'.
Proof.
  intros [W1 W2 W3 W4 W5]. unfold set_cfg, process_cfg.
  destruct (process_roles _ _ _ _) as [[roles sm]|]; simpl; [|done]. intros [= <-].
  by constructor.
Qed.

(** ** Runs of a queue *)

(** Every operation of the class that changes it, with its arguments. *)
Inductive queue_step : Queue -> Queue -> Prop :=
| StepPush p now m q q' evs b :
    push_message p now m q = Ok (q', evs, b) -> queue_step q q'
| StepPushMeta p now m mt q q' evs b :
    push_message_meta p now m mt q = (q', evs, b) -> queue_step q q'
| StepGive now frame q q' m : give_data now frame q = Some (q', m) -> queue_step q q'
| StepPop q q' b : pop_message q = Some (q', b) -> queue_step q q'
| StepPopAck frame q q' r : pop_message_ack frame q = Some (q', r) -> queue_step q q'
| StepExpire now q q' ex : expire now q = (q', ex) -> queue_step q q'
| StepFlush q : queue_step q (flush q)
| StepClearAck p now start q q' b : clear_ack_queue p now start q = (q', b) -> queue_step q q'
| StepSetCfg cfg q q' : set_cfg cfg q = Ok q' -> queue_step q q'.

Definition queue_reachable (q : Queue) : Prop :=
  exists now desc cfg q0, new_queue now desc cfg = Ok q0 /\ rtc queue_step q0 q.

Lemma new_queue_wf now desc cfg q : new_queue now desc cfg = Ok q -> queue_wf q.
Proof.
  unfold new_queue, process_cfg. destruct (process_roles _ _ _ _) as [[? ?]|]; simpl; [|done].
  intros [= <-]. constructor; simpl; try constructor; set_solver.
Qed.

Lemma queue_step_wf q q' : queue_step q q' -> queue_wf q -> queue_wf q'.
Proof.
  intros S W. destruct S as [p now m q q' evs b H| | | | | | | |].
  - unfold push_message in H. destruct (meta_from_msg q m); simpl in H; [|done].
    injection H as H. by eapply push_message_meta_wf.
  - by eapply push_message_meta_wf.
  - by eapply give_data_wf.
  - by eapply pop_message_wf.
  - by eapply pop_message_ack_wf.
  - by eapply expire_wf.
  - by apply flush_wf.
  - by eapply clear_ack_queue_wf.
  - by eapply set_cfg_wf.
Qed.

Lemma reachable_wf q : queue_reachable q -> queue_wf q.
Proof.
  intros (now & desc & cfg & q0 & H0 & Hs). apply new_queue_wf in H0.
  induction Hs; eauto using queue_step_wf.
Qed.

(** C30: In every reachable state of a queue each message waits for at most one acknowledgement, and
    each entry of waiting_for_ack_ points to a message of the queue that asks for an acknowledgement
    and is not broadcast. *)
Theorem queue_no_dangling_acks q f n :
  queue_reachable q -> (f, n) ∈ q_waiting_for_ack q ->
  NoDup (map snd (q_waiting_for_ack q)) /\
  exists m, lookup_node n (q_messages q) = Some m /\
    meta_ack (meta m) = true /\ meta_dest (meta m) <> BROADCAST_ID.
Proof.
  intros R%reachable_wf H. split; [apply R|].
  destruct (wf_waiting q R f n H) as (m & Hm & ? & ?). exists m.
  rewrite lookup_node_spec by apply R. auto.
Qed.

End Invariant.

(** ** Sending *)

Section Sending.
Context `{P : Protobuf} `{D : !DCCLCodec} `{T : BoostText}.
Implicit Types q : Queue.

(** Pigeonhole: with more messages than pending acknowledgements one is free. *)
Lemma next_message_defined q :
  queue_wf q -> (length (q_waiting_for_ack q) < size q)%nat -> is_Some (next_message_it q).
Proof.
  intros W Hlt. destruct (next_message_it q) as [[n m]|] eqn:E; [eauto|exfalso].
  assert (Hincl : List.incl (map fst (q_messages q)) (map snd (q_waiting_for_ack q))).
  { intros n Hn. apply in_map_iff in Hn as [[n' m] [<- Hin]]. apply list_elem_of_In in Hin.
    rewrite <- send_order_elem_of in Hin. pose proof (find_none_elem_of _ _ _ E Hin) as Hw.
    simpl in Hw. to_prop. apply is_waiting_spec in Hw. by apply list_elem_of_In. }
  apply NoDup_incl_length in Hincl; [|apply NoDup_ListNoDup, W].
  rewrite !length_map in Hincl. unfold size in Hlt. lia.
Qed.

(** In a reachable state get_priority_values never dereferences a missing message, and a queue
    that competes has a next message, which is not waiting for an acknowledgement and fits the
    request. *)
Lemma get_priority_values_defined now q request data_size :
  queue_reachable q ->
  exists last_send ok, get_priority_values now q request data_size
      = Some (priority_value now q, last_send, ok)
    /\ (ok = true -> exists node m, next_message_it q = Some (node, m)
          /\ (node, m) ∈ q_messages q
          /\ (node ∉ map snd (q_waiting_for_ack q))
          /\ message_fits now q request data_size (meta m) = true).
Proof.
  intros W%reachable_wf. unfold get_priority_values.
  destruct (size q <=? _)%nat eqn:E; [eexists _, false; split; [reflexivity | done]|].
  apply Nat.leb_gt in E. destruct (next_message_defined q W E) as [[node m] Hn]. rewrite Hn.
  eexists _, _. split; [reflexivity|]. intros Hok. exists node, m.
  destruct (next_message_elem_of q node m Hn). auto.
Qed.

Lemma update_node_send_order q q' node m :
  q_cfg q' = q_cfg q -> q_messages q' = update_node node m (q_messages q) ->
  send_order q' = update_node node m (send_order q).
Proof.
  intros Hc Hm. unfold send_order. rewrite Hc, Hm. destruct (cfg_newest_first _); [|done].
  unfold update_node. symmetry. apply map_rev.
Qed.

Lemma erase_update_node node m ms :
  NoDup (map fst ms) -> erase_node node (update_node node m ms) = erase_node node ms.
Proof.
  unfold erase_node, update_node. induction ms as [|[n x] ms IH]; simpl; [done|].
  intros [Hn Hms]%NoDup_cons. destruct (Nat.eqb_spec n node) as [->|Hne]; simpl.
  - rewrite Nat.eqb_refl. rewrite <- (map_id ms) at 2. apply map_ext_in. intros [n' y] Hin. simpl.
    destruct (Nat.eqb_spec n' node) as [->|]; [|done]. destruct Hn.
    apply list_elem_of_fmap. exists (node, y). by rewrite list_elem_of_In.
  - destruct (Nat.eqb_spec n node); [done|]. by rewrite IH.
Qed.

(** The message just given is the one an unacknowledged send removes. *)
Lemma give_then_pop now frame q q' m :
  queue_wf q -> give_data now frame q = Some (q', m) -> meta_ack (meta m) = false ->
  exists node m0, next_message_it q = Some (node, m0) /\ dccl_msg m0 = dccl_msg m /\
    q_waiting_for_ack q' = q_waiting_for_ack q /\
    pop_message q' = Some (set_q_messages (erase_node node (q_messages q)) q', true).
Proof.
  intros W. unfold give_data. destruct (next_message_it q) as [[node m0]|] eqn:E; [|done].
  set (ack := meta_ack (meta m0) && _). set (m1 := MkQueued _ _). set (w := if ack then _ else _).
  intros [= <- <-] Hack. change (ack = false) in Hack.
  exists node, m0. repeat split; [unfold w; by rewrite Hack|].
  set (q' := set_q_last_send_time _ _).
  pose proof E as E'. apply find_split in E' as (l1 & l2 & Ho & _ & Hl1).
  assert (Ho' : send_order q' = update_node node m1 (send_order q))
    by (apply update_node_send_order; done).
  assert (Hfind : List.find (fun e => negb (meta_ack (meta (snd e)))) (send_order q') = Some (node, m1)).
  { apply find_split. rewrite Ho', Ho. unfold update_node. rewrite map_app. simpl.
    rewrite Nat.eqb_refl. eexists _, _. split; [reflexivity|]. split; [simpl; by rewrite Hack|].
    apply Forall_forall. intros e He. apply list_elem_of_fmap in He as [[n x] [-> He]].
    rewrite Forall_forall in Hl1. pose proof (Hl1 _ He) as Hx. simpl in Hx. to_prop.
    apply is_waiting_spec, list_elem_of_fmap in Hx as [[f n'] [En Hn]]. simpl in En. subst n'.
    destruct (waiting_lookup q f n W Hn) as (x' & Hx' & Hin & Ha).
    assert (n <> node).
    { intros ->. apply next_message_elem_of in E as [_ E]. apply E, list_elem_of_fmap. by exists (f, node). }
    assert (x' = x).
    { assert (Hi : (n, x) ∈ q_messages q) by (rewrite <- send_order_elem_of, Ho; set_solver).
      rewrite <- (lookup_node_spec q) in Hi by apply W. congruence. }
    subst. simpl. destruct (Nat.eqb_spec n node); [done|]. simpl. by rewrite Ha. }
  unfold pop_message. rewrite Hfind. change (q_messages q') with (update_node node m1 (q_messages q)).
  rewrite erase_update_node by apply W. destruct (update_node node m1 (q_messages q)) eqn:Em; [|done].
  apply (f_equal length) in Em. unfold update_node in Em. rewrite length_map in Em.
  apply next_message_elem_of in E as [E _]. destruct (q_messages q); [set_solver | done].
Qed.

(** The message given to the modem is the next unsent one; if it asks for an acknowledgement it
    stays queued and is entered for the frame, otherwise the following pop_message removes exactly
    that message. *)
Lemma give_data_sends_next now frame q q' m :
  queue_reachable q -> give_data now frame q = Some (q', m) ->
  exists node m0, next_message_it q = Some (node, m0) /\ dccl_msg m0 = dccl_msg m /\
    if meta_ack (meta m)
    then (frame, node) ∈ q_waiting_for_ack q' /\ (node ∉ map snd (q_waiting_for_ack q))
         /\ meta_dest (meta m) <> BROADCAST_ID
         /\ map fst (q_messages q') = map fst (q_messages q)
    else q_waiting_for_ack q' = q_waiting_for_ack q /\
         exists q'', pop_message q' = Some (q'', true)
                     /\ q_messages q'' = erase_node node (q_messages q).
Proof.
  intros W%reachable_wf H. destruct (meta_ack (meta m)) eqn:Hack.
  - unfold give_data in H. destruct (next_message_it q) as [[node m0]|] eqn:E; [|done].
    exists node, m0. injection H as <- <-.
    change (meta_ack (meta m0) && negb (meta_dest (meta m0) =? BROADCAST_ID) = true) in Hack.
    rewrite Hack. simpl. repeat split.
    + rewrite mm_insert_perm. set_solver.
    + apply (next_message_elem_of q node m0 E).
    + apply andb_true_iff in Hack as [_ Hd]. to_prop. done.
    + apply update_node_fst.
  - destruct (give_then_pop now frame q q' m W H Hack) as (node & m0 & ? & ? & ? & ?).
    exists node, m0. repeat split; auto. eexists. split; [eassumption | done].
Qed.

(** ** Overflow *)

Lemma erase_fresh_node n m ms :
  Forall (fun k => (k < n)%nat) (map fst ms) -> erase_node n (ms ++ [(n, m)]) = ms.
Proof.
  unfold erase_node. induction ms as [|[k x] ms IH]; simpl; [by rewrite Nat.eqb_refl|].
  intros F. inversion_clear F as [|? ? Hn F']. destruct (Nat.eqb_spec k n); [lia|].
  by rewrite IH.
Qed.

(** Pushing on a bounded queue keeps it within max_queue: with newest_first the oldest message
    is dropped for the new one, otherwise the new message is dropped although the push reports
    success. *)
Lemma push_on_full_queue p now m mt q :
  queue_reachable q -> queue_bounded q ->
  p_has p (id q) NO_QUEUE = false ->
  meta_dest (p_out_route p mt m (p_cfg_modem_id p)) <> p_modem_id p ->
  meta_size (p_out_route p mt m (p_cfg_modem_id p)) <> 0 ->
  let '(q', _, ok) := push_message_meta p now m mt q in
  exists new, dccl_msg (snd new) = m /\ ok = true /\ queue_bounded q' /\
    q_messages q' =
      if bool_decide (cfg_max_queue (q_cfg q) <> 0
                      /\ Z.of_nat (size q) = cfg_max_queue (q_cfg q))
      then if cfg_newest_first (q_cfg q) then tail (q_messages q ++ [new]) else q_messages q
      else q_messages q ++ [new].
Proof.
  intros W%reachable_wf Hb Hq Hd Hs. unfold push_message_meta. cbv zeta. rewrite Hq.
  apply Z.eqb_neq in Hd. rewrite Hd.
  set (mt1 := match qm_time _ with Some _ => _ | None => _ end).
  assert (Hs1 : (meta_size mt1 =? 0) = false).
  { apply Z.eqb_neq. unfold mt1. destruct (qm_time _); done. }
  rewrite Hs1. set (mt2 := match qm_ack_requested mt1 with Some _ => _ | None => _ end).
  exists (q_next_node q, MkQueued m mt2). split; [done|]. split; [done|].
  unfold enforce_max_queue, queue_bounded in *. simpl. unfold size in *. simpl.
  rewrite length_app. simpl. case_bool_decide as Hfull.
  - destruct Hfull as [Hm Hf]. destruct Hb as [Hb|Hb]; [done|].
    replace (cfg_max_queue (q_cfg q) =? 0) with false by (symmetry; apply Z.eqb_neq; lia).
    replace (cfg_max_queue (q_cfg q) <? _) with true by (symmetry; apply Z.ltb_lt; lia).
    cbn [negb andb]. unfold node_to_erase. destruct (cfg_newest_first (q_cfg q)) eqn:En.
    + destruct (q_messages q) as [|[n x] ms] eqn:Eq; [simpl in *; lia|]. simpl.
      unfold erase_node. simpl. rewrite Nat.eqb_refl. split; [|done].
      right. rewrite length_app. simpl in *. lia.
    + rewrite last_snoc. simpl. rewrite erase_fresh_node by apply W. split; [right; lia | done].
  - replace (negb _ && _) with false; [simpl; rewrite length_app; simpl; split; [|done]|].
    + destruct Hb as [Hb|Hb]; [by left|]. destruct (Z.eq_dec (cfg_max_queue (q_cfg q)) 0); [by left|].
      right. assert (Z.of_nat (length (q_messages q)) <> cfg_max_queue (q_cfg q)) by tauto. lia.
    + symmetry. destruct (cfg_max_queue (q_cfg q) =? 0) eqn:E0; [done|]. to_prop. cbn [negb andb]. apply Z.ltb_ge.
      destruct Hb as [Hb|Hb]; [done|].
      assert (Z.of_nat (length (q_messages q)) <> cfg_max_queue (q_cfg q)) by tauto. lia.
Qed.

(** ** Expiry *)

Lemma expire_loop_spec now ttl : forall ms w,
  exists dead, let '(ms', w', ex) := expire_loop now ttl ms w in
    ms = dead ++ ms' /\ ex = map (fun e => dccl_msg (snd e)) dead
    /\ Forall (fun e => expired now ttl (snd e) = true) dead
    /\ (forall n m, head ms' = Some (n, m) -> expired now ttl m = false)
    /\ (forall e, e ∈ w' -> e ∈ w).
Proof.
  induction ms as [|[node m] ms IH]; intros w.
  - exists []. simpl. repeat split; auto. done.
  - simpl. destruct (expired now ttl m) eqn:E.
    + destruct (IH (erase_ack w node)) as [dead Hd].
      destruct (expire_loop now ttl ms (erase_ack w node)) as [[ms' w'] ex].
      destruct Hd as (-> & -> & H3 & H4 & H5). exists ((node, m) :: dead). repeat split; auto.
      intros e He. apply H5 in He. by apply remove_first_elem_of in He.
    + exists []. repeat split; auto. intros n m' [= -> ->]. done.
Qed.

(** Expiry removes and reports exactly a prefix of the messages, all past their time to live,
    stops at the first that is not, and leaves no acknowledgement entry for a removed message. *)
Lemma expire_removes_stale_prefix now q :
  queue_reachable q ->
  exists dead, let '(q', ex) := expire now q in
    q_messages q = dead ++ q_messages q' /\ ex = map (fun e => dccl_msg (snd e)) dead
    /\ Forall (fun e => expired now (cfg_ttl (q_cfg q)) (snd e) = true) dead
    /\ (forall n m, head (q_messages q') = Some (n, m) -> expired now (cfg_ttl (q_cfg q)) m = false)
    /\ (forall f n, (f, n) ∈ q_waiting_for_ack q' -> exists m, (n, m) ∈ q_messages q').
Proof.
  intros W%reachable_wf. destruct (expire now q) as [q' ex] eqn:E.
  pose proof (expire_wf now q q' ex W E) as W'. unfold expire in E.
  destruct (expire_loop_spec now (cfg_ttl (q_cfg q)) (q_messages q) (q_waiting_for_ack q)) as [dead Hd].
  destruct (expire_loop _ _ _ _) as [[ms w] ex']. injection E as <- <-. simpl in *.
  destruct Hd as (? & ? & ? & ? & _). exists dead. repeat split; auto.
  intros f n Hn. destruct (wf_waiting _ W' f n Hn) as (m & ? & _). eauto.
Qed.

End Sending.

(** ** Evaluation on a concrete queue *)

Module QueueWitness.
#[local] Existing Instances Sample.protobuf Sample.codec Sample.text.

Definition parent : Parent :=
  MkParent (fun _ _ => false) 1 1 (double_of_Z 0) (fun mt _ _ => mt).

Definition msg (d : Z) : Sample.msg := Sample.MkMsg 7 1 d [42].

Definition q0 : Queue :=
  Eval vm_compute in
    match new_queue 0 7 Sample.entry with
    | Ok q => q
    | Err _ => MkQueue 7 Sample.entry [] 0 [] [] empty_meta 0
    end.

(** two messages pushed, the newest handed out in frame 3 *)
Definition q2 : Queue :=
  Eval vm_compute in
    match push_message parent 1000000 (msg 2) q0 with
    | Ok (q, _, _) => match push_message parent 2000000 (msg 3) q with
                      | Ok (q, _, _) => q | Err _ => q0 end
    | Err _ => q0
    end.

Definition q3 : Queue :=
  Eval vm_compute in match give_data 5000000 3 q2 with Some (q, _) => q | None => q2 end.

Lemma q2_reachable : queue_reachable q2.
Proof.
  exists 0, 7, Sample.entry, q0. split; [vm_compute; reflexivity|].
  eapply rtc_l; [eapply (StepPush parent 1000000 (msg 2)); vm_compute; reflexivity|].
  eapply rtc_l; [eapply (StepPush parent 2000000 (msg 3)); vm_compute; reflexivity|]. apply rtc_refl.
Qed.

Lemma q3_reachable : queue_reachable q3.
Proof.
  destruct q2_reachable as (now & d & c & q & H & R). exists now, d, c, q. split; [done|].
  eapply rtc_r; [exact R|]. eapply (StepGive 5000000 3). vm_compute. reflexivity.
Qed.

Lemma queue_no_dangling_acks_witness :
  (3, 1%nat) ∈ q_waiting_for_ack q3 /\ exists m, lookup_node 1 (q_messages q3) = Some m.
Proof.
  assert (H : (3, 1%nat) ∈ q_waiting_for_ack q3) by (vm_compute; constructor).
  split; [exact H|].
  destruct (queue_no_dangling_acks q3 3 1 q3_reachable H) as (_ & m & E & _). exists m. exact E.
Defined.

Example get_priority_values_defined_witness :
  exists last_send ok, get_priority_values 9000000 q3 empty_transmission 0
    = Some (priority_value 9000000 q3, last_send, ok).
Proof.
  destruct (get_priority_values_defined 9000000 q3 empty_transmission 0 q3_reachable)
    as (l & ok & H & _). exists l, ok. exact H.
Qed.

Example give_data_sends_next_witness :
  exists node m0, next_message_it q2 = Some (node, m0).
Proof.
  destruct (give_data 5000000 3 q2) as [[q m]|] eqn:E; [|vm_compute in E; discriminate E].
  destruct (give_data_sends_next 5000000 3 q2 q m q2_reachable E) as (n & m0 & H & _).
  exists n, m0. exact H.
Qed.

Example push_on_full_queue_witness :
  let '(q', _, ok) := push_message_meta parent 3000000 (msg 4)
      (MkMeta (Some 5) None None (Some 4) None None None) q2 in
  queue_bounded q' /\ ok = true.
Proof.
  pose proof (push_on_full_queue parent 3000000 (msg 4)
    (MkMeta (Some 5) None None (Some 4) None None None) q2 q2_reachable) as H.
  destruct (push_message_meta _ _ _ _ _) as [[q' ev] ok].
  destruct H as (new & _ & H1 & H2 & _); [right; vm_compute; discriminate | reflexivity
    | vm_compute; discriminate | vm_compute; discriminate | split; assumption].
Qed.

Example expire_removes_stale_prefix_witness :
  exists dead, q_messages q3 = dead ++ q_messages (fst (expire 1801500000 q3)).
Proof.
  destruct (expire_removes_stale_prefix 1801500000 q3 q3_reachable) as [dead H].
  exists dead. destruct (expire 1801500000 q3) as [q' ex]. apply H.
Qed.

End QueueWitness.
