(* ===== verification/QueueManager.v ===== *)
(** * acomms/queue/queue_manager.{h,cpp}: the queue manager

    The manager owns the queues (a [std::map] by DCCL identifier, kept here as an
    association list in increasing order), decides which queue sends next,
    packs messages into the frames of a modem transmission and dispatches what
    the modem receives. Operations return the new state and the signals they
    emit; one reading [now] of the clock is used throughout an operation. *)

From Stdlib Require Import SpecFloat.
From S2P Require Import Prelude AssocList Double Proto Queue.

Section QueueManager.
Context `{P : Protobuf} `{D : !DCCLCodec} `{T : BoostText}.

(** acomms/protobuf/queue.proto: [QueueManagerConfig] *)
Record QueueManagerConfig : Type := MkManagerConfig {
  c_modem_id_opt : option Z;
  c_message_entry : list QueuedMessageEntry;
  c_on_demand_skew_opt : option double;
  c_minimum_ack_wait_opt : option double;
  c_skip_decoding_opt : option bool;
  c_make_network_ack_for_src_id : list Z;
  c_route_for_additional_modem_id : list Z;
  c_encrypt_rule : list (Z * bytes)
}.

Definition c_modem_id (c : QueueManagerConfig) : Z := default 0 (c_modem_id_opt c).
Definition c_on_demand_skew_seconds (c : QueueManagerConfig) : double :=
  default (double_of_Z 1) (c_on_demand_skew_opt c).
Definition c_minimum_ack_wait_seconds (c : QueueManagerConfig) : double :=
  default (double_of_Z 0) (c_minimum_ack_wait_opt c).
Definition c_skip_decoding (c : QueueManagerConfig) : bool := default false (c_skip_decoding_opt c).

(** protobuf's [MergeFrom]: set fields overwrite, repeated fields are appended *)
Definition merge_manager_config (c c' : QueueManagerConfig) : QueueManagerConfig :=
  let over {A : Type} (x x' : option A) := match x' with Some _ => x' | None => x end in
  MkManagerConfig (over (c_modem_id_opt c) (c_modem_id_opt c'))
    (c_message_entry c ++ c_message_entry c')
    (over (c_on_demand_skew_opt c) (c_on_demand_skew_opt c'))
    (over (c_minimum_ack_wait_opt c) (c_minimum_ack_wait_opt c'))
    (over (c_skip_decoding_opt c) (c_skip_decoding_opt c'))
    (c_make_network_ack_for_src_id c ++ c_make_network_ack_for_src_id c')
    (c_route_for_additional_modem_id c ++ c_route_for_additional_modem_id c')
    (c_encrypt_rule c ++ c_encrypt_rule c').

(** [codec_passphrase] is the passphrase the shared DCCL codec currently holds. *)
Record QueueManager : Type := MkManager {
  modem_id : Z;
  queues : list (Z * Queue);
  waiting_for_ack : list (Z * Z);
  packet_ack : bool;
  packet_dest : Z;
  network_ack_src_ids : list Z;
  route_additional_modem_ids : list Z;
  encrypt_rules : list (Z * bytes);
  cfg : QueueManagerConfig;
  codec_passphrase : option bytes;
  manips : list (Z * Manipulator)
}.

Definition set_modem_id (v : Z) (r : QueueManager) : QueueManager :=
  MkManager v (queues r) (waiting_for_ack r) (packet_ack r) (packet_dest r)
    (network_ack_src_ids r) (route_additional_modem_ids r) (encrypt_rules r) (cfg r)
    (codec_passphrase r) (manips r).
Definition set_queues (v : list (Z * Queue)) (r : QueueManager) : QueueManager :=
  MkManager (modem_id r) v (waiting_for_ack r) (packet_ack r) (packet_dest r)
    (network_ack_src_ids r) (route_additional_modem_ids r) (encrypt_rules r) (cfg r)
    (codec_passphrase r) (manips r).
Definition set_waiting_for_ack (v : list (Z * Z)) (r : QueueManager) : QueueManager :=
  MkManager (modem_id r) (queues r) v (packet_ack r) (packet_dest r) (network_ack_src_ids r)
    (route_additional_modem_ids r) (encrypt_rules r) (cfg r) (codec_passphrase r) (manips
    r).
Definition set_packet_ack (v : bool) (r : QueueManager) : QueueManager :=
  MkManager (modem_id r) (queues r) (waiting_for_ack r) v (packet_dest r)
    (network_ack_src_ids r) (route_additional_modem_ids r) (encrypt_rules r) (cfg r)
    (codec_passphrase r) (manips r).
Definition set_packet_dest (v : Z) (r : QueueManager) : QueueManager :=
  MkManager (modem_id r) (queues r) (waiting_for_ack r) (packet_ack r) v
    (network_ack_src_ids r) (route_additional_modem_ids r) (encrypt_rules r) (cfg r)
    (codec_passphrase r) (manips r).
Definition set_network_ack_src_ids (v : list Z) (r : QueueManager) : QueueManager :=
  MkManager (modem_id r) (queues r) (waiting_for_ack r) (packet_ack r) (packet_dest r) v
    (route_additional_modem_ids r) (encrypt_rules r) (cfg r) (codec_passphrase r) (manips
    r).
Definition set_route_additional_modem_ids (v : list Z) (r : QueueManager) : QueueManager :=
  MkManager (modem_id r) (queues r) (waiting_for_ack r) (packet_ack r) (packet_dest r)
    (network_ack_src_ids r) v (encrypt_rules r) (cfg r) (codec_passphrase r) (manips r).
Definition set_encrypt_rules (v : list (Z * bytes)) (r : QueueManager) : QueueManager :=
  MkManager (modem_id r) (queues r) (waiting_for_ack r) (packet_ack r) (packet_dest r)
    (network_ack_src_ids r) (route_additional_modem_ids r) v (cfg r) (codec_passphrase r)
    (manips r).
Definition set_cfg (v : QueueManagerConfig) (r : QueueManager) : QueueManager :=
  MkManager (modem_id r) (queues r) (waiting_for_ack r) (packet_ack r) (packet_dest r)
    (network_ack_src_ids r) (route_additional_modem_ids r) (encrypt_rules r) v
    (codec_passphrase r) (manips r).
Definition set_codec_passphrase (v : option bytes) (r : QueueManager) : QueueManager :=
  MkManager (modem_id r) (queues r) (waiting_for_ack r) (packet_ack r) (packet_dest r)
    (network_ack_src_ids r) (route_additional_modem_ids r) (encrypt_rules r) (cfg r) v
    (manips r).
Definition set_manips (v : list (Z * Manipulator)) (r : QueueManager) : QueueManager :=
  MkManager (modem_id r) (queues r) (waiting_for_ack r) (packet_ack r) (packet_dest r)
    (network_ack_src_ids r) (route_additional_modem_ids r) (encrypt_rules r) (cfg r)
    (codec_passphrase r) v.

(** What is connected to the signals that return a value, and the generated
    protobuf code the manager calls. *)
Record Environment : Type := MkEnvironment {
  e_out_route : QueuedMessageMeta -> Msg -> Z -> QueuedMessageMeta;
  e_in_route_connected : bool;
  e_data_on_demand : ModemTransmission -> Msg -> Msg;
  e_find_descriptor : bytes -> option Descriptor;
  (* [NetworkAck] with ack_src, message_dccl_id, message_src, message_dest,
     message_time and whether the type is ACK *)
  e_network_ack : Z -> Z -> Z -> Z -> Z -> bool -> Msg
}.

Inductive ManagerError : Type :=
| QueueExc (e : QueueException)
| DanglingIterator
| OutOfRange
| OutOfFuel.

Definition lift {A : Type} (r : result QueueException A) : result ManagerError A :=
  match r with Ok a => Ok a | Err e => Err (QueueExc e) end.

Definition deref {A : Type} (o : option A) : result ManagerError A :=
  match o with Some a => Ok a | None => Err DanglingIterator end.

(** ** Manipulators *)

Definition manip_has (m : QueueManager) (k : Z) (mp : Manipulator) : bool :=
  existsb (fun e => (fst e =? k) && bool_decide (snd e = mp)) (manips m).

(** the parent object as a queue sees it *)
Definition parent_of (e : Environment) (m : QueueManager) : Parent :=
  MkParent (manip_has m) (modem_id m) (c_modem_id (cfg m)) (c_minimum_ack_wait_seconds (cfg m))
    (e_out_route e).

Definition qsize (q : Queue) : Event := SigQueueSize (id q) (size q).

Definition set_queue (k : Z) (q : Queue) (m : QueueManager) : QueueManager :=
  set_queues (al_insert k q (queues m)) m.

(** ** Queues *)

Definition add_queue (now : Z) (desc : Descriptor) (queue_cfg : QueuedMessageEntry)
    (m : QueueManager) : result ManagerError (QueueManager * list Event) :=
  if negb (codec_validate desc) then Err (QueueExc FailedDCCLValidation)
  else
    let dccl_id := codec_id desc in
    match al_lookup dccl_id (queues m) with
    | Some q =>
        let? q := lift (Queue.set_cfg queue_cfg q) in Ok (set_queue dccl_id q m, [])
    | None =>
        let? q := lift (new_queue now desc queue_cfg) in
        Ok (set_queue dccl_id q m, [qsize q])
    end.

Definition manager_meta_from_msg (m : QueueManager) (msg : Msg)
  : result ManagerError QueuedMessageMeta :=
  match al_lookup (codec_id (GetDescriptor msg)) (queues m) with
  | None => Err (QueueExc NoQueueForMessage)
  | Some q => lift (meta_from_msg q msg)
  end.

Definition manager_push_message (e : Environment) (now : Z) (msg : Msg)
    (mt : option QueuedMessageMeta) (m : QueueManager)
  : result ManagerError (QueueManager * list Event) :=
  let dccl_id := codec_id (GetDescriptor msg) in
  match al_lookup dccl_id (queues m) with
  | None => Err (QueueExc NoQueueForMessage)
  | Some q =>
      let? (q', evs, _) :=
        match mt with
        | Some mt => Ok (push_message_meta (parent_of e m) now msg mt q)
        | None => lift (push_message (parent_of e m) now msg q)
        end in
      Ok (set_queue dccl_id q' m, evs ++ [qsize q'])
  end.

Definition flush_queue (dccl_id : Z) (m : QueueManager) : QueueManager * list Event :=
  match al_lookup dccl_id (queues m) with
  | Some q => (set_queue dccl_id (flush q) m, [qsize (flush q)])
  | None => (m, [])
  end.

(** ** Network acknowledgements *)

Definition create_network_ack (e : Environment) (ack_src : Z) (orig_msg : Msg) (is_ack : bool)
    (m : QueueManager) : result ManagerError (list Event) :=
  if bool_decide (full_name (GetDescriptor orig_msg) = B "goby.acomms.protobuf.NetworkAck")
  then Ok []
  else
    let? mt := manager_meta_from_msg m orig_msg in
    if negb (bool_decide (meta_src mt ∈ network_ack_src_ids m)) then Ok []
    else
      let ack := e_network_ack e ack_src (codec_id (GetDescriptor orig_msg))
                   (meta_src mt) (meta_dest mt) (meta_time mt) is_ack in
      let? ack_meta := manager_meta_from_msg m ack in
      if meta_dest ack_meta =? modem_id m then Ok [SigReceive ack]
      else Ok [SigInRoute ack_meta ack (modem_id m)].

(** the network acknowledgement of [orig_msg], when its source asked for one *)
Definition network_ack_for (e : Environment) (ack_src : Z) (orig_msg : Msg) (is_ack : bool)
    (m : QueueManager) : result ManagerError (list Event) :=
  let? mt := manager_meta_from_msg m orig_msg in
  if bool_decide (meta_src mt ∈ network_ack_src_ids m)
  then create_network_ack e ack_src orig_msg is_ack m else Ok [].

(** ** Expiry *)

Fixpoint signal_expired (e : Environment) (m : QueueManager) (ex : list Msg)
  : result ManagerError (list Event) :=
  match ex with
  | [] => Ok []
  | x :: ex =>
      let? acks := network_ack_for e (modem_id m) x false m in
      let? rest := signal_expired e m ex in
      Ok (SigExpire x :: acks ++ rest)
  end.

Fixpoint do_work_loop (e : Environment) (now : Z) (keys : list Z) (m : QueueManager)
  : result ManagerError (QueueManager * list Event) :=
  match keys with
  | [] => Ok (m, [])
  | k :: keys =>
      match al_lookup k (queues m) with
      | None => do_work_loop e now keys m
      | Some q =>
          let '(q', ex) := expire now q in
          let m := set_queue k q' m in
          let? evs := signal_expired e m ex in
          let? (m, evs') := do_work_loop e now keys m in
          Ok (m, evs ++ evs')
      end
  end.

Definition do_work (e : Environment) (now : Z) (m : QueueManager)
  : result ManagerError (QueueManager * list Event) :=
  do_work_loop e now (map fst (queues m)) m.

(** ** Which queue sends next *)

Fixpoint clear_packet_loop (p : Parent) (now start : Z) (w : list (Z * Z)) (qs : list (Z * Queue))
  : list (Z * Z) * list (Z * Queue) :=
  match w with
  | [] => ([], qs)
  | (frame, k) :: w =>
      match al_lookup k qs with
      | None => let '(w', qs) := clear_packet_loop p now start w qs in ((frame, k) :: w', qs)
      | Some q =>
          let '(q, empty) := clear_ack_queue p now start q in
          let '(w', qs) := clear_packet_loop p now start w (al_insert k q qs) in
          (if empty then w' else (frame, k) :: w', qs)
      end
  end.

Definition clear_packet (e : Environment) (now : Z) (message : ModemTransmission)
    (m : QueueManager) : QueueManager :=
  let '(w, qs) := clear_packet_loop (parent_of e m) now (frame_start message)
                    (waiting_for_ack m) (queues m) in
  set_packet_dest (dest message)
    (set_packet_ack (if has_ack_requested message then ack_requested message else false)
      (set_waiting_for_ack w (set_queues qs m))).

(** Encode on demand: ask the application for a message when the queue has none
    or its newest is older than the allowed skew. *)
Definition fill_on_demand (e : Environment) (now : Z) (request_msg : ModemTransmission) (k : Z)
    (q : Queue) (m : QueueManager) : result ManagerError (QueueManager * list Event) :=
  if manip_has m (codec_id (q_desc q)) ON_DEMAND
     && (Nat.eqb (size q) 0
         || (newest_msg_time q
             + double_to_Z (dmul (c_on_demand_skew_seconds (cfg m)) d1e6) <? now))
  then
    let new_msg := e_data_on_demand e request_msg (new_protobuf_message (q_desc q)) in
    if IsInitialized new_msg then manager_push_message e now new_msg None m else Ok (m, [])
  else Ok (m, []).

(** the winner so far: priority, last send time, queue *)
Definition Winner : Type := option (double * Z * Z).

Definition better (w : Winner) (priority : double) (last_send : Z) : bool :=
  match w with
  | None => true
  | Some (wp, wl, _) => dlt wp priority || (deq priority wp && (last_send <? wl))
  end.

Fixpoint find_next_sender_loop (e : Environment) (now : Z) (request_msg : ModemTransmission)
    (data_size : Z) (keys : list Z) (w : Winner) (m : QueueManager)
  : result ManagerError (QueueManager * list Event * Winner) :=
  match keys with
  | [] => Ok (m, [], w)
  | k :: keys =>
      let? q := deref (al_lookup k (queues m)) in
      let? (m, evs) := fill_on_demand e now request_msg k q m in
      let? q := deref (al_lookup k (queues m)) in
      let? (priority, last_send, ok) := deref (get_priority_values now q request_msg data_size) in
      let w := if ok && better w priority last_send then Some (priority, last_send, k) else w in
      let? (m, evs', w) := find_next_sender_loop e now request_msg data_size keys w m in
      Ok (m, evs ++ evs', w)
  end.

Definition find_next_sender (e : Environment) (now : Z) (request_msg : ModemTransmission)
    (data_size : Z) (m : QueueManager)
  : result ManagerError (QueueManager * list Event * option Z) :=
  let? (m, evs, w) := find_next_sender_loop e now request_msg data_size (map fst (queues m)) None m in
  Ok (m, evs, match w with Some (_, _, k) => Some k | None => None end).

(** ** Encoding *)

(** [codec_->merge_cfg]: a configuration without passphrase leaves the current one. *)
Definition merge_passphrase (rule : option bytes) (current : option bytes) : option bytes :=
  match rule with Some p => Some p | None => current end.

(** The passphrase the codec holds after the rule for [id] has been merged
    (nothing is merged when there are no rules at all). *)
Definition passphrase_for (rules : list (Z * bytes)) (id : Z) (current : option bytes)
  : option bytes :=
  match rules with
  | [] => current
  | _ => merge_passphrase (al_lookup id rules) current
  end.

(** [None]: the codec threw *)
Fixpoint encode_repeated (rules : list (Z * bytes)) (pass : option bytes)
    (msgs : list QueuedMessage) : option bytes * option bytes :=
  match msgs with
  | [] => (pass, Some [])
  | x :: msgs =>
      let pass := passphrase_for rules (meta_dest (meta x)) pass in
      match codec_encode pass (dccl_msg x) with
      | None => (pass, None)
      | Some piece =>
          let '(pass, rest) := encode_repeated rules pass msgs in
          (pass, match rest with Some rest => Some (piece ++ rest) | None => None end)
      end
  end.

Definition size_repeated (msgs : list QueuedMessage) : Z :=
  u32 (foldr (fun x acc => codec_size (dccl_msg x) + acc) 0 msgs).

(** The loop of [decode_repeated]: [out] is what has been decoded so far; a
    decoding error ends it, and is an exception ([inr]) only for the first message. *)
Fixpoint decode_repeated (fuel : nat) (m : QueueManager) (pass : option bytes) (bs : bytes)
    (out : list QueuedMessage) : result ManagerError (option bytes * option (list QueuedMessage)) :=
  match bs with
  | [] => Ok (pass, Some out)
  | _ =>
      match fuel with
      | O => Err OutOfFuel
      | S fuel =>
          let failed pass := Ok (pass, match out with [] => None | _ => Some out end) in
          let decode_body pass (mt : option QueuedMessageMeta) :=
            match codec_decode pass bs with
            | None => failed pass
            | Some msg =>
                let? mt := match mt with Some mt => Ok mt | None => manager_meta_from_msg m msg end in
                decode_repeated fuel m pass (drop (Z.to_nat (codec_size msg)) bs)
                  (out ++ [MkQueued msg mt])
            end in
          match encrypt_rules m with
          | [] => decode_body pass None
          | rules =>
              match codec_decode_head pass bs with
              | None => failed pass
              | Some header =>
                  let? mt := manager_meta_from_msg m header in
                  decode_body (passphrase_for rules (meta_src mt) pass) (Some mt)
              end
          end
      end
  end.

(** ** Packing a transmission *)

(** what the packing of one frame accumulates *)
Record Packing : Type := MkPacking {
  pk_manager : QueueManager;
  pk_msg : ModemTransmission;
  pk_data_size : Z;
  pk_dccl_msgs : list QueuedMessage;
  pk_passthrough : option bytes;
  pk_events : list Event
}.

(** acknowledgement bookkeeping for the message just taken from queue [k] *)
Definition ack_or_pop (frame_number k : Z) (next : QueuedMessage) (m : QueueManager)
  : result ManagerError (QueueManager * list Event) :=
  if meta_ack (meta next)
  then Ok (set_waiting_for_ack (mm_insert frame_number k (waiting_for_ack m)) m, [])
  else
    let? q := deref (al_lookup k (queues m)) in
    let? (q, _) := deref (pop_message q) in
    Ok (set_queue k q m, [qsize q]).

(** the destination (and source) of the packet follow its first message *)
Definition discipline_packet (frame_number : Z) (next : QueuedMessage) (msg : ModemTransmission)
    (m : QueueManager) : ModemTransmission * QueueManager :=
  let m := set_packet_ack (if packet_ack m then true else meta_ack (meta next)) m in
  if frame_number =? frame_start msg then
    let msg := if dest msg =? QUERY_DESTINATION_ID
               then set_mt_dest (Some (meta_dest (meta next))) msg else msg in
    let msg := if src msg =? QUERY_SOURCE_ID then set_mt_src (Some (modem_id m)) msg else msg in
    let m := if (packet_dest m =? BROADCAST_ID) || (packet_dest m =? QUERY_DESTINATION_ID)
             then set_packet_dest (dest msg) m else m in
    (msg, m)
  else (msg, m).

(** [mutable_frame(i)], or [add_frame()] when there are not enough of them *)
Definition set_frame (i : nat) (data : bytes) (msg : ModemTransmission) : ModemTransmission :=
  if (i <? frame_size msg)%nat then set_mt_frame (<[i := data]> (mt_frame msg)) msg
  else set_mt_frame (mt_frame msg ++ [data]) msg.

Definition data_of_frame (i : nat) (msg : ModemTransmission) : bytes :=
  default [] (mt_frame msg !! i).

(** [std::string::resize] *)
Definition resize (n : nat) (s : bytes) : bytes := take n s ++ repeat 0 (n - length s).

(** one iteration: take the next message of queue [k] *)
Definition take_user_frame (e : Environment) (now frame_number original_data_size k : Z)
    (s : Packing) : result ManagerError Packing :=
  let m := pk_manager s in
  let? q := deref (al_lookup k (queues m)) in
  let? (q, next) := deref (give_data now frame_number q) in
  let m := set_queue k q m in
  let passthrough := match qm_encoded_message (meta next) with
                     | Some b => Some b | None => pk_passthrough s end in
  let ev1 := if manip_has m (codec_id (q_desc q)) LOOPBACK_AS_SENT
             then [SigReceive (dccl_msg next)] else [] in
  let? (m, ev2) := ack_or_pop frame_number k next m in
  let '(msg, m) := discipline_packet frame_number next (pk_msg s) m in
  let? fixed := manager_meta_from_msg m (dccl_msg next) in
  let dccl_msgs := pk_dccl_msgs s ++ [MkQueued (dccl_msg next) fixed] in
  let events := pk_events s ++ ev1 ++ ev2 in
  match passthrough with
  | Some _ => Ok (MkPacking m msg (pk_data_size s) dccl_msgs passthrough events)
  | None =>
      let data_size := u32 (size_repeated dccl_msgs + original_data_size) in
      let i := Z.to_nat (frame_number - frame_start msg) in
      let msg := set_frame i (resize (Z.to_nat data_size) (data_of_frame i msg)) msg in
      Ok (MkPacking m msg data_size dccl_msgs passthrough events)
  end.

(** the [while (winning_queue)] loop *)
Fixpoint pack_loop (fuel : nat) (e : Environment) (now frame_number original_data_size k : Z)
    (s : Packing) : result ManagerError Packing :=
  match fuel with
  | O => Err OutOfFuel
  | S fuel =>
      let? s := take_user_frame e now frame_number original_data_size k s in
      match pk_passthrough s with
      | Some _ => Ok s
      | None =>
          if 0 <? u64 (max_frame_bytes (pk_msg s) - pk_data_size s) then
            let? (m, evs, winner) :=
              find_next_sender e now (pk_msg s) (pk_data_size s) (pk_manager s) in
            let s := MkPacking m (pk_msg s) (pk_data_size s) (pk_dccl_msgs s) (pk_passthrough s)
                       (pk_events s ++ evs) in
            match winner with
            | Some k => pack_loop fuel e now frame_number original_data_size k s
            | None => Ok s
            end
          else Ok s
      end
  end.

(** the bytes of the frame once its messages are chosen: (passphrase, data); a
    codec exception leaves an empty frame, [substr] past the end throws *)
Definition encode_frame (rules : list (Z * bytes)) (pass : option bytes) (data : bytes)
    (dccl_msgs : list QueuedMessage) (passthrough : option bytes)
  : result ManagerError (option bytes * bytes) :=
  match passthrough with
  | Some body =>
      let '(pass, front) := encode_repeated rules pass (take (length dccl_msgs - 1) dccl_msgs) in
      match front, last dccl_msgs with
      | Some front, Some x =>
          match codec_encode_head pass (dccl_msg x) with
          | Some head =>
              if (length body <? length head)%nat then Err OutOfRange
              else Ok (pass, data ++ front ++ head ++ drop (length head) body)
          | None => Ok (pass, [])
          end
      | _, _ => Ok (pass, [])
      end
  | None =>
      let '(pass, enc) := encode_repeated rules pass dccl_msgs in
      Ok (pass, match enc with Some b => data ++ b | None => [] end)
  end.

(** one iteration of the loop over frames *)
Definition fill_frame (fuel : nat) (e : Environment) (now frame_number : Z)
    (msg : ModemTransmission) (m : QueueManager)
  : result ManagerError (ModemTransmission * QueueManager * list Event) :=
  let i := Z.to_nat (frame_number - frame_start msg) in
  let data := data_of_frame i msg in
  let msg := set_frame i data msg in
  let original := u32 (Z.of_nat (length data)) in
  let? (m, evs, winner) := find_next_sender e now msg (Z.of_nat (length data)) m in
  match winner with
  | None => Ok (set_mt_dest (Some (packet_dest m)) msg, m, evs)
  | Some k =>
      let? s := pack_loop fuel e now frame_number original k (MkPacking m msg (Z.of_nat (length data)) [] None evs) in
      let? (pass, data) := encode_frame (encrypt_rules (pk_manager s)) (codec_passphrase (pk_manager s))
                             (take (Z.to_nat original) (data_of_frame i (pk_msg s))) (pk_dccl_msgs s) (pk_passthrough s) in
      Ok (set_frame i data (pk_msg s), set_codec_passphrase pass (pk_manager s), pk_events s)
  end.

Fixpoint fill_frames (fuel : nat) (e : Environment) (now : Z) (count : nat) (frame_number : Z)
    (msg : ModemTransmission) (m : QueueManager)
  : result ManagerError (ModemTransmission * QueueManager * list Event) :=
  match count with
  | O => Ok (msg, m, [])
  | S count =>
      let? (msg, m, evs) := fill_frame fuel e now frame_number msg m in
      let? (msg, m, evs') := fill_frames fuel e now count (frame_number + 1) msg m in
      Ok (msg, m, evs ++ evs')
  end.

Definition handle_modem_data_request (fuel : nat) (e : Environment) (now : Z)
    (msg : ModemTransmission) (m : QueueManager)
  : result ManagerError (ModemTransmission * QueueManager * list Event) :=
  let m := clear_packet e now msg m in
  let total_frames := u32 (max_num_frames msg + frame_start msg) in
  let? (msg, m, evs) :=
    fill_frames fuel e now (Z.to_nat (total_frames - frame_start msg)) (frame_start msg) msg m in
  Ok (set_mt_ack_requested (Some (packet_ack m)) msg, m, evs).

(** ** Receiving *)

(** the loop over the queues that wait for an acknowledgement of this frame *)
Fixpoint ack_frame_loop (fuel : nat) (e : Environment) (ack_msg : ModemTransmission)
    (frame_number : Z) (m : QueueManager) : result ManagerError (QueueManager * list Event) :=
  match List.find (fun x => fst x =? frame_number) (waiting_for_ack m) with
  | None => Ok (m, [])
  | Some (_, k) =>
      match fuel with
      | O => Err OutOfFuel
      | S fuel =>
          let? q := deref (al_lookup k (queues m)) in
          let? (q, removed) := deref (pop_message_ack frame_number q) in
          let m := set_queue k q m in
          let? evs :=
            match removed with
            | None => Ok []
            | Some msg =>
                let? acks := network_ack_for e (src ack_msg) msg true m in
                Ok (qsize q :: SigAck ack_msg msg :: acks)
            end in
          let m := set_waiting_for_ack
                     (remove_first (fun x => fst x =? frame_number) (waiting_for_ack m)) m in
          let? (m, evs') := ack_frame_loop fuel e ack_msg frame_number m in
          Ok (m, evs ++ evs')
      end
  end.

Fixpoint process_modem_ack (e : Environment) (ack_msg : ModemTransmission) (frames : list Z)
    (m : QueueManager) : result ManagerError (QueueManager * list Event) :=
  match frames with
  | [] => Ok (m, [])
  | f :: frames =>
      if negb (dest ack_msg =? modem_id m) then process_modem_ack e ack_msg frames m
      else
        let? (m, evs) :=
          ack_frame_loop (length (waiting_for_ack m)) e ack_msg (u32 f) m in
        let? (m, evs') := process_modem_ack e ack_msg frames m in
        Ok (m, evs ++ evs')
  end.

(** is this decoded message passed on to the application? *)
Definition deliver (m : QueueManager) (x : QueuedMessage) : list Event :=
  let d := meta_dest (meta x) in
  let k := codec_id (GetDescriptor (dccl_msg x)) in
  if negb (d =? BROADCAST_ID) && negb (d =? modem_id m) && negb (manip_has m k PROMISCUOUS) then []
  else if (d =? BROADCAST_ID) && (meta_src (meta x) =? modem_id m) then []
  else if manip_has m k NO_DEQUEUE then []
  else [SigReceive (dccl_msg x)].

Definition route_frame (e : Environment) (modem_message : ModemTransmission) (frame : bytes)
    (m : QueueManager) : result ManagerError (list Event) :=
  if e_in_route_connected e then
    match codec_decode_head (codec_passphrase m) frame with
    | None => Ok []
    | Some msg =>
        let? mt := manager_meta_from_msg m msg in
        if (dest modem_message =? modem_id m)
           || bool_decide (dest modem_message ∈ route_additional_modem_ids m)
        then Ok [SigInRoute (set_qm_non_repeated_size (Some (Z.of_nat (length frame)))
                   (set_qm_encoded_message (Some frame) mt)) msg (modem_id m)]
        else Ok []
    end
  else Ok [].

Fixpoint receive_frames (e : Environment) (modem_message : ModemTransmission)
    (frames : list bytes) (m : QueueManager) : result ManagerError (QueueManager * list Event) :=
  match frames with
  | [] => Ok (m, [])
  | frame :: frames =>
      let? (m, evs) :=
        if c_skip_decoding (cfg m) then Ok (m, [])
        else
          let? (pass, msgs) := decode_repeated (length frame) m (codec_passphrase m) frame [] in
          Ok (set_codec_passphrase pass m,
              match msgs with Some msgs => concat (map (deliver m) msgs) | None => [] end) in
      let? evs_route := route_frame e modem_message frame m in
      let? (m, evs') := receive_frames e modem_message frames m in
      Ok (m, evs ++ evs_route ++ evs')
  end.

Definition handle_modem_receive (e : Environment) (modem_message : ModemTransmission)
    (m : QueueManager) : result ManagerError (QueueManager * list Event) :=
  if bool_decide (type modem_message = ACK)
  then process_modem_ack e modem_message (mt_acked_frame modem_message) m
  else receive_frames e modem_message (mt_frame modem_message) m.

(** ** Configuration *)

Fixpoint process_entries (e : Environment) (now : Z) (entries : list QueuedMessageEntry)
    (m : QueueManager) : result ManagerError (QueueManager * list Event) :=
  match entries with
  | [] => Ok (m, [])
  | en :: entries =>
      match e_find_descriptor e (cfg_protobuf_name en) with
      | None => process_entries e now entries m
      | Some desc =>
          let? (m, evs) := add_queue now desc en m in
          let m := set_manips (manips m ++ map (fun mp => (codec_id desc, mp)) (cfg_manipulator en)) m in
          let? (m, evs') := process_entries e now entries m in
          Ok (m, evs ++ evs')
      end
  end.

Definition manager_process_cfg (e : Environment) (now : Z) (m : QueueManager)
  : result ManagerError (QueueManager * list Event) :=
  let c := cfg m in
  let m := set_modem_id (c_modem_id c) (set_manips [] (set_network_ack_src_ids []
             (set_route_additional_modem_ids [] (set_encrypt_rules [] m)))) in
  let? (m, evs) := process_entries e now (c_message_entry c) m in
  Ok (set_network_ack_src_ids (c_make_network_ack_for_src_id c)
        (set_route_additional_modem_ids (c_route_for_additional_modem_id c)
          (set_encrypt_rules
             (foldl (fun acc r => al_insert (fst r) (snd r) acc) [] (c_encrypt_rule c)) m)), evs).

Definition manager_set_cfg (e : Environment) (now : Z) (c : QueueManagerConfig) (m : QueueManager)
  : result ManagerError (QueueManager * list Event) :=
  manager_process_cfg e now (set_cfg c m).

Definition manager_merge_cfg (e : Environment) (now : Z) (c : QueueManagerConfig) (m : QueueManager)
  : result ManagerError (QueueManager * list Event) :=
  manager_process_cfg e now (set_cfg (merge_manager_config (cfg m) c) m).

(** the constructor, before [set_cfg] *)
Definition new_manager : QueueManager :=
  MkManager 0 [] [] false BROADCAST_ID [] [] []
    (MkManagerConfig None [] None None None [] [] []) None [].

End QueueManager.
