(* ===== verification/QueueManagerProofs.v ===== *)
(** * The queue manager: invariant, acknowledgements, priority contest, packing

    Theorems about the definitions of [QueueManager]: the acknowledgement
    tables of the manager and of its queues agree in every reachable state, an
    acknowledged frame releases exactly the messages that waited on it, the
    priority contest selects a maximal queue, a data request terminates
    and fills frames within the bound, and the repeated encoding round-trips. *)

From Stdlib Require Import SpecFloat Sorting.Sorted.
From S2P Require Import Prelude AssocList Double Proto Queue QueueManager.

(** how many elements satisfy a predicate *)
Fixpoint count {A : Type} (p : A -> bool) (l : list A) : nat :=
  match l with [] => 0 | x :: l => (if p x then 1 else 0) + count p l end.

Lemma count_perm {A} (p : A -> bool) l l' : l ≡ₚ l' -> count p l = count p l'.
Proof. induction 1; simpl; lia. Qed.

Lemma count_sublist {A} (p : A -> bool) l l' : sublist l l' -> (count p l <= count p l')%nat.
Proof. induction 1; simpl; lia. Qed.

Lemma count_elem_of {A} (p : A -> bool) l x : x ∈ l -> p x = true -> (0 < count p l)%nat.
Proof. induction 1; simpl; intros E; [rewrite E; lia | specialize (IHlist_elem_of E); lia]. Qed.

Lemma count_zero {A} (p : A -> bool) l : (forall x, x ∈ l -> p x = false) -> count p l = 0%nat.
Proof.
  induction l as [|y l IH]; simpl; intros H; [done|].
  rewrite (H y) by set_solver. rewrite IH; [done|]. intros x Hx. apply H. set_solver.
Qed.

Section ManagerInvariant.
Context `{P : Protobuf} `{D : !DCCLCodec} `{T : BoostText}.
Implicit Types (m : QueueManager) (q : Queue).

(** ** The invariant *)

Definition on_frame {A : Type} (f : Z) (e : Z * A) : bool := fst e =? f.
Definition entry_is (f k : Z) (e : Z * Z) : bool := (fst e =? f) && (snd e =? k).

(** For each queue and frame, the manager has at least as many entries as the
    queue has messages waiting on that frame. *)
Definition dominates (w : list (Z * Z)) (k : Z) q : Prop :=
  forall f, (count (on_frame f) (q_waiting_for_ack q) <= count (entry_is f k) w)%nat.

Record manager_wf m : Prop := {
  mwf_sorted : StronglySorted Z.lt (map fst (queues m));
  mwf_queues : forall k q, al_lookup k (queues m) = Some q -> queue_wf q /\ id q = k;
  mwf_waiting : forall f k, (f, k) ∈ waiting_for_ack m -> is_Some (al_lookup k (queues m));
  mwf_dominates : forall k q, al_lookup k (queues m) = Some q -> dominates (waiting_for_ack m) k q
}.

(** Replacing one queue together with the table of the manager. *)
Lemma queue_update_wf m k q w :
  manager_wf m -> queue_wf q -> id q = k ->
  (forall k' q', k' <> k -> al_lookup k' (queues m) = Some q' -> dominates w k' q') ->
  dominates w k q ->
  (forall f k', (f, k') ∈ w -> (f, k') ∈ waiting_for_ack m \/ k' = k) ->
  manager_wf (set_waiting_for_ack w (set_queue k q m)).
Proof.
  intros W Wq Hid Hdom Hdq Hw. constructor; simpl.
  - apply al_insert_sorted, W.
  - intros k' q'. rewrite al_lookup_insert. destruct (k' =? k) eqn:E; to_prop.
    + intros [= <-]. by subst.
    + apply W.
  - intros f k' Hin. rewrite al_lookup_insert. destruct (k' =? k) eqn:E; to_prop; [eauto|].
    destruct (Hw f k' Hin) as [H| ->]; [by eapply mwf_waiting | done].
  - intros k' q'. rewrite al_lookup_insert. destruct (k' =? k) eqn:E; to_prop.
    + intros [= <-]. by subst.
    + eauto.
Qed.

Lemma set_queue_wf m k q :
  manager_wf m -> queue_wf q -> id q = k -> dominates (waiting_for_ack m) k q ->
  manager_wf (set_queue k q m).
Proof.
  intros W Wq Hid Hd.
  pose proof (queue_update_wf m k q (waiting_for_ack m) W Wq Hid) as H.
  destruct m. apply H; auto. intros k' q' _. apply (mwf_dominates _ W).
Qed.

(** The fields that neither the queues nor the table depend on. *)
Lemma manager_wf_ext m m' :
  queues m' = queues m -> waiting_for_ack m' = waiting_for_ack m -> manager_wf m -> manager_wf m'.
Proof. intros Eq Ew [W1 W2 W3 W4]. constructor; rewrite Eq, ?Ew; auto. Qed.

Lemma dominates_sublist w k q q' :
  dominates w k q -> sublist (q_waiting_for_ack q') (q_waiting_for_ack q) -> dominates w k q'.
Proof. intros H S f. pose proof (count_sublist (on_frame f) _ _ S). specialize (H f). lia. Qed.

(** an operation that only shortens the table of one queue *)
Definition shrinks q q' : Prop :=
  q_desc q' = q_desc q /\ sublist (q_waiting_for_ack q') (q_waiting_for_ack q).

Lemma shrink_wf m k q q' :
  manager_wf m -> al_lookup k (queues m) = Some q -> queue_wf q' -> shrinks q q' ->
  manager_wf (set_queue k q' m).
Proof.
  intros W H Wq [Hd S]. apply set_queue_wf; auto.
  - unfold id. rewrite Hd. by destruct (mwf_queues m W k q H).
  - eapply dominates_sublist; [by apply (mwf_dominates m W) | done].
Qed.

(** ** Every operation preserves it *)

Lemma enforce_max_queue_shrinks q : shrinks q (enforce_max_queue q).
Proof. unfold enforce_max_queue. repeat split_if; split; auto. apply remove_first_sublist. Qed.

Lemma push_message_meta_shrinks p now x mt q q' evs b :
  push_message_meta p now x mt q = (q', evs, b) -> shrinks q q'.
Proof.
  unfold push_message_meta. cbv zeta. repeat split_if; intros [= <- _ _]; try (split; auto; done);
    match goal with |- shrinks _ (enforce_max_queue ?q1) => exact (enforce_max_queue_shrinks q1) end.
Qed.

Lemma expire_loop_sublist now ttl : forall ms w ms' w' ex,
  expire_loop now ttl ms w = (ms', w', ex) -> sublist w' w.
Proof.
  induction ms as [|[n x] ms IH]; simpl; intros w ms' w' ex; [intros [= _ <- _]; done|].
  destruct (expired now ttl x); [|intros [= _ <- _]; done].
  destruct (expire_loop _ _ _ _) as [[ms1 w1] ex1] eqn:E. intros [= _ <- _].
  etrans; [by eapply IH | apply remove_first_sublist].
Qed.

Lemma expire_shrinks now q q' ex : expire now q = (q', ex) -> shrinks q q'.
Proof.
  unfold expire. destruct (expire_loop _ _ _ _) as [[ms w] ex'] eqn:E. intros [= <- _].
  split; [done|]. by eapply expire_loop_sublist.
Qed.

Lemma pop_message_shrinks q q' b : pop_message q = Some (q', b) -> shrinks q q'.
Proof. unfold pop_message. repeat split_if; intros [= <- _]; done. Qed.

Lemma pop_message_ack_shrinks f q q' r : pop_message_ack f q = Some (q', r) -> shrinks q q'.
Proof.
  unfold pop_message_ack. repeat split_if; intros [= <- _]; split; auto. apply remove_first_sublist.
Qed.

Lemma clear_ack_queue_shrinks p now start q q' b :
  clear_ack_queue p now start q = (q', b) -> shrinks q q'.
Proof. intros [= <- _]. split; [done | apply filter_sublist]. Qed.

Lemma set_cfg_shrinks c q q' : Queue.set_cfg c q = Ok q' -> shrinks q q'.
Proof.
  unfold Queue.set_cfg, process_cfg. destruct (process_roles _ _ _ _) as [[? ?]|]; simpl; [|done].
  by intros [= <-].
Qed.

Lemma new_queue_fields now desc c q :
  new_queue now desc c = Ok q -> q_desc q = desc /\ q_waiting_for_ack q = [].
Proof.
  unfold new_queue, process_cfg. destruct (process_roles _ _ _ _) as [[? ?]|]; simpl; [|done].
  by intros [= <-].
Qed.

Lemma add_queue_wf now desc c m m' evs :
  manager_wf m -> add_queue now desc c m = Ok (m', evs) -> manager_wf m'.
Proof.
  intros W. unfold add_queue. destruct (negb _); [done|].
  destruct (al_lookup _ _) as [q|] eqn:E.
  - destruct (Queue.set_cfg c q) as [q'|] eqn:Eq; simpl; [|done]. intros [= <- _].
    eapply shrink_wf; eauto using set_cfg_shrinks. eapply Queue.set_cfg_wf; [|exact Eq]. by eapply W.
  - destruct (new_queue _ _ _) as [q|] eqn:Eq; simpl; [|done]. intros [= <- _].
    destruct (new_queue_fields _ _ _ _ Eq) as [Hd Hw].
    apply set_queue_wf; [done | by eapply new_queue_wf | unfold id; by rewrite Hd |].
    intros f. rewrite Hw. simpl. lia.
Qed.

Lemma manager_push_message_wf e now x mt m m' evs :
  manager_wf m -> manager_push_message e now x mt m = Ok (m', evs) -> manager_wf m'.
Proof.
  intros W. unfold manager_push_message. destruct (al_lookup _ _) as [q|] eqn:E; [|done].
  assert (Hpush : forall q' evs b mt, push_message_meta (parent_of e m) now x mt q = (q', evs, b) ->
    manager_wf (set_queue (codec_id (GetDescriptor x)) q' m)).
  { intros q' evs' b mt' H. eapply shrink_wf; eauto using push_message_meta_shrinks.
    eapply push_message_meta_wf; [|exact H]. by eapply W. }
  destruct mt as [mt|]; simpl.
  - destruct (push_message_meta _ _ _ _ _) as [[q' ev] b] eqn:Ep. intros [= <- _]. by eapply Hpush.
  - unfold push_message. destruct (meta_from_msg q x) as [mt|]; simpl; [|done].
    destruct (push_message_meta _ _ _ _ _) as [[q' ev] b] eqn:Ep. simpl. intros [= <- _]. by eapply Hpush.
Qed.

Lemma flush_queue_wf k m : manager_wf m -> manager_wf (fst (flush_queue k m)).
Proof.
  intros W. unfold flush_queue. destruct (al_lookup _ _) as [q|] eqn:E; [|done]. simpl.
  eapply shrink_wf; eauto; [by eapply flush_wf, W | split; [done|]]. apply sublist_nil_l.
Qed.

Lemma do_work_loop_wf e now : forall keys m m' evs,
  manager_wf m -> do_work_loop e now keys m = Ok (m', evs) -> manager_wf m'.
Proof.
  induction keys as [|k keys IH]; simpl; intros m m' evs W; [by intros [= <- _]|].
  destruct (al_lookup k (queues m)) as [q|] eqn:E; [|by apply IH].
  destruct (expire now q) as [q' ex] eqn:Ex.
  destruct (signal_expired _ _ _) as [ev|]; simpl; [|done].
  destruct (do_work_loop _ _ _ _) as [[m1 ev1]|] eqn:El; simpl; [|done]. intros [= <- _].
  eapply IH; [|exact El]. eapply shrink_wf; eauto using expire_shrinks.
  eapply expire_wf; [|exact Ex]. by eapply W.
Qed.

Lemma shrinks_trans q1 q2 q3 : shrinks q1 q2 -> shrinks q2 q3 -> shrinks q1 q3.
Proof. intros [H1 H2] [H3 H4]. split; [congruence | by etrans]. Qed.

(** What [clear_packet] does to one queue: it keeps the description, drops some
    of its waiting entries, and unless it drops all, the table of the manager
    keeps every entry of that queue. *)
Definition cleared (w w' : list (Z * Z)) (k : Z) q q' : Prop :=
  shrinks q q' /\ (queue_wf q -> queue_wf q') /\
  (q_waiting_for_ack q' = [] \/ forall f, count (entry_is f k) w' = count (entry_is f k) w).

Lemma clear_packet_loop_spec p now start : forall w qs w' qs',
  StronglySorted Z.lt (map fst qs) -> clear_packet_loop p now start w qs = (w', qs') ->
  StronglySorted Z.lt (map fst qs') /\ sublist w' w /\
  forall k, match al_lookup k qs with
            | None => al_lookup k qs' = None
            | Some q => exists q', al_lookup k qs' = Some q' /\ cleared w w' k q q'
            end.
Proof.
  induction w as [|[f0 k0] w IH]; intros qs w' qs' S; cbn [clear_packet_loop].
  { intros [= <- <-]. split; [done|]. split; [constructor|]. intros k.
    destruct (al_lookup k qs) as [q|]; [|done]. exists q.
    split; [done|]. split; [by split|]. split; [done | by right]. }
  destruct (al_lookup k0 qs) as [q|] eqn:E0.
  - destruct (clear_ack_queue p now start q) as [q1 empty] eqn:Ec.
    destruct (clear_packet_loop _ _ _ w _) as [w1 qs1] eqn:El. intros [= <- <-].
    apply IH in El as (S1 & Sub & H); [|by apply al_insert_sorted]. split; [done|].
    split; [destruct empty; by constructor|]. intros k. specialize (H k).
    rewrite al_lookup_insert in H. destruct (k =? k0) eqn:Ek; to_prop.
    + subst k0. rewrite E0. destruct H as (q' & Hq' & Hs & Hw & Hc). exists q'. split; [done|].
      assert (Hq1 := Ec). apply clear_ack_queue_shrinks in Hq1.
      split; [by eapply shrinks_trans|].
      split; [intros Wq; apply Hw; by eapply clear_ack_queue_wf|].
      destruct empty.
      * left. injection Ec as Eq1 Eb. to_prop. destruct Hs as [_ Hs]. rewrite <- Eq1 in Hs.
        simpl in Hs. rewrite Eb in Hs. by apply sublist_nil_r in Hs.
      * destruct Hc as [Hc|Hc]; [by left|]. right. intros f. simpl. by rewrite Hc.
    + destruct (al_lookup k qs) as [qk|]; [|done].
      destruct H as (q' & Hq' & Hs & Hw & Hc). exists q'. split; [done|]. split; [done|]. split; [done|].
      destruct Hc as [Hc|Hc]; [by left|]. right. intros f. simpl.
      assert (En : forall f, entry_is f k (f0, k0) = false).
      { intros f'. unfold entry_is. simpl. replace (k0 =? k) with false; [apply andb_false_r|].
        symmetry. apply Z.eqb_neq. lia. }
      rewrite En, <- Hc. destruct empty; simpl; by rewrite ?En.
  - destruct (clear_packet_loop _ _ _ w _) as [w1 qs1] eqn:El. intros [= <- <-].
    apply IH in El as (S1 & Sub & H); [|done]. split; [done|]. split; [by constructor|].
    intros k. specialize (H k). destruct (al_lookup k qs) as [qk|]; [|done].
    destruct H as (q' & Hq' & Hs & Hw & Hc). exists q'. split; [done|]. split; [done|]. split; [done|].
    destruct Hc as [Hc|Hc]; [by left|]. right. intros f. simpl. by rewrite Hc.
Qed.

Lemma clear_packet_wf e now msg m : manager_wf m -> manager_wf (clear_packet e now msg m).
Proof.
  intros W. unfold clear_packet. destruct (clear_packet_loop _ _ _ _ _) as [w qs] eqn:E.
  apply clear_packet_loop_spec in E as (S & Sub & H); [|apply W].
  assert (Hinv : forall k q', al_lookup k qs = Some q' ->
            exists q, al_lookup k (queues m) = Some q /\ cleared (waiting_for_ack m) w k q q').
  { intros k q' Hq'. specialize (H k). destruct (al_lookup k (queues m)) as [q|]; [|congruence].
    destruct H as (q1 & H1 & Hc). replace q' with q1 by congruence. eauto. }
  constructor; simpl; auto.
  - intros k q' Hq'. destruct (Hinv k q' Hq') as (q & Hq & [Hd _] & Hw & _).
    destruct (mwf_queues m W k q Hq) as [? ?]. split; [auto|]. unfold id. by rewrite Hd.
  - intros f k Hin. eapply sublist_subseteq in Hin; [|exact Sub].
    destruct (mwf_waiting m W f k Hin) as [q Hq]. specialize (H k). rewrite Hq in H.
    destruct H as (q' & -> & _). eauto.
  - intros k q' Hq'. destruct (Hinv k q' Hq') as (q & Hq & [_ Hs] & _ & [Hc|Hc]).
    + intros f. rewrite Hc. simpl. lia.
    + intros f. rewrite Hc. pose proof (count_sublist (on_frame f) _ _ Hs).
      pose proof (mwf_dominates m W k q Hq f). lia.
Qed.

Lemma fill_on_demand_wf e now msg k q m m' evs :
  manager_wf m -> fill_on_demand e now msg k q m = Ok (m', evs) -> manager_wf m'.
Proof.
  intros W. unfold fill_on_demand. cbv zeta. destruct (_ && _); [|by intros [= <- _]].
  destruct (IsInitialized _); [|by intros [= <- _]]. by apply manager_push_message_wf.
Qed.

Lemma find_next_sender_loop_wf e now msg n : forall keys w m m' evs w',
  manager_wf m -> find_next_sender_loop e now msg n keys w m = Ok (m', evs, w') -> manager_wf m'.
Proof.
  induction keys as [|k keys IH]; simpl; intros w m m' evs w' W; [by intros [= <- _ _]|].
  destruct (al_lookup k (queues m)) as [q|]; simpl; [|done].
  destruct (fill_on_demand _ _ _ _ _ _) as [[m1 ev1]|] eqn:Ef; simpl; [|done].
  destruct (al_lookup k (queues m1)) as [q1|]; simpl; [|done].
  destruct (get_priority_values _ _ _ _) as [[[pr ls] ok]|]; simpl; [|done].
  destruct (find_next_sender_loop _ _ _ _ _ _ _) as [[[m2 ev2] w2]|] eqn:El; simpl; [|done].
  intros [= <- _ _]. eapply IH; [|exact El]. by eapply fill_on_demand_wf.
Qed.

Lemma find_next_sender_wf e now msg n m m' evs w :
  manager_wf m -> find_next_sender e now msg n m = Ok (m', evs, w) -> manager_wf m'.
Proof.
  intros W. unfold find_next_sender.
  destruct (find_next_sender_loop _ _ _ _ _ _ _) as [[[m1 ev1] w1]|] eqn:E; simpl; [|done].
  intros [= <- _ _]. by eapply find_next_sender_loop_wf.
Qed.

(** *** Packing *)

Lemma give_data_waiting now f q q' x :
  give_data now f q = Some (q', x) ->
  q_desc q' = q_desc q /\
  if meta_ack (meta x) then exists node, q_waiting_for_ack q' ≡ₚ (f, node) :: q_waiting_for_ack q
  else q_waiting_for_ack q' = q_waiting_for_ack q.
Proof.
  unfold give_data. destruct (next_message_it q) as [[node x0]|]; [|done]. intros [= <- <-].
  split; [done|]. simpl. change (meta_ack _) with (meta_ack (meta x0) && negb (meta_dest (meta x0) =? BROADCAST_ID)) at 1.
  destruct (_ && _); [exists node; apply mm_insert_perm | done].
Qed.

(** one message taken from queue [k]: given to the frame, then either recorded
    as waiting or popped *)
Definition taken (now f k : Z) (next : QueuedMessage) m m' : Prop :=
  exists q q1, al_lookup k (queues m) = Some q /\ give_data now f q = Some (q1, next) /\
    if meta_ack (meta next)
    then queues m' = al_insert k q1 (queues m)
         /\ waiting_for_ack m' = mm_insert f k (waiting_for_ack m)
    else exists q2, pop_message q1 = Some (q2, true) /\ queues m' = al_insert k q2 (queues m)
         /\ waiting_for_ack m' = waiting_for_ack m.

Lemma discipline_packet_manager f next msg m msg' m' :
  discipline_packet f next msg m = (msg', m') ->
  queues m' = queues m /\ waiting_for_ack m' = waiting_for_ack m /\ manips m' = manips m
  /\ encrypt_rules m' = encrypt_rules m /\ codec_passphrase m' = codec_passphrase m
  /\ modem_id m' = modem_id m /\ cfg m' = cfg m
  /\ mt_max_frame_bytes msg' = mt_max_frame_bytes msg /\ mt_frame_start msg' = mt_frame_start msg
  /\ mt_frame msg' = mt_frame msg.
Proof. unfold discipline_packet. repeat split_if; intros [= <- <-]; repeat split; done. Qed.

Lemma take_user_frame_taken e now f o k s s' :
  manager_wf (pk_manager s) -> take_user_frame e now f o k s = Ok s' ->
  exists next, taken now f k next (pk_manager s) (pk_manager s').
Proof.
  intros W. unfold take_user_frame. cbv zeta.
  destruct (al_lookup k _) as [q|] eqn:Eq; simpl; [|done].
  destruct (give_data now f q) as [[q1 next]|] eqn:Eg; simpl; [|done].
  destruct (ack_or_pop _ _ _ _) as [[m1 ev]|] eqn:Ea; simpl; [|done].
  destruct (discipline_packet _ _ _ _) as [msg m2] eqn:Ed. simpl.
  destruct (manager_meta_from_msg _ _) as [mt|]; simpl; [|done]. intros H.
  exists next, q, q1. split; [done|]. split; [done|].
  apply discipline_packet_manager in Ed as (Hq & Hw & _).
  assert (Hm : pk_manager s' = m2) 
    by (destruct (qm_encoded_message (meta next)); [|destruct (pk_passthrough s)]; by injection H as <-).
  rewrite Hm, Hq, Hw. unfold ack_or_pop in Ea. destruct (meta_ack (meta next)) eqn:Hack.
  - by injection Ea as <- _.
  - simpl in Ea. rewrite al_lookup_insert, Z.eqb_refl in Ea. simpl in Ea.
    destruct (give_then_pop now f q q1 next) as (node & m0 & _ & _ & _ & Hp); [by eapply W | done | done |].
    rewrite Hp in Ea. simpl in Ea. injection Ea as <- _. eexists. split; [exact Hp|]. simpl.
    by rewrite al_insert_twice.
Qed.

Lemma taken_wf now f k next m m' : manager_wf m -> taken now f k next m m' -> manager_wf m'.
Proof.
  intros W (q & q1 & Hq & Hg & H). destruct (mwf_queues m W k q Hq) as [Wq Hid].
  pose proof (give_data_wf _ _ _ _ _ Wq Hg) as Wq1.
  destruct (give_data_waiting _ _ _ _ _ Hg) as [Hd Hw]. pose proof (mwf_dominates m W k q Hq) as Hdom.
  destruct (meta_ack (meta next)).
  - destruct H as [H1 H2], Hw as [node Hw].
    apply (manager_wf_ext (set_waiting_for_ack (mm_insert f k (waiting_for_ack m)) (set_queue k q1 m)));
      [done | done |].
    apply queue_update_wf; auto.
    + unfold id. by rewrite Hd.
    + intros k' q' Hk' Hq' f'. rewrite (count_perm _ _ _ (mm_insert_perm _ _ _)). simpl.
      pose proof (mwf_dominates m W k' q' Hq' f'). lia.
    + intros f'. rewrite (count_perm _ _ _ Hw), (count_perm _ _ _ (mm_insert_perm _ _ _)). simpl.
      specialize (Hdom f'). unfold on_frame at 1, entry_is at 1. simpl. rewrite Z.eqb_refl, andb_true_r. lia.
    + intros f' k' Hin. rewrite mm_insert_perm in Hin. set_solver.
  - destruct H as (q2 & Hp & H1 & H2). apply (manager_wf_ext (set_queue k q2 m)); [done | done |].
    destruct (pop_message_shrinks _ _ _ Hp) as [Hd2 Hs2].
    eapply shrink_wf; [done | exact Hq | by eapply pop_message_wf |]. split; [congruence|].
    by rewrite <- Hw.
Qed.

Lemma pack_loop_wf e now f o : forall fuel k s s',
  manager_wf (pk_manager s) -> pack_loop fuel e now f o k s = Ok s' -> manager_wf (pk_manager s').
Proof.
  induction fuel as [|fuel IH]; simpl; intros k s s' W; [done|].
  destruct (take_user_frame _ _ _ _ _ _) as [s1|] eqn:Et; simpl; [|done].
  assert (W1 : manager_wf (pk_manager s1)).
  { destruct (take_user_frame_taken _ _ _ _ _ _ _ W Et) as [next H]. by eapply taken_wf. }
  destruct (pk_passthrough s1); [by intros [= <-]|]. destruct (0 <? _); [|by intros [= <-]].
  destruct (find_next_sender _ _ _ _ _) as [[[m2 ev] w]|] eqn:Ef; simpl; [|done].
  assert (W2 : manager_wf m2) by (by eapply find_next_sender_wf).
  destruct w as [k2|]; [by apply IH | by intros [= <-]].
Qed.

Lemma fill_frame_wf fuel e now f msg m msg' m' evs :
  manager_wf m -> fill_frame fuel e now f msg m = Ok (msg', m', evs) -> manager_wf m'.
Proof.
  intros W. unfold fill_frame. cbv zeta.
  destruct (find_next_sender _ _ _ _ _) as [[[m1 ev] w]|] eqn:Ef; simpl; [|done].
  assert (W1 : manager_wf m1) by (by eapply find_next_sender_wf).
  destruct w as [k|]; [|by intros [= _ <- _]].
  destruct (pack_loop _ _ _ _ _ _ _) as [s|] eqn:Ep; simpl; [|done].
  destruct (encode_frame _ _ _ _ _) as [[pass data]|]; simpl; [|done]. intros [= _ <- _].
  apply pack_loop_wf in Ep; [|done]. by eapply manager_wf_ext; [| |exact Ep].
Qed.

Lemma fill_frames_wf fuel e now : forall n f msg m msg' m' evs,
  manager_wf m -> fill_frames fuel e now n f msg m = Ok (msg', m', evs) -> manager_wf m'.
Proof.
  induction n as [|n IH]; simpl; intros f msg m msg' m' evs W; [by intros [= _ <- _]|].
  destruct (fill_frame _ _ _ _ _ _) as [[[msg1 m1] ev1]|] eqn:Ef; simpl; [|done].
  destruct (fill_frames _ _ _ _ _ _ _) as [[[msg2 m2] ev2]|] eqn:El; simpl; [|done].
  intros [= _ <- _]. eapply IH; [|exact El]. by eapply fill_frame_wf.
Qed.

Lemma handle_modem_data_request_wf fuel e now msg m msg' m' evs :
  manager_wf m -> handle_modem_data_request fuel e now msg m = Ok (msg', m', evs) -> manager_wf m'.
Proof.
  intros W. unfold handle_modem_data_request. cbv zeta.
  destruct (fill_frames _ _ _ _ _ _ _) as [[[msg1 m1] ev1]|] eqn:El; simpl; [|done].
  intros [= _ <- _]. eapply fill_frames_wf; [|exact El]. by apply clear_packet_wf.
Qed.

End ManagerInvariant.

(** ** Acknowledgements *)

Section Acknowledgements.
Context `{P : Protobuf} `{D : !DCCLCodec} `{T : BoostText}.
Implicit Types (m : QueueManager) (q : Queue).

(** The specification of an acknowledgement of frame [f]: the messages waiting
    on it leave the queue, and so do the waiting entries. *)
Definition waits_on (f : Z) q (n : nat) : bool :=
  existsb (fun e => (fst e =? f) && Nat.eqb (snd e) n) (q_waiting_for_ack q).

Definition release (f : Z) q : Queue :=
  set_q_messages (List.filter (fun e => negb (waits_on f q (fst e))) (q_messages q))
    (set_q_waiting_for_ack (List.filter (fun e => negb (fst e =? f)) (q_waiting_for_ack q)) q).

(** the messages of the manager waiting on frame [f] *)
Definition acked m (f : Z) (x : QueuedMessage) : Prop :=
  exists k q n, al_lookup k (queues m) = Some q /\ (f, n) ∈ q_waiting_for_ack q
                /\ (n, x) ∈ q_messages q.

Lemma waits_on_spec f q n : waits_on f q n = true <-> (f, n) ∈ q_waiting_for_ack q.
Proof.
  unfold waits_on. rewrite existsb_exists. split.
  - intros ([f' n'] & Hin & H). simpl in H. apply andb_true_iff in H as [->%Z.eqb_eq ->%Nat.eqb_eq].
    by apply list_elem_of_In.
  - intros H. exists (f, n). rewrite <- list_elem_of_In. split; [done|]. simpl.
    by rewrite Z.eqb_refl, Nat.eqb_refl.
Qed.

Lemma filter_all {A} (p : A -> bool) l : (forall x, x ∈ l -> p x = true) -> List.filter p l = l.
Proof.
  induction l as [|x l IH]; intros H; simpl; [done|]. rewrite (H x) by set_solver.
  rewrite IH; [done|]. set_solver.
Qed.

Lemma filter_remove_first {A} (p : A -> bool) l :
  List.filter (fun x => negb (p x)) (remove_first p l) = List.filter (fun x => negb (p x)) l.
Proof.
  induction l as [|x l IH]; simpl; [done|]. destruct (p x) eqn:E; simpl; [done|]. by rewrite E, IH.
Qed.

Lemma filter_ext_elem {A} (p p' : A -> bool) l :
  (forall x, x ∈ l -> p x = p' x) -> List.filter p l = List.filter p' l.
Proof.
  induction l as [|x l IH]; intros H; simpl; [done|]. rewrite (H x) by set_solver.
  rewrite IH; [done|]. set_solver.
Qed.

Lemma filter_remove_key {A} (p p' : nat * A -> bool) node ms :
  NoDup (map fst ms) ->
  (forall e, e ∈ ms -> fst e <> node -> p' e = p e) -> (forall e, fst e = node -> p e = false) ->
  List.filter p' (remove_first (fun e => Nat.eqb (fst e) node) ms) = List.filter p ms.
Proof.
  induction ms as [|[n x] ms IH]; simpl; intros Hn He Hf; [done|].
  apply NoDup_cons in Hn as [Hx Hn]. destruct (Nat.eqb_spec n node) as [->|Hne].
  - rewrite (Hf (node, x)) by done. apply filter_ext_elem. intros [n' y] Hy. apply He; [set_solver|].
    simpl. intros ->. apply Hx, list_elem_of_fmap. by exists (node, y).
  - simpl. rewrite (He (n, x)) by set_solver. rewrite IH; [done | done | | done]. set_solver.
Qed.

(** Popping one message of the frame does not change what is left in the end. *)
Lemma release_pop f q q' r :
  queue_wf q -> pop_message_ack f q = Some (q', r) -> release f q' = release f q.
Proof.
  intros W. unfold pop_message_ack.
  destruct (List.find _ _) as [[f0 node]|] eqn:E; [|by intros [= <- _]].
  destruct (lookup_node _ _); [|done]. intros [= <- _].
  pose proof (find_elem_of _ _ _ E) as [Hin Hf]. simpl in Hf. to_prop. subst f0.
  pose proof (remove_first_perm _ _ _ E) as Hp.
  unfold release. simpl. rewrite filter_remove_first. unfold erase_node.
  rewrite (filter_remove_key (fun e => negb (waits_on f q (fst e)))); [done | apply W | |].
  - intros [n x] _ Hne. f_equal. unfold waits_on. simpl in *.
    apply Bool.eq_iff_eq_true. rewrite !existsb_exists.
    setoid_rewrite <- list_elem_of_In. split.
    + intros (e & He & ?). exists e. split; [|done]. by apply remove_first_elem_of in He.
    + intros (e & He & Hc). exists e. split; [|done]. rewrite Hp in He.
      apply elem_of_cons in He as [->|He]; [|done]. simpl in Hc. rewrite Z.eqb_refl in Hc.
      by apply Nat.eqb_eq in Hc.
  - intros e ->. apply negb_false_iff, waits_on_spec, Hin.
Qed.

Lemma release_none f q : count (on_frame f) (q_waiting_for_ack q) = 0%nat -> release f q = q.
Proof.
  intros H. assert (Hne : forall e, e ∈ q_waiting_for_ack q -> (fst e =? f) = false).
  { intros e He. destruct (fst e =? f) eqn:E; [|done].
    pose proof (count_elem_of (on_frame f) _ e He E). lia. }
  unfold release. rewrite (filter_all _ (q_waiting_for_ack q)), filter_all; [by destruct q| |].
  - intros [n x] _. apply negb_true_iff. destruct (waits_on f q n) eqn:E; [|done].
    apply waits_on_spec, Hne in E. simpl in E. by rewrite Z.eqb_refl in E.
  - intros e He. by rewrite Hne.
Qed.

(** ** Metadata depend on the configuration of the queues only *)

Lemma set_queue_meta k q q' m x :
  al_lookup k (queues m) = Some q -> q_roles q' = q_roles q -> q_static_meta q' = q_static_meta q ->
  manager_meta_from_msg (set_queue k q' m) x = manager_meta_from_msg m x.
Proof.
  intros H Hr Hs. unfold manager_meta_from_msg. simpl. rewrite al_lookup_insert.
  destruct (_ =? k) eqn:E; to_prop; [|done]. rewrite E, H. unfold meta_from_msg. by rewrite Hr, Hs.
Qed.

Lemma network_ack_for_ext e a x b m m' :
  (forall x, manager_meta_from_msg m' x = manager_meta_from_msg m x) ->
  network_ack_src_ids m' = network_ack_src_ids m -> modem_id m' = modem_id m ->
  network_ack_for e a x b m' = network_ack_for e a x b m.
Proof.
  intros H1 H2 H3. unfold network_ack_for, create_network_ack. rewrite !H1, H2, H3.
  destruct (manager_meta_from_msg m x); [|done]. simpl. by rewrite !H1.
Qed.

Lemma pop_message_ack_cfg f q q' r :
  pop_message_ack f q = Some (q', r) -> q_roles q' = q_roles q /\ q_static_meta q' = q_static_meta q.
Proof. unfold pop_message_ack. repeat split_if; by intros [= <- _]. Qed.

Lemma network_ack_for_no_ack e a x b m evs :
  network_ack_for e a x b m = Ok evs -> forall a' y, SigAck a' y ∉ evs.
Proof.
  unfold network_ack_for, create_network_ack. destruct (manager_meta_from_msg m x); simpl; [|done].
  case_bool_decide; [|by intros [= <-]; set_solver]. case_bool_decide; [by intros [= <-]; set_solver|].
  simpl. destruct (manager_meta_from_msg m _); simpl; [|done].
  destruct (_ =? _); intros [= <-] a' y Hin; apply list_elem_of_singleton in Hin; done.
Qed.

(** ** The loop over the entries of a frame *)

(** what follows the removal of one message *)
Lemma pop_ack_step m f k q q' r :
  manager_wf m -> List.find (fun x => fst x =? f) (waiting_for_ack m) = Some (f, k) ->
  al_lookup k (queues m) = Some q -> pop_message_ack f q = Some (q', r) ->
  manager_wf (set_waiting_for_ack (remove_first (fun x => fst x =? f) (waiting_for_ack m))
                (set_queue k q' m)).
Proof.
  intros W Hf Hq Hp. destruct (mwf_queues m W k q Hq) as [Wq Hid].
  destruct (pop_message_ack_shrinks _ _ _ _ Hp) as [Hd Hs].
  pose proof (remove_first_perm _ _ _ Hf) as Hperm.
  assert (Hcount : forall f' k', (count (entry_is f' k') (waiting_for_ack m) =
    (if ((f =? f') && (k =? k'))%Z then 1 else 0)
    + count (entry_is f' k') (remove_first (fun x => fst x =? f)%Z (waiting_for_ack m)))%nat).
  { intros f' k'. by rewrite (count_perm _ _ _ Hperm). }
  apply queue_update_wf; auto.
  - by eapply pop_message_ack_wf.
  - unfold id. by rewrite Hd.
  - intros k' q1 Hk Hq1 f'. pose proof (mwf_dominates m W k' q1 Hq1 f') as Hdom.
    rewrite Hcount in Hdom. replace (k =? k') with false in Hdom by (symmetry; apply Z.eqb_neq; lia).
    rewrite andb_false_r in Hdom. lia.
  - intros f'. pose proof (mwf_dominates m W k q Hq f') as Hdom. rewrite Hcount in Hdom.
    rewrite Z.eqb_refl, andb_true_r in Hdom. pose proof (count_sublist (on_frame f') _ _ Hs).
    destruct (f =? f') eqn:E; to_prop; [subst f'|lia].
    unfold pop_message_ack in Hp. destruct (List.find _ (q_waiting_for_ack q)) as [[f0 n]|] eqn:Eq.
    + destruct (lookup_node _ _); [|done]. injection Hp as <- _. simpl.
      pose proof (find_elem_of _ _ _ Eq) as [_ Ef]. 
      rewrite (count_perm _ _ _ (remove_first_perm _ _ _ Eq)) in Hdom. simpl in Hdom, Ef.
      unfold on_frame at 1 in Hdom. simpl in Hdom. rewrite Ef in Hdom. lia.
    + rewrite (count_zero (on_frame f) (q_waiting_for_ack q')); [lia|].
      intros e He. injection Hp as <- _. by eapply find_none_elem_of in Eq.
  - intros f' k' Hin. left. by apply remove_first_elem_of in Hin.
Qed.

(** a message whose network acknowledgement cannot be built *)
Definition network_ack_fails e (ack_src : Z) m : Prop :=
  exists k q n x, al_lookup k (queues m) = Some q /\ (n, x) ∈ q_messages q /\
    is_ok (network_ack_for e ack_src (dccl_msg x) true m) = false.

Lemma pop_message_ack_removed f q q' x :
  queue_wf q -> pop_message_ack f q = Some (q', Some x) ->
  exists n y, (f, n) ∈ q_waiting_for_ack q /\ (n, y) ∈ q_messages q /\ dccl_msg y = x
    /\ q_waiting_for_ack q ≡ₚ (f, n) :: q_waiting_for_ack q'
    /\ forall n' y', (n', y') ∈ q_messages q' <-> (n', y') ∈ q_messages q /\ n' <> n.
Proof.
  intros W. unfold pop_message_ack. destruct (List.find _ _) as [[f0 n]|] eqn:E; [|done].
  pose proof (find_elem_of _ _ _ E) as [Hin Hf]. simpl in Hf. to_prop. subst f0.
  pose proof (remove_first_perm _ _ _ E) as Hp.
  destruct (lookup_node n (q_messages q)) as [y|] eqn:El; [|done]. intros [= <- <-].
  apply lookup_node_spec in El; [|apply W]. exists n, y. repeat split; auto.
  - apply (remove_key_elem_of fst) in H; [by destruct H | apply W].
  - apply (remove_key_elem_of fst) in H; [by destruct H | apply W].
  - intros [H1 H2]. apply (remove_key_elem_of fst); auto; apply W.
Qed.

Lemma pop_message_ack_none f q q' :
  queue_wf q -> pop_message_ack f q = Some (q', None) ->
  q' = q /\ forall n, (f, n) ∉ q_waiting_for_ack q.
Proof.
  intros W. unfold pop_message_ack. destruct (List.find _ _) as [[f0 n]|] eqn:E.
  - by destruct (lookup_node n (q_messages q)).
  - intros [= <-]. split; [done|]. intros n Hin. eapply find_none_elem_of in E; [|exact Hin].
    simpl in E. by rewrite Z.eqb_refl in E.
Qed.

(** the manager after one entry of the table has been served *)
Definition served (f k : Z) q' m : QueueManager :=
  set_waiting_for_ack (remove_first (fun x => fst x =? f) (waiting_for_ack m)) (set_queue k q' m).

Lemma served_lookup f k q' m j :
  al_lookup j (queues (served f k q' m)) = if j =? k then Some q' else al_lookup j (queues m).
Proof. apply al_lookup_insert. Qed.

Lemma acked_some m f k q q' x z :
  manager_wf m -> al_lookup k (queues m) = Some q -> pop_message_ack f q = Some (q', Some z) ->
  (exists y, acked m f y /\ dccl_msg y = x) <->
  x = z \/ exists y, acked (served f k q' m) f y /\ dccl_msg y = x.
Proof.
  intros W Hq Hp. destruct (mwf_queues m W k q Hq) as [Wq _].
  destruct (pop_message_ack_removed f q q' z Wq Hp) as (n & y & Hn & Hy & Ez & Hw & Hm). split.
  - intros (u & (k0 & q0 & n0 & Hq0 & Hn0 & Hu) & <-). destruct (Z.eq_dec k0 k) as [->|Hk].
    + replace q0 with q in * by congruence. destruct (Nat.eq_dec n0 n) as [->|Hne].
      * left. rewrite <- Ez. f_equal. apply (lookup_node_spec q) in Hu, Hy; [congruence | apply Wq..].
      * right. exists u. split; [|done]. exists k, q', n0. rewrite served_lookup, Z.eqb_refl.
        split; [done|]. rewrite Hw in Hn0. split; [|by apply Hm].
        apply elem_of_cons in Hn0 as [[= ?]|?]; [congruence | done].
    + right. exists u. split; [|done]. exists k0, q0, n0. rewrite served_lookup.
      apply Z.eqb_neq in Hk. by rewrite Hk.
  - intros [->|(u & (k0 & q0 & n0 & Hq0 & Hn0 & Hu) & <-)].
    + exists y. split; [|done]. by exists k, q, n.
    + exists u. split; [|done]. rewrite served_lookup in Hq0. destruct (k0 =? k) eqn:Ek; to_prop.
      * injection Hq0 as <-. subst k0. exists k, q, n0. split; [done|]. rewrite Hw. split; [set_solver|].
        by destruct (proj1 (Hm n0 u) Hu).
      * by exists k0, q0, n0.
Qed.

Lemma served_same m f k q :
  al_lookup k (queues m) = Some q ->
  forall j, al_lookup j (queues (served f k q m)) = al_lookup j (queues m).
Proof. intros H j. rewrite served_lookup. destruct (j =? k) eqn:E; to_prop; [by subst | done]. Qed.

Lemma acked_ext m m' f x :
  (forall j, al_lookup j (queues m') = al_lookup j (queues m)) -> acked m' f x <-> acked m f x.
Proof. intros H. unfold acked. by setoid_rewrite H. Qed.

Lemma served_network_ack e a x b m f k q q' r :
  al_lookup k (queues m) = Some q -> pop_message_ack f q = Some (q', r) ->
  network_ack_for e a x b (set_queue k q' m) = network_ack_for e a x b m.
Proof.
  intros Hq Hp. destruct (pop_message_ack_cfg _ _ _ _ Hp).
  apply network_ack_for_ext; [|done..]. intros y. by eapply set_queue_meta.
Qed.

Lemma served_network_ack_fails e a m f k q q' r :
  manager_wf m -> al_lookup k (queues m) = Some q -> pop_message_ack f q = Some (q', r) ->
  network_ack_fails e a (served f k q' m) -> network_ack_fails e a m.
Proof.
  intros W Hq Hp (k0 & q0 & n & x & Hq0 & Hx & Hn).
  change (network_ack_for e a (dccl_msg x) true (served f k q' m))
    with (network_ack_for e a (dccl_msg x) true (set_queue k q' m)) in Hn.
  rewrite (served_network_ack _ _ _ _ _ _ _ _ _ _ Hq Hp) in Hn.
  rewrite served_lookup in Hq0. destruct (k0 =? k) eqn:E; to_prop.
  - injection Hq0 as <-. exists k, q, n, x. repeat split; auto.
    destruct (mwf_queues m W k q Hq) as [Wq _]. destruct r as [z|].
    + destruct (pop_message_ack_removed f q q' z Wq Hp) as (? & ? & _ & _ & _ & _ & Hm).
      by destruct (proj1 (Hm n x) Hx).
    + destruct (pop_message_ack_none f q q' Wq Hp) as [-> _]. done.
  - by exists k0, q0, n, x.
Qed.

(** What the acknowledgement of a frame does to the manager. *)
Definition frame_released (f : Z) m m' : Prop :=
  manager_wf m' /\ modem_id m' = modem_id m /\
  waiting_for_ack m' = List.filter (fun x => negb (fst x =? f)) (waiting_for_ack m) /\
  forall k, al_lookup k (queues m') = release f <$> al_lookup k (queues m).

Definition ack_outcome e (ack : ModemTransmission) m (Q : QueueManager -> Prop)
    (A : QueuedMessage -> Prop) (r : result ManagerError (QueueManager * list Event)) : Prop :=
  match r with
  | Ok (m', evs) =>
      Q m' /\ forall a y, SigAck a y ∈ evs <-> a = ack /\ exists x, A x /\ dccl_msg x = y
  | Err (QueueExc _) => network_ack_fails e (src ack) m
  | Err _ => False
  end.

Lemma ack_frame_loop_done e ack f fuel m :
  manager_wf m -> count (on_frame f) (waiting_for_ack m) = 0%nat ->
  ack_outcome e ack m (frame_released f m) (acked m f) (ack_frame_loop fuel e ack f m).
Proof.
  intros W H0. assert (Hnone : List.find (fun x => fst x =? f) (waiting_for_ack m) = None).
  { destruct (List.find _ _) as [x|] eqn:E; [|done]. apply find_elem_of in E as [E1 E2].
    pose proof (count_elem_of (on_frame f) _ x E1 E2). lia. }
  assert (Hq0 : forall k q, al_lookup k (queues m) = Some q ->
            count (on_frame f) (q_waiting_for_ack q) = 0%nat).
  { intros k q Hq. pose proof (mwf_dominates m W k q Hq f) as Hd.
    assert (count (entry_is f k) (waiting_for_ack m) = 0%nat); [|lia].
    apply count_zero. intros x Hx. eapply find_none_elem_of in Hnone; [|exact Hx].
    unfold entry_is. by rewrite Hnone. }
  destruct fuel; simpl; rewrite Hnone; simpl; (split; [split; [done|split; [done|split]]|]).
  all: try (symmetry; apply filter_all; intros x Hx;
            eapply find_none_elem_of in Hnone; [|exact Hx]; by rewrite Hnone).
  all: try (intros k; destruct (al_lookup k (queues m)) as [q|] eqn:Eq; [|done]; simpl;
            by rewrite release_none by eauto).
  all: intros a y; split; [set_solver|];
       intros (_ & x & (k & q & n & Hq & Hn & _) & _);
       pose proof (count_elem_of (on_frame f) _ _ Hn (Z.eqb_refl f)); rewrite (Hq0 k q Hq) in *; lia.
Qed.

Lemma served_released f k q q' r m m' :
  manager_wf m -> al_lookup k (queues m) = Some q -> pop_message_ack f q = Some (q', r) ->
  frame_released f (served f k q' m) m' -> frame_released f m m'.
Proof.
  intros W Hq Hp (W' & Hid & Hw & Hk). split; [done|]. split; [done|]. split.
  - rewrite Hw. apply filter_remove_first.
  - intros j. rewrite Hk, served_lookup. destruct (j =? k) eqn:E; to_prop; [|done].
    subst j. rewrite Hq. simpl. f_equal. eapply release_pop; [|exact Hp]. by eapply W.
Qed.

(** The outcome after one entry, from the outcome of the rest of the loop. *)
Lemma ack_outcome_step e ack m m1 f k q q' r evs rest :
  m1 = served f k q' m ->
  manager_wf m -> al_lookup k (queues m) = Some q -> pop_message_ack f q = Some (q', r) ->
  (forall a y, SigAck a y ∈ evs <-> a = ack /\ r = Some y) ->
  ack_outcome e ack m1 (frame_released f m1) (acked m1 f) rest ->
  ack_outcome e ack m (frame_released f m) (acked m f)
    (let? (m, evs') := rest in Ok (m, evs ++ evs')).
Proof.
  intros -> W Hq Hp Hev. destruct rest as [[m2 evs2]|[]]; simpl; try done.
  - intros [Hr Hack]. split; [by eapply served_released|]. intros a y.
    rewrite elem_of_app, Hev, Hack. destruct r as [z|].
    + rewrite (acked_some m f k q q' y z W Hq Hp). naive_solver.
    + destruct (pop_message_ack_none f q q') as [-> _]; [by eapply W | done |].
      setoid_rewrite (acked_ext m _ f); [|by apply served_same]. naive_solver.
  - by eapply served_network_ack_fails.
Qed.

Lemma ack_frame_loop_spec e ack f : forall fuel m,
  manager_wf m -> (count (on_frame f) (waiting_for_ack m) <= fuel)%nat ->
  ack_outcome e ack m (frame_released f m) (acked m f) (ack_frame_loop fuel e ack f m).
Proof.
  induction fuel as [|fuel IH]; intros m W Hf; [apply ack_frame_loop_done; [done | lia]|].
  simpl. destruct (List.find _ (waiting_for_ack m)) as [[f0 k]|] eqn:E.
  2: { pose proof (ack_frame_loop_done e ack f 0 m W) as H. simpl in H. rewrite E in H. apply H.
       apply count_zero. intros x Hx. by eapply find_none_elem_of in E. }
  pose proof (find_elem_of _ _ _ E) as [Hin Hf0]. simpl in Hf0. to_prop. subst f0.
  destruct (mwf_waiting m W f k Hin) as [q Hq]. rewrite Hq. simpl.
  destruct (mwf_queues m W k q Hq) as [Wq _].
  destruct (pop_message_ack_defined f q Wq) as [[q' r] Hp]. rewrite Hp. simpl.
  assert (IH1 : ack_outcome e ack (served f k q' m) (frame_released f (served f k q' m))
            (acked (served f k q' m) f) (ack_frame_loop fuel e ack f (served f k q' m))).
  { apply IH; [by eapply pop_ack_step|]. simpl.
    rewrite (count_perm _ _ _ (remove_first_perm _ _ _ E)) in Hf. simpl in Hf.
    unfold on_frame at 1 in Hf. simpl in Hf. rewrite Z.eqb_refl in Hf. lia. }
  destruct r as [z|]; cbn [rbind].
  - rewrite (served_network_ack _ _ _ _ _ _ _ _ _ _ Hq Hp).
    destruct (network_ack_for e (src ack) z true m) as [acks|er] eqn:En; cbn [rbind].
    + eapply ack_outcome_step; [reflexivity | done.. | | exact IH1].
      intros a y. pose proof (network_ack_for_no_ack _ _ _ _ _ _ En a y).
      rewrite !elem_of_cons. naive_solver.
    + destruct (pop_message_ack_removed f q q' z Wq Hp) as (n & y & _ & Hy & <- & _).
      destruct er; [by exists k, q, n, y; rewrite En|..];
        unfold network_ack_for, create_network_ack, manager_meta_from_msg, lift in En;
        repeat (split_if_in En; simpl in En; try done).
  - eapply ack_outcome_step; [reflexivity | done.. | | exact IH1]. set_solver.
Qed.

(** acknowledged by one of the frames *)
Definition acked_by m (frames : list Z) (x : QueuedMessage) : Prop :=
  exists f, f ∈ frames /\ acked m (u32 f) x.

(** the state after the acknowledgement of all the frames *)
Definition frames_released (frames : list Z) m m' : Prop :=
  manager_wf m' /\ modem_id m' = modem_id m /\
  waiting_for_ack m' =
    List.filter (fun x => negb (existsb (fun f => fst x =? u32 f) frames)) (waiting_for_ack m) /\
  forall k, al_lookup k (queues m') =
    (fun q => foldl (fun q f => release (u32 f) q) q frames) <$> al_lookup k (queues m).

Lemma frames_released_cons f frames m m1 m' :
  frame_released (u32 f) m m1 -> frames_released frames m1 m' -> frames_released (f :: frames) m m'.
Proof.
  intros (W1 & Hid1 & Hw1 & Hq1) (W & Hid & Hw & Hq). split; [done|]. split; [congruence|]. split.
  - rewrite Hw, Hw1, filter_filter. apply filter_ext. intros x. simpl. by rewrite negb_orb.
  - intros k. rewrite Hq, Hq1. by destruct (al_lookup k (queues m)).
Qed.

(** A message waits on one frame: releasing another one does not touch it. *)
Lemma acked_release m m1 f f' x :
  manager_wf m -> frame_released f m m1 -> acked m1 f' x <-> acked m f' x /\ f' <> f.
Proof.
  intros W (_ & _ & _ & Hq). split.
  - intros (k & q1 & n & H1 & Hn & Hx). rewrite Hq in H1.
    destruct (al_lookup k (queues m)) as [q|] eqn:E; [|done]. injection H1 as <-. simpl in *.
    apply list_elem_of_In, filter_In in Hn as [Hn Hf], Hx as [Hx _].
    apply list_elem_of_In in Hn, Hx. simpl in Hf. to_prop. split; [by exists k, q, n | done].
  - intros [(k & q & n & H1 & Hn & Hx) Hf]. exists k, (release f q), n. rewrite Hq, H1.
    split; [done|]. simpl. rewrite !list_elem_of_In, !filter_In, <- !list_elem_of_In. simpl.
    repeat split; auto; apply negb_true_iff.
    + by apply Z.eqb_neq.
    + destruct (waits_on f q n) eqn:Ew; [|done]. apply waits_on_spec in Ew. exfalso. apply Hf.
      destruct (mwf_queues m W k q H1) as [[_ _ Wa _ _] _].
      assert (Hnd : NoDup (q_waiting_for_ack q)) by (by eapply (NoDup_fmap_1 snd)).
      apply list_elem_of_lookup in Hn as [i Hi], Ew as [j Hj].
      assert (i = j); [|congruence].
      eapply (NoDup_lookup (map snd (q_waiting_for_ack q))); [done | |].
      * by rewrite (list_lookup_fmap snd), Hi.
      * by rewrite (list_lookup_fmap snd), Hj.
Qed.

Lemma acked_by_cons m m1 f frames x :
  manager_wf m -> frame_released (u32 f) m m1 ->
  acked_by m (f :: frames) x <-> acked m (u32 f) x \/ acked_by m1 frames x.
Proof.
  intros W H. unfold acked_by. setoid_rewrite (acked_release m m1 (u32 f) _ x W H). split.
  - intros (f' & Hf' & Ha). destruct (Z.eq_dec (u32 f') (u32 f)) as [E|E]; [rewrite E in Ha; by left|].
    right. exists f'. apply elem_of_cons in Hf' as [->|?]; done.
  - intros [Ha|(f' & ? & Ha & _)]; [exists f | exists f']; split; auto; set_solver.
Qed.

(** releasing does not make a network acknowledgement fail *)
Lemma released_network_ack_fails e a f m m1 :
  frame_released f m m1 -> network_ack_src_ids m1 = network_ack_src_ids m ->
  network_ack_fails e a m1 -> network_ack_fails e a m.
Proof.
  intros (_ & Hid & _ & Hq) Hsrc (k & q1 & n & x & H1 & Hx & Hn).
  rewrite (network_ack_for_ext e a _ true m m1) in Hn; [| |done|done].
  - rewrite Hq in H1. destruct (al_lookup k (queues m)) as [q|] eqn:E; [|done].
    injection H1 as <-. exists k, q, n, x. repeat split; auto. simpl in Hx.
    apply list_elem_of_In, filter_In in Hx as [Hx _]. by apply list_elem_of_In.
  - intros y. unfold manager_meta_from_msg. rewrite Hq.
    by destruct (al_lookup _ (queues m)).
Qed.

Lemma ack_frame_loop_src_ids e ack f : forall fuel m m' evs,
  ack_frame_loop fuel e ack f m = Ok (m', evs) -> network_ack_src_ids m' = network_ack_src_ids m.
Proof.
  induction fuel as [|fuel IH]; intros m m' evs; simpl; destruct (List.find _ _) as [[? k]|];
    try done; try (by intros [= <- _]).
  destruct (al_lookup _ _) as [q0|]; simpl; [|done].
  destruct (pop_message_ack _ _) as [[q r]|]; simpl; [|done].
  match goal with |- context [rbind ?x _] => destruct x end; simpl; [|done].
  destruct (ack_frame_loop fuel e ack f _) as [[m1 ev]|] eqn:E; simpl; [|done].
  intros [= <- _]. by apply IH in E.
Qed.

Lemma process_modem_ack_spec e ack : forall frames m,
  manager_wf m -> dest ack = modem_id m ->
  ack_outcome e ack m (frames_released frames m) (acked_by m frames)
    (process_modem_ack e ack frames m).
Proof.
  induction frames as [|f frames IH]; intros m W Hd; cbn [process_modem_ack].
  - split.
    + split; [done|]. split; [done|]. split; [symmetry; by apply filter_all|].
      intros k. by destruct (al_lookup k (queues m)).
    + intros a y. split; [set_solver | intros (_ & x & (? & Hf & _) & _); set_solver].
  - rewrite Hd, Z.eqb_refl. cbn [negb].
    pose proof (ack_frame_loop_spec e ack (u32 f) (length (waiting_for_ack m)) m W) as H1.
    specialize (H1 ltac:(clear; induction (waiting_for_ack m) as [|x l IH]; simpl; [lia|]; destruct (on_frame _ x); lia)).
    destruct (ack_frame_loop _ _ _ _ _) as [[m1 evs1]|[]] eqn:El; cbn [rbind]; try done.
    destruct H1 as [Hr H1]. pose proof Hr as (W1 & Hid & _).
    specialize (IH m1 W1 ltac:(congruence)).
    destruct (process_modem_ack e ack frames m1) as [[m2 evs2]|[]]; cbn [rbind]; try done.
    + destruct IH as [Hrs H2]. split; [by eapply frames_released_cons|]. intros a y.
      rewrite elem_of_app, H1, H2. setoid_rewrite (acked_by_cons m m1 f frames _ W Hr). naive_solver.
    + eapply released_network_ack_fails; [done | by eapply ack_frame_loop_src_ids | done].
Qed.

End Acknowledgements.

(** ** Runs of the manager *)

Section Runs.
Context `{P : Protobuf} `{D : !DCCLCodec} `{T : BoostText}.
Implicit Types (m : QueueManager) (q : Queue).

(** Every public operation that changes the manager, when it returns. *)
Inductive manager_step : QueueManager -> QueueManager -> Prop :=
| MStepSetCfg e now c m m' evs : manager_set_cfg e now c m = Ok (m', evs) -> manager_step m m'
| MStepMergeCfg e now c m m' evs : manager_merge_cfg e now c m = Ok (m', evs) -> manager_step m m'
| MStepAddQueue now desc c m m' evs : add_queue now desc c m = Ok (m', evs) -> manager_step m m'
| MStepPush e now x mt m m' evs :
    manager_push_message e now x mt m = Ok (m', evs) -> manager_step m m'
| MStepFlush k m : manager_step m (fst (flush_queue k m))
| MStepDoWork e now m m' evs : do_work e now m = Ok (m', evs) -> manager_step m m'
| MStepDataRequest fuel e now msg m msg' m' evs :
    handle_modem_data_request fuel e now msg m = Ok (msg', m', evs) -> manager_step m m'
| MStepReceive e msg m m' evs : handle_modem_receive e msg m = Ok (m', evs) -> manager_step m m'.

Definition manager_reachable m : Prop := rtc manager_step new_manager m.

Lemma new_manager_wf : manager_wf new_manager.
Proof. constructor; simpl; try done; [constructor | set_solver]. Qed.

Lemma process_entries_wf e now : forall entries m m' evs,
  manager_wf m -> process_entries e now entries m = Ok (m', evs) -> manager_wf m'.
Proof.
  induction entries as [|en entries IH]; simpl; intros m m' evs W; [by intros [= <- _]|].
  destruct (e_find_descriptor _ _) as [desc|]; [|by apply IH].
  destruct (add_queue _ _ _ _) as [[m1 ev1]|] eqn:Ea; simpl; [|done].
  destruct (process_entries _ _ _ _) as [[m2 ev2]|] eqn:Ep; simpl; [|done]. intros [= <- _].
  eapply IH; [|exact Ep]. by apply (manager_wf_ext m1); [| |eapply add_queue_wf].
Qed.

Lemma manager_process_cfg_wf e now m m' evs :
  manager_wf m -> manager_process_cfg e now m = Ok (m', evs) -> manager_wf m'.
Proof.
  intros W. unfold manager_process_cfg. cbv zeta.
  destruct (process_entries _ _ _ _) as [[m1 ev1]|] eqn:Ep; simpl; [|done]. intros [= <- _].
  apply process_entries_wf in Ep; [|by eapply manager_wf_ext; [| |exact W]].
  by eapply manager_wf_ext; [| |exact Ep].
Qed.

Lemma receive_frames_wf e msg : forall frames m m' evs,
  manager_wf m -> receive_frames e msg frames m = Ok (m', evs) -> manager_wf m'.
Proof.
  induction frames as [|fr frames IH]; simpl; intros m m' evs W; [by intros [= <- _]|].
  set (r := if c_skip_decoding (cfg m) then _ else _).
  destruct r as [[m1 ev1]|] eqn:Er; simpl; [|done].
  assert (W1 : manager_wf m1).
  { unfold r in Er. destruct (c_skip_decoding _); [by injection Er as <- _|].
    destruct (decode_repeated _ _ _ _ _) as [[pass ms]|]; simpl in Er; [|done].
    injection Er as <- _. by eapply manager_wf_ext; [| |exact W]. }
  destruct (route_frame _ _ _ _) as [ev|]; simpl; [|done].
  destruct (receive_frames _ _ _ _) as [[m2 ev2]|] eqn:El; simpl; [|done]. intros [= <- _].
  by eapply IH.
Qed.

Lemma process_modem_ack_wf e ack m m' evs frames :
  manager_wf m -> process_modem_ack e ack frames m = Ok (m', evs) -> manager_wf m'.
Proof.
  intros W H. destruct (Z.eq_dec (dest ack) (modem_id m)) as [Hd|Hd].
  - pose proof (process_modem_ack_spec e ack frames m W Hd) as Hs. rewrite H in Hs. by apply Hs.
  - revert evs H. apply Z.eqb_neq in Hd. induction frames as [|f frames IH]; simpl; intros evs;
      [by intros [= <- _] | rewrite Hd; simpl; eauto].
Qed.

Lemma manager_step_wf m m' : manager_step m m' -> manager_wf m -> manager_wf m'.
Proof.
  intros S W. destruct S.
  - eapply manager_process_cfg_wf; [|done]. by eapply manager_wf_ext; [| |exact W].
  - eapply manager_process_cfg_wf; [|done]. by eapply manager_wf_ext; [| |exact W].
  - by eapply add_queue_wf.
  - by eapply manager_push_message_wf.
  - by apply flush_queue_wf.
  - by eapply do_work_loop_wf.
  - by eapply handle_modem_data_request_wf.
  - unfold handle_modem_receive in *. case_bool_decide;
      [by eapply process_modem_ack_wf | by eapply receive_frames_wf].
Qed.

Lemma manager_reachable_wf m : manager_reachable m -> manager_wf m.
Proof.
  unfold manager_reachable. intros R. assert (H := new_manager_wf).
  induction R; eauto using manager_step_wf.
Qed.

(** C1: In every state the manager can reach through its operations, an entry of a queue's
    waiting_for_ack_ table is accounted for in the manager's own table: the queue is registered
    under its DCCL id, the manager holds the frame for that queue at least as many times as the
    queue does, and the entry points to a message of the queue that asks for an acknowledgement (no
    dangling iterator). *)
Theorem manager_ack_tables_agree m k q f n :
  manager_reachable m -> al_lookup k (queues m) = Some q -> (f, n) ∈ q_waiting_for_ack q ->
  id q = k /\ (f, k) ∈ waiting_for_ack m /\
  (count (on_frame f) (q_waiting_for_ack q) <= count (entry_is f k) (waiting_for_ack m))%nat /\
  exists x, lookup_node n (q_messages q) = Some x /\ meta_ack (meta x) = true.
Proof.
  intros W%manager_reachable_wf Hq Hn. destruct (mwf_queues m W k q Hq) as [Wq Hid].
  pose proof (mwf_dominates m W k q Hq f) as Hd. split; [done|].
  destruct (waiting_lookup q f n Wq Hn) as (x & Hx & _ & Ha).
  split; [|split; [done | eauto]].
  pose proof (count_elem_of (on_frame f) _ _ Hn (Z.eqb_refl f)).
  destruct (decide ((f, k) ∈ waiting_for_ack m)) as [|Hno]; [done|].
  rewrite (count_zero (entry_is f k)) in Hd; [lia|]. intros [f' k'] Hin. unfold entry_is. simpl.
  apply andb_false_iff. destruct (Z.eqb_spec f' f), (Z.eqb_spec k' k); subst; auto. by destruct Hno.
Qed.

(** C2: An acknowledgement addressed to this modem removes from every queue exactly the messages
    that wait on the acknowledged frames, leaves no entry for these frames, and signals an
    acknowledgement for exactly the messages removed; the only failure is an exception raised while
    a network acknowledgement is built, never a dangling iterator or an endless loop. *)
Theorem process_modem_ack_releases e ack frames m :
  manager_reachable m -> dest ack = modem_id m ->
  match process_modem_ack e ack frames m with
  | Ok (m', evs) =>
      (forall k, al_lookup k (queues m') =
         (fun q => foldl (fun q f => release (u32 f) q) q frames) <$> al_lookup k (queues m)) /\
      (forall f, f ∈ frames -> forall k, (u32 f, k) ∉ waiting_for_ack m') /\
      (forall a y, SigAck a y ∈ evs <-> a = ack /\ exists x, acked_by m frames x /\ dccl_msg x = y)
  | Err (QueueExc _) => network_ack_fails e (src ack) m
  | Err _ => False
  end.
Proof.
  intros W%manager_reachable_wf Hd. pose proof (process_modem_ack_spec e ack frames m W Hd) as H.
  destruct (process_modem_ack e ack frames m) as [[m' evs]|[]]; try done.
  destruct H as [(_ & _ & Hw & Hq) Hev]. split; [done|]. split; [|done].
  intros f Hf k Hin. rewrite Hw in Hin. apply list_elem_of_In, filter_In in Hin as [_ Hin].
  apply negb_true_iff in Hin. simpl in Hin.
  assert (Hex : existsb (fun f' => u32 f =? u32 f') frames = true); [|congruence].
  apply existsb_exists. exists f. split; [by apply list_elem_of_In | apply Z.eqb_refl].
Qed.

End Runs.

(** ** The priority contest *)

Section Contest.
Context `{P : Protobuf} `{D : !DCCLCodec} `{T : BoostText}.
Implicit Types (m : QueueManager) (q : Queue).

Definition no_on_demand m : Prop := forall k, manip_has m k ON_DEMAND = false.

(** queue [k] competes with this priority and last send time *)
Definition competes (now : Z) m (msg : ModemTransmission) (n k : Z) (pr : double) (ls : Z) : Prop :=
  exists q, al_lookup k (queues m) = Some q /\ get_priority_values now q msg n = Some (pr, ls, true).

(** nothing with [pr'], [ls'] beats [pr], [ls] *)
Definition unbeaten (pr : double) (ls : Z) (pr' : double) (ls' : Z) : Prop :=
  dlt pr pr' = false /\ (deq pr' pr = true -> ls <= ls').

Lemma dlt_irrefl d : dlt d d = false.
Proof.
  destruct (dlt d d) eqn:E; [|done]. apply dlt_key in E as (_ & _ & E). by apply key_lt_irrefl in E.
Qed.

Lemma unbeaten_refl pr ls : unbeaten pr ls pr ls.
Proof. split; [apply dlt_irrefl | lia]. Qed.

(** The replacement rule of the loop keeps the winner unbeaten. *)
Lemma unbeaten_replace wp wl k pr ls pr' ls' :
  better (Some (wp, wl, k)) pr ls = true -> unbeaten wp wl pr' ls' -> unbeaten pr ls pr' ls'.
Proof.
  simpl. intros H [H1 H2]. apply orb_true_iff in H as [H|H].
  - split.
    + destruct (dlt pr pr') eqn:E; [|done]. by rewrite (dlt_trans _ _ _ H E) in H1.
    + intros E. by rewrite (deq_dlt _ _ _ E H) in H1.
  - to_prop. split.
    + destruct (dlt pr pr') eqn:E; [|done]. by rewrite (deq_dlt_l _ _ _ (deq_sym _ _ H) E) in H1.
    + intros E. specialize (H2 (deq_trans _ _ _ E H)). lia.
Qed.

Lemma not_better_unbeaten wp wl k pr ls :
  better (Some (wp, wl, k)) pr ls = false -> unbeaten wp wl pr ls.
Proof.
  simpl. intros H. apply orb_false_iff in H as [H1 H2]. split; [done|]. intros E. rewrite E in H2.
  simpl in H2. to_prop. lia.
Qed.

(** the state of the contest once the queues [seen] have been looked at *)
Definition contest_ok (now : Z) m msg n (seen : list Z) (w : Winner) : Prop :=
  match w with
  | None => forall k pr ls, k ∈ seen -> ~ competes now m msg n k pr ls
  | Some (wp, wl, wk) =>
      wk ∈ seen /\ competes now m msg n wk wp wl /\
      forall k pr ls, k ∈ seen -> competes now m msg n k pr ls -> unbeaten wp wl pr ls
  end.

Lemma contest_step now m msg n seen w k pr ls ok q :
  contest_ok now m msg n seen w -> al_lookup k (queues m) = Some q ->
  get_priority_values now q msg n = Some (pr, ls, ok) ->
  contest_ok now m msg n (seen ++ [k])
    (if ok && better w pr ls then Some (pr, ls, k) else w).
Proof.
  intros Hw Hq Hg.
  assert (Hk : forall pr' ls', competes now m msg n k pr' ls' -> ok = true /\ pr' = pr /\ ls' = ls).
  { intros pr' ls' (q' & Hq' & Hg'). replace q' with q in Hg' by congruence.
    rewrite Hg in Hg'. by injection Hg' as -> -> ->. }
  assert (Hseen : forall k', k' ∈ seen ++ [k] -> k' ∈ seen \/ k' = k) by set_solver.
  destruct ok; simpl.
  - destruct (better w pr ls) eqn:Eb; simpl.
    + split; [set_solver|]. split; [by exists q|]. intros k' pr' ls' [Hs| ->]%Hseen Hc.
      * destruct w as [[[wp wl] wk]|]; [|by apply Hw in Hc].
        destruct Hw as (_ & _ & Hw). eapply unbeaten_replace; [exact Eb | by eapply Hw].
      * apply Hk in Hc as (_ & -> & ->). apply unbeaten_refl.
    + destruct w as [[[wp wl] wk]|]; [|done]. destruct Hw as (Hin & Hc0 & Hw).
      split; [set_solver|]. split; [done|]. intros k' pr' ls' [Hs| ->]%Hseen Hc; [by eapply Hw|].
      apply Hk in Hc as (_ & -> & ->). by eapply not_better_unbeaten.
  - destruct w as [[[wp wl] wk]|].
    + destruct Hw as (Hin & Hc0 & Hw). split; [set_solver|]. split; [done|].
      intros k' pr' ls' [Hs| ->]%Hseen Hc; [by eapply Hw | by apply Hk in Hc as [? _]].
    + intros k' pr' ls' [Hs| ->]%Hseen Hc; [by eapply Hw | by apply Hk in Hc as [? _]].
Qed.

Lemma get_priority_values_some now q msg n :
  queue_wf q -> is_Some (get_priority_values now q msg n).
Proof.
  intros W. unfold get_priority_values. destruct (_ <=? _)%nat eqn:E; [eauto|].
  apply Nat.leb_gt in E. destruct (next_message_defined q W E) as [[? ?] ->]. eauto.
Qed.

Lemma find_next_sender_loop_spec e now msg n m : forall keys seen w,
  manager_wf m -> no_on_demand m -> (forall k, k ∈ keys -> is_Some (al_lookup k (queues m))) ->
  contest_ok now m msg n seen w ->
  exists w', find_next_sender_loop e now msg n keys w m = Ok (m, [], w')
    /\ contest_ok now m msg n (seen ++ keys) w'.
Proof.
  induction keys as [|k keys IH]; intros seen w W Hod Hkeys Hw.
  { exists w. by rewrite app_nil_r. }
  cbn [find_next_sender_loop].
  destruct (Hkeys k) as [q Hq]; [set_solver|]. rewrite Hq. cbn [deref rbind].
  unfold fill_on_demand. rewrite Hod. cbn [andb rbind]. rewrite Hq. cbn [deref rbind].
  destruct (get_priority_values_some now q msg n) as [[[pr ls] ok] Hg]; [by eapply W|].
  rewrite Hg. cbn [deref rbind].
  destruct (IH (seen ++ [k]) (if ok && better w pr ls then Some (pr, ls, k) else w))
    as (w' & Hl & Hw'); [done | done | set_solver | by eapply contest_step |].
  exists w'. rewrite <- app_assoc in Hw'. split; [|done]. unfold Winner in *. by rewrite Hl.
Qed.

Lemma find_next_sender_spec e now msg n m :
  manager_wf m -> no_on_demand m ->
  exists w, contest_ok now m msg n (map fst (queues m)) w /\
    find_next_sender e now msg n m = Ok (m, [], match w with Some (_, _, k) => Some k | None => None end).
Proof.
  intros W Hod. unfold find_next_sender.
  destruct (find_next_sender_loop_spec e now msg n m (map fst (queues m)) [] None) as (w & -> & Hw); auto.
  - intros k. apply al_lookup_key.
  - intros k pr ls Hin. set_solver.
  - exists w. split; [done|]. simpl. by destruct w as [[[? ?] ?]|].
Qed.

(** C4: In every reachable manager without on-demand queues, the priority contest changes nothing
    and returns a queue that competes and that no competing queue beats: none has a higher priority
    value, and with an equal value none has an older last send time; no queue is returned only when
    none competes. The comment above handle_modem_data_request speaks of the lowest priority value;
    the code, and this theorem, take the highest. *)
Theorem find_next_sender_maximal e now msg n m :
  manager_reachable m -> no_on_demand m ->
  exists winner, find_next_sender e now msg n m = Ok (m, [], winner) /\
    match winner with
    | None => forall k pr ls, ~ competes now m msg n k pr ls
    | Some wk => exists wp wl, competes now m msg n wk wp wl /\
        forall k pr ls, competes now m msg n k pr ls ->
          dlt wp pr = false /\ (deq pr wp = true -> wl <= ls)
    end.
Proof.
  intros W%manager_reachable_wf Hod.
  destruct (find_next_sender_spec e now msg n m W Hod) as (w & Hw & H).
  assert (Hkey : forall k pr ls, competes now m msg n k pr ls -> k ∈ map fst (queues m)).
  { intros k pr ls (q & Hq & _). apply al_lookup_key. eauto. }
  eexists. split; [exact H|]. destruct w as [[[wp wl] wk]|]; simpl.
  - exists wp, wl. destruct Hw as (_ & Hc & Hw). split; [done|]. intros k pr ls Hk. by eapply Hw; eauto.
  - intros k pr ls Hk. eapply Hw; eauto.
Qed.

End Contest.

(** ** A data request terminates and respects the size of the frames *)

Section Packing.
Context `{P : Protobuf} `{D : !DCCLCodec} `{T : BoostText} `{L : !DCCLCodecLaws}.
Implicit Types (m : QueueManager) (q : Queue).

(** What packing keeps of a queued message, of a queue, of the manager. *)
Definition same_content (x x' : QueuedMessage) : Prop :=
  dccl_msg x' = dccl_msg x /\ meta_size (meta x') = meta_size (meta x) /\
  qm_encoded_message (meta x') = qm_encoded_message (meta x).

Definition keeps_queue q q' : Prop :=
  q_roles q' = q_roles q /\ q_static_meta q' = q_static_meta q /\ (size q' <= size q)%nat /\
  forall n x', (n, x') ∈ q_messages q' -> exists x, (n, x) ∈ q_messages q /\ same_content x x'.

Definition keeps m m' : Prop :=
  manips m' = manips m /\ (al_sum size (queues m') <= al_sum size (queues m))%nat /\
  forall k, match al_lookup k (queues m) with
            | None => al_lookup k (queues m') = None
            | Some q => exists q', al_lookup k (queues m') = Some q' /\ keeps_queue q q'
            end.

Lemma keeps_queue_refl q : keeps_queue q q.
Proof. repeat split; auto. intros n x H. exists x. repeat split; auto. Qed.

Lemma keeps_queue_trans q1 q2 q3 : keeps_queue q1 q2 -> keeps_queue q2 q3 -> keeps_queue q1 q3.
Proof.
  intros (R1 & M1 & S1 & H1) (R2 & M2 & S2 & H2).
  split; [congruence|]. split; [congruence|]. split; [lia|].
  intros n x3 H. destruct (H2 n x3 H) as (x2 & Hx2 & ? & ? & ?).
  destruct (H1 n x2 Hx2) as (x1 & Hx1 & ? & ? & ?). exists x1. repeat split; auto; congruence.
Qed.

Lemma keeps_refl m : keeps m m.
Proof.
  split; [done|]. split; [done|]. intros k. destruct (al_lookup k _) as [q|]; [|done].
  exists q. split; [done | apply keeps_queue_refl].
Qed.

Lemma keeps_trans m1 m2 m3 : keeps m1 m2 -> keeps m2 m3 -> keeps m1 m3.
Proof.
  intros (Hm1 & Hs1 & H1) (Hm2 & Hs2 & H2). split; [congruence|]. split; [lia|]. intros k.
  specialize (H1 k). specialize (H2 k). destruct (al_lookup k (queues m1)) as [q1|].
  - destruct H1 as (q2 & Hq2 & K1). rewrite Hq2 in H2. destruct H2 as (q3 & Hq3 & K2).
    exists q3. split; [done | by eapply keeps_queue_trans].
  - by rewrite H1 in H2.
Qed.

Lemma keeps_ext m m' m'' :
  queues m'' = queues m' -> manips m'' = manips m' -> keeps m m' -> keeps m m''.
Proof. intros H1 H2. unfold keeps. by rewrite H1, H2. Qed.

Lemma keeps_meta m m' x : keeps m m' -> manager_meta_from_msg m' x = manager_meta_from_msg m x.
Proof.
  intros (_ & _ & H). unfold manager_meta_from_msg.
  specialize (H (codec_id (GetDescriptor x))). destruct (al_lookup _ (queues m)) as [q|].
  - destruct H as (q' & -> & Hr & Hs & _). unfold meta_from_msg. by rewrite Hr, Hs.
  - by rewrite H.
Qed.

Lemma keeps_no_on_demand m m' : keeps m m' -> no_on_demand m -> no_on_demand m'.
Proof. intros (H & _) N k. unfold manip_has. rewrite H. apply N. Qed.

(** A message that can be packed: its metadata can be recomputed, and the size
    recorded for it is the size of what goes into the frame. *)
Definition message_packable m (x : QueuedMessage) : Prop :=
  is_ok (manager_meta_from_msg m (dccl_msg x)) = true /\
  match qm_encoded_message (meta x) with
  | None => meta_size (meta x) = codec_size (dccl_msg x)
  | Some body => meta_size (meta x) = Z.of_nat (length body) /\
      forall pass head, codec_encode_head pass (dccl_msg x) = Some head -> (length head <= length body)%nat
  end.

Definition packable m : Prop :=
  forall k q n x, al_lookup k (queues m) = Some q -> (n, x) ∈ q_messages q -> message_packable m x.

Lemma keeps_packable m m' : keeps m m' -> packable m -> packable m'.
Proof.
  intros K Hp k q' n x' Hq' Hx'. pose proof K as (_ & _ & H). specialize (H k).
  destruct (al_lookup k (queues m)) as [q|] eqn:E; [|congruence].
  destruct H as (q1 & Hq1 & _ & _ & _ & Hc). replace q1 with q' in Hc by congruence.
  destruct (Hc n x' Hx') as (x & Hx & E1 & E2 & E3). specialize (Hp k q n x E Hx).
  unfold message_packable. by rewrite (keeps_meta _ _ _ K), E1, E2, E3.
Qed.

Lemma set_queue_keeps k q q' m w :
  StronglySorted Z.lt (map fst (queues m)) ->
  al_lookup k (queues m) = Some q -> keeps_queue q q' ->
  keeps m (set_waiting_for_ack w (set_queue k q' m)).
Proof.
  intros S Hq K. split; [done|]. split.
  - simpl. pose proof (al_sum_insert size k q' q (queues m) S Hq). destruct K as (_ & _ & ? & _). lia.
  - intros j. simpl. rewrite al_lookup_insert. destruct (j =? k) eqn:E; to_prop.
    + subst j. rewrite Hq. eauto.
    + destruct (al_lookup j _) as [qj|]; [|done]. exists qj. split; [done | apply keeps_queue_refl].
Qed.

(** ** Operations on a queue *)

Lemma clear_ack_queue_keeps p now start q q' b :
  clear_ack_queue p now start q = (q', b) -> keeps_queue q q'.
Proof. intros [= <- _]. split; [done|]. split; [done|]. split; [done|]. intros n x H. by exists x. Qed.

Lemma give_data_keeps now f q q' x :
  give_data now f q = Some (q', x) -> keeps_queue q q' /\ size q' = size q.
Proof.
  unfold give_data. destruct (next_message_it q) as [[node x0]|] eqn:E; [|done]. intros [= <- _].
  assert (Hsz : forall y, length (update_node node y (q_messages q)) = length (q_messages q))
    by (intros y; apply length_map).
  split; [split; [done|]; split; [done|]; split; [unfold size; simpl; rewrite Hsz; done|]|].
  - intros n x' H. simpl in H.
    apply update_node_elem_of in H as [[H _]|(-> & -> & _)]; [by exists x'|].
    apply next_message_elem_of in E as [E _]. exists x0. done.
  - unfold size. simpl. by rewrite Hsz.
Qed.

Lemma pop_message_keeps q q' :
  pop_message q = Some (q', true) -> keeps_queue q q' /\ size q = S (size q').
Proof.
  unfold pop_message. destruct (q_messages q) eqn:Em; [done|]. rewrite <- Em. clear Em.
  destruct (List.find _ _) as [[node x]|] eqn:E; [|done]. intros [= <-].
  apply find_elem_of in E as [E _]. rewrite send_order_elem_of in E.
  assert (Hlen : length (q_messages q) = S (length (erase_node node (q_messages q)))).
  { destruct (List.find (fun e => Nat.eqb (fst e) node) (q_messages q)) as [y|] eqn:Ef.
    - by rewrite (remove_first_perm _ _ _ Ef) at 1.
    - eapply find_none_elem_of in Ef; [|exact E]. simpl in Ef. by rewrite Nat.eqb_refl in Ef. }
  split; [|exact Hlen]. split; [done|]. split; [done|]. split; [unfold size; simpl; lia|].
  intros n x' H. simpl in H. apply remove_first_elem_of in H. by exists x'.
Qed.

(** the messages of a queue that are not waiting *)
Definition free q : nat := size q - length (q_waiting_for_ack q).

Lemma waiting_le_size q : queue_wf q -> (length (q_waiting_for_ack q) <= size q)%nat.
Proof.
  intros W. assert (Hincl : List.incl (map snd (q_waiting_for_ack q)) (map fst (q_messages q))).
  { intros n Hn. apply in_map_iff in Hn as [[f n'] [<- Hin]]. apply list_elem_of_In in Hin.
    destruct (wf_waiting q W f n' Hin) as (x & Hx & _). apply in_map_iff. exists (n', x).
    split; [done | by apply list_elem_of_In]. }
  apply NoDup_incl_length in Hincl; [|apply NoDup_ListNoDup, W]. by rewrite !length_map in Hincl.
Qed.

Lemma taken_keeps now f k next m m' :
  manager_wf m -> taken now f k next m m' -> manips m' = manips m ->
  keeps m m' /\ (S (al_sum free (queues m')) = al_sum free (queues m)).
Proof.
  intros W (q & q1 & Hq & Hg & H) Hmm. destruct (mwf_queues m W k q Hq) as [Wq _].
  pose proof (give_data_wf _ _ _ _ _ Wq Hg) as Wq1.
  destruct (give_data_waiting _ _ _ _ _ Hg) as [_ Hw]. destruct (give_data_keeps _ _ _ _ _ Hg) as [K1 S1].
  pose proof (waiting_le_size q1 Wq1) as Hle1.
  destruct (meta_ack (meta next)).
  - destruct H as [Hqs _], Hw as [node Hw]. apply Permutation_length in Hw. simpl in Hw. split.
    + eapply keeps_ext; [| |eapply (set_queue_keeps k q q1 m []); eauto; apply W]; done.
    + rewrite Hqs. pose proof (al_sum_insert free k q1 q (queues m) (mwf_sorted m W) Hq).
      unfold free in *. lia.
  - destruct H as (q2 & Hp & Hqs & _). destruct (pop_message_keeps _ _ Hp) as [K2 S2].
    pose proof (waiting_le_size q2 (pop_message_wf _ _ _ Wq1 Hp)) as Hle2.
    assert (Hw2 : q_waiting_for_ack q2 = q_waiting_for_ack q1).
    { unfold pop_message in Hp. destruct (q_messages q1); [done|].
      destruct (List.find _ _) as [[? ?]|]; by injection Hp as <-. }
    split.
    + eapply keeps_ext; [| |eapply (set_queue_keeps k q q2 m []); eauto; [apply W|]]; [done.. |].
      by eapply keeps_queue_trans.
    + rewrite Hqs. pose proof (al_sum_insert free k q2 q (queues m) (mwf_sorted m W) Hq).
      unfold free in *. rewrite Hw2, Hw in *. lia.
Qed.

(** ** Packing one frame *)

Definition total_size (msgs : list QueuedMessage) : Z :=
  foldr (fun x acc => codec_size (dccl_msg x) + acc) 0 msgs.

Lemma total_size_app l l' : total_size (l ++ l') = total_size l + total_size l'.
Proof. unfold total_size. induction l as [|x l IH]; simpl; lia. Qed.

Lemma total_size_nonneg l : 0 <= total_size l.
Proof. induction l as [|x l IH]; simpl; [lia|]. pose proof (codec_size_pos (dccl_msg x)). lia. Qed.

Lemma competes_fits now msg n q pr ls :
  queue_wf q -> get_priority_values now q msg n = Some (pr, ls, true) ->
  exists node x, next_message_it q = Some (node, x) /\
    (has_max_frame_bytes msg = true -> meta_size (meta x) <= u64 (max_frame_bytes msg - n)).
Proof.
  intros W. unfold get_priority_values. destruct (_ <=? _)%nat; [done|].
  destruct (next_message_it q) as [[node x]|]; [|done]. intros [= _ _ Hf]. exists node, x.
  split; [done|]. intros Hh. unfold message_fits in Hf.
  destruct (now <? _); [done|]. rewrite Hh in Hf. simpl in Hf.
  destruct (_ <? meta_size _) eqn:E; [done|]. to_prop. done.
Qed.

Definition frames_bounded (max : Z) (msg : ModemTransmission) : Prop :=
  Forall (fun d => Z.of_nat (length d) <= max) (mt_frame msg).

Lemma set_frame_bounded max i d msg :
  frames_bounded max msg -> Z.of_nat (length d) <= max -> frames_bounded max (set_frame i d msg).
Proof.
  unfold frames_bounded, set_frame. intros H Hd. destruct (_ <? _)%nat; simpl.
  - by apply Forall_insert.
  - apply Forall_app. auto.
Qed.

Lemma length_resize n s : length (resize n s) = n.
Proof. unfold resize. rewrite length_app, length_take, repeat_length. lia. Qed.

(** The packing of a frame that may hold [max] bytes and held [orig] already,
    started from manager [m0]. *)
Record packing_ok m0 (max orig : Z) (s : Packing) : Prop := {
  pko_wf : manager_wf (pk_manager s);
  pko_keeps : keeps m0 (pk_manager s);
  pko_max : mt_max_frame_bytes (pk_msg s) = Some max;
  pko_frames : frames_bounded max (pk_msg s);
  pko_size : match pk_passthrough s with
             | None => pk_data_size s = orig + total_size (pk_dccl_msgs s) /\ pk_data_size s <= max
             | Some body => exists front x, pk_dccl_msgs s = front ++ [x] /\
                 orig + total_size front + Z.of_nat (length body) <= max /\
                 forall pass head, codec_encode_head pass (dccl_msg x) = Some head ->
                   (length head <= length body)%nat
             end
}.

Lemma take_user_frame_eq e now f o k s q q1 next m1 ev msg m2 mt :
  al_lookup k (queues (pk_manager s)) = Some q -> give_data now f q = Some (q1, next) ->
  ack_or_pop f k next (set_queue k q1 (pk_manager s)) = Ok (m1, ev) ->
  discipline_packet f next (pk_msg s) m1 = (msg, m2) ->
  manager_meta_from_msg m2 (dccl_msg next) = Ok mt -> pk_passthrough s = None ->
  exists s', take_user_frame e now f o k s = Ok s' /\ pk_manager s' = m2 /\
    pk_dccl_msgs s' = pk_dccl_msgs s ++ [MkQueued (dccl_msg next) mt] /\
    pk_passthrough s' = qm_encoded_message (meta next) /\
    match qm_encoded_message (meta next) with
    | Some _ => pk_msg s' = msg
    | None =>
        let n := u32 (size_repeated (pk_dccl_msgs s') + o) in
        pk_data_size s' = n /\
        exists i d, pk_msg s' = set_frame i (resize (Z.to_nat n) d) msg
    end.
Proof.
  intros H1 H2 H3 H4 H5 H6. unfold take_user_frame. cbv zeta.
  rewrite H1. cbn [deref rbind]. rewrite H2. cbn [deref rbind]. rewrite H3. cbn [rbind].
  rewrite H4, H5, H6. cbn [rbind].
  destruct (qm_encoded_message (meta next)); eexists; (split; [reflexivity|]); repeat split; eauto.
Qed.

Lemma give_data_content now f q q1 next :
  give_data now f q = Some (q1, next) ->
  exists node x, next_message_it q = Some (node, x) /\ same_content x next.
Proof.
  unfold give_data. destruct (next_message_it q) as [[node x]|]; [|done]. intros [= _ <-].
  exists node, x. done.
Qed.

(** Taking a message from a queue that competes never fails. *)
Lemma take_user_frame_defined e now f o k s pr ls :
  manager_wf (pk_manager s) -> packable (pk_manager s) -> pk_passthrough s = None ->
  competes now (pk_manager s) (pk_msg s) (pk_data_size s) k pr ls ->
  exists s' x mt msg m1, take_user_frame e now f o k s = Ok s' /\
    manager_wf (pk_manager s') /\ keeps (pk_manager s) (pk_manager s') /\
    S (al_sum free (queues (pk_manager s'))) = al_sum free (queues (pk_manager s)) /\
    message_packable (pk_manager s) x /\
    (has_max_frame_bytes (pk_msg s) = true ->
     meta_size (meta x) <= u64 (max_frame_bytes (pk_msg s) - pk_data_size s)) /\
    discipline_packet f x (pk_msg s) m1 = (msg, pk_manager s') /\
    pk_dccl_msgs s' = pk_dccl_msgs s ++ [MkQueued (dccl_msg x) mt] /\
    pk_passthrough s' = qm_encoded_message (meta x) /\
    match qm_encoded_message (meta x) with
    | Some _ => pk_msg s' = msg
    | None =>
        let n := u32 (size_repeated (pk_dccl_msgs s') + o) in
        pk_data_size s' = n /\ exists i d, pk_msg s' = set_frame i (resize (Z.to_nat n) d) msg
    end.
Proof.
  intros W Hp Hpt (q & Hq & Hg). destruct (mwf_queues _ W k q Hq) as [Wq _].
  destruct (competes_fits _ _ _ _ _ _ Wq Hg) as (node & x & Hn & Hfit).
  assert (exists q1 next, give_data now f q = Some (q1, next)) as (q1 & next & Hgd)
    by (unfold give_data; rewrite Hn; eauto).
  destruct (give_data_content _ _ _ _ _ Hgd) as (node' & x' & Hn' & Hc).
  replace x' with x in Hc by congruence. destruct Hc as (Ec1 & Ec2 & Ec3).
  pose proof (next_message_elem_of q node x Hn) as [Hin _].
  assert (exists m1 ev, ack_or_pop f k next (set_queue k q1 (pk_manager s)) = Ok (m1, ev)
            /\ manips m1 = manips (pk_manager s)) as (m1 & ev & Hap & Hmm).
  { unfold ack_or_pop. destruct (meta_ack (meta next)) eqn:Ea; [eauto|].
    destruct (give_then_pop now f q q1 next Wq Hgd Ea) as (? & ? & _ & _ & _ & Hpop).
    simpl. rewrite al_lookup_insert, Z.eqb_refl. simpl. rewrite Hpop. simpl. eauto. }
  destruct (discipline_packet f next (pk_msg s) m1) as [msg m2] eqn:Ed.
  pose proof (discipline_packet_manager _ _ _ _ _ _ Ed) as (Dq & Dw & Dm & _).
  assert (Ht : taken now f k next (pk_manager s) m2).
  { exists q, q1. split; [done|]. split; [done|]. rewrite Dq, Dw. unfold ack_or_pop in Hap.
    destruct (meta_ack (meta next)) eqn:Ea; [by injection Hap as <- _|].
    destruct (give_then_pop now f q q1 next Wq Hgd Ea) as (? & ? & _ & _ & _ & Hpop).
    simpl in Hap. rewrite al_lookup_insert, Z.eqb_refl in Hap. simpl in Hap. rewrite Hpop in Hap.
    simpl in Hap. injection Hap as <- _. eexists. split; [exact Hpop|]. simpl.
    by rewrite al_insert_twice. }
  destruct (taken_keeps _ _ _ _ _ _ W Ht) as [K Hf]; [congruence|].
  pose proof (Hp k q node x Hq Hin) as Hmp. pose proof Hmp as [Hok _].
  destruct (manager_meta_from_msg m2 (dccl_msg next)) as [mt|] eqn:Em.
  2: { rewrite (keeps_meta _ _ _ K), Ec1 in Em. by rewrite Em in Hok. }
  destruct (take_user_frame_eq e now f o k s q q1 next m1 ev msg m2 mt) as (s' & Hs' & <- & H1 & H2 & H3); auto.
  exists s', next, mt, msg, m1. split; [exact Hs'|]. split; [by eapply taken_wf|].
  split; [exact K|]. split; [exact Hf|].
  split; [unfold message_packable; rewrite Ec1, Ec2, Ec3; exact Hmp|].
  split; [by rewrite Ec2|]. auto.
Qed.

Lemma take_user_frame_ok e now f orig m0 max k s pr ls :
  packable m0 -> 0 <= orig -> max < 2 ^ 32 -> packing_ok m0 max orig s -> pk_passthrough s = None ->
  competes now (pk_manager s) (pk_msg s) (pk_data_size s) k pr ls ->
  exists s', take_user_frame e now f orig k s = Ok s' /\ packing_ok m0 max orig s' /\
    S (al_sum free (queues (pk_manager s'))) = al_sum free (queues (pk_manager s)).
Proof.
  intros Hp Ho Hmax [W K Hm Hfr Hsz] Hpt Hc. rewrite Hpt in Hsz. destruct Hsz as [Hsz Hle].
  pose proof (keeps_packable _ _ K Hp) as Hps.
  destruct (take_user_frame_defined e now f orig k s pr ls W Hps Hpt Hc)
    as (s' & x & mt & msg & m1 & Hs' & W' & K' & Hf & [_ Hx] & Hfit & Hd & Hmsgs & Hpt' & H).
  exists s'. split; [exact Hs'|]. split; [|exact Hf].
  pose proof (discipline_packet_manager _ _ _ _ _ _ Hd) as (_ & _ & _ & _ & _ & _ & _ & Dmax & _ & Dfr).
  pose proof (total_size_nonneg (pk_dccl_msgs s)) as Hnn.
  assert (Hfit' : meta_size (meta x) <= max - pk_data_size s).
  { unfold has_max_frame_bytes, max_frame_bytes in Hfit. rewrite Hm in Hfit. simpl in Hfit.
    specialize (Hfit eq_refl). unfold u64 in Hfit. rewrite wrap_small in Hfit by lia. exact Hfit. }
  destruct (qm_encoded_message (meta x)) as [body|] eqn:Eb.
  - destruct Hx as [Hx1 Hx2]. constructor; [done | by eapply keeps_trans | by rewrite H, Dmax | |].
    + unfold frames_bounded. rewrite H, Dfr. exact Hfr.
    + rewrite Hpt'. exists (pk_dccl_msgs s), (MkQueued (dccl_msg x) mt). split; [done|]. split; [lia | done].
  - destruct H as (Hn & i & d & Hmsg').
    assert (Ets : size_repeated (pk_dccl_msgs s') + orig = pk_data_size s + codec_size (dccl_msg x)).
    { rewrite Hmsgs. unfold size_repeated. fold (total_size (pk_dccl_msgs s ++ [MkQueued (dccl_msg x) mt])).
      rewrite total_size_app. simpl. pose proof (codec_size_pos (dccl_msg x)).
      unfold u32. rewrite wrap_small; lia. }
    assert (Hds : pk_data_size s' = pk_data_size s + codec_size (dccl_msg x)).
    { pose proof (codec_size_pos (dccl_msg x)). rewrite Hn, Ets. unfold u32. apply wrap_small. lia. }
    constructor; [done | by eapply keeps_trans | | |].
    + rewrite Hmsg'. unfold set_frame. destruct (_ <? _)%nat; simpl; by rewrite Dmax.
    + rewrite Hmsg'. apply set_frame_bounded; [unfold frames_bounded; by rewrite Dfr|].
      rewrite length_resize, <- Hn, Hds. pose proof (codec_size_pos (dccl_msg x)). lia.
    + rewrite Hpt', Hmsgs, total_size_app. simpl. lia.
Qed.

(** Enough fuel: one more than the messages that are not waiting. *)
Lemma pack_loop_ok e now f orig m0 max : forall fuel k s pr ls,
  packable m0 -> no_on_demand m0 -> 0 <= orig -> max < 2 ^ 32 ->
  packing_ok m0 max orig s -> pk_passthrough s = None ->
  competes now (pk_manager s) (pk_msg s) (pk_data_size s) k pr ls ->
  (al_sum free (queues (pk_manager s)) < fuel)%nat ->
  exists s', pack_loop fuel e now f orig k s = Ok s' /\ packing_ok m0 max orig s'.
Proof.
  induction fuel as [|fuel IH]; intros k s pr ls Hp Hod Ho Hmax Hs Hpt Hc Hfuel; [lia|].
  destruct (take_user_frame_ok e now f orig m0 max k s pr ls Hp Ho Hmax Hs Hpt Hc) as (s1 & H1 & Hs1 & Hf).
  cbn [pack_loop]. rewrite H1. cbn [rbind].
  destruct (pk_passthrough s1) as [body|] eqn:Ept; [eauto|].
  destruct (0 <? _); [|eauto].
  destruct (find_next_sender_spec e now (pk_msg s1) (pk_data_size s1) (pk_manager s1))
    as (w & Hw & ->); [apply Hs1 | eapply keeps_no_on_demand; [apply Hs1 | done] |].
  cbn [rbind].
  assert (Hs2 : packing_ok m0 max orig (MkPacking (pk_manager s1) (pk_msg s1) (pk_data_size s1)
                  (pk_dccl_msgs s1) (pk_passthrough s1) (pk_events s1 ++ []))) by (destruct Hs1; by constructor).
  rewrite Ept in Hs2. destruct w as [[[wp wl] wk]|]; [|eauto].
  destruct Hw as (_ & Hc' & _). eapply IH; eauto. simpl. lia.
Qed.

(** ** Encoding the frame *)

Lemma encode_repeated_length rules : forall msgs pass pass' b,
  encode_repeated rules pass msgs = (pass', Some b) -> Z.of_nat (length b) = total_size msgs.
Proof.
  induction msgs as [|x msgs IH]; simpl; intros pass pass' b; [by intros [= _ <-]|].
  destruct (codec_encode _ _) as [piece|] eqn:E; [|done].
  destruct (encode_repeated rules _ msgs) as [p [rest|]] eqn:Er; [|done]. intros [= _ <-].
  apply codec_encode_size in E. apply IH in Er. rewrite length_app. lia.
Qed.

Lemma encode_frame_ok m0 max orig s rules pass data :
  packing_ok m0 max orig s -> Z.of_nat (length data) <= orig <= max ->
  exists pass' data', encode_frame rules pass data (pk_dccl_msgs s) (pk_passthrough s) = Ok (pass', data')
    /\ Z.of_nat (length data') <= max.
Proof.
  intros [_ _ _ _ Hsz] Hd. unfold encode_frame. destruct (pk_passthrough s) as [body|].
  - destruct Hsz as (front & x & -> & Hle & Hhead).
    replace (take _ (front ++ [x])) with front.
    2: { rewrite length_app. simpl. rewrite Nat.add_sub. by rewrite take_app_length. }
    rewrite last_snoc. destruct (encode_repeated rules pass front) as [p [b|]] eqn:Er.
    + destruct (codec_encode_head p (dccl_msg x)) as [head|] eqn:Eh; [|exists p, []; simpl; split; [done | lia]].
      pose proof (Hhead _ _ Eh) as Hh.
      replace (length body <? length head)%nat with false by (symmetry; apply Nat.ltb_ge; lia).
      eexists _, _. split; [reflexivity|]. apply encode_repeated_length in Er.
      rewrite !length_app, length_drop. lia.
    + exists p, []. simpl. split; [done | lia].
  - destruct Hsz as [Hsz Hle]. destruct (encode_repeated _ _ _) as [p [b|]] eqn:Er.
    + eexists _, _. split; [reflexivity|]. apply encode_repeated_length in Er. rewrite length_app. lia.
    + eexists _, _. split; [reflexivity|]. simpl. lia.
Qed.

(** ** The whole request *)

(** what stays true from frame to frame *)
Record request_ok m0 (max : Z) (msg : ModemTransmission) m : Prop := {
  rqo_wf : manager_wf m;
  rqo_keeps : keeps m0 m;
  rqo_max : mt_max_frame_bytes msg = Some max;
  rqo_frames : frames_bounded max msg
}.

Lemma data_of_frame_bounded max i msg :
  frames_bounded max msg -> 0 <= max -> Z.of_nat (length (data_of_frame i msg)) <= max.
Proof.
  intros H Hm. unfold data_of_frame. destruct (mt_frame msg !! i) as [d|] eqn:E; simpl; [|lia].
  unfold frames_bounded in H. rewrite Forall_forall in H. apply H. by eapply list_elem_of_lookup_2.
Qed.

Lemma free_le_size : forall (qs : list (Z * Queue)), (al_sum free qs <= al_sum size qs)%nat.
Proof.
  unfold al_sum, free. induction qs as [|[k q] qs IH]; simpl; lia.
Qed.

Lemma set_frame_max i d msg : mt_max_frame_bytes (set_frame i d msg) = mt_max_frame_bytes msg.
Proof. unfold set_frame. by destruct (_ <? _)%nat. Qed.

Lemma fill_frame_ok fuel e now f m0 max msg m :
  packable m0 -> no_on_demand m0 -> 0 <= max < 2 ^ 32 ->
  (al_sum size (queues m0) < fuel)%nat -> request_ok m0 max msg m ->
  exists msg' m' evs, fill_frame fuel e now f msg m = Ok (msg', m', evs) /\ request_ok m0 max msg' m'.
Proof.
  intros Hp Hod Hmax Hfuel [W K Hm Hfr]. unfold fill_frame. cbv zeta.
  set (i := Z.to_nat _). set (data := data_of_frame i msg). set (msg1 := set_frame i data msg).
  assert (Hdata : Z.of_nat (length data) <= max) by (apply data_of_frame_bounded; [done | lia]).
  assert (Hfr1 : frames_bounded max msg1) by (by apply set_frame_bounded).
  assert (Hm1 : mt_max_frame_bytes msg1 = Some max) by (unfold msg1; by rewrite set_frame_max).
  replace (u32 (Z.of_nat (length data))) with (Z.of_nat (length data))
    by (symmetry; apply wrap_small; lia).
  destruct (find_next_sender_spec e now msg1 (Z.of_nat (length data)) m W (keeps_no_on_demand _ _ K Hod))
    as (w & Hw & ->). cbn [rbind].
  destruct w as [[[wp wl] wk]|]; [|eexists _, _, _; split; [reflexivity | by constructor]].
  destruct Hw as (_ & Hc & _). set (s0 := MkPacking m msg1 _ [] None []).
  assert (Hs0 : packing_ok m0 max (Z.of_nat (length data)) s0) by (constructor; simpl; auto; lia).
  destruct (pack_loop_ok e now f (Z.of_nat (length data)) m0 max fuel wk s0 wp wl)
    as (s & Hs & Hok); auto; try lia.
  { simpl. destruct K as (_ & Hsz & _). pose proof (free_le_size (queues m)). lia. }
  rewrite Hs. cbn [rbind].
  destruct (encode_frame_ok m0 max (Z.of_nat (length data)) s (encrypt_rules (pk_manager s))
    (codec_passphrase (pk_manager s)) (take (Z.to_nat (Z.of_nat (length data))) (data_of_frame i (pk_msg s))) Hok)
    as (pass & data' & He & Hlen); [rewrite length_take; lia|].
  rewrite He. cbn [rbind]. eexists _, _, _. split; [reflexivity|]. destruct Hok as [W' K' Hm' Hfr' _].
  constructor; [by eapply manager_wf_ext; [| |exact W'] | by eapply keeps_ext; [| |exact K'] | |].
  - by rewrite set_frame_max.
  - by apply set_frame_bounded.
Qed.

Lemma fill_frames_ok fuel e now m0 max : forall n f msg m,
  packable m0 -> no_on_demand m0 -> 0 <= max < 2 ^ 32 ->
  (al_sum size (queues m0) < fuel)%nat -> request_ok m0 max msg m ->
  exists msg' m' evs, fill_frames fuel e now n f msg m = Ok (msg', m', evs) /\ request_ok m0 max msg' m'.
Proof.
  induction n as [|n IH]; intros f msg m Hp Hod Hmax Hfuel Hr; cbn [fill_frames]; [eauto 6|].
  destruct (fill_frame_ok fuel e now f m0 max msg m) as (msg1 & m1 & ev1 & -> & Hr1); auto.
  cbn [rbind]. destruct (IH (f + 1) msg1 m1) as (msg2 & m2 & ev2 & -> & Hr2); auto. eauto 6.
Qed.

Lemma clear_packet_loop_keeps p now start : forall w qs w' qs',
  StronglySorted Z.lt (map fst qs) -> clear_packet_loop p now start w qs = (w', qs') ->
  (al_sum size qs' <= al_sum size qs)%nat /\
  forall k, match al_lookup k qs with
            | None => al_lookup k qs' = None
            | Some q => exists q', al_lookup k qs' = Some q' /\ keeps_queue q q'
            end.
Proof.
  induction w as [|[f0 k0] w IH]; intros qs w' qs' S; cbn [clear_packet_loop].
  { intros [= _ <-]. split; [done|]. intros k. destruct (al_lookup k qs) as [q|]; [|done].
    exists q. split; [done | apply keeps_queue_refl]. }
  destruct (al_lookup k0 qs) as [q|] eqn:E0.
  - destruct (clear_ack_queue p now start q) as [q1 empty] eqn:Ec.
    destruct (clear_packet_loop _ _ _ w _) as [w1 qs1] eqn:El. intros [= _ <-].
    apply clear_ack_queue_keeps in Ec. apply IH in El as [H1 H2]; [|by apply al_insert_sorted].
    pose proof (al_sum_insert size k0 q1 q qs S E0). pose proof Ec as (_ & _ & ? & _).
    split; [lia|]. intros k. specialize (H2 k). rewrite al_lookup_insert in H2.
    destruct (k =? k0) eqn:Ek; to_prop; [|done]. subst k0. rewrite E0.
    destruct H2 as (q2 & ? & ?). exists q2. split; [done | by eapply keeps_queue_trans].
  - destruct (clear_packet_loop _ _ _ w _) as [w1 qs1] eqn:El. intros [= _ <-]. by eapply IH.
Qed.


End Packing.

(** ** Several messages in one frame *)

Section Repeated.
Context `{P : Protobuf} `{D : !DCCLCodec} `{T : BoostText} `{L : !DCCLCodecLaws}.
Implicit Types (m : QueueManager).

(** the receiver recovers this message, whatever follows it in the frame *)
Definition recovers m (pass : option bytes) (x : QueuedMessage) : Prop :=
  manager_meta_from_msg m (dccl_msg x) = Ok (meta x) /\
  forall b rest, codec_encode pass (dccl_msg x) = Some b ->
    codec_decode pass (b ++ rest) = Some (dccl_msg x).

Lemma decode_encode_repeated m pass : forall msgs out b fuel,
  encrypt_rules m = [] -> Forall (recovers m pass) msgs ->
  encode_repeated [] pass msgs = (pass, Some b) -> (length b <= fuel)%nat ->
  decode_repeated fuel m pass b out = Ok (pass, Some (out ++ msgs)).
Proof.
  induction msgs as [|x msgs IH]; simpl; intros out b fuel Hr Hrec.
  { intros [= <-] _. rewrite app_nil_r. by destruct fuel. }
  apply Forall_cons in Hrec as [[Hmeta Hdec] Hrec].
  destruct (codec_encode pass (dccl_msg x)) as [piece|] eqn:E; [|done].
  destruct (encode_repeated [] pass msgs) as [p [rest|]] eqn:Er; [|done]. intros [= -> <-] Hfuel.
  pose proof (codec_encode_size _ _ _ E) as Hsz. pose proof (codec_size_pos (dccl_msg x)).
  rewrite length_app in Hfuel. destruct fuel as [|fuel]; [lia|].
  destruct piece as [|c piece]; [simpl in Hsz; lia|]. cbn [decode_repeated app]. rewrite Hr.
  change (c :: piece ++ rest) with ((c :: piece) ++ rest). rewrite (Hdec _ rest eq_refl), Hmeta.
  cbn [rbind]. rewrite <- Hsz, Nat2Z.id, drop_app_length.
  replace (MkQueued (dccl_msg x) (meta x)) with x by (by destruct x).
  rewrite (IH (out ++ [x]) rest fuel); [by rewrite <- app_assoc | done.. | simpl in Hfuel; lia].
Qed.

(** C5: Without encryption rules, a frame that packs several DCCL messages is decoded to the same
    messages with the same meta data, and its length is the sum of their sizes. *)
Theorem decode_repeated_roundtrip m pass msgs b :
  encrypt_rules m = [] -> Forall (recovers m pass) msgs ->
  encode_repeated [] pass msgs = (pass, Some b) ->
  decode_repeated (length b) m pass b [] = Ok (pass, Some msgs) /\
  Z.of_nat (length b) = total_size msgs.
Proof.
  intros Hr Hrec He. split; [by apply (decode_encode_repeated m pass msgs [])|]. by eapply encode_repeated_length.
Qed.

(** no encryption rule names the destination of the message *)
Definition unruled (rules : list (Z * bytes)) (x : QueuedMessage) : Prop :=
  al_lookup (meta_dest (meta x)) rules = None.

Lemma encode_unruled rules key : forall msgs, rules <> [] -> Forall (unruled rules) msgs ->
  encode_repeated rules (Some key) msgs = encode_repeated [] (Some key) msgs.
Proof.
  induction msgs as [|x msgs IH]; intros Hr Hu; [done|]. apply Forall_cons in Hu as [Hx Hu].
  assert (E : passphrase_for rules (meta_dest (meta x)) (Some key) = Some key).
  { unfold passphrase_for. destruct rules; [done|]. by rewrite Hx. }
  cbn [encode_repeated]. rewrite E. cbn [passphrase_for]. by rewrite (IH Hr Hu).
Qed.

(** After a message for a destination with an encryption rule, the messages that follow it in
    the packet for destinations without a rule are encoded with the passphrase of that rule, as if
    it were everyone's. *)
Lemma encode_repeated_passphrase_persists rules pass x msgs key :
  al_lookup (meta_dest (meta x)) rules = Some key -> Forall (unruled rules) msgs ->
  encode_repeated rules pass (x :: msgs) = encode_repeated [] (Some key) (x :: msgs).
Proof.
  intros Hx Hu. assert (Hr : rules <> []) by (by intros ->).
  assert (E : passphrase_for rules (meta_dest (meta x)) pass = Some key).
  { unfold passphrase_for. destruct rules; [done|]. by rewrite Hx. }
  cbn [encode_repeated]. rewrite E. cbn [passphrase_for]. by rewrite encode_unruled.
Qed.

End Repeated.

(** ** A concrete run *)

Module ManagerWitness.
#[local] Existing Instances Sample.protobuf Sample.codec Sample.codec_laws Sample.text.

Definition env : Environment :=
  MkEnvironment (fun mt _ _ => mt) false (fun _ x => x)
    (fun name => if bool_decide (name = B "sample") then Some 7 else None)
    (fun _ _ s d _ _ => Sample.MkMsg 9 s d []).

Definition config : QueueManagerConfig :=
  MkManagerConfig (Some 1) [Sample.entry] None None None [] [] [].

Definition run {A} (r : result ManagerError (QueueManager * A)) (m : QueueManager) : QueueManager :=
  match r with Ok (m, _) => m | Err _ => m end.

Definition m1 : QueueManager := Eval vm_compute in run (manager_set_cfg env 0 config new_manager) new_manager.
Definition m2 : QueueManager :=
  Eval vm_compute in run (manager_push_message env 1000000 (QueueWitness.msg 3) None m1) m1.

Definition request : ModemTransmission :=
  set_mt_max_frame_bytes (Some 32) (set_mt_dest (Some QUERY_DESTINATION_ID) empty_transmission).

(** the message is in frame 0 of a transmission and waits for its acknowledgement *)
Definition m3 : QueueManager :=
  Eval vm_compute in
    match handle_modem_data_request 5 env 5000000 request m2 with Ok (_, m, _) => m | Err _ => m2 end.

Definition ack : ModemTransmission :=
  set_mt_acked_frame [0] (set_mt_type (Some ACK) (set_mt_src (Some 3) (set_mt_dest (Some 1) empty_transmission))).

Lemma m2_reachable : manager_reachable m2.
Proof.
  eapply rtc_l; [apply (MStepSetCfg env 0 config new_manager m1 [SigQueueSize 7 0]); vm_compute; reflexivity|].
  eapply rtc_l; [apply (MStepPush env 1000000 (QueueWitness.msg 3) None m1 m2 [SigQueueSize 7 1]);
                 vm_compute; reflexivity|]. apply rtc_refl.
Qed.

Lemma m3_reachable : manager_reachable m3.
Proof.
  eapply rtc_r; [apply m2_reachable|]. eapply (MStepDataRequest 5 env 5000000 request).
  vm_compute. reflexivity.
Qed.

Definition q3 : Queue := Eval vm_compute in match al_lookup 7 (queues m3) with Some q => q | None => QueueWitness.q0 end.

Lemma manager_ack_tables_agree_witness : (0, 7) ∈ waiting_for_ack m3.
Proof.
  assert (H : (0, 0%nat) ∈ q_waiting_for_ack q3) by (vm_compute; constructor).
  assert (Hq : al_lookup 7 (queues m3) = Some q3) by reflexivity.
  destruct (manager_ack_tables_agree m3 7 q3 0 0 m3_reachable Hq H) as (_ & Hw & _). exact Hw.
Defined.

Lemma process_modem_ack_releases_witness :
  match process_modem_ack env ack [0] m3 with
  | Ok (m', _) => waiting_for_ack m' = [] /\ (forall k, (0, k) ∉ waiting_for_ack m')
  | Err _ => False
  end.
Proof.
  pose proof (process_modem_ack_releases env ack [0] m3 m3_reachable eq_refl) as H.
  destruct (process_modem_ack env ack [0] m3) as [[m' evs]|er] eqn:E.
  - split; [vm_compute in E; injection E as <- _; reflexivity|].
    destruct H as (_ & H & _). apply (H 0). constructor.
  - vm_compute in E. discriminate E.
Defined.

Lemma m2_no_on_demand : no_on_demand m2.
Proof. intros k. reflexivity. Qed.

Lemma find_next_sender_maximal_witness :
  find_next_sender env 5000000 request 0 m2 = Ok (m2, [], Some 7) /\
  exists wp wl, competes 5000000 m2 request 0 7 wp wl.
Proof.
  destruct (find_next_sender_maximal env 5000000 request 0 m2 m2_reachable m2_no_on_demand) as (w & E & H).
  assert (E' : find_next_sender env 5000000 request 0 m2 = Ok (m2, [], Some 7)) by (vm_compute; reflexivity).
  split; [exact E'|]. rewrite E' in E. injection E as <-. destruct H as (wp & wl & H & _). exists wp, wl. exact H.
Defined.

Lemma m2_packable : packable m2.
Proof.
  intros k q n x Hq Hx. change (queues m2) with [(7, default QueueWitness.q0 (al_lookup 7 (queues m2)))] in Hq.
  simpl in Hq. destruct (k =? 7); [|done]. injection Hq as <-. simpl in Hx.
  apply list_elem_of_singleton in Hx. injection Hx as -> ->. split; [vm_compute; reflexivity|].
  vm_compute. reflexivity.
Qed.


Definition two : list QueuedMessage :=
  Eval vm_compute in
    map (fun x => MkQueued x (match manager_meta_from_msg m2 x with Ok mt => mt | Err _ => empty_meta end))
      [QueueWitness.msg 3; QueueWitness.msg 4].

Lemma decode_repeated_roundtrip_witness :
  decode_repeated 10 m2 None [7; 1; 1; 3; 42; 7; 1; 1; 4; 42] [] = Ok (None, Some two).
Proof.
  destruct (decode_repeated_roundtrip m2 None two [7; 1; 1; 3; 42; 7; 1; 1; 4; 42]) as [H _].
  - reflexivity.
  - repeat constructor; intros b rest E; injection E as <-; reflexivity.
  - vm_compute. reflexivity.
  - exact H.
Defined.

Example encode_repeated_passphrase_persists_witness :
  encode_repeated [(3, B "secret")] None two = encode_repeated [] (Some (B "secret")) two.
Proof.
  exact (encode_repeated_passphrase_persists [(3, B "secret")] None
    (MkQueued (QueueWitness.msg 3) (set_qm_dest (Some 3) empty_meta))
    [MkQueued (QueueWitness.msg 4) (set_qm_dest (Some 4) empty_meta)] (B "secret")
    eq_refl ltac:(repeat constructor)).
Qed.

End ManagerWitness.
