(* ===== verification/UdpDriver.v ===== *)
(** * acomms/modemdriver/udp_driver.{h,cpp} and acomms/bind.h: a modem on UDP

    The driver, and the node obtained by binding it to a queue manager. The
    socket is the list of datagrams sent; protobuf's wire format is a parameter.
    The exchange of a transmission and its acknowledgement is followed from the
    queue that gave the data to the release of its messages. *)

From Stdlib Require Import Sorting.Sorted SpecFloat.
From stdpp Require Import countable.
From S2P Require Import Prelude AssocList Double Proto Queue QueueManager QueueManagerProofs.

(** [SerializeToString] and [ParseFromArray] of [ModemTransmission] *)
Class WireFormat : Type := {
  SerializeToString : ModemTransmission -> bytes;
  ParseFromArray : bytes -> ModemTransmission
}.

Class WireFormatLaws `{WireFormat} : Prop := {
  wire_roundtrip : forall msg, ParseFromArray (SerializeToString msg) = msg
}.

(** ** The driver *)

Record UDPDriver : Type := MkUdpDriver {
  max_frame_size : Z;   (* of the configuration *)
  next_frame : Z
}.

Inductive DriverEvent : Type :=
| RawOutgoing (raw : bytes)
| RawIncoming (raw : bytes)
| SendTo (datagram : bytes)
| SignalReceive (msg : ModemTransmission).

Section Driver.
Context `{WF : WireFormat}.

(** [startup], for the part of the configuration the driver keeps *)
Definition udp_startup (max_frame_size : Z) (d : UDPDriver) : UDPDriver :=
  MkUdpDriver max_frame_size (next_frame d).

Definition new_udp_driver : UDPDriver := MkUdpDriver 65536 0.

Definition start_send (msg : ModemTransmission) : list DriverEvent :=
  let b := SerializeToString msg in [RawOutgoing b; SendTo b].

(** the transmission as it is when data are requested *)
Definition prepare_transmission (modify : ModemTransmission -> ModemTransmission)
    (orig_msg : ModemTransmission) (d : UDPDriver) : ModemTransmission :=
  let msg := modify orig_msg in
  let msg := match mt_frame_start msg with
             | None => set_mt_frame_start (Some (next_frame d)) msg | Some _ => msg end in
  set_mt_max_frame_bytes (Some (u32 (max_frame_size d))) msg.

(** [modify] is what is connected to [signal_modify_transmission], [data_request]
    to [signal_data_request], with its state *)
Definition udp_handle_initiate_transmission {E St : Type} (modify : ModemTransmission -> ModemTransmission)
    (data_request : ModemTransmission -> St -> result E (ModemTransmission * St))
    (orig_msg : ModemTransmission) (d : UDPDriver) (st : St)
  : result E (UDPDriver * St * list DriverEvent) :=
  let? (msg, st) := data_request (prepare_transmission modify orig_msg d) st in
  let d := MkUdpDriver (max_frame_size d) (u32 (next_frame d + Z.of_nat (frame_size msg))) in
  let first_empty := match mt_frame msg with [] | [] :: _ => true | _ => false end in
  Ok (d, st, if first_empty then [] else start_send msg).

(** the frames [i] from [frame_start] to [frame_start + frame_size], as [int]s *)
Definition acked_frames (msg : ModemTransmission) : list Z :=
  let first := s32 (frame_start msg) in
  let n := s32 (u32 (Z.of_nat (frame_size msg) + frame_start msg)) in
  map (fun i => first + Z.of_nat i) (seq 0 (Z.to_nat (n - first))).

Definition make_ack (msg : ModemTransmission) : ModemTransmission :=
  set_mt_acked_frame (acked_frames msg)
    (set_mt_dest (Some (src msg)) (set_mt_src (Some (dest msg)) (set_mt_type (Some ACK) empty_transmission))).

Definition receive_message (msg : ModemTransmission) : list DriverEvent :=
  (if bool_decide (type msg = DATA) && ack_requested msg && negb (dest msg =? BROADCAST_ID)
   then start_send (make_ack msg) else [])
  ++ [SignalReceive msg].

(** [None]: an error code *)
Definition receive_complete (datagram : option bytes) : list DriverEvent :=
  match datagram with
  | None => []
  | Some b => RawIncoming b :: receive_message (ParseFromArray b)
  end.

End Driver.

(** ** bind.h: the driver's signals connected to the queue manager *)

Section Node.
Context `{P : Protobuf} `{D : !DCCLCodec} `{T : BoostText} `{WF : WireFormat}.

Record Node : Type := MkNode { n_driver : UDPDriver; n_manager : QueueManager }.

Definition node_initiate (fuel : nat) (e : Environment) (now : Z)
    (modify : ModemTransmission -> ModemTransmission) (orig_msg : ModemTransmission) (n : Node)
  : result ManagerError (Node * list DriverEvent * list Event) :=
  let data_request msg (st : QueueManager * list Event) :=
    let? (msg, m, evs) := handle_modem_data_request fuel e now msg (fst st) in
    Ok (msg, (m, snd st ++ evs)) in
  let? (d, st, out) :=
    udp_handle_initiate_transmission modify data_request orig_msg (n_driver n) (n_manager n, []) in
  Ok (MkNode d (fst st), out, snd st).

(** the signals of the driver delivered to the manager *)
Fixpoint deliver_signals (e : Environment) (evs : list DriverEvent) (m : QueueManager)
  : result ManagerError (QueueManager * list Event) :=
  match evs with
  | [] => Ok (m, [])
  | SignalReceive msg :: evs =>
      let? (m, ev1) := handle_modem_receive e msg m in
      let? (m, ev2) := deliver_signals e evs m in
      Ok (m, ev1 ++ ev2)
  | _ :: evs => deliver_signals e evs m
  end.

Definition node_receive (e : Environment) (datagram : bytes) (n : Node)
  : result ManagerError (Node * list DriverEvent * list Event) :=
  let out := receive_complete (Some datagram) in
  let? (m, evs) := deliver_signals e out (n_manager n) in
  Ok (MkNode (n_driver n) m, out, evs).

End Node.

(** ** Which frames wait for an acknowledgement *)

Section Frames.
Context `{P : Protobuf} `{D : !DCCLCodec} `{T : BoostText}.
Implicit Types (m : QueueManager) (q : Queue).

(** no queue waits on a frame from [b] on *)
Definition frames_below (b : Z) m : Prop :=
  forall k q, al_lookup k (queues m) = Some q -> Forall (fun x => fst x < b) (q_waiting_for_ack q).

Lemma frames_below_weaken b b' m : b <= b' -> frames_below b m -> frames_below b' m.
Proof. intros Hb H k q Hq. eapply Forall_impl; [by eapply H|]. simpl. intros. lia. Qed.

Lemma frames_below_ext b m m' : queues m' = queues m -> frames_below b m -> frames_below b m'.
Proof. intros E H k q. rewrite E. apply H. Qed.

Lemma shrinks_below b q q' :
  shrinks q q' -> Forall (fun x => fst x < b) (q_waiting_for_ack q) ->
  Forall (fun x => fst x < b) (q_waiting_for_ack q').
Proof.
  intros [_ S] H. rewrite Forall_forall in *. intros x Hx. apply H. by eapply sublist_subseteq.
Qed.

Lemma set_queue_below b k q m :
  frames_below b m -> Forall (fun x => fst x < b) (q_waiting_for_ack q) -> frames_below b (set_queue k q m).
Proof.
  intros H Hq k' q'. simpl. rewrite al_lookup_insert. destruct (k' =? k); [by intros [= <-] | apply H].
Qed.

Lemma clear_ack_queue_below p now start q q' empty :
  clear_ack_queue p now start q = (q', empty) -> Forall (fun x => fst x < start) (q_waiting_for_ack q').
Proof.
  intros [= <- _]. simpl. rewrite Forall_forall. intros x Hx.
  apply list_elem_of_In, filter_In in Hx as [_ Hx]. unfold ack_wait_over in Hx.
  destruct (Z.leb_spec start (fst x)); [done | lia].
Qed.

Lemma clear_packet_loop_below p now start : forall w qs w' qs',
  StronglySorted Z.lt (map fst qs) -> clear_packet_loop p now start w qs = (w', qs') ->
  forall f k q', (f, k) ∈ w -> al_lookup k qs' = Some q' ->
  Forall (fun x => fst x < start) (q_waiting_for_ack q').
Proof.
  induction w as [|[f0 k0] w IH]; intros qs w' qs' S; cbn [clear_packet_loop]; [set_solver|].
  destruct (al_lookup k0 qs) as [q0|] eqn:E0.
  - destruct (clear_ack_queue p now start q0) as [q1 empty] eqn:Ec.
    destruct (clear_packet_loop _ _ _ w _) as [w1 qs1] eqn:El. intros [= _ <-].
    assert (S' : StronglySorted Z.lt (map fst (al_insert k0 q1 qs))) by (by apply al_insert_sorted).
    intros f k q' Hin Hq'. apply elem_of_cons in Hin as [[= -> ->]|Hin]; [|by eapply IH].
    apply clear_packet_loop_spec in El as (_ & _ & H); [|done]. specialize (H k0).
    rewrite al_lookup_insert, Z.eqb_refl in H. destruct H as (q2 & H2 & Hs & _).
    replace q' with q2 by congruence. eapply shrinks_below; [exact Hs | by eapply clear_ack_queue_below].
  - destruct (clear_packet_loop _ _ _ w _) as [w1 qs1] eqn:El. intros [= _ <-] f k q' Hin Hq'.
    apply elem_of_cons in Hin as [[= -> ->]|Hin]; [|by eapply IH].
    apply clear_packet_loop_spec in El as (_ & _ & H); [|done]. specialize (H k0). rewrite E0 in H. congruence.
Qed.

Lemma clear_packet_below e now msg m : manager_wf m -> frames_below (frame_start msg) (clear_packet e now msg m).
Proof.
  intros W k q'. unfold clear_packet.
  destruct (clear_packet_loop _ _ _ _ _) as [w qs] eqn:E. simpl. intros Hq'. assert (E' := E).
  apply clear_packet_loop_spec in E as (_ & _ & H); [|apply W]. specialize (H k).
  destruct (al_lookup k (queues m)) as [q|] eqn:Hq; [|congruence]. destruct H as (q2 & H2 & Hs & _).
  replace q2 with q' in * by congruence.
  destruct (q_waiting_for_ack q) as [|[f n] rest] eqn:Ew.
  - eapply shrinks_below; [exact Hs|]. by rewrite Ew.
  - assert (Hin : exists f', (f', k) ∈ waiting_for_ack m).
    { pose proof (mwf_dominates m W k q Hq f) as Hd. rewrite Ew in Hd. simpl in Hd.
      unfold on_frame at 1 in Hd. simpl in Hd. rewrite Z.eqb_refl in Hd. exists f.
      destruct (decide ((f, k) ∈ waiting_for_ack m)) as [|Hno]; [done|].
      rewrite (count_zero (entry_is f k)) in Hd; [lia|]. intros [f' k'] Hin. unfold entry_is. simpl.
      apply andb_false_iff. destruct (Z.eqb_spec f' f), (Z.eqb_spec k' k); subst; auto. by destruct Hno. }
    destruct Hin as [f' Hin]. eapply clear_packet_loop_below; [apply W | exact E' | exact Hin | done].
Qed.

Lemma push_message_below b e now x mt m m' evs :
  frames_below b m -> manager_push_message e now x mt m = Ok (m', evs) -> frames_below b m'.
Proof.
  intros H. unfold manager_push_message. destruct (al_lookup _ _) as [q|] eqn:E; [|done].
  assert (Hp : forall mt q' evs ok, push_message_meta (parent_of e m) now x mt q = (q', evs, ok) ->
            frames_below b (set_queue (codec_id (GetDescriptor x)) q' m)).
  { intros mt' q' evs' ok Hpush. apply set_queue_below; [done|].
    eapply shrinks_below; [by eapply push_message_meta_shrinks | by eapply H]. }
  destruct mt as [mt|]; simpl.
  - destruct (push_message_meta _ _ _ _ _) as [[q' ev] ok] eqn:Ep. intros [= <- _]. by eapply Hp.
  - unfold push_message. destruct (meta_from_msg q x) as [mt|]; simpl; [|done].
    destruct (push_message_meta _ _ _ _ _) as [[q' ev] ok] eqn:Ep. simpl. intros [= <- _]. by eapply Hp.
Qed.

Lemma find_next_sender_loop_below b e now msg n : forall keys w m m' evs w',
  frames_below b m -> find_next_sender_loop e now msg n keys w m = Ok (m', evs, w') -> frames_below b m'.
Proof.
  induction keys as [|k keys IH]; simpl; intros w m m' evs w' H; [by intros [= <- _ _]|].
  destruct (al_lookup k (queues m)) as [q|]; simpl; [|done].
  destruct (fill_on_demand _ _ _ _ _ _) as [[m1 ev1]|] eqn:Ef; simpl; [|done].
  assert (H1 : frames_below b m1).
  { unfold fill_on_demand in Ef. cbv zeta in Ef. destruct (_ && _); [|by injection Ef as <- _].
    destruct (IsInitialized _); [by eapply push_message_below | by injection Ef as <- _]. }
  destruct (al_lookup k (queues m1)) as [q1|]; simpl; [|done].
  destruct (get_priority_values _ _ _ _) as [[[pr ls] ok]|]; simpl; [|done].
  destruct (find_next_sender_loop _ _ _ _ _ _ _) as [[[m2 ev2] w2]|] eqn:El; simpl; [|done].
  intros [= <- _ _]. by eapply IH.
Qed.

Lemma find_next_sender_below b e now msg n m m' evs w :
  frames_below b m -> find_next_sender e now msg n m = Ok (m', evs, w) -> frames_below b m'.
Proof.
  intros H. unfold find_next_sender.
  destruct (find_next_sender_loop _ _ _ _ _ _ _) as [[[m1 ev1] w1]|] eqn:E; simpl; [|done].
  intros [= <- _ _]. by eapply find_next_sender_loop_below.
Qed.

Lemma taken_below b now f k next m m' :
  f < b -> frames_below b m -> taken now f k next m m' -> frames_below b m'.
Proof.
  intros Hf H (q & q1 & Hq & Hg & Ht). destruct (give_data_waiting _ _ _ _ _ Hg) as [_ Hw].
  specialize (H k q Hq) as Hqb. destruct (meta_ack (meta next)).
  - destruct Ht as [E _], Hw as [node Hw]. apply (frames_below_ext b (set_queue k q1 m)); [done|].
    apply set_queue_below; [done|]. rewrite Hw. by constructor.
  - destruct Ht as (q2 & Hp & E & _). apply (frames_below_ext b (set_queue k q2 m)); [done|].
    apply set_queue_below; [done|]. eapply shrinks_below; [by eapply pop_message_shrinks|]. by rewrite Hw.
Qed.

(** ** The frames of the transmission *)

(** frames are only added *)
Definition grows (msg msg' : ModemTransmission) : Prop :=
  mt_frame_start msg' = mt_frame_start msg /\ (frame_size msg <= frame_size msg')%nat.

Lemma grows_trans a b c : grows a b -> grows b c -> grows a c.
Proof. intros [E1 L1] [E2 L2]. split; [congruence | lia]. Qed.

Lemma set_frame_grows i data msg :
  grows msg (set_frame i data msg) /\ ((i <= frame_size msg)%nat -> (i < frame_size (set_frame i data msg))%nat).
Proof.
  unfold set_frame, grows, frame_size. destruct (Nat.ltb_spec i (length (mt_frame msg))); simpl.
  - rewrite length_insert. split; [split; [done | lia] | lia].
  - rewrite length_app. simpl. split; [split; [done | lia] | lia].
Qed.

Lemma take_user_frame_grows e now f o k s s' :
  take_user_frame e now f o k s = Ok s' -> grows (pk_msg s) (pk_msg s').
Proof.
  unfold take_user_frame. cbv zeta.
  destruct (al_lookup k _) as [q|]; simpl; [|done].
  destruct (give_data now f q) as [[q1 next]|]; simpl; [|done].
  destruct (ack_or_pop _ _ _ _) as [[m1 ev]|]; simpl; [|done].
  destruct (discipline_packet _ _ _ _) as [msg m2] eqn:Ed. simpl.
  apply discipline_packet_manager in Ed as (_ & _ & _ & _ & _ & _ & _ & _ & Hs & Hf).
  assert (G : grows (pk_msg s) msg) by (split; [done | unfold frame_size; by rewrite Hf]).
  destruct (manager_meta_from_msg _ _) as [mt|]; simpl; [|done].
  destruct (qm_encoded_message (meta next)); [by intros [= <-]|].
  destruct (pk_passthrough s); [by intros [= <-]|]. intros [= <-]. simpl.
  eapply grows_trans; [exact G|]. apply set_frame_grows.
Qed.

Lemma pack_loop_step b e now f o : f < b -> forall fuel k s s',
  manager_wf (pk_manager s) -> frames_below b (pk_manager s) -> pack_loop fuel e now f o k s = Ok s' ->
  frames_below b (pk_manager s') /\ grows (pk_msg s) (pk_msg s').
Proof.
  intros Hf. induction fuel as [|fuel IH]; simpl; intros k s s' W H; [done|].
  destruct (take_user_frame _ _ _ _ _ _) as [s1|] eqn:Et; simpl; [|done].
  pose proof (take_user_frame_grows _ _ _ _ _ _ _ Et) as G1.
  destruct (take_user_frame_taken _ _ _ _ _ _ _ W Et) as [next Ht].
  pose proof (taken_wf _ _ _ _ _ _ W Ht) as W1. pose proof (taken_below _ _ _ _ _ _ _ Hf H Ht) as H1.
  destruct (pk_passthrough s1); [by intros [= <-]|]. destruct (0 <? _); [|by intros [= <-]].
  destruct (find_next_sender _ _ _ _ _) as [[[m2 ev] w]|] eqn:Ef; simpl; [|done].
  pose proof (find_next_sender_wf _ _ _ _ _ _ _ _ W1 Ef) as W2.
  pose proof (find_next_sender_below _ _ _ _ _ _ _ _ _ H1 Ef) as H2.
  destruct w as [k2|]; [|by intros [= <-]]. intros Hp. apply IH in Hp as [H3 G2]; [|done..].
  split; [done|]. eapply grows_trans; [exact G1 | exact G2].
Qed.

Lemma fill_frame_step b fuel e now f msg m msg' m' evs :
  manager_wf m -> f < b -> frames_below b m -> fill_frame fuel e now f msg m = Ok (msg', m', evs) ->
  manager_wf m' /\ frames_below b m' /\ grows msg msg' /\
  ((Z.to_nat (f - frame_start msg) <= frame_size msg)%nat -> (Z.to_nat (f - frame_start msg) < frame_size msg')%nat).
Proof.
  intros W Hf H Hfill. split; [by eapply fill_frame_wf|]. revert Hfill. unfold fill_frame. cbv zeta.
  set (i := Z.to_nat (f - frame_start msg)). set (data := data_of_frame i msg).
  destruct (set_frame_grows i data msg) as [G0 L0].
  destruct (find_next_sender _ _ _ _ _) as [[[m1 ev] w]|] eqn:Ef; cbn [rbind]; [|done].
  pose proof (find_next_sender_wf _ _ _ _ _ _ _ _ W Ef) as W1.
  pose proof (find_next_sender_below _ _ _ _ _ _ _ _ _ H Ef) as H1.
  destruct w as [k|]; [|by intros [= <- <- _]].
  destruct (pack_loop _ _ _ _ _ _ _) as [s|] eqn:Ep; cbn [rbind]; [|done].
  apply (pack_loop_step b) in Ep as [H2 G2]; [|done..]. cbn [pk_msg] in G2.
  destruct (encode_frame _ _ _ _ _) as [[pass d]|]; cbn [rbind]; [|done]. intros [= <- <- _].
  destruct (set_frame_grows i d (pk_msg s)) as [G3 _].
  split; [by apply (frames_below_ext b (pk_manager s))|].
  split; [eapply grows_trans; [exact G0|]; by eapply grows_trans|].
  intros Hi. specialize (L0 Hi). destruct G2 as [_ G2], G3 as [_ G3]. lia.
Qed.

Lemma fill_frames_step b fuel e now : forall n f msg m msg' m' evs,
  manager_wf m -> f + Z.of_nat n <= b -> frames_below b m -> frame_start msg <= f ->
  (Z.to_nat (f - frame_start msg) <= frame_size msg)%nat ->
  fill_frames fuel e now n f msg m = Ok (msg', m', evs) ->
  manager_wf m' /\ frames_below b m' /\ grows msg msg' /\
  (Z.to_nat (f - frame_start msg) + n <= frame_size msg')%nat.
Proof.
  induction n as [|n IH]; simpl; intros f msg m msg' m' evs W Hb H Hs Hi.
  { intros [= <- <- _]. split_and!; [done | done | by split | lia]. }
  destruct (fill_frame _ _ _ _ _ _) as [[[msg1 m1] ev1]|] eqn:Ef; simpl; [|done].
  destruct (fill_frames _ _ _ _ _ _ _) as [[[msg2 m2] ev2]|] eqn:El; simpl; [|done]. intros [= <- <- _].
  apply (fill_frame_step b) in Ef as (W1 & H1 & G1 & L1); [|done || lia..].
  assert (Es : frame_start msg1 = frame_start msg) by (unfold frame_start; by rewrite (proj1 G1)).
  specialize (L1 Hi). apply IH in El as (W2 & H2 & G2 & L2); [|done || (try rewrite Es); lia..].
  rewrite Es in L2. split_and!; [done | done | by eapply grows_trans | lia].
Qed.

(** After a data request every frame that waits for an acknowledgement is older
    than the transmission or one of its frames. *)
Lemma data_request_frames fuel e now msg m msg' m' evs :
  manager_wf m -> 0 <= frame_start msg -> 0 <= max_num_frames msg ->
  max_num_frames msg + frame_start msg < 2 ^ 32 ->
  handle_modem_data_request fuel e now msg m = Ok (msg', m', evs) ->
  manager_wf m' /\ frame_start msg' = frame_start msg /\
  frames_below (frame_start msg + Z.of_nat (frame_size msg')) m'.
Proof.
  intros W Hs Hn Hb. unfold handle_modem_data_request. cbv zeta.
  destruct (fill_frames _ _ _ _ _ _ _) as [[[msg1 m1] ev1]|] eqn:El; simpl; [|done]. intros [= <- <- _].
  unfold u32 in El. rewrite wrap_small in El by lia.
  replace (max_num_frames msg + frame_start msg - frame_start msg) with (max_num_frames msg) in El by lia.
  pose proof (clear_packet_below e now msg m W) as H0.
  apply (fill_frames_step (frame_start msg + max_num_frames msg)) in El as (W1 & H1 & G & L);
    [|by apply clear_packet_wf | lia | eapply frames_below_weaken; [|exact H0]; lia | lia | lia].
  split; [done|]. split; [unfold frame_start; simpl; by rewrite (proj1 G)|].
  eapply frames_below_weaken; [|exact H1]. unfold frame_size in *. simpl. lia.
Qed.

End Frames.

(** ** The exchange *)

Section Exchange.
Context `{P : Protobuf} `{D : !DCCLCodec} `{T : BoostText} `{WF : WireFormat} `{WL : !WireFormatLaws}.
Implicit Types (m : QueueManager) (q : Queue) (a b : Node).

Lemma acked_frames_range msg f :
  0 <= frame_start msg -> frame_start msg + Z.of_nat (frame_size msg) < 2 ^ 31 ->
  f ∈ acked_frames msg <-> frame_start msg <= f < frame_start msg + Z.of_nat (frame_size msg).
Proof.
  intros H0 H1. unfold acked_frames, u32. rewrite wrap_small by lia. rewrite !s32_small by lia.
  rewrite list_elem_of_In, in_map_iff. setoid_rewrite in_seq. split.
  - intros (i & <- & Hi). lia.
  - intros Hf. exists (Z.to_nat (f - frame_start msg)). lia.
Qed.

Lemma release_waiting frames q :
  q_waiting_for_ack (foldl (fun q f => release (u32 f) q) q frames) =
  List.filter (fun x => negb (existsb (fun f => fst x =? u32 f) frames)) (q_waiting_for_ack q).
Proof.
  revert q. induction frames as [|f frames IH]; intros q; simpl.
  - induction (q_waiting_for_ack q) as [|x l IHl]; simpl; [done|]. by rewrite <- IHl.
  - rewrite IH. simpl. rewrite filter_filter. apply filter_ext. intros x. by rewrite negb_orb.
Qed.

(** the acknowledgement of a transmission leaves nothing waiting on its frames *)
Lemma ack_clears_transmission e msg m :
  manager_wf m -> src msg = modem_id m -> 0 <= frame_start msg ->
  frame_start msg + Z.of_nat (frame_size msg) < 2 ^ 31 ->
  frames_below (frame_start msg + Z.of_nat (frame_size msg)) m ->
  match process_modem_ack e (make_ack msg) (acked_frames msg) m with
  | Ok (m', evs) =>
      frames_below (frame_start msg) m' /\
      forall k q f n x, al_lookup k (queues m) = Some q -> (f, n) ∈ q_waiting_for_ack q ->
        (n, x) ∈ q_messages q -> frame_start msg <= f -> SigAck (make_ack msg) (dccl_msg x) ∈ evs
  | Err (QueueExc _) => network_ack_fails e (dest msg) m
  | Err _ => False
  end.
Proof.
  intros W Hsrc H0 H1 Hb.
  pose proof (process_modem_ack_spec e (make_ack msg) (acked_frames msg) m W Hsrc) as H.
  destruct (process_modem_ack _ _ _ _) as [[m' evs]|[]]; try done.
  destruct H as [(_ & _ & _ & Hq) Hev]. split.
  - intros k q' Hq'. rewrite Hq in Hq'. destruct (al_lookup k (queues m)) as [q|] eqn:E; [|done].
    injection Hq' as <-. rewrite release_waiting. rewrite Forall_forall. intros [f n] Hx.
    apply list_elem_of_In, filter_In in Hx as [Hx Hno]. apply list_elem_of_In in Hx.
    pose proof (proj1 (Forall_forall _ _) (Hb k q E) _ Hx) as Hlt. cbn [fst] in *.
    destruct (Z.lt_ge_cases f (frame_start msg)) as [|Hge]; [done|]. exfalso.
    apply negb_true_iff, not_true_iff_false in Hno. apply Hno, existsb_exists. exists f.
    split; [apply list_elem_of_In, acked_frames_range; lia|]. apply Z.eqb_eq. unfold u32. rewrite wrap_small; lia.
  - intros k q f n x E Hf Hx Hge. apply Hev. split; [done|]. exists x. split; [|done]. exists f.
    pose proof (proj1 (Forall_forall _ _) (Hb k q E) _ Hf) as Hlt. cbn [fst] in *.
    split; [apply acked_frames_range; lia|]. exists k, q, n. unfold u32. rewrite wrap_small by lia. done.
Qed.

(** C6: A node is a UDP driver bound to its queue manager. What it sends for a data transmission is
    one datagram; the driver that receives it answers with an acknowledgement, and the first node,
    receiving that, is left with no queue waiting on a frame of the transmission and signals the
    acknowledgement of every message that waited on one; the only failure is an exception raised
    while a network acknowledgement is built. *)
Theorem udp_exchange_releases fuel e now modify orig a a' out evs :
  manager_reachable (n_manager a) ->
  let request := prepare_transmission modify orig (n_driver a) in
  0 <= frame_start request -> 0 <= max_num_frames request ->
  max_num_frames request + frame_start request < 2 ^ 32 ->
  node_initiate fuel e now modify orig a = Ok (a', out, evs) -> out <> [] ->
  exists msg, SendTo (SerializeToString msg) ∈ out /\ frame_start msg = frame_start request /\
    (type msg = DATA -> ack_requested msg = true -> dest msg <> BROADCAST_ID ->
     src msg = modem_id (n_manager a') -> frame_start msg + Z.of_nat (frame_size msg) < 2 ^ 31 ->
     exists ack, SendTo ack ∈ receive_complete (Some (SerializeToString msg)) /\
       match node_receive e ack a' with
       | Ok (a'', _, evs') =>
           frames_below (frame_start msg) (n_manager a'') /\
           forall k q f n x, al_lookup k (queues (n_manager a')) = Some q ->
             (f, n) ∈ q_waiting_for_ack q -> (n, x) ∈ q_messages q -> frame_start msg <= f ->
             SigAck (make_ack msg) (dccl_msg x) ∈ evs'
       | Err (QueueExc _) => network_ack_fails e (dest msg) (n_manager a')
       | Err _ => False
       end).
Proof.
  intros W%manager_reachable_wf request H0 Hn Hmax. unfold node_initiate, udp_handle_initiate_transmission.
  fold request. cbv zeta. cbn [fst snd].
  destruct (handle_modem_data_request _ _ _ _ _) as [[[msg m1] ev1]|] eqn:Eh; cbn [rbind]; [|done].
  apply data_request_frames in Eh as (W1 & Es & Hb); [|done..].
  intros [= <- <- _] Hout. exists msg.
  split; [destruct (mt_frame msg) as [|[] ?]; [done | done | set_solver]|]. split; [done|].
  intros Hty Hack Hd Hsrc H31. cbn [n_manager fst] in *. rewrite <- Es in Hb, H0.
  exists (SerializeToString (make_ack msg)). split.
  { cbn [receive_complete]. rewrite wire_roundtrip. unfold receive_message. rewrite Hack.
    rewrite bool_decide_true by done. apply Z.eqb_neq in Hd. rewrite Hd. set_solver. }
  pose proof (ack_clears_transmission e msg m1 W1 Hsrc H0 H31 Hb) as Hclear.
  unfold node_receive. cbn [receive_complete]. rewrite wire_roundtrip.
  unfold receive_message. cbn [deliver_signals app].
  change (bool_decide (type (make_ack msg) = DATA)) with false. cbn [andb app deliver_signals n_manager].
  unfold handle_modem_receive. change (bool_decide (type (make_ack msg) = ACK)) with true. cbv iota.
  change (mt_acked_frame (make_ack msg)) with (acked_frames msg).
  destruct (process_modem_ack _ _ _ _) as [[m2 ev2]|[]]; cbn [rbind]; try done.
  destruct Hclear as [Hc1 Hc2]. split; [done|]. intros k q f n x Hk Hf Hx Hge. rewrite app_nil_r. by eapply Hc2.
Qed.

End Exchange.

(** ** A concrete exchange *)
Module UdpWitness.
#[local] Existing Instances Sample.protobuf Sample.codec Sample.codec_laws Sample.text.

(** a wire format: transmissions are countable *)
#[local] Instance spec_float_eq_dec : EqDecision spec_float.
Proof. solve_decision. Defined.

#[local] Instance spec_float_countable : Countable spec_float :=
  inj_countable'
    (fun d => match d with
              | S754_zero s => (0, s, 1%positive, 0) | S754_infinity s => (1, s, 1%positive, 0)
              | S754_nan => (2, true, 1%positive, 0) | S754_finite s m e => (3, s, m, e) end)
    (fun c => let '(k, s, m, e) := c in
              if k =? 0 then S754_zero s else if k =? 1 then S754_infinity s
              else if k =? 2 then S754_nan else S754_finite s m e)
    (fun d => match d with S754_zero _ | S754_infinity _ | S754_nan | S754_finite _ _ _ => eq_refl end).

#[local] Instance type_countable : Countable TransmissionType :=
  inj_countable' (fun t => match t with UNKNOWN => 0 | DATA => 1 | ACK => 2 | DRIVER_SPECIFIC => 3 end)
    (fun k => if k =? 0 then UNKNOWN else if k =? 1 then DATA else if k =? 2 then ACK else DRIVER_SPECIFIC)
    (fun t => match t with UNKNOWN | DATA | ACK | DRIVER_SPECIFIC => eq_refl end).

Definition tuple (m : ModemTransmission) :=
  (mt_src m, mt_dest m, mt_time m, mt_rate m, mt_type m, mt_max_num_frames m, mt_max_frame_bytes m,
   mt_ack_requested m, mt_frame m, mt_frame_start m, mt_acked_frame m, mt_slot_seconds m,
   mt_always_initiate m, mt_slot_index m).

Definition untuple (t : option Z * option Z * option Z * option Z * option TransmissionType * option Z * option Z *
    option bool * list bytes * option Z * list Z * option double * option bool * option Z) : ModemTransmission :=
  let '(a, b, c, d, e, f, g, h, i, j, k, l, m, n) := t in MkTransmission a b c d e f g h i j k l m n.

#[local] Instance wire : WireFormat := {|
  SerializeToString := fun m => [Zpos (encode (tuple m))];
  ParseFromArray := fun b =>
    match b with
    | [Zpos p] => match decode p with Some t => untuple t | None => empty_transmission end
    | _ => empty_transmission
    end
|}.

#[local] Instance wire_laws : WireFormatLaws.
Proof. constructor. intros m. cbn [ParseFromArray SerializeToString wire]. rewrite decode_encode. by destruct m. Qed.

Lemma only_datagram x r1 r2 d msg : SendTo x ∈ [RawIncoming r1; RawOutgoing r2; SendTo d; SignalReceive msg] -> x = d.
Proof. rewrite !elem_of_cons, elem_of_nil. naive_solver. Qed.

Definition orig : ModemTransmission :=
  set_mt_type (Some DATA) (set_mt_dest (Some QUERY_DESTINATION_ID) empty_transmission).
Definition a : Node := MkNode new_udp_driver ManagerWitness.m2.
Definition request : ModemTransmission := prepare_transmission (fun m => m) orig new_udp_driver.

Definition reply : ModemTransmission * QueueManager :=
  Eval vm_compute in
    match handle_modem_data_request 5 ManagerWitness.env 5000000 request ManagerWitness.m2 with
    | Ok (msg, m, _) => (msg, m) | Err _ => (request, ManagerWitness.m2) end.
Definition sent : ModemTransmission := fst reply.
Definition a' : Node := MkNode (MkUdpDriver 65536 1) (snd reply).

Lemma initiated : exists evs,
  node_initiate 5 ManagerWitness.env 5000000 (fun m => m) orig a = Ok (a', start_send sent, evs).
Proof.
  assert (H : exists evs, handle_modem_data_request 5 ManagerWitness.env 5000000 request ManagerWitness.m2
                          = Ok (sent, snd reply, evs)) by (eexists; vm_compute; reflexivity).
  destruct H as [evs H]. exists ([] ++ evs). unfold node_initiate, udp_handle_initiate_transmission.
  cbn [n_driver n_manager a]. fold request. cbv zeta. cbn [fst snd]. rewrite H. reflexivity.
Qed.

Lemma udp_exchange_releases_witness :
  match node_receive ManagerWitness.env (SerializeToString (make_ack sent)) a' with
  | Ok (a'', _, evs') => frames_below 0 (n_manager a'')
  | Err _ => True
  end.
Proof.
  destruct initiated as [evs Hi].
  destruct (udp_exchange_releases 5 ManagerWitness.env 5000000 (fun m => m) orig a a' (start_send sent) evs
    ManagerWitness.m2_reachable ltac:(vm_compute; discriminate) ltac:(vm_compute; discriminate)
    ltac:(vm_compute; reflexivity) Hi ltac:(discriminate)) as (msg & Hin & Hs & H).
  assert (Em : msg = sent).
  { apply elem_of_cons in Hin as [Hin|Hin]; [discriminate|]. apply list_elem_of_singleton in Hin.
    apply (f_equal (fun ev => match ev with SendTo b => ParseFromArray b | _ => empty_transmission end)) in Hin.
    rewrite !wire_roundtrip in Hin. exact Hin. }
  subst msg.
  destruct (H eq_refl eq_refl ltac:(vm_compute; discriminate) eq_refl ltac:(vm_compute; reflexivity)) as (ack & Ha & Hr).
  assert (Ea : ack = SerializeToString (make_ack sent)).
  { cbn [receive_complete] in Ha. rewrite wire_roundtrip in Ha. unfold receive_message in Ha.
    change (bool_decide (type sent = DATA) && ack_requested sent && negb (dest sent =? BROADCAST_ID)) with true in Ha.
    exact (only_datagram _ _ _ _ _ Ha). }
  subst ack. revert Hr.
  destruct (node_receive _ _ _) as [[[a'' o] evs']|er]; [|done]. intros [Hr _]. exact Hr.
Defined.

End UdpWitness.
