(* ===== verification/Route.v ===== *)
(** * acomms/route/route.{h,cpp}: static routes between subnets

    The [QueueManager*] of the subnet map are positions in the list of managers
    the program owns. [hops] is the configured route, [None] the value [-1] of
    the functions that look for a hop. *)

From S2P Require Import Prelude AssocList Double Proto Queue QueueManager QueueManagerProofs.

Section Route.
Context `{P : Protobuf} `{D : !DCCLCodec} `{T : BoostText}.

(** acomms/protobuf/route.proto: [RouteManagerConfig] *)
Record RouteManagerConfig : Type := MkRouteConfig {
  r_hop : list Z;
  r_subnet_mask : option Z;
  r_default_gateway : option Z
}.

Definition subnet_mask (c : RouteManagerConfig) : Z := default 4294967040 (r_subnet_mask c).

Record RouteManager : Type := MkRoute {
  r_cfg : RouteManagerConfig;
  subnet_map : list (Z * nat)
}.

Definition route_set_cfg (c : RouteManagerConfig) (r : RouteManager) : RouteManager :=
  MkRoute c (subnet_map r).

(** [MergeFrom] appends the hops *)
Definition route_merge_cfg (c : RouteManagerConfig) (r : RouteManager) : RouteManager :=
  let over {A : Type} (x x' : option A) := match x' with Some _ => x' | None => x end in
  MkRoute (MkRouteConfig (r_hop (r_cfg r) ++ r_hop c) (over (r_subnet_mask (r_cfg r)) (r_subnet_mask c))
             (over (r_default_gateway (r_cfg r)) (r_default_gateway c))) (subnet_map r).

(** the loop over the hops; [None] is [-1] *)
Fixpoint hop_index (modem_id : Z) (hops : list Z) : option nat :=
  match hops with
  | [] => None
  | h :: hops => if h =? modem_id then Some 0%nat else S <$> hop_index modem_id hops
  end.

Definition route_index (r : RouteManager) (modem_id : Z) : option nat :=
  hop_index modem_id (r_hop (r_cfg r)).

Definition find_next_route_hop (r : RouteManager) (us dest : Z) : Z :=
  match route_index r us with
  | None => -1
  | Some current_route_index =>
      match route_index r dest with
      | None => -1
      | Some dest_route_index =>
          let direction := if (dest_route_index <? current_route_index)%nat then -1
                           else if (current_route_index <? dest_route_index)%nat then 1 else 0 in
          let next_hop_index := Z.of_nat current_route_index + direction in
          if (next_hop_index <? 0) || (Z.of_nat (length (r_hop (r_cfg r))) <=? next_hop_index) then -1
          else default (-1) (r_hop (r_cfg r) !! Z.to_nat next_hop_index)
      end
  end.

Definition find_next_hop (r : RouteManager) (us dest : Z) : Z :=
  let next_hop := find_next_route_hop r us dest in
  if (next_hop =? -1) then
    match r_default_gateway (r_cfg r) with Some g => s32 g | None => next_hop end
  else next_hop.

Definition handle_out (r : RouteManager) (mt : QueuedMessageMeta) (msg : Msg) (modem_id : Z)
  : QueuedMessageMeta :=
  let next_hop := find_next_hop r modem_id (meta_dest mt) in
  if negb (next_hop =? -1) then set_qm_dest (Some next_hop) mt else mt.

(** the [uint32] bit pattern of an [int] masked *)
Definition subnet_of (r : RouteManager) (modem_id : Z) : Z :=
  Z.land (u32 modem_id) (subnet_mask (r_cfg r)).

Definition add_subnet_queue (r : RouteManager) (manager : option (nat * QueueManager)) : RouteManager :=
  match manager with
  | None => r
  | Some (i, m) => MkRoute (r_cfg r) (al_insert (subnet_of r (modem_id m)) i (subnet_map r))
  end.

(** requeue a received message on the manager of the next hop's subnet *)
Definition handle_in (e : Environment) (now : Z) (r : RouteManager) (mt : QueuedMessageMeta)
    (msg : Msg) (modem_id : Z) (managers : list QueueManager)
  : result ManagerError (list QueueManager * list Event) :=
  if meta_dest mt =? modem_id then Ok (managers, [])
  else
    let next_hop := find_next_hop r modem_id (meta_dest mt) in
    if negb (next_hop =? -1) then
      match al_lookup (subnet_of r next_hop) (subnet_map r) with
      | None => Ok (managers, [])
      | Some i =>
          let? m := deref (managers !! i) in
          let? (m, evs) := manager_push_message e now msg (Some mt) m in
          Ok (<[i := m]> managers, evs)
      end
    else Ok (managers, []).

(** ** Indices *)

Implicit Types r : RouteManager.

Lemma hop_index_lookup h hops i : hop_index h hops = Some i -> hops !! i = Some h.
Proof.
  revert i. induction hops as [|x hops IH]; simpl; intros i; [done|].
  destruct (x =? h) eqn:E; to_prop; [intros [= <-]; by subst|].
  destruct (hop_index h hops) as [j|]; simpl; [|done]. intros [= <-]. by apply IH.
Qed.

Lemma hop_index_nodup hops i h : NoDup hops -> hops !! i = Some h -> hop_index h hops = Some i.
Proof.
  intros Hn. revert i. induction Hn as [|x hops Hx Hn IH]; intros i; [done|].
  destruct i as [|i]; simpl; [intros [= ->]; by rewrite Z.eqb_refl|].
  intros H. destruct (x =? h) eqn:E; to_prop.
  - subst. destruct Hx. by eapply list_elem_of_lookup_2.
  - by rewrite (IH i H).
Qed.

Lemma hop_index_lt h hops i : hop_index h hops = Some i -> (i < length hops)%nat.
Proof. intros H%hop_index_lookup. by eapply lookup_lt_Some. Qed.

Definition no_unset_hop r : Prop := (-1) ∉ r_hop (r_cfg r).

(** One step towards the destination. *)
Lemma next_route_hop_step r us dest i j :
  NoDup (r_hop (r_cfg r)) -> no_unset_hop r ->
  route_index r us = Some i -> route_index r dest = Some j -> i <> j ->
  exists h k, find_next_route_hop r us dest = h /\ h <> -1 /\ route_index r h = Some k /\
    (Z.abs (Z.of_nat j - Z.of_nat k) = Z.abs (Z.of_nat j - Z.of_nat i) - 1).
Proof.
  intros Hn Hu Hi Hj Hne. unfold find_next_route_hop. rewrite Hi, Hj.
  pose proof (hop_index_lt _ _ _ Hi) as Li. pose proof (hop_index_lt _ _ _ Hj) as Lj.
  set (k := if (j <? i)%nat then (i - 1)%nat else (i + 1)%nat).
  assert (Hk : (k < length (r_hop (r_cfg r)))%nat) by (unfold k; destruct (Nat.ltb_spec j i); lia).
  destruct (lookup_lt_is_Some_2 _ _ Hk) as [h Hh]. exists h, k.
  set (nx := Z.of_nat i + _).
  assert (Hnx : nx = Z.of_nat k)
    by (unfold nx, k; destruct (Nat.ltb_spec j i); [|destruct (Nat.ltb_spec i j)]; lia).
  rewrite Hnx, Nat2Z.id, Hh.
  replace (Z.of_nat k <? 0) with false by (symmetry; apply Z.ltb_ge; lia).
  replace (_ <=? Z.of_nat k) with false by (symmetry; apply Z.leb_gt; lia). simpl.
  split; [done|]. split; [intros ->; destruct Hu; by eapply list_elem_of_lookup_2|].
  split; [by apply hop_index_nodup|]. unfold k. destruct (Nat.ltb_spec j i); lia.
Qed.

(** the nodes a message visits when every node forwards to its next hop *)
Fixpoint forward (r : RouteManager) (n : nat) (us dest : Z) : Z :=
  match n with
  | O => us
  | S n => if us =? dest then us else forward r n (find_next_hop r us dest) dest
  end.

Lemma find_next_hop_route r us dest :
  find_next_route_hop r us dest <> -1 -> find_next_hop r us dest = find_next_route_hop r us dest.
Proof. intros H. unfold find_next_hop. apply Z.eqb_neq in H. by rewrite H. Qed.

Lemma forward_reaches r dest j : forall n us i,
  NoDup (r_hop (r_cfg r)) -> no_unset_hop r ->
  route_index r us = Some i -> route_index r dest = Some j ->
  Z.abs (Z.of_nat j - Z.of_nat i) <= Z.of_nat n -> forward r n us dest = dest.
Proof.
  induction n as [|n IH]; intros us i Hn Hu Hi Hj Hd; simpl.
  - assert (i = j) by lia. subst j. apply hop_index_lookup in Hi, Hj. congruence.
  - destruct (us =? dest) eqn:E; to_prop; [done|].
    assert (Hne : i <> j) by (intros ->; apply hop_index_lookup in Hi, Hj; congruence).
    destruct (next_route_hop_step r us dest i j Hn Hu Hi Hj Hne) as (h & k & Hh & H1 & Hk & Hdist).
    rewrite find_next_hop_route by congruence. rewrite Hh. eapply IH; eauto. lia.
Qed.

(** C31: Between two modems of a route without repeated hops, forwarding to the next hop reaches the
    destination in exactly the distance of their positions, each hop one closer. *)
Theorem route_delivers r us dest i j :
  NoDup (r_hop (r_cfg r)) -> no_unset_hop r ->
  route_index r us = Some i -> route_index r dest = Some j ->
  forward r (Z.to_nat (Z.abs (Z.of_nat j - Z.of_nat i))) us dest = dest /\
  (i <> j -> exists k, route_index r (find_next_hop r us dest) = Some k /\
     Z.abs (Z.of_nat j - Z.of_nat k) = Z.abs (Z.of_nat j - Z.of_nat i) - 1).
Proof.
  intros Hn Hu Hi Hj. split; [eapply forward_reaches; eauto; lia|]. intros Hne.
  destruct (next_route_hop_step r us dest i j Hn Hu Hi Hj Hne) as (h & k & Hh & H1 & Hk & Hd).
  exists k. rewrite find_next_hop_route by congruence. by rewrite Hh.
Qed.

(** ** Subnets *)

(** every manager is reachable through the subnet of its identifier *)
Definition subnets_ok r (managers : list QueueManager) : Prop :=
  forall s i, al_lookup s (subnet_map r) = Some i ->
    exists m, managers !! i = Some m /\ subnet_of r (modem_id m) = s.

Lemma add_subnet_queue_ok r managers i m :
  subnets_ok r managers -> managers !! i = Some m ->
  subnets_ok (add_subnet_queue r (Some (i, m))) managers.
Proof.
  intros H Hi s j. simpl. rewrite al_lookup_insert. destruct (s =? _) eqn:E; to_prop.
  - intros [= <-]. exists m. subst s. done.
  - apply H.
Qed.

Lemma push_message_modem_id e now x mt m m' evs :
  manager_push_message e now x mt m = Ok (m', evs) -> modem_id m' = modem_id m.
Proof.
  unfold manager_push_message. destruct (al_lookup _ _) as [q|]; [|done].
  match goal with |- context [rbind ?r _] => destruct r as [[[? ?] ?]|] end; simpl; [|done].
  by intros [= <- _].
Qed.

(** A received message that is not for this modem and has a next hop on a known subnet is
    pushed, with its meta data, on the manager of that subnet and changes no other manager;
    otherwise nothing changes; the only failure is that of the push. *)
Lemma handle_in_requeues e now r mt msg us managers :
  subnets_ok r managers ->
  match handle_in e now r mt msg us managers with
  | Ok (managers', evs) =>
      subnets_ok r managers' /\ length managers' = length managers /\
      let next_hop := find_next_hop r us (meta_dest mt) in
      match al_lookup (subnet_of r next_hop) (subnet_map r) with
      | Some i =>
          if (meta_dest mt =? us) || (next_hop =? -1) then managers' = managers
          else exists m m', managers !! i = Some m /\ managers' = <[i := m']> managers /\
                 subnet_of r (modem_id m) = subnet_of r next_hop /\
                 manager_push_message e now msg (Some mt) m = Ok (m', evs)
      | None => managers' = managers
      end
  | Err er => exists i m, managers !! i = Some m /\ manager_push_message e now msg (Some mt) m = Err er
  end.
Proof.
  intros H. unfold handle_in. cbv zeta. destruct (meta_dest mt =? us); simpl.
  { split; [done|]. split; [done|]. by destruct (al_lookup _ _). }
  destruct (_ =? -1); simpl; [split; [done|]; split; [done|]; by destruct (al_lookup _ _)|].
  destruct (al_lookup _ (subnet_map r)) as [i|] eqn:Ei; [|done].
  destruct (H _ _ Ei) as (m & Hm & Hs). rewrite Hm. simpl.
  destruct (manager_push_message _ _ _ _ m) as [[m' evs]|er] eqn:Ep; simpl; [|eauto].
  split; [|split; [apply length_insert | eauto 7]].
  intros s j Hj. destruct (H s j Hj) as (mj & Hmj & Hsj). destruct (decide (i = j)) as [->|Hne].
  - exists m'. split; [apply list_lookup_insert_eq; by eapply lookup_lt_Some|].
    rewrite (push_message_modem_id _ _ _ _ _ _ _ Ep). congruence.
  - exists mj. by rewrite list_lookup_insert_ne.
Qed.

(** ** Routing and queueing together *)

(** With the route manager connected to the queue, a message pushed for a destination of the
    route is queued, at the end, with the next hop as its link destination. *)
Lemma routed_message_goes_to_next_hop r e now x mt q h :
  p_out_route e = handle_out r -> p_has e (id q) NO_QUEUE = false ->
  cfg_max_queue (q_cfg q) = 0 -> meta_size mt <> 0 ->
  find_next_hop r (p_cfg_modem_id e) (meta_dest mt) = h -> h <> -1 -> h <> p_modem_id e ->
  let '(q', _, ok) := push_message_meta e now x mt q in
  ok = true /\ exists n y, q_messages q' = q_messages q ++ [(n, y)] /\ dccl_msg y = x
    /\ meta_dest (meta y) = h.
Proof.
  intros Hr Hq Hm Hs Hh H1 H2. unfold push_message_meta. cbv zeta. rewrite Hr. unfold handle_out.
  rewrite Hh, Hq. apply Z.eqb_neq in H1. rewrite H1. cbn [negb].
  change (meta_dest (set_qm_dest (Some h) mt)) with h. apply Z.eqb_neq in H2. rewrite H2.
  destruct (qm_time (set_qm_dest (Some h) mt));
    (match goal with |- context [meta_size ?y =? 0] => change (meta_size y) with (meta_size mt) end);
    apply Z.eqb_neq in Hs; rewrite Hs; (split; [done|]); unfold enforce_max_queue; simpl; rewrite Hm; simpl;
    eexists _, _; (split; [reflexivity|]); simpl; (split; [done|]); by destruct (qm_ack_requested mt).
Qed.

End Route.

Module RouteWitness.
#[local] Existing Instances Sample.protobuf Sample.codec Sample.text.

Definition route : RouteManager := MkRoute (MkRouteConfig [1; 5; 18; 20] (Some 240) None) [].

Lemma route_delivers_witness : forward route 3 1 20 = 20.
Proof.
  assert (Hn : NoDup (r_hop (r_cfg route))) by (apply (bool_decide_unpack _); vm_compute; exact I).
  assert (Hu : no_unset_hop route) by (apply (bool_decide_unpack _); vm_compute; exact I).
  exact (proj1 (route_delivers route 1 20 0 3 Hn Hu eq_refl eq_refl)).
Defined.

Definition linked : RouteManager :=
  add_subnet_queue (MkRoute (MkRouteConfig [5; 1] None None) []) (Some (0%nat, ManagerWitness.m1)).

Example handle_in_requeues_witness :
  match handle_in ManagerWitness.env 1000000 linked
          (MkMeta (Some 5) None None (Some 1) None None None) (QueueWitness.msg 1) 5 [ManagerWitness.m1] with
  | Ok (managers', _) => length managers' = 1%nat
  | Err _ => False
  end.
Proof.
  assert (H : subnets_ok linked [ManagerWitness.m1]).
  { apply (add_subnet_queue_ok _ [ManagerWitness.m1] 0 ManagerWitness.m1); [|reflexivity].
    intros s i E. discriminate E. }
  pose proof (handle_in_requeues ManagerWitness.env 1000000 linked
    (MkMeta (Some 5) None None (Some 1) None None None) (QueueWitness.msg 1) 5 [ManagerWitness.m1] H) as K.
  destruct (handle_in _ _ _ _ _ _ _) as [[ms evs]|er] eqn:E; [apply K|].
  vm_compute in E. discriminate E.
Qed.

Example routed_message_goes_to_next_hop_witness :
  let '(q', _, ok) := push_message_meta
      (MkParent (fun _ _ => false) 1 1 (Double.double_of_Z 0) (handle_out route)) 1000000 (QueueWitness.msg 20)
      (MkMeta (Some 5) None None (Some 20) None None None)
      (set_q_cfg (MkEntry (B "sample") true 0 0 true 1800 (Double.double_of_Z 1) [] []) QueueWitness.q0) in
  ok = true.
Proof.
  pose proof (routed_message_goes_to_next_hop route
    (MkParent (fun _ _ => false) 1 1 (Double.double_of_Z 0) (handle_out route)) 1000000 (QueueWitness.msg 20)
    (MkMeta (Some 5) None None (Some 20) None None None)
    (set_q_cfg (MkEntry (B "sample") true 0 0 true 1800 (Double.double_of_Z 1) [] []) QueueWitness.q0)
    5 eq_refl eq_refl eq_refl ltac:(discriminate) eq_refl ltac:(discriminate) ltac:(discriminate)) as H.
  destruct (push_message_meta _ _ _ _ _) as [[q' evs] ok]. apply H.
Qed.

End RouteWitness.
