(* ===== verification/Mac.v ===== *)
(** * acomms/amac/mac_manager.{h,cpp}: time division medium access

    The manager is a list of slots ([std::list<ModemTransmission>]), an iterator
    to the current one, the time of the next slot and a timer. The iterator is
    the position it points to ([length slots] is [end()]), [None] once the node
    has been erased. Times are microseconds; slot lengths and the arithmetic on
    them are [double]s as in the source. *)

From Stdlib Require Import SpecFloat.
From S2P Require Import Prelude Double Time Proto.

(** ** acomms/protobuf/amac_config.proto *)

Inductive MACType : Type := MAC_NONE | MAC_FIXED_DECENTRALIZED | MAC_POLLED.

Inductive MACRefTime : Type := REFERENCE_START_OF_DAY | REFERENCE_FIXED.

Record MACConfig : Type := MkMACConfig {
  mc_modem_id : Z;
  mc_type : MACType;
  mc_slot : list ModemTransmission;
  mc_start_cycle_in_middle : bool;
  mc_ref_time_type : MACRefTime;
  mc_fixed_ref_time : Z
}.

Record MACManager : Type := MkMAC {
  mac_cfg : MACConfig;
  mac_slots : list ModemTransmission;
  next_slot_t : Z;
  current_slot : option nat;
  cycles_since_reference : Z;
  started_up : bool;
  timer : option Z
}.

Definition set_mac_cfg (v : MACConfig) (r : MACManager) : MACManager :=
  MkMAC v (mac_slots r) (next_slot_t r) (current_slot r) (cycles_since_reference r) (started_up r) (timer r).
Definition set_mac_slots (v : list ModemTransmission) (r : MACManager) : MACManager :=
  MkMAC (mac_cfg r) v (next_slot_t r) (current_slot r) (cycles_since_reference r) (started_up r) (timer r).
Definition set_next_slot_t (v : Z) (r : MACManager) : MACManager :=
  MkMAC (mac_cfg r) (mac_slots r) v (current_slot r) (cycles_since_reference r) (started_up r) (timer r).
Definition set_current_slot (v : option nat) (r : MACManager) : MACManager :=
  MkMAC (mac_cfg r) (mac_slots r) (next_slot_t r) v (cycles_since_reference r) (started_up r) (timer r).
Definition set_cycles_since_reference (v : Z) (r : MACManager) : MACManager :=
  MkMAC (mac_cfg r) (mac_slots r) (next_slot_t r) (current_slot r) v (started_up r) (timer r).
Definition set_started_up (v : bool) (r : MACManager) : MACManager :=
  MkMAC (mac_cfg r) (mac_slots r) (next_slot_t r) (current_slot r) (cycles_since_reference r) v (timer r).
Definition set_timer (v : option Z) (r : MACManager) : MACManager :=
  MkMAC (mac_cfg r) (mac_slots r) (next_slot_t r) (current_slot r) (cycles_since_reference r) (started_up r) v.

(** the constructor: an empty list, whose [begin()] is [end()] *)
Definition new_mac : MACManager :=
  MkMAC (MkMACConfig 0 MAC_NONE [] true REFERENCE_START_OF_DAY 0) [] 0 (Some 0%nat) 0 false None.

Inductive MacError : Type := DanglingSlot | MacOutOfFuel.

Inductive MacEvent : Type :=
| InitiateTransmission (s : ModemTransmission)
| SlotStart (s : ModemTransmission).

Definition ALLOWED_SKEW_SECONDS : Z := 2.

(** ** Timer *)

Definition restart_timer (m : MACManager) : MACManager := set_timer (Some (next_slot_t m)) m.
Definition stop_timer (m : MACManager) : MACManager := set_timer None m.

(** ** The cycle *)

Definition cycle_duration (m : MACManager) : double :=
  foldl (fun length slot => dadd length (slot_seconds slot)) (double_of_Z 0) (mac_slots m).

(** [boost::posix_time::microseconds(x * 1e6)] *)
Definition seconds_to_us (x : double) : Z := double_to_Z (dmul x d1e6).

Definition slot_us (s : ModemTransmission) : Z := seconds_to_us (slot_seconds s).

(** the iterator dereferenced and advanced, with the wrap-around at [end()] *)
Definition increment_slot (m : MACManager) : result MacError MACManager :=
  match mc_type (mac_cfg m) with
  | MAC_FIXED_DECENTRALIZED | MAC_POLLED =>
      match current_slot m with
      | None => Err DanglingSlot
      | Some i =>
          match mac_slots m !! i with
          | None => Err DanglingSlot
          | Some s =>
              let m := set_next_slot_t (next_slot_t m + slot_us s) m in
              Ok (set_current_slot (Some (if Nat.eqb (S i) (length (mac_slots m)) then 0%nat else S i)) m)
          end
      end
  | MAC_NONE => Ok m
  end.

(** the reference the cycles are counted from *)
Definition reference_time (now : Z) (m : MACManager) : Z :=
  match mc_ref_time_type (mac_cfg m) with
  | REFERENCE_START_OF_DAY => date_days now * us_per_day
  | REFERENCE_FIXED => default 0 (unix_double2ptime (double_of_Z (mc_fixed_ref_time (mac_cfg m))))
  end.

(** the value and the updated [cycles_since_reference_] *)
Definition next_cycle_time (now : Z) (m : MACManager) : Z * MACManager :=
  let reference := reference_time now m in
  let duration_since_ref := now - reference in
  let total_seconds := Z.quot duration_since_ref 1000000 in
  let microsec_since_reference :=
    total_seconds * 1000000 + (duration_since_ref - total_seconds * 1000000) in
  let cycles :=
    u32 (double_to_Z
      (dadd (ddiv (double_of_Z microsec_since_reference) (dmul (cycle_duration m) (double_of_Z 1000000)))
            (double_of_Z 1))) in
  let secs_to_next := dmul (double_of_Z cycles) (cycle_duration m) in
  (reference + double_to_Z secs_to_next * 1000000
     + double_to_Z (dmul (dsub secs_to_next (dfloor secs_to_next)) (double_of_Z 1000000)),
   set_cycles_since_reference cycles m).

(** [while (next_slot_t_ < now) increment_slot();] *)
Fixpoint skip_slots (fuel : nat) (now : Z) (m : MACManager) : result MacError MACManager :=
  if next_slot_t m <? now then
    match fuel with
    | O => Err MacOutOfFuel
    | S fuel => let? m := increment_slot m in skip_slots fuel now m
    end
  else Ok m.

Definition starts_in_middle (m : MACManager) : bool :=
  mc_start_cycle_in_middle (mac_cfg m) && (1 <? length (mac_slots m))%nat
  && match mc_type (mac_cfg m) with MAC_FIXED_DECENTRALIZED | MAC_POLLED => true | MAC_NONE => false end.

Definition update (fuel : nat) (now : Z) (m : MACManager) : result MacError MACManager :=
  if Nat.eqb (length (mac_slots m)) 0 then Ok (stop_timer m)
  else
    let m := set_current_slot (Some 0%nat) m in
    let '(t, m) := next_cycle_time now m in
    let m := set_next_slot_t t m in
    let? m :=
      if starts_in_middle m then
        let m := set_next_slot_t (next_slot_t m - seconds_to_us (cycle_duration m)) m in
        skip_slots fuel now m
      else Ok m in
    Ok (if started_up m then restart_timer m else m).

(** ** Control *)

Definition mac_restart (fuel : nat) (now : Z) (m : MACManager) : result MacError MACManager :=
  if started_up m then Ok m else update fuel now (set_started_up true m).

(** [slot.set_slot_index(i)] for each configured slot *)
Definition index_slots (slots : list ModemTransmission) : list ModemTransmission :=
  imap (fun i s => set_mt_slot_index (Some (Z.of_nat i)) s) slots.

(** [clear()] erases the nodes, which invalidates the iterators to them *)
Definition invalidate (m : MACManager) : option nat :=
  match current_slot m with
  | Some i => if (i <? length (mac_slots m))%nat then None else Some 0%nat
  | None => None
  end.

Definition mac_startup (fuel : nat) (now : Z) (cfg : MACConfig) (m : MACManager)
  : result MacError MACManager :=
  let m := set_mac_cfg cfg m in
  match mc_type cfg with
  | MAC_POLLED | MAC_FIXED_DECENTRALIZED =>
      let it := match invalidate m with
                | None => None
                | Some _ => Some (length (mc_slot cfg))  (* end() stays end() *)
                end in
      let m := set_current_slot it m in
      let m := set_mac_slots (index_slots (mc_slot cfg)) m in
      mac_restart fuel now m
  | MAC_NONE => Ok m
  end.

Definition mac_shutdown (m : MACManager) : MACManager :=
  set_started_up false (set_current_slot (Some 0%nat) (stop_timer m)).

(** the public list interface followed by [update()], as documented *)
Definition change_slots (fuel : nat) (now : Z) (slots : list ModemTransmission) (m : MACManager)
  : result MacError MACManager :=
  update fuel now (set_current_slot None (set_mac_slots slots m)).

(** ** Slots *)

Definition skewed (now : Z) (m : MACManager) : bool :=
  dlt (double_of_Z ALLOWED_SKEW_SECONDS)
      (dabs (dsub (goby_time_double now) (ptime2unix_double (Some (next_slot_t m))))).

Definition we_are_transmitting (cfg : MACConfig) (s : ModemTransmission) : bool :=
  match mc_type cfg with
  | MAC_FIXED_DECENTRALIZED => (src s =? mc_modem_id cfg) || always_initiate s
  | MAC_POLLED => negb (src s =? BROADCAST_ID)
  | MAC_NONE => true
  end.

(** the handler of the timer; [aborted] is the error code of a cancelled wait *)
Definition begin_slot (fuel : nat) (aborted : bool) (now : Z) (m : MACManager)
  : result MacError (MACManager * list MacEvent) :=
  if aborted then Ok (m, [])
  else if skewed now m then let? m := update fuel now m in Ok (m, [])
  else
    match current_slot m ≫= (fun i => mac_slots m !! i) with
    | None => Err DanglingSlot
    | Some slot =>
        let s := set_mt_time (Some (ptime2unix_microsec (Some (next_slot_t m)))) slot in
        let evs := (if we_are_transmitting (mac_cfg m) s then [InitiateTransmission s] else [])
                   ++ [SlotStart s] in
        let? m := increment_slot m in
        Ok (restart_timer m, evs)
    end.

(** ** The invariant: a running timer has a slot to begin *)

Definition mac_wf (m : MACManager) : Prop :=
  (started_up m = true -> mac_slots m <> [] -> exists i, current_slot m = Some i /\ (i < length (mac_slots m))%nat)
  /\ (timer m <> None -> started_up m = true /\ mac_slots m <> []).

Lemma increment_slot_spec m i s :
  mc_type (mac_cfg m) <> MAC_NONE -> current_slot m = Some i -> mac_slots m !! i = Some s ->
  increment_slot m =
    Ok (set_current_slot (Some (if Nat.eqb (S i) (length (mac_slots m)) then 0%nat else S i))
         (set_next_slot_t (next_slot_t m + slot_us s) m)).
Proof.
  intros Ht Hi Hs. unfold increment_slot. rewrite Hi, Hs. by destruct (mc_type (mac_cfg m)).
Qed.

(** position and time are all an increment changes *)
Definition at_slot (i : nat) (t : Z) (m : MACManager) : MACManager :=
  set_current_slot (Some i) (set_next_slot_t t m).

Lemma increment_at_slot m i t s :
  mc_type (mac_cfg m) <> MAC_NONE -> mac_slots m !! i = Some s ->
  increment_slot (at_slot i t m) =
    Ok (at_slot (if Nat.eqb (S i) (length (mac_slots m)) then 0%nat else S i) (t + slot_us s) m).
Proof. intros Ht Hs. by rewrite (increment_slot_spec (at_slot i t m) i s Ht eq_refl Hs). Qed.

Lemma next_index_lt i n : (i < n)%nat -> ((if Nat.eqb (S i) n then 0 else S i) < n)%nat.
Proof. intros H. destruct (Nat.eqb_spec (S i) n); lia. Qed.

(** The loop only moves along the slots. *)
Lemma skip_slots_shape now m : forall fuel i t m',
  mc_type (mac_cfg m) <> MAC_NONE -> (i < length (mac_slots m))%nat ->
  skip_slots fuel now (at_slot i t m) = Ok m' ->
  exists j t', m' = at_slot j t' m /\ (j < length (mac_slots m))%nat /\ now <= t'.
Proof.
  induction fuel as [|fuel IH]; intros i t m' Ht Hi; simpl.
  - destruct (t <? now) eqn:E; to_prop; [done|]. intros [= <-]. eauto.
  - destruct (t <? now) eqn:E; to_prop; [|intros [= <-]; eauto].
    destruct (lookup_lt_is_Some_2 _ _ Hi) as [s Hs]. rewrite (increment_at_slot m i t s Ht Hs).
    simpl. intros H. eapply IH; [done | by apply next_index_lt | exact H].
Qed.

(** what [update] leaves for a non-empty list *)
Lemma update_shape fuel now m m' :
  update fuel now m = Ok m' -> mac_slots m <> [] ->
  mac_slots m' = mac_slots m /\ mac_cfg m' = mac_cfg m /\ started_up m' = started_up m /\
  (exists i, current_slot m' = Some i /\ (i < length (mac_slots m))%nat) /\
  timer m' = (if started_up m then Some (next_slot_t m') else timer m) /\
  (starts_in_middle m = true -> now <= next_slot_t m').
Proof.
  intros H Hne. unfold update in H. destruct (Nat.eqb_spec (length (mac_slots m)) 0) as [E|E].
  { by destruct (mac_slots m). }
  destruct (next_cycle_time now _) as [t m1] eqn:En.
  assert (H1 : m1 = set_cycles_since_reference (cycles_since_reference m1) (set_current_slot (Some 0%nat) m))
    by (unfold next_cycle_time in En; by injection En as _ <-).
  set (c := cycles_since_reference m1) in H1. clearbody c. subst m1.
  change (starts_in_middle (set_next_slot_t t _)) with (starts_in_middle m) in H.
  destruct (starts_in_middle m) eqn:Em.
  - set (m2 := set_next_slot_t (_ - _) _) in H.
    change m2 with (at_slot 0 (next_slot_t m2) m2) in H.
    destruct (skip_slots fuel now _) as [m3|] eqn:Es; [|done]. simpl in H.
    assert (Ht : mc_type (mac_cfg m2) <> MAC_NONE).
    { simpl. unfold starts_in_middle in Em. to_prop. by destruct (mc_type (mac_cfg m)). }
    destruct (skip_slots_shape now m2 fuel 0 (next_slot_t m2) m3 Ht) as (j & t' & -> & Hj & Hle);
      [simpl; lia | done |].
    simpl in H. destruct (started_up m) eqn:Eu; injection H as <-; simpl; eauto 8.
  - simpl in H. destruct (started_up m) eqn:Eu; injection H as <-; simpl;
      (do 3 (split; [done|])); (split; [exists 0%nat; split; [done | lia]|]); done.
Qed.

Lemma update_empty fuel now m : mac_slots m = [] -> update fuel now m = Ok (stop_timer m).
Proof. intros H. unfold update. by rewrite H. Qed.

Lemma update_wf fuel now m m' :
  update fuel now m = Ok m' -> (timer m <> None -> started_up m = true) -> mac_wf m'.
Proof.
  intros H Ht. destruct (mac_slots m) as [|s l] eqn:Es.
  - rewrite (update_empty _ _ _ Es) in H. injection H as <-. split; simpl; [by rewrite Es | done].
  - assert (Hne : mac_slots m <> []) by (by rewrite Es).
    destruct (update_shape fuel now m m' H Hne) as (H1 & _ & H3 & Hi & H5 & _).
    split; rewrite H1; [done|]. intros Htm. rewrite H3, H5 in *. split; [|done].
    destruct (started_up m); auto.
Qed.

(** ** Runs *)

(** [startup] is only called while the MAC is not running *)
Inductive mac_step : MACManager -> MACManager -> Prop :=
| MacStartup fuel now cfg m m' :
    started_up m = false -> mac_startup fuel now cfg m = Ok m' -> mac_step m m'
| MacRestart fuel now m m' : mac_restart fuel now m = Ok m' -> mac_step m m'
| MacShutdown m : mac_step m (mac_shutdown m)
| MacUpdate fuel now m m' : update fuel now m = Ok m' -> mac_step m m'
| MacChange fuel now slots m m' : change_slots fuel now slots m = Ok m' -> mac_step m m'
| MacBeginSlot fuel now m m' evs :
    timer m <> None -> begin_slot fuel false now m = Ok (m', evs) -> mac_step m m'.

Definition mac_reachable (m : MACManager) : Prop := rtc mac_step new_mac m.

Definition timer_implies_started (m : MACManager) : Prop := timer m <> None -> started_up m = true.

Lemma mac_wf_timer m : mac_wf m -> timer_implies_started m.
Proof. intros [_ H] Ht. by apply H. Qed.

Lemma restart_wf fuel now m m' :
  timer m = None -> started_up m = false -> mac_restart fuel now m = Ok m' -> mac_wf m'.
Proof.
  intros Ht Hs. unfold mac_restart. rewrite Hs. intros H. eapply update_wf; [exact H|]. done.
Qed.

Lemma begin_slot_wf fuel now m m' evs :
  mac_wf m -> timer m <> None -> begin_slot fuel false now m = Ok (m', evs) -> mac_wf m'.
Proof.
  intros W Ht. destruct (proj2 W Ht) as [Hs Hne]. unfold begin_slot.
  destruct (skewed now m).
  { destruct (update fuel now m) as [m1|] eqn:E; simpl; [|done]. intros [= <- _].
    by eapply update_wf. }
  destruct (proj1 W Hs Hne) as (i & Hi & Hlt). rewrite Hi. simpl.
  destruct (lookup_lt_is_Some_2 _ _ Hlt) as [s Hsl]. rewrite Hsl.
  destruct (increment_slot m) as [m1|] eqn:Ei; simpl; [|done]. intros [= <- _].
  assert (H1 : mac_slots m1 = mac_slots m /\ started_up m1 = started_up m /\
               exists j, current_slot m1 = Some j /\ (j < length (mac_slots m))%nat).
  { unfold increment_slot in Ei. rewrite Hi, Hsl in Ei.
    destruct (mc_type (mac_cfg m)); injection Ei as <-; simpl; eauto 6 using next_index_lt. }
  destruct H1 as (H1 & H2 & H3). split; simpl; rewrite H1, ?H2; auto.
Qed.

Lemma mac_step_wf m m' : mac_step m m' -> mac_wf m -> mac_wf m'.
Proof.
  intros S W. destruct S as [fuel now cfg m m' Hs H|fuel now m m' H|m|fuel now m m' H
                            |fuel now slots m m' H|fuel now m m' evs Ht H].
  - assert (Ht : timer m = None).
    { destruct (timer m) eqn:E; [|done]. assert (started_up m = true) by (apply (mac_wf_timer m W); congruence).
      congruence. }
    unfold mac_startup in H. destruct (mc_type cfg); [injection H as <-|..].
    + split; simpl; [by rewrite Hs | by rewrite Ht].
    + by eapply restart_wf; [| |exact H].
    + by eapply restart_wf; [| |exact H].
  - unfold mac_restart in H. destruct (started_up m) eqn:E; [by injection H as <-|].
    eapply update_wf; [exact H|]. done.
  - split; simpl; done.
  - eapply update_wf; [exact H | by apply mac_wf_timer].
  - eapply update_wf; [exact H|]. simpl. by apply mac_wf_timer.
  - by eapply begin_slot_wf.
Qed.

Lemma mac_reachable_wf m : mac_reachable m -> mac_wf m.
Proof.
  assert (W0 : mac_wf new_mac) by (split; simpl; [done | intros H; done]).
  unfold mac_reachable. intros R. induction R; eauto using mac_step_wf.
Qed.

(** C32: In every state the MAC manager can reach through its operations (startup on a stopped
    manager, restart, shutdown, update and the timer handler), a timer that fires finds a slot to
    begin: the current slot iterator points into the list. *)
Theorem begin_slot_never_dangles fuel now m :
  mac_reachable m -> timer m <> None -> begin_slot fuel false now m <> Err DanglingSlot.
Proof.
  intros W%mac_reachable_wf Ht. destruct (proj2 W Ht) as [Hs Hne].
  destruct (proj1 W Hs Hne) as (i & Hi & Hlt). unfold begin_slot. destruct (skewed now m).
  - intros H. assert (Hu : update fuel now m = Err DanglingSlot).
    { destruct (update fuel now m) as [?|er]; simpl in H; [done|]. by injection H as ->. }
    clear H. unfold update in Hu. destruct (Nat.eqb_spec (length (mac_slots m)) 0) as [|E]; [done|].
    destruct (next_cycle_time now _) as [t m1] eqn:En.
    assert (H1 : mac_slots m1 = mac_slots m /\ mac_cfg m1 = mac_cfg m)
      by (unfold next_cycle_time in En; by injection En as _ <-).
    destruct H1 as [H1 H1']. destruct (starts_in_middle _) eqn:Em; [|done].
    assert (Hskip : forall f i t, (i < length (mac_slots m1))%nat -> mc_type (mac_cfg m1) <> MAC_NONE ->
              skip_slots f now (at_slot i t m1) <> Err DanglingSlot).
    { clear. induction f as [|f IH]; intros i t Hi Ht; simpl; destruct (t <? now); try done.
      destruct (lookup_lt_is_Some_2 _ _ Hi) as [s Hs]. rewrite (increment_at_slot m1 i t s Ht Hs). simpl.
      apply IH; [by apply next_index_lt | done]. }
    set (m2 := set_next_slot_t (_ - _) _) in Hu.
    assert (Em2 : m2 = at_slot 0 (next_slot_t m2) m1)
      by (unfold next_cycle_time in En; by injection En as _ <-).
    rewrite Em2 in Hu. destruct (skip_slots _ _ _) as [?|er] eqn:Es; simpl in Hu; [done|].
    injection Hu as ->. eapply Hskip; [| |exact Es]; [rewrite H1; lia|].
    unfold starts_in_middle in Em. simpl in Em. to_prop. by destruct (mc_type (mac_cfg m1)).
  - destruct (lookup_lt_is_Some_2 _ _ Hlt) as [s Hsl]. rewrite Hi. simpl. rewrite Hsl.
    unfold increment_slot. rewrite Hi, Hsl. by destruct (mc_type (mac_cfg m)).
Qed.

(** ** Skipping to the next available slot *)

Section Skip.
Variable m : MACManager.
Hypothesis Htype : mc_type (mac_cfg m) <> MAC_NONE.

(** sum of the lengths of the slots *)
Definition total_us (slots : list ModemTransmission) : Z := foldr (fun s acc => slot_us s + acc) 0 slots.

Lemma total_us_app l l' : total_us (l ++ l') = total_us l + total_us l'.
Proof. unfold total_us. induction l as [|s l IH]; simpl; lia. Qed.

Definition offset (i : nat) : Z := total_us (take i (mac_slots m)).

Lemma offset_S i s : mac_slots m !! i = Some s -> offset (S i) = offset i + slot_us s.
Proof.
  intros H. unfold offset. rewrite (take_S_r _ _ _ H), total_us_app. simpl. lia.
Qed.

Lemma offset_all : offset (length (mac_slots m)) = total_us (mac_slots m).
Proof. unfold offset. by rewrite firstn_all. Qed.

(** [i], [t] is a slot boundary of the cycles that start at [t0] *)
Definition on_grid (t0 : Z) (i : nat) (t : Z) : Prop :=
  (i < length (mac_slots m))%nat /\ exists c, 0 <= c /\ t = t0 + c * total_us (mac_slots m) + offset i.

Lemma on_grid_next t0 i t s :
  on_grid t0 i t -> mac_slots m !! i = Some s ->
  on_grid t0 (if Nat.eqb (S i) (length (mac_slots m)) then 0%nat else S i) (t + slot_us s).
Proof.
  intros (Hi & c & Hc & ->) Hs. split; [by apply next_index_lt|].
  pose proof (offset_S i s Hs) as Ho. destruct (Nat.eqb_spec (S i) (length (mac_slots m))) as [E|E].
  - exists (c + 1). split; [lia|]. rewrite E, offset_all in Ho. unfold offset at 2. simpl. lia.
  - exists c. split; [done|]. lia.
Qed.

(** the position after slot [k] *)
Definition after (k : nat) : nat := if Nat.eqb (S k) (length (mac_slots m)) then 0%nat else S k.

(** The loop stops at the first boundary that is not in the past. *)
Lemma skip_slots_result now t0 : forall fuel i t m',
  on_grid t0 i t -> skip_slots fuel now (at_slot i t m) = Ok m' ->
  exists j t', m' = at_slot j t' m /\ on_grid t0 j t' /\ now <= t' /\
    ((j = i /\ t' = t) \/
     exists k s, mac_slots m !! k = Some s /\ j = after k /\ t' - slot_us s < now).
Proof.
  induction fuel as [|fuel IH]; intros i t m' Hg; cbn [skip_slots];
    change (next_slot_t (at_slot i t m)) with t; destruct (t <? now) eqn:E; to_prop; try done;
    try (intros [= <-]; exists i, t; split_and!; by auto).
  destruct (lookup_lt_is_Some_2 _ _ (proj1 Hg)) as [s Hs].
  rewrite (increment_at_slot m i t s Htype Hs). cbn [rbind]. intros H.
  apply (IH _ _ _ (on_grid_next t0 i t s Hg Hs)) in H as (j & t' & -> & Hg' & Hle & Hc).
  exists j, t'. repeat split; auto; try apply Hg'. right. destruct Hc as [[-> ->]|Hc]; [|done].
  exists i, s. repeat split; auto. lia.
Qed.

(** From index [i] of cycle [c], with [now] before the end of cycle [c + r],
    the slots of those cycles bound the number of turns. *)
Lemma skip_slots_terminates now t0 : forall fuel i c (r : nat),
  (i < length (mac_slots m))%nat ->
  now <= t0 + (c + 1 + Z.of_nat r) * total_us (mac_slots m) ->
  (length (mac_slots m) * S r <= fuel + i)%nat ->
  is_ok (skip_slots fuel now (at_slot i (t0 + c * total_us (mac_slots m) + offset i) m)) = true.
Proof.
  induction fuel as [|fuel IH]; intros i c r Hi Hnow Hf; [nia|].
  cbn [skip_slots]. change (next_slot_t (at_slot i ?t m)) with t. destruct (_ <? now) eqn:E; to_prop; [|done].
  destruct (lookup_lt_is_Some_2 _ _ Hi) as [s Hs]. rewrite (increment_at_slot m i _ s Htype Hs). cbn [rbind].
  pose proof (offset_S i s Hs) as Ho.
  destruct (Nat.eqb_spec (S i) (length (mac_slots m))) as [El|El].
  - rewrite El, offset_all in Ho.
    replace (t0 + c * total_us (mac_slots m) + offset i + slot_us s)
      with (t0 + (c + 1) * total_us (mac_slots m) + offset 0) by (unfold offset at 1; simpl; lia).
    destruct r as [|r].
    + assert (Hstop : skip_slots fuel now (at_slot 0 (t0 + (c + 1) * total_us (mac_slots m) + offset 0) m)
        = Ok (at_slot 0 (t0 + (c + 1) * total_us (mac_slots m) + offset 0) m)); [|by rewrite Hstop].
      destruct fuel; cbn [skip_slots]; change (next_slot_t (at_slot 0 ?t m)) with t;
        (replace (_ <? now) with false; [done|]); symmetry; apply Z.ltb_ge; unfold offset; simpl; lia.
    + apply (IH 0%nat (c + 1) r); [lia | | nia]. replace (c + 1 + 1 + Z.of_nat r) with (c + 1 + Z.of_nat (S r)) by lia.
      done.
  - replace (t0 + c * total_us (mac_slots m) + offset i + slot_us s)
      with (t0 + c * total_us (mac_slots m) + offset (S i)) by lia.
    apply (IH (S i) c r); [lia | done | lia].
Qed.

End Skip.

(** where the cycle [update] synchronises with begins *)
Definition cycle_start (now : Z) (m : MACManager) : Z :=
  fst (next_cycle_time now m) - seconds_to_us (cycle_duration m).

(** C33: Starting in the middle of a cycle, update ends and chooses a slot on the grid of the
    current cycle that does not start before now, and the first such slot: the previous one had
    begun before now. A started manager arms its timer at that time. *)
Theorem update_next_available_slot fuel now m (r : nat) :
  mac_slots m <> [] -> starts_in_middle m = true ->
  now <= cycle_start now m + (1 + Z.of_nat r) * total_us (mac_slots m) ->
  (length (mac_slots m) * S r <= fuel)%nat ->
  exists m' j, update fuel now m = Ok m' /\ current_slot m' = Some j /\
    on_grid m (cycle_start now m) j (next_slot_t m') /\ now <= next_slot_t m' /\
    (next_slot_t m' = cycle_start now m \/
     exists k s, mac_slots m !! k = Some s /\ j = after m k /\ next_slot_t m' - slot_us s < now) /\
    (started_up m = true -> timer m' = Some (next_slot_t m')).
Proof.
  intros Hne Hmid Hnow Hfuel. unfold update.
  destruct (Nat.eqb_spec (length (mac_slots m)) 0) as [E|E]; [by destruct (mac_slots m)|].
  destruct (next_cycle_time now (set_current_slot (Some 0%nat) m)) as [t m1] eqn:En.
  assert (Ht : t = fst (next_cycle_time now m)) by (unfold next_cycle_time in En; by injection En as <- _).
  assert (H1 : m1 = set_cycles_since_reference (cycles_since_reference m1) (set_current_slot (Some 0%nat) m))
    by (unfold next_cycle_time in En; by injection En as _ <-).
  set (c := cycles_since_reference m1) in H1. clearbody c. subst m1. clear En.
  change (starts_in_middle (set_next_slot_t t _)) with (starts_in_middle m). rewrite Hmid.
  set (m2 := set_next_slot_t (_ - _) _).
  assert (Em2 : m2 = at_slot 0 (cycle_start now m) m2) by (unfold m2, cycle_start; by rewrite <- Ht).
  assert (Htype : mc_type (mac_cfg m2) <> MAC_NONE).
  { simpl. unfold starts_in_middle in Hmid. to_prop. by destruct (mc_type (mac_cfg m)). }
  pose proof (skip_slots_terminates m2 Htype now (cycle_start now m) fuel 0 0 r) as Hok.
  replace (cycle_start now m + 0 * total_us (mac_slots m2) + offset m2 0) with (cycle_start now m)
    in Hok by (unfold offset; simpl; lia).
  rewrite <- Em2 in Hok. specialize (Hok ltac:(simpl; lia) Hnow ltac:(simpl; lia)).
  destruct (skip_slots fuel now m2) as [m3|] eqn:Es; [|done]. clear Hok.
  assert (Hg : on_grid m2 (cycle_start now m) 0 (cycle_start now m)).
  { split; [simpl; lia|]. exists 0. split; [done|]. unfold offset. simpl. lia. }
  rewrite Em2 in Es. apply (skip_slots_result m2 Htype now _ fuel _ _ _ Hg) in Es
    as (j & t' & -> & Hg' & Hle & Hc). simpl.
  destruct (started_up m) eqn:Eu; eexists _, j; (split; [reflexivity|]); simpl;
    (split; [done|]); (split; [done|]); (split; [done|]); (split; [|done]);
    destruct Hc as [[_ ->]|Hc]; auto.
Qed.

(** ** The transmission schedule *)

(** the slot that begins at position [i] and time [t] *)
Definition slot_at (m : MACManager) (i : nat) (t : Z) : ModemTransmission :=
  set_mt_time (Some (ptime2unix_microsec (Some t))) (default empty_transmission (mac_slots m !! i)).

(** The reference schedule: the slots in the order of the list, round robin,
    each starting where the previous one ends. *)
Fixpoint schedule (m : MACManager) (n : nat) (i : nat) (t : Z) : list (nat * Z) :=
  match n with
  | O => []
  | S n => (i, t) :: schedule m n (after m i)
                       (t + match mac_slots m !! i with Some s => slot_us s | None => 0 end)
  end.

(** the timer fires at the times [clock], none of them skewed *)
Fixpoint fire (clock : list Z) (m : MACManager) : result MacError (MACManager * list MacEvent) :=
  match clock with
  | [] => Ok (m, [])
  | now :: clock =>
      let? (m, evs) := begin_slot 0 false now m in
      let? (m, evs') := fire clock m in
      Ok (m, evs ++ evs')
  end.

(** when the clock is within the allowed skew of each slot of the schedule *)
Fixpoint punctual (clock : list Z) (sch : list (nat * Z)) (m : MACManager) : Prop :=
  match clock, sch with
  | now :: clock, (_, t) :: sch => skewed now (set_next_slot_t t m) = false /\ punctual clock sch m
  | _, _ => True
  end.

Definition slot_events (m : MACManager) (e : nat * Z) : list MacEvent :=
  let s := slot_at m (fst e) (snd e) in
  (if we_are_transmitting (mac_cfg m) s then [InitiateTransmission s] else []) ++ [SlotStart s].

Lemma begin_slot_at m i t now s :
  mc_type (mac_cfg m) <> MAC_NONE -> mac_slots m !! i = Some s ->
  skewed now (set_next_slot_t t m) = false ->
  begin_slot 0 false now (at_slot i t m) =
    Ok (restart_timer (at_slot (after m i) (t + slot_us s) m), slot_events m (i, t)).
Proof.
  intros Ht Hs Hk. unfold begin_slot. change (skewed now (at_slot i t m)) with (skewed now (set_next_slot_t t m)).
  rewrite Hk. simpl. rewrite Hs. rewrite (increment_at_slot m i t s Ht Hs).
  unfold slot_events, slot_at. simpl. by rewrite Hs.
Qed.

Lemma fire_schedule m : forall clock i t tm,
  mc_type (mac_cfg m) <> MAC_NONE -> (i < length (mac_slots m))%nat ->
  punctual clock (schedule m (length clock) i t) m ->
  exists m', fire clock (set_timer tm (at_slot i t m)) = Ok (m', concat (map (slot_events m) (schedule m (length clock) i t)))
    /\ mac_slots m' = mac_slots m.
Proof.
  induction clock as [|now clock IH]; intros i t tm Ht Hi Hp; [simpl; eauto|].
  cbn [fire length schedule map concat punctual] in *.
  destruct Hp as [Hk Hp]. destruct (lookup_lt_is_Some_2 _ _ Hi) as [s Hs]. rewrite Hs in Hp |- *.
  pose proof (begin_slot_at (set_timer tm m) i t now s Ht Hs Hk) as Hb.
  change (at_slot i t (set_timer tm m)) with (set_timer tm (at_slot i t m)) in Hb. rewrite Hb. cbn [rbind].
  destruct (IH (after m i) (t + slot_us s) (Some (t + slot_us s)) Ht (next_index_lt _ _ Hi) Hp)
    as (m' & Hf & Hsl).
  change (restart_timer (at_slot _ _ (set_timer tm m)))
    with (set_timer (Some (t + slot_us s)) (at_slot (after m i) (t + slot_us s) m)).
  rewrite Hf. cbn [rbind]. eauto.
Qed.

(** When the timer fires on time, the signals of n successive slots are those of the schedule:
    the slots in order from the current one, wrapping at the end of the cycle, each starting when
    the previous one ends. *)
Lemma begin_slots_follow_schedule clock i t m :
  mc_type (mac_cfg m) <> MAC_NONE -> (i < length (mac_slots m))%nat ->
  current_slot m = Some i -> next_slot_t m = t ->
  punctual clock (schedule m (length clock) i t) m ->
  exists m', fire clock m = Ok (m', concat (map (slot_events m) (schedule m (length clock) i t))).
Proof.
  intros Ht Hi Hc <- Hp.
  destruct (fire_schedule m clock i (next_slot_t m) (timer m) Ht Hi Hp) as (m' & Hf & _).
  exists m'. rewrite <- Hf. f_equal. destruct m. simpl in *. by subst.
Qed.

(** ** Collision freedom *)

(** Nodes with the same cycle and different identifiers never both initiate a
    transmission in a slot of a decentralised cycle. *)
Definition initiates (evs : list MacEvent) : Prop := exists s, InitiateTransmission s ∈ evs.

Lemma schedule_lt m n : forall i t e,
  (i < length (mac_slots m))%nat -> e ∈ schedule m n i t -> (fst e < length (mac_slots m))%nat.
Proof.
  induction n as [|n IH]; simpl; intros i t e Hi He; [set_solver|].
  apply elem_of_cons in He as [->|He]; [done|]. eapply IH; [|exact He]. by apply next_index_lt.
Qed.

(** Two nodes with the same decentralized cycle and different modem ids, at the same slot and
    time, follow the same schedule and never both initiate a transmission in the same slot. *)
Lemma decentralized_slots_exclusive n m1 m2 i t e :
  mc_type (mac_cfg m1) = MAC_FIXED_DECENTRALIZED -> mc_type (mac_cfg m2) = MAC_FIXED_DECENTRALIZED ->
  mac_slots m1 = mac_slots m2 -> mc_modem_id (mac_cfg m1) <> mc_modem_id (mac_cfg m2) ->
  Forall (fun s => always_initiate s = false) (mac_slots m1) ->
  (i < length (mac_slots m1))%nat -> e ∈ schedule m1 n i t ->
  schedule m1 n i t = schedule m2 n i t /\
  ~ (initiates (slot_events m1 e) /\ initiates (slot_events m2 e)).
Proof.
  intros T1 T2 Hs Hid Ha Hi He. split.
  - clear -Hs. revert i t. induction n as [|n IH]; intros i t; simpl; [done|].
    unfold after. rewrite Hs. f_equal. apply IH.
  - intros [[s1 H1] [s2 H2]]. pose proof (schedule_lt m1 n i t e Hi He) as Hlt. destruct e as [j tj]. unfold slot_events, slot_at in *. simpl in *.
    rewrite <- Hs in H2. destruct (lookup_lt_is_Some_2 _ _ Hlt) as [s Hsl]. rewrite Hsl in H1, H2.
    simpl in H1, H2. rewrite Forall_forall in Ha.
    assert (Has : always_initiate s = false) by (eapply Ha, list_elem_of_lookup_2, Hsl).
    unfold we_are_transmitting in H1, H2. rewrite T1 in H1. rewrite T2 in H2.
    change (always_initiate (set_mt_time _ s)) with (always_initiate s) in H1, H2.
    change (src (set_mt_time _ s)) with (src s) in H1, H2.
    rewrite Has, orb_false_r in H1, H2.
    destruct (src s =? mc_modem_id (mac_cfg m1)) eqn:E1; to_prop; [|set_solver].
    destruct (src s =? mc_modem_id (mac_cfg m2)) eqn:E2; to_prop; [congruence|set_solver].
Qed.

(** ** Starting a MAC that is already running *)

(** Calling startup on a running MAC leaves the timer and the iterator of the erased list: when
    the timer next fires on time the handler dereferences a dangling iterator. *)
Lemma startup_while_running_dangles fuel fuel' now now' cfg m i :
  started_up m = true -> current_slot m = Some i -> (i < length (mac_slots m))%nat ->
  mc_type cfg <> MAC_NONE -> skewed now' m = false ->
  exists m', mac_startup fuel now cfg m = Ok m' /\ timer m' = timer m /\
    begin_slot fuel' false now' m' = Err DanglingSlot.
Proof.
  intros Hs Hi Hlt Ht Hk. unfold mac_startup. cbv zeta.
  assert (Hinv : invalidate (set_mac_cfg cfg m) = None).
  { unfold invalidate. simpl. rewrite Hi. apply Nat.ltb_lt in Hlt. by rewrite Hlt. }
  rewrite Hinv. unfold mac_restart. simpl. rewrite Hs.
  destruct (mc_type cfg) eqn:Et; [done|..]; eexists; (split; [reflexivity|]); (split; [done|]);
    unfold begin_slot; (match goal with |- context [skewed now' ?x] => change (skewed now' x) with (skewed now' m) end);
    by rewrite Hk.
Qed.

(** ** A concrete cycle *)

Module MacWitness.

Definition slot (id secs : Z) : ModemTransmission :=
  set_mt_src (Some id) (set_mt_slot_seconds (Some (double_of_Z secs)) empty_transmission).

Definition config (id : Z) : MACConfig :=
  MkMACConfig id MAC_FIXED_DECENTRALIZED [slot 1 10; slot 3 5; slot 4 15] true REFERENCE_START_OF_DAY 0.

(** 12 s after midnight of some day: the second slot is over in 3 s *)
Definition t_now : Z := 1530057612000000.

Definition run (r : result MacError MACManager) : MACManager := match r with Ok m => m | Err _ => new_mac end.

Definition m1 : MACManager := Eval vm_compute in run (mac_startup 9 t_now (config 3) new_mac).

Example m1_synchronised : next_slot_t m1 = 1530057615000000 /\ current_slot m1 = Some 2%nat.
Proof. split; reflexivity. Qed.

Lemma m1_reachable : mac_reachable m1.
Proof. eapply rtc_l; [apply (MacStartup 9 t_now (config 3)); [done | vm_compute; reflexivity]|]. apply rtc_refl. Qed.

Lemma begin_slot_never_dangles_witness : begin_slot 9 false 1530057615000000 m1 <> Err DanglingSlot.
Proof. exact (begin_slot_never_dangles 9 1530057615000000 m1 m1_reachable ltac:(discriminate)). Defined.

Definition m0 : MACManager :=
  set_started_up true (set_mac_slots (index_slots (mc_slot (config 3))) (set_mac_cfg (config 3) new_mac)).

Lemma update_next_available_slot_witness :
  exists m' j, update 3 t_now m0 = Ok m' /\ current_slot m' = Some j /\ t_now <= next_slot_t m'.
Proof.
  destruct (update_next_available_slot 3 t_now m0 0 ltac:(discriminate) eq_refl
    ltac:(vm_compute; discriminate) ltac:(vm_compute; lia)) as (m' & j & H1 & H2 & _ & H3 & _).
  exists m', j. split; [exact H1|]. split; [exact H2 | exact H3].
Defined.

Definition clock : list Z := [1530057615000100; 1530057630000200].

Example begin_slots_follow_schedule_witness :
  exists m', fire clock m1 =
    Ok (m', concat (map (slot_events m1) [(2%nat, 1530057615000000); (0%nat, 1530057630000000)])).
Proof.
  exact (begin_slots_follow_schedule clock 2 1530057615000000 m1 ltac:(discriminate) ltac:(vm_compute; lia)
    eq_refl eq_refl ltac:(vm_compute; repeat split)).
Qed.

Definition other : MACManager := Eval vm_compute in run (mac_startup 9 t_now (config 4) new_mac).

Example decentralized_slots_exclusive_witness :
  ~ (initiates (slot_events m1 (2%nat, 1530057615000000)) /\
     initiates (slot_events other (2%nat, 1530057615000000))).
Proof.
  refine (proj2 (decentralized_slots_exclusive 2 m1 other 2 1530057615000000
    (2%nat, 1530057615000000) eq_refl eq_refl eq_refl ltac:(discriminate) _ _ _)).
  - vm_compute. repeat constructor.
  - vm_compute. lia.
  - vm_compute. constructor.
Qed.

Example startup_while_running_dangles_witness :
  exists m', mac_startup 9 t_now (config 4) m1 = Ok m' /\
    begin_slot 9 false 1530057615000000 m' = Err DanglingSlot.
Proof.
  destruct (startup_while_running_dangles 9 9 t_now 1530057615000000 (config 4) m1 2 eq_refl eq_refl
    ltac:(vm_compute; lia) ltac:(discriminate) eq_refl) as (m' & H1 & _ & H2).
  exists m'. split; [exact H1 | exact H2].
Qed.

End MacWitness.
