(* ===== verification/Nmea.v ===== *)
(** * util/linebasedcomms/nmea_sentence.{h,cpp}: NMEA 0183 sentences

    A sentence is the vector of its comma-separated fields, the first one with
    the [$] and the talker. [boost::split] and [boost::trim] are interfaces; the
    hexadecimal number of the checksum is read as the standard stream does. *)

From S2P Require Import Prelude HexCodec Double Proto.

Class BoostTrim : Type := { boost_trim : bytes -> bytes }.

Definition is_space (c : Z) : bool := (c =? 32) || ((9 <=? c) && (c <=? 13)).

(** Documented behaviour: white space at both ends is removed, nothing else. *)
Class BoostTrimLaws `{BoostTrim} : Prop := {
  boost_trim_spec : forall pre s post, forallb is_space pre = true -> forallb is_space post = true ->
    s <> [] -> (forall c, head s = Some c -> is_space c = false) ->
    (forall c, last s = Some c -> is_space c = false) -> boost_trim (pre ++ s ++ post) = s
}.

Inductive bad_nmea_sentence : Type :=
| NoMessage | NoDollar | NoChecksum | BadChecksum | BadTalkerLength
| ChecksumNoMessage | ChecksumNoDollar
| EmptySentence.   (* [resize] of an empty message: [std::length_error] *)

Inductive strategy : Type := IGNORE | VALIDATE | REQUIRE.

#[export] Instance strategy_eq_dec : EqDecision strategy.
Proof. solve_decision. Defined.

(** ** Hexadecimal numbers *)

Definition is_hex_digit (c : Z) : bool :=
  ((48 <=? c) && (c <=? 57)) || ((65 <=? c) && (c <=? 70)) || ((97 <=? c) && (c <=? 102)).

(** digits up to the first character that is not one: (value, any digit read) *)
Fixpoint read_hex (acc : Z) (some : bool) (s : bytes) : Z * bool :=
  match s with
  | c :: s => if is_hex_digit c then read_hex (16 * acc + char_nibble c) true s else (acc, some)
  | [] => (acc, some)
  end.

Fixpoint skip_space (s : bytes) : bytes :=
  match s with
  | c :: s' => if is_space c then skip_space s' else s
  | [] => []
  end.

(** util/binary.h: [hex_string2number] into an [unsigned int]: leading white
    space, a sign and a [0x] prefix are accepted, what follows the digits is
    ignored, and a value that does not fit fails *)
Definition hex_string2number (s : bytes) : option Z :=
  let s := skip_space s in
  let '(neg, s) := match s with 45 :: s => (true, s) | 43 :: s => (false, s) | _ => (false, s) end in
  let s := match s with 48 :: 120 :: s => s | 48 :: 88 :: s => s | _ => s end in
  let '(v, some) := read_hex 0 false s in
  if negb some || (4294967295 <? v) then None
  else Some (if neg then u32 (- v) else v).

(** ** Checksum *)

Fixpoint find_first_of (cs : list Z) (s : bytes) : option nat :=
  match s with
  | [] => None
  | c :: s => if bool_decide (c ∈ cs) then Some 0%nat else S <$> find_first_of cs s
  end.

Definition checksum (s : bytes) : result bad_nmea_sentence Z :=
  match s with
  | [] => Err ChecksumNoMessage
  | _ =>
      match find_first_of [36; 33] s with
      | None => Err ChecksumNoDollar
      | Some dollar =>
          let star := default (length s) (find_first_of [42] s) in
          Ok (foldl (fun csum c => u8 (Z.lxor csum c)) 0 (drop (dollar + 1) (take star s)))
      end
  end.

Section Nmea.
Context {TX : BoostText} {TR : BoostTrim}.

(** [enforce_talker_length] is the static flag of the class *)
Definition parse_nmea (enforce_talker_length : bool) (s : bytes) (cs_strat : strategy)
  : result bad_nmea_sentence (list bytes) :=
  let s := boost_trim s in
  match s with
  | [] => Err NoMessage
  | c0 :: _ =>
      if negb (c0 =? 36) && negb (c0 =? 33) then Err NoDollar
      else
        let '(cs, s) :=
          if (3 <? length s)%nat && bool_decide (s !! (length s - 3)%nat = Some 42)
          then (hex_string2number (drop (length s - 2) s), take (length s - 3) s)
          else (None, s) in
        let found_csum := match cs with Some _ => true | None => false end in
        if bool_decide (cs_strat = REQUIRE) && negb found_csum then Err NoChecksum
        else
          let? _ :=
            match cs with
            | Some cs =>
                if bool_decide (cs_strat = REQUIRE) || bool_decide (cs_strat = VALIDATE)
                then let? calc_cs := checksum s in
                     if negb (calc_cs =? cs) then Err BadChecksum else Ok tt
                else Ok tt
            | None => Ok tt
            end in
          let parts := boost_split (Z.eqb 44) s in
          match parts with
          | front :: _ =>
              if enforce_talker_length && negb (Nat.eqb (length front) 6) then Err BadTalkerLength
              else Ok parts
          | [] => Ok parts
          end
  end.

(** ** Printing *)

Definition message_no_cs (fields : list bytes) : result bad_nmea_sentence bytes :=
  let message := concat (map (fun f => f ++ [44]) fields) in
  match message with
  | [] => Err EmptySentence
  | _ => Ok (take (length message - 1) message)
  end.

Definition message (fields : list bytes) : result bad_nmea_sentence bytes :=
  let? bare := message_no_cs fields in
  let? csum := checksum bare in
  Ok (bare ++ [42] ++ hex_encode_up true [csum]).

Definition message_cr_nl (fields : list bytes) : result bad_nmea_sentence bytes :=
  let? m := message fields in Ok (m ++ [13; 10]).

(** [substr] past the end throws: [None] *)
Definition talker_id (fields : list bytes) : option bytes :=
  match fields with
  | [] => Some []
  | f :: _ => if (length f <? 1)%nat then None else Some (take 2 (drop 1 f))
  end.

Definition sentence_id (fields : list bytes) : option bytes :=
  match fields with
  | [] => Some []
  | f :: _ => if (length f <? 3)%nat then None else Some (drop 3 f)
  end.

(** a field with commas is several fields *)
Definition nmea_push_back (str : bytes) (fields : list bytes) : list bytes :=
  if bool_decide (44 ∈ str) then fields ++ boost_split (Z.eqb 44) str else fields ++ [str].

(** ** Fields and their text *)

Lemma message_no_cs_join fields :
  fields <> [] -> message_no_cs fields = Ok (join 44 fields).
Proof.
  intros Hne. assert (E : concat (map (fun f => f ++ [44]) fields) = join 44 fields ++ [44]).
  { induction fields as [|f [|g fields] IH]; [done | simpl; by rewrite app_nil_r |].
    cbn [map concat]. cbn [map concat] in IH. rewrite IH by done. simpl. by rewrite <- !app_assoc. }
  unfold message_no_cs. rewrite E. rewrite length_app, Nat.add_sub, take_app_length.
  by destruct (join 44 fields).
Qed.

Lemma app_delim_inj (d : Z) : forall p q s t,
  d ∉ p -> d ∉ q -> p ++ d :: s = q ++ d :: t -> p = q /\ s = t.
Proof.
  induction p as [|x p IH]; intros [|y q] s t Hp Hq; simpl.
  - by intros [= ->].
  - intros [= -> _]. set_solver.
  - intros [= -> _]. set_solver.
  - intros [= -> E]. apply IH in E as [-> ->]; [done | set_solver | set_solver].
Qed.

Lemma join_inj (d : Z) : forall l l',
  l <> [] -> l' <> [] -> Forall (fun p => d ∉ p) l -> Forall (fun p => d ∉ p) l' ->
  join d l = join d l' -> l = l'.
Proof.
  assert (Hd : forall p q rest, d ∉ p -> p <> q ++ d :: rest) by (intros p q rest H ->; set_solver).
  induction l as [|p [|p2 l] IH]; intros [|q [|q2 l']] Hl Hl' F F'; try done;
    apply Forall_cons in F as [Fp F]; apply Forall_cons in F' as [Fq F'].
  - simpl. congruence.
  - simpl. intros E. by apply Hd in E.
  - simpl. intros E. symmetry in E. by apply Hd in E.
  - cbn [join]. intros E. apply app_delim_inj in E as [-> E]; [|done..].
    f_equal. by apply IH.
Qed.

Context {TXL : BoostTextLaws} {TRL : BoostTrimLaws}.

Lemma split_join d fields :
  fields <> [] -> Forall (fun p => d ∉ p) fields -> boost_split (Z.eqb d) (join d fields) = fields.
Proof.
  intros Hne F. apply (join_inj d); [apply boost_split_nonempty | done | apply boost_split_free | done |].
  apply boost_split_join.
Qed.

(** ** Two hexadecimal digits *)

Lemma hex_two_digits c : is_byte c -> hex_string2number (hex_encode_up true [c]) = Some c.
Proof.
  intros H. pose (P z := match hex_string2number (hex_encode_up true [z]) with
                         | Some r => r =? z | None => false end).
  assert (E : P c = true) by (apply (Z_range_forall 256 P); [vm_compute; reflexivity | exact H]).
  unfold P in E. destruct (hex_string2number _) as [r|]; [|done]. f_equal. by apply Z.eqb_eq.
Qed.

Lemma hex_digit_not_space c : is_byte c -> forall x, last (hex_encode_up true [c]) = Some x -> is_space x = false.
Proof.
  intros H x Hx. pose (P z := forallb (fun x => negb (is_space x)) (hex_encode_up true [z])).
  assert (E : P c = true) by (apply (Z_range_forall 256 P); [vm_compute; reflexivity | exact H]).
  unfold P in E. rewrite forallb_forall in E. apply negb_true_iff, E, list_elem_of_In.
  by apply last_Some_elem_of.
Qed.

Lemma checksum_byte s c : checksum s = Ok c -> is_byte c.
Proof.
  unfold checksum. destruct s; [done|]. destruct (find_first_of _ _); [|done]. intros [= <-].
  set (l := drop _ _). assert (H : forall acc, is_byte acc -> is_byte (foldl (fun csum c => u8 (Z.lxor csum c)) acc l)).
  { induction l as [|x l IH]; simpl; auto with goby. }
  apply H. unfold is_byte. lia.
Qed.

(** a sentence the class can print and read back *)
Definition well_formed (enforce : bool) (fields : list bytes) : Prop :=
  Forall (fun f => 44 ∉ f) fields /\
  exists c rest more, fields = (c :: rest) :: more /\ (c = 36 \/ c = 33) /\
    (enforce = true -> length (c :: rest) = 6%nat).

Lemma well_formed_message enforce fields :
  well_formed enforce fields ->
  exists c body csum, join 44 fields = c :: body /\ (c = 36 \/ c = 33) /\
    checksum (join 44 fields) = Ok csum /\ is_byte csum /\
    message fields = Ok (join 44 fields ++ [42] ++ hex_encode_up true [csum]).
Proof.
  intros (F & c & rest & more & -> & Hc & _).
  assert (Hj : exists body, join 44 ((c :: rest) :: more) = c :: body)
    by (destruct more; simpl; eauto).
  destruct Hj as [body Hj]. exists c, body.
  assert (Hcs : exists csum, checksum (c :: body) = Ok csum).
  { unfold checksum, find_first_of. rewrite bool_decide_true; [eauto|]. destruct Hc as [-> | ->]; set_solver. }
  destruct Hcs as [csum Hcs]. exists csum. rewrite Hj. split; [done|]. split; [done|]. split; [done|].
  split; [by eapply checksum_byte|]. unfold message. rewrite message_no_cs_join by done. rewrite Hj. cbn [rbind]. by rewrite Hcs.
Qed.

(** a sentence that begins with [$] can be printed *)
Lemma message_total rest more : exists raw, message ((36 :: rest) :: more) = Ok raw.
Proof.
  unfold message. rewrite message_no_cs_join by done. cbn [rbind].
  assert (exists body, join 44 ((36 :: rest) :: more) = 36 :: body) as [body ->] by (destruct more; cbn; by eexists).
  unfold checksum. cbn. by eexists.
Qed.

(** the white space around a printed sentence is trimmed off *)
Lemma message_trimmed enforce fields text post :
  well_formed enforce fields -> message fields = Ok text -> forallb is_space post = true -> boost_trim (text ++ post) = text.
Proof.
  intros Hwf Ht Hp. destruct (well_formed_message enforce fields Hwf) as (c & body & csum & Hj & Hc & Hcs & Hb & Hm).
  rewrite Hm in Ht. injection Ht as Ht. subst text.
  apply (boost_trim_spec [] (join 44 fields ++ [42] ++ hex_encode_up true [csum]) post); [done | done | by rewrite Hj | |].
  - rewrite Hj. simpl. intros x [= <-]. destruct Hc as [-> | ->]; reflexivity.
  - intros x Hx. apply (hex_digit_not_space csum Hb). rewrite app_assoc, last_app in Hx. exact Hx.
Qed.

Lemma parse_trimmed enforce strat fields text s :
  well_formed enforce fields -> message fields = Ok text -> boost_trim s = text -> parse_nmea enforce s strat = Ok fields.
Proof.
  intros Hwf Ht Htrim. pose proof Hwf as (F & c0 & rest & more & Ef & Hc0 & Hlen).
  destruct (well_formed_message enforce fields Hwf) as (c & body & csum & Hj & Hc & Hcs & Hb & Hm).
  rewrite Hm in Ht. injection Ht as Ht. unfold parse_nmea. rewrite Htrim.
  assert (Hlt : length text = (length (join 44 fields) + 3)%nat) by (rewrite <- Ht, length_app; reflexivity).
  assert (Htext : exists tl, text = c :: tl) by (rewrite <- Ht, Hj; simpl; eauto).
  destruct Htext as [tl Htext]. rewrite Htext at 1.
  assert (Hc' : negb (c =? 36) && negb (c =? 33) = false) by (destruct Hc as [-> | ->]; reflexivity).
  rewrite Hc'.
  replace (3 <? length text)%nat with true by (symmetry; apply Nat.ltb_lt; rewrite Hlt, Hj; simpl; lia).
  rewrite Hlt, Nat.add_sub.
  rewrite (bool_decide_true (text !! _ = _))
    by (rewrite <- Ht, lookup_app_r by lia; rewrite Nat.sub_diag; reflexivity).
  replace (length (join 44 fields) + 3 - 2)%nat with (length (join 44 fields) + 1)%nat by lia.
  replace (drop (length (join 44 fields) + 1) text) with (hex_encode_up true [csum])
    by (rewrite <- Ht, drop_app_add; reflexivity).
  replace (take (length (join 44 fields)) text) with (join 44 fields) by (by rewrite <- Ht, take_app_length).
  rewrite hex_two_digits by done. cbn [andb]. rewrite andb_false_r. rewrite Hcs. cbn [rbind].
  rewrite Z.eqb_refl. cbn [negb].
  replace (if bool_decide (strat = REQUIRE) || bool_decide (strat = VALIDATE) then Ok tt else Ok tt)
    with (@Ok bad_nmea_sentence unit tt) by (by destruct (_ || _)). cbn [rbind].
  rewrite split_join by (done || by rewrite Ef). rewrite Ef. destruct enforce; [|done].
  rewrite (Hlen eq_refl). reflexivity.
Qed.

(** A sentence of well-formed fields printed with its checksum and line end is parsed, under
    every checksum strategy, to the same fields. *)
Lemma nmea_message_roundtrip enforce strat fields :
  well_formed enforce fields ->
  exists text, message_cr_nl fields = Ok text /\ parse_nmea enforce text strat = Ok fields.
Proof.
  intros Hwf. destruct (well_formed_message enforce fields Hwf) as (c & body & csum & _ & _ & _ & _ & Hm).
  unfold message_cr_nl. rewrite Hm. cbn [rbind]. eexists. split; [reflexivity|].
  eapply parse_trimmed; [done | exact Hm | by eapply message_trimmed].
Qed.

(** ** Corruption *)

Lemma lxor_byte a b : is_byte a -> is_byte b -> is_byte (Z.lxor a b).
Proof.
  intros Ha Hb. unfold is_byte in *.
  assert (H0 : 0 <= Z.lxor a b) by (apply Z.lxor_nonneg; lia). split; [done|].
  destruct (Z.eq_dec (Z.lxor a b) 0) as [->|Hne]; [lia|].
  change 256 with (2 ^ 8). apply Z.log2_lt_pow2; [lia|].
  pose proof (Z.log2_lxor a b ltac:(lia) ltac:(lia)) as Hl.
  assert (Hlog : forall x, 0 <= x < 256 -> Z.log2 x < 8).
  { intros x Hx. destruct (Z.eq_dec x 0) as [->|]; [reflexivity|]. apply Z.log2_lt_pow2; simpl; lia. }
  pose proof (Hlog a Ha). pose proof (Hlog b Hb). lia.
Qed.

Lemma xor_loop l : forall acc, is_byte acc -> wf_bytes l ->
  foldl (fun csum c => u8 (Z.lxor csum c)) acc l = Z.lxor acc (foldr Z.lxor 0 l).
Proof.
  induction l as [|c l IH]; simpl; intros acc Ha Hl; [by rewrite Z.lxor_0_r|].
  apply Forall_cons in Hl as [Hc Hl]. pose proof (lxor_byte acc c Ha Hc) as Hx.
  unfold u8. rewrite wrap_small by exact Hx. rewrite IH by done. apply Z.lxor_assoc.
Qed.

Lemma xor_change pre x y post :
  x <> y -> foldr Z.lxor 0 (pre ++ x :: post) <> foldr Z.lxor 0 (pre ++ y :: post).
Proof.
  intros Hne. induction pre as [|c pre IH]; simpl; intros E.
  - apply Hne. apply (f_equal (fun z => Z.lxor z (foldr Z.lxor 0 post))) in E.
    by rewrite !Z.lxor_assoc, Z.lxor_nilpotent, !Z.lxor_0_r in E.
  - apply IH. apply (f_equal (Z.lxor c)) in E.
    by rewrite <- !Z.lxor_assoc, Z.lxor_nilpotent, !Z.lxor_0_l in E.
Qed.

Definition before_star (t : bytes) : bytes := take (default (length t) (find_first_of [42] t)) t.

Lemma before_star_app pre x post :
  42 ∉ pre -> x <> 42 -> before_star (pre ++ x :: post) = pre ++ x :: before_star post.
Proof.
  unfold before_star. intros Hp Hx.
  assert (E : forall c t, c <> 42 ->
            take (default (length (c :: t)) (find_first_of [42] (c :: t))) (c :: t)
            = c :: take (default (length t) (find_first_of [42] t)) t).
  { intros c t Hc. simpl. rewrite bool_decide_false by set_solver. by destruct (find_first_of [42] t). }
  induction pre as [|c pre IH]; cbn [app]; rewrite E by set_solver; [done|]. rewrite IH; [done | set_solver].
Qed.

Lemma checksum_body c t : c = 36 \/ c = 33 ->
  checksum (c :: t) = Ok (foldl (fun csum c => u8 (Z.lxor csum c)) 0 (before_star t)).
Proof.
  intros Hc. unfold checksum, before_star.
  assert (E1 : find_first_of [36; 33] (c :: t) = Some 0%nat)
    by (simpl; rewrite bool_decide_true; [done | destruct Hc as [-> | ->]; set_solver]).
  rewrite E1. do 2 f_equal.
  assert (E2 : find_first_of [42] (c :: t) = S <$> find_first_of [42] t)
    by (simpl; rewrite bool_decide_false; [done | destruct Hc as [-> | ->]; set_solver]).
  rewrite E2. by destruct (find_first_of [42] t).
Qed.

Lemma checksum_change c pre x y post :
  (c = 36 \/ c = 33) -> wf_bytes (pre ++ x :: post) -> is_byte y -> x <> y -> 42 ∉ pre -> x <> 42 -> y <> 42 ->
  exists a b, checksum (c :: pre ++ x :: post) = Ok a /\ checksum (c :: pre ++ y :: post) = Ok b /\ a <> b.
Proof.
  intros Hc Hwf Hy Hne Hp Hx Hy'. rewrite !checksum_body, !before_star_app by done.
  apply wf_bytes_app in Hwf as [W1 W2]. apply Forall_cons in W2 as [W2 W3].
  assert (W : forall z, is_byte z -> wf_bytes (pre ++ z :: before_star post)).
  { intros z Hz. apply wf_bytes_app. split; [done|]. constructor; [done|]. by apply wf_bytes_take. }
  eexists _, _. split; [reflexivity|]. split; [reflexivity|].
  rewrite !xor_loop by (auto; unfold is_byte; lia). rewrite !Z.lxor_0_l. by apply xor_change.
Qed.

(** A sentence with one character changed and the checksum of the original is rejected as a bad
    checksum unless the checksum is ignored. *)
Lemma nmea_detects_corrupted_character enforce strat c pre x y post csum :
  (c = 36 \/ c = 33) -> wf_bytes (pre ++ x :: post) -> is_byte y ->
  x <> y -> 42 ∉ pre -> x <> 42 -> y <> 42 -> strat <> IGNORE ->
  checksum (c :: pre ++ x :: post) = Ok csum ->
  parse_nmea enforce ((c :: pre ++ y :: post) ++ [42] ++ hex_encode_up true [csum]) strat = Err BadChecksum.
Proof.
  intros Hc Hwf Hy Hne Hp Hx Hy' Hst Hcs.
  destruct (checksum_change c pre x y post Hc Hwf Hy Hne Hp Hx Hy') as (a & b & Ha & Hb & Hab).
  replace a with csum in Hab by congruence. pose proof (checksum_byte _ _ Hcs) as Hbyte.
  set (s := c :: pre ++ y :: post) in *. set (text := s ++ [42] ++ hex_encode_up true [csum]).
  unfold parse_nmea.
  assert (Htrim : boost_trim text = text).
  { pose proof (boost_trim_spec [] text [] eq_refl eq_refl) as H. simpl in H. rewrite app_nil_r in H.
    apply H; [done | |].
    - intros z [= <-]. destruct Hc as [-> | ->]; reflexivity.
    - intros z Hz. apply (hex_digit_not_space csum Hbyte). unfold text in Hz.
      rewrite app_assoc, last_app in Hz. exact Hz. }
  rewrite Htrim.
  assert (Hlt : length text = (length s + 3)%nat) by (unfold text; rewrite length_app; reflexivity).
  assert (Htext : exists tl, text = c :: tl) by (unfold text, s; simpl; eauto).
  destruct Htext as [tl Htext]. rewrite Htext at 1.
  replace (negb (c =? 36) && negb (c =? 33)) with false by (destruct Hc as [-> | ->]; reflexivity).
  replace (3 <? length text)%nat with true by (symmetry; apply Nat.ltb_lt; rewrite Hlt; unfold s; simpl; lia).
  rewrite Hlt, Nat.add_sub.
  rewrite (bool_decide_true (text !! _ = _))
    by (unfold text; rewrite lookup_app_r by lia; rewrite Nat.sub_diag; reflexivity).
  replace (length s + 3 - 2)%nat with (length s + 1)%nat by lia.
  replace (drop (length s + 1) text) with (hex_encode_up true [csum]) by (unfold text; rewrite drop_app_add; reflexivity).
  replace (take (length s) text) with s by (unfold text; by rewrite take_app_length).
  rewrite hex_two_digits by done. cbn [andb negb]. rewrite andb_false_r.
  replace (bool_decide (strat = REQUIRE) || bool_decide (strat = VALIDATE)) with true by (by destruct strat).
  rewrite Hb. cbn [rbind]. replace (b =? csum) with false; [done|]. symmetry. apply Z.eqb_neq. congruence.
Qed.

End Nmea.

(** ** Evaluation *)
Module NmeaWitness.
#[local] Existing Instances Sample.text Sample.text_laws.

Fixpoint rstrip (s : bytes) : bytes :=
  match s with
  | [] => []
  | c :: s => match rstrip s with [] => if is_space c then [] else [c] | t => c :: t end
  end.

Definition trim : BoostTrim := {| boost_trim := fun s => rstrip (skip_space s) |}.
#[local] Existing Instance trim.

Lemma skip_space_app pre s :
  forallb is_space pre = true -> (forall c, head s = Some c -> is_space c = false) -> s <> [] ->
  skip_space (pre ++ s) = s.
Proof.
  induction pre as [|c pre IH]; simpl; intros H Hs Hne.
  - destruct s as [|x s]; [done|]. simpl. by rewrite (Hs x eq_refl).
  - to_prop. rewrite H. by apply IH.
Qed.

Lemma rstrip_app s post :
  forallb is_space post = true -> (forall c, last s = Some c -> is_space c = false) -> s <> [] ->
  rstrip (s ++ post) = s.
Proof.
  intros H. assert (Hp : rstrip post = []).
  { induction post as [|c post IH]; simpl in *; [done|]. to_prop. rewrite IH by done. by rewrite H. }
  induction s as [|x s IH]; intros Hl Hne; [done|]. destruct s as [|y s].
  - simpl. rewrite Hp. by rewrite (Hl x eq_refl).
  - change (rstrip ((x :: y :: s) ++ post))
      with (match rstrip ((y :: s) ++ post) with [] => if is_space x then [] else [x] | t => x :: t end).
    rewrite IH; [done | | done]. intros c Hc. apply Hl. by rewrite last_cons_cons.
Qed.

Lemma trim_laws : BoostTrimLaws.
Proof.
  constructor. intros pre s post H1 H2 Hne Hh Hl. simpl.
  rewrite skip_space_app; [by apply rstrip_app | done | |].
  - destruct s; [done|]. simpl. exact Hh.
  - by destruct s.
Qed.
#[local] Existing Instance trim_laws.

Definition fields : list bytes := [B "$CCCFG"; B "SRC"; B "1"].

Example nmea_message_roundtrip_witness :
  exists text, message_cr_nl fields = Ok text /\ parse_nmea true text REQUIRE = Ok fields.
Proof.
  apply (nmea_message_roundtrip true REQUIRE fields). split.
  - repeat constructor; apply (bool_decide_unpack _); vm_compute; exact I.
  - eexists 36, (B "CCCFG"), _. split; [reflexivity|]. split; [left; reflexivity | reflexivity].
Qed.

Example nmea_detects_corrupted_character_witness :
  parse_nmea true (B "$CCCFG,SRC,2*31") REQUIRE = Err BadChecksum.
Proof.
  exact (nmea_detects_corrupted_character true REQUIRE 36 (B "CCCFG,SRC,") 49 50 [] 49
    (or_introl eq_refl) ltac:(repeat constructor; vm_compute; done) ltac:(vm_compute; done) ltac:(discriminate)
    ltac:(apply (bool_decide_unpack _); vm_compute; exact I) ltac:(discriminate) ltac:(discriminate)
    ltac:(discriminate) ltac:(vm_compute; reflexivity)).
Qed.

End NmeaWitness.
