(* ===== verification/MoosString.v ===== *)
(** * moos/moos_string.h and moos/modem_id_convert.{h,cpp}: values in texts of
      [key=value] pairs, and the table of modem names

    [boost::split] and [boost::lexical_cast] are interfaces; a lookup file is
    the list of its lines. *)

From Stdlib Require Import SpecFloat.
From S2P Require Import Prelude AssocList Double Time As Proto Nmea.

(** ** val_from_string *)

(** [boost::is_iequal] *)
Fixpoint iprefix (p s : bytes) : bool :=
  match p, s with
  | [], _ => true
  | x :: p, y :: s => (to_upper x =? to_upper y) && iprefix p s
  | _, [] => false
  end.

(** the loop over [boost::ifind_nth]: [str.substr(start_pos)] for the first of the
    successive matches of [pat] that is at the beginning or after a comma.
    [begins]: the position is such; [skip]: characters of the last match to pass *)
Fixpoint chop (pat : bytes) (begins : bool) (skip : nat) (str : bytes) : option bytes :=
  match str with
  | [] => None
  | c :: rest =>
      match skip with
      | S skip => chop pat (c =? 44) skip rest
      | O =>
          if iprefix pat str
          then if begins then Some str else chop pat (c =? 44) (length pat - 1) rest
          else chop pat (c =? 44) 0 rest
      end
  end.

(** [substr(from, end - from)] with [end] a position or [npos] *)
Definition substr_to (from : nat) (stop : option nat) (s : bytes) : bytes :=
  match stop with Some e => take (e - from) (drop from s) | None => drop from s end.

(** [None]: false is returned *)
Definition val_from_string (str key : bytes) : option bytes :=
  match chop (key ++ [61]) true 0 str with
  | None => None
  | Some chopped =>
      match find_char 61 chopped with
      | None => None
      | Some equal_pos =>
          let is_array := bool_decide (chopped !! (equal_pos + 1)%nat = Some 123) in
          let chopped_twice := drop equal_pos chopped in
          Some (if is_array then substr_to 2 (find_char 125 chopped_twice) chopped_twice
                else substr_to 1 (find_char 44 chopped_twice) chopped_twice)
      end
  end.

Definition double_from_string `{LexicalNumbers} (str key : bytes) : option double :=
  match val_from_string str key with Some s => lexical_cast_double s | None => None end.
Definition int_from_string `{LexicalCast} (str key : bytes) : option Z :=
  match val_from_string str key with Some s => lexical_cast_int s | None => None end.
Definition bool_from_string (str key : bytes) : option bool := as_bool <$> val_from_string str key.

(** ** stripblanks *)

(** the loop from the end: [n] characters are left to look at *)
Fixpoint strip_loop (n : nat) (s : bytes) : bytes :=
  match n with
  | O => s
  | S n =>
      match s !! n with
      | Some c => strip_loop n (if is_space c then take n s ++ drop (S n) s else s)
      | None => strip_loop n s
      end
  end.
Definition stripblanks (s : bytes) : bytes := strip_loop (length s) s.

Lemma strip_loop_filter n : forall s, (n <= length s)%nat ->
  strip_loop n s = List.filter (fun c => negb (is_space c)) (take n s) ++ drop n s.
Proof.
  induction n as [|n IH]; intros s Hn; [done|]. cbn [strip_loop].
  destruct (lookup_lt_is_Some_2 s n) as [c Hc]; [lia|]. rewrite Hc.
  assert (Ht : take (S n) s = take n s ++ [c]) by (by apply take_S_r). assert (Hd : drop n s = c :: drop (S n) s) by (by apply drop_S).
  destruct (is_space c) eqn:E.
  - rewrite IH by (rewrite length_app, length_take, length_drop; lia).
    rewrite take_app_le by (rewrite length_take; lia). rewrite take_take, Nat.min_id.
    rewrite drop_app_ge by (rewrite length_take; lia). rewrite length_take, Nat.min_l, Nat.sub_diag by lia.
    rewrite Ht, List.filter_app. cbn. rewrite E. cbn. by rewrite app_nil_r, drop_0.
  - rewrite IH by lia. rewrite Ht, List.filter_app, Hd. cbn. rewrite E. cbn. by rewrite <- app_assoc.
Qed.

(** all blanks are removed, nothing else *)
Lemma stripblanks_filter s : stripblanks s = List.filter (fun c => negb (is_space c)) s.
Proof. unfold stripblanks. rewrite strip_loop_filter by done. by rewrite firstn_all, drop_all, app_nil_r. Qed.

(** ** The table of modem names *)

Record ModemIdConvert : Type := MkIdConvert {
  names : list (Z * bytes);
  types : list (Z * bytes);
  locations : list (Z * bytes);
  max_name_length : Z;
  max_id : Z
}.
Definition new_id_convert : ModemIdConvert := MkIdConvert [] [] [] 0 0.

(** [atoi]: white space, a sign and digits, whatever follows *)
Fixpoint read_dec (acc : Z) (s : bytes) : Z :=
  match s with
  | c :: s => if (48 <=? c) && (c <=? 57) then read_dec (10 * acc + (c - 48)) s else acc
  | [] => acc
  end.
Definition atoi (s : bytes) : Z :=
  match skip_space s with
  | 45 :: s => - read_dec 0 s
  | 43 :: s => read_dec 0 s
  | s => read_dec 0 s
  end.

(** [erase] from the first occurrence of two characters *)
Fixpoint cut_comment (s : bytes) : bytes :=
  match s with
  | [] => []
  | 47 :: (47 :: _) => []
  | c :: s => c :: cut_comment s
  end.

(** a line without its spaces and comments *)
Definition strip_line (sline : bytes) : bytes :=
  let sline := List.filter (fun c => negb (c =? 32)) sline in
  let sline := match find_char 35 sline with Some pos => take pos sline | None => sline end in
  cut_comment sline.

Section Lookup.
Context {TX : BoostText} {LN : LexicalNumbers}.

Definition read_lookup_line (sline : bytes) (m : ModemIdConvert) : ModemIdConvert :=
  match strip_line sline with
  | [] => m
  | sline =>
      match boost_split (Z.eqb 44) sline with
      | id_text :: name :: type :: more =>
          let location_name := match more with [] => name | location :: _ => location end in
          let id := atoi id_text in
          MkIdConvert (al_insert id name (names m)) (al_insert id type (types m)) (al_insert id location_name (locations m))
            (Z.max (Z.of_nat (length name)) (max_name_length m)) (Z.max id (max_id m))
      | _ => m
      end
  end.

(** [None]: the file cannot be opened *)
Definition read_lookup_file (file : option (list bytes)) (m : ModemIdConvert) : ModemIdConvert :=
  match file with
  | None => m
  | Some lines => foldl (fun m sline => read_lookup_line sline m) m lines
  end.

Definition get_name_from_id (id : Z) (m : ModemIdConvert) : bytes := default (as_string id) (al_lookup id (names m)).
Definition get_type_from_id (id : Z) (m : ModemIdConvert) : bytes := default (B "unknown_type") (al_lookup id (types m)).
Definition get_location_from_id (id : Z) (m : ModemIdConvert) : bytes := default (as_string id) (al_lookup id (locations m)).

(** [None]: the conversion to [int] of a text that is neither a name nor a number in range *)
Definition get_id_from_name (name : bytes) (m : ModemIdConvert) : option Z :=
  match List.find (fun e => iequals (snd e) name) (names m) with
  | Some (id, _) => Some id
  | None => int_cast (as_double name)
  end.

End Lookup.

(** ** Texts of pairs *)

(** a value is a text, or an array in braces *)
Inductive Value : Type := Plain (v : bytes) | Array (body : bytes).
Definition value_text (v : Value) : bytes := match v with Plain v => v | Array b => 123 :: b ++ [125] end.
Definition value_read (v : Value) : bytes := match v with Plain v => v | Array b => b end.

Definition ok_key (k : bytes) : Prop := (44 ∉ k) /\ (61 ∉ k).
Definition ok_value (v : Value) : Prop :=
  match v with
  | Plain v => (44 ∉ v) /\ head v <> Some 123
  | Array b => (125 ∉ b) /\ (61 ∉ b)
  end.

Definition pair_text (f : bytes * Value) : bytes := fst f ++ 61 :: value_text (snd f).
Definition pairs_text (l : list (bytes * Value)) : bytes := join 44 (map pair_text l).

(** *** Searching the pieces between commas *)

Lemma to_upper_comma x : to_upper x = to_upper 44 -> x = 44.
Proof. unfold to_upper. cbn. case_match; to_prop; lia. Qed.

(** a match lies within a piece *)
Lemma iprefix_length pat : forall seg rest, 44 ∉ pat -> 44 ∉ seg -> iprefix pat (seg ++ 44 :: rest) = iprefix pat seg.
Proof.
  induction pat as [|x pat IH]; intros seg rest Hp Hs; [done|]. apply not_elem_of_cons in Hp as [Hx Hp]. destruct seg as [|y seg]; cbn [iprefix app].
  - destruct (to_upper x =? to_upper 44) eqn:E; [|done]. to_prop. apply to_upper_comma in E. congruence.
  - apply not_elem_of_cons in Hs as [_ Hs]. by rewrite IH.
Qed.

Lemma iprefix_comma pat rest : 44 ∉ pat -> pat <> [] -> iprefix pat (44 :: rest) = false.
Proof.
  intros Hp Hn. destruct pat as [|x pat]; [done|]. apply not_elem_of_cons in Hp as [Hx _]. cbn [iprefix].
  destruct (to_upper x =? to_upper 44) eqn:E; [|done]. to_prop. apply to_upper_comma in E. congruence.
Qed.

Lemma iprefix_le pat : forall seg, iprefix pat seg = true -> (length pat <= length seg)%nat.
Proof.
  induction pat as [|x pat IH]; intros [|y seg] H; cbn [iprefix length] in *; try done; [lia|]. to_prop. specialize (IH seg H0). lia.
Qed.

(** the rest of a piece is passed *)
Lemma chop_piece pat rest : forall seg skip, 44 ∉ pat -> pat <> [] -> 44 ∉ seg -> (skip <= length seg)%nat ->
  chop pat false skip (seg ++ 44 :: rest) = chop pat true 0 rest.
Proof.
  induction seg as [|c seg IH]; intros skip Hp Hn Hs Hk.
  - cbn in Hk. replace skip with 0%nat by lia. change ([] ++ 44 :: rest) with (44 :: rest). cbn [chop].
    by rewrite iprefix_comma.
  - apply not_elem_of_cons in Hs as [Hc Hs]. assert (Hc' : (c =? 44) = false) by lia.
    cbn [app chop]. destruct skip as [|skip]; [|rewrite Hc'; apply IH; try done; cbn in Hk; lia].
    assert (Hm : iprefix pat (c :: seg ++ 44 :: rest) = iprefix pat (c :: seg)) by (apply (iprefix_length pat (c :: seg)); set_solver).
    rewrite Hm, Hc'. destruct (iprefix pat (c :: seg)) eqn:E; apply IH; try done; [|lia]. apply iprefix_le in E. cbn in E. lia.
Qed.

Lemma chop_last pat : forall seg skip, 44 ∉ seg -> chop pat false skip seg = None.
Proof.
  induction seg as [|c seg IH]; intros skip Hs; [done|]. apply not_elem_of_cons in Hs as [Hc Hs].
  assert (Hc' : (c =? 44) = false) by lia. cbn [chop]. rewrite Hc'. destruct skip; [|by apply IH]. by destruct (iprefix _ _); apply IH.
Qed.

Fixpoint drop_until {A : Type} (p : A -> bool) (l : list A) : list A :=
  match l with
  | [] => []
  | x :: rest => if p x then l else drop_until p rest
  end.

Lemma chop_pieces pat : forall segs, 44 ∉ pat -> pat <> [] -> Forall (fun s => 44 ∉ s) segs ->
  chop pat true 0 (join 44 segs) = match drop_until (iprefix pat) segs with [] => None | l => Some (join 44 l) end.
Proof.
  induction segs as [|seg segs IH]; intros Hp Hn Hf; [done|]. apply Forall_cons in Hf as [Hs Hf].
  change (drop_until (iprefix pat) (seg :: segs)) with (if iprefix pat seg then seg :: segs else drop_until (iprefix pat) segs).
  specialize (IH Hp Hn Hf). destruct segs as [|seg2 segs].
  - cbn [join drop_until]. destruct seg as [|c seg]; [by destruct pat|]. cbn [chop].
    destruct (iprefix pat (c :: seg)) eqn:E; [done|]. apply not_elem_of_cons in Hs as [Hc Hs].
    assert ((c =? 44) = false) as -> by lia. by apply chop_last.
  - change (join 44 (seg :: seg2 :: segs)) with (seg ++ 44 :: join 44 (seg2 :: segs)).
    destruct (iprefix pat seg) eqn:E; [|rewrite <- IH].
    + destruct seg as [|c seg]; [by destruct pat|]. cbn [app chop].
      assert (iprefix pat (c :: seg ++ 44 :: join 44 (seg2 :: segs)) = true) as ->; [|done].
      rewrite <- E. by apply (iprefix_length pat (c :: seg)).
    + destruct seg as [|c seg].
      * cbn [app chop]. by rewrite iprefix_comma.
      * cbn [app chop]. assert (iprefix pat (c :: seg ++ 44 :: join 44 (seg2 :: segs)) = false) as ->.
        { rewrite <- E. by apply (iprefix_length pat (c :: seg)). }
        apply not_elem_of_cons in Hs as [Hc Hs]. assert ((c =? 44) = false) as -> by lia. apply chop_piece; try done; lia.
Qed.

(** *** From pieces to pairs *)

Lemma upper_lower x y : (to_upper x =? to_upper y) = (to_lower x =? to_lower y).
Proof.
  apply Bool.eq_true_iff_eq. rewrite !Z.eqb_eq. unfold to_upper, to_lower. repeat case_match; to_prop; lia.
Qed.

Lemma upper_equals x : to_upper x = to_upper 61 -> x = 61.
Proof. unfold to_upper. cbn. case_match; to_prop; lia. Qed.

(** the pattern of a key matches the beginning of a pair of that key *)
Lemma iprefix_key key : forall k rest, 61 ∉ key -> 61 ∉ k -> iprefix (key ++ [61]) (k ++ 61 :: rest) = iequals k key.
Proof.
  unfold iequals. induction key as [|x key IH]; intros [|y k] rest Hx Hy; cbn [app iprefix map].
  - done.
  - apply not_elem_of_cons in Hy as [Hy _]. rewrite bool_decide_eq_false_2 by done.
    destruct (to_upper 61 =? to_upper y) eqn:E; [|done]. to_prop. symmetry in E. apply upper_equals in E. congruence.
  - apply not_elem_of_cons in Hx as [Hx _]. rewrite bool_decide_eq_false_2 by done.
    destruct (to_upper x =? to_upper 61) eqn:E; [|done]. to_prop. apply upper_equals in E. congruence.
  - apply not_elem_of_cons in Hx as [_ Hx]. apply not_elem_of_cons in Hy as [_ Hy]. rewrite (IH k rest Hx Hy), upper_lower.
    destruct (to_lower x =? to_lower y) eqn:E; to_prop; cbn [andb].
    + rewrite E. apply bool_decide_ext. split; [by intros -> | by intros [= ->]].
    + rewrite bool_decide_eq_false_2; [done|]. intros [= H _]. congruence.
Qed.

(** a piece without [=] matches no key *)
Lemma iprefix_no_equals pat : forall s, 61 ∉ s -> iprefix (pat ++ [61]) s = false.
Proof.
  induction pat as [|x pat IH]; intros [|y s] Hs; cbn [app iprefix]; try done; apply not_elem_of_cons in Hs as [Hy Hs].
  - destruct (to_upper 61 =? to_upper y) eqn:E; [|done]. to_prop. symmetry in E. apply upper_equals in E. congruence.
  - rewrite IH by done. apply andb_false_r.
Qed.

Definition pieces (s : bytes) : list bytes := split_on (Z.eqb 44) s.

Lemma pieces_app a : forall v, 44 ∉ a -> exists p ps, pieces v = p :: ps /\ pieces (a ++ v) = (a ++ p) :: ps.
Proof.
  induction a as [|c a IH]; intros v Ha; cbn [app].
  - pose proof (split_on_nonempty (Z.eqb 44) v) as H. unfold pieces. destruct (split_on (Z.eqb 44) v) as [|p ps]; [done|]. by exists p, ps.
  - apply not_elem_of_cons in Ha as [Hc Ha]. destruct (IH v Ha) as (p & ps & E1 & E2). exists p, ps. split; [done|].
    unfold pieces in *. cbn [split_on]. assert ((44 =? c) = false) as -> by lia. by rewrite E2.
Qed.

Lemma pieces_single s : 44 ∉ s -> pieces s = [s].
Proof. intros H. destruct (pieces_app s [] H) as (p & ps & [= <- <-] & E). by rewrite !app_nil_r in E. Qed.

Lemma split_on_chars d s p c : p ∈ split_on d s -> c ∈ p -> c ∈ s.
Proof.
  revert p. induction s as [|x s IH]; intros p; cbn [split_on].
  - intros Hp. apply list_elem_of_singleton in Hp as ->. done.
  - destruct (d x).
    + intros [-> | Hp]%elem_of_cons Hc; [set_solver | right; by eapply IH].
    + destruct (split_on d s) as [|q qs]; [intros ->%list_elem_of_singleton Hc; set_solver|].
      intros [-> | Hp]%elem_of_cons Hc; [apply elem_of_cons in Hc as [-> | Hc]; [left|right; apply (IH q); [left|done]] | right; apply (IH p); [by right|done]].
Qed.

Lemma join_app_pieces s rest : rest <> [] -> join 44 (pieces s ++ rest) = s ++ 44 :: join 44 rest.
Proof.
  intros Hr. pose proof (split_on_join 44 s) as H. unfold pieces. pose proof (split_on_nonempty (Z.eqb 44) s) as Hn.
  rewrite <- H at 2. clear H. induction (split_on (Z.eqb 44) s) as [|p [|q ps] IH]; [done | by destruct rest |].
  change (join 44 ((p :: q :: ps) ++ rest)) with (p ++ 44 :: join 44 ((q :: ps) ++ rest)). rewrite IH by done.
  change (join 44 (p :: q :: ps)) with (p ++ 44 :: join 44 (q :: ps)). by rewrite <- app_assoc.
Qed.

Lemma join_pieces (l : list bytes) : join 44 (concat (map pieces l)) = join 44 l.
Proof.
  induction l as [|s [|s2 l] IH]; [done | |].
  - cbn [map concat]. rewrite app_nil_r. apply split_on_join.
  - change (join 44 (s :: s2 :: l)) with (s ++ 44 :: join 44 (s2 :: l)). rewrite <- IH.
    change (concat (map pieces (s :: s2 :: l))) with (pieces s ++ concat (map pieces (s2 :: l))).
    apply join_app_pieces. cbn. pose proof (split_on_nonempty (Z.eqb 44) s2) as H. unfold pieces. by destruct (split_on _ s2).
Qed.

(** the pieces of a pair: the key is in the first, the others have no [=] *)
Lemma pair_pieces f : ok_key (fst f) -> ok_value (snd f) ->
  exists p ps, pieces (pair_text f) = (fst f ++ 61 :: p) :: ps /\ Forall (fun s => 61 ∉ s) ps.
Proof.
  intros [Hk He] Hv. destruct (pieces_app (fst f ++ [61]) (value_text (snd f))) as (p & ps & E1 & E2).
  { rewrite elem_of_app, list_elem_of_singleton. intros [H | H]; [done | lia]. }
  exists p, ps. rewrite <- !app_assoc in E2. split; [exact E2|]. destruct (snd f) as [v | b]; cbn [value_text ok_value] in *.
  - destruct Hv as [Hv _]. rewrite pieces_single in E1 by done. injection E1 as <- <-. constructor.
  - apply Forall_forall. intros s Hs Hc. destruct Hv as [_ Hv]. assert (Hin : 61 ∈ 123 :: b ++ [125]).
    { eapply (split_on_chars (Z.eqb 44)); [|exact Hc]. unfold pieces in E1. rewrite E1. by right. }
    set_unfold in Hin. destruct Hin as [Hin | [Hin | [Hin | []]]]; [lia | done | lia].
Qed.

Lemma drop_until_pass {A} (p : A -> bool) l rest : Forall (fun x => p x = false) l -> drop_until p (l ++ rest) = drop_until p rest.
Proof. induction 1 as [|x l Hx _ IH]; [done|]. cbn [app drop_until]. by rewrite Hx. Qed.

Definition of_key (key : bytes) (f : bytes * Value) : bool := iequals (fst f) key.

Lemma drop_until_pairs key : forall l, 61 ∉ key -> Forall (fun f => ok_key (fst f) /\ ok_value (snd f)) l ->
  drop_until (iprefix (key ++ [61])) (concat (map pieces (map pair_text l))) =
  concat (map pieces (map pair_text (drop_until (of_key key) l))).
Proof.
  induction l as [|f l IH]; intros He Hf; [done|]. apply Forall_cons in Hf as [[Hk Hv] Hf]. cbn [map concat].
  destruct (pair_pieces f Hk Hv) as (p & ps & E & Hps).
  assert (Hm : iprefix (key ++ [61]) (fst f ++ 61 :: p) = of_key key f) by (apply iprefix_key; [done | apply Hk]).
  change (drop_until (of_key key) (f :: l)) with (if of_key key f then f :: l else drop_until (of_key key) l).
  destruct (of_key key f) eqn:Eo.
  - rewrite E. cbn [app drop_until]. rewrite Hm. cbn [map concat]. by rewrite E.
  - rewrite E. cbn [app drop_until]. rewrite Hm, drop_until_pass; [by apply IH|].
    eapply Forall_impl; [exact Hps|]. intros s Hs. by apply iprefix_no_equals.
Qed.

Lemma drop_until_find {A} (p : A -> bool) l :
  match List.find p l with Some x => exists rest, drop_until p l = x :: rest /\ incl (x :: rest) l | None => drop_until p l = [] end.
Proof.
  induction l as [|x l IH]; [done|]. cbn [List.find drop_until]. destruct (p x); [exists l; split; [done | apply incl_refl]|].
  destruct (List.find p l); [|done]. destruct IH as (rest & E & Hi). exists rest. split; [done|]. intros y Hy. right. by apply Hi.
Qed.

Lemma find_char_skip c a b : c ∉ a -> find_char c (a ++ b) = (fun n => (length a + n)%nat) <$> find_char c b.
Proof.
  induction a as [|x a IH]; intros Ha; cbn [app find_char length]; [by destruct (find_char c b)|].
  apply not_elem_of_cons in Ha as [Hx Ha]. assert ((x =? c) = false) as -> by lia. rewrite IH by done. by destruct (find_char c b).
Qed.

(** reading the value of the first pair *)
Lemma value_of_first f rest : ok_key (fst f) -> ok_value (snd f) ->
  let chopped := pair_text f ++ rest in
  (rest = [] \/ exists r, rest = 44 :: r) ->
  find_char 61 chopped = Some (length (fst f)) /\
  (if bool_decide (chopped !! (length (fst f) + 1)%nat = Some 123)
   then substr_to 2 (find_char 125 (drop (length (fst f)) chopped)) (drop (length (fst f)) chopped)
   else substr_to 1 (find_char 44 (drop (length (fst f)) chopped)) (drop (length (fst f)) chopped)) = value_read (snd f).
Proof.
  intros [Hk He] Hv chopped Hr. subst chopped. unfold pair_text. rewrite <- app_assoc. cbn [app]. split.
  - rewrite find_char_skip by done. cbn [find_char]. rewrite Z.eqb_refl. cbn. by rewrite Nat.add_0_r.
  - rewrite drop_app_length, lookup_app_r by lia. replace (length (fst f) + 1 - length (fst f))%nat with 1%nat by lia. cbn [lookup list_lookup].
    destruct (snd f) as [v | b]; cbn [value_text value_read ok_value] in *.
    + destruct Hv as [Hv Hh]. rewrite bool_decide_eq_false_2.
      2: { destruct v as [|c v]; [destruct Hr as [-> | [r ->]]; [done | cbn; intros [=]; lia] | cbn in *; intros [= ->]; done]. }
      change (61 :: v ++ rest) with ((61 :: v) ++ rest). rewrite find_char_skip by set_solver.
      destruct Hr as [-> | [r ->]]; cbn [find_char fmap option_fmap option_map]; [cbn; by rewrite app_nil_r|].
      cbn. rewrite Nat.add_0_r. rewrite drop_0, Nat.sub_0_r. by rewrite take_app_length.
    + rewrite bool_decide_eq_true_2 by done. destruct Hv as [Hb _].
      change (61 :: (123 :: b ++ [125]) ++ rest) with ((61 :: 123 :: b ++ [125]) ++ rest).
      assert (E : (61 :: 123 :: b ++ [125]) ++ rest = (61 :: 123 :: b) ++ (125 :: rest)) by (cbn [app]; by rewrite <- app_assoc).
      rewrite E, find_char_skip by set_solver. cbn. rewrite Nat.add_0_r, drop_0, Nat.sub_0_r. by rewrite take_app_length.
Qed.

(** the value of the first pair with the key, whatever the case of its letters *)
Lemma val_from_string_pairs (l : list (bytes * Value)) (key : bytes) :
  Forall (fun f => ok_key (fst f) /\ ok_value (snd f)) l -> ok_key key ->
  val_from_string (pairs_text l) key = (fun f => value_read (snd f)) <$> List.find (of_key key) l.
Proof.
  intros Hf [Hk He]. unfold val_from_string, pairs_text. rewrite <- join_pieces, chop_pieces.
  - rewrite drop_until_pairs by done. pose proof (drop_until_find (of_key key) l) as Hd. destruct (List.find (of_key key) l) as [f|]; [|by rewrite Hd].
    destruct Hd as (rest & -> & Hi). assert (Hff : ok_key (fst f) /\ ok_value (snd f)).
    { rewrite Forall_forall in Hf. apply Hf, list_elem_of_In, Hi. by left. }
    cbn [map concat]. destruct (pair_pieces f (proj1 Hff) (proj2 Hff)) as (p & ps & E & _). rewrite E. cbn [app].
    change ((fst f ++ 61 :: p) :: ps ++ concat (map pieces (map pair_text rest))) with (((fst f ++ 61 :: p) :: ps) ++ concat (map pieces (map pair_text rest))).
    rewrite <- E. change (pieces (pair_text f) ++ concat (map pieces (map pair_text rest))) with (concat (map pieces (map pair_text (f :: rest)))).
    rewrite join_pieces. cbn [map].
    assert (Hj : exists r, join 44 (pair_text f :: map pair_text rest) = pair_text f ++ r /\ (r = [] \/ exists r', r = 44 :: r')).
    { destruct (map pair_text rest) as [|q qs]; [exists []; rewrite app_nil_r; by split; [|left] | eexists; split; [reflexivity | right; by eexists]]. }
    destruct Hj as (r & -> & Hr). destruct (value_of_first f r (proj1 Hff) (proj2 Hff) Hr) as [-> E2].
    exact (f_equal Some E2).
  - rewrite elem_of_app, list_elem_of_singleton. intros [H | H]; [done | lia].
  - by destruct key.
  - apply Forall_concat, Forall_forall. intros ps Hps. apply list_elem_of_In, in_map_iff in Hps as (s & <- & _). apply split_on_free.
Qed.

Example val_from_string_sample :
  val_from_string (B "foo=1,bar={2,3,4,5},pig=3,o=x=y") (B "BAR") = Some (B "2,3,4,5") /\
  val_from_string (B "foo=1,bar={2,3,4,5},pig=3,o=x=y") (B "o") = Some (B "x=y").
Proof.
  pose (l := [(B "foo", Plain (B "1")); (B "bar", Array (B "2,3,4,5")); (B "pig", Plain (B "3")); (B "o", Plain (B "x=y"))]).
  assert (Hl : Forall (fun f => ok_key (fst f) /\ ok_value (snd f)) l).
  { unfold l. repeat constructor; cbn; try done; intros H; set_unfold in H; lia. }
  split.
  - apply (val_from_string_pairs l (B "BAR") Hl). split; cbn; intros H; set_unfold in H; lia.
  - apply (val_from_string_pairs l (B "o") Hl). split; cbn; intros H; set_unfold in H; lia.
Qed.
