(* ===== verification/Iridium.v ===== *)
(** * acomms/modemdriver/iridium_driver_common.h, iridium_driver_fsm.{h,cpp}:
      the Iridium RUDICS / SBD link

    The messages on the line, and the reactions of the [Command] state (AT
    commands and SBD reception), of the [OnCall] state (RUDICS calls) and of
    the SBD region. A reaction is a function of the data it touches; it returns
    the events it posts, in order. The DCCL codec of the header is an interface;
    the exceptions that leave a reaction are values. *)

From Stdlib Require Import SpecFloat.
From S2P Require Import Prelude Double Time As Proto BaseConvert Rudics Nmea.

(** ** Messages on the line *)

Record IridiumHeader : Type := MkHeader {
  h_src : Z;
  h_dest : Z;
  h_rate : option Z;
  h_type : TransmissionType;
  h_ack_requested : option bool;
  h_frame_start : option Z;
  h_acked_frame : option Z
}.

(** The codec of [IridiumHeader]: [None] is a [dccl::Exception]. Decoding
    removes what it reads from the string. *)
Class IridiumHeaderCodec : Type := {
  header_encode : IridiumHeader -> option bytes;
  header_decode : bytes -> option (IridiumHeader * bytes)
}.

(** the bounds of the fields ([dccl.field] options of iridium_driver.proto) *)
Definition header_in_bounds (h : IridiumHeader) : bool :=
  let opt_le m (o : option Z) := match o with Some v => (0 <=? v) && (v <=? m) | None => true end in
  (0 <=? h_src h) && (h_src h <=? 30) && (0 <=? h_dest h) && (h_dest h <=? 30) &&
  opt_le 1 (h_rate h) && opt_le 65535 (h_frame_start h) && opt_le 65535 (h_acked_frame h).

(** Documented behaviour of DCCL: a message whose fields are within their
    bounds is encoded as bytes and decoded again, whatever follows it. *)
Class IridiumHeaderLaws `{IridiumHeaderCodec} : Prop := {
  header_encode_total : forall h, header_in_bounds h = true ->
    exists b, header_encode h = Some b /\ wf_bytes b;
  header_decode_encode : forall h b rest, header_in_bounds h = true ->
    header_encode h = Some b -> header_decode (b ++ rest) = Some (h, rest)
}.

Definition header_of (m : ModemTransmission) : IridiumHeader :=
  MkHeader (src m) (dest m) (mt_rate m) (type m) (mt_ack_requested m) (mt_frame_start m)
    (head (mt_acked_frame m)).

Definition serialize_iridium_modem_message `{IridiumHeaderCodec} (m : ModemTransmission) : option bytes :=
  match header_encode (header_of m) with
  | Some out => Some (match mt_frame m with f :: _ => out ++ f | [] => out end)
  | None => None
  end.

(** into a fresh [ModemTransmission] *)
Definition parse_iridium_modem_message `{IridiumHeaderCodec} (s : bytes) : option ModemTransmission :=
  match header_decode s with
  | Some (h, rest) =>
      Some (MkTransmission (Some (h_src h)) (Some (h_dest h)) None (h_rate h) (Some (h_type h))
              None None (h_ack_requested h) (match rest with [] => [] | _ => [rest] end)
              (h_frame_start h) (match h_acked_frame h with Some a => [a] | None => [] end)
              None None None)
  | None => None
  end.

(** ** Events *)

Inductive Event : Type :=
| EvRxSerial (line : bytes)
| EvTxSerial
| EvRxOnCallSerial (line : bytes)
| EvTxOnCallSerial
| EvAck (response : bytes)
| EvAtEmpty
| EvReset
| EvDial
| EvRing
| EvOnline
| EvHangup
| EvConnect
| EvNoCarrier
| EvDisconnect
| EvSendBye
| EvConfigured
| EvSBDBeginData (data : bytes) (in_response_to_ring_alert : bool)
| EvSBDSendBufferCleared
| EvSBDWriteReady
| EvSBDWriteComplete
| EvSBDTransmitComplete (sbdi : bytes)
| EvSBDReceiveComplete.

(** what leaves a reaction as an exception *)
Inductive reaction_exception : Type :=
| OutOfRange                              (* [std::string::at] *)
| PacketError (e : RudicsPacketException)
| DCCLError.

(** ** Data of the state machine *)

Record Fsm : Type := MkFsm {
  serial_tx_buffer : list bytes;
  received : list ModemTransmission;
  data_out : list ModemTransmission
}.

Definition SERIAL_BUFFER_CAPACITY : nat := 10.
Definition RECEIVED_BUFFER_CAPACITY : nat := 10.
Definition DATA_BUFFER_CAPACITY : nat := 5.

Definition new_fsm : Fsm := MkFsm [] [] [].

Definition push_serial (line : bytes) (f : Fsm) : Fsm :=
  MkFsm (circular_push SERIAL_BUFFER_CAPACITY line (serial_tx_buffer f)) (received f) (data_out f).
Definition push_serial_front (line : bytes) (f : Fsm) : Fsm :=
  MkFsm (circular_push_front SERIAL_BUFFER_CAPACITY line (serial_tx_buffer f)) (received f) (data_out f).
Definition push_received (m : ModemTransmission) (f : Fsm) : Fsm :=
  MkFsm (serial_tx_buffer f) (circular_push RECEIVED_BUFFER_CAPACITY m (received f)) (data_out f).
Definition buffer_data_out (m : ModemTransmission) (f : Fsm) : Fsm :=
  MkFsm (serial_tx_buffer f) (received f) (circular_push DATA_BUFFER_CAPACITY m (data_out f)).

Record ATSentenceMeta : Type := MkAT { last_send_time : double; tries : Z }.
Definition new_meta : ATSentenceMeta := MkAT (double_of_Z 0) 0.

Record Command : Type := MkCommand {
  at_out : list (ATSentenceMeta * bytes);
  sbd_rx_buffer : bytes
}.

Definition AT_BUFFER_CAPACITY : nat := 100.

Definition push_at_command (cmd : bytes) (c : Command) : Command :=
  MkCommand (circular_push AT_BUFFER_CAPACITY (new_meta, cmd) (at_out c)) (sbd_rx_buffer c).
Definition clear_sbd_rx_buffer (c : Command) : Command := MkCommand (at_out c) [].
Definition pop_at (c : Command) : Command := MkCommand (drop 1 (at_out c)) (sbd_rx_buffer c).
Definition front_at (c : Command) : option bytes := snd <$> head (at_out c).

(** [at_out_.insert(at_out_.begin() + 1, ...)]: a full buffer loses its first *)
Definition insert_second {A : Type} (capacity : nat) (x : A) (l : list A) : list A :=
  match l with
  | f :: r => if (length l <? capacity)%nat then f :: x :: r else x :: r
  | [] => [x]
  end.

(** ** The Command state *)

Section CommandState.
Context {HC : IridiumHeaderCodec} {TR : BoostTrim}.
Variable crc32 : bytes -> Z.

Definition reaction : Type := result reaction_exception (Fsm * Command * list Event).

Definition sbd_rx_size (buffer : bytes) : nat :=
  match buffer with
  | a :: b :: _ => Z.to_nat (Z.lor (Z.shiftl (Z.land a 255) 8) (Z.land b 255))
  | _ => 0
  end.

Definition handle_sbd_rx (line : bytes) (f : Fsm) (c : Command) : reaction :=
  let? buffer :=
    match sbd_rx_buffer c, line with
    | [], [] => Err OutOfRange
    | [], c0 :: rest => Ok (if c0 =? 10 then rest else line)
    | b, _ => Ok (b ++ line)
    end in
  let c := MkCommand (at_out c) buffer in
  if (length buffer <? 2)%nat then Ok (f, c, [])
  else
    let n := sbd_rx_size buffer in
    if (length buffer <? 2 + n)%nat then Ok (f, c, [])
    else
      match parse_rudics_packet crc32 (take n (drop 2 buffer)) default_reserved true with
      | Err e => Err (PacketError e)
      | Ok bs =>
          match parse_iridium_modem_message bs with
          | None => Err DCCLError
          | Some msg => Ok (push_received msg f, push_at_command [] (pop_at c), [EvSBDReceiveComplete])
          end
      end.

(** [Command::in_state_react(const EvRxSerial&)] *)
Definition command_rx (line : bytes) (f : Fsm) (c : Command) : reaction :=
  if bool_decide (front_at c = Some (B "+SBDRB")) then handle_sbd_rx line f c
  else
    let s := boost_trim line in
    let echo := match front_at c with
                | Some cmd => negb (bool_decide (cmd = B "E")) && bool_decide (s = B "AT" ++ cmd)
                | None => false
                end in
    if echo
    then Ok (f, MkCommand (insert_second AT_BUFFER_CAPACITY (new_meta, B "E") (at_out c))
                  (sbd_rx_buffer c), [])
    else if bool_decide (s = B "OK") then Ok (f, c, [EvAck s])
    else if bool_decide (s = B "RING") then Ok (f, c, [EvRing])
    else if bool_decide (s = B "NO CARRIER") then Ok (f, c, [EvAck s; EvNoCarrier])
    else if starts_with (B "CONNECT") s then Ok (f, c, [EvAck s; EvConnect])
    else if bool_decide (s = B "NO DIALTONE") then Ok (f, c, [EvAck s; EvNoCarrier])
    else if bool_decide (s = B "BUSY") then Ok (f, c, [EvAck s; EvNoCarrier])
    else if bool_decide (s = B "ERROR") then Ok (f, c, [EvReset])
    else if bool_decide (s = B "0") || bool_decide (s = B "1") || bool_decide (s = B "2")
            || bool_decide (s = B "3") then Ok (f, c, [EvAck s])
    else if bool_decide (s = B "READY") then Ok (f, c, [EvAck s])
    else if starts_with (B "+SBDI") s then Ok (f, c, [EvSBDTransmitComplete s])
    else if bool_decide (s = B "SBDRING") then Ok (f, c, [EvSBDBeginData [] true])
    else Ok (f, c, []).

Definition RETRIES_BEFORE_RESET : Z := 3.

Definition command_timeout (cmd : bytes) : Z :=
  let t := match cmd with
           | 68 :: _ => 60                                             (* D *)
           | 65 :: _ => 30                                             (* A *)
           | 72 :: _ => 10                                             (* H *)
           | 43 :: _ => if bool_decide (cmd = B "+++") then 6 else 2
           | _ => 2
           end in
  if starts_with (B "+SBDI") cmd then 60 else t.

Definition at_command (cmd : bytes) : bytes :=
  if bool_decide (cmd = B "+++") then cmd else B "AT" ++ cmd ++ [13].

(** [Command::in_state_react(const EvTxSerial&)] at time [now] *)
Definition command_tx (now : double) (f : Fsm) (c : Command) : Fsm * Command * list Event :=
  match at_out c with
  | [] => (f, c, [])
  | (meta, cmd) :: rest =>
      let buffer := if bool_decide (cmd = B "+SBDRB") then [] else sbd_rx_buffer c in
      if dlt (dadd (last_send_time meta) (double_of_Z (command_timeout cmd))) now
      then
        let tries := tries meta + 1 in
        if RETRIES_BEFORE_RESET <? tries
        then (f, MkCommand ((MkAT (last_send_time meta) tries, cmd) :: rest) buffer, [EvReset])
        else (push_serial (at_command cmd) f, MkCommand ((MkAT now tries, cmd) :: rest) buffer, [])
      else (f, MkCommand (at_out c) buffer, [])
  end.

(** the last part of [Command::in_state_react(const EvAck&)] *)
Definition ack_front (response : bytes) (c : Command) : Command * list Event :=
  match at_out c with
  | [] => (c, [])
  | (_, last_at) :: rest =>
      let e1 := if bool_decide (response = B "OK")
                then match last_at with 72 :: _ | 68 :: _ => [EvNoCarrier] | _ => [] end
                else [] in
      let e2 := if bool_decide (response = B "READY") then [EvSBDWriteReady] else [] in
      let e3 := match rest with [] => [EvAtEmpty] | _ => [] end in
      (pop_at c, e1 ++ e2 ++ e3)
  end.

(** [Command::in_state_react(const EvAck&)] *)
Definition command_ack (response : bytes) (c : Command) : Command * list Event :=
  match response with
  | 48 :: _ =>                                                         (* 0 *)
      match front_at c with
      | Some cmd => if bool_decide (cmd = B "+SBDD2") then (c, [EvSBDSendBufferCleared]) else (c, [])
      | None => (push_at_command (B "AT") c, [EvSBDWriteComplete])
      end
  | 49 :: _ | 50 :: _ | 51 :: _ => (c, [])                             (* 1, 2, 3 *)
  | _ => ack_front response c
  end.

End CommandState.

(** ** Calls *)

Record OnCallBase : Type := MkCall {
  last_tx_time : double;
  last_rx_time : double;
  bye_received : bool;
  bye_sent : bool;
  total_bytes_sent : Z;
  last_bytes_sent : Z
}.

Definition new_call (now : double) : OnCallBase := MkCall now (double_of_Z 0) false false 0 0.

Definition last_rx_tx_time (o : OnCallBase) : double :=
  if dlt (last_tx_time o) (last_rx_time o) then last_rx_time o else last_tx_time o.

Definition set_last_bytes_sent (i : Z) (o : OnCallBase) : OnCallBase :=
  MkCall (last_tx_time o) (last_rx_time o) (bye_received o) (bye_sent o)
    (s32 (total_bytes_sent o + i)) i.
Definition set_last_tx_time (d : double) (o : OnCallBase) : OnCallBase :=
  MkCall d (last_rx_time o) (bye_received o) (bye_sent o) (total_bytes_sent o) (last_bytes_sent o).
Definition set_last_rx_time (d : double) (o : OnCallBase) : OnCallBase :=
  MkCall (last_tx_time o) d (bye_received o) (bye_sent o) (total_bytes_sent o) (last_bytes_sent o).
Definition set_bye_received (b : bool) (o : OnCallBase) : OnCallBase :=
  MkCall (last_tx_time o) (last_rx_time o) b (bye_sent o) (total_bytes_sent o) (last_bytes_sent o).
Definition set_bye_sent (b : bool) (o : OnCallBase) : OnCallBase :=
  MkCall (last_tx_time o) (last_rx_time o) (bye_received o) b (total_bytes_sent o) (last_bytes_sent o).

Section OnCallState.
Context {HC : IridiumHeaderCodec} {TR : BoostTrim}.
Variable crc32 : bytes -> Z.

(** the constructor of [OnCall] *)
Definition enter_on_call (now : double) (f : Fsm) : Fsm * OnCallBase * list Event :=
  (push_serial_front (B "goby" ++ [13]) f, new_call now, [EvOnline]).

(** [OnCall::in_state_react(const EvRxOnCallSerial&)]; a bad packet is dropped *)
Definition on_call_rx (now : double) (line : bytes) (f : Fsm) (o : OnCallBase)
  : result reaction_exception (Fsm * OnCallBase * list Event) :=
  if contains (B "NO CARRIER") line then Ok (f, o, [EvNoCarrier])
  else if bool_decide (boost_trim line = B "goby") then Ok (f, o, [])
  else if bool_decide (boost_trim line = B "bye") then Ok (f, set_bye_received true o, [])
  else
    match parse_rudics_packet crc32 line default_reserved true with
    | Err _ => Ok (f, o, [])
    | Ok bs =>
        match parse_iridium_modem_message bs with
        | None => Err DCCLError
        | Some msg => Ok (push_received msg f, set_last_rx_time now o, [])
        end
    end.

(** [OnCall::in_state_react(const EvTxOnCallSerial&)] *)
Definition on_call_tx (target_bit_rate : Z) (now : double) (f : Fsm) (o : OnCallBase)
  : result reaction_exception (Fsm * OnCallBase) :=
  let target_byte_rate := ddiv (double_of_Z target_bit_rate) (double_of_Z 8) in
  let send_wait := ddiv (double_of_Z (last_bytes_sent o)) target_byte_rate in
  match data_out f with
  | m :: rest =>
      if dlt (dadd (last_tx_time o) send_wait) now
      then
        match serialize_iridium_modem_message m with
        | None => Err DCCLError
        | Some bs =>
            let pkt := serialize_rudics_packet crc32 bs default_reserved true in
            let f := push_serial pkt f in
            Ok (MkFsm (serial_tx_buffer f) (received f) rest,
                set_last_tx_time now (set_last_bytes_sent (s32 (Z.of_nat (length pkt))) o))
        end
      else Ok (f, o)
  | [] => Ok (f, o)
  end.

(** [OnCall::in_state_react(const EvSendBye&)] *)
Definition on_call_send_bye (f : Fsm) (o : OnCallBase) : Fsm * OnCallBase :=
  (push_serial_front (B "bye" ++ [13]) f, set_bye_sent true o).

End OnCallState.

(** ** The SBD region *)

Definition sbd_csum (data : bytes) : Z :=
  fold_left (fun csum b => u32 (csum + Z.land b 255)) data 0.

Inductive SBDState : Type := SBDReady | SBDClearBuffers | SBDWrite | SBDTransmit | SBDReceive.

Record SBD : Type := MkSBD {
  sbd_state : SBDState;
  sbd_data : bytes;
  in_response_to_ring_alert : bool
}.

Definition set_data (data : bytes) : bytes :=
  match data with
  | [] => []
  | _ => let csum := sbd_csum data in
         data ++ [Z.shiftr (Z.land csum 65280) 8; Z.land csum 255]
  end.

Section SBDRegion.
Context {TR : BoostTrim} {TX : BoostText} {LC : LexicalCast}.

(** the destructor of the state left: only [SBDTransmit] has an effect *)
Definition sbd_exit (s : SBD) : SBD :=
  match sbd_state s with
  | SBDTransmit => MkSBD SBDTransmit [] (in_response_to_ring_alert s)
  | _ => s
  end.

(** the constructor of the state entered *)
Definition sbd_enter (st : SBDState) (s : SBD) (c : Command) : SBD * Command * list Event :=
  let s := MkSBD st (sbd_data s) (in_response_to_ring_alert s) in
  match st with
  | SBDReady => (s, c, [])
  | SBDClearBuffers => (s, push_at_command (B "+SBDD2") (clear_sbd_rx_buffer c), [])
  | SBDWrite =>
      match sbd_data s with
      | [] => (s, c, [EvSBDWriteComplete])
      | _ => (s, push_at_command (B "+SBDWB=" ++ as_string (Z.of_nat (length (sbd_data s) - 2))) c, [])
      end
  | SBDTransmit =>
      (s, push_at_command (if in_response_to_ring_alert s then B "+SBDIXA" else B "+SBDIX") c, [])
  | SBDReceive => (s, push_at_command (B "+SBDRB") c, [])
  end.

(** [SBDTransmit::react]: the state that follows a [+SBDI] response *)
Definition after_transmit (sbdi : bytes) : SBDState :=
  let fields := map boost_trim (boost_split (fun c => (c =? 58) || (c =? 44)) sbdi) in
  match fields with
  | [_; mo_status; _; mt_status; _; _; _] =>
      if as_int mo_status <=? 4
      then if as_int mt_status =? 1 then SBDReceive else SBDReady
      else SBDReady
  | _ => SBDReady
  end.

(** the reaction of the region to an event: exit, transition action, entry *)
Definition sbd_react (e : Event) (f : Fsm) (s : SBD) (c : Command) : Fsm * SBD * Command * list Event :=
  match sbd_state s, e with
  | SBDReady, EvSBDBeginData data ring =>
      let '(s, c, ev) := sbd_enter SBDClearBuffers (MkSBD SBDReady (set_data data) ring) c in
      (f, s, c, ev)
  | SBDClearBuffers, EvSBDSendBufferCleared =>
      let '(s, c, ev) := sbd_enter SBDWrite s c in (f, s, c, ev)
  | SBDWrite, EvSBDWriteReady => (push_serial (sbd_data s) f, s, c, [])
  | SBDWrite, EvSBDWriteComplete =>
      let '(s, c, ev) := sbd_enter SBDTransmit s c in (f, s, c, ev)
  | SBDTransmit, EvSBDTransmitComplete sbdi =>
      let '(s, c, ev) := sbd_enter (after_transmit sbdi) (sbd_exit s) c in (f, s, c, ev)
  | SBDReceive, EvSBDReceiveComplete =>
      let '(s, c, ev) := sbd_enter SBDReady s c in (f, s, c, ev)
  | _, _ => (f, s, c, [])
  end.

End SBDRegion.

(** ** What the link carries *)

(** The part of a transmission that the link carries: the header fields, the
    first frame and the first acknowledged frame. *)
Definition carried (m : ModemTransmission) : ModemTransmission :=
  MkTransmission (Some (src m)) (Some (dest m)) None (mt_rate m) (Some (type m)) None None
    (mt_ack_requested m) (List.filter (fun f => negb (bool_decide (f = []))) (take 1 (mt_frame m)))
    (mt_frame_start m) (take 1 (mt_acked_frame m)) None None None.

Section Link.
Context {HC : IridiumHeaderCodec} {HCL : IridiumHeaderLaws} {TR : BoostTrim}.
Variable crc32 : bytes -> Z.
Hypothesis crc32_range : forall s, 0 <= crc32 s < 2 ^ 32.

(** A transmission that the header can describe. *)
Definition sendable (m : ModemTransmission) : Prop :=
  header_in_bounds (header_of m) = true /\ Forall wf_bytes (mt_frame m).

Lemma serialize_sendable m :
  sendable m -> exists bs, serialize_iridium_modem_message m = Some bs /\ wf_bytes bs /\
    parse_iridium_modem_message bs = Some (carried m).
Proof.
  intros [Hh Hf]. destruct (header_encode_total _ Hh) as (b & Eb & Wb).
  unfold serialize_iridium_modem_message, parse_iridium_modem_message, carried. rewrite Eb.
  destruct m as [? ? ? ? ? ? ? ? frames ? acked ? ? ?]. unfold header_of in *; simpl in *.
  eexists. split; [reflexivity|].
  assert (D : forall rest, header_decode (b ++ rest) = Some (_, rest))
    by (intros rest; apply (header_decode_encode _ _ rest Hh Eb)).
  destruct frames as [|fr frames].
  - rewrite <- (app_nil_r b) at 2. rewrite D. split; [done|]. by destruct acked.
  - inversion_clear Hf. rewrite D. split; [by apply wf_bytes_app|].
    destruct acked, fr; reflexivity.
Qed.

Lemma packet_roundtrip m :
  sendable m -> exists bs, serialize_iridium_modem_message m = Some bs /\
    parse_rudics_packet crc32 (serialize_rudics_packet crc32 bs default_reserved true)
      default_reserved true = Ok bs /\
    parse_iridium_modem_message bs = Some (carried m).
Proof.
  intros H. destruct (serialize_sendable m H) as (bs & E & W & P). exists bs. split; [done|].
  split; [|done]. apply rudics_roundtrip; [done | apply default_reserved_wf | done].
Qed.

(** a line that [OnCall] does not take for something else than a packet *)
Definition packet_line (line : bytes) : bool :=
  negb (contains (B "NO CARRIER") line) && negb (bool_decide (boost_trim line = B "goby"))
  && negb (bool_decide (boost_trim line = B "bye")).

Lemma on_call_rx_packet now line bs m f o :
  packet_line line = true ->
  parse_rudics_packet crc32 line default_reserved true = Ok bs ->
  parse_iridium_modem_message bs = Some m ->
  on_call_rx crc32 now line f o = Ok (push_received m f, set_last_rx_time now o, []).
Proof.
  unfold packet_line, on_call_rx. intros H -> ->.
  apply andb_true_iff in H as [H H3]. apply andb_true_iff in H as [H1 H2].
  apply negb_true_iff in H1, H2, H3. by rewrite H1, H2, H3.
Qed.

(** On a call, the front of the data buffer is sent as one packet when the line's rate allows
    it, and a node on a call that reads this packet, unless it looks like a control line, adds to
    its received messages the part of the transmission the link carries (header fields, first frame,
    first acknowledged frame), for every 32 bit CRC and every codec of the header that is faithful
    within the bounds of the fields. *)
Lemma rudics_call_delivers (target_bit_rate : Z) (t t' : double) (m : ModemTransmission)
    (rest : list ModemTransmission) (fa fb : Fsm) (oa ob : OnCallBase) :
  sendable m -> data_out fa = m :: rest ->
  dlt (dadd (last_tx_time oa) (ddiv (double_of_Z (last_bytes_sent oa))
    (ddiv (double_of_Z target_bit_rate) (double_of_Z 8)))) t = true ->
  (length (serial_tx_buffer fa) < SERIAL_BUFFER_CAPACITY)%nat ->
  (length (received fb) < RECEIVED_BUFFER_CAPACITY)%nat ->
  exists pkt fa' oa',
    on_call_tx crc32 target_bit_rate t fa oa = Ok (fa', oa') /\
    serial_tx_buffer fa' = serial_tx_buffer fa ++ [pkt] /\ data_out fa' = rest /\
    last_tx_time oa' = t /\ last_bytes_sent oa' = s32 (Z.of_nat (length pkt)) /\
    (packet_line pkt = true ->
     exists fb' ob', on_call_rx crc32 t' pkt fb ob = Ok (fb', ob', []) /\
       received fb' = received fb ++ [carried m] /\ last_rx_time ob' = t').
Proof.
  intros Hm Hd Ht Ha Hb. destruct (packet_roundtrip m Hm) as (bs & Es & Er & Ep).
  unfold on_call_tx. rewrite Hd, Ht, Es. do 3 eexists. split; [reflexivity|]. simpl.
  rewrite circular_push_room by done. split; [reflexivity|]. do 3 (split; [reflexivity|]).
  intros Hl. rewrite (on_call_rx_packet t' _ bs (carried m)) by done.
  do 2 eexists. split; [reflexivity|]. simpl. by rewrite circular_push_room.
Qed.

(** ** Reception of SBD messages *)

(** the lines read while the response to [+SBDRB] is outstanding *)
Fixpoint feed_lines (lines : list bytes) (f : Fsm) (c : Command) : reaction :=
  match lines with
  | [] => Ok (f, c, [])
  | l :: lines =>
      let? r := command_rx crc32 l f c in
      let '(f, c, ev) := r in
      let? r := feed_lines lines f c in
      let '(f, c, ev') := r in
      Ok (f, c, ev ++ ev')
  end.

(** what the modem sends: the size on two bytes, the packet, and what follows *)
Definition mt_message (pkt tail : bytes) : bytes :=
  [Z.shiftr (Z.of_nat (length pkt)) 8; Z.land (Z.of_nat (length pkt)) 255] ++ pkt ++ tail.

(** the buffer after a line *)
Definition absorb (buffer line : bytes) : bytes :=
  match buffer, line with
  | [], c0 :: rest => if c0 =? 10 then rest else line
  | _, _ => buffer ++ line
  end.

Lemma sbd_rx_size_mt pkt tail buffer :
  Z.of_nat (length pkt) < 65536 -> buffer `prefix_of` mt_message pkt tail -> (2 <= length buffer)%nat ->
  sbd_rx_size buffer = length pkt.
Proof.
  intros Hn [k E] Hl. destruct buffer as [|a [|b buffer]]; [simpl in Hl; lia..|].
  unfold mt_message in E. injection E as <- <- _. unfold sbd_rx_size.
  set (n := length pkt) in *. rewrite !Z.shiftr_div_pow2 by lia. change 255 with (Z.ones 8).
  rewrite !Z.land_ones by lia.
  rewrite lor_shiftl_add by (lia || (apply Z.mod_pos_bound; lia)).
  change (2 ^ 8) with 256. rewrite Z.mod_mod by lia.
  rewrite (Z.mod_small (Z.of_nat n / 256)) by (split; [apply Z.div_pos | apply Z.div_lt_upper_bound]; lia).
  pose proof (Z.div_mod (Z.of_nat n) 256 ltac:(lia)). lia.
Qed.

Lemma rx_sbd line f c :
  front_at c = Some (B "+SBDRB") -> line <> [] ->
  command_rx crc32 line f c =
    let buffer := absorb (sbd_rx_buffer c) line in
    let c := MkCommand (at_out c) buffer in
    if (length buffer <? 2)%nat then Ok (f, c, [])
    else
      let n := sbd_rx_size buffer in
      if (length buffer <? 2 + n)%nat then Ok (f, c, [])
      else
        match parse_rudics_packet crc32 (take n (drop 2 buffer)) default_reserved true with
        | Err e => Err (PacketError e)
        | Ok bs =>
            match parse_iridium_modem_message bs with
            | None => Err DCCLError
            | Some msg => Ok (push_received msg f, push_at_command [] (pop_at c), [EvSBDReceiveComplete])
            end
        end.
Proof.
  intros Hf Hl. unfold command_rx. rewrite bool_decide_true by done. unfold handle_sbd_rx, absorb.
  destruct (sbd_rx_buffer c), line; done.
Qed.

Lemma rx_sbd_partial line f c pkt tail :
  Z.of_nat (length pkt) < 65536 -> front_at c = Some (B "+SBDRB") -> line <> [] ->
  absorb (sbd_rx_buffer c) line `prefix_of` mt_message pkt tail ->
  (length (absorb (sbd_rx_buffer c) line) < 2 + length pkt)%nat ->
  command_rx crc32 line f c = Ok (f, MkCommand (at_out c) (absorb (sbd_rx_buffer c) line), []).
Proof.
  intros Hn Hf Hl Hp Hs. rewrite rx_sbd by done. cbv zeta.
  destruct (_ <? 2)%nat eqn:E2; [done|]. apply Nat.ltb_ge in E2.
  rewrite (sbd_rx_size_mt pkt tail) by done. by rewrite (proj2 (Nat.ltb_lt _ _) Hs).
Qed.

Lemma rx_sbd_complete line f c pkt tail bs m :
  Z.of_nat (length pkt) < 65536 -> front_at c = Some (B "+SBDRB") -> line <> [] ->
  absorb (sbd_rx_buffer c) line = mt_message pkt tail ->
  parse_rudics_packet crc32 pkt default_reserved true = Ok bs ->
  parse_iridium_modem_message bs = Some m ->
  command_rx crc32 line f c =
    Ok (push_received m f, push_at_command [] (MkCommand (drop 1 (at_out c)) (mt_message pkt tail)),
        [EvSBDReceiveComplete]).
Proof.
  intros Hn Hf Hl Ha Hr Hp. rewrite rx_sbd by done. cbv zeta. rewrite Ha.
  rewrite (sbd_rx_size_mt pkt tail) by (done || (unfold mt_message; simpl; lia)).
  replace (_ <? 2)%nat with false by (unfold mt_message; reflexivity).
  replace (_ <? 2 + _)%nat with false
    by (symmetry; apply Nat.ltb_ge; unfold mt_message; simpl; rewrite length_app; lia).
  unfold mt_message at 1. simpl drop. rewrite drop_0, take_app_length, Hr, Hp. done.
Qed.

Lemma feed_cons line lines f c f' c' :
  command_rx crc32 line f c = Ok (f', c', []) ->
  feed_lines (line :: lines) f c = feed_lines lines f' c'.
Proof. intros E. simpl. rewrite E. simpl. by destruct (feed_lines lines f' c') as [[[? ?] ?]|]. Qed.

Lemma absorb_later buffer line : buffer <> [] -> absorb buffer line = buffer ++ line.
Proof. by destruct buffer. Qed.

(** pieces that leave the message incomplete are only accumulated *)
Lemma feed_partial pkt tail init : forall f c more,
  Z.of_nat (length pkt) < 65536 -> front_at c = Some (B "+SBDRB") -> sbd_rx_buffer c <> [] ->
  Forall (fun p => p <> []) init ->
  sbd_rx_buffer c ++ concat init `prefix_of` mt_message pkt tail ->
  (length (sbd_rx_buffer c ++ concat init) < 2 + length pkt)%nat ->
  feed_lines (init ++ more) f c
  = feed_lines more f (MkCommand (at_out c) (sbd_rx_buffer c ++ concat init)).
Proof.
  induction init as [|p init IH]; intros f c more Hn Hf Hb Hne Hp Hl; simpl concat in *.
  - rewrite app_nil_r. by destruct c.
  - inversion_clear Hne. rewrite app_assoc in *. simpl app.
    rewrite (feed_cons _ _ f c f (MkCommand (at_out c) (sbd_rx_buffer c ++ p))).
    + apply IH; try done. simpl. by destruct (sbd_rx_buffer c).
    + rewrite <- (absorb_later _ p Hb).
      apply (rx_sbd_partial _ _ _ pkt tail); try done; rewrite absorb_later by done.
      * etransitivity; [|exact Hp]. by apply prefix_app_r.
      * rewrite length_app in Hl. lia.
Qed.

(** the lines of a message: a new line left over from the command may come first *)
Definition with_newline (nl : bool) (pieces : list bytes) : list bytes :=
  match pieces with
  | p :: pieces => (if nl then 10 :: p else p) :: pieces
  | [] => []
  end.

(** the size of a packet below 2560 bytes does not start with a new line *)
Lemma absorb_first (nl : bool) p rest pkt tail :
  p <> [] -> Z.of_nat (length pkt) < 2560 -> p ++ rest = mt_message pkt tail ->
  absorb [] (if nl then 10 :: p else p) = p.
Proof.
  intros Hp Hn E. destruct nl; [done|]. destruct p as [|x p]; [done|]. injection E as -> _. simpl.
  assert (H : Z.shiftr (Z.of_nat (length pkt)) 8 <> 10).
  { rewrite Z.shiftr_div_pow2 by lia. apply Z.lt_neq, Z.div_lt_upper_bound; lia. }
  by rewrite (proj2 (Z.eqb_neq _ _) H).
Qed.

(** the pieces of a message, read from an empty buffer *)
Lemma feed_message pkt tail bs m nl init lst f c :
  Z.of_nat (length pkt) < 2560 ->
  parse_rudics_packet crc32 pkt default_reserved true = Ok bs ->
  parse_iridium_modem_message bs = Some m ->
  concat (init ++ [lst]) = mt_message pkt tail -> Forall (fun p => p <> []) (init ++ [lst]) ->
  (length (concat init) < 2 + length pkt)%nat ->
  front_at c = Some (B "+SBDRB") -> sbd_rx_buffer c = [] ->
  feed_lines (with_newline nl (init ++ [lst])) f c =
    Ok (push_received m f,
        push_at_command [] (MkCommand (drop 1 (at_out c)) (mt_message pkt tail)),
        [EvSBDReceiveComplete]).
Proof.
  intros Hn Hr Hp Hcat Hne Hlen Hf Hb. destruct init as [|p init].
  - simpl in Hcat, Hne |- *. inversion_clear Hne.
    rewrite (rx_sbd_complete _ f c pkt tail bs m); try done; [lia | by destruct nl |].
    rewrite Hb, (absorb_first nl lst [] pkt tail) by done. by rewrite app_nil_r in Hcat.
  - simpl in Hcat, Hne, Hlen |- *. inversion_clear Hne as [|? ? Hp0 Hne'].
    apply Forall_app in Hne' as [Hi Hl]. inversion_clear Hl.
    rewrite concat_app in Hcat. simpl in Hcat. rewrite app_nil_r in Hcat. rewrite length_app in Hlen.
    pose proof (absorb_first nl p _ pkt tail Hp0 Hn Hcat) as Ha.
    assert (Hpre : p ++ concat init `prefix_of` mt_message pkt tail)
      by (rewrite <- Hcat, app_assoc; by apply prefix_app_r).
    assert (E : command_rx crc32 (if nl then 10 :: p else p) f c = Ok (f, MkCommand (at_out c) p, [])).
    { rewrite (rx_sbd_partial _ f c pkt tail); rewrite ?Hb, ?Ha; try done; [lia | by destruct nl | | lia].
      etransitivity; [|exact Hpre]. by apply prefix_app_r. }
    pose proof (feed_cons _ (init ++ [lst]) _ _ _ _ E) as E'. simpl in E'. rewrite E'.
    rewrite (feed_partial pkt tail); try done; [|lia | simpl; rewrite length_app; lia]. simpl.
    rewrite (rx_sbd_complete lst f _ pkt tail bs m); try done; [lia|].
    simpl. rewrite absorb_later by (destruct p; done). by rewrite <- app_assoc.
Qed.

(** A short burst message that the modem delivers in any number of pieces, with or without a
    new line left over from the command, is received when its last piece arrives, and not before:
    the message is added once, the AT command is popped and the completion event is posted. It holds
    for packets below 2560 bytes, whose size cannot start with a new line. *)
Lemma sbd_message_reassembled (m : ModemTransmission) (bs tail lst : bytes) (nl : bool)
    (init : list bytes) (f : Fsm) (c : Command) :
  let pkt := serialize_rudics_packet crc32 bs default_reserved true in
  sendable m -> serialize_iridium_modem_message m = Some bs ->
  Z.of_nat (length pkt) < 2560 ->
  concat (init ++ [lst]) = mt_message pkt tail -> Forall (fun p => p <> []) (init ++ [lst]) ->
  (length (concat init) < 2 + length pkt)%nat ->
  front_at c = Some (B "+SBDRB") -> sbd_rx_buffer c = [] ->
  feed_lines (with_newline nl (init ++ [lst])) f c =
    Ok (push_received (carried m) f,
        push_at_command [] (MkCommand (drop 1 (at_out c)) (mt_message pkt tail)),
        [EvSBDReceiveComplete]).
Proof.
  intros pkt Hm Hs Hn Hcat Hne Hlen Hf Hb.
  destruct (packet_roundtrip m Hm) as (bs' & Es & Er & Ep). rewrite Hs in Es. injection Es as <-.
  by apply (feed_message pkt tail bs).
Qed.

End Link.

(** ** Retries of AT commands *)

Definition expired (meta : ATSentenceMeta) (cmd : bytes) (now : double) : Prop :=
  dlt (dadd (last_send_time meta) (double_of_Z (command_timeout cmd))) now = true.

(** the transmit events at the given times, with no answer in between *)
Fixpoint tx_at (times : list double) (f : Fsm) (c : Command) : Fsm * Command * list Event :=
  match times with
  | [] => (f, c, [])
  | t :: times =>
      let '(f, c, ev) := command_tx t f c in
      let '(f, c, ev') := tx_at times f c in
      (f, c, ev ++ ev')
  end.

Lemma command_tx_send now f c meta cmd rest :
  at_out c = (meta, cmd) :: rest -> expired meta cmd now -> tries meta < RETRIES_BEFORE_RESET ->
  exists buffer, command_tx now f c =
    (push_serial (at_command cmd) f, MkCommand ((MkAT now (tries meta + 1), cmd) :: rest) buffer, []).
Proof.
  unfold command_tx, expired. intros -> -> H. eexists.
  by replace (RETRIES_BEFORE_RESET <? tries meta + 1) with false by (symmetry; apply Z.ltb_ge; lia).
Qed.

Lemma command_tx_wait now f c meta cmd rest :
  at_out c = (meta, cmd) :: rest -> ~ expired meta cmd now ->
  exists buffer, command_tx now f c = (f, MkCommand (at_out c) buffer, []).
Proof.
  unfold command_tx, expired. intros -> H. apply not_true_is_false in H. rewrite H. eauto.
Qed.

Lemma command_tx_reset now f c meta cmd rest :
  at_out c = (meta, cmd) :: rest -> expired meta cmd now -> RETRIES_BEFORE_RESET <= tries meta ->
  exists c', command_tx now f c = (f, c', [EvReset]).
Proof.
  unfold command_tx, expired. intros -> -> H. eexists.
  by replace (RETRIES_BEFORE_RESET <? tries meta + 1) with true by (symmetry; apply Z.ltb_lt; lia).
Qed.

(** An AT command that is never answered is written to the modem three times, each when the
    previous one has timed out, and after the third time out the state machine is reset instead of
    the command being written again. *)
Lemma unanswered_command_resets (t1 t2 t3 t4 : double) (cmd : bytes)
    (rest : list (ATSentenceMeta * bytes)) (buffer : bytes) (f : Fsm) :
  expired new_meta cmd t1 -> expired (MkAT t1 1) cmd t2 -> expired (MkAT t2 2) cmd t3 ->
  expired (MkAT t3 3) cmd t4 ->
  exists c', tx_at [t1; t2; t3; t4] f (MkCommand ((new_meta, cmd) :: rest) buffer) =
    (push_serial (at_command cmd) (push_serial (at_command cmd) (push_serial (at_command cmd) f)),
     c', [EvReset]).
Proof.
  intros H1 H2 H3 H4. unfold tx_at.
  edestruct command_tx_send as [b1 ->]; [reflexivity | exact H1 | done|].
  edestruct command_tx_send as [b2 ->]; [reflexivity | exact H2 | done|].
  edestruct command_tx_send as [b3 ->]; [reflexivity | exact H3 | done|].
  edestruct command_tx_reset as [c' ->]; [reflexivity | exact H4 | done|]. eauto.
Qed.

(** ** Evaluation *)

Module IridiumWitness.
#[local] Existing Instance NmeaWitness.trim.

(** a header of thirteen bytes: an absent optional field has a zero flag *)
Definition opt_bytes (o : option Z) : bytes :=
  match o with Some v => [1; v / 256; v mod 256] | None => [0; 0; 0] end.
Definition opt_of (a b c : Z) : option Z := if a =? 1 then Some (256 * b + c) else None.

Definition type_code (t : TransmissionType) : Z :=
  match t with UNKNOWN => 0 | DATA => 1 | ACK => 2 | DRIVER_SPECIFIC => 3 end.
Definition type_of (z : Z) : TransmissionType :=
  if z =? 1 then DATA else if z =? 2 then ACK else if z =? 3 then DRIVER_SPECIFIC else UNKNOWN.

Definition ack_code (o : option bool) : Z :=
  match o with None => 0 | Some false => 1 | Some true => 2 end.
Definition ack_of (z : Z) : option bool :=
  if z =? 1 then Some false else if z =? 2 then Some true else None.

Definition encode_header (h : IridiumHeader) : bytes :=
  [h_src h; h_dest h; type_code (h_type h); ack_code (h_ack_requested h)]
  ++ opt_bytes (h_rate h) ++ opt_bytes (h_frame_start h) ++ opt_bytes (h_acked_frame h).

Definition decode_header (s : bytes) : option (IridiumHeader * bytes) :=
  match s with
  | sr :: de :: t :: a :: r1 :: r2 :: r3 :: f1 :: f2 :: f3 :: k1 :: k2 :: k3 :: rest =>
      Some (MkHeader sr de (opt_of r1 r2 r3) (type_of t) (ack_of a) (opt_of f1 f2 f3) (opt_of k1 k2 k3),
            rest)
  | _ => None
  end.

#[local] Instance codec : IridiumHeaderCodec :=
  {| header_encode := fun h => Some (encode_header h); header_decode := decode_header |}.

Lemma opt_bytes_of o :
  exists a b c, opt_bytes o = [a; b; c] /\ opt_of a b c = o.
Proof.
  destruct o as [v|]; [|by exists 0, 0, 0]. exists 1, (v / 256), (v mod 256). split; [done|].
  unfold opt_of. simpl. f_equal. symmetry. apply Z.div_mod. lia.
Qed.

Lemma opt_bytes_wf m (o : option Z) :
  m <= 65535 -> match o with Some v => (0 <=? v) && (v <=? m) | None => true end = true ->
  wf_bytes (opt_bytes o).
Proof.
  intros Hm H. destruct o as [v|]; repeat constructor; to_prop; try lia;
    try apply Z.mod_pos_bound; try (apply Z.div_pos; lia); try (apply Z.div_lt_upper_bound; lia); lia.
Qed.

#[local] Instance codec_laws : IridiumHeaderLaws.
Proof.
  constructor.
  - intros h H. eexists. split; [reflexivity|]. unfold header_in_bounds in H.
    repeat match type of H with _ && _ = true => let H' := fresh in apply andb_true_iff in H as [H H'] end.
    to_prop. repeat (apply wf_bytes_app; split);
      try (eapply opt_bytes_wf; [|eassumption]; lia).
    repeat constructor; try lia; destruct h as [? ? ? [] [[]|] ? ?]; simpl; lia.
  - intros [sr de r t a fs k] b rest _ [= <-]. unfold encode_header. simpl.
    destruct (opt_bytes_of r) as (? & ? & ? & -> & Hr), (opt_bytes_of fs) as (? & ? & ? & -> & Hf),
      (opt_bytes_of k) as (? & ? & ? & -> & Hk). simpl. rewrite Hr, Hf, Hk.
    repeat f_equal; [by destruct t | by destruct a as [[]|]].
Qed.

Definition data_message : ModemTransmission :=
  set_mt_frame [B "hello"] (set_mt_frame_start (Some 7) (set_mt_rate (Some 1)
    (set_mt_type (Some DATA) (set_mt_dest (Some 2) (set_mt_src (Some 1) empty_transmission))))).

Lemma data_message_sendable : sendable data_message.
Proof. split; [reflexivity | repeat constructor; lia]. Qed.

Lemma crc_sum_range s : 0 <= crc_sum s < 2 ^ 32.
Proof. apply wrap_bound. lia. Qed.

Definition at_time (z : Z) : double := double_of_Z z.

Example rudics_call_delivers_witness :
  exists pkt fa' oa',
    on_call_tx crc_sum 2400 (at_time 20) (MkFsm [] [] [data_message]) (new_call (at_time 10)) = Ok (fa', oa') /\
    serial_tx_buffer fa' = [] ++ [pkt] /\ data_out fa' = [] /\
    last_tx_time oa' = at_time 20 /\ last_bytes_sent oa' = s32 (Z.of_nat (length pkt)) /\
    (packet_line pkt = true ->
     exists fb' ob', on_call_rx crc_sum (at_time 21) pkt new_fsm (new_call (at_time 10)) = Ok (fb', ob', []) /\
       received fb' = [] ++ [carried data_message] /\ last_rx_time ob' = at_time 21).
Proof.
  apply (rudics_call_delivers crc_sum crc_sum_range 2400 (at_time 20) (at_time 21) data_message []
           (MkFsm [] [] [data_message]) new_fsm (new_call (at_time 10)) (new_call (at_time 10))).
  - exact data_message_sendable.
  - reflexivity.
  - vm_compute. reflexivity.
  - simpl. unfold SERIAL_BUFFER_CAPACITY. lia.
  - simpl. unfold RECEIVED_BUFFER_CAPACITY. lia.
Qed.

(** the packet of this message is one the receiver takes for a packet *)
Example data_packet_line :
  packet_line (serialize_rudics_packet crc_sum (encode_header (header_of data_message) ++ B "hello")
    default_reserved true) = true.
Proof. vm_compute. reflexivity. Qed.

Definition data_packet : bytes :=
  serialize_rudics_packet crc_sum (encode_header (header_of data_message) ++ B "hello") default_reserved true.

Definition reading : Command := MkCommand [(MkAT (at_time 0) 1, B "+SBDRB")] [].

(** the message in two pieces, the second with the checksum *)
Definition piece1 : bytes := take 10 (mt_message data_packet [7; 7]).
Definition piece2 : bytes := drop 10 (mt_message data_packet [7; 7]).

Example sbd_message_reassembled_witness :
  feed_lines crc_sum (with_newline true ([piece1] ++ [piece2])) new_fsm reading =
    Ok (push_received (carried data_message) new_fsm,
        push_at_command [] (MkCommand (drop 1 (at_out reading)) (mt_message data_packet [7; 7])),
        [EvSBDReceiveComplete]).
Proof.
  apply (sbd_message_reassembled crc_sum crc_sum_range data_message
           (encode_header (header_of data_message) ++ B "hello") [7; 7] piece2 true [piece1] new_fsm reading).
  - exact data_message_sendable.
  - reflexivity.
  - vm_compute. reflexivity.
  - vm_compute. reflexivity.
  - repeat constructor; vm_compute; discriminate.
  - apply Nat.ltb_lt. vm_compute. reflexivity.
  - reflexivity.
  - reflexivity.
Qed.

(** a transmit event between the pieces discards the first one: the rest is
    then read as a message of another size, and nothing is received *)
Example sbd_split_message_lost :
  let '(f, c, _) := command_tx (at_time 1) new_fsm (MkCommand (at_out reading) piece1) in
  (exists c', command_rx crc_sum piece1 new_fsm reading = Ok (new_fsm, c', []) /\
     c' = MkCommand (at_out reading) piece1) /\
  exists c', command_rx crc_sum piece2 f c = Ok (f, c', []).
Proof. vm_compute. split; [eexists; split; reflexivity | eexists; reflexivity]. Qed.

Example unanswered_command_resets_witness :
  exists c', tx_at [at_time 3; at_time 6; at_time 9; at_time 12] new_fsm
      (MkCommand [(new_meta, B "+CEER")] []) =
    (push_serial (at_command (B "+CEER")) (push_serial (at_command (B "+CEER"))
       (push_serial (at_command (B "+CEER")) new_fsm)), c', [EvReset]).
Proof.
  apply (unanswered_command_resets (at_time 3) (at_time 6) (at_time 9) (at_time 12)); vm_compute; reflexivity.
Qed.

End IridiumWitness.
