(* ===== verification/IridiumFsm.v ===== *)
(** * acomms/modemdriver/iridium_driver_fsm.{h,cpp}: the whole state machine

    The reactions of [Iridium] put together the way the state chart composes
    them: [Active] holds the region of the command interpreter ([Command], with
    its own region for short burst data, or [Online]) and the region of the call
    ([NotOnCall] or [OnCall]). An event goes to the first active state that has
    a reaction to it, from the innermost state of the first region outwards and
    then on to the next region; a transition runs the destructors of the states
    it leaves and the constructors of those it enters; posted events are
    processed in order before [process_event] returns. This is the documented
    behaviour of Boost.Statechart for the features the machine uses. *)

From Stdlib Require Import SpecFloat.
From S2P Require Import Prelude Double Time As Proto BaseConvert Rudics Nmea Iridium.

(** ** States *)

Inductive CommandState : Type :=
| Configure | Ready | HangingUp | PostDisconnected | Dial (dial_attempts : Z) | Answer.

(** [Command] with the states of its two regions *)
Record CommandRegion : Type := MkRegion {
  command : Command;
  command_state : CommandState;
  sbd : SBD
}.

(** [NoState]: the machine has not been initiated, or an exception has left a
    reaction and terminated it *)
Inductive ActiveRegion : Type :=
| InCommand (r : CommandRegion)
| Online
| NoState.

(** [call]: [NotOnCall] or [OnCall] with its data *)
Record Machine : Type := MkMachine {
  fsm : Fsm;
  region : ActiveRegion;
  call : option OnCallBase
}.

(** the part of the configuration that the machine reads *)
Record IridiumConfig : Type := MkIridiumConfig {
  config : list bytes;
  iridium_number : bytes;
  dial_attempts_max : Z;
  target_bit_rate : Z
}.

Definition push_commands (l : list bytes) (c : Command) : Command := fold_left (fun c s => push_at_command s c) l c.

Definition new_command : Command := MkCommand [] [].
Definition new_sbd : SBD := MkSBD SBDReady [] false.

Section Machine.
Context {HC : IridiumHeaderCodec} {TR : BoostTrim} {TX : BoostText} {LC : LexicalCast}.
Variables (crc32 : bytes -> Z) (cfg : IridiumConfig).

(** the constructors of the states of [Command], in a [Command] that exists *)
Definition enter_command_state (st : CommandState) (c : Command) : Command * CommandState :=
  match st with
  | Configure => (push_commands ([] :: config cfg) c, Configure)
  | HangingUp => (push_commands [B "+++"; B "H"] c, HangingUp)
  | PostDisconnected => (push_commands [B "+CEER"] c, PostDisconnected)
  | Dial _ => (push_commands [B "D" ++ iridium_number cfg] c, Dial 1)
  | Answer => (push_commands [B "A"] c, Answer)
  | Ready => (c, Ready)
  end.

(** entering [Command] with [st] in its first region *)
Definition enter_command (st : CommandState) : CommandRegion :=
  let '(c, st) := enter_command_state st new_command in MkRegion c st new_sbd.

(** the events the destructors post *)
Definition leave_command_state (st : CommandState) : list Event :=
  match st with Configure => [EvConfigured] | _ => [] end.
Definition leave_region (a : ActiveRegion) : list Event :=
  match a with InCommand r => leave_command_state (command_state r) | _ => [] end.
Definition leave_call (o : option OnCallBase) : list Event :=
  match o with Some _ => [EvDisconnect] | None => [] end.

(** the machine when it is initiated *)
Definition active (f : Fsm) : Machine := MkMachine f (InCommand (enter_command Configure)) None.

Abbreviation reacted := (option (result reaction_exception (Machine * list Event))).

(** a transition within the first region of [Command] *)
Definition transit (m : Machine) (r : CommandRegion) (st : CommandState) : Machine * list Event :=
  let '(c, st') := enter_command_state st (command r) in
  (MkMachine (fsm m) (InCommand (MkRegion c st' (sbd r))) (call m), leave_command_state (command_state r)).

(** [Dial::react(const EvNoCarrier&)] *)
Definition dial_no_carrier (m : Machine) (r : CommandRegion) (attempts : Z) : Machine * list Event :=
  if attempts <? dial_attempts_max cfg
  then (MkMachine (fsm m)
          (InCommand (MkRegion (push_at_command (B "D" ++ iridium_number cfg) (command r))
                        (Dial (s32 (attempts + 1))) (sbd r))) (call m), [])
  else transit m r Ready.

(** the reactions of the states in the first region of [Command] *)
Definition command_state_react (m : Machine) (r : CommandRegion) (e : Event) : reacted :=
  match command_state r, e with
  | Configure, EvAtEmpty | HangingUp, EvAtEmpty | PostDisconnected, EvAtEmpty => Some (Ok (transit m r Ready))
  | Ready, EvRing => Some (Ok (transit m r Answer))
  | Ready, EvDial => Some (Ok (match call m with None => transit m r (Dial 0) | Some _ => (m, []) end))
  | Dial n, EvNoCarrier => Some (Ok (dial_no_carrier m r n))
  | Answer, EvNoCarrier => Some (Ok (transit m r Ready))
  | _, _ => None
  end.

(** the reactions of [Command] itself *)
Definition command_react (now : double) (m : Machine) (r : CommandRegion) (e : Event) : reacted :=
  let back (x : Fsm * Command * list Event) :=
    let '(f, c, ev) := x in (MkMachine f (InCommand (MkRegion c (command_state r) (sbd r))) (call m), ev) in
  match e with
  | EvRxSerial line =>
      Some (match command_rx crc32 line (fsm m) (command r) with Ok x => Ok (back x) | Err x => Err x end)
  | EvTxSerial => Some (Ok (back (command_tx now (fsm m) (command r))))
  | EvAck response =>
      Some (Ok (let '(c, ev) := command_ack response (command r) in back (fsm m, c, ev)))
  | EvOnline => Some (Ok (MkMachine (fsm m) Online (call m), leave_region (region m)))
  | _ => None
  end.

(** whether a state of the SBD region has a reaction *)
Definition sbd_reacts (st : SBDState) (e : Event) : bool :=
  match st, e with
  | SBDReady, EvSBDBeginData _ _ | SBDClearBuffers, EvSBDSendBufferCleared
  | SBDWrite, EvSBDWriteReady | SBDWrite, EvSBDWriteComplete
  | SBDTransmit, EvSBDTransmitComplete _ | SBDReceive, EvSBDReceiveComplete => true
  | _, _ => false
  end.

Definition sbd_region_react (m : Machine) (r : CommandRegion) (e : Event) : reacted :=
  if sbd_reacts (sbd_state (sbd r)) e
  then let '(f, s, c, ev) := sbd_react e (fsm m) (sbd r) (command r) in
       Some (Ok (MkMachine f (InCommand (MkRegion c (command_state r) s)) (call m), ev))
  else None.

(** the reactions of [Online] *)
Definition online_react (m : Machine) (e : Event) : reacted :=
  match e with
  | EvHangup => Some (Ok (MkMachine (fsm m) (InCommand (enter_command HangingUp)) (call m), []))
  | EvDisconnect => Some (Ok (MkMachine (fsm m) (InCommand (enter_command PostDisconnected)) (call m), []))
  | EvRxSerial line => Some (Ok (m, [EvRxOnCallSerial line]))
  | EvTxSerial => Some (Ok (m, [EvTxOnCallSerial]))
  | _ => None
  end.

(** the reactions of the region of the call *)
Definition call_react (now : double) (m : Machine) (e : Event) : reacted :=
  match call m, e with
  | None, EvConnect =>
      let '(f, o, ev) := enter_on_call now (fsm m) in Some (Ok (MkMachine f (region m) (Some o), ev))
  | Some o, EvNoCarrier => Some (Ok (MkMachine (fsm m) (region m) None, leave_call (Some o)))
  | Some o, EvRxOnCallSerial line =>
      Some (match on_call_rx crc32 now line (fsm m) o with
            | Ok (f, o, ev) => Ok (MkMachine f (region m) (Some o), ev)
            | Err x => Err x
            end)
  | Some o, EvTxOnCallSerial =>
      Some (match on_call_tx crc32 (target_bit_rate cfg) now (fsm m) o with
            | Ok (f, o) => Ok (MkMachine f (region m) (Some o), [])
            | Err x => Err x
            end)
  | Some o, EvSendBye =>
      let '(f, o) := on_call_send_bye (fsm m) o in Some (Ok (MkMachine f (region m) (Some o), []))
  | _, _ => None
  end.

(** the reaction of [Active] *)
Definition active_react (m : Machine) (e : Event) : reacted :=
  match e with
  | EvReset => Some (Ok (active (fsm m), leave_region (region m) ++ leave_call (call m)))
  | _ => None
  end.

Definition or_else (a b : reacted) : reacted := match a with Some _ => a | None => b end.

(** one event: the first state with a reaction, or nothing *)
Definition react (now : double) (m : Machine) (e : Event) : result reaction_exception (Machine * list Event) :=
  let reaction :=
    match region m with
    | InCommand r =>
        or_else (command_state_react m r e) (or_else (command_react now m r e)
          (or_else (active_react m e) (or_else (sbd_region_react m r e) (call_react now m e))))
    | Online => or_else (online_react m e) (or_else (active_react m e) (call_react now m e))
    | NoState => None
    end in
  match reaction with
  | Some r => r
  | None => Ok (m, [])
  end.

(** [process_event]: the event, then the events posted, in order *)
Fixpoint process_queue (fuel : nat) (now : double) (m : Machine) (q : list Event)
  : option (result reaction_exception Machine) :=
  match q with
  | [] => Some (Ok m)
  | e :: q =>
      match fuel with
      | O => None
      | S fuel =>
          match react now m e with
          | Err x => Some (Err x)
          | Ok (m, posted) => process_queue fuel now m (q ++ posted)
          end
      end
  end.

(** what an event can lead to: its own reaction and those of the events it posts *)
Definition weight (e : Event) : nat :=
  match e with
  | EvRxSerial _ => 10
  | EvAck _ => 6
  | EvTxSerial => 4
  | EvReset | EvConnect | EvRxOnCallSerial _ => 3
  | EvOnline | EvSBDSendBufferCleared | EvNoCarrier | EvAtEmpty => 2
  | _ => 1
  end.

Definition EVENT_FUEL : nat := 10.

Definition process_event (now : double) (m : Machine) (e : Event) : option (result reaction_exception Machine) :=
  process_queue EVENT_FUEL now m [e].

(** ** Processing ends *)

Fixpoint total (q : list Event) : nat :=
  match q with [] => 0 | e :: q => weight e + total q end.

Lemma total_app q q' : total (q ++ q') = (total q + total q')%nat.
Proof. induction q as [|e q IH]; cbn; [done|]. rewrite IH. lia. Qed.

Lemma leave_region_weight a : (total (leave_region a) <= 1)%nat.
Proof. destruct a as [r| |]; [|simpl; lia..]. cbn. destruct (command_state r); cbn; lia. Qed.

Lemma ack_front_weight response c c' ev : ack_front response c = (c', ev) -> (total ev <= 5)%nat.
Proof.
  unfold ack_front. destruct (at_out c) as [|[? last_at] rest]; intros [= _ <-]; [cbn; lia|].
  rewrite !total_app. 
  assert (E1 : (total (if bool_decide (response = B "OK")
                then match last_at with 72%Z :: _ | 68%Z :: _ => [EvNoCarrier] | _ => [] end else []) <= 2)%nat).
  { destruct (bool_decide _); [|cbn; repeat constructor]. repeat case_match; cbn; repeat constructor. }
  assert (E2 : (total (if bool_decide (response = B "READY") then [EvSBDWriteReady] else []) <= 1)%nat).
  { destruct (bool_decide (response = B "READY")); cbn; repeat constructor. }
  assert (E3 : (total (match rest with [] => [EvAtEmpty] | _ => [] end) <= 2)%nat) by (destruct rest; cbn; repeat constructor).
  exact (Nat.add_le_mono _ _ _ _ E1 (Nat.add_le_mono _ _ _ _ E2 E3)).
Qed.

Lemma command_ack_weight response c c' ev : command_ack response c = (c', ev) -> (total ev <= 5)%nat.
Proof.
  unfold command_ack. intros H. repeat case_match; try (by apply ack_front_weight in H);
    injection H as <- <-; cbn; lia.
Qed.

Lemma command_rx_weight line f c f' c' ev : command_rx crc32 line f c = Ok (f', c', ev) -> (total ev <= 9)%nat.
Proof.
  unfold command_rx, handle_sbd_rx, rbind. intros H.
  repeat case_match; simplify_eq; cbn; lia.
Qed.

Lemma command_state_react_weight m r e m' ev :
  command_state_react m r e = Some (Ok (m', ev)) -> (S (total ev) <= weight e)%nat.
Proof.
  unfold command_state_react, dial_no_carrier. intros H.
  repeat case_match; simplify_eq; cbn [weight]; try (cbn; lia);
    match goal with H : command_state r = _ |- _ => rewrite H; cbn; lia end.
Qed.

Lemma command_react_weight now m r e m' ev :
  command_react now m r e = Some (Ok (m', ev)) -> (S (total ev) <= weight e)%nat.
Proof.
  unfold command_react. intros H. destruct e; try done; cbn [weight].
  - destruct (command_rx crc32 line (fsm m) (command r)) as [[[f c] ev']|] eqn:E; simplify_eq.
    apply command_rx_weight in E. lia.
  - unfold command_tx in H. repeat case_match; simplify_eq; cbn; lia.
  - destruct (command_ack response (command r)) as [c ev'] eqn:E. simplify_eq. apply command_ack_weight in E. lia.
  - simplify_eq. pose proof (leave_region_weight (region m)). lia.
Qed.

Lemma after_transmit_cases sbdi : after_transmit sbdi = SBDReady \/ after_transmit sbdi = SBDReceive.
Proof. unfold after_transmit. repeat case_match; auto. Qed.

Lemma sbd_region_react_weight m r e m' ev :
  sbd_region_react m r e = Some (Ok (m', ev)) -> (S (total ev) <= weight e)%nat.
Proof.
  unfold sbd_region_react, sbd_react. intros H.
  destruct (sbd_state (sbd r)), e; cbn [sbd_reacts] in H; try done; cbn [weight];
    try (unfold sbd_enter in H; repeat case_match; simplify_eq; cbn; lia).
  destruct (after_transmit_cases sbdi) as [E|E]; rewrite E in H; cbn in H; simplify_eq; cbn; lia.
Qed.

Lemma call_react_weight now m e m' ev :
  call_react now m e = Some (Ok (m', ev)) -> (S (total ev) <= weight e)%nat.
Proof.
  unfold call_react, on_call_rx, enter_on_call. intros H. destruct (call m), e; try done; cbn [weight];
    repeat case_match; simplify_eq; cbn; lia.
Qed.

Lemma react_weight now m e m' ev : react now m e = Ok (m', ev) -> (S (total ev) <= weight e)%nat.
Proof.
  intros H.
  assert (Ha : forall m' ev, active_react m e = Some (Ok (m', ev)) -> (S (total ev) <= weight e)%nat).
  { intros m1 ev1. destruct e; try done. intros [= _ <-]. rewrite total_app.
    pose proof (leave_region_weight (region m)). destruct (call m); cbn; lia. }
  assert (Ho : forall m' ev, online_react m e = Some (Ok (m', ev)) -> (S (total ev) <= weight e)%nat).
  { intros m1 ev1. destruct e; try done; intros [= _ <-]; cbn; lia. }
  assert (Hz : (1 <= weight e)%nat) by (destruct e; cbn; lia).
  unfold react, or_else in H. repeat case_match; simplify_eq;
    eauto using command_state_react_weight, command_react_weight, sbd_region_react_weight, call_react_weight.
Qed.

Lemma process_queue_enough now : forall fuel m q,
  (total q <= fuel)%nat -> exists r, process_queue fuel now m q = Some r.
Proof.
  induction fuel as [|fuel IH]; intros m [|e q] H; cbn in *; eauto.
  - destruct e; cbn in H; lia.
  - destruct (react now m e) as [[m' ev]|x] eqn:E; [|eauto]. apply react_weight in E.
    apply IH. rewrite total_app. lia.
Qed.

Lemma process_queue_more now : forall fuel k m q r,
  process_queue fuel now m q = Some r -> process_queue (fuel + k) now m q = Some r.
Proof.
  induction fuel as [|fuel IH]; intros k m [|e q] r H; cbn in *; try done; [by destruct k|].
  destruct (react now m e) as [[m' ev]|x]; [|done]. by apply IH.
Qed.

(** Processing one event, with all the events that its reactions post, ends: at most ten
    reactions run, whatever the state of the machine. *)
Lemma iridium_events_end (now : double) (m : Machine) (e : Event) :
  exists r, forall fuel, (EVENT_FUEL <= fuel)%nat -> process_queue fuel now m [e] = Some r.
Proof.
  destruct (process_queue_enough now EVENT_FUEL m [e]) as [r H].
  - unfold EVENT_FUEL. destruct e; cbn; lia.
  - exists r. intros fuel Hf. replace fuel with (EVENT_FUEL + (fuel - EVENT_FUEL))%nat by lia.
    by apply process_queue_more.
Qed.

(** ** The data terminal is online only during a call *)

(** events that can end a call, now or through an event they post *)
Definition may_drop (e : Event) : bool :=
  match e with
  | EvNoCarrier | EvReset | EvTxSerial | EvRxSerial _ | EvRxOnCallSerial _ => true
  | EvAck response => bool_decide (response = B "OK")
  | _ => false
  end.

(** what the events posted by the reaction to [e] are *)
Definition posts_ok (e : Event) (ev : list Event) : Prop :=
  (EvOnline ∈ ev -> e = EvConnect) /\
  (EvConnect ∈ ev -> (exists line, e = EvRxSerial line) /\ Forall (fun x => may_drop x = false) ev) /\
  (Exists (fun x => may_drop x = true) ev -> may_drop e = true).

(** how the reaction to [e] changes the states *)
Definition moves_ok (e : Event) (m m' : Machine) (ev : list Event) : Prop :=
  (region m' = Online -> (region m = Online /\ e <> EvDisconnect /\ e <> EvReset) \/ e = EvOnline) /\
  (call m = None -> call m' <> None -> e = EvConnect) /\
  (e = EvConnect -> EvOnline ∈ ev -> call m' <> None) /\
  (call m <> None -> call m' = None -> may_drop e = true /\ (region m' = Online -> EvDisconnect ∈ ev)).

Ltac posts :=
  unfold posts_ok; rewrite ?Exists_cons, ?Forall_cons, ?Exists_nil, ?Forall_nil, ?elem_of_cons, ?elem_of_nil;
  cbn [may_drop]; try naive_solver.

(** events that neither start nor end a call *)
Definition harmless (x : Event) : bool :=
  match x with EvOnline | EvConnect => false | _ => negb (may_drop x) end.

Lemma posts_harmless e ev : forallb harmless ev = true -> posts_ok e ev.
Proof.
  intros H. assert (Hx : forall x, x ∈ ev -> harmless x = true).
  { intros x Hx. rewrite forallb_forall in H. apply H. by apply list_elem_of_In. }
  split; [|split]; [intros Ho; by apply Hx in Ho..|]. rewrite Exists_exists.
  intros (x & Hi & Hd). apply Hx in Hi. unfold harmless in Hi. destruct x; by rewrite ?Hd in Hi.
Qed.

Lemma posts_nil e : posts_ok e [].
Proof. by apply posts_harmless. Qed.

Lemma command_rx_posts line f c f' c' ev :
  command_rx crc32 line f c = Ok (f', c', ev) -> posts_ok (EvRxSerial line) ev.
Proof.
  unfold command_rx, handle_sbd_rx, rbind. intros H. repeat case_match; simplify_eq; posts.
Qed.

Lemma command_ack_posts response c c' ev : command_ack response c = (c', ev) -> posts_ok (EvAck response) ev.
Proof.
  intros H.
  assert (Hf : forall c' ev, ack_front response c = (c', ev) -> posts_ok (EvAck response) ev).
  { unfold ack_front. destruct (at_out c) as [|[? last_at] rest]; intros c1 ev1 [= _ <-]; [apply posts_nil|].
    destruct (bool_decide (response = B "OK")) eqn:E1.
    - assert (Ed : may_drop (EvAck response) = true) by exact E1.
      repeat case_match; unfold posts_ok; rewrite Ed; cbn [app]; rewrite ?elem_of_cons, ?elem_of_nil; naive_solver.
    - destruct (bool_decide (response = B "READY")), rest; cbn [app]; posts. }
  unfold command_ack in H. repeat case_match; simplify_eq; try (by eapply Hf); posts.
Qed.

(** a reaction that stays in [Command] and leaves the call *)
Lemma moves_in_command e m m' ev r :
  region m' = InCommand r -> call m' = call m -> (e = EvConnect -> False) -> moves_ok e m m' ev.
Proof. intros E1 E2 E3. unfold moves_ok. rewrite E1, E2. naive_solver. Qed.

Lemma leave_region_posts e a : posts_ok e (leave_region a).
Proof. destruct a as [r| |]; [|apply posts_nil..]. apply posts_harmless. cbn. by destruct (command_state r). Qed.

Lemma command_state_react_ok m r e m' ev :
  region m = InCommand r -> command_state_react m r e = Some (Ok (m', ev)) -> posts_ok e ev /\ moves_ok e m m' ev.
Proof.
  intros Hr H. unfold command_state_react, dial_no_carrier, transit in H.
  destruct (command_state r) eqn:Er, e; try done;
    repeat (case_match; try done); simplify_eq; rewrite ?Er; (split; [by apply posts_harmless|]);
    eapply moves_in_command; done.
Qed.

Lemma command_react_ok now m r e m' ev :
  region m = InCommand r -> command_react now m r e = Some (Ok (m', ev)) -> posts_ok e ev /\ moves_ok e m m' ev.
Proof.
  intros Hr H. unfold command_react in H. destruct e; try done.
  - destruct (command_rx crc32 line (fsm m) (command r)) as [[[f c] ev']|] eqn:E; simplify_eq.
    split; [by eapply command_rx_posts | by eapply moves_in_command].
  - unfold command_tx in H. repeat case_match; simplify_eq; (split; [posts | by eapply moves_in_command]).
  - destruct (command_ack response (command r)) as [c ev'] eqn:E. simplify_eq.
    split; [by eapply command_ack_posts | by eapply moves_in_command].
  - simplify_eq. split; [apply leave_region_posts|]. unfold moves_ok. naive_solver.
Qed.

Lemma sbd_enter_harmless st x c : forallb harmless (snd (sbd_enter st x c)) = true.
Proof. unfold sbd_enter. destruct st; try done. cbn. by destruct (sbd_data x). Qed.

Lemma sbd_region_react_ok m r e m' ev :
  sbd_region_react m r e = Some (Ok (m', ev)) -> posts_ok e ev /\ moves_ok e m m' ev.
Proof.
  unfold sbd_region_react, sbd_react. intros H.
  destruct (sbd_state (sbd r)), e; cbn [sbd_reacts] in H; try done;
    try match type of H with context [sbd_enter ?st ?x ?c] =>
      pose proof (sbd_enter_harmless st x c) as Hh; destruct (sbd_enter st x c) as [[x' c'] ev'] end;
    simplify_eq; (split; [by apply posts_harmless | by eapply moves_in_command]).
Qed.

Lemma call_react_ok now m e m' ev :
  call_react now m e = Some (Ok (m', ev)) -> posts_ok e ev /\ moves_ok e m m' ev.
Proof.
  unfold call_react, on_call_rx, enter_on_call. intros H.
  destruct (call m) eqn:Ec, e; try done; repeat case_match; simplify_eq;
    (split; [try (by apply posts_harmless); posts |]);
    unfold moves_ok; cbn; rewrite ?Ec, ?elem_of_cons; naive_solver.
Qed.

Lemma online_react_ok m e m' ev :
  region m = Online -> online_react m e = Some (Ok (m', ev)) -> posts_ok e ev /\ moves_ok e m m' ev.
Proof.
  unfold online_react. intros Hr H. destruct e; try done; simplify_eq;
    (split; [try (by apply posts_harmless); posts |]); unfold moves_ok; cbn; naive_solver.
Qed.

Lemma active_react_ok m e m' ev :
  active_react m e = Some (Ok (m', ev)) -> posts_ok e ev /\ moves_ok e m m' ev.
Proof.
  unfold active_react. intros H. destruct e; try done. simplify_eq. split.
  - apply posts_harmless. rewrite forallb_app. destruct (region m) as [r| |]; cbn;
      [destruct (command_state r)| |]; by destruct (call m).
  - unfold moves_ok. cbn. naive_solver.
Qed.

(** an event without a reaction *)
Lemma no_reaction_ok m e :
  (region m = Online -> online_react m e = None /\ active_react m e = None) -> moves_ok e m m [].
Proof.
  intros H. unfold moves_ok. split; [|split; [done|split; [|done]]].
  - intros E. left. destruct (H E) as [H1 H2]. split; [done|]. split; intros ->; done.
  - intros _ Hin. by apply not_elem_of_nil in Hin.
Qed.

Lemma react_ok now m e m' ev : react now m e = Ok (m', ev) -> posts_ok e ev /\ moves_ok e m m' ev.
Proof.
  unfold react, or_else. intros H.
  repeat case_match; simplify_eq;
    try (match goal with
    | H : command_state_react _ _ _ = _ |- _ => by apply command_state_react_ok in H
    | H : command_react _ _ _ _ = _ |- _ => by apply command_react_ok in H
    | H : online_react _ _ = _ |- _ => by apply online_react_ok in H
    | H : active_react _ _ = Some _ |- _ => by apply active_react_ok in H
    | H : sbd_region_react _ _ _ = Some _ |- _ => by apply sbd_region_react_ok in H
    | H : call_react _ _ _ = Some _ |- _ => by apply call_react_ok in H
    end); (split; [apply posts_nil | apply no_reaction_ok; try congruence; split; congruence]).
Qed.

(** while the posted events are being processed *)
Definition processing_ok (m : Machine) (q : list Event) : Prop :=
  (region m = Online -> call m = None -> EvDisconnect ∈ q) /\
  (EvOnline ∈ q -> call m <> None) /\
  (EvConnect ∈ q \/ EvOnline ∈ q -> Forall (fun e => may_drop e = false) q) /\
  (forall line, EvRxSerial line ∈ q -> q = [EvRxSerial line]).

Definition online_on_call (m : Machine) : Prop := region m = Online -> call m <> None.

Lemma react_posts_no_rx now m e m' ev line :
  react now m e = Ok (m', ev) -> EvRxSerial line ∉ ev.
Proof.
  intros H Hin. apply react_weight in H. assert (Hw : (10 <= total ev)%nat).
  { clear H. induction ev as [|x ev IH]; [by apply not_elem_of_nil in Hin|]. apply elem_of_cons in Hin as [<-|Hin]; cbn; [lia|].
    specialize (IH Hin). lia. }
  destruct e; cbn in H; lia.
Qed.

Lemma react_processing now m e q m' ev :
  processing_ok m (e :: q) -> react now m e = Ok (m', ev) -> processing_ok m' (q ++ ev).
Proof.
  intros (Ja & Jb & Jc & Jd) H. pose proof (react_ok now m e m' ev H) as ((Po & Pc & Pd) & (Mr & Mc & Mn & Md)).
  pose proof (fun line => react_posts_no_rx now m e m' ev line H) as Hrx. clear H.
  rewrite Forall_cons in Jc. unfold processing_ok. rewrite !elem_of_app.
  assert (Hq : forall line, e = EvRxSerial line -> q = []) by (intros line ->; by injection (Jd line ltac:(by left))).
  assert (Hold : EvConnect ∈ q \/ EvOnline ∈ q -> may_drop e = false /\ Forall (fun e => may_drop e = false) q).
  { intros Hx. apply Jc. rewrite !elem_of_cons. tauto. }
  assert (Hnodrop : may_drop e = false -> Forall (fun e => may_drop e = false) ev).
  { intros He. apply Forall_forall. intros x Hx. destruct (may_drop x) eqn:E; [|done].
    rewrite Pd in He; [done|]. apply Exists_exists. eauto. }
  split; [|split; [|split]].
  - intros Hr Hc. destruct (Mr Hr) as [(Hr0 & He & _)| ->].
    + destruct (call m); [right; by apply Md|]. specialize (Ja Hr0 eq_refl).
      apply elem_of_cons in Ja as [Ja|Ja]; [by destruct He | by left].
    + destruct Md as [Hd _]; [apply Jb; by left | done | done].
  - intros [Ho|Ho] Hc; [|by apply (Mn (Po Ho) Ho)].
    destruct Md as [Hd _]; [apply Jb; by right | done |]. destruct Hold as [He _]; [by right | congruence].
  - intros Hx. apply Forall_app. assert (Hin : (EvConnect ∈ q \/ EvOnline ∈ q) \/ EvConnect ∈ ev \/ EvOnline ∈ ev) by tauto.
    destruct Hin as [Hin|[Hin|Hin]].
    + destruct (Hold Hin). auto.
    + destruct (Pc Hin) as ((line & He) & Hf). by rewrite (Hq line He).
    + pose proof (Po Hin) as ->. split; [apply Jc; left; by left | by apply Hnodrop].
  - intros line Hin. apply elem_of_app in Hin as [Hin|Hin]; [|by apply Hrx in Hin].
    specialize (Jd line ltac:(by right)). injection Jd as _ ->. by apply not_elem_of_nil in Hin.
Qed.

Lemma process_queue_ok now : forall fuel m q m',
  processing_ok m q -> process_queue fuel now m q = Some (Ok m') -> online_on_call m'.
Proof.
  induction fuel as [|fuel IH]; intros m [|e q] m' J H; cbn in H; simplify_eq;
    try (intros Hr Hc; destruct J as (Ja & _); by apply Ja, not_elem_of_nil in Hr).
  destruct (react now m e) as [[m1 ev]|x] eqn:E; [|done]. eapply IH; [|exact H]. by eapply react_processing.
Qed.

(** the events that reach the machine from outside *)
Definition external (e : Event) : bool :=
  match e with
  | EvRxSerial _ | EvTxSerial | EvDial | EvHangup | EvNoCarrier | EvSendBye | EvSBDBeginData _ _ => true
  | _ => false
  end.

(** a machine that is initiated and processes events, each at its time *)
Inductive reachable : Machine -> Prop :=
| reach_initiate f : reachable (active f)
| reach_event m now e m' :
    reachable m -> external e = true -> process_event now m e = Some (Ok m') -> reachable m'.

(** C27: In every state the Iridium state machine can reach, through any events from outside, a data
    terminal that is online is on a call: losing the carrier or resetting takes it back to the
    command state before the event has been processed. *)
Theorem iridium_online_on_call (m : Machine) : reachable m -> online_on_call m.
Proof.
  induction 1 as [f|m now e m' _ IH He H]; [done|]. apply (process_queue_ok now EVENT_FUEL m [e]); [|exact H].
  unfold processing_ok. rewrite !list_elem_of_singleton. repeat split.
  - intros Hr Hc. by destruct (IH Hr).
  - by intros <-.
  - intros [<-|<-]; done.
  - intros line Hl. apply list_elem_of_singleton in Hl. by rewrite Hl.
Qed.

End Machine.

Module IridiumFsmWitness.
#[local] Existing Instances NmeaWitness.trim Sample.text Reader.cast IridiumWitness.codec.

Definition cfg : IridiumConfig := MkIridiumConfig [] (B "881600005141") 3 2400.

(** configured, dialed and connected *)
Definition events : list Event :=
  [EvTxSerial; EvRxSerial (B "OK" ++ [13]); EvDial; EvTxSerial; EvRxSerial (B "CONNECT 9600" ++ [13])].

Fixpoint after (m : Machine) (l : list Event) : option Machine :=
  match l with
  | [] => Some m
  | e :: l => match process_event crc_sum cfg (double_of_Z 1000) m e with
              | Some (Ok m) => after m l | _ => None end
  end.

Lemma after_reachable l : forall m m', reachable crc_sum cfg m -> forallb external l = true ->
  after m l = Some m' -> reachable crc_sum cfg m'.
Proof.
  induction l as [|e l IH]; intros m m' Hm Hl H; cbn [after forallb] in *; [by injection H as <-|]. to_prop.
  destruct (process_event crc_sum cfg (double_of_Z 1000) m e) as [[m1|]|] eqn:E; [|done..]. apply (IH m1); try done. by eapply reach_event.
Qed.

Lemma iridium_online_on_call_witness :
  exists m, after (active cfg new_fsm) events = Some m /\ region m = Online /\ call m <> None.
Proof.
  destruct (after (active cfg new_fsm) events) as [m|] eqn:E; [|vm_compute in E; discriminate].
  exists m. split; [reflexivity|]. assert (Hr : region m = Online) by (vm_compute in E; injection E as <-; reflexivity).
  split; [exact Hr|]. apply (iridium_online_on_call crc_sum cfg m); [|exact Hr].
  apply (after_reachable events (active cfg new_fsm) m); [apply reach_initiate | reflexivity | exact E].
Defined.

End IridiumFsmWitness.
