(* ===== verification/IridiumSbd.v ===== *)
(** * A short burst data session of the Iridium state machine

    The commands the machine gives the modem, from the request to send data to
    the end of the session, when the modem answers as its manual describes. *)

From Stdlib Require Import SpecFloat.
From S2P Require Import Prelude Double Time As Proto BaseConvert Rudics Nmea Iridium IridiumFsm.

Section Session.
Context {HC : IridiumHeaderCodec} {TR : BoostTrim} {TRL : BoostTrimLaws} {TX : BoostText} {LC : LexicalCast}.
Variables (crc32 : bytes -> Z) (cfg : IridiumConfig).

Abbreviation react := (react crc32 cfg).
Abbreviation process_event := (process_event crc32 cfg).

(** the machine in the command mode, ready, with commands [at_out], the buffer
    [tx] of the serial line and the state [s] of the SBD region *)
Definition ready_machine (rcv : list ModemTransmission) (out : list ModemTransmission) (tx : list bytes)
    (at_out : list (ATSentenceMeta * bytes)) (s : SBD) : Machine :=
  MkMachine (MkFsm tx rcv out) (InCommand (MkRegion (MkCommand at_out []) Ready s)) None.

(** ** Reactions to the serial line *)

Lemma react_rx now m r line :
  region m = InCommand r ->
  react now m (EvRxSerial line) =
    match command_rx crc32 line (fsm m) (command r) with
    | Ok (f, c, ev) => Ok (MkMachine f (InCommand (MkRegion c (command_state r) (sbd r))) (call m), ev)
    | Err x => Err x
    end.
Proof.
  intros Hr. unfold IridiumFsm.react. rewrite Hr.
  assert (E : command_state_react cfg m r (EvRxSerial line) = None)
    by (unfold command_state_react; by destruct (command_state r)).
  rewrite E. cbn. by destruct (command_rx _ _ _ _) as [[[? ?] ?]|].
Qed.

(** the events of a line, by its text *)
Definition line_events (s : bytes) : list Event :=
  if bool_decide (s = B "OK") then [EvAck s]
  else if bool_decide (s = B "RING") then [EvRing]
  else if bool_decide (s = B "NO CARRIER") then [EvAck s; EvNoCarrier]
  else if starts_with (B "CONNECT") s then [EvAck s; EvConnect]
  else if bool_decide (s = B "NO DIALTONE") then [EvAck s; EvNoCarrier]
  else if bool_decide (s = B "BUSY") then [EvAck s; EvNoCarrier]
  else if bool_decide (s = B "ERROR") then [EvReset]
  else if bool_decide (s = B "0") || bool_decide (s = B "1") || bool_decide (s = B "2")
          || bool_decide (s = B "3") then [EvAck s]
  else if bool_decide (s = B "READY") then [EvAck s]
  else if starts_with (B "+SBDI") s then [EvSBDTransmitComplete s]
  else if bool_decide (s = B "SBDRING") then [EvSBDBeginData [] true]
  else [].

(** a line that is not an echo is recognized by its text *)
Lemma command_rx_text line f c s :
  front_at c <> Some (B "+SBDRB") -> boost_trim line = s -> head s <> Some 65 ->
  command_rx crc32 line f c = Ok (f, c, line_events s).
Proof.
  intros Hf Hs Ha. unfold command_rx. rewrite bool_decide_eq_false_2 by done. rewrite Hs.
  assert (E : match front_at c with
    | Some cmd => negb (bool_decide (cmd = B "E")) && bool_decide (s = B "AT" ++ cmd) | None => false end = false).
  { destruct (front_at c) as [cmd|]; [|done]. apply andb_false_iff. right. apply bool_decide_eq_false_2.
    intros ->. by apply Ha. }
  rewrite E. unfold line_events. repeat case_match; done.
Qed.

(** a text that does not begin or end with white space, as the modem sends it *)
Definition visible (s : bytes) : Prop :=
  s <> [] /\ (forall c, head s = Some c -> is_space c = false) /\ (forall c, last s = Some c -> is_space c = false).

Definition modem_line (s : bytes) : bytes := s ++ [13; 10].

Lemma trim_modem_line s : visible s -> boost_trim (modem_line s) = s.
Proof. intros (H1 & H2 & H3). by apply (boost_trim_spec [] s [13; 10]). Qed.

Section Steps.
Context (rcv out : list ModemTransmission) (tx : list bytes).
Abbreviation machine := (ready_machine rcv out).

(** a line of text, on the machine in the command mode *)
Lemma process_text now at_out s text fuel :
  snd <$> head at_out <> Some (B "+SBDRB") -> visible text -> head text <> Some 65 ->
  process_queue crc32 cfg (S fuel) now (machine tx at_out s) [EvRxSerial (modem_line text)] =
  process_queue crc32 cfg fuel now (machine tx at_out s) (line_events text).
Proof.
  intros Hf Hv Ha. cbn [process_queue]. rewrite (react_rx _ _ (MkRegion (MkCommand at_out []) Ready s)) by done.
  rewrite (command_rx_text _ _ _ text); [done | done | by apply trim_modem_line | done].
Qed.

Lemma visible_words : Forall visible [B "0"; B "OK"; B "READY"].
Proof. repeat constructor; try discriminate; intros c [= <-]; reflexivity. Qed.

Lemma timeout_passed cmd now :
  dlt (double_of_Z 60) now = true -> dlt (dadd (last_send_time new_meta) (double_of_Z (command_timeout cmd))) now = true.
Proof.
  intros Hn. assert (Hc : In (command_timeout cmd) [60; 30; 10; 6; 2]).
  { unfold command_timeout. repeat case_match; simpl; tauto. }
  repeat (destruct Hc as [<-|Hc]; [first [exact Hn | eapply dlt_trans; [|exact Hn]; reflexivity]|]). destruct Hc.
Qed.

(** the first command in the queue is written when it is new *)
Lemma process_tx now cmd rest s :
  dlt (double_of_Z 60) now = true ->
  process_event now (machine tx ((new_meta, cmd) :: rest) s) EvTxSerial =
  Some (Ok (machine (circular_push SERIAL_BUFFER_CAPACITY (at_command cmd) tx) ((MkAT now 1, cmd) :: rest) s)).
Proof.
  intros Hn. unfold IridiumFsm.process_event, EVENT_FUEL. cbn [process_queue].
  unfold IridiumFsm.react. cbn [region ready_machine command_state_react command_state or_else command_react fsm command].
  unfold command_tx. cbn [Iridium.at_out]. rewrite timeout_passed by done. cbn [tries new_meta]. by destruct (bool_decide _).
Qed.
End Steps.

(** ** The session *)

(** the answer of the modem to the request to transmit *)
Definition transmitted (sbdi : bytes) : Prop :=
  visible sbdi /\ starts_with (B "+SBDI") sbdi = true /\ after_transmit sbdi = SBDReady.

Fixpoint run (l : list (double * Event)) (m : Machine) : option (result reaction_exception Machine) :=
  match l with
  | [] => Some (Ok m)
  | (now, e) :: l =>
      match process_event now m e with
      | Some (Ok m) => run l m
      | r => r
      end
  end.

(** the request, and then the modem's lines with the writing of the commands in between *)
Definition session (t : nat -> double) (data sbdi : bytes) : list (double * Event) :=
  imap (fun i e => (t i, e))
    [EvSBDBeginData data false; EvTxSerial;
     EvRxSerial (modem_line (B "0")); EvRxSerial (modem_line (B "OK")); EvTxSerial;
     EvRxSerial (modem_line (B "READY"));
     EvRxSerial (modem_line (B "0")); EvRxSerial (modem_line (B "OK")); EvTxSerial;
     EvRxSerial (modem_line sbdi); EvRxSerial (modem_line (B "OK"))].

Lemma text_step rcv out tx now at_out s text m :
  snd <$> head at_out <> Some (B "+SBDRB") -> visible text -> head text <> Some 65 ->
  process_queue crc32 cfg 9 now (ready_machine rcv out tx at_out s) (line_events text) = Some (Ok m) ->
  process_event now (ready_machine rcv out tx at_out s) (EvRxSerial (modem_line text)) = Some (Ok m).
Proof. intros H1 H2 H3 H4. unfold IridiumFsm.process_event, EVENT_FUEL. by rewrite process_text. Qed.

Lemma transmitted_step rcv out tx now at_out d ring sbdi :
  snd <$> head at_out <> Some (B "+SBDRB") -> transmitted sbdi ->
  process_event now (ready_machine rcv out tx at_out (MkSBD SBDTransmit d ring)) (EvRxSerial (modem_line sbdi))
  = Some (Ok (ready_machine rcv out tx at_out (MkSBD SBDReady [] ring))).
Proof.
  intros Hf (Hv & Hs & Hr). apply bool_decide_eq_true_1 in Hs.
  assert (E : exists rest, sbdi = B "+SBDI" ++ rest) by (exists (drop 5 sbdi); rewrite <- Hs; symmetry; apply take_drop).
  destruct E as [rest ->]. apply text_step; [done | done | done |].
  change (line_events (B "+SBDI" ++ rest)) with [EvSBDTransmitComplete (B "+SBDI" ++ rest)].
  cbn [process_queue]. unfold IridiumFsm.react, sbd_region_react.
  cbn [ready_machine region or_else command_state_react command_state command_react active_react sbd sbd_state sbd_reacts].
  unfold sbd_react. cbn [sbd_state]. rewrite Hr. reflexivity.
Qed.

Lemma run_step now e l m m1 r :
  process_event now m e = Some (Ok m1) -> run l m1 = r -> run ((now, e) :: l) m = r.
Proof. intros E H. cbn [run]. by rewrite E. Qed.

(** With a modem that answers, a short burst session writes the command that clears the
    buffers, the command that announces the length, the data with its checksum and the command that
    starts the session, in this order, and leaves the machine ready for the next one. *)
Lemma sbd_session_sends (rcv out : list ModemTransmission) (d0 : bytes) (ring : bool)
    (t : nat -> double) (data sbdi : bytes) :
  (forall i, dlt (double_of_Z 60) (t i) = true) -> data <> [] -> transmitted sbdi ->
  run (session t data sbdi) (ready_machine rcv out [] [] (MkSBD SBDReady d0 ring)) =
  Some (Ok (ready_machine rcv out
    [B "AT+SBDD2" ++ [13];
     B "AT" ++ (B "+SBDWB=" ++ as_string (Z.of_nat (length data))) ++ [13];
     set_data data;
     B "AT+SBDIX" ++ [13]]
    [] (MkSBD SBDReady [] false))).
Proof.
  intros Ht Hd Hr. pose proof visible_words as Hw. rewrite !Forall_cons in Hw. destruct Hw as (V0 & VO & VR & _).
  destruct data as [|b data]; [done|]. unfold session. cbn [imap]. unfold compose.
  eapply run_step; [reflexivity|].
  eapply run_step; [by apply process_tx|].
  eapply run_step; [apply text_step; [done | done | done | reflexivity]|].
  eapply run_step; [apply text_step; [done | done | done | reflexivity]|].
  eapply run_step; [by apply process_tx|].
  eapply run_step; [apply text_step; [done | done | done | reflexivity]|].
  eapply run_step; [apply text_step; [done | done | done | reflexivity]|].
  eapply run_step; [apply text_step; [done | done | done | reflexivity]|].
  eapply run_step; [by apply process_tx|].
  eapply run_step; [by apply transmitted_step|].
  eapply run_step; [apply text_step; [done | done | done | reflexivity]|].
  assert (El : length (b :: data) = (length (set_data (b :: data)) - 2)%nat)
    by (unfold set_data; cbv zeta; rewrite length_app; simpl length; lia).
  rewrite El. reflexivity.
Qed.

End Session.

Module SbdWitness.
#[local] Existing Instances NmeaWitness.trim NmeaWitness.trim_laws Sample.text Reader.cast IridiumWitness.codec.

Definition sbdi : bytes := B "+SBDIX: 0, 12, 0, 0, 0, 0".

Example sbd_session_sends_witness :
  run crc_sum IridiumFsmWitness.cfg (session (fun _ => double_of_Z 100) (B "TOM") sbdi)
    (ready_machine [] [] [] [] new_sbd) =
  Some (Ok (ready_machine [] []
    [B "AT+SBDD2" ++ [13]; B "AT+SBDWB=3" ++ [13]; B "TOM" ++ [0; 240]; B "AT+SBDIX" ++ [13]] []
    (MkSBD SBDReady [] false))).
Proof.
  apply (sbd_session_sends crc_sum IridiumFsmWitness.cfg [] [] [] false (fun _ => double_of_Z 100) (B "TOM") sbdi).
  - intros i. vm_compute. reflexivity.
  - discriminate.
  - split; [|split; vm_compute; reflexivity].
    split; [discriminate|]. split; intros c [= <-]; reflexivity.
Qed.

End SbdWitness.
