(* ===== verification/DriverBase.v ===== *)
(** * acomms/modemdriver/driver_base.{h,cpp}: what the modem drivers share

    The line to the modem, its configuration and the log of raw messages. The
    line itself (util/linebasedcomms) is the world: it is opened and closed by
    events, and whether it is active is part of the state that the world may
    change between two calls. *)

From S2P Require Import Prelude Proto Prog Nmea.

(** [protobuf::ModemDriverStatus::Status], for the statuses that are thrown *)
Inductive Status : Type :=
| STARTUP_FAILED | CONNECTION_TO_MODEM_FAILED | MODEM_NOT_RESPONDING | INVALID_CONFIGURATION.

#[export] Instance Status_eq_dec : EqDecision Status.
Proof. solve_decision. Defined.

(** What leaves a member function. The last two are not exceptions: a read out
    of the bounds of an array or of a null pointer, and a loop that still waits
    when the readings given to it are used up. *)
Inductive Exn : Type :=
| DriverException (stat : Status)
| OutOfRange
| LengthError
| BadNmea (e : bad_nmea_sentence)
| CodecException
| PacketException
| BadCast
| SystemError                             (* [boost::system::system_error], [std::runtime_error] *)
| SlotException
| UndefinedBehaviour
| StillWaiting.

(** [catch (std::exception&)] *)
Definition is_std_exception (x : Exn) : bool :=
  match x with UndefinedBehaviour | StillWaiting => false | _ => true end.

(** [catch (ModemDriverException&)] *)
Definition is_driver_exception (x : Exn) : bool :=
  match x with DriverException _ => true | _ => false end.

(** ** Configuration *)

Inductive ConnectionType : Type :=
| CONNECTION_SERIAL | CONNECTION_TCP_AS_CLIENT | CONNECTION_TCP_AS_SERVER.

#[export] Instance ConnectionType_eq_dec : EqDecision ConnectionType.
Proof. solve_decision. Defined.

Record ConnectionConfig : Type := MkConnection {
  modem_id : option Z;
  connection_type : option ConnectionType;
  line_delimiter : option bytes;
  serial_port : option bytes;
  serial_baud : option Z;
  tcp_server : option bytes;
  tcp_port : option Z;
  reconnect_interval : option Z;
  raw_log : option bytes
}.

Definition set_line_delimiter (v : bytes) (c : ConnectionConfig) : ConnectionConfig :=
  MkConnection (modem_id c) (connection_type c) (Some v) (serial_port c) (serial_baud c) (tcp_server c)
    (tcp_port c) (reconnect_interval c) (raw_log c).
Definition set_serial_baud (v : Z) (c : ConnectionConfig) : ConnectionConfig :=
  MkConnection (modem_id c) (connection_type c) (line_delimiter c) (serial_port c) (Some v) (tcp_server c)
    (tcp_port c) (reconnect_interval c) (raw_log c).

Definition get_connection_type (c : ConnectionConfig) : ConnectionType :=
  default CONNECTION_SERIAL (connection_type c).
Definition get_line_delimiter (c : ConnectionConfig) : bytes := default [13; 10] (line_delimiter c).
Definition get_modem_id (c : ConnectionConfig) : Z := default 0 (modem_id c).

(** ** The line *)

(** [util::SerialClient], [util::TCPClient] and [util::TCPServer] with their arguments *)
Inductive Line : Type :=
| SerialClient (port : bytes) (baud : Z) (delimiter : bytes)
| TCPClient (server : bytes) (port : Z) (delimiter : bytes) (reconnect : Z)
| TCPServer (port : Z) (delimiter : bytes).

Inductive DriverEvent : Type :=
| OpenLine (l : Line)
| OpenLog (name : bytes)
| WriteLine (s : bytes)
| WriteLog (s : bytes)
| RawOutgoing (s : bytes)
| RawIncoming (s : bytes).

(** [modem]: none, or whether the line is active. [raw_fs]: the log is open. *)
Record ModemDriverBase : Type := MkBase {
  modem : option bool;
  raw_fs : bool;
  raw_fs_connections_made : bool
}.

Definition new_base : ModemDriverBase := MkBase None false false.

Abbreviation base_prog := (prog ModemDriverBase DriverEvent Exn).

#[local] Open Scope prog_scope.

Definition modem_write (s : bytes) : base_prog unit :=
  let! m := pread modem in
  match m with
  | None => pthrow UndefinedBehaviour
  | Some true => pemit (WriteLine s)
  | Some false => pthrow (DriverException CONNECTION_TO_MODEM_FAILED)
  end.

(** [modem_read], with what [readline] gives when the line is active *)
Definition modem_read (line : option bytes) : base_prog (option bytes) :=
  let! m := pread modem in
  match m with
  | None => pthrow UndefinedBehaviour
  | Some true => pret line
  | Some false => pthrow (DriverException CONNECTION_TO_MODEM_FAILED)
  end.

Definition modem_close : base_prog unit :=
  pmod (fun b => MkBase None (raw_fs b) (raw_fs_connections_made b)).

(** [signal_raw_outgoing] and [signal_raw_incoming] with the log connected *)
Definition signal_raw (rx : bool) (raw : bytes) : base_prog unit :=
  let! b := pget in
  pemit (if rx then RawIncoming raw else RawOutgoing raw);;
  pwhen (raw_fs_connections_made b)
    (if raw_fs b then pemit (WriteLog (B (if rx then "[rx] " else "[tx] ") ++ raw ++ [10]))
     else pthrow UndefinedBehaviour).

(** the line that the configuration describes *)
Definition line_of (c : ConnectionConfig) : result Exn Line :=
  let invalid := Err (DriverException INVALID_CONFIGURATION) in
  match get_connection_type c with
  | CONNECTION_SERIAL =>
      match serial_port c, serial_baud c with
      | Some p, Some b => Ok (SerialClient p b (get_line_delimiter c))
      | _, _ => invalid
      end
  | CONNECTION_TCP_AS_CLIENT =>
      match tcp_server c, tcp_port c with
      | Some s, Some p => Ok (TCPClient s p (get_line_delimiter c) (default 10 (reconnect_interval c)))
      | _, _ => invalid
      end
  | CONNECTION_TCP_AS_SERVER =>
      match tcp_port c with
      | Some p => Ok (TCPServer p (get_line_delimiter c))
      | None => invalid
      end
  end.

(** the log: [opened] gives whether the file could be opened, [log_name] the
    name made of the pattern and the current time *)
Definition open_raw_log (log_name : bytes -> bytes) (opened : bool) (c : ConnectionConfig) : base_prog unit :=
  match raw_log c with
  | None => pret tt
  | Some pattern =>
      pemit (OpenLog (log_name pattern));;
      pmod (fun b => MkBase (modem b) opened (opened || raw_fs_connections_made b))
  end.

(** the loop that waits for the line: [polls] are the readings of [active()] *)
Fixpoint wait_active (elapsed_ms : Z) (polls : list bool) : result Exn unit :=
  match polls with
  | [] => Err StillWaiting
  | true :: _ => Ok tt
  | false :: polls =>
      let elapsed_ms := elapsed_ms + 100 in
      if 10000 <=? elapsed_ms then Err (DriverException STARTUP_FAILED) else wait_active elapsed_ms polls
  end.

Definition modem_start (log_name : bytes -> bytes) (log_opened : bool) (polls : list bool)
    (c : ConnectionConfig) : base_prog unit :=
  match modem_id c with
  | None => pthrow (DriverException INVALID_CONFIGURATION)
  | Some _ =>
      let! l := plift (line_of c) in
      pemit (OpenLine l);;
      pmod (fun b => MkBase (Some false) (raw_fs b) (raw_fs_connections_made b));;
      open_raw_log log_name log_opened c;;
      plift (wait_active 0 polls);;
      pmod (fun b => MkBase (Some true) (raw_fs b) (raw_fs_connections_made b))
  end.

(** ** The line comes up or the driver gives up *)

(** The loop ends within one hundred polls: with success at the first active
    reading, with an exception after ten seconds without one. *)
Lemma wait_active_spec polls : forall k : nat, (k < 100)%nat ->
  (100 - k <= length polls)%nat ->
  wait_active (100 * Z.of_nat k) polls =
    if existsb (fun b => b) (take (100 - k) polls) then Ok tt else Err (DriverException STARTUP_FAILED).
Proof.
  induction polls as [|b polls IH]; intros k Hk Hl; [simpl in Hl; lia|].
  replace (100 - k)%nat with (S (99 - k)) by lia. cbn [wait_active take existsb].
  destruct b; [done|]. replace (100 * Z.of_nat k + 100) with (100 * Z.of_nat (S k)) by lia.
  destruct (10000 <=? _) eqn:E; to_prop.
  - replace (99 - k)%nat with 0%nat by lia. by rewrite take_0.
  - rewrite IH by (simpl in Hl; lia). replace (100 - S k)%nat with (99 - k)%nat by lia. done.
Qed.

(** after [modem_start] returns, the line can be written to *)
Lemma modem_start_active log_name opened polls c :
  triple (fun _ => True) (modem_start log_name opened polls c)
    (fun _ b => modem b = Some true) (fun _ _ => True).
Proof.
  intros b _. unfold modem_start, open_raw_log. destruct (modem_id c); [|done].
  destruct (line_of c); [|done]. destruct (raw_log c); simpl;
    destruct (wait_active 0 polls); done.
Qed.

(** the connected log is open unless it could not be opened again *)
Definition log_open (b : ModemDriverBase) : Prop :=
  raw_fs_connections_made b = true -> raw_fs b = true.

Lemma modem_start_log log_name polls c : keeps log_open (modem_start log_name true polls c).
Proof.
  unfold modem_start, open_raw_log. keeps_all; apply keeps_mod; unfold log_open; by intros [].
Qed.
