(* ===== verification/DirectIp.v ===== *)
(** * acomms/modemdriver/iridium_shore_sbd.h and the messages of
      iridium_shore_driver.cpp: short burst data over DirectIP

    The gateway of the Iridium network exchanges messages with the shore over
    TCP: a pre-header with the overall length, then information elements. This
    file holds the reader of such messages, with its reads of the socket, and
    the message to a mobile that the shore driver writes. The vector [data_] is
    the bytes written so far, zero up to its size. *)

From S2P Require Import Prelude Prog Proto Rudics DriverBase.

#[local] Open Scope prog_scope.

(** ** Messages

    The fields are optional: [IsInitialized] asks for all of them. *)

Record DirectIPMOPreHeader : Type := MkPreHeader { protocol_ver : option Z; overall_length : option Z }.

Record DirectIPMOHeader : Type := MkMOHeader {
  mo_iei : option Z;
  mo_length : option Z;
  cdr_reference : option Z;
  mo_imei : option bytes;
  session_status : option Z;
  momsn : option Z;
  mtmsn : option Z;
  time_of_session : option Z
}.

Record DirectIPMOPayload : Type := MkMOPayload { pl_iei : option Z; pl_length : option Z; pl_payload : option bytes }.

Record DirectIPMTConfirmation : Type := MkConfirm {
  cf_iei : option Z;
  cf_length : option Z;
  cf_client_id : option Z;
  cf_imei : option bytes;
  cf_auto_ref_id : option Z;
  cf_status : option Z
}.

Definition is_some {A : Type} (o : option A) : bool := match o with Some _ => true | None => false end.

Definition pre_header_initialized (p : DirectIPMOPreHeader) : bool := is_some (protocol_ver p) && is_some (overall_length p).
Definition header_initialized (h : DirectIPMOHeader) : bool :=
  is_some (mo_iei h) && is_some (mo_length h) && is_some (cdr_reference h) && is_some (mo_imei h)
  && is_some (session_status h) && is_some (momsn h) && is_some (mtmsn h) && is_some (time_of_session h).
Definition payload_initialized (b : DirectIPMOPayload) : bool :=
  is_some (pl_iei b) && is_some (pl_length b) && is_some (pl_payload b).
Definition confirm_initialized (c : DirectIPMTConfirmation) : bool :=
  is_some (cf_iei c) && is_some (cf_length c) && is_some (cf_client_id c) && is_some (cf_imei c)
  && is_some (cf_auto_ref_id c) && is_some (cf_status c).

(** ** The reader *)

(** a read of the socket that is under way: the bytes it needs at least, those
    it has, and its handler *)
Inductive Handler : Type := PreHeaderHandler | IeHandler.
Record Pending : Type := MkPending { need : Z; got : Z; handler : Handler }.

Record SBDMessageReader : Type := MkSbdReader {
  rd_pre_header : DirectIPMOPreHeader;
  rd_header : DirectIPMOHeader;
  rd_body : DirectIPMOPayload;
  rd_confirm : DirectIPMTConfirmation;
  rd_pos : Z;
  rd_data : bytes;
  rd_pending : option Pending
}.

Definition DATA_SIZE : Z := 65536.
Definition PRE_HEADER_SIZE : Z := 3.
Definition IMEI_SIZE : Z := 15.

Definition new_sbd_reader : SBDMessageReader :=
  MkSbdReader (MkPreHeader None None) (MkMOHeader None None None None None None None None) (MkMOPayload None None None)
    (MkConfirm None None None None None None) 0 [] None.

Definition set_rd_pre_header v (r : SBDMessageReader) :=
  MkSbdReader v (rd_header r) (rd_body r) (rd_confirm r) (rd_pos r) (rd_data r) (rd_pending r).
Definition set_rd_header v (r : SBDMessageReader) :=
  MkSbdReader (rd_pre_header r) v (rd_body r) (rd_confirm r) (rd_pos r) (rd_data r) (rd_pending r).
Definition set_rd_body v (r : SBDMessageReader) :=
  MkSbdReader (rd_pre_header r) (rd_header r) v (rd_confirm r) (rd_pos r) (rd_data r) (rd_pending r).
Definition set_rd_confirm v (r : SBDMessageReader) :=
  MkSbdReader (rd_pre_header r) (rd_header r) (rd_body r) v (rd_pos r) (rd_data r) (rd_pending r).
Definition set_rd_pos v (r : SBDMessageReader) :=
  MkSbdReader (rd_pre_header r) (rd_header r) (rd_body r) (rd_confirm r) v (rd_data r) (rd_pending r).
Definition set_rd_data v (r : SBDMessageReader) :=
  MkSbdReader (rd_pre_header r) (rd_header r) (rd_body r) (rd_confirm r) (rd_pos r) v (rd_pending r).
Definition set_rd_pending v (r : SBDMessageReader) :=
  MkSbdReader (rd_pre_header r) (rd_header r) (rd_body r) (rd_confirm r) (rd_pos r) (rd_data r) v.

Abbreviation rprog := (prog SBDMessageReader Empty_set Exn).

(** [data_.at(pos_++) & 0xff] *)
Definition next_byte : rprog Z :=
  let! r := pget in
  pmod (set_rd_pos (rd_pos r + 1));;
  if rd_pos r <? DATA_SIZE then pret (nth (Z.to_nat (rd_pos r)) (rd_data r) 0) else pthrow OutOfRange.

(** [std::string(data_.begin() + pos_, data_.begin() + pos_ + n)]: [n] bytes of the buffer *)
Definition slice (pos n : Z) (data : bytes) : bytes :=
  let here := take (Z.to_nat n) (drop (Z.to_nat pos) data) in
  here ++ repeat 0 (Z.to_nat n - length here).

Definition next_string (n : Z) : rprog bytes :=
  let! r := pget in
  if DATA_SIZE <? rd_pos r + n then pthrow UndefinedBehaviour
  else pmod (set_rd_pos (rd_pos r + n));; pret (slice (rd_pos r) n (rd_data r)).

(** a [char] holds the byte with its sign *)
Definition s8 (z : Z) : Z := (z + 128) mod 256 - 128.

Definition read_byte : rprog Z := let! b := next_byte in pret (s8 b).

Definition read_uint16 : rprog Z :=
  let! b0 := next_byte in
  let! b1 := next_byte in
  pret (Z.lor (Z.shiftl b0 8) b1).

Definition read_int16 : rprog Z :=
  let! i := read_uint16 in
  pret (if Z.testbit i 15 then Z.lor i (-1 - 65535) else i).

Definition read_uint32 : rprog Z :=
  let! b0 := next_byte in
  let! b1 := next_byte in
  let! b2 := next_byte in
  let! b3 := next_byte in
  pret (Z.lor (Z.lor (Z.lor (Z.shiftl b0 24) (Z.shiftl b1 16)) (Z.shiftl b2 8)) b3).

Definition read_imei : rprog bytes := next_string IMEI_SIZE.

(** [async_read(socket_, buffer(data_), transfer_at_least(n), h)]: from the
    start of the buffer *)
Definition async_read (n : Z) (h : Handler) : rprog unit := pmod (set_rd_pending (Some (MkPending n 0 h))).

Definition set_mo_iei v (h : DirectIPMOHeader) : DirectIPMOHeader :=
  MkMOHeader (Some v) (mo_length h) (cdr_reference h) (mo_imei h) (session_status h) (momsn h) (mtmsn h) (time_of_session h).
Definition set_mo_length v (h : DirectIPMOHeader) : DirectIPMOHeader :=
  MkMOHeader (mo_iei h) (Some v) (cdr_reference h) (mo_imei h) (session_status h) (momsn h) (mtmsn h) (time_of_session h).
Definition set_cdr_reference v (h : DirectIPMOHeader) : DirectIPMOHeader :=
  MkMOHeader (mo_iei h) (mo_length h) (Some v) (mo_imei h) (session_status h) (momsn h) (mtmsn h) (time_of_session h).
Definition set_mo_imei v (h : DirectIPMOHeader) : DirectIPMOHeader :=
  MkMOHeader (mo_iei h) (mo_length h) (cdr_reference h) (Some v) (session_status h) (momsn h) (mtmsn h) (time_of_session h).
Definition set_session_status v (h : DirectIPMOHeader) : DirectIPMOHeader :=
  MkMOHeader (mo_iei h) (mo_length h) (cdr_reference h) (mo_imei h) (Some v) (momsn h) (mtmsn h) (time_of_session h).
Definition set_momsn v (h : DirectIPMOHeader) : DirectIPMOHeader :=
  MkMOHeader (mo_iei h) (mo_length h) (cdr_reference h) (mo_imei h) (session_status h) (Some v) (mtmsn h) (time_of_session h).
Definition set_mtmsn v (h : DirectIPMOHeader) : DirectIPMOHeader :=
  MkMOHeader (mo_iei h) (mo_length h) (cdr_reference h) (mo_imei h) (session_status h) (momsn h) (Some v) (time_of_session h).
Definition set_time_of_session v (h : DirectIPMOHeader) : DirectIPMOHeader :=
  MkMOHeader (mo_iei h) (mo_length h) (cdr_reference h) (mo_imei h) (session_status h) (momsn h) (mtmsn h) (Some v).
Definition set_cf_iei v (c : DirectIPMTConfirmation) : DirectIPMTConfirmation :=
  MkConfirm (Some v) (cf_length c) (cf_client_id c) (cf_imei c) (cf_auto_ref_id c) (cf_status c).
Definition set_cf_length v (c : DirectIPMTConfirmation) : DirectIPMTConfirmation :=
  MkConfirm (cf_iei c) (Some v) (cf_client_id c) (cf_imei c) (cf_auto_ref_id c) (cf_status c).
Definition set_cf_client_id v (c : DirectIPMTConfirmation) : DirectIPMTConfirmation :=
  MkConfirm (cf_iei c) (cf_length c) (Some v) (cf_imei c) (cf_auto_ref_id c) (cf_status c).
Definition set_cf_imei v (c : DirectIPMTConfirmation) : DirectIPMTConfirmation :=
  MkConfirm (cf_iei c) (cf_length c) (cf_client_id c) (Some v) (cf_auto_ref_id c) (cf_status c).
Definition set_cf_auto_ref_id v (c : DirectIPMTConfirmation) : DirectIPMTConfirmation :=
  MkConfirm (cf_iei c) (cf_length c) (cf_client_id c) (cf_imei c) (Some v) (cf_status c).
Definition set_cf_status v (c : DirectIPMTConfirmation) : DirectIPMTConfirmation :=
  MkConfirm (cf_iei c) (cf_length c) (cf_client_id c) (cf_imei c) (cf_auto_ref_id c) (Some v).

Definition on_header (f : DirectIPMOHeader -> DirectIPMOHeader) (r : SBDMessageReader) : SBDMessageReader :=
  set_rd_header (f (rd_header r)) r.
Definition on_confirm (f : DirectIPMTConfirmation -> DirectIPMTConfirmation) (r : SBDMessageReader) : SBDMessageReader :=
  set_rd_confirm (f (rd_confirm r)) r.

Definition upd_header (f : DirectIPMOHeader -> DirectIPMOHeader) : rprog unit := pmod (on_header f).
Definition upd_body (f : DirectIPMOPayload -> DirectIPMOPayload) : rprog unit := pmod (fun r => set_rd_body (f (rd_body r)) r).
Definition upd_confirm (f : DirectIPMTConfirmation -> DirectIPMTConfirmation) : rprog unit := pmod (on_confirm f).

Definition read_header_ie (iei length : Z) : rprog unit :=
  upd_header (set_mo_iei iei);;
  upd_header (set_mo_length length);;
  let! v := read_uint32 in
  upd_header (set_cdr_reference v);;
  let! v := read_imei in
  upd_header (set_mo_imei v);;
  let! v := read_byte in
  upd_header (set_session_status (u32 v));;
  let! v := read_uint16 in
  upd_header (set_momsn v);;
  let! v := read_uint16 in
  upd_header (set_mtmsn v);;
  let! v := read_uint32 in
  upd_header (set_time_of_session v).

Definition read_payload_ie (iei length : Z) : rprog unit :=
  upd_body (fun b => MkMOPayload (Some iei) (Some length) (pl_payload b));;
  let! v := next_string length in
  upd_body (fun b => MkMOPayload (pl_iei b) (pl_length b) (Some v)).

Definition skip_ie (length : Z) : rprog unit := pmod (fun r => set_rd_pos (rd_pos r + length) r).

(** the case has no [break] and goes on to the one that skips the element *)
Definition read_confirm_ie (iei length : Z) : rprog unit :=
  upd_confirm (set_cf_iei iei);;
  upd_confirm (set_cf_length length);;
  let! v := read_uint32 in
  upd_confirm (set_cf_client_id v);;
  let! v := read_imei in
  upd_confirm (set_cf_imei v);;
  let! v := read_uint32 in
  upd_confirm (set_cf_auto_ref_id v);;
  let! v := read_int16 in
  upd_confirm (set_cf_status v);;
  skip_ie length.

(** one information element *)
Definition read_ie : rprog unit :=
  let! iei := read_byte in
  let! length := read_uint16 in
  match iei with
  | 1 => read_header_ie iei length
  | 2 => read_payload_ie iei length
  | 68 => read_confirm_ie iei length
  | _ => skip_ie length
  end.

(** where the message ends *)
Definition message_end (r : SBDMessageReader) : Z := default 0 (overall_length (rd_pre_header r)) + PRE_HEADER_SIZE.

(** [ie_handler] without an error, which calls itself *)
Fixpoint ie_loop (fuel : nat) : rprog unit :=
  match fuel with
  | O => pthrow StillWaiting
  | S fuel =>
      read_ie;;
      let! r := pget in
      if rd_pos r <? message_end r then ie_loop fuel else pret tt
  end.

(** each call moves the position *)
Definition ie_handler : rprog unit :=
  let! r := pget in ie_loop (S (Z.to_nat (message_end r - rd_pos r))).

(** [pre_header_handler] without an error *)
Definition pre_header_handler (bytes_transferred : Z) : rprog unit :=
  let! v := read_byte in
  pmod (fun r => set_rd_pre_header (MkPreHeader (Some v) (overall_length (rd_pre_header r))) r);;
  let! v := read_uint16 in
  pmod (fun r => set_rd_pre_header (MkPreHeader (protocol_ver (rd_pre_header r)) (Some v)) r);;
  let! r := pget in
  async_read (u64 (message_end r - bytes_transferred)) IeHandler.

(** ** Reading from the socket *)

(** [s] written at [off] of the buffer *)
Definition write_at (off : Z) (s data : bytes) : bytes :=
  let o := Z.to_nat off in
  take o data ++ repeat 0 (o - length data) ++ s ++ drop (o + length s) data.

(** the read under way ends when it has what it needs or the buffer is full;
    its handler then runs, and may start another read *)
Definition complete (p : Pending) : bool := (need p <=? got p) || (DATA_SIZE <=? got p).

Definition run_handler (p : Pending) : rprog unit :=
  pmod (set_rd_pending None);;
  match handler p with PreHeaderHandler => pre_header_handler (got p) | IeHandler => ie_handler end.

Definition try_complete : rprog unit :=
  let! r := pget in
  match rd_pending r with
  | Some p => pwhen (complete p) (run_handler p)
  | None => pret tt
  end.

(** bytes arrive: as many as the buffer has room for are read. A read that the
    handler of the first starts may need nothing more. *)
Definition socket_piece (piece : bytes) : rprog unit :=
  let! r := pget in
  match rd_pending r with
  | None => pret tt
  | Some p =>
      let piece := take (Z.to_nat (DATA_SIZE - got p)) piece in
      pmod (fun r => set_rd_pending (Some (MkPending (need p) (got p + Z.of_nat (length piece)) (handler p)))
                       (set_rd_data (write_at (got p) piece (rd_data r)) r));;
      try_complete;;
      try_complete
  end.

(** a handler with an error throws *)
Definition socket_error : rprog unit :=
  let! r := pget in
  match rd_pending r with
  | None => pret tt
  | Some _ => pmod (set_rd_pending None);; pthrow SystemError
  end.

(** the read that starts a message *)
Definition start_reader : rprog unit := async_read PRE_HEADER_SIZE PreHeaderHandler.

Definition mo_data_ready (r : SBDMessageReader) : bool :=
  pre_header_initialized (rd_pre_header r) && header_initialized (rd_header r) && payload_initialized (rd_body r).
Definition mt_data_ready (r : SBDMessageReader) : bool :=
  pre_header_initialized (rd_pre_header r) && confirm_initialized (rd_confirm r).

(** ** The message to a mobile *)

(** [s[pos] = v]: beyond the end it is undefined *)
Definition put (pos : nat) (v : Z) (s : bytes) : result Exn bytes :=
  if (pos <? length s)%nat then Ok (<[pos := v]> s) else Err UndefinedBehaviour.

Fixpoint put_all (pos : nat) (vs : list Z) (s : bytes) : result Exn bytes :=
  match vs with
  | [] => Ok s
  | v :: vs => rbind (put pos v s) (put_all (S pos) vs)
  end.

Definition byte_of (v shift : Z) : Z := Z.land (Z.shiftr v shift) 255.

Definition HEADER_SIZE : Z := 21.
Definition IEI_SIZE : Z := 3.
Definition IEI_MT_HEADER : Z := 65.
Definition IEI_MT_PAYLOAD : Z := 66.
Definition DISP_FLAG_FLUSH_MT_QUEUE : Z := 1.

(** [header_bytes.replace(7, 15, imei)] changes the length when the identity
    does not have 15 characters; [i] is the static counter *)
Definition mt_header_bytes (i : Z) (imei : bytes) : result Exn bytes :=
  let client_id := u32 i in
  rbind (put_all 0 [IEI_MT_HEADER; byte_of HEADER_SIZE 8; byte_of HEADER_SIZE 0;
                    byte_of client_id 24; byte_of client_id 16; byte_of client_id 8; byte_of client_id 0]
           (repeat 0 (Z.to_nat (IEI_SIZE + HEADER_SIZE)))) (fun h =>
  let h := take 7 h ++ imei ++ drop 22 h in
  put_all 22 [byte_of DISP_FLAG_FLUSH_MT_QUEUE 8; byte_of DISP_FLAG_FLUSH_MT_QUEUE 0] h).

Definition mt_payload_bytes (bs : bytes) : bytes :=
  let length := u32 (Z.of_nat (length bs)) in
  [IEI_MT_PAYLOAD; byte_of length 8; byte_of length 0] ++ bs.

Definition create_sbd_mt_data_message (i : Z) (bs imei : bytes) : result Exn bytes :=
  rbind (mt_header_bytes i imei) (fun header_bytes =>
  let payload_bytes := mt_payload_bytes bs in
  let overall_length := Z.of_nat (length header_bytes + length payload_bytes) in
  Ok ([1; byte_of overall_length 8; byte_of overall_length 0] ++ header_bytes ++ payload_bytes)).

(** ** Programs that consume bytes *)

(** what the reader has before it *)
Definition ahead (r : SBDMessageReader) (s : bytes) : Prop :=
  0 <= rd_pos r /\ drop (Z.to_nat (rd_pos r)) (rd_data r) = s.

Definition len (s : bytes) : Z := Z.of_nat (length s).

Lemma len_app s t : len (s ++ t) = len s + len t.
Proof. unfold len. rewrite length_app. lia. Qed.

Lemma len_nonneg s : 0 <= len s.
Proof. unfold len. lia. Qed.

(** a change of the messages only *)
Definition tame (f : SBDMessageReader -> SBDMessageReader) : Prop :=
  forall r, rd_pos (f r) = rd_pos r /\ rd_data (f r) = rd_data r /\ rd_pre_header (f r) = rd_pre_header r /\
    rd_pending (f r) = rd_pending r /\ forall p, f (set_rd_pos p r) = set_rd_pos p (f r).

(** [m] takes [enc] from the buffer, returns [v] and changes the reader by [f] *)
Definition consumes {A : Type} (m : rprog A) (enc : bytes) (f : SBDMessageReader -> SBDMessageReader) (v : A) : Prop :=
  tame f /\ forall r s, ahead r (enc ++ s) -> rd_pos r + len enc <= DATA_SIZE ->
    m r = (f (set_rd_pos (rd_pos r + len enc) r), [], Ok v).

Lemma tame_id : tame (fun r => r).
Proof. by intros r. Qed.

Lemma tame_comp f g : tame f -> tame g -> tame (fun r => g (f r)).
Proof.
  intros Hf Hg r. destruct (Hf r) as (F1 & F2 & F3 & F4 & F5), (Hg (f r)) as (G1 & G2 & G3 & G4 & G5).
  repeat split; try congruence.
Qed.

Lemma ahead_drop r e s f :
  tame f -> ahead r (e ++ s) -> ahead (f (set_rd_pos (rd_pos r + len e) r)) s.
Proof.
  intros Hf [Hp Ha]. destruct (Hf (set_rd_pos (rd_pos r + len e) r)) as (F1 & F2 & _). unfold ahead. rewrite F1, F2. cbn.
  unfold len in *. split; [lia|]. replace (Z.to_nat (rd_pos r + Z.of_nat (length e))) with (Z.to_nat (rd_pos r) + length e)%nat by lia.
  by rewrite <- drop_drop, Ha, drop_app_length.
Qed.

Lemma set_pos_pos p q r : set_rd_pos p (set_rd_pos q r) = set_rd_pos p r.
Proof. done. Qed.

Lemma set_pos_same r : set_rd_pos (rd_pos r) r = r.
Proof. by destruct r. Qed.

Lemma consumes_bind {A C} (m : rprog A) (k : A -> rprog C) e1 e2 f g v w :
  consumes m e1 f v -> consumes (k v) e2 g w -> consumes (pbind m k) (e1 ++ e2) (fun r => g (f r)) w.
Proof.
  intros [Tf Hm] [Tg Hk]. split; [by apply tame_comp|]. intros r s Ha Hr. rewrite <- app_assoc in Ha. rewrite len_app in Hr.
  pose proof (len_nonneg e1). pose proof (len_nonneg e2).
  rewrite (pbind_quiet _ _ _ _ _ (Hm r _ Ha ltac:(lia))).
  destruct (Tf (set_rd_pos (rd_pos r + len e1) r)) as (F1 & _ & _ & _ & F5).
  rewrite (Hk _ s (ahead_drop _ _ _ _ Tf Ha)); rewrite F1; cbn [rd_pos set_rd_pos]; [|lia].
  rewrite <- F5, set_pos_pos, len_app. by rewrite Z.add_assoc.
Qed.

Lemma consumes_ret {A} (v : A) : consumes (pret v) [] (fun r => r) v.
Proof. split; [apply tame_id|]. intros r s _ _. unfold len. cbn [length Z.of_nat]. by rewrite Z.add_0_r, set_pos_same. Qed.

Lemma consumes_mod f : tame f -> consumes (pmod f) [] f tt.
Proof. intros T. split; [done|]. intros r s _ _. unfold len. cbn [length Z.of_nat]. by rewrite Z.add_0_r, set_pos_same. Qed.

Lemma consumes_conv {A} (m : rprog A) e e' f v v' :
  consumes m e f v -> e = e' -> v = v' -> consumes m e' f v'.
Proof. by intros H <- <-. Qed.

Lemma consumes_byte b : consumes next_byte [b] (fun r => r) b.
Proof.
  split; [apply tame_id|]. intros r s [Hp Ha] Hr. unfold len in *. cbn in Hr. unfold next_byte, pbind, pget, pmod, pret. cbn.
  destruct (rd_pos r <? DATA_SIZE) eqn:E; to_prop; [|lia].
  replace (nth _ _ _) with b; [done|].
  by rewrite nth_lookup, <- (Nat.add_0_r (Z.to_nat (rd_pos r))), <- lookup_drop, Ha.
Qed.

Lemma slice_ahead r e s : ahead r (e ++ s) -> slice (rd_pos r) (len e) (rd_data r) = e.
Proof.
  intros [Hp Ha]. unfold slice, len. rewrite Nat2Z.id, Ha, take_app_length, Nat.sub_diag. by rewrite app_nil_r.
Qed.

Lemma consumes_string e : consumes (next_string (len e)) e (fun r => r) e.
Proof.
  split; [apply tame_id|]. intros r s Ha Hr. unfold next_string, pbind, pget, pmod, pret. cbn.
  destruct (DATA_SIZE <? rd_pos r + len e) eqn:E; to_prop; [lia|]. by rewrite (slice_ahead r e s Ha).
Qed.

(** big-endian integers *)
Definition be16 (v : Z) : bytes := [v / 256; v mod 256].
Definition be32 (v : Z) : bytes := [v / 16777216; v / 65536 mod 256; v / 256 mod 256; v mod 256].

Lemma shiftl_sum a b n : 0 <= b < 2 ^ n -> 0 <= n -> Z.lor (Z.shiftl a n) b = a * 2 ^ n + b.
Proof. intros. by apply lor_shiftl_add. Qed.

Lemma consumes_uint16 v : 0 <= v < 65536 -> consumes read_uint16 (be16 v) (fun r => r) v.
Proof.
  intros Hv. eapply consumes_conv.
  - unfold read_uint16. eapply consumes_bind; [apply (consumes_byte (v / 256))|]. cbv beta.
    eapply consumes_bind; [apply (consumes_byte (v mod 256))|]. apply consumes_ret.
  - done.
  - rewrite shiftl_sum by (pose proof (Z.mod_pos_bound v 256); lia). pose proof (Z.div_mod v 256). lia.
Qed.

Lemma consumes_uint32 v : 0 <= v < 2 ^ 32 -> consumes read_uint32 (be32 v) (fun r => r) v.
Proof.
  intros Hv. eapply consumes_conv.
  - unfold read_uint32. eapply consumes_bind; [apply (consumes_byte (v / 16777216))|]. cbv beta.
    eapply consumes_bind; [apply (consumes_byte (v / 65536 mod 256))|]. cbv beta.
    eapply consumes_bind; [apply (consumes_byte (v / 256 mod 256))|]. cbv beta.
    eapply consumes_bind; [apply (consumes_byte (v mod 256))|]. apply consumes_ret.
  - done.
  - cbv beta. pose proof (Z.mod_pos_bound v 256). pose proof (Z.mod_pos_bound (v / 256) 256). pose proof (Z.mod_pos_bound (v / 65536) 256).
    rewrite <- !Z.lor_assoc, (shiftl_sum (v / 256 mod 256)), (shiftl_sum (v / 65536 mod 256)), shiftl_sum by lia.
    pose proof (Z.div_mod v 256). pose proof (Z.div_mod (v / 256) 256). pose proof (Z.div_mod (v / 65536) 256).
    rewrite Z.div_div in * by lia. change (256 * 256) with 65536 in *. change (65536 * 256) with 16777216 in *. lia.
Qed.

Lemma s8_small v : 0 <= v < 128 -> s8 v = v.
Proof. intros H. unfold s8. rewrite Z.mod_small; lia. Qed.

Lemma consumes_char v : 0 <= v < 128 -> consumes read_byte [v] (fun r => r) v.
Proof.
  intros H. eapply consumes_conv.
  - unfold read_byte. eapply consumes_bind; [apply (consumes_byte v)|]. apply consumes_ret.
  - done.
  - cbv beta. by apply s8_small.
Qed.

Ltac tame_step := intros ?; repeat split.

(** ** Information elements *)

Inductive IE : Type :=
| HeaderIE (cdr : Z) (imei : bytes) (status mo mt time : Z)
| PayloadIE (payload : bytes)
| OtherIE (id : Z) (body : bytes).

Definition ie_bytes (e : IE) : bytes :=
  match e with
  | HeaderIE cdr imei status mo mt time =>
      [1] ++ be16 28 ++ be32 cdr ++ imei ++ [status] ++ be16 mo ++ be16 mt ++ be32 time
  | PayloadIE p => [2] ++ be16 (len p) ++ p
  | OtherIE id body => [id] ++ be16 (len body) ++ body
  end.

Definition wf_ie (e : IE) : Prop :=
  match e with
  | HeaderIE cdr imei status mo mt time =>
      0 <= cdr < 2 ^ 32 /\ len imei = IMEI_SIZE /\ 0 <= status < 128 /\ 0 <= mo < 65536 /\ 0 <= mt < 65536 /\ 0 <= time < 2 ^ 32
  | PayloadIE p => len p < 65536
  | OtherIE id body => 0 <= id < 128 /\ (id ∉ [1; 2; 68]) /\ len body < 65536
  end.

(** what the reader keeps of an element *)
Definition keep_ie (r : SBDMessageReader) (e : IE) : SBDMessageReader :=
  match e with
  | HeaderIE cdr imei status mo mt time =>
      set_rd_header (MkMOHeader (Some 1) (Some 28) (Some cdr) (Some imei) (Some status) (Some mo) (Some mt) (Some time)) r
  | PayloadIE p => set_rd_body (MkMOPayload (Some 2) (Some (len p)) (Some p)) r
  | OtherIE _ _ => r
  end.

Lemma consumes_effect {A} (m : rprog A) e f g v :
  consumes m e f v -> (forall r, f r = g r) -> consumes m e g v.
Proof.
  intros [T H] E. split.
  - intros r. destruct (T r) as (T1 & T2 & T3 & T4 & T5). rewrite <- E. repeat split; try done. intros p. by rewrite <- E.
  - intros r s Ha Hr. by rewrite (H r s Ha Hr), E.
Qed.

Lemma consumes_skip e : consumes (skip_ie (len e)) e (fun r => r) tt.
Proof. split; [apply tame_id|]. done. Qed.

(** a step that updates, then goes on *)
Lemma consumes_then {C} f (k : rprog C) e g w :
  tame f -> consumes k e g w ->
  consumes (pbind (pmod f) (fun _ => k)) e (fun r => g (f r)) w.
Proof. intros T H. exact (consumes_bind (pmod f) (fun _ => k) [] e f g tt w (consumes_mod f T) H). Qed.

(** a value, then its update *)
Lemma consumes_field {A C} (m : rprog A) (f : A -> SBDMessageReader -> SBDMessageReader) (k : rprog C) e1 e2 v g w :
  consumes m e1 (fun r => r) v -> tame (f v) -> consumes k e2 g w ->
  consumes (pbind m (fun v => pbind (pmod (f v)) (fun _ => k))) (e1 ++ e2) (fun r => g (f v r)) w.
Proof. intros Hm T Hk. exact (consumes_bind _ _ _ _ _ _ _ _ Hm (consumes_then _ _ _ _ _ T Hk)). Qed.

(** a value, then the rest *)
Lemma consumes_read {A C} (m : rprog A) (k : A -> rprog C) e1 e2 v g w :
  consumes m e1 (fun r => r) v -> consumes (k v) e2 g w -> consumes (pbind m k) (e1 ++ e2) g w.
Proof. intros Hm Hk. exact (consumes_bind m k e1 e2 (fun r => r) g v w Hm Hk). Qed.

Lemma consumes_last {A} (m : rprog A) (f : A -> SBDMessageReader -> SBDMessageReader) e v :
  consumes m e (fun r => r) v -> tame (f v) -> consumes (pbind m (fun v => pmod (f v))) e (f v) tt.
Proof.
  intros Hm T. rewrite <- (app_nil_r e). exact (consumes_read m (fun v => pmod (f v)) e [] v (f v) tt Hm (consumes_mod _ T)).
Qed.

Lemma tame_on_header f : tame (on_header f).
Proof. by intros r. Qed.

Lemma on_header_on_header f g r : on_header g (on_header f r) = on_header (fun h => g (f h)) r.
Proof. done. Qed.

Lemma header_ie_read cdr imei status mo mt time :
  wf_ie (HeaderIE cdr imei status mo mt time) ->
  consumes (read_header_ie 1 28) (be32 cdr ++ imei ++ [status] ++ be16 mo ++ be16 mt ++ be32 time)
    (fun r => keep_ie r (HeaderIE cdr imei status mo mt time)) tt.
Proof.
  intros (Hc & Hi & Hs & Hmo & Hmt & Ht). eapply consumes_effect.
  - unfold read_header_ie, upd_header. do 2 (apply consumes_then; [apply tame_on_header|]).
    apply consumes_field; [by apply consumes_uint32 | apply tame_on_header|].
    apply consumes_field; [unfold read_imei; rewrite <- Hi; apply consumes_string | apply tame_on_header|].
    apply (consumes_field read_byte (fun v => on_header (set_session_status (u32 v))) _ [status] _ status);
      [by apply consumes_char | apply tame_on_header|].
    apply consumes_field; [by apply consumes_uint16 | apply tame_on_header|].
    apply consumes_field; [by apply consumes_uint16 | apply tame_on_header|].
    apply consumes_last; [by apply consumes_uint32 | apply tame_on_header].
  - intros r. cbv beta. rewrite !on_header_on_header. unfold u32. rewrite wrap_small by lia. unfold on_header, keep_ie.
    f_equal.
Qed.

Lemma read_ie_ok e : wf_ie e -> consumes read_ie (ie_bytes e) (fun r => keep_ie r e) tt.
Proof.
  intros H. unfold read_ie. destruct e as [cdr imei status mo mt time|p|id body]; unfold ie_bytes.
  - eapply consumes_read; [apply (consumes_char 1); lia|]. eapply consumes_read; [apply (consumes_uint16 28); lia|].
    exact (header_ie_read cdr imei status mo mt time H).
  - cbn in H. pose proof (len_nonneg p). eapply consumes_read; [apply (consumes_char 2); lia|].
    eapply consumes_read; [apply (consumes_uint16 (len p)); lia|].
    unfold read_payload_ie, upd_body. eapply consumes_effect.
    + apply consumes_then; [tame_step|]. apply (consumes_last _ _ p p); [apply consumes_string | tame_step].
    + done.
  - destruct H as (Hid & Hn & Hl). pose proof (len_nonneg body).
    eapply consumes_read; [by apply (consumes_char id)|].
    eapply consumes_read; [apply (consumes_uint16 (len body)); lia|].
    assert (E : match id with 1 => read_header_ie id (len body) | 2 => read_payload_ie id (len body)
                | 68 => read_confirm_ie id (len body) | _ => skip_ie (len body) end = skip_ie (len body)).
    { repeat case_match; try done; exfalso; apply Hn; set_solver. }
    rewrite E. apply consumes_skip.
Qed.

(** ** Whole messages *)

Definition ies_bytes (ies : list IE) : bytes := concat (map ie_bytes ies).

Definition mo_message (ver : Z) (ies : list IE) : bytes := [ver] ++ be16 (len (ies_bytes ies)) ++ ies_bytes ies.

Definition keep_all (ies : list IE) (r : SBDMessageReader) : SBDMessageReader := fold_left keep_ie ies r.

Lemma tame_keep e : tame (fun r => keep_ie r e).
Proof. by destruct e; intros r. Qed.

Lemma tame_keep_all ies : tame (keep_all ies).
Proof.
  unfold keep_all. induction ies as [|e ies IH]; [apply tame_id|]. exact (tame_comp _ _ (tame_keep e) IH).
Qed.

Lemma ie_bytes_len e : 3 <= len (ie_bytes e).
Proof. unfold len. destruct e; cbn [ie_bytes app be16 length]; lia. Qed.

Lemma ie_loop_reads ies : forall fuel r s, Forall wf_ie ies -> ies <> [] ->
  ahead r (ies_bytes ies ++ s) -> message_end r = rd_pos r + len (ies_bytes ies) -> message_end r <= DATA_SIZE ->
  (length ies <= fuel)%nat ->
  ie_loop fuel r = (keep_all ies (set_rd_pos (message_end r) r), [], Ok tt).
Proof.
  induction ies as [|e ies IH]; intros fuel r s Hw Hn Ha He Hd Hf; [done|]. destruct fuel as [|fuel]; [cbn in Hf; lia|].
  inversion_clear Hw as [|? ? He' Hw']. destruct (read_ie_ok e He') as [T Hr]. cbn [ie_loop].
  unfold ies_bytes in *. cbn [map concat] in *. rewrite len_app in He. fold (ies_bytes ies) in *.
  rewrite <- app_assoc in Ha. pose proof (len_nonneg (ies_bytes ies)) as Hp.
  rewrite (pbind_quiet _ _ _ _ _ (Hr r _ Ha ltac:(lia))). set (r1 := keep_ie _ e).
  destruct (T (set_rd_pos (rd_pos r + len (ie_bytes e)) r)) as (T1 & T2 & T3 & _ & T5). fold r1 in T1, T2, T3.
  assert (Ee : message_end r1 = message_end r) by (unfold message_end; by rewrite T3).
  rewrite pbind_get, Ee, T1. cbn [rd_pos set_rd_pos].
  destruct (rd_pos r + len (ie_bytes e) <? message_end r) eqn:E; to_prop.
  - destruct ies as [|e2 ies]; [change (len (ies_bytes [])) with 0 in He; lia|].
    rewrite (IH fuel r1 s Hw' ltac:(done)); [|exact (ahead_drop r (ie_bytes e) _ _ T Ha) | rewrite Ee, T1; cbn [rd_pos set_rd_pos]; lia | lia | cbn in *; lia].
    rewrite Ee. unfold r1. cbn [keep_all fold_left]. unfold keep_all. do 3 f_equal.
    by rewrite <- T5, set_pos_pos.
  - assert (ies = []) as ->.
    { destruct ies as [|e2 ies]; [done|]. unfold ies_bytes in He. cbn [map concat] in He. rewrite len_app in He.
      pose proof (ie_bytes_len e2). pose proof (len_nonneg (concat (map ie_bytes ies))). lia. }
    change (len (ies_bytes [])) with 0 in He. cbn [keep_all fold_left]. unfold r1, pret.
    cbn [app]. do 4 f_equal. f_equal. lia.
Qed.

(** the reader that waits for the end of the message, all of which is in the buffer *)
Definition read_pre_header (ver n : Z) (r : SBDMessageReader) : SBDMessageReader :=
  set_rd_pos 3 (set_rd_pre_header (MkPreHeader (Some ver) (Some n)) r).

Lemma pre_header_reads ver n s r k :
  0 <= ver < 128 -> 0 <= n < 65536 -> rd_pos r = 0 -> rd_data r = [ver] ++ be16 n ++ s ->
  pre_header_handler k r = (set_rd_pending (Some (MkPending (u64 (n + 3 - k)) 0 IeHandler)) (read_pre_header ver n r), [], Ok tt).
Proof.
  intros Hv Hn Hp Hd. unfold pre_header_handler.
  assert (Ha : ahead r ([ver] ++ be16 n ++ s)) by (unfold ahead; rewrite Hp, Hd; done).
  destruct (consumes_char ver Hv) as [_ H1]. rewrite (pbind_quiet _ _ _ _ _ (H1 r _ Ha ltac:(rewrite Hp; unfold len, DATA_SIZE; cbn [length]; lia))).
  rewrite pbind_mod. set (r1 := set_rd_pre_header _ _).
  assert (Ha1 : ahead r1 (be16 n ++ s)) by (unfold ahead; cbn; rewrite Hp, Hd; done).
  destruct (consumes_uint16 n Hn) as [_ H2].
  rewrite (pbind_quiet _ _ _ _ _ (H2 r1 s Ha1 ltac:(unfold r1; cbn [rd_pos set_rd_pos set_rd_pre_header]; rewrite Hp; unfold len, DATA_SIZE; cbn [length be16]; lia))).
  rewrite pbind_mod. unfold pbind, pget, async_read, pmod, message_end, read_pre_header, PRE_HEADER_SIZE. cbn. rewrite Hp.
  destruct r. done.
Qed.

(** the elements that carry the header and the payload *)
Definition header_of_ie (e : IE) : option DirectIPMOHeader :=
  match e with
  | HeaderIE cdr imei status mo mt time =>
      Some (MkMOHeader (Some 1) (Some 28) (Some cdr) (Some imei) (Some status) (Some mo) (Some mt) (Some time))
  | _ => None
  end.
Definition payload_of_ie (e : IE) : option bytes := match e with PayloadIE p => Some p | _ => None end.

Lemma keep_all_header ies r : rd_header (keep_all ies r) = default (rd_header r) (last (omap header_of_ie ies)).
Proof.
  revert r. induction ies as [|e ies IH]; intros r; [done|]. cbn [keep_all fold_left]. unfold keep_all in IH. rewrite IH.
  destruct e; try done. cbn [omap list_omap header_of_ie]. rewrite last_cons. by destruct (last (omap header_of_ie ies)).
Qed.

Lemma keep_all_body ies r :
  rd_body (keep_all ies r) = from_option (fun p => MkMOPayload (Some 2) (Some (len p)) (Some p)) (rd_body r) (last (omap payload_of_ie ies)).
Proof.
  revert r. induction ies as [|e ies IH]; intros r; [done|]. cbn [keep_all fold_left]. unfold keep_all in IH. rewrite IH.
  destruct e; try done. cbn [omap list_omap payload_of_ie]. rewrite last_cons. by destruct (last (omap payload_of_ie ies)).
Qed.

Lemma write_at_end s data : write_at (len data) s data = data ++ s.
Proof.
  unfold write_at, len. rewrite Nat2Z.id, firstn_all, Nat.sub_diag, drop_ge by lia. cbn. by rewrite app_nil_r.
Qed.

Lemma be16_len v : len (be16 v) = 2.
Proof. done. Qed.

Lemma mo_message_len ver ies : len (mo_message ver ies) = len (ies_bytes ies) + 3.
Proof. unfold mo_message. rewrite !len_app, be16_len. unfold len at 1. cbn [length]. lia. Qed.

(** a piece that arrives for a read *)
Lemma piece_arrives piece r p :
  rd_pending r = Some p -> got p = len (rd_data r) -> got p + len piece <= DATA_SIZE ->
  socket_piece piece r = (try_complete;; try_complete)
    (set_rd_pending (Some (MkPending (need p) (got p + len piece) (handler p))) (set_rd_data (rd_data r ++ piece) r)).
Proof.
  intros Hp Hg Hs. unfold socket_piece. rewrite pbind_get, Hp, pbind_mod.
  rewrite take_ge by (unfold len in *; lia). replace (write_at (got p)) with (write_at (len (rd_data r))) by (by rewrite Hg).
  by rewrite write_at_end.
Qed.

Lemma try_complete_waits r p : rd_pending r = Some p -> complete p = false -> try_complete r = (r, [], Ok tt).
Proof. intros Hp Hc. unfold try_complete. by rewrite pbind_get, Hp, Hc. Qed.

Lemma try_complete_runs r p :
  rd_pending r = Some p -> complete p = true ->
  try_complete r = (match handler p with PreHeaderHandler => pre_header_handler (got p) | IeHandler => ie_handler end) (set_rd_pending None r).
Proof.
  intros Hp Hc. unfold try_complete. rewrite pbind_get, Hp, Hc. cbn [pwhen]. unfold run_handler. by rewrite pbind_mod.
Qed.

Lemma mo_ready_iff ies r :
  pre_header_initialized (rd_pre_header r) = true -> rd_header r = rd_header new_sbd_reader -> rd_body r = rd_body new_sbd_reader ->
  (mo_data_ready (keep_all ies r) = true <-> omap header_of_ie ies <> [] /\ omap payload_of_ie ies <> []).
Proof.
  intros Hp Hh Hb. unfold mo_data_ready. destruct (tame_keep_all ies r) as (_ & _ & -> & _).
  rewrite Hp, keep_all_header, keep_all_body, Hh, Hb, andb_true_l, andb_true_iff. split.
  - intros [H1 H2]. split; intros E; by rewrite E in *.
  - intros [H1 H2]. split.
    + destruct (last (omap header_of_ie ies)) as [h|] eqn:E; [|by apply last_None in E]. cbn.
      apply last_Some_elem_of, list_elem_of_omap in E as (e & _ & E). destruct e; try discriminate E. by injection E as <-.
    + destruct (last (omap payload_of_ie ies)) as [h|] eqn:E; [done|]. by apply last_None in E.
Qed.

(** the number of elements is small enough for the fuel *)
Lemma ies_count ies : 3 * Z.of_nat (length ies) <= len (ies_bytes ies).
Proof.
  induction ies as [|e l IH]; [done|]. unfold ies_bytes in *. cbn [map concat length]. rewrite len_app.
  pose proof (ie_bytes_len e). lia.
Qed.

(** A short burst message from the gateway, any sequence of well-formed information elements,
    is read completely when all of it is there once the pre-header is: the reader keeps the last
    header and the last payload and skips the other elements, and reports data exactly when there is
    one of each. *)
Lemma sbd_mo_message_read (ver : Z) (ies : list IE) (first rest : bytes) :
  0 <= ver < 128 -> Forall wf_ie ies -> ies <> [] -> len (mo_message ver ies) <= DATA_SIZE ->
  mo_message ver ies = first ++ rest -> len first < PRE_HEADER_SIZE ->
  exists r, (start_reader;; socket_piece first;; socket_piece rest) new_sbd_reader = (r, [], Ok tt) /\
    rd_pending r = None /\
    rd_pre_header r = MkPreHeader (Some ver) (Some (len (ies_bytes ies))) /\
    rd_header r = default (rd_header new_sbd_reader) (last (omap header_of_ie ies)) /\
    pl_payload (rd_body r) = last (omap payload_of_ie ies) /\
    (mo_data_ready r = true <-> omap header_of_ie ies <> [] /\ omap payload_of_ie ies <> []).
Proof.
  intros Hv Hw Hn Hd Hm Hf. pose proof (mo_message_len ver ies) as Hl. pose proof (len_nonneg first) as Hf0.
  assert (Hle : len (mo_message ver ies) = len first + len rest) by (rewrite Hm; apply len_app).
  unfold DATA_SIZE, PRE_HEADER_SIZE in *. unfold start_reader, async_read. rewrite pbind_mod. set (r0 := set_rd_pending _ _).
  (* the first bytes *)
  set (r1 := set_rd_pending (Some (MkPending 3 (len first) PreHeaderHandler)) (set_rd_data first r0)).
  assert (E1 : socket_piece first r0 = (r1, [], Ok tt)).
  { rewrite (piece_arrives first r0 (MkPending 3 0 PreHeaderHandler)) by (try done; unfold DATA_SIZE; cbn [got]; pose proof (len_nonneg rest); lia).
    change (set_rd_pending _ _) with r1. assert (Hc : complete (MkPending 3 (len first) PreHeaderHandler) = false).
    { unfold complete, DATA_SIZE. cbn [need got]. destruct (3 <=? len first) eqn:A, (65536 <=? len first) eqn:C; to_prop; try done; lia. }
    rewrite (pbind_quiet _ _ _ _ _ (try_complete_waits r1 _ eq_refl Hc)). by apply (try_complete_waits r1 _ eq_refl). }
  rewrite (pbind_quiet _ _ _ _ _ E1).
  (* the rest *)
  set (r2 := set_rd_pending (Some (MkPending 3 (len first + len rest) PreHeaderHandler)) (set_rd_data (first ++ rest) r1)).
  rewrite (piece_arrives rest r1 (MkPending 3 (len first) PreHeaderHandler));
    [|done | done | unfold DATA_SIZE; cbn [got]; lia].
  change (set_rd_pending _ _) with r2.
  pose proof (len_nonneg (ies_bytes ies)) as Hb.
  assert (Hc : complete (MkPending 3 (len first + len rest) PreHeaderHandler) = true)
    by (unfold complete; cbn [need got]; apply orb_true_iff; left; apply Z.leb_le; lia).
  rewrite (pbind_quiet _ _ _ _ _ (eq_trans (try_complete_runs r2 _ eq_refl Hc)
    (pre_header_reads ver (len (ies_bytes ies)) (ies_bytes ies) (set_rd_pending None r2) _ Hv ltac:(lia) eq_refl (eq_sym Hm)))).
  replace (u64 _) with 0 by (cbn [got]; rewrite <- Hle, Hl; unfold u64, wrap; by rewrite Z.sub_diag).
  set (r3 := read_pre_header _ _ _). rewrite (try_complete_runs (set_rd_pending _ r3) (MkPending 0 0 IeHandler) eq_refl eq_refl).
  cbn [handler]. change (set_rd_pending None (set_rd_pending _ r3)) with r3. unfold ie_handler. rewrite pbind_get.
  assert (He : message_end r3 = len (ies_bytes ies) + 3) by done.
  rewrite (ie_loop_reads ies _ r3 [] Hw Hn).
  - eexists. split; [reflexivity|]. destruct (tame_keep_all ies (set_rd_pos (message_end r3) r3)) as (_ & _ & T3 & T4 & _).
    rewrite T3, T4, keep_all_header, keep_all_body. split; [done|]. split; [done|]. split; [done|].
    split; [by destruct (last (omap payload_of_ie ies)) | by apply mo_ready_iff].
  - unfold ahead. split; [done|]. change (rd_data r3) with (first ++ rest). rewrite <- Hm, app_nil_r. done.
  - rewrite He. change (rd_pos r3) with 3. lia.
  - rewrite He. unfold DATA_SIZE. lia.
  - rewrite He. change (rd_pos r3) with 3. pose proof (ies_count ies). lia.
Qed.

(** ** Reading ends, whatever the bytes *)

(** a program that moves forward by at least [k] and does not wait *)
Definition advances {A : Type} (k : Z) (m : rprog A) (Q : A -> Prop) : Prop :=
  forall p e, triple (fun r => rd_pos r = p /\ message_end r = e /\ wf_bytes (rd_data r)) m
    (fun v r => p + k <= rd_pos r /\ message_end r = e /\ wf_bytes (rd_data r) /\ Q v) (fun x _ => x <> StillWaiting).

Lemma advances_bind {A C} j k (m : rprog A) (f : A -> rprog C) P Q :
  advances j m P -> (forall v, P v -> advances k (f v) Q) -> advances (j + k) (pbind m f) Q.
Proof.
  intros Hm Hf p e. eapply triple_bind; [apply (Hm p e)|]. intros v r (Hp & He & Hw & Hv).
  specialize (Hf v Hv (rd_pos r) e r ltac:(done)). destruct (f v r) as [[r' ev] [w|x]]; [|done].
  destruct Hf as (? & ? & ? & ?). repeat split; try done. lia.
Qed.

Lemma advances_weaken {A} j k (m : rprog A) (P Q : A -> Prop) :
  advances j m P -> k <= j -> (forall v, P v -> Q v) -> advances k m Q.
Proof.
  intros H Hk HQ p e r Hr. specialize (H p e r Hr). destruct (m r) as [[r' ev] [w|x]]; [|done].
  destruct H as (? & ? & ? & ?). repeat split; try done; [lia | auto].
Qed.

Lemma advances_ret {A} (v : A) (Q : A -> Prop) : Q v -> advances 0 (pret v) Q.
Proof. intros HQ p e r (Hp & He & Hw). cbn. repeat split; try done. lia. Qed.

Lemma advances_mod f : (forall r, rd_pos r <= rd_pos (f r) /\ message_end (f r) = message_end r /\ rd_data (f r) = rd_data r) ->
  advances 0 (pmod f) (fun _ => True).
Proof. intros H p e r (Hp & He & Hw). cbn. destruct (H r) as (H1 & H2 & H3). rewrite H2, H3. repeat split; try done. lia. Qed.

Lemma advances_byte : advances 1 next_byte is_byte.
Proof.
  intros p e r (Hp & He & Hw). unfold next_byte. rewrite pbind_get, pbind_mod. cbn [rd_pos set_rd_pos].
  destruct (rd_pos r <? DATA_SIZE); cbn; [|done]. repeat split; try done; [lia| |].
  all: rewrite nth_lookup; destruct (rd_data r !! _) as [b|] eqn:E; cbn; [|lia]; eapply Forall_lookup_1 in E; [|done]; apply E.
Qed.

Lemma advances_string n : 0 <= n -> advances 0 (next_string n) (fun _ => True).
Proof.
  intros Hn p e r (Hp & He & Hw). unfold next_string. rewrite pbind_get.
  destruct (DATA_SIZE <? rd_pos r + n); cbn; [done|]. repeat split; try done. lia.
Qed.

Create HintDb advances.
#[local] Hint Resolve advances_byte advances_string : advances.

(** programs whose values do not matter *)
Ltac advance :=
  repeat match goal with
  | |- advances _ (pbind ?m _) _ =>
      eapply (advances_weaken (0 + 0) 0 _ (fun _ => True)); [eapply (advances_bind 0 0 _ _ (fun _ => True)); [|intros ? _] | lia | done]
  | |- advances 0 (pret _) _ => by apply advances_ret
  | |- advances 0 (pmod _) _ => apply advances_mod; intros ?; repeat split; done
  | |- advances 0 next_byte _ => eapply advances_weaken; [apply advances_byte | lia | done]
  | |- advances 0 (next_string _) _ => apply advances_string; unfold IMEI_SIZE; lia
  end.

Lemma advances_uint16 : advances 2 read_uint16 (fun v => 0 <= v).
Proof.
  unfold read_uint16. eapply (advances_weaken (1 + (1 + 0))); [|lia|exact (fun v H => H)].
  eapply advances_bind; [apply advances_byte|]. intros b0 H0. eapply advances_bind; [apply advances_byte|]. intros b1 H1.
  apply advances_ret. unfold is_byte in *. apply Z.lor_nonneg. rewrite Z.shiftl_nonneg. lia.
Qed.

Lemma advances_read_ie : advances 3 read_ie (fun _ => True).
Proof.
  unfold read_ie. eapply (advances_weaken (1 + (2 + 0))); [|lia|exact (fun v H => H)].
  eapply (advances_bind 1 _ _ _ (fun _ => True)).
  { eapply (advances_weaken (1 + 0) 1 _ (fun _ => True)); [unfold read_byte; eapply advances_bind; [apply advances_byte|] | lia | done].
    intros. by apply advances_ret. }
  intros iei _. eapply advances_bind; [apply advances_uint16|]. cbv beta. intros n Hn.
  assert (Hs : advances 0 (skip_ie n) (fun _ => True)).
  { apply advances_mod. intros r. split; [cbn; lia | done]. }
  assert (Hh : advances 0 (read_header_ie iei n) (fun _ => True)).
  { unfold read_header_ie, read_uint32, read_uint16, read_byte, read_imei, upd_header. advance. }
  assert (Hc : advances 0 (read_confirm_ie iei n) (fun _ => True)).
  { unfold read_confirm_ie, read_int16, read_uint32, read_uint16, read_byte, read_imei, upd_confirm. advance. done. }
  assert (Hp : advances 0 (read_payload_ie iei n) (fun _ => True)).
  { unfold read_payload_ie, upd_body. advance. }
  repeat case_match; done.
Qed.

Lemma ie_loop_ends : forall fuel r, wf_bytes (rd_data r) -> message_end r - rd_pos r < Z.of_nat fuel -> (0 < fuel)%nat ->
  snd (ie_loop fuel r) <> Err StillWaiting.
Proof.
  induction fuel as [|fuel IH]; intros r Hw Hf H0; [lia|]. cbn [ie_loop].
  pose proof (advances_read_ie (rd_pos r) (message_end r) r ltac:(done)) as H. unfold pbind at 1.
  destruct (read_ie r) as [[r1 ev] [[]|x]]; [|cbn; intros [= ->]; done].
  destruct H as (Hp & He & Hw1 & _). rewrite pbind_get, He. destruct (rd_pos r1 <? message_end r) eqn:E; [|done]. to_prop.
  specialize (IH r1 Hw1 ltac:(lia) ltac:(lia)). by destruct (ie_loop fuel r1) as [[? ?] ?].
Qed.

(** the fuel of [ie_handler] is enough for any bytes *)
Lemma ie_handler_ends r : wf_bytes (rd_data r) -> snd (ie_handler r) <> Err StillWaiting.
Proof. intros Hw. unfold ie_handler. rewrite pbind_get. apply ie_loop_ends; [done | lia | lia]. Qed.

(** ** The message to a mobile is well formed *)

(** what a reader of information elements makes of a message *)
Fixpoint split_ies (fuel : nat) (s : bytes) : option (list (Z * bytes)) :=
  match fuel, s with
  | _, [] => Some []
  | S fuel, id :: hi :: lo :: s =>
      let n := Z.to_nat (256 * hi + lo) in
      if (n <=? length s)%nat then cons (id, take n s) <$> split_ies fuel (drop n s) else None
  | _, _ => None
  end.

Definition parse_direct_ip (s : bytes) : option (Z * list (Z * bytes)) :=
  match s with
  | ver :: hi :: lo :: s => if 256 * hi + lo =? len s then pair ver <$> split_ies (length s) s else None
  | _ => None
  end.

Lemma byte_of_div v k : 0 <= v -> 0 <= k -> byte_of v k = v / 2 ^ k mod 256.
Proof. intros Hv Hk. unfold byte_of. rewrite land_255_mod by (apply Z.shiftr_nonneg; lia). by rewrite Z.shiftr_div_pow2. Qed.

Lemma byte_of_be16 v : 0 <= v < 65536 -> [byte_of v 8; byte_of v 0] = be16 v.
Proof.
  intros Hv. rewrite !byte_of_div by lia. rewrite Z.div_1_r. unfold be16. f_equal. apply Z.mod_small.
  change (2 ^ 8) with 256. split; [apply Z.div_pos; lia | apply Z.div_lt_upper_bound; lia].
Qed.

Lemma byte_of_be32 v : 0 <= v < 2 ^ 32 -> [byte_of v 24; byte_of v 16; byte_of v 8; byte_of v 0] = be32 v.
Proof.
  intros Hv. rewrite !byte_of_div by lia. rewrite Z.div_1_r. unfold be32. f_equal. apply Z.mod_small.
  change (2 ^ 24) with 16777216. split; [apply Z.div_pos; lia | apply Z.div_lt_upper_bound; lia].
Qed.

Lemma be16_value v : 256 * (v / 256) + v mod 256 = v.
Proof. pose proof (Z.div_mod v 256). lia. Qed.

Lemma split_ie fuel id body s :
  (0 < fuel)%nat -> split_ies fuel (id :: be16 (len body) ++ body ++ s) = cons (id, body) <$> split_ies (pred fuel) s.
Proof.
  intros Hf. destruct fuel as [|fuel]; [lia|]. cbn [be16 app split_ies pred]. rewrite be16_value. unfold len. rewrite Nat2Z.id.
  rewrite (proj2 (Nat.leb_le _ _)) by (rewrite length_app; lia). by rewrite take_app_length, drop_app_length.
Qed.

Lemma mt_header_value i imei :
  len imei = IMEI_SIZE ->
  mt_header_bytes i imei = Ok (IEI_MT_HEADER :: be16 21 ++ (be32 (u32 i) ++ imei ++ [0; 1])).
Proof.
  intros Hi. unfold mt_header_bytes. rewrite <- (byte_of_be32 (u32 i)) by (apply Z.mod_pos_bound; lia).
  generalize (byte_of (u32 i) 24), (byte_of (u32 i) 16), (byte_of (u32 i) 8), (byte_of (u32 i) 0). intros a b c d.
  unfold len, IMEI_SIZE in Hi. assert (Hl : length imei = 15%nat) by lia. clear Hi.
  do 15 (destruct imei as [|? imei]; [done|]). by destruct imei.
Qed.

Lemma mt_payload_value bs : len bs < 65536 -> mt_payload_bytes bs = IEI_MT_PAYLOAD :: be16 (len bs) ++ bs.
Proof.
  intros Hb. pose proof (len_nonneg bs). unfold mt_payload_bytes.
  assert (Ew : u32 (Z.of_nat (length bs)) = len bs) by (unfold u32, len in *; apply wrap_small; lia). rewrite Ew.
  rewrite <- (byte_of_be16 (len bs)) by lia. done.
Qed.

(** The message the shore writes for a mobile with a 15 character identity is parsed by the
    DirectIP format, with consistent overall and element lengths, into exactly two elements: the
    header with the client id, the identity and the flush flag, and the payload. *)
Lemma mt_message_roundtrip (i : Z) (bs imei : bytes) :
  len imei = IMEI_SIZE -> len bs <= 65535 - 27 ->
  exists m, create_sbd_mt_data_message i bs imei = Ok m /\
    parse_direct_ip m = Some (1, [(IEI_MT_HEADER, be32 (u32 i) ++ imei ++ [0; DISP_FLAG_FLUSH_MT_QUEUE]); (IEI_MT_PAYLOAD, bs)]).
Proof.
  intros Hi Hb. pose proof (len_nonneg bs) as H0. unfold create_sbd_mt_data_message. rewrite (mt_header_value i imei Hi).
  cbv beta iota zeta delta [rbind]. eexists. split; [reflexivity|]. rewrite mt_payload_value by lia.
  set (h := be32 (u32 i) ++ imei ++ [0; 1]). assert (Eh : len h = 21).
  { unfold h. rewrite !len_app, Hi. done. }
  set (s := (IEI_MT_HEADER :: be16 21 ++ h) ++ IEI_MT_PAYLOAD :: be16 (len bs) ++ bs).
  assert (Es : len s = 27 + len bs).
  { unfold s. rewrite len_app. unfold len in *. cbn [length]. rewrite !length_app. cbn [be16 length]. lia. }
  replace (Z.of_nat _) with (len s) by (unfold s, len; by rewrite length_app).
  change (parse_direct_ip ([1; byte_of (len s) 8; byte_of (len s) 0] ++ s)) with (parse_direct_ip (1 :: [byte_of (len s) 8; byte_of (len s) 0] ++ s)).
  rewrite (byte_of_be16 (len s)) by lia. cbn [be16 app parse_direct_ip]. rewrite be16_value, Z.eqb_refl.
  assert (Hs : s = IEI_MT_HEADER :: be16 (len h) ++ h ++ (IEI_MT_PAYLOAD :: be16 (len bs) ++ bs ++ [])).
  { unfold s. rewrite Eh, app_nil_r. cbn. by rewrite <- app_assoc. }
  assert (Hf : (2 < length s)%nat) by (unfold len in *; lia).
  rewrite Hs at 2. rewrite split_ie by lia. rewrite split_ie by lia. cbn. by destruct (pred (pred (length s))).
Qed.

(** ** A message that arrives in two pieces is misread

    The second read of the socket starts again at the beginning of the buffer,
    while the position stays behind the pre-header. *)

Module DirectIpWitness.

Definition ies : list IE :=
  [HeaderIE 305419896 (B "300234010753370") 0 54321 0 1234567; OtherIE 3 [1; 2; 3]; PayloadIE (B "hello")].

Definition run (pieces : list bytes) : SBDMessageReader * list Empty_set * result Exn unit :=
  (start_reader;; pfor pieces socket_piece) new_sbd_reader.

(** the payload of the message, when there is one *)
Definition received_after (pieces : list bytes) : option bytes :=
  let r := (run pieces).1.1 in if mo_data_ready r then pl_payload (rd_body r) else None.

Lemma ies_wf : Forall wf_ie ies.
Proof. repeat constructor; cbn; try lia. set_solver. Qed.

Example sbd_mo_message_read_witness :
  exists r, (start_reader;; socket_piece [1; 0];; socket_piece (drop 2 (mo_message 1 ies))) new_sbd_reader = (r, [], Ok tt) /\
    rd_pending r = None /\
    rd_pre_header r = MkPreHeader (Some 1) (Some (len (ies_bytes ies))) /\
    rd_header r = default (rd_header new_sbd_reader) (last (omap header_of_ie ies)) /\
    pl_payload (rd_body r) = last (omap payload_of_ie ies) /\
    (mo_data_ready r = true <-> omap header_of_ie ies <> [] /\ omap payload_of_ie ies <> []).
Proof.
  apply (sbd_mo_message_read 1 ies [1; 0] (drop 2 (mo_message 1 ies)));
    [lia | apply ies_wf | done | apply Z.leb_le; vm_compute; reflexivity | vm_compute; reflexivity | apply Z.ltb_lt; reflexivity].
Qed.

Example mt_message_roundtrip_witness :
  exists m, create_sbd_mt_data_message 7 (B "hello") (B "300234010753370") = Ok m /\
    parse_direct_ip m = Some (1, [(IEI_MT_HEADER, be32 (u32 7) ++ B "300234010753370" ++ [0; DISP_FLAG_FLUSH_MT_QUEUE]); (IEI_MT_PAYLOAD, B "hello")]).
Proof. apply (mt_message_roundtrip 7 (B "hello") (B "300234010753370")); [reflexivity | apply Z.leb_le; reflexivity]. Qed.

(** the confirmation of the gateway *)
Example confirmation_read :
  mt_data_ready (run [[1; 0; 28; 68; 0; 25] ++ be32 7 ++ B "300234010753370" ++ be32 99 ++ [255; 254]]).1.1 = true.
Proof. vm_compute. reflexivity. Qed.

(** A message that is received from the gateway when it arrives in one piece is lost or
    corrupted when it arrives in two, wherever it is split behind the pre-header: the second read of
    the socket writes to the beginning of the buffer again. *)
Lemma sbd_split_message_misread :
  let m := mo_message 1 ies in
  received_after [m] = Some (B "hello") /\
  Forall (fun k => received_after [take k m; drop k m] <> Some (B "hello")) (seq 3 (length m - 3)).
Proof.
  split; [vm_compute; reflexivity|].
  assert (H : forallb (fun k => negb (bool_decide (received_after [take k (mo_message 1 ies); drop k (mo_message 1 ies)] = Some (B "hello"))))
                (seq 3 (length (mo_message 1 ies) - 3)) = true) by (vm_compute; reflexivity).
  apply List.Forall_forall. intros k Hk. rewrite forallb_forall in H. specialize (H k Hk).
  by apply negb_true_iff, bool_decide_eq_false in H.
Qed.

End DirectIpWitness.
