(* ===== verification/IridiumDriver.v ===== *)
(** * acomms/modemdriver/iridium_driver.{h,cpp}: the driver of the Iridium modem

    The driver around the state machine ([IridiumFsm]): transmissions, the work
    loop, the serial line and its escape sequence, startup and shutdown. A call
    sees one time; the loops that wait take the successive rounds of [do_work]
    as an argument. Control lines of the serial port are events. *)

From Stdlib Require Import SpecFloat.
From S2P Require Import Prelude Double Time As Proto BaseConvert Rudics Nmea UdpDriver Iridium IridiumFsm Prog DriverBase.

#[local] Open Scope prog_scope.

Definition RATE_RUDICS : Z := 1.
Definition RATE_SBD : Z := 0.
Definition TRIPLE_PLUS_WAIT : Z := 2.
(** the largest [frame_start] of the header *)
Definition frame_max : Z := 65535.

(** ** Data *)

Record IrConfig : Type := MkIrConfig {
  ir_connection : ConnectionConfig;
  ir_machine : IridiumConfig;
  ir_max_frame_size : Z;
  debug_client_port : option Z;
  hangup_seconds_after_empty : Z;
  start_timeout : Z;
  use_dtr : option bool;
  handshake_hangup_seconds : Z
}.

Definition uses_dtr (c : IrConfig) : bool := default false (use_dtr c).

(** a transmission with the extension that the driver reads *)
Record IrTransmission : Type := MkIr {
  ir_msg : ModemTransmission;
  if_no_data_do_mailbox_check : bool
}.

Record IridiumDriver : Type := MkIrDriver {
  ir_cfg : IrConfig;
  ir_base : ModemDriverBase;
  machine : Machine;
  last_triple_plus_time : double;
  rudics_mac_msg : ModemTransmission;
  ir_next_frame : Z;
  debug_client : bool
}.

Inductive IrEvent : Type :=
| IrLine (e : DriverEvent)
| IrReceive (m : ModemTransmission)
| SetDtr (state : bool)
| DebugStart (port : Z)
| DebugWrite (s : bytes).

(** what is connected to the signals; [None] is an exception out of the slot *)
Record IrSlots (W : Type) : Type := MkIrSlots {
  ir_modify : IrTransmission -> W -> W * option IrTransmission;
  ir_data_request : IrTransmission -> W -> W * option IrTransmission;
  ir_receive : ModemTransmission -> W -> W * option unit
}.
Arguments ir_modify {W}.
Arguments ir_data_request {W}.
Arguments ir_receive {W}.

Record IrState (W : Type) : Type := MkIrState { drv : IridiumDriver; ir_world : W }.
Arguments drv {W}.
Arguments ir_world {W}.
Arguments MkIrState {W}.

Definition set_machine (m : Machine) (d : IridiumDriver) : IridiumDriver :=
  MkIrDriver (ir_cfg d) (ir_base d) m (last_triple_plus_time d) (rudics_mac_msg d) (ir_next_frame d) (debug_client d).
Definition set_ir_base (b : ModemDriverBase) (d : IridiumDriver) : IridiumDriver :=
  MkIrDriver (ir_cfg d) b (machine d) (last_triple_plus_time d) (rudics_mac_msg d) (ir_next_frame d) (debug_client d).
Definition set_last_triple_plus_time (t : double) (d : IridiumDriver) : IridiumDriver :=
  MkIrDriver (ir_cfg d) (ir_base d) (machine d) t (rudics_mac_msg d) (ir_next_frame d) (debug_client d).
Definition set_ir_next_frame (n : Z) (d : IridiumDriver) : IridiumDriver :=
  MkIrDriver (ir_cfg d) (ir_base d) (machine d) (last_triple_plus_time d) (rudics_mac_msg d) n (debug_client d).

Definition set_fsm (f : Fsm) (m : Machine) : Machine := MkMachine f (region m) (call m).
Definition pop_serial (m : Machine) : Machine :=
  set_fsm (MkFsm (drop 1 (serial_tx_buffer (fsm m))) (received (fsm m)) (data_out (fsm m))) m.
Definition pop_received (m : Machine) : Machine :=
  set_fsm (MkFsm (serial_tx_buffer (fsm m)) (drop 1 (received (fsm m))) (data_out (fsm m))) m.

Section Driver.
Context {HC : IridiumHeaderCodec} {TR : BoostTrim} {TX : BoostText} {LC : LexicalCast}.
Variable (crc32 : bytes -> Z).
Context {W : Type} (slots : IrSlots W).

Abbreviation iprog := (prog (IrState W) IrEvent Exn).

Definition ird {A : Type} (f : IridiumDriver -> A) : iprog A := pread (fun s => f (drv s)).
Definition iupd (f : IridiumDriver -> IridiumDriver) : iprog unit := pmod (fun s => MkIrState (f (drv s)) (ir_world s)).
Definition upd_machine (f : Machine -> Machine) : iprog unit := iupd (fun d => set_machine (f (machine d)) d).
Definition upd_fsm (f : Fsm -> Fsm) : iprog unit := upd_machine (fun m => set_fsm (f (fsm m)) m).

Definition on_ir_base {A : Type} (m : prog ModemDriverBase DriverEvent Exn A) : iprog A := fun s =>
  let '(b, ev, r) := m (ir_base (drv s)) in
  (MkIrState (set_ir_base b (drv s)) (ir_world s), map IrLine ev, r).

Definition exn_of (x : reaction_exception) : Exn :=
  match x with
  | Iridium.OutOfRange => OutOfRange
  | PacketError _ => PacketException
  | DCCLError => CodecException
  end.

(** [fsm_.process_event]: an exception terminates the machine *)
Definition terminated (m : Machine) : Machine := MkMachine (fsm m) NoState None.

Definition process (now : double) (e : Iridium.Event) : iprog unit :=
  let! d := ird (fun d => d) in
  match process_event crc32 (ir_machine (ir_cfg d)) now (machine d) e with
  | Some (Ok m) => iupd (set_machine m)
  | Some (Err x) => iupd (set_machine (terminated (machine d)));; pthrow (exn_of x)
  | None => pthrow StillWaiting
  end.

Definition on_call (d : IridiumDriver) : bool := match call (machine d) with Some _ => true | None => false end.
Definition is_ready (d : IridiumDriver) : bool :=
  match region (machine d) with
  | InCommand r => match command_state r with Ready => true | _ => false end
  | _ => false
  end.

Definition ir_call_slot {A : Type} (f : W -> W * option A) : iprog A := fun s =>
  let '(w, r) := f (ir_world s) in
  (MkIrState (drv s) w, [], match r with Some a => Ok a | None => Err SlotException end).

(** ** Sending and receiving *)

Definition send (now : double) (msg : ModemTransmission) : iprog unit :=
  let! d := ird (fun d => d) in
  if rate msg =? RATE_RUDICS then upd_fsm (buffer_data_out msg)
  else if rate msg =? RATE_SBD
  then
    if on_call d then upd_fsm (buffer_data_out msg)
    else
      let! iridium_packet := plift (match serialize_iridium_modem_message msg with
                                    | Some b => Ok b | None => Err CodecException end) in
      process now (EvSBDBeginData (serialize_rudics_packet crc32 iridium_packet default_reserved true) false)
  else pret tt.

Definition is_empty_transmission (msg : ModemTransmission) : bool :=
  match mt_frame msg with [] | [] :: _ => true | _ => false end.

Definition process_transmission (now : double) (msg : IrTransmission) (dial : bool) : iprog unit :=
  let! msg := ir_call_slot (ir_modify slots msg) in
  let! d := ird (fun d => d) in
  let b := ir_msg msg in
  let b := match mt_frame_start b with
           | None => set_mt_frame_start (Some (ir_next_frame d mod frame_max)) b | Some _ => b end in
  let b := if negb (has_max_frame_bytes b) || (ir_max_frame_size (ir_cfg d) <? max_frame_bytes b)
           then set_mt_max_frame_bytes (Some (ir_max_frame_size (ir_cfg d))) b else b in
  let! msg := ir_call_slot (ir_data_request slots (MkIr b (if_no_data_do_mailbox_check msg))) in
  let b := ir_msg msg in
  iupd (fun d => set_ir_next_frame (u32 (ir_next_frame d + Z.of_nat (frame_size b))) d);;
  if negb (is_empty_transmission b)
  then
    pwhen (dial && (rate b =? RATE_RUDICS)) (process now EvDial);;
    send now b
  else
    pwhen ((rate b =? RATE_SBD) && if_no_data_do_mailbox_check msg) (process now (EvSBDBeginData [] false)).

Definition ir_handle_initiate_transmission (now : double) (msg : IrTransmission) : iprog unit :=
  process_transmission now msg true.

(** the acknowledgement that [receive] makes *)
Definition ir_ack (msg : ModemTransmission) : ModemTransmission :=
  set_mt_acked_frame (acked_frames msg)
    (set_mt_rate (Some (rate msg)) (set_mt_dest (Some (src msg)) (set_mt_src (Some (dest msg))
      (set_mt_type (Some ACK) empty_transmission)))).

Definition receive (now : double) (msg : ModemTransmission) : iprog unit :=
  let! d := ird (fun d => d) in
  pwhen (bool_decide (type msg = DATA) && ack_requested msg
         && (dest msg =? get_modem_id (ir_connection (ir_cfg d))))
    (send now (ir_ack msg));;
  pemit (IrReceive msg);;
  ir_call_slot (ir_receive slots msg).

(** ** The serial line *)

(** the loop over the buffer, whose lines are given *)
Fixpoint write_buffer (now : double) (lines : list bytes) : iprog unit :=
  match lines with
  | [] => pret tt
  | line :: lines =>
      let! t := ird last_triple_plus_time in
      if dlt now (dadd t (double_of_Z TRIPLE_PLUS_WAIT)) then pret tt
      else
        on_ir_base (modem_write line);;
        pwhen (bool_decide (line = B "+++")) (iupd (set_last_triple_plus_time now));;
        upd_machine pop_serial;;
        write_buffer now lines
  end.

Definition try_serial_tx (now : double) : iprog unit :=
  process now EvTxSerial;;
  let! lines := ird (fun d => serial_tx_buffer (fsm (machine d))) in
  write_buffer now lines.

Definition hangup (now : double) : iprog unit :=
  let! d := ird (fun d => d) in
  if uses_dtr (ir_cfg d)
  then
    pemit (SetDtr false);;
    pemit (SetDtr true);;
    process now EvNoCarrier
  else process now EvHangup.

(** ** The work loop *)

(** one round: the time, whether the line is active, the lines that are there
    and those of the debug client *)
Record IrTick : Type := MkIrTick {
  it_now : double;
  it_active : bool;
  it_lines : list bytes;
  it_debug : list bytes
}.

Definition set_line_active (b : bool) : iprog unit :=
  on_ir_base (pmod (fun d => MkBase (match modem d with Some _ => Some b | None => None end) (raw_fs d)
                               (raw_fs_connections_made d))).

(** while a call lasts: data at the target rate, the farewell and the end *)
Definition work_on_call (now : double) : iprog unit :=
  let! d := ird (fun d => d) in
  match call (machine d) with
  | None => pret tt
  | Some o =>
      let c := ir_cfg d in
      let send_wait := ddiv (double_of_Z (last_bytes_sent o))
                         (ddiv (double_of_Z (target_bit_rate (ir_machine c))) (double_of_Z 8)) in
      pwhen (match data_out (fsm (machine d)) with [] => true | _ => false end
             && dlt (dadd (last_tx_time o) send_wait) now && negb (bye_sent o))
        (process_transmission now (MkIr (rudics_mac_msg d) true) false);;
      pwhen (negb (bye_sent o) && dlt (dadd (last_tx_time o) (double_of_Z (handshake_hangup_seconds c))) now)
        (process now EvSendBye);;
      let! d := ird (fun d => d) in
      match call (machine d) with
      | None => pthrow UndefinedBehaviour   (* [on_call] points to the state *)
      | Some o =>
          pwhen ((bye_received o && bye_sent o)
                 || dlt (dadd (last_rx_tx_time o) (double_of_Z (hangup_seconds_after_empty c))) now)
            (hangup now)
      end
  end.

(** [while (modem().active() && modem_read(&in))] *)
Fixpoint read_serial (now : double) (lines : list bytes) : iprog unit :=
  let! d := ird (fun d => d) in
  match modem (ir_base d) with
  | None => pthrow UndefinedBehaviour
  | Some false => pret tt
  | Some true =>
      match lines with
      | [] => pret tt
      | line :: lines =>
          pwhen (debug_client d && on_call d) (pemit (DebugWrite line));;
          process now (EvRxSerial line);;
          read_serial now lines
      end
  end.

(** the messages received are taken out; a message that arrives meanwhile cannot *)
Fixpoint deliver_received (now : double) (msgs : list ModemTransmission) : iprog unit :=
  match msgs with
  | [] => pret tt
  | m :: msgs =>
      receive now m;;
      upd_machine pop_received;;
      deliver_received now msgs
  end.

Definition ir_do_work (t : IrTick) : iprog unit :=
  let now := it_now t in
  set_line_active (it_active t);;
  work_on_call now;;
  try_serial_tx now;;
  read_serial now (it_lines t);;
  let! msgs := ird (fun d => received (fsm (machine d))) in
  deliver_received now msgs;;
  let! debug := ird debug_client in
  pwhen debug (pfor (it_debug t) (fun line => upd_fsm (push_serial line);; process now EvDial));;
  try_serial_tx now.

(** ** Startup and shutdown *)

(** rounds of [do_work] while [cond] holds; those that are left are returned *)
Fixpoint work_while (cond : IridiumDriver -> bool) (ticks : list IrTick) : iprog (list IrTick) :=
  let! d := ird (fun d => d) in
  if cond d
  then match ticks with
       | [] => pthrow StillWaiting
       | t :: ticks => ir_do_work t;; work_while cond ticks
       end
  else pret ticks.

Definition ir_shutdown (now : double) (ticks : list IrTick) : iprog (list IrTick) :=
  hangup now;;
  let! ticks := work_while on_call ticks in
  let! d := ird (fun d => d) in
  pwhen (uses_dtr (ir_cfg d)) (pemit (SetDtr false));;
  on_ir_base modem_close;;
  pret ticks.

(** the loop of [modem_init], with its counter and whether DTR has been set *)
Fixpoint init_loop (i : Z) (dtr_set : bool) (ticks : list IrTick) : iprog (list IrTick) :=
  let! d := ird (fun d => d) in
  if is_ready d then pret ticks
  else
    match ticks with
    | [] => pthrow StillWaiting
    | t :: ticks =>
        ir_do_work t;;
        let! d := ird (fun d => d) in
        let set := uses_dtr (ir_cfg d) && bool_decide (modem (ir_base d) = Some true) && negb dtr_set in
        pwhen set
          (if bool_decide (get_connection_type (ir_connection (ir_cfg d)) = CONNECTION_SERIAL)
           then pemit (SetDtr true) else pthrow BadCast);;
        let i := i + 1 in
        if start_timeout (ir_cfg d) <? i / 100
        then pthrow (DriverException STARTUP_FAILED)
        else init_loop i (dtr_set || set) ticks
    end.

Definition modem_init (log_name : bytes -> bytes) (log_opened : bool) (polls : list bool) (ticks : list IrTick)
  : iprog (list IrTick) :=
  let! d := ird (fun d => d) in
  on_ir_base (modem_start log_name log_opened polls (ir_connection (ir_cfg d)));;
  upd_machine (fun m => active (ir_machine (ir_cfg d)) (fsm m));;
  init_loop 0 false ticks.

(** the configuration as [startup] completes it *)
Definition ir_effective (c : IrConfig) : IrConfig :=
  let conn := set_line_delimiter [13] (ir_connection c) in
  let dtr := match use_dtr c with
             | None => if bool_decide (get_connection_type conn = CONNECTION_SERIAL) then Some true else None
             | d => d end in
  let mc := ir_machine c in
  let mc := if default false dtr
            then MkIridiumConfig (config mc ++ [B "&D2"]) (iridium_number mc) (dial_attempts_max mc) (target_bit_rate mc)
            else mc in
  MkIrConfig conn mc (ir_max_frame_size c) (debug_client_port c) (hangup_seconds_after_empty c) (start_timeout c)
    dtr (handshake_hangup_seconds c).

Definition ir_startup (log_name : bytes -> bytes) (log_opened : bool) (polls : list bool) (ticks : list IrTick)
    (cfg : IrConfig) : iprog (list IrTick) :=
  let c := ir_effective cfg in
  match debug_client_port c with Some p => pemit (DebugStart p) | None => pret tt end;;
  iupd (fun d => MkIrDriver c (ir_base d) (machine d) (last_triple_plus_time d)
                   (set_mt_rate (Some RATE_RUDICS) (set_mt_type (Some DATA)
                      (set_mt_src (Some (get_modem_id (ir_connection c))) (rudics_mac_msg d))))
                   (ir_next_frame d)
                   (match debug_client_port c with Some _ => true | None => debug_client d end));;
  modem_init log_name log_opened polls ticks.

Definition new_ir_driver (c : IrConfig) : IridiumDriver :=
  MkIrDriver c new_base (MkMachine new_fsm NoState None) (double_of_Z 0) empty_transmission 0 false.

End Driver.
