(* ===== verification/IridiumCall.v ===== *)
(** * Two Iridium drivers on a call

    A transmission that one driver sends during a call, the acknowledgement that
    the other one makes of it, and its way back; and the guard time around the
    escape sequence. *)

From Stdlib Require Import SpecFloat.
From S2P Require Import Prelude Double Time As Proto BaseConvert Rudics Nmea UdpDriver Iridium IridiumFsm Prog DriverBase IridiumDriver.

#[local] Open Scope prog_scope.

(** what goes to the modem and what goes to the application *)
Definition ir_written (ev : list IrEvent) : list bytes :=
  omap (fun e => match e with IrLine (WriteLine l) => Some l | _ => None end) ev.
Definition ir_received (ev : list IrEvent) : list ModemTransmission :=
  omap (fun e => match e with IrReceive m => Some m | _ => None end) ev.

Section Call.
Context {HC : IridiumHeaderCodec} {HCL : IridiumHeaderLaws} {TR : BoostTrim} {TX : BoostText} {LC : LexicalCast}.
Variable (crc32 : bytes -> Z).
Hypothesis crc32_range : forall s, 0 <= crc32 s < 2 ^ 32.
Context {W : Type} (slots : IrSlots W).
Implicit Types (s : IrState W).

Lemma pbind_ird {A C} (f : IridiumDriver -> A) (k : A -> prog (IrState W) IrEvent Exn C) s :
  pbind (ird f) k s = k (f (drv s)) s.
Proof. apply (pbind_read (fun s => f (drv s))). Qed.
Lemma pbind_iupd {C} f (k : unit -> prog (IrState W) IrEvent Exn C) s :
  pbind (iupd f) k s = k tt (MkIrState (f (drv s)) (ir_world s)).
Proof. apply (pbind_mod (fun s => MkIrState (f (drv s)) (ir_world s))). Qed.

(** ** The escape sequence *)

Lemma process_quiet now e s : exists s' r, process crc32 now e s = (s', [], r) /\
  last_triple_plus_time (drv s') = last_triple_plus_time (drv s).
Proof.
  unfold process. rewrite pbind_ird. destruct (process_event _ _ _ _ _) as [[m|x]|]; cbn; eauto.
Qed.

Lemma write_guarded now lines s :
  dlt now (dadd (last_triple_plus_time (drv s)) (double_of_Z TRIPLE_PLUS_WAIT)) = true ->
  write_buffer now lines s = (s, [], Ok tt).
Proof. intros H. destruct lines; [done|]. cbn [write_buffer]. rewrite pbind_ird, H. done. Qed.

Lemma on_ir_write line s :
  on_ir_base (modem_write line) s = (s, [IrLine (WriteLine line)], Ok tt) \/
  exists x, on_ir_base (modem_write line) s = (s, [], Err x).
Proof.
  assert (E : MkIrState (set_ir_base (ir_base (drv s)) (drv s)) (ir_world s) = s) by by destruct s as [[] w].
  unfold on_ir_base, modem_write, pbind, pread.
  destruct (modem (ir_base (drv s))) as [[]|]; cbn; rewrite E; eauto.
Qed.

Lemma write_buffer_escape now : dlt now (dadd now (double_of_Z TRIPLE_PLUS_WAIT)) = true -> forall lines s,
  let '(s', ev, r) := write_buffer now lines s in
  forall pre post, ir_written ev = pre ++ B "+++" :: post -> post = [] /\ (r = Ok tt -> last_triple_plus_time (drv s') = now).
Proof.
  intros Hn. induction lines as [|line lines IH]; intros s.
  - cbn. intros [|? pre] post H; discriminate H.
  - cbn [write_buffer]. rewrite pbind_ird.
    destruct (dlt now (dadd (last_triple_plus_time (drv s)) (double_of_Z TRIPLE_PLUS_WAIT))).
    { cbn. intros [|? pre] post H; discriminate H. }
    destruct (on_ir_write line s) as [E0|(x & E0)];
      [rewrite (pbind_ok _ _ _ _ _ _ E0) |
       rewrite (pbind_err _ _ _ _ _ _ E0); intros [|? pre] post H; discriminate H].
    destruct (bool_decide (line = B "+++")) eqn:E; cbn [pwhen].
    + rewrite pbind_iupd. unfold upd_machine. rewrite pbind_iupd. rewrite write_guarded by exact Hn.
      intros [|? pre] post H; injection H; [intros <-; done|]. intros H1 _. by destruct pre.
    + rewrite pbind_ret. unfold upd_machine. rewrite pbind_iupd. set (s1 := MkIrState _ _). specialize (IH s1).
      destruct (write_buffer now lines s1) as [[s' ev] r]. apply bool_decide_eq_false in E.
      intros [|x pre] post H; injection H; [intros _ H1; by destruct E|]. intros H1 _. by eapply IH.
Qed.

(** After the escape sequence +++ has been written, no call of try_serial_tx within the
    following two seconds writes anything, and when a call writes it, it is the last line that call
    writes. *)
Lemma escape_sequence_guarded (now : double) (s : IrState W) :
  dlt now (dadd now (double_of_Z TRIPLE_PLUS_WAIT)) = true ->
  let '(s', ev, r) := try_serial_tx crc32 now s in
  (dlt now (dadd (last_triple_plus_time (drv s)) (double_of_Z TRIPLE_PLUS_WAIT)) = true -> ir_written ev = []) /\
  (forall pre post, ir_written ev = pre ++ B "+++" :: post ->
     post = [] /\ (r = Ok tt -> last_triple_plus_time (drv s') = now)).
Proof.
  intros Hn. unfold try_serial_tx. destruct (process_quiet now EvTxSerial s) as (s1 & r1 & E & T).
  destruct r1 as [[]|x]; [|rewrite (pbind_err _ _ _ _ _ _ E); split; [done | intros [|? pre] post H; discriminate H]].
  rewrite (pbind_quiet _ _ _ _ _ E), pbind_ird.
  pose proof (write_buffer_escape now Hn (serial_tx_buffer (fsm (machine (drv s1)))) s1) as H.
  destruct (write_buffer now _ s1) as [[s' ev] r] eqn:Ew. split; [|done].
  intros Hg. rewrite write_guarded in Ew by (by rewrite T). by injection Ew as <- <- _.
Qed.

(** ** During a call *)

(** the driver is online on the call [o], with the line up and nothing in the
    buffer of the line; [t] is the time of its last escape sequence; [dout] and
    [rcv] are to be sent and delivered *)
Definition calling (c : IrConfig) (t : double) (o : OnCallBase) (dout rcv : list ModemTransmission) (d : IridiumDriver) : Prop :=
  ir_cfg d = c /\ modem (ir_base d) = Some true /\
  machine d = MkMachine (MkFsm [] rcv dout) Online (Some o) /\ debug_client d = false /\
  last_triple_plus_time d = t.

(** the guard time is over *)
Definition past_guard (now t : double) : Prop := dlt now (dadd t (double_of_Z TRIPLE_PLUS_WAIT)) = false.

(** neither the farewell nor the end of the call is due *)
Definition not_due (c : IrConfig) (now : double) (o : OnCallBase) : Prop :=
  (negb (bye_sent o) && dlt (dadd (last_tx_time o) (double_of_Z (handshake_hangup_seconds c))) now) = false /\
  ((bye_received o && bye_sent o)
   || dlt (dadd (last_rx_tx_time o) (double_of_Z (hangup_seconds_after_empty c))) now) = false.

(** the rate of the line allows another packet *)
Definition rate_allows (c : IrConfig) (now : double) (o : OnCallBase) : Prop :=
  dlt (dadd (last_tx_time o) (ddiv (double_of_Z (last_bytes_sent o))
    (ddiv (double_of_Z (target_bit_rate (ir_machine c))) (double_of_Z 8)))) now = true.

(** the application has no data of its own and takes what it is given *)
Definition no_data : Prop :=
  (forall m w, exists w' m', ir_modify slots m w = (w', Some m')) /\
  (forall m w, exists w' m', ir_data_request slots m w = (w', Some m') /\
     mt_frame (ir_msg m') = [] /\ rate (ir_msg m') = RATE_RUDICS) /\
  (forall m w, exists w', ir_receive slots m w = (w', Some tt)).

Lemma set_machine_same d : set_machine (machine d) d = d.
Proof. by destruct d. Qed.

(** an event on a machine whose processing is known *)
Lemma process_known now e s m :
  process_event crc32 (ir_machine (ir_cfg (drv s))) now (machine (drv s)) e = Some (Ok m) ->
  process crc32 now e s = (MkIrState (set_machine m (drv s)) (ir_world s), [], Ok tt).
Proof. intros H. unfold process. rewrite pbind_ird, H. done. Qed.

Lemma rudics_request_idle c now t o dout rcv s :
  no_data -> calling c t o dout rcv (drv s) ->
  exists s', process_transmission crc32 slots now (MkIr (rudics_mac_msg (drv s)) true) false s = (s', [], Ok tt) /\
    calling c t o dout rcv (drv s').
Proof.
  intros (Hm & Hd & _) Hc. unfold process_transmission, ir_call_slot.
  destruct (Hm (MkIr (rudics_mac_msg (drv s)) true) (ir_world s)) as (w1 & m1 & E1).
  unfold pbind at 1. rewrite E1. rewrite pbind_ird. cbn [drv].
  match goal with |- context [ir_data_request slots ?m] => destruct (Hd m w1) as (w2 & m2 & E2 & F2 & R2) end.
  unfold pbind at 1. cbn [ir_world]. rewrite E2. rewrite pbind_iupd.
  unfold is_empty_transmission. rewrite F2, R2. cbn. eexists. split; [reflexivity|]. exact Hc.
Qed.

Lemma work_on_call_idle c now t o dout rcv s :
  no_data -> calling c t o dout rcv (drv s) -> not_due c now o ->
  exists s', work_on_call crc32 slots now s = (s', [], Ok tt) /\ calling c t o dout rcv (drv s').
Proof.
  intros Hn Hc (Hd1 & Hd2). pose proof Hc as (Ec & _ & Em & _). unfold work_on_call. rewrite pbind_ird, Em, Ec.
  cbn [call fsm data_out].
  match goal with |- context [pwhen ?b (process_transmission _ _ _ ?m _)] =>
    assert (E1 : exists s1, pwhen b (process_transmission crc32 slots now m false) s = (s1, [], Ok tt) /\
                   calling c t o dout rcv (drv s1)) end.
  { destruct (_ && _ && _); cbn [pwhen]; [by apply rudics_request_idle | by exists s]. }
  destruct E1 as (s1 & E1 & C1). rewrite (pbind_quiet _ _ _ _ _ E1), Hd1. cbn [pwhen].
  rewrite pbind_ret, pbind_ird. pose proof C1 as (_ & _ & Em1 & _). rewrite Em1. cbn [call]. rewrite Hd2.
  by exists s1.
Qed.

(** ** Packets on the line *)

Definition packet_of (m : ModemTransmission) (pkt : bytes) : Prop :=
  exists bs, serialize_iridium_modem_message m = Some bs /\
    pkt = serialize_rudics_packet crc32 bs default_reserved true.

(** whatever its CRC, the packet is not taken for a control line *)
Definition no_control_line (m : ModemTransmission) : Prop :=
  forall pkt, packet_of m pkt -> packet_line pkt = true.

(** a call after a packet has been sent *)
Definition after_packet (now : double) (pkt : bytes) (o : OnCallBase) : OnCallBase :=
  set_last_tx_time now (set_last_bytes_sent (s32 (Z.of_nat (length pkt))) o).

Lemma process_tx_online mc now f o f' o' :
  on_call_tx crc32 (target_bit_rate mc) now f o = Ok (f', o') ->
  process_event crc32 mc now (MkMachine f Online (Some o)) EvTxSerial = Some (Ok (MkMachine f' Online (Some o'))).
Proof.
  intros H. unfold process_event, EVENT_FUEL. cbn [process_queue].
  change (react crc32 mc now (MkMachine f Online (Some o)) EvTxSerial)
    with (@Ok reaction_exception _ (MkMachine f Online (Some o), [EvTxOnCallSerial])). cbv iota beta. cbn [app process_queue].
  unfold react. cbn [region online_react active_react or_else call_react call fsm]. rewrite H. done.
Qed.

Lemma process_rx_online mc now f o line f' o' :
  on_call_rx crc32 now line f o = Ok (f', o', []) ->
  process_event crc32 mc now (MkMachine f Online (Some o)) (EvRxSerial line) = Some (Ok (MkMachine f' Online (Some o'))).
Proof.
  intros H. unfold process_event, EVENT_FUEL. cbn [process_queue].
  change (react crc32 mc now (MkMachine f Online (Some o)) (EvRxSerial line))
    with (@Ok reaction_exception _ (MkMachine f Online (Some o), [EvRxOnCallSerial line])). cbv iota beta. cbn [app process_queue].
  unfold react. cbn [region online_react active_react or_else call_react call fsm]. rewrite H. done.
Qed.

Lemma packet_not_escape bs : serialize_rudics_packet crc32 bs default_reserved true <> B "+++".
Proof.
  unfold serialize_rudics_packet. intros H. apply (f_equal last) in H. rewrite last_snoc in H. discriminate H.
Qed.

Lemma tx_packet c now t o m rest rcv s :
  calling c t o (m :: rest) rcv (drv s) -> sendable m -> rate_allows c now o -> past_guard now t ->
  exists pkt s', packet_of m pkt /\
    try_serial_tx crc32 now s = (s', [IrLine (WriteLine pkt)], Ok tt) /\
    calling c t (after_packet now pkt o) rest rcv (drv s').
Proof.
  intros (Ec & Em & Emach & Ed & Et) Hm Hr Hg. destruct (packet_roundtrip crc32 crc32_range m Hm) as (bs & Es & _).
  set (pkt := serialize_rudics_packet crc32 bs default_reserved true).
  set (o' := after_packet now pkt o).
  assert (Eo : on_call_tx crc32 (target_bit_rate (ir_machine c)) now (MkFsm [] rcv (m :: rest)) o = Ok (MkFsm [pkt] rcv rest, o')).
  { unfold on_call_tx. cbn [data_out]. unfold rate_allows in Hr. rewrite Hr, Es. done. }
  exists pkt, (MkIrState (set_machine (MkMachine (MkFsm [] rcv rest) Online (Some o')) (drv s)) (ir_world s)).
  split; [by exists bs|]. split; [|done].
  unfold try_serial_tx. rewrite (pbind_quiet _ _ _ _ _ (process_known now EvTxSerial s
    (MkMachine (MkFsm [pkt] rcv rest) Online (Some o')) ltac:(rewrite Ec, Emach; by apply process_tx_online))).
  rewrite pbind_ird. cbn [drv machine set_machine fsm serial_tx_buffer write_buffer].
  rewrite pbind_ird. cbn [drv last_triple_plus_time set_machine]. rewrite Et, Hg.
  set (s1 := MkIrState _ _). assert (Ew : on_ir_base (modem_write pkt) s1 = (s1, [IrLine (WriteLine pkt)], Ok tt)).
  { unfold on_ir_base, modem_write, pbind, pread. cbn. rewrite Em. cbn. done. }
  rewrite (pbind_ok _ _ _ _ _ _ Ew). rewrite bool_decide_eq_false_2 by apply packet_not_escape. cbn [pwhen].
  rewrite pbind_ret. unfold upd_machine. rewrite pbind_iupd. done.
Qed.

Lemma tx_nothing c now t o rcv s :
  calling c t o [] rcv (drv s) -> try_serial_tx crc32 now s = (s, [], Ok tt).
Proof.
  intros (Ec & Em & Emach & Ed & Eg). unfold try_serial_tx.
  rewrite (pbind_quiet _ _ _ _ _ (process_known now EvTxSerial s
    (MkMachine (MkFsm [] rcv []) Online (Some o)) ltac:(rewrite Ec, Emach; by apply process_tx_online))).
  rewrite pbind_ird. cbn. rewrite <- Emach, set_machine_same. by destruct s.
Qed.

Lemma rx_packet c now t o dout m pkt s :
  calling c t o dout [] (drv s) -> sendable m -> packet_of m pkt -> no_control_line m ->
  exists s', read_serial crc32 now [pkt] s = (s', [], Ok tt) /\
    calling c t (set_last_rx_time now o) dout [carried m] (drv s').
Proof.
  intros (Ec & Em & Emach & Ed & Eg) Hm Hp Hn. pose proof (Hn pkt Hp) as Hl.
  destruct Hp as (bs & Es & ->). destruct (packet_roundtrip crc32 crc32_range m Hm) as (bs' & Es' & Ep & Eq).
  assert (bs' = bs) as -> by congruence.
  cbn [read_serial]. rewrite pbind_ird, Em, Ed. cbn [andb pwhen]. rewrite pbind_ret.
  rewrite (pbind_quiet _ _ _ _ _ (process_known now _ s
    (MkMachine (MkFsm [] [carried m] dout) Online (Some (set_last_rx_time now o)))
    ltac:(rewrite Ec, Emach; apply process_rx_online; by rewrite (on_call_rx_packet _ _ _ bs (carried m))))).
  rewrite pbind_ird. cbn [drv ir_base set_machine]. rewrite Em. cbn. eexists. split; [reflexivity|]. done.
Qed.

(** ** Rounds of the work loop *)

(** what is sent back for a received transmission *)
Definition acks_for (c : IrConfig) (m : ModemTransmission) : list ModemTransmission :=
  if bool_decide (type m = DATA) && ack_requested m && (dest m =? get_modem_id (ir_connection c)) then [ir_ack m] else [].

Lemma deliver_one c now t o m s :
  no_data -> rate m = RATE_RUDICS -> calling c t o [] [m] (drv s) ->
  exists s', deliver_received crc32 slots now [m] s = (s', [IrReceive m], Ok tt) /\
    calling c t o (acks_for c m) [] (drv s').
Proof.
  intros (_ & _ & Hs) Hr (Ec & Em & Emach & Ed & Eg). cbn [deliver_received]. unfold receive, acks_for.
  rewrite pbind_assoc, pbind_ird, Ec. set (a := _ && _ && _). destruct a; cbn [pwhen].
  - unfold send. rewrite !pbind_assoc, pbind_ird.
    change (rate (ir_ack m)) with (rate m). rewrite Hr. cbn [Z.eqb RATE_RUDICS Pos.eqb].
    unfold upd_fsm, upd_machine. rewrite pbind_iupd. cbn [drv ir_world].
    destruct (Hs m (ir_world s)) as (w & Ew). unfold pbind, pemit, ir_call_slot. cbn. rewrite Ew. cbn.
    eexists. split; [reflexivity|]. unfold calling. cbn. by rewrite Emach.
  - rewrite pbind_assoc, pbind_ret. destruct (Hs m (ir_world s)) as (w & Ew). unfold pbind, pemit, ir_call_slot. cbn. rewrite Ew. cbn.
    eexists. split; [reflexivity|]. unfold calling. cbn. by rewrite Emach.
Qed.

Lemma set_active_up c t o dout rcv s :
  calling c t o dout rcv (drv s) -> set_line_active true s = (s, [], Ok tt).
Proof.
  intros (_ & Em & _). unfold set_line_active, on_ir_base. cbn. rewrite Em. destruct s as [[? [] ? ? ? ? ?] w].
  cbn in *. by rewrite Em.
Qed.

(** a round that sends what is in the data buffer *)
Lemma do_work_sends c now t o m s :
  no_data -> calling c t o [m] [] (drv s) -> not_due c now o -> rate_allows c now o -> past_guard now t -> sendable m ->
  exists pkt s', packet_of m pkt /\
    ir_do_work crc32 slots (MkIrTick now true [] []) s = (s', [IrLine (WriteLine pkt)], Ok tt) /\
    calling c t (after_packet now pkt o) [] [] (drv s').
Proof.
  intros Hn Hc Hd Hr Hg Hm. unfold ir_do_work. cbn [it_now it_active it_lines it_debug].
  rewrite (pbind_quiet _ _ _ _ _ (set_active_up _ _ _ _ _ _ Hc)).
  destruct (work_on_call_idle c now t o [m] [] s Hn Hc Hd) as (s1 & E1 & C1). rewrite (pbind_quiet _ _ _ _ _ E1).
  destruct (tx_packet c now t o m [] [] s1 C1 Hm Hr Hg) as (pkt & s2 & P2 & E2 & C2). exists pkt, s2. split; [done|].
  split; [|done]. rewrite (pbind_ok _ _ _ _ _ _ E2). pose proof C2 as (_ & Em & Emach & Ed & _).
  cbn [read_serial]. unfold pbind at 1. rewrite pbind_ird, Em. cbn [pret]. rewrite pbind_ird, Emach.
  cbn [fsm received deliver_received]. rewrite pbind_ret, pbind_ird, Ed. cbn [pwhen]. rewrite pbind_ret.
  by rewrite (tx_nothing c now t (after_packet now pkt o) []).
Qed.

(** a round that reads a packet, up to the last attempt to write *)
Lemma do_work_reads c now t o m pkt s :
  no_data -> calling c t o [] [] (drv s) -> not_due c now o -> sendable m -> packet_of m pkt ->
  no_control_line m -> rate m = RATE_RUDICS ->
  exists s', ir_do_work crc32 slots (MkIrTick now true [pkt] []) s =
      (let '(s2, e2, r) := try_serial_tx crc32 now s' in (s2, IrReceive (carried m) :: e2, r)) /\
    calling c t (set_last_rx_time now o) (acks_for c (carried m)) [] (drv s').
Proof.
  intros Hn Hc Hd Hm Hp Hl Hr. unfold ir_do_work. cbn [it_now it_active it_lines it_debug].
  rewrite (pbind_quiet _ _ _ _ _ (set_active_up _ _ _ _ _ _ Hc)).
  destruct (work_on_call_idle c now t o [] [] s Hn Hc Hd) as (s1 & E1 & C1). rewrite (pbind_quiet _ _ _ _ _ E1).
  rewrite (pbind_quiet _ _ _ _ _ (tx_nothing c now t o [] s1 C1)).
  destruct (rx_packet c now t o [] m pkt s1 C1 Hm Hp Hl) as (s2 & E2 & C2). rewrite (pbind_quiet _ _ _ _ _ E2).
  pose proof C2 as (_ & _ & Emach & _). rewrite pbind_ird, Emach. cbn [fsm received].
  destruct (deliver_one c now t (set_last_rx_time now o) (carried m) s2 Hn Hr C2) as (s3 & E3 & C3).
  rewrite (pbind_ok _ _ _ _ _ _ E3). pose proof C3 as (_ & _ & _ & Ed & _).
  rewrite pbind_ird, Ed. cbn [pwhen]. rewrite pbind_ret. exists s3. split; [|done].
  by destruct (try_serial_tx crc32 now s3) as [[? ?] ?].
Qed.

End Call.

Section Exchange.
Context {HC : IridiumHeaderCodec} {HCL : IridiumHeaderLaws} {TR : BoostTrim} {TX : BoostText} {LC : LexicalCast}.
Variable (crc32 : bytes -> Z).
Hypothesis crc32_range : forall s, 0 <= crc32 s < 2 ^ 32.

(** a transmission of data with a frame to carry *)
Definition data_frame (m : ModemTransmission) : Prop :=
  sendable m /\ rate m = RATE_RUDICS /\ type m = DATA /\ ack_requested m = true /\
  exists f fs, mt_frame m = f :: fs /\ f <> [].

Lemma data_frame_start m : data_frame m -> 0 <= frame_start m <= 65535.
Proof.
  intros ((Hb & _) & _). unfold header_in_bounds, header_of in Hb. cbn in Hb. unfold frame_start.
  repeat match type of Hb with _ && _ = true => let H := fresh in apply andb_true_iff in Hb as [Hb H] end.
  destruct (mt_frame_start m); cbn; [|lia]. to_prop. lia.
Qed.

Lemma acked_carried m : data_frame m -> acked_frames (carried m) = [frame_start m].
Proof.
  intros H. pose proof (data_frame_start m H) as Hs. destruct H as (_ & _ & _ & _ & f & fs & Ef & Hne).
  assert (Efs : frame_size (carried m) = 1%nat).
  { unfold frame_size, carried. cbn [mt_frame]. rewrite Ef. cbn. by rewrite bool_decide_eq_false_2. }
  assert (E1 : s32 (frame_start m) = frame_start m) by (unfold s32; rewrite Z.mod_small; lia).
  assert (E2 : s32 (u32 (1 + frame_start m)) = 1 + frame_start m)
    by (unfold u32; rewrite wrap_small by lia; unfold s32; rewrite Z.mod_small; lia).
  unfold acked_frames. rewrite Efs. change (frame_start (carried m)) with (frame_start m).
  rewrite E1. change (Z.of_nat 1) with 1. rewrite E2. replace (1 + frame_start m - frame_start m) with 1 by lia.
  change (Z.to_nat 1) with 1%nat. cbn [seq map]. by rewrite Z.add_0_r.
Qed.

Lemma ack_sendable m : data_frame m -> sendable (ir_ack (carried m)).
Proof.
  intros H. pose proof (data_frame_start m H) as Hs. pose proof (acked_carried m H) as Ha.
  destruct H as ((Hb & _) & Er & _). split; [|constructor]. unfold RATE_RUDICS in Er. unfold header_in_bounds, header_of in *. cbn in *.
  rewrite Ha. cbn. repeat match type of Hb with _ && _ = true => let H := fresh in apply andb_true_iff in Hb as [Hb H] end.
  unfold src, dest, rate in *. cbn in *. to_prop.
  rewrite Er. repeat (apply andb_true_iff; split); try done; apply Z.leb_le; lia.
Qed.

Context {WA WB : Type} (slotsA : IrSlots WA) (slotsB : IrSlots WB).

(** C8: Two Iridium drivers on a call: a data transmission of one frame that asks for an
    acknowledgement is written to the line as one packet; the other driver, reading that packet,
    signals exactly the transmission to its application and writes an acknowledgement, and the first
    driver, reading that one, signals an acknowledgement of the frame with source and destination
    exchanged. Both calls are past their rate limit and not due to end, and no packet looks like a
    control line. *)
Theorem iridium_call_exchange (cA cB : IrConfig) (now now' tA tB : double) (oA oB : OnCallBase)
    (sA : IrState WA) (sB : IrState WB) (m : ModemTransmission) :
  no_data slotsA -> no_data slotsB ->
  calling cA tA oA [] [] (drv sA) -> not_due cA now oA -> rate_allows cA now oA ->
  calling cB tB oB [] [] (drv sB) -> not_due cB now oB -> rate_allows cB now oB ->
  past_guard now tA -> past_guard now tB -> (forall pkt, not_due cA now' (after_packet now pkt oA)) ->
  data_frame m -> dest m = get_modem_id (ir_connection cB) ->
  no_control_line crc32 m -> no_control_line crc32 (ir_ack (carried m)) ->
  exists pktA pktB sA1 sB1 sA2 ack,
    (send crc32 now m;; ir_do_work crc32 slotsA (MkIrTick now true [] [])) sA
      = (sA1, [IrLine (WriteLine pktA)], Ok tt) /\
    ir_do_work crc32 slotsB (MkIrTick now true [pktA] []) sB
      = (sB1, [IrReceive (carried m); IrLine (WriteLine pktB)], Ok tt) /\
    ir_do_work crc32 slotsA (MkIrTick now' true [pktB] []) sA1 = (sA2, [IrReceive ack], Ok tt) /\
    type ack = ACK /\ src ack = dest m /\ dest ack = src m /\ mt_acked_frame ack = [frame_start m].
Proof.
  intros NA NB CA DA RA CB DB RB GA GB DA' Hm Hdest Hl Hl'. pose proof Hm as (Hs & Hr & Ht & Ha & _).
  pose proof (ack_sendable m Hm) as Hs'. pose proof (acked_carried m Hm) as Hack.
  (* the sender *)
  assert (Es : exists sA0, send crc32 now m sA = (sA0, [], Ok tt) /\ calling cA tA oA [m] [] (drv sA0)).
  { destruct CA as (Ec & Em & Emach & Ed & Eg). unfold send. rewrite pbind_ird, Hr. cbn.
    eexists. split; [reflexivity|]. unfold calling. cbn. by rewrite Emach. }
  destruct Es as (sA0 & Es & CA0). rewrite (pbind_quiet _ _ _ _ _ Es).
  destruct (do_work_sends crc32 crc32_range slotsA cA now tA oA m sA0 NA CA0 DA RA GA Hs) as (pktA & sA1 & PA & EA & CA1).
  (* the receiver *)
  destruct (do_work_reads crc32 crc32_range slotsB cB now tB oB m pktA sB NB CB DB Hs PA Hl Hr) as (sB0 & EB & CB0).
  assert (Eacks : acks_for cB (carried m) = [ir_ack (carried m)]).
  { unfold acks_for. change (type (carried m)) with (type m). change (ack_requested (carried m)) with (ack_requested m).
    change (dest (carried m)) with (dest m). by rewrite Ht, Ha, Hdest, Z.eqb_refl. }
  rewrite Eacks in CB0.
  destruct (tx_packet crc32 crc32_range cB now tB _ (ir_ack (carried m)) [] [] sB0 CB0 Hs' RB GB) as (pktB & sB1 & PB & EB1 & _).
  rewrite EB1 in EB.
  (* and back *)
  destruct (do_work_reads crc32 crc32_range slotsA cA now' tA _ (ir_ack (carried m)) pktB sA1 NA CA1 (DA' pktA) Hs' PB Hl' Hr)
    as (sA2 & EA2 & CA2).
  rewrite (tx_nothing crc32 cA now' tA _ [] sA2) in EA2 by exact CA2.
  exists pktA, pktB, sA1, sB1, sA2, (carried (ir_ack (carried m))).
  split; [done|]. split; [done|]. split; [done|]. split; [done|]. split; [done|]. split; [done|].
  unfold carried at 1. cbn [mt_acked_frame]. change (mt_acked_frame (ir_ack (carried m))) with (acked_frames (carried m)).
  by rewrite Hack.
Qed.

End Exchange.

(** ** Startup ends *)

Section Startup.
Context {HC : IridiumHeaderCodec} {TR : BoostTrim} {TX : BoostText} {LC : LexicalCast}.
Variable (crc32 : bytes -> Z).
Context {W : Type} (slots : IrSlots W) (c : IrConfig).

(** the computation keeps the configuration and does not wait *)
Definition settles {A : Type} (m : prog (IrState W) IrEvent Exn A) : Prop :=
  triple (fun s => ir_cfg (drv s) = c) m (fun _ s => ir_cfg (drv s) = c) (fun x _ => x <> StillWaiting).

Lemma settles_bind {A C} (m : prog (IrState W) IrEvent Exn A) (k : A -> prog (IrState W) IrEvent Exn C) :
  settles m -> (forall a, settles (k a)) -> settles (pbind m k).
Proof. intros Hm Hk. eapply triple_bind; [exact Hm | exact Hk]. Qed.

Lemma settles_ret {A} (a : A) : settles (pret a).
Proof. by intros s. Qed.
Lemma settles_throw {A} x : x <> StillWaiting -> settles (@pthrow _ _ _ A x).
Proof. by intros H s Hs. Qed.
Lemma settles_emit e : settles (pemit e).
Proof. by intros s. Qed.
Lemma settles_ird {A} (f : IridiumDriver -> A) : settles (ird f).
Proof. by intros s. Qed.
Lemma settles_iupd f : (forall d, ir_cfg (f d) = ir_cfg d) -> settles (iupd f).
Proof. intros H s Hs. cbn. by rewrite H. Qed.
Lemma settles_when b m : settles m -> settles (pwhen b m).
Proof. intros H. destruct b; [done | apply settles_ret]. Qed.
Lemma settles_for {A} (l : list A) body : (forall a, settles (body a)) -> settles (pfor l body).
Proof. intros H. induction l; cbn; [apply settles_ret | by apply settles_bind]. Qed.
Lemma settles_slot {A} (f : W -> W * option A) : settles (ir_call_slot f).
Proof. intros s Hs. unfold ir_call_slot. destruct (f (ir_world s)) as [w [a|]]; cbn; [done | done]. Qed.

Lemma settles_base {A} (m : prog ModemDriverBase DriverEvent Exn A) :
  (forall b, match snd (m b) with Err StillWaiting => False | _ => True end) -> settles (on_ir_base m).
Proof.
  intros H s Hs. unfold on_ir_base. specialize (H (ir_base (drv s))). destruct (m (ir_base (drv s))) as [[b ev] [a|x]]; [done|].
  intros ->. done.
Qed.

Lemma settles_process now e : settles (process crc32 now e).
Proof.
  intros s Hs. unfold process. rewrite pbind_ird.
  destruct (process_queue_enough crc32 (ir_machine (ir_cfg (drv s))) now EVENT_FUEL (machine (drv s)) [e]) as [r E];
    [unfold EVENT_FUEL; destruct e; cbn; lia|].
  unfold process_event. rewrite E. destruct r as [m|x]; [done|]. cbn. by destruct x.
Qed.

Create HintDb settles.
#[local] Hint Resolve settles_ret settles_emit settles_ird settles_slot settles_process : settles.

Ltac settle :=
  repeat match goal with
  | |- settles (pbind _ _) => apply settles_bind; [|intros ?]
  | |- settles (pwhen _ _) => apply settles_when
  | |- settles (pfor _ _) => apply settles_for; intros ?
  | |- settles (pthrow _) => apply settles_throw; discriminate
  | |- settles (iupd _) => apply settles_iupd; intros ?; reflexivity
  | |- settles (if ?b then _ else _) => destruct b
  | |- settles (match ?x with _ => _ end) => destruct x
  | |- settles (let _ := _ in _) => cbv zeta
  | |- settles _ => solve [auto with settles nocore]
  end.

Lemma settles_send now m : settles (send crc32 now m).
Proof.
  unfold send, upd_fsm, upd_machine. settle.
  all: intros s Hs; cbn; by destruct (serialize_iridium_modem_message m).
Qed.
#[local] Hint Resolve settles_send : settles.

Lemma settles_process_transmission now m dial : settles (process_transmission crc32 slots now m dial).
Proof. unfold process_transmission. settle. Qed.
#[local] Hint Resolve settles_process_transmission : settles.

Lemma settles_receive now m : settles (receive crc32 slots now m).
Proof. unfold receive. settle. Qed.
#[local] Hint Resolve settles_receive : settles.

Lemma settles_write line : settles (on_ir_base (modem_write line)).
Proof. apply settles_base. intros b. unfold modem_write. cbn. by destruct (modem b) as [[]|]. Qed.
#[local] Hint Resolve settles_write : settles.

Lemma settles_write_buffer now lines : settles (write_buffer now lines).
Proof. induction lines; cbn [write_buffer]; unfold upd_machine; settle. Qed.
#[local] Hint Resolve settles_write_buffer : settles.

Lemma settles_read_serial now lines : settles (read_serial crc32 now lines).
Proof. induction lines; cbn [read_serial]; settle. Qed.
#[local] Hint Resolve settles_read_serial : settles.

Lemma settles_deliver now msgs : settles (deliver_received crc32 slots now msgs).
Proof. induction msgs; cbn [deliver_received]; unfold upd_machine; settle. Qed.
#[local] Hint Resolve settles_deliver : settles.

Lemma settles_do_work t : settles (ir_do_work crc32 slots t).
Proof.
  unfold ir_do_work, work_on_call, try_serial_tx, hangup, upd_fsm, upd_machine. settle.
  apply settles_base. by intros b.
Qed.
#[local] Hint Resolve settles_do_work : settles.

(** the loop ends when the counter passes the timeout *)
Lemma init_loop_ends ticks : forall i set,
  0 <= i -> 100 * (start_timeout c + 1) <= i + Z.of_nat (length ticks) -> 0 < Z.of_nat (length ticks) ->
  settles (init_loop crc32 slots i set ticks).
Proof.
  induction ticks as [|t ticks IH]; intros i set Hi Hl Hp; [cbn in Hp; lia|].
  cbn [init_loop]. intros s Hs. unfold ird at 1. rewrite (pbind_read (fun s => drv s)). destruct (is_ready (drv s)); [done|].
  revert s Hs. apply settles_bind; [apply settles_do_work|]. intros _ s Hs. rewrite pbind_ird, Hs. cbv zeta.
  generalize (uses_dtr c && bool_decide (modem (ir_base (drv s)) = Some true) && negb set). intros b. revert s Hs.
  apply settles_bind; [settle|]. intros _. destruct (start_timeout c <? (i + 1) / 100) eqn:E; [settle|]. to_prop.
  assert (Hlt : i + 1 < 100 * (start_timeout c + 1)).
  { pose proof (Z.mul_succ_div_gt (i + 1) 100 ltac:(lia)). lia. }
  cbn [length] in Hl. apply IH; lia.
Qed.

(** Initializing the modem ends within the configured time: with a hundred rounds of do_work
    for each second of start_timeout, and one second more, the loop has returned with the machine
    ready or has thrown; it is never still waiting, whatever the modem answers. *)
Lemma iridium_startup_ends (log_name : bytes -> bytes) (log_opened : bool) (polls : list bool) (ticks : list IrTick)
    (s : IrState W) :
  ir_cfg (drv s) = c -> (100 <= length polls)%nat -> 0 <= start_timeout c ->
  100 * (start_timeout c + 1) <= Z.of_nat (length ticks) ->
  snd (modem_init crc32 slots log_name log_opened polls ticks s) <> Err StillWaiting.
Proof.
  intros Hc Hp Ht Hn.
  assert (H : settles (modem_init crc32 slots log_name log_opened polls ticks)).
  { unfold modem_init, upd_machine. settle; [|apply init_loop_ends; lia]. apply settles_base. intros b.
    unfold modem_start, open_raw_log. pose proof (wait_active_spec polls 0 ltac:(lia) ltac:(lia)) as Hw.
    change (100 * Z.of_nat 0) with 0 in Hw.
    destruct (modem_id _); [|done]. cbn.
    destruct (line_of _) eqn:El; cbn; [|unfold line_of in El; repeat case_match; by simplify_eq]. rewrite Hw.
    destruct (raw_log _), (existsb _ _); cbn; done. }
  specialize (H s Hc). destruct (modem_init _ _ _ _ _ _ s) as [[s' ev] [a|x]]; cbn; [done|]. by intros [= ->].
Qed.

End Startup.

Module CallWitness.
#[local] Existing Instances NmeaWitness.trim Sample.text Reader.cast IridiumWitness.codec IridiumWitness.codec_laws.

Definition slots : IrSlots unit :=
  {| ir_modify := fun m w => (w, Some m);
     ir_data_request := fun m w =>
       (w, Some (MkIr (set_mt_rate (Some RATE_RUDICS) (set_mt_frame [] (ir_msg m))) true));
     ir_receive := fun _ w => (w, Some tt) |}.

Lemma slots_no_data : no_data slots.
Proof.
  repeat split; intros m w.
  - by exists w, m.
  - eexists w, _. split; [reflexivity | done].
  - by exists w.
Qed.

Definition config (id : Z) : IrConfig :=
  MkIrConfig (MkConnection (Some id) None None (Some (B "/dev/ttyS0")) (Some 19200) None None None None)
    IridiumFsmWitness.cfg 1500 None 30 20 (Some false) 5.

(** on a call since second 1000 *)
Definition call0 : OnCallBase := new_call (double_of_Z 1000).

Definition node (id : Z) : IrState unit :=
  MkIrState (MkIrDriver (config id) (MkBase (Some true) false false) (MkMachine new_fsm Online (Some call0))
    (double_of_Z 0) empty_transmission 0 false) tt.

Definition msg : ModemTransmission := IridiumWitness.data_message.

Lemma msg_data_frame : data_frame msg.
Proof. split; [apply IridiumWitness.data_message_sendable|]. split; [done|]. split; [done|]. split; [done|]. by exists (B "hello"), []. Qed.

Lemma msg_line : no_control_line crc_sum msg.
Proof. intros pkt (bs & E & ->). vm_compute in E. injection E as <-. vm_compute. reflexivity. Qed.

Lemma ack_line : no_control_line crc_sum (ir_ack (carried msg)).
Proof. intros pkt (bs & E & ->). vm_compute in E. injection E as <-. vm_compute. reflexivity. Qed.

Lemma iridium_call_exchange_witness :
  exists pktA pktB sA1 sB1 sA2 ack,
    (send crc_sum (double_of_Z 1001) msg;; ir_do_work crc_sum slots (MkIrTick (double_of_Z 1001) true [] [])) (node 1)
      = (sA1, [IrLine (WriteLine pktA)], Ok tt) /\
    ir_do_work crc_sum slots (MkIrTick (double_of_Z 1001) true [pktA] []) (node 2)
      = (sB1, [IrReceive (carried msg); IrLine (WriteLine pktB)], Ok tt) /\
    ir_do_work crc_sum slots (MkIrTick (double_of_Z 1002) true [pktB] []) sA1 = (sA2, [IrReceive ack], Ok tt) /\
    type ack = ACK /\ src ack = dest msg /\ dest ack = src msg /\ mt_acked_frame ack = [frame_start msg].
Proof.
  apply (iridium_call_exchange crc_sum IridiumWitness.crc_sum_range slots slots (config 1) (config 2)
    (double_of_Z 1001) (double_of_Z 1002) (double_of_Z 0) (double_of_Z 0) call0 call0 (node 1) (node 2) msg);
    try apply slots_no_data; try apply msg_data_frame; try apply msg_line; try apply ack_line;
    try (vm_compute; reflexivity); try (split; vm_compute; reflexivity); try (repeat split; vm_compute; reflexivity).
Defined.

Example escape_sequence_guarded_witness :
  let '(s', ev, r) := try_serial_tx crc_sum (double_of_Z 1001) (node 1) in
  (dlt (double_of_Z 1001) (dadd (last_triple_plus_time (drv (node 1))) (double_of_Z TRIPLE_PLUS_WAIT)) = true -> ir_written ev = []) /\
  (forall pre post, ir_written ev = pre ++ B "+++" :: post ->
     post = [] /\ (r = Ok tt -> last_triple_plus_time (drv s') = double_of_Z 1001)).
Proof. apply (escape_sequence_guarded crc_sum (double_of_Z 1001) (node 1)). vm_compute. reflexivity. Qed.

Example iridium_startup_ends_witness :
  snd (modem_init crc_sum slots (fun x => x) true (repeat true 100)
    (repeat (MkIrTick (double_of_Z 1) true [] []) 2100) (node 1)) <> Err StillWaiting.
Proof.
  apply (iridium_startup_ends crc_sum slots (config 1)); try reflexivity; try (rewrite repeat_length; cbn; lia).
  cbn. lia.
Qed.

End CallWitness.
