(* ===== verification/ShoreDriver.v ===== *)
(** * acomms/modemdriver/iridium_shore_driver.{h,cpp}, iridium_shore_rudics.h:
      the shore side of the Iridium link

    The driver accepts calls of mobiles as TCP connections (RUDICS) and
    exchanges short burst messages with the gateway ([DirectIp]). The handlers
    of boost::asio that a poll runs are given in order with each round of
    [do_work]; connections are numbered. The set of SBD connections is ordered
    by address, which the numbers stand for. A call sees one time. *)

From Stdlib Require Import SpecFloat.
From S2P Require Import Prelude AssocList Double Time As Proto BaseConvert Rudics Nmea UdpDriver Iridium IridiumFsm Prog DriverBase DirectIp IridiumDriver.

#[local] Open Scope prog_scope.

(** ** Data *)

Record RUDICSConnection : Type := MkRudics { packet_failures : Z; is_open : bool }.
Definition new_rudics_connection : RUDICSConnection := MkRudics 0 true.
Definition max_packet_failures : Z := 3.

Record SBDConnection : Type := MkSbdConnection { connect_time : double; message : SBDMessageReader }.
Definition new_sbd_connection : SBDConnection := MkSbdConnection (double_of_Z (-1)) new_sbd_reader.

Record ShoreConfig : Type := MkShoreConfig {
  sh_modem_id : Z;
  sh_max_frame_size : Z;
  sh_target_bit_rate : Z;
  sh_handshake_hangup_seconds : Z;
  sh_hangup_seconds_after_empty : Z;
  rudics_server_port : Z;
  mo_sbd_server_port : Z;
  imei_of : list (Z * bytes)
}.

(** [remote_] holds the call of each remote node (the buffer [data_out] of a
    node is never used); [clients_] is a bimap. The connections are those the
    server has accepted, with the objects that are still referred to;
    [sbd_next] is the connection that waits to be accepted; [client_id] is the
    static counter of [create_sbd_mt_data_message]. *)
Record IridiumShoreDriver : Type := MkShore {
  sh_cfg : ShoreConfig;
  sh_mac_msg : ModemTransmission;
  sh_next_frame : Z;
  remote : list (Z * option OnCallBase);
  clients : list (Z * Z);
  modem_id_to_imei : list (Z * bytes);
  rudics_connections : list (Z * RUDICSConnection);
  rudics_set : list Z;
  rudics_accepting : bool;
  sbd_connections : list (Z * SBDConnection);
  sbd_next : option Z;
  client_id : Z
}.

Definition set_mac_msg v d := MkShore (sh_cfg d) v (sh_next_frame d) (remote d) (clients d) (modem_id_to_imei d)
  (rudics_connections d) (rudics_set d) (rudics_accepting d) (sbd_connections d) (sbd_next d) (client_id d).
Definition set_next_frame v d := MkShore (sh_cfg d) (sh_mac_msg d) v (remote d) (clients d) (modem_id_to_imei d)
  (rudics_connections d) (rudics_set d) (rudics_accepting d) (sbd_connections d) (sbd_next d) (client_id d).
Definition set_remote v d := MkShore (sh_cfg d) (sh_mac_msg d) (sh_next_frame d) v (clients d) (modem_id_to_imei d)
  (rudics_connections d) (rudics_set d) (rudics_accepting d) (sbd_connections d) (sbd_next d) (client_id d).
Definition set_clients v d := MkShore (sh_cfg d) (sh_mac_msg d) (sh_next_frame d) (remote d) v (modem_id_to_imei d)
  (rudics_connections d) (rudics_set d) (rudics_accepting d) (sbd_connections d) (sbd_next d) (client_id d).
Definition set_rudics_connections v d := MkShore (sh_cfg d) (sh_mac_msg d) (sh_next_frame d) (remote d) (clients d) (modem_id_to_imei d)
  v (rudics_set d) (rudics_accepting d) (sbd_connections d) (sbd_next d) (client_id d).
Definition set_rudics_set v d := MkShore (sh_cfg d) (sh_mac_msg d) (sh_next_frame d) (remote d) (clients d) (modem_id_to_imei d)
  (rudics_connections d) v (rudics_accepting d) (sbd_connections d) (sbd_next d) (client_id d).
Definition set_rudics_accepting v d := MkShore (sh_cfg d) (sh_mac_msg d) (sh_next_frame d) (remote d) (clients d) (modem_id_to_imei d)
  (rudics_connections d) (rudics_set d) v (sbd_connections d) (sbd_next d) (client_id d).
Definition set_sbd_connections v d := MkShore (sh_cfg d) (sh_mac_msg d) (sh_next_frame d) (remote d) (clients d) (modem_id_to_imei d)
  (rudics_connections d) (rudics_set d) (rudics_accepting d) v (sbd_next d) (client_id d).
Definition set_sbd_next v d := MkShore (sh_cfg d) (sh_mac_msg d) (sh_next_frame d) (remote d) (clients d) (modem_id_to_imei d)
  (rudics_connections d) (rudics_set d) (rudics_accepting d) (sbd_connections d) v (client_id d).
Definition set_client_id v d := MkShore (sh_cfg d) (sh_mac_msg d) (sh_next_frame d) (remote d) (clients d) (modem_id_to_imei d)
  (rudics_connections d) (rudics_set d) (rudics_accepting d) (sbd_connections d) (sbd_next d) v.

Inductive ShoreEvent : Type :=
| RudicsWrite (connection : Z) (data : bytes)
| RudicsClose (connection : Z)
| SbdSend (message : bytes)
| ShoreReceive (m : ModemTransmission)
| StartServers (rudics_port sbd_port : Z).

(** the handlers that a poll runs. A line is given without its delimiter;
    [endpoint]: the remote end of the accepted socket is still there. *)
Inductive RudicsIo : Type :=
| RAccept (connection : Z) (endpoint : bool)
| RAcceptError
| RLine (connection : Z) (line : bytes)
| RReadError (connection : Z)
| RWriteError (connection : Z).

Inductive SbdIo : Type :=
| SAccept (endpoint : bool) (next : Z)
| SAcceptError (next : Z)
| SPiece (connection : Z) (piece : bytes)
| SError (connection : Z).

(** the connected signals; and the gateway: whether it can be connected to, and
    the pieces of its answer to a message ([None]: writing fails) *)
Record ShoreSlots (W : Type) : Type := MkShoreSlots {
  sh_modify : ModemTransmission -> W -> W * option ModemTransmission;
  sh_data_request : ModemTransmission -> W -> W * option ModemTransmission;
  sh_receive : ModemTransmission -> W -> W * option unit;
  gateway_connect : W -> W * bool;
  gateway_answer : bytes -> W -> W * option (list bytes)
}.
Arguments sh_modify {W}.
Arguments sh_data_request {W}.
Arguments sh_receive {W}.
Arguments gateway_connect {W}.
Arguments gateway_answer {W}.

Record ShoreState (W : Type) : Type := MkShoreState { shore : IridiumShoreDriver; sh_world : W }.
Arguments shore {W}.
Arguments sh_world {W}.
Arguments MkShoreState {W}.

Section Shore.
Context {HC : IridiumHeaderCodec}.
Variable (crc32 : bytes -> Z).
Context {W : Type} (slots : ShoreSlots W).

Abbreviation sprog := (prog (ShoreState W) ShoreEvent Exn).

Definition srd {A : Type} (f : IridiumShoreDriver -> A) : sprog A := pread (fun s => f (shore s)).
Definition supd (f : IridiumShoreDriver -> IridiumShoreDriver) : sprog unit :=
  pmod (fun s => MkShoreState (f (shore s)) (sh_world s)).
Definition in_world {A : Type} (f : W -> W * A) : sprog A := fun s =>
  let '(w, a) := f (sh_world s) in (MkShoreState (shore s) w, [], Ok a).
Definition sh_call_slot {A : Type} (f : W -> W * option A) : sprog A :=
  let! r := in_world f in
  match r with Some a => pret a | None => pthrow SlotException end.

(** [remote_[id].on_call] *)
Definition call_of (id : Z) (d : IridiumShoreDriver) : option OnCallBase := mjoin (al_lookup id (remote d)).
Definition set_call (id : Z) (o : option OnCallBase) : sprog unit := supd (fun d => set_remote (al_insert id o (remote d)) d).
(** [remote_[id]] makes the node *)
Definition touch (id : Z) : sprog unit := supd (fun d => set_remote (al_insert_new id None (remote d)) d).
(** [remote_[id].on_call->f()] *)
Definition on_call_of (id : Z) (f : OnCallBase -> OnCallBase) : sprog unit :=
  touch id;;
  let! o := srd (call_of id) in
  match o with
  | None => pthrow UndefinedBehaviour
  | Some o => set_call id (Some (f o))
  end.

(** [clients_.right.find(connection)] *)
Definition client_of (connection : Z) (d : IridiumShoreDriver) : option Z :=
  fst <$> List.find (fun e => snd e =? connection) (clients d).

(** [clients_.left.insert]: neither side may be there *)
Definition insert_client (id connection : Z) (d : IridiumShoreDriver) : IridiumShoreDriver :=
  match al_lookup id (clients d), client_of connection d with
  | None, None => set_clients (al_insert id connection (clients d)) d
  | _, _ => d
  end.

(** ** Sending *)

Definition rudics_send (data : bytes) (id : Z) : sprog unit :=
  let! c := srd (fun d => al_lookup id (clients d)) in
  match c with
  | Some c => pemit (RudicsWrite c data)
  | None => pret tt
  end.

(** exceptions are caught; the answer of the gateway is only logged *)
Definition send_sbd_mt (bs imei : bytes) : sprog unit :=
  let! connected := in_world (gateway_connect slots) in
  if connected : bool
  then
    let! i := srd client_id in
    supd (set_client_id (s32 (i + 1)));;
    let! m := plift (create_sbd_mt_data_message i bs imei) in
    pemit (SbdSend m);;
    let! answer := in_world (gateway_answer slots m) in
    match answer with
    | None => pret tt
    | Some pieces =>
        match (start_reader;; pfor pieces socket_piece) new_sbd_reader with
        | (_, _, Err x) => if is_std_exception x then pret tt else pthrow x
        | _ => pret tt
        end
    end
  else pret tt.

Definition packet (msg : ModemTransmission) : result Exn bytes :=
  match serialize_iridium_modem_message msg with
  | Some bs => Ok (serialize_rudics_packet crc32 bs default_reserved true)
  | None => Err CodecException
  end.

Definition shore_send (now : double) (msg : ModemTransmission) : sprog unit :=
  let id := u32 (dest msg) in
  touch id;;
  let! o := srd (call_of id) in
  if (rate msg =? RATE_RUDICS) || is_some o
  then
    let! rudics_packet := plift (packet msg) in
    rudics_send rudics_packet id;;
    on_call_of id (fun o => set_last_bytes_sent (s32 (Z.of_nat (length rudics_packet))) (set_last_tx_time now o))
  else if rate msg =? RATE_SBD
  then
    let! sbd_packet := plift (packet msg) in
    let! imei := srd (fun d => al_lookup id (modem_id_to_imei d)) in
    match imei with
    | Some imei => send_sbd_mt sbd_packet imei
    | None => pret tt
    end
  else pret tt.

Definition shore_process_transmission (now : double) (msg : ModemTransmission) : sprog unit :=
  let! msg := sh_call_slot (sh_modify slots msg) in
  let! d := srd (fun d => d) in
  let msg := match mt_frame_start msg with
             | None => set_mt_frame_start (Some (sh_next_frame d)) msg | Some _ => msg end in
  let msg := if negb (has_max_frame_bytes msg) || (sh_max_frame_size (sh_cfg d) <? max_frame_bytes msg)
             then set_mt_max_frame_bytes (Some (sh_max_frame_size (sh_cfg d))) msg else msg in
  let! msg := sh_call_slot (sh_data_request slots msg) in
  supd (fun d => set_next_frame (u32 (sh_next_frame d + Z.of_nat (frame_size msg))) d);;
  pwhen (negb (is_empty_transmission msg)) (shore_send now msg).

Definition shore_handle_initiate_transmission (now : double) (msg : ModemTransmission) : sprog unit :=
  shore_process_transmission now msg.

Definition shore_receive (now : double) (msg : ModemTransmission) : sprog unit :=
  let! d := srd (fun d => d) in
  pwhen (bool_decide (type msg = DATA) && ack_requested msg && (dest msg =? sh_modem_id (sh_cfg d)))
    (shore_send now (ir_ack msg));;
  pemit (ShoreReceive msg);;
  sh_call_slot (sh_receive slots msg).

(** ** Calls *)

(** [RUDICSConnection::close]: closing twice throws *)
Definition close (c : Z) : sprog unit :=
  let! o := srd (fun d => al_lookup c (rudics_connections d)) in
  match o with
  | Some conn =>
      if is_open conn
      then
        supd (fun d => set_rudics_connections (al_insert c (MkRudics (packet_failures conn) false) (rudics_connections d)) d);;
        pemit (RudicsClose c)
      else pthrow SystemError
  | None => pthrow UndefinedBehaviour
  end.

Definition add_packet_failure (c : Z) : sprog unit :=
  let! o := srd (fun d => al_lookup c (rudics_connections d)) in
  match o with
  | Some conn =>
      let n := packet_failures conn + 1 in
      supd (fun d => set_rudics_connections (al_insert c (MkRudics n (is_open conn)) (rudics_connections d)) d);;
      pwhen (max_packet_failures <=? n) (close c)
  | None => pthrow UndefinedBehaviour
  end.

Definition rudics_disconnect (c : Z) : sprog unit :=
  let! o := srd (client_of c) in
  match o with
  | Some id =>
      set_call id None;;
      supd (fun d => set_clients (al_erase id (clients d)) d)
  | None => pret tt
  end.

(** [disconnect_signal]: the server, then the driver *)
Definition disconnect_signal (c : Z) : sprog unit :=
  supd (fun d => set_rudics_set (List.filter (fun x => negb (x =? c)) (rudics_set d)) d);;
  rudics_disconnect c.

(** the message of a packet *)
Definition parse_packet (data : bytes) : result Exn ModemTransmission :=
  match parse_rudics_packet crc32 data default_reserved true with
  | Err _ => Err PacketException
  | Ok bs => match parse_iridium_modem_message bs with Some m => Ok m | None => Err CodecException end
  end.

(** the second literal starts with the character that ends it: it is empty *)
Definition is_goby_line (data : bytes) : bool :=
  bool_decide (data = B "goby" ++ [13]) || bool_decide (data = []).

Definition rudics_line (now : double) (data : bytes) (c : Z) : sprog unit :=
  pcatch
    (if is_goby_line data then pret tt
     else if bool_decide (data = B "bye" ++ [13])
     then
       let! o := srd (client_of c) in
       match o with
       | Some id => on_call_of id (set_bye_received true)
       | None => pret tt
       end
     else
       let! modem_msg := plift (parse_packet data) in
       let id := u32 (src modem_msg) in
       let! known := srd (fun d => is_some (al_lookup id (clients d))) in
       pwhen (negb known) (supd (insert_client id c);; set_call id (Some (new_call now)));;
       on_call_of id (set_last_rx_time now);;
       shore_receive now modem_msg)
    (fun x => match x with PacketException => Some (add_packet_failure c) | _ => None end).

Definition handle_rudics (now : double) (io : RudicsIo) : sprog unit :=
  match io with
  | RAccept c endpoint =>
      let! accepting := srd rudics_accepting in
      pwhen accepting
        (supd (fun d => set_rudics_set (c :: rudics_set d)
                          (set_rudics_connections (al_insert c new_rudics_connection (rudics_connections d)) d));;
         if endpoint then pret tt else supd (set_rudics_accepting false);; pthrow SystemError)
  | RAcceptError => pret tt
  | RLine c line => rudics_line now (line ++ [13]) c
  | RReadError c | RWriteError c => disconnect_signal c
  end.

(** ** Short burst data *)

Definition start_accept (next : Z) : sprog unit :=
  supd (fun d => set_sbd_next (Some next) (set_sbd_connections (al_insert next new_sbd_connection (sbd_connections d)) d)).

(** a handler of the reader of a connection; one that has been removed has its
    read aborted, which throws before the reader is touched *)
Definition on_reader (c : Z) (m : prog SBDMessageReader Empty_set Exn unit) : sprog unit :=
  let! o := srd (fun d => al_lookup c (sbd_connections d)) in
  match o with
  | None => pthrow SystemError
  | Some conn =>
      let '(r, _, res) := m (message conn) in
      supd (fun d => set_sbd_connections (al_insert c (MkSbdConnection (connect_time conn) r) (sbd_connections d)) d);;
      plift res
  end.

Definition handle_sbd (now : double) (io : SbdIo) : sprog unit :=
  match io with
  | SAccept endpoint next =>
      let! o := srd sbd_next in
      match o with
      | None => pret tt
      | Some c =>
          if endpoint
          then
            supd (fun d => set_sbd_connections (al_insert c (MkSbdConnection now new_sbd_reader) (sbd_connections d)) d);;
            on_reader c start_reader;;
            start_accept next
          else supd (set_sbd_next None);; pthrow SystemError
      end
  | SAcceptError next =>
      let! o := srd sbd_next in
      match o with None => pret tt | Some _ => start_accept next end
  | SPiece c piece => on_reader c (socket_piece piece)
  | SError c => on_reader c socket_error
  end.

Definition erase_sbd (c : Z) : sprog unit := supd (fun d => set_sbd_connections (al_erase c (sbd_connections d)) d).

(** one connection of the loop of [receive_sbd_mo] *)
Definition sbd_connection_work (now : double) (c : Z) (conn : SBDConnection) : sprog unit :=
  if mo_data_ready (message conn)
  then
    pcatch (let! modem_msg := plift (parse_packet (default [] (pl_payload (rd_body (message conn))))) in
            shore_receive now modem_msg)
      (fun x => match x with PacketException => Some (pret tt) | _ => None end);;
    erase_sbd c
  else
    pwhen (dlt (double_of_Z 0) (connect_time conn) && dlt (dadd (connect_time conn) (double_of_Z 5)) now) (erase_sbd c).

Definition receive_sbd_mo (now : double) (io : list SbdIo) : sprog unit :=
  pcatch (pfor io (handle_sbd now)) (fun x => if is_std_exception x then Some (pret tt) else None);;
  let! l := srd sbd_connections in
  pfor l (fun e => sbd_connection_work now (fst e) (snd e)).

(** ** The work loop *)

(** the node [id] while its call lasts *)
Definition work_remote (now : double) (id : Z) : sprog unit :=
  let! d := srd (fun d => d) in
  let c := sh_cfg d in
  match call_of id d with
  | None => pret tt
  | Some o =>
      let send_wait := ddiv (double_of_Z (last_bytes_sent o)) (ddiv (double_of_Z (sh_target_bit_rate c)) (double_of_Z 8)) in
      pwhen (dlt (dadd (last_tx_time o) send_wait) now && negb (bye_sent o))
        (supd (fun d => set_mac_msg (set_mt_dest (Some (s32 id)) (sh_mac_msg d)) d);;
         let! msg := srd sh_mac_msg in
         shore_process_transmission now msg);;
      let! o := srd (call_of id) in
      match o with
      | None => pthrow UndefinedBehaviour
      | Some o =>
          pwhen (negb (bye_sent o) && dlt (dadd (last_tx_time o) (double_of_Z (sh_handshake_hangup_seconds c))) now)
            (rudics_send (B "bye" ++ [13]) id;; set_call id (Some (set_bye_sent true o)));;
          let! o := srd (call_of id) in
          match o with
          | None => pthrow UndefinedBehaviour
          | Some o =>
              pwhen ((bye_received o && bye_sent o)
                     || dlt (dadd (last_rx_tx_time o) (double_of_Z (sh_hangup_seconds_after_empty c))) now)
                (let! conn := srd (fun d => al_lookup id (clients d)) in
                 match conn with Some conn => close conn | None => pret tt end;;
                 set_call id None)
          end
      end
  end.

Record ShoreTick : Type := MkShoreTick { st_now : double; st_rudics : list RudicsIo; st_sbd : list SbdIo }.

(** a node that is made during the loop has no call *)
Definition shore_do_work (t : ShoreTick) : sprog unit :=
  let now := st_now t in
  let! l := srd remote in
  pfor l (fun e => work_remote now (fst e));;
  pfor (st_rudics t) (handle_rudics now);;
  receive_sbd_mo now (st_sbd t).

(** [next]: the number of the first SBD connection that waits *)
Definition shore_startup (cfg : ShoreConfig) (next : Z) : sprog unit :=
  supd (fun d => MkShore cfg
    (set_mt_rate (Some RATE_RUDICS) (set_mt_type (Some DATA) (set_mt_src (Some (sh_modem_id cfg)) (sh_mac_msg d))))
    (sh_next_frame d) (remote d) (clients d)
    (fold_left (fun m e => al_insert (u32 (fst e)) (snd e) m) (imei_of cfg) (modem_id_to_imei d))
    (rudics_connections d) [] true [] None (client_id d));;
  pemit (StartServers (rudics_server_port cfg) (mo_sbd_server_port cfg));;
  start_accept next.

Definition shore_shutdown : sprog unit := pret tt.

Definition new_shore_driver (cfg : ShoreConfig) : IridiumShoreDriver :=
  MkShore cfg empty_transmission 0 [] [] [] [] [] false [] None 0.

End Shore.
