(* ===== verification/ShoreLink.v ===== *)
(** * The shore driver with a mobile, and what it keeps

    A call between the driver of a mobile ([IridiumDriver]) and the shore
    ([ShoreDriver]): data and acknowledgement over the connection the data came
    in on. The table of clients stays one-to-one. A short burst message that
    cannot be decoded stops the reception of short burst data for good. *)

From Stdlib Require Import SpecFloat Sorting.Sorted.
From S2P Require Import Prelude AssocList Double Time As Proto BaseConvert Rudics Nmea UdpDriver Iridium IridiumFsm Prog DriverBase DirectIp IridiumDriver IridiumCall ShoreDriver.

#[local] Open Scope prog_scope.

Section Basics.
Context {HC : IridiumHeaderCodec}.
Variable (crc32 : bytes -> Z).
Context {W : Type} (slots : ShoreSlots W).
Implicit Types (s : ShoreState W) (id c : Z).

Lemma pbind_srd {A C} (f : IridiumShoreDriver -> A) (k : A -> prog (ShoreState W) ShoreEvent Exn C) s :
  pbind (srd f) k s = k (f (shore s)) s.
Proof. exact (pbind_read (fun s => f (shore s)) k s). Qed.

Lemma pbind_supd {C} f (k : unit -> prog (ShoreState W) ShoreEvent Exn C) s :
  pbind (supd f) k s = k tt (MkShoreState (f (shore s)) (sh_world s)).
Proof. exact (pbind_mod (fun s => MkShoreState (f (shore s)) (sh_world s)) k s). Qed.

Lemma pbind_emit {C} (e : ShoreEvent) (k : unit -> prog (ShoreState W) ShoreEvent Exn C) s :
  pbind (pemit e) k s = (let '(s', ev, r) := k tt s in (s', e :: ev, r)).
Proof. reflexivity. Qed.

Lemma call_of_insert id o d : call_of id (set_remote (al_insert id o (remote d)) d) = o.
Proof. unfold call_of. cbn. by rewrite al_lookup_insert, Z.eqb_refl. Qed.

Lemma call_of_touch id j d : call_of j (set_remote (al_insert_new id None (remote d)) d) = call_of j d.
Proof.
  unfold call_of. cbn. unfold al_insert_new. destruct (al_lookup id (remote d)) eqn:E; [done|].
  rewrite al_lookup_insert. destruct (j =? id) eqn:Ej; [|done]. to_prop. subst. by rewrite E.
Qed.

(** the call of a node is changed *)
Lemma on_call_of_some id f o s :
  call_of id (shore s) = Some o ->
  exists s', on_call_of id f s = (s', [], Ok tt) /\ call_of id (shore s') = Some (f o) /\
    clients (shore s') = clients (shore s) /\ sh_cfg (shore s') = sh_cfg (shore s) /\ sh_world s' = sh_world s.
Proof.
  intros H. unfold on_call_of, touch. rewrite pbind_supd, pbind_srd. cbn [shore]. rewrite call_of_touch, H.
  eexists. split; [reflexivity|]. cbn [shore sh_world]. by rewrite call_of_insert.
Qed.

End Basics.

(** ** Data and acknowledgement on a call *)

Section Exchange.
Context {HC : IridiumHeaderCodec} {HCL : IridiumHeaderLaws} {TR : BoostTrim} {TX : BoostText} {LC : LexicalCast}.
Variable (crc32 : bytes -> Z).
Hypothesis crc32_range : forall s, 0 <= crc32 s < 2 ^ 32.
Context {WA W : Type} (slotsA : IrSlots WA) (slots : ShoreSlots W).
Implicit Types (s : ShoreState W) (id c : Z).

(** the node [id] has no connection yet, nor the connection a node; or they belong together and a call lasts *)
Definition belongs (id c : Z) (d : IridiumShoreDriver) : Prop :=
  (al_lookup id (clients d) = None /\ client_of c d = None) \/
  (al_lookup id (clients d) = Some c /\ call_of id d <> None).

Definition takes_all : Prop := forall m w, exists w', sh_receive slots m w = (w', Some tt).

(** sending on the call of a node *)
Lemma shore_send_on_call now id c o msg pkt s :
  u32 (dest msg) = id -> call_of id (shore s) = Some o -> al_lookup id (clients (shore s)) = Some c ->
  packet crc32 msg = Ok pkt ->
  exists s', shore_send crc32 slots now msg s = (s', [RudicsWrite c pkt], Ok tt) /\
    call_of id (shore s') <> None /\ clients (shore s') = clients (shore s) /\
    sh_cfg (shore s') = sh_cfg (shore s) /\ sh_world s' = sh_world s.
Proof.
  intros Hid Ho Hc Hp. unfold shore_send, touch. cbv zeta. rewrite Hid, pbind_supd, pbind_srd. cbn [shore].
  rewrite call_of_touch, Ho. cbn [is_some]. rewrite orb_true_r, Hp, pbind_lift. unfold rudics_send.
  rewrite pbind_assoc, pbind_srd. cbn [shore clients set_remote]. rewrite Hc, pbind_emit.
  set (s1 := MkShoreState _ _).
  destruct (on_call_of_some id (fun o => set_last_bytes_sent (s32 (Z.of_nat (length pkt))) (set_last_tx_time now o)) o s1)
    as (s' & E & Eo & Ec & Ef & Ew); [by unfold s1; cbn [shore]; rewrite call_of_touch|].
  rewrite E. exists s'. split; [done|]. rewrite Eo. done.
Qed.

(** a line with the packet of a message that asks for an acknowledgement *)
Lemma line_acknowledged now c m pkt data s :
  takes_all -> belongs (u32 (src m)) c (shore s) -> is_goby_line data = false -> data <> B "bye" ++ [13] ->
  parse_packet crc32 data = Ok m -> type m = DATA -> ack_requested m = true -> dest m = sh_modem_id (sh_cfg (shore s)) ->
  packet crc32 (ir_ack m) = Ok pkt ->
  exists s', rudics_line crc32 slots now data c s = (s', [RudicsWrite c pkt; ShoreReceive m], Ok tt) /\
    al_lookup (u32 (src m)) (clients (shore s')) = Some c /\ call_of (u32 (src m)) (shore s') <> None.
Proof.
  intros Ht Hb Hg Hbye Hp Hty Ha Hd Hk. unfold rudics_line, pcatch. rewrite Hg, bool_decide_eq_false_2 by done.
  rewrite Hp, pbind_lift. cbv zeta. set (id := u32 (src m)) in *. rewrite pbind_srd.
  (* the client is known afterwards *)
  set (enter := pwhen _ _). assert (E1 : exists s1 o, enter s = (s1, [], Ok tt) /\
    al_lookup id (clients (shore s1)) = Some c /\ call_of id (shore s1) = Some o /\ sh_cfg (shore s1) = sh_cfg (shore s)).
  { subst enter. destruct Hb as [[Hn Hc]|[Hk' Ho]].
    - rewrite Hn. cbn [is_some negb pwhen]. rewrite pbind_supd. unfold insert_client. rewrite Hn, Hc.
      eexists _, (new_call now). split; [reflexivity|]. cbn [shore clients set_clients set_remote sh_cfg].
      rewrite al_lookup_insert, Z.eqb_refl. split; [done|]. split; [|done].
      exact (call_of_insert id _ (set_clients (al_insert id c (clients (shore s))) (shore s))).
    - rewrite Hk'. destruct (call_of id (shore s)) as [o|] eqn:E; [|done]. by exists s, o. }
  destruct E1 as (s1 & o & E1 & Hc1 & Ho1 & Hf1). rewrite (pbind_quiet _ _ _ _ _ E1).
  destruct (on_call_of_some id (set_last_rx_time now) o s1 Ho1) as (s2 & E2 & Ho2 & Hc2 & Hf2 & _).
  rewrite (pbind_quiet _ _ _ _ _ E2). unfold shore_receive. rewrite pbind_srd, Hf2, Hf1, Hty, Ha, Hd, Z.eqb_refl.
  cbn [andb bool_decide decide_rel pwhen]. rewrite bool_decide_eq_true_2 by done. cbn [andb pwhen].
  destruct (shore_send_on_call now id c (set_last_rx_time now o) (ir_ack m) pkt s2 eq_refl Ho2 ltac:(by rewrite Hc2) Hk)
    as (s3 & E3 & Ho3 & Hc3 & _). rewrite (pbind_ok _ _ _ _ _ _ E3), pbind_emit.
  destruct (Ht m (sh_world s3)) as (w & Ew). unfold sh_call_slot, in_world, pbind. rewrite Ew. cbn.
  eexists. split; [reflexivity|]. cbn [shore]. by rewrite Hc3, Hc2.
Qed.

(** what the shore reads of a packet that is not a control line *)
Lemma packet_parsed m pkt : sendable m -> packet_of crc32 m pkt -> parse_packet crc32 pkt = Ok (carried m).
Proof.
  intros Hm (bs & Es & ->). destruct (packet_roundtrip crc32 crc32_range m Hm) as (bs' & Es' & Ep & Eq).
  assert (bs' = bs) as -> by congruence. unfold parse_packet. by rewrite Ep, Eq.
Qed.

Lemma packet_is m pkt : packet crc32 m = Ok pkt <-> packet_of crc32 m pkt.
Proof.
  unfold packet, packet_of. destruct (serialize_iridium_modem_message m) as [bs|]; split.
  - intros [= <-]. by exists bs.
  - intros (? & [= <-] & ->). done.
  - done.
  - by intros (? & ? & _).
Qed.

(** a packet ends with the delimiter *)
Lemma packet_delimited m pkt : packet_of crc32 m pkt -> exists line, pkt = line ++ [13].
Proof. intros (bs & _ & ->). unfold serialize_rudics_packet. by eexists. Qed.

(** whatever its CRC, the packet is not taken for a control line of the shore *)
Definition no_shore_control (m : ModemTransmission) : Prop :=
  forall pkt, packet_of crc32 m pkt -> is_goby_line pkt = false /\ pkt <> B "bye" ++ [13].

(** C9: The driver of a mobile on a call and the shore driver: the packet the mobile writes for a
    data frame that asks for an acknowledgement is received by the shore as exactly that
    transmission, and acknowledged on the connection it came in on, which now belongs to the
    mobile's modem id; the mobile, reading the answer, signals an acknowledgement of the frame with
    source and destination exchanged. *)
Theorem shore_call_exchange (cA : IrConfig) (now now' tA : double) (oA : OnCallBase) (sA : IrState WA)
    (c : Z) (s : ShoreState W) (m : ModemTransmission) :
  no_data slotsA -> takes_all ->
  calling cA tA oA [] [] (drv sA) -> not_due cA now oA -> rate_allows cA now oA -> past_guard now tA ->
  (forall pkt, not_due cA now' (after_packet now pkt oA)) ->
  belongs (u32 (src m)) c (shore s) -> dest m = sh_modem_id (sh_cfg (shore s)) ->
  data_frame m -> no_shore_control m -> no_control_line crc32 (ir_ack (carried m)) ->
  exists line pkt sA1 sA2 s' ack,
    (send crc32 now m;; ir_do_work crc32 slotsA (MkIrTick now true [] [])) sA
      = (sA1, [IrLine (WriteLine (line ++ [13]))], Ok tt) /\
    handle_rudics crc32 slots now (RLine c line) s = (s', [RudicsWrite c pkt; ShoreReceive (carried m)], Ok tt) /\
    belongs (u32 (src m)) c (shore s') /\
    ir_do_work crc32 slotsA (MkIrTick now' true [pkt] []) sA1 = (sA2, [IrReceive ack], Ok tt) /\
    type ack = ACK /\ src ack = dest m /\ dest ack = src m /\ mt_acked_frame ack = [frame_start m].
Proof.
  intros NA Ht CA DA RA GA DA' Hb Hdest Hm Hs Hl. pose proof Hm as (Hsend & Hr & Hty & Ha & _).
  pose proof (ack_sendable m Hm) as Hack. pose proof (acked_carried m Hm) as Hacked.
  assert (Es : exists sA0, send crc32 now m sA = (sA0, [], Ok tt) /\ calling cA tA oA [m] [] (drv sA0)).
  { destruct CA as (Ec & Em & Emach & Ed & Eg). unfold send. rewrite pbind_ird, Hr. cbn.
    eexists. split; [reflexivity|]. unfold calling. cbn. by rewrite Emach. }
  destruct Es as (sA0 & Es & CA0). rewrite (pbind_quiet _ _ _ _ _ Es).
  destruct (do_work_sends crc32 crc32_range slotsA cA now tA oA m sA0 NA CA0 DA RA GA Hsend) as (pktA & sA1 & PA & EA & CA1).
  destruct (packet_delimited m pktA PA) as (line & ->). destruct (Hs _ PA) as [Hg Hbye].
  destruct (packet_roundtrip crc32 crc32_range _ Hack) as (bs & Ebs & _).
  assert (Hk : packet crc32 (ir_ack (carried m)) = Ok (serialize_rudics_packet crc32 bs default_reserved true))
    by (unfold packet; by rewrite Ebs).
  set (pkt := serialize_rudics_packet crc32 bs default_reserved true) in *.
  destruct (line_acknowledged now c (carried m) pkt (line ++ [13]) s Ht Hb Hg Hbye (packet_parsed m _ Hsend PA) Hty Ha Hdest Hk)
    as (s' & Es' & Hc' & Ho').
  destruct (do_work_reads crc32 crc32_range slotsA cA now' tA _ (ir_ack (carried m)) pkt sA1 NA CA1 (DA' _) Hack
    (proj1 (packet_is _ _) Hk) Hl Hr) as (sA2 & EA2 & CA2).
  rewrite (tx_nothing crc32 cA now' tA _ [] sA2) in EA2 by exact CA2.
  exists line, pkt, sA1, sA2, s', (carried (ir_ack (carried m))).
  split; [done|]. split; [exact Es'|]. split; [by right|]. split; [exact EA2|].
  split; [done|]. split; [done|]. split; [done|].
  unfold carried at 1. cbn [mt_acked_frame]. change (mt_acked_frame (ir_ack (carried m))) with (acked_frames (carried m)).
  by rewrite Hacked.
Qed.

End Exchange.

(** ** A message that cannot be decoded

    The exception of the codec leaves the loop over the connections before the
    connection is erased, and a connection whose message is complete does not
    time out. *)

Section Poison.
Context {HC : IridiumHeaderCodec}.
Variable (crc32 : bytes -> Z).
Context {W : Type} (slots : ShoreSlots W).

(** the first connection holds a complete message in a good packet, whose header cannot be decoded *)
Definition poisoned (d : IridiumShoreDriver) : Prop :=
  exists c conn rest, sbd_connections d = (c, conn) :: rest /\ mo_data_ready (message conn) = true /\
    parse_packet crc32 (default [] (pl_payload (rd_body (message conn)))) = Err CodecException.

(** rounds of [do_work]; an exception does not end them *)
Fixpoint rounds (ticks : list ShoreTick) (s : ShoreState W) : list (result Exn unit) * ShoreState W :=
  match ticks with
  | [] => ([], s)
  | t :: ticks =>
      let '(s1, _, r) := shore_do_work crc32 slots t s in
      let '(rs, s2) := rounds ticks s1 in (r :: rs, s2)
  end.

Lemma poisoned_receive now s : poisoned (shore s) -> receive_sbd_mo crc32 slots now [] s = (s, [], Err CodecException).
Proof.
  intros (c & conn & rest & Hc & Hr & Hp). unfold receive_sbd_mo. cbn [pfor].
  rewrite (pbind_quiet _ _ s s tt) by reflexivity. rewrite pbind_srd, Hc. cbn [pfor fst snd].
  erewrite pbind_err; [reflexivity|]. unfold sbd_connection_work. rewrite Hr, Hp.
  by erewrite pbind_err.
Qed.

(** A short burst message in a good packet whose header cannot be decoded, on the first of the
    connections and with no calls: every following round in which nothing else arrives throws, and
    changes nothing. The exception skips the removal of the connection, and a connection with a
    complete message does not time out. *)
Lemma undecodable_message_blocks (times : list double) (s : ShoreState W) :
  poisoned (shore s) -> remote (shore s) = [] ->
  rounds (map (fun t => MkShoreTick t [] []) times) s = (map (fun _ => Err CodecException) times, s).
Proof.
  intros Hp Hr. induction times as [|t times IH]; [done|]. cbn [map rounds].
  assert (E : shore_do_work crc32 slots (MkShoreTick t [] []) s = (s, [], Err CodecException)).
  { unfold shore_do_work. cbn [st_now st_rudics st_sbd]. rewrite pbind_srd, Hr. cbn [pfor]. rewrite !pbind_ret.
    by apply poisoned_receive. }
  by rewrite E, IH.
Qed.

End Poison.

(** ** The clients stay one-to-one *)

Section Clients.
Context {HC : IridiumHeaderCodec}.
Variable (crc32 : bytes -> Z).
Context {W : Type} (slots : ShoreSlots W).
Implicit Types (s : ShoreState W) (d : IridiumShoreDriver).

(** each node has one connection, each connection one node, and each client is a node *)
Definition one_to_one d : Prop :=
  StronglySorted Z.lt (map fst (clients d)) /\ NoDup (map snd (clients d)) /\
  forall id, id ∈ map fst (clients d) -> is_Some (al_lookup id (remote d)).

Definition clients_ok s : Prop := one_to_one (shore s).

Lemma client_of_none c d : client_of c d = None -> c ∉ map snd (clients d).
Proof.
  unfold client_of. intros H Hin. apply list_elem_of_fmap in Hin as ([i x] & -> & Hin).
  destruct (List.find _ _) eqn:E; [done|]. eapply List.find_none in E; [|by apply list_elem_of_In].
  cbn in E. by rewrite Z.eqb_refl in E.
Qed.

Lemma client_of_some c d id : client_of c d = Some id -> (id, c) ∈ clients d.
Proof.
  unfold client_of. destruct (List.find _ _) as [[i x]|] eqn:E; [|done]. intros [= <-].
  apply List.find_some in E as [Hin Hx]. cbn in Hx. apply Z.eqb_eq in Hx. subst. by apply list_elem_of_In.
Qed.

(** changes that leave the clients and keep the nodes *)
Lemma keeps_supd_nodes f :
  (forall d, clients (f d) = clients d /\ forall id, is_Some (al_lookup id (remote d)) -> is_Some (al_lookup id (remote (f d)))) ->
  keeps clients_ok (supd (W := W) f).
Proof.
  intros H s (Hs & Hn & Hr). cbn. unfold clients_ok, one_to_one. cbn [shore]. destruct (H (shore s)) as [-> Hl]. auto.
Qed.

Lemma keeps_srd {A} (f : IridiumShoreDriver -> A) : keeps clients_ok (srd (W := W) f).
Proof. by intros s. Qed.
Lemma keeps_in_world {A} (f : W -> W * A) : keeps clients_ok (in_world f).
Proof. intros s Hs. unfold in_world. by destruct (f (sh_world s)). Qed.

Lemma keeps_set_call id o : keeps clients_ok (set_call (W := W) id o).
Proof.
  apply keeps_supd_nodes. intros d. split; [done|]. intros i Hi. cbn. rewrite al_lookup_insert.
  destruct (i =? id); [by eexists | done].
Qed.

Lemma keeps_touch id : keeps clients_ok (touch (W := W) id).
Proof.
  apply keeps_supd_nodes. intros d. split; [done|]. intros i [o Hi]. cbn. rewrite al_insert_new_lookup, Hi. by eexists.
Qed.


#[local] Hint Resolve keeps_srd keeps_in_world keeps_set_call keeps_touch : prog.

Ltac shore_step :=
  keeps_all; try (apply keeps_supd_nodes; intros ?; split; [done | by intros]).

Lemma keeps_on_call_of id f : keeps clients_ok (on_call_of (W := W) id f).
Proof. unfold on_call_of. shore_step. Qed.
Lemma keeps_sh_call_slot {A} (f : W -> W * option A) : keeps clients_ok (sh_call_slot f).
Proof. unfold sh_call_slot. shore_step. Qed.
#[local] Hint Resolve keeps_on_call_of keeps_sh_call_slot : prog.

Lemma keeps_rudics_send data id : keeps clients_ok (rudics_send (W := W) data id).
Proof. unfold rudics_send. shore_step. Qed.
Lemma keeps_send_sbd_mt bs imei : keeps clients_ok (send_sbd_mt slots bs imei).
Proof. unfold send_sbd_mt. shore_step. Qed.
#[local] Hint Resolve keeps_rudics_send keeps_send_sbd_mt : prog.

Lemma keeps_shore_send now msg : keeps clients_ok (shore_send crc32 slots now msg).
Proof. unfold shore_send. shore_step. Qed.
#[local] Hint Resolve keeps_shore_send : prog.

Lemma keeps_process_transmission now msg : keeps clients_ok (shore_process_transmission crc32 slots now msg).
Proof. unfold shore_process_transmission. shore_step. Qed.
Lemma keeps_shore_receive now msg : keeps clients_ok (shore_receive crc32 slots now msg).
Proof. unfold shore_receive. shore_step. Qed.
#[local] Hint Resolve keeps_process_transmission keeps_shore_receive : prog.

Lemma keeps_close c : keeps clients_ok (close (W := W) c).
Proof. unfold close. shore_step. Qed.
#[local] Hint Resolve keeps_close : prog.

Lemma keeps_work_remote now id : keeps clients_ok (work_remote crc32 slots now id).
Proof. unfold work_remote. shore_step. Qed.

Lemma keeps_add_packet_failure c : keeps clients_ok (add_packet_failure (W := W) c).
Proof. unfold add_packet_failure. shore_step. Qed.
#[local] Hint Resolve keeps_work_remote keeps_add_packet_failure : prog.

Lemma sublist_map {A C} (f : A -> C) l l' : sublist l l' -> sublist (map f l) (map f l').
Proof. induction 1; cbn; by constructor. Qed.

Lemma sorted_sublist (l l' : list Z) : sublist l l' -> StronglySorted Z.lt l' -> StronglySorted Z.lt l.
Proof.
  induction 1 as [|x l l' Hl IH|x l l' Hl IH]; intros S; [done| |]; inversion_clear S as [|? ? S' F]; [|auto].
  constructor; [auto|]. rewrite Forall_forall in *. intros i Hi. apply F.
  eapply elem_of_submseteq; [exact Hi | by apply sublist_submseteq].
Qed.

Lemma erase_ok c id d :
  one_to_one d -> (id, c) ∈ clients d ->
  one_to_one (set_clients (al_erase id (clients d)) d) /\ c ∉ map snd (al_erase id (clients d)).
Proof.
  intros (Hs & Hn & Hr) Hin. unfold al_erase. set (p := fun e : Z * Z => fst e =? id).
  assert (Hf : List.find p (clients d) = Some (id, c)).
  { apply al_sorted_lookup in Hin; [|done]. clear - Hin. unfold p. induction (clients d) as [|[k v] l IH]; [done|].
    cbn in *. rewrite Z.eqb_sym. destruct (id =? k) eqn:E; [|auto]. to_prop. by simplify_eq. }
  pose proof (remove_first_perm p _ _ Hf) as P. pose proof (fmap_Permutation snd _ _ P) as P2.
  change (NoDup (snd <$> clients d)) in Hn. rewrite P2 in Hn. apply NoDup_cons in Hn as [Hc Hn].
  split; [|exact Hc]. split; [|split].
  - cbn. eapply sorted_sublist; [|exact Hs]. apply (sublist_map fst), remove_first_sublist.
  - exact Hn.
  - intros i Hi. apply Hr. eapply elem_of_submseteq; [exact Hi|]. apply sublist_submseteq.
    apply (sublist_map fst), remove_first_sublist.
Qed.

Lemma keeps_disconnect c : keeps clients_ok (disconnect_signal (W := W) c).
Proof.
  unfold disconnect_signal. apply keeps_bind; [shore_step | intros _]. intros s Hs. unfold rudics_disconnect. rewrite pbind_srd.
  destruct (client_of c (shore s)) as [id|] eqn:E; [|done]. apply client_of_some in E.
  pose proof (keeps_set_call id None s Hs) as H1. unfold set_call in *. rewrite pbind_supd. cbn in H1 |- *.
  exact (proj1 (erase_ok c id _ H1 E)).
Qed.

Lemma keeps_enter now id c :
  keeps clients_ok (supd (W := W) (insert_client id c);; set_call id (Some (new_call now))).
Proof.
  intros s (Hs & Hn & Hr). rewrite pbind_supd. cbn. unfold clients_ok, one_to_one. cbn [shore set_remote clients remote].
  unfold insert_client. destruct (al_lookup id (clients (shore s))) eqn:El; [|destruct (client_of c (shore s)) eqn:Ec].
  1, 2: split; [done|]; split; [done|]; intros i Hi; rewrite al_lookup_insert; destruct (i =? id); [by eexists | auto].
  apply client_of_none in Ec. cbn [set_clients clients remote]. split; [by apply al_insert_sorted|]. split.
  - assert (P : al_insert id c (clients (shore s)) ≡ₚ (id, c) :: clients (shore s)).
    { clear - El. induction (clients (shore s)) as [|[k v] l IH]; [done|]. cbn in *. destruct (id =? k); [done|].
      destruct (id <? k); [done|]. rewrite IH by done. apply Permutation_swap. }
    rewrite (fmap_Permutation snd _ _ P). by apply NoDup_cons.
  - intros i Hi. rewrite al_lookup_insert. destruct (i =? id) eqn:E; [by eexists|]. apply Hr.
    apply al_lookup_key in Hi. rewrite al_lookup_insert, E in Hi. by apply al_lookup_key.
Qed.

#[local] Hint Resolve keeps_disconnect keeps_enter : prog.

Lemma keeps_rudics_line now data c : keeps clients_ok (rudics_line crc32 slots now data c).
Proof.
  unfold rudics_line. apply keeps_catch; [|intros x k Hk; destruct x; simplify_eq; auto with prog].
  destruct (is_goby_line data); [keeps_all|]. destruct (bool_decide _); [keeps_all|].
  apply keeps_bind; [keeps_all | intros m]. cbv zeta. apply keeps_bind; [keeps_all | intros known].
  apply keeps_bind; [apply keeps_when, keeps_enter | intros _]. keeps_all.
Qed.
#[local] Hint Resolve keeps_rudics_line : prog.

Lemma keeps_handle_rudics now io : keeps clients_ok (handle_rudics crc32 slots now io).
Proof. unfold handle_rudics. shore_step. Qed.
Lemma keeps_on_reader c m : keeps clients_ok (on_reader (W := W) c m).
Proof. unfold on_reader. shore_step. Qed.
Lemma keeps_start_accept next : keeps clients_ok (start_accept (W := W) next).
Proof. unfold start_accept. shore_step. Qed.
#[local] Hint Resolve keeps_handle_rudics keeps_on_reader keeps_start_accept : prog.

Lemma keeps_handle_sbd now io : keeps clients_ok (handle_sbd (W := W) now io).
Proof. unfold handle_sbd. shore_step. Qed.
#[local] Hint Resolve keeps_handle_sbd : prog.

Lemma keeps_connection_work now c conn : keeps clients_ok (sbd_connection_work crc32 slots now c conn).
Proof.
  unfold sbd_connection_work, erase_sbd. shore_step. apply keeps_catch; [shore_step|].
  intros x k Hk. destruct x; simplify_eq; apply keeps_ret.
Qed.
#[local] Hint Resolve keeps_connection_work : prog.

Lemma keeps_receive_sbd_mo now io : keeps clients_ok (receive_sbd_mo crc32 slots now io).
Proof.
  unfold receive_sbd_mo. shore_step. apply keeps_catch; [shore_step|]. intros x k Hk. case_match; simplify_eq; apply keeps_ret.
Qed.
#[local] Hint Resolve keeps_receive_sbd_mo : prog.

Lemma keeps_shore_do_work t : keeps clients_ok (shore_do_work crc32 slots t).
Proof. unfold shore_do_work. shore_step. Qed.

Lemma keeps_shore_startup cfg next : keeps clients_ok (shore_startup (W := W) cfg next).
Proof. unfold shore_startup. shore_step. Qed.

(** the calls of the driver, from its construction on *)
Inductive shore_reachable : ShoreState W -> Prop :=
| sr_new cfg w : shore_reachable (MkShoreState (new_shore_driver cfg) w)
| sr_startup s cfg next : shore_reachable s -> shore_reachable (shore_startup cfg next s).1.1
| sr_do_work s t : shore_reachable s -> shore_reachable (shore_do_work crc32 slots t s).1.1
| sr_initiate s now m : shore_reachable s -> shore_reachable (shore_handle_initiate_transmission crc32 slots now m s).1.1.

Lemma keeps_state {A} (m : prog (ShoreState W) ShoreEvent Exn A) s : keeps clients_ok m -> clients_ok s -> clients_ok (m s).1.1.
Proof. intros K H. specialize (K s H). by destruct (m s) as [[s' ev] [a|x]]. Qed.

(** C34: In every state the shore driver can reach, its table of clients is one-to-one between modem
    ids and connections, and every client is a remote node; after the disconnection of a connection
    no client is left on it. *)
Theorem shore_clients_one_to_one s c :
  shore_reachable s ->
  one_to_one (shore s) /\ c ∉ map snd (clients (shore (handle_rudics crc32 slots (double_of_Z 0) (RReadError c) s).1.1)).
Proof.
  intros H. assert (Hi : clients_ok s).
  { induction H as [cfg w|s cfg next _ IH|s t _ IH|s now m _ IH]; [|apply keeps_state; [|done]..].
    - split; [constructor|]. split; [constructor|]. intros id Hid. inversion Hid.
    - apply keeps_shore_startup.
    - apply keeps_shore_do_work.
    - apply keeps_process_transmission. }
  split; [exact Hi|]. cbn [handle_rudics]. unfold disconnect_signal, rudics_disconnect. rewrite pbind_supd, pbind_srd. cbn [shore].
  destruct (client_of c _) as [id|] eqn:E.
  - apply client_of_some in E. unfold set_call. rewrite pbind_supd. cbn. exact (proj2 (erase_ok c id _ Hi E)).
  - by apply client_of_none in E.
Qed.

End Clients.

Module ShoreWitness.
#[local] Existing Instances NmeaWitness.trim Sample.text Reader.cast IridiumWitness.codec IridiumWitness.codec_laws.

Definition slots : ShoreSlots unit :=
  {| sh_modify := fun m w => (w, Some m);
     sh_data_request := fun m w => (w, Some m);
     sh_receive := fun _ w => (w, Some tt);
     gateway_connect := fun w => (w, true);
     gateway_answer := fun _ w => (w, Some []) |}.

Definition config (id : Z) : ShoreConfig := MkShoreConfig id 1500 2400 5 30 40000 40001 [(3, B "300234010753370")].

Definition at_time (z : Z) : double := double_of_Z z.

(** a shore driver that has accepted connection 7 *)
Definition started : ShoreState unit :=
  (shore_do_work crc_sum slots (MkShoreTick (at_time 1000) [RAccept 7 true] [])
    (shore_startup (config 2) 100 (MkShoreState (new_shore_driver (config 2)) tt)).1.1).1.1.

Lemma started_reachable : shore_reachable crc_sum slots started.
Proof. apply sr_do_work, sr_startup, sr_new. Qed.

Definition msg : ModemTransmission := IridiumWitness.data_message.

Lemma msg_shore_line : no_shore_control crc_sum msg.
Proof.
  intros pkt (bs & E & ->). vm_compute in E. injection E as <-. split; [vm_compute; reflexivity|].
  intros H. vm_compute in H. discriminate H.
Qed.

Lemma shore_call_exchange_witness :
  exists line pkt sA1 sA2 s' ack,
    (send crc_sum (at_time 1001) msg;; ir_do_work crc_sum CallWitness.slots (MkIrTick (at_time 1001) true [] [])) (CallWitness.node 1)
      = (sA1, [IrLine (WriteLine (line ++ [13]))], Ok tt) /\
    handle_rudics crc_sum slots (at_time 1001) (RLine 7 line) started = (s', [RudicsWrite 7 pkt; ShoreReceive (carried msg)], Ok tt) /\
    belongs (u32 (src msg)) 7 (shore s') /\
    ir_do_work crc_sum CallWitness.slots (MkIrTick (at_time 1002) true [pkt] []) sA1 = (sA2, [IrReceive ack], Ok tt) /\
    type ack = ACK /\ src ack = dest msg /\ dest ack = src msg /\ mt_acked_frame ack = [frame_start msg].
Proof.
  apply (shore_call_exchange crc_sum IridiumWitness.crc_sum_range CallWitness.slots slots (CallWitness.config 1)
    (at_time 1001) (at_time 1002) (at_time 0) CallWitness.call0 (CallWitness.node 1) 7 started msg);
    try apply CallWitness.slots_no_data; try apply CallWitness.msg_data_frame; try apply msg_shore_line; try apply CallWitness.ack_line;
    try (vm_compute; reflexivity); try (split; vm_compute; reflexivity); try (repeat split; vm_compute; reflexivity).
  - intros m w. by exists w.
  - left. split; vm_compute; reflexivity.
Defined.

Lemma shore_clients_one_to_one_witness :
  let s := (shore_do_work crc_sum slots (MkShoreTick (at_time 1001) [RLine 7 (removelast IridiumWitness.data_packet)] []) started).1.1 in
  clients (shore s) = [(1, 7)] /\
  one_to_one (shore s) /\ 7 ∉ map snd (clients (shore (handle_rudics crc_sum slots (double_of_Z 0) (RReadError 7) s).1.1)).
Proof.
  split; [vm_compute; reflexivity|].
  apply (shore_clients_one_to_one crc_sum slots _ 7). apply sr_do_work, started_reachable.
Defined.

(** a message with an empty packet *)
Definition empty_packet : bytes := serialize_rudics_packet crc_sum [] default_reserved true.
Definition poison : ShoreState unit :=
  MkShoreState (set_sbd_connections
    [(100, MkSbdConnection (at_time 1000)
      (DirectIpWitness.run [mo_message 1 [HeaderIE 5 (B "300234010753370") 0 1 0 0; PayloadIE empty_packet]]).1.1)]
    (new_shore_driver (config 2))) tt.

Example undecodable_message_blocks_witness :
  poisoned crc_sum (shore poison) /\
  rounds crc_sum slots (map (fun t => MkShoreTick t [] []) [at_time 1001; at_time 2000]) poison
    = ([Err CodecException; Err CodecException], poison).
Proof.
  assert (H : poisoned crc_sum (shore poison)) by (eexists _, _, _; split; [reflexivity|]; split; vm_compute; reflexivity).
  split; [exact H|]. apply (undecodable_message_blocks crc_sum slots [at_time 1001; at_time 2000] poison); [exact H | reflexivity].
Qed.

(** a transmission at the rate of a call to a node without one *)
Example send_without_call :
  (shore_handle_initiate_transmission crc_sum slots (at_time 1001)
    (set_mt_dest (Some 4) (set_mt_rate (Some RATE_RUDICS) msg)) started).2 = Err UndefinedBehaviour.
Proof. vm_compute. reflexivity. Qed.

(** a node with an identity is sent a short burst message *)
Example send_sbd_to_mobile :
  exists m, (shore_handle_initiate_transmission crc_sum slots (at_time 1001)
    (set_mt_dest (Some 3) (set_mt_rate (Some RATE_SBD) msg)) started).1.2 = [SbdSend m].
Proof. eexists. vm_compute. reflexivity. Qed.

(** three bad packets close the connection, and a fourth one that is still read throws *)
Example bad_packets_close :
  let '(s, ev, r) := shore_do_work crc_sum slots (MkShoreTick (at_time 1001) (repeat (RLine 7 (B "xyz")) 3) []) started in
  ev = [RudicsClose 7] /\ r = Ok tt /\
  (shore_do_work crc_sum slots (MkShoreTick (at_time 1002) [RLine 7 (B "xyz")] []) s).2 = Err SystemError.
Proof. vm_compute. done. Qed.

(** an accepted connection whose remote end has gone stops the server from accepting *)
Example lost_endpoint_stops_server :
  let '(s, ev, r) := shore_do_work crc_sum slots (MkShoreTick (at_time 1001) [RAccept 8 false] []) started in
  r = Err SystemError /\
  rudics_set (shore (shore_do_work crc_sum slots (MkShoreTick (at_time 1002) [RAccept 9 true] []) s).1.1) = [8; 7].
Proof. vm_compute. done. Qed.

End ShoreWitness.
