(* ===== verification/Benthos.v ===== *)
(** * acomms/modemdriver/benthos_atm900_driver.h, benthos_atm900_driver_fsm.{h,cpp}:
      the link of the Benthos ATM-900 acoustic modem

    The messages on the link and the state machine of the driver. The machine
    follows the state chart: [Active] holds [Command] or [Online], each with a
    state of its own; [ReceiveData] stands beside it and returns by deep
    history. An event goes to the innermost state with a reaction; a transition
    destroys the states it leaves and constructs those it enters, and so does
    the return by history, which constructs the state that [Active] was left
    from (documented behaviour of Boost.Statechart). Posted events are processed
    in order. The DCCL codec of the header, [boost]'s text conversions and the
    calendar fields of a time are interfaces. *)

From Stdlib Require Import SpecFloat.
From S2P Require Import Prelude HexCodec Double Time As Proto BaseConvert Rudics Nmea DriverBase.

(** ** Messages on the link *)

Record BenthosHeader : Type := MkBHeader {
  bh_type : TransmissionType;
  bh_ack_requested : option bool;
  bh_acked_frame : list Z
}.

(** [None] is a [dccl::Exception]; decoding removes what it reads *)
Class BenthosHeaderCodec : Type := {
  bheader_encode : BenthosHeader -> option bytes;
  bheader_decode : bytes -> option (BenthosHeader * bytes)
}.

(** the bounds of the fields (benthos_atm900.proto) *)
Definition bheader_in_bounds (h : BenthosHeader) : bool :=
  (length (bh_acked_frame h) <=? 8)%nat && forallb (fun f => (0 <=? f) && (f <=? 7)) (bh_acked_frame h).

(** Documented behaviour of DCCL: a message within its bounds is encoded as
    bytes and decoded again, whatever follows it. *)
Class BenthosHeaderLaws `{BenthosHeaderCodec} : Prop := {
  bheader_encode_total : forall h, bheader_in_bounds h = true -> exists b, bheader_encode h = Some b /\ wf_bytes b;
  bheader_decode_encode : forall h b rest, bheader_in_bounds h = true ->
    bheader_encode h = Some b -> bheader_decode (b ++ rest) = Some (h, rest)
}.

(** [boost::split] with [token_compress_on]: adjacent delimiters are one *)
Fixpoint split_compress (p : Z -> bool) (after_delimiter : bool) (s : bytes) : list bytes :=
  match s with
  | [] => [[]]
  | c :: s =>
      if p c then (if after_delimiter then split_compress p true s else [] :: split_compress p true s)
      else match split_compress p false s with
           | piece :: rest => (c :: piece) :: rest
           | [] => [[c]]
           end
  end.

Definition split_text (p : Z -> bool) (s : bytes) : list bytes := split_compress p false s.

(** [boost::trim_left_if] *)
Fixpoint trim_left_if (p : Z -> bool) (s : bytes) : bytes :=
  match s with c :: s' => if p c then trim_left_if p s' else s | [] => [] end.

(** [boost::erase_all(s, " ")] *)
Definition erase_spaces (s : bytes) : bytes := List.filter (fun c => negb (c =? 32)) s.

(** the frames up to the first empty one *)
Fixpoint leading_frames (fs : list bytes) : list bytes :=
  match fs with f :: fs => match f with [] => [] | _ => f :: leading_frames fs end | [] => [] end.

(** what leaves a reaction or a message function as an exception *)
Inductive benthos_exception : Type :=
| BOutOfRange | BBadCast | BPacket (e : RudicsPacketException) | BCodec | BRuntime.

Definition of_option {A E : Type} (x : E) (o : option A) : result E A := match o with Some a => Ok a | None => Err x end.

(** [%0wd] of [boost::format] *)
Definition format_0d (w : nat) (z : Z) : bytes :=
  let t := as_string (Z.abs z) in
  let sign := if z <? 0 then B "-" else [] in
  sign ++ repeat 48 (w - length (sign ++ t)) ++ t.

(** the date and the time of day of a [ptime] *)
Record ClockFields : Type := MkClock { cl_year : Z; cl_month : Z; cl_day : Z; cl_hours : Z; cl_minutes : Z; cl_seconds : Z }.

Definition date_command (c : ClockFields) : bytes :=
  B "date " ++ (B "-t" ++ format_0d 2 (cl_hours c) ++ B ":" ++ format_0d 2 (cl_minutes c) ++ B ":" ++ format_0d 2 (cl_seconds c))
  ++ B " " ++ (B "-d" ++ format_0d 2 (cl_month c) ++ B "/" ++ format_0d 2 (cl_day c) ++ B "/" ++ format_0d 4 (cl_year c)).

(** ** Received messages *)

Inductive CRCState : Type := CRC_PASS | CRC_FAIL.

(** [float] and the units of the statistics *)
Class StatValues : Type := {
  statf : Type;
  lexical_cast_float : bytes -> option statf;
  milliseconds : statf -> statf;
  knots : statf -> statf;
  float_to_int : statf -> Z;
  half_milliseconds : double -> double   (* half of a time in milliseconds, in seconds *)
}.

Section Messages.
Context {SV : StatValues}.

Record ReceiveStatistics : Type := MkStat {
  crc : option CRCState;
  multipath_delay : option statf;
  snr : option statf;
  relative_speed : option statf;
  auto_gain_control : option statf;
  corrected_channel_error : option Z
}.

Definition empty_stat : ReceiveStatistics := MkStat None None None None None None.

(** a transmission with the extensions of the driver *)
Record BMsg : Type := MkBMsg {
  b_msg : ModemTransmission;
  two_way_ping : bool;
  receive_stat : option ReceiveStatistics;
  one_way_travel_time : option double
}.

Definition empty_bmsg : BMsg := MkBMsg empty_transmission false None None.
Definition set_b_msg (m : ModemTransmission) (b : BMsg) : BMsg :=
  MkBMsg m (two_way_ping b) (receive_stat b) (one_way_travel_time b).
Definition set_b_stat (st : ReceiveStatistics) (b : BMsg) : BMsg :=
  MkBMsg (b_msg b) (two_way_ping b) (Some st) (one_way_travel_time b).

(** an absent value of the enumeration reads as its first constant *)
Definition get_crc (b : BMsg) : CRCState :=
  default CRC_PASS (match receive_stat b with Some st => crc st | None => None end).

(** ** Events and data of the machine *)

Inductive Event : Type :=
| EvRxSerial (line : bytes)
| EvTxSerial
| EvAck (response : bytes)
| EvAtEmpty
| EvReset
| EvDial (dest rate : Z)
| EvRange (dest : Z)
| EvRequestLowPower
| EvLowPower
| EvConnect
| EvNoCarrier
| EvTransmit
| EvTransmitBegun
| EvReceive (first : bytes)
| EvReceiveComplete
| EvShellPrompt
| EvRangingComplete.

Record BFsm : Type := MkBFsm {
  serial_tx_buffer : list bytes;
  received : list BMsg;
  data_out : list ModemTransmission
}.

Definition SERIAL_BUFFER_CAPACITY : nat := 10.
Definition RECEIVED_BUFFER_CAPACITY : nat := 10.
Definition DATA_BUFFER_CAPACITY : nat := 5.
Definition AT_BUFFER_CAPACITY : nat := 100.
Definition COMMAND_TIMEOUT_SECONDS : Z := 2.
Definition RETRIES_BEFORE_RESET : Z := 10.
Definition BENTHOS_BROADCAST_ID : Z := 255.
Definition DEFAULT_RATE : Z := 2.
Definition RATE_MIN : Z := 2.
Definition RATE_MAX : Z := 13.

Definition push_serial (line : bytes) (f : BFsm) : BFsm :=
  MkBFsm (circular_push SERIAL_BUFFER_CAPACITY line (serial_tx_buffer f)) (received f) (data_out f).
Definition push_received (m : BMsg) (f : BFsm) : BFsm :=
  MkBFsm (serial_tx_buffer f) (circular_push RECEIVED_BUFFER_CAPACITY m (received f)) (data_out f).
Definition buffer_data_out (m : ModemTransmission) (f : BFsm) : BFsm :=
  MkBFsm (serial_tx_buffer f) (received f) (circular_push DATA_BUFFER_CAPACITY m (data_out f)).

Record ATSentenceMeta : Type := MkAT { last_send_time : double; tries : Z }.
Definition new_meta : ATSentenceMeta := MkAT (double_of_Z 0) 0.

(** [at_out_] of [Command] *)
Definition AtOut : Type := list (ATSentenceMeta * bytes).

Definition push_clam_command (cmd : bytes) (q : AtOut) : AtOut := circular_push AT_BUFFER_CAPACITY (new_meta, cmd) q.
Definition push_at_command (cmd : bytes) (q : AtOut) : AtOut :=
  push_clam_command (if bool_decide (cmd = B "+++") then cmd else B "AT" ++ cmd) q.
Definition push_clam_commands (cmds : list bytes) (q : AtOut) : AtOut := fold_left (fun q c => push_clam_command c q) cmds q.

Inductive CommandState : Type := Configure | SetClock | Ready | Dial (dest rate : Z) | LowPower | Range (dest : Z).
Inductive OnlineState : Type := Listen | TransmitData.

Record ReceiveData : Type := MkReceive { rx_msg : BMsg; reported_size : Z; encoded_bytes : bytes }.

(** the innermost state, which the history of [Active] names *)
Inductive Leaf : Type :=
| LConfigure | LSetClock | LReady | LDial | LLowPower | LRange | LListen | LTransmitData.

(** [NoState]: not initiated, or terminated by an exception *)
Inductive State : Type :=
| InCommand (q : AtOut) (st : CommandState)
| InOnline (st : OnlineState)
| InReceive (r : ReceiveData)
| NoState.

Record Machine : Type := MkMachine { fsm : BFsm; state : State; history : option Leaf }.

Record BenthosConfig : Type := MkBenthosConfig {
  factory_reset : bool;
  config_load : option bytes;
  config : list bytes;
  bc_modem_id : Z
}.

Definition leaf_of_command (st : CommandState) : Leaf :=
  match st with
  | Configure => LConfigure | SetClock => LSetClock | Ready => LReady | Dial _ _ => LDial
  | LowPower => LLowPower | Range _ => LRange
  end.
Definition leaf_of_online (st : OnlineState) : Leaf :=
  match st with Listen => LListen | TransmitData => LTransmitData end.

(** leaving a state of [Active] stores it *)
Definition left_leaf (m : Machine) : option Leaf :=
  match state m with
  | InCommand _ st => Some (leaf_of_command st)
  | InOnline st => Some (leaf_of_online st)
  | _ => history m
  end.

End Messages.

(** ** Messages, serialized *)

Section Serialize.
Context {SV : StatValues} {HC : BenthosHeaderCodec}.
Variable crc32 : bytes -> Z.   (* not used: the packets have no CRC *)

Definition bheader_of (m : ModemTransmission) : BenthosHeader :=
  MkBHeader (type m) (mt_ack_requested m) (mt_acked_frame m).

Definition frame_packet (f : bytes) : bytes := serialize_rudics_packet crc32 f [13] false.

Definition serialize_benthos_modem_message (m : ModemTransmission) : option bytes :=
  match bheader_encode (bheader_of m) with
  | Some out => Some (out ++ concat (map frame_packet (leading_frames (mt_frame m))))
  | None => None
  end.

Fixpoint parse_frames (encoded : list bytes) : result benthos_exception (list bytes) :=
  match encoded with
  | [] => Ok []
  | [] :: rest => parse_frames rest
  | e :: rest =>
      match parse_rudics_packet crc32 (e ++ [13]) [13] false with
      | Err x => Err (BPacket x)
      | Ok f => rbind (parse_frames rest) (fun fs => Ok (f :: fs))
      end
  end.

Definition parse_benthos_modem_message (s : bytes) (m : ModemTransmission) : result benthos_exception ModemTransmission :=
  match bheader_decode s with
  | None => Err BCodec
  | Some (h, rest) =>
      rbind (parse_frames (split_text (Z.eqb 13) rest)) (fun fs =>
      let m := set_mt_type (Some (bh_type h)) m in
      let m := match bh_ack_requested h with Some b => set_mt_ack_requested (Some b) m | None => m end in
      let m := set_mt_acked_frame (mt_acked_frame m ++ bh_acked_frame h) m in
      Ok (set_mt_frame (mt_frame m ++ fs) m))
  end.

End Serialize.

(** ** The state machine *)

Section Machine.
Context {SV : StatValues} {HC : BenthosHeaderCodec} {TR : BoostTrim} {LN : LexicalNumbers}.
Variables (crc32 : bytes -> Z) (cfg : BenthosConfig) (clock : double -> ClockFields).

(** *** Constructors *)

Definition new_command : AtOut := push_clam_command (B "@OpMode=0") (push_at_command (B "+++") []).

Definition configure_commands : list bytes :=
  [B "@P1EchoChar=Dis"] ++ (if factory_reset cfg then [B "factory_reset"] else [])
  ++ (match config_load cfg with Some c => [B "cfg load " ++ c] | None => [] end) ++ config cfg
  ++ [B "@Prompt=7"; B "@Verbose=3"; B "@DataRetry=0"; B "@FwdDelay=0.05"; B "@LocalAddr=" ++ as_string (bc_modem_id cfg);
      B "@PrintHex=Ena"; B "@WakeTones=Ena"; B "@RcvAll=Ena"; B "@ShowBadData=Ena"; B "@OpMode=0"].

(** the destination and the rate of [Dial], from the event that is being processed *)
Definition dial_of (trigger : Event) : Z * Z :=
  match trigger with
  | EvDial dest rate =>
      (if dest =? BROADCAST_ID then BENTHOS_BROADCAST_ID else dest,
       if (RATE_MIN <=? rate) && (rate <=? RATE_MAX) then rate else DEFAULT_RATE)
  | _ => (BENTHOS_BROADCAST_ID, DEFAULT_RATE)
  end.
Definition range_of (trigger : Event) : Z := match trigger with EvRange dest => dest | _ => 0 end.

(** the constructor of a state of [Command] *)
Definition enter_command_state (now : double) (trigger : Event) (l : Leaf) (q : AtOut) : AtOut * CommandState :=
  match l with
  | LConfigure => (push_clam_commands configure_commands (push_at_command [] q), Configure)
  | LSetClock => (push_clam_command (date_command (clock now)) q, SetClock)
  | LDial =>
      let '(dest, rate) := dial_of trigger in
      (push_at_command (B "O") (push_clam_commands [B "@RemoteAddr=" ++ as_string dest; B "@TxRate=" ++ as_string rate] q),
       Dial dest rate)
  | LLowPower => (q, LowPower)
  | LRange => let dest := range_of trigger in (push_at_command (B "R" ++ as_string dest) q, Range dest)
  | _ => (q, Ready)
  end.

(** entering [Command] afresh *)
Definition enter_command (now : double) (trigger : Event) (l : Leaf) : State :=
  let '(q, st) := enter_command_state now trigger l new_command in InCommand q st.

(** [Listen] asks to transmit when there is data *)
Definition listen_posts (f : BFsm) : list Event := match data_out f with [] => [] | _ => [EvTransmit] end.

(** [deep_history<Command>]: the state that [Active] was left from *)
Definition enter_history (now : double) (trigger : Event) (h : option Leaf) (f : BFsm) : State * list Event :=
  match h with
  | Some LListen => (InOnline Listen, listen_posts f)
  | Some LTransmitData => (InOnline TransmitData, [])
  | Some l => (enter_command now trigger l, [])
  | None => (enter_command now trigger LConfigure, [])
  end.

(** the machine when it is initiated *)
Definition initiate (now : double) (f : BFsm) : Machine := MkMachine f (enter_command now EvTxSerial LConfigure) None.

(** *** ReceiveData *)

Definition receive_first (first : bytes) : result benthos_exception ReceiveData :=
  let first := erase_spaces first in
  if (length first <? 11)%nat then Err BRuntime
  else
    rbind (of_option BOutOfRange (substr 5 4 first)) (fun size_str =>
    rbind (of_option BBadCast (lexical_cast_uint (trim_left_if (Z.eqb 48) size_str))) (fun size =>
    rbind (of_option BOutOfRange (substr 11 (length first) first)) (fun rest =>
    Ok (MkReceive empty_bmsg size (hex_decode rest))))).

(** the constructor *)
Definition enter_receive (first : bytes) : ReceiveData * list Event :=
  match receive_first first with
  | Ok r => (r, [])
  | Err _ => (MkReceive empty_bmsg 0 [], [EvReceiveComplete])
  end.

(** an id in "Source:001 Destination:002" *)
Definition parse_id (start : nat) (s : bytes) : result benthos_exception Z :=
  rbind (of_option BOutOfRange (substr start (length s) s)) (fun id_str =>
  let id_str := trim_left_if (Z.eqb 48) id_str in
  let id_str := match id_str with [] => B "0" | _ => id_str end in
  rbind (of_option BBadCast (lexical_cast_uint id_str)) (fun id => Ok (s32 id))).

Definition receive_source (s : bytes) (b : BMsg) : result benthos_exception BMsg :=
  match split_text (Z.eqb 32) s with
  | [src_str; dest_str] =>
      rbind (parse_id 7 src_str) (fun i =>
      rbind (parse_id 12 dest_str) (fun j =>
      Ok (set_b_msg (set_mt_dest (Some j) (set_mt_src (Some i) (b_msg b))) b)))
  | _ => Err BRuntime
  end.

(** one of "CRC:Pass MPD:03.2 SNR:31.3 AGC:91 SPD:+00.0 CCERR:013" *)
Definition receive_one_stat (s : bytes) (st : ReceiveStatistics) : result benthos_exception ReceiveStatistics :=
  match find_text (B ":") s with
  | None => Ok st
  | Some col_pos =>
      let key := take col_pos s in
      let val_str := trim_left_if (fun c => (c =? 43) || (c =? 48)) (boost_trim (drop (col_pos + 1) s)) in
      let val_str := match val_str with [] => B "0" | _ => val_str end in
      let val := of_option BBadCast (lexical_cast_float val_str) in
      if bool_decide (key = B "CRC")
      then Ok (MkStat (Some (if bool_decide (val_str = B "Pass") then CRC_PASS else CRC_FAIL)) (multipath_delay st) (snr st)
                 (relative_speed st) (auto_gain_control st) (corrected_channel_error st))
      else if bool_decide (key = B "MPD")
      then rbind val (fun v => Ok (MkStat (crc st) (Some (milliseconds v)) (snr st) (relative_speed st) (auto_gain_control st) (corrected_channel_error st)))
      else if bool_decide (key = B "SNR")
      then rbind val (fun v => Ok (MkStat (crc st) (multipath_delay st) (Some v) (relative_speed st) (auto_gain_control st) (corrected_channel_error st)))
      else if bool_decide (key = B "AGC")
      then rbind val (fun v => Ok (MkStat (crc st) (multipath_delay st) (snr st) (relative_speed st) (Some v) (corrected_channel_error st)))
      else if bool_decide (key = B "SPD")
      then rbind val (fun v => Ok (MkStat (crc st) (multipath_delay st) (snr st) (Some (knots v)) (auto_gain_control st) (corrected_channel_error st)))
      else if bool_decide (key = B "CCERR")
      then rbind val (fun v => Ok (MkStat (crc st) (multipath_delay st) (snr st) (relative_speed st) (auto_gain_control st) (Some (float_to_int v))))
      else Ok st
  end.

Fixpoint receive_stats (l : list bytes) (st : ReceiveStatistics) : result benthos_exception ReceiveStatistics :=
  match l with
  | [] => Ok st
  | s :: l => rbind (receive_one_stat s st) (receive_stats l)
  end.

(** [ReceiveData::in_state_react(const EvRxSerial&)]; the message that the end
    of the packet completes is in [snd] *)
Definition receive_line (line : bytes) (r : ReceiveData) : result benthos_exception (ReceiveData * option BMsg) :=
  let s := boost_trim line in
  if bool_decide (s = B "<EOP>")
  then
    match get_crc (rx_msg r) with
    | CRC_PASS =>
        rbind (parse_benthos_modem_message crc32 (encoded_bytes r) (b_msg (rx_msg r))) (fun m =>
        Ok (r, Some (set_b_msg m (rx_msg r))))
    | CRC_FAIL => Ok (r, Some (rx_msg r))
    end
  else if Z.of_nat (length (encoded_bytes r)) <? reported_size r
  then Ok (MkReceive (rx_msg r) (reported_size r) (encoded_bytes r ++ hex_decode (erase_spaces s)), None)
  else if starts_with (B "Source") s
  then rbind (receive_source s (rx_msg r)) (fun b => Ok (MkReceive b (reported_size r) (encoded_bytes r), None))
  else if starts_with (B "CRC") s
  then rbind (receive_stats (split_text (Z.eqb 32) s) (default empty_stat (receive_stat (rx_msg r)))) (fun st =>
       Ok (MkReceive (set_b_stat st (rx_msg r)) (reported_size r) (encoded_bytes r), None))
  else Ok (r, None).

(** *** Command *)

Definition command_tx (now : double) (f : BFsm) (q : AtOut) : BFsm * AtOut * list Event :=
  match q with
  | [] => (f, q, [])
  | (meta, cmd) :: rest =>
      if dlt (dadd (last_send_time meta) (double_of_Z COMMAND_TIMEOUT_SECONDS)) now
      then
        let n := tries meta + 1 in
        if RETRIES_BEFORE_RESET <? n then (f, (MkAT (last_send_time meta) n, cmd) :: rest, [EvReset])
        else (push_serial (cmd ++ [13]) f, (MkAT now n, cmd) :: rest, [])
      else (f, q, [])
  end.

(** whether a response to the last command is valid *)
Definition valid_response (last_cmd response : bytes) : bool :=
  let prefix := take 3 last_cmd in
  if bool_decide (response = B "OK") then true
  else if starts_with (B "CONNECT") response && negb (bool_decide (prefix = B "+++")) then true
  else if bool_decide (response = B "Command '+++' not found") && bool_decide (prefix = B "+++") then true
  else if bool_decide (prefix = B "+++") && starts_with (B "user") response then true
  else if bool_decide (prefix = B "ATL") && contains (B "Lowpower") response then true
  else
    match last_cmd with
    | [] => false
    | c :: _ =>
        let eq_pos := find_text (B "=") last_cmd in
        match eq_pos with
        | Some n =>
            (c =? 64) && iequals (take (n - 1) (drop 1 last_cmd)) (take (n - 1) response)
        | None => false
        end
        || (bool_decide (response = B "Configuration stored.") && iequals (take 9 last_cmd) (B "cfg store"))
        || (iequals (take 7 last_cmd) (B "date -t") && contains (take 8 (drop 7 last_cmd)) response)
    end.

Definition command_ack (response : bytes) (q : AtOut) : AtOut * list Event :=
  match q with
  | [] => (q, [])
  | (_, last_cmd) :: rest =>
      let posts_hangup := if bool_decide (response = B "OK") && bool_decide (last_cmd = B "ATH") then [EvNoCarrier] else [] in
      if valid_response last_cmd response
      then
        (rest, posts_hangup
               ++ (if negb (bool_decide (response = B "OK")) && bool_decide (take 3 last_cmd = B "ATL") && contains (B "Lowpower") response
                      && negb (starts_with (B "CONNECT") response)
                   then [EvLowPower] else [])
               ++ (match rest with [] => [EvAtEmpty] | _ => [] end))
      else (q, posts_hangup)
  end.

(** [Active::in_state_react(const EvRxSerial&)] *)
Definition active_rx (line : bytes) : list Event :=
  let s := boost_trim line in
  if starts_with (B "DATA") s then [EvReceive s]
  else if starts_with (B "user:") s
  then EvShellPrompt :: (if contains (B "Lowpower") s then [EvAck s] else [])
  else EvAck s :: (if starts_with (B "CONNECT") s then [EvConnect] else []).

(** *** Range *)

Definition range_reply (s : bytes) : result benthos_exception BMsg :=
  match find_text (B "Range") s, find_text (B ":") s, find_text (B "(Round-trip") s, find_text (B "ms)") s with
  | Some range_pos, Some col_pos, Some rt_start, Some rt_end =>
      let len a b := if (b <? a)%nat then length s else (b - a)%nat in   (* a negative length is to the end *)
      rbind (of_option BOutOfRange (substr (range_pos + 5)%nat (len (range_pos + 5)%nat col_pos) s)) (fun src_to_dest =>
      match split_text (fun c => (c =? 32) || (c =? 116) || (c =? 111)) (boost_trim src_to_dest) with
      | [a; b] =>
          rbind (of_option BBadCast (lexical_cast_uint a)) (fun i =>
          rbind (of_option BBadCast (lexical_cast_uint b)) (fun j =>
          rbind (of_option BOutOfRange (substr (rt_start + 11)%nat (len (rt_start + 11)%nat rt_end) s)) (fun rt_ms =>
          rbind (of_option BBadCast (lexical_cast_double (boost_trim rt_ms))) (fun v =>
          Ok (MkBMsg (set_mt_type (Some DRIVER_SPECIFIC) (set_mt_dest (Some (s32 j)) (set_mt_src (Some (s32 i)) empty_transmission)))
                true None (Some (half_milliseconds v)))))))
      | _ => Err BRuntime
      end)
  | _, _, _, _ => Err BRuntime
  end.

(** [Range::in_state_react(const EvRxSerial&)] *)
Definition range_rx (line : bytes) (f : BFsm) (q : AtOut) : BFsm * AtOut * list Event :=
  let s := boost_trim line in
  let q := match q with
           | (_, last_cmd) :: rest =>
               if bool_decide (take 3 last_cmd = B "ATR") && iequals (take 7 s) (B "TX time") then rest else q
           | [] => q
           end in
  if starts_with (B "Range") s
  then match range_reply s with
       | Ok b => (push_received b f, q, [EvRangingComplete])
       | Err _ => (f, q, [EvRangingComplete])
       end
  else (f, q, []).

(** *** Dispatch *)

Abbreviation reacted := (option (result benthos_exception (Machine * list Event))).

(** a transition between states of [Command] *)
Definition transit_command (now : double) (e : Event) (m : Machine) (q : AtOut) (l : Leaf) : Machine :=
  let '(q, st) := enter_command_state now e l q in MkMachine (fsm m) (InCommand q st) (left_leaf m).

(** a transition that enters [Command] *)
Definition transit_to_command (now : double) (e : Event) (m : Machine) (l : Leaf) : Machine :=
  MkMachine (fsm m) (enter_command now e l) (left_leaf m).

Definition command_state_react (now : double) (m : Machine) (q : AtOut) (st : CommandState) (e : Event) : reacted :=
  match st, e with
  | Configure, EvAtEmpty => Some (Ok (transit_command now e m q LSetClock, []))
  | SetClock, EvAtEmpty => Some (Ok (transit_command now e m q LReady, []))
  | Ready, EvDial _ _ => Some (Ok (transit_command now e m q LDial, []))
  | Ready, EvRange _ => Some (Ok (transit_command now e m q LRange, []))
  | Ready, EvRequestLowPower => Some (Ok (MkMachine (fsm m) (InCommand (push_at_command (B "L") q) st) (history m), []))
  | Ready, EvLowPower => Some (Ok (transit_command now e m q LLowPower, []))
  | Range _, EvRangingComplete => Some (Ok (transit_command now e m q LReady, []))
  | Range _, EvRxSerial line =>
      let '(f, q, ev) := range_rx line (fsm m) q in Some (Ok (MkMachine f (InCommand q st) (history m), ev))
  | _, _ => None
  end.

Definition command_react (now : double) (m : Machine) (q : AtOut) (st : CommandState) (e : Event) : reacted :=
  match e with
  | EvConnect =>
      Some (Ok (match q with
                | (_, cmd) :: _ =>
                    if bool_decide (cmd = B "+++") then (m, [])
                    else (MkMachine (fsm m) (InOnline Listen) (left_leaf m), listen_posts (fsm m))
                | [] => (MkMachine (fsm m) (InOnline Listen) (left_leaf m), listen_posts (fsm m))
                end))
  | EvAck response =>
      let '(q, ev) := command_ack response q in Some (Ok (MkMachine (fsm m) (InCommand q st) (history m), ev))
  | EvTxSerial =>
      let '(f, q, ev) := command_tx now (fsm m) q in Some (Ok (MkMachine f (InCommand q st) (history m), ev))
  | _ => None
  end.

Definition transmit_tx (m : Machine) : result benthos_exception (Machine * list Event) :=
  match data_out (fsm m) with
  | [] => Ok (m, [])
  | msg :: rest =>
      match serialize_benthos_modem_message crc32 msg with
      | None => Err BCodec
      | Some packet =>
          let f := push_serial packet (fsm m) in
          Ok (MkMachine (MkBFsm (serial_tx_buffer f) (received f) rest) (state m) (history m), [])
      end
  end.

Definition online_state_react (now : double) (m : Machine) (st : OnlineState) (e : Event) : reacted :=
  match st, e with
  | Listen, EvTransmit => Some (Ok (MkMachine (fsm m) (InOnline TransmitData) (left_leaf m), []))
  | TransmitData, EvTransmitBegun => Some (Ok (transit_to_command now e m LReady, []))
  | TransmitData, EvTxSerial => Some (transmit_tx m)
  | TransmitData, EvAck response =>
      Some (Ok (m, if starts_with (B "Forwarding Delay Up") response then [EvTransmitBegun] else []))
  | _, _ => None
  end.

(** the states of [Online] are left before the history is read *)
Definition online_react (now : double) (m : Machine) (e : Event) : reacted :=
  match e with
  | EvShellPrompt =>
      let h := left_leaf m in
      let '(st, ev) := enter_history now e h (fsm m) in Some (Ok (MkMachine (fsm m) st h, ev))
  | _ => None
  end.

Definition active_react (now : double) (m : Machine) (e : Event) : reacted :=
  match e with
  | EvReset => Some (Ok (transit_to_command now e m LConfigure, []))
  | EvRxSerial line => Some (Ok (m, active_rx line))
  | EvReceive first =>
      let '(r, ev) := enter_receive first in Some (Ok (MkMachine (fsm m) (InReceive r) (left_leaf m), ev))
  | _ => None
  end.

Definition receive_react (now : double) (m : Machine) (r : ReceiveData) (e : Event) : reacted :=
  match e with
  | EvRxSerial line =>
      Some (Ok (match receive_line line r with
                | Ok (r, None) => (MkMachine (fsm m) (InReceive r) (history m), [])
                | Ok (r, Some b) => (MkMachine (push_received b (fsm m)) (InReceive r) (history m), [EvReceiveComplete])
                | Err _ => (m, [EvReceiveComplete])
                end))
  | EvReceiveComplete =>
      let '(st, ev) := enter_history now e (history m) (fsm m) in Some (Ok (MkMachine (fsm m) st (history m), ev))
  | _ => None
  end.

Definition or_else (a b : reacted) : reacted := match a with Some _ => a | None => b end.

Definition react (now : double) (m : Machine) (e : Event) : result benthos_exception (Machine * list Event) :=
  let reaction :=
    match state m with
    | InCommand q st => or_else (command_state_react now m q st e) (or_else (command_react now m q st e) (active_react now m e))
    | InOnline st => or_else (online_state_react now m st e) (or_else (online_react now m e) (active_react now m e))
    | InReceive r => receive_react now m r e
    | NoState => None
    end in
  match reaction with Some r => r | None => Ok (m, []) end.

Fixpoint process_queue (fuel : nat) (now : double) (m : Machine) (q : list Event) : option (result benthos_exception Machine) :=
  match q with
  | [] => Some (Ok m)
  | e :: q =>
      match fuel with
      | O => None
      | S fuel =>
          match react now m e with
          | Err x => Some (Err x)
          | Ok (m, posted) => process_queue fuel now m (q ++ posted)
          end
      end
  end.

Definition EVENT_FUEL : nat := 6.

Definition process_event (now : double) (m : Machine) (e : Event) : option (result benthos_exception Machine) :=
  process_queue EVENT_FUEL now m [e].

End Machine.
