(* ===== verification/BenthosDriver.v ===== *)
(** * acomms/modemdriver/benthos_atm900_driver.cpp: the driver of the Benthos ATM-900

    The driver around the state machine ([Benthos]): transmissions, the work
    loop, startup and shutdown. A call sees one time; the loops that wait take
    the successive rounds of [do_work] as an argument. *)

From Stdlib Require Import SpecFloat.
From S2P Require Import Prelude Double Time As Proto BaseConvert Rudics Nmea UdpDriver Prog DriverBase Benthos.

#[local] Open Scope prog_scope.

Definition BENTHOS_BAUD : Z := 9600.
Definition BENTHOS_DELIMITER : bytes := [13; 10].

Record BDriverConfig : Type := MkBDriverConfig {
  bd_connection : ConnectionConfig;
  bd_machine : BenthosConfig;
  bd_start_timeout : Z;
  bd_max_frame_size : Z
}.

Section Driver.
Context {SV : StatValues} {HC : BenthosHeaderCodec} {TR : BoostTrim} {LN : LexicalNumbers}.
Variables (crc32 : bytes -> Z) (clock : double -> ClockFields).

Record BenthosATM900Driver : Type := MkBDriver {
  bd_cfg : BDriverConfig;
  bd_base : ModemDriverBase;
  bd_fsm : Machine
}.

Inductive BEvent : Type :=
| BLine (e : DriverEvent)
| BReceive (m : BMsg).

(** what is connected to the signals; [None] is an exception out of the slot *)
Record BSlots (W : Type) : Type := MkBSlots {
  bs_modify : BMsg -> W -> W * option BMsg;
  bs_data_request : BMsg -> W -> W * option BMsg;
  bs_receive : BMsg -> W -> W * option unit
}.
Arguments bs_modify {W}.
Arguments bs_data_request {W}.
Arguments bs_receive {W}.

Record BState (W : Type) : Type := MkBState { bdrv : BenthosATM900Driver; b_world : W }.
Arguments bdrv {W}.
Arguments b_world {W}.
Arguments MkBState {W}.

Context {W : Type} (slots : BSlots W).

Abbreviation bprog := (prog (BState W) BEvent Exn).

Definition brd {A : Type} (f : BenthosATM900Driver -> A) : bprog A := pread (fun s => f (bdrv s)).
Definition bupd (f : BenthosATM900Driver -> BenthosATM900Driver) : bprog unit :=
  pmod (fun s => MkBState (f (bdrv s)) (b_world s)).
Definition set_bd_fsm (m : Machine) (d : BenthosATM900Driver) : BenthosATM900Driver := MkBDriver (bd_cfg d) (bd_base d) m.
Definition on_fsm (f : BFsm -> BFsm) (m : Machine) : Machine := MkMachine (f (fsm m)) (state m) (history m).
Definition bupd_fsm (f : BFsm -> BFsm) : bprog unit := bupd (fun d => set_bd_fsm (on_fsm f (bd_fsm d)) d).

Definition on_bd_base {A : Type} (m : prog ModemDriverBase DriverEvent Exn A) : bprog A := fun s =>
  let '(b, ev, r) := m (bd_base (bdrv s)) in
  (MkBState (MkBDriver (bd_cfg (bdrv s)) b (bd_fsm (bdrv s))) (b_world s), map BLine ev, r).

Definition b_call_slot {A : Type} (f : W -> W * option A) : bprog A := fun s =>
  let '(w, r) := f (b_world s) in
  (MkBState (bdrv s) w, [], match r with Some a => Ok a | None => Err SlotException end).

Definition b_exn_of (x : benthos_exception) : Exn :=
  match x with
  | BOutOfRange => OutOfRange
  | BBadCast => BadCast
  | BPacket _ => PacketException
  | BCodec => CodecException
  | BRuntime => SystemError
  end.

(** [fsm_.process_event]: an exception terminates the machine *)
Definition b_process (now : double) (e : Event) : bprog unit :=
  let! d := brd (fun d => d) in
  match process_event crc32 (bd_machine (bd_cfg d)) clock now (bd_fsm d) e with
  | Some (Ok m) => bupd (set_bd_fsm m)
  | Some (Err x) => bupd (set_bd_fsm (MkMachine (fsm (bd_fsm d)) NoState None));; pthrow (b_exn_of x)
  | None => pthrow StillWaiting
  end.

Definition b_is_ready (d : BenthosATM900Driver) : bool :=
  match state (bd_fsm d) with InCommand _ Ready => true | _ => false end.
Definition b_is_low_power (d : BenthosATM900Driver) : bool :=
  match state (bd_fsm d) with InCommand _ LowPower => true | _ => false end.

(** ** Sending and receiving *)

Definition b_send (now : double) (msg : ModemTransmission) : bprog unit :=
  bupd_fsm (buffer_data_out msg);;
  b_process now (EvDial (dest msg) (rate msg)).

Definition b_initiate_data (now : double) (msg : BMsg) : bprog unit :=
  let! d := brd (fun d => d) in
  let b := b_msg msg in
  let b := if negb (has_max_frame_bytes b) || (bd_max_frame_size (bd_cfg d) <? max_frame_bytes b)
           then set_mt_max_frame_bytes (Some (bd_max_frame_size (bd_cfg d))) b else b in
  let! msg := b_call_slot (bs_data_request slots (set_b_msg b msg)) in
  match mt_frame (b_msg msg) with
  | [] | [] :: _ => pret tt
  | _ => b_send now (b_msg msg)
  end.

Definition b_handle_initiate_transmission (now : double) (msg : BMsg) : bprog unit :=
  let! msg := b_call_slot (bs_modify slots msg) in
  match type (b_msg msg) with
  | DATA => b_initiate_data now msg
  | DRIVER_SPECIFIC => pwhen (two_way_ping msg) (b_process now (EvRange (dest (b_msg msg))))
  | _ => pret tt
  end.

Definition b_ack (msg : ModemTransmission) : ModemTransmission :=
  set_mt_acked_frame (acked_frames msg)
    (set_mt_rate (Some (rate msg)) (set_mt_dest (Some (src msg)) (set_mt_src (Some (dest msg))
      (set_mt_type (Some ACK) empty_transmission)))).

Definition b_receive (now : double) (msg : BMsg) : bprog unit :=
  let! d := brd (fun d => d) in
  pwhen (bool_decide (type (b_msg msg) = DATA) && ack_requested (b_msg msg)
         && (dest (b_msg msg) =? get_modem_id (bd_connection (bd_cfg d))))
    (b_send now (b_ack (b_msg msg)));;
  pemit (BReceive msg);;
  b_call_slot (bs_receive slots msg).

(** ** The work loop *)

Definition pop_serial (f : BFsm) : BFsm := MkBFsm (drop 1 (serial_tx_buffer f)) (received f) (data_out f).
Definition pop_received (f : BFsm) : BFsm := MkBFsm (serial_tx_buffer f) (drop 1 (received f)) (data_out f).

Fixpoint b_write_buffer (lines : list bytes) : bprog unit :=
  match lines with
  | [] => pret tt
  | line :: lines =>
      on_bd_base (modem_write line);;
      bupd_fsm pop_serial;;
      b_write_buffer lines
  end.

Definition b_try_serial_tx (now : double) : bprog unit :=
  b_process now EvTxSerial;;
  let! lines := brd (fun d => serial_tx_buffer (fsm (bd_fsm d))) in
  b_write_buffer lines.

(** [while (modem_read(&in))], with the lines that are there *)
Fixpoint b_read_lines (now : double) (lines : list bytes) : bprog unit :=
  let! r := on_bd_base (modem_read (head lines)) in
  match r, lines with
  | Some line, _ :: lines => b_process now (EvRxSerial line);; b_read_lines now lines
  | _, _ => pret tt
  end.

Fixpoint b_deliver_received (now : double) (msgs : list BMsg) : bprog unit :=
  match msgs with
  | [] => pret tt
  | m :: msgs => b_receive now m;; bupd_fsm pop_received;; b_deliver_received now msgs
  end.

Record BTick : Type := MkBTick { bt_now : double; bt_active : bool; bt_lines : list bytes }.

Definition b_set_active (b : bool) : bprog unit :=
  on_bd_base (pmod (fun d => MkBase (match modem d with Some _ => Some b | None => None end) (raw_fs d)
                               (raw_fs_connections_made d))).

Definition b_do_work (t : BTick) : bprog unit :=
  let now := bt_now t in
  b_set_active (bt_active t);;
  b_try_serial_tx now;;
  b_read_lines now (bt_lines t);;
  let! msgs := brd (fun d => received (fsm (bd_fsm d))) in
  b_deliver_received now msgs;;
  b_try_serial_tx now.

(** ** Startup and shutdown *)

Definition b_effective (c : BDriverConfig) : BDriverConfig :=
  let conn := bd_connection c in
  let conn := match line_delimiter conn with None => set_line_delimiter BENTHOS_DELIMITER conn | Some _ => conn end in
  let conn := match serial_baud conn with None => set_serial_baud BENTHOS_BAUD conn | Some _ => conn end in
  MkBDriverConfig conn (bd_machine c) (bd_start_timeout c) (bd_max_frame_size c).

(** the loop of [startup], with its counter *)
Fixpoint b_init_loop (i : Z) (ticks : list BTick) : bprog (list BTick) :=
  let! d := brd (fun d => d) in
  if b_is_ready d then pret ticks
  else
    match ticks with
    | [] => pthrow StillWaiting
    | t :: ticks =>
        b_do_work t;;
        let i := i + 1 in
        if bd_start_timeout (bd_cfg d) <? i / 100 then pthrow (DriverException STARTUP_FAILED)
        else b_init_loop i ticks
    end.

Definition b_startup (log_name : bytes -> bytes) (log_opened : bool) (polls : list bool) (now : double) (ticks : list BTick)
    (cfg : BDriverConfig) : bprog (list BTick) :=
  let c := b_effective cfg in
  bupd (fun d => MkBDriver c (bd_base d) (bd_fsm d));;
  on_bd_base (modem_start log_name log_opened polls (bd_connection c));;
  bupd (fun d => set_bd_fsm (initiate (bd_machine c) clock now (fsm (bd_fsm d))) d);;
  b_init_loop 0 ticks.

Fixpoint b_work_until (cond : BenthosATM900Driver -> bool) (ticks : list BTick) : bprog (list BTick) :=
  let! d := brd (fun d => d) in
  if cond d then pret ticks
  else match ticks with
       | [] => pthrow StillWaiting
       | t :: ticks => b_do_work t;; b_work_until cond ticks
       end.

Definition b_shutdown (now : double) (ticks : list BTick) : bprog (list BTick) :=
  b_process now EvReset;;
  let! ticks := b_work_until b_is_ready ticks in
  b_process now EvRequestLowPower;;
  let! ticks := b_work_until b_is_low_power ticks in
  on_bd_base modem_close;;
  bupd (fun d => set_bd_fsm (MkMachine (fsm (bd_fsm d)) NoState None) d);;
  pret ticks.

Definition new_benthos_driver (c : BDriverConfig) : BenthosATM900Driver :=
  MkBDriver c new_base (MkMachine (MkBFsm [] [] []) NoState None).

End Driver.

Arguments bdrv {SV W}.
Arguments b_world {SV W}.
Arguments MkBState {SV W}.
Arguments bs_modify {SV W}.
Arguments bs_data_request {SV W}.
Arguments bs_receive {SV W}.
