(* ===== verification/BenthosLink.v ===== *)
(** * The Benthos link: messages, processing of events, reception *)

From Stdlib Require Import SpecFloat.
From S2P Require Import Prelude HexCodec Double Time As Proto BaseConvert Rudics Nmea DriverBase Benthos.

(** ** Splitting *)

Lemma split_piece p b c rest aft :
  Forall (fun x => p x = false) b -> b <> [] -> p c = true ->
  split_compress p aft (b ++ c :: rest) = b :: split_compress p true rest.
Proof.
  intros Hb Hne Hc. revert aft. induction Hb as [|x b Hx Hb IH]; intros aft; [done|]. cbn. rewrite Hx.
  destruct b as [|y b]; [cbn; by rewrite Hc|]. by rewrite IH.
Qed.

Lemma split_last p b aft : Forall (fun x => p x = false) b -> split_compress p aft b = [b].
Proof.
  intros Hb. revert aft. induction Hb as [|x b Hx Hb IH]; intros aft; [done|]. cbn. by rewrite Hx, IH.
Qed.

(** ** Messages *)

Section Messages.
Context {SV : StatValues} {HC : BenthosHeaderCodec} {HCL : BenthosHeaderLaws}.
Variable crc32 : bytes -> Z.
Hypothesis crc32_range : forall s, 0 <= crc32 s < 2 ^ 32.

Lemma reserved_cr : wf_reserved [13].
Proof.
  unfold wf_reserved. cbn [length]. split; [repeat constructor; set_solver|]. split; [repeat constructor; lia|]. split; [lia|].
  intros [|i] r; [|done]. intros [= <-]. left. lia.
Qed.

(** the packet of a frame is a body without the delimiter, and the delimiter *)
Lemma frame_packet_body f :
  wf_bytes f -> f <> [] ->
  exists body, frame_packet crc32 f = body ++ [13] /\ body <> [] /\ Forall (fun x => (13 =? x) = false) body /\
    parse_rudics_packet crc32 (body ++ [13]) [13] false = Ok f.
Proof.
  intros Hw Hne. destruct (rudics_no_reserved crc32 f [13] false reserved_cr Hw) as (body & E & Hb). exists body.
  pose proof (rudics_roundtrip crc32 f [13] false crc32_range reserved_cr Hw) as Hr. rewrite E in Hr.
  split; [exact E|]. split; [|split; [|exact Hr]].
  - intros ->. apply Hne. by injection Hr as <-.
  - eapply Forall_impl; [exact Hb|]. intros x Hx. apply Z.eqb_neq. set_solver.
Qed.

Lemma parse_packets fs aft :
  Forall wf_bytes fs -> Forall (fun f => f <> []) fs ->
  parse_frames crc32 (split_compress (Z.eqb 13) aft (concat (map (frame_packet crc32) fs))) = Ok fs.
Proof.
  intros Hw Hn. revert aft. induction Hw as [|f fs Hf _ IH]; intros aft; [done|]. inversion_clear Hn as [|? ? Hfn Hn'].
  destruct (frame_packet_body f Hf Hfn) as (body & E & Hne & Hb & Hp). cbn [map concat]. rewrite E, <- app_assoc. cbn [app].
  rewrite split_piece by (done || by rewrite Z.eqb_refl). specialize (IH Hn' true).
  destruct body as [|x body]; [done|]. cbn [parse_frames]. rewrite Hp, IH. done.
Qed.

Lemma leading_nonempty fs : Forall (fun f => f <> []) (leading_frames fs).
Proof. induction fs as [|[|c f] fs IH]; cbn; constructor; done. Qed.

Lemma leading_wf fs : Forall wf_bytes fs -> Forall wf_bytes (leading_frames fs).
Proof. induction 1 as [|[|c f] fs Hf _ IH]; cbn; by constructor. Qed.

(** what the link carries of a transmission, into [m0] *)
Definition b_carried (m m0 : ModemTransmission) : ModemTransmission :=
  let m1 := set_mt_type (Some (type m)) m0 in
  let m1 := match mt_ack_requested m with Some b => set_mt_ack_requested (Some b) m1 | None => m1 end in
  set_mt_frame (mt_frame m0 ++ leading_frames (mt_frame m))
    (set_mt_acked_frame (mt_acked_frame m0 ++ mt_acked_frame m) m1).

Definition b_sendable (m : ModemTransmission) : Prop :=
  bheader_in_bounds (bheader_of m) = true /\ Forall wf_bytes (mt_frame m).

(** A transmission within the bounds of the Benthos header is serialized, and parsing the bytes
    gives its type, its acknowledgement flags and its frames up to the first empty one. *)
Lemma benthos_message_roundtrip (m m0 : ModemTransmission) :
  b_sendable m ->
  exists s, serialize_benthos_modem_message crc32 m = Some s /\
    parse_benthos_modem_message crc32 s m0 = Ok (b_carried m m0).
Proof.
  intros [Hb Hw]. destruct (bheader_encode_total _ Hb) as (b & Eb & _).
  unfold serialize_benthos_modem_message. rewrite Eb. eexists. split; [reflexivity|].
  unfold parse_benthos_modem_message. rewrite (bheader_decode_encode _ _ _ Hb Eb).
  unfold split_text. rewrite parse_packets by (apply leading_wf, Hw || apply leading_nonempty).
  cbn. unfold b_carried. destruct (mt_ack_requested m), m0; reflexivity.
Qed.

End Messages.

(** ** Processing ends *)

Section Machine.
Context {SV : StatValues} {HC : BenthosHeaderCodec} {TR : BoostTrim} {LN : LexicalNumbers}.
Variables (crc32 : bytes -> Z) (cfg : BenthosConfig) (clock : double -> ClockFields).

Abbreviation react := (react crc32 cfg clock).
Abbreviation process_queue := (process_queue crc32 cfg clock).
Abbreviation process_event := (process_event crc32 cfg clock).

(** what an event can lead to: its own reaction and those of the events it posts *)
Definition weight (e : Event) : nat :=
  match e with
  | EvRxSerial _ => 6
  | EvAck _ | EvReceive _ => 3
  | EvTxSerial | EvConnect | EvShellPrompt | EvReceiveComplete => 2
  | _ => 1
  end.

Fixpoint total (q : list Event) : nat :=
  match q with [] => 0 | e :: q => weight e + total q end.

Lemma b_total_app q q' : total (q ++ q') = (total q + total q')%nat.
Proof. induction q as [|e q IH]; cbn; [done|]. rewrite IH. lia. Qed.

Lemma listen_weight f : (total (listen_posts f) <= 1)%nat.
Proof. unfold listen_posts. destruct (data_out f); cbn; lia. Qed.

Lemma history_weight now e h f : (total (snd (enter_history cfg clock now e h f)) <= 1)%nat.
Proof.
  unfold enter_history. pose proof (listen_weight f). destruct h as [[]|]; cbn [snd]; cbn; lia || done.
Qed.

Lemma b_command_ack_weight r q q' ev : command_ack r q = (q', ev) -> (total ev <= 2)%nat.
Proof.
  unfold command_ack. destruct q as [|[meta c] rest]; [by intros [= _ <-]; cbn; lia|].
  destruct (bool_decide (r = B "OK")) eqn:E; cbn [negb andb].
  - destruct (bool_decide (c = B "ATH")), (valid_response c r); intros [= _ <-]; destruct rest; cbn; lia.
  - destruct (valid_response c r); intros [= _ <-]; [|cbn; lia].
    rewrite b_total_app. apply (Nat.add_le_mono _ 1 _ 1); [|destruct rest; cbn; lia].
    case_match; cbn; lia.
Qed.

Lemma b_react_weight now m e m' ev : react now m e = Ok (m', ev) -> (S (total ev) <= weight e)%nat.
Proof.
  unfold Benthos.react. destruct (state m) as [q st|st|r|]; [| | |intros [= _ <-]; destruct e; cbn; lia].
  - (* Command *)
    destruct (command_state_react cfg clock now m q st e) as [x|] eqn:E1; cbn [or_else].
    { intros ->. unfold command_state_react, range_rx in E1.
      destruct st, e; try discriminate E1; repeat case_match; simplify_eq; cbn; lia. }
    destruct (command_react now m q st e) as [x|] eqn:E2; cbn [or_else].
    { intros ->. unfold command_react in E2. destruct e; try discriminate E2.
      - unfold command_tx in E2. repeat case_match; simplify_eq; cbn; lia.
      - destruct (command_ack response q) as [q1 ev1] eqn:E3. simplify_eq. apply b_command_ack_weight in E3. cbn. lia.
      - pose proof (listen_weight (fsm m)). repeat case_match; simplify_eq; cbn [weight total]; lia. }
    destruct (active_react cfg clock now m e) as [x|] eqn:E3; [|intros [= _ <-]; destruct e; cbn; lia].
    intros ->. unfold active_react, active_rx, enter_receive in E3. destruct e; try discriminate E3; repeat case_match; simplify_eq; cbn; lia.
  - (* Online *)
    destruct (online_state_react crc32 cfg clock now m st e) as [x|] eqn:E1; cbn [or_else].
    { intros ->. unfold online_state_react, transmit_tx in E1. destruct st, e; try discriminate E1; repeat case_match; simplify_eq; cbn; lia. }
    destruct (online_react cfg clock now m e) as [x|] eqn:E2; cbn [or_else].
    { intros ->. unfold online_react in E2. destruct e; try discriminate E2.
      pose proof (history_weight now EvShellPrompt (left_leaf m) (fsm m)) as H.
      destruct (enter_history _ _ _ _ _ _) as [st' ev']. simplify_eq. cbn in *. lia. }
    destruct (active_react cfg clock now m e) as [x|] eqn:E3; [|intros [= _ <-]; destruct e; cbn; lia].
    intros ->. unfold active_react, active_rx, enter_receive in E3. destruct e; try discriminate E3; repeat case_match; simplify_eq; cbn; lia.
  - (* ReceiveData *)
    destruct (receive_react crc32 cfg clock now m r e) as [x|] eqn:E; [|intros [= _ <-]; destruct e; cbn; lia].
    intros ->. unfold receive_react in E. destruct e; try discriminate E.
    + destruct (receive_line crc32 line r) as [[r' [b|]]|]; simplify_eq; cbn; lia.
    + pose proof (history_weight now EvReceiveComplete (history m) (fsm m)) as H.
      destruct (enter_history _ _ _ _ _ _) as [st' ev']. simplify_eq. cbn in *. lia.
Qed.

Lemma b_process_queue_enough now : forall fuel m q, (total q <= fuel)%nat -> exists r, process_queue fuel now m q = Some r.
Proof.
  induction fuel as [|fuel IH]; intros m [|e q] H; cbn in *; try by eexists.
  - destruct e; cbn in H; lia.
  - destruct (react now m e) as [[m' ev]|x] eqn:E; [|by eexists]. apply b_react_weight in E. apply IH.
    rewrite b_total_app. lia.
Qed.

(** [process_event] always ends within its fuel *)
Lemma benthos_events_end now m e : exists r, process_event now m e = Some r.
Proof. apply b_process_queue_enough. unfold EVENT_FUEL. destruct e; cbn; lia. Qed.

End Machine.

(** ** Reception of a packet *)

Section Reception.
Context {SV : StatValues} {HC : BenthosHeaderCodec} {HCL : BenthosHeaderLaws} {TR : BoostTrim} {TRL : BoostTrimLaws} {LN : LexicalNumbers}.
Variables (crc32 : bytes -> Z) (cfg : BenthosConfig) (clock : double -> ClockFields).
Hypothesis crc32_range : forall s, 0 <= crc32 s < 2 ^ 32.

Abbreviation process_event := (process_event crc32 cfg clock).

(** a text and the line it is read as *)
Definition plain (t : bytes) : Prop :=
  t <> [] /\ (forall c, head t = Some c -> is_space c = false) /\ (forall c, last t = Some c -> is_space c = false).
Definition line_of (t : bytes) : bytes := t ++ [13; 10].

Lemma trim_line t : plain t -> boost_trim (line_of t) = t.
Proof. intros (Hn & Hh & Hl). by apply (boost_trim_spec [] t [13; 10]). Qed.

(** the text of the size, of an address, of the statistics *)
Definition size_text (t : bytes) (n : Z) : Prop :=
  length t = 4%nat /\ (32 ∉ t) /\ lexical_cast_uint (trim_left_if (Z.eqb 48) t) = Some n.
Definition id_text (t : bytes) (i : Z) : Prop :=
  t <> [] /\ Forall (fun c => 48 <= c <= 57) t /\ 0 <= i < 2 ^ 31 /\
  lexical_cast_uint (match trim_left_if (Z.eqb 48) t with [] => B "0" | t => t end) = Some i.
Definition stat_text (t : bytes) (st : ReceiveStatistics) : Prop :=
  plain t /\ starts_with (B "CRC") t = true /\ receive_stats (split_text (Z.eqb 32) t) empty_stat = Ok st /\ crc st = Some CRC_PASS.

(** the lines the modem prints for a packet: its bytes in hexadecimal over any
    number of lines, the addresses, the statistics and the end *)
Definition first_text (upper : bool) (size chunk : bytes) : bytes := B "DATA(" ++ size ++ B "):" ++ hex_encode_up upper chunk.
Definition source_text (a b : bytes) : bytes := B "Source:" ++ a ++ B " Destination:" ++ b.

Definition packet_lines (upper : bool) (size chunk : bytes) (chunks : list bytes) (a b stats : bytes) : list bytes :=
  line_of (first_text upper size chunk) :: map (fun c => line_of (hex_encode_up upper c)) chunks
  ++ [line_of (source_text a b); line_of stats; line_of (B "<EOP>")].

Fixpoint feed (now : double) (lines : list bytes) (m : Machine) : option Machine :=
  match lines with
  | [] => Some m
  | l :: lines =>
      match process_event now m (EvRxSerial l) with
      | Some (Ok m) => feed now lines m
      | _ => None
      end
  end.

Lemma feed_app now l1 l2 m m1 : feed now l1 m = Some m1 -> feed now (l1 ++ l2) m = feed now l2 m1.
Proof.
  revert m. induction l1 as [|l l1 IH]; intros m; cbn [feed app]; [by intros [= ->]|].
  destruct (process_event now m (EvRxSerial l)) as [[m'|]|]; [apply IH | done | done].
Qed.

(** *** Texts *)

Lemma hex_not_space upper s c : c ∈ hex_encode_up upper s -> is_space c = false /\ c <> 32.
Proof.
  intros H. apply hex_encode_up_digits in H. split; [|lia]. unfold is_space.
  destruct (c =? 32) eqn:E1, (9 <=? c) eqn:E2, (c <=? 13) eqn:E3; to_prop; try done; lia.
Qed.

Lemma no_spaces s : 32 ∉ s -> erase_spaces s = s.
Proof.
  intros H. unfold erase_spaces. induction s as [|c s IH]; [done|]. cbn. apply not_elem_of_cons in H as [Hc Hs].
  rewrite IH by done. destruct (c =? 32) eqn:E; [|done]. to_prop. by destruct Hc.
Qed.

Lemma last_in {A} (s : list A) c : last s = Some c -> c ∈ s.
Proof. apply last_Some_elem_of. Qed.

Lemma hex_plain upper s : s <> [] -> plain (hex_encode_up upper s).
Proof.
  intros Hs. split; [by destruct s|]. split.
  - intros c Hc. apply (hex_not_space upper s). destruct (hex_encode_up upper s); [done|]. injection Hc as ->. set_solver.
  - intros c Hc. apply (hex_not_space upper s). by apply last_in.
Qed.

Lemma first_plain upper size chunk : plain (first_text upper size chunk).
Proof.
  split; [done|]. split; [by intros c [= <-]|]. intros c Hc. unfold first_text in Hc. rewrite !app_assoc, last_app in Hc.
  destruct (last (hex_encode_up upper chunk)) as [x|] eqn:E.
  - injection Hc as <-. apply (hex_not_space upper chunk). by apply last_in.
  - rewrite last_app in Hc. cbn in Hc. by injection Hc as <-.
Qed.

Lemma first_no_space upper size chunk : 32 ∉ size -> 32 ∉ first_text upper size chunk.
Proof.
  intros H Hin. unfold first_text in Hin. rewrite !elem_of_app in Hin. destruct Hin as [Hin|[Hin|[Hin|Hin]]]; try done.
  - apply (bool_decide_eq_true (32 ∈ B "DATA(")) in Hin. vm_compute in Hin. done.
  - apply (bool_decide_eq_true (32 ∈ B "):")) in Hin. vm_compute in Hin. done.
  - by apply hex_not_space in Hin as [_ ?].
Qed.

Lemma first_read upper size chunk n :
  size_text size n -> wf_bytes chunk -> receive_first (first_text upper size chunk) = Ok (MkReceive empty_bmsg n chunk).
Proof.
  intros (Hl & Hs & Hn) Hw. unfold receive_first. rewrite no_spaces by by apply first_no_space.
  destruct size as [|x0 [|x1 [|x2 [|x3 [|]]]]]; try done. unfold first_text. cbn [app B].
  unfold substr. cbn [length]. cbn -[hex_encode_up trim_left_if hex_decode].
  cbn [of_option rbind]. unfold trim_left_if in Hn |- *. rewrite Hn. cbn [of_option rbind].
  rewrite drop_0, take_ge by lia. by rewrite (proj1 (hex_decode_encode upper chunk Hw)).
Qed.

Lemma id_char_not_space c : 48 <= c <= 57 -> is_space c = false.
Proof. intros H. unfold is_space. destruct (c =? 32) eqn:E1, (9 <=? c) eqn:E2, (c <=? 13) eqn:E3; to_prop; try done; lia. Qed.

Lemma source_plain a b i j : id_text a i -> id_text b j -> plain (source_text a b).
Proof.
  intros _ (Hb & Hd & _). split; [done|]. split; [by intros c [= <-]|]. intros c Hc. unfold source_text in Hc.
  rewrite !app_assoc, last_app in Hc. destruct (last b) as [x|] eqn:E; [|by apply last_None in E]. injection Hc as <-.
  apply id_char_not_space. rewrite Forall_forall in Hd. apply Hd. by apply last_in.
Qed.

Lemma id_parsed start pre t i : id_text t i -> length pre = start -> parse_id start (pre ++ t) = Ok i.
Proof.
  intros (Hn & _ & Hi & Hc) Hl. unfold parse_id, substr. rewrite (proj2 (Nat.ltb_ge _ _)) by (rewrite length_app; lia).
  cbn [of_option rbind]. rewrite <- Hl, drop_app_length, take_ge by (rewrite length_app; lia).
  destruct (trim_left_if (Z.eqb 48) t); cbv zeta; rewrite Hc; cbn [of_option rbind]; by rewrite s32_small by lia.
Qed.

Lemma source_read a b i j rb :
  id_text a i -> id_text b j ->
  receive_source (source_text a b) rb = Ok (set_b_msg (set_mt_dest (Some j) (set_mt_src (Some i) (b_msg rb))) rb).
Proof.
  intros Ha Hb. unfold receive_source, split_text.
  assert (Hd : forall t k, id_text t k -> Forall (fun x => (32 =? x) = false) t).
  { intros t k (_ & Hd & _). eapply Forall_impl; [exact Hd|]. intros x Hx. cbn in Hx. apply Z.eqb_neq. lia. }
  replace (source_text a b) with ((B "Source:" ++ a) ++ 32 :: (B "Destination:" ++ b)) by (unfold source_text; by rewrite <- app_assoc).
  rewrite split_piece; [|apply Forall_app; split; [repeat constructor | by eapply Hd] | done | done].
  rewrite split_last by (apply Forall_app; split; [repeat constructor | by eapply Hd]).
  rewrite (id_parsed 7 (B "Source:") a i Ha eq_refl), (id_parsed 12 (B "Destination:") b j Hb eq_refl). done.
Qed.

(** *** The machine reads the lines *)

Definition in_receive (m : Machine) (h : Leaf) (r : ReceiveData) : Machine := MkMachine (fsm m) (InReceive r) (Some h).

(** a state of [Command] that leaves serial lines to [Active] *)
Definition reads_lines (st : CommandState) : Prop := match st with Range _ => False | _ => True end.

Lemma react_first now m q st upper size chunk n :
  state m = InCommand q st -> reads_lines st -> size_text size n -> wf_bytes chunk ->
  process_event now m (EvRxSerial (line_of (first_text upper size chunk)))
    = Some (Ok (in_receive m (leaf_of_command st) (MkReceive empty_bmsg n chunk))).
Proof.
  intros Hs Hst Hn Hw. unfold Benthos.process_event, EVENT_FUEL. cbn [process_queue].
  assert (E1 : react crc32 cfg clock now m (EvRxSerial (line_of (first_text upper size chunk)))
               = Ok (m, [EvReceive (first_text upper size chunk)])).
  { unfold react. rewrite Hs. assert (command_state_react cfg clock now m q st (EvRxSerial (line_of (first_text upper size chunk))) = None) as ->
      by (by destruct st). cbn [or_else command_react active_react]. unfold active_rx. rewrite trim_line by apply first_plain. done. }
  rewrite E1. cbn [app process_queue].
  assert (E2 : react crc32 cfg clock now m (EvReceive (first_text upper size chunk))
               = Ok (in_receive m (leaf_of_command st) (MkReceive empty_bmsg n chunk), [])).
  { unfold react. rewrite Hs. assert (command_state_react cfg clock now m q st (EvReceive (first_text upper size chunk)) = None) as ->
      by (by destruct st). cbn [or_else command_react active_react]. unfold enter_receive. rewrite (first_read upper size chunk n Hn Hw).
    unfold left_leaf. by rewrite Hs. }
  rewrite E2. done.
Qed.

(** a line while the packet is received *)
Lemma react_receive now m h r r' line :
  receive_line crc32 line r = Ok (r', None) ->
  process_event now (in_receive m h r) (EvRxSerial line) = Some (Ok (in_receive m h r')).
Proof.
  intros H. unfold Benthos.process_event, EVENT_FUEL. cbn [process_queue]. unfold react at 1. cbn [in_receive state receive_react].
  rewrite H. done.
Qed.

Lemma feed_chunks now m h rb n upper chunks : forall acc,
  Forall (fun c => wf_bytes c /\ c <> []) chunks -> Z.of_nat (length (acc ++ concat chunks)) = n ->
  feed now (map (fun c => line_of (hex_encode_up upper c)) chunks) (in_receive m h (MkReceive rb n acc))
    = Some (in_receive m h (MkReceive rb n (acc ++ concat chunks))).
Proof.
  induction chunks as [|c chunks IH]; intros acc Hc Hn; cbn [map feed concat]; [by rewrite app_nil_r|].
  inversion_clear Hc as [|? ? [Hw Hne] Hc']. cbn [concat] in Hn. rewrite !length_app in Hn.
  rewrite (react_receive now m h _ (MkReceive rb n (acc ++ c))).
  - rewrite IH; [|done | by rewrite !length_app, <- Nat.add_assoc]. by rewrite <- app_assoc.
  - unfold receive_line. rewrite trim_line by by apply hex_plain. rewrite bool_decide_eq_false_2.
    2: { intros E. clear - E Hne Hw.
         destruct c as [|x c]; [done|]. cbn [hex_encode_up] in E. injection E as E _.
         inversion_clear Hw as [|? ? Hx _]. destruct (byte_nibbles x Hx) as (H1 & _).
         unfold nibble_char in E. repeat (split_if_in E); to_prop; lia. }
    cbn [encoded_bytes reported_size rx_msg].
    assert (Hlt : (Z.of_nat (length acc) <? n) = true) by (apply Z.ltb_lt; destruct c; [done|]; cbn [length] in Hn; lia).
    rewrite Hlt, no_spaces by (intros Hin; by apply hex_not_space in Hin as [_ ?]).
    by rewrite (proj1 (hex_decode_encode upper c Hw)).
Qed.

(** the message that is received *)
Definition b_delivered (msg : ModemTransmission) (i j : Z) (st : ReceiveStatistics) : BMsg :=
  MkBMsg (b_carried msg (set_mt_dest (Some j) (set_mt_src (Some i) empty_transmission))) false (Some st) None.

Lemma packet_read now m q st upper size chunk chunks a b stats msg i j rs :
  state m = InCommand q st -> reads_lines st ->
  b_sendable msg -> serialize_benthos_modem_message crc32 msg = Some (chunk ++ concat chunks) ->
  wf_bytes chunk -> Forall (fun c => wf_bytes c /\ c <> []) chunks ->
  size_text size (Z.of_nat (length (chunk ++ concat chunks))) -> id_text a i -> id_text b j -> stat_text stats rs ->
  feed now (packet_lines upper size chunk chunks a b stats) m
    = Some (MkMachine (push_received (b_delivered msg i j rs) (fsm m)) (enter_command cfg clock now EvReceiveComplete (leaf_of_command st))
              (Some (leaf_of_command st))).
Proof.
  intros Hs Hst Hm Hser Hw Hc Hsize Ha Hb (Hp & Hcrc & Hr & Hpass).
  destruct (benthos_message_roundtrip crc32 crc32_range msg (set_mt_dest (Some j) (set_mt_src (Some i) empty_transmission)) Hm) as (s & Es & Ep).
  assert (s = chunk ++ concat chunks) as -> by congruence. set (data := chunk ++ concat chunks) in *. set (h := leaf_of_command st).
  unfold packet_lines. cbn [feed]. rewrite (react_first now m q st upper size chunk _ Hs Hst Hsize Hw). fold h.
  rewrite (feed_app now _ _ _ _ (feed_chunks now m h empty_bmsg _ upper chunks chunk Hc eq_refl)). fold data. cbn [feed].
  assert (Hge : (Z.of_nat (length data) <? Z.of_nat (length data)) = false) by (apply Z.ltb_ge; lia).
  (* the addresses *)
  rewrite (react_receive now m h _ (MkReceive (set_b_msg (set_mt_dest (Some j) (set_mt_src (Some i) empty_transmission)) empty_bmsg)
    (Z.of_nat (length data)) data)).
  2: { unfold receive_line. rewrite trim_line by by eapply source_plain. cbn [encoded_bytes reported_size rx_msg].
       rewrite bool_decide_eq_false_2 by done. rewrite Hge. change (starts_with (B "Source") (source_text a b)) with true. cbv iota.
       by rewrite (source_read a b i j empty_bmsg Ha Hb). }
  (* the statistics *)
  set (rb := set_b_msg _ empty_bmsg). rewrite (react_receive now m h _ (MkReceive (set_b_stat rs rb) (Z.of_nat (length data)) data)).
  2: { unfold receive_line. rewrite trim_line by done. cbn [encoded_bytes reported_size rx_msg]. rewrite Hge.
       assert (Hpre : take 3 stats = B "CRC") by (by apply bool_decide_eq_true in Hcrc).
       destruct stats as [|x0 [|x1 [|x2 stats]]]; try discriminate Hpre. cbn in Hpre. injection Hpre as -> -> ->.
       rewrite bool_decide_eq_false_2 by done. change (starts_with (B "Source") (67 :: 82 :: 67 :: stats)) with false. cbv iota.
       rewrite Hcrc. cbn [receive_stat rb set_b_msg empty_bmsg default]. by rewrite Hr. }
  (* the end *)
  set (rb' := set_b_stat rs rb). unfold Benthos.process_event, EVENT_FUEL. cbn [process_queue]. unfold react at 1. cbn [in_receive state receive_react].
  assert (El : receive_line crc32 (line_of (B "<EOP>")) (MkReceive rb' (Z.of_nat (length data)) data)
    = Ok (MkReceive rb' (Z.of_nat (length data)) data, Some (b_delivered msg i j rs))).
  { unfold receive_line. rewrite trim_line by (by split; [|split; intros c [= <-]]). rewrite bool_decide_eq_true_2 by done.
    assert (Hg : get_crc (rx_msg (MkReceive rb' (Z.of_nat (length data)) data)) = CRC_PASS) by (unfold get_crc; cbn; by rewrite Hpass).
    rewrite Hg. cbn [encoded_bytes rx_msg]. change (b_msg rb') with (set_mt_dest (Some j) (set_mt_src (Some i) empty_transmission)).
    by rewrite Ep. }
  rewrite El. cbn [app process_queue]. unfold react at 1. cbn [state receive_react history fsm in_receive].
  unfold enter_history. unfold h. by destruct st.
Qed.

(** When a packet arrives while the Benthos driver is dialling a node, the return by history
    constructs the Dial state again without the event that named the node: the modem is told to
    connect to the broadcast address at the default rate, with the data for the node still queued.
    *)
Lemma benthos_reception_redials_broadcast (now : double) (m : Machine) (q : AtOut) (dest rate : Z) (upper : bool)
    (size chunk : bytes) (chunks : list bytes) (a b stats : bytes) (msg : ModemTransmission) (i j : Z) (rs : ReceiveStatistics) :
  state m = InCommand q (Dial dest rate) ->
  b_sendable msg -> serialize_benthos_modem_message crc32 msg = Some (chunk ++ concat chunks) ->
  wf_bytes chunk -> Forall (fun c => wf_bytes c /\ c <> []) chunks ->
  size_text size (Z.of_nat (length (chunk ++ concat chunks))) -> id_text a i -> id_text b j -> stat_text stats rs ->
  exists m' q', feed now (packet_lines upper size chunk chunks a b stats) m = Some m' /\
    state m' = InCommand q' (Dial BENTHOS_BROADCAST_ID DEFAULT_RATE) /\
    map snd q' = [B "+++"; B "@OpMode=0"; B "@RemoteAddr=255"; B "@TxRate=2"; B "ATO"] /\
    data_out (fsm m') = data_out (fsm m).
Proof.
  intros Hs Hm Hser Hw Hc Hsize Ha Hb Hst. eexists _, _. split; [by eapply packet_read|].
  split; [reflexivity|]. split; [vm_compute; reflexivity | done].
Qed.

End Reception.
