(* ===== verification/BenthosExchange.v ===== *)
(** * Two Benthos drivers

    A frame that the driver of one node transmits once its modem has connected,
    and the lines of the other modem that report it. *)

From Stdlib Require Import SpecFloat.
From S2P Require Import Prelude HexCodec Double Time As Proto BaseConvert Rudics Nmea UdpDriver Iridium Prog DriverBase Benthos BenthosDriver BenthosLink.

#[local] Open Scope prog_scope.

Section Exchange.
Context {SV : StatValues} {HC : BenthosHeaderCodec} {HCL : BenthosHeaderLaws} {TR : BoostTrim} {TRL : BoostTrimLaws} {LN : LexicalNumbers}.
Variables (crc32 : bytes -> Z) (clock : double -> ClockFields).
Hypothesis crc32_range : forall s, 0 <= crc32 s < 2 ^ 32.
Context {W : Type} (slots : BSlots W).

Lemma pbind_brd {A C} (f : BenthosATM900Driver -> A) (k : A -> prog (BState W) BEvent Exn C) s :
  pbind (brd f) k s = k (f (bdrv s)) s.
Proof. exact (pbind_read (fun s => f (bdrv s)) k s). Qed.
Lemma pbind_bupd {C} f (k : unit -> prog (BState W) BEvent Exn C) s :
  pbind (bupd f) k s = k tt (MkBState (f (bdrv s)) (b_world s)).
Proof. exact (pbind_mod (fun s => MkBState (f (bdrv s)) (b_world s)) k s). Qed.

(** the driver with its line up and the machine [m] *)
Definition node (c : BDriverConfig) (b : ModemDriverBase) (m : Machine) (w : W) : BState W :=
  MkBState (MkBDriver c b m) w.

Definition up (b : ModemDriverBase) : Prop := modem b = Some true.

Lemma b_process_known c b m w now e m' :
  process_event crc32 (bd_machine c) clock now m e = Some (Ok m') ->
  b_process crc32 clock now e (node c b m w) = (node c b m' w, [], Ok tt).
Proof. intros H. unfold b_process. rewrite pbind_brd. cbn [node bdrv bd_cfg bd_fsm]. by rewrite H. Qed.

(** writing the buffer of the line *)
Lemma write_buffer_all c b w lines : forall m, up b -> serial_tx_buffer (fsm m) = lines ->
  b_write_buffer lines (node c b m w)
    = (node c b (on_fsm (fun f => MkBFsm [] (received f) (data_out f)) m) w, map (fun l => BLine (WriteLine l)) lines, Ok tt).
Proof.
  induction lines as [|l lines IH]; intros m Hu Hl; cbn [b_write_buffer map].
  - destruct m as [[tx rx out] st h]. cbn in *. by subst.
  - assert (Ew : on_bd_base (modem_write l) (node c b m w) = (node c b m w, [BLine (WriteLine l)], Ok tt)).
    { unfold on_bd_base, modem_write. cbn [node bdrv bd_base]. rewrite pbind_read, Hu. done. }
    rewrite (pbind_ok _ _ _ _ _ _ Ew). unfold bupd_fsm. rewrite pbind_bupd.
    change (MkBState _ _) with (node c b (on_fsm pop_serial m) w). rewrite IH; [|done | cbn; by rewrite Hl].
    by destruct m as [[tx rx out] st h].
Qed.

Lemma try_serial_tx_known c b m w now m' :
  up b -> process_event crc32 (bd_machine c) clock now m EvTxSerial = Some (Ok m') ->
  b_try_serial_tx crc32 clock now (node c b m w)
    = (node c b (on_fsm (fun f => MkBFsm [] (received f) (data_out f)) m') w,
       map (fun l => BLine (WriteLine l)) (serial_tx_buffer (fsm m')), Ok tt).
Proof.
  intros Hu H. unfold b_try_serial_tx. rewrite (pbind_quiet _ _ _ _ _ (b_process_known c b m w now EvTxSerial m' H)), pbind_brd.
  by apply write_buffer_all.
Qed.

(** reading lines is feeding them to the machine *)
Lemma read_lines_feed c b w now lines : forall m m', up b ->
  feed crc32 (bd_machine c) clock now lines m = Some m' ->
  b_read_lines crc32 clock now lines (node c b m w) = (node c b m' w, [], Ok tt).
Proof.
  assert (Hr : forall m o, up b -> on_bd_base (modem_read o) (node c b m w) = (node c b m w, [], Ok o)).
  { intros m o Hu. unfold on_bd_base, modem_read. cbn [node bdrv bd_base]. by rewrite pbind_read, Hu. }
  induction lines as [|l lines IH]; intros m m' Hu H; cbn [b_read_lines head]; rewrite (pbind_quiet _ _ _ _ _ (Hr m _ Hu)).
  - cbn in H. by injection H as ->.
  - cbn [feed] in H. destruct (process_event crc32 (bd_machine c) clock now m (EvRxSerial l)) as [[m1|]|] eqn:E; try done.
    rewrite (pbind_quiet _ _ _ _ _ (b_process_known c b m w now (EvRxSerial l) m1 E)). by apply IH.
Qed.

Lemma b_set_active_up c b m w : up b -> b_set_active true (node c b m w) = (node c b m w, [], Ok tt).
Proof. intros Hu. unfold up in Hu. destruct b as [md fs cm]. cbn in Hu. by subst. Qed.

(** ** The sender *)

(** the modem has been told to connect, and the command is not due again *)
Definition connecting (now : double) (m : Machine) (msg : ModemTransmission) : Prop :=
  exists meta d r, state m = InCommand [(meta, B "ATO")] (Dial d r) /\
    dlt (dadd (last_send_time meta) (double_of_Z COMMAND_TIMEOUT_SECONDS)) now = false /\
    fsm m = MkBFsm [] [] [msg].

Lemma connect_read cfg now m msg t :
  connecting now m msg -> plain t -> starts_with (B "CONNECT") t = true ->
  feed crc32 cfg clock now [line_of t] m = Some (MkMachine (MkBFsm [] [] [msg]) (InOnline TransmitData) (Some LListen)).
Proof.
  intros (meta & d & r & Hs & _ & Hf) Ht Hc. cbn [feed]. unfold process_event, EVENT_FUEL. cbn [process_queue].
  destruct m as [f st h]. cbn [state fsm] in Hs, Hf. subst.
  assert (Hpre : take 7 t = B "CONNECT") by (by apply bool_decide_eq_true in Hc).
  assert (E1 : active_rx (line_of t) = [EvAck t; EvConnect]).
  { unfold active_rx. rewrite trim_line by done.
    do 7 (destruct t as [|? t]; [discriminate Hpre|]). cbn in Hpre. injection Hpre as -> -> -> -> -> -> ->.
    change (starts_with (B "DATA") _) with false. change (starts_with (B "user:") _) with false. cbv iota. by rewrite Hc. }
  unfold react at 1. cbn [state command_state_react or_else command_react active_react]. rewrite E1. cbn [app process_queue].
  assert (E2 : command_ack t [(meta, B "ATO")] = ([], [EvAtEmpty])).
  { unfold command_ack. rewrite (bool_decide_eq_false_2 (t = B "OK")) by (intros ->; discriminate Hpre). cbn [andb negb].
    unfold valid_response. rewrite (bool_decide_eq_false_2 (t = B "OK")) by (intros ->; discriminate Hpre). rewrite Hc. done. }
  unfold react at 1. cbn [state command_state_react or_else command_react]. rewrite E2. cbn [app process_queue].
  done.
Qed.

Lemma sender_transmits c b m w now msg t pkt :
  up b -> connecting now m msg -> plain t -> starts_with (B "CONNECT") t = true ->
  serialize_benthos_modem_message crc32 msg = Some pkt ->
  exists m', b_do_work crc32 clock slots (MkBTick now true [line_of t]) (node c b m w)
      = (node c b m' w, [BLine (WriteLine pkt)], Ok tt) /\
    state m' = InOnline TransmitData /\ data_out (fsm m') = [].
Proof.
  intros Hu Hc Ht Hp Hs. unfold b_do_work. cbn [bt_now bt_active bt_lines].
  rewrite (pbind_quiet _ _ _ _ _ (b_set_active_up c b m w Hu)).
  assert (E0 : process_event crc32 (bd_machine c) clock now m EvTxSerial = Some (Ok m)).
  { destruct Hc as (meta & d & r & Hst & Hd & Hf). destruct m as [f st h]. cbn [state fsm] in Hst, Hf. subst.
    unfold process_event, EVENT_FUEL. cbn [process_queue]. unfold react at 1. cbn [state command_state_react or_else command_react].
    unfold command_tx. rewrite Hd. done. }
  pose proof (try_serial_tx_known c b m w now m Hu E0) as E1.
  assert (Em : on_fsm (fun f => MkBFsm [] (received f) (data_out f)) m = m /\ serial_tx_buffer (fsm m) = []).
  { destruct Hc as (meta & d & r & Hst & Hd & Hf). destruct m as [f st h]. cbn in *. by subst. }
  destruct Em as [Em Eb]. rewrite Em, Eb in E1. rewrite (pbind_quiet _ _ _ _ _ E1).
  rewrite (pbind_quiet _ _ _ _ _ (read_lines_feed c b w now _ _ _ Hu (connect_read (bd_machine c) now m msg t Hc Ht Hp))).
  rewrite pbind_brd. cbn [node bdrv bd_fsm fsm received b_deliver_received]. rewrite pbind_ret.
  set (m1 := MkMachine _ _ _).
  assert (E2 : process_event crc32 (bd_machine c) clock now m1 EvTxSerial
    = Some (Ok (MkMachine (MkBFsm [pkt] [] []) (InOnline TransmitData) (Some LListen)))).
  { unfold process_event, EVENT_FUEL. cbn [process_queue]. unfold react at 1. cbn [m1 state online_state_react or_else].
    unfold transmit_tx. cbn [fsm data_out m1]. rewrite Hs. done. }
  rewrite (try_serial_tx_known c b m1 w now _ Hu E2). eexists. split; [reflexivity|]. done.
Qed.

(** ** The receiver *)

Definition idle (m : Machine) : Prop := fsm m = MkBFsm [] [] [] /\ state m = InCommand [] Ready.

Definition takes_all : Prop := forall m w, exists w', bs_receive slots m w = (w', Some tt).

(** a message is due an acknowledgement from this node *)
Definition wants_ack (c : BDriverConfig) (m : ModemTransmission) : bool :=
  bool_decide (type m = DATA) && ack_requested m && (dest m =? get_modem_id (bd_connection c)).

(** the machine after the acknowledgement of a message has been sent off *)
Definition after_ack (now : double) (c : BDriverConfig) (bm : BMsg) (m : Machine) : Machine :=
  if wants_ack c (b_msg bm)
  then match process_event crc32 (bd_machine c) clock now (on_fsm (buffer_data_out (b_ack (b_msg bm))) m)
         (EvDial (src (b_msg bm)) (rate (b_msg bm))) with
       | Some (Ok m) => m | _ => m end
  else m.

(** the machine in [Ready] right after it has entered [Command] *)
Definition ready_again (now : double) (cfg : BenthosConfig) (bm : BMsg) : Machine :=
  MkMachine (MkBFsm [] [bm] []) (enter_command cfg clock now EvReceiveComplete LReady) (Some LReady).

Lemma receive_delivers c b w now bm :
  takes_all ->
  exists w', b_receive crc32 clock slots now bm (node c b (ready_again now (bd_machine c) bm) w)
    = (node c b (after_ack now c bm (ready_again now (bd_machine c) bm)) w', [BReceive bm], Ok tt).
Proof.
  intros Ht. destruct (Ht bm w) as (w' & Ew). exists w'. unfold b_receive. rewrite pbind_brd. cbn [node bdrv bd_cfg].
  fold (wants_ack c (b_msg bm)). unfold after_ack. destruct (wants_ack c (b_msg bm)); cbn [pwhen].
  - set (m1 := on_fsm (buffer_data_out (b_ack (b_msg bm))) (ready_again now (bd_machine c) bm)).
    assert (E : exists m', process_event crc32 (bd_machine c) clock now m1 (EvDial (src (b_msg bm)) (rate (b_msg bm))) = Some (Ok m'))
      by (eexists; reflexivity).
    destruct E as (m' & E). rewrite E. unfold b_send. rewrite pbind_assoc. unfold bupd_fsm. rewrite pbind_bupd.
    change (MkBState _ _) with (node c b m1 w). change (dest (b_ack (b_msg bm))) with (src (b_msg bm)).
    change (rate (b_ack (b_msg bm))) with (rate (b_msg bm)).
    rewrite (pbind_quiet _ _ _ _ _ (b_process_known c b m1 w now _ m' E)).
    unfold pbind, pemit, b_call_slot. cbn [node b_world bdrv]. by rewrite Ew.
  - rewrite pbind_ret. unfold pbind, pemit, b_call_slot. cbn [node b_world bdrv]. by rewrite Ew.
Qed.

(** the serial line is asked for at the end: the first command of [Command] is due *)
Lemma command_due cfg now m q st rx out :
  dlt (dadd (double_of_Z 0) (double_of_Z COMMAND_TIMEOUT_SECONDS)) now = true ->
  state m = InCommand ((new_meta, B "+++") :: q) st -> fsm m = MkBFsm [] rx out ->
  process_event crc32 cfg clock now m EvTxSerial
    = Some (Ok (MkMachine (MkBFsm [B "+++" ++ [13]] rx out) (InCommand ((MkAT now 1, B "+++") :: q) st) (history m))).
Proof.
  intros Hd Hs Hf. destruct m as [f s h]. cbn [state fsm] in Hs, Hf. subst. unfold process_event, EVENT_FUEL. cbn [process_queue].
  unfold react at 1. cbn [state].
  assert (command_state_react cfg clock now (MkMachine (MkBFsm [] rx out) (InCommand ((new_meta, B "+++") :: q) st) h)
    ((new_meta, B "+++") :: q) st EvTxSerial = None) as -> by (by destruct st).
  cbn [or_else command_react]. unfold command_tx. cbn [new_meta last_send_time]. rewrite Hd. done.
Qed.

Lemma after_ack_state now c bm :
  exists q st, state (after_ack now c bm (ready_again now (bd_machine c) bm)) = InCommand ((new_meta, B "+++") :: q) st /\
    fsm (after_ack now c bm (ready_again now (bd_machine c) bm))
      = MkBFsm [] [bm] (if wants_ack c (b_msg bm) then [b_ack (b_msg bm)] else []) /\
    (wants_ack c (b_msg bm) = true ->
       st = Dial (if src (b_msg bm) =? BROADCAST_ID then BENTHOS_BROADCAST_ID else src (b_msg bm))
              (if (RATE_MIN <=? rate (b_msg bm)) && (rate (b_msg bm) <=? RATE_MAX) then rate (b_msg bm) else DEFAULT_RATE)).
Proof.
  unfold after_ack. destruct (wants_ack c (b_msg bm)).
  - eexists _, _. split; [reflexivity|]. split; [reflexivity|]. done.
  - eexists _, _. split; [reflexivity|]. by split.
Qed.

(** C10: Two Benthos drivers: when the modem of the first reports the connection, one round of
    do_work writes the message that waits for it; when the second modem prints these bytes in
    hexadecimal over any number of lines with the addresses, the statistics and the end of the
    packet, one round of do_work of the idle second driver signals exactly that message, with the
    addresses and statistics the modem reported, and then addresses the modem again; if the message
    asks this node for an acknowledgement, it is queued and the sender is being dialled. *)
Theorem benthos_exchange (cA cB : BDriverConfig) (bA bB : ModemDriverBase) (mA mB : Machine) (wA wB : W) (now now' : double)
    (msg : ModemTransmission) (t : bytes) (upper : bool) (size chunk : bytes) (chunks : list bytes) (a b stats : bytes)
    (i j : Z) (rs : ReceiveStatistics) :
  takes_all -> up bA -> up bB -> connecting now mA msg -> idle mB ->
  dlt (dadd (double_of_Z 0) (double_of_Z COMMAND_TIMEOUT_SECONDS)) now' = true ->
  plain t -> starts_with (B "CONNECT") t = true -> b_sendable msg ->
  serialize_benthos_modem_message crc32 msg = Some (chunk ++ concat chunks) ->
  wf_bytes chunk -> Forall (fun c => wf_bytes c /\ c <> []) chunks ->
  size_text size (Z.of_nat (length (chunk ++ concat chunks))) -> id_text a i -> id_text b j -> stat_text stats rs ->
  exists mA' mB' wB',
    b_do_work crc32 clock slots (MkBTick now true [line_of t]) (node cA bA mA wA)
      = (node cA bA mA' wA, [BLine (WriteLine (chunk ++ concat chunks))], Ok tt) /\
    b_do_work crc32 clock slots (MkBTick now' true (packet_lines upper size chunk chunks a b stats)) (node cB bB mB wB)
      = (node cB bB mB' wB', [BReceive (b_delivered msg i j rs); BLine (WriteLine (B "+++" ++ [13]))], Ok tt) /\
    (wants_ack cB (b_msg (b_delivered msg i j rs)) = true ->
       data_out (fsm mB') = [b_ack (b_msg (b_delivered msg i j rs))] /\
       exists q r, state mB' = InCommand q (Dial (if i =? BROADCAST_ID then BENTHOS_BROADCAST_ID else i) r)).
Proof.
  intros Ht HuA HuB HcA [HfB HsB] Hnow Hp Hc Hm Hser Hw Hcs Hsize Ha Hb Hst.
  destruct (sender_transmits cA bA mA wA now msg t _ HuA HcA Hp Hc Hser) as (mA' & EA & _).
  set (bm := b_delivered msg i j rs) in *.
  assert (Ef : feed crc32 (bd_machine cB) clock now' (packet_lines upper size chunk chunks a b stats) mB
    = Some (ready_again now' (bd_machine cB) bm)).
  { rewrite (packet_read crc32 (bd_machine cB) clock crc32_range now' mB [] Ready upper size chunk chunks a b stats msg i j rs)
      by done. by rewrite HfB. }
  destruct (receive_delivers cB bB wB now' bm Ht) as (wB' & Er).
  destruct (after_ack_state now' cB bm) as (q & st & Es & Em & Edial). set (m2 := after_ack _ _ _ _) in *.
  set (out := if wants_ack cB (b_msg bm) then _ else _) in *.
  set (m3 := MkMachine (MkBFsm [] [] out) (InCommand ((new_meta, B "+++") :: q) st) (history m2)).
  assert (Em3 : on_fsm pop_received m2 = m3) by (unfold on_fsm, pop_received; by rewrite Em, Es).
  pose proof (command_due (bd_machine cB) now' m3 q st [] out Hnow eq_refl eq_refl) as Etx.
  eexists mA', _, wB'. split; [exact EA|]. split; [unfold b_do_work; cbn [bt_now bt_active bt_lines]|].
  - rewrite (pbind_quiet _ _ _ _ _ (b_set_active_up cB bB mB wB HuB)).
    assert (E0 : b_try_serial_tx crc32 clock now' (node cB bB mB wB) = (node cB bB mB wB, [], Ok tt)).
    { destruct mB as [f s h]. cbn [state fsm] in HsB, HfB. subst.
      exact (try_serial_tx_known cB bB (MkMachine (MkBFsm [] [] []) (InCommand [] Ready) h) wB now'
        (MkMachine (MkBFsm [] [] []) (InCommand [] Ready) h) HuB eq_refl). }
    rewrite (pbind_quiet _ _ _ _ _ E0), (pbind_quiet _ _ _ _ _ (read_lines_feed cB bB wB now' _ _ _ HuB Ef)), pbind_brd.
    cbn [node bdrv bd_fsm ready_again fsm received b_deliver_received]. rewrite pbind_assoc.
    change (MkBState _ wB) with (node cB bB (ready_again now' (bd_machine cB) bm) wB).
    rewrite (pbind_ok _ _ _ _ _ _ Er). unfold bupd_fsm. rewrite pbind_assoc, pbind_bupd, pbind_ret.
    cbn [node bdrv b_world bd_fsm set_bd_fsm]. unfold set_bd_fsm. cbn [bd_cfg bd_base]. rewrite Em3.
    change (MkBState _ wB') with (node cB bB m3 wB').
    rewrite (try_serial_tx_known cB bB m3 wB' now' _ HuB Etx). reflexivity.
  - intros Hwa. unfold out. rewrite Hwa. split; [reflexivity|]. rewrite (Edial Hwa).
    assert (src (b_msg bm) = i) as -> by (cbn; unfold b_carried; by destruct (mt_ack_requested msg)). eexists _, _. reflexivity.
Qed.

End Exchange.

(** ** Evaluation *)
Module BenthosWitness.
#[local] Existing Instances NmeaWitness.trim NmeaWitness.trim_laws Reader.numbers.

(** a codec of the header: the type, the request, the frames with their number *)
Definition encode_bheader (h : BenthosHeader) : bytes :=
  IridiumWitness.type_code (bh_type h) :: IridiumWitness.ack_code (bh_ack_requested h)
  :: Z.of_nat (length (bh_acked_frame h)) :: bh_acked_frame h.

Definition decode_bheader (s : bytes) : option (BenthosHeader * bytes) :=
  match s with
  | t :: a :: n :: rest =>
      Some (MkBHeader (IridiumWitness.type_of t) (IridiumWitness.ack_of a) (take (Z.to_nat n) rest), drop (Z.to_nat n) rest)
  | _ => None
  end.

#[local] Instance codec : BenthosHeaderCodec :=
  {| bheader_encode := fun h => Some (encode_bheader h); bheader_decode := decode_bheader |}.

#[local] Instance codec_laws : BenthosHeaderLaws.
Proof.
  constructor.
  - intros [t a fs] H. eexists. split; [reflexivity|]. unfold bheader_in_bounds in H. cbn [bh_acked_frame] in H.
    apply andb_true_iff in H as [Hl Hf]. apply Nat.leb_le in Hl. unfold encode_bheader, wf_bytes, is_byte. cbn [bh_type bh_ack_requested bh_acked_frame].
    apply Forall_cons. split; [destruct t; cbn; lia|]. apply Forall_cons. split; [destruct a as [[]|]; cbn; lia|].
    apply Forall_cons. split; [lia|]. apply Forall_forall. intros f Hin. rewrite forallb_forall in Hf.
    apply list_elem_of_In in Hin. apply Hf in Hin. to_prop. lia.
  - intros [t a fs] b rest _ [= <-]. cbn. rewrite Nat2Z.id, take_app_length, drop_app_length.
    repeat f_equal; [by destruct t | by destruct a as [[]|]].
Qed.

(** statistics with whole numbers *)
#[local] Instance values : StatValues :=
  {| statf := Z; lexical_cast_float := Reader.read_Z; milliseconds := fun v => v; knots := fun v => v;
     float_to_int := fun v => v; half_milliseconds := fun t => t |}.

Definition msg : ModemTransmission :=
  set_mt_frame [B "hello"; B "goby"] (set_mt_rate (Some 5) (set_mt_ack_requested (Some true)
    (set_mt_type (Some DATA) (set_mt_dest (Some 2) (set_mt_src (Some 1) empty_transmission))))).

Lemma msg_sendable : b_sendable msg.
Proof. split; [reflexivity | repeat constructor; lia]. Qed.

Lemma benthos_message_roundtrip_witness :
  exists s, serialize_benthos_modem_message crc_sum msg = Some s /\
    parse_benthos_modem_message crc_sum s empty_transmission = Ok (b_carried msg empty_transmission).
Proof. apply (benthos_message_roundtrip crc_sum IridiumWitness.crc_sum_range msg empty_transmission msg_sendable). Defined.

(** the packet of the message, printed over two lines *)
Definition packet : bytes := Eval vm_compute in default [] (serialize_benthos_modem_message crc_sum msg).
Definition chunk1 : bytes := Eval vm_compute in take 8 packet.
Definition chunk2 : bytes := Eval vm_compute in drop 8 packet.
Definition stats : bytes := B "CRC:Pass MPD:03 SNR:31 AGC:91 SPD:+00 CCERR:013".
Definition read_stats : ReceiveStatistics := MkStat (Some CRC_PASS) (Some 3) (Some 31) (Some 0) (Some 91) (Some 13).

Lemma packet_size : size_text (B "00" ++ as_string (Z.of_nat (length (chunk1 ++ concat [chunk2])))) (Z.of_nat (length (chunk1 ++ concat [chunk2]))).
Proof. split; [reflexivity|]. split; [by apply (bool_decide_eq_false_1 (32 ∈ _)) | reflexivity]. Qed.

Lemma id_1 : id_text (B "001") 1.
Proof. split; [done|]. split; [apply Forall_forall; intros c Hc; vm_compute in Hc; set_unfold in Hc; lia|]. split; [lia | reflexivity]. Qed.

Lemma id_2 : id_text (B "002") 2.
Proof. split; [done|]. split; [apply Forall_forall; intros c Hc; vm_compute in Hc; set_unfold in Hc; lia|]. split; [lia | reflexivity]. Qed.

Lemma stats_text : stat_text stats read_stats.
Proof.
  split; [|repeat split]. split; [done|]. split; [by intros c [= <-]|]. intros c Hc. vm_compute in Hc. by injection Hc as <-.
Qed.

Lemma chunks_wf : wf_bytes chunk1 /\ Forall (fun c => wf_bytes c /\ c <> []) [chunk2].
Proof. split; [repeat constructor; lia|]. constructor; [|done]. split; [repeat constructor; lia | done]. Qed.

Definition config (id : Z) : BDriverConfig :=
  MkBDriverConfig (MkConnection (Some id) None None (Some (B "/dev/ttyS0")) (Some 9600) None None None None)
    (MkBenthosConfig false None [] id) 20 200.

Definition slots : BSlots unit :=
  {| bs_modify := fun m w => (w, Some m); bs_data_request := fun m w => (w, Some m); bs_receive := fun _ w => (w, Some tt) |}.

Definition base : ModemDriverBase := MkBase (Some true) false false.
Definition date (t : double) : ClockFields := MkClock 2018 6 29 19 4 26.

(** dialled at second 1000 *)
Definition dialling : Machine :=
  MkMachine (MkBFsm [] [] [msg]) (InCommand [(MkAT (double_of_Z 1000) 1, B "ATO")] (Dial 2 5)) None.
Definition ready : Machine := MkMachine (MkBFsm [] [] []) (InCommand [] Ready) None.

Lemma benthos_reception_redials_broadcast_witness :
  exists m' q', feed crc_sum (bd_machine (config 1)) date (double_of_Z 1001)
      (packet_lines true (B "0014") chunk1 [chunk2] (B "002") (B "001") stats) dialling = Some m' /\
    state m' = InCommand q' (Dial BENTHOS_BROADCAST_ID DEFAULT_RATE) /\
    map snd q' = [B "+++"; B "@OpMode=0"; B "@RemoteAddr=255"; B "@TxRate=2"; B "ATO"] /\
    data_out (fsm m') = data_out (fsm dialling).
Proof.
  apply (benthos_reception_redials_broadcast crc_sum (bd_machine (config 1)) date IridiumWitness.crc_sum_range
    (double_of_Z 1001) dialling [(MkAT (double_of_Z 1000) 1, B "ATO")] 2 5 true (B "0014") chunk1 [chunk2] (B "002") (B "001") stats msg 2 1 read_stats).
  all: try reflexivity.
  - apply msg_sendable.
  - apply chunks_wf.
  - apply chunks_wf.
  - exact packet_size.
  - exact id_2.
  - exact id_1.
  - apply stats_text.
Defined.

Lemma benthos_exchange_witness :
  exists mA' mB' wB',
    b_do_work crc_sum date slots (MkBTick (double_of_Z 1001) true [line_of (B "CONNECT 800 bits/sec")]) (node (config 1) base dialling tt)
      = (node (config 1) base mA' tt, [BLine (WriteLine (chunk1 ++ concat [chunk2]))], Ok tt) /\
    b_do_work crc_sum date slots (MkBTick (double_of_Z 1003) true (packet_lines true (B "0014") chunk1 [chunk2] (B "001") (B "002") stats))
        (node (config 2) base ready tt)
      = (node (config 2) base mB' wB', [BReceive (b_delivered msg 1 2 read_stats); BLine (WriteLine (B "+++" ++ [13]))], Ok tt) /\
    (wants_ack (config 2) (b_msg (b_delivered msg 1 2 read_stats)) = true ->
       data_out (fsm mB') = [b_ack (b_msg (b_delivered msg 1 2 read_stats))] /\
       exists q r, state mB' = InCommand q (Dial (if 1 =? BROADCAST_ID then BENTHOS_BROADCAST_ID else 1) r)).
Proof.
  apply (benthos_exchange crc_sum date IridiumWitness.crc_sum_range slots (config 1) (config 2) base base dialling ready tt tt
    (double_of_Z 1001) (double_of_Z 1003) msg (B "CONNECT 800 bits/sec") true (B "0014") chunk1 [chunk2] (B "001") (B "002") stats
    1 2 read_stats).
  all: try reflexivity.
  - intros m w. by exists w.
  - by eexists _, 2, 5.
  - by split.
  - split; [done|]. split; intros c Hc; vm_compute in Hc; by injection Hc as <-.
  - apply msg_sendable.
  - apply chunks_wf.
  - apply chunks_wf.
  - exact packet_size.
  - exact id_1.
  - exact id_2.
  - apply stats_text.
Defined.

(** the acknowledgement is wanted here *)
Example benthos_wants_ack : wants_ack (config 2) (b_msg (b_delivered msg 1 2 read_stats)) = true.
Proof. reflexivity. Qed.

(** the response of the modem names the time that was set *)
Example benthos_date_acknowledged :
  date_command (date (double_of_Z 0)) = B "date -t19:04:26 -d06/29/2018" /\
  valid_response (date_command (date (double_of_Z 0))) (B "Fri Jun 29 19:04:26 2018") = true.
Proof. split; reflexivity. Qed.

End BenthosWitness.
