(* ===== verification/FrontSeatData.v ===== *)
(** * moos/protobuf/frontseat.proto and the messages it carries

    The messages between the backseat and the drivers of a vehicle, with the
    fields that the modelled code reads or writes; an optional field that is
    absent is [None]. *)

From Stdlib Require Import SpecFloat.
From S2P Require Import Prelude Double.

(** ** States and errors *)

Inductive InterfaceState : Type :=
| INTERFACE_STANDBY | INTERFACE_LISTEN | INTERFACE_COMMAND | INTERFACE_HELM_ERROR | INTERFACE_FS_ERROR.
Inductive FrontSeatState : Type :=
| FRONTSEAT_NOT_CONNECTED | FRONTSEAT_IDLE | FRONTSEAT_ACCEPTING_COMMANDS | FRONTSEAT_IN_CONTROL.
Inductive HelmState : Type := HELM_NOT_RUNNING | HELM_DRIVE | HELM_PARK.
Inductive HelmError : Type := ERROR_HELM_NONE | ERROR_HELM_NOT_RUNNING | ERROR_HELM_PARKED.
Inductive FrontSeatError : Type :=
| ERROR_FRONTSEAT_NONE | ERROR_FRONTSEAT_NOT_CONNECTED | ERROR_FRONTSEAT_NOT_PROVIDING_DATA | ERROR_FRONTSEAT_IGNORING_COMMANDS.

#[export] Instance interface_state_eq_dec : EqDecision InterfaceState.
Proof. solve_decision. Defined.
#[export] Instance frontseat_state_eq_dec : EqDecision FrontSeatState.
Proof. solve_decision. Defined.
#[export] Instance helm_state_eq_dec : EqDecision HelmState.
Proof. solve_decision. Defined.
#[export] Instance helm_error_eq_dec : EqDecision HelmError.
Proof. solve_decision. Defined.
#[export] Instance frontseat_error_eq_dec : EqDecision FrontSeatError.
Proof. solve_decision. Defined.

Record FrontSeatInterfaceStatus : Type := MkStatus {
  st_state : InterfaceState;
  st_frontseat_state : FrontSeatState;
  st_helm_state : HelmState;
  st_helm_error : option HelmError;
  st_frontseat_error : option FrontSeatError
}.

(** ** Navigation *)

Inductive SourceSensor : Type :=
| SOURCE_UNKNOWN | GPS | DEAD_RECKONING | INERTIAL_MEASUREMENT_UNIT | PRESSURE_SENSOR | COMPASS | SIMULATION.
#[export] Instance source_sensor_eq_dec : EqDecision SourceSensor.
Proof. solve_decision. Defined.

Record GeodeticCoordinate : Type := MkGeodetic {
  g_lat : option double;
  g_lon : option double;
  g_depth : option double;
  g_altitude : option double;
  g_lat_source : option SourceSensor;
  g_lon_source : option SourceSensor
}.
Definition empty_geodetic : GeodeticCoordinate := MkGeodetic None None None None None None.

Record CartesianCoordinate : Type := MkCartesian { c_x : option double; c_y : option double; c_z : option double }.
Definition empty_cartesian : CartesianCoordinate := MkCartesian None None None.

Record EulerAngles : Type := MkEuler {
  e_roll : option double;
  e_pitch : option double;
  e_heading : option double;
  e_roll_rate : option double;
  e_pitch_rate : option double;
  e_heading_rate : option double;
  e_roll_rate_time_lag : option double;
  e_pitch_rate_time_lag : option double;
  e_heading_rate_time_lag : option double
}.
Definition empty_euler : EulerAngles := MkEuler None None None None None None None None None.

Record NodeStatus : Type := MkNodeStatus {
  ns_time : option double;
  ns_name : option bytes;
  ns_modem_id : option Z;
  ns_global_fix : option GeodeticCoordinate;
  ns_local_fix : option CartesianCoordinate;
  ns_pose : option EulerAngles;
  ns_speed : option double;
  ns_speed_time_lag : option double
}.
Definition empty_node_status : NodeStatus := MkNodeStatus None None None None None None None None.

(** a [double] that is absent reads as 0 *)
Definition value (o : option double) : double := default (double_of_Z 0) o.
Definition global_fix (s : NodeStatus) : GeodeticCoordinate := default empty_geodetic (ns_global_fix s).
Definition local_fix (s : NodeStatus) : CartesianCoordinate := default empty_cartesian (ns_local_fix s).
Definition pose (s : NodeStatus) : EulerAngles := default empty_euler (ns_pose s).

(** ** Conductivity, temperature, depth *)

Inductive SalinityAlgorithm : Type := SAL_ALGORITHM_UNKNOWN | UNESCO_44_PREKIN_AND_LEWIS_1980.
Inductive SoundSpeedAlgorithm : Type := SS_ALGORITHM_UNKNOWN | UNESCO_44_CHEN_AND_MILLERO_1977 | MACKENZIE_1981 | DEL_GROSSO_1974.
Inductive DensityAlgorithm : Type := DENSITY_ALGORITHM_UNKNOWN | UNESCO_38_MILLERO_AND_POISSON_1981.

Record CTDSample : Type := MkCTD {
  ctd_time : option double;
  ctd_conductivity : option double;
  ctd_temperature : option double;
  ctd_pressure : option double;
  ctd_salinity : option double;
  ctd_sound_speed : option double;
  ctd_density : option double;
  ctd_depth : option double;
  ctd_lat : option double;
  ctd_lon : option double;
  ctd_salinity_algorithm : option SalinityAlgorithm;
  ctd_sound_speed_algorithm : option SoundSpeedAlgorithm;
  ctd_density_algorithm : option DensityAlgorithm
}.
Definition empty_ctd : CTDSample :=
  MkCTD None None None None None None None None None None None None None.

(** ** Commands *)

Record DesiredCourse : Type := MkCourse {
  dc_time : option double;
  dc_heading : option double;
  dc_speed : option double;
  dc_depth : option double;
  dc_pitch : option double;
  dc_roll : option double;
  dc_z_rate : option double;
  dc_altitude : option double
}.
Definition empty_course : DesiredCourse := MkCourse None None None None None None None None.

(** [BluefinExtraCommands]; the constructors in the order of their numbers *)
Inductive BluefinCommand : Type :=
| UNKNOWN_COMMAND | DESIRED_COURSE | TRIM_ADJUST | BUOYANCY_ADJUST | SILENT_MODE | CANCEL_CURRENT_BEHAVIOR
| ABORT_MISSION | MISSION_START_CONFIRM | MISSION_END_CONFIRM.
#[export] Instance bluefin_command_eq_dec : EqDecision BluefinCommand.
Proof. solve_decision. Defined.

Record BluefinExtraCommands : Type := MkExtra {
  ex_command : option BluefinCommand;
  ex_silent_mode : option Z;    (* NORMAL = 0, SILENT = 1 *)
  ex_abort_reason : option Z    (* SUCCESSFUL_MISSION = 0, ABORT_WITH_ERRORS = 1 *)
}.

(** [IverExtraCommands] and [IverState] of the Iver vehicle *)
Inductive IverCommand : Type := IVER_UNKNOWN_COMMAND | START_MISSION | STOP_MISSION.
Record IverExtraCommands : Type := MkIverExtra { ic_command : IverCommand; ic_mission : option bytes }.
Inductive IverMissionMode : Type :=
| IVER_MODE_UNKNOWN | IVER_MODE_NORMAL | IVER_MODE_STOPPED | IVER_MODE_PARKING | IVER_MODE_MANUAL_OVERRIDE | IVER_MODE_MANUAL_PARKING
| IVER_MODE_SERVO_MODE | IVER_MODE_MISSION_MODE.

Record CommandRequest : Type := MkRequest {
  cr_desired_course : option DesiredCourse;
  cr_response_requested : option bool;
  cr_request_id : option Z;
  cr_cancel_request_id : option Z;
  cr_bluefin_command : option BluefinExtraCommands;
  cr_iver_command : option IverExtraCommands
}.
Definition request_id (c : CommandRequest) : Z := default 0 (cr_request_id c).
Definition response_requested (c : CommandRequest) : bool := default false (cr_response_requested c).

Record CommandResponse : Type := MkResponse {
  rs_request_successful : bool;
  rs_request_id : Z;
  rs_error_code : option Z;
  rs_error_string : option bytes
}.

(** ** Data *)

Record BuoyancyStatus : Type := MkBuoyancy {
  by_status : option Z;
  by_error : option Z;
  by_debug_string : option bytes;
  by_newtons : option double
}.
Record TrimStatus : Type := MkTrim {
  tr_status : option Z;
  tr_error : option Z;
  tr_debug_string : option bytes;
  tr_pitch : option double;
  tr_roll : option double
}.
Record PayloadStatus : Type := MkPayload { pl_id : Z; pl_expire_time : Z; pl_msg : bytes; pl_all_ok : bool }.

Record BluefinExtraData : Type := MkExtraData {
  xd_raw_out : option bytes;
  xd_raw_in : option bytes;
  xd_buoyancy : option BuoyancyStatus;
  xd_trim : option TrimStatus;
  xd_payload : list PayloadStatus
}.
Definition empty_extra_data : BluefinExtraData := MkExtraData None None None None [].

Record FrontSeatInterfaceData : Type := MkData {
  fd_node_status : option NodeStatus;
  fd_ctd_sample : option CTDSample;
  fd_dccl_message : option bytes;
  fd_bluefin : option BluefinExtraData;
  fd_iver_mode : option IverMissionMode
}.
Definition empty_data : FrontSeatInterfaceData := MkData None None None None None.

Record FrontSeatRaw : Type := MkRaw { fr_raw : bytes; fr_description : bytes }.
