(* ===== verification/FrontSeat.v ===== *)
(** * moos/frontseat/frontseat.{h,cpp}, frontseat_exception.h and apps/moos/iFrontSeat:
      the interface between the backseat and a vehicle

    The virtual functions of [FrontSeatInterfaceBase] are a class: the state
    machine of the base and the application are written against it, and a
    driver (Bluefin) is an instance. What a driver signals is an event. The
    application subscribes to mail and publishes; parsing of mail and the
    geodesy (PROJ) are interfaces. *)

From Stdlib Require Import SpecFloat.
From S2P Require Import Prelude Double Time As Nmea Prog Seawater FrontSeatData.

#[local] Open Scope prog_scope.

(** [FrontSeatException], made from an error of the helm, of the frontseat, or
    of neither; other exceptions derived from [std::exception]; [exit]; a
    conversion whose result the language leaves undefined *)
Inductive FsExn : Type :=
| HelmException (e : HelmError)
| FsException (e : FrontSeatError)
| UnknownFsException
| StdException
| Died
| Undefined.

(** what a driver does to the outside *)
Inductive FsEvent : Type :=
| StateChange (s : FrontSeatInterfaceStatus)   (* with what [status()] returns then *)
| Response (r : CommandResponse)
| DataFrom (d : FrontSeatInterfaceData)
| RawFrom (r : FrontSeatRaw)
| RawTo (r : FrontSeatRaw)
| WriteVehicle (line : bytes)
| WriteClock (line : bytes).                      (* to the serial port of NTP *)

(** ** The virtual functions

    [driver_loop] sees the time, its own inputs [I] and the state of the base;
    the other calls see the time. *)
Class FrontSeatDriver (D I : Type) : Type := {
  frontseat_state : D -> FrontSeatState;
  frontseat_providing_data : D -> bool;
  driver_loop : double -> I -> InterfaceState -> prog D FsEvent FsExn unit;
  send_command_to_frontseat : double -> CommandRequest -> prog D FsEvent FsExn unit;
  send_data_to_frontseat : double -> FrontSeatInterfaceData -> prog D FsEvent FsExn unit;
  send_raw_to_frontseat : double -> FrontSeatRaw -> prog D FsEvent FsExn unit
}.

Record iFrontSeatConfig : Type := MkIfsConfig {
  require_helm : bool;
  helm_running_timeout : double;
  frontseat_connected_timeout : double;
  ifs_modem_id : Z;
  community : bytes;
  exit_on_error : bool;
  ifs_app_name : bytes
}.

(** ** The base class *)

Record FrontSeatInterfaceBase (D : Type) : Type := MkFs {
  helm_state : HelmState;
  state : InterfaceState;
  start_time : double;
  last_frontseat_error : FrontSeatError;
  last_helm_error : HelmError;
  driver : D
}.
Arguments MkFs {D}.
Arguments helm_state {D}.
Arguments state {D}.
Arguments start_time {D}.
Arguments last_frontseat_error {D}.
Arguments last_helm_error {D}.
Arguments driver {D}.

Definition new_frontseat {D : Type} (now : double) (d : D) : FrontSeatInterfaceBase D :=
  MkFs HELM_NOT_RUNNING INTERFACE_STANDBY now ERROR_FRONTSEAT_NONE ERROR_HELM_NONE d.

Section Base.
Context {D I : Type} {FD : FrontSeatDriver D I}.
Variable cfg : iFrontSeatConfig.

Abbreviation fs := (FrontSeatInterfaceBase D).
Abbreviation fprog := (prog fs FsEvent FsExn).

Definition set_helm_state (h : HelmState) (f : fs) : fs :=
  MkFs h (state f) (start_time f) (last_frontseat_error f) (last_helm_error f) (driver f).
Definition set_state (s : InterfaceState) (f : fs) : fs :=
  MkFs (helm_state f) s (start_time f) (last_frontseat_error f) (last_helm_error f) (driver f).
Definition set_frontseat_error (e : FrontSeatError) (f : fs) : fs :=
  MkFs (helm_state f) (state f) (start_time f) e (last_helm_error f) (driver f).
Definition set_helm_error (e : HelmError) (f : fs) : fs :=
  MkFs (helm_state f) (state f) (start_time f) (last_frontseat_error f) e (driver f).
Definition set_driver (d : D) (f : fs) : fs :=
  MkFs (helm_state f) (state f) (start_time f) (last_frontseat_error f) (last_helm_error f) d.

Definition status (f : fs) : FrontSeatInterfaceStatus :=
  MkStatus (state f) (frontseat_state (driver f)) (helm_state f)
    (if bool_decide (last_helm_error f = ERROR_HELM_NONE) then None else Some (last_helm_error f))
    (if bool_decide (last_frontseat_error f = ERROR_FRONTSEAT_NONE) then None else Some (last_frontseat_error f)).

Definition signal_state_change : fprog unit := fun f => (f, [StateChange (status f)], Ok tt).

(** a virtual function of the driver *)
Definition on_driver {A : Type} (m : prog D FsEvent FsExn A) : fprog A := fun f =>
  let '(d, ev, r) := m (driver f) in (set_driver d f, ev, r).

Definition check_error_states (now : double) : fprog unit :=
  let! f := pget in
  let late timeout := dlt (dadd (start_time f) timeout) now in
  (if bool_decide (helm_state f = HELM_PARK) then pthrow (HelmException ERROR_HELM_PARKED)
   else if require_helm cfg
           && (bool_decide (helm_state f = HELM_NOT_RUNNING)
               && (bool_decide (state f = INTERFACE_COMMAND) || late (helm_running_timeout cfg)))
   then pthrow (HelmException ERROR_HELM_NOT_RUNNING) else pret tt);;
  if bool_decide (frontseat_state (driver f) = FRONTSEAT_NOT_CONNECTED)
     && (negb (bool_decide (state f = INTERFACE_STANDBY)) || late (frontseat_connected_timeout cfg))
  then pthrow (FsException ERROR_FRONTSEAT_NOT_CONNECTED)
  else if negb (frontseat_providing_data (driver f)) && negb (bool_decide (state f = INTERFACE_STANDBY))
  then pthrow (FsException ERROR_FRONTSEAT_NOT_PROVIDING_DATA)
  else pret tt.

(** the switch of [check_change_state] *)
Definition change_state (now : double) : fprog unit :=
  let! f := pget in
  let d := driver f in
  match state f with
  | INTERFACE_STANDBY =>
      if frontseat_providing_data d then pmod (set_state INTERFACE_LISTEN) else check_error_states now
  | INTERFACE_LISTEN =>
      if bool_decide (frontseat_state d = FRONTSEAT_ACCEPTING_COMMANDS)
         && (bool_decide (helm_state f = HELM_DRIVE) || negb (require_helm cfg))
      then pmod (set_state INTERFACE_COMMAND) else check_error_states now
  | INTERFACE_COMMAND =>
      if bool_decide (frontseat_state d = FRONTSEAT_IN_CONTROL) || bool_decide (frontseat_state d = FRONTSEAT_IDLE)
      then pmod (set_state INTERFACE_LISTEN) else check_error_states now
  | INTERFACE_HELM_ERROR =>
      pwhen (bool_decide (helm_state f = HELM_DRIVE))
        (pmod (fun f => set_state INTERFACE_STANDBY (set_helm_error ERROR_HELM_NONE f)))
  | INTERFACE_FS_ERROR =>
      pwhen ((bool_decide (last_frontseat_error f = ERROR_FRONTSEAT_NOT_CONNECTED)
              && negb (bool_decide (frontseat_state d = FRONTSEAT_NOT_CONNECTED)))
             || (bool_decide (last_frontseat_error f = ERROR_FRONTSEAT_NOT_PROVIDING_DATA) && frontseat_providing_data d))
        (pmod (fun f => set_state INTERFACE_STANDBY (set_frontseat_error ERROR_FRONTSEAT_NONE f)))
  end.

Definition check_change_state (now : double) : fprog unit :=
  let! previous_state := pread state in
  change_state now;;
  let! present_state := pread state in
  pwhen (negb (bool_decide (present_state = previous_state))) signal_state_change.

Definition do_work (now : double) (i : I) : fprog unit :=
  pcatch
    (check_change_state now;;
     let! s := pread state in
     on_driver (driver_loop now i s))
    (fun x =>
       match x with
       | HelmException e =>
           Some (pmod (fun f => set_state INTERFACE_HELM_ERROR (set_helm_error e f));; signal_state_change)
       | FsException e =>
           Some (pmod (fun f => set_state INTERFACE_FS_ERROR (set_frontseat_error e f));; signal_state_change)
       | _ => None
       end).

End Base.

(** ** Missing values *)

(** [CMOOSGeodesy]: to latitude and longitude, and to north and east *)
Class Geodesy : Type := {
  utm2latlong : double -> double -> double * double;
  latlong2localutm : double -> double -> double * double
}.

Section Missing.
Context {GE : Geodesy}.
Variable (sin : double -> double).

(** [salinity] in its default direction, which has no loop *)
Definition salinity_of (conductivity temperature pressure : double) : double :=
  default S754_nan (SalinityCalculator.salinity 0 conductivity temperature pressure false).

Definition compute_missing_ctd (s : CTDSample) : CTDSample :=
  let pressure_dbar := ddiv (value (ctd_pressure s)) (double_of_Z 10000) in
  let '(sal, sal_alg) :=
    match ctd_salinity s with
    | Some v => (v, ctd_salinity_algorithm s)
    | None => (salinity_of (dmul (value (ctd_conductivity s)) (double_of_Z 10)) (value (ctd_temperature s)) pressure_dbar,
               Some UNESCO_44_PREKIN_AND_LEWIS_1980)
    end in
  let depth := match ctd_depth s with Some v => v | None => pressure2depth sin pressure_dbar (value (ctd_lat s)) end in
  let '(speed, speed_alg) :=
    match ctd_sound_speed s with
    | Some v => (v, ctd_sound_speed_algorithm s)
    | None => (mackenzie_soundspeed (value (ctd_temperature s)) sal depth, Some MACKENZIE_1981)
    end in
  let '(density, density_alg) :=
    match ctd_density s with
    | Some v => (v, ctd_density_algorithm s)
    | None => (dadd (density_anomaly sal (value (ctd_temperature s)) pressure_dbar) (double_of_Z 1000),
               Some UNESCO_38_MILLERO_AND_POISSON_1981)
    end in
  MkCTD (ctd_time s) (ctd_conductivity s) (ctd_temperature s) (ctd_pressure s) (Some sal) (Some speed) (Some density) (Some depth)
    (ctd_lat s) (ctd_lon s) sal_alg speed_alg density_alg.

Definition compute_missing_status (cfg : iFrontSeatConfig) (s : NodeStatus) : NodeStatus :=
  let name := match ns_name s with None => Some (community cfg) | n => n end in
  let modem_id := match ns_modem_id s with None => Some (ifs_modem_id cfg) | m => m end in
  let '(g, l) :=
    match ns_global_fix s, ns_local_fix s with
    | None, Some l =>
        let '(lat, lon) := utm2latlong (value (c_x l)) (value (c_y l)) in
        (Some (MkGeodetic (Some lat) (Some lon) (SFopp <$> c_z l) None None None), Some l)
    | Some g, None =>
        let '(y, x) := latlong2localutm (value (g_lat g)) (value (g_lon g)) in
        (Some g, Some (MkCartesian (Some x) (Some y) (SFopp <$> g_depth g)))
    | g, l => (g, l)
    end in
  MkNodeStatus (ns_time s) name modem_id g l (ns_pose s) (ns_speed s) (ns_speed_time_lag s).

End Missing.

(** ** The application *)

(** [parse_for_moos] of the three kinds of mail *)
Class MoosParse : Type := {
  parse_command : bytes -> CommandRequest;
  parse_data : bytes -> FrontSeatInterfaceData;
  parse_raw : bytes -> FrontSeatRaw
}.

Section Application.
Context {D I : Type} {FD : FrontSeatDriver D I} {MP : MoosParse} {TR : BoostTrim}.
Variable cfg : iFrontSeatConfig.

Abbreviation fprog := (prog (FrontSeatInterfaceBase D) FsEvent FsExn).

Definition in_error (s : InterfaceState) : bool :=
  match s with INTERFACE_FS_ERROR | INTERFACE_HELM_ERROR => true | _ => false end.

Definition ifs_loop (now : double) (i : I) : fprog unit :=
  do_work cfg now i;;
  let! s := pread state in
  if exit_on_error cfg && in_error s then pthrow Died else pret tt.

Definition handle_mail_command_request (now : double) (msg : bytes) : fprog unit :=
  let! s := pread state in
  pwhen (bool_decide (s = INTERFACE_COMMAND)) (on_driver (send_command_to_frontseat now (parse_command msg))).

Definition listening (s : InterfaceState) : bool :=
  match s with INTERFACE_COMMAND | INTERFACE_LISTEN => true | _ => false end.

Definition handle_mail_data_to_frontseat (now : double) (msg : bytes) : fprog unit :=
  let! s := pread state in
  pwhen (listening s) (on_driver (send_data_to_frontseat now (parse_data msg))).

Definition handle_mail_raw_out (now : double) (source msg : bytes) : fprog unit :=
  if bool_decide (source = ifs_app_name cfg) then pret tt
  else
    let! s := pread state in
    pwhen (listening s) (on_driver (send_raw_to_frontseat now (parse_raw msg))).

Definition handle_mail_helm_state (msg : bytes) : fprog unit :=
  let sval := boost_trim msg in
  pmod (set_helm_state (if iequals sval (B "drive") then HELM_DRIVE
                        else if iequals sval (B "park") then HELM_PARK else HELM_NOT_RUNNING)).

End Application.

(** what the application publishes, under the configured names *)
Inductive Publication : Type :=
| PubStatus (s : FrontSeatInterfaceStatus)
| PubResponse (r : CommandResponse)
| PubData (d : FrontSeatInterfaceData)
| PubNodeStatus (s : NodeStatus)
| PubRawIn (r : FrontSeatRaw)
| PubRawOut (r : FrontSeatRaw).

Definition status_loop {D I : Type} {FD : FrontSeatDriver D I} (f : FrontSeatInterfaceBase D) : list Publication := [PubStatus (status f)].

Definition handle_driver_data_from_frontseat (d : FrontSeatInterfaceData) : list Publication :=
  PubData d :: match fd_node_status d with Some s => [PubNodeStatus s] | None => [] end.

(** the slots of the application *)
Definition published (e : FsEvent) : list Publication :=
  match e with
  | Response r => [PubResponse r]
  | DataFrom d => handle_driver_data_from_frontseat d
  | RawFrom r => [PubRawIn r]
  | RawTo r => [PubRawOut r]
  | StateChange _ | WriteVehicle _ | WriteClock _ => []
  end.
