(* ===== verification/FrontSeatChart.v ===== *)
(** * The states of the vehicle interface *)

From Stdlib Require Import SpecFloat.
From S2P Require Import Prelude Double Time As Nmea Prog Seawater FrontSeatData FrontSeat.

#[local] Open Scope prog_scope.

Section Chart.
Context {D I : Type} {FD : FrontSeatDriver D I} {MP : MoosParse} {TR : BoostTrim}.
Variable cfg : iFrontSeatConfig.

Abbreviation fs := (FrontSeatInterfaceBase D).

(** ** Specification: the chart of the states

    What one call of [check_change_state] and the exceptions of the loop may do. *)

Definition ready_for_commands (f : fs) : Prop :=
  frontseat_state (driver f) = FRONTSEAT_ACCEPTING_COMMANDS /\ (helm_state f = HELM_DRIVE \/ require_helm cfg = false).

Definition error_gone (f : fs) : Prop :=
  (last_frontseat_error f = ERROR_FRONTSEAT_NOT_CONNECTED /\ frontseat_state (driver f) <> FRONTSEAT_NOT_CONNECTED) \/
  (last_frontseat_error f = ERROR_FRONTSEAT_NOT_PROVIDING_DATA /\ frontseat_providing_data (driver f) = true).

(** [chart f s]: from the state of [f] to [s] without an error *)
Inductive chart (f : fs) : InterfaceState -> Prop :=
| chart_stay : chart f (state f)
| chart_listen : state f = INTERFACE_STANDBY -> frontseat_providing_data (driver f) = true -> chart f INTERFACE_LISTEN
| chart_command : state f = INTERFACE_LISTEN -> ready_for_commands f -> chart f INTERFACE_COMMAND
| chart_release : state f = INTERFACE_COMMAND ->
    frontseat_state (driver f) = FRONTSEAT_IN_CONTROL \/ frontseat_state (driver f) = FRONTSEAT_IDLE -> chart f INTERFACE_LISTEN
| chart_helm_back : state f = INTERFACE_HELM_ERROR -> helm_state f = HELM_DRIVE -> chart f INTERFACE_STANDBY
| chart_fs_back : state f = INTERFACE_FS_ERROR -> error_gone f -> chart f INTERFACE_STANDBY.

(** an error of the interface itself *)
Inductive fault (f : fs) : FsExn -> Prop :=
| fault_parked : helm_state f = HELM_PARK -> fault f (HelmException ERROR_HELM_PARKED)
| fault_no_helm : require_helm cfg = true -> helm_state f = HELM_NOT_RUNNING -> fault f (HelmException ERROR_HELM_NOT_RUNNING)
| fault_not_connected : frontseat_state (driver f) = FRONTSEAT_NOT_CONNECTED -> fault f (FsException ERROR_FRONTSEAT_NOT_CONNECTED)
| fault_no_data : frontseat_providing_data (driver f) = false -> fault f (FsException ERROR_FRONTSEAT_NOT_PROVIDING_DATA).

Lemma check_error_states_spec now f :
  check_error_states cfg now f = (f, [], Ok tt) \/ exists x, check_error_states cfg now f = (f, [], Err x) /\ fault f x.
Proof.
  unfold check_error_states. rewrite pbind_get. cbv zeta.
  destruct (bool_decide (helm_state f = HELM_PARK)) eqn:Hp.
  { right. eexists. split; [reflexivity|]. to_prop. by constructor. }
  match goal with |- context [if ?b then pthrow _ else pret tt] => destruct b eqn:E1 end.
  { right. eexists. split; [reflexivity|]. to_prop. by constructor. }
  rewrite pbind_ret.
  match goal with |- context [if ?b then pthrow _ else if ?c then _ else _] => destruct b eqn:E2; [|destruct c eqn:E3] end.
  - right. eexists. split; [reflexivity|]. to_prop. by constructor.
  - right. eexists. split; [reflexivity|]. to_prop. by constructor.
  - by left.
Qed.

(** *** The switch follows the chart *)

Definition cleared (f f' : fs) : Prop :=
  f' = set_state (state f') f \/
  (state f = INTERFACE_HELM_ERROR /\ f' = set_state INTERFACE_STANDBY (set_helm_error ERROR_HELM_NONE f)) \/
  (state f = INTERFACE_FS_ERROR /\ f' = set_state INTERFACE_STANDBY (set_frontseat_error ERROR_FRONTSEAT_NONE f)).

Lemma cleared_refl f : cleared f f.
Proof. left. by destruct f. Qed.

Lemma change_state_spec now f :
  (exists f', change_state cfg now f = (f', [], Ok tt) /\ chart f (state f') /\ cleared f f') \/
  (exists x, in_error (state f) = false /\ change_state cfg now f = (f, [], Err x) /\ fault f x).
Proof.
  assert (Hc : in_error (state f) = false ->
    (exists f', check_error_states cfg now f = (f', [], Ok tt) /\ chart f (state f') /\ cleared f f') \/
    (exists x, in_error (state f) = false /\ check_error_states cfg now f = (f, [], Err x) /\ fault f x)).
  { intros He. destruct (check_error_states_spec now f) as [E | (x & E & Hx)].
    - left. exists f. split; [done|]. split; [constructor | apply cleared_refl].
    - right. by exists x. }
  unfold change_state. rewrite pbind_get. cbv zeta. destruct (state f) eqn:Es.
  - destruct (frontseat_providing_data (driver f)) eqn:Ep; [|by apply Hc]. left. eexists. split; [reflexivity|].
    split; [by constructor | by left].
  - match goal with |- context [if ?b then pmod _ else _] => destruct b eqn:E end; [|by apply Hc].
    left. eexists. split; [reflexivity|]. split; [|by left]. apply chart_command; [done|].
    apply andb_true_iff in E as [E1 E2]. apply orb_true_iff in E2. split; [by to_prop|]. destruct E2; to_prop; auto.
  - match goal with |- context [if ?b then pmod _ else _] => destruct b eqn:E end; [|by apply Hc].
    left. eexists. split; [reflexivity|]. split; [|by left]. apply chart_release; [done|].
    apply orb_true_iff in E as [E|E]; to_prop; auto.
  - left. destruct (bool_decide (helm_state f = HELM_DRIVE)) eqn:E; cbn [pwhen].
    + eexists. split; [reflexivity|]. to_prop. split; [by constructor|]. right. left. done.
    + eexists. split; [reflexivity|]. split; [constructor | apply cleared_refl].
  - left. match goal with |- context [pwhen ?b _] => destruct b eqn:E end; cbn [pwhen].
    + eexists. split; [reflexivity|]. split; [|by right; right]. apply chart_fs_back; [done|].
      apply orb_true_iff in E as [E|E]; to_prop; [by left | by right].
    + eexists. split; [reflexivity|]. split; [constructor | apply cleared_refl].
Qed.

(** [check_change_state] signals a change *)
Lemma check_change_state_spec now f :
  (exists f' ev, check_change_state cfg now f = (f', ev, Ok tt) /\ chart f (state f') /\ cleared f f') \/
  (exists x, in_error (state f) = false /\ check_change_state cfg now f = (f, [], Err x) /\ fault f x).
Proof.
  unfold check_change_state. rewrite pbind_read.
  destruct (change_state_spec now f) as [(f' & E & Hc & Hk) | (x & He & E & Hx)].
  - left. rewrite (pbind_quiet _ _ _ _ _ E), pbind_read.
    destruct (negb _); cbn [pwhen]; eexists _, _; (split; [reflexivity|]); done.
  - right. exists x. by rewrite (pbind_err _ _ _ _ _ _ E).
Qed.

(** ** Runs of the application *)

Inductive AppEvent : Type :=
| Tick (now : double) (i : I)
| MailCommand (now : double) (msg : bytes)
| MailData (now : double) (msg : bytes)
| MailRaw (now : double) (source msg : bytes)
| MailHelm (msg : bytes).

Definition handle (e : AppEvent) : prog fs FsEvent FsExn unit :=
  match e with
  | Tick now i => ifs_loop cfg now i
  | MailCommand now msg => handle_mail_command_request now msg
  | MailData now msg => handle_mail_data_to_frontseat now msg
  | MailRaw now source msg => handle_mail_raw_out cfg now source msg
  | MailHelm msg => handle_mail_helm_state msg
  end.

(** an exception out of a handler ends the application *)
Fixpoint run (l : list AppEvent) (f : fs) : option fs :=
  match l with
  | [] => Some f
  | e :: l => match handle e f with (f', _, Ok _) => run l f' | _ => None end
  end.

Lemma run_app l1 l2 f : run (l1 ++ l2) f = match run l1 f with Some f' => run l2 f' | None => None end.
Proof.
  revert f. induction l1 as [|e l1 IH]; intros f; [done|]. cbn [run app]. destruct (handle e f) as [[f' ev] [|]]; [apply IH | done].
Qed.

(** mail leaves the state alone *)
Definition is_mail (e : AppEvent) : bool := match e with Tick _ _ => false | _ => true end.

Lemma mail_keeps_state e f f' ev r :
  handle e f = (f', ev, r) -> is_mail e = true ->
  state f' = state f /\ last_helm_error f' = last_helm_error f /\ last_frontseat_error f' = last_frontseat_error f.
Proof.
  assert (Hw : forall (b : bool) (m : prog D FsEvent FsExn unit), pwhen b (on_driver m) f = (f', ev, r) ->
    state f' = state f /\ last_helm_error f' = last_helm_error f /\ last_frontseat_error f' = last_frontseat_error f).
  { intros [] m; cbn [pwhen]; [|by intros [= <- _ _]]. unfold on_driver. destruct (m (driver f)) as [[d ev1] r1]. by intros [= <- _ _]. }
  intros E He. revert E. destruct e; try done; cbn [handle].
  - unfold handle_mail_command_request. rewrite pbind_read. apply Hw.
  - unfold handle_mail_data_to_frontseat. rewrite pbind_read. apply Hw.
  - unfold handle_mail_raw_out. destruct (bool_decide _); [by intros [= <- _ _]|]. rewrite pbind_read. apply Hw.
  - unfold handle_mail_helm_state. by intros [= <- _ _].
Qed.

(** a round of the loop: the chart, then possibly an error *)
Lemma tick_spec now i f f' ev r :
  do_work cfg now i f = (f', ev, r) ->
  (exists f1, chart f (state f1) /\ cleared f f1 /\ state f' = state f1 /\
     last_helm_error f' = last_helm_error f1 /\ last_frontseat_error f' = last_frontseat_error f1) \/
  (exists e, state f' = INTERFACE_HELM_ERROR /\ last_helm_error f' = e /\
     ((in_error (state f) = false /\ fault f (HelmException e)) \/ exists d s, snd (driver_loop now i s d) = Err (HelmException e))) \/
  (exists e, state f' = INTERFACE_FS_ERROR /\ last_frontseat_error f' = e /\
     ((in_error (state f) = false /\ fault f (FsException e)) \/ exists d s, snd (driver_loop now i s d) = Err (FsException e))).
Proof.
  unfold do_work, pcatch.
  destruct (check_change_state_spec now f) as [(f1 & ev1 & E & Hc & Hk) | (x & He & E & Hx)].
  - rewrite (pbind_ok _ _ _ _ _ _ E), pbind_read. unfold on_driver.
    destruct (driver_loop now i (state f1) (driver f1)) as [[d ev2] [u|x]] eqn:El.
    + intros [= <- _ _]. left. by exists f1.
    + destruct x as [e|e| | | |]; intros [= <- _ _]; [| |left; by exists f1..].
      * right. left. exists e. split; [done|]. split; [done|]. right. exists (driver f1), (state f1). by rewrite El.
      * right. right. exists e. split; [done|]. split; [done|]. right. exists (driver f1), (state f1). by rewrite El.
  - rewrite (pbind_err _ _ _ _ _ _ E). destruct x as [e|e| | | |]; intros [= <- _ _]; [| |inversion Hx..].
    + right. left. exists e. split; [done|]. split; [done|]. by left.
    + right. right. exists e. split; [done|]. split; [done|]. by left.
Qed.

Lemma ifs_loop_spec now i f f' ev :
  ifs_loop cfg now i f = (f', ev, Ok tt) -> exists ev1, do_work cfg now i f = (f', ev1, Ok tt).
Proof.
  unfold ifs_loop, pbind. destruct (do_work cfg now i f) as [[f1 ev1] [[]|x]]; [|done]. cbn.
  destruct (exit_on_error cfg && in_error (state f1)); cbn; intros [= <- _]; by eexists.
Qed.

(** the state after an event is reached by the chart or is an error *)
Lemma handle_state e f f' ev :
  handle e f = (f', ev, Ok tt) ->
  state f' = state f \/ in_error (state f') = true \/ (exists now i, e = Tick now i) /\ chart f (state f').
Proof.
  destruct e as [now i| | | |].
  - cbn [handle]. intros E. apply ifs_loop_spec in E as [ev1 E]. apply tick_spec in E as [(f1 & Hc & _ & -> & _) | [(e & -> & _) | (e & -> & _)]].
    + right. right. split; [by eexists _, _ | done].
    + right. by left.
    + right. by left.
  - intros E. left. exact (proj1 (mail_keeps_state _ _ _ _ _ E eq_refl)).
  - intros E. left. exact (proj1 (mail_keeps_state _ _ _ _ _ E eq_refl)).
  - intros E. left. exact (proj1 (mail_keeps_state _ _ _ _ _ E eq_refl)).
  - intros E. left. exact (proj1 (mail_keeps_state _ _ _ _ _ E eq_refl)).
Qed.

(** *** What the functions of a driver keep, the application keeps *)

Lemma on_driver_keeps {A} J (m : prog D FsEvent FsExn A) : keeps J m -> keeps (fun f => J (driver f)) (on_driver m).
Proof.
  intros Hm f Hf. unfold on_driver. specialize (Hm (driver f) Hf). by destruct (m (driver f)) as [[d ev] [|]].
Qed.

Section Keeps.
Variable J : D -> Prop.
Hypotheses (loop_keeps : forall now i s, keeps J (driver_loop now i s))
           (command_keeps : forall now c, keeps J (send_command_to_frontseat now c))
           (data_keeps : forall now x, keeps J (send_data_to_frontseat now x))
           (raw_keeps : forall now x, keeps J (send_raw_to_frontseat now x)).

Lemma handle_keeps e : keeps (fun f => J (driver f)) (handle e).
Proof.
  assert (Hm : forall g : fs -> fs, (forall f, driver (g f) = driver f) -> keeps (fun f => J (driver f)) (pmod (Ev := FsEvent) (X := FsExn) g))
    by (intros g Hg; apply keeps_mod; intros f; by rewrite Hg).
  assert (Hs : keeps (fun f => J (driver f)) signal_state_change) by (by intros f Hf).
  destruct e; cbn [handle]; unfold ifs_loop, do_work, check_change_state, change_state, check_error_states, handle_mail_command_request,
    handle_mail_data_to_frontseat, handle_mail_raw_out, handle_mail_helm_state; keeps_all; try (by apply Hm); try (by apply on_driver_keeps).
  apply keeps_catch; [keeps_all; try (by apply Hm); by apply on_driver_keeps|].
  intros x k. destruct x; intros [= <-]; keeps_all; by apply Hm.
Qed.

Lemma run_keeps l : forall f f', J (driver f) -> run l f = Some f' -> J (driver f').
Proof.
  induction l as [|e l IH]; intros f f' Hf; cbn [run]; [by intros [= <-]|]. pose proof (handle_keeps e f Hf) as H.
  destruct (handle e f) as [[g ev] [[]|x]]; [|done]. by apply IH.
Qed.

End Keeps.

(** a run in which the command state was granted: at a round of the loop that
    found the interface listening, the frontseat accepting commands and the
    helm driving where it is required, and kept ever since *)
Definition granted (f0 : fs) (l : list AppEvent) : Prop :=
  exists l1 now i l2 f1,
    l = l1 ++ Tick now i :: l2 /\ run l1 f0 = Some f1 /\ state f1 = INTERFACE_LISTEN /\ ready_for_commands f1 /\
    forall l2' l2'' f2, l2 = l2' ++ l2'' -> run (l1 ++ Tick now i :: l2') f0 = Some f2 -> state f2 = INTERFACE_COMMAND.

Lemma granted_extend f0 l e f :
  granted f0 l -> run (l ++ [e]) f0 = Some f -> state f = INTERFACE_COMMAND -> granted f0 (l ++ [e]).
Proof.
  intros (l1 & now & i & l2 & f1 & -> & E1 & Hl & Hr & Hall) Hf Hs. exists l1, now, i, (l2 ++ [e]), f1.
  split; [by rewrite <- app_assoc|]. do 3 (split; [done|]). intros l2' l2'' f2 Hsplit Hrun.
  destruct l2'' as [|e'' l2'' _] using rev_ind.
  - rewrite app_nil_r in Hsplit. subst l2'. rewrite <- app_assoc in Hf. cbn [app] in Hf. congruence.
  - rewrite app_assoc in Hsplit. apply app_inj_tail in Hsplit as [-> _]. by eapply Hall.
Qed.

(** C21: Whatever the driver, the mail and the times: when the vehicle interface is in the command
    state, it was put there by a round of the loop that found it listening, the frontseat accepting
    commands and the helm driving where a helm is required, and it has been in that state after
    every event since. *)
Theorem command_state_granted (now0 : double) (d0 : D) (l : list AppEvent) (f : fs) :
  run l (new_frontseat now0 d0) = Some f -> state f = INTERFACE_COMMAND -> granted (new_frontseat now0 d0) l.
Proof.
  set (f0 := new_frontseat now0 d0). revert f. induction l as [|e l IH] using rev_ind; intros f; [by intros [= <-]|].
  intros Hf Hs. pose proof Hf as Hrun. rewrite run_app in Hrun. destruct (run l f0) as [g|] eqn:El; [|done]. cbn [run] in Hrun.
  destruct (handle e g) as [[f' ev] [[]|x]] eqn:Eh; [|done]. injection Hrun as ->.
  destruct (handle_state e g f ev Eh) as [Heq | [Herr | [(now & i & ->) Hc]]]; [| by rewrite Hs in Herr |].
  - eapply granted_extend; [apply (IH g); congruence | exact Hf | done].
  - inversion Hc as [Hst| | Hl Hr | | |]; try congruence.
    + eapply granted_extend; [apply (IH g); congruence | exact Hf | done].
    + exists l, now, i, [], g. do 4 (split; [done|]). intros l2' l2'' f2 Hsplit Hrun.
      symmetry in Hsplit. apply app_eq_nil in Hsplit as [-> _]. congruence.
Qed.

(** ** Errors are recorded *)

Definition names_errors : Prop := forall now i s d,
  snd (driver_loop now i s d) <> Err (HelmException ERROR_HELM_NONE) /\
  snd (driver_loop now i s d) <> Err (FsException ERROR_FRONTSEAT_NONE).

Lemma errors_recorded now0 d0 l f :
  names_errors -> run l (new_frontseat now0 d0) = Some f ->
  (state f = INTERFACE_HELM_ERROR -> last_helm_error f <> ERROR_HELM_NONE) /\
  (state f = INTERFACE_FS_ERROR -> last_frontseat_error f <> ERROR_FRONTSEAT_NONE).
Proof.
  intros Hn. revert f. induction l as [|e l IH] using rev_ind; intros f; [by intros [= <-]|].
  rewrite run_app. destruct (run l (new_frontseat now0 d0)) as [g|]; [|done]. destruct (IH g eq_refl) as [H1 H2]. cbn [run].
  destruct (handle e g) as [[f' ev] [[]|x]] eqn:Eh; [|done]. intros [= ->].
  destruct e as [now i| | | |]; [|destruct (mail_keeps_state _ _ _ _ _ Eh eq_refl) as (-> & -> & ->); done..].
  apply ifs_loop_spec in Eh as [ev1 E]. apply tick_spec in E as [(f1 & Hc & Hk & -> & -> & ->) | [(e & -> & -> & H) | (e & -> & -> & H)]].
  - destruct Hk as [Hk | [[Hs ->] | [Hs ->]]]; [|by split..]. rewrite Hk. cbn. split; intros Hs.
    + apply H1. inversion Hc; congruence.
    + apply H2. inversion Hc; congruence.
  - split; [|done]. intros _ ->. destruct H as [[_ H] | (d & s & H)]; [inversion H | by apply Hn in H].
  - split; [done|]. intros _ ->. destruct H as [[_ H] | (d & s & H)]; [inversion H | by apply Hn in H].
Qed.

(** ** Progress *)

Definition serving (d : D) : Prop :=
  frontseat_state d = FRONTSEAT_ACCEPTING_COMMANDS /\ frontseat_providing_data d = true.

(** the driver stays so and raises no error *)
Definition keeps_serving : Prop := forall now i s d,
  serving d -> exists d' ev, driver_loop now i s d = (d', ev, Ok tt) /\ serving d'.

Definition recoverable (f : fs) : Prop :=
  state f = INTERFACE_FS_ERROR ->
  last_frontseat_error f = ERROR_FRONTSEAT_NOT_CONNECTED \/ last_frontseat_error f = ERROR_FRONTSEAT_NOT_PROVIDING_DATA.

(** the next state of a driven vehicle *)
Definition next_state (s : InterfaceState) : InterfaceState :=
  match s with
  | INTERFACE_STANDBY => INTERFACE_LISTEN
  | INTERFACE_LISTEN | INTERFACE_COMMAND => INTERFACE_COMMAND
  | INTERFACE_HELM_ERROR | INTERFACE_FS_ERROR => INTERFACE_STANDBY
  end.

Lemma driven_tick now i f :
  keeps_serving -> serving (driver f) -> helm_state f = HELM_DRIVE -> recoverable f ->
  exists f' ev, handle (Tick now i) f = (f', ev, Ok tt) /\ serving (driver f') /\ helm_state f' = HELM_DRIVE /\
    state f' = next_state (state f).
Proof.
  intros Hk [Ha Hp] Hh Hr.
  assert (E : exists f1 ev, check_change_state cfg now f = (f1, ev, Ok tt) /\ driver f1 = driver f /\ helm_state f1 = HELM_DRIVE /\
    state f1 = next_state (state f)).
  { assert (E : exists f1, change_state cfg now f = (f1, [], Ok tt) /\ driver f1 = driver f /\ helm_state f1 = HELM_DRIVE /\
      state f1 = next_state (state f)).
    { unfold change_state. rewrite pbind_get. cbv zeta. rewrite Hp, Ha, Hh. destruct (state f) eqn:Es; cbn [next_state].
      - eexists. split; [reflexivity|]. done.
      - rewrite !bool_decide_eq_true_2 by done. cbn [andb orb]. eexists. split; [reflexivity|]. done.
      - rewrite !bool_decide_eq_false_2 by done. cbn [andb orb]. exists f. split; [|done].
        unfold check_error_states. rewrite pbind_get. cbv zeta. rewrite Hp, Ha, Hh, Es.
        rewrite !bool_decide_eq_false_2 by done. cbn [andb orb negb]. rewrite andb_false_r. done.
      - rewrite bool_decide_eq_true_2 by done. eexists. split; [reflexivity|]. done.
      - rewrite (bool_decide_eq_false_2 (FRONTSEAT_ACCEPTING_COMMANDS = FRONTSEAT_NOT_CONNECTED)) by done. cbn [negb].
        rewrite !andb_true_r. destruct (Hr Es) as [He | He]; rewrite He; cbn; (eexists; split; [reflexivity|]; done). }
    destruct E as (f1 & E & Hd & Hh1 & Hs). unfold check_change_state. rewrite pbind_read, (pbind_quiet _ _ _ _ _ E), pbind_read.
    destruct (negb _); cbn [pwhen]; eexists f1, _; (split; [reflexivity|]); done. }
  destruct E as (f1 & ev & E & Hd & Hh1 & Hs). destruct (Hk now i (state f1) (driver f) (conj Ha Hp)) as (d' & ev' & El & Hd').
  exists (set_driver d' f1). cbn [handle]. unfold ifs_loop, do_work, pcatch, pbind at 1. rewrite (pbind_ok _ _ _ _ _ _ E), pbind_read.
  unfold on_driver. rewrite Hd, El. cbn [state set_driver pread]. unfold pbind, pread. cbn [state set_driver].
  assert (in_error (state f1) = false) as -> by (rewrite Hs; by destruct (state f)). rewrite andb_false_r. eexists. split; [reflexivity|]. done.
Qed.

(** C22: With a driver that accepts commands, provides data and raises no error, a driving helm and
    no error other than a lost connection or missing data, three rounds of the loop bring the
    interface from any state into the command state. *)
Theorem interface_reaches_command (f : fs) (t1 t2 t3 : double) (i1 i2 i3 : I) :
  keeps_serving -> serving (driver f) -> helm_state f = HELM_DRIVE -> recoverable f ->
  exists f', run [Tick t1 i1; Tick t2 i2; Tick t3 i3] f = Some f' /\ state f' = INTERFACE_COMMAND.
Proof.
  intros Hk Hd Hh Hr. cbn [run].
  destruct (driven_tick t1 i1 f Hk Hd Hh Hr) as (f1 & ev1 & -> & Hd1 & Hh1 & H1).
  assert (R1 : recoverable f1) by (intros H; rewrite H1 in H; by destruct (state f)).
  destruct (driven_tick t2 i2 f1 Hk Hd1 Hh1 R1) as (f2 & ev2 & -> & Hd2 & Hh2 & H2).
  assert (R2 : recoverable f2) by (intros H; rewrite H2, H1 in H; by destruct (state f)).
  destruct (driven_tick t3 i3 f2 Hk Hd2 Hh2 R2) as (f3 & ev3 & -> & _ & _ & H3).
  exists f3. split; [done|]. rewrite H3, H2, H1. by destruct (state f).
Qed.

(** ** An error that is never cleared *)

Definition only_ignoring : Prop := forall now i s d,
  match snd (driver_loop now i s d) with
  | Err (HelmException _) => False
  | Err (FsException e) => e = ERROR_FRONTSEAT_IGNORING_COMMANDS
  | _ => True
  end.

Definition given_up (f : fs) : Prop := state f = INTERFACE_FS_ERROR /\ last_frontseat_error f = ERROR_FRONTSEAT_IGNORING_COMMANDS.

Lemma given_up_for_good l : forall f f', only_ignoring -> given_up f -> run l f = Some f' -> given_up f'.
Proof.
  induction l as [|e l IH]; intros f f' Ho [Hs He]; cbn [run]; [by intros [= <-]|].
  destruct (handle e f) as [[g ev] [[]|x]] eqn:Eh; [|done]. apply (IH g); [done|].
  destruct e as [now i| | | |]; [|destruct (mail_keeps_state _ _ _ _ _ Eh eq_refl) as (H1 & _ & H2); unfold given_up; by rewrite H1, H2..].
  apply ifs_loop_spec in Eh as [ev1 E]. apply tick_spec in E as [(f1 & Hc & Hk & H1 & _ & H2) | [(e & H1 & H2 & H) | (e & H1 & H2 & H)]].
  - unfold given_up. rewrite H1, H2. inversion Hc as [Hst| | | | | Hst Hg]; try congruence.
    + destruct Hk as [-> | [[Hk _] | [_ Hk]]]; [by cbn in * | congruence | rewrite Hk in Hst; cbn in Hst; congruence].
    + destruct Hg as [[Hg _] | [Hg _]]; congruence.
  - destruct H as [[Hn _] | (d & s & H)]; [by rewrite Hs in Hn|]. specialize (Ho now i s d). by rewrite H in Ho.
  - unfold given_up. rewrite H1, H2. split; [done|].
    destruct H as [[Hn _] | (d & s & H)]; [by rewrite Hs in Hn|]. specialize (Ho now i s d). by rewrite H in Ho.
Qed.

End Chart.

(** ** A vehicle that always serves *)

Module ChartWitness.
#[local] Existing Instance NmeaWitness.trim.

(** the mail of this sample has fixed contents *)
#[export] Instance mail : MoosParse := {|
  parse_command _ := MkRequest (Some empty_course) (Some true) (Some 7) None None None;
  parse_data _ := empty_data;
  parse_raw s := MkRaw s []
|}.

#[export] Instance steady : FrontSeatDriver unit unit := {|
  frontseat_state _ := FRONTSEAT_ACCEPTING_COMMANDS;
  frontseat_providing_data _ := true;
  driver_loop _ _ _ := pret tt;
  send_command_to_frontseat _ _ := pret tt;
  send_data_to_frontseat _ _ := pret tt;
  send_raw_to_frontseat _ _ := pret tt
|}.

Definition cfg : iFrontSeatConfig :=
  MkIfsConfig true (double_of_Z 10) (double_of_Z 10) 1 (B "unicorn") false (B "iFrontSeat").

(** after a loss of the connection *)
Definition lost : FrontSeatInterfaceBase unit :=
  MkFs HELM_DRIVE INTERFACE_FS_ERROR (double_of_Z 0) ERROR_FRONTSEAT_NOT_CONNECTED ERROR_HELM_NONE tt.

Example interface_reaches_command_witness :
  exists f', run cfg [Tick (double_of_Z 1) tt; Tick (double_of_Z 2) tt; Tick (double_of_Z 3) tt] lost = Some f' /\ state f' = INTERFACE_COMMAND.
Proof.
  apply (interface_reaches_command cfg lost (double_of_Z 1) (double_of_Z 2) (double_of_Z 3) tt tt tt).
  - intros now i s d Hd. exists d, []. by destruct d.
  - by split.
  - reflexivity.
  - intros _. by left.
Defined.

End ChartWitness.
