(* ===== verification/Bluefin.v ===== *)
(** * moos/frontseat/bluefin/bluefin.{h,cpp}: the driver of the Bluefin
      vehicles, its tables, state and outgoing sentences

    The driver speaks NMEA sentences to the vehicle's computer (Huxley) over
    TCP: it writes one sentence, waits for its acknowledgement and writes it
    again after an interval. A sentence is the list of its fields ([Nmea]). The
    text of a floating-point number, base 64 and the TCP client are interfaces;
    a call sees one time. *)

From Stdlib Require Import SpecFloat.
From S2P Require Import Prelude HexCodec Double Time As Proto Nmea Prog Seawater FrontSeatData FrontSeat.

#[local] Open Scope prog_scope.

(** ** Names of the sentences *)

Inductive SentenceIDs : Type :=
| S_MSC | S_SHT | S_BDL | S_SDL | S_TOP | S_DVT | S_VER | S_NVG | S_SVS | S_RCM | S_RDP | S_RVL
| S_RBS | S_MBS | S_MBE | S_MIS | S_ERC | S_DVL | S_DV2 | S_IMU | S_CTD | S_RNV | S_PIT | S_CNV
| S_PLN | S_ACK | S_TRM | S_LOG | S_STS | S_DVR | S_CPS | S_CPR | S_TRK | S_RTC | S_RGP | S_RCN
| S_RCA | S_RCB | S_RMB | S_EMB | S_TMR | S_ABT | S_KIL | S_MSG | S_RMP | S_SEM | S_NPU | S_CPD
| S_SIL | S_BOY | S_SUS | S_CON | S_RES | S_SPD | S_SAN | S_GHP | S_GBP | S_RNS | S_RBO | S_CMA
| S_NVR | S_TEL | S_CTL | S_DCL.

(** [sentence_id_map_]: a bijection of names and numbers *)
Definition sentence_id_map : list (bytes * SentenceIDs) :=
  [(B "MSC", S_MSC); (B "SHT", S_SHT); (B "BDL", S_BDL); (B "SDL", S_SDL); (B "TOP", S_TOP); 
   (B "DVT", S_DVT); (B "VER", S_VER); (B "NVG", S_NVG); (B "SVS", S_SVS); (B "RCM", S_RCM); 
   (B "RDP", S_RDP); (B "RVL", S_RVL); (B "RBS", S_RBS); (B "MBS", S_MBS); (B "MBE", S_MBE); 
   (B "MIS", S_MIS); (B "ERC", S_ERC); (B "DVL", S_DVL); (B "DV2", S_DV2); (B "IMU", S_IMU); 
   (B "CTD", S_CTD); (B "RNV", S_RNV); (B "PIT", S_PIT); (B "CNV", S_CNV); (B "PLN", S_PLN); 
   (B "ACK", S_ACK); (B "TRM", S_TRM); (B "LOG", S_LOG); (B "STS", S_STS); (B "DVR", S_DVR); 
   (B "CPS", S_CPS); (B "CPR", S_CPR); (B "TRK", S_TRK); (B "RTC", S_RTC); (B "RGP", S_RGP); 
   (B "RCN", S_RCN); (B "RCA", S_RCA); (B "RCB", S_RCB); (B "RMB", S_RMB); (B "EMB", S_EMB); 
   (B "TMR", S_TMR); (B "ABT", S_ABT); (B "KIL", S_KIL); (B "MSG", S_MSG); (B "RMP", S_RMP); 
   (B "SEM", S_SEM); (B "NPU", S_NPU); (B "CPD", S_CPD); (B "SIL", S_SIL); (B "BOY", S_BOY); 
   (B "SUS", S_SUS); (B "CON", S_CON); (B "RES", S_RES); (B "SPD", S_SPD); (B "SAN", S_SAN); 
   (B "GHP", S_GHP); (B "GBP", S_GBP); (B "RNS", S_RNS); (B "RBO", S_RBO); (B "CMA", S_CMA); 
   (B "NVR", S_NVR); (B "TEL", S_TEL); (B "CTL", S_CTL); (B "DCL", S_DCL)].

Definition sentence_name (i : SentenceIDs) : bytes :=
  B match i with
    | S_MSC => "MSC" | S_SHT => "SHT" | S_BDL => "BDL" | S_SDL => "SDL" | S_TOP => "TOP" | S_DVT => "DVT" | S_VER => "VER" | S_NVG => "NVG"
    | S_SVS => "SVS" | S_RCM => "RCM" | S_RDP => "RDP" | S_RVL => "RVL" | S_RBS => "RBS" | S_MBS => "MBS" | S_MBE => "MBE" | S_MIS => "MIS"
    | S_ERC => "ERC" | S_DVL => "DVL" | S_DV2 => "DV2" | S_IMU => "IMU" | S_CTD => "CTD" | S_RNV => "RNV" | S_PIT => "PIT" | S_CNV => "CNV"
    | S_PLN => "PLN" | S_ACK => "ACK" | S_TRM => "TRM" | S_LOG => "LOG" | S_STS => "STS" | S_DVR => "DVR" | S_CPS => "CPS" | S_CPR => "CPR"
    | S_TRK => "TRK" | S_RTC => "RTC" | S_RGP => "RGP" | S_RCN => "RCN" | S_RCA => "RCA" | S_RCB => "RCB" | S_RMB => "RMB" | S_EMB => "EMB"
    | S_TMR => "TMR" | S_ABT => "ABT" | S_KIL => "KIL" | S_MSG => "MSG" | S_RMP => "RMP" | S_SEM => "SEM" | S_NPU => "NPU" | S_CPD => "CPD"
    | S_SIL => "SIL" | S_BOY => "BOY" | S_SUS => "SUS" | S_CON => "CON" | S_RES => "RES" | S_SPD => "SPD" | S_SAN => "SAN" | S_GHP => "GHP"
    | S_GBP => "GBP" | S_RNS => "RNS" | S_RBO => "RBO" | S_CMA => "CMA" | S_NVR => "NVR" | S_TEL => "TEL" | S_CTL => "CTL" | S_DCL => "DCL"
    end.

Definition description_map : list (bytes * bytes) :=
  [(B "$BFMSC", B "Payload Mission Command"); 
   (B "$BFSHT", B "Payload Shutdown"); 
   (B "$BFBDL", B "Begin Data Logging"); 
   (B "$BFSDL", B "Stop Data Logging"); 
   (B "$BFTOP", B "Topside Message (Not Implemented) "); 
   (B "$BFDVT", B "Begin/End DVL External Triggering"); 
   (B "$BFVER", B "Vehicle Interface Version"); 
   (B "$BFNVG", B "Navigation Update"); 
   (B "$BFNVR", B "Velocity and Rate Update"); 
   (B "$BFTEL", B "Telemetry Status (Not Implemented)"); 
   (B "$BFSVS", B "Sound Velocity"); 
   (B "$BFRCM", B "Raw Compass Data"); 
   (B "$BFRDP", B "Raw Depth Sensor Data"); 
   (B "$BFRVL", B "Raw Vehicle Speed"); 
   (B "$BFRBS", B "Battery Voltage"); 
   (B "$BFMBS", B "Begin New Behavior"); 
   (B "$BFMBE", B "End Behavior"); 
   (B "$BFMIS", B "Mission Status"); 
   (B "$BFERC", B "Elevator and Rudder Data"); 
   (B "$BFDVL", B "Raw DVL Data"); 
   (B "$BFDV2", B "Raw DVL Data, Extended"); 
   (B "$BFIMU", B "Raw IMU Data"); 
   (B "$BFCTD", B "Raw CTD Sensor Data"); 
   (B "$BFRNV", B "Relative Navigation Position"); 
   (B "$BFPIT", B "Pitch Servo Positions"); 
   (B "$BFCNV", B "Cartesian Relative Navigation Position"); 
   (B "$BFPLN", B "Mission Plan Element"); 
   (B "$BFACK", B "Message Acknowledgement"); 
   (B "$BFTRM", B "Trim Status"); 
   (B "$BPSMC", B "Confirm Mission Start"); 
   (B "$BFBOY", B "Buoyancy Status"); 
   (B "$BPLOG", B "Logging Control"); 
   (B "$BPSTS", B "Payload Status Message"); 
   (B "$BPTOP", B "Request to Send Data Topside"); 
   (B "$BPDVR", B "Request to Change DVL Triggering Method"); 
   (B "$BPTRK", B "Request Additional Trackline"); 
   (B "$BPRTC", B "Request Additional Trackcircle"); 
   (B "$BPRGP", B "Request Additional GPS Hits"); 
   (B "$BPRCN", B "Cancel Requested Behavior"); 
   (B "$BPRCE", B "Cancel Current Mission Element"); 
   (B "$BPRCA", B "Cancel All Requested Behaviors"); 
   (B "$BPRCB", B "Cancel Current Behavior"); 
   (B "$BPRMB", B "Modify Current Behavior"); 
   (B "$BPEMB", B "End Behavior Modify"); 
   (B "$BPTMR", B "Topside Message Relay (Not Available on Most Vehicles)"); 
   (B "$BPCTD", B "Raw CTD Sensor Data"); 
   (B "$BPABT", B "Abort Mission"); 
   (B "$BPKIL", B "Kill Mission"); 
   (B "$BPMSG", B "Log Message"); 
   (B "$BPRMP", B "Request Mission Plan"); 
   (B "$BPSEM", B "Start Empty Mission (Not Implemented)"); 
   (B "$BPNPU", B "Navigation Position Update"); 
   (B "$BPSIL", B "Silent Mode"); 
   (B "$BPTRM", B "Request Trim Adjustment Behavior"); 
   (B "$BPBOY", B "Request Buoyancy Adjustment Behavior"); 
   (B "$BPVER", B "Payload Interface Version"); 
   (B "$BPSUS", B "Suspend Mission"); 
   (B "$BPCON", B "Continue"); 
   (B "$BPRES", B "Resume Mission"); 
   (B "$BPSPD", B "Hull Relative Speed Limit"); 
   (B "$BPSAN", B "Set Sonar Angle"); 
   (B "$BPGHP", B "Go To Hull Position"); 
   (B "$BPGBP", B "Go to Bottom Position"); 
   (B "$BPRNS", B "Reset Relative Navigation"); 
   (B "$BPRBO", B "Hull Relative Bearing Offset"); 
   (B "$BFCMA", B "Communications Medium Access"); 
   (B "$BFCPS", B "Communications Packet Sent"); 
   (B "$BFCPR", B "Communications Packet Received Data"); 
   (B "$BPCPD", B "Communications Packet Data"); 
   (B "$BFCTL", B "Backseat Control"); 
   (B "$BPDCL", B "Forward DCCL message to Huxley from Payload")].

Fixpoint find_key {A : Type} (k : bytes) (l : list (bytes * A)) : option A :=
  match l with
  | [] => None
  | (k', v) :: l => if bool_decide (k = k') then Some v else find_key k l
  end.

(** [sentence_id_map_.left.at] and [description_map_[...]] *)
Definition sentence_of (name : bytes) : option SentenceIDs := find_key name sentence_id_map.
Definition description_of (front : bytes) : bytes := default [] (find_key front description_map).

(** ** Configuration and state *)

Inductive AcceptingCommandsHook : Type := BFMSC_TRIGGER | BFMIS_RUNNING_TRIGGER | BFCTL_TRIGGER.
#[export] Instance hook_eq_dec : EqDecision AcceptingCommandsHook.
Proof. solve_decision. Defined.

Record BluefinFrontSeatConfig : Type := MkBfConfig {
  nmea_resend_attempts : Z;
  nmea_resend_interval : Z;
  allowed_nmea_demerits : Z;
  allow_missing_nav_interval : Z;
  heartbeat_interval : Z;
  extra_bplog : list bytes;
  send_tmr_messages : bool;
  disable_ack : bool;
  accepting_commands_hook : AcceptingCommandsHook
}.

Definition Sentence : Type := list bytes.

Record BluefinFrontSeat : Type := MkBf {
  frontseat_providing_data_ : bool;
  last_frontseat_data_time : double;
  frontseat_state_ : FrontSeatState;
  last_write_time : double;
  out : list Sentence;
  pending : list Sentence;
  waiting_for_huxley : bool;
  nmea_demerits : Z;
  nmea_present_fail_count : Z;
  last_heartbeat_time : double;
  status_ : NodeStatus;
  outstanding_requests : list (BluefinCommand * CommandRequest);
  payload_status : list (Z * PayloadStatus)
}.

Definition new_bluefin : BluefinFrontSeat :=
  MkBf false (double_of_Z 0) FRONTSEAT_NOT_CONNECTED (double_of_Z 0) [] [] false 0 0 (double_of_Z 0) empty_node_status [] [].

(** assignments to the members *)
Definition set_data (now : double) (d : BluefinFrontSeat) : BluefinFrontSeat :=
  MkBf true now (frontseat_state_ d) (last_write_time d) (out d) (pending d) (waiting_for_huxley d) (nmea_demerits d)
    (nmea_present_fail_count d) (last_heartbeat_time d) (status_ d) (outstanding_requests d) (payload_status d).
Definition no_data (d : BluefinFrontSeat) : BluefinFrontSeat :=
  MkBf false (last_frontseat_data_time d) (frontseat_state_ d) (last_write_time d) (out d) (pending d) (waiting_for_huxley d) (nmea_demerits d)
    (nmea_present_fail_count d) (last_heartbeat_time d) (status_ d) (outstanding_requests d) (payload_status d).
Definition set_fs_state (s : FrontSeatState) (d : BluefinFrontSeat) : BluefinFrontSeat :=
  MkBf (frontseat_providing_data_ d) (last_frontseat_data_time d) s (last_write_time d) (out d) (pending d) (waiting_for_huxley d)
    (nmea_demerits d) (nmea_present_fail_count d) (last_heartbeat_time d) (status_ d) (outstanding_requests d) (payload_status d).
Definition set_queues (o p : list Sentence) (w : bool) (d : BluefinFrontSeat) : BluefinFrontSeat :=
  MkBf (frontseat_providing_data_ d) (last_frontseat_data_time d) (frontseat_state_ d) (last_write_time d) o p w
    (nmea_demerits d) (nmea_present_fail_count d) (last_heartbeat_time d) (status_ d) (outstanding_requests d) (payload_status d).
Definition set_write_time (t : double) (d : BluefinFrontSeat) : BluefinFrontSeat :=
  MkBf (frontseat_providing_data_ d) (last_frontseat_data_time d) (frontseat_state_ d) t (out d) (pending d) (waiting_for_huxley d)
    (nmea_demerits d) (nmea_present_fail_count d) (last_heartbeat_time d) (status_ d) (outstanding_requests d) (payload_status d).
Definition set_counts (demerits fails : Z) (d : BluefinFrontSeat) : BluefinFrontSeat :=
  MkBf (frontseat_providing_data_ d) (last_frontseat_data_time d) (frontseat_state_ d) (last_write_time d) (out d) (pending d)
    (waiting_for_huxley d) demerits fails (last_heartbeat_time d) (status_ d) (outstanding_requests d) (payload_status d).
Definition set_heartbeat (t : double) (d : BluefinFrontSeat) : BluefinFrontSeat :=
  MkBf (frontseat_providing_data_ d) (last_frontseat_data_time d) (frontseat_state_ d) (last_write_time d) (out d) (pending d)
    (waiting_for_huxley d) (nmea_demerits d) (nmea_present_fail_count d) t (status_ d) (outstanding_requests d) (payload_status d).
Definition set_status (s : NodeStatus) (d : BluefinFrontSeat) : BluefinFrontSeat :=
  MkBf (frontseat_providing_data_ d) (last_frontseat_data_time d) (frontseat_state_ d) (last_write_time d) (out d) (pending d)
    (waiting_for_huxley d) (nmea_demerits d) (nmea_present_fail_count d) (last_heartbeat_time d) s (outstanding_requests d) (payload_status d).
Definition set_requests (r : list (BluefinCommand * CommandRequest)) (d : BluefinFrontSeat) : BluefinFrontSeat :=
  MkBf (frontseat_providing_data_ d) (last_frontseat_data_time d) (frontseat_state_ d) (last_write_time d) (out d) (pending d)
    (waiting_for_huxley d) (nmea_demerits d) (nmea_present_fail_count d) (last_heartbeat_time d) (status_ d) r (payload_status d).
Definition set_payload (p : list (Z * PayloadStatus)) (d : BluefinFrontSeat) : BluefinFrontSeat :=
  MkBf (frontseat_providing_data_ d) (last_frontseat_data_time d) (frontseat_state_ d) (last_write_time d) (out d) (pending d)
    (waiting_for_huxley d) (nmea_demerits d) (nmea_present_fail_count d) (last_heartbeat_time d) (status_ d) (outstanding_requests d) p.

(** what the loop finds: the connection, the lines, the time in microseconds and as text, the day *)
Record BfIn : Type := MkBfIn { bi_active : bool; bi_lines : list bytes; bi_micro : Z; bi_time_string : bytes; bi_day : Z }.

(** texts of numbers; [dccl::b64_encode]; the text for a time that is not a date *)
Class VehicleText : Type := {
  string_of_double : double -> bytes;
  string_of_double_prec : Z -> double -> bytes;
  b64_encode : bytes -> bytes;
  no_time_text : bytes
}.

(** the numbers of the commands order [outstanding_requests_] *)
Definition command_number (c : BluefinCommand) : Z :=
  match c with
  | UNKNOWN_COMMAND => 0 | DESIRED_COURSE => 1 | TRIM_ADJUST => 3 | BUOYANCY_ADJUST => 4 | SILENT_MODE => 5
  | CANCEL_CURRENT_BEHAVIOR => 6 | ABORT_MISSION => 7 | MISSION_START_CONFIRM => 8 | MISSION_END_CONFIRM => 9
  end.

Abbreviation Requests := (list (BluefinCommand * CommandRequest)).

Fixpoint find_request (c : BluefinCommand) (l : Requests) : option CommandRequest :=
  match l with
  | [] => None
  | (c', r) :: l => if bool_decide (c = c') then Some r else find_request c l
  end.
Fixpoint put_request (c : BluefinCommand) (r : CommandRequest) (l : Requests) : Requests :=
  match l with
  | [] => [(c, r)]
  | (c', r') :: rest =>
      if bool_decide (c = c') then (c, r) :: rest
      else if command_number c <? command_number c' then (c, r) :: l
      else (c', r') :: put_request c r rest
  end.
Definition erase_request (c : BluefinCommand) (l : Requests) : Requests := remove_first (fun e => bool_decide (fst e = c)) l.

(** [std::multimap::insert]: after the entries with the same key *)
Fixpoint multimap_insert {A : Type} (k : Z) (v : A) (l : list (Z * A)) : list (Z * A) :=
  match l with
  | [] => [(k, v)]
  | (k', v') :: rest => if k <? k' then (k, v) :: l else (k', v') :: multimap_insert k v rest
  end.

(** [std::map::insert] of the first value for an id *)
Fixpoint seen_insert (k : Z) (v : bytes) (l : list (Z * bytes)) : list (Z * bytes) :=
  match l with
  | [] => [(k, v)]
  | (k', v') :: rest => if k <? k' then (k, v) :: l else (k', v') :: seen_insert k v rest
  end.

Section Bluefin.
Context {TX : BoostText} {TR : BoostTrim} {LC : LexicalCast} {LN : LexicalNumbers} {VT : VehicleText} {GE : Geodesy}.
Variables (sin : double -> double) (cfg : iFrontSeatConfig) (bf : BluefinFrontSeatConfig).

Abbreviation bprog := (prog BluefinFrontSeat FsEvent FsExn).

(** exceptions of [NMEASentence] *)
Definition nmea_ok {A : Type} (r : result bad_nmea_sentence A) : bprog A :=
  match r with Ok a => pret a | Err _ => pthrow StdException end.
Definition or_throw {A : Type} (o : option A) : bprog A := match o with Some a => pret a | None => pthrow StdException end.

(** [nmea.at] *)
Definition at_ (nmea : Sentence) (i : nat) : bprog bytes := or_throw (nmea !! i).

(** ** Times *)

Definition pad (w : nat) (z : Z) : bytes := repeat 48 (w - length (as_string z)) ++ as_string z.

Definition unix_time2nmea_time (time : double) : bytes :=
  match unix_double2ptime time with
  | None => no_time_text
  | Some t =>
      let tod := time_of_day t in
      let s := tod / MICROSEC_IN_SEC in
      pad 2 (s / 3600) ++ pad 2 (s / 60 mod 60) ++ pad 2 (s mod 60) ++ B "." ++ pad 3 (tod mod MICROSEC_IN_SEC * 1000 / MICROSEC_IN_SEC)
  end.

(** ** The write queue *)

Definition remove_from_write_queue : bprog unit :=
  pmod (fun d => set_counts (nmea_demerits d) 0 (set_queues (drop 1 (out d)) (pending d) false d)).

Definition write (now : double) (nmea : Sentence) : bprog unit :=
  let! raw := nmea_ok (message nmea) in
  let! front := or_throw (head nmea) in
  pemit (RawTo (MkRaw raw (description_of front)));;
  let! line := nmea_ok (message_cr_nl nmea) in
  pemit (WriteVehicle line);;
  if disable_ack bf then remove_from_write_queue
  else pmod (fun d => set_write_time now (set_queues (out d) (pending d) true d)).

(** the handler of the failure of one sentence *)
Definition give_up_sentence : bprog unit :=
  remove_from_write_queue;;
  let! demerits := pread (fun d => u32 (nmea_demerits d + 1)) in
  pmod (fun d => set_counts demerits (nmea_present_fail_count d) d);;
  if allowed_nmea_demerits bf <? demerits
  then pmod (set_fs_state FRONTSEAT_NOT_CONNECTED);; pthrow (FsException ERROR_FRONTSEAT_IGNORING_COMMANDS)
  else pret tt.

(** [last_write_time_ <= now - interval] *)
Definition resend_due (now last : double) : bool :=
  let t := dsub now (double_of_Z (nmea_resend_interval bf)) in
  negb (is_nan last) && negb (is_nan t) && negb (dlt t last).

Definition try_send (now : double) : bprog unit :=
  let! d := pget in
  match out d with
  | [] => pret tt
  | nmea :: _ =>
      if negb (waiting_for_huxley d) then write now nmea
      else if resend_due now (last_write_time d)
      then
        let fails := u32 (nmea_present_fail_count d + 1) in
        pmod (set_counts (nmea_demerits d) fails);;
        if nmea_resend_attempts bf <=? fails then give_up_sentence else write now nmea
      else pret tt
  end.

Definition append_to_write_queue (now : double) (nmea : Sentence) : bprog unit :=
  pmod (fun d => set_queues (out d ++ [nmea]) (pending d) (waiting_for_huxley d) d);;
  try_send now.

(** ** Commands, data and raw sentences *)

(** a sentence with the time as its first field *)
Definition stamped (now : double) (name : String.string) : Sentence := [B name; unix_time2nmea_time now].
Arguments stamped _ _%_string_scope.

(** the sentence of an extra command *)
Definition extra_sentence (now : double) (c : BluefinExtraCommands) : option Sentence :=
  match default UNKNOWN_COMMAND (ex_command c) with
  | UNKNOWN_COMMAND | DESIRED_COURSE => None
  | TRIM_ADJUST => Some (stamped now "$BPTRM")
  | BUOYANCY_ADJUST => Some (stamped now "$BPBOY")
  | SILENT_MODE => Some (stamped now "$BPSIL" ++ [as_string (default 0 (ex_silent_mode c))])
  | CANCEL_CURRENT_BEHAVIOR => Some (stamped now "$BPRCE" ++ [B "0"])
  | ABORT_MISSION => Some (stamped now "$BPABT" ++ [B "backseat abort"; as_string (default 1 (ex_abort_reason c))])
  | MISSION_START_CONFIRM => Some (stamped now "$BPSMC" ++ [B "1"])
  | MISSION_END_CONFIRM => Some (stamped now "$BPRCE" ++ [B "0"])
  end.

Definition zero_course : list bytes := [B "0"; B "0"; B "2"; B "0"; B "0"; B "1"].

Definition defined {A : Type} (o : option A) : bprog A := match o with Some a => pret a | None => pthrow Undefined end.

(** depth and speed are both 0 as integers; the speed is looked at when the depth is *)
Definition at_rest (c : DesiredCourse) : bprog bool :=
  let! depth := defined (int_cast (value (dc_depth c))) in
  if depth =? 0 then let! speed := defined (int_cast (value (dc_speed c))) in pret (speed =? 0) else pret false.

Definition course_sentence (now : double) (c : DesiredCourse) : Sentence :=
  stamped now "$BPRMB"
  ++ if dlt (value (dc_speed c)) (lit 1 2) then zero_course
     else [string_of_double (value (dc_heading c)); string_of_double (value (dc_depth c)); B "0";
           string_of_double (value (dc_speed c)); B "1"; B "0"].

Definition bf_send_command (now : double) (command : CommandRequest) : bprog unit :=
  match cr_cancel_request_id command with
  | Some id =>
      pmod (fun d => set_requests (remove_first (fun e => request_id (snd e) =? id) (outstanding_requests d)) d)
  | None =>
      let type := match cr_bluefin_command command with Some c => default UNKNOWN_COMMAND (ex_command c) | None => UNKNOWN_COMMAND end in
      (match cr_bluefin_command command with
       | Some c => match extra_sentence now c with Some nmea => append_to_write_queue now nmea | None => pret tt end
       | None => pret tt
       end);;
      let plain := bool_decide (type = UNKNOWN_COMMAND) || bool_decide (type = DESIRED_COURSE) in
      let! type :=
        match cr_desired_course command with
        | Some c =>
            if plain then
              let! rest := at_rest c in
              append_to_write_queue now (if (rest : bool) then stamped now "$BPRMB" ++ zero_course else course_sentence now c);;
              pret DESIRED_COURSE
            else pret type
        | None => pret type
        end in
      pwhen (negb (disable_ack bf) && response_requested command)
        (pmod (fun d => set_requests (put_request type command (outstanding_requests d)) d))
  end.

(** the text of a number that may be absent or not a number *)
Definition number_field (v : double) : bytes := if is_nan v then [] else string_of_double_prec 10 v.

Definition ctd_sentence (now : double) (s : CTDSample) : Sentence :=
  stamped now "$BPCTD"
  ++ [match ctd_conductivity s with Some v => string_of_double_prec 10 v | None => [] end;
      number_field (value (ctd_temperature s));
      (if is_nan (value (ctd_pressure s)) then [] else string_of_double_prec 10 (ddiv (value (ctd_pressure s)) (double_of_Z 1000)));
      unix_time2nmea_time (value (ctd_time s))].

(** [boost::replace_all] of one character *)
Definition replace_char (a b : Z) (s : bytes) : bytes := map (fun c => if c =? a then b else c) s.

Definition tmr_sentence (now : double) (raw : bytes) : Sentence :=
  stamped now "$BPTMR" ++ [B "3"; replace_char 13 32 (replace_char 42 47 (replace_char 44 58 raw))].

Definition bf_send_data (now : double) (data : FrontSeatInterfaceData) : bprog unit :=
  (match fd_ctd_sample data with Some s => append_to_write_queue now (ctd_sentence now s) | None => pret tt end);;
  (match fd_dccl_message data with
   | Some m => append_to_write_queue now (nmea_push_back (boost_trim (b64_encode m)) (stamped now "$BPDCL"))
   | None => pret tt
   end);;
  match fd_bluefin data with
  | None => pret tt
  | Some x =>
      (match xd_raw_in x with
       | Some raw => pwhen (send_tmr_messages bf) (append_to_write_queue now (tmr_sentence now raw))
       | None => pret tt
       end);;
      pmod (fun d => set_payload (foldl (fun l p => multimap_insert (pl_expire_time p) p l) (payload_status d) (xd_payload x)) d)
  end.

Definition bf_send_raw (now : double) (data : FrontSeatRaw) : bprog unit :=
  match parse_nmea true (fr_raw data) IGNORE with
  | Ok nmea => append_to_write_queue now nmea
  | Err _ => pret tt
  end.

(** ** Heartbeat *)

(** the statuses by id, each the first in the order of their expiry, and whether all are ok *)
Definition heartbeat_status (payload : list (Z * PayloadStatus)) (ok : bool) : bool * list (Z * bytes) :=
  foldl (fun '(ok, seen) '(_, p) =>
           match find (fun e => fst e =? pl_id p) seen with
           | Some _ => (ok, seen)
           | None => (ok && pl_all_ok p, seen_insert (pl_id p) (pl_msg p) seen)
           end) (ok, []) payload.

Definition check_send_heartbeat (now : double) (i : BfIn) (s : InterfaceState) : bprog unit :=
  let! d := pget in
  if dlt (dadd (last_heartbeat_time d) (double_of_Z (heartbeat_interval bf))) now
  then
    let ok := negb (in_error s) in
    let! r :=
      match payload_status d with
      | [] => pret (ok, [])
      | _ =>
          pmod (fun d => set_payload (List.filter (fun e => bi_micro i <? fst e) (payload_status d)) d);;
          let! payload := pread payload_status in
          let '(ok, seen) := heartbeat_status payload ok in
          pret (ok, bi_time_string i ++ concat (map (fun e => B "; " ++ snd e) seen))
      end in
    let '(ok, text) := r in
    let text := match text with [] => B "Deploy" | _ => text end in
    append_to_write_queue now (nmea_push_back text (stamped now "$BPSTS" ++ [if (ok : bool) then B "1" else B "0"]));;
    pmod (set_heartbeat (dadd now (double_of_Z (heartbeat_interval bf))))
  else pret tt.

(** ** Connection *)

Definition log_requests : list SentenceIDs :=
  (if disable_ack bf then [] else [S_ACK])
  ++ [S_NVG; S_MIS; S_MSC; S_NVR; S_SVS; S_RVL; S_SHT; S_TOP; S_MBS; S_MBE; S_CTD; S_DVL; S_BOY; S_TRM]
  ++ (if bool_decide (accepting_commands_hook bf = BFCTL_TRIGGER) then [S_CTL] else []).

Definition log_sentence (name : bytes) : Sentence := [B "$BPLOG"; name; B "ON"].

Definition initialize_huxley (now : double) : bprog unit :=
  pmod (fun d => set_counts 0 (nmea_present_fail_count d) (set_queues [] [] false d));;
  pfor log_requests (fun i => append_to_write_queue now (log_sentence (sentence_name i)));;
  pfor (extra_bplog bf) (fun name => append_to_write_queue now (log_sentence (map to_upper name))).

End Bluefin.

Arguments stamped {VT} _ _%_string_scope.
