(* ===== verification/BluefinIncoming.v ===== *)
(** * moos/frontseat/bluefin/bluefin_incoming.cpp and the receiving part of
      bluefin.cpp: what the Bluefin driver does with the vehicle's sentences

    [debug] is the log level at which the text of an unsuccessful
    acknowledgement is read for the log. *)

From Stdlib Require Import SpecFloat.
From S2P Require Import Prelude HexCodec Double Time As Proto Nmea Prog Seawater FrontSeatData FrontSeat Bluefin.

#[local] Open Scope prog_scope.


(** [std::string::find] of a text *)
Fixpoint is_prefix_of (p s : bytes) : bool :=
  match p, s with
  | [], _ => true
  | x :: p, y :: s => (x =? y) && is_prefix_of p s
  | _, [] => false
  end.
Fixpoint contains (p s : bytes) : bool :=
  is_prefix_of p s || match s with [] => false | _ :: s => contains p s end.

(** ** Acknowledgements *)

(** [AckStatus] *)
Definition REQUEST_UNSUCCESSFULLY_PROCESSED : Z := 1.
Definition REQUEST_SUCCESSFULLY_PROCESSED : Z := 2.
Definition REQUEST_PENDING : Z := 3.

(** the request that the acknowledgement of a sentence answers *)
Definition command_of (i : SentenceIDs) : BluefinCommand :=
  match i with
  | S_RMB => DESIRED_COURSE
  | S_BOY => BUOYANCY_ADJUST
  | S_TRM => TRIM_ADJUST
  | S_SIL => SILENT_MODE
  | S_RCB => CANCEL_CURRENT_BEHAVIOR
  | _ => UNKNOWN_COMMAND
  end.

(** assignments to parts of [status_] *)
Definition on_fix (f : GeodeticCoordinate -> GeodeticCoordinate) (s : NodeStatus) : NodeStatus :=
  MkNodeStatus (ns_time s) (ns_name s) (ns_modem_id s) (Some (f (global_fix s))) (ns_local_fix s) (ns_pose s) (ns_speed s) (ns_speed_time_lag s).
Definition on_pose (f : EulerAngles -> EulerAngles) (s : NodeStatus) : NodeStatus :=
  MkNodeStatus (ns_time s) (ns_name s) (ns_modem_id s) (ns_global_fix s) (ns_local_fix s) (Some (f (pose s))) (ns_speed s) (ns_speed_time_lag s).
Definition set_time (t : double) (s : NodeStatus) : NodeStatus :=
  MkNodeStatus (Some t) (ns_name s) (ns_modem_id s) (ns_global_fix s) (ns_local_fix s) (ns_pose s) (ns_speed s) (ns_speed_time_lag s).
Definition set_speed (v : double) (s : NodeStatus) : NodeStatus :=
  MkNodeStatus (ns_time s) (ns_name s) (ns_modem_id s) (ns_global_fix s) (ns_local_fix s) (ns_pose s) (Some v) (ns_speed_time_lag s).
Definition set_speed_lag (v : double) (s : NodeStatus) : NodeStatus :=
  MkNodeStatus (ns_time s) (ns_name s) (ns_modem_id s) (ns_global_fix s) (ns_local_fix s) (ns_pose s) (ns_speed s) (Some v).
Definition set_lat (v : double) (g : GeodeticCoordinate) : GeodeticCoordinate :=
  MkGeodetic (Some v) (g_lon g) (g_depth g) (g_altitude g) (g_lat_source g) (g_lon_source g).
Definition set_lon (v : double) (g : GeodeticCoordinate) : GeodeticCoordinate :=
  MkGeodetic (g_lat g) (Some v) (g_depth g) (g_altitude g) (g_lat_source g) (g_lon_source g).
Definition set_depth (v : double) (g : GeodeticCoordinate) : GeodeticCoordinate :=
  MkGeodetic (g_lat g) (g_lon g) (Some v) (g_altitude g) (g_lat_source g) (g_lon_source g).
Definition set_altitude (v : double) (g : GeodeticCoordinate) : GeodeticCoordinate :=
  MkGeodetic (g_lat g) (g_lon g) (g_depth g) (Some v) (g_lat_source g) (g_lon_source g).
Definition set_gps (g : GeodeticCoordinate) : GeodeticCoordinate :=
  MkGeodetic (g_lat g) (g_lon g) (g_depth g) (g_altitude g) (Some GPS) (Some GPS).
Definition set_heading (v : double) (e : EulerAngles) : EulerAngles :=
  MkEuler (e_roll e) (e_pitch e) (Some v) (e_roll_rate e) (e_pitch_rate e) (e_heading_rate e)
    (e_roll_rate_time_lag e) (e_pitch_rate_time_lag e) (e_heading_rate_time_lag e).
Definition set_roll (v : double) (e : EulerAngles) : EulerAngles :=
  MkEuler (Some v) (e_pitch e) (e_heading e) (e_roll_rate e) (e_pitch_rate e) (e_heading_rate e)
    (e_roll_rate_time_lag e) (e_pitch_rate_time_lag e) (e_heading_rate_time_lag e).
Definition set_pitch (v : double) (e : EulerAngles) : EulerAngles :=
  MkEuler (e_roll e) (Some v) (e_heading e) (e_roll_rate e) (e_pitch_rate e) (e_heading_rate e)
    (e_roll_rate_time_lag e) (e_pitch_rate_time_lag e) (e_heading_rate_time_lag e).
Definition set_pitch_rate (v : double) (e : EulerAngles) : EulerAngles :=
  MkEuler (e_roll e) (e_pitch e) (e_heading e) (e_roll_rate e) (Some v) (e_heading_rate e)
    (e_roll_rate_time_lag e) (e_pitch_rate_time_lag e) (e_heading_rate_time_lag e).
Definition set_roll_rate (v : double) (e : EulerAngles) : EulerAngles :=
  MkEuler (e_roll e) (e_pitch e) (e_heading e) (Some v) (e_pitch_rate e) (e_heading_rate e)
    (e_roll_rate_time_lag e) (e_pitch_rate_time_lag e) (e_heading_rate_time_lag e).
Definition set_heading_rate (v : double) (e : EulerAngles) : EulerAngles :=
  MkEuler (e_roll e) (e_pitch e) (e_heading e) (e_roll_rate e) (e_pitch_rate e) (Some v)
    (e_roll_rate_time_lag e) (e_pitch_rate_time_lag e) (e_heading_rate_time_lag e).
Definition set_lags (dt : double) (e : EulerAngles) : EulerAngles :=
  MkEuler (e_roll e) (e_pitch e) (e_heading e) (e_roll_rate e) (e_pitch_rate e) (e_heading_rate e) (Some dt) (Some dt) (Some dt).

(** [Status_IsValid] and [Error_IsValid] of the two status messages *)
Definition valid_upto (last z : Z) : option Z := if (0 <=? z) && (z <=? last) then Some z else None.

Section Incoming.
Context {TX : BoostText} {TR : BoostTrim} {LC : LexicalCast} {LN : LexicalNumbers} {VT : VehicleText} {GE : Geodesy}.
Variables (sin : double -> double) (cfg : iFrontSeatConfig) (bf : BluefinFrontSeatConfig) (debug : bool).

Abbreviation bprog := (prog BluefinFrontSeat FsEvent FsExn).

(** the queue that an acknowledgement of [acked] is for *)
Inductive Acked : Type := FrontOfOut | FrontOfPending | Neither.

Definition front_is (acked : bytes) (l : list Sentence) : bprog bool :=
  match l with
  | [] => pret false
  | nmea :: _ => let! id := or_throw (sentence_id nmea) in pret (iequals id acked)
  end.

Definition which_queue (acked : bytes) : bprog Acked :=
  let! d := pget in
  let! is_out := front_is acked (out d) in
  if (is_out : bool) then pret FrontOfOut
  else
    let! is_pending := front_is acked (pending d) in
    pret (if (is_pending : bool) then FrontOfPending else Neither).

(** the answer to an outstanding request *)
Definition respond (nmea : Sentence) (status : Z) (acked : bytes) : bprog unit :=
  let! id := or_throw (sentence_of acked) in
  let type := command_of id in
  let! requests := pread outstanding_requests in
  match find_request type requests with
  | None => pret tt
  | Some r =>
      let successful := status =? REQUEST_SUCCESSFULLY_PROCESSED in
      let! error :=
        if successful then pret (None, None)
        else let! text := at_ nmea 7 in pret (Some status, Some text) in
      pmod (fun d => set_requests (erase_request type (outstanding_requests d)) d);;
      pemit (Response (MkResponse successful (request_id r) (fst error) (snd error)))
  end.

Definition bfack (now : double) (nmea : Sentence) : bprog unit :=
  pmod (set_data now);;
  let! f := at_ nmea 5 in
  let status := as_int f in
  let! acked := at_ nmea 2 in
  (if (status =? REQUEST_UNSUCCESSFULLY_PROCESSED) && debug then at_ nmea 7;; pret tt
   else if status =? REQUEST_PENDING then
     let! o := pread out in
     match o with
     | [] => pret tt
     | front :: _ =>
         let! text := nmea_ok (message front) in
         let! copy := nmea_ok (parse_nmea true text VALIDATE) in
         pmod (fun d => set_queues (out d) (pending d ++ [copy]) (waiting_for_huxley d) d)
     end
   else pret tt);;
  let acked := map to_upper acked in
  let! q := which_queue acked in
  match q with
  | Neither => pmod (fun d => set_queues [] [] (waiting_for_huxley d) d)
  | _ =>
      pmod (fun d =>
        match q with
        | FrontOfOut => set_queues (drop 1 (out d)) (pending d) (waiting_for_huxley d) d
        | _ => set_queues (out d) (drop 1 (pending d)) (waiting_for_huxley d) d
        end);;
      pwhen (negb (status =? REQUEST_PENDING)) (respond nmea status acked);;
      pmod (fun d => set_queues (out d) (pending d) false d)
  end.

(** ** Navigation *)

Definition bfmsc : bprog unit :=
  pwhen (bool_decide (accepting_commands_hook bf = BFMSC_TRIGGER)) (pmod (set_fs_state FRONTSEAT_ACCEPTING_COMMANDS)).

(** the time of a field, in seconds *)
Definition field_time (day : Z) (text : bytes) : bprog double :=
  match nmea_time2ptime day text with
  | NmeaTime t => pret (ptime2unix_double t)
  | NmeaOutOfRange => pthrow StdException
  | NmeaIntOverflow => pthrow Undefined
  end.

(** degrees and minutes: [deg] digits of degrees, then minutes *)
Definition degrees (deg : nat) (text : bytes) : double :=
  dadd (as_double (take deg text)) (ddiv (as_double (drop deg text)) (double_of_Z 60)).

(** a coordinate of the text in field [i] and the hemisphere in the next *)
Definition coordinate (nmea : Sentence) (i deg : nat) (negative : String.string) : bprog double :=
  let! text := at_ nmea i in
  if (2 <? length text)%nat then
    let! hemisphere := at_ nmea (i + 1) in
    pret (if bool_decide (hemisphere = B negative) then SFopp (degrees deg text) else degrees deg text)
  else pret S754_nan.
Arguments coordinate _ (_ _)%_nat_scope _%_string_scope.

Definition double_at (nmea : Sentence) (i : nat) : bprog double := let! f := at_ nmea i in pret (as_double f).
Definition int_at (nmea : Sentence) (i : nat) : bprog Z := let! f := at_ nmea i in pret (as_int f).
Definition on_status (f : NodeStatus -> NodeStatus) : bprog unit := pmod (fun d => set_status (f (status_ d)) d).

Definition bfnvg (now : double) (day : Z) (nmea : Sentence) : bprog unit :=
  pmod (set_data now);;
  on_status (fun _ => empty_node_status);;
  let! text := at_ nmea 12 in
  let! t := field_time day text in
  on_status (set_time t);;
  let! lat := coordinate nmea 2 2 "S" in
  on_status (on_fix (set_lat lat));;
  let! lon := coordinate nmea 4 3 "W" in
  on_status (on_fix (set_lon lon));;
  let! quality := int_at nmea 6 in
  pwhen (quality =? 1) (on_status (on_fix set_gps));;
  let! altitude := double_at nmea 7 in
  on_status (on_fix (set_altitude altitude));;
  let! depth := double_at nmea 8 in
  on_status (on_fix (set_depth depth));;
  let! heading := double_at nmea 9 in
  on_status (on_pose (set_heading heading));;
  let! roll := double_at nmea 10 in
  on_status (on_pose (set_roll roll));;
  let! pitch := double_at nmea 11 in
  on_status (on_pose (set_pitch pitch)).

Definition bfnvr (day : Z) (nmea : Sentence) : bprog unit :=
  let! text := at_ nmea 1 in
  let! t := field_time day text in
  let! d := pget in
  let dt := dsub t (value (ns_time (status_ d))) in
  let! east_speed := double_at nmea 2 in
  let! north_speed := double_at nmea 3 in
  let! pitch_rate := double_at nmea 5 in
  on_status (on_pose (set_pitch_rate pitch_rate));;
  let! roll_rate := double_at nmea 6 in
  on_status (on_pose (set_roll_rate roll_rate));;
  let! yaw_rate := double_at nmea 7 in
  on_status (on_pose (set_heading_rate yaw_rate));;
  on_status (set_speed (dsqrt (dadd (dmul north_speed north_speed) (dmul east_speed east_speed))));;
  on_status (on_pose (set_lags dt));;
  on_status (set_speed_lag dt);;
  on_status (compute_missing_status cfg);;
  let! s := pread status_ in
  pemit (DataFrom (MkData (Some s) None None None None)).

(** ** Status of the vehicle *)

(** [bfmbs], [bfmbe]: the behaviour is logged *)
Definition bfmb (nmea : Sentence) : bprog unit := at_ nmea 5;; pret tt.

Definition bluefin_data (x : BluefinExtraData) : FsEvent := DataFrom (MkData None None None (Some x) None).

Definition bfboy (nmea : Sentence) : bprog unit :=
  let! status := int_at nmea 2 in
  let! error := int_at nmea 3 in
  let! text := at_ nmea 4 in
  let! newtons := double_at nmea 5 in
  pemit (bluefin_data (MkExtraData None None (Some (MkBuoyancy (valid_upto 3 status) (valid_upto 3 error) (Some text) (Some newtons))) None [])).

Definition bftrm (nmea : Sentence) : bprog unit :=
  let! status := int_at nmea 2 in
  let! error := int_at nmea 3 in
  let! text := at_ nmea 4 in
  let! pitch := double_at nmea 5 in
  let! roll := double_at nmea 6 in
  pemit (bluefin_data (MkExtraData None None None (Some (MkTrim (valid_upto 3 status) (valid_upto 2 error) (Some text) (Some pitch) (Some roll))) [])).

Definition bfmis (nmea : Sentence) : bprog unit :=
  let! running := at_ nmea 3 in
  if contains (B "Running") running then
    match accepting_commands_hook bf with
    | BFMIS_RUNNING_TRIGGER => pmod (set_fs_state FRONTSEAT_ACCEPTING_COMMANDS)
    | BFCTL_TRIGGER | BFMSC_TRIGGER =>
        pmod (fun d => if bool_decide (frontseat_state_ d = FRONTSEAT_ACCEPTING_COMMANDS) then d else set_fs_state FRONTSEAT_IN_CONTROL d)
    end
  else pmod (set_fs_state FRONTSEAT_IDLE).

Definition bfctd (nmea : Sentence) : bprog unit :=
  let! conductivity := double_at nmea 2 in
  let! temperature := double_at nmea 3 in
  let! pressure := double_at nmea 4 in
  let s := MkCTD None (Some (ddiv conductivity (double_of_Z 10000))) (Some temperature) (Some (dmul pressure (double_of_Z 1000)))
             None None None None None None None None None in
  pemit (DataFrom (MkData None (Some (compute_missing_ctd sin s)) None None None)).

Definition bfctl (nmea : Sentence) : bprog unit :=
  pwhen (bool_decide (accepting_commands_hook bf = BFCTL_TRIGGER))
    (let! f := at_ nmea 2 in
     pmod (fun d =>
       if as_bool f then set_fs_state FRONTSEAT_ACCEPTING_COMMANDS d
       else if bool_decide (frontseat_state_ d = FRONTSEAT_ACCEPTING_COMMANDS) then set_fs_state FRONTSEAT_IN_CONTROL d
       else d)).

(** ** Receiving *)

(** [bfrvl], [bfdvl], [bfsvs], [bfsht] and [bftop] do nothing *)
Definition process_receive (now : double) (day : Z) (nmea : Sentence) : bprog unit :=
  let! raw := nmea_ok (message nmea) in
  let! front := or_throw (head nmea) in
  pemit (RawFrom (MkRaw raw (description_of front)));;
  pmod (fun d => set_counts 0 (nmea_present_fail_count d) d);;
  let! name := or_throw (sentence_id nmea) in
  let! id := or_throw (sentence_of name) in
  match id with
  | S_ACK => bfack now nmea
  | S_NVG => bfnvg now day nmea
  | S_NVR => bfnvr day nmea
  | S_CTD => bfctd nmea
  | S_MSC => bfmsc
  | S_MBS | S_MBE => bfmb nmea
  | S_MIS => bfmis nmea
  | S_CTL => bfctl nmea
  | S_BOY => bfboy nmea
  | S_TRM => bftrm nmea
  | _ => pret tt
  end.

Definition receive_line (now : double) (day : Z) (line : bytes) : bprog unit :=
  pcatch
    (let! nmea := nmea_ok (parse_nmea true (boost_trim line) VALIDATE) in process_receive now day nmea)
    (fun x => match x with StdException => Some (pret tt) | _ => None end).

Definition try_receive (now : double) (i : BfIn) : bprog unit := pfor (bi_lines i) (receive_line now (bi_day i)).

(** ** The loop *)

Definition bf_loop (now : double) (i : BfIn) (s : InterfaceState) : bprog unit :=
  (if negb (bi_active i) then pmod (set_fs_state FRONTSEAT_NOT_CONNECTED)
   else
     let! st := pread frontseat_state_ in
     pwhen (bool_decide (st = FRONTSEAT_NOT_CONNECTED)) (pmod (set_fs_state FRONTSEAT_IDLE);; initialize_huxley bf now);;
     check_send_heartbeat bf now i s;;
     try_send bf now;;
     try_receive now i);;
  pmod (fun d => if dlt (dadd (last_frontseat_data_time d) (double_of_Z (allow_missing_nav_interval bf))) now then no_data d else d).

#[export] Instance bluefin_driver : FrontSeatDriver BluefinFrontSeat BfIn := {|
  frontseat_state := frontseat_state_;
  frontseat_providing_data := frontseat_providing_data_;
  driver_loop := bf_loop;
  send_command_to_frontseat := bf_send_command bf;
  send_data_to_frontseat := bf_send_data bf;
  send_raw_to_frontseat := bf_send_raw bf
|}.

End Incoming.
