(* ===== verification/BluefinLink.v ===== *)
(** * The Bluefin driver and its vehicle: writing, acknowledgements, giving up *)

From Stdlib Require Import SpecFloat Sorted.
From S2P Require Import Prelude HexCodec Double Time As Proto Nmea Prog Seawater FrontSeatData FrontSeat FrontSeatChart Bluefin BluefinIncoming.

#[local] Open Scope prog_scope.

Section Link.
Context {TX : BoostText} {TR : BoostTrim} {LC : LexicalCast} {LN : LexicalNumbers} {VT : VehicleText} {GE : Geodesy} {MP : MoosParse}.
Variables (sin : double -> double) (cfg : iFrontSeatConfig) (bf : BluefinFrontSeatConfig) (debug : bool).

Abbreviation bprog := (prog BluefinFrontSeat FsEvent FsExn).

(** ** The errors of the driver *)

(** what the functions of the driver may throw *)
Definition own_error (x : FsExn) : Prop :=
  x = StdException \/ x = Undefined \/ x = FsException ERROR_FRONTSEAT_IGNORING_COMMANDS.

Lemma own_std : own_error StdException.
Proof. by left. Qed.
Lemma own_undefined : own_error Undefined.
Proof. by right; left. Qed.
Lemma own_ignoring : own_error (FsException ERROR_FRONTSEAT_IGNORING_COMMANDS).
Proof. by right; right. Qed.
#[local] Hint Resolve own_std own_undefined own_ignoring : prog.

Lemma nmea_ok_raises {A} (r : result bad_nmea_sentence A) : raises own_error (nmea_ok r).
Proof. destruct r; cbn; raises_all; auto with prog. Qed.
Lemma or_throw_raises {A} (o : option A) : raises own_error (or_throw o).
Proof. destruct o; cbn; raises_all; auto with prog. Qed.
Lemma at_raises nmea i : raises own_error (at_ nmea i).
Proof. apply or_throw_raises. Qed.
Lemma defined_raises {A} (o : option A) : raises own_error (defined o).
Proof. destruct o; cbn; raises_all; auto with prog. Qed.
#[local] Hint Resolve nmea_ok_raises or_throw_raises at_raises defined_raises : prog.

Lemma write_raises now nmea : raises own_error (write bf now nmea).
Proof. unfold write, remove_from_write_queue. raises_all. Qed.
#[local] Hint Resolve write_raises : prog.

Lemma try_send_raises now : raises own_error (try_send bf now).
Proof. unfold try_send, give_up_sentence, remove_from_write_queue. raises_all; auto with prog. Qed.
#[local] Hint Resolve try_send_raises : prog.

Lemma append_raises now nmea : raises own_error (append_to_write_queue bf now nmea).
Proof. unfold append_to_write_queue. raises_all. Qed.
#[local] Hint Resolve append_raises : prog.

Lemma field_time_raises day text : raises own_error (field_time day text).
Proof. unfold field_time. raises_all; auto with prog. Qed.
Lemma coordinate_raises nmea i deg h : raises own_error (coordinate nmea i deg h).
Proof. unfold coordinate. raises_all. Qed.
Lemma double_at_raises nmea i : raises own_error (double_at nmea i).
Proof. unfold double_at. raises_all. Qed.
Lemma int_at_raises nmea i : raises own_error (int_at nmea i).
Proof. unfold int_at. raises_all. Qed.
Lemma on_status_raises f : raises own_error (on_status f).
Proof. unfold on_status. raises_all. Qed.
Lemma front_is_raises acked l : raises own_error (front_is acked l).
Proof. unfold front_is. raises_all. Qed.
#[local] Hint Resolve field_time_raises coordinate_raises double_at_raises int_at_raises on_status_raises front_is_raises : prog.

Lemma bfack_raises now nmea : raises own_error (bfack debug now nmea).
Proof. unfold bfack, which_queue, respond. raises_all. Qed.
Lemma bfnvg_raises now day nmea : raises own_error (bfnvg now day nmea).
Proof. unfold bfnvg. raises_all. Qed.
Lemma bfnvr_raises day nmea : raises own_error (bfnvr cfg day nmea).
Proof. unfold bfnvr. raises_all. Qed.
#[local] Hint Resolve bfack_raises bfnvg_raises bfnvr_raises : prog.

Lemma process_receive_raises now day nmea : raises own_error (process_receive sin cfg bf debug now day nmea).
Proof. unfold process_receive, bfctd, bfmsc, bfmb, bfmis, bfctl, bfboy, bftrm. raises_all. Qed.
#[local] Hint Resolve process_receive_raises : prog.

Lemma receive_line_raises now day line : raises own_error (receive_line sin cfg bf debug now day line).
Proof.
  unfold receive_line. apply (raises_catch _ own_error); [raises_all|]. intros x Hx. by destruct x.
Qed.
#[local] Hint Resolve receive_line_raises : prog.

Lemma bf_loop_raises now i s : raises own_error (bf_loop sin cfg bf debug now i s).
Proof.
  unfold bf_loop, initialize_huxley, check_send_heartbeat, try_receive. raises_all.
Qed.

#[local] Instance vehicle : FrontSeatDriver BluefinFrontSeat BfIn := bluefin_driver sin cfg bf debug.

(** Once the interface is in the frontseat error state because the Bluefin vehicle ignored
    commands, it stays there with that error through every further sequence of rounds and mail. *)
Lemma bluefin_gives_up_for_good (l : list AppEvent) (f f' : FrontSeatInterfaceBase BluefinFrontSeat) :
  state f = INTERFACE_FS_ERROR -> last_frontseat_error f = ERROR_FRONTSEAT_IGNORING_COMMANDS -> run cfg l f = Some f' ->
  state f' = INTERFACE_FS_ERROR /\ last_frontseat_error f' = ERROR_FRONTSEAT_IGNORING_COMMANDS.
Proof.
  intros Hs He. apply given_up_for_good; [|done]. intros now i s d. pose proof (bf_loop_raises now i s d) as H. cbn.
  destruct (snd (bf_loop sin cfg bf debug now i s d)) as [|x]; [done|]. destruct H as [-> | [-> | ->]]; done.
Qed.

(** ** A sentence that is never acknowledged *)

(** the events of one transmission *)
Definition transmission (nmea : Sentence) (raw : bytes) : list FsEvent :=
  [RawTo (MkRaw raw (description_of (default [] (head nmea)))); WriteVehicle (raw ++ [13; 10])].

(** each call finds the interval elapsed since the one before *)
Fixpoint all_due (t : double) (ts : list double) : Prop :=
  match ts with
  | [] => True
  | t' :: ts => resend_due bf t' t = true /\ all_due t' ts
  end.

Lemma write_waits now nmea raw d :
  disable_ack bf = false -> message nmea = Ok raw ->
  write bf now nmea d = (set_write_time now (set_queues (out d) (pending d) true d), transmission nmea raw, Ok tt).
Proof.
  intros Ha Hm. unfold write. rewrite Hm. cbn [nmea_ok]. rewrite pbind_ret.
  destruct nmea as [|front nmea]; [done|]. cbn [head hd_error or_throw]. rewrite pbind_ret. unfold message_cr_nl. rewrite Hm, Ha. done.
Qed.

(** [k] failures are counted when the last transmission was at [t] *)
Definition unanswered (nmea : Sentence) (rest pend : list Sentence) (demerits k : Z) (t : double) (d : BluefinFrontSeat) : Prop :=
  out d = nmea :: rest /\ pending d = pend /\ waiting_for_huxley d = true /\ nmea_demerits d = demerits /\
  nmea_present_fail_count d = k /\ last_write_time d = t.

Lemma resend nmea raw rest pend demerits k t t' d :
  disable_ack bf = false -> message nmea = Ok raw -> 0 <= k < nmea_resend_attempts bf - 1 -> nmea_resend_attempts bf < 2 ^ 32 ->
  resend_due bf t' t = true -> unanswered nmea rest pend demerits k t d ->
  exists d', try_send bf t' d = (d', transmission nmea raw, Ok tt) /\ unanswered nmea rest pend demerits (k + 1) t' d'.
Proof.
  intros Ha Hm Hk Hn Hd (Ho & Hp & Hw & Hde & Hf & Ht). unfold try_send. rewrite pbind_get, Ho, Hw, Ht, Hd, Hf. cbn [negb].
  assert (u32 (k + 1) = k + 1) as -> by (apply wrap_small; lia). rewrite pbind_mod.
  assert ((nmea_resend_attempts bf <=? k + 1) = false) as -> by lia. rewrite (write_waits _ _ raw) by done.
  eexists. split; [reflexivity|]. by repeat split.
Qed.

Lemma sentence_dropped nmea rest pend demerits k t t' d :
  k = nmea_resend_attempts bf - 1 -> 0 <= k -> nmea_resend_attempts bf < 2 ^ 32 -> 0 <= demerits <= allowed_nmea_demerits bf ->
  allowed_nmea_demerits bf < 2 ^ 32 - 1 ->
  resend_due bf t' t = true -> unanswered nmea rest pend demerits k t d ->
  exists d', try_send bf t' d = (d', [], if demerits =? allowed_nmea_demerits bf then Err (FsException ERROR_FRONTSEAT_IGNORING_COMMANDS) else Ok tt) /\
    out d' = rest /\ pending d' = pend /\ waiting_for_huxley d' = false /\ nmea_present_fail_count d' = 0 /\ nmea_demerits d' = demerits + 1 /\
    (demerits = allowed_nmea_demerits bf -> frontseat_state_ d' = FRONTSEAT_NOT_CONNECTED).
Proof.
  intros Hk Hk0 Hn Hde Hal Hd (Ho & Hp & Hw & Hd2 & Hf & Ht). unfold try_send. rewrite pbind_get, Ho, Hw, Ht, Hd, Hf. cbn [negb].
  assert (u32 (k + 1) = nmea_resend_attempts bf) as -> by (rewrite Hk; unfold u32; rewrite wrap_small; lia). rewrite pbind_mod, Z.leb_refl.
  unfold give_up_sentence, remove_from_write_queue. rewrite pbind_mod, pbind_read, pbind_mod. cbn [nmea_demerits set_counts set_queues].
  rewrite Hd2. assert (u32 (demerits + 1) = demerits + 1) as -> by (apply wrap_small; lia).
  destruct (demerits =? allowed_nmea_demerits bf) eqn:E; to_prop.
  - assert ((allowed_nmea_demerits bf <? demerits + 1) = true) as -> by lia. eexists. split; [reflexivity|]. cbn. rewrite Ho, Hp. by repeat split.
  - assert ((allowed_nmea_demerits bf <? demerits + 1) = false) as -> by lia. eexists. split; [reflexivity|]. cbn. rewrite Ho, Hp. by repeat split.
Qed.

Lemma unanswered_polls nmea raw rest pend demerits : forall ts k t d,
  disable_ack bf = false -> message nmea = Ok raw -> 0 <= k -> nmea_resend_attempts bf < 2 ^ 32 ->
  0 <= demerits <= allowed_nmea_demerits bf -> allowed_nmea_demerits bf < 2 ^ 32 - 1 ->
  k + Z.of_nat (length ts) = nmea_resend_attempts bf -> ts <> [] -> all_due t ts -> unanswered nmea rest pend demerits k t d ->
  exists d', pfor ts (try_send bf) d =
      (d', concat (repeat (transmission nmea raw) (length ts - 1)),
       if demerits =? allowed_nmea_demerits bf then Err (FsException ERROR_FRONTSEAT_IGNORING_COMMANDS) else Ok tt) /\
    out d' = rest /\ pending d' = pend /\ waiting_for_huxley d' = false /\ nmea_present_fail_count d' = 0 /\ nmea_demerits d' = demerits + 1 /\
    (demerits = allowed_nmea_demerits bf -> frontseat_state_ d' = FRONTSEAT_NOT_CONNECTED).
Proof.
  induction ts as [|t' [|t'' ts] IH]; intros k t d Ha Hm Hk Hn Hde Hal Hlen Hne Hdue Hu; [done| |].
  - cbn [length] in Hlen. destruct Hdue as [Hdue _].
    destruct (sentence_dropped nmea rest pend demerits k t t' d ltac:(lia) Hk Hn Hde Hal Hdue Hu) as (d' & E & H).
    exists d'. split; [|exact H]. cbn [pfor]. unfold pbind. rewrite E. by destruct (demerits =? _).
  - destruct Hdue as [Hd1 Hdue]. cbn [length] in Hlen.
    destruct (resend nmea raw rest pend demerits k t t' d Ha Hm ltac:(lia) Hn Hd1 Hu) as (d1 & E1 & Hu1).
    destruct (IH (k + 1) t' d1) as (d' & E & H); [done | done | lia | done | done | done | cbn [length]; lia | done | done | done |].
    exists d'. split; [|exact H]. change (pfor (t' :: t'' :: ts) (try_send bf)) with (pbind (try_send bf t') (fun _ => pfor (t'' :: ts) (try_send bf))).
    rewrite (pbind_ok _ _ _ _ _ _ E1), E. cbn [length]. replace (S (S (length ts)) - 1)%nat with (S (S (length ts) - 1)) by lia. done.
Qed.

(** C25: A sentence that the vehicle never acknowledges is written exactly nmea_resend_attempts
    times, once per elapsed interval, and then dropped with one demerit; when that is one demerit
    more than allowed, the driver disconnects and throws that its commands are ignored. *)
Theorem unanswered_sentence_given_up (d : BluefinFrontSeat) (nmea : Sentence) (rest : list Sentence) (raw : bytes) (t0 : double) (ts : list double) :
  disable_ack bf = false -> message nmea = Ok raw ->
  1 <= nmea_resend_attempts bf < 2 ^ 32 -> allowed_nmea_demerits bf < 2 ^ 32 - 1 ->
  out d = nmea :: rest -> waiting_for_huxley d = false -> nmea_present_fail_count d = 0 ->
  0 <= nmea_demerits d <= allowed_nmea_demerits bf ->
  Z.of_nat (length ts) = nmea_resend_attempts bf -> all_due t0 ts ->
  exists d', pfor (t0 :: ts) (try_send bf) d =
      (d', concat (repeat (transmission nmea raw) (length ts)),
       if nmea_demerits d =? allowed_nmea_demerits bf then Err (FsException ERROR_FRONTSEAT_IGNORING_COMMANDS) else Ok tt) /\
    out d' = rest /\ pending d' = pending d /\ waiting_for_huxley d' = false /\ nmea_present_fail_count d' = 0 /\
    nmea_demerits d' = nmea_demerits d + 1 /\
    (nmea_demerits d = allowed_nmea_demerits bf -> frontseat_state_ d' = FRONTSEAT_NOT_CONNECTED).
Proof.
  intros Ha Hm Hn Hal Ho Hw Hf Hde Hlen Hdue.
  assert (E1 : try_send bf t0 d = (set_write_time t0 (set_queues (out d) (pending d) true d), transmission nmea raw, Ok tt)).
  { unfold try_send. rewrite pbind_get, Ho, Hw. cbn [negb]. rewrite (write_waits _ _ raw) by done. by rewrite Ho. }
  destruct (unanswered_polls nmea raw rest (pending d) (nmea_demerits d) ts 0 t0 (set_write_time t0 (set_queues (out d) (pending d) true d)))
    as (d' & E & H); [done | done | lia | lia | done | done | lia | by intros ->; cbn in Hlen; lia | done | by repeat split |].
  exists d'. split; [|exact H]. change (pfor (t0 :: ts) (try_send bf)) with (pbind (try_send bf t0) (fun _ => pfor ts (try_send bf))).
  rewrite (pbind_ok _ _ _ _ _ _ E1), E. destruct ts as [|t ts]; [cbn in Hlen; lia|]. cbn [length]. by rewrite Nat.sub_1_r.
Qed.

(** ** The state of the driver *)

Definition before (a b : BluefinCommand * CommandRequest) : Prop := command_number (fst a) < command_number (fst b).
Definition expires_first {A : Type} (a b : Z * A) : Prop := fst a <= fst b.

(** the two maps are in order, the count of failures is below the limit *)
Definition bf_ok (d : BluefinFrontSeat) : Prop :=
  StronglySorted before (outstanding_requests d) /\ StronglySorted expires_first (payload_status d) /\
  0 <= nmea_present_fail_count d < Z.max 1 (nmea_resend_attempts bf).

Lemma put_request_in c r l e : In e (put_request c r l) -> e = (c, r) \/ In e l.
Proof.
  induction l as [|[c' r'] l IH]; cbn [put_request]; [by intros [<- | []]; left|].
  destruct (bool_decide _); [intros [<- | H]; [by left | by right; right]|].
  destruct (_ <? _); [intros [<- | H]; [by left | by right]|]. intros [<- | H]; [by right; left|].
  destruct (IH H) as [-> | H']; [by left | by right; right].
Qed.

Lemma command_number_inj c c' : command_number c = command_number c' -> c = c'.
Proof. by destruct c, c'. Qed.

Lemma put_request_sorted c r l : StronglySorted before l -> StronglySorted before (put_request c r l).
Proof.
  induction 1 as [|[c' r'] l Hs IH Hall]; cbn [put_request]; [by repeat constructor|].
  rewrite Forall_forall in Hall. setoid_rewrite list_elem_of_In in Hall.
  destruct (bool_decide (c = c')) eqn:E; [|destruct (command_number c <? command_number c') eqn:E2]; to_prop.
  - subst c'. constructor; [done|]. apply Forall_forall. intros e He. apply Hall. by apply list_elem_of_In.
  - constructor; [constructor; [done|]|]; apply Forall_forall; setoid_rewrite list_elem_of_In; [done|].
    intros e [<- | He]; [exact E2|]. specialize (Hall e He). unfold before in *. cbn in *. lia.
  - constructor; [done|]. apply Forall_forall. intros e He. apply list_elem_of_In, put_request_in in He as [-> | He]; [|by apply Hall].
    unfold before. cbn. assert (command_number c <> command_number c') by (intros H; by apply E, command_number_inj). lia.
Qed.

Lemma remove_first_sorted {A} R (p : A -> bool) l : StronglySorted R l -> StronglySorted R (remove_first p l).
Proof.
  induction 1 as [|a l Hs IH Hall]; cbn [remove_first]; [constructor|]. destruct (p a); [done|]. constructor; [done|].
  rewrite Forall_forall in *. intros e He. by apply Hall, (remove_first_elem_of p).
Qed.

Lemma filter_sorted {A} R (p : A -> bool) l : StronglySorted R l -> StronglySorted R (List.filter p l).
Proof.
  induction 1 as [|a l Hs IH Hall]; cbn [List.filter]; [constructor|]. destruct (p a); [|done]. constructor; [done|].
  rewrite Forall_forall in *. intros e He. apply Hall. apply list_elem_of_In, filter_In in He as [He _]. by apply list_elem_of_In.
Qed.

Lemma multimap_insert_in {A} k (v : A) l e : In e (multimap_insert k v l) -> e = (k, v) \/ In e l.
Proof.
  induction l as [|[k' v'] l IH]; cbn [multimap_insert]; [by intros [<- | []]; left|].
  destruct (k <? k'); [intros [<- | H]; [by left | by right]|]. intros [<- | H]; [by right; left|].
  destruct (IH H) as [-> | H']; [by left | by right; right].
Qed.

Lemma multimap_insert_sorted {A} k (v : A) l : StronglySorted expires_first l -> StronglySorted expires_first (multimap_insert k v l).
Proof.
  induction 1 as [|[k' v'] l Hs IH Hall]; cbn [multimap_insert]; [by repeat constructor|].
  rewrite Forall_forall in Hall. setoid_rewrite list_elem_of_In in Hall. unfold expires_first in *.
  destruct (k <? k') eqn:E; to_prop.
  - constructor; [constructor; [done|]|]; apply Forall_forall; setoid_rewrite list_elem_of_In; [done|].
    intros e [<- | He]; [cbn; lia|]. specialize (Hall e He). cbn in *. lia.
  - constructor; [done|]. apply Forall_forall. intros e He. apply list_elem_of_In, multimap_insert_in in He as [-> | He]; [cbn; lia | by apply Hall].
Qed.

(** an assignment that leaves the maps and the count alone *)
Lemma keeps_other (f : BluefinFrontSeat -> BluefinFrontSeat) :
  (forall d, outstanding_requests (f d) = outstanding_requests d /\ payload_status (f d) = payload_status d /\
     nmea_present_fail_count (f d) = nmea_present_fail_count d) -> keeps bf_ok (pmod (Ev := FsEvent) (X := FsExn) f).
Proof. intros H. apply keeps_mod. intros d (H1 & H2 & H3). destruct (H d) as (E1 & E2 & E3). unfold bf_ok. by rewrite E1, E2, E3. Qed.

Ltac ok_other := solve [apply keeps_other; intros ?; repeat (case_match || split); reflexivity].
Ltac ok_all := repeat (keeps_step || ok_other).

Lemma remove_ok : keeps bf_ok remove_from_write_queue.
Proof. apply keeps_mod. intros d (H1 & H2 & H3). split; [done|]. split; [done|]. cbn. lia. Qed.
#[local] Hint Resolve remove_ok : prog.

Lemma nmea_ok_keeps {A} (r : result bad_nmea_sentence A) : keeps bf_ok (nmea_ok r).
Proof. unfold nmea_ok. ok_all. Qed.
Lemma or_throw_keeps {A} (o : option A) : keeps bf_ok (or_throw o).
Proof. unfold or_throw. ok_all. Qed.
Lemma at_keeps nmea i : keeps bf_ok (at_ nmea i).
Proof. apply or_throw_keeps. Qed.
Lemma defined_keeps {A} (o : option A) : keeps bf_ok (defined o).
Proof. unfold defined. ok_all. Qed.
Lemma field_time_keeps day text : keeps bf_ok (field_time day text).
Proof. unfold field_time. ok_all. Qed.
Lemma double_at_keeps nmea i : keeps bf_ok (double_at nmea i).
Proof. unfold double_at. apply keeps_bind; [apply at_keeps|]. intros ?. ok_all. Qed.
Lemma int_at_keeps nmea i : keeps bf_ok (int_at nmea i).
Proof. unfold int_at. apply keeps_bind; [apply at_keeps|]. intros ?. ok_all. Qed.
Lemma on_status_keeps f : keeps bf_ok (on_status f).
Proof. unfold on_status. ok_all. Qed.
#[local] Hint Resolve nmea_ok_keeps or_throw_keeps at_keeps defined_keeps field_time_keeps double_at_keeps int_at_keeps on_status_keeps : prog.

Lemma write_ok now nmea : keeps bf_ok (write bf now nmea).
Proof. unfold write. ok_all. Qed.
#[local] Hint Resolve write_ok : prog.

Lemma give_up_ok : keeps bf_ok (give_up_sentence bf).
Proof. unfold give_up_sentence. ok_all. Qed.

(** giving up forgets the count *)
Lemma give_up_forgets n d : give_up_sentence bf (set_counts (nmea_demerits d) n d) = give_up_sentence bf d.
Proof. done. Qed.

Lemma try_send_ok now : keeps bf_ok (try_send bf now).
Proof.
  intros d Hd. unfold try_send. rewrite pbind_get. destruct (out d) as [|nmea rest]; [done|].
  destruct (negb _); [by apply write_ok|]. destruct (resend_due _ _ _); [|done]. rewrite pbind_mod.
  destruct (nmea_resend_attempts bf <=? _) eqn:E; to_prop.
  - rewrite give_up_forgets. by apply give_up_ok.
  - apply write_ok. destruct Hd as (H1 & H2 & H3). split; [done|]. split; [done|]. cbn.
    pose proof (wrap_bound 32 (nmea_present_fail_count d + 1) ltac:(lia)). unfold u32 in *. lia.
Qed.
#[local] Hint Resolve try_send_ok : prog.

Lemma append_ok now nmea : keeps bf_ok (append_to_write_queue bf now nmea).
Proof. unfold append_to_write_queue. ok_all. Qed.
#[local] Hint Resolve append_ok : prog.

Lemma send_command_ok now c : keeps bf_ok (bf_send_command bf now c).
Proof.
  unfold bf_send_command, at_rest. ok_all.
  - apply keeps_mod. intros d (H1 & H2). split; [by apply remove_first_sorted | done].
  - apply keeps_mod. intros d (H1 & H2). split; [by apply put_request_sorted | done].
Qed.

Lemma payload_sorted l : forall ps, StronglySorted expires_first ps ->
  StronglySorted expires_first (foldl (fun l p => multimap_insert (pl_expire_time p) p l) ps l).
Proof. induction l as [|p l IH]; intros ps H; [done|]. by apply IH, multimap_insert_sorted. Qed.

Lemma send_data_ok now x : keeps bf_ok (bf_send_data bf now x).
Proof.
  unfold bf_send_data. ok_all. apply keeps_mod. intros d (H1 & H2 & H3). split; [done|]. split; [by apply payload_sorted | done].
Qed.

Lemma send_raw_ok now x : keeps bf_ok (bf_send_raw bf now x).
Proof. unfold bf_send_raw. ok_all. Qed.

Lemma bfack_ok now nmea : keeps bf_ok (bfack debug now nmea).
Proof.
  unfold bfack, which_queue, front_is, respond. ok_all.
  all: apply keeps_mod; intros d (H1 & H2); (split; [by apply remove_first_sorted | done]).
Qed.
#[local] Hint Resolve bfack_ok : prog.

Lemma process_receive_ok now day nmea : keeps bf_ok (process_receive sin cfg bf debug now day nmea).
Proof.
  unfold process_receive, bfnvg, bfnvr, coordinate, bfctd, bfmsc, bfmb, bfmis, bfctl, bfboy, bftrm. ok_all.
Qed.
#[local] Hint Resolve process_receive_ok : prog.

Lemma receive_line_ok now day line : keeps bf_ok (receive_line sin cfg bf debug now day line).
Proof.
  unfold receive_line. apply keeps_catch; [ok_all|]. intros x k. destruct x; intros [= <-]. ok_all.
Qed.
#[local] Hint Resolve receive_line_ok : prog.

Lemma bf_loop_ok now i s : keeps bf_ok (bf_loop sin cfg bf debug now i s).
Proof.
  unfold bf_loop, initialize_huxley, check_send_heartbeat, try_receive. ok_all.
  apply keeps_mod. intros d (H1 & H2 & H3). split; [done|]. split; [by apply filter_sorted | done].
Qed.

(** C26: In every run of the application with the Bluefin driver the outstanding requests are in the
    order of their commands without duplicates, the payload statuses in the order of their expiry,
    and the count of failures of the current sentence is below the limit. *)
Theorem bluefin_state_ok (now0 : double) (l : list AppEvent) (f : FrontSeatInterfaceBase BluefinFrontSeat) :
  run cfg l (new_frontseat now0 new_bluefin) = Some f -> bf_ok (driver f).
Proof.
  apply run_keeps; [intros; apply bf_loop_ok | intros; apply send_command_ok | intros; apply send_data_ok | intros; apply send_raw_ok |].
  split; [constructor|]. split; [constructor|]. cbn. lia.
Qed.

(** ** Acknowledgements *)

Context {TXL : BoostTextLaws} {TRL : BoostTrimLaws} {LD : LexicalDecimal}.

(** the sentence with which the vehicle acknowledges the sentence [name] *)
Definition ack_sentence (time name command_time behavior : bytes) (status : Z) (description : bytes) : Sentence :=
  [B "$BFACK"; time; name; command_time; behavior; as_string status; []; description].

Definition plain (s : bytes) : Prop := 44 ∉ s.

Lemma ack_well_formed time name command_time behavior status description :
  Forall plain [time; name; command_time; behavior; description] ->
  well_formed true (ack_sentence time name command_time behavior status description).
Proof.
  intros H. rewrite !Forall_cons in H. destruct H as (H1 & H2 & H3 & H4 & H5 & _). split.
  - unfold ack_sentence. repeat (apply Forall_cons; split); try done; [by intros Hc; cbn in Hc; set_unfold in Hc; lia | |by intros Hc; inversion Hc].
    intros Hc. apply as_string_digits in Hc. lia.
  - exists 36, (B "BFACK"), [time; name; command_time; behavior; as_string status; []; description]. split; [done|]. by split; [left|].
Qed.

(** a line that carries an acknowledgement *)
Lemma ack_received now day ack raw post d d' ev r :
  well_formed true ack -> head ack = Some (B "$BFACK") -> message ack = Ok raw -> forallb is_space post = true ->
  bfack debug now ack (set_counts 0 (nmea_present_fail_count d) d) = (d', ev, r) ->
  receive_line sin cfg bf debug now day (raw ++ post) d =
    (d', RawFrom (MkRaw raw (B "Message Acknowledgement")) :: ev, match r with Err StdException => Ok tt | r => r end).
Proof.
  intros Hwf Hh Hm Hp E. unfold receive_line, pcatch. rewrite (message_trimmed true ack raw post Hwf Hm Hp).
  assert (Ht : boost_trim raw = raw) by (rewrite <- (app_nil_r raw) at 1; by apply (message_trimmed true ack raw [] Hwf Hm)).
  rewrite (parse_trimmed true VALIDATE ack raw raw Hwf Hm Ht). cbn [nmea_ok]. rewrite pbind_ret. unfold process_receive. rewrite Hm.
  destruct ack as [|front ack]; [done|]. injection Hh as ->. cbn [nmea_ok head hd_error or_throw]. rewrite !pbind_ret.
  change (description_of (B "$BFACK")) with (B "Message Acknowledgement"). unfold pbind at 1. cbn [pemit]. rewrite pbind_mod.
  change (sentence_id (B "$BFACK" :: ack)) with (Some (B "ACK")). cbn [or_throw]. rewrite pbind_ret.
  change (sentence_of (B "ACK")) with (Some S_ACK). cbn [or_throw]. rewrite pbind_ret, E. unfold pret. destruct r as [|[]]; cbn [app]; by rewrite ?app_nil_r.
Qed.

Lemma to_lower_upper c : to_lower (to_upper c) = to_lower c.
Proof. unfold to_lower, to_upper. repeat case_match; to_prop; lia. Qed.

Lemma iequals_upper s t : iequals s (map to_upper t) = iequals s t.
Proof.
  unfold iequals. assert (map to_lower (map to_upper t) = map to_lower t) as ->; [|done].
  rewrite map_map. apply map_ext, to_lower_upper.
Qed.

(** the two requests that a command and its answer are about *)
Lemma erase_request_other c c' l : c' <> c -> find_request c' (erase_request c l) = find_request c' l.
Proof.
  intros Hne. unfold erase_request. induction l as [|[c0 r0] l IH]; [done|]. cbn [remove_first find_request fst].
  destruct (bool_decide (c0 = c)) eqn:E; to_prop; [subst; by rewrite bool_decide_eq_false_2|]. cbn [find_request]. by rewrite IH.
Qed.

Lemma erase_request_gone c l : StronglySorted before l -> find_request c (erase_request c l) = None.
Proof.
  unfold erase_request. induction 1 as [|[c0 r0] l Hs IH Hall]; [done|]. cbn [remove_first find_request fst].
  destruct (bool_decide (c0 = c)) eqn:E; to_prop.
  - subst c0. clear IH Hs. induction l as [|[c1 r1] l IH]; [done|]. apply Forall_cons in Hall as [H1 Hall]. cbn [find_request].
    rewrite bool_decide_eq_false_2; [by apply IH|]. intros ->. unfold before in H1. cbn in H1. lia.
  - cbn [find_request]. rewrite bool_decide_eq_false_2; [done|]. congruence.
Qed.

(** the acknowledgement of the sentence at the front of the queue, up to the answer *)
Lemma bfack_front now time name command_time behavior status description front rest id d :
  0 <= status < 3 -> out d = front :: rest -> sentence_id front = Some id -> iequals id name = true ->
  bfack debug now (ack_sentence time name command_time behavior status description) d =
    pbind (respond (ack_sentence time name command_time behavior status description) status (map to_upper name))
      (fun _ => pmod (fun d => set_queues (out d) (pending d) false d))
      (set_queues rest (pending d) (waiting_for_huxley d) (set_data now d)).
Proof.
  intros Hst Ho Hid Hi. unfold bfack. rewrite pbind_mod. unfold at_. cbn [ack_sentence lookup list_lookup or_throw]. rewrite pbind_ret.
  rewrite as_int_string by lia. rewrite pbind_ret.
  assert (Hne : (status =? REQUEST_PENDING) = false) by (unfold REQUEST_PENDING; lia). rewrite Hne.
  match goal with |- pbind ?m _ ?s = _ => assert (E : m s = (s, [], Ok tt)) by (by destruct (_ && _)) end.
  rewrite (pbind_quiet _ _ _ _ _ E). unfold which_queue, front_is. rewrite pbind_assoc, pbind_get. cbn [out set_data]. rewrite Ho, Hid. cbn [or_throw].
  rewrite pbind_assoc, pbind_assoc, pbind_ret, pbind_ret, iequals_upper, Hi, pbind_ret, pbind_mod. cbn [out pending waiting_for_huxley set_data]. by rewrite Ho.
Qed.

(** the acknowledgement of a request is its answer *)
Lemma acknowledged_request_answered (now : double) (day : Z) (time name command_time behavior description raw post id : bytes) (status : Z)
    (front : Sentence) (rest : list Sentence) (sid : SentenceIDs) (r : CommandRequest) (d : BluefinFrontSeat) :
  bf_ok d -> 0 <= status < 3 -> Forall plain [time; name; command_time; behavior; description] ->
  message (ack_sentence time name command_time behavior status description) = Ok raw -> forallb is_space post = true ->
  out d = front :: rest -> sentence_id front = Some id -> iequals id name = true -> sentence_of (map to_upper name) = Some sid ->
  find_request (command_of sid) (outstanding_requests d) = Some r ->
  exists d', receive_line sin cfg bf debug now day (raw ++ post) d =
      (d', [RawFrom (MkRaw raw (B "Message Acknowledgement"));
            Response (if status =? REQUEST_SUCCESSFULLY_PROCESSED then MkResponse true (request_id r) None None
                      else MkResponse false (request_id r) (Some status) (Some description))], Ok tt) /\
    out d' = rest /\ pending d' = pending d /\ waiting_for_huxley d' = false /\ nmea_demerits d' = 0 /\
    frontseat_providing_data_ d' = true /\ last_frontseat_data_time d' = now /\
    (forall c, find_request c (outstanding_requests d') = if bool_decide (c = command_of sid) then None else find_request c (outstanding_requests d)).
Proof.
  intros (Hsort & _) Hst Hf Hm Hp Ho Hid Hi Hsid Hr. eexists. split.
  { apply (ack_received now day (ack_sentence time name command_time behavior status description) raw post d _ [_] (Ok tt));
      [by apply ack_well_formed | done | done | done |].
    rewrite (bfack_front _ _ _ _ _ _ _ front rest id) by done. unfold respond. rewrite Hsid. cbn [or_throw]. rewrite pbind_assoc, pbind_ret.
    rewrite pbind_assoc, pbind_read. cbn [outstanding_requests set_queues set_data set_counts]. rewrite Hr.
    rewrite pbind_assoc. destruct (status =? REQUEST_SUCCESSFULLY_PROCESSED) eqn:E.
    - rewrite pbind_ret, pbind_assoc, pbind_mod. unfold pbind. reflexivity.
    - unfold at_. cbn [ack_sentence lookup list_lookup or_throw]. rewrite pbind_assoc, !pbind_ret, pbind_assoc, pbind_mod. unfold pbind. reflexivity. }
  cbn. do 6 (split; [done|]). intros c. destruct (bool_decide (c = command_of sid)) eqn:E; to_prop.
  - subst c. by apply erase_request_gone.
  - by apply erase_request_other.
Qed.

(** The acknowledgement of a sentence whose name is not in the driver's table (those that
    cancel a behavior or confirm a mission) removes the sentence but answers no request and leaves
    the driver waiting: the next sentence is not written until the resend interval has passed. *)
Lemma unknown_acknowledgement_stalls (now : double) (day : Z) (time name command_time behavior description raw post id : bytes) (status : Z)
    (front : Sentence) (rest : list Sentence) (d : BluefinFrontSeat) :
  0 <= status < 3 -> Forall plain [time; name; command_time; behavior; description] ->
  message (ack_sentence time name command_time behavior status description) = Ok raw -> forallb is_space post = true ->
  out d = front :: rest -> sentence_id front = Some id -> iequals id name = true -> waiting_for_huxley d = true ->
  sentence_of (map to_upper name) = None ->
  exists d', receive_line sin cfg bf debug now day (raw ++ post) d = (d', [RawFrom (MkRaw raw (B "Message Acknowledgement"))], Ok tt) /\
    out d' = rest /\ waiting_for_huxley d' = true /\ outstanding_requests d' = outstanding_requests d /\
    (forall t, resend_due bf t (last_write_time d) = false -> try_send bf t d' = (d', [], Ok tt)).
Proof.
  intros Hst Hf Hm Hp Ho Hid Hi Hw Hsid. eexists. split.
  { apply (ack_received now day (ack_sentence time name command_time behavior status description) raw post d _ [] (Err StdException));
      [by apply ack_well_formed | done | done | done |].
    rewrite (bfack_front _ _ _ _ _ _ _ front rest id) by done. unfold respond. rewrite Hsid. reflexivity. }
  do 3 (split; [done|]). intros t Hd. unfold try_send. rewrite pbind_get. cbn [out set_queues waiting_for_huxley last_write_time set_data set_counts].
  destruct rest; [done|]. rewrite Hw. cbn [negb]. by rewrite Hd.
Qed.

End Link.

(** ** A concrete vehicle *)

Module BluefinWitness.
#[local] Existing Instances Sample.text Sample.text_laws NmeaWitness.trim NmeaWitness.trim_laws Reader.cast Reader.numbers Reader.decimal ChartWitness.mail.

#[local] Instance vehicle_text : VehicleText := {|
  string_of_double v := as_string (double_to_Z v);
  string_of_double_prec _ v := as_string (double_to_Z v);
  b64_encode s := s;
  no_time_text := []
|}.
#[local] Instance flat : Geodesy := {|
  utm2latlong x y := (y, x);
  latlong2localutm lat lon := (lat, lon)
|}.

Definition cfg : iFrontSeatConfig := ChartWitness.cfg.
(** two attempts, no demerit is allowed *)
Definition bf : BluefinFrontSeatConfig := MkBfConfig 2 5 0 10 1 [] true false BFMIS_RUNNING_TRIGGER.

#[local] Instance vehicle : FrontSeatDriver BluefinFrontSeat BfIn := bluefin_driver (fun x => x) cfg bf false.

Definition at_time (t : Z) (lines : list bytes) : AppEvent := Tick (double_of_Z t) (MkBfIn true lines (t * 1000000) (B "now") 17000).

Definition start : FrontSeatInterfaceBase BluefinFrontSeat := new_frontseat (double_of_Z 1000) new_bluefin.

(** the vehicle navigates, runs its mission, and the helm drives *)
Definition mission : list AppEvent :=
  [at_time 1001 [B "$BFNVG,120000.0,4200.0,N,07100.0,W,1,10,5,90,0,0,120000.0"];
   at_time 1002 [B "$BFMIS,120001.0,dive,Running"];
   MailHelm (B "DRIVE");
   at_time 1003 []].

Definition after (l : list AppEvent) : FrontSeatInterfaceBase BluefinFrontSeat := default start (run cfg l start).

Example command_state_granted_witness :
  state (after mission) = INTERFACE_COMMAND /\ granted cfg start mission.
Proof.
  split; [vm_compute; reflexivity|].
  apply (command_state_granted cfg (double_of_Z 1000) new_bluefin mission (after mission)); vm_compute; reflexivity.
Defined.

Example bluefin_state_ok_witness : bf_ok bf (driver (after mission)).
Proof. apply (bluefin_state_ok (fun x => x) cfg bf false (double_of_Z 1000) mission). vm_compute. reflexivity. Defined.

(** the vehicle never acknowledges: the demerit is one too many *)
Definition deaf : list AppEvent := [MailHelm (B "DRIVE"); at_time 1001 []; at_time 1007 []; at_time 1013 []].

Example bluefin_gives_up_for_good_witness :
  state (after (deaf ++ mission)) = INTERFACE_FS_ERROR /\
  last_frontseat_error (after (deaf ++ mission)) = ERROR_FRONTSEAT_IGNORING_COMMANDS.
Proof.
  apply (bluefin_gives_up_for_good (fun x => x) cfg bf false mission (after deaf)); vm_compute; reflexivity.
Defined.

Definition course : Sentence := [B "$BPRMB"; B "120000.000"; B "90"; B "10"; B "0"; B "2"; B "1"; B "0"].
Definition cancel : Sentence := [B "$BPRCE"; B "120000.000"; B "0"].
Definition request : CommandRequest := MkRequest (Some empty_course) (Some true) (Some 7) None None None.

Definition waiting (front : Sentence) : BluefinFrontSeat :=
  set_requests [(DESIRED_COURSE, request)] (set_write_time (double_of_Z 1000) (set_queues [front; course] [] true new_bluefin)).

Definition text_of (s : Sentence) : bytes := match message s with Ok t => t | Err _ => [] end.

Example unanswered_sentence_given_up_witness :
  exists d', pfor [double_of_Z 1000; double_of_Z 1006; double_of_Z 1012] (try_send bf) (set_queues [cancel; course] [] false new_bluefin) =
      (d', transmission cancel (text_of cancel) ++ transmission cancel (text_of cancel), Err (FsException ERROR_FRONTSEAT_IGNORING_COMMANDS)) /\
    out d' = [course].
Proof.
  destruct (unanswered_sentence_given_up bf (set_queues [cancel; course] [] false new_bluefin) cancel [course] (text_of cancel)
    (double_of_Z 1000) [double_of_Z 1006; double_of_Z 1012]) as (d' & E & H & _);
    [reflexivity | vm_compute; reflexivity | cbn; lia | cbn; lia | reflexivity | reflexivity | reflexivity | cbn; lia | reflexivity
    | repeat split; vm_compute; reflexivity |].
  exists d'. split; [exact E | exact H].
Defined.

Definition course_ack : Sentence := ack_sentence (B "120001.0") (B "RMB") (B "120000.000") (B "1") 2 [].
Definition cancel_ack : Sentence := ack_sentence (B "120001.0") (B "RCE") (B "120000.000") (B "1") 2 [].

Lemma plain_fields name : name ∈ [B "RMB"; B "RCE"] -> Forall plain [B "120001.0"; name; B "120000.000"; B "1"; []].
Proof.
  intros Hn. repeat (apply Forall_cons; split); try done; unfold plain; intros Hc; try (cbn in Hc; set_unfold in Hc; lia).
  set_unfold in Hn. destruct Hn as [-> | [-> | []]]; cbn in Hc; set_unfold in Hc; lia.
Qed.

Example acknowledged_request_answered_witness :
  exists d', receive_line (fun x => x) cfg bf false (double_of_Z 1001) 17000 (text_of course_ack ++ [13; 10]) (waiting course) =
      (d', [RawFrom (MkRaw (text_of course_ack) (B "Message Acknowledgement")); Response (MkResponse true 7 None None)], Ok tt) /\
    out d' = [course] /\ find_request DESIRED_COURSE (outstanding_requests d') = None.
Proof.
  destruct (acknowledged_request_answered (fun x => x) cfg bf false (double_of_Z 1001) 17000 (B "120001.0") (B "RMB") (B "120000.000") (B "1") []
    (text_of course_ack) [13; 10] (B "RMB") 2 course [course] S_RMB request (waiting course)) as (d' & E & Ho & _ & _ & _ & _ & _ & Hr);
    [| lia | apply plain_fields; set_solver | vm_compute; reflexivity | reflexivity | reflexivity | reflexivity | reflexivity | reflexivity | reflexivity |].
  - split; [by repeat constructor|]. split; [constructor|]. cbn. lia.
  - exists d'. split; [exact E|]. split; [exact Ho | exact (Hr DESIRED_COURSE)].
Qed.

Example unknown_acknowledgement_stalls_witness :
  exists d', receive_line (fun x => x) cfg bf false (double_of_Z 1001) 17000 (text_of cancel_ack ++ [13; 10]) (waiting cancel) =
      (d', [RawFrom (MkRaw (text_of cancel_ack) (B "Message Acknowledgement"))], Ok tt) /\
    out d' = [course] /\ waiting_for_huxley d' = true /\ try_send bf (double_of_Z 1002) d' = (d', [], Ok tt).
Proof.
  destruct (unknown_acknowledgement_stalls (fun x => x) cfg bf false (double_of_Z 1001) 17000 (B "120001.0") (B "RCE") (B "120000.000") (B "1") []
    (text_of cancel_ack) [13; 10] (B "RCE") 2 cancel [course] (waiting cancel)) as (d' & E & Ho & Hw & _ & Ht);
    [lia | apply plain_fields; set_solver | vm_compute; reflexivity | reflexivity | reflexivity | reflexivity | reflexivity | reflexivity | reflexivity |].
  exists d'. split; [exact E|]. split; [exact Ho|]. split; [exact Hw|]. apply Ht. vm_compute. reflexivity.
Defined.

End BluefinWitness.
