(* ===== verification/Legacy.v ===== *)
(** * apps/moos/iFrontSeat/legacy_translator.{h,cpp}: the older variables of the
      vehicle interface

    The translator buffers what the older variables carry and publishes the
    messages that [iFrontSeat] reads; what the vehicle sends it publishes under
    the older names. Texts of floating-point numbers are an interface. *)

From Stdlib Require Import SpecFloat.
From S2P Require Import Prelude HexCodec Double Time As Proto Nmea Prog Seawater FrontSeatData FrontSeat FrontSeatChart Bluefin BluefinIncoming BluefinLink.

(** [operator<<] of a [double] with 6 and with 15 digits; the text of a [ModemRaw] *)
Class LegacyText : Type := {
  stream_double : double -> bytes;
  stream_double_15 : double -> bytes;
  parse_modem_raw : bytes -> bytes
}.

Record LegacyConfig : Type := MkLegacyConfig {
  subscribe_ctd : bool;
  subscribe_desired : bool;
  subscribe_acomms_raw : bool;
  pub_sub_bf_commands : bool;
  publish_nav : bool;
  publish_fs_bs_ready : bool
}.

Record FrontSeatLegacyTranslator : Type := MkLegacy {
  ctd_sample_ : CTDSample;
  desired_course_ : DesiredCourse;
  request_id_ : Z
}.

Definition nan : double := S754_nan.

Definition new_legacy (cfg : LegacyConfig) : FrontSeatLegacyTranslator :=
  MkLegacy (if subscribe_ctd cfg
            then MkCTD None None (Some nan) (Some nan) (Some nan) None None None (Some nan) (Some nan) None None None
            else empty_ctd) empty_course 0.

(** [CMOOSMsg]: the variable, its value as a number and as a text, its time *)
Record CMOOSMsg : Type := MkMsg { m_key : bytes; m_double : double; m_string : bytes; m_time : double }.

(** the variables the constructor subscribes to, and the handlers *)
Inductive LegacyHandler : Type :=
| L_ctd | L_desired_course | L_modem_raw (incoming : bool)
| L_buoyancy_control | L_trim_control | L_frontseat_bhvoff | L_frontseat_silent | L_backseat_abort.

Definition subscriptions (cfg : LegacyConfig) : list (bytes * LegacyHandler) :=
  (if subscribe_ctd cfg
   then map (fun s => (B "CTD_" ++ s, L_ctd)) [B "CONDUCTIVITY"; B "TEMPERATURE"; B "PRESSURE"; B "SALINITY"] else [])
  ++ (if subscribe_desired cfg
      then map (fun s => (B "DESIRED_" ++ s, L_desired_course))
             [B "HEADING"; B "SPEED"; B "DEPTH"; B "PITCH"; B "ROLL"; B "Z_RATE"; B "ALTITUDE"] else [])
  ++ (if subscribe_acomms_raw cfg
      then [(B "ACOMMS_RAW_INCOMING", L_modem_raw true); (B "ACOMMS_RAW_OUTGOING", L_modem_raw false)] else [])
  ++ (if pub_sub_bf_commands cfg
      then [(B "BUOYANCY_CONTROL", L_buoyancy_control); (B "TRIM_CONTROL", L_trim_control);
            (B "FRONTSEAT_BHVOFF", L_frontseat_bhvoff); (B "FRONTSEAT_SILENT", L_frontseat_silent);
            (B "BACKSEAT_ABORT", L_backseat_abort)] else []).

(** what the translator publishes *)
Inductive LegacyPub : Type :=
| LPubDouble (name : bytes) (v : double)
| LPubText (name : bytes) (v : bytes)
| LPubCommand (c : CommandRequest)
| LPubData (d : FrontSeatInterfaceData).

Section Legacy.
Context {TR : BoostTrim} {LT : LegacyText}.
Variables (sin : double -> double) (cfg : LegacyConfig).

(** ** From the vehicle *)

Definition pi : double := lit 314159 5.

(** [while (yaw < -pi) yaw += 2 * pi;] and [while (yaw >= pi) yaw -= 2 * pi;] *)
Fixpoint raise_yaw (fuel : nat) (yaw : double) : option double :=
  if dlt yaw (SFopp pi) then
    match fuel with O => None | S fuel => raise_yaw fuel (dadd yaw (dmul (double_of_Z 2) pi)) end
  else Some yaw.
Fixpoint lower_yaw (fuel : nat) (yaw : double) : option double :=
  if dle pi yaw then
    match fuel with O => None | S fuel => lower_yaw fuel (dsub yaw (dmul (double_of_Z 2) pi)) end
  else Some yaw.

Definition radians (deg : double) : double := ddiv (dmul deg pi) (double_of_Z 180).

Definition yaw_of (fuel : nat) (heading : double) : option double :=
  match raise_yaw fuel (radians (SFopp heading)) with Some y => lower_yaw fuel y | None => None end.

Definition pub (name : bytes) (o : option double) : list LegacyPub := match o with Some v => [LPubDouble name v] | None => [] end.

(** [None] when the loops of the yaw do not end within the fuel *)
Definition nav_publications (fuel : nat) (status : NodeStatus) : option (list LegacyPub) :=
  let g := global_fix status in
  let l := local_fix status in
  let p := pose status in
  match match e_heading p with None => Some [] | Some h =>
          match yaw_of fuel h with Some yaw => Some [LPubDouble (B "NAV_YAW") yaw; LPubDouble (B "NAV_HEADING") h] | None => None end end with
  | None => None
  | Some heading =>
      Some ([LPubDouble (B "NAV_X") (value (c_x l)); LPubDouble (B "NAV_Y") (value (c_y l));
             LPubDouble (B "NAV_LAT") (value (g_lat g)); LPubDouble (B "NAV_LONG") (value (g_lon g))]
            ++ pub (B "NAV_Z") (c_z l) ++ pub (B "NAV_DEPTH") (g_depth g)
            ++ heading
            ++ [LPubDouble (B "NAV_SPEED") (value (ns_speed status))]
            ++ pub (B "NAV_PITCH") (radians <$> e_pitch p) ++ pub (B "NAV_ROLL") (radians <$> e_roll p)
            ++ pub (B "NAV_ALTITUDE") (g_altitude g)
            ++ (if bool_decide (default SOURCE_UNKNOWN (g_lat_source g) = GPS) && bool_decide (default SOURCE_UNKNOWN (g_lon_source g) = GPS)
                then [LPubText (B "GPS_UPDATE_RECEIVED") (B "Timestamp=" ++ stream_double_15 (value (ns_time status)))] else []))
  end.

Definition set_position (g : GeodeticCoordinate) (s : CTDSample) : CTDSample :=
  MkCTD (ctd_time s) (ctd_conductivity s) (ctd_temperature s) (ctd_pressure s) (ctd_salinity s) (ctd_sound_speed s) (ctd_density s)
    (ctd_depth s) (Some (value (g_lat g))) (Some (value (g_lon g)))
    (ctd_salinity_algorithm s) (ctd_sound_speed_algorithm s) (ctd_density_algorithm s).

Definition trim_report (t : TrimStatus) : bytes :=
  B "status=" ++ as_string (default 0 (tr_status t)) ++ B ",error=" ++ as_string (default 0 (tr_error t))
  ++ B ",trim_pitch=" ++ stream_double (value (tr_pitch t)) ++ B ",trim_roll=" ++ stream_double (value (tr_roll t)).
Definition buoyancy_report (b : BuoyancyStatus) : bytes :=
  B "status=" ++ as_string (default 0 (by_status b)) ++ B ",error=" ++ as_string (default 0 (by_error b))
  ++ B ",buoyancy=" ++ stream_double (value (by_newtons b)).

Definition legacy_data_from_frontseat (fuel : nat) (data : FrontSeatInterfaceData) (t : FrontSeatLegacyTranslator)
  : option (FrontSeatLegacyTranslator * list LegacyPub) :=
  let reports :=
    match fd_bluefin data with
    | Some x =>
        if pub_sub_bf_commands cfg
        then match xd_trim x with Some s => [LPubText (B "TRIM_REPORT") (trim_report s)] | None => [] end
             ++ match xd_buoyancy x with Some s => [LPubText (B "BUOYANCY_REPORT") (buoyancy_report s)] | None => [] end
        else []
    | None => []
    end in
  match fd_node_status data with
  | Some status =>
      if publish_nav cfg
      then match nav_publications fuel status with
           | Some l => Some (MkLegacy (set_position (global_fix status) (ctd_sample_ t)) (desired_course_ t) (request_id_ t), l ++ reports)
           | None => None
           end
      else Some (t, reports)
  | None => Some (t, reports)
  end.

Definition flag (b : bool) : double := double_of_Z (if b then 1 else 0).

Definition set_fs_bs_ready_flags (s : FrontSeatInterfaceStatus) : list LegacyPub :=
  if publish_fs_bs_ready cfg
  then [LPubDouble (B "FRONTSEAT_READY") (flag (bool_decide (st_frontseat_state s = FRONTSEAT_ACCEPTING_COMMANDS)));
        LPubDouble (B "BACKSEAT_READY") (flag (bool_decide (st_helm_state s = HELM_DRIVE)))]
  else [].

(** ** To the vehicle *)

Definition handle_mail_ctd (msg : CMOOSMsg) (t : FrontSeatLegacyTranslator) : FrontSeatLegacyTranslator * list LegacyPub :=
  let s := ctd_sample_ t in
  let with_sample s' := MkLegacy s' (desired_course_ t) (request_id_ t) in
  let put time cond temp pres sal :=
    MkCTD time cond temp pres sal (ctd_sound_speed s) (ctd_density s) (ctd_depth s) (ctd_lat s) (ctd_lon s)
      (ctd_salinity_algorithm s) (ctd_sound_speed_algorithm s) (ctd_density_algorithm s) in
  let v := m_double msg in
  if bool_decide (m_key msg = B "CTD_CONDUCTIVITY")
  then (with_sample (put (ctd_time s) (Some v) (ctd_temperature s) (ctd_pressure s) (ctd_salinity s)), [])
  else if bool_decide (m_key msg = B "CTD_TEMPERATURE")
  then let s' := put (Some (m_time msg)) (ctd_conductivity s) (Some v) (ctd_pressure s) (ctd_salinity s) in
       (with_sample s', [LPubData (MkData None (Some (compute_missing_ctd sin s')) None None None)])
  else if bool_decide (m_key msg = B "CTD_PRESSURE")
  then (with_sample (put (ctd_time s) (ctd_conductivity s) (ctd_temperature s) (Some (dmul v (double_of_Z 10000))) (ctd_salinity s)), [])
  else if bool_decide (m_key msg = B "CTD_SALINITY")
  then (with_sample (put (ctd_time s) (ctd_conductivity s) (ctd_temperature s) (ctd_pressure s) (Some v)), [])
  else (t, []).

Definition LEGACY_REQUEST_IDENTIFIER : Z := Z.shiftl 1 16.

(** a request with the next identifier *)
Definition request (course : option DesiredCourse) (extra : option BluefinExtraCommands) (t : FrontSeatLegacyTranslator)
  : FrontSeatLegacyTranslator * list LegacyPub :=
  (MkLegacy (ctd_sample_ t) (desired_course_ t) (request_id_ t + 1),
   [LPubCommand (MkRequest course (Some true) (Some (LEGACY_REQUEST_IDENTIFIER + request_id_ t)) None extra None)]).

Definition handle_mail_desired_course (msg : CMOOSMsg) (t : FrontSeatLegacyTranslator) : FrontSeatLegacyTranslator * list LegacyPub :=
  let c := desired_course_ t in
  let v := Some (m_double msg) in
  let with_course c' := MkLegacy (ctd_sample_ t) c' (request_id_ t) in
  let key name := bool_decide (m_key msg = name) in
  if key (B "DESIRED_SPEED")
  then let c' := MkCourse (Some (m_time msg)) (dc_heading c) v (dc_depth c) (dc_pitch c) (dc_roll c) (dc_z_rate c) (dc_altitude c) in
       request (Some c') None (with_course c')
  else
    (if key (B "DESIRED_HEADING") then with_course (MkCourse (dc_time c) v (dc_speed c) (dc_depth c) (dc_pitch c) (dc_roll c) (dc_z_rate c) (dc_altitude c))
     else if key (B "DESIRED_DEPTH") then with_course (MkCourse (dc_time c) (dc_heading c) (dc_speed c) v (dc_pitch c) (dc_roll c) (dc_z_rate c) (dc_altitude c))
     else if key (B "DESIRED_PITCH") then with_course (MkCourse (dc_time c) (dc_heading c) (dc_speed c) (dc_depth c) v (dc_roll c) (dc_z_rate c) (dc_altitude c))
     else if key (B "DESIRED_ROLL") then with_course (MkCourse (dc_time c) (dc_heading c) (dc_speed c) (dc_depth c) (dc_pitch c) v (dc_z_rate c) (dc_altitude c))
     else if key (B "DESIRED_Z_RATE") then with_course (MkCourse (dc_time c) (dc_heading c) (dc_speed c) (dc_depth c) (dc_pitch c) (dc_roll c) v (dc_altitude c))
     else if key (B "DESIRED_ALTITUDE") then with_course (MkCourse (dc_time c) (dc_heading c) (dc_speed c) (dc_depth c) (dc_pitch c) (dc_roll c) (dc_z_rate c) v)
     else t, []).

Definition handle_mail_modem_raw (incoming : bool) (msg : CMOOSMsg) : list LegacyPub :=
  let raw := parse_modem_raw (m_string msg) in
  [LPubData (MkData None None None (Some (if incoming then MkExtraData None (Some raw) None None [] else MkExtraData (Some raw) None None None [])) None)].

Definition extra (c : BluefinCommand) : option BluefinExtraCommands := Some (MkExtra (Some c) None None).

(** the text of the variable is true *)
Definition wanted (msg : CMOOSMsg) : bool := as_bool (boost_trim (m_string msg)).

Definition handle_mail_if_wanted (c : BluefinCommand) (msg : CMOOSMsg) (t : FrontSeatLegacyTranslator) : FrontSeatLegacyTranslator * list LegacyPub :=
  if wanted msg then request None (extra c) t else (t, []).

Definition handle_mail_frontseat_silent (msg : CMOOSMsg) : FrontSeatLegacyTranslator -> FrontSeatLegacyTranslator * list LegacyPub :=
  request None (Some (MkExtra (Some SILENT_MODE) (Some (if wanted msg then 1 else 0)) None)).

(** [as<int>] of a [double]: its integral part, the largest [int] where that does not fit *)
Definition handle_mail_backseat_abort (msg : CMOOSMsg) : FrontSeatLegacyTranslator -> FrontSeatLegacyTranslator * list LegacyPub :=
  let v := default (2 ^ 31 - 1) (int_cast (m_double msg)) in
  request None (Some (MkExtra (Some ABORT_MISSION) None (Some (if v =? 0 then 0 else 1)))).

Definition legacy_mail (msg : CMOOSMsg) (t : FrontSeatLegacyTranslator) : FrontSeatLegacyTranslator * list LegacyPub :=
  match find_key (m_key msg) (subscriptions cfg) with
  | None => (t, [])
  | Some L_ctd => handle_mail_ctd msg t
  | Some L_desired_course => handle_mail_desired_course msg t
  | Some (L_modem_raw incoming) => (t, handle_mail_modem_raw incoming msg)
  | Some L_buoyancy_control => handle_mail_if_wanted BUOYANCY_ADJUST msg t
  | Some L_trim_control => handle_mail_if_wanted TRIM_ADJUST msg t
  | Some L_frontseat_bhvoff => handle_mail_if_wanted CANCEL_CURRENT_BEHAVIOR msg t
  | Some L_frontseat_silent => handle_mail_frontseat_silent msg t
  | Some L_backseat_abort => handle_mail_backseat_abort msg t
  end.

(** a sequence of mail *)
Fixpoint legacy_run (l : list CMOOSMsg) (t : FrontSeatLegacyTranslator) : FrontSeatLegacyTranslator * list LegacyPub :=
  match l with
  | [] => (t, [])
  | msg :: l => let '(t1, p1) := legacy_mail msg t in let '(t2, p2) := legacy_run l t1 in (t2, p1 ++ p2)
  end.

(** ** Identifiers of requests *)

Definition published_ids (l : list LegacyPub) : list Z :=
  concat (map (fun p => match p with LPubCommand c => [FrontSeatData.request_id c] | _ => [] end) l).

Lemma legacy_mail_ids msg t :
  let '(t', l) := legacy_mail msg t in
  request_id_ t <= request_id_ t' /\ published_ids l = map (fun i => LEGACY_REQUEST_IDENTIFIER + i) (seqZ (request_id_ t) (request_id_ t' - request_id_ t)).
Proof.
  assert (Hn : forall z : Z, z - z = 0) by lia. assert (H1 : forall z : Z, z + 1 - z = 1) by lia.
  unfold legacy_mail, handle_mail_ctd, handle_mail_desired_course, handle_mail_if_wanted, handle_mail_frontseat_silent, handle_mail_backseat_abort, request.
  repeat case_match; simplify_eq; cbn; rewrite ?Hn, ?H1; (split; [lia|]); try done; cbn; by rewrite Z.add_0_r.
Qed.

(** every request has its own identifier, in order, from [1 << 16] on *)
Lemma legacy_run_ids l : forall t t' ps, legacy_run l t = (t', ps) ->
  request_id_ t <= request_id_ t' /\ published_ids ps = map (fun i => LEGACY_REQUEST_IDENTIFIER + i) (seqZ (request_id_ t) (request_id_ t' - request_id_ t)).
Proof.
  induction l as [|msg l IH]; cbn [legacy_run]; intros t t' ps.
  - intros [= <- <-]. split; [lia|]. by rewrite Z.sub_diag.
  - pose proof (legacy_mail_ids msg t) as Hm. destruct (legacy_mail msg t) as [t1 p1]. destruct Hm as [Hle Hm].
    destruct (legacy_run l t1) as [t2 p2] eqn:E. intros [= <- <-]. destruct (IH _ _ _ E) as [Hle2 Hi]. split; [lia|].
    unfold published_ids in *. rewrite map_app, concat_app, Hm, Hi, <- map_app. f_equal.
    replace (request_id_ t2 - request_id_ t) with ((request_id_ t1 - request_id_ t) + (request_id_ t2 - request_id_ t1)) by lia.
    rewrite seqZ_app by lia. f_equal. f_equal. lia.
Qed.

(** ** A heading that is not finite *)

Lemma infinite_heading_hangs fuel : yaw_of fuel (S754_infinity false) = None.
Proof.
  unfold yaw_of. replace (radians (SFopp (S754_infinity false))) with (S754_infinity true) by (vm_compute; reflexivity).
  assert (raise_yaw fuel (S754_infinity true) = None) as ->; [|done].
  induction fuel as [|fuel IH]; cbn [raise_yaw]; [vm_compute; reflexivity|].
  replace (dlt (S754_infinity true) (SFopp pi)) with true by (vm_compute; reflexivity).
  by replace (dadd (S754_infinity true) (dmul (double_of_Z 2) pi)) with (S754_infinity true) by (vm_compute; reflexivity).
Qed.

End Legacy.

(** ** The helm commands the vehicle *)

Section HelmCourse.
Context {TX : BoostText} {TR : BoostTrim} {LC : LexicalCast} {LN : LexicalNumbers} {VT : VehicleText} {GE : Geodesy} {MP : MoosParse} {LT : LegacyText}.
Context {TXL : BoostTextLaws} {TRL : BoostTrimLaws} {LD : LexicalDecimal}.
Variables (sin : double -> double) (cfg : iFrontSeatConfig) (bf : BluefinFrontSeatConfig) (debug : bool) (lcfg : LegacyConfig).

#[local] Instance vehicle : FrontSeatDriver BluefinFrontSeat BfIn := bluefin_driver sin cfg bf debug.

Definition helm_mail (tm : double) (name : bytes) (v : double) : CMOOSMsg := MkMsg (B "DESIRED_" ++ name) v [] tm.

Definition helm_course (tm h z v : double) : list CMOOSMsg :=
  [helm_mail tm (B "HEADING") h; helm_mail tm (B "DEPTH") z; helm_mail tm (B "SPEED") v].

(** the course after the three variables *)
Definition new_course (tm h z v : double) (c : DesiredCourse) : DesiredCourse :=
  MkCourse (Some tm) (Some h) (Some v) (Some z) (dc_pitch c) (dc_roll c) (dc_z_rate c) (dc_altitude c).

Lemma helm_course_published tm h z v t :
  subscribe_desired lcfg = true ->
  legacy_run sin lcfg (helm_course tm h z v) t =
    (MkLegacy (ctd_sample_ t) (new_course tm h z v (desired_course_ t)) (request_id_ t + 1),
     [LPubCommand (MkRequest (Some (new_course tm h z v (desired_course_ t))) (Some true) (Some (LEGACY_REQUEST_IDENTIFIER + request_id_ t)) None None None)]).
Proof.
  intros Hd. assert (Hf : forall name, name ∈ [B "HEADING"; B "DEPTH"; B "SPEED"] -> find_key (B "DESIRED_" ++ name) (subscriptions lcfg) = Some L_desired_course).
  { intros name Hn. unfold subscriptions. rewrite Hd. set_unfold in Hn. by destruct (subscribe_ctd lcfg), Hn as [-> | [-> | [-> | []]]]. }
  assert (Hm : forall name w t, name ∈ [B "HEADING"; B "DEPTH"; B "SPEED"] ->
    legacy_mail sin lcfg (helm_mail tm name w) t = handle_mail_desired_course (helm_mail tm name w) t).
  { intros name w t0 Hn. unfold legacy_mail. cbn [m_key helm_mail]. by rewrite Hf. }
  assert (E1 : forall t, legacy_mail sin lcfg (helm_mail tm (B "HEADING") h) t =
    (let c := desired_course_ t in MkLegacy (ctd_sample_ t) (MkCourse (dc_time c) (Some h) (dc_speed c) (dc_depth c) (dc_pitch c) (dc_roll c) (dc_z_rate c) (dc_altitude c))
       (request_id_ t), [])) by (intros t0; rewrite Hm by set_solver; reflexivity).
  assert (E2 : forall t, legacy_mail sin lcfg (helm_mail tm (B "DEPTH") z) t =
    (let c := desired_course_ t in MkLegacy (ctd_sample_ t) (MkCourse (dc_time c) (dc_heading c) (dc_speed c) (Some z) (dc_pitch c) (dc_roll c) (dc_z_rate c) (dc_altitude c))
       (request_id_ t), [])) by (intros t0; rewrite Hm by set_solver; reflexivity).
  cbn [legacy_run helm_course]. rewrite E1, E2, Hm by set_solver. reflexivity.
Qed.

Definition course_fields (now h z v : double) : Sentence :=
  stamped now "$BPRMB" ++ [string_of_double h; string_of_double z; B "0"; string_of_double v; B "1"; B "0"].

Lemma course_sent now c course d h z v zi :
  cr_desired_course c = Some course -> dc_heading course = Some h -> dc_depth course = Some z -> dc_speed course = Some v ->
  cr_cancel_request_id c = None -> cr_bluefin_command c = None -> cr_response_requested c = Some true ->
  disable_ack bf = false -> out d = [] -> waiting_for_huxley d = false -> int_cast z = Some zi -> zi <> 0 -> dlt v (lit 1 2) = false ->
  exists raw, message (course_fields now h z v) = Ok raw /\
    bf_send_command bf now c d =
      (set_requests (put_request DESIRED_COURSE c (outstanding_requests d)) (set_write_time now (set_queues [course_fields now h z v] (pending d) true d)),
       transmission (course_fields now h z v) raw, Ok tt).
Proof.
  intros Hc Hch Hcz Hcv Hx Hb Hr Ha Ho Hw Hz Hz0 Hv. destruct (message_total (B "BPRMB") (drop 1 (course_fields now h z v))) as [raw Hm].
  exists raw. split; [exact Hm|]. unfold bf_send_command. rewrite Hx, Hb. cbv zeta. rewrite pbind_ret.
  rewrite !(bool_decide_eq_true_2 (UNKNOWN_COMMAND = UNKNOWN_COMMAND)) by done. cbn [orb]. rewrite Hc.
  unfold at_rest. rewrite !pbind_assoc, Hcz, Hcv. unfold value; cbn [default from_option id]. rewrite Hz. cbn [defined]. rewrite pbind_ret.
  assert ((zi =? 0) = false) as -> by lia. rewrite pbind_ret. unfold course_sentence. rewrite Hch, Hcz, Hcv. unfold value; cbn [default from_option id].
  rewrite Hv. unfold append_to_write_queue. rewrite !pbind_assoc, pbind_mod, Ho. unfold try_send. rewrite pbind_assoc, pbind_get. cbn [out set_queues waiting_for_huxley app].
  rewrite Hw. cbn [negb]. erewrite pbind_ok; [|by apply (write_waits bf)]. rewrite pbind_ret. unfold response_requested. rewrite Hr, Ha. done.
Qed.

Lemma find_put c r l : find_request c (put_request c r l) = Some r.
Proof.
  induction l as [|[c' r'] l IH]; cbn [put_request find_request]; [by rewrite bool_decide_eq_true_2|].
  destruct (bool_decide (c = c')) eqn:E; [cbn [find_request]; by rewrite bool_decide_eq_true_2|].
  destruct (_ <? _); cbn [find_request]; [by rewrite bool_decide_eq_true_2|]. by rewrite E.
Qed.

Lemma find_put_other x c r l : x <> c -> find_request x (put_request c r l) = find_request x l.
Proof.
  intros Hx. assert (Hf : forall d r l, x <> d -> find_request x ((d, r) :: l) = find_request x l) by (intros; cbn [find_request]; by rewrite bool_decide_eq_false_2).
  induction l as [|[d r'] l IH]; cbn [put_request]; [by rewrite Hf|]. destruct (bool_decide (c = d)) eqn:E; to_prop; [subst d; by rewrite !Hf|].
  destruct (_ <? _); [by rewrite Hf|]. cbn [find_request]. by destruct (bool_decide _).
Qed.

(** C20: In the command state with an idle Bluefin driver, with acknowledgements enabled and the
    desired variables subscribed, the helm's heading, depth and speed, with a depth whose integer
    part is not 0 and a speed that is not below 0.01, become one request with the next legacy
    identifier; that request is written to the vehicle as the sentence with the three values, and
    the vehicle's acknowledgement of it is answered with that identifier and empties the queue of
    sentences; of the outstanding requests it takes away the one for the course and no other. *)
Theorem helm_course_answered (t : FrontSeatLegacyTranslator) (f : FrontSeatInterfaceBase BluefinFrontSeat) (tm h z v now : double) (zi : Z) :
  subscribe_desired lcfg = true -> disable_ack bf = false ->
  state f = INTERFACE_COMMAND -> bf_ok bf (driver f) -> out (driver f) = [] -> waiting_for_huxley (driver f) = false ->
  int_cast z = Some zi -> zi <> 0 -> dlt v (lit 1 2) = false ->
  exists t' c f' raw,
    legacy_run sin lcfg (helm_course tm h z v) t = (t', [LPubCommand c]) /\
    message (course_fields now h z v) = Ok raw /\
    (forall msg, parse_command msg = c -> handle cfg (MailCommand now msg) f = (f', transmission (course_fields now h z v) raw, Ok tt)) /\
    forall now' day time command_time behavior description ack post,
      Forall plain [time; B "RMB"; command_time; behavior; description] ->
      message (ack_sentence time (B "RMB") command_time behavior REQUEST_SUCCESSFULLY_PROCESSED description) = Ok ack -> forallb is_space post = true ->
      exists d', receive_line sin cfg bf debug now' day (ack ++ post) (driver f') =
          (d', [RawFrom (MkRaw ack (B "Message Acknowledgement"));
                Response (MkResponse true (LEGACY_REQUEST_IDENTIFIER + request_id_ t) None None)], Ok tt) /\
        out d' = [] /\ waiting_for_huxley d' = false /\
        forall x, find_request x (outstanding_requests d') = if bool_decide (x = DESIRED_COURSE) then None else find_request x (outstanding_requests (driver f)).
Proof.
  intros Hsub Ha Hs Hok Ho Hw Hz Hz0 Hv.
  set (c := MkRequest (Some (new_course tm h z v (desired_course_ t))) (Some true) (Some (LEGACY_REQUEST_IDENTIFIER + request_id_ t)) None None None).
  destruct (course_sent now c _ (driver f) h z v zi eq_refl eq_refl eq_refl eq_refl eq_refl eq_refl eq_refl Ha Ho Hw Hz Hz0 Hv) as (raw & Hm & E).
  set (d1 := set_requests _ _) in E. exists (fst (legacy_run sin lcfg (helm_course tm h z v) t)), c, (set_driver d1 f), raw.
  split; [by rewrite (helm_course_published tm h z v t Hsub)|]. split; [exact Hm|]. split.
  - intros msg Hmsg. cbn [handle]. unfold handle_mail_command_request. rewrite pbind_read, Hs, bool_decide_eq_true_2 by done. cbn [pwhen].
    unfold on_driver. rewrite Hmsg. cbn [send_command_to_frontseat vehicle bluefin_driver]. by rewrite E.
  - intros now' day time command_time behavior description ack post Hf Hack Hp.
    destruct (acknowledged_request_answered sin cfg bf debug now' day time (B "RMB") command_time behavior description ack post (B "RMB")
      REQUEST_SUCCESSFULLY_PROCESSED (course_fields now h z v) [] S_RMB c d1) as (d' & Er & Hout & _ & Hwait & _ & _ & _ & Hreq); try done.
    + destruct Hok as (H1 & H2 & H3). split; [by apply put_request_sorted | done].
    + apply find_put.
    + exists d'. split; [exact Er|]. split; [exact Hout|]. split; [exact Hwait |]. intros x. rewrite (Hreq x).
      destruct (bool_decide (x = DESIRED_COURSE)) eqn:Ex; to_prop; [by rewrite bool_decide_eq_true_2|]. rewrite bool_decide_eq_false_2 by done. by apply find_put_other.
Qed.

End HelmCourse.

(** ** A concrete helm and vehicle *)

Module LegacyWitness.
#[local] Existing Instances Sample.text Sample.text_laws NmeaWitness.trim NmeaWitness.trim_laws Reader.cast Reader.numbers Reader.decimal
  BluefinWitness.vehicle_text BluefinWitness.flat.

#[local] Instance legacy_text : LegacyText := {| stream_double v := as_string (double_to_Z v); stream_double_15 v := as_string (double_to_Z v); parse_modem_raw s := s |}.

Definition five : double := double_of_Z 5.
Definition time0 : double := double_of_Z 1001.

(** the helm asks for heading, depth and speed 5 *)
Definition helm_request : CommandRequest :=
  MkRequest (Some (new_course time0 five five five empty_course)) (Some true) (Some LEGACY_REQUEST_IDENTIFIER) None None None.

#[local] Instance mail : MoosParse := {| parse_command _ := helm_request; parse_data _ := empty_data; parse_raw s := MkRaw s [] |}.

Definition lcfg : LegacyConfig := MkLegacyConfig true true true true true true.
Definition commanding : FrontSeatInterfaceBase BluefinFrontSeat :=
  MkFs HELM_DRIVE INTERFACE_COMMAND (double_of_Z 1000) ERROR_FRONTSEAT_NONE ERROR_HELM_NONE new_bluefin.

#[local] Instance vehicle : FrontSeatDriver BluefinFrontSeat BfIn := bluefin_driver (fun x => x) BluefinWitness.cfg BluefinWitness.bf false.

Example helm_course_answered_witness :
  exists f' raw d',
    handle BluefinWitness.cfg (MailCommand time0 (B "course")) commanding = (f', transmission (course_fields time0 five five five) raw, Ok tt) /\
    receive_line (fun x => x) BluefinWitness.cfg BluefinWitness.bf false time0 17000
      (BluefinWitness.text_of BluefinWitness.course_ack ++ [13; 10]) (driver f') =
      (d', [RawFrom (MkRaw (BluefinWitness.text_of BluefinWitness.course_ack) (B "Message Acknowledgement"));
            Response (MkResponse true 65536 None None)], Ok tt).
Proof.
  destruct (helm_course_answered (fun x => x) BluefinWitness.cfg BluefinWitness.bf false lcfg (new_legacy lcfg) commanding
    time0 five five five time0 5) as (t' & c & f' & raw & E1 & E2 & E3 & E4);
    [reflexivity | reflexivity | reflexivity | | reflexivity | reflexivity | reflexivity | lia | vm_compute; reflexivity |].
  - split; [constructor|]. split; [constructor|]. cbn. lia.
  - destruct (E4 time0 17000 (B "120001.0") (B "120000.000") (B "1") [] (BluefinWitness.text_of BluefinWitness.course_ack) [13; 10]) as (d' & E5 & _);
      [apply BluefinWitness.plain_fields; set_solver | vm_compute; reflexivity | reflexivity |].
    exists f', raw, d'. split; [|exact E5]. apply E3. injection E1 as _ <-. reflexivity.
Defined.

End LegacyWitness.
