(* ===== verification/Abc.v ===== *)
(** * acomms/modemdriver/abc_driver.{h,cpp} and apps/acomms/abc_modem_simulator:
      the example driver and the medium it talks to

    The driver writes lines of comma-separated [KEY:value] pairs; the simulator
    reads them from any number of drivers, keeps the endpoint of each modem id
    and passes what is sent on to the other endpoints. The time is that of
    [goby_time<uint64>()]. *)

From stdpp Require Import gmap.
From S2P Require Import Prelude AssocList HexCodec Double Time As Proto Nmea UdpDriver Prog DriverBase.

#[local] Open Scope prog_scope.

(** ** Lines *)

(** [std::map<std::string, std::string>], with [insert] and [operator[]] *)
Abbreviation Parsed := (gmap bytes bytes).
Definition insert_new (k v : bytes) (p : Parsed) : Parsed := match p !! k with Some _ => p | None => <[k := v]> p end.
Definition field (k : bytes) (p : Parsed) : bytes := default [] (p !! k).

Section Parse.
Context {TX : BoostText}.

Fixpoint parse_pairs (parts : list bytes) (out : Parsed) : result Exn Parsed :=
  match parts with
  | [] => Ok out
  | part :: parts =>
      match boost_split (Z.eqb 58) part with
      | k :: v :: _ => parse_pairs parts (insert_new k v out)
      | _ => Err OutOfRange
      end
  end.

Definition parse_in (s : bytes) : result Exn Parsed :=
  match boost_split (Z.eqb 44) s with
  | key :: parts => parse_pairs parts (insert_new (B "KEY") key ∅)
  | [] => Err OutOfRange
  end.

End Parse.

(** ** The driver *)

Definition ABC_BAUD : Z := 4800.
Definition ABC_FRAME_BYTES : Z := 500.
Definition BITRATE : list Z := [100; 1000; 10000; 10000; 10000; 10000].

Record AbcConfig : Type := MkAbcConfig { ab_connection : ConnectionConfig; enable_foo : bool; enable_bar : bool }.
Record ABCDriver : Type := MkAbc { ab_cfg : AbcConfig; ab_base : ModemDriverBase }.

Inductive AbcEvent : Type :=
| AbLine (e : DriverEvent)
| AbReceive (m : ModemTransmission).

(** what is connected to the signals; [None] is an exception out of the slot *)
Record AbcSlots (W : Type) : Type := MkAbcSlots {
  ab_data_request : ModemTransmission -> W -> W * option ModemTransmission;
  ab_receive : ModemTransmission -> W -> W * option unit
}.
Arguments ab_data_request {W}.
Arguments ab_receive {W}.

Record AbcState (W : Type) : Type := MkAbcState { abc : ABCDriver; ab_world : W }.
Arguments MkAbcState {W}.
Arguments abc {W}.
Arguments ab_world {W}.

Section Driver.
Context {TX : BoostText} {TR : BoostTrim} {LC : LexicalCast}.
Context {W : Type} (slots : AbcSlots W).

Abbreviation aprog := (prog (AbcState W) AbcEvent Exn).

Definition on_ab_base {A : Type} (m : prog ModemDriverBase DriverEvent Exn A) : aprog A := fun s =>
  let '(b, ev, r) := m (ab_base (abc s)) in
  (MkAbcState (MkAbc (ab_cfg (abc s)) b) (ab_world s), map AbLine ev, r).

Definition ab_call_slot {A : Type} (f : W -> W * option A) : aprog A := fun s =>
  let '(w, r) := f (ab_world s) in
  (MkAbcState (abc s) w, [], match r with Some a => Ok a | None => Err SlotException end).

Definition signal_and_write (raw : bytes) : aprog unit :=
  on_ab_base (signal_raw false raw);;
  on_ab_base (modem_write raw).

(** a [bool] on a stream *)
Definition stream_bool (b : bool) : bytes := if b then B "1" else B "0".
Definition CR_NL : bytes := [13; 10].

Definition ab_effective (c : AbcConfig) : AbcConfig :=
  let conn := ab_connection c in
  MkAbcConfig (match serial_baud conn with None => set_serial_baud ABC_BAUD conn | Some _ => conn end) (enable_foo c) (enable_bar c).

Definition abc_startup (log_name : bytes -> bytes) (log_opened : bool) (polls : list bool) (cfg : AbcConfig) : aprog unit :=
  let c := ab_effective cfg in
  pmod (fun s => MkAbcState (MkAbc c (ab_base (abc s))) (ab_world s));;
  on_ab_base (modem_start log_name log_opened polls (ab_connection c));;
  signal_and_write (B "CONF,MAC:" ++ as_string (get_modem_id (ab_connection c)) ++ CR_NL);;
  signal_and_write (B "CONF,FOO:" ++ stream_bool (enable_foo c) ++ CR_NL);;
  signal_and_write (B "CONF,BAR:" ++ stream_bool (enable_bar c) ++ CR_NL).

Definition abc_shutdown : aprog unit := on_ab_base modem_close.

(** the line of a transmission; the frame and the rate are read unchecked *)
Definition send_line (msg : ModemTransmission) : result Exn bytes :=
  match mt_frame msg, (if 0 <=? rate msg then BITRATE !! Z.to_nat (rate msg) else None) with
  | f :: _, Some bitrate =>
      Ok (B "SEND,TO:" ++ as_string (dest msg) ++ B ",FROM:" ++ as_string (src msg) ++ B ",HEX:" ++ hex_encode f
          ++ B ",BITRATE:" ++ as_string bitrate ++ B ",ACK:TRUE" ++ CR_NL)
  | _, _ => Err UndefinedBehaviour
  end.

Definition abc_handle_initiate_transmission (msg : ModemTransmission) : aprog unit :=
  let msg := set_mt_max_frame_bytes (Some ABC_FRAME_BYTES) msg in
  let! msg := match mt_frame msg with [] => ab_call_slot (ab_data_request slots msg) | _ => pret msg end in
  let! raw := plift (send_line msg) in
  signal_and_write raw.

(** the transmission of a parsed line *)
Definition received_of (now : Z) (p : Parsed) : ModemTransmission :=
  let m := set_mt_time (Some now) (set_mt_dest (Some (as_int (field (B "TO") p)))
             (set_mt_src (Some (as_int (field (B "FROM") p))) empty_transmission)) in
  if bool_decide (field (B "KEY") p = B "RECV") then set_mt_frame [hex_decode (field (B "HEX") p)] (set_mt_type (Some DATA) m)
  else if bool_decide (field (B "KEY") p = B "ACKN") then set_mt_type (Some ACK) m
  else m.

Definition abc_line (now : Z) (line : bytes) : aprog unit :=
  pcatch
    (let s := boost_trim line in
     let! p := plift (parse_in s) in
     on_ab_base (signal_raw true s);;
     let m := received_of now p in
     pemit (AbReceive m);;
     ab_call_slot (ab_receive slots m))
    (fun x => if is_std_exception x then Some (pret tt) else None).

(** [while (modem_read(&in))], with the lines that are there *)
Fixpoint abc_do_work (now : Z) (lines : list bytes) : aprog unit :=
  let! r := on_ab_base (modem_read (head lines)) in
  match r, lines with
  | Some line, _ :: lines => abc_line now line;; abc_do_work now lines
  | _, _ => pret tt
  end.

End Driver.

(** ** The simulator *)

Record Datagram : Type := MkDatagram { dg_src : bytes; dg_dest : bytes; dg_data : bytes }.

(** [modem_id2endpoint] *)
Definition Endpoints : Type := list (Z * bytes).

Section Simulator.
Context {TX : BoostText} {TR : BoostTrim} {LC : LexicalCast}.
Variable local_endpoint : bytes.

Abbreviation sprog := (prog Endpoints Datagram Exn).

Definition sim_send (from : bytes) (p : Parsed) : sprog unit :=
  match p !! B "HEX", p !! B "FROM", p !! B "BITRATE", p !! B "TO" with
  | Some hex, Some src_text, Some bitrate, Some dest_text =>
      let src := as_int src_text in
      let dest := as_int dest_text in
      let out d data := pemit (MkDatagram local_endpoint d data) in
      let recv := B "RECV,FROM:" ++ as_string src ++ B ",TO:" ++ as_string dest ++ B ",HEX:" ++ hex
                  ++ B ",BITRATE:" ++ bitrate ++ CR_NL in
      let! table := pget in
      if dest =? BROADCAST_ID
      then pfor table (fun e => pwhen (negb (fst e =? src)) (out (snd e) recv))
      else
        match al_lookup dest table with
        | None => pthrow SystemError
        | Some endpoint =>
            out endpoint recv;;
            pwhen (match p !! B "ACK" with Some a => as_bool a | None => false end)
              (out from (B "ACKN,FROM:" ++ as_string dest ++ B ",TO:" ++ as_string src ++ CR_NL))
        end
  | _, _, _, _ => pthrow SystemError
  end.

Definition sim_conf (from : bytes) (p : Parsed) : sprog unit :=
  match p !! B "MAC" with
  | Some mac => pmod (al_insert (as_int mac) from)
  | None => pret tt
  end.

(** the body of the loop, for a datagram from [from] *)
Definition sim_datagram (from data : bytes) : sprog unit :=
  pcatch
    (let! p := plift (parse_in (boost_trim data)) in
     if bool_decide (field (B "KEY") p = B "CONF") then sim_conf from p
     else if bool_decide (field (B "KEY") p = B "SEND") then sim_send from p
     else pret tt)
    (fun x => if is_std_exception x then Some (pret tt) else None).

(** lines in the order in which they arrive *)
Definition sim_lines (from : bytes) (lines : list bytes) : sprog unit := pfor lines (sim_datagram from).

End Simulator.
