(* ===== verification/AbcLink.v ===== *)
(** * Drivers of the example modem on the simulated medium *)

From stdpp Require Import gmap.
From S2P Require Import Prelude AssocList HexCodec Double Time As Proto Nmea UdpDriver Prog DriverBase Abc.

#[local] Open Scope prog_scope.

(** ** What is printed is parsed again *)

Section Lines.
Context {TX : BoostText} {TXL : BoostTextLaws} {TR : BoostTrim} {TRL : BoostTrimLaws} {LC : LexicalCast}.

Definition pair_text (kv : bytes * bytes) : bytes := fst kv ++ 58 :: snd kv.
Definition render (key : bytes) (kvs : list (bytes * bytes)) : bytes := join 44 (key :: map pair_text kvs).

Definition clean (s : bytes) : Prop := (44 ∉ s) /\ (58 ∉ s).
Definition clean_pairs (kvs : list (bytes * bytes)) : Prop := Forall (fun kv => clean (fst kv) /\ clean (snd kv)) kvs.

(** the first pair of a key *)
Fixpoint assoc (k : bytes) (kvs : list (bytes * bytes)) : option bytes :=
  match kvs with
  | [] => None
  | (k', v) :: kvs => if bool_decide (k = k') then Some v else assoc k kvs
  end.

Lemma lookup_insert_new k v p k' :
  insert_new k v p !! k' = match p !! k' with Some x => Some x | None => if bool_decide (k' = k) then Some v else None end.
Proof.
  unfold insert_new. destruct (p !! k) as [x|] eqn:E; destruct (bool_decide_reflect (k' = k)) as [->|Hn].
  - by rewrite E.
  - by destruct (p !! k').
  - by rewrite E, lookup_insert_eq.
  - rewrite lookup_insert_ne by done. by destruct (p !! k').
Qed.

Lemma parse_pairs_render kvs p :
  clean_pairs kvs ->
  exists p', parse_pairs (map pair_text kvs) p = Ok p' /\ forall k, p' !! k = match p !! k with Some v => Some v | None => assoc k kvs end.
Proof.
  intros H. revert p. induction H as [|[k v] kvs [[_ Hk] [_ Hv]] _ IH]; intros p; cbn [map parse_pairs].
  - eexists. split; [done|]. intros k. by destruct (p !! k).
  - change (pair_text (k, v)) with (join 58 [k; v]). rewrite split_join by (done || by repeat constructor).
    destruct (IH (insert_new k v p)) as (p' & -> & Hp'). eexists. split; [done|]. intros k'. rewrite Hp', lookup_insert_new.
    cbn [assoc]. destruct (p !! k'); [done|]. by destruct (bool_decide (k' = k)).
Qed.

(** a printed line is parsed to its key and its pairs *)
Lemma parse_render key kvs :
  clean key -> clean_pairs kvs ->
  exists p, parse_in (render key kvs) = Ok p /\ forall k, p !! k = if bool_decide (k = B "KEY") then Some key else assoc k kvs.
Proof.
  intros [Hk _] H. unfold parse_in, render. rewrite split_join; [|done|].
  - destruct (parse_pairs_render kvs (insert_new (B "KEY") key ∅) H) as (p & Hp & Hl). exists p. split; [done|].
    intros k. rewrite Hl, lookup_insert_new, lookup_empty. by destruct (bool_decide (k = B "KEY")).
  - constructor; [done|]. apply Forall_map. eapply Forall_impl; [exact H|]. intros [k v] [[Hc _] [Hv _]]. cbn in *.
    unfold pair_text. cbn [fst snd]. rewrite elem_of_app, elem_of_cons. intros [?|[?|?]]; done.
Qed.

(** *** What is clean *)

Lemma as_string_clean z : clean (as_string z).
Proof. split; intros H; apply as_string_digits in H; lia. Qed.

Lemma hex_clean f : wf_bytes f -> clean (hex_encode f).
Proof. intros Hw. split; intros H; apply hex_encode_up_chars in H; try done; lia. Qed.

Lemma literal_clean s : bool_decide (44 ∈ B s) = false -> bool_decide (58 ∈ B s) = false -> clean (B s).
Proof. intros H1%bool_decide_eq_false H2%bool_decide_eq_false. done. Qed.

End Lines.

(** ** Two drivers and the simulator *)

Definition ab_written (ev : list AbcEvent) : list bytes :=
  omap (fun e => match e with AbLine (WriteLine s) => Some s | _ => None end) ev.
Definition ab_received (ev : list AbcEvent) : list ModemTransmission :=
  omap (fun e => match e with AbReceive m => Some m | _ => None end) ev.

Section Exchange.
Context {TX : BoostText} {TXL : BoostTextLaws} {TR : BoostTrim} {TRL : BoostTrimLaws}.
Context {LC : LexicalCast} {LN : LexicalNumbers} {LD : LexicalDecimal}.
Context {W : Type} (slots : AbcSlots W) (local_endpoint : bytes).

Definition node (c : AbcConfig) (b : ModemDriverBase) (w : W) : AbcState W := MkAbcState (MkAbc c b) w.
Definition up (b : ModemDriverBase) : Prop := modem b = Some true /\ log_open b.
Definition takes_all : Prop := forall m w, exists w', ab_receive slots m w = (w', Some tt).

Definition int32 (z : Z) : Prop := - 2 ^ 31 <= z < 2 ^ 31.

(** *** Lines of the protocol *)

Definition send_pairs (to from hex bitrate : bytes) : list (bytes * bytes) :=
  [(B "TO", to); (B "FROM", from); (B "HEX", hex); (B "BITRATE", bitrate); (B "ACK", B "TRUE")].
Definition recv_pairs (from to hex bitrate : bytes) : list (bytes * bytes) :=
  [(B "FROM", from); (B "TO", to); (B "HEX", hex); (B "BITRATE", bitrate)].

Definition recv_line (src dest : Z) (hex bitrate : bytes) : bytes :=
  render (B "RECV") (recv_pairs (as_string src) (as_string dest) hex bitrate) ++ CR_NL.
Definition ack_line (src dest : Z) : bytes :=
  render (B "ACKN") [(B "FROM", as_string src); (B "TO", as_string dest)] ++ CR_NL.

Ltac show_line := unfold render, pair_text; cbn [join map fst snd];
  repeat (rewrite <- app_assoc || rewrite <- app_comm_cons); reflexivity.

Lemma send_line_render msg f fs bitrate :
  mt_frame msg = f :: fs -> 0 <= rate msg -> BITRATE !! Z.to_nat (rate msg) = Some bitrate ->
  send_line msg = Ok (render (B "SEND") (send_pairs (as_string (dest msg)) (as_string (src msg)) (hex_encode f) (as_string bitrate)) ++ CR_NL).
Proof.
  intros Hf Hr Hb. unfold send_line. rewrite Hf, (proj2 (Z.leb_le _ _) Hr), Hb. f_equal. unfold send_pairs. show_line.
Qed.

(** a line that starts with a letter and ends in a digit or a letter survives the trim *)
Lemma trimmed s : s <> [] -> (forall c, c ∈ s -> 33 <= c) -> boost_trim (s ++ CR_NL) = s.
Proof.
  intros Hn H. assert (Hs : forall c, c ∈ s -> is_space c = false).
  { intros c Hc. apply H in Hc. unfold is_space. destruct (c =? 32) eqn:E, (9 <=? c) eqn:E2, (c <=? 13) eqn:E3; to_prop; done || lia. }
  apply (boost_trim_spec [] s CR_NL); try done.
  - intros c Hc. apply Hs. destruct s; [done|]. injection Hc as ->. set_solver.
  - intros c Hc. apply Hs. by apply last_Some_elem_of.
Qed.

Definition visible (s : bytes) : Prop := forall c, c ∈ s -> 33 <= c.

Lemma visible_literal s : forallb (fun c => 33 <=? c) (B s) = true -> visible (B s).
Proof. intros H c Hc. rewrite forallb_forall in H. apply list_elem_of_In in Hc. specialize (H c Hc). by apply Z.leb_le. Qed.

Lemma visible_string z : visible (as_string z).
Proof. intros c H. apply as_string_digits in H. lia. Qed.

Lemma visible_hex f : visible (hex_encode f).
Proof. intros c H. apply hex_encode_up_digits in H. lia. Qed.

Lemma visible_render key kvs :
  visible key -> Forall (fun kv => visible (fst kv) /\ visible (snd kv)) kvs -> visible (render key kvs).
Proof.
  intros Hk H. unfold render. revert key Hk. induction H as [|[k v] kvs [H1 H2] _ IH]; intros key Hk; [done|].
  cbn [map join]. intros c. rewrite elem_of_app, elem_of_cons. intros [Hc | [-> | Hc]]; [by apply Hk | lia |].
  apply (IH (pair_text (k, v))); [|done]. intros c'. unfold pair_text. cbn [fst snd]. rewrite elem_of_app, elem_of_cons.
  intros [?|[->|?]]; [by apply H1 | lia | by apply H2].
Qed.

(** a line is read back as its pairs *)
Lemma line_parsed key kvs :
  key <> [] -> clean key -> clean_pairs kvs -> visible key -> Forall (fun kv => visible (fst kv) /\ visible (snd kv)) kvs ->
  boost_trim (render key kvs ++ CR_NL) = render key kvs /\
  exists p, parse_in (render key kvs) = Ok p /\ forall k, p !! k = if bool_decide (k = B "KEY") then Some key else assoc k kvs.
Proof.
  intros Hn Hk Hc Hv Hvs. split; [|by apply parse_render]. apply trimmed; [|by apply visible_render].
  unfold render. destruct kvs; [done|]. cbn [map join]. by destruct key.
Qed.

(** *** The driver *)

Lemma raw_signalled rx b raw :
  up b -> exists ev, signal_raw rx raw b = (b, ev, Ok tt) /\ ab_written (map AbLine ev) = [] /\ ab_received (map AbLine ev) = [].
Proof.
  intros [_ Hl]. unfold signal_raw. rewrite pbind_get. destruct b as [m fs made]. unfold log_open in Hl. cbn in *.
  destruct rx, made; cbn; [rewrite Hl by done| |rewrite Hl by done|]; eexists; (split; [reflexivity|]; by split).
Qed.

Lemma signal_and_write_ok c b w raw :
  up b -> exists ev, signal_and_write raw (node c b w) = (node c b w, ev, Ok tt) /\ ab_written ev = [raw] /\ ab_received ev = [].
Proof.
  intros Hu. destruct (raw_signalled false b raw Hu) as (ev & E & Hw & Hr). unfold signal_and_write.
  assert (E1 : on_ab_base (signal_raw false raw) (node c b w) = (node c b w, map AbLine ev, Ok tt)) by (unfold on_ab_base; cbn [node abc ab_base]; by rewrite E).
  rewrite (pbind_ok _ _ _ _ _ _ E1). unfold on_ab_base, modem_write. cbn [node abc ab_base]. rewrite pbind_read, (proj1 Hu). cbn.
  eexists. split; [reflexivity|]. unfold ab_written, ab_received in *. by rewrite !omap_app, Hw, Hr.
Qed.

Lemma modem_start_quiet log_name opened polls c b b' ev :
  modem_start log_name opened polls c b = (b', ev, Ok tt) -> ab_written (map AbLine ev) = [] /\ ab_received (map AbLine ev) = [].
Proof.
  unfold modem_start, open_raw_log. destruct (modem_id c); [|done]. destruct (DriverBase.line_of c); [|done].
  destruct (raw_log c); cbn; destruct (wait_active 0 polls), opened; cbn; intros [= <- <-]; by split.
Qed.

Lemma modem_start_up log_name polls c b b' ev :
  log_open b -> modem_start log_name true polls c b = (b', ev, Ok tt) -> up b'.
Proof.
  intros Hl E. pose proof (modem_start_active log_name true polls c b I) as H1. pose proof (modem_start_log log_name polls c b Hl) as H2.
  rewrite E in H1, H2. by split.
Qed.

Definition conf_lines (c : AbcConfig) : list bytes :=
  map (fun kv => render (B "CONF") [kv] ++ CR_NL)
    [(B "MAC", as_string (get_modem_id (ab_connection c))); (B "FOO", stream_bool (enable_foo c)); (B "BAR", stream_bool (enable_bar c))].

Lemma startup_writes log_name polls cfg c0 b b' ev0 w :
  log_open b -> modem_start log_name true polls (ab_connection (ab_effective cfg)) b = (b', ev0, Ok tt) ->
  exists ev, abc_startup log_name true polls cfg (node c0 b w) = (node (ab_effective cfg) b' w, ev, Ok tt) /\
    ab_written ev = conf_lines (ab_effective cfg) /\ ab_received ev = [].
Proof.
  intros Hl E. pose proof (modem_start_up _ _ _ _ _ _ Hl E) as Hu. destruct (modem_start_quiet _ _ _ _ _ _ _ E) as [Hw0 Hr0].
  unfold abc_startup. cbv zeta. rewrite pbind_mod. set (c := ab_effective cfg) in *.
  change (MkAbcState _ _) with (node c b w).
  assert (E0 : on_ab_base (modem_start log_name true polls (ab_connection c)) (node c b w) = (node c b' w, map AbLine ev0, Ok tt))
    by (unfold on_ab_base; cbn [node abc ab_base]; by rewrite E).
  rewrite (pbind_ok _ _ _ _ _ _ E0).
  edestruct (signal_and_write_ok c b' w) as (e1 & E1 & Hw1 & Hr1); [done|]. rewrite (pbind_ok _ _ _ _ _ _ E1).
  edestruct (signal_and_write_ok c b' w) as (e2 & E2 & Hw2 & Hr2); [done|]. rewrite (pbind_ok _ _ _ _ _ _ E2).
  edestruct (signal_and_write_ok c b' w) as (e3 & E3 & Hw3 & Hr3); [done|]. rewrite E3.
  eexists. split; [reflexivity|]. unfold ab_written, ab_received in *. rewrite !omap_app, Hw0, Hw1, Hw2, Hw3, Hr0, Hr1, Hr2, Hr3.
  split; [|done]. cbn [app]. unfold conf_lines. cbn [map]. show_line.
Qed.

(** a line from the modem is passed on *)
Lemma line_received c b w now key kvs :
  up b -> takes_all -> key <> [] -> clean key -> clean_pairs kvs -> visible key ->
  Forall (fun kv => visible (fst kv) /\ visible (snd kv)) kvs ->
  exists p w' ev, (forall k, p !! k = if bool_decide (k = B "KEY") then Some key else assoc k kvs) /\
    abc_do_work slots now [render key kvs ++ CR_NL] (node c b w) = (node c b w', ev, Ok tt) /\
    ab_written ev = [] /\ ab_received ev = [received_of now p].
Proof.
  intros Hu Ht Hn Hk Hc Hv Hvs. destruct (line_parsed key kvs Hn Hk Hc Hv Hvs) as (Et & p & Ep & Hp).
  exists p.
  assert (Er : forall w' o, on_ab_base (modem_read o) (node c b w') = (node c b w', [], Ok o)).
  { intros w' o. unfold on_ab_base, modem_read. cbn [node abc ab_base]. by rewrite pbind_read, (proj1 Hu). }
  destruct (Ht (received_of now p) w) as (w' & Ew).
  destruct (raw_signalled true b (render key kvs) Hu) as (ev & Eraw & Hw & Hr).
  assert (El : abc_line slots now (render key kvs ++ CR_NL) (node c b w) = (node c b w', map AbLine ev ++ [AbReceive (received_of now p)], Ok tt)).
  { unfold abc_line, pcatch. rewrite Et, Ep. cbv zeta. rewrite pbind_lift.
    assert (E1 : on_ab_base (signal_raw true (render key kvs)) (node c b w) = (node c b w, map AbLine ev, Ok tt))
      by (unfold on_ab_base; cbn [node abc ab_base]; by rewrite Eraw).
    rewrite (pbind_ok _ _ _ _ _ _ E1). unfold pbind, pemit, ab_call_slot. cbn [node ab_world abc]. by rewrite Ew. }
  exists w'. eexists. split; [done|]. cbn [abc_do_work head]. rewrite (pbind_quiet _ _ _ _ _ (Er w _)), (pbind_ok _ _ _ _ _ _ El).
  rewrite (pbind_quiet _ _ _ _ _ (Er w' None)). split; [reflexivity|].
  unfold ab_written, ab_received in *. by rewrite !omap_app, Hw, Hr.
Qed.

(** *** The simulator *)

Abbreviation sim_datagram := (sim_datagram local_endpoint).
Abbreviation sim_lines := (sim_lines local_endpoint).

Lemma assoc_here k v kvs : assoc k ((k, v) :: kvs) = Some v.
Proof. cbn [assoc]. by rewrite bool_decide_eq_true_2. Qed.
Lemma assoc_next k k' v kvs : k <> k' -> assoc k ((k', v) :: kvs) = assoc k kvs.
Proof. intros H. cbn [assoc]. by rewrite bool_decide_eq_false_2. Qed.

(** look up a literal key among literal keys *)
Ltac look_up := repeat (rewrite assoc_here || rewrite assoc_next by done).
Ltac fields Hp := rewrite !Hp, !bool_decide_eq_false_2 by done; unfold send_pairs, recv_pairs; look_up.

Lemma sim_reads from key kvs :
  key <> [] -> clean key -> clean_pairs kvs -> visible key -> Forall (fun kv => visible (fst kv) /\ visible (snd kv)) kvs ->
  exists p, (forall k, p !! k = if bool_decide (k = B "KEY") then Some key else assoc k kvs) /\
    forall t, sim_datagram from (render key kvs ++ CR_NL) t =
      pcatch (if bool_decide (key = B "CONF") then sim_conf from p
              else if bool_decide (key = B "SEND") then sim_send local_endpoint from p else pret tt)
        (fun x => if is_std_exception x then Some (pret tt) else None) t.
Proof.
  intros Hn Hk Hc Hv Hvs. destruct (line_parsed key kvs Hn Hk Hc Hv Hvs) as (Et & p & Ep & Hp). exists p. split; [done|].
  intros t. unfold Abc.sim_datagram. rewrite Et, Ep. unfold pcatch. rewrite pbind_lift. unfold field.
  by rewrite Hp, (bool_decide_eq_true_2 (B "KEY" = B "KEY")).
Qed.

Ltac literal := (by apply literal_clean) || (by apply visible_literal) || apply as_string_clean || apply visible_string.

Lemma conf_kv (k v : bytes) : clean k /\ visible k -> clean v /\ visible v ->
  clean_pairs [(k, v)] /\ Forall (fun kv => visible (fst kv) /\ visible (snd kv)) [(k, v)].
Proof. intros [] []. split; apply Forall_cons; (split; [by split | apply Forall_nil_2]). Qed.

Lemma conf_other from t k v :
  clean k /\ visible k -> clean v /\ visible v -> k <> B "MAC" -> sim_datagram from (render (B "CONF") [(k, v)] ++ CR_NL) t = (t, [], Ok tt).
Proof.
  intros Hk Hv Hn. destruct (conf_kv k v Hk Hv) as [H1 H2].
  destruct (sim_reads from (B "CONF") [(k, v)]) as (p & Hp & E); try done; try literal.
  rewrite E. rewrite bool_decide_eq_true_2 by done. unfold sim_conf. rewrite Hp, bool_decide_eq_false_2 by done.
  rewrite assoc_next by (intros E1; by apply Hn). done.
Qed.

Lemma conf_mac from t id :
  int32 id -> sim_datagram from (render (B "CONF") [(B "MAC", as_string id)] ++ CR_NL) t = (al_insert id from t, [], Ok tt).
Proof.
  intros Hi. destruct (conf_kv (B "MAC") (as_string id)) as [H1 H2]; [split; literal | split; literal|].
  destruct (sim_reads from (B "CONF") [(B "MAC", as_string id)]) as (p & Hp & E); try done; try literal.
  rewrite E, bool_decide_eq_true_2 by done. unfold sim_conf. rewrite Hp, bool_decide_eq_false_2, assoc_here by done.
  cbn [pcatch pmod]. by rewrite as_int_string.
Qed.

(** the configuration that a driver writes registers its modem *)
Lemma registers from c t :
  int32 (get_modem_id (ab_connection c)) ->
  sim_lines from (conf_lines c) t = (al_insert (get_modem_id (ab_connection c)) from t, [], Ok tt).
Proof.
  intros Hi. unfold Abc.sim_lines, conf_lines. cbn [map pfor]. rewrite (pbind_quiet _ _ _ _ _ (conf_mac from t _ Hi)).
  assert (Hb : forall b, clean (stream_bool b) /\ visible (stream_bool b)) by (intros []; split; literal).
  rewrite (pbind_quiet _ _ _ _ _ (conf_other from _ (B "FOO") _ ltac:(split; literal) (Hb _) ltac:(done))).
  by rewrite (pbind_quiet _ _ _ _ _ (conf_other from _ (B "BAR") _ ltac:(split; literal) (Hb _) ltac:(done))).
Qed.

Lemma send_clean d s f r :
  wf_bytes f -> clean_pairs (send_pairs (as_string d) (as_string s) (hex_encode f) (as_string r)) /\
    Forall (fun kv => visible (fst kv) /\ visible (snd kv)) (send_pairs (as_string d) (as_string s) (hex_encode f) (as_string r)).
Proof.
  intros Hw. pose proof (hex_clean f Hw). pose proof (visible_hex f).
  split; unfold send_pairs; repeat (apply Forall_cons; split); cbn [fst snd]; try (split; done || literal); apply Forall_nil_2.
Qed.

Lemma recv_clean s d f r :
  wf_bytes f -> clean_pairs (recv_pairs (as_string s) (as_string d) (hex_encode f) (as_string r)) /\
    Forall (fun kv => visible (fst kv) /\ visible (snd kv)) (recv_pairs (as_string s) (as_string d) (hex_encode f) (as_string r)).
Proof.
  intros Hw. pose proof (hex_clean f Hw). pose proof (visible_hex f).
  split; unfold recv_pairs; repeat (apply Forall_cons; split); cbn [fst snd]; try (split; done || literal); apply Forall_nil_2.
Qed.

(** what the simulator makes of a transmission *)
Definition outputs (from : bytes) (t : Endpoints) (s d : Z) (f : bytes) (r : Z) : list Datagram :=
  let recv := recv_line s d (hex_encode f) (as_string r) in
  if d =? BROADCAST_ID
  then map (fun e => MkDatagram local_endpoint (snd e) recv) (List.filter (fun e => negb (fst e =? s)) t)
  else match al_lookup d t with
       | Some e => [MkDatagram local_endpoint e recv; MkDatagram local_endpoint from (ack_line d s)]
       | None => []
       end.

Lemma pfor_emit {S X} (l : list (Z * bytes)) (p : Z * bytes -> bool) (g : Z * bytes -> Datagram) (s : S) :
  pfor (X := X) l (fun e => pwhen (p e) (pemit (g e))) s = (s, map g (List.filter p l), Ok tt).
Proof.
  induction l as [|e l IH]; [done|]. cbn [pfor List.filter]. destruct (p e); cbn [pwhen].
  - rewrite (pbind_ok _ _ s s [g e] tt) by done. by rewrite IH.
  - by rewrite pbind_ret.
Qed.

Lemma sim_transmits from t s d f r :
  int32 s -> int32 d -> wf_bytes f ->
  sim_datagram from (render (B "SEND") (send_pairs (as_string d) (as_string s) (hex_encode f) (as_string r)) ++ CR_NL) t
    = (t, outputs from t s d f r, Ok tt).
Proof.
  intros Hs Hd Hw. destruct (send_clean d s f r Hw) as [H1 H2].
  destruct (sim_reads from (B "SEND") (send_pairs (as_string d) (as_string s) (hex_encode f) (as_string r))) as (p & Hp & E);
    try done; try literal.
  rewrite E. rewrite (bool_decide_eq_false_2 (B "SEND" = B "CONF")), bool_decide_eq_true_2 by done. unfold sim_send. fields Hp.
  rewrite !as_int_string by done. unfold pcatch. rewrite pbind_get. unfold outputs.
  assert (Er : B "RECV,FROM:" ++ as_string s ++ B ",TO:" ++ as_string d ++ B ",HEX:" ++ hex_encode f ++ B ",BITRATE:" ++ as_string r ++ CR_NL
    = recv_line s d (hex_encode f) (as_string r)) by (unfold recv_line, recv_pairs; show_line).
  assert (Ea : B "ACKN,FROM:" ++ as_string d ++ B ",TO:" ++ as_string s ++ CR_NL = ack_line d s) by (unfold ack_line; show_line).
  rewrite Er, Ea. destruct (d =? BROADCAST_ID).
  - by rewrite (pfor_emit t (fun e => negb (fst e =? s)) (fun e => MkDatagram local_endpoint (snd e) (recv_line s d (hex_encode f) (as_string r)))).
  - destruct (al_lookup d t); [|done]. change (as_bool (B "TRUE")) with true. done.
Qed.

(** *** Delivery *)

Lemma initiate_sends c b w msg f fs :
  up b -> mt_frame msg = f :: fs -> 0 <= rate msg <= 5 ->
  exists r ev, abc_handle_initiate_transmission slots msg (node c b w) = (node c b w, ev, Ok tt) /\
    ab_written ev = [render (B "SEND") (send_pairs (as_string (dest msg)) (as_string (src msg)) (hex_encode f) (as_string r)) ++ CR_NL].
Proof.
  intros Hu Hf Hr. assert (exists r, BITRATE !! Z.to_nat (rate msg) = Some r) as [r Eb].
  { apply lookup_lt_is_Some. cbn. lia. }
  set (m := set_mt_max_frame_bytes (Some ABC_FRAME_BYTES) msg).
  pose proof (send_line_render m f fs r Hf (proj1 Hr) Eb) as Es.
  edestruct (signal_and_write_ok c b w) as (ev & E & Hw & _); [done|]. exists r, ev.
  unfold abc_handle_initiate_transmission. cbv zeta. fold m. change (mt_frame m) with (mt_frame msg). rewrite Hf, pbind_ret, Es, pbind_lift.
  split; [exact E | exact Hw].
Qed.

Lemma recv_delivered c b w now s d f r :
  up b -> takes_all -> int32 s -> int32 d -> wf_bytes f ->
  exists w' ev m, abc_do_work slots now [recv_line s d (hex_encode f) (as_string r)] (node c b w) = (node c b w', ev, Ok tt) /\
    ab_received ev = [m] /\ type m = DATA /\ src m = s /\ dest m = d /\ mt_frame m = [f].
Proof.
  intros Hu Ht Hs Hd Hw. destruct (recv_clean s d f r Hw) as [H1 H2].
  destruct (line_received c b w now (B "RECV") (recv_pairs (as_string s) (as_string d) (hex_encode f) (as_string r)))
    as (p & w' & ev & Hp & E & _ & Hr); try done; try literal.
  exists w', ev. eexists. split; [exact E|]. split; [exact Hr|].
  assert (Hk : field (B "KEY") p = B "RECV") by (unfold field; by rewrite Hp, (bool_decide_eq_true_2 (B "KEY" = B "KEY"))).
  assert (Hto : field (B "TO") p = as_string d) by (unfold field; by fields Hp).
  assert (Hfrom : field (B "FROM") p = as_string s) by (unfold field; by fields Hp).
  assert (Hhex : field (B "HEX") p = hex_encode f) by (unfold field; by fields Hp).
  unfold received_of. rewrite Hk, Hto, Hfrom, Hhex, !as_int_string, hex_roundtrip by done.
  by rewrite bool_decide_eq_true_2.
Qed.

Lemma ack_delivered c b w now s d :
  up b -> takes_all -> int32 s -> int32 d ->
  exists w' ev m, abc_do_work slots now [ack_line s d] (node c b w) = (node c b w', ev, Ok tt) /\
    ab_received ev = [m] /\ type m = ACK /\ src m = s /\ dest m = d /\ mt_acked_frame m = [].
Proof.
  intros Hu Ht Hs Hd.
  destruct (line_received c b w now (B "ACKN") [(B "FROM", as_string s); (B "TO", as_string d)])
    as (p & w' & ev & Hp & E & _ & Hr); try done; try literal;
    try (repeat (apply Forall_cons; split); cbn [fst snd]; try (split; literal); apply Forall_nil_2).
  exists w', ev. eexists. split; [exact E|]. split; [exact Hr|].
  assert (Hk : field (B "KEY") p = B "ACKN") by (unfold field; by rewrite Hp, (bool_decide_eq_true_2 (B "KEY" = B "KEY"))).
  assert (Hto : field (B "TO") p = as_string d) by (unfold field; by fields Hp).
  assert (Hfrom : field (B "FROM") p = as_string s) by (unfold field; by fields Hp).
  unfold received_of. rewrite Hk, Hto, Hfrom, !as_int_string by done.
  by rewrite (bool_decide_eq_false_2 (B "ACKN" = B "RECV")), bool_decide_eq_true_2.
Qed.

(** every other registered modem receives a broadcast *)
Lemma broadcast_reaches_all from t s f r id e :
  (id, e) ∈ t -> id <> s -> MkDatagram local_endpoint e (recv_line s BROADCAST_ID (hex_encode f) (as_string r)) ∈ outputs from t s BROADCAST_ID f r.
Proof.
  intros He Hn. unfold outputs. rewrite Z.eqb_refl. apply list_elem_of_fmap. exists (id, e). split; [done|].
  apply list_elem_of_In, filter_In. split; [by apply list_elem_of_In|]. cbn. apply negb_true_iff. by apply Z.eqb_neq.
Qed.

(** C15: The example driver over the simulated medium: the lines that a driver writes at startup
    register its modem id in the simulator; a transmission with a frame and a rate of 0 to 5 that
    another driver initiates for it is passed on by the simulator as one line to the receiver and
    one acknowledgement to the sender; the receiver signals a data message with the source, the
    destination and the frame, and the sender an acknowledgement from the destination, which however
    names no acknowledged frame. *)
Theorem abc_exchange (log_name : bytes -> bytes) (polls : list bool) (cA cB c0 : AbcConfig) (bA b0 bB : ModemDriverBase) (ev0 : list DriverEvent)
    (wA wB : W) (eA eB : bytes) (t : Endpoints) (now : Z) (msg : ModemTransmission) (f : bytes) (fs : list bytes) :
  takes_all -> up bA -> log_open b0 ->
  modem_start log_name true polls (ab_connection (ab_effective cB)) b0 = (bB, ev0, Ok tt) ->
  dest msg = get_modem_id (ab_connection (ab_effective cB)) -> dest msg <> BROADCAST_ID -> int32 (dest msg) -> int32 (src msg) ->
  mt_frame msg = f :: fs -> wf_bytes f -> 0 <= rate msg <= 5 ->
  exists evB t' evA line recv ack wB' evR m wA' evK k,
    abc_startup log_name true polls cB (node c0 b0 wB) = (node (ab_effective cB) bB wB, evB, Ok tt) /\
    sim_lines eB (ab_written evB) t = (t', [], Ok tt) /\
    abc_handle_initiate_transmission slots msg (node cA bA wA) = (node cA bA wA, evA, Ok tt) /\ ab_written evA = [line] /\
    sim_datagram eA line t' = (t', [MkDatagram local_endpoint eB recv; MkDatagram local_endpoint eA ack], Ok tt) /\
    abc_do_work slots now [recv] (node (ab_effective cB) bB wB) = (node (ab_effective cB) bB wB', evR, Ok tt) /\
    ab_received evR = [m] /\ type m = DATA /\ src m = src msg /\ dest m = dest msg /\ mt_frame m = [f] /\
    abc_do_work slots now [ack] (node cA bA wA) = (node cA bA wA', evK, Ok tt) /\
    ab_received evK = [k] /\ type k = ACK /\ src k = dest msg /\ dest k = src msg /\ mt_acked_frame k = [].
Proof.
  intros Ht HuA Hl Hst Hdest Hb Hd Hs Hf Hw Hr.
  destruct (startup_writes log_name polls cB c0 b0 bB ev0 wB Hl Hst) as (evB & EB & HwB & _).
  pose proof (modem_start_up _ _ _ _ _ _ Hl Hst) as HuB.
  destruct (initiate_sends cA bA wA msg f fs HuA Hf Hr) as (r & evA & EA & HwA).
  destruct (recv_delivered (ab_effective cB) bB wB now (src msg) (dest msg) f r HuB Ht Hs Hd Hw) as (wB' & evR & m & ER & HR).
  destruct (ack_delivered cA bA wA now (dest msg) (src msg) HuA Ht Hd Hs) as (wA' & evK & k & EK & HK).
  exists evB, (al_insert (dest msg) eB t), evA. eexists. exists (recv_line (src msg) (dest msg) (hex_encode f) (as_string r)),
    (ack_line (dest msg) (src msg)), wB', evR, m, wA', evK, k.
  split; [exact EB|]. split; [rewrite HwB, Hdest; apply registers; by rewrite <- Hdest|]. split; [exact EA|]. split; [exact HwA|].
  split.
  { rewrite sim_transmits by done. unfold outputs. rewrite (proj2 (Z.eqb_neq _ _) Hb), al_lookup_insert, Z.eqb_refl. done. }
  split; [exact ER|]. destruct HR as (-> & H1 & H2 & H3 & H4). do 5 (split; [done|]). split; [exact EK|].
  destruct HK as (-> & K1 & K2 & K3 & K4). done.
Qed.

End Exchange.

(** ** Evaluation *)
Module AbcWitness.
#[local] Existing Instances Sample.text Sample.text_laws NmeaWitness.trim NmeaWitness.trim_laws Reader.cast Reader.numbers Reader.decimal.

Definition slots : AbcSlots unit := {| ab_data_request := fun m w => (w, Some m); ab_receive := fun _ w => (w, Some tt) |}.
Definition config (id : Z) : AbcConfig :=
  MkAbcConfig (MkConnection (Some id) None None (Some (B "/tmp/ttyFAKE1")) None None None None None) true false.
Definition base : ModemDriverBase := MkBase (Some true) false false.
Definition msg : ModemTransmission :=
  set_mt_frame [B "hello"] (set_mt_rate (Some 5) (set_mt_dest (Some 2) (set_mt_src (Some 1) empty_transmission))).

Lemma abc_exchange_witness :
  exists evB t' evA line recv ack wB' evR m wA' evK k,
    abc_startup (fun x => x) true [true] (config 2) (node (config 2) new_base tt) = (node (ab_effective (config 2)) base tt, evB, Ok tt) /\
    sim_lines (B "local") (B "b") (ab_written evB) [] = (t', [], Ok tt) /\
    abc_handle_initiate_transmission slots msg (node (config 1) base tt) = (node (config 1) base tt, evA, Ok tt) /\ ab_written evA = [line] /\
    sim_datagram (B "local") (B "a") line t' = (t', [MkDatagram (B "local") (B "b") recv; MkDatagram (B "local") (B "a") ack], Ok tt) /\
    abc_do_work slots 7 [recv] (node (ab_effective (config 2)) base tt) = (node (ab_effective (config 2)) base wB', evR, Ok tt) /\
    ab_received evR = [m] /\ type m = DATA /\ src m = src msg /\ dest m = dest msg /\ mt_frame m = [B "hello"] /\
    abc_do_work slots 7 [ack] (node (config 1) base tt) = (node (config 1) base wA', evK, Ok tt) /\
    ab_received evK = [k] /\ type k = ACK /\ src k = dest msg /\ dest k = src msg /\ mt_acked_frame k = [].
Proof.
  apply (abc_exchange slots (B "local") (fun x => x) [true] (config 1) (config 2) (config 2) base new_base base
    (snd (fst (modem_start (fun x => x) true [true] (ab_connection (ab_effective (config 2))) new_base))) tt tt (B "a") (B "b")
    [] 7 msg (B "hello") []).
  - intros m w. by exists w.
  - by split.
  - done.
  - vm_compute. reflexivity.
  - reflexivity.
  - done.
  - unfold int32. cbn. lia.
  - unfold int32. cbn. lia.
  - reflexivity.
  - repeat constructor; lia.
  - cbn. lia.
Defined.

(** a rate outside of the table and a missing frame are read unchecked *)
Example abc_unchecked :
  send_line (set_mt_rate (Some 6) msg) = Err UndefinedBehaviour /\ send_line (set_mt_frame [] msg) = Err UndefinedBehaviour.
Proof. by split. Qed.

End AbcWitness.
