(* ===== verification/MmData.v ===== *)
(** * acomms/modemdriver/mm_driver.h and the micromodem messages: data

    The configuration, the extensions of [ModemTransmission] the driver of the
    WHOI Micro-Modem uses, and the state of the driver. A [std::set] of frame
    numbers is a strictly increasing list; a message of statistics is the list
    of the fields set so far, in the order they are set. *)

From Stdlib Require Import SpecFloat.
From S2P Require Import Prelude Double Proto DriverBase.

(** ** Sets of frame numbers *)

Fixpoint set_insert (x : Z) (l : list Z) : list Z :=
  match l with
  | [] => [x]
  | y :: l' => if x <? y then x :: l else if x =? y then l else y :: set_insert x l'
  end.

Definition set_erase (x : Z) (l : list Z) : list Z := List.filter (fun y => negb (y =? x)) l.

Definition set_mem (x : Z) (l : list Z) : bool := bool_decide (x ∈ l).

(** ** acomms/protobuf/mm_driver.proto *)

Inductive MMType : Type :=
| BASE_TYPE | MICROMODEM_TWO_WAY_PING | MICROMODEM_REMUS_LBL_RANGING
| MICROMODEM_NARROWBAND_LBL_RANGING | MICROMODEM_MINI_DATA | MICROMODEM_FLEXIBLE_DATA
| MICROMODEM_HARDWARE_CONTROL | MICROMODEM_HARDWARE_CONTROL_REPLY
| MICROMODEM_GENERIC_LBL_RANGING | MICROMODEM_FM_SWEEP | MICROMODEM_M_SEQUENCE.

#[export] Instance MMType_eq_dec : EqDecision MMType.
Proof. solve_decision. Defined.

Inductive TimeSource : Type := MODEM_TIME | GOBY_TIME.

Record NarrowBandLBLParams : Type := MkNarrow {
  nb_transmit_freq : option Z;
  nb_transmit_ping_ms : option Z;
  nb_receive_freq : list Z;
  nb_receive_ping_ms : option Z;
  nb_turnaround_ms : option Z;
  nb_transmit_flag : option bool;
  nb_lbl_max_range : option Z
}.

Record REMUSLBLParams : Type := MkRemus {
  rm_enable_beacons : option Z;
  rm_turnaround_ms : option Z;
  rm_lbl_max_range : option Z
}.

Record GenericLBLParams : Type := MkGeneric {
  gn_transmit_freq : option Z;
  gn_n_bits : option Z;
  gn_transmit_seq_code : option Z;
  gn_receive_freq : option Z;
  gn_receive_seq_code : list Z;
  gn_bandwidth : option Z;
  gn_turnaround_ms : option Z;
  gn_lbl_max_range : option Z
}.

Record FMSweepParams : Type := MkSweep {
  sw_start_freq : option double;
  sw_stop_freq : option double;
  sw_duration_ms : option double;
  sw_number_repetitions : option Z;
  sw_repetition_period_ms : option double
}.

Record MSequenceParams : Type := MkMSeq {
  ms_seqlen_bits : option Z;
  ms_number_repetitions : option Z;
  ms_carrier_cycles_per_chip : option Z;
  ms_carrier_freq : option Z
}.

Record HardwareControl : Type := MkHw {
  hw_line : option Z;
  hw_mode : option Z;
  hw_arg : option Z
}.

(** [MergeFrom]: a field set in the second message replaces that of the first,
    repeated fields are appended *)
Definition merge {A : Type} (x y : option A) : option A := match y with Some _ => y | None => x end.

Definition merge_narrowband (p q : NarrowBandLBLParams) : NarrowBandLBLParams :=
  MkNarrow (merge (nb_transmit_freq p) (nb_transmit_freq q))
    (merge (nb_transmit_ping_ms p) (nb_transmit_ping_ms q)) (nb_receive_freq p ++ nb_receive_freq q)
    (merge (nb_receive_ping_ms p) (nb_receive_ping_ms q))
    (merge (nb_turnaround_ms p) (nb_turnaround_ms q)) (merge (nb_transmit_flag p) (nb_transmit_flag q))
    (merge (nb_lbl_max_range p) (nb_lbl_max_range q)).

Definition merge_remus (p q : REMUSLBLParams) : REMUSLBLParams :=
  MkRemus (merge (rm_enable_beacons p) (rm_enable_beacons q))
    (merge (rm_turnaround_ms p) (rm_turnaround_ms q)) (merge (rm_lbl_max_range p) (rm_lbl_max_range q)).

Definition merge_generic (p q : GenericLBLParams) : GenericLBLParams :=
  MkGeneric (merge (gn_transmit_freq p) (gn_transmit_freq q)) (merge (gn_n_bits p) (gn_n_bits q))
    (merge (gn_transmit_seq_code p) (gn_transmit_seq_code q))
    (merge (gn_receive_freq p) (gn_receive_freq q)) (gn_receive_seq_code p ++ gn_receive_seq_code q)
    (merge (gn_bandwidth p) (gn_bandwidth q)) (merge (gn_turnaround_ms p) (gn_turnaround_ms q))
    (merge (gn_lbl_max_range p) (gn_lbl_max_range q)).

Definition merge_sweep (p q : FMSweepParams) : FMSweepParams :=
  MkSweep (merge (sw_start_freq p) (sw_start_freq q)) (merge (sw_stop_freq p) (sw_stop_freq q))
    (merge (sw_duration_ms p) (sw_duration_ms q))
    (merge (sw_number_repetitions p) (sw_number_repetitions q))
    (merge (sw_repetition_period_ms p) (sw_repetition_period_ms q)).

Definition merge_m_sequence (p q : MSequenceParams) : MSequenceParams :=
  MkMSeq (merge (ms_seqlen_bits p) (ms_seqlen_bits q))
    (merge (ms_number_repetitions p) (ms_number_repetitions q))
    (merge (ms_carrier_cycles_per_chip p) (ms_carrier_cycles_per_chip q))
    (merge (ms_carrier_freq p) (ms_carrier_freq q)).

Definition empty_narrowband : NarrowBandLBLParams := MkNarrow None None [] None None None None.
Definition empty_remus : REMUSLBLParams := MkRemus None None None.
Definition empty_generic : GenericLBLParams := MkGeneric None None None None [] None None None.
Definition empty_sweep : FMSweepParams := MkSweep None None None None None.
Definition empty_m_sequence : MSequenceParams := MkMSeq None None None None.

Inductive Ambiguity : Type := OWTT_EXACT | OWTT_SECOND_AMBIGUOUS.

Record RangingReply : Type := MkRanging {
  one_way_travel_time : list double;
  ambiguity : option Ambiguity;
  is_one_way_synchronous : option bool;
  receiver_clk_mode : option Z
}.

Definition empty_ranging : RangingReply := MkRanging [] None None None.

(** ** Statistics *)

Inductive StatField : Type :=
| StVersion | StDate | StTime | StClockMode | StMode | StProbeLength | StBandwidth | StCarrierFreq
| StRate | StSource | StDest | StAckRequested | StFramesExpected | StFramesSent | StPacketType
| StNumberBytes | StMfdPeak | StMfdPower | StMfdRatio | StSpl | StShfAgn | StShfAinpshift
| StShfAinshift | StShfMfdshift | StShfP2bshift | StPskErrorCode | StNumberFrames
| StNumberBadFrames | StSnrRss | StSnrIn | StSnrOut | StSnrSymbols | StMseEqualizer
| StDataQualityFactor | StDoppler | StStddevNoise.

#[export] Instance StatField_eq_dec : EqDecision StatField.
Proof. solve_decision. Defined.

Inductive StatValue : Type := VInt (z : Z) | VDouble (d : double) | VBool (b : bool) | VString (s : bytes).

(** [TransmitStatistics] and [ReceiveStatistics] *)
Abbreviation Statistics := (list (StatField * StatValue)).

Definition stat_get (f : StatField) (s : Statistics) : option StatValue :=
  snd <$> List.find (fun x => bool_decide (fst x = f)) s.

Definition stat_int (f : StatField) (default_value : Z) (s : Statistics) : Z :=
  match stat_get f s with Some (VInt z) => z | _ => default_value end.

(** [ClockMode] *)
Definition INVALID_CLOCK_MODE : Z := -1.
Definition NO_SYNC_TO_PPS_AND_CCCLK_BAD : Z := 0.
Definition SYNC_TO_PPS_AND_CCCLK_BAD : Z := 2.
Definition SYNC_TO_PPS_AND_CCCLK_GOOD : Z := 3.

Definition ClockMode_IsValid (z : Z) : bool := (-1 <=? z) && (z <=? 3).
Definition TransmitMode_IsValid (z : Z) : bool := (-1 <=? z) && (z <=? 4).
Definition ReceiveMode_IsValid (z : Z) : bool := (-1 <=? z) && (z <=? 2).
Definition PSKErrorCode_IsValid (z : Z) : bool := (-1 <=? z) && (z <=? 6).
Definition PacketType_IsValid (z : Z) : bool := (z =? -1) || ((1 <=? z) && (z <=? 5)).

(** ** A transmission with the extensions *)

Record MMTransmission : Type := MkMM {
  base : ModemTransmission;
  time_source : option TimeSource;
  mm_type : option MMType;
  narrowband_lbl : option NarrowBandLBLParams;
  remus_lbl : option REMUSLBLParams;
  generic_lbl : option GenericLBLParams;
  fm_sweep : option FMSweepParams;
  m_sequence : option MSequenceParams;
  hw_ctl : option HardwareControl;
  ranging_reply : option RangingReply;
  receive_stat : list Statistics;
  transmit_stat : list Statistics;
  frame_with_bad_crc : list Z
}.

Definition set_base (v : ModemTransmission) (r : MMTransmission) : MMTransmission :=
  MkMM v (time_source r) (mm_type r) (narrowband_lbl r) (remus_lbl r) (generic_lbl r) (fm_sweep
    r) (m_sequence r) (hw_ctl r) (ranging_reply r) (receive_stat r) (transmit_stat r)
    (frame_with_bad_crc r).
Definition set_time_source (v : option TimeSource) (r : MMTransmission) : MMTransmission :=
  MkMM (base r) v (mm_type r) (narrowband_lbl r) (remus_lbl r) (generic_lbl r) (fm_sweep r)
    (m_sequence r) (hw_ctl r) (ranging_reply r) (receive_stat r) (transmit_stat r)
    (frame_with_bad_crc r).
Definition set_mm_type (v : option MMType) (r : MMTransmission) : MMTransmission :=
  MkMM (base r) (time_source r) v (narrowband_lbl r) (remus_lbl r) (generic_lbl r) (fm_sweep r)
    (m_sequence r) (hw_ctl r) (ranging_reply r) (receive_stat r) (transmit_stat r)
    (frame_with_bad_crc r).
Definition set_narrowband_lbl (v : option NarrowBandLBLParams) (r : MMTransmission) : MMTransmission :=
  MkMM (base r) (time_source r) (mm_type r) v (remus_lbl r) (generic_lbl r) (fm_sweep r)
    (m_sequence r) (hw_ctl r) (ranging_reply r) (receive_stat r) (transmit_stat r)
    (frame_with_bad_crc r).
Definition set_remus_lbl (v : option REMUSLBLParams) (r : MMTransmission) : MMTransmission :=
  MkMM (base r) (time_source r) (mm_type r) (narrowband_lbl r) v (generic_lbl r) (fm_sweep r)
    (m_sequence r) (hw_ctl r) (ranging_reply r) (receive_stat r) (transmit_stat r)
    (frame_with_bad_crc r).
Definition set_generic_lbl (v : option GenericLBLParams) (r : MMTransmission) : MMTransmission :=
  MkMM (base r) (time_source r) (mm_type r) (narrowband_lbl r) (remus_lbl r) v (fm_sweep r)
    (m_sequence r) (hw_ctl r) (ranging_reply r) (receive_stat r) (transmit_stat r)
    (frame_with_bad_crc r).
Definition set_fm_sweep (v : option FMSweepParams) (r : MMTransmission) : MMTransmission :=
  MkMM (base r) (time_source r) (mm_type r) (narrowband_lbl r) (remus_lbl r) (generic_lbl r) v
    (m_sequence r) (hw_ctl r) (ranging_reply r) (receive_stat r) (transmit_stat r)
    (frame_with_bad_crc r).
Definition set_m_sequence (v : option MSequenceParams) (r : MMTransmission) : MMTransmission :=
  MkMM (base r) (time_source r) (mm_type r) (narrowband_lbl r) (remus_lbl r) (generic_lbl r)
    (fm_sweep r) v (hw_ctl r) (ranging_reply r) (receive_stat r) (transmit_stat r)
    (frame_with_bad_crc r).
Definition set_hw_ctl (v : option HardwareControl) (r : MMTransmission) : MMTransmission :=
  MkMM (base r) (time_source r) (mm_type r) (narrowband_lbl r) (remus_lbl r) (generic_lbl r)
    (fm_sweep r) (m_sequence r) v (ranging_reply r) (receive_stat r) (transmit_stat r)
    (frame_with_bad_crc r).
Definition set_ranging_reply (v : option RangingReply) (r : MMTransmission) : MMTransmission :=
  MkMM (base r) (time_source r) (mm_type r) (narrowband_lbl r) (remus_lbl r) (generic_lbl r)
    (fm_sweep r) (m_sequence r) (hw_ctl r) v (receive_stat r) (transmit_stat r)
    (frame_with_bad_crc r).
Definition set_receive_stat (v : list Statistics) (r : MMTransmission) : MMTransmission :=
  MkMM (base r) (time_source r) (mm_type r) (narrowband_lbl r) (remus_lbl r) (generic_lbl r)
    (fm_sweep r) (m_sequence r) (hw_ctl r) (ranging_reply r) v (transmit_stat r)
    (frame_with_bad_crc r).
Definition set_transmit_stat (v : list Statistics) (r : MMTransmission) : MMTransmission :=
  MkMM (base r) (time_source r) (mm_type r) (narrowband_lbl r) (remus_lbl r) (generic_lbl r)
    (fm_sweep r) (m_sequence r) (hw_ctl r) (ranging_reply r) (receive_stat r) v
    (frame_with_bad_crc r).
Definition set_frame_with_bad_crc (v : list Z) (r : MMTransmission) : MMTransmission :=
  MkMM (base r) (time_source r) (mm_type r) (narrowband_lbl r) (remus_lbl r) (generic_lbl r)
    (fm_sweep r) (m_sequence r) (hw_ctl r) (ranging_reply r) (receive_stat r) (transmit_stat r)
    v.

Definition empty_mm : MMTransmission :=
  MkMM empty_transmission None None None None None None None None None [] [] [].

Definition set_b {A : Type} (f : A -> ModemTransmission -> ModemTransmission) (v : A) (m : MMTransmission)
  : MMTransmission := set_base (f v (base m)) m.

(** ** Configuration *)

Record DriverConfig : Type := MkCfg {
  connection : ConnectionConfig;
  reset_nvram : bool;
  nvram_cfg_list : list bytes;
  hydroid_gateway_id : option Z;
  cfg_narrowband_lbl : option NarrowBandLBLParams;
  cfg_remus_lbl : option REMUSLBLParams;
  cfg_generic_lbl : option GenericLBLParams;
  cfg_fm_sweep : option FMSweepParams;
  cfg_m_sequence : option MSequenceParams;
  keep_alive_seconds : Z;
  allowed_skew_ms : Z;
  use_application_acks : bool
}.

Definition cfg_modem_id (c : DriverConfig) : Z := get_modem_id (connection c).

Record MMRevision : Type := MkRev { mm_major : Z; mm_minor : Z; mm_patch : Z }.

(** ** The driver

    An outgoing sentence is the list of its fields. *)

Record MMDriver : Type := MkDriver {
  driver_cfg : DriverConfig;
  base_driver : ModemDriverBase;
  out : list (list bytes);
  last_write_time : Z;
  waiting_for_modem : bool;
  startup_done : bool;
  global_fail_count : Z;
  present_fail_count : Z;
  clk_mode : Z;
  clock_set : bool;
  last_hydroid_gateway_gps_request : Z;
  is_hydroid_gateway : bool;
  hydroid_gateway_modem_prefix : bytes;
  hydroid_gateway_gps_request : bytes;
  nvram_cfg : list (bytes * Z);
  transmit_msg : MMTransmission;
  expected_remaining_caxst : Z;
  receive_msg : MMTransmission;
  expected_remaining_cacst : Z;
  frames_waiting_for_ack : list Z;
  expected_ack_destination : Z;
  frames_waiting_to_receive : list Z;
  local_cccyc : bool;
  last_lbl_type : MMType;
  last_keep_alive_time : double;
  revision : MMRevision;
  using_application_acks : bool;
  application_ack_max_frames : Z;
  next_frame : Z;
  frames_to_ack : list (Z * list Z)
}.

Definition set_driver_cfg (v : DriverConfig) (r : MMDriver) : MMDriver :=
  MkDriver v (base_driver r) (out r) (last_write_time r) (waiting_for_modem r) (startup_done r)
    (global_fail_count r) (present_fail_count r) (clk_mode r) (clock_set r)
    (last_hydroid_gateway_gps_request r) (is_hydroid_gateway r) (hydroid_gateway_modem_prefix r)
    (hydroid_gateway_gps_request r) (nvram_cfg r) (transmit_msg r) (expected_remaining_caxst r)
    (receive_msg r) (expected_remaining_cacst r) (frames_waiting_for_ack r)
    (expected_ack_destination r) (frames_waiting_to_receive r) (local_cccyc r) (last_lbl_type r)
    (last_keep_alive_time r) (revision r) (using_application_acks r) (application_ack_max_frames
    r) (next_frame r) (frames_to_ack r).
Definition set_base_driver (v : ModemDriverBase) (r : MMDriver) : MMDriver :=
  MkDriver (driver_cfg r) v (out r) (last_write_time r) (waiting_for_modem r) (startup_done r)
    (global_fail_count r) (present_fail_count r) (clk_mode r) (clock_set r)
    (last_hydroid_gateway_gps_request r) (is_hydroid_gateway r) (hydroid_gateway_modem_prefix r)
    (hydroid_gateway_gps_request r) (nvram_cfg r) (transmit_msg r) (expected_remaining_caxst r)
    (receive_msg r) (expected_remaining_cacst r) (frames_waiting_for_ack r)
    (expected_ack_destination r) (frames_waiting_to_receive r) (local_cccyc r) (last_lbl_type r)
    (last_keep_alive_time r) (revision r) (using_application_acks r) (application_ack_max_frames
    r) (next_frame r) (frames_to_ack r).
Definition set_out (v : list (list bytes)) (r : MMDriver) : MMDriver :=
  MkDriver (driver_cfg r) (base_driver r) v (last_write_time r) (waiting_for_modem r)
    (startup_done r) (global_fail_count r) (present_fail_count r) (clk_mode r) (clock_set r)
    (last_hydroid_gateway_gps_request r) (is_hydroid_gateway r) (hydroid_gateway_modem_prefix r)
    (hydroid_gateway_gps_request r) (nvram_cfg r) (transmit_msg r) (expected_remaining_caxst r)
    (receive_msg r) (expected_remaining_cacst r) (frames_waiting_for_ack r)
    (expected_ack_destination r) (frames_waiting_to_receive r) (local_cccyc r) (last_lbl_type r)
    (last_keep_alive_time r) (revision r) (using_application_acks r) (application_ack_max_frames
    r) (next_frame r) (frames_to_ack r).
Definition set_last_write_time (v : Z) (r : MMDriver) : MMDriver :=
  MkDriver (driver_cfg r) (base_driver r) (out r) v (waiting_for_modem r) (startup_done r)
    (global_fail_count r) (present_fail_count r) (clk_mode r) (clock_set r)
    (last_hydroid_gateway_gps_request r) (is_hydroid_gateway r) (hydroid_gateway_modem_prefix r)
    (hydroid_gateway_gps_request r) (nvram_cfg r) (transmit_msg r) (expected_remaining_caxst r)
    (receive_msg r) (expected_remaining_cacst r) (frames_waiting_for_ack r)
    (expected_ack_destination r) (frames_waiting_to_receive r) (local_cccyc r) (last_lbl_type r)
    (last_keep_alive_time r) (revision r) (using_application_acks r) (application_ack_max_frames
    r) (next_frame r) (frames_to_ack r).
Definition set_waiting_for_modem (v : bool) (r : MMDriver) : MMDriver :=
  MkDriver (driver_cfg r) (base_driver r) (out r) (last_write_time r) v (startup_done r)
    (global_fail_count r) (present_fail_count r) (clk_mode r) (clock_set r)
    (last_hydroid_gateway_gps_request r) (is_hydroid_gateway r) (hydroid_gateway_modem_prefix r)
    (hydroid_gateway_gps_request r) (nvram_cfg r) (transmit_msg r) (expected_remaining_caxst r)
    (receive_msg r) (expected_remaining_cacst r) (frames_waiting_for_ack r)
    (expected_ack_destination r) (frames_waiting_to_receive r) (local_cccyc r) (last_lbl_type r)
    (last_keep_alive_time r) (revision r) (using_application_acks r) (application_ack_max_frames
    r) (next_frame r) (frames_to_ack r).
Definition set_startup_done (v : bool) (r : MMDriver) : MMDriver :=
  MkDriver (driver_cfg r) (base_driver r) (out r) (last_write_time r) (waiting_for_modem r) v
    (global_fail_count r) (present_fail_count r) (clk_mode r) (clock_set r)
    (last_hydroid_gateway_gps_request r) (is_hydroid_gateway r) (hydroid_gateway_modem_prefix r)
    (hydroid_gateway_gps_request r) (nvram_cfg r) (transmit_msg r) (expected_remaining_caxst r)
    (receive_msg r) (expected_remaining_cacst r) (frames_waiting_for_ack r)
    (expected_ack_destination r) (frames_waiting_to_receive r) (local_cccyc r) (last_lbl_type r)
    (last_keep_alive_time r) (revision r) (using_application_acks r) (application_ack_max_frames
    r) (next_frame r) (frames_to_ack r).
Definition set_global_fail_count (v : Z) (r : MMDriver) : MMDriver :=
  MkDriver (driver_cfg r) (base_driver r) (out r) (last_write_time r) (waiting_for_modem r)
    (startup_done r) v (present_fail_count r) (clk_mode r) (clock_set r)
    (last_hydroid_gateway_gps_request r) (is_hydroid_gateway r) (hydroid_gateway_modem_prefix r)
    (hydroid_gateway_gps_request r) (nvram_cfg r) (transmit_msg r) (expected_remaining_caxst r)
    (receive_msg r) (expected_remaining_cacst r) (frames_waiting_for_ack r)
    (expected_ack_destination r) (frames_waiting_to_receive r) (local_cccyc r) (last_lbl_type r)
    (last_keep_alive_time r) (revision r) (using_application_acks r) (application_ack_max_frames
    r) (next_frame r) (frames_to_ack r).
Definition set_present_fail_count (v : Z) (r : MMDriver) : MMDriver :=
  MkDriver (driver_cfg r) (base_driver r) (out r) (last_write_time r) (waiting_for_modem r)
    (startup_done r) (global_fail_count r) v (clk_mode r) (clock_set r)
    (last_hydroid_gateway_gps_request r) (is_hydroid_gateway r) (hydroid_gateway_modem_prefix r)
    (hydroid_gateway_gps_request r) (nvram_cfg r) (transmit_msg r) (expected_remaining_caxst r)
    (receive_msg r) (expected_remaining_cacst r) (frames_waiting_for_ack r)
    (expected_ack_destination r) (frames_waiting_to_receive r) (local_cccyc r) (last_lbl_type r)
    (last_keep_alive_time r) (revision r) (using_application_acks r) (application_ack_max_frames
    r) (next_frame r) (frames_to_ack r).
Definition set_clk_mode (v : Z) (r : MMDriver) : MMDriver :=
  MkDriver (driver_cfg r) (base_driver r) (out r) (last_write_time r) (waiting_for_modem r)
    (startup_done r) (global_fail_count r) (present_fail_count r) v (clock_set r)
    (last_hydroid_gateway_gps_request r) (is_hydroid_gateway r) (hydroid_gateway_modem_prefix r)
    (hydroid_gateway_gps_request r) (nvram_cfg r) (transmit_msg r) (expected_remaining_caxst r)
    (receive_msg r) (expected_remaining_cacst r) (frames_waiting_for_ack r)
    (expected_ack_destination r) (frames_waiting_to_receive r) (local_cccyc r) (last_lbl_type r)
    (last_keep_alive_time r) (revision r) (using_application_acks r) (application_ack_max_frames
    r) (next_frame r) (frames_to_ack r).
Definition set_clock_set (v : bool) (r : MMDriver) : MMDriver :=
  MkDriver (driver_cfg r) (base_driver r) (out r) (last_write_time r) (waiting_for_modem r)
    (startup_done r) (global_fail_count r) (present_fail_count r) (clk_mode r) v
    (last_hydroid_gateway_gps_request r) (is_hydroid_gateway r) (hydroid_gateway_modem_prefix r)
    (hydroid_gateway_gps_request r) (nvram_cfg r) (transmit_msg r) (expected_remaining_caxst r)
    (receive_msg r) (expected_remaining_cacst r) (frames_waiting_for_ack r)
    (expected_ack_destination r) (frames_waiting_to_receive r) (local_cccyc r) (last_lbl_type r)
    (last_keep_alive_time r) (revision r) (using_application_acks r) (application_ack_max_frames
    r) (next_frame r) (frames_to_ack r).
Definition set_last_hydroid_gateway_gps_request (v : Z) (r : MMDriver) : MMDriver :=
  MkDriver (driver_cfg r) (base_driver r) (out r) (last_write_time r) (waiting_for_modem r)
    (startup_done r) (global_fail_count r) (present_fail_count r) (clk_mode r) (clock_set r) v
    (is_hydroid_gateway r) (hydroid_gateway_modem_prefix r) (hydroid_gateway_gps_request r)
    (nvram_cfg r) (transmit_msg r) (expected_remaining_caxst r) (receive_msg r)
    (expected_remaining_cacst r) (frames_waiting_for_ack r) (expected_ack_destination r)
    (frames_waiting_to_receive r) (local_cccyc r) (last_lbl_type r) (last_keep_alive_time r)
    (revision r) (using_application_acks r) (application_ack_max_frames r) (next_frame r)
    (frames_to_ack r).
Definition set_is_hydroid_gateway (v : bool) (r : MMDriver) : MMDriver :=
  MkDriver (driver_cfg r) (base_driver r) (out r) (last_write_time r) (waiting_for_modem r)
    (startup_done r) (global_fail_count r) (present_fail_count r) (clk_mode r) (clock_set r)
    (last_hydroid_gateway_gps_request r) v (hydroid_gateway_modem_prefix r)
    (hydroid_gateway_gps_request r) (nvram_cfg r) (transmit_msg r) (expected_remaining_caxst r)
    (receive_msg r) (expected_remaining_cacst r) (frames_waiting_for_ack r)
    (expected_ack_destination r) (frames_waiting_to_receive r) (local_cccyc r) (last_lbl_type r)
    (last_keep_alive_time r) (revision r) (using_application_acks r) (application_ack_max_frames
    r) (next_frame r) (frames_to_ack r).
Definition set_hydroid_gateway_modem_prefix (v : bytes) (r : MMDriver) : MMDriver :=
  MkDriver (driver_cfg r) (base_driver r) (out r) (last_write_time r) (waiting_for_modem r)
    (startup_done r) (global_fail_count r) (present_fail_count r) (clk_mode r) (clock_set r)
    (last_hydroid_gateway_gps_request r) (is_hydroid_gateway r) v (hydroid_gateway_gps_request
    r) (nvram_cfg r) (transmit_msg r) (expected_remaining_caxst r) (receive_msg r)
    (expected_remaining_cacst r) (frames_waiting_for_ack r) (expected_ack_destination r)
    (frames_waiting_to_receive r) (local_cccyc r) (last_lbl_type r) (last_keep_alive_time r)
    (revision r) (using_application_acks r) (application_ack_max_frames r) (next_frame r)
    (frames_to_ack r).
Definition set_hydroid_gateway_gps_request (v : bytes) (r : MMDriver) : MMDriver :=
  MkDriver (driver_cfg r) (base_driver r) (out r) (last_write_time r) (waiting_for_modem r)
    (startup_done r) (global_fail_count r) (present_fail_count r) (clk_mode r) (clock_set r)
    (last_hydroid_gateway_gps_request r) (is_hydroid_gateway r) (hydroid_gateway_modem_prefix r)
    v (nvram_cfg r) (transmit_msg r) (expected_remaining_caxst r) (receive_msg r)
    (expected_remaining_cacst r) (frames_waiting_for_ack r) (expected_ack_destination r)
    (frames_waiting_to_receive r) (local_cccyc r) (last_lbl_type r) (last_keep_alive_time r)
    (revision r) (using_application_acks r) (application_ack_max_frames r) (next_frame r)
    (frames_to_ack r).
Definition set_nvram_cfg (v : list (bytes * Z)) (r : MMDriver) : MMDriver :=
  MkDriver (driver_cfg r) (base_driver r) (out r) (last_write_time r) (waiting_for_modem r)
    (startup_done r) (global_fail_count r) (present_fail_count r) (clk_mode r) (clock_set r)
    (last_hydroid_gateway_gps_request r) (is_hydroid_gateway r) (hydroid_gateway_modem_prefix r)
    (hydroid_gateway_gps_request r) v (transmit_msg r) (expected_remaining_caxst r) (receive_msg
    r) (expected_remaining_cacst r) (frames_waiting_for_ack r) (expected_ack_destination r)
    (frames_waiting_to_receive r) (local_cccyc r) (last_lbl_type r) (last_keep_alive_time r)
    (revision r) (using_application_acks r) (application_ack_max_frames r) (next_frame r)
    (frames_to_ack r).
Definition set_transmit_msg (v : MMTransmission) (r : MMDriver) : MMDriver :=
  MkDriver (driver_cfg r) (base_driver r) (out r) (last_write_time r) (waiting_for_modem r)
    (startup_done r) (global_fail_count r) (present_fail_count r) (clk_mode r) (clock_set r)
    (last_hydroid_gateway_gps_request r) (is_hydroid_gateway r) (hydroid_gateway_modem_prefix r)
    (hydroid_gateway_gps_request r) (nvram_cfg r) v (expected_remaining_caxst r) (receive_msg r)
    (expected_remaining_cacst r) (frames_waiting_for_ack r) (expected_ack_destination r)
    (frames_waiting_to_receive r) (local_cccyc r) (last_lbl_type r) (last_keep_alive_time r)
    (revision r) (using_application_acks r) (application_ack_max_frames r) (next_frame r)
    (frames_to_ack r).
Definition set_expected_remaining_caxst (v : Z) (r : MMDriver) : MMDriver :=
  MkDriver (driver_cfg r) (base_driver r) (out r) (last_write_time r) (waiting_for_modem r)
    (startup_done r) (global_fail_count r) (present_fail_count r) (clk_mode r) (clock_set r)
    (last_hydroid_gateway_gps_request r) (is_hydroid_gateway r) (hydroid_gateway_modem_prefix r)
    (hydroid_gateway_gps_request r) (nvram_cfg r) (transmit_msg r) v (receive_msg r)
    (expected_remaining_cacst r) (frames_waiting_for_ack r) (expected_ack_destination r)
    (frames_waiting_to_receive r) (local_cccyc r) (last_lbl_type r) (last_keep_alive_time r)
    (revision r) (using_application_acks r) (application_ack_max_frames r) (next_frame r)
    (frames_to_ack r).
Definition set_receive_msg (v : MMTransmission) (r : MMDriver) : MMDriver :=
  MkDriver (driver_cfg r) (base_driver r) (out r) (last_write_time r) (waiting_for_modem r)
    (startup_done r) (global_fail_count r) (present_fail_count r) (clk_mode r) (clock_set r)
    (last_hydroid_gateway_gps_request r) (is_hydroid_gateway r) (hydroid_gateway_modem_prefix r)
    (hydroid_gateway_gps_request r) (nvram_cfg r) (transmit_msg r) (expected_remaining_caxst r)
    v (expected_remaining_cacst r) (frames_waiting_for_ack r) (expected_ack_destination r)
    (frames_waiting_to_receive r) (local_cccyc r) (last_lbl_type r) (last_keep_alive_time r)
    (revision r) (using_application_acks r) (application_ack_max_frames r) (next_frame r)
    (frames_to_ack r).
Definition set_expected_remaining_cacst (v : Z) (r : MMDriver) : MMDriver :=
  MkDriver (driver_cfg r) (base_driver r) (out r) (last_write_time r) (waiting_for_modem r)
    (startup_done r) (global_fail_count r) (present_fail_count r) (clk_mode r) (clock_set r)
    (last_hydroid_gateway_gps_request r) (is_hydroid_gateway r) (hydroid_gateway_modem_prefix r)
    (hydroid_gateway_gps_request r) (nvram_cfg r) (transmit_msg r) (expected_remaining_caxst r)
    (receive_msg r) v (frames_waiting_for_ack r) (expected_ack_destination r)
    (frames_waiting_to_receive r) (local_cccyc r) (last_lbl_type r) (last_keep_alive_time r)
    (revision r) (using_application_acks r) (application_ack_max_frames r) (next_frame r)
    (frames_to_ack r).
Definition set_frames_waiting_for_ack (v : list Z) (r : MMDriver) : MMDriver :=
  MkDriver (driver_cfg r) (base_driver r) (out r) (last_write_time r) (waiting_for_modem r)
    (startup_done r) (global_fail_count r) (present_fail_count r) (clk_mode r) (clock_set r)
    (last_hydroid_gateway_gps_request r) (is_hydroid_gateway r) (hydroid_gateway_modem_prefix r)
    (hydroid_gateway_gps_request r) (nvram_cfg r) (transmit_msg r) (expected_remaining_caxst r)
    (receive_msg r) (expected_remaining_cacst r) v (expected_ack_destination r)
    (frames_waiting_to_receive r) (local_cccyc r) (last_lbl_type r) (last_keep_alive_time r)
    (revision r) (using_application_acks r) (application_ack_max_frames r) (next_frame r)
    (frames_to_ack r).
Definition set_expected_ack_destination (v : Z) (r : MMDriver) : MMDriver :=
  MkDriver (driver_cfg r) (base_driver r) (out r) (last_write_time r) (waiting_for_modem r)
    (startup_done r) (global_fail_count r) (present_fail_count r) (clk_mode r) (clock_set r)
    (last_hydroid_gateway_gps_request r) (is_hydroid_gateway r) (hydroid_gateway_modem_prefix r)
    (hydroid_gateway_gps_request r) (nvram_cfg r) (transmit_msg r) (expected_remaining_caxst r)
    (receive_msg r) (expected_remaining_cacst r) (frames_waiting_for_ack r) v
    (frames_waiting_to_receive r) (local_cccyc r) (last_lbl_type r) (last_keep_alive_time r)
    (revision r) (using_application_acks r) (application_ack_max_frames r) (next_frame r)
    (frames_to_ack r).
Definition set_frames_waiting_to_receive (v : list Z) (r : MMDriver) : MMDriver :=
  MkDriver (driver_cfg r) (base_driver r) (out r) (last_write_time r) (waiting_for_modem r)
    (startup_done r) (global_fail_count r) (present_fail_count r) (clk_mode r) (clock_set r)
    (last_hydroid_gateway_gps_request r) (is_hydroid_gateway r) (hydroid_gateway_modem_prefix r)
    (hydroid_gateway_gps_request r) (nvram_cfg r) (transmit_msg r) (expected_remaining_caxst r)
    (receive_msg r) (expected_remaining_cacst r) (frames_waiting_for_ack r)
    (expected_ack_destination r) v (local_cccyc r) (last_lbl_type r) (last_keep_alive_time r)
    (revision r) (using_application_acks r) (application_ack_max_frames r) (next_frame r)
    (frames_to_ack r).
Definition set_local_cccyc (v : bool) (r : MMDriver) : MMDriver :=
  MkDriver (driver_cfg r) (base_driver r) (out r) (last_write_time r) (waiting_for_modem r)
    (startup_done r) (global_fail_count r) (present_fail_count r) (clk_mode r) (clock_set r)
    (last_hydroid_gateway_gps_request r) (is_hydroid_gateway r) (hydroid_gateway_modem_prefix r)
    (hydroid_gateway_gps_request r) (nvram_cfg r) (transmit_msg r) (expected_remaining_caxst r)
    (receive_msg r) (expected_remaining_cacst r) (frames_waiting_for_ack r)
    (expected_ack_destination r) (frames_waiting_to_receive r) v (last_lbl_type r)
    (last_keep_alive_time r) (revision r) (using_application_acks r) (application_ack_max_frames
    r) (next_frame r) (frames_to_ack r).
Definition set_last_lbl_type (v : MMType) (r : MMDriver) : MMDriver :=
  MkDriver (driver_cfg r) (base_driver r) (out r) (last_write_time r) (waiting_for_modem r)
    (startup_done r) (global_fail_count r) (present_fail_count r) (clk_mode r) (clock_set r)
    (last_hydroid_gateway_gps_request r) (is_hydroid_gateway r) (hydroid_gateway_modem_prefix r)
    (hydroid_gateway_gps_request r) (nvram_cfg r) (transmit_msg r) (expected_remaining_caxst r)
    (receive_msg r) (expected_remaining_cacst r) (frames_waiting_for_ack r)
    (expected_ack_destination r) (frames_waiting_to_receive r) (local_cccyc r) v
    (last_keep_alive_time r) (revision r) (using_application_acks r) (application_ack_max_frames
    r) (next_frame r) (frames_to_ack r).
Definition set_last_keep_alive_time (v : double) (r : MMDriver) : MMDriver :=
  MkDriver (driver_cfg r) (base_driver r) (out r) (last_write_time r) (waiting_for_modem r)
    (startup_done r) (global_fail_count r) (present_fail_count r) (clk_mode r) (clock_set r)
    (last_hydroid_gateway_gps_request r) (is_hydroid_gateway r) (hydroid_gateway_modem_prefix r)
    (hydroid_gateway_gps_request r) (nvram_cfg r) (transmit_msg r) (expected_remaining_caxst r)
    (receive_msg r) (expected_remaining_cacst r) (frames_waiting_for_ack r)
    (expected_ack_destination r) (frames_waiting_to_receive r) (local_cccyc r) (last_lbl_type r)
    v (revision r) (using_application_acks r) (application_ack_max_frames r) (next_frame r)
    (frames_to_ack r).
Definition set_revision (v : MMRevision) (r : MMDriver) : MMDriver :=
  MkDriver (driver_cfg r) (base_driver r) (out r) (last_write_time r) (waiting_for_modem r)
    (startup_done r) (global_fail_count r) (present_fail_count r) (clk_mode r) (clock_set r)
    (last_hydroid_gateway_gps_request r) (is_hydroid_gateway r) (hydroid_gateway_modem_prefix r)
    (hydroid_gateway_gps_request r) (nvram_cfg r) (transmit_msg r) (expected_remaining_caxst r)
    (receive_msg r) (expected_remaining_cacst r) (frames_waiting_for_ack r)
    (expected_ack_destination r) (frames_waiting_to_receive r) (local_cccyc r) (last_lbl_type r)
    (last_keep_alive_time r) v (using_application_acks r) (application_ack_max_frames r)
    (next_frame r) (frames_to_ack r).
Definition set_using_application_acks (v : bool) (r : MMDriver) : MMDriver :=
  MkDriver (driver_cfg r) (base_driver r) (out r) (last_write_time r) (waiting_for_modem r)
    (startup_done r) (global_fail_count r) (present_fail_count r) (clk_mode r) (clock_set r)
    (last_hydroid_gateway_gps_request r) (is_hydroid_gateway r) (hydroid_gateway_modem_prefix r)
    (hydroid_gateway_gps_request r) (nvram_cfg r) (transmit_msg r) (expected_remaining_caxst r)
    (receive_msg r) (expected_remaining_cacst r) (frames_waiting_for_ack r)
    (expected_ack_destination r) (frames_waiting_to_receive r) (local_cccyc r) (last_lbl_type r)
    (last_keep_alive_time r) (revision r) v (application_ack_max_frames r) (next_frame r)
    (frames_to_ack r).
Definition set_application_ack_max_frames (v : Z) (r : MMDriver) : MMDriver :=
  MkDriver (driver_cfg r) (base_driver r) (out r) (last_write_time r) (waiting_for_modem r)
    (startup_done r) (global_fail_count r) (present_fail_count r) (clk_mode r) (clock_set r)
    (last_hydroid_gateway_gps_request r) (is_hydroid_gateway r) (hydroid_gateway_modem_prefix r)
    (hydroid_gateway_gps_request r) (nvram_cfg r) (transmit_msg r) (expected_remaining_caxst r)
    (receive_msg r) (expected_remaining_cacst r) (frames_waiting_for_ack r)
    (expected_ack_destination r) (frames_waiting_to_receive r) (local_cccyc r) (last_lbl_type r)
    (last_keep_alive_time r) (revision r) (using_application_acks r) v (next_frame r)
    (frames_to_ack r).
Definition set_next_frame (v : Z) (r : MMDriver) : MMDriver :=
  MkDriver (driver_cfg r) (base_driver r) (out r) (last_write_time r) (waiting_for_modem r)
    (startup_done r) (global_fail_count r) (present_fail_count r) (clk_mode r) (clock_set r)
    (last_hydroid_gateway_gps_request r) (is_hydroid_gateway r) (hydroid_gateway_modem_prefix r)
    (hydroid_gateway_gps_request r) (nvram_cfg r) (transmit_msg r) (expected_remaining_caxst r)
    (receive_msg r) (expected_remaining_cacst r) (frames_waiting_for_ack r)
    (expected_ack_destination r) (frames_waiting_to_receive r) (local_cccyc r) (last_lbl_type r)
    (last_keep_alive_time r) (revision r) (using_application_acks r) (application_ack_max_frames
    r) v (frames_to_ack r).
Definition set_frames_to_ack (v : list (Z * list Z)) (r : MMDriver) : MMDriver :=
  MkDriver (driver_cfg r) (base_driver r) (out r) (last_write_time r) (waiting_for_modem r)
    (startup_done r) (global_fail_count r) (present_fail_count r) (clk_mode r) (clock_set r)
    (last_hydroid_gateway_gps_request r) (is_hydroid_gateway r) (hydroid_gateway_modem_prefix r)
    (hydroid_gateway_gps_request r) (nvram_cfg r) (transmit_msg r) (expected_remaining_caxst r)
    (receive_msg r) (expected_remaining_cacst r) (frames_waiting_for_ack r)
    (expected_ack_destination r) (frames_waiting_to_receive r) (local_cccyc r) (last_lbl_type r)
    (last_keep_alive_time r) (revision r) (using_application_acks r) (application_ack_max_frames
    r) (next_frame r) v.

(** the constructor, at time [now]; [clk_mode_] and [last_lbl_type_] are not
    initialized: they are whatever was in memory *)
Definition new_mm_driver (now : Z) (cfg : DriverConfig) (clk_mode : Z) (lbl : MMType) : MMDriver :=
  MkDriver cfg new_base [] now false false 0 0 clk_mode false now false [] [] [] empty_mm 0 empty_mm 0
    [] 0 [] false lbl (double_of_Z 0) (MkRev 0 0 0) false 0 0 [].

(** [nvram_cfg_[k]]: 0 when there is no entry *)
Definition nvram (k : bytes) (r : MMDriver) : Z :=
  match List.find (fun x => bool_decide (fst x = k)) (nvram_cfg r) with
  | Some (_, v) => v
  | None => 0
  end.

Definition set_nvram (k : bytes) (v : Z) (r : MMDriver) : MMDriver :=
  set_nvram_cfg ((k, v) :: nvram_cfg r) r.
