(* ===== verification/MessageVal.v ===== *)
(** * moos/transitional/message_val, message_algorithms and the algorithms of
      moos/moos_translator.cpp

    A [DCCLMessageVal] holds a string, a number or a boolean and converts
    between them; an algorithm changes one, with others as references. The
    formatting of floating-point numbers, boost's casts, the C library's
    functions and the geodesy are interfaces. *)

From Stdlib Require Import SpecFloat.
From S2P Require Import Prelude AssocList Double Time As Proto Seawater MoosString.

(** ** DCCLMessageVal *)

Inductive DCCLCppType : Type := cpp_notype | cpp_bool | cpp_string | cpp_long | cpp_double.

Definition MAX_DBL_PRECISION : Z := 15.

Record DCCLMessageVal : Type := MkVal {
  sval : bytes;
  dval : double;
  lval : Z;
  bval : bool;
  precision : Z;
  val_type : DCCLCppType
}.

Definition init_val : DCCLMessageVal := MkVal [] (double_of_Z 0) 0 false MAX_DBL_PRECISION cpp_notype.
Definition string_val (s : bytes) : DCCLMessageVal := MkVal s (double_of_Z 0) 0 false MAX_DBL_PRECISION cpp_string.
Definition double_val (d : double) (p : Z) : DCCLMessageVal := MkVal [] d 0 false p cpp_double.
Definition long_val (l : Z) : DCCLMessageVal := MkVal [] (double_of_Z 0) l false MAX_DBL_PRECISION cpp_long.
Definition bool_val (b : bool) : DCCLMessageVal := MkVal [] (double_of_Z 0) 0 b MAX_DBL_PRECISION cpp_bool.
(** from a vector of one element *)
Definition vector_val (vm : list DCCLMessageVal) : option DCCLMessageVal := match vm with [v] => Some v | _ => None end.

Definition set_string (s : bytes) (v : DCCLMessageVal) : DCCLMessageVal := MkVal s (dval v) (lval v) (bval v) (precision v) cpp_string.
Definition set_double (d : double) (p : Z) (v : DCCLMessageVal) : DCCLMessageVal := MkVal (sval v) d (lval v) (bval v) p cpp_double.
Definition set_long (l : Z) (v : DCCLMessageVal) : DCCLMessageVal := MkVal (sval v) (dval v) l (bval v) (precision v) cpp_long.
Definition set_bool (b : bool) (v : DCCLMessageVal) : DCCLMessageVal := MkVal (sval v) (dval v) (lval v) b (precision v) cpp_bool.

Definition val_empty (v : DCCLMessageVal) : bool := match val_type v with cpp_notype => true | _ => false end.

(** streams of a [double], fixed and not; [log10(abs(d))]; [boost::numeric_cast], where it does not throw *)
Class ValText : Type := {
  text_fixed : Z -> double -> bytes;
  text_prec : Z -> double -> bytes;
  log10_abs : double -> double;
  numeric_cast_bool : double -> option bool;
  numeric_cast_bool_long : Z -> option bool;
  numeric_cast_long : double -> option Z
}.

(** the functions of the C library *)
Class LibM : Type := { log10 : double -> double; pow : double -> double -> double }.

Section Values.
Context {LC : LexicalCast} {LN : LexicalNumbers} {VT : ValText} {LM : LibM}.

Definition get_string (v : DCCLMessageVal) : option bytes :=
  match val_type v with
  | cpp_string => Some (sval v)
  | cpp_double =>
      Some (if dle (dadd (log10_abs (dval v)) (double_of_Z (precision v))) (double_of_Z MAX_DBL_PRECISION)
            then text_fixed (precision v) (dval v) else text_prec (precision v) (dval v))
  | cpp_long => Some (as_string (lval v))
  | cpp_bool => Some (if bval v then B "true" else B "false")
  | cpp_notype => None
  end.

Definition get_bool (v : DCCLMessageVal) : option bool :=
  match val_type v with
  | cpp_string =>
      if iequals (sval v) (B "true") || iequals (sval v) (B "1") then Some true
      else if iequals (sval v) (B "false") || iequals (sval v) (B "0") then Some false
      else None
  | cpp_double => numeric_cast_bool (dval v)
  | cpp_long => numeric_cast_bool_long (lval v)
  | cpp_bool => Some (bval v)
  | cpp_notype => None
  end.

(** the words for the truth values as a number *)
Definition truth_word (s : bytes) : option Z :=
  if iequals s (B "true") then Some 1 else if iequals s (B "false") then Some 0 else None.

Definition get_long (v : DCCLMessageVal) : option Z :=
  let rounded d := numeric_cast_long (unbiased_round pow d (double_of_Z 0)) in
  match val_type v with
  | cpp_string =>
      match lexical_cast_double (sval v) with
      | Some d => match rounded d with Some l => Some l | None => truth_word (sval v) end
      | None => truth_word (sval v)
      end
  | cpp_double => rounded (dval v)
  | cpp_long => Some (lval v)
  | cpp_bool => Some (if bval v then 1 else 0)
  | cpp_notype => None
  end.

Definition get_double (v : DCCLMessageVal) : option double :=
  match val_type v with
  | cpp_string =>
      match lexical_cast_double (sval v) with Some d => Some d | None => double_of_Z <$> truth_word (sval v) end
  | cpp_double => Some (dval v)
  | cpp_long => Some (double_of_Z (lval v))
  | cpp_bool => Some (double_of_Z (if bval v then 1 else 0))
  | cpp_notype => None
  end.

(** the conversion operators *)
Definition to_double (v : DCCLMessageVal) : double := default S754_nan (get_double v).
Definition to_bool (v : DCCLMessageVal) : bool := default false (get_bool v).
Definition to_string (v : DCCLMessageVal) : bytes := default [] (get_string v).
Definition to_long (v : DCCLMessageVal) : Z := default 0 (get_long v).
Definition to_int (v : DCCLMessageVal) : Z := s32 (to_long v).
Definition to_unsigned (v : DCCLMessageVal) : Z := u32 (to_long v).
Definition to_vector (v : DCCLMessageVal) : list DCCLMessageVal := [v].

(** comparison with a value of one type *)
Definition equals_string (v : DCCLMessageVal) (s : bytes) : bool := bool_decide (get_string v = Some s).
Definition equals_double (v : DCCLMessageVal) (d : double) : bool := match get_double v with Some us => deq us d | None => false end.
Definition equals_long (v : DCCLMessageVal) (l : Z) : bool := bool_decide (get_long v = Some l).
Definition equals_bool (v : DCCLMessageVal) (b : bool) : bool := bool_decide (get_bool v = Some b).
(** [v == mv] compares [mv] with the member of [v] that its type names *)
Definition equals_val (v mv : DCCLMessageVal) : bool :=
  match val_type mv with
  | cpp_string => equals_string mv (sval v)
  | cpp_double => equals_double mv (dval v)
  | cpp_long => equals_long mv (lval v)
  | cpp_bool => equals_bool mv (bval v)
  | cpp_notype => false
  end.

End Values.

(** ** DCCLAlgorithmPerformer *)

(** an algorithm may throw, read beyond its references or convert a number that has no [int]; its loops may not end *)
Inductive AlgExn : Type := AlgThrow | AlgUndefined | AlgRuns.

Definition AlgFunction : Type := DCCLMessageVal -> list DCCLMessageVal -> result AlgExn DCCLMessageVal.

Record DCCLAlgorithmPerformer : Type := MkPerformer { adv_map1 : list (bytes * AlgFunction); adv_map2 : list (bytes * AlgFunction) }.

(** [std::map::operator[]] *)
Fixpoint map_put {A : Type} (k : bytes) (v : A) (l : list (bytes * A)) : list (bytes * A) :=
  match l with
  | [] => [(k, v)]
  | (k', v') :: l => if bool_decide (k = k') then (k, v) :: l else (k', v') :: map_put k v l
  end.
Fixpoint map_get {A : Type} (k : bytes) (l : list (bytes * A)) : option A :=
  match l with
  | [] => None
  | (k', v') :: l => if bool_decide (k = k') then Some v' else map_get k l
  end.

Definition add_algorithm (name : bytes) (f : AlgFunction) (p : DCCLAlgorithmPerformer) : DCCLAlgorithmPerformer :=
  MkPerformer (map_put name f (adv_map1 p)) (adv_map2 p).
Definition add_adv_algorithm (name : bytes) (f : AlgFunction) (p : DCCLAlgorithmPerformer) : DCCLAlgorithmPerformer :=
  MkPerformer (adv_map1 p) (map_put name f (adv_map2 p)).

Definition run_algorithm (p : DCCLAlgorithmPerformer) (algorithm : bytes) (v : DCCLMessageVal) (ref : list DCCLMessageVal)
  : result AlgExn DCCLMessageVal :=
  match map_get algorithm (adv_map1 p) with
  | Some f => f v []
  | None => match map_get algorithm (adv_map2 p) with Some f => f v ref | None => Ok v end
  end.

(** [algo_name:ref_variable_name1:...] *)
Definition algorithm_names `{BoostText} (algorithm : bytes) : list bytes := boost_split (Z.eqb 58) (List.filter (fun c => negb (c =? 32)) algorithm).

Definition tied_vals (array_index : nat) (refs : list bytes) (vals : list (bytes * list DCCLMessageVal)) : result AlgExn (list DCCLMessageVal) :=
  foldr (fun r acc =>
    let? acc := acc in
    match map_get r vals with
    | None => Ok acc
    | Some l => match l !! array_index with
                | Some v => Ok (v :: acc)
                | None => match l with v :: _ => Ok (v :: acc) | [] => Err AlgUndefined end
                end
    end) (Ok []) refs.

Definition algorithm `{BoostText} (p : DCCLAlgorithmPerformer) (v : DCCLMessageVal) (array_index : nat) (algorithm : bytes)
    (vals : list (bytes * list DCCLMessageVal)) : result AlgExn DCCLMessageVal :=
  if val_empty v then Ok v
  else
    let names := algorithm_names algorithm in
    let? ref := tied_vals array_index (drop 1 names) vals in
    run_algorithm p (default [] (head names)) v ref.

(** [variables]: the names of the header and of the layout of the message *)
Definition check_algorithm `{BoostText} (p : DCCLAlgorithmPerformer) (alg : bytes) (variables : list bytes) : result AlgExn unit :=
  match alg with
  | [] => Ok tt
  | _ =>
      let names := algorithm_names alg in
      let name := default [] (head names) in
      let known := bool_decide (is_Some (map_get name (adv_map1 p))) || bool_decide (is_Some (map_get name (adv_map2 p))) in
      let loaded := match adv_map1 p, adv_map2 p with [], [] => false | _, _ => true end in
      if loaded && negb known then Err AlgThrow
      else if forallb (fun r => bool_decide (r ∈ variables)) (drop 1 names) then Ok tt else Err AlgThrow
  end.

(** ** The algorithms of the translator *)

(** [while (a < low) a += 360;] and [while (a >= high) a -= 360;] *)
Fixpoint turn_up (fuel : nat) (low a : double) : option double :=
  if dlt a low then match fuel with O => None | S fuel => turn_up fuel low (dadd a (double_of_Z 360)) end else Some a.
Fixpoint turn_down (fuel : nat) (high a : double) : option double :=
  if dle high a then match fuel with O => None | S fuel => turn_down fuel high (dsub a (double_of_Z 360)) end else Some a.

(** [%0wd]: zeros between the sign and the digits *)
Definition format_int (w : nat) (z : Z) : bytes :=
  let digits := as_string (Z.abs z) in
  let sign := if z <? 0 then [45] else [] in
  sign ++ repeat 48 (w - length sign - length digits) ++ digits.

(** the geodesy: coordinates from latitude and longitude, and back; the text of the time of day of no date *)
Class TranslatorLibrary : Type := {
  latlong_to_xy : double -> double -> double * double;
  xy_to_latlong : double -> double -> double * double;
  no_date_text : bytes
}.

Section Algorithms.
Context {TX : BoostText} {LC : LexicalCast} {LN : LexicalNumbers} {VT : ValText} {LM : LibM} {TL : TranslatorLibrary}.
Variable fuel : nat.

(** a value that is assigned a [double] or a string *)
Definition of_double (d : double) : result AlgExn DCCLMessageVal := Ok (double_val d MAX_DBL_PRECISION).
Definition of_string (s : bytes) : result AlgExn DCCLMessageVal := Ok (string_val s).
Definition ends {A : Type} (o : option A) : result AlgExn A := match o with Some a => Ok a | None => Err AlgRuns end.
Definition defined {A : Type} (o : option A) : result AlgExn A := match o with Some a => Ok a | None => Err AlgUndefined end.

Definition alg_power_to_dB : AlgFunction := fun v _ => of_double (dmul (double_of_Z 10) (log10 (to_double v))).
Definition alg_dB_to_power : AlgFunction := fun v _ => of_double (pow (double_of_Z 10) (ddiv (to_double v) (double_of_Z 10))).

Definition alg_TSD_to_soundspeed : AlgFunction := fun v ref =>
  match ref with
  | s :: d :: _ => Ok (set_double (mackenzie_soundspeed (to_double v) (to_double s) (to_double d)) 3 v)
  | _ => Err AlgUndefined
  end.

Definition alg_angle_0_360 : AlgFunction := fun v _ =>
  let? a := ends (turn_up fuel (double_of_Z 0) (to_double v)) in
  let? a := ends (turn_down fuel (double_of_Z 360) a) in
  of_double a.
Definition alg_angle_n180_180 : AlgFunction := fun v _ =>
  let? a := ends (turn_up fuel (double_of_Z (-180)) (to_double v)) in
  let? a := ends (turn_down fuel (double_of_Z 180) a) in
  of_double a.

Definition alg_to_upper : AlgFunction := fun v _ => of_string (map to_upper (to_string v)).
Definition alg_to_lower : AlgFunction := fun v _ => of_string (map to_lower (to_string v)).
Definition alg_lat2hemisphere_initial : AlgFunction := fun v _ => of_string (if dlt (to_double v) (double_of_Z 0) then B "S" else B "N").
Definition alg_lon2hemisphere_initial : AlgFunction := fun v _ => of_string (if dlt (to_double v) (double_of_Z 0) then B "W" else B "E").
Definition alg_abs : AlgFunction := fun v _ => of_double (dabs (to_double v)).

Definition alg_unix_time2nmea_time : AlgFunction := fun v _ =>
  of_string match unix_double2ptime (to_double v) with
            | None => no_date_text
            | Some t =>
                let tod := time_of_day t in
                let s := tod / MICROSEC_IN_SEC in
                format_int 2 (s / 3600) ++ format_int 2 (s / 60 mod 60) ++ format_int 2 (s mod 60) ++ B "."
                ++ format_int 6 (tod mod MICROSEC_IN_SEC * 1000000 / MICROSEC_IN_SEC)
            end.

(** degrees, minutes and ten thousandths of a minute *)
Definition nmea_angle (w : nat) (a : double) : result AlgExn bytes :=
  let? degrees := defined (int_cast (dfloor a)) in
  let minutes_d := dmul (dsub a (double_of_Z degrees)) (double_of_Z 60) in
  let? minutes := defined (int_cast (dfloor minutes_d)) in
  let? rest := defined (int_cast (dfloor (dmul (dsub minutes_d (double_of_Z minutes)) (double_of_Z 10000)))) in
  Ok (format_int w degrees ++ format_int 2 minutes ++ B "." ++ format_int 4 rest).
Definition alg_lat2nmea_lat : AlgFunction := fun v _ => let? s := nmea_angle 2 (to_double v) in of_string s.
Definition alg_lon2nmea_lon : AlgFunction := fun v _ => let? s := nmea_angle 3 (to_double v) in of_string s.

Definition alg_subtract : AlgFunction := fun v ref => of_double (foldl (fun d r => dsub d (to_double r)) (to_double v) ref).
Definition alg_add : AlgFunction := fun v ref => of_double (foldl (fun d r => dadd d (to_double r)) (to_double v) ref).

(** a conversion of two coordinates, one of them a reference; NaN stays NaN *)
Definition converted (f : double -> double -> double * double) (a b : double) : double * double :=
  if is_nan a || is_nan b then (S754_nan, S754_nan) else f a b.
Definition reference (ref : list DCCLMessageVal) : result AlgExn double := match ref with r :: _ => Ok (to_double r) | [] => Err AlgUndefined end.

Definition alg_lat2utm_y : AlgFunction := fun v ref => let? lon := reference ref in of_double (snd (converted latlong_to_xy (to_double v) lon)).
Definition alg_lon2utm_x : AlgFunction := fun v ref => let? lat := reference ref in of_double (fst (converted latlong_to_xy lat (to_double v))).
Definition alg_utm_x2lon : AlgFunction := fun v ref =>
  let? y := reference ref in of_double (unbiased_round pow (snd (converted xy_to_latlong (to_double v) y)) (double_of_Z (15 - 3 - 1))).
Definition alg_utm_y2lat : AlgFunction := fun v ref =>
  let? x := reference ref in of_double (unbiased_round pow (fst (converted xy_to_latlong x (to_double v))) (double_of_Z (15 - 2 - 1))).

Definition is_digit (c : Z) : bool := (48 <=? c) && (c <=? 57).
(** names of numbers; the cast throws where the text is empty or too large *)
Definition by_number (f : Z -> bytes) (v : DCCLMessageVal) : result AlgExn DCCLMessageVal :=
  if forallb is_digit (to_string v) then
    match lexical_cast_uint (to_string v) with Some id => of_string (f (s32 id)) | None => Err AlgThrow end
  else Ok v.
Definition alg_modem_id2name (m : ModemIdConvert) : AlgFunction := fun v _ => by_number (fun id => get_name_from_id id m) v.
Definition alg_modem_id2type (m : ModemIdConvert) : AlgFunction := fun v _ => by_number (fun id => get_type_from_id id m) v.
Definition alg_name2modem_id (m : ModemIdConvert) : AlgFunction := fun v _ =>
  let? id := defined (get_id_from_name (to_string v) m) in of_string (as_string id).

(** [MOOSTranslator::initialize]; [file]: the lookup file where a path is given; [geodesy_ok]: the origin is given and [Initialise] succeeds *)
Definition initialize (file : option (option (list bytes))) (origin_given geodesy_ok : bool) (m : ModemIdConvert) (p : DCCLAlgorithmPerformer)
  : ModemIdConvert * DCCLAlgorithmPerformer :=
  let p := add_algorithm (B "power_to_dB") alg_power_to_dB p in
  let p := add_algorithm (B "dB_to_power") alg_dB_to_power p in
  let p := add_adv_algorithm (B "TSD_to_soundspeed") alg_TSD_to_soundspeed p in
  let p := add_algorithm (B "to_lower") alg_to_lower p in
  let p := add_algorithm (B "to_upper") alg_to_upper p in
  let p := add_algorithm (B "angle_0_360") alg_angle_0_360 p in
  let p := add_algorithm (B "angle_-180_180") alg_angle_n180_180 p in
  let p := add_algorithm (B "lat2hemisphere_initial") alg_lat2hemisphere_initial p in
  let p := add_algorithm (B "lon2hemisphere_initial") alg_lon2hemisphere_initial p in
  let p := add_algorithm (B "lat2nmea_lat") alg_lat2nmea_lat p in
  let p := add_algorithm (B "lon2nmea_lon") alg_lon2nmea_lon p in
  let p := add_algorithm (B "unix_time2nmea_time") alg_unix_time2nmea_time p in
  let p := add_algorithm (B "abs") alg_abs p in
  let p := add_adv_algorithm (B "add") alg_add p in
  let p := add_adv_algorithm (B "subtract") alg_subtract p in
  let '(m, p) :=
    match file with
    | None => (m, p)
    | Some lines =>
        let m := read_lookup_file lines m in
        (m, add_algorithm (B "name2modem_id") (alg_name2modem_id m)
              (add_algorithm (B "modem_id2type") (alg_modem_id2type m) (add_algorithm (B "modem_id2name") (alg_modem_id2name m) p)))
    end in
  (m, if origin_given && geodesy_ok then
        add_adv_algorithm (B "utm_y2lat") alg_utm_y2lat (add_adv_algorithm (B "utm_x2lon") alg_utm_x2lon
          (add_adv_algorithm (B "lon2utm_x") alg_lon2utm_x (add_adv_algorithm (B "lat2utm_y") alg_lat2utm_y p)))
      else p).

End Algorithms.
