(* ===== verification/AbcFrontSeat.v ===== *)
(** * share/examples/moos/abc_frontseat_driver and apps/moos/abc_frontseat_simulator:
      the example vehicle

    The driver is an instance of the interface of [FrontSeat]; the simulator
    reads the lines it writes, follows the commanded course and reports its
    position every second. *)

From Stdlib Require Import SpecFloat.
From stdpp Require Import gmap.
From S2P Require Import Prelude AssocList HexCodec Double Time As Proto Nmea UdpDriver Prog DriverBase Abc AbcLink Seawater FrontSeatData FrontSeat MessageVal.
#[local] Open Scope prog_scope.

(** ** The driver *)

Record ABCFrontSeatConfig : Type := MkAbcFsConfig { start_lat : double; start_lon : double; start_duration : Z }.

Record AbcFrontSeat : Type := MkAbcFs {
  af_providing_data : bool;
  af_last_data_time : double;
  af_state : FrontSeatState;
  af_last_request : CommandRequest
}.

Definition empty_command : CommandRequest := MkRequest None None None None None None.
Definition new_abc_frontseat : AbcFrontSeat := MkAbcFs false (double_of_Z 0) FRONTSEAT_NOT_CONNECTED empty_command.

(** the constructor waits for the connection, for ten seconds at most *)
Fixpoint wait_for_connection (timeout : nat) (polls : list bool) : list bool :=
  match timeout, polls with
  | S n, false :: polls => wait_for_connection n polls
  | _, _ => polls
  end.

(** what the TCP client delivers in a round *)
Record AbcFsIn : Type := MkAbcFsIn { tcp_active : bool; tcp_lines : list bytes }.

Definition set_af_state (s : FrontSeatState) (d : AbcFrontSeat) : AbcFrontSeat := MkAbcFs (af_providing_data d) (af_last_data_time d) s (af_last_request d).
Definition set_af_data (p : bool) (t : double) (d : AbcFrontSeat) : AbcFrontSeat := MkAbcFs p t (af_state d) (af_last_request d).
Definition set_af_request (c : CommandRequest) (d : AbcFrontSeat) : AbcFrontSeat := MkAbcFs (af_providing_data d) (af_last_data_time d) (af_state d) c.

Definition allowed_skew : Z := 10.

Section Driver.
Context {TX : BoostText} {TR : BoostTrim} {LC : LexicalCast} {LN : LexicalNumbers} {VT : ValText} {GE : Geodesy}.
Variables (cfg : iFrontSeatConfig) (acfg : ABCFrontSeatConfig).

Abbreviation afprog := (prog AbcFrontSeat FsEvent FsExn).

Definition af_write (s : bytes) : afprog unit := pemit (RawTo (MkRaw s [])) ;; pemit (WriteVehicle (s ++ CR_NL)).

Definition start_line : bytes :=
  render (B "START") [(B "LAT", text_prec 6 (start_lat acfg)); (B "LON", text_prec 6 (start_lon acfg)); (B "DURATION", as_string (start_duration acfg))].

Definition check_connection_state (active : bool) : afprog unit :=
  if negb active then pthrow Died
  else
    let! s := pread af_state in
    pwhen (bool_decide (s = FRONTSEAT_NOT_CONNECTED)) (pmod (set_af_state FRONTSEAT_IDLE) ;; af_write start_line).

Definition ctrl_state (s : bytes) : FrontSeatState :=
  if bool_decide (s = B "PAYLOAD") then FRONTSEAT_ACCEPTING_COMMANDS
  else if bool_decide (s = B "AUV") then FRONTSEAT_IN_CONTROL else FRONTSEAT_IDLE.

Definition nav_status (p : Parsed) : NodeStatus :=
  let real (k : bytes) := Some (as_double (field k p)) in
  compute_missing_status cfg
    (MkNodeStatus None None None (Some (MkGeodetic (real (B "LAT")) (real (B "LON")) (real (B "DEPTH")) None None None)) None
      (Some (MkEuler None None (real (B "HEADING")) None None None None None None)) (real (B "SPEED")) None).

Definition af_process_receive (now : double) (s : bytes) : afprog unit :=
  pemit (RawFrom (MkRaw s [])) ;;
  match parse_in s with
  | Err _ => pthrow StdException
  | Ok p =>
      let key := field (B "KEY") p in
      if bool_decide (key = B "CTRL") then pmod (set_af_state (ctrl_state (field (B "STATE") p)))
      else if bool_decide (key = B "NAV") then
        pemit (DataFrom (MkData (Some (nav_status p)) None None None None)) ;; pmod (set_af_data true now)
      else if bool_decide (key = B "CMD") then
        let! last := pread af_last_request in
        pwhen (response_requested last) (pemit (Response (MkResponse (bool_decide (field (B "RESULT") p = B "OK")) (request_id last) None None)))
      else pret tt
  end.

(** exceptions of a line are logged *)
Definition af_line (now : double) (line : bytes) : afprog unit :=
  pcatch (af_process_receive now (boost_trim line)) (fun x => match x with StdException => Some (pret tt) | _ => None end).
Definition af_try_receive (now : double) (lines : list bytes) : afprog unit := pfor lines (af_line now).

Definition af_loop (now : double) (i : AbcFsIn) : afprog unit :=
  check_connection_state (tcp_active i) ;;
  af_try_receive now (tcp_lines i) ;;
  pmod (fun d => if dlt (dadd (af_last_data_time d) (double_of_Z allowed_skew)) now then set_af_data false (af_last_data_time d) d else d).

Definition course_line (c : DesiredCourse) : bytes :=
  render (B "CMD") [(B "HEADING", text_prec 6 (value (dc_heading c))); (B "SPEED", text_prec 6 (value (dc_speed c))); (B "DEPTH", text_prec 6 (value (dc_depth c)))].

Definition af_send_command (command : CommandRequest) : afprog unit :=
  match cr_desired_course command with
  | Some c => af_write (course_line c) ;; pmod (set_af_request command)
  | None => pret tt
  end.

Definition abc_frontseat : FrontSeatDriver AbcFrontSeat AbcFsIn := {|
  frontseat_state := af_state;
  frontseat_providing_data := af_providing_data;
  driver_loop now i _ := af_loop now i;
  send_command_to_frontseat _ c := af_send_command c;
  send_data_to_frontseat _ _ := pret tt;
  send_raw_to_frontseat _ r := af_write (fr_raw r)
|}.
#[local] Existing Instance abc_frontseat.

End Driver.

(** ** The simulator *)

Record Simulator : Type := MkSimulator {
  datum_lat : double; datum_lon : double; sim_duration : Z;
  current_x : double; current_y : double; current_z : double; current_v : double; current_hdg : double;
  sim_i : Z; time_in_mission : Z
}.

Definition zero : double := double_of_Z 0.
Definition new_simulator : Simulator := MkSimulator S754_nan S754_nan 0 zero zero zero zero zero 0 0.
Definition sim_started (s : Simulator) : bool := negb (is_nan (datum_lat s)) && negb (is_nan (datum_lon s)).

Definition has (k : bytes) (p : Parsed) : bool := match p !! k with Some _ => true | None => false end.

Section Simulator.
Context {TX : BoostText} {TR : BoostTrim} {LC : LexicalCast} {LN : LexicalNumbers} {VT : ValText}.
(** of the C library, and [CMOOSGeodesy] with the datum it was initialized with *)
Variables (sin cos : double -> double) (UTM2LatLong : double -> double -> double -> double -> double * double).

Definition sim_command (p : Parsed) (s : Simulator) : Simulator * list bytes :=
  if has (B "HEADING") p && has (B "SPEED") p && has (B "DEPTH") p then
    (MkSimulator (datum_lat s) (datum_lon s) (sim_duration s) (current_x s) (current_y s)
       (SFopp (as_double (field (B "DEPTH") p))) (as_double (field (B "SPEED") p)) (as_double (field (B "HEADING") p)) (sim_i s) (time_in_mission s),
     [B "CMD,RESULT:OK" ++ CR_NL])
  else (s, [B "CMD,RESULT:ERROR" ++ CR_NL]).

Definition sim_start (p : Parsed) (s : Simulator) : Simulator * list bytes :=
  if has (B "LAT") p && has (B "LON") p && has (B "DURATION") p then
    (MkSimulator (as_double (field (B "LAT") p)) (as_double (field (B "LON") p)) (as_int (field (B "DURATION") p))
       (current_x s) (current_y s) (current_z s) (current_v s) (current_hdg s) (sim_i s) 0,
     [B "CTRL,STATE:PAYLOAD" ++ CR_NL])
  else (s, []).

(** a line of the payload, and what the simulator writes *)
Definition sim_line (data : bytes) (s : Simulator) : Simulator * list bytes :=
  match parse_in (boost_trim data) with
  | Err _ => (s, [])
  | Ok p =>
      let key := field (B "KEY") p in
      if sim_started s && bool_decide (key = B "CMD") then sim_command p s
      else if bool_decide (key = B "START") then sim_start p s
      else (s, [])
  end.

Definition nav_line (lat lon : double) (s : Simulator) : bytes :=
  render (B "NAV") [(B "LAT", text_prec 10 lat); (B "LON", text_prec 10 lon); (B "DEPTH", text_prec 10 (SFopp (current_z s)));
                    (B "HEADING", text_prec 10 (current_hdg s)); (B "SPEED", text_prec 10 (current_v s))] ++ CR_NL.

(** a second of the mission *)
Definition sim_second (s : Simulator) : Simulator * list bytes :=
  let t := time_in_mission s + 1 in
  let '(s, idle) :=
    if sim_started s && (sim_duration s <? t)
    then (MkSimulator S754_nan S754_nan (sim_duration s) (current_x s) (current_y s) (current_z s) (current_v s) (current_hdg s) 0 t, [B "CTRL,STATE:IDLE" ++ CR_NL])
    else (MkSimulator (datum_lat s) (datum_lon s) (sim_duration s) (current_x s) (current_y s) (current_z s) (current_v s) (current_hdg s) 0 t, []) in
  if sim_started s then
    let theta := ddiv (dmul (dsub (double_of_Z 90) (current_hdg s)) (lit 314 2)) (double_of_Z 180) in
    let x := dadd (current_x s) (dmul (current_v s) (cos theta)) in
    let y := dadd (current_y s) (dmul (current_v s) (sin theta)) in
    let s := MkSimulator (datum_lat s) (datum_lon s) (sim_duration s) x y (current_z s) (current_v s) (current_hdg s) 0 t in
    let '(lat, lon) := UTM2LatLong (datum_lat s) (datum_lon s) x y in
    (s, idle ++ [nav_line lat lon s])
  else (s, idle).

(** a millisecond of the loop *)
Definition sim_tick (s : Simulator) : Simulator * list bytes :=
  if sim_i s + 1 =? 1000 then sim_second s
  else (MkSimulator (datum_lat s) (datum_lon s) (sim_duration s) (current_x s) (current_y s) (current_z s) (current_v s) (current_hdg s) (sim_i s + 1) (time_in_mission s), []).

End Simulator.

(** ** Driver and simulator *)

(** the text of a number has neither blanks nor the characters of the syntax *)
Class RealText `{ValText} : Prop := { text_prec_chars : forall p x c, c ∈ text_prec p x -> 33 <= c /\ c <> 44 /\ c <> 58 }.

Section Course.
Context {TX : BoostText} {TXL : BoostTextLaws} {TR : BoostTrim} {TRL : BoostTrimLaws} {LC : LexicalCast} {LN : LexicalNumbers} {LD : LexicalDecimal} {VT : ValText} {RT : RealText} {GE : Geodesy} {MP : MoosParse}.
Variables (cfg : iFrontSeatConfig) (acfg : ABCFrontSeatConfig) (sin cos : double -> double) (UTM2LatLong : double -> double -> double -> double -> double * double).
#[local] Instance vehicle : FrontSeatDriver AbcFrontSeat AbcFsIn := abc_frontseat cfg acfg.

Lemma real_clean p x : clean (text_prec p x).
Proof. split; intros Hc; by destruct (text_prec_chars p x _ Hc) as (? & ? & ?). Qed.
Lemma real_visible p x : visible (text_prec p x).
Proof. intros c Hc. by destruct (text_prec_chars p x c Hc). Qed.

(** a line with constant keys is parsed to its pairs *)
Definition plain_key (k : bytes) : Prop := clean k /\ visible k /\ k <> [].
Lemma key_plain k : negb (bool_decide (k = [])) && forallb (fun c => (33 <=? c) && negb ((c =? 44) || (c =? 58))) k = true -> plain_key k.
Proof.
  intros [Hn H]%andb_true_iff. apply negb_true_iff, bool_decide_eq_false in Hn. rewrite forallb_forall in H.
  split; [split; intros Hc; apply list_elem_of_In, H in Hc; lia|]. split; [|done]. intros c Hc. apply list_elem_of_In, H in Hc. lia.
Qed.

Lemma read_line key kvs : plain_key key -> Forall (fun kv => plain_key (fst kv) /\ clean (snd kv) /\ visible (snd kv)) kvs ->
  boost_trim (render key kvs ++ CR_NL) = render key kvs /\
  exists p, parse_in (render key kvs) = Ok p /\ field (B "KEY") p = key /\ forall k v, k <> B "KEY" -> assoc k kvs = Some v -> field k p = v /\ has k p = true.
Proof.
  intros (Hc & Hv & Hn) Hk. destruct (line_parsed key kvs Hn Hc) as (Ht & p & Hp & Hl); [|done| |].
  - eapply Forall_impl; [exact Hk|]. intros [k v] ((? & _ & _) & ? & _). done.
  - eapply Forall_impl; [exact Hk|]. intros [k v] ((_ & ? & _) & _ & ?). done.
  - split; [done|]. exists p. split; [done|]. split; [unfold field; by rewrite Hl, bool_decide_eq_true_2|]. intros k v Hne Ha. unfold field, has. rewrite Hl, bool_decide_eq_false_2, Ha by done. done.
Qed.

Ltac plain_pairs := repeat (apply Forall_cons; split; [split; [apply key_plain; reflexivity | split; [apply real_clean | apply real_visible]]|]); try (by apply Forall_nil).

Lemma course_read c : exists p, parse_in (boost_trim (course_line c ++ CR_NL)) = Ok p /\ field (B "KEY") p = B "CMD" /\
  (has (B "HEADING") p = true /\ has (B "SPEED") p = true /\ has (B "DEPTH") p = true) /\
  field (B "HEADING") p = text_prec 6 (value (dc_heading c)) /\ field (B "SPEED") p = text_prec 6 (value (dc_speed c)) /\ field (B "DEPTH") p = text_prec 6 (value (dc_depth c)).
Proof.
  unfold course_line. match goal with |- context [render ?k ?l] => destruct (read_line k l) as (Ht & p & Hp & Hk & Hl); [apply key_plain; reflexivity | | rewrite Ht; exists p; split; [exact Hp|]; split; [exact Hk|]] end.
  - plain_pairs.
  - destruct (Hl (B "HEADING") _ ltac:(done) eq_refl), (Hl (B "SPEED") _ ltac:(done) eq_refl), (Hl (B "DEPTH") _ ltac:(done) eq_refl). done.
Qed.

Lemma nav_read lat lon s : exists p, parse_in (boost_trim (nav_line lat lon s)) = Ok p /\ field (B "KEY") p = B "NAV" /\
  field (B "HEADING") p = text_prec 10 (current_hdg s) /\ field (B "SPEED") p = text_prec 10 (current_v s) /\ field (B "DEPTH") p = text_prec 10 (SFopp (current_z s)).
Proof.
  unfold nav_line. match goal with |- context [render ?k ?l] => destruct (read_line k l) as (Ht & p & Hp & Hk & Hl); [apply key_plain; reflexivity | | rewrite Ht; exists p; split; [exact Hp|]; split; [exact Hk|]] end.
  - plain_pairs.
  - destruct (Hl (B "HEADING") _ ltac:(done) eq_refl), (Hl (B "SPEED") _ ltac:(done) eq_refl), (Hl (B "DEPTH") _ ltac:(done) eq_refl). done.
Qed.

Lemma ok_read : exists p, parse_in (boost_trim (B "CMD,RESULT:OK" ++ CR_NL)) = Ok p /\ field (B "KEY") p = B "CMD" /\ field (B "RESULT") p = B "OK".
Proof.
  change (B "CMD,RESULT:OK") with (render (B "CMD") [(B "RESULT", B "OK")]).
  match goal with |- context [render ?k ?l] => destruct (read_line k l) as (Ht & p & Hp & Hk & Hl); [apply key_plain; reflexivity | | rewrite Ht; exists p; split; [exact Hp|]; split; [exact Hk|]] end.
  - apply Forall_cons; split; [|apply Forall_nil; done]. destruct (key_plain (B "OK") eq_refl) as (? & ? & _). split; [apply key_plain; reflexivity | done].
  - by destruct (Hl (B "RESULT") _ ltac:(done) eq_refl).
Qed.

(** numbers that survive both precisions *)
Definition survives (x : double) : Prop := as_double (text_prec 6 x) = x /\ as_double (text_prec 10 x) = x.

(** a simulator on its way, at the end of a second *)
Record underway (s : Simulator) : Prop := MkUnderway { uw_started : sim_started s = true; uw_time : time_in_mission s + 1 <= sim_duration s; uw_second : sim_i s = 999 }.

Lemma SFopp_opp x : SFopp (SFopp x) = x.
Proof. destruct x as [[]|[]| |[] ? ?]; done. Qed.

(** the simulator follows the course and reports it *)
Lemma simulator_follows c s : underway s -> survives (value (dc_heading c)) -> survives (value (dc_speed c)) -> survives (value (dc_depth c)) ->
  exists s1 s2 lat lon, sim_line (course_line c ++ CR_NL) s = (s1, [B "CMD,RESULT:OK" ++ CR_NL]) /\
    sim_tick sin cos UTM2LatLong s1 = (s2, [nav_line lat lon s2]) /\
    current_hdg s2 = value (dc_heading c) /\ current_v s2 = value (dc_speed c) /\ SFopp (current_z s2) = value (dc_depth c).
Proof.
  intros [Hst Ht Hi] [Hh _] [Hv _] [Hz _]. destruct (course_read c) as (p & Hp & Hk & (H1 & H2 & H3) & F1 & F2 & F3).
  set (s1 := MkSimulator (datum_lat s) (datum_lon s) (sim_duration s) (current_x s) (current_y s) (SFopp (value (dc_depth c))) (value (dc_speed c)) (value (dc_heading c)) (sim_i s) (time_in_mission s)).
  assert (E1 : sim_line (course_line c ++ CR_NL) s = (s1, [B "CMD,RESULT:OK" ++ CR_NL])).
  { unfold sim_line. rewrite Hp, Hk, Hst, bool_decide_eq_true_2 by done. cbn [andb]. unfold sim_command. rewrite H1, H2, H3. cbn [andb]. rewrite F1, F2, F3, Hh, Hv, Hz. done. }
  assert (Hs1 : sim_started s1 = true) by exact Hst. exists s1. unfold sim_tick. change (sim_i s1) with (sim_i s). rewrite Hi. cbn [Z.add Z.eqb Pos.add Pos.eqb Pos.succ Pos.add_carry]. unfold sim_second.
  change (time_in_mission s1) with (time_in_mission s). change (sim_duration s1) with (sim_duration s). rewrite Hs1, (proj2 (Z.ltb_ge _ _) Ht). cbn [andb].
  change (sim_started (MkSimulator _ _ _ _ _ _ _ _ _ _)) with (sim_started s) at 1. rewrite Hst. cbn [datum_lat datum_lon].
  match goal with |- context [UTM2LatLong ?a ?b ?x ?y] => destruct (UTM2LatLong a b x y) as [lat lon] end.
  eexists _, lat, lon. split; [exact E1|]. split; [reflexivity|]. cbn. by rewrite SFopp_opp.
Qed.

(** The interface in the command state, the example driver and the simulated vehicle: a
    requested course is written as one line; the vehicle, underway, answers it with success and
    after its second reports the same heading, speed and depth; the driver answers the request by
    its id and publishes a status with these values. The values are numbers that survive their text.
    *)
Lemma abc_vehicle_follows_course (f : FrontSeatInterfaceBase AbcFrontSeat) (s : Simulator) (now now1 now2 : double) (msg : bytes) (c : DesiredCourse) :
  state f = INTERFACE_COMMAND -> cr_desired_course (parse_command msg) = Some c -> response_requested (parse_command msg) = true ->
  underway s -> survives (value (dc_heading c)) -> survives (value (dc_speed c)) -> survives (value (dc_depth c)) ->
  exists f1 line s1 answer s2 report d1 d2 status,
    handle_mail_command_request now msg f = (f1, [RawTo (MkRaw line []); WriteVehicle (line ++ CR_NL)], Ok tt) /\
    sim_line (line ++ CR_NL) s = (s1, [answer]) /\ sim_tick sin cos UTM2LatLong s1 = (s2, [report]) /\
    af_line cfg now1 answer (driver f1) = (d1, [RawFrom (MkRaw (boost_trim answer) []); Response (MkResponse true (request_id (parse_command msg)) None None)], Ok tt) /\
    af_line cfg now2 report d1 = (d2, [RawFrom (MkRaw (boost_trim report) []); DataFrom (MkData (Some status) None None None None)], Ok tt) /\
    af_providing_data d2 = true /\ e_heading (pose status) = Some (value (dc_heading c)) /\ ns_speed status = Some (value (dc_speed c)) /\ g_depth (global_fix status) = Some (value (dc_depth c)).
Proof.
  intros Hs Hc Hr Hu Hh Hv Hz. destruct (simulator_follows c s Hu Hh Hv Hz) as (s1 & s2 & lat & lon & E1 & E2 & C1 & C2 & C3).
  destruct ok_read as (pk & Pk & Kk & Rk). destruct (nav_read lat lon s2) as (pn & Pn & Kn & N1 & N2 & N3).
  eexists _, (course_line c), s1, _, s2, (nav_line lat lon s2), _, _, _. split; [|split; [exact E1|split; [exact E2|split; [|split; [|split; [|split; [|split]]]]]]].
  - unfold handle_mail_command_request. rewrite pbind_read, Hs, bool_decide_eq_true_2 by done. cbn [pwhen]. unfold on_driver. cbn [send_command_to_frontseat vehicle abc_frontseat]. unfold af_send_command.
    rewrite Hc. reflexivity.
  - unfold af_line, pcatch, af_process_receive. cbn [driver set_driver]. unfold pbind at 1. cbn [pemit]. rewrite Pk, Kk. cbn [bool_decide]. rewrite !bool_decide_eq_false_2 by done. rewrite bool_decide_eq_true_2 by done.
    rewrite pbind_read. cbn [af_last_request set_af_request]. rewrite Hr, Rk, bool_decide_eq_true_2 by done. reflexivity.
  - unfold af_line, pcatch, af_process_receive. unfold pbind at 1. cbn [pemit]. rewrite Pn, Kn. rewrite bool_decide_eq_false_2 by done. rewrite bool_decide_eq_true_2 by done. reflexivity.
  - reflexivity.
  - unfold nav_status, compute_missing_status. cbn [ns_global_fix ns_local_fix]. destruct (latlong2localutm _ _). cbn [ns_pose pose default from_option id e_heading]. rewrite N1, C1. f_equal. apply Hh.
  - unfold nav_status, compute_missing_status. cbn [ns_global_fix ns_local_fix]. destruct (latlong2localutm _ _). cbn [ns_speed]. rewrite N2, C2. f_equal. apply Hv.
  - unfold nav_status, compute_missing_status. cbn [ns_global_fix ns_local_fix]. destruct (latlong2localutm _ _). cbn [ns_global_fix global_fix default from_option id g_depth]. rewrite N3, C3. f_equal. apply Hz.
Qed.

End Course.

(** ** Evaluation *)

Module AbcFsWitness.
#[local] Existing Instances Sample.text Sample.text_laws NmeaWitness.trim NmeaWitness.trim_laws Reader.cast Reader.numbers Reader.decimal.

#[local] Instance vt : ValText := {|
  text_fixed _ x := as_string (double_to_Z x); text_prec _ x := as_string (double_to_Z x); log10_abs x := x;
  numeric_cast_bool x := Some (negb (deq x (double_of_Z 0))); numeric_cast_bool_long z := if z =? 0 then Some false else if z =? 1 then Some true else None;
  numeric_cast_long x := Some (double_to_Z x)
|}.
#[local] Instance rt : RealText.
Proof. constructor. intros p x c Hc. apply as_string_digits in Hc. lia. Qed.
#[local] Instance flat : Geodesy := {| utm2latlong x y := (y, x); latlong2localutm lat lon := (lat, lon) |}.

Definition course : DesiredCourse := MkCourse None (Some (double_of_Z 45)) (Some (double_of_Z 2)) (Some (double_of_Z 30)) None None None None.
#[local] Instance mail : MoosParse := {|
  parse_command _ := MkRequest (Some course) (Some true) (Some 12) None None None; parse_data _ := empty_data; parse_raw s := MkRaw s [] |}.

Definition cfg : iFrontSeatConfig := MkIfsConfig true (double_of_Z 10) (double_of_Z 10) 3 (B "abc") false (B "iFrontSeat").
Definition acfg : ABCFrontSeatConfig := MkAbcFsConfig (double_of_Z 42) (double_of_Z 10) 600.
#[local] Instance abc : FrontSeatDriver AbcFrontSeat AbcFsIn := abc_frontseat cfg acfg.

(** the simulator started by the line of the driver, after 999 milliseconds *)
Definition still (lat lon x y : double) : double * double := (lat, lon).
Definition started : Simulator := fst (sim_line (start_line acfg ++ CR_NL) new_simulator).
Definition waiting : Simulator := Nat.iter 999 (fun s => fst (sim_tick (fun x => x) (fun x => x) still s)) started.
Definition commanding : FrontSeatInterfaceBase AbcFrontSeat :=
  MkFs HELM_DRIVE INTERFACE_COMMAND (double_of_Z 1000) ERROR_FRONTSEAT_NONE ERROR_HELM_NONE (set_af_state FRONTSEAT_ACCEPTING_COMMANDS new_abc_frontseat).

Example abc_vehicle_follows_course_witness : exists f1 line s1 answer s2 report d1 d2 status,
  handle_mail_command_request (double_of_Z 2000) (B "course") commanding = (f1, [RawTo (MkRaw line []); WriteVehicle (line ++ CR_NL)], Ok tt) /\
  sim_line (line ++ CR_NL) waiting = (s1, [answer]) /\ sim_tick (fun x => x) (fun x => x) still s1 = (s2, [report]) /\
  af_line cfg (double_of_Z 2001) answer (driver f1) = (d1, [RawFrom (MkRaw (boost_trim answer) []); Response (MkResponse true 12 None None)], Ok tt) /\
  af_line cfg (double_of_Z 2001) report d1 = (d2, [RawFrom (MkRaw (boost_trim report) []); DataFrom (MkData (Some status) None None None None)], Ok tt) /\
  af_providing_data d2 = true /\ e_heading (pose status) = Some (double_of_Z 45) /\ ns_speed status = Some (double_of_Z 2) /\ g_depth (global_fix status) = Some (double_of_Z 30).
Proof.
  assert (Hu : underway waiting) by (constructor; vm_compute; [reflexivity | discriminate | reflexivity]).
  assert (Hv : survives (value (dc_heading course)) /\ survives (value (dc_speed course)) /\ survives (value (dc_depth course))) by (repeat split; vm_compute; reflexivity).
  destruct Hv as (H1 & H2 & H3).
  exact (abc_vehicle_follows_course cfg acfg (fun x => x) (fun x => x) still commanding waiting (double_of_Z 2000) (double_of_Z 2001) (double_of_Z 2001) (B "course") course
    eq_refl eq_refl eq_refl Hu H1 H2 H3).
Qed.

(** a first round of the driver on a new connection starts the simulator, and the answer lets it accept commands *)
Example abc_connects :
  let '(d, ev, _) := af_loop cfg acfg (double_of_Z 5) (MkAbcFsIn true []) new_abc_frontseat in
  ev = [RawTo (MkRaw (B "START,LAT:42,LON:10,DURATION:600") []); WriteVehicle (B "START,LAT:42,LON:10,DURATION:600" ++ CR_NL)] /\
  snd (sim_line (B "START,LAT:42,LON:10,DURATION:600" ++ CR_NL) new_simulator) = [B "CTRL,STATE:PAYLOAD" ++ CR_NL] /\
  af_state (fst (fst (af_loop cfg acfg (double_of_Z 6) (MkAbcFsIn true [B "CTRL,STATE:PAYLOAD" ++ CR_NL]) d))) = FRONTSEAT_ACCEPTING_COMMANDS.
Proof. vm_compute. repeat split. Qed.

End AbcFsWitness.
