(* ===== verification/IverDriver.v ===== *)
(** * moos/frontseat/iver/iver_driver.{h,cpp}: the driver of the Iver vehicles

    The driver asks the vehicle for its state once in a round and reads the
    sentences it answers with: [$OSI] begins a status, [$C] (the compass)
    completes and sends it. Conversions of boost::units, the calendar of boost
    and the text of numbers are interfaces. *)

From Stdlib Require Import SpecFloat.
From S2P Require Import Prelude HexCodec Double Time As Proto Nmea Prog Seawater FrontSeatData FrontSeat MessageVal.
#[local] Open Scope prog_scope.

(** ** State *)

Record IverFrontSeatConfig : Type := MkIverConfig { has_ntp_serial_port : bool; max_pitch_angle_degrees : Z; remote_helm_version_major : Z }.

Record IverFrontSeat : Type := MkIver {
  iv_providing_data : bool;
  iv_last_data_time : double;
  iv_state : FrontSeatState;
  iv_reported_mode : IverMissionMode;
  iv_status : NodeStatus
}.
Definition new_iver : IverFrontSeat := MkIver false (double_of_Z 0) FRONTSEAT_NOT_CONNECTED IVER_MODE_UNKNOWN empty_node_status.

Definition set_iv_data (p : bool) (t : double) (d : IverFrontSeat) : IverFrontSeat := MkIver p t (iv_state d) (iv_reported_mode d) (iv_status d).
Definition set_iv_mode (s : FrontSeatState) (m : IverMissionMode) (d : IverFrontSeat) : IverFrontSeat := MkIver (iv_providing_data d) (iv_last_data_time d) s m (iv_status d).
Definition set_iv_status (n : NodeStatus) (d : IverFrontSeat) : IverFrontSeat := MkIver (iv_providing_data d) (iv_last_data_time d) (iv_state d) (iv_reported_mode d) n.

(** [mutable_global_fix] and [mutable_pose] *)
Definition on_fix (f : GeodeticCoordinate -> GeodeticCoordinate) (s : NodeStatus) : NodeStatus :=
  MkNodeStatus (ns_time s) (ns_name s) (ns_modem_id s) (Some (f (global_fix s))) (ns_local_fix s) (ns_pose s) (ns_speed s) (ns_speed_time_lag s).
Definition on_pose (f : EulerAngles -> EulerAngles) (s : NodeStatus) : NodeStatus :=
  MkNodeStatus (ns_time s) (ns_name s) (ns_modem_id s) (ns_global_fix s) (ns_local_fix s) (Some (f (pose s))) (ns_speed s) (ns_speed_time_lag s).
Definition set_time_only (t : double) : NodeStatus := MkNodeStatus (Some t) None None None None None None None.
Definition set_speed (v : double) (s : NodeStatus) : NodeStatus :=
  MkNodeStatus (ns_time s) (ns_name s) (ns_modem_id s) (ns_global_fix s) (ns_local_fix s) (ns_pose s) (Some v) (ns_speed_time_lag s).
Definition set_lat (v : double) (g : GeodeticCoordinate) : GeodeticCoordinate := MkGeodetic (Some v) (g_lon g) (g_depth g) (g_altitude g) (g_lat_source g) (g_lon_source g).
Definition set_lon (v : double) (g : GeodeticCoordinate) : GeodeticCoordinate := MkGeodetic (g_lat g) (Some v) (g_depth g) (g_altitude g) (g_lat_source g) (g_lon_source g).
Definition set_depth (v : double) (g : GeodeticCoordinate) : GeodeticCoordinate := MkGeodetic (g_lat g) (g_lon g) (Some v) (g_altitude g) (g_lat_source g) (g_lon_source g).
Definition set_altitude (v : double) (g : GeodeticCoordinate) : GeodeticCoordinate := MkGeodetic (g_lat g) (g_lon g) (g_depth g) (Some v) (g_lat_source g) (g_lon_source g).
Definition set_heading (v : double) (e : EulerAngles) : EulerAngles :=
  MkEuler (e_roll e) (e_pitch e) (Some v) (e_roll_rate e) (e_pitch_rate e) (e_heading_rate e) (e_roll_rate_time_lag e) (e_pitch_rate_time_lag e) (e_heading_rate_time_lag e).
Definition set_roll (v : double) (e : EulerAngles) : EulerAngles :=
  MkEuler (Some v) (e_pitch e) (e_heading e) (e_roll_rate e) (e_pitch_rate e) (e_heading_rate e) (e_roll_rate_time_lag e) (e_pitch_rate_time_lag e) (e_heading_rate_time_lag e).
Definition set_pitch (v : double) (e : EulerAngles) : EulerAngles :=
  MkEuler (e_roll e) (Some v) (e_heading e) (e_roll_rate e) (e_pitch_rate e) (e_heading_rate e) (e_roll_rate_time_lag e) (e_pitch_rate_time_lag e) (e_heading_rate_time_lag e).

(** ** Modes *)

(** the numbers of the enumeration are characters *)
Definition mode_of (c : Z) : option IverMissionMode :=
  if c =? 78 then Some IVER_MODE_NORMAL
  else if c =? 83 then Some IVER_MODE_STOPPED
  else if c =? 80 then Some IVER_MODE_PARKING
  else if c =? 77 then Some IVER_MODE_MANUAL_OVERRIDE
  else if c =? 109 then Some IVER_MODE_MANUAL_PARKING
  else if c =? 65 then Some IVER_MODE_SERVO_MODE
  else if c =? 87 then Some IVER_MODE_MISSION_MODE
  else None.

Definition mode_string (s : bytes) : IverMissionMode := match s with c :: _ => default IVER_MODE_UNKNOWN (mode_of c) | [] => IVER_MODE_UNKNOWN end.

Definition mode_state (m : IverMissionMode) : FrontSeatState :=
  match m with
  | IVER_MODE_UNKNOWN | IVER_MODE_STOPPED => FRONTSEAT_IDLE
  | IVER_MODE_PARKING => FRONTSEAT_IN_CONTROL
  | _ => FRONTSEAT_ACCEPTING_COMMANDS
  end.

(** boost::units: to and from the units of the messages *)
Class IverUnits : Type := {
  from_knots : double -> double; to_knots : double -> double;
  from_feet : double -> double; to_feet : double -> double
}.

(** what the serial ports deliver in a round *)
Record IverIn : Type := MkIverIn { iv_lines : list bytes }.

Definition iver_allowed_skew : Z := 10.

Section Iver.
Context {TX : BoostText} {TR : BoostTrim} {LC : LexicalCast} {LN : LexicalNumbers} {VT : ValText} {GE : Geodesy} {IU : IverUnits}.
Variables (cfg : iFrontSeatConfig) (icfg : IverFrontSeatConfig) (pow : double -> double -> double) (fuel : nat).

Abbreviation iprog := (prog IverFrontSeat FsEvent FsExn).

Definition iv_write (s : bytes) : iprog unit := pemit (RawTo (MkRaw s [])) ;; pemit (WriteVehicle (s ++ [13; 10])).

(** [message()] of a sentence, which is never empty here *)
Definition iv_write_sentence (fields : list bytes) : iprog unit :=
  match message fields with Ok m => iv_write m | Err _ => pthrow StdException end.

(** ** Receiving *)

(** [at] throws [std::out_of_range] *)
Definition iv_at (i : nat) (nmea : list bytes) : iprog bytes := match nmea !! i with Some f => pret f | None => pthrow StdException end.
Definition iv_double (i : nat) (nmea : list bytes) : iprog double := let! f := iv_at i nmea in pret (as_double f).
Definition upd (f : NodeStatus -> NodeStatus) : iprog unit := pmod (fun d => set_iv_status (f (iv_status d)) d).

Definition iv_rmc (nmea : list bytes) : iprog unit :=
  if (length nmea <? 12)%nat then pret tt     (* [bad_nmea_sentence], which is logged *)
  else pwhen (has_ntp_serial_port icfg) (match message_cr_nl nmea with Ok m => pemit (WriteClock m) | Err _ => pthrow StdException end).

Definition iv_osi (now : double) (nmea : list bytes) : iprog unit :=
  upd (fun _ => set_time_only now) ;;
  let! lat := iv_double 4 nmea in upd (on_fix (set_lat lat)) ;;
  let! lon := iv_double 5 nmea in upd (on_fix (set_lon lon)) ;;
  let! speed := iv_double 6 nmea in upd (set_speed (from_knots speed)) ;;
  let! mode := iv_at 2 nmea in
  pmod (set_iv_mode (mode_state (mode_string mode)) (mode_string mode)) ;;
  let! depth := iv_double 15 nmea in upd (on_fix (set_depth (from_feet depth))) ;;
  let! altitude := iv_double 9 nmea in upd (on_fix (set_altitude (from_feet altitude))) ;;
  let! heading := iv_double 14 nmea in upd (on_pose (set_heading heading)) ;;
  pemit (DataFrom (MkData None None None None (Some (mode_string mode)))).

Definition compass_delimiter (c : Z) : bool := bool_decide (c ∈ B "CPRTD").

Definition iv_compass (now : double) (first : bytes) : iprog unit :=
  let cfields := boost_split compass_delimiter first in
  let! roll := iv_double 3 cfields in upd (on_pose (set_roll roll)) ;;
  let! pitch := iv_double 2 cfields in upd (on_pose (set_pitch pitch)) ;;
  upd (compute_missing_status cfg) ;;
  let! d := pget in
  pemit (DataFrom (MkData (Some (iv_status d)) None None None None)) ;;
  pmod (set_iv_data true now).

Definition iv_process_receive (now : double) (s : bytes) : iprog unit :=
  pemit (RawFrom (MkRaw s [])) ;;
  match parse_nmea false s VALIDATE with
  | Err _ => pret tt
  | Ok nmea =>
      match sentence_id nmea with
      | None => pthrow StdException
      | Some id =>
          let! first := iv_at 0 nmea in
          if bool_decide (id = B "RMC") then iv_rmc nmea
          else if bool_decide (first = B "$OSI") then iv_osi now nmea
          else if bool_decide (take 2 first = B "$C") then iv_compass now first
          else pret tt
      end
  end.

Definition iv_line (now : double) (line : bytes) : iprog unit :=
  pcatch (iv_process_receive now (boost_trim line)) (fun x => match x with StdException => Some (pret tt) | _ => None end).
Definition iv_try_receive (now : double) (lines : list bytes) : iprog unit := pfor lines (iv_line now).

Definition iv_loop (now : double) (i : IverIn) : iprog unit :=
  iv_try_receive now (iv_lines i) ;;
  match parse_nmea false (B "$OSD,G,C,S,P,,,,") VALIDATE with Ok request_data => iv_write_sentence request_data | Err _ => pthrow StdException end ;;
  pmod (fun d => if dlt (dadd (iv_last_data_time d) (double_of_Z iver_allowed_skew)) now then set_iv_data false (iv_last_data_time d) d else d).

(** ** Commands *)

Definition tenths_precision_str (d : double) : bytes := text_fixed 1 (unbiased_round pow d (double_of_Z 1)).

(** a sentence of one field, without a checksum to check, with fields behind it *)
Definition sentence (first : bytes) (rest : list bytes) : list bytes := foldl (fun l f => nmea_push_back f l) [first] rest.

Definition iv_extra (c : IverExtraCommands) : iprog unit :=
  match ic_command c with
  | IVER_UNKNOWN_COMMAND => pret tt
  | START_MISSION =>
      match ic_mission c with
      | Some ((_ :: _) as mission) => iv_write_sentence (sentence (B "$OMSTART") [B "0"; B "0"; B "0"; B "0"; mission; []])
      | _ => pret tt
      end
  | STOP_MISSION => iv_write_sentence [B "$OMSTOP"; B "0"]
  end.

(** [None]: the loops that bring the heading into range do not end *)
Definition course_heading (h : double) : option double := h1 ← turn_down fuel (double_of_Z 360) h; turn_up fuel (double_of_Z 0) h1.

Definition course_fields (heading : double) (c : DesiredCourse) : list bytes :=
  sentence (B "$OMS")
    [tenths_precision_str heading;
     tenths_precision_str (if remote_helm_version_major icfg <? 5 then to_feet (value (dc_depth c)) else value (dc_depth c));
     tenths_precision_str (double_of_Z (max_pitch_angle_degrees icfg));
     tenths_precision_str (to_knots (value (dc_speed c)));
     B "5"].

Definition iv_send_command (command : CommandRequest) : iprog unit :=
  match cr_iver_command command with Some c => iv_extra c | None => pret tt end ;;
  match cr_desired_course command with
  | None => pret tt
  | Some c =>
      match course_heading (value (dc_heading c)) with
      | None => pthrow Undefined
      | Some h => iv_write_sentence (course_fields h c)
      end
  end.

Definition iver_driver : FrontSeatDriver IverFrontSeat IverIn := {|
  frontseat_state := iv_state;
  frontseat_providing_data := iv_providing_data;
  driver_loop now i _ := iv_loop now i;
  send_command_to_frontseat _ c := iv_send_command c;
  send_data_to_frontseat _ _ := pret tt;
  send_raw_to_frontseat _ r := iv_write (fr_raw r)
|}.
#[local] Existing Instance iver_driver.

(** ** Conversions *)

(** days since 1970 of a date of boost; [None] is an exception *)
Variable days_of : Z -> Z -> Z -> option Z.

Definition split_date (nmea_date : Z) : Z * Z * Z :=
  let '(d, m) := if 999999 <? nmea_date then (100000, 1000) else (10000, 100) in
  let day := Z.quot nmea_date d in
  let rest := nmea_date - day * d in
  let month := Z.quot rest m in
  (day, month, rest - month * m).

(** [None]: a conversion to an integer is undefined *)
Definition nmea_time_to_seconds (nmea_time : double) (nmea_date : Z) : option double :=
  hours ← int_cast (ddiv nmea_time (double_of_Z 10000));
  let t := dsub nmea_time (double_of_Z (hours * 10000)) in
  minutes ← int_cast (ddiv t (double_of_Z 100));
  let t := dsub t (double_of_Z (minutes * 100)) in
  seconds ← int_cast t;
  let micro_s := double_to_Z (dmul (dsub t (double_of_Z seconds)) (double_of_Z 1000000)) in
  let '(day, month, year) := split_date nmea_date in
  Some (match days_of (year + 2000) month day with
        | None => double_of_Z (-1)
        | Some days =>
            let us := ((hours * 60 + minutes) * 60 + seconds) * 1000000 + micro_s in
            let days := days + us / us_per_day in
            let us := us mod us_per_day in
            dadd (double_of_Z (days * 24 * 3600 + us / 1000000)) (ddiv (double_of_Z (us mod 1000000)) (double_of_Z 1000000))
        end).

Definition nmea_geo_to_degrees (nmea_geo : double) (hemi : Z) : double :=
  let deg_int := dfloor (ddiv nmea_geo (double_of_Z 100)) in
  let deg_frac := ddiv (dsub nmea_geo (dmul deg_int (double_of_Z 100))) (double_of_Z 60) in
  if (hemi =? 78) || (hemi =? 69) then dadd deg_int deg_frac
  else if (hemi =? 83) || (hemi =? 87) then SFopp (dadd deg_int deg_frac)
  else S754_nan.

End Iver.

(** ** A status of the vehicle *)

(** [boost::split] cuts at every character of the set *)
Class SplitAnyOf `{BoostText} : Prop := {
  boost_split_cut : forall p a c s, Forall (fun x => p x = false) a -> p c = true -> boost_split p (a ++ c :: s) = a :: boost_split p s
}.

Section IverStatus.
Context {TX : BoostText} {TXL : BoostTextLaws} {SA : SplitAnyOf} {TR : BoostTrim} {TRL : BoostTrimLaws} {LC : LexicalCast} {LN : LexicalNumbers} {VT : ValText} {GE : Geodesy} {IU : IverUnits}.
Variables (cfg : iFrontSeatConfig) (icfg : IverFrontSeatConfig) (pow : double -> double -> double) (fuel : nat).

(** a sentence of the vehicle with the white space around it *)
Lemma iver_sentence now fields text post d : well_formed false fields -> message fields = Ok text -> forallb is_space post = true ->
  iv_line cfg icfg now (text ++ post) d =
  pcatch (pemit (RawFrom (MkRaw text [])) ;;
          match sentence_id fields with
          | None => pthrow StdException
          | Some id =>
              let! first := iv_at 0 fields in
              if bool_decide (id = B "RMC") then iv_rmc icfg fields
              else if bool_decide (first = B "$OSI") then iv_osi now fields
              else if bool_decide (take 2 first = B "$C") then iv_compass cfg now first else pret tt
          end) (fun x => match x with StdException => Some (pret tt) | _ => None end) d.
Proof.
  intros Hw Hm Hp. unfold iv_line. rewrite (message_trimmed false fields text post Hw Hm Hp). unfold iv_process_receive.
  rewrite (parse_trimmed false VALIDATE fields text text Hw Hm); [done|].
  rewrite <- (message_trimmed false fields text [] Hw Hm eq_refl) at 2. by rewrite app_nil_r.
Qed.

Lemma iv_at_ok i fields f : fields !! i = Some f -> @iv_at i fields = pret f.
Proof. intros H. unfold iv_at. by rewrite H. Qed.

(** what [$OSI] stores *)
Definition osi_status (now : double) (fields : list bytes) : NodeStatus :=
  let real (i : nat) := as_double (default [] (fields !! i)) in
  MkNodeStatus (Some now) None None
    (Some (MkGeodetic (Some (real 4%nat)) (Some (real 5%nat)) (Some (from_feet (real 15%nat))) (Some (from_feet (real 9%nat))) None None)) None
    (Some (MkEuler None None (Some (real 14%nat)) None None None None None None)) (Some (from_knots (real 6%nat))) None.

Lemma osi_stored now fields d : (16 <= length fields)%nat ->
  iv_osi now fields d =
  (MkIver (iv_providing_data d) (iv_last_data_time d) (mode_state (mode_string (default [] (fields !! 2%nat)))) (mode_string (default [] (fields !! 2%nat))) (osi_status now fields),
   [DataFrom (MkData None None None None (Some (mode_string (default [] (fields !! 2%nat)))))], Ok tt).
Proof.
  intros Hl. unfold iv_osi, osi_status, iv_double.
  assert (forall i, (i < 16)%nat -> @iv_at i fields = pret (default [] (fields !! i))) as Hat.
  { intros i Hi. destruct (lookup_lt_is_Some_2 fields i ltac:(lia)) as [f Hf]. rewrite (iv_at_ok i fields f Hf). by rewrite Hf. }
  by rewrite !Hat by lia.
Qed.

(** the fields of a compass sentence *)
Definition compass_text (h p r rest : bytes) : bytes := B "$C" ++ h ++ B "P" ++ p ++ B "R" ++ r ++ B "T" ++ rest.
Definition compass_free (s : bytes) : Prop := Forall (fun x => compass_delimiter x = false) s.

Lemma compass_split h p r rest : compass_free h -> compass_free p -> compass_free r ->
  exists more, boost_split compass_delimiter (compass_text h p r rest) = B "$" :: h :: p :: r :: more.
Proof.
  intros Hh Hp Hr. exists (boost_split compass_delimiter rest). unfold compass_text.
  change (boost_split compass_delimiter (B "$" ++ 67 :: h ++ 80 :: p ++ 82 :: r ++ 84 :: rest) = B "$" :: h :: p :: r :: boost_split compass_delimiter rest).
  rewrite !boost_split_cut; [done | done | done | done | done | done | done | by repeat constructor | done].
Qed.

Lemma compass_id h p r rest : h <> [] -> compass_free h -> exists id, sentence_id [compass_text h p r rest] = Some id /\ id <> B "RMC".
Proof.
  intros Hn Hh. destruct h as [|a h]; [done|]. exists (h ++ B "P" ++ p ++ B "R" ++ r ++ B "T" ++ rest). split; [done|].
  destruct h as [|b h]; [done|]. apply Forall_cons in Hh as [_ Hh]. apply Forall_cons in Hh as [Hb _]. intros [= -> _]. done.
Qed.

Definition full_status (now : double) (fields : list bytes) (p r : bytes) : NodeStatus :=
  compute_missing_status cfg (on_pose (set_pitch (as_double p)) (on_pose (set_roll (as_double r)) (osi_status now fields))).

(** In any state of the Iver driver, a state sentence followed by a compass sentence is
    published as the raw lines, the mission mode and one status that has the values of the first
    sentence with pitch and roll of the second, and no value of an earlier status; the driver then
    provides data and its state is that of the reported mode. *)
Lemma iver_status_reported (d : IverFrontSeat) (now : double) (osi : list bytes) (h p r rest text1 text2 : bytes) :
  head osi = Some (B "$OSI") -> (16 <= length osi)%nat -> well_formed false osi -> message osi = Ok text1 ->
  h <> [] -> compass_free h -> compass_free p -> compass_free r -> 44 ∉ compass_text h p r rest -> message [compass_text h p r rest] = Ok text2 ->
  let mode := mode_string (default [] (osi !! 2%nat)) in
  exists d', iv_try_receive cfg icfg now [text1 ++ [13; 10]; text2 ++ [13; 10]] d =
    (d', [RawFrom (MkRaw text1 []); DataFrom (MkData None None None None (Some mode));
          RawFrom (MkRaw text2 []); DataFrom (MkData (Some (full_status now osi p r)) None None None None)], Ok tt) /\
    iv_providing_data d' = true /\ iv_last_data_time d' = now /\ iv_state d' = mode_state mode /\ iv_reported_mode d' = mode.
Proof.
  intros Ho Hl Hw Hm Hn Hh Hp Hr Hc Hm2 mode. destruct osi as [|o osi]; [done|]. injection Ho as ->. destruct (compass_id h p r rest Hn Hh) as (id & Hi & Hid).
  destruct (compass_split h p r rest Hh Hp Hr) as [more Hs].
  assert (Hw2 : well_formed false [compass_text h p r rest]) by (split; [by repeat constructor|]; exists 36; eexists _, []; split; [reflexivity|]; split; [by left | done]).
  eexists. split; [|split; [|split; [|split]]].
  - unfold iv_try_receive. cbn [pfor]. unfold pbind. rewrite (iver_sentence now _ text1 [13; 10] d Hw Hm eq_refl). unfold pcatch, pbind. cbn [pemit].
    cbn [sentence_id]. change (length (B "$OSI") <? 3)%nat with false. cbn beta iota. rewrite (iv_at_ok 0 (B "$OSI" :: osi) (B "$OSI") eq_refl). cbn [pret].
    rewrite (bool_decide_eq_false_2 (drop 3 (B "$OSI") = B "RMC")) by done. rewrite (bool_decide_eq_true_2 (B "$OSI" = B "$OSI")) by done. rewrite (osi_stored now _ d Hl).
    rewrite (iver_sentence now _ text2 [13; 10] _ Hw2 Hm2 eq_refl). unfold pcatch, pbind. cbn [pemit]. rewrite Hi. rewrite (iv_at_ok 0 [compass_text h p r rest] (compass_text h p r rest) eq_refl). cbn [pret].
    rewrite bool_decide_eq_false_2 by done. rewrite bool_decide_eq_false_2 by (by destruct h). rewrite bool_decide_eq_true_2 by done.
    unfold iv_compass. rewrite Hs. reflexivity.
  - reflexivity.
  - reflexivity.
  - reflexivity.
  - reflexivity.
Qed.

(** ** The connection *)

(** once the vehicle has reported, the driver never calls it disconnected again *)
Definition connected (d : IverFrontSeat) : Prop := iv_state d <> FRONTSEAT_NOT_CONNECTED.

Lemma mode_connected m : mode_state m <> FRONTSEAT_NOT_CONNECTED.
Proof. by destruct m. Qed.

Lemma keeps_at i fields : keeps connected (@iv_at i fields).
Proof. unfold iv_at. destruct (fields !! i); [apply keeps_ret | apply keeps_throw]. Qed.
Lemma keeps_double i fields : keeps connected (iv_double i fields).
Proof. apply keeps_bind; [apply keeps_at | intros; apply keeps_ret]. Qed.
Lemma keeps_upd f : keeps connected (@upd f).
Proof. by apply keeps_mod. Qed.
Create HintDb iver.
#[local] Hint Resolve keeps_at keeps_double keeps_upd : iver.

Ltac iver_step :=
  repeat first
    [ apply keeps_bind; [|intros ?] | apply keeps_ret | apply keeps_throw | apply keeps_emit | apply keeps_get | apply keeps_when | progress (auto with iver nocore)
    | apply keeps_mod; [intros; first [exact (mode_connected _) | done]] ].

Lemma keeps_rmc fields : keeps connected (iv_rmc icfg fields).
Proof. unfold iv_rmc. destruct (_ <? _)%nat; iver_step. destruct (message_cr_nl fields); iver_step. Qed.
Lemma keeps_osi now fields : keeps connected (iv_osi now fields).
Proof. unfold iv_osi. iver_step. Qed.
Lemma keeps_compass now first : keeps connected (iv_compass cfg now first).
Proof. unfold iv_compass. iver_step. Qed.
Lemma keeps_process now s : keeps connected (iv_process_receive cfg icfg now s).
Proof.
  unfold iv_process_receive. apply keeps_bind; [apply keeps_emit | intros _]. destruct (parse_nmea _ _ _) as [nmea|]; [|apply keeps_ret]. destruct (sentence_id nmea); [|apply keeps_throw].
  apply keeps_bind; [apply keeps_at | intros first]. repeat case_bool_decide; auto using keeps_rmc, keeps_osi, keeps_compass, keeps_ret.
Qed.
Lemma keeps_line now line : keeps connected (iv_line cfg icfg now line).
Proof. apply keeps_catch; [apply keeps_process | intros [] k [= <-]; apply keeps_ret]. Qed.
Lemma keeps_sentence fields : keeps connected (iv_write_sentence fields).
Proof. unfold iv_write_sentence, iv_write. destruct (message fields); iver_step. Qed.

Lemma iver_stays_connected now i : keeps connected (iv_loop cfg icfg now i).
Proof.
  unfold iv_loop. apply keeps_bind; [apply keeps_for, keeps_line | intros _]. apply keeps_bind; [|intros _; apply keeps_mod; intros d Hd; by destruct (dlt _ _)].
  destruct (parse_nmea _ _ _); [apply keeps_sentence | apply keeps_throw].
Qed.

End IverStatus.

(** ** Evaluation *)

Module IverWitness.
#[local] Existing Instances Sample.text Sample.text_laws NmeaWitness.trim NmeaWitness.trim_laws Reader.cast Reader.numbers.

#[local] Instance cuts : SplitAnyOf.
Proof.
  constructor. intros p a c s Ha Hc. change (split_on p (a ++ c :: s) = a :: split_on p s). induction a as [|x a IH]; cbn; [by rewrite Hc|].
  apply Forall_cons in Ha as [Hx Ha]. rewrite Hx, (IH Ha). done.
Qed.

#[local] Instance vt : ValText := {|
  text_fixed _ x := as_string (double_to_Z x); text_prec _ x := as_string (double_to_Z x); log10_abs x := x;
  numeric_cast_bool x := Some (negb (deq x (double_of_Z 0))); numeric_cast_bool_long z := if z =? 0 then Some false else if z =? 1 then Some true else None;
  numeric_cast_long x := Some (double_to_Z x)
|}.
#[local] Instance flat : Geodesy := {| utm2latlong x y := (y, x); latlong2localutm lat lon := (lat, lon) |}.
#[local] Instance units : IverUnits := {| from_knots v := ddiv v (double_of_Z 2); to_knots v := dmul v (double_of_Z 2); from_feet v := ddiv v (double_of_Z 4); to_feet v := dmul v (double_of_Z 4) |}.

Definition cfg : iFrontSeatConfig := MkIfsConfig true (double_of_Z 10) (double_of_Z 10) 3 (B "iver") false (B "iFrontSeat").
Definition icfg : IverFrontSeatConfig := MkIverConfig false 20 4.

Definition osi : list bytes :=
  [B "$OSI"; B "7"; B "W"; B "1"; B "42"; B "10"; B "4"; B "0"; B "N"; B "80"; B "0"; B "0"; B "m"; B "0"; B "90"; B "12"].
Definition ok (r : result bad_nmea_sentence bytes) : bytes := match r with Ok m => m | Err _ => [] end.

Example iver_status_reported_witness : exists d',
  iv_try_receive cfg icfg (double_of_Z 100) [ok (message osi) ++ [13; 10]; ok (message [compass_text (B "82") (B "3") (B "2") (B "20D3")]) ++ [13; 10]] new_iver =
    (d', [RawFrom (MkRaw (ok (message osi)) []); DataFrom (MkData None None None None (Some IVER_MODE_MISSION_MODE));
          RawFrom (MkRaw (ok (message [compass_text (B "82") (B "3") (B "2") (B "20D3")])) []);
          DataFrom (MkData (Some (full_status cfg (double_of_Z 100) osi (B "3") (B "2"))) None None None None)], Ok tt) /\
    iv_providing_data d' = true /\ iv_last_data_time d' = double_of_Z 100 /\ iv_state d' = FRONTSEAT_ACCEPTING_COMMANDS /\ iv_reported_mode d' = IVER_MODE_MISSION_MODE.
Proof.
  assert (Hf : forall s, compass_free s <-> bool_decide (compass_free s) = true) by (intros s; by rewrite bool_decide_eq_true).
  assert (Hw : well_formed false osi).
  { split; [by repeat (apply Forall_cons; split; [set_solver|])|]. exists 36. eexists _, _. split; [reflexivity|]. split; [by left | done]. }
  exact (iver_status_reported cfg icfg new_iver (double_of_Z 100) osi (B "82") (B "3") (B "2") (B "20D3") _ _ eq_refl ltac:(vm_compute; lia) Hw eq_refl ltac:(done)
    (proj2 (Hf (B "82")) eq_refl) (proj2 (Hf (B "3")) eq_refl) (proj2 (Hf (B "2")) eq_refl) ltac:(set_solver) eq_refl).
Qed.

(** a course of 370 degrees, 10 meters and 2 m/s, for Remote Helm 4 and 5 *)
Definition course : CommandRequest := MkRequest (Some (MkCourse None (Some (double_of_Z 370)) (Some (double_of_Z 2)) (Some (double_of_Z 10)) None None None None)) None None None None None.
Definition sentences (c : IverFrontSeatConfig) (r : CommandRequest) : list bytes :=
  omap (fun e => match e with RawTo m => Some (fr_raw m) | _ => None end) (snd (fst (iv_send_command c (fun _ _ => double_of_Z 10) 3 r new_iver))).

Example iver_course_feet : sentences icfg course = [B "$OMS,10,40,20,4,5*7B"].
Proof. vm_compute. reflexivity. Qed.
Example iver_course_meters : sentences (MkIverConfig false 20 5) course = [B "$OMS,10,10,20,4,5*7E"].
Proof. vm_compute. reflexivity. Qed.
Example iver_mission : sentences icfg (MkRequest None None None None None (Some (MkIverExtra START_MISSION (Some (B "m"))))) = [B "$OMSTART,0,0,0,0,m,*2F"].
Proof. vm_compute. reflexivity. Qed.

End IverWitness.
