(* ===== verification/WavegliderSerial.v ===== *)
(** * moos/frontseat/waveglider/waveglider_sv2_serial_client.h: frames on a serial line

    A frame begins with a magic byte and tells its size in its header; in the
    rest of it two byte values are escaped. The reader asks for as many bytes as
    the header says and for one more for each escape character that it finds,
    and removes the escapes in place, in a buffer of fixed size. A read is over
    when it has its bytes; what a write beyond the buffer does is undefined. *)

From Stdlib Require Import SpecFloat.
From S2P Require Import Prelude HexCodec.

(** ** The checksum: waveglider_sv2_frontseat_driver.cpp *)

Definition crc_bit (crc : Z) : Z := if Z.land crc 1 =? 1 then Z.lxor (Z.shiftr crc 1) 0xA001 else Z.shiftr crc 1.
Definition crc_compute_incrementally (crc a : Z) : Z := Nat.iter 8 crc_bit (Z.lxor crc (Z.land a 255)).
Definition crc_compute (buffer : bytes) (offset count : nat) (seed : Z) : Z := foldl crc_compute_incrementally seed (take count (drop offset buffer)).

(** ** Escapes *)

Definition SV2_MAGIC_BYTE : Z := 0x7e.
Definition SV2_ESCAPE : Z := 0x7d.
Definition SV2_HEADER_SIZE : Z := 10.
Definition SV2_MAX_SIZE : nat := 557.

(** [boost::replace_all] of one character by two, and of two different ones by one *)
Definition replace_char (a b c : Z) (s : bytes) : bytes := concat (map (fun x => if x =? a then [b; c] else [x]) s).
Fixpoint replace_pair (a b c : Z) (s : bytes) : bytes :=
  match s with
  | x :: s' => match s' with
               | y :: s'' => if (x =? a) && (y =? b) then c :: replace_pair a b c s'' else x :: replace_pair a b c s'
               | [] => [x]
               end
  | [] => []
  end.
Fixpoint replace_first (a b c : Z) (s : bytes) : bytes :=
  match s with
  | x :: (y :: s'') as s' => if (x =? a) && (y =? b) then c :: s'' else x :: replace_first a b c s'
  | s => s
  end.

Definition add_escapes (message : bytes) : bytes :=
  replace_first SV2_ESCAPE 0x5E SV2_MAGIC_BYTE (replace_char SV2_MAGIC_BYTE SV2_ESCAPE 0x5E (replace_char SV2_ESCAPE SV2_ESCAPE 0x5D message)).

(** the two replacements of [remove_escapes] *)
Definition unescape (s : bytes) : bytes := replace_pair SV2_ESCAPE 0x5D SV2_ESCAPE (replace_pair SV2_ESCAPE 0x5E SV2_MAGIC_BYTE s).

Definition escape_count (s : bytes) : nat := length (List.filter (Z.eqb SV2_ESCAPE) s).

(** ** The reader *)

(** [NoRead]: no operation is pending *)
Inductive MessagePart : Type := PART_MAGIC | PART_HEADER | PART_COMPLETE | NoRead.

(** [r_wanted] bytes end the pending operation, [r_buffer] has come; [r_insert] is an offset *)
Record SV2Reader : Type := MkReader {
  r_message : bytes;
  r_insert : nat;
  r_size : Z;
  r_last_escape : nat;
  r_part : MessagePart;
  r_wanted : Z;
  r_buffer : bytes
}.

Definition message_capacity : nat := (SV2_MAX_SIZE * 2)%nat.
Definition read_start (r : SV2Reader) : SV2Reader := MkReader (repeat 0 message_capacity) (r_insert r) (r_size r) 0 PART_MAGIC 1 [].
Definition new_reader : SV2Reader := read_start (MkReader [] 0 0 0 NoRead 0 []).

(** [None]: the write is beyond the buffer *)
Definition put_read (bs : bytes) (r : SV2Reader) : option SV2Reader :=
  if (r_insert r + length bs <=? length (r_message r))%nat
  then Some (MkReader (take (r_insert r) (r_message r) ++ bs ++ drop (r_insert r + length bs) (r_message r)) (r_insert r + length bs) (r_size r) (r_last_escape r) (r_part r) (r_wanted r) (r_buffer r))
  else None.

Definition async_read (part : MessagePart) (n : Z) (r : SV2Reader) : SV2Reader := MkReader (r_message r) (r_insert r) (r_size r) (r_last_escape r) part n [].

(** [inl]: more bytes are to be read because of escape characters *)
Definition check_escapes (r : SV2Reader) : SV2Reader + SV2Reader :=
  let escape := escape_count (r_message r) in
  if Nat.eqb escape (r_last_escape r) then inr r
  else inl (MkReader (r_message r) (r_insert r) (r_size r) escape (r_part r) (Z.of_nat escape - Z.of_nat (r_last_escape r)) []).

Definition remove_escapes (r : SV2Reader) : SV2Reader :=
  if Nat.eqb (r_last_escape r) 0 then r
  else
    let before_size := length (r_message r) in
    let m := unescape (r_message r) in
    let message := m ++ repeat 0 (before_size - length m) in
    MkReader message (r_insert r - (before_size - length m)) (r_size r) (escape_count message) (r_part r) (r_wanted r) (r_buffer r).

Definition size_of (message : bytes) : Z := Z.lor (Z.land (nth 1 message 0) 255) (Z.shiftl (Z.land (nth 2 message 0) 255) 8).

(** the handler of a read, with the bytes; a message that is complete is given to
    [message_signal] while no read is pending. [None] is undefined behaviour *)
Definition handle_read (bs : bytes) (r : SV2Reader) : option (SV2Reader * option bytes) :=
  match r_part r with
  | PART_MAGIC =>
      if match bs with b :: _ => b =? SV2_MAGIC_BYTE | [] => false end
      then match put_read bs (MkReader (r_message r) 0 (r_size r) (r_last_escape r) (r_part r) (r_wanted r) (r_buffer r)) with
           | Some r => Some (async_read PART_HEADER SV2_HEADER_SIZE r, None)
           | None => None
           end
      else Some (read_start r, None)
  | PART_HEADER =>
      match put_read bs r with
      | None => None
      | Some r =>
          match check_escapes r with
          | inl r => Some (r, None)
          | inr r =>
              let r := remove_escapes r in
              let size := size_of (r_message r) in
              Some (MkReader (r_message r) (r_insert r) size (r_last_escape r) PART_COMPLETE (u64 (size - SV2_HEADER_SIZE)) [], None)
          end
      end
  | PART_COMPLETE =>
      match put_read bs r with
      | None => None
      | Some r =>
          match check_escapes r with
          | inl r => Some (r, None)
          | inr r =>
              let r := remove_escapes r in
              Some (async_read NoRead 0 r, Some (take (Z.to_nat (r_size r + 1)) (r_message r)))
          end
      end
  | NoRead => Some (r, None)
  end.

(** a read of no bytes is over at once *)
Definition settle (x : option (SV2Reader * option bytes)) : option (SV2Reader * option bytes) :=
  match x with
  | Some (r, None) => match r_part r with NoRead => x | _ => if r_wanted r =? 0 then handle_read [] r else x end
  | x => x
  end.

(** one byte from the line *)
Definition receive_byte (b : Z) (r : SV2Reader) : option (SV2Reader * option bytes) :=
  match r_part r with
  | NoRead => Some (r, None)
  | _ =>
      let buffer := r_buffer r ++ [b] in
      if Z.of_nat (length buffer) <? r_wanted r then Some (MkReader (r_message r) (r_insert r) (r_size r) (r_last_escape r) (r_part r) (r_wanted r) buffer, None)
      else settle (handle_read buffer r)
  end.

(** a stream, when what receives the messages does not throw *)
Fixpoint receive_stream (bs : bytes) (r : SV2Reader) : option (SV2Reader * list bytes) :=
  match bs with
  | [] => Some (r, [])
  | b :: bs =>
      match receive_byte b r with
      | None => None
      | Some (r, m) =>
          match receive_stream bs (match m with Some _ => read_start r | None => r end) with
          | None => None
          | Some (r, ms) => Some (r, option_list m ++ ms)
          end
      end
  end.

(** ** Escapes are removed *)

Definition esc (x : Z) : bytes := if x =? SV2_ESCAPE then [SV2_ESCAPE; 0x5D] else if x =? SV2_MAGIC_BYTE then [SV2_ESCAPE; 0x5E] else [x].
Definition escape (m : bytes) : bytes := concat (map esc m).

Lemma escape_twice m : replace_char SV2_MAGIC_BYTE SV2_ESCAPE 0x5E (replace_char SV2_ESCAPE SV2_ESCAPE 0x5D m) = escape m.
Proof.
  unfold replace_char, escape. induction m as [|x m IH]; [done|]. cbn [map concat]. rewrite map_app, concat_app, IH. f_equal. unfold esc.
  destruct (Z.eqb_spec x SV2_ESCAPE) as [->|]; [done|]. cbn. by destruct (x =? SV2_MAGIC_BYTE).
Qed.

Lemma add_escapes_magic m : add_escapes (SV2_MAGIC_BYTE :: m) = SV2_MAGIC_BYTE :: escape m.
Proof. unfold add_escapes. by rewrite escape_twice. Qed.

Lemma escape_app m m' : escape (m ++ m') = escape m ++ escape m'.
Proof. unfold escape. by rewrite map_app, concat_app. Qed.

Lemma count_app s s' : escape_count (s ++ s') = (escape_count s + escape_count s')%nat.
Proof. unfold escape_count. by rewrite List.filter_app, length_app. Qed.
Lemma count_zeros n : escape_count (repeat 0 n) = 0%nat.
Proof. induction n; [done|]. by cbn. Qed.

Lemma escape_length m : length (escape m) = (length m + escape_count (escape m))%nat.
Proof.
  induction m as [|x m IH]; [done|]. change (escape (x :: m)) with (esc x ++ escape m). rewrite length_app, count_app, IH. unfold esc.
  destruct (Z.eqb_spec x SV2_ESCAPE) as [->|Hx]; [cbn; lia|]. destruct (Z.eqb_spec x SV2_MAGIC_BYTE) as [->|Hy]; [cbn; lia|]. unfold escape_count at 2. cbn [List.filter].
  rewrite (proj2 (Z.eqb_neq SV2_ESCAPE x)) by congruence. cbn. lia.
Qed.

Lemma escape_twice_length m : (length (escape m) <= 2 * length m)%nat.
Proof.
  induction m as [|x m IH]; [done|]. change (escape (x :: m)) with (esc x ++ escape m). rewrite length_app. cbn [length]. unfold esc.
  destruct (x =? SV2_ESCAPE); [cbn; lia|]. destruct (x =? SV2_MAGIC_BYTE); cbn; lia.
Qed.

(** nothing was escaped *)
Lemma escape_none m : escape_count (escape m) = 0%nat -> escape m = m.
Proof.
  induction m as [|x m IH]; [done|]. change (escape (x :: m)) with (esc x ++ escape m). rewrite count_app. unfold esc. destruct (x =? SV2_ESCAPE); [done|]. destruct (x =? SV2_MAGIC_BYTE); [done|].
  intros H. cbn. f_equal. apply IH. lia.
Qed.

(** no [a] of the list has [b] behind it, with [next] behind the list *)
Fixpoint quiet (a b : Z) (h : bytes) (next : option Z) : bool :=
  match h with
  | [] => true
  | x :: h' => negb ((x =? a) && bool_decide (match h' with y :: _ => Some y | [] => next end = Some b)) && quiet a b h' next
  end.

Lemma quiet_weaken a b h n n' : (n' = Some b -> n = Some b) -> quiet a b h n = true -> quiet a b h n' = true.
Proof.
  intros Hn. induction h as [|x h IH]; [done|]. cbn [quiet]. rewrite !andb_true_iff, !negb_true_iff, !andb_false_iff. intros [[Hx|Hx] Hq]; (split; [|by apply IH]); [by left|]. right.
  apply bool_decide_eq_false_2. apply bool_decide_eq_false_1 in Hx. destruct h; [tauto | done].
Qed.

Lemma replace_pair_quiet a b c h w : quiet a b h (head w) = true -> replace_pair a b c (h ++ w) = h ++ replace_pair a b c w.
Proof.
  induction h as [|x h IH]; [done|]. cbn [quiet]. rewrite andb_true_iff, negb_true_iff. intros [Hx Hq]. specialize (IH Hq). cbn [app replace_pair].
  assert (E : match h with y :: _ => Some y | [] => head w end = head (h ++ w)) by (by destruct h). rewrite E in Hx. destruct (h ++ w) as [|y s] eqn:Es; [by apply app_eq_nil in Es as [-> ->]|].
  assert ((x =? a) && (y =? b) = false) as ->; [|by rewrite IH]. destruct (x =? a); [|done]. cbn in Hx |- *. apply bool_decide_eq_false_1 in Hx. apply Z.eqb_neq. congruence.
Qed.

(** the first pass leaves the escapes of the escape character *)
Definition half (m : bytes) : bytes := concat (map (fun x => if x =? SV2_ESCAPE then [SV2_ESCAPE; 0x5D] else [x]) m).

Lemma plain_quiet x a b w : x <> a -> quiet a b [x] w = true.
Proof. intros Hx. cbn. by rewrite (proj2 (Z.eqb_neq x a) Hx). Qed.

Lemma replace_zeros a b c n : a <> 0 -> replace_pair a b c (repeat 0 n) = repeat 0 n.
Proof.
  intros Ha. transitivity (replace_pair a b c (repeat 0 n ++ [])); [by rewrite app_nil_r|]. rewrite replace_pair_quiet; [by rewrite app_nil_r|].
  induction n; [done|]. cbn [repeat quiet]. rewrite (proj2 (Z.eqb_neq 0 a)) by done. done.
Qed.

Lemma first_pass m n : replace_pair SV2_ESCAPE 0x5E SV2_MAGIC_BYTE (escape m ++ repeat 0 n) = half m ++ repeat 0 n.
Proof.
  induction m as [|x m IH]; cbn [escape half map concat].
  - by apply replace_zeros.
  - change (concat (map esc m)) with (escape m). unfold esc. rewrite <- !app_assoc. destruct (Z.eqb_spec x SV2_ESCAPE) as [->|Hx].
    + rewrite replace_pair_quiet; [by rewrite IH | done].
    + destruct (Z.eqb_spec x SV2_MAGIC_BYTE) as [->|Hy]; [cbn; by rewrite IH|]. rewrite replace_pair_quiet by (by apply plain_quiet). by rewrite IH.
Qed.

Lemma second_pass m n : replace_pair SV2_ESCAPE 0x5D SV2_ESCAPE (half m ++ repeat 0 n) = m ++ repeat 0 n.
Proof.
  induction m as [|x m IH]; cbn [half map concat].
  - by apply replace_zeros.
  - change (concat (map _ m)) with (half m). rewrite <- app_assoc. destruct (Z.eqb_spec x SV2_ESCAPE) as [->|Hx]; [cbn; by rewrite IH|]. rewrite replace_pair_quiet by (by apply plain_quiet). by rewrite IH.
Qed.

(** in front of the escaped part, nothing looks like an escape *)
Definition distinct_escapes (h : bytes) (next : option Z) : Prop := quiet SV2_ESCAPE 0x5D h next = true /\ quiet SV2_ESCAPE 0x5E h next = true.

Lemma unescape_behind h m n : distinct_escapes h (head m) -> unescape (h ++ escape m ++ repeat 0 n) = h ++ m ++ repeat 0 n.
Proof.
  intros [H1 H2]. unfold unescape.
  assert (Hh : forall b, b <> 0 -> b <> SV2_ESCAPE -> head (escape m ++ repeat 0 n) = Some b -> head m = Some b).
  { intros b H0 He. destruct m as [|x m]; [destruct n; cbn; congruence|]. change (escape (x :: m)) with (esc x ++ escape m). unfold esc. destruct (x =? SV2_ESCAPE); [cbn; congruence|].
    destruct (x =? SV2_MAGIC_BYTE); cbn; congruence. }
  assert (Hh' : forall b, b <> 0 -> b <> SV2_ESCAPE -> head (half m ++ repeat 0 n) = Some b -> head m = Some b).
  { intros b H0 He. destruct m as [|x m]; [destruct n; cbn; congruence|]. cbn [half map concat]. destruct (x =? SV2_ESCAPE); cbn; congruence. }
  rewrite (replace_pair_quiet _ _ _ h). 2: { eapply quiet_weaken; [|exact H2]. by apply Hh. }
  rewrite first_pass, replace_pair_quiet; [by rewrite second_pass|]. eapply quiet_weaken; [|exact H1]. by apply Hh'.
Qed.

(** ** How far the reader reads *)

(** fewer bytes than the escaped part has are not enough *)
Lemma reads_on m m' n : (n < length (escape m))%nat -> (n < length m + escape_count (take n (escape (m ++ m'))))%nat.
Proof.
  revert n. induction m as [|x m IH]; [cbn; lia|]. intros n. change (escape (x :: m)) with (esc x ++ escape m). change (escape ((x :: m) ++ m')) with (esc x ++ escape (m ++ m')). rewrite length_app. intros Hn.
  destruct (decide (n < length (esc x))%nat) as [Hl|Hl].
  - unfold esc in *. destruct (x =? SV2_ESCAPE); [|destruct (x =? SV2_MAGIC_BYTE)]; cbn in Hl |- *; destruct n as [|[|n]]; cbn; lia.
  - rewrite take_app_ge, count_app by lia. specialize (IH (n - length (esc x))%nat ltac:(lia)).
    assert (length (esc x) <= 1 + escape_count (esc x))%nat by (unfold esc; destruct (x =? SV2_ESCAPE); [|destruct (x =? SV2_MAGIC_BYTE)]; cbn; lia). cbn [length]. lia.
Qed.

Lemma reads_all m m' : length (escape m) = (length m + escape_count (take (length (escape m)) (escape (m ++ m'))))%nat.
Proof. rewrite escape_app, take_app_length. apply escape_length. Qed.

Lemma count_take_le n n' s : (n <= n')%nat -> (escape_count (take n s) <= escape_count (take n' s))%nat.
Proof. intros H. replace (take n' s) with (take n s ++ take (n' - n) (drop n s)); [rewrite count_app; lia|]. rewrite take_take_drop. f_equal. lia. Qed.

(** ** Reading in steps *)

Definition resume (rest : bytes) (x : option (SV2Reader * option bytes)) : option (SV2Reader * list bytes) :=
  match x with
  | None => None
  | Some (r, m) =>
      match receive_stream rest (match m with Some _ => read_start r | None => r end) with
      | None => None
      | Some (r, ms) => Some (r, option_list m ++ ms)
      end
  end.

Definition with_buffer (buf : bytes) (r : SV2Reader) : SV2Reader := MkReader (r_message r) (r_insert r) (r_size r) (r_last_escape r) (r_part r) (r_wanted r) buf.

Lemma handle_buffer bs buf r : r_part r <> NoRead -> handle_read bs (with_buffer buf r) = handle_read bs r.
Proof.
  intros Hp. destruct r as [msg ins size last part wanted old]. unfold handle_read, put_read, check_escapes, remove_escapes. cbn. destruct part; try done; cbn.
  - destruct (match bs with [] => false | _ => _ end); [|done]. cbn. by destruct (length bs <=? length msg)%nat.
  - destruct (_ <=? _)%nat; [|done]. cbn. destruct (Nat.eqb _ last); [|done]. cbn. by destruct (Nat.eqb last 0).
  - destruct (_ <=? _)%nat; [|done]. cbn. destruct (Nat.eqb _ last); [|done]. cbn. by destruct (Nat.eqb last 0).
Qed.

(** the pending operation gets its bytes *)
Lemma receive_wanted bs r rest : r_part r <> NoRead -> r_buffer r = [] -> (0 < length bs)%nat -> r_wanted r = Z.of_nat (length bs) ->
  receive_stream (bs ++ rest) r = resume rest (settle (handle_read bs r)).
Proof.
  intros Hp Hb Hl Hw. assert (G : forall bs2 buf, buf ++ bs2 = bs -> bs2 <> [] -> receive_stream (bs2 ++ rest) (with_buffer buf r) = resume rest (settle (handle_read bs r))).
  { induction bs2 as [|b bs2 IH]; [done|]. intros buf E _. cbn [app receive_stream].
    assert (Hr : receive_byte b (with_buffer buf r) = if bool_decide (bs2 = []) then settle (handle_read bs r) else Some (with_buffer (buf ++ [b]) r, None)).
    { unfold receive_byte. cbn [r_part with_buffer r_buffer r_wanted]. rewrite Hw. rewrite (handle_buffer _ _ _ Hp). case_bool_decide as H.
      - subst bs2. rewrite E. rewrite (proj2 (Z.ltb_ge _ _)) by lia. revert Hp. by destruct (r_part r).
      - assert (length (buf ++ [b]) < length bs)%nat by (rewrite <- E, !length_app; destruct bs2; [done|]; cbn; lia). rewrite (proj2 (Z.ltb_lt _ _)) by lia. rewrite <- Hw. revert Hp. clear. destruct r as [? ? ? ? part ? ?]. by destruct part. }
    rewrite Hr. case_bool_decide as H.
    - subst bs2. reflexivity.
    - rewrite (IH (buf ++ [b])); [|by rewrite <- app_assoc | done]. by destruct (resume rest _) as [[r' ms]|]. }
  rewrite <- (G bs []); [|done | intros ->; cbn in Hl; lia]. f_equal. destruct r as [msg ins size last part wanted old]. cbn in Hb. by subst old.
Qed.

(** the end of a part *)
Definition finish (r : SV2Reader) : option (SV2Reader * option bytes) :=
  let r := remove_escapes r in
  match r_part r with
  | PART_HEADER =>
      let size := size_of (r_message r) in
      Some (MkReader (r_message r) (r_insert r) size (r_last_escape r) PART_COMPLETE (u64 (size - SV2_HEADER_SIZE)) [], None)
  | _ => Some (async_read NoRead 0 r, Some (take (Z.to_nat (r_size r + 1)) (r_message r)))
  end.

(** [n] bytes of [s] have been put behind [h], where [base] bytes and the ones after escape characters are read *)
Definition reading (h s : bytes) (base n : nat) (part : MessagePart) (size : Z) : SV2Reader :=
  MkReader (h ++ take n s ++ repeat 0 (message_capacity - length h - n)) (length h + n) size (escape_count h + escape_count (take n s)) part
    (Z.of_nat (base + escape_count (take n s)) - Z.of_nat n) [].

Lemma put_reading h s base n k part size : (n + k <= length s)%nat -> (length h + n + k <= message_capacity)%nat ->
  put_read (take k (drop n s)) (reading h s base n part size) =
  Some (MkReader (h ++ take (n + k) s ++ repeat 0 (message_capacity - length h - (n + k))) (length h + (n + k)) size (escape_count h + escape_count (take n s)) part (Z.of_nat (base + escape_count (take n s)) - Z.of_nat n) []).
Proof.
  intros Hs Hc. unfold put_read, reading. cbn [r_insert r_message r_size r_last_escape r_part r_wanted r_buffer].
  assert (Hk : length (take k (drop n s)) = k) by (rewrite length_take, length_drop; lia). assert (Hn : length (take n s) = n) by (rewrite length_take; lia).
  set (z := (message_capacity - length h - (n + k))%nat). replace (repeat 0 (message_capacity - length h - n)) with (repeat 0 k ++ repeat 0 z) by (rewrite <- repeat_app; f_equal; lia).
  rewrite Hk, !length_app, !repeat_length, Hn. rewrite (proj2 (Nat.leb_le _ _)) by lia. f_equal. f_equal; [|lia]. rewrite (app_assoc h), take_app_length' by (rewrite length_app; lia).
  rewrite drop_app_ge by (rewrite length_app; lia). rewrite length_app, Hn. replace (length h + n + k - (length h + n))%nat with k by lia. rewrite drop_app_length' by (by rewrite repeat_length).
  rewrite <- !app_assoc. f_equal. rewrite app_assoc. f_equal. by rewrite <- take_take_drop.
Qed.

Lemma finish_wanted msg ins size last part w w' buf : finish (MkReader msg ins size last part w buf) = finish (MkReader msg ins size last part w' buf).
Proof. unfold finish, remove_escapes. cbn. by destruct (Nat.eqb last 0). Qed.

Lemma handle_read_finish bs r : r_part r = PART_HEADER \/ r_part r = PART_COMPLETE ->
  handle_read bs r = match put_read bs r with None => None | Some r => match check_escapes r with inl r => Some (r, None) | inr r => finish r end end.
Proof.
  intros Hp. destruct r as [msg ins size last part w buf]. unfold handle_read, put_read, check_escapes, finish, remove_escapes. destruct Hp as [Hp|Hp]; cbn in Hp; subst part; cbn; (destruct (_ <=? _)%nat; [|done]); cbn;
    (destruct (Nat.eqb _ last); [|done]); cbn; by destruct (Nat.eqb last 0).
Qed.

Lemma handle_reading h s base n k part size : part = PART_HEADER \/ part = PART_COMPLETE -> (n + k <= length s)%nat -> (length h + n + k <= message_capacity)%nat -> (n + k = base + escape_count (take n s))%nat ->
  handle_read (take k (drop n s)) (reading h s base n part size) =
  if Nat.eqb (escape_count (take (n + k) s)) (escape_count (take n s)) then finish (reading h s base (n + k) part size) else Some (reading h s base (n + k) part size, None).
Proof.
  intros Hp Hs Hc Hb. set (msg := h ++ take (n + k) s ++ repeat 0 (message_capacity - length h - (n + k))).
  assert (He : escape_count msg = (escape_count h + escape_count (take (n + k) s))%nat) by (unfold msg; rewrite !count_app, count_zeros; lia).
  rewrite handle_read_finish by done. rewrite put_reading by done. fold msg. unfold check_escapes. cbn [r_message r_last_escape r_insert r_size r_part]. rewrite He.
  destruct (Nat.eqb_spec (escape_count (take (n + k) s)) (escape_count (take n s))) as [E|E].
  - rewrite E, Nat.eqb_refl. unfold reading. fold msg. rewrite E. apply finish_wanted.
  - rewrite (proj2 (Nat.eqb_neq _ _)) by lia. f_equal. f_equal. unfold reading. fold msg. f_equal. lia.
Qed.

Lemma read_part h m m' part size rest : part = PART_HEADER \/ part = PART_COMPLETE -> (length h + length (escape m) <= message_capacity)%nat ->
  forall k n, (n + k = length (escape m))%nat -> (0 < k)%nat ->
  receive_stream (take k (drop n (escape (m ++ m'))) ++ rest) (reading h (escape (m ++ m')) (length m) n part size) =
  resume rest (settle (finish (reading h (escape (m ++ m')) (length m) (length (escape m)) part size))).
Proof.
  intros Hpart Hcap. set (s := escape (m ++ m')). assert (Hlen : (length (escape m) <= length s)%nat) by (unfold s; rewrite escape_app, length_app; lia).
  induction k as [k IH] using lt_wf_ind. intros n Hn Hk. pose proof (reads_on m m' n ltac:(lia)) as Hmore. fold s in Hmore. pose proof (reads_all m m') as Hall. fold s in Hall.
  pose proof (count_take_le n (length (escape m)) s ltac:(lia)) as Hle. set (j := (length m + escape_count (take n s) - n)%nat).
  assert (Hj : (0 < j <= k)%nat) by (unfold j; lia). replace (take k (drop n s)) with (take j (drop n s) ++ take (k - j) (drop (n + j) s)) by (rewrite <- drop_drop, take_take_drop; f_equal; lia).
  rewrite <- app_assoc.
  rewrite receive_wanted; [|by destruct Hpart; subst part | done | rewrite length_take, length_drop; lia | rewrite length_take, length_drop; unfold reading; cbn [r_wanted]; unfold j; lia].
  rewrite handle_reading by (try done; unfold j; lia). destruct (Nat.eqb_spec (escape_count (take (n + j) s)) (escape_count (take n s))) as [E|E].
  - assert (Hnj : (n + j)%nat = length (escape m)).
    { destruct (decide (n + j < length (escape m))%nat) as [Hlt|]; [|lia]. pose proof (reads_on m m' (n + j) Hlt) as X. fold s in X. unfold j in *. lia. }
    rewrite Hnj. assert (k - j = 0)%nat as -> by lia. done.
  - assert (Hlt : (n + j < length (escape m))%nat).
    { destruct (decide (n + j = length (escape m))%nat) as [Hj2|]; [|lia]. rewrite Hj2 in E. unfold j in Hj2. lia. }
    assert (Hset : settle (Some (reading h s (length m) (n + j) part size, None)) = Some (reading h s (length m) (n + j) part size, None)).
    { cbn [settle]. pose proof (reads_on m m' (n + j) Hlt) as X. fold s in X. assert (Hw : (r_wanted (reading h s (length m) (n + j) part size) =? 0) = false) by (apply Z.eqb_neq; unfold reading; cbn [r_wanted]; lia).
      rewrite Hw. by destruct Hpart; subst part. }
    rewrite Hset. cbn [resume]. rewrite (IH (k - j)%nat) by lia. by destruct (resume rest _) as [[r' ms]|].
Qed.


Lemma removed h m m' base part size : (length h + length (escape m) <= message_capacity)%nat -> distinct_escapes h (head m) ->
  exists w, remove_escapes (reading h (escape (m ++ m')) base (length (escape m)) part size) =
    MkReader (h ++ m ++ repeat 0 (message_capacity - length h - length m)) (length h + length m) size (escape_count (h ++ m)) part w [].
Proof.
  intros Hc Hd. exists (Z.of_nat (base + escape_count (escape m)) - Z.of_nat (length (escape m))). unfold reading, remove_escapes. rewrite escape_app, take_app_length. cbn [r_last_escape r_message r_insert r_size r_part r_wanted r_buffer].
  pose proof (escape_length m) as Hl. rewrite count_app. destruct (Nat.eqb_spec (escape_count h + escape_count (escape m)) 0) as [E|E].
  - assert (Em : escape m = m) by (apply escape_none; lia). by rewrite !Em, count_app.
  - rewrite (unescape_behind h m _ Hd). rewrite !length_app, !repeat_length.
    replace ((h ++ m ++ repeat 0 _) ++ repeat 0 _) with (h ++ m ++ repeat 0 (message_capacity - length h - length m)) by (rewrite <- !app_assoc, <- repeat_app; do 3 f_equal; lia).
    rewrite !count_app, !count_zeros. f_equal; lia.
Qed.

(** ** Frames *)

(** a reader that waits for the beginning of a frame *)
Definition ready (r : SV2Reader) : Prop := r = read_start r.

(** a message with its size in its header, which the buffer can hold escaped and whose header has
    no two bytes in succession that look like an escape *)
Record framed (message : bytes) : Prop := MkFramed {
  fm_parts : exists header body, message = SV2_MAGIC_BYTE :: header ++ body /\ Z.of_nat (length header) = SV2_HEADER_SIZE /\ distinct_escapes (SV2_MAGIC_BYTE :: header) (head body);
  fm_size : size_of message + 1 = Z.of_nat (length message);
  fm_fits : (length (add_escapes message) <= message_capacity)%nat
}.

Lemma ready_start r : ready (read_start r).
Proof. done. Qed.

Lemma skip_garbage g rest r : ready r -> SV2_MAGIC_BYTE ∉ g -> receive_stream (g ++ rest) r = receive_stream rest r.
Proof.
  intros Hr. induction g as [|b g IH]; [done|]. rewrite not_elem_of_cons. intros [Hb Hg]. cbn [app receive_stream].
  assert (receive_byte b r = Some (r, None)) as ->.
  { rewrite Hr. unfold receive_byte, read_start. cbn -[message_capacity]. by rewrite (proj2 (Z.eqb_neq b SV2_MAGIC_BYTE)). }
  rewrite (IH Hg). by destruct (receive_stream rest r) as [[r' ms]|].
Qed.

Lemma magic_read rest r : ready r -> receive_stream (SV2_MAGIC_BYTE :: rest) r = receive_stream rest (reading [SV2_MAGIC_BYTE] rest 10 0 PART_HEADER (r_size r)).
Proof.
  intros Hr. cbn [receive_stream].
  assert (receive_byte SV2_MAGIC_BYTE r = Some (reading [SV2_MAGIC_BYTE] rest 10 0 PART_HEADER (r_size r), None)) as ->.
  { rewrite Hr. unfold read_start. cbn [r_insert r_size]. generalize (r_insert r) (r_size r). intros ins size. vm_compute. reflexivity. }
  by destruct (receive_stream rest _) as [[r' ms]|].
Qed.

(** behind the header, which tells the size of the rest *)
Lemma body_read h body size w rest : (length h + length (escape body) <= message_capacity)%nat -> distinct_escapes h (head body) -> w = Z.of_nat (length body) -> Z.of_nat (length h + length body) = size + 1 ->
  exists r', ready r' /\ resume (escape body ++ rest) (settle (Some (MkReader (h ++ repeat 0 (message_capacity - length h)) (length h) size (escape_count h) PART_COMPLETE w [], None))) =
    match receive_stream rest r' with Some (r, ms) => Some (r, (h ++ body) :: ms) | None => None end.
Proof.
  intros Hc Hd -> Hs. set (r0 := MkReader _ _ _ _ _ _ _).
  assert (E0 : r0 = reading h (escape (body ++ [])) (length body) 0 PART_COMPLETE size) by (unfold r0, reading; cbn [take app]; rewrite Nat.sub_0_r, !Nat.add_0_r, Z.sub_0_r; done).
  destruct (removed h body [] (length body) PART_COMPLETE size Hc Hd) as (w' & Hrem).
  set (r1 := async_read NoRead 0 (MkReader (h ++ body ++ repeat 0 (message_capacity - length h - length body)) (length h + length body) size (escape_count (h ++ body)) PART_COMPLETE w' [])).
  assert (Hf : finish (reading h (escape (body ++ [])) (length body) (length (escape body)) PART_COMPLETE size) = Some (r1, Some (h ++ body))).
  { unfold finish. rewrite Hrem. cbn [r_part r_size r_message]. f_equal. f_equal. f_equal. rewrite app_assoc, take_app_length'; [done|]. rewrite length_app. lia. }
  exists (read_start r1). split; [apply ready_start|].
  assert (Hend : settle (finish (reading h (escape (body ++ [])) (length body) (length (escape body)) PART_COMPLETE size)) = Some (r1, Some (h ++ body))) by (by rewrite Hf).
  assert (G : forall x, x = Some (r1, Some (h ++ body)) -> resume rest x = match receive_stream rest (read_start r1) with Some (r, ms) => Some (r, (h ++ body) :: ms) | None => None end).
  { intros x ->. cbn [resume option_list]. by destruct (receive_stream rest (read_start r1)) as [[r ms]|]. }
  destruct (decide (body = [])) as [Hb|Hb].
  - assert (He : escape body ++ rest = rest) by (by rewrite Hb). rewrite He. apply G. rewrite <- Hend. cbn [settle]. change (r_part r0) with PART_COMPLETE. cbn iota. change (r_wanted r0) with (Z.of_nat (length body)). rewrite E0. subst body. cbn [length Z.of_nat Z.eqb].
    change ([] : bytes) with (take 0 (drop 0 (escape ([] ++ [])))) at 1. rewrite handle_reading; [etransitivity; [exact Hf | symmetry; exact Hend] | by right | done | cbn in Hc |- *; lia | done].
  - assert (Hw : settle (Some (r0, None)) = Some (r0, None)). { cbn [settle]. change (r_part r0) with PART_COMPLETE. change (r_wanted r0) with (Z.of_nat (length body)). cbn iota. destruct body; [done|]. done. }
    rewrite Hw. cbn [resume]. rewrite E0. assert (Hl : (0 < length (escape body))%nat) by (rewrite escape_length; destruct body; [done|]; cbn; lia).
    pose proof (read_part h body [] PART_COMPLETE size rest (or_intror eq_refl) Hc (length (escape body)) 0 eq_refl Hl) as X. rewrite drop_0 in X. rewrite app_nil_r in X at 1. rewrite firstn_all in X. rewrite X.
    rewrite (G _ Hend). by destruct (receive_stream rest (read_start r1)) as [[r ms]|].
Qed.

Lemma frame_read message rest r : ready r -> framed message ->
  exists r', ready r' /\ receive_stream (add_escapes message ++ rest) r = match receive_stream rest r' with Some (r, ms) => Some (r, message :: ms) | None => None end.
Proof.
  intros Hr [(header & body & -> & Hh & Hd) Hs Hf]. rewrite add_escapes_magic in *. cbn [app]. rewrite magic_read by done. rewrite escape_app. rewrite <- app_assoc. set (rest2 := escape body ++ rest).
  assert (Hr0 : reading [SV2_MAGIC_BYTE] (escape header ++ rest2) 10 0 PART_HEADER (r_size r) = reading [SV2_MAGIC_BYTE] (escape (header ++ body)) (length header) 0 PART_HEADER (r_size r)).
  { unfold reading. cbn [take]. assert (length header = 10%nat) as -> by (unfold SV2_HEADER_SIZE in Hh; lia). done. }
  assert (Hlen : length (escape header) = length (take (length (escape header)) (drop 0 (escape (header ++ body))))) by (rewrite drop_0, escape_app, take_app_length; done).
  cbn [length] in Hf. rewrite escape_app, length_app in Hf. pose proof (escape_length header) as Hlh. pose proof (escape_length body) as Hlb. unfold SV2_HEADER_SIZE in Hh.
  pose proof (read_part [SV2_MAGIC_BYTE] header body PART_HEADER (r_size r) rest2 (or_introl eq_refl) ltac:(cbn [length]; lia) (length (escape header)) 0 eq_refl ltac:(lia)) as X.
  rewrite drop_0, escape_app, take_app_length, <- escape_app in X. rewrite Hr0, X. clear X Hr0 Hlen.
  destruct (removed [SV2_MAGIC_BYTE] header body (length header) PART_HEADER (r_size r) ltac:(cbn [length]; lia) ltac:(by split; apply plain_quiet)) as (w & Hrem).
  unfold finish. rewrite Hrem. cbn [r_part r_message r_insert r_last_escape].
  assert (Hsz : size_of ([SV2_MAGIC_BYTE] ++ header ++ repeat 0 (message_capacity - length [SV2_MAGIC_BYTE] - length header)) = size_of (SV2_MAGIC_BYTE :: header ++ body)).
  { unfold size_of. destruct header as [|a [|b header]]; [done | done |]. done. }
  rewrite Hsz. cbn [length] in Hs. rewrite length_app in Hs.
  destruct (body_read (SV2_MAGIC_BYTE :: header) body (size_of (SV2_MAGIC_BYTE :: header ++ body)) (u64 (size_of (SV2_MAGIC_BYTE :: header ++ body) - SV2_HEADER_SIZE)) rest) as (r' & Hr' & E).
  - cbn [length]. lia.
  - done.
  - unfold u64, SV2_HEADER_SIZE. rewrite wrap_small; [lia|]. assert (message_capacity = 1114)%nat by done. lia.
  - cbn [length]. lia.
  - exists r'. split; [done|]. unfold rest2. cbn [app length] in E |- *. rewrite <- E. by do 4 f_equal.
Qed.


(** no read is pending while a message is handled *)
Lemma handle_message bs r r' m : handle_read bs r = Some (r', Some m) -> r_part r' = NoRead.
Proof.
  unfold handle_read. destruct (r_part r).
  - destruct (match bs with [] => false | _ => _ end); [|done]. by destruct (put_read _ _).
  - destruct (put_read bs r) as [r1|]; [|done]. by destruct (check_escapes r1).
  - destruct (put_read bs r) as [r1|]; [|done]. destruct (check_escapes r1); [done|]. by intros [= <- _].
  - done.
Qed.
Lemma byte_message b r r' m : receive_byte b r = Some (r', Some m) -> r_part r' = NoRead.
Proof.
  unfold receive_byte. destruct (r_part r); try done; (destruct (_ <? _); [done|]); destruct (handle_read _ r) as [[r1 [m1|]]|] eqn:E; cbn [settle]; try done;
    try (intros [= <- <-]; by apply handle_message in E); destruct (r_part r1); try done; (destruct (_ =? _); [apply handle_message | done]).
Qed.

(** the byte that completes the first message *)
Lemma first_message bs : forall r r2 m ms, receive_stream bs r = Some (r2, m :: ms) ->
  exists pre b post r1 r', bs = pre ++ b :: post /\ receive_stream pre r = Some (r1, []) /\ receive_byte b r1 = Some (r', Some m).
Proof.
  induction bs as [|b bs IH]; [done|]. cbn [receive_stream]. intros r r2 m ms. destruct (receive_byte b r) as [[r1 [m1|]]|] eqn:Hb; [| |done].
  - destruct (receive_stream bs _) as [[r3 ms3]|]; [|done]. intros [= _ <- _]. by exists [], b, bs, r, r1.
  - destruct (receive_stream bs r1) as [[r3 ms3]|] eqn:Hs; [|done]. intros [= -> E]. change (option_list None ++ ms3) with ms3 in E. subst ms3. destruct (IH _ _ _ _ Hs) as (pre & b' & post & r4 & r5 & -> & Hp & Hb').
    exists (b :: pre), b', post, r4, r5. split; [done|]. split; [|done]. cbn [receive_stream]. by rewrite Hb, Hp.
Qed.


(** ** The checksum tells messages apart that differ in one byte *)

Definition word16 (c : Z) : Prop := 0 <= c < 2 ^ 16.

(** [crc_bit] can be undone *)
Definition crc_unbit (c : Z) : Z := if c <? 0x8000 then Z.shiftl c 1 else Z.lor (Z.shiftl (Z.lxor c 0xA001) 1) 1.
Lemma lxor_word c a : word16 c -> word16 a -> word16 (Z.lxor c a).
Proof.
  unfold word16. intros Hc Ha. assert (H : Z.lxor c a = Z.lxor c a mod 2 ^ 16); [|rewrite H; apply Z.mod_pos_bound; lia].
  apply Z.bits_inj'. intros k Hk. rewrite Z.lxor_spec. destruct (Z.ltb_spec k 16).
  - by rewrite Z.mod_pow2_bits_low, Z.lxor_spec by lia.
  - rewrite Z.mod_pow2_bits_high by lia. rewrite <- (Z.mod_small c (2 ^ 16)), <- (Z.mod_small a (2 ^ 16)) by lia. by rewrite !Z.mod_pow2_bits_high by lia.
Qed.

(** the highest bit tells whether the polynomial was added *)
Lemma poly_high c : 0 <= c < 0x8000 -> 0x8000 <= Z.lxor c 0xA001.
Proof.
  intros Hc. assert (Hn : 0 <= Z.lxor c 0xA001) by (apply Z.lxor_nonneg; lia).
  assert (Hb : Z.testbit (Z.lxor c 0xA001) 15 = true).
  { rewrite Z.lxor_spec. change (Z.testbit 0xA001 15) with true. rewrite <- (Z.mod_small c (2 ^ 15)) by (change (2 ^ 15) with 0x8000; lia). by rewrite Z.mod_pow2_bits_high by lia. }
  destruct (Z.le_gt_cases 0x8000 (Z.lxor c 0xA001)) as [|Hl]; [done|]. exfalso.
  rewrite <- (Z.mod_small (Z.lxor c 0xA001) (2 ^ 15)) in Hb by (change (2 ^ 15) with 0x8000; lia). by rewrite Z.mod_pow2_bits_high in Hb by lia.
Qed.

Lemma crc_bit_spec c : word16 c -> crc_unbit (crc_bit c) = c /\ word16 (crc_bit c).
Proof.
  intros Hc. unfold crc_bit. change (Z.land c 1) with (Z.land c (Z.ones 1)). rewrite Z.land_ones by lia. change (2 ^ 1) with 2.
  assert (Hh : Z.shiftr c 1 = c / 2) by (rewrite Z.shiftr_div_pow2 by lia; done). rewrite Hh.
  assert (Hd : c = 2 * (c / 2) + c mod 2) by (apply Z.div_mod; lia). pose proof (Z.mod_pos_bound c 2 ltac:(lia)) as Hm.
  assert (Hr : 0 <= c / 2 < 0x8000) by (unfold word16 in Hc; change (2 ^ 16) with 65536 in Hc; lia).
  unfold crc_unbit. destruct (c mod 2 =? 1) eqn:E; to_prop.
  - rewrite (proj2 (Z.ltb_ge _ _) (poly_high _ Hr)), Z.lxor_assoc, Z.lxor_nilpotent, Z.lxor_0_r. split; [|apply lxor_word; unfold word16; lia].
    rewrite Z.shiftl_mul_pow2 by lia. change (2 ^ 1) with 2. rewrite Z.mul_comm. rewrite Hd at 2. rewrite E. apply Z.bits_inj'. intros n Hn. rewrite Z.lor_spec.
    destruct (Z.eq_dec n 0) as [->|]; [by rewrite Z.testbit_even_0, Z.testbit_odd_0|]. replace n with (Z.succ (Z.pred n)) by lia. rewrite Z.testbit_even_succ, Z.testbit_odd_succ by lia.
    change 1 with (2 * 0 + 1) at 1. by rewrite Z.testbit_odd_succ, Z.bits_0, orb_false_r by lia.
  - rewrite (proj2 (Z.ltb_lt _ _)) by lia. split; [|unfold word16; lia]. rewrite Z.shiftl_mul_pow2 by lia. lia.
Qed.

Lemma crc_iter_spec n c c' : word16 c -> word16 c' -> word16 (Nat.iter n crc_bit c) /\ (Nat.iter n crc_bit c = Nat.iter n crc_bit c' -> c = c').
Proof.
  intros Hc Hc'. assert (Hw : forall n c, word16 c -> word16 (Nat.iter n crc_bit c)) by (intros k x Hx; induction k; [done|]; by apply crc_bit_spec).
  split; [by apply Hw|]. induction n as [|n IH]; [done|]. intros E. change (crc_bit (Nat.iter n crc_bit c) = crc_bit (Nat.iter n crc_bit c')) in E. apply IH. rewrite <- (proj1 (crc_bit_spec _ (Hw n c Hc))), <- (proj1 (crc_bit_spec _ (Hw n c' Hc'))). by rewrite E.
Qed.

Lemma crc_step_word c a : word16 c -> word16 (crc_compute_incrementally c a).
Proof.
  intros Hc. unfold crc_compute_incrementally. assert (H : word16 (Z.lxor c (Z.land a 255))); [|by apply (crc_iter_spec 8 _ _ H H)]. apply lxor_word; [done|].
  unfold word16. change 255 with (Z.ones 8). rewrite Z.land_ones by lia. pose proof (Z.mod_pos_bound a (2 ^ 8)). lia.
Qed.
Lemma crc_fold_word s c : word16 c -> word16 (foldl crc_compute_incrementally c s).
Proof. revert c. induction s as [|a s IH]; [done|]. intros c Hc. cbn. by apply IH, crc_step_word. Qed.

Lemma crc_step_injective c c' a a' : word16 c -> word16 c' -> crc_compute_incrementally c a = crc_compute_incrementally c' a' -> Z.lxor c (Z.land a 255) = Z.lxor c' (Z.land a' 255).
Proof.
  assert (Hb : forall x, word16 (Z.land x 255)) by (intros x; unfold word16; change 255 with (Z.ones 8); rewrite Z.land_ones by lia; pose proof (Z.mod_pos_bound x (2 ^ 8)); lia).
  intros Hc Hc' E. apply (proj2 (crc_iter_spec 8 _ _ (lxor_word c _ Hc (Hb a)) (lxor_word c' _ Hc' (Hb a')))). exact E.
Qed.

Lemma crc_fold_injective s c c' : word16 c -> word16 c' -> foldl crc_compute_incrementally c s = foldl crc_compute_incrementally c' s -> c = c'.
Proof.
  revert c c'. induction s as [|a s IH]; [done|]. cbn. intros c c' Hc Hc' E. apply IH in E; [|by apply crc_step_word..]. apply crc_step_injective in E; [|done..].
  apply (f_equal (fun y => Z.lxor y (Z.land a 255))) in E. by rewrite !Z.lxor_assoc, Z.lxor_nilpotent, !Z.lxor_0_r in E.
Qed.

Lemma crc_detects_byte s t a b seed : word16 seed -> is_byte a -> is_byte b ->
  crc_compute (s ++ a :: t) 0 (length (s ++ a :: t)) seed = crc_compute (s ++ b :: t) 0 (length (s ++ b :: t)) seed -> a = b.
Proof.
  unfold crc_compute. rewrite !drop_0, !firstn_all, !foldl_app. cbn [foldl]. intros Hs Ha Hb E.
  apply crc_fold_injective in E; [|by apply crc_step_word, crc_fold_word..]. apply crc_step_injective in E; [|by apply crc_fold_word..].
  set (c := foldl crc_compute_incrementally seed s) in E.
  assert (Hx : forall x, is_byte x -> Z.land x 255 = x) by (intros x Hx; change 255 with (Z.ones 8); rewrite Z.land_ones by lia; apply Z.mod_small; unfold is_byte in Hx; lia).
  rewrite !Hx in E by done. apply (f_equal (Z.lxor c)) in E. by rewrite <- !Z.lxor_assoc, Z.lxor_nilpotent, !Z.lxor_0_l in E.
Qed.

(** ** Evaluation *)

Module SerialWitness.

(** a message of 15 bytes behind the magic byte *)
Definition message (id1 id2 : Z) : bytes := [0x7e; 15; 0; 1; 0; 1; 3; id1; id2; 1; 0; 0x7d; 0x7e; 0x5e; 0; 0].
Example received : receive_stream ([1; 2] ++ add_escapes (message 5 0)) new_reader = Some (fst (default (new_reader, []) (receive_stream ([1; 2] ++ add_escapes (message 5 0)) new_reader)), [message 5 0]).
Proof. vm_compute. reflexivity. Qed.
Example escaped_header : snd (default (new_reader, []) (receive_stream (add_escapes (message 0x7e 0x7d)) new_reader)) = [message 0x7e 0x7d].
Proof. vm_compute. reflexivity. Qed.

Lemma message_framed id1 id2 : quiet SV2_ESCAPE 0x5D [id1; id2; 1] None && quiet SV2_ESCAPE 0x5E [id1; id2; 1] None = true -> framed (message id1 id2).
Proof.
  rewrite andb_true_iff. intros [H1 H2]. split.
  - exists [15; 0; 1; 0; 1; 3; id1; id2; 1; 0], [0x7d; 0x7e; 0x5e; 0; 0]. split; [done|]. split; [done|]. split; cbn in H1, H2 |- *; by rewrite ?andb_true_r in *.
  - done.
  - unfold message. change 0x7e with SV2_MAGIC_BYTE at 1. rewrite add_escapes_magic. cbn [length].
    pose proof (escape_twice_length [15; 0; 1; 0; 1; 3; id1; id2; 1; 0; 0x7d; 0x7e; 0x5e; 0; 0]) as H. change (2 * length _)%nat with 30%nat in H. assert (message_capacity = 1114)%nat by done. lia.
Qed.


(** a header with the two bytes of an escape in it is unescaped twice *)
Example header_unescaped_twice : snd (default (new_reader, []) (receive_stream (add_escapes (message 0x7d 0x5e)) new_reader)) =
  [[0x7e; 15; 0; 1; 0; 1; 3; 0x7e; 1; 0; 0x7d; 0x7e; 0x5e; 0; 0; 0]].
Proof. vm_compute. reflexivity. Qed.

End SerialWitness.
