(* ===== verification/Waveglider.v ===== *)
(** * moos/frontseat/waveglider: the driver of the Wave Glider SV2

    The vehicle asks the driver for its identity, its status and the message
    that it has queued; the newest course of the helm is the queued message. The
    DCCL library that encodes the messages is an interface; what an exception
    of it does to the reader of the serial line is in the model. *)

From Stdlib Require Import SpecFloat.
From stdpp Require Import countable.
From S2P Require Import Prelude HexCodec Double Prog FrontSeatData FrontSeat WavegliderSerial.
#[local] Open Scope prog_scope.

(** ** Messages: waveglider_sv2_frontseat_driver.proto *)

Definition MESSAGE_TYPE_ACK : Z := 1.
Definition MESSAGE_TYPE_REQUEST_QUEUED_MESSAGE : Z := 0x40.
Definition BOARD_ID_CC : Z := 0.
Definition CCTASK_ID_MAIN : Z := 0.
Definition CCTASK_ID_COMMAND : Z := 1.

Record SV2Header : Type := MkSV2Header { start_of_frame : Z; message_size : Z; sv2_dest : Z; sv2_src : Z; transaction_id : Z; message_type : Z }.

Record CommandFollowFixedHeadingBody : Type := MkHeadingBody {
  level2id : Z; wgmsid : Z; data_size : Z; structure_id : Z; command_value : Z; reserved : Z; heading_degrees : Z; hb_latitude : Z; hb_longitude : Z; hb_crc16 : Z
}.

Inductive SV2Body : Type :=
| SV2RequestEnumerate (protocols_supported commands_supported : Z)
| SV2ReplyEnumerate (original_msg_type number_of_devices_responding number_of_devices_in_message version device_type board_addr : Z) (serial_number : bytes)
    (location polling_frequency extra_info firmware_major firmware_minor firmware_revision : Z) (description : bytes)
| SV2RequestStatus (time : bytes) (latitude longitude fix_valid : Z)
| SV2ReplyStatus (original_msg_type number_of_devices_responding number_of_devices_in_message version board_addr alarms leak_sensor_1 leak_sensor_2 humid_temp relative_humidity pressure_temp pressure : Z)
| SV2RequestQueuedMessage
| SV2ACKNAKQueuedMessage (command_format response_code response_message_length : Z)
| SV2GenericNAK (original_msg_type response_code : Z)
| SV2GenericACK (original_msg_type : Z)
| SV2CommandFollowFixedHeading (original_msg_type command_format : Z) (body : CommandFollowFixedHeadingBody).

(** a message with its header and the checksum of its footer *)
Record SV2Message : Type := MkSV2 { sv2_header : SV2Header; sv2_body : SV2Body; sv2_crc16 : Z }.
Definition set_crc (c : Z) (m : SV2Message) : SV2Message := MkSV2 (sv2_header m) (sv2_body m) c.
Definition set_message_size (n : Z) (m : SV2Message) : SV2Message :=
  let h := sv2_header m in MkSV2 (MkSV2Header (start_of_frame h) n (sv2_dest h) (sv2_src h) (transaction_id h) (message_type h)) (sv2_body m) (sv2_crc16 m).
Definition set_transaction_id (n : Z) (m : SV2Message) : SV2Message :=
  let h := sv2_header m in MkSV2 (MkSV2Header (start_of_frame h) (message_size h) (sv2_dest h) (sv2_src h) n (message_type h)) (sv2_body m) (sv2_crc16 m).

(** the types of messages the driver reads, by the identifiers of DCCL *)
Inductive SV2Type : Type := TRequestEnumerate | TRequestStatus | TRequestQueuedMessage | TACKNAKQueuedMessage | TGenericNAK | TGenericACK.
Definition type_of_id (dccl_id : Z) : option SV2Type :=
  if dccl_id =? 0x7E0010 then Some TRequestEnumerate
  else if dccl_id =? 0x7E0022 then Some TRequestStatus
  else if dccl_id =? 0x7E0040 then Some TRequestQueuedMessage
  else if dccl_id =? 0x7E0041 then Some TACKNAKQueuedMessage
  else if dccl_id =? 0x7E0000 then Some TGenericNAK
  else if dccl_id =? 0x7E0001 then Some TGenericACK
  else None.

(** waveglider_sv2_codecs.h: [SV2IdentifierCodec], of two bytes *)
Definition id_decode (b0 b1 : Z) : Z := 0x7E0000 + (b0 + Z.shiftl b1 8).
Definition id_encode (dccl_id : Z) : bytes := let v := dccl_id - 0x7E0000 in [Z.land v 255; Z.land (Z.shiftr v 8) 255].

(** the DCCL library with the codecs of the group SV2; [None] is an exception *)
Class SV2Dccl : Type := {
  dccl_encode : SV2Message -> option bytes;
  dccl_encode_body : CommandFollowFixedHeadingBody -> option bytes;
  dccl_size : SV2Message -> Z;
  dccl_decode : SV2Type -> bytes -> option SV2Message
}.

(** ** The driver *)

Record WavegliderSV2FrontSeatConfig : Type := MkWgConfig { board_id : Z; task_id : Z }.

(** [queued_messages_] is a circular buffer of one message *)
Record WavegliderSV2FrontSeat : Type := MkWg {
  wg_providing_data : bool;
  wg_last_data_time : double;
  wg_state : FrontSeatState;
  wg_serial : SV2Reader;
  wg_queued : option SV2Message
}.
Definition new_waveglider : WavegliderSV2FrontSeat := MkWg false (double_of_Z 0) FRONTSEAT_ACCEPTING_COMMANDS new_reader None.
Definition set_wg_serial (r : SV2Reader) (d : WavegliderSV2FrontSeat) : WavegliderSV2FrontSeat := MkWg (wg_providing_data d) (wg_last_data_time d) (wg_state d) r (wg_queued d).
Definition set_wg_queued (q : option SV2Message) (d : WavegliderSV2FrontSeat) : WavegliderSV2FrontSeat := MkWg (wg_providing_data d) (wg_last_data_time d) (wg_state d) (wg_serial d) q.
Definition set_wg_data (p : bool) (t : double) (d : WavegliderSV2FrontSeat) : WavegliderSV2FrontSeat := MkWg p t (wg_state d) (wg_serial d) (wg_queued d).

Definition wg_allowed_skew : Z := 30.
Definition BITS_IN_BYTE : Z := 8.

Section Waveglider.
Context {SD : SV2Dccl}.
Variable wcfg : WavegliderSV2FrontSeatConfig.

Abbreviation wprog := (prog WavegliderSV2FrontSeat FsEvent FsExn).

Definition wg_board_addr : Z := u32 (Z.lor (Z.shiftl (board_id wcfg) BITS_IN_BYTE) (task_id wcfg)).

Definition wg_header (task transaction : Z) : SV2Header :=
  MkSV2Header 0x7e 0 (Z.lor (Z.shiftl BOARD_ID_CC BITS_IN_BYTE) task) wg_board_addr transaction MESSAGE_TYPE_ACK.

(** the size does not count the magic byte and the two bytes that DCCL puts in front *)
Definition sized (m : SV2Message) : SV2Message := set_message_size (u32 (dccl_size m - 3)) m.

(** ** Checksums *)

Definition check_crc (message : bytes) (expected : Z) : bool := crc_compute message 1 (length message - 1 - 2) 0 =? expected.

(** the last two bytes *)
Definition add_crc (message : bytes) : bytes :=
  let calculated := crc_compute message 1 (length message - 1 - 2) 0 in
  take (length message - 2) message ++ [Z.land calculated 0xff; Z.land (Z.shiftr calculated BITS_IN_BYTE) 0xff].

(** the exceptions are caught; with less than three bytes the checksum is over what is behind them *)
Definition encode_and_write (message : SV2Message) : wprog unit :=
  match dccl_encode message with
  | None => pret tt
  | Some b =>
      let b := drop 2 b in
      if (length b <? 3)%nat then pthrow Undefined else pemit (WriteVehicle (add_escapes (add_crc b)))
  end.

(** ** Requests *)

Definition enumeration_reply (request : SV2Message) : SV2Message :=
  sized (MkSV2 (wg_header CCTASK_ID_MAIN (transaction_id (sv2_header request)))
    (SV2ReplyEnumerate (message_type (sv2_header request)) 1 1 1 0x1001 wg_board_addr (B "000001") 0 1 0x08 0 0 1 (B "iFrontSeat Driver" ++ repeat 0 3)) 0).
Definition handle_enumeration_request (request : SV2Message) : wprog unit := encode_and_write (enumeration_reply request).

(** bit 15 of the version tells that a message is queued *)
Definition status_reply (waiting : bool) (request : SV2Message) : SV2Message :=
  sized (MkSV2 (wg_header CCTASK_ID_MAIN (transaction_id (sv2_header request)))
    (SV2ReplyStatus (message_type (sv2_header request)) 1 1 (if waiting then 0x8001 else 0x0001) wg_board_addr 0 0 0 0 0 0 0) 0).
Definition handle_request_status (request : SV2Message) : wprog unit :=
  let! d := pget in encode_and_write (status_reply (match wg_queued d with Some _ => true | None => false end) request).

Definition handle_request_queued_message (request : SV2Message) : wprog unit :=
  let! d := pget in
  match wg_queued d with
  | Some reply => encode_and_write (set_transaction_id (transaction_id (sv2_header request)) reply) ;; pmod (set_wg_queued None)
  | None => pret tt
  end.

(** ** Commands *)

(** the conversion of a double to a [uint32] that has no value for it is undefined *)
Definition heading_body (heading crc : Z) : CommandFollowFixedHeadingBody := MkHeadingBody 0x0A 0xFFFFFFFF 18 0x10 0x0008 0 heading 0 0 crc.
Definition heading_command (request heading crc : Z) : SV2Message :=
  MkSV2 (wg_header CCTASK_ID_COMMAND (u32 request)) (SV2CommandFollowFixedHeading MESSAGE_TYPE_REQUEST_QUEUED_MESSAGE 0x0001 (heading_body heading crc)) 0.

Definition wg_send_command (command : CommandRequest) : wprog unit :=
  match cr_desired_course command with
  | Some course =>
      let heading := double_to_Z (value (dc_heading course)) in
      if (0 <=? heading) && (heading <? 2 ^ 32) then
        match dccl_encode_body (heading_body heading 0) with
        | None => pthrow StdException
        | Some b =>
            if (length b <? 2)%nat then pthrow StdException
            else
              let b := drop 2 b in
              let calculated := crc_compute b 0 (length b - 2) 0 in
              pmod (set_wg_queued (Some (sized (heading_command (request_id command) heading calculated))))
        end
      else pthrow Undefined
  | None => pret tt
  end.

(** ** Receiving *)

Definition decoded (type : SV2Type) (b : bytes) : wprog SV2Message := match dccl_decode type b with Some m => pret m | None => pthrow StdException end.

Definition handle_sv2_message (now : double) (message : bytes) : wprog unit :=
  if (length message <? 9)%nat then pthrow StdException
  else
    match take 2 (drop 9 message) ++ message with
    | b0 :: b1 :: rest =>
        let b1 := Z.land b1 0x7F in     (* without the bit that asks for no acknowledgement *)
        let b := b0 :: b1 :: rest in
        match type_of_id (id_decode b0 b1) with
        | Some TRequestEnumerate =>
            let! enum_msg := decoded TRequestEnumerate b in
            pret (check_crc message (sv2_crc16 enum_msg)) ;;   (* which is logged *)
            handle_enumeration_request enum_msg
        | Some TRequestStatus =>
            let! request := decoded TRequestStatus b in
            pmod (set_wg_data true now) ;;
            handle_request_status request
        | Some TRequestQueuedMessage => let! request := decoded TRequestQueuedMessage b in handle_request_queued_message request
        | Some TACKNAKQueuedMessage => decoded TACKNAKQueuedMessage b ;; pret tt
        | Some TGenericNAK => decoded TACKNAKQueuedMessage b ;; pret tt
        | Some TGenericACK => decoded TGenericACK b ;; pret tt
        | None => pret tt
        end
    | _ => pret tt
    end.

(** the next read is started behind the handler of the message *)
Definition wg_byte (now : double) (b : Z) : wprog unit :=
  let! d := pget in
  match receive_byte b (wg_serial d) with
  | None => pthrow Undefined
  | Some (r, None) => pmod (set_wg_serial r)
  | Some (r, Some message) => pmod (set_wg_serial r) ;; handle_sv2_message now message ;; pmod (set_wg_serial (read_start r))
  end.

Definition wg_loop (now : double) (received : bytes) : wprog unit :=
  pcatch (pfor received (wg_byte now)) (fun x => match x with Undefined | Died => None | _ => Some (pret tt) end) ;;
  let! d := pget in
  pwhen (dlt (dadd (wg_last_data_time d) (double_of_Z wg_allowed_skew)) now) (pmod (set_wg_data false (wg_last_data_time d))).

Definition waveglider_driver : FrontSeatDriver WavegliderSV2FrontSeat bytes := {|
  frontseat_state := wg_state;
  frontseat_providing_data := wg_providing_data;
  driver_loop now i _ := wg_loop now i;
  send_command_to_frontseat _ c := wg_send_command c;
  send_data_to_frontseat _ _ := pret tt;
  send_raw_to_frontseat _ _ := pret tt
|}.
#[local] Existing Instance waveglider_driver.

(** ** What is written arrives *)

Definition le16 (v : Z) : bytes := [Z.land v 255; Z.land (Z.shiftr v 8) 255].
Definition header_bytes (h : SV2Header) : bytes := start_of_frame h :: le16 (message_size h) ++ le16 (sv2_dest h) ++ le16 (sv2_src h) ++ le16 (transaction_id h) ++ le16 (message_type h).

(** the fields follow one another, of fixed size and with the least significant byte first; the identifier is in front *)
Class SV2DcclLaws : Prop := {
  encode_layout : forall m b, dccl_encode m = Some b -> exists prefix rest, length prefix = 2%nat /\
    forall c, dccl_encode (set_crc c m) = Some (prefix ++ header_bytes (sv2_header m) ++ rest ++ le16 c);
  encode_size : forall m b, dccl_encode m = Some b -> dccl_size m = Z.of_nat (length b);
  encode_max : forall m b, dccl_encode m = Some b -> (length b <= SV2_MAX_SIZE)%nat;
  size_fixed : forall n m, dccl_size (set_message_size n m) = dccl_size m /\ dccl_size (set_transaction_id n m) = dccl_size m
}.
Context {SL : SV2DcclLaws}.

(** the bytes of a message on the line, with the right checksum *)
Definition carries (m : SV2Message) (w : bytes) : Prop := exists prefix c, length prefix = 2%nat /\ dccl_encode (set_crc c m) = Some (prefix ++ w) /\ check_crc w c = true.

(** a message that can be sent, without the bytes of an escape in its header *)
Record sendable (m : SV2Message) : Prop := MkSendable {
  sd_encodes : is_Some (dccl_encode m);
  sd_magic : start_of_frame (sv2_header m) = SV2_MAGIC_BYTE;
  sd_size : message_size (sv2_header m) = u32 (dccl_size m - 3);
  sd_quiet : distinct_escapes (header_bytes (sv2_header m)) None;
  sd_type : message_type (sv2_header m) = MESSAGE_TYPE_ACK
}.

Lemma sized_sendable m : start_of_frame (sv2_header m) = SV2_MAGIC_BYTE -> message_type (sv2_header m) = MESSAGE_TYPE_ACK -> is_Some (dccl_encode (sized m)) -> distinct_escapes (header_bytes (sv2_header (sized m))) None -> sendable (sized m).
Proof. intros Hm Ht He Hd. split; try done. unfold sized. cbn. by rewrite (proj1 (size_fixed _ _)). Qed.

Lemma command_sendable n m : start_of_frame (sv2_header m) = SV2_MAGIC_BYTE -> message_type (sv2_header m) = MESSAGE_TYPE_ACK -> is_Some (dccl_encode (set_transaction_id n (sized m))) ->
  distinct_escapes (header_bytes (sv2_header (set_transaction_id n (sized m)))) None -> sendable (set_transaction_id n (sized m)).
Proof. intros Hm Ht He Hd. split; try done. rewrite (proj2 (size_fixed _ _)). unfold sized. cbn. by rewrite (proj1 (size_fixed _ _)). Qed.

Lemma le16_back v : 0 <= v < 2 ^ 16 -> Z.lor (Z.land (nth 0 (le16 v) 0) 255) (Z.shiftl (Z.land (nth 1 (le16 v) 0) 255) 8) = v.
Proof.
  intros Hv. cbn [nth le16]. apply Z.bits_inj'. intros k Hk. change 255 with (Z.ones 8). rewrite Z.lor_spec, Z.shiftl_spec, !Z.land_spec by done.
  destruct (Z.ltb_spec k 8) as [H|H].
  - rewrite Z.ones_spec_low by lia. rewrite !andb_true_r. rewrite !(Z.testbit_neg_r _ (k - 8)) by lia. cbn. by rewrite orb_false_r.
  - rewrite (Z.ones_spec_high 8 k) by lia. rewrite !andb_false_r. cbn [orb]. rewrite Z.shiftr_spec by lia. replace (k - 8 + 8) with k by lia.
    destruct (Z.ltb_spec k 16) as [H2|H2]; [rewrite Z.ones_spec_low by lia; by rewrite !andb_true_r|].
    rewrite (Z.ones_spec_high 8 (k - 8)) by lia. rewrite !andb_false_r. rewrite <- (Z.mod_small v (2 ^ 16)) by lia. by rewrite Z.mod_pow2_bits_high by lia.
Qed.

Lemma crc_front f c c' : (1 <= length f)%nat -> crc_compute (f ++ le16 c) 1 (length (f ++ le16 c) - 1 - 2) 0 = crc_compute (f ++ le16 c') 1 (length (f ++ le16 c') - 1 - 2) 0.
Proof.
  intros Hf. unfold crc_compute. rewrite !length_app. cbn [length le16]. replace (length f + 2 - 1 - 2)%nat with (length f - 1)%nat by lia. f_equal.
  rewrite !drop_app_le by lia. by rewrite !take_app_length' by (rewrite length_drop; lia).
Qed.

(** a message that is sent arrives as it is, with its checksum *)
Lemma write_arrives m d : sendable m -> exists w, encode_and_write m d = (d, [WriteVehicle (add_escapes w)], Ok tt) /\ carries m w /\ framed w.
Proof.
  intros [[b Hb] Hma Hsz Hq Hty]. destruct (encode_layout m b Hb) as (prefix & rest & Hpre & Hall).
  set (f := header_bytes (sv2_header m) ++ rest).
  assert (Eb : b = prefix ++ f ++ le16 (sv2_crc16 m)).
  { specialize (Hall (sv2_crc16 m)). replace (set_crc (sv2_crc16 m) m) with m in Hall by (by destruct m). rewrite Hb in Hall. injection Hall as ->. unfold f. by rewrite <- app_assoc. }
  assert (Hf : (11 <= length f)%nat) by (unfold f; rewrite length_app; cbn; lia).
  set (c := crc_compute (f ++ le16 (sv2_crc16 m)) 1 (length (f ++ le16 (sv2_crc16 m)) - 1 - 2) 0). set (w := f ++ le16 c).
  assert (Hd : drop 2 b = f ++ le16 (sv2_crc16 m)) by (rewrite Eb, <- Hpre; apply drop_app_length).
  assert (Hadd : add_crc (drop 2 b) = w).
  { rewrite Hd. unfold add_crc. fold c. rewrite length_app. cbn [length le16]. replace (length f + 2 - 2)%nat with (length f) by lia. by rewrite take_app_length. }
  assert (Hlw : (length w = length b - 2)%nat) by (rewrite Eb; unfold w; rewrite !length_app, Hpre; cbn; lia). pose proof (encode_max m b Hb) as Hmax. pose proof (encode_size m b Hb) as Hs.
  assert (Hlb : length b = (2 + length f + 2)%nat) by (rewrite Eb, !length_app, Hpre; cbn; lia).
  exists w. split; [|split].
  - unfold encode_and_write. rewrite Hb. rewrite (proj2 (Nat.ltb_ge _ _)) by (rewrite Hd, length_app; lia). by rewrite Hadd.
  - exists prefix, c. split; [done|]. split; [unfold w, f; rewrite <- app_assoc; apply Hall|]. unfold check_crc. apply Z.eqb_eq. unfold w. apply (crc_front f c (sv2_crc16 m)). lia.
  - assert (Hw : exists header, w = SV2_MAGIC_BYTE :: header ++ rest ++ le16 c /\ header_bytes (sv2_header m) = SV2_MAGIC_BYTE :: header /\ length header = 10%nat).
    { unfold w, f, header_bytes. rewrite Hma. eexists. split; [rewrite <- app_assoc; reflexivity | done]. }
    destruct Hw as (header & Ew & Eh & Hl). split.
    + exists header, (rest ++ le16 c). split; [done|]. split; [by rewrite Hl|]. rewrite <- Eh. unfold header_bytes in *. rewrite Hty in *. destruct Hq as [Hq1 Hq2]. split; [exact Hq1 | exact Hq2].
    + assert (Hms : message_size (sv2_header m) = Z.of_nat (length w) - 1). { rewrite Hsz, Hs, Hlw. unfold u32. rewrite wrap_small; [lia|]. unfold SV2_MAX_SIZE in Hmax. lia. }
      assert (Hso : size_of w = message_size (sv2_header m)).
      { assert (Hr : 0 <= message_size (sv2_header m) < 2 ^ 16) by (unfold SV2_MAX_SIZE in Hmax; lia). exact (le16_back _ Hr). }
      rewrite Hso, Hms. lia.
    + rewrite Ew, add_escapes_magic. cbn [length]. pose proof (escape_twice_length (header ++ rest ++ le16 c)) as H2. rewrite Ew in Hlw. cbn [length] in Hlw. unfold SV2_MAX_SIZE in Hmax. assert (message_capacity = 1114)%nat by done. lia.
Qed.

(** ** The handlers do not touch the reader *)

Definition blind {A} (m : wprog A) : Prop := forall r d, m (set_wg_serial r d) = (set_wg_serial r (fst (fst (m d))), snd (fst (m d)), snd (m d)).

Lemma blind_ret {A} (a : A) : blind (pret a).
Proof. done. Qed.
Lemma blind_throw {A} x : blind (@pthrow _ _ _ A x).
Proof. done. Qed.
Lemma blind_emit e : blind (pemit e).
Proof. done. Qed.
Lemma blind_queued q : blind (pmod (set_wg_queued q)).
Proof. done. Qed.
Lemma blind_data p t : blind (pmod (set_wg_data p t)).
Proof. done. Qed.
Lemma blind_bind {A C} (m : wprog A) (k : A -> wprog C) : blind m -> (forall a, blind (k a)) -> blind (pbind m k).
Proof.
  intros Hm Hk r d. unfold pbind. rewrite (Hm r d). destruct (m d) as [[d1 e1] [a|x]]; [|done]. cbn. rewrite (Hk a r d1). by destruct (k a d1) as [[d2 e2] y].
Qed.
Lemma blind_get {A} (k : WavegliderSV2FrontSeat -> wprog A) : (forall r d, k (set_wg_serial r d) = k d) -> (forall d, blind (k d)) -> blind (pbind pget k).
Proof. intros He Hk r d. rewrite !pbind_get, He. apply Hk. Qed.
Lemma blind_for {A} (l : list A) body : (forall x, blind (body x)) -> blind (pfor l body).
Proof. intros Hb. induction l as [|x l IH]; [apply blind_ret | by apply blind_bind]. Qed.

Lemma blind_write m : blind (encode_and_write m).
Proof. unfold encode_and_write. destruct (dccl_encode m); [|apply blind_ret]. destruct (_ <? _)%nat; [apply blind_throw | apply blind_emit]. Qed.
Lemma blind_decoded t b : blind (decoded t b).
Proof. unfold decoded. destruct (dccl_decode t b); [apply blind_ret | apply blind_throw]. Qed.

Lemma blind_handle now m : blind (handle_sv2_message now m).
Proof.
  unfold handle_sv2_message. destruct (_ <? _)%nat; [apply blind_throw|]. destruct (_ ++ _) as [|b0 [|b1 rest]]; [apply blind_ret..|].
  assert (Hq : forall rq, blind (handle_request_queued_message rq)).
  { intros rq. apply blind_get; [done|]. intros d. destruct (wg_queued d); [|apply blind_ret]. apply blind_bind; [apply blind_write | intros; apply blind_queued]. }
  destruct (type_of_id _) as [[]|]; try (apply blind_bind; [apply blind_decoded | intros rq]); try apply blind_ret; try apply Hq.
  - apply blind_bind; [apply blind_ret | intros; apply blind_write].
  - apply blind_bind; [apply blind_data | intros]. apply blind_get; [done | intros; apply blind_write].
Qed.

(** the messages of a stream are handled in their order *)
Lemma stream_handled now bs : forall d r' ms d' evs, receive_stream bs (wg_serial d) = Some (r', ms) -> pfor ms (handle_sv2_message now) d = (d', evs, Ok tt) ->
  pfor bs (wg_byte now) d = (set_wg_serial r' d', evs, Ok tt).
Proof.
  induction bs as [|b bs IH]; cbn [receive_stream]; intros d r' ms d' evs Hs Hm.
  - injection Hs as <- <-. injection Hm as <- <-. by destruct d.
  - destruct (receive_byte b (wg_serial d)) as [[r1 m1]|] eqn:Hb; [|done]. cbn [pfor].
    destruct (receive_stream bs _) as [[r2 ms2]|] eqn:Hs2; [|done]. injection Hs as -> <-.
    destruct m1 as [m|].
    + change (pbind (handle_sv2_message now m) (fun _ => pfor ms2 (handle_sv2_message now)) d = (d', evs, Ok tt)) in Hm. unfold pbind in Hm. destruct (handle_sv2_message now m d) as [[d1 e1] [[]|x]] eqn:Hh; [|done]. destruct (pfor ms2 (handle_sv2_message now) d1) as [[d2 e2] r2] eqn:Hf. injection Hm as <- <- ->.
      assert (H1 : wg_byte now b d = (set_wg_serial (read_start r1) d1, e1, Ok tt)).
      { unfold wg_byte. rewrite pbind_get, Hb, pbind_mod. unfold pbind. rewrite (blind_handle now m r1 d), Hh. cbn. by rewrite app_nil_r. }
      rewrite (pbind_ok _ _ _ _ _ _ H1). rewrite (IH (set_wg_serial (read_start r1) d1) r' ms2 (set_wg_serial (read_start r1) d2) e2); [done | done |].
      rewrite (blind_for ms2 _ (blind_handle now) (read_start r1) d1), Hf. done.
    + change (option_list None ++ ms2) with ms2 in Hm. assert (H1 : wg_byte now b d = (set_wg_serial r1 d, [], Ok tt)) by (unfold wg_byte; by rewrite pbind_get, Hb).
      rewrite (pbind_ok _ _ _ _ _ _ H1). rewrite (IH (set_wg_serial r1 d) r' ms2 (set_wg_serial r1 d') evs); [done | done |].
      rewrite (blind_for ms2 _ (blind_handle now) r1 d), Hm. done.
Qed.

(** ** The vehicle fetches a course *)

(** a message on the line that the driver decodes as a request *)
Record requests (type : SV2Type) (message : bytes) (request : SV2Message) : Prop := MkRequests {
  rq_framed : framed message;
  rq_type : exists b0 b1 rest, take 2 (drop 9 message) ++ message = b0 :: b1 :: rest /\ type_of_id (id_decode b0 (Z.land b1 0x7F)) = Some type /\ dccl_decode type (b0 :: Z.land b1 0x7F :: rest) = Some request
}.

Lemma requests_long type message request : requests type message request -> (length message <? 9)%nat = false.
Proof. intros [[(h & b & -> & Hl & _) _ _] _]. apply Nat.ltb_ge. cbn [length]. rewrite length_app. unfold SV2_HEADER_SIZE in Hl. lia. Qed.

(** A course of the helm is queued for the Wave Glider: when the vehicle then asks for the
    status and for the queued message, the driver writes two frames, whose reader at the vehicle
    receives them with right checksums: the status that tells of a queued message, and the command
    with the heading of the course, the checksum of its body and the identifier of the transaction
    that asked for it; the queue is then empty and the driver provides data. *)
Lemma waveglider_course_fetched (d : WavegliderSV2FrontSeat) (command : CommandRequest) (course : DesiredCourse) (heading : Z) (body status queued : bytes) (rq_status rq_queued : SV2Message) (now : double) (vehicle : SV2Reader) :
  ready (wg_serial d) -> ready vehicle -> cr_desired_course command = Some course -> double_to_Z (value (dc_heading course)) = heading -> 0 <= heading < 2 ^ 32 ->
  dccl_encode_body (heading_body heading 0) = Some body -> (2 <= length body)%nat ->
  requests TRequestStatus status rq_status -> requests TRequestQueuedMessage queued rq_queued ->
  let cmd := set_transaction_id (transaction_id (sv2_header rq_queued)) (sized (heading_command (request_id command) heading (crc_compute (drop 2 body) 0 (length body - 4) 0))) in
  (forall m, m = status_reply true rq_status \/ m = cmd -> is_Some (dccl_encode m) /\ distinct_escapes (header_bytes (sv2_header m)) None) -> dlt (dadd now (double_of_Z wg_allowed_skew)) now = false ->
  exists d1 d2 w1 w2 vehicle', wg_send_command command d = (d1, [], Ok tt) /\
    wg_loop now (add_escapes status ++ add_escapes queued) d1 = (d2, [WriteVehicle (add_escapes w1); WriteVehicle (add_escapes w2)], Ok tt) /\
    carries (status_reply true rq_status) w1 /\ carries cmd w2 /\
    receive_stream (add_escapes w1 ++ add_escapes w2) vehicle = Some (vehicle', [w1; w2]) /\
    wg_queued d2 = None /\ wg_providing_data d2 = true /\ ready (wg_serial d2).
Proof.
  intros Hr Hv Hc Hh Hrange Hb Hlb Hst Hqu cmd Hs Hnow. destruct (Hs _ (or_introl eq_refl)) as [He1 Hd1]. destruct (Hs _ (or_intror eq_refl)) as [He2 Hd2].
  assert (Hs1 : sendable (status_reply true rq_status)) by (by apply sized_sendable). assert (Hs2 : sendable cmd) by (by apply command_sendable).
  set (queued_cmd := sized (heading_command (request_id command) heading (crc_compute (drop 2 body) 0 (length body - 4) 0))) in *. set (d1 := set_wg_queued (Some queued_cmd) d).
  assert (H1 : wg_send_command command d = (d1, [], Ok tt)).
  { unfold wg_send_command. rewrite Hc, Hh. rewrite (proj2 (Z.leb_le _ _)), (proj2 (Z.ltb_lt _ _)) by lia. cbn [andb]. rewrite Hb. rewrite (proj2 (Nat.ltb_ge _ _)) by lia. rewrite length_drop.
    replace (length body - 2 - 2)%nat with (length body - 4)%nat by lia. done. }
  destruct (write_arrives (status_reply true rq_status) (set_wg_data true now d1) Hs1) as (w1 & E1 & C1 & F1). destruct (write_arrives cmd (set_wg_data true now d1) Hs2) as (w2 & E2 & C2 & F2).
  set (d2 := set_wg_queued None (set_wg_data true now d1)).
  assert (Hh1 : handle_sv2_message now status d1 = (set_wg_data true now d1, [WriteVehicle (add_escapes w1)], Ok tt)).
  { unfold handle_sv2_message. rewrite (requests_long _ _ _ Hst). destruct Hst as [_ (b0 & b1 & rest & -> & Ht & Hd)]. rewrite Ht. unfold decoded. rewrite Hd. unfold pbind at 1. cbn [pret]. rewrite pbind_mod. unfold handle_request_status. rewrite pbind_get. cbn [wg_queued set_wg_data d1 set_wg_queued].
    rewrite E1. done. }
  assert (Hh2 : handle_sv2_message now queued (set_wg_data true now d1) = (d2, [WriteVehicle (add_escapes w2)], Ok tt)).
  { unfold handle_sv2_message. rewrite (requests_long _ _ _ Hqu). destruct Hqu as [_ (b0 & b1 & rest & -> & Ht & Hd)]. rewrite Ht. unfold decoded. rewrite Hd. unfold pbind at 1. cbn [pret]. unfold handle_request_queued_message. rewrite pbind_get.
    cbn [wg_queued set_wg_data d1 set_wg_queued]. fold cmd. rewrite (pbind_ok _ _ _ _ _ _ E2). done. }
  destruct (frame_read status (add_escapes queued ++ []) (wg_serial d1) Hr (rq_framed _ _ _ Hst)) as (r1 & Hr1 & S1). destruct (frame_read queued [] r1 Hr1 (rq_framed _ _ _ Hqu)) as (r2 & Hr2 & S2).
  rewrite S2 in S1. cbn in S1. rewrite !app_nil_r in S1.
  destruct (frame_read w1 (add_escapes w2 ++ []) vehicle Hv F1) as (v1 & Hv1 & V1). destruct (frame_read w2 [] v1 Hv1 F2) as (v2 & Hv2 & V2). rewrite V2 in V1. cbn in V1. rewrite !app_nil_r in V1.
  assert (Hl : pfor (add_escapes status ++ add_escapes queued) (wg_byte now) d1 = (set_wg_serial r2 d2, [WriteVehicle (add_escapes w1); WriteVehicle (add_escapes w2)], Ok tt)).
  { apply (stream_handled now _ d1 r2 [status; queued] d2); [exact S1|]. cbn [pfor]. rewrite (pbind_ok _ _ _ _ _ _ Hh1), (pbind_ok _ _ _ _ _ _ Hh2). done. }
  exists d1, (set_wg_serial r2 d2), w1, w2, v2. split; [done|]. split; [|split; [done | split; [done | split; [done | done]]]].
  unfold wg_loop. unfold pbind at 1. unfold pcatch. rewrite Hl. rewrite pbind_get. cbn [wg_last_data_time set_wg_serial d2 set_wg_queued set_wg_data]. rewrite Hnow. done.
Qed.

(** ** A message that cannot be decoded *)

(** no read is pending, and none will be *)
Definition deaf (d : WavegliderSV2FrontSeat) : Prop := r_part (wg_serial d) = NoRead.

Lemma pfor_app_ok {A} (l1 l2 : list A) (body : A -> wprog unit) d d1 e1 : pfor l1 body d = (d1, e1, Ok tt) -> pfor (l1 ++ l2) body d = (let '(d2, e2, x) := pfor l2 body d1 in (d2, e1 ++ e2, x)).
Proof.
  revert d e1. induction l1 as [|x l1 IH]; intros d e1; cbn [pfor app]; [intros [= -> <-]; by destruct (pfor l2 body d1) as [[d2 e2] y]|]. unfold pbind. destruct (body x d) as [[d3 e3] [[]|z]]; [|done].
  destruct (pfor l1 body d3) as [[d4 e4] [[]|z]] eqn:E; [|done]. intros [= -> <-]. rewrite (IH d3 e4 E). destruct (pfor l2 body d1) as [[d2 e2] y]. by rewrite app_assoc.
Qed.

Lemma deaf_byte now b d : deaf d -> wg_byte now b d = (d, [], Ok tt).
Proof.
  intros Hd. unfold wg_byte. rewrite pbind_get. assert (receive_byte b (wg_serial d) = Some (wg_serial d, None)) as -> by (unfold receive_byte; by rewrite Hd). by destruct d.
Qed.
Lemma deaf_bytes now bs d : deaf d -> pfor bs (wg_byte now) d = (d, [], Ok tt).
Proof. intros Hd. induction bs as [|b bs IH]; [done|]. cbn [pfor]. by rewrite (pbind_ok _ _ _ _ _ _ (deaf_byte now b d Hd)), IH. Qed.

Lemma deaf_rounds rounds d : deaf d -> exists d', pfor rounds (fun r => wg_loop (fst r) (snd r)) d = (d', [], Ok tt) /\ deaf d' /\ wg_last_data_time d' = wg_last_data_time d.
Proof.
  revert d. induction rounds as [|[now bs] rounds IH]; intros d Hd; [by exists d|]. cbn [pfor fst snd].
  assert (H : exists d1, wg_loop now bs d = (d1, [], Ok tt) /\ deaf d1 /\ wg_last_data_time d1 = wg_last_data_time d).
  { unfold wg_loop. unfold pbind at 1. unfold pcatch. rewrite (deaf_bytes now bs d Hd). rewrite pbind_get. unfold pwhen. destruct (dlt _ _); [by exists (set_wg_data false (wg_last_data_time d) d) | by exists d]. }
  destruct H as (d1 & H1 & Hd1 & Ht). destruct (IH d1 Hd1) as (d2 & H2 & Hd2 & Ht2). exists d2. rewrite (pbind_ok _ _ _ _ _ _ H1), H2. by rewrite Ht2, Ht.
Qed.

(** what the driver decodes a message of a type as *)
Definition decoded_as (type : SV2Type) : SV2Type := match type with TGenericNAK => TACKNAKQueuedMessage | t => t end.

(** C24: A complete frame, read while the driver waits for one, with the identifier of a known type
    as which DCCL cannot decode it (a generic NAK is decoded as the longer acknowledgement of a
    queued message), ends the round without an answer, and the driver never reads the serial line
    again: whatever bytes arrive in any number of later rounds, nothing is written and the time of
    the last data stays. *)
Theorem undecodable_message_deafens (d : WavegliderSV2FrontSeat) (message more : bytes) (b0 b1 : Z) (rest : bytes) (type : SV2Type) (now : double) (rounds : list (double * bytes)) :
  ready (wg_serial d) -> framed message -> take 2 (drop 9 message) ++ message = b0 :: b1 :: rest -> type_of_id (id_decode b0 (Z.land b1 0x7F)) = Some type ->
  dccl_decode (decoded_as type) (b0 :: Z.land b1 0x7F :: rest) = None ->
  exists d' d'', wg_loop now (add_escapes message ++ more) d = (d', [], Ok tt) /\ deaf d' /\
    pfor rounds (fun r => wg_loop (fst r) (snd r)) d' = (d'', [], Ok tt) /\ deaf d'' /\ wg_last_data_time d'' = wg_last_data_time d.
Proof.
  intros Hr Hf Hm Ht Hd.
  destruct (frame_read message [] (wg_serial d) Hr Hf) as (r2 & _ & Hs). rewrite app_nil_r in Hs. cbn in Hs. destruct (first_message _ _ _ _ _ Hs) as (pre & b & post & r1 & r' & Eb & Hp & Hb).
  assert (Hlen : (length message <? 9)%nat = false) by (destruct Hf as [(h & bd & -> & Hl & _) _ _]; apply Nat.ltb_ge; cbn [length]; rewrite length_app; unfold SV2_HEADER_SIZE in Hl; lia).
  assert (Hh : handle_sv2_message now message (set_wg_serial r' (set_wg_serial r1 d)) = (set_wg_serial r' (set_wg_serial r1 d), [], Err StdException)).
  { unfold handle_sv2_message. rewrite Hlen, Hm, Ht. destruct type; cbn [decoded_as] in Hd; unfold decoded; by rewrite Hd. }
  set (d1 := set_wg_serial r' (set_wg_serial r1 d)) in *.
  assert (Hb1 : wg_byte now b (set_wg_serial r1 d) = (d1, [], Err StdException)) by (unfold wg_byte; rewrite pbind_get; cbn [wg_serial set_wg_serial]; rewrite Hb, pbind_mod; fold d1; by rewrite (pbind_err _ _ _ _ _ _ Hh)).
  assert (Hl : pfor (add_escapes message ++ more) (wg_byte now) d = (d1, [], Err StdException)).
  { rewrite Eb, <- app_assoc. cbn [app]. rewrite (pfor_app_ok pre _ (wg_byte now) d _ _ (stream_handled now pre d r1 [] d [] Hp eq_refl)). cbn [pfor]. by rewrite (pbind_err _ _ _ _ _ _ Hb1). }
  assert (Hdeaf : deaf d1) by (exact (byte_message _ _ _ _ Hb)).
  assert (Hw : exists d', wg_loop now (add_escapes message ++ more) d = (d', [], Ok tt) /\ deaf d' /\ wg_last_data_time d' = wg_last_data_time d).
  { unfold wg_loop. unfold pbind at 1. unfold pcatch. rewrite Hl. cbn [pret]. rewrite pbind_get. unfold pwhen. destruct (dlt _ _); [by exists (set_wg_data false (wg_last_data_time d1) d1) | by exists d1]. }
  destruct Hw as (d' & Hw & Hd' & Ht1). destruct (deaf_rounds rounds d' Hd') as (d'' & Hro & Hd'' & Ht2). exists d', d''. by rewrite Ht2, Ht1.
Qed.

End Waveglider.

(** ** Evaluation *)

Module WavegliderWitness.

(** the two numbers of the messages that matter here, and the header *)
Definition body_bytes (b : SV2Body) : bytes :=
  match b with SV2ReplyStatus _ _ _ version _ _ _ _ _ _ _ _ => le16 version | SV2CommandFollowFixedHeading _ _ body => le16 (heading_degrees body) | _ => [] end.
Definition encode (m : SV2Message) : bytes := [1; 1] ++ header_bytes (sv2_header m) ++ body_bytes (sv2_body m) ++ le16 (sv2_crc16 m).

(** a request is decoded when it has 15 bytes *)
#[local] Instance dccl : SV2Dccl := {|
  dccl_encode m := Some (encode m);
  dccl_encode_body b := Some ([1; 1] ++ le16 (heading_degrees b) ++ le16 (hb_crc16 b));
  dccl_size m := Z.of_nat (length (encode m));
  dccl_decode _ b := match b with
    | [t1; t2; m; s1; s2; d1; d2; r1; r2; i1; i2; _; _; c1; c2] =>
        Some (MkSV2 (MkSV2Header m (s1 + 256 * s2) (d1 + 256 * d2) (r1 + 256 * r2) (i1 + 256 * i2) (t1 + 256 * t2)) SV2RequestQueuedMessage (c1 + 256 * c2))
    | _ => None
    end
|}.
#[local] Instance dccl_laws : SV2DcclLaws.
Proof.
  split.
  - intros m b _. exists [1; 1], (body_bytes (sv2_body m)). split; [done|]. intros c. done.
  - by intros m b [= <-].
  - intros m b [= <-]. unfold encode, SV2_MAX_SIZE. rewrite !length_app. destruct (sv2_body m); cbn; lia.
  - by intros n [h b c].
Qed.

Definition cfg : WavegliderSV2FrontSeatConfig := MkWgConfig 3 1.
Definition request (id type : Z) (rest : bytes) : bytes := [0x7e; 10 + Z.of_nat (length rest); 0; 1; 3; 0; 0; id; 0; type; 0x80] ++ rest.
Definition to_east : CommandRequest := MkRequest (Some (MkCourse None (Some (double_of_Z 90)) None None None None None None)) (Some true) (Some 7) None None None.

Lemma framed_by header body : (Z.of_nat (length header) =? SV2_HEADER_SIZE) && quiet SV2_ESCAPE 0x5D (SV2_MAGIC_BYTE :: header) (head body) && quiet SV2_ESCAPE 0x5E (SV2_MAGIC_BYTE :: header) (head body) &&
  (size_of (SV2_MAGIC_BYTE :: header ++ body) + 1 =? Z.of_nat (length (SV2_MAGIC_BYTE :: header ++ body))) && (length (add_escapes (SV2_MAGIC_BYTE :: header ++ body)) <=? message_capacity)%nat = true ->
  framed (SV2_MAGIC_BYTE :: header ++ body).
Proof.
  rewrite !andb_true_iff. intros [[[[H1 H2] H3] H4] H5]. split; [|by apply Z.eqb_eq in H4 | by apply Nat.leb_le in H5]. exists header, body. split; [done|]. split; [by apply Z.eqb_eq in H1 | by split].
Qed.
Lemma request5 : framed (request 5 0x22 [1; 2]).
Proof. apply (framed_by [12; 0; 1; 3; 0; 0; 5; 0; 0x22; 0x80] [1; 2]). vm_compute. reflexivity. Qed.
Lemma request6 : framed (request 6 0x40 [3; 4]).
Proof. apply (framed_by [12; 0; 1; 3; 0; 0; 6; 0; 0x40; 0x80] [3; 4]). vm_compute. reflexivity. Qed.

(** a course to the east, fetched with the requests 5 and 6 *)
Example waveglider_course_fetched_witness : exists d1 d2 w1 w2 vehicle',
  wg_send_command cfg to_east new_waveglider = (d1, [], Ok tt) /\
  wg_loop cfg (double_of_Z 1000) (add_escapes (request 5 0x22 [1; 2]) ++ add_escapes (request 6 0x40 [3; 4])) d1 = (d2, [WriteVehicle (add_escapes w1); WriteVehicle (add_escapes w2)], Ok tt) /\
  receive_stream (add_escapes w1 ++ add_escapes w2) new_reader = Some (vehicle', [w1; w2]) /\ wg_queued d2 = None.
Proof.
  destruct (waveglider_course_fetched cfg new_waveglider to_east (MkCourse None (Some (double_of_Z 90)) None None None None None None) 90 [1; 1; 90; 0; 0; 0] (request 5 0x22 [1; 2]) (request 6 0x40 [3; 4])
    (MkSV2 (MkSV2Header 0x7e 12 769 0 5 0x22) SV2RequestQueuedMessage 513) (MkSV2 (MkSV2Header 0x7e 12 769 0 6 0x40) SV2RequestQueuedMessage 1027) (double_of_Z 1000) new_reader)
    as (d1 & d2 & w1 & w2 & v & H1 & H2 & _ & _ & H3 & H4 & _).
  - reflexivity.
  - reflexivity.
  - reflexivity.
  - vm_compute. reflexivity.
  - lia.
  - reflexivity.
  - cbn. lia.
  - split; [exact request5|]. eexists _, _, _. split; [reflexivity|]. split; vm_compute; reflexivity.
  - split; [exact request6|]. eexists _, _, _. split; [reflexivity|]. split; vm_compute; reflexivity.
  - intros m [-> | ->]; (split; [by eexists|]); split; vm_compute; reflexivity.
  - vm_compute. reflexivity.
  - exists d1, d2, w1, w2, v. split; [exact H1|]. split; [exact H2|]. split; [exact H3 | exact H4].
Qed.

(** a status request that is one byte short ends the reception *)
Lemma undecodable_message_deafens_witness : exists d' d'',
  wg_loop cfg (double_of_Z 1000) (add_escapes (request 5 0x22 [1; 2; 3]) ++ add_escapes (request 6 0x22 [3; 4])) new_waveglider = (d', [], Ok tt) /\ deaf d' /\
  pfor [(double_of_Z 2000, add_escapes (request 7 0x22 [3; 4]))] (fun r => wg_loop cfg (fst r) (snd r)) d' = (d'', [], Ok tt) /\ deaf d''.
Proof.
  destruct (undecodable_message_deafens cfg new_waveglider (request 5 0x22 [1; 2; 3]) (add_escapes (request 6 0x22 [3; 4])) 0x22 0x80 (request 5 0x22 [1; 2; 3]) TRequestStatus (double_of_Z 1000)
    [(double_of_Z 2000, add_escapes (request 7 0x22 [3; 4]))]) as (d' & d'' & H1 & H2 & H3 & H4 & _).
  - reflexivity.
  - apply (framed_by [13; 0; 1; 3; 0; 0; 5; 0; 0x22; 0x80] [1; 2; 3]). vm_compute. reflexivity.
  - reflexivity.
  - vm_compute. reflexivity.
  - reflexivity.
  - exists d', d''. split; [exact H1|]. split; [exact H2|]. split; [exact H3 | exact H4].
Defined.

End WavegliderWitness.
