(* ===== verification/MoosMessage.v ===== *)
(** * moos/moos_protobuf_helpers.h: messages and the Protobuf techniques

    A message is seen through protobuf's reflection: a descriptor lists its
    fields, the message has the values of each field (none or one where the
    field is not repeated). Protobuf's encodings are an interface with their
    round trips. On top of them are the hexadecimal and the prefixed techniques
    and the functions that every MOOS application calls. *)

From Stdlib Require Import SpecFloat.
From S2P Require Import Prelude HexCodec Double Time As Proto MoosString MessageVal.

(** ** Descriptors and messages *)

#[warnings="-register-all"]
Inductive Val : Type :=
| VInt (z : Z) | VBool (b : bool) | VString (s : bytes) | VReal (d : double) | VEnum (name : bytes) | VMsg (m : list (list Val)).

Inductive FieldType : Type :=
| TInt32 | TInt64 | TUInt32 | TUInt64 | TBool | TString | TBytes | TFloat | TDouble
| TEnum (values : list bytes)
| TMessage (d : Descriptor)
with Descriptor : Type := MkDescriptor (full_name : bytes) (fields : list FieldDescriptor)
with FieldDescriptor : Type := MkField (number : Z) (name : bytes) (is_repeated : bool) (type : FieldType) (default_value : Val).

Abbreviation Message := (list (list Val)).

Definition full_name (d : Descriptor) : bytes := let 'MkDescriptor n _ := d in n.
Definition fields (d : Descriptor) : list FieldDescriptor := let 'MkDescriptor _ f := d in f.
Definition fd_number (f : FieldDescriptor) : Z := let 'MkField n _ _ _ _ := f in n.
Definition fd_name (f : FieldDescriptor) : bytes := let 'MkField _ n _ _ _ := f in n.
Definition is_repeated (f : FieldDescriptor) : bool := let 'MkField _ _ r _ _ := f in r.
Definition fd_type (f : FieldDescriptor) : FieldType := let 'MkField _ _ _ t _ := f in t.
Definition fd_default (f : FieldDescriptor) : Val := let 'MkField _ _ _ _ v := f in v.

Definition new_message (d : Descriptor) : Message := replicate (length (fields d)) [].

(** the values of the field at a position of the descriptor *)
Definition values (m : Message) (i : nat) : list Val := default [] (m !! i).

(** [FindFieldByNumber], with the position of the field *)
Fixpoint find_number (n : Z) (i : nat) (l : list FieldDescriptor) : option (nat * FieldDescriptor) :=
  match l with
  | [] => None
  | f :: l => if fd_number f =? n then Some (i, f) else find_number n (S i) l
  end.
Definition FindFieldByNumber (d : Descriptor) (n : Z) : option (nat * FieldDescriptor) := find_number n 0 (fields d).

(** the value of a field that is not repeated; its default when it is not set *)
Definition get_value (m : Message) (i : nat) (f : FieldDescriptor) : Val := default (fd_default f) (head (values m i)).

(** ** Protobuf's encodings *)

Class ProtobufText : Type := {
  SerializeAsString : Descriptor -> Message -> bytes;
  ParseFromString : Descriptor -> bytes -> Message;
  TextPrint : Descriptor -> Message -> bytes;      (* in a single line *)
  TextParse : Descriptor -> bytes -> Message;
  PrintFieldValue : FieldDescriptor -> Val -> bytes;
  find_type : bytes -> option Descriptor           (* of the [DynamicProtobufManager] *)
}.

(** A message of the type is read back from both forms; the text format skips a blank. *)
Class ProtobufTextLaws `{ProtobufText} (typed : Descriptor -> Message -> Prop) : Prop := {
  native_roundtrip : forall d m, typed d m -> ParseFromString d (SerializeAsString d m) = m;
  native_wf : forall d m, wf_bytes (SerializeAsString d m);
  text_roundtrip : forall d m, typed d m -> TextParse d (TextPrint d m) = m;
  text_skips_blank : forall d s, TextParse d (32 :: s) = TextParse d s;
  parse_empty : forall d, ParseFromString d [] = new_message d /\ TextParse d [] = new_message d
}.

(** ** Techniques *)

Inductive Technique : Type :=
| TECHNIQUE_PROTOBUF_TEXT_FORMAT | TECHNIQUE_PROTOBUF_NATIVE_ENCODED | TECHNIQUE_COMMA_SEPARATED_KEY_EQUALS_VALUE_PAIRS | TECHNIQUE_FORMAT
| TECHNIQUE_PREFIXED_PROTOBUF_TEXT_FORMAT | TECHNIQUE_PROTOBUF_NATIVE_HEX | TECHNIQUE_PREFIXED_PROTOBUF_NATIVE_HEX
| TECHNIQUE_PREFIXED_PROTOBUF_NATIVE_ENCODED.
#[export] Instance Technique_eq_dec : EqDecision Technique.
Proof. solve_decision. Defined.

(** [std::runtime_error]; an exception or a failure of an algorithm; a format string that boost refuses; a null pointer or an access beyond the end; [exit] or an abort *)
Inductive TransExn : Type := RuntimeError | AlgorithmFailed (e : AlgExn) | FormatError | BadAccess | Dies.

(** the techniques that a prefix can be put before *)
Inductive BaseTechnique : Type := TextFormat | NativeEncoded | NativeHex.

Definition MAGIC_PROTOBUF_HEADER : bytes := B "@PB".

Section Techniques.
Context {PT : ProtobufText}.

Definition base_serialize (t : BaseTechnique) (d : Descriptor) (m : Message) : bytes :=
  match t with
  | TextFormat => TextPrint d m
  | NativeEncoded => SerializeAsString d m
  | NativeHex => hex_encode (SerializeAsString d m)
  end.

Definition base_parse (t : BaseTechnique) (d : Descriptor) (s : bytes) : Message :=
  match t with
  | TextFormat => TextParse d s
  | NativeEncoded => ParseFromString d s
  | NativeHex => ParseFromString d (hex_decode s)
  end.

Definition prefix_serialize (t : BaseTechnique) (d : Descriptor) (m : Message) : bytes :=
  MAGIC_PROTOBUF_HEADER ++ [91] ++ full_name d ++ B "] " ++ base_serialize t d m.

Definition has_header (s : bytes) : bool := (3 <? length s)%nat && bool_decide (take 3 s = MAGIC_PROTOBUF_HEADER).
(** the name between the brackets; [stop] is the position of the closing one *)
Definition name_in (stop : nat) (s : bytes) : bytes := if (stop <? 4)%nat then drop 4 s else take (stop - 4) (drop 4 s).

Definition prefix_parse (t : BaseTechnique) (d : Descriptor) (s : bytes) : result TransExn Message :=
  if has_header s then
    match find_char 93 s with
    | None => Err RuntimeError
    | Some stop =>
        if negb (bool_decide (name_in stop s = full_name d)) then Err RuntimeError
        else Ok (if (stop + 2 <? length s)%nat then base_parse t d (drop (stop + 2) s) else new_message d)
    end
  else Ok (base_parse t d s).

(** the type is found by its name; [None] is a null pointer *)
Definition dynamic_parse (t : BaseTechnique) (s : bytes) : result TransExn (option (Descriptor * Message)) :=
  if has_header s then
    match find_char 93 s with
    | None => Err RuntimeError
    | Some stop =>
        match find_type (name_in stop s) with
        | None => Ok None
        | Some d => Ok (Some (d, if (stop + 1 <? length s)%nat then base_parse t d (drop (stop + 1) s) else new_message d))
        end
    end
  else Ok None.

(** the global technique of the applications; the result tells whether the text is binary *)
Definition serialize_for_moos (technique : Technique) (d : Descriptor) (m : Message) : result TransExn (bytes * bool) :=
  match technique with
  | TECHNIQUE_PROTOBUF_NATIVE_ENCODED => Ok (base_serialize NativeEncoded d m, true)
  | TECHNIQUE_PROTOBUF_NATIVE_HEX => Ok (base_serialize NativeHex d m, false)
  | TECHNIQUE_PROTOBUF_TEXT_FORMAT => Ok (base_serialize TextFormat d m, false)
  | TECHNIQUE_PREFIXED_PROTOBUF_NATIVE_ENCODED => Ok (prefix_serialize NativeEncoded d m, true)
  | TECHNIQUE_PREFIXED_PROTOBUF_NATIVE_HEX => Ok (prefix_serialize NativeHex d m, false)
  | TECHNIQUE_PREFIXED_PROTOBUF_TEXT_FORMAT => Ok (prefix_serialize TextFormat d m, false)
  | _ => Err Dies
  end.

Definition parse_for_moos (technique : Technique) (d : Descriptor) (s : bytes) : result TransExn Message :=
  match technique with
  | TECHNIQUE_PROTOBUF_NATIVE_ENCODED => Ok (base_parse NativeEncoded d s)
  | TECHNIQUE_PROTOBUF_NATIVE_HEX => Ok (base_parse NativeHex d s)
  | TECHNIQUE_PROTOBUF_TEXT_FORMAT => Ok (base_parse TextFormat d s)
  | TECHNIQUE_PREFIXED_PROTOBUF_NATIVE_ENCODED => prefix_parse NativeEncoded d s
  | TECHNIQUE_PREFIXED_PROTOBUF_NATIVE_HEX => prefix_parse NativeHex d s
  | TECHNIQUE_PREFIXED_PROTOBUF_TEXT_FORMAT => prefix_parse TextFormat d s
  | _ => Err Dies
  end.

Definition dynamic_parse_for_moos (technique : Technique) (s : bytes) : result TransExn (option (Descriptor * Message)) :=
  match technique with
  | TECHNIQUE_PREFIXED_PROTOBUF_NATIVE_ENCODED => dynamic_parse NativeEncoded s
  | TECHNIQUE_PREFIXED_PROTOBUF_NATIVE_HEX => dynamic_parse NativeHex s
  | TECHNIQUE_PREFIXED_PROTOBUF_TEXT_FORMAT => dynamic_parse TextFormat s
  | _ => Err Dies
  end.

End Techniques.

(** ** Round trips *)

Section Roundtrip.
Context {PT : ProtobufText} {typed : Descriptor -> Message -> Prop} {PTL : ProtobufTextLaws typed}.

Lemma base_roundtrip t d m : typed d m -> base_parse t d (base_serialize t d m) = m.
Proof.
  intros H. destruct t; cbn [base_parse base_serialize]; [by apply text_roundtrip | by apply native_roundtrip|].
  assert (hex_decode (hex_encode (SerializeAsString d m)) = SerializeAsString d m) as -> by apply (hex_decode_encode false), native_wf.
  by apply native_roundtrip.
Qed.

(** the parts of a text with its prefix *)
Lemma prefix_parts t d m : 93 ∉ full_name d ->
  let s := prefix_serialize t d m in let stop := (4 + length (full_name d))%nat in
  has_header s = true /\ find_char 93 s = Some stop /\ name_in stop s = full_name d /\
  drop (stop + 1) s = 32 :: base_serialize t d m /\ length s = (stop + 2 + length (base_serialize t d m))%nat.
Proof.
  intros Hn s stop. assert (Es : s = (B "@PB[" ++ full_name d) ++ 93 :: 32 :: base_serialize t d m).
  { unfold s, prefix_serialize, MAGIC_PROTOBUF_HEADER. rewrite <- app_assoc. reflexivity. }
  assert (El : length (B "@PB[" ++ full_name d) = stop) by (by rewrite length_app). split; [|split; [|split; [|split]]].
  - unfold has_header. rewrite Es. rewrite !length_app. cbn [length Nat.add B]. apply andb_true_intro. split; [apply Nat.ltb_lt; cbn; lia|].
    by apply bool_decide_eq_true_2.
  - rewrite Es, find_char_app, El; [done|]. cbn. set_unfold. intros H. naive_solver lia.
  - unfold name_in. assert ((stop <? 4)%nat = false) as -> by (apply Nat.ltb_ge; lia). rewrite Es. cbn [B drop app]. replace (stop - 4)%nat with (length (full_name d)) by lia.
    apply take_app_length.
  - rewrite Es, <- El, Nat.add_1_r. rewrite drop_app_ge by lia. by replace (S _ - _)%nat with 1%nat by lia.
  - rewrite Es, length_app, El. cbn. lia.
Qed.

Lemma prefix_roundtrip t d m : 93 ∉ full_name d -> typed d m -> prefix_parse t d (prefix_serialize t d m) = Ok m.
Proof.
  intros Hn Hm. destruct (prefix_parts t d m Hn) as (H1 & H2 & H3 & H4 & H5). unfold prefix_parse. rewrite H1, H2, H3, bool_decide_eq_true_2 by done. cbn [negb].
  rewrite H5. replace (4 + length (full_name d) + 2)%nat with ((4 + length (full_name d) + 1) + 1)%nat by lia. rewrite <- drop_drop, H4. cbn [drop].
  f_equal. destruct (_ <? _)%nat eqn:E; [by apply base_roundtrip|]. apply Nat.ltb_ge in E.
  assert (Hb : base_serialize t d m = []) by (apply nil_length_inv; lia). pose proof (base_roundtrip t d m Hm) as R. rewrite Hb in R. rewrite <- R.
  destruct (parse_empty d) as [P1 P2]. symmetry. destruct t; [exact P2 | exact P1 | exact P1].
Qed.

(** the dynamic parser hands on the blank behind the prefix *)
Lemma dynamic_parse_blank t d m : 93 ∉ full_name d -> find_type (full_name d) = Some d ->
  dynamic_parse t (prefix_serialize t d m) = Ok (Some (d, base_parse t d (32 :: base_serialize t d m))).
Proof.
  intros Hn Hd. destruct (prefix_parts t d m Hn) as (H1 & H2 & H3 & H4 & H5). unfold dynamic_parse. rewrite H1, H2, H3, Hd, H4, H5.
  assert ((_ <? _)%nat = true) as -> by (apply Nat.ltb_lt; lia). done.
Qed.

End Roundtrip.

(** ** Concrete encodings, for messages of one small number *)

Module SampleProtobuf.

Fixpoint skip_blanks (s : bytes) : bytes := match s with 32 :: s => skip_blanks s | _ => s end.

Definition leaf : Descriptor := MkDescriptor (B "sample.Leaf") [MkField 1 (B "value") false TInt32 (VInt 0)].

#[export] Instance encodings : ProtobufText := {|
  SerializeAsString _ m := match m with [[VInt z]] => [z mod 256] | _ => [] end;
  ParseFromString d s := match s with [z] => [[VInt z]] | _ => new_message d end;
  TextPrint _ m := match m with [[VInt z]] => as_string z | _ => [] end;
  TextParse d s := match Reader.read_Z (skip_blanks s) with Some z => [[VInt z]] | None => new_message d end;
  PrintFieldValue _ v := match v with VInt z => as_string z | VString s => 34 :: s ++ [34] | _ => [] end;
  find_type name := if bool_decide (name = B "sample.Leaf") then Some leaf else None
|}.

Definition small (d : Descriptor) (m : Message) : Prop := exists z, 0 <= z < 256 /\ m = [[VInt z]].

Lemma skip_blanks_string z : skip_blanks (as_string z) = as_string z.
Proof.
  destruct (as_string z) as [|c s] eqn:E; [done|]. assert (c <> 32) by (pose proof (as_string_digits z c ltac:(rewrite E; by left)); lia).
  destruct (decide (c = 32)); [done|]. unfold skip_blanks. destruct c as [|p|p]; try done. repeat (destruct p as [p|p|]; try done).
Qed.

#[export] Instance encodings_laws : ProtobufTextLaws small.
Proof.
  constructor.
  - intros d m (z & Hz & ->). cbn. by rewrite Z.mod_small.
  - intros d m. cbn. repeat case_match; try apply Forall_nil; try done. repeat constructor; apply Z.mod_pos_bound; lia.
  - intros d m (z & Hz & ->). cbn [TextPrint TextParse encodings]. by rewrite skip_blanks_string, Reader.read_as_string.
  - done.
  - done.
Qed.

#[export] Instance val_text : ValText := {|
  text_fixed _ x := as_string (double_to_Z x); text_prec _ x := as_string (double_to_Z x); log10_abs x := x;
  numeric_cast_bool x := Some (negb (deq x (double_of_Z 0))); numeric_cast_bool_long z := if z =? 0 then Some false else if z =? 1 then Some true else None;
  numeric_cast_long x := Some (double_to_Z x)
|}.

End SampleProtobuf.
