(* ===== verification/MoosCommas.v ===== *)
(** * moos/moos_protobuf_helpers.h: comma separated pairs of key and value

    [TECHNIQUE_COMMA_SEPARATED_KEY_EQUALS_VALUE_PAIRS]: the fields of a message
    as [key=value] pairs, arrays in braces, one level of embedded messages with
    the key [field_subfield], and the results of algorithms. The text is read
    with [val_from_string]. *)

From Stdlib Require Import SpecFloat.
From S2P Require Import Prelude AssocList HexCodec Double Time As Proto Nmea MoosString MessageVal MoosMessage.

(** [boost::lexical_cast] to the wide integers and to [float] *)
Class LexicalWide : Type := {
  lexical_cast_int64 : bytes -> option Z;
  lexical_cast_uint64 : bytes -> option Z;
  lexical_cast_float : bytes -> option double
}.
Definition as_int64 `{LexicalWide} (s : bytes) : Z := default (2 ^ 63 - 1) (lexical_cast_int64 s).
Definition as_uint64 `{LexicalWide} (s : bytes) : Z := default (2 ^ 64 - 1) (lexical_cast_uint64 s).
Definition as_float `{LexicalWide} (s : bytes) : double := default S754_nan (lexical_cast_float s).

(** ** Names of enumerations *)

(** [boost::ierase_first_copy] *)
Fixpoint ierase_first (p s : bytes) : bytes :=
  if iprefix p s then drop (length p) s
  else match s with [] => [] | c :: s => c :: ierase_first p s end.

Definition strip_name_from_enum (enum_value field_name : bytes) : bytes := ierase_first (field_name ++ [95]) enum_value.
Definition add_name_to_enum (enum_value field_name : bytes) : bytes := map to_upper field_name ++ 95 :: enum_value.

(** [FindValueByName], also in upper and in lower case *)
Definition find_enum (l : list bytes) (v : bytes) : option bytes :=
  let find n := List.find (fun x => bool_decide (x = n)) l in
  match find v with
  | Some n => Some n
  | None => match find (map to_upper v) with Some n => Some n | None => find (map to_lower v) end
  end.

(** the elements of a list with their positions, from [i] on *)
Fixpoint indexed {A : Type} (i : nat) (l : list A) : list (nat * A) :=
  match l with [] => [] | a :: l => (i, a) :: indexed (S i) l end.

(** an algorithm of a publisher and one of a parser *)
Record PublishAlgorithm : Type := MkPublishAlg { pa_name : bytes; pa_output_virtual_field : Z; pa_primary_field : Z; pa_reference_field : list Z }.
Record CreateAlgorithm : Type := MkCreateAlg { ca_name : bytes; ca_primary_field : Z }.

Section Commas.
Context {TX : BoostText} {LC : LexicalCast} {LN : LexicalNumbers} {LW : LexicalWide} {VT : ValText} {PT : ProtobufText}.
Variable performer : DCCLAlgorithmPerformer.

(** [boost::trim_if] of quotation marks *)
Definition trim_quotes (s : bytes) : bytes :=
  let fix left s := match s with 34 :: s => left s | _ => s end in
  rev (left (rev (left s))).

Definition run_alg (name : bytes) (v : DCCLMessageVal) (ref : list DCCLMessageVal) : result TransExn DCCLMessageVal :=
  match run_algorithm performer name v ref with Ok v => Ok v | Err e => Err (AlgorithmFailed e) end.

(** ** Algorithms of a publisher *)

Definition reference_values (d : Descriptor) (m : Message) (refs : list Z) : result TransExn (list DCCLMessageVal) :=
  foldr (fun n acc =>
    let? acc := acc in
    match FindFieldByNumber d n with
    | Some (i, f) => if is_repeated f then Err RuntimeError else Ok (string_val (PrintFieldValue f (get_value m i f)) :: acc)
    | None => Err RuntimeError
    end) (Ok []) refs.

Definition serialize_algorithm (d : Descriptor) (m : Message) (modified : list (Z * bytes)) (a : PublishAlgorithm) : result TransExn (list (Z * bytes)) :=
  match FindFieldByNumber d (pa_primary_field a) with
  | None => Ok modified
  | Some (i, f) =>
      if is_repeated f then Ok modified
      else
        let primary_val := match al_lookup (pa_output_virtual_field a) modified with
                           | Some v => v
                           | None => trim_quotes (PrintFieldValue f (get_value m i f))
                           end in
        let? ref := reference_values d m (pa_reference_field a) in
        let? v := run_alg (pa_name a) (string_val primary_val) ref in
        Ok (al_insert (pa_output_virtual_field a) (to_string v) modified)
  end.

Definition run_serialize_algorithms (d : Descriptor) (m : Message) (algorithms : list PublishAlgorithm) : result TransExn (list (Z * bytes)) :=
  foldl (fun acc a => let? modified := acc in serialize_algorithm d m modified a) (Ok []) algorithms.

(** ** Serializing *)

(** the text of one value *)
Definition element_text (short : bool) (f : FieldDescriptor) (v : Val) : bytes :=
  match fd_type f, v with
  | TMessage d, VMsg m => hex_encode (SerializeAsString d m)
  | (TInt32 | TInt64 | TUInt32 | TUInt64), VInt z => as_string z
  | TBool, VBool b => if b then B "true" else B "false"
  | TString, VString s => s
  | TBytes, VString s => hex_encode s
  | TFloat, VReal x => text_prec 6 x
  | TDouble, VReal x => text_prec 15 x
  | TEnum _, VEnum n => if short then strip_name_from_enum n (fd_name f) else n
  | _, _ => []
  end.

Definition elements_text (short : bool) (f : FieldDescriptor) (vs : list Val) : bytes := join 44 (map (element_text short f) vs).

(** [to_moos_comma_equals_string_field] *)
Definition field_text (write_key short : bool) (m : Message) (i : nat) (f : FieldDescriptor) : bytes :=
  if is_repeated f then
    (if write_key then fd_name f ++ [61; 123] else []) ++ elements_text short f (values m i) ++ (if write_key then [125] else [])
  else
    (if write_key then fd_name f ++ [61] else []) ++ element_text short f (get_value m i f).

Definition sub_message (v : Val) : Message := match v with VMsg m => m | _ => [] end.
Definition sub_key (f g : FieldDescriptor) : bytes := fd_name f ++ 95 :: fd_name g.

(** a field of the message, or the fields of an embedded one *)
Definition serialize_field (short : bool) (m : Message) (i : nat) (f : FieldDescriptor) : bytes :=
  match fd_type f with
  | TMessage sub =>
      join 44 (map (fun e =>
        let '(k, g) := e in
        if is_repeated f
        then sub_key f g ++ [61; 123] ++ join 44 (map (fun v => field_text false short (sub_message v) k g) (values m i)) ++ [125]
        else sub_key f g ++ [61] ++ field_text false short (sub_message (get_value m i f)) k g) (indexed 0 (fields sub)))
  | _ => field_text true short m i f
  end.

(** the fields that are set *)
Definition included (d : Descriptor) (m : Message) : list (nat * FieldDescriptor) :=
  List.filter (fun e => negb (bool_decide (values m (fst e) = []))) (indexed 0 (fields d)).

(** the key of the results for one virtual field *)
Definition virtual_key (d : Descriptor) (algorithms : list PublishAlgorithm) (virtual : Z) : result TransExn bytes :=
  let mine := List.filter (fun a => pa_output_virtual_field a =? virtual) algorithms in
  match FindFieldByNumber d (default 0 (pa_primary_field <$> last mine)) with
  | Some (_, f) => Ok (foldl (fun key a => (match key with [] => [] | _ => key ++ [43] end) ++ pa_name a) [] mine ++ [40] ++ fd_name f ++ [41])
  | None => Err BadAccess
  end.

Definition comma_serialize (short : bool) (d : Descriptor) (m : Message) (algorithms : list PublishAlgorithm) : result TransExn bytes :=
  let? additional := run_serialize_algorithms d m algorithms in
  foldl (fun acc e =>
    let? out := acc in
    let? key := virtual_key d algorithms (fst e) in
    Ok (out ++ [44] ++ key ++ [61] ++ snd e))
    (Ok (join 44 (map (fun e => serialize_field short m (fst e) (snd e)) (included d m)))) additional.

(** ** Parsing *)

(** [None]: no value of the enumeration has the name *)
Definition element_value (short : bool) (f : FieldDescriptor) (v : bytes) : option Val :=
  match fd_type f with
  | TMessage d => Some (VMsg (ParseFromString d (hex_decode v)))
  | TInt32 => Some (VInt (as_int v))
  | TInt64 => Some (VInt (as_int64 v))
  | TUInt32 => Some (VInt (as_uint32 v))
  | TUInt64 => Some (VInt (as_uint64 v))
  | TBool => Some (VBool (as_bool v))
  | TString => Some (VString v)
  | TBytes => Some (VString (hex_decode v))
  | TFloat => Some (VReal (as_float v))
  | TDouble => Some (VReal (as_double v))
  | TEnum l => VEnum <$> find_enum l (if short then add_name_to_enum v (fd_name f) else v)
  end.

(** [from_moos_comma_equals_string_field] *)
Definition from_field (short : bool) (i : nat) (f : FieldDescriptor) (vals : list bytes) (value_key : nat) (m : Message) : Message :=
  match vals with
  | [] => m
  | _ =>
      if is_repeated f then <[i := values m i ++ omap (element_value short f) vals]> m
      else match vals !! value_key with
           | Some v => match element_value short f v with Some x => <[i := [x]]> m | None => m end
           | None => m
           end
  end.

(** the embedded message at [j], added when there are not enough *)
Definition on_repeated (sub : Descriptor) (j : nat) (g : Message -> Message) (l : list Val) : list Val :=
  if (length l <? j + 1)%nat then l ++ [VMsg (g (new_message sub))]
  else match l !! j with Some v => <[j := VMsg (g (sub_message v))]> l | None => l end.

(** one field of an embedded message, in all of them when it is repeated *)
Definition parse_subfield (short : bool) (s : bytes) (sub : Descriptor) (f : FieldDescriptor) (l : list Val) (e : nat * FieldDescriptor) : list Val :=
  let '(k, g) := e in
  match val_from_string s (sub_key f g) with
  | None => l
  | Some val =>
      let vals := boost_split (Z.eqb 44) val in
      if is_repeated f
      then foldl (fun l j => on_repeated sub j (from_field short k g vals j) l) l (seq 0 (length vals))
      else [VMsg (from_field short k g vals 0 (match l with v :: _ => sub_message v | [] => new_message sub end))]
  end.

Definition parse_embedded (short : bool) (s : bytes) (sub : Descriptor) (f : FieldDescriptor) (l : list Val) : list Val :=
  foldl (parse_subfield short s sub f) l (indexed 0 (fields sub)).

(** the algorithms of a parser; each turns the value into a string again *)
Definition run_create (n : Z) (algorithms : list CreateAlgorithm) (val : bytes) : result TransExn bytes :=
  foldl (fun acc a =>
    let? val := acc in
    let? v := if ca_primary_field a =? n then run_alg (ca_name a) (string_val val) [] else Ok (string_val val) in
    Ok (to_string v)) (Ok val) algorithms.

Definition parse_field (short : bool) (s : bytes) (algorithms : list CreateAlgorithm) (m : Message) (i : nat) (f : FieldDescriptor) : result TransExn Message :=
  match fd_type f with
  | TMessage sub => Ok (<[i := parse_embedded short s sub f (values m i)]> m)
  | _ =>
      match val_from_string s (fd_name f) with
      | None => Ok m
      | Some val =>
          let? val := run_create (fd_number f) algorithms val in
          Ok (from_field short i f (boost_split (Z.eqb 44) val) 0 m)
      end
  end.

Definition comma_parse (short : bool) (d : Descriptor) (s : bytes) (algorithms : list CreateAlgorithm) (m : Message) : result TransExn Message :=
  let s := map to_lower s in
  foldl (fun acc e => let? m := acc in parse_field short s algorithms m (fst e) (snd e)) (Ok m) (indexed 0 (fields d)).

End Commas.
