(* ===== verification/MoosCommasLink.v ===== *)
(** * What is written as pairs is read back

    A message whose values survive the change to lower case and hold none of
    the characters of the syntax is parsed from its own text, with repeated
    fields and one level of embedded messages. *)

From Stdlib Require Import SpecFloat.
From S2P Require Import Prelude AssocList HexCodec Double Time As Proto Nmea MoosString MessageVal MoosMessage MoosCommas.

Definition lower (s : bytes) : bytes := map to_lower s.

(** ** Lower case *)

Lemma lower_lower s : lower (lower s) = lower s.
Proof.
  unfold lower. rewrite map_map. apply map_ext. intros c. unfold to_lower. destruct ((65 <=? c) && (c <=? 90)) eqn:E; [|by rewrite E].
  assert ((65 <=? c + 32) && (c + 32 <=? 90) = false) as ->; [|done]. apply andb_true_iff in E. destruct E. apply andb_false_iff. right. lia.
Qed.

Lemma iequals_lower a b : iequals (lower a) b = iequals a b.
Proof. unfold iequals. fold (lower (lower a)) (lower b) (lower a). by rewrite lower_lower. Qed.

Lemma lower_join d l : to_lower d = d -> lower (join d l) = join d (map lower l).
Proof.
  intros Hd. induction l as [|a [|b l] IH]; [done | done|]. cbn [map join] in *. unfold lower in *. rewrite map_app. cbn [map]. by rewrite Hd, IH.
Qed.

Definition lower_value (v : Value) : Value := match v with Plain v => Plain (lower v) | Array b => Array (lower b) end.
Definition lower_pair (f : bytes * Value) : bytes * Value := (lower (fst f), lower_value (snd f)).

Lemma lower_pairs_text l : lower (pairs_text l) = pairs_text (map lower_pair l).
Proof.
  unfold pairs_text. rewrite lower_join by done. f_equal. rewrite !map_map. apply map_ext. intros [k v]. unfold pair_text, lower, lower_pair.
  cbn [fst snd]. rewrite map_app. cbn [map]. f_equal. f_equal. destruct v; cbn [value_text lower_value]; [done|]. cbn [map]. by rewrite map_app.
Qed.

(** ** Looking a key up *)

Definition keys (l : list (bytes * Value)) : list bytes := map (fun f => lower (fst f)) l.

Lemma find_key_in l k v : NoDup (keys l) -> (k, v) ∈ l -> List.find (of_key k) l = Some (k, v).
Proof.
  induction l as [|[k' v'] l IH]; intros Hn Hin; [by apply elem_of_nil in Hin|]. cbn [keys map] in Hn. apply NoDup_cons in Hn as [Hx Hn].
  cbn [List.find]. unfold of_key at 1, iequals. cbn [fst]. apply elem_of_cons in Hin as [[= <- <-]|Hin]; [by rewrite bool_decide_eq_true_2|].
  rewrite bool_decide_eq_false_2; [by apply IH|]. intros E. apply Hx. cbn [fst]. unfold lower. rewrite E. apply list_elem_of_fmap. by exists (k, v).
Qed.

Lemma find_key_out l k : lower k ∉ keys l -> List.find (of_key k) l = None.
Proof.
  induction l as [|[k' v'] l IH]; intros Hx; [done|]. cbn [keys map] in Hx. apply not_elem_of_cons in Hx as [H1 H2]. cbn [List.find].
  unfold of_key at 1, iequals. cbn [fst] in *. rewrite bool_decide_eq_false_2; [by apply IH|]. intros E. by apply H1.
Qed.

Definition ok_pairs (l : list (bytes * Value)) : Prop := Forall (fun f => ok_key (fst f) /\ ok_value (lower_value (snd f))) l.

Lemma ok_key_lower k : ok_key k -> ok_key (lower k).
Proof.
  assert (H : forall c, to_lower c = 44 \/ to_lower c = 61 -> c = 44 \/ c = 61).
  { intros c. unfold to_lower. destruct ((65 <=? c) && (c <=? 90)) eqn:E; [|done]. apply andb_true_iff in E. destruct E. intros [|]; lia. }
  intros [H1 H2]. split; unfold lower; intros Hin; apply list_elem_of_fmap in Hin as (c & Hc & Hi).
  - by destruct (H c ltac:(by left)) as [-> | ->].
  - by destruct (H c ltac:(by right)) as [-> | ->].
Qed.

(** reading in the lower case of a text *)
Lemma read_pairs l k : ok_pairs l -> ok_key k ->
  val_from_string (lower (pairs_text l)) k = (fun f => value_read (lower_value (snd f))) <$> List.find (of_key k) l.
Proof.
  intros Hl Hk. rewrite lower_pairs_text, val_from_string_pairs; [|unfold ok_pairs in Hl; apply Forall_map; eapply Forall_impl; [exact Hl|]; intros [a b] [? ?]; split; [by apply ok_key_lower | done]|done].
  induction l as [|[k' v] l IH]; [done|]. apply Forall_cons in Hl as [_ Hl]. cbn [map List.find]. unfold of_key at 1 3. cbn [fst lower_pair]. rewrite iequals_lower.
  destruct (iequals k' k); [done | by apply IH].
Qed.

(** ** Values that are read back *)

Definition plain (s : bytes) : Prop := Forall (fun c => c <> 44 /\ c <> 61 /\ c <> 123 /\ c <> 125) s.

Lemma plain_free s : plain s -> (44 ∉ s) /\ (61 ∉ s) /\ (125 ∉ s) /\ head s <> Some 123.
Proof.
  unfold plain. intros H. rewrite Forall_forall in H. repeat split; try (intros Hc; by destruct (H _ Hc) as (? & ? & ? & ?)).
  destruct s as [|c s]; [done|]. intros [= ->]. by destruct (H 123 ltac:(by left)) as (? & ? & ? & ?).
Qed.

Lemma plain_chars s : (forall c, c ∈ s -> c = 45 \/ 48 <= c <= 57 \/ 97 <= c <= 122) -> plain s /\ lower s = s.
Proof.
  intros H. split.
  - apply Forall_forall. intros c Hc. specialize (H c Hc). lia.
  - unfold lower. rewrite <- (map_id s) at 2. apply map_ext_in. intros c Hc. apply list_elem_of_In in Hc. specialize (H c Hc). unfold to_lower.
    assert ((65 <=? c) && (c <=? 90) = false) as ->; [|done]. apply andb_false_iff. lia.
Qed.

Section Readable.
Context {TX : BoostText} {LC : LexicalCast} {LN : LexicalNumbers} {LW : LexicalWide} {VT : ValText} {PT : ProtobufText}.
Context {TXL : BoostTextLaws} {LD : LexicalDecimal} {typed : Descriptor -> Message -> Prop} {PTL : ProtobufTextLaws typed}.
Variable short : bool.

(** [lexical_cast] reads the decimal digits of a wide integer *)
Class LexicalWideLaws : Prop := {
  lexical_cast_int64_string : forall z, - 2 ^ 63 <= z < 2 ^ 63 -> lexical_cast_int64 (as_string z) = Some z;
  lexical_cast_uint64_string : forall z, 0 <= z < 2 ^ 64 -> lexical_cast_uint64 (as_string z) = Some z
}.
Context {LWL : LexicalWideLaws} (performer : DCCLAlgorithmPerformer).

(** a value of the type of its field that its text determines *)
Definition readable_value (f : FieldDescriptor) (v : Val) : Prop :=
  match fd_type f, v with
  | TInt32, VInt z => - 2 ^ 31 <= z < 2 ^ 31
  | TInt64, VInt z => - 2 ^ 63 <= z < 2 ^ 63
  | TUInt32, VInt z => 0 <= z < 2 ^ 32
  | TUInt64, VInt z => 0 <= z < 2 ^ 64
  | TBool, VBool _ => True
  | TString, VString s => plain s /\ lower s = s
  | TBytes, VString s => wf_bytes s
  | TFloat, VReal x => let t := lower (text_prec 6 x) in plain t /\ as_float t = x
  | TDouble, VReal x => let t := lower (text_prec 15 x) in plain t /\ as_double t = x
  | TEnum l, VEnum n =>
      let t := lower (if short then strip_name_from_enum n (fd_name f) else n) in
      plain t /\ find_enum l (if short then add_name_to_enum t (fd_name f) else t) = Some n
  | TMessage d, VMsg m => typed d m
  | _, _ => False
  end.

Lemma hex_text_plain s : wf_bytes s -> plain (hex_encode s) /\ lower (hex_encode s) = hex_encode s.
Proof. intros Hs. apply plain_chars. intros c Hc. apply hex_encode_chars in Hc; [lia | done]. Qed.

Lemma number_plain z : plain (as_string z) /\ lower (as_string z) = as_string z.
Proof. apply plain_chars. intros c Hc. apply as_string_digits in Hc. lia. Qed.

Lemma readable_element f v : readable_value f v ->
  element_value short f (lower (element_text short f v)) = Some v /\ plain (lower (element_text short f v)).
Proof.
  unfold readable_value, element_text, element_value. destruct f as [num nm rep ty dv]. cbn [fd_type fd_name].
  destruct ty, v; try done.
  1-4: intros Hz; destruct (number_plain z) as [Hp ->]; (split; [|exact Hp]).
  - by rewrite as_int_string.
  - unfold as_int64. by rewrite lexical_cast_int64_string.
  - by rewrite as_uint32_string.
  - unfold as_uint64. by rewrite lexical_cast_uint64_string.
  - intros _. destruct b; (split; [done|]); vm_compute; repeat (apply Forall_cons; split; [repeat split; discriminate|]); by apply Forall_nil.
  - intros [Hp ->]. done.
  - intros Hw. destruct (hex_text_plain s Hw) as [Hp ->]. split; [|exact Hp]. do 2 f_equal. by apply (hex_decode_encode false).
  - intros [Hp He]. split; [by rewrite He | exact Hp].
  - intros [Hp He]. split; [by rewrite He | exact Hp].
  - intros [Hp He]. rewrite He. done.
  - intros Hm. destruct (hex_text_plain _ (native_wf d m)) as [Hp ->]. split; [|exact Hp]. do 2 f_equal.
    assert (hex_decode (hex_encode (SerializeAsString d m)) = SerializeAsString d m) as -> by apply (hex_decode_encode false), native_wf. by apply native_roundtrip.
Qed.

(** an embedded message with all its fields set *)
Definition full_message (sub : Descriptor) (sm : Message) : Prop :=
  Forall2 (fun g vs => is_repeated g = false /\ exists v, vs = [v] /\ readable_value g v) (fields sub) sm.

Definition readable_field (f : FieldDescriptor) (vs : list Val) : Prop :=
  (is_repeated f = false -> (length vs <= 1)%nat) /\
  match fd_type f with
  | TMessage sub => fields sub <> [] /\ Forall (fun v => exists sm, v = VMsg sm /\ full_message sub sm) vs
  | _ => Forall (readable_value f) vs
  end.

Definition readable (d : Descriptor) (m : Message) : Prop := Forall2 readable_field (fields d) m.

(** the keys of a type are distinct, whatever the case *)
Definition field_keys (f : FieldDescriptor) : list bytes :=
  match fd_type f with TMessage sub => map (sub_key f) (fields sub) | _ => [fd_name f] end.
Definition type_keys (l : list FieldDescriptor) : list bytes := concat (map field_keys l).
Definition good_names (d : Descriptor) : Prop := NoDup (map lower (type_keys (fields d))) /\ Forall ok_key (type_keys (fields d)).

(** the pairs of a field and of a message *)
Definition column (vs : list Val) (k : nat) (g : FieldDescriptor) : list bytes := map (fun v => field_text false short (sub_message v) k g) vs.
Definition field_pairs (f : FieldDescriptor) (vs : list Val) : list (bytes * Value) :=
  match vs with
  | [] => []
  | v :: _ =>
      match fd_type f with
      | TMessage sub =>
          map (fun e => let '(k, g) := e in
                 (sub_key f g, if is_repeated f then Array (join 44 (column vs k g)) else Plain (field_text false short (sub_message v) k g)))
            (indexed 0 (fields sub))
      | _ => [(fd_name f, if is_repeated f then Array (elements_text short f vs) else Plain (element_text short f v))]
      end
  end.
Definition message_pairs (l : list FieldDescriptor) (m : Message) : list (bytes * Value) := concat (zip_with field_pairs l m).

(** ** The text is the pairs *)

Lemma join_concat d ll : Forall (fun l => l <> []) ll -> join d (concat ll) = join d (map (join d) ll).
Proof.
  induction 1 as [|l ll Hl Hll IH]; [done|]. cbn [concat map]. destruct ll as [|l' ll]; [cbn [concat]; by rewrite app_nil_r|].
  assert (Hc : concat (l' :: ll) <> []) by (apply Forall_cons in Hll as [Hl' _]; cbn; by destruct l').
  assert (E : forall a, a <> [] -> join d (a ++ concat (l' :: ll)) = join d a ++ d :: join d (concat (l' :: ll))).
  { intros a Ha. induction a as [|x [|y a] IHa]; [done| |].
    - cbn [app]. destruct (concat (l' :: ll)); [done | reflexivity].
    - change ((x :: y :: a) ++ concat (l' :: ll)) with (x :: ((y :: a) ++ concat (l' :: ll))).
      change (join d (x :: (y :: a) ++ concat (l' :: ll))) with (x ++ d :: join d ((y :: a) ++ concat (l' :: ll))). rewrite IHa by done.
      change (join d (x :: y :: a)) with (x ++ d :: join d (y :: a)). by rewrite <- app_assoc. }
  rewrite E, IH by done. reflexivity.
Qed.

Lemma serialize_field_pairs f vs : readable_field f vs -> vs <> [] ->
  serialize_field short [vs] 0 f = join 44 (map pair_text (field_pairs f vs)) /\ field_pairs f vs <> [].
Proof.
  intros [Hs Hr] Hv. destruct vs as [|v vs]; [done|]. unfold serialize_field, field_pairs. destruct (fd_type f) as [| | | | | | | | |names|sub] eqn:Et;
    try (split; [|done]; unfold field_text, pair_text, elements_text; cbn [map join fst snd values lookup list_lookup]; destruct (is_repeated f) eqn:Er; cbn [value_text];
         cbn; rewrite <- !app_assoc; reflexivity).
  destruct Hr as [Hne _]. split; [|by destruct (fields sub)]. f_equal. rewrite map_map. apply map_ext. intros [k g]. unfold pair_text. cbn [fst snd].
  destruct (is_repeated f); cbn [value_text]; by rewrite <- ?app_assoc.
Qed.

Lemma included_fields fs : forall (m pre : list (list Val)), length m = length fs ->
  map (fun e => serialize_field short (pre ++ m) (fst e) (snd e))
    (List.filter (fun e => negb (bool_decide (values (pre ++ m) (fst e) = []))) (indexed (length pre) fs)) =
  map (fun e => serialize_field short [snd e] 0 (fst e)) (List.filter (fun e => negb (bool_decide (snd e = []))) (zip fs m)).
Proof.
  induction fs as [|f fs IH]; intros [|vs m] pre Hl; try done. cbn [indexed zip zip_with List.filter fst snd].
  assert (Hv : values (pre ++ vs :: m) (length pre) = vs) by (unfold values; rewrite lookup_app_r, Nat.sub_diag by lia; done).
  assert (IH' := IH m (pre ++ [vs]) ltac:(cbn in Hl; lia)). rewrite length_app, Nat.add_1_r, <- app_assoc in IH'. cbn [app] in IH'.
  rewrite Hv. destruct (bool_decide (vs = [])); cbn [negb]; [exact IH'|]. cbn [map fst snd]. rewrite <- IH'. f_equal.
  unfold serialize_field, field_text, get_value. rewrite Hv. reflexivity.
Qed.

Lemma set_pairs fs : forall m, message_pairs fs m =
  concat (map (fun e => field_pairs (fst e) (snd e)) (List.filter (fun e => negb (bool_decide (snd e = []))) (zip fs m))).
Proof.
  induction fs as [|f fs IH]; intros [|vs m]; try done. unfold message_pairs in *. cbn [zip zip_with List.filter snd fst concat]. rewrite IH.
  destruct (bool_decide_reflect (vs = [])) as [->|Hne]; done.
Qed.

Lemma serialize_pairs d m : readable d m -> comma_serialize performer short d m [] = Ok (pairs_text (message_pairs (fields d) m)).
Proof.
  intros Hr. unfold comma_serialize, run_serialize_algorithms, included. cbn [foldl rbind]. f_equal. pose proof (Forall2_length _ _ _ Hr) as Hl.
  pose proof (included_fields (fields d) m [] ltac:(done)) as E. cbn [app length] in E. rewrite E. unfold pairs_text.
  rewrite set_pairs, concat_map, join_concat, !map_map.
  - f_equal. apply map_ext_in. intros [f vs] Hin. apply filter_In in Hin as [Hin Hv]. apply list_elem_of_In, list_elem_of_lookup in Hin as [i Hi].
    apply lookup_zip_Some in Hi as [Hf Hvs]. cbn [fst snd] in *. apply serialize_field_pairs; [by apply (Forall2_lookup_lr _ _ _ _ _ _ Hr Hf Hvs)|].
    by apply negb_true_iff, bool_decide_eq_false in Hv.
  - apply Forall_map, Forall_map, Forall_forall. intros [f vs] Hin. apply list_elem_of_In, filter_In in Hin as [Hin Hv]. apply list_elem_of_In, list_elem_of_lookup in Hin as [i Hi].
    apply lookup_zip_Some in Hi as [Hf Hvs]. cbn [fst snd] in *. apply negb_true_iff, bool_decide_eq_false in Hv.
    destruct (serialize_field_pairs f vs (Forall2_lookup_lr _ _ _ _ _ _ Hr Hf Hvs) Hv) as [_ Hp]. by destruct (field_pairs f vs).
Qed.

(** ** Reading one field *)

Lemma split_plain l : l <> [] -> Forall plain l -> boost_split (Z.eqb 44) (join 44 l) = l.
Proof. intros Hne Hl. apply split_join; [done|]. eapply Forall_impl; [exact Hl|]. intros t Ht. by apply plain_free in Ht as (? & _). Qed.

Lemma read_elements f vs : Forall (readable_value f) vs ->
  Forall plain (map lower (map (element_text short f) vs)) /\ omap (element_value short f) (map lower (map (element_text short f) vs)) = vs.
Proof.
  induction 1 as [|v vs Hv _ [IH1 IH2]]; [by split|]. destruct (readable_element f v Hv) as [He Hp]. cbn [map omap list_omap].
  split; [by constructor|]. rewrite He. f_equal. exact IH2.
Qed.

Lemma elem_indexed {A} (l : list A) : forall n i x, (i, x) ∈ indexed n l <-> (n <= i)%nat /\ l !! (i - n)%nat = Some x.
Proof.
  induction l as [|y l IH]; intros n i x; cbn [indexed]; [rewrite elem_of_nil, lookup_nil; naive_solver|].
  rewrite elem_of_cons, IH. split.
  - intros [[= -> ->]|[Hi Hl]]; [by rewrite Nat.sub_diag|]. split; [lia|]. by replace (i - n)%nat with (S (i - S n)) by lia.
  - intros [Hi Hl]. destruct (decide (i = n)) as [->|]; [rewrite Nat.sub_diag in Hl; left; by injection Hl as ->|]. right. split; [lia|].
    by replace (i - n)%nat with (S (i - S n)) in Hl by lia.
Qed.

Lemma map_indexed {A C D} (G : nat -> C -> D) (F : A -> C) (H : A -> D) l : forall n,
  (forall j a, l !! j = Some a -> G (n + j)%nat (F a) = H a) -> map (fun e => G (fst e) (snd e)) (indexed n (map F l)) = map H l.
Proof.
  induction l as [|a l IH]; intros n Hg; [done|]. cbn [map indexed fst snd]. rewrite <- (Hg 0%nat a eq_refl), Nat.add_0_r. f_equal. apply IH.
  intros j b Hj. rewrite <- (Hg (S j) b Hj). f_equal. lia.
Qed.

Lemma from_field_set k g vals j t v m : is_repeated g = false -> vals !! j = Some t -> element_value short g t = Some v ->
  from_field short k g vals j m = <[k := [v]]> m.
Proof. intros Hg Hj He. unfold from_field. destruct vals; [done|]. by rewrite Hg, Hj, He. Qed.

Lemma full_field sub sm k g : full_message sub sm -> fields sub !! k = Some g -> exists v,
  is_repeated g = false /\ sm !! k = Some [v] /\ field_text false short sm k g = element_text short g v /\
  element_value short g (lower (element_text short g v)) = Some v /\ plain (lower (element_text short g v)).
Proof.
  intros Hf Hg. destruct (Forall2_lookup_l _ _ _ _ _ Hf Hg) as (vs & Hvs & Hrep & v & -> & Hv). exists v. destruct (readable_element g v Hv) as [He Hp].
  repeat split; try done. unfold field_text, get_value, values. by rewrite Hrep, Hvs.
Qed.

Lemma insert_hole {A} (pre : list A) x y rest : <[length pre := x]> (pre ++ y :: rest) = (pre ++ [x]) ++ rest.
Proof. rewrite insert_app_r_alt, Nat.sub_diag by lia. cbn. by rewrite <- app_assoc. Qed.

(** ** Embedded messages *)

Section Embedded.
Variables (f : FieldDescriptor) (sub : Descriptor) (s : bytes).

Abbreviation step := (parse_subfield short s sub f).

Lemma embed_single sm : is_repeated f = false -> full_message sub sm ->
  (forall k g, fields sub !! k = Some g -> val_from_string s (sub_key f g) = Some (lower (field_text false short sm k g))) ->
  forall gs gpre pre, fields sub = gpre ++ gs -> pre = take (length gpre) sm ->
  foldl step [VMsg (pre ++ replicate (length gs) [])] (indexed (length gpre) gs) = [VMsg sm].
Proof.
  intros Hrep Hf Hval. pose proof (Forall2_length _ _ _ Hf) as Hl. induction gs as [|g gs IH]; intros gpre pre Hfs Hpre.
  - cbn [length indexed foldl replicate]. rewrite app_nil_r, Hpre. rewrite Hfs, app_nil_r in Hl. by rewrite take_ge by lia.
  - assert (Hg : fields sub !! length gpre = Some g) by (by rewrite Hfs, list_lookup_middle).
    destruct (full_field sub sm _ g Hf Hg) as (v & Hg1 & Hv & Ht & He & Hp). cbn [indexed foldl length replicate]. unfold parse_subfield at 2. rewrite (Hval _ _ Hg), Hrep, Ht.
    assert (boost_split (Z.eqb 44) (lower (element_text short g v)) = [lower (element_text short g v)]) as -> by (by apply (split_plain [_]); repeat constructor).
    assert (Hlp : length pre = length gpre) by (rewrite Hpre, length_take; apply lookup_lt_Some in Hv; lia).
    rewrite (from_field_set _ _ _ _ _ v) by done. cbn [sub_message]. rewrite <- Hlp, insert_hole, Hlp. specialize (IH (gpre ++ [g]) (pre ++ [[v]])).
    rewrite length_app, Nat.add_1_r in IH. apply IH; [by rewrite <- app_assoc|]. by rewrite Hpre, (take_S_r _ _ _ Hv).
Qed.

Lemma on_repeated_all k g vals rest : forall done,
  foldl (fun l j => on_repeated sub j (from_field short k g vals j) l) (done ++ rest) (seq (length done) (length rest)) =
  done ++ map (fun e => VMsg (from_field short k g vals (fst e) (sub_message (snd e)))) (indexed (length done) rest).
Proof.
  induction rest as [|v rest IH]; intros dn; [cbn; by rewrite app_nil_r|]. cbn [length seq foldl indexed map fst snd]. unfold on_repeated at 2.
  rewrite length_app. cbn [length]. assert ((length dn + S (length rest) <? length dn + 1)%nat = false) as -> by (apply Nat.ltb_ge; lia).
  rewrite list_lookup_middle, insert_hole by done. specialize (IH (dn ++ [VMsg (from_field short k g vals (length dn) (sub_message v))])).
  rewrite length_app, Nat.add_1_r in IH. rewrite IH. by rewrite <- app_assoc.
Qed.

Lemma on_repeated_new k g vals n : forall done,
  foldl (fun l j => on_repeated sub j (from_field short k g vals j) l) done (seq (length done) n) =
  done ++ map (fun j => VMsg (from_field short k g vals j (new_message sub))) (seq (length done) n).
Proof.
  induction n as [|n IH]; intros dn; [cbn; by rewrite app_nil_r|]. cbn [seq foldl map]. unfold on_repeated at 2.
  assert ((length dn <? length dn + 1)%nat = true) as -> by (apply Nat.ltb_lt; lia).
  specialize (IH (dn ++ [VMsg (from_field short k g vals (length dn) (new_message sub))])). rewrite length_app, Nat.add_1_r in IH. rewrite IH. by rewrite <- app_assoc.
Qed.

(** one field in all the messages *)
Lemma embed_column sms k g : is_repeated f = true -> sms <> [] -> Forall (full_message sub) sms -> fields sub !! k = Some g ->
  val_from_string s (sub_key f g) = Some (lower (join 44 (column (map VMsg sms) k g))) ->
  (forall F, step (map (fun sm => VMsg (F sm)) sms) (k, g) = map (fun sm => VMsg (<[k := values sm k]> (F sm))) sms) /\
  step [] (k, g) = map (fun sm => VMsg (<[k := values sm k]> (new_message sub))) sms.
Proof.
  intros Hrep Hne Hf Hg Hval. set (vals := map lower (column (map VMsg sms) k g)).
  assert (Hlen : length vals = length sms) by (unfold vals, column; by rewrite !length_map).
  assert (Hset : forall j sm m, sms !! j = Some sm -> from_field short k g vals j m = <[k := values sm k]> m).
  { intros j sm m Hj. destruct (full_field sub sm k g (proj1 (Forall_lookup _ _) Hf _ _ Hj) Hg) as (v & Hg1 & Hv & Ht & He & _).
    rewrite (from_field_set _ _ _ _ (lower (element_text short g v)) v); [unfold values; by rewrite Hv | done | | done].
    unfold vals, column. rewrite map_map, list_lookup_fmap, list_lookup_fmap, Hj. cbn. by rewrite Ht. }
  assert (Hsplit : boost_split (Z.eqb 44) (lower (join 44 (column (map VMsg sms) k g))) = vals).
  { rewrite lower_join by done. apply split_plain; [intros E; apply Hne, nil_length_inv; rewrite <- Hlen; by rewrite E|].
    unfold vals, column. apply Forall_map, Forall_map, Forall_map. eapply Forall_impl; [exact Hf|]. intros sm Hsm. cbn [sub_message].
    destruct (full_field sub sm k g Hsm Hg) as (v & _ & _ & -> & _ & Hp). exact Hp. }
  split.
  - intros F. unfold parse_subfield. rewrite Hval, Hrep, Hsplit, Hlen. pose proof (on_repeated_all k g vals (map (fun sm => VMsg (F sm)) sms) []) as H.
    cbn [app length] in H. rewrite length_map in H. rewrite H. apply (map_indexed (fun j v => VMsg (from_field short k g vals j (sub_message v)))).
    intros j sm Hj. cbn [Nat.add sub_message]. by rewrite (Hset j sm _ Hj).
  - unfold parse_subfield. rewrite Hval, Hrep, Hsplit, Hlen. pose proof (on_repeated_new k g vals (length sms) []) as H. cbn [app length] in H. rewrite H.
    apply list_eq. intros j. rewrite !list_lookup_fmap. destruct (sms !! j) as [sm|] eqn:Ej.
    + rewrite lookup_seq_lt by (by apply lookup_lt_Some in Ej). cbn [fmap option_fmap option_map Nat.add]. by rewrite (Hset j sm _ Ej).
    + rewrite lookup_seq_ge by (by apply lookup_ge_None in Ej). done.
Qed.

Lemma embed_repeated sms : is_repeated f = true -> sms <> [] -> Forall (full_message sub) sms ->
  (forall k g, fields sub !! k = Some g -> val_from_string s (sub_key f g) = Some (lower (join 44 (column (map VMsg sms) k g)))) ->
  forall gs gpre, fields sub = gpre ++ gs ->
  foldl step (map (fun sm => VMsg (take (length gpre) sm ++ replicate (length gs) [])) sms) (indexed (length gpre) gs) = map VMsg sms.
Proof.
  intros Hrep Hne Hf Hval. induction gs as [|g gs IH]; intros gpre Hfs.
  - cbn [length indexed foldl replicate]. apply map_ext_in. intros sm Hin. apply list_elem_of_In in Hin. pose proof (proj1 (Forall_forall _ _) Hf _ Hin) as Hsm.
    apply Forall2_length in Hsm. rewrite Hfs, app_nil_r in Hsm. by rewrite app_nil_r, take_ge by lia.
  - assert (Hg : fields sub !! length gpre = Some g) by (by rewrite Hfs, list_lookup_middle). cbn [indexed foldl length].
    destruct (embed_column sms _ g Hrep Hne Hf Hg (Hval _ _ Hg)) as [E _]. rewrite (E (fun sm => take (length gpre) sm ++ replicate (S (length gs)) [])). clear E.
    specialize (IH (gpre ++ [g])). rewrite length_app, Nat.add_1_r in IH. rewrite <- IH by (by rewrite <- app_assoc). f_equal. apply map_ext_in. intros sm Hin.
    apply list_elem_of_In in Hin. destruct (full_field sub sm _ g (proj1 (Forall_forall _ _) Hf _ Hin) Hg) as (v & _ & Hv & _). f_equal. cbn [replicate].
    assert (Hl : length (take (length gpre) sm) = length gpre) by (rewrite length_take; apply lookup_lt_Some in Hv; lia).
    rewrite <- Hl at 1. rewrite insert_hole. unfold values. by rewrite Hv, (take_S_r _ _ _ Hv).
Qed.

End Embedded.

Section Field.
Variables (f : FieldDescriptor) (vs : list Val) (s : bytes).
Hypothesis Hin : forall k v, (k, v) ∈ field_pairs f vs -> val_from_string s k = Some (value_read (lower_value v)).
Hypothesis Hout : vs = [] -> forall k, k ∈ field_keys f -> val_from_string s k = None.
Hypothesis Hr : readable_field f vs.

Lemma parse_plain_field cur i : (match fd_type f with TMessage _ => False | _ => True end) -> cur !! i = Some [] ->
  parse_field performer short s [] cur i f = Ok (<[i := vs]> cur).
Proof.
  intros Ht Hc. destruct Hr as [Hs Hv]. assert (Hk : field_keys f = [fd_name f]) by (unfold field_keys; by destruct (fd_type f)).
  assert (Hp : parse_field performer short s [] cur i f =
    match val_from_string s (fd_name f) with None => Ok cur | Some val => Ok (from_field short i f (boost_split (Z.eqb 44) val) 0 cur) end).
  { unfold parse_field, run_create. cbn [foldl rbind]. by destruct (fd_type f). }
  assert (Hall : Forall (readable_value f) vs) by (by destruct (fd_type f)). rewrite Hp. destruct vs as [|v vs'] eqn:Ev.
  - rewrite Hout by (try done; rewrite Hk; by left). by rewrite list_insert_id.
  - assert (Hfp : field_pairs f (v :: vs') = [(fd_name f, if is_repeated f then Array (elements_text short f (v :: vs')) else Plain (element_text short f v))])
      by (unfold field_pairs; by destruct (fd_type f)).
    rewrite (Hin (fd_name f) _ ltac:(rewrite Hfp; by left)). destruct (read_elements f _ Hall) as [Hpl Hom]. unfold from_field. destruct (is_repeated f) eqn:Er; cbn [lower_value value_read].
    + unfold elements_text. rewrite lower_join by done. rewrite split_plain by done. destruct (map lower _) as [|t ts] eqn:Em; [done|].
      unfold values. rewrite Hc. cbn [default from_option id app]. by rewrite Hom.
    + specialize (Hs eq_refl). destruct vs' as [|? ?]; [|cbn in Hs; lia]. apply Forall_cons in Hall as [Hv1 _]. destruct (readable_element f v Hv1) as [He Hp1].
      assert (boost_split (Z.eqb 44) (lower (element_text short f v)) = [lower (element_text short f v)]) as -> by (by apply (split_plain [_]); repeat constructor).
      cbn [lookup list_lookup]. by rewrite He.
Qed.

Lemma parse_message_field sub cur i : fd_type f = TMessage sub -> cur !! i = Some [] -> parse_field performer short s [] cur i f = Ok (<[i := vs]> cur).
Proof.
  intros Ht Hc. destruct Hr as [Hs Hv]. rewrite Ht in Hv. destruct Hv as [Hne Hv]. unfold parse_field. rewrite Ht. f_equal. f_equal. unfold values. rewrite Hc.
  cbn [default from_option id]. unfold parse_embedded.
  assert (Hpair : forall v rest, vs = v :: rest -> forall k g, fields sub !! k = Some g -> val_from_string s (sub_key f g) =
    Some (value_read (lower_value (if is_repeated f then Array (join 44 (column vs k g)) else Plain (field_text false short (sub_message v) k g))))).
  { intros v rest E k g Hg. apply Hin. unfold field_pairs. rewrite E, Ht. apply list_elem_of_fmap. exists (k, g). split; [done|]. apply elem_indexed. rewrite Nat.sub_0_r. split; [lia | done]. }
  destruct vs as [|v rest] eqn:Ev.
  - assert (Hnone : forall g, g ∈ fields sub -> val_from_string s (sub_key f g) = None).
    { intros g Hg. apply Hout; [done|]. unfold field_keys. rewrite Ht. apply list_elem_of_fmap. by exists g. }
    generalize 0%nat. clear Hne Hpair. induction (fields sub) as [|g gs IH]; intros n; [done|]. cbn [indexed foldl]. unfold parse_subfield at 2. rewrite Hnone by (by left).
    apply IH. intros g' Hg'. apply Hnone. by right.
  - specialize (Hpair v rest eq_refl). destruct (is_repeated f) eqn:Erep.
    + assert (Hsms : exists sms, v :: rest = map VMsg sms /\ Forall (full_message sub) sms).
      { clear -Hv. induction Hv as [|x l (sm & -> & Hsm) _ (sms & -> & IH)]; [by exists []|]. exists (sm :: sms). split; [done | by constructor]. }
      destruct Hsms as (sms & Esms & Hsms). assert (Hsne : sms <> []) by (by intros ->). rewrite Esms in *. cbn [lower_value value_read] in Hpair.
      rewrite <- (embed_repeated f sub s sms Erep Hsne Hsms Hpair (fields sub) [] eq_refl). destruct (fields sub) as [|g gs] eqn:Efs; [done|]. cbn [indexed foldl length].
      f_equal. assert (Hg : fields sub !! 0%nat = Some g) by (by rewrite Efs). destruct (embed_column f sub s sms 0 g Erep Hsne Hsms Hg (Hpair 0%nat g eq_refl)) as [E1 E2].
      rewrite E2, (E1 (fun sm => take 0 sm ++ replicate (S (length gs)) [])). apply map_ext. intros sm. unfold new_message. by rewrite Efs.
    + specialize (Hs eq_refl). destruct rest as [|? ?]; [|cbn in Hs; lia]. apply Forall_cons in Hv as [(sm & -> & Hsm) _]. cbn [lower_value value_read sub_message] in Hpair.
      rewrite <- (embed_single f sub s sm Erep Hsm Hpair (fields sub) [] [] eq_refl eq_refl). destruct (fields sub) as [|g gs] eqn:Efs; [done|]. cbn [indexed foldl length].
      f_equal. unfold parse_subfield. rewrite (Hpair 0%nat g eq_refl), Erep. unfold new_message. by rewrite Efs.
Qed.

Lemma parse_field_back cur i : cur !! i = Some [] -> parse_field performer short s [] cur i f = Ok (<[i := vs]> cur).
Proof.
  intros Hc. destruct (fd_type f) as [| | | | | | | | |names|sub] eqn:Et; [apply parse_plain_field; by rewrite ?Et .. | by apply (parse_message_field sub)].
Qed.

End Field.

(** ** The whole message *)

Lemma map_snd_indexed {A} (l : list A) : forall n, map snd (indexed n l) = l.
Proof. induction l as [|x l IH]; intros n; [done|]. cbn [indexed map snd]. by rewrite IH. Qed.

Lemma field_pairs_keys f vs : map fst (field_pairs f vs) = match vs with [] => [] | _ => field_keys f end.
Proof.
  unfold field_pairs, field_keys. destruct vs as [|v vs]; [done|]. destruct (fd_type f) as [| | | | | | | | |names|sub]; try done. rewrite map_map.
  rewrite <- (map_snd_indexed (fields sub) 0) at 2. rewrite map_map. apply map_ext. by intros [k g].
Qed.

Lemma message_pairs_keys fs : forall m, sublist (map fst (message_pairs fs m)) (type_keys fs).
Proof.
  induction fs as [|f fs IH]; intros [|vs m]; unfold message_pairs in *; cbn [zip_with concat map]; try apply sublist_nil_l. rewrite map_app, field_pairs_keys.
  unfold type_keys. cbn [map concat]. apply sublist_app; [destruct vs; [apply sublist_nil_l | done] | apply IH].
Qed.

Lemma plain_join l : Forall plain l -> (125 ∉ join 44 l) /\ (61 ∉ join 44 l).
Proof.
  induction 1 as [|t [|t' l] Ht _ IH]; [split; apply not_elem_of_nil | apply plain_free in Ht; cbn; tauto|].
  apply plain_free in Ht as (_ & H1 & H2 & _). destruct IH as [IH1 IH2]. change (join 44 (t :: t' :: l)) with (t ++ 44 :: join 44 (t' :: l)).
  split; rewrite elem_of_app, elem_of_cons; intros [|[|]]; try done; lia.
Qed.

Lemma field_pairs_ok f vs : Forall ok_key (field_keys f) -> readable_field f vs -> ok_pairs (field_pairs f vs).
Proof.
  intros Hk [Hs Hr]. apply Forall_forall. intros [k v] Hin. split.
  - assert (Hf : k ∈ map fst (field_pairs f vs)) by (apply list_elem_of_fmap; by exists (k, v)). rewrite field_pairs_keys in Hf. destruct vs; [by apply elem_of_nil in Hf|].
    by apply (proj1 (Forall_forall _ _) Hk).
  - unfold field_pairs in Hin. destruct vs as [|x vs]; [by apply elem_of_nil in Hin|]. cbn [snd]. destruct (fd_type f) as [| | | | | | | | |names|sub] eqn:Et;
      try (apply list_elem_of_singleton in Hin as [= -> ->]; destruct (is_repeated f); cbn [lower_value ok_value];
           [unfold elements_text; rewrite lower_join by done; apply plain_join; by apply (read_elements f (x :: vs))
           | apply Forall_cons in Hr as [Hx _]; destruct (readable_element f x Hx) as [_ Hp]; by apply plain_free in Hp as (? & _ & _ & ?)]).
    destruct Hr as [_ Hr]. apply list_elem_of_fmap in Hin as ([k' g] & [= -> ->] & Hg). apply elem_indexed in Hg as [_ Hg]. rewrite Nat.sub_0_r in Hg.
    assert (Hp : Forall plain (map lower (column (x :: vs) k' g))).
    { apply Forall_map, Forall_map. eapply Forall_impl; [exact Hr|]. intros y (sm & -> & Hsm). cbn [sub_message]. destruct (full_field sub sm k' g Hsm Hg) as (v & _ & _ & -> & _ & Hp). exact Hp. }
    destruct (is_repeated f); cbn [lower_value ok_value]; [change ((125 ∉ lower (join 44 (column (x :: vs) k' g))) /\ (61 ∉ lower (join 44 (column (x :: vs) k' g)))); rewrite lower_join by done; by apply plain_join|]. apply Forall_cons in Hp as [Hp _]. by apply plain_free in Hp as (? & _ & _ & ?).
Qed.

Lemma message_pairs_ok fs : forall m, Forall ok_key (type_keys fs) -> Forall2 readable_field fs m -> ok_pairs (message_pairs fs m).
Proof.
  intros m Hk Hr. induction Hr as [|f vs fs m Hf _ IH]; [constructor|]. unfold type_keys in Hk. cbn [map concat] in Hk. apply Forall_app in Hk as [Hk1 Hk2].
  unfold message_pairs, ok_pairs. cbn [zip_with concat]. apply Forall_app. split; [by apply field_pairs_ok | by apply IH].
Qed.

Lemma keys_sublist fs m : sublist (keys (message_pairs fs m)) (map lower (type_keys fs)).
Proof. unfold keys. rewrite <- (map_map fst lower). apply (fmap_sublist lower), message_pairs_keys. Qed.

(** what is read for the keys of one field *)
Lemma field_lookup d m fpre f fpost mpre vs mpost : good_names d -> readable d m ->
  fields d = fpre ++ f :: fpost -> m = mpre ++ vs :: mpost -> length fpre = length mpre ->
  let s := lower (pairs_text (message_pairs (fields d) m)) in
  (forall k v, (k, v) ∈ field_pairs f vs -> val_from_string s k = Some (value_read (lower_value v))) /\
  (vs = [] -> forall k, k ∈ field_keys f -> val_from_string s k = None).
Proof.
  intros [Hn Hk] Hr Hf Hm Hl s. pose proof (message_pairs_ok _ _ Hk Hr) as Hok.
  assert (Hsplit : message_pairs (fields d) m = message_pairs fpre mpre ++ field_pairs f vs ++ message_pairs fpost mpost).
  { rewrite Hf, Hm. unfold message_pairs. rewrite zip_with_app by done. rewrite concat_app. by cbn [zip_with concat]. }
  assert (Hkf : forall k, k ∈ field_keys f -> ok_key k).
  { intros k Hin. apply (proj1 (Forall_forall _ _) Hk). rewrite Hf. unfold type_keys. rewrite map_app, concat_app. cbn [map concat]. set_solver. }
  split.
  - intros k v Hin. unfold s. rewrite read_pairs, (find_key_in _ k v); [done| | |done|].
    + apply (sublist_NoDup _ _ Hn), keys_sublist.
    + rewrite Hsplit, !elem_of_app. tauto.
    + apply Hkf. assert (Hf1 : k ∈ map fst (field_pairs f vs)) by (apply list_elem_of_fmap; by exists (k, v)). rewrite field_pairs_keys in Hf1. destruct vs; [by apply elem_of_nil in Hf1 | done].
  - intros -> k Hin. unfold s. rewrite read_pairs, find_key_out; [done| |done|by apply Hkf]. rewrite Hsplit. unfold keys. cbn [field_pairs app]. rewrite map_app.
    rewrite Hf in Hn. unfold type_keys in Hn. rewrite map_app, concat_app in Hn. cbn [map concat] in Hn. rewrite !map_app in Hn.
    apply NoDup_app in Hn as (_ & Hd1 & Hn2). apply NoDup_app in Hn2 as (_ & Hd2 & _).
    assert (Hlk : lower k ∈ map lower (field_keys f)) by (apply list_elem_of_fmap; by exists k). rewrite elem_of_app. intros [Hx | Hx].
    + apply (Hd1 (lower k)); [|rewrite elem_of_app; by left]. eapply elem_of_sublist; [|apply (keys_sublist fpre mpre)]. exact Hx.
    + apply (Hd2 (lower k) Hlk). eapply elem_of_sublist; [|apply (keys_sublist fpost mpost)]. exact Hx.
Qed.

Lemma parse_fold d m : good_names d -> readable d m ->
  forall f2 fpre mpre m2, fields d = fpre ++ f2 -> m = mpre ++ m2 -> length fpre = length mpre ->
  foldl (fun acc e => let? m0 := acc in parse_field performer short (lower (pairs_text (message_pairs (fields d) m))) [] m0 (fst e) (snd e))
    (Ok (mpre ++ replicate (length f2) [])) (indexed (length mpre) f2) = Ok m.
Proof.
  intros Hn Hr. pose proof (Forall2_length _ _ _ Hr) as Hlen. induction f2 as [|f f2 IH]; intros fpre mpre m2 Hf Hm Hl.
  - destruct m2 as [|? ?]; [cbn; by rewrite app_nil_r, Hm, app_nil_r|]. exfalso. rewrite Hf, Hm, !length_app in Hlen. cbn in Hlen. lia.
  - destruct m2 as [|vs m2]; [exfalso; rewrite Hf, Hm, !length_app in Hlen; cbn in Hlen; lia|].
    destruct (field_lookup d m fpre f f2 mpre vs m2 Hn Hr Hf Hm Hl) as [Hin Hout].
    assert (Hfr : readable_field f vs) by (apply (Forall2_lookup_lr _ _ _ (length fpre) _ _ Hr); [by rewrite Hf, list_lookup_middle | by rewrite Hm, Hl, list_lookup_middle]).
    cbn [indexed foldl length replicate rbind fst snd]. rewrite (parse_field_back f vs _ Hin Hout Hfr) by (by rewrite list_lookup_middle). rewrite insert_hole.
    specialize (IH (fpre ++ [f]) (mpre ++ [vs]) m2). rewrite !length_app, !Nat.add_1_r in IH. apply IH; [by rewrite <- app_assoc | by rewrite <- app_assoc | lia].
Qed.

Lemma comma_back (d : Descriptor) (m : Message) : good_names d -> readable d m ->
  comma_serialize performer short d m [] = Ok (pairs_text (message_pairs (fields d) m)) /\
  comma_parse performer short d (pairs_text (message_pairs (fields d) m)) [] (new_message d) = Ok m.
Proof.
  intros Hn Hr. split; [by apply serialize_pairs|]. unfold comma_parse. fold (lower (pairs_text (message_pairs (fields d) m))).
  exact (parse_fold d m Hn Hr (fields d) [] [] m eq_refl eq_refl eq_refl).
Qed.

(** A message of numbers, booleans, enumerations, strings in small letters, bytes and messages
    within messages, written as comma separated pairs under distinct names, is read back unchanged.
    *)
Lemma comma_roundtrip (d : Descriptor) (m : Message) :
  good_names d -> readable d m -> exists text,
  comma_serialize performer short d m [] = Ok text /\ comma_parse performer short d text [] (new_message d) = Ok m.
Proof. intros Hn Hr. eexists. by apply comma_back. Qed.

End Readable.

(** ** A concrete message *)

Module CommasWitness.
#[local] Existing Instances Sample.text Sample.text_laws Reader.cast Reader.numbers Reader.decimal SampleProtobuf.encodings SampleProtobuf.encodings_laws SampleProtobuf.val_text.

#[export] Instance wide : LexicalWide := {|
  lexical_cast_int64 s := match Reader.read_Z s with Some z => if (- 2 ^ 63 <=? z) && (z <? 2 ^ 63) then Some z else None | None => None end;
  lexical_cast_uint64 s := match Reader.read_Z s with Some z => if (0 <=? z) && (z <? 2 ^ 64) then Some z else None | None => None end;
  lexical_cast_float s := double_of_Z <$> Reader.read_Z s
|}.
#[export] Instance wide_laws : LexicalWideLaws.
Proof.
  constructor; intros z Hz; cbn [lexical_cast_int64 lexical_cast_uint64 wide]; rewrite Reader.read_as_string;
    (assert (_ && _ = true) as -> by (apply andb_true_intro; split; lia)); done.
Qed.

Definition point : Descriptor := MkDescriptor (B "sample.Point") [MkField 1 (B "x") false TInt32 (VInt 0); MkField 2 (B "y") false TInt32 (VInt 0)].
Definition report : Descriptor := MkDescriptor (B "sample.Report")
  [MkField 1 (B "depth") false TInt32 (VInt 0); MkField 2 (B "Names") true TString (VString []);
   MkField 3 (B "mode") false (TEnum [B "IDLE"; B "SURVEY"]) (VEnum (B "IDLE")); MkField 4 (B "ok") false TBool (VBool false);
   MkField 5 (B "at") false (TMessage point) (VMsg []); MkField 6 (B "wp") true (TMessage point) (VMsg []);
   MkField 7 (B "raw") false TBytes (VString []); MkField 8 (B "leaf") true TUInt64 (VInt 0)].
Definition sample : Message :=
  [[VInt (-5)]; [VString (B "alpha"); VString (B "bravo")]; [VEnum (B "SURVEY")]; []; [VMsg [[VInt 3]; [VInt 4]]];
   [VMsg [[VInt 1]; [VInt 2]]; VMsg [[VInt 6]; [VInt 7]]]; [VString [255; 0]]; []].
Definition no_algorithms : DCCLAlgorithmPerformer := MkPerformer [] [].

Lemma sample_good : good_names report.
Proof.
  split; [apply (bool_decide_unpack _); vm_compute; exact I|].
  apply (bool_decide_unpack (Forall (fun k => (44 ∉ k) /\ (61 ∉ k)) (type_keys (fields report)))). vm_compute. exact I.
Qed.

Lemma plain_literal s : forallb (fun c => negb ((c =? 44) || (c =? 61) || (c =? 123) || (c =? 125))) s = true -> plain s.
Proof. intros H. rewrite forallb_forall in H. apply Forall_forall. intros c Hc. apply list_elem_of_In in Hc. specialize (H c Hc). lia. Qed.

Lemma sample_readable : readable (typed := SampleProtobuf.small) false report sample.
Proof.
  assert (P : forall x y, - 2 ^ 31 <= x < 2 ^ 31 -> - 2 ^ 31 <= y < 2 ^ 31 -> full_message (typed := SampleProtobuf.small) false point [[VInt x]; [VInt y]]).
  { intros x y Hx Hy. repeat (constructor; [split; [done|]; by eexists|]). constructor. }
  unfold readable, report, sample. cbn [fields].
  repeat (constructor; [split; [cbn; lia|]; cbn [fd_type]; try split; try done; repeat (apply Forall_cons; split; [|])|]); try apply Forall_nil; try (cbn; lia);
    try (eexists; split; [reflexivity | apply P; lia]); try constructor.
  all: try (split; [apply plain_literal; reflexivity | reflexivity]).
  all: try (repeat constructor; unfold is_byte; lia).
  all: apply plain_literal; reflexivity.
Qed.

Example comma_roundtrip_witness : exists text,
  comma_serialize no_algorithms false report sample [] = Ok text /\ comma_parse no_algorithms false report text [] (new_message report) = Ok sample.
Proof. exact (comma_roundtrip false no_algorithms report sample sample_good sample_readable). Qed.

(** the text in full; capital letters do not survive *)
Example sample_text : comma_serialize no_algorithms false report sample [] =
  Ok (B "depth=-5,Names={alpha,bravo},mode=SURVEY,at_x=3,at_y=4,wp_x={1,6},wp_y={2,7},raw=ff00").
Proof. vm_compute. reflexivity. Qed.

Example capitals_lost :
  (comma_serialize no_algorithms false report [[]; [VString (B "Alpha")]; []; []; []; []; []; []] [],
   comma_parse no_algorithms false report (B "Names={Alpha}") [] (new_message report)) =
  (Ok (B "Names={Alpha}"), Ok [[]; [VString (B "alpha")]; []; []; []; []; []; []]).
Proof. vm_compute. reflexivity. Qed.

End CommasWitness.
