(* ===== verification/MoosFormat.v ===== *)
(** * moos/moos_protobuf_helpers.h: format strings

    [TECHNIQUE_FORMAT]: the text of a message is a format string in which
    [%n%] stands for the field with the number [n], [%n.i%] for one element of
    a repeated field and [%n:k%] for a field of an embedded message. Writing
    replaces the last two by fresh numbers and hands the string to
    [boost::format]; reading walks along the format string, takes the text up
    to the next separator for a field and skips to each character in between. *)

From Stdlib Require Import SpecFloat.
From S2P Require Import Prelude AssocList HexCodec Double Time As Proto Nmea MoosString MessageVal MoosMessage MoosCommas.

(** ** boost::format *)

(** what is fed to a format: a string, an integer, a number with its digits *)
Inductive FormatArg : Type := ArgText (s : bytes) | ArgInt (z : Z) | ArgReal (digits : Z) (x : double).

Definition arg_text `{ValText} (a : FormatArg) : bytes :=
  match a with ArgText s => s | ArgInt z => as_string z | ArgReal p x => text_prec p x end.

(** whether the constructor accepts the string, and the text; [None] is an exception. Too many and too few arguments are not an error. *)
Class BoostFormat : Type := { format_accepted : bytes -> bool; boost_format : bytes -> list FormatArg -> option bytes }.

Inductive Piece : Type := Lit (c : Z) | Dir (n : Z).
Definition piece_source (p : Piece) : bytes := match p with Lit c => [c] | Dir n => 37 :: as_string n ++ [37] end.
Definition format_source (ps : list Piece) : bytes := concat (map piece_source ps).
Definition ok_piece (p : Piece) : Prop := match p with Lit c => c <> 37 | Dir n => 1 <= n < 2 ^ 31 end.
Definition piece_text `{ValText} (args : list FormatArg) (p : Piece) : bytes :=
  match p with Lit c => [c] | Dir n => default [] (arg_text <$> args !! Z.to_nat (n - 1)) end.

(** [%n%] is replaced by the n-th argument, or by nothing; other characters stay *)
Class BoostFormatLaws `{ValText, BoostFormat} : Prop := {
  boost_accepts_pieces : forall ps, Forall ok_piece ps -> format_accepted (format_source ps) = true;
  boost_format_pieces : forall ps args, Forall ok_piece ps ->
    boost_format (format_source ps) args = Some (concat (map (piece_text args) ps))
}.

(** ** Regular expressions of the specifiers *)

Definition index_char (c : Z) : bool := is_digit c || (c =? 46).

(** [([0-9\.]+:)+[0-9\.]+], [some] characters of a part and [colon] seen *)
Fixpoint nested_spec (some colon : bool) (s : bytes) : bool :=
  match s with
  | [] => some && colon
  | c :: s => if index_char c then nested_spec true colon s else if c =? 58 then some && nested_spec false true s else false
  end.

(** [[0-9]+\.[0-9]+] *)
Fixpoint indexed_spec (some dot : bool) (s : bytes) : bool :=
  match s with
  | [] => some && dot
  | c :: s => if is_digit c then indexed_spec true dot s else if c =? 46 then some && negb dot && indexed_spec false true s else false
  end.

(** the text up to the next percent sign *)
Fixpoint until_percent (s : bytes) : option bytes :=
  match s with [] => None | c :: s => if c =? 37 then Some [] else (fun m => c :: m) <$> until_percent s end.

(** [sregex_iterator]: the specifiers between two percent signs, leftmost first and without overlaps *)
Fixpoint matches (ok : bytes -> bool) (skip : nat) (s : bytes) : list bytes :=
  match s, skip with
  | [], _ => []
  | _ :: s, S skip => matches ok skip s
  | c :: s, O =>
      if c =? 37 then
        match until_percent s with
        | Some m => if ok m then m :: matches ok (S (length m)) s else matches ok 0 s
        | None => []
        end
      else matches ok 0 s
  end.

(** [boost::replace_all] *)
Fixpoint replace_all (from to : bytes) (skip : nat) (s : bytes) : bytes :=
  match s, skip with
  | [], _ => []
  | _ :: s, S skip => replace_all from to skip s
  | c :: s', O => if starts_with from s then to ++ replace_all from to (length from - 1) s' else c :: replace_all from to 0 s'
  end.

(** [boost::is_any_of] *)
Definition any_of (l : bytes) : Z -> bool := match l with [c] => Z.eqb c | _ => fun c => existsb (Z.eqb c) l end.

Definition percents (s : bytes) : bytes := 37 :: s ++ [37].

Section Format.
Context {TX : BoostText} {LC : LexicalCast} {LN : LexicalNumbers} {LW : LexicalWide} {VT : ValText} {PT : ProtobufText} {BF : BoostFormat}.
Variable performer : DCCLAlgorithmPerformer.
Variables (short : bool) (repeated_delimiter : bytes).

(** ** Writing *)

(** the fields of the descriptor but the first *)
Definition max_field_number (d : Descriptor) : Z := foldl (fun mx f => if mx <? fd_number f then fd_number f else mx) 1 (drop 1 (fields d)).

(** an embedded message on the way of a nested specifier *)
Definition descend (acc : result TransExn (Descriptor * Message)) (part : bytes) : result TransExn (Descriptor * Message) :=
  let? dm := acc in
  let field_and_index := boost_split (Z.eqb 46) part in
  match FindFieldByNumber (fst dm) (as_int (default [] (head field_and_index))) with
  | Some (i, f) =>
      match fd_type f with
      | TMessage sub =>
          if is_repeated f then
            match field_and_index with
            | [_; index] =>
                if as_int index <? 0 then Err BadAccess
                else match values (snd dm) i !! Z.to_nat (as_int index) with Some v => Ok (sub, sub_message v) | None => Err BadAccess end
            | _ => Err RuntimeError
            end
          else Ok (sub, sub_message (get_value (snd dm) i f))
      | _ => Err RuntimeError
      end
  | None => Err RuntimeError
  end.

(** the largest number so far, the texts by number and the format string *)
Abbreviation Rewriting := (Z * list (Z * bytes) * bytes)%type.

Definition nested_step (self : Descriptor -> Message -> bytes -> result TransExn bytes) (d : Descriptor) (m : Message)
    (acc : result TransExn Rewriting) (spec : bytes) : result TransExn Rewriting :=
  let? st := acc in
  let '(mx, modified, format) := st in
  let subfields := boost_split (Z.eqb 58) spec in
  let n := mx + 1 in
  let? dm := foldl descend (Ok (d, m)) (removelast subfields) in
  let? text := self (fst dm) (snd dm) (percents (default [] (last subfields))) in
  Ok (n, al_insert n text modified, replace_all (percents spec) (percents (as_string n)) 0 format).

(** fresh numbers for the elements of repeated fields, with the field and the index *)
Definition index_step (st : Z * list (Z * (Z * Z)) * bytes) (spec : bytes) : Z * list (Z * (Z * Z)) * bytes :=
  let '(mx, keys, format) := st in
  let n := mx + 1 in
  let field_and_index := boost_split (Z.eqb 46) spec in
  (n, al_insert n (as_int (default [] (field_and_index !! 0%nat)), as_int (default [] (field_and_index !! 1%nat))) keys,
   replace_all (percents spec) (percents (as_string n)) 0 format).

(** an element that a repeated field does not have *)
Definition missing_value (f : FieldDescriptor) : result TransExn Val :=
  match fd_type f with
  | TMessage _ => Err BadAccess
  | TInt32 => Ok (VInt (2 ^ 31 - 1))
  | TInt64 => Ok (VInt (2 ^ 63 - 1))
  | TUInt32 => Ok (VInt (2 ^ 32 - 1))
  | TUInt64 => Ok (VInt (2 ^ 64 - 1))
  | TFloat | TDouble => Ok (VReal S754_nan)
  | TBool | TString | TBytes | TEnum _ => Ok (fd_default f)
  end.

Fixpoint delimited (l : list bytes) : bytes :=
  match l with [] => [] | [t] => t | t :: l => t ++ repeated_delimiter ++ delimited l end.

(** what a number of the format stands for *)
Definition repeated_arg (m : Message) (i : nat) (f : FieldDescriptor) (index : option Z) : result TransExn FormatArg :=
  match index with
  | None => Ok (ArgText (delimited (map (element_text short f) (values m i))))
  | Some j =>
      if (j <? 0) || (j =? 2 ^ 31 - 1) then Err BadAccess
      else
        let? v := match values m i !! Z.to_nat j with Some v => Ok v | None => missing_value f end in
        Ok (ArgText (element_text short f v))
  end.

Definition singular_arg (f : FieldDescriptor) (v : Val) : FormatArg :=
  match fd_type f, v with
  | (TInt32 | TInt64 | TUInt32 | TUInt64), VInt z => ArgInt z
  | TFloat, VReal x => ArgReal 6 x
  | TDouble, VReal x => ArgReal 15 x
  | _, _ => ArgText (element_text short f v)
  end.

Definition number_arg (d : Descriptor) (m : Message) (modified : list (Z * bytes)) (keys : list (Z * (Z * Z))) (n : Z) : result TransExn FormatArg :=
  let key := al_lookup n keys in
  match FindFieldByNumber d (match key with Some (field, _) => field | None => n end) with
  | Some (i, f) => if is_repeated f then repeated_arg m i f (snd <$> key) else Ok (singular_arg f (get_value m i f))
  | None => Ok (ArgText (default (B "unknown") (al_lookup n modified)))
  end.

Fixpoint format_args (d : Descriptor) (m : Message) (modified : list (Z * bytes)) (keys : list (Z * (Z * Z))) (ns : list Z) : result TransExn (list FormatArg) :=
  match ns with
  | [] => Ok []
  | n :: ns => let? a := number_arg d m modified keys n in let? l := format_args d m modified keys ns in Ok (a :: l)
  end.

Definition serialize_step (algorithms : list PublishAlgorithm) (self : Descriptor -> Message -> bytes -> result TransExn bytes)
    (d : Descriptor) (m : Message) (format : bytes) : result TransExn bytes :=
  let? modified := run_serialize_algorithms performer d m algorithms in
  let mx := foldl (fun mx e => if mx <? fst e then fst e else mx) (max_field_number d) modified in
  let? st := foldl (nested_step self d m) (Ok (mx, modified, format)) (matches (nested_spec false false) 0 format) in
  let '(mx, modified, format) := st in
  let '(mx, keys, format) := foldl index_step (mx, [], format) (matches (indexed_spec false false) 0 format) in
  if negb (format_accepted format) then Err FormatError
  else
    let? args := format_args d m modified keys (seqZ 1 mx) in
    match boost_format format args with Some text => Ok text | None => Err FormatError end.

(** the specifier that a nested call gets has no colon, so that it makes no further call *)
Definition format_serialize (algorithms : list PublishAlgorithm) : Descriptor -> Message -> bytes -> result TransExn bytes :=
  serialize_step algorithms (serialize_step algorithms (fun _ _ _ => Err Dies)).

(** ** Reading *)

(** [TOpen]: the last specifier has no second percent sign and is read beyond the end *)
Inductive Token : Type := TLit (c : Z) | TSpec (spec : bytes) | TOpen.

Fixpoint tokens (spec : option bytes) (s : bytes) : list Token :=
  match s, spec with
  | [], None => []
  | [], Some _ => [TOpen]
  | c :: s, None => if c =? 37 then tokens (Some []) s else TLit c :: tokens None s
  | c :: s, Some p => if c =? 37 then TSpec p :: tokens None s else tokens (Some (p ++ [c])) s
  end.

(** the character behind a specifier; zero at the end of the string *)
Definition separator (ts : list Token) : Z := match ts with [] => 0 | TLit c :: _ => c | _ => 37 end.

(** a repeated field with at least [index + 1] values *)
Definition grown (x : Val) (index : Z) (l : list Val) : list Val := l ++ replicate (Z.to_nat (index + 1) - length l) x.

Definition default_message (f : FieldDescriptor) : Val := match fd_type f with TMessage sub => VMsg (new_message sub) | _ => fd_default f end.

(** the embedded message that a nested specifier leads to *)
Fixpoint on_path (path : list bytes) (k : Descriptor -> Message -> result TransExn Message) (d : Descriptor) (m : Message) : result TransExn Message :=
  match path with
  | [] => k d m
  | part :: path =>
      let field_and_index := boost_split (Z.eqb 46) part in
      match FindFieldByNumber d (as_int (default [] (head field_and_index))) with
      | Some (i, f) =>
          match fd_type f with
          | TMessage sub =>
              if is_repeated f then
                match field_and_index with
                | [_; index] =>
                    let index := as_int index in
                    if index <? 0 then Err BadAccess
                    else
                      let l := grown (VMsg (new_message sub)) index (values m i) in
                      let? em := on_path path k sub (sub_message (default (VMsg []) (l !! Z.to_nat index))) in
                      Ok (<[i := <[Z.to_nat index := VMsg em]> l]> m)
                | _ => Err RuntimeError
                end
              else
                let? em := on_path path k sub (sub_message (default (VMsg (new_message sub)) (head (values m i)))) in
                Ok (<[i := [VMsg em]]> m)
          | _ => Err RuntimeError
          end
      | None => Err RuntimeError
      end
  end.

(** the value of a part; bytes are taken as they are *)
Definition part_value (f : FieldDescriptor) (part : bytes) : option Val :=
  match fd_type f with TBytes => Some (VString part) | _ => element_value short f part end.

Definition is_enum (f : FieldDescriptor) : bool := match fd_type f with TEnum _ => true | _ => false end.

(** protobuf refuses [FieldSize] of a field that is not repeated and [GetEnum] of one that is *)
Definition put_part (i : nat) (f : FieldDescriptor) (index : option Z) (acc : result TransExn Message) (part : bytes) : result TransExn Message :=
  let? m := acc in
  match index with
  | Some j =>
      if negb (is_repeated f) || is_enum f then Err Dies
      else if j <? 0 then Err BadAccess
      else
        let l := grown (default_message f) j (values m i) in
        Ok (<[i := match part_value f part with Some v => <[Z.to_nat j := v]> l | None => l end]> m)
  | None =>
      if is_repeated f then
        if is_enum f then Err Dies
        else Ok (match part_value f part with Some v => <[i := values m i ++ [v]]> m | None => m end)
      else Ok (match part_value f part with Some v => <[i := [v]]> m | None => m end)
  end.

Definition parse_spec (algorithms : list CreateAlgorithm) (spec extract : bytes) (d : Descriptor) (m : Message) : result TransExn Message :=
  let field_and_index := boost_split (Z.eqb 46) spec in
  match lexical_cast_int (default [] (head field_and_index)) with
  | None => Err RuntimeError
  | Some field_index =>
      let? index := match field_and_index with
                    | [_; i] => match lexical_cast_int i with Some j => Ok (Some j) | None => Err RuntimeError end
                    | _ => Ok None
                    end in
      match FindFieldByNumber d field_index with
      | None => Err RuntimeError
      | Some (i, f) =>
          let? extract := run_create performer field_index algorithms extract in
          let parts := match index with
                       | Some _ => [extract]
                       | None => if is_repeated f then boost_split (any_of repeated_delimiter) extract else [extract]
                       end in
          foldl (put_part i f index) (Ok m) parts
      end
  end.

Definition find_after (c : Z) (s : bytes) : nat := match find_char c s with Some p => S p | None => 0 end.

Fixpoint parse_tokens (parse_nested : bytes -> bytes -> Descriptor -> Message -> result TransExn Message) (algorithms : list CreateAlgorithm)
    (d : Descriptor) (ts : list Token) (str lower_str : bytes) (m : Message) : result TransExn Message :=
  match ts with
  | [] => Ok m
  | TOpen :: _ => Err BadAccess
  | TLit c :: ts => let n := find_after c lower_str in parse_tokens parse_nested algorithms d ts (drop n str) (drop n lower_str) m
  | TSpec spec :: ts =>
      let extract := match find_char (separator ts) lower_str with Some n => take n str | None => str end in
      let? m :=
        if existsb (Z.eqb 58) spec then
          let subfields := boost_split (Z.eqb 58) spec in
          on_path (removelast subfields) (parse_nested extract (percents (default [] (last subfields)))) d m
        else parse_spec algorithms spec extract d m in
      parse_tokens parse_nested algorithms d ts str lower_str m
  end.

Definition parse_step (parse_nested : bytes -> bytes -> Descriptor -> Message -> result TransExn Message) (algorithms : list CreateAlgorithm)
    (str format : bytes) (d : Descriptor) (m : Message) : result TransExn Message :=
  parse_tokens parse_nested algorithms d (tokens None (map to_lower format)) str (map to_lower str) m.

(** the nested call has one specifier without a colon *)
Definition format_parse (algorithms : list CreateAlgorithm) : bytes -> bytes -> Descriptor -> Message -> result TransExn Message :=
  parse_step (parse_step (fun _ _ _ _ => Err Dies) algorithms) algorithms.

End Format.
