(* ===== verification/MoosFormatLink.v ===== *)
(** * What is written with a format string is read back

    The calls for embedded messages are one level deep. A message whose set
    fields are the ones of a format string, with separators that do not occur
    in the values before them, is parsed from its own text. *)

From Stdlib Require Import SpecFloat.
From S2P Require Import Prelude AssocList HexCodec Double Time As Proto Nmea MoosString MessageVal MoosMessage MoosCommas MoosCommasLink MoosFormat.

(** ** The nested calls *)

Section Depth.
Context {TX : BoostText} {LC : LexicalCast} {LN : LexicalNumbers} {LW : LexicalWide} {VT : ValText} {PT : ProtobufText} {BF : BoostFormat}.
Context {TXL : BoostTextLaws}.
Variables (performer : DCCLAlgorithmPerformer) (short : bool) (delimiter : bytes).

Lemma nested_spec_colon s : forall some, 58 ∉ s -> nested_spec some false s = false.
Proof.
  induction s as [|c s IH]; intros some Hs; cbn [nested_spec]; [by rewrite andb_false_r|]. apply not_elem_of_cons in Hs as [Hc Hs].
  destruct (index_char c); [by apply IH|]. assert ((c =? 58) = false) as -> by lia. done.
Qed.

Lemma until_percent_chars s m : until_percent s = Some m -> forall c, c ∈ m -> c ∈ s.
Proof.
  revert m. induction s as [|x s IH]; intros m; cbn [until_percent]; [done|]. destruct (x =? 37); [intros [= <-] c Hc; by apply elem_of_nil in Hc|].
  destruct (until_percent s) as [m'|]; [|done]. intros [= <-] c Hc. apply elem_of_cons in Hc as [->|Hc]; [by left|]. right. by apply (IH m').
Qed.

Lemma no_nested s : forall skip, 58 ∉ s -> matches (nested_spec false false) skip s = [].
Proof.
  induction s as [|c s IH]; intros skip Hs; [by destruct skip|]. apply not_elem_of_cons in Hs as [Hc Hs]. destruct skip as [|skip]; cbn [matches]; [|by apply IH].
  destruct (c =? 37); [|by apply IH]. destruct (until_percent s) as [m|] eqn:E; [|done].
  rewrite nested_spec_colon; [by apply IH|]. intros Hm. apply Hs. by eapply until_percent_chars.
Qed.

Lemma split_part d s p : p ∈ boost_split (Z.eqb d) s -> (d ∉ p) /\ (forall c, c ∈ p -> c ∈ s).
Proof.
  intros Hp. split; [exact (proj1 (Forall_forall _ _) (boost_split_free d s) p Hp)|]. intros c Hc. rewrite <- (boost_split_join d s).
  induction (boost_split (Z.eqb d) s) as [|a [|b l] IH]; [by apply elem_of_nil in Hp| |].
  - by apply list_elem_of_singleton in Hp as ->.
  - change (c ∈ a ++ d :: join d (b :: l)). rewrite elem_of_app, elem_of_cons. apply elem_of_cons in Hp as [->|Hp]; [by left|]. right. right. by apply IH.
Qed.

Lemma last_part d s : exists p, last (boost_split (Z.eqb d) s) = Some p /\ p ∈ boost_split (Z.eqb d) s.
Proof.
  pose proof (boost_split_nonempty d s) as Hn. destruct (last (boost_split (Z.eqb d) s)) as [p|] eqn:E.
  - exists p. split; [done|]. by apply last_Some_elem_of.
  - by apply last_None in E.
Qed.

(** a call for a specifier without a colon makes no further call *)
Lemma serialize_step_flat algorithms self self' d m s : 58 ∉ s ->
  serialize_step performer short delimiter algorithms self d m (percents s) = serialize_step performer short delimiter algorithms self' d m (percents s).
Proof.
  intros Hs. unfold serialize_step. rewrite no_nested; [done|]. unfold percents. rewrite not_elem_of_cons, not_elem_of_app, not_elem_of_cons. repeat split; try done. by apply not_elem_of_nil.
Qed.

(** The definition with one level of nested calls satisfies the equation of the recursive function, so that deeper levels are never reached. *)
Theorem format_serialize_recursive algorithms d m format :
  format_serialize performer short delimiter algorithms d m format =
  serialize_step performer short delimiter algorithms (format_serialize performer short delimiter algorithms) d m format.
Proof.
  unfold format_serialize. set (one := serialize_step performer short delimiter algorithms (fun _ _ _ => Err Dies)).
  unfold serialize_step at 1 2. destruct (run_serialize_algorithms performer d m algorithms) as [modified|e]; cbn [rbind]; [|done]. f_equal.
  generalize (matches (nested_spec false false) 0 format) as l. intros l.
  generalize (Ok (E := TransExn) (foldl (fun mx e => if mx <? fst e then fst e else mx) (max_field_number d) modified, modified, format)) as st.
  induction l as [|spec l IH]; intros st; cbn [foldl]; [done|]. rewrite IH. f_equal. unfold nested_step. destruct st as [[[mx md] fm]|e]; cbn [rbind]; [|done].
  destruct (foldl descend _ _) as [dm|e]; cbn [rbind]; [|done]. f_equal. destruct (last_part 58 spec) as (p & -> & Hp). cbn [default from_option]. unfold one.
  apply serialize_step_flat. exact (proj1 (split_part 58 spec p Hp)).
Qed.

Lemma tokens_spec s : forall p, 37 ∉ s -> tokens (Some p) (s ++ [37]) = [TSpec (p ++ s)].
Proof.
  induction s as [|c s IH]; intros p Hs; cbn [app tokens].
  - by rewrite Z.eqb_refl, app_nil_r.
  - apply not_elem_of_cons in Hs as [Hc Hs]. assert ((c =? 37) = false) as -> by lia. rewrite IH by done. by rewrite <- app_assoc.
Qed.

Lemma to_lower_other c x : ~ (97 <= c <= 122) -> to_lower x = c -> x = c.
Proof. intros Hc. unfold to_lower. destruct ((65 <=? x) && (x <=? 90)) eqn:E; [|done]. apply andb_true_iff in E as [? ?]. lia. Qed.

Lemma lower_not_in c s : ~ (97 <= c <= 122) -> c ∉ s -> c ∉ map to_lower s.
Proof. intros Hc Hs Hin. apply list_elem_of_fmap in Hin as (x & Hx & Hi). symmetry in Hx. apply to_lower_other in Hx as ->; done. Qed.

Lemma percents_tokens s : 37 ∉ s -> tokens None (map to_lower (percents s)) = [TSpec (map to_lower s)].
Proof.
  intros Hs. unfold percents. cbn [map]. change (to_lower 37) with 37. cbn [tokens]. rewrite Z.eqb_refl, map_app. cbn [map]. change (to_lower 37) with 37.
  rewrite tokens_spec; [done|]. apply lower_not_in; [lia | done].
Qed.

Lemma existsb_colon s : 58 ∉ s -> existsb (Z.eqb 58) s = false.
Proof.
  intros Hs. destruct (existsb (Z.eqb 58) s) eqn:E; [|done]. apply existsb_exists in E as (x & Hx & He). apply Z.eqb_eq in He as <-. by apply list_elem_of_In in Hx.
Qed.

Lemma parse_step_flat algorithms self self' str d m s : 37 ∉ s -> 58 ∉ s ->
  parse_step performer short delimiter self algorithms str (percents s) d m = parse_step performer short delimiter self' algorithms str (percents s) d m.
Proof.
  intros H1 H2. unfold parse_step. rewrite percents_tokens by done. cbn [parse_tokens]. rewrite existsb_colon; [done|]. by apply lower_not_in; [lia|].
Qed.

Lemma tokens_no_percent s : forall p spec, (forall q, p = Some q -> 37 ∉ q) -> TSpec spec ∈ tokens p s -> 37 ∉ spec.
Proof.
  induction s as [|c s IH]; intros p spec Hp Hin; cbn [tokens] in Hin.
  - destruct p; [apply list_elem_of_singleton in Hin; done | by apply elem_of_nil in Hin].
  - destruct p as [q|].
    + specialize (Hp q eq_refl). destruct (c =? 37) eqn:E.
      * apply elem_of_cons in Hin as [[= ->]|Hin]; [done|]. by apply (IH None).
      * apply (IH (Some (q ++ [c]))); [|done]. intros ? [= <-]. rewrite not_elem_of_app, not_elem_of_cons. repeat split; [done | lia | by apply not_elem_of_nil].
    + destruct (c =? 37) eqn:E.
      * apply (IH (Some [])); [|done]. intros ? [= <-]. by apply not_elem_of_nil.
      * apply elem_of_cons in Hin as [[=]|Hin]. by apply (IH None).
Qed.

Lemma on_path_ext path k k' : (forall d m, k d m = k' d m) -> forall d m, on_path path k d m = on_path path k' d m.
Proof.
  intros Hk. induction path as [|part path IH]; intros d m; cbn [on_path]; [apply Hk|].
  destruct (FindFieldByNumber d _) as [[i f]|]; [|done]. destruct (fd_type f); try done. destruct (is_repeated f); [|by rewrite IH].
  destruct (boost_split (Z.eqb 46) part) as [|? [|? [|]]]; try done. destruct (_ <? 0); [done|]. by rewrite IH.
Qed.

(** and the same for the parser *)
Theorem format_parse_recursive algorithms str format d m :
  format_parse performer short delimiter algorithms str format d m =
  parse_step performer short delimiter (format_parse performer short delimiter algorithms) algorithms str format d m.
Proof.
  unfold format_parse. set (one := parse_step performer short delimiter (fun _ _ _ _ => Err Dies) algorithms).
  unfold parse_step at 1 2. assert (Hspec : forall spec, TSpec spec ∈ tokens None (map to_lower format) -> 37 ∉ spec).
  { intros spec. apply tokens_no_percent. done. }
  revert Hspec. generalize (map to_lower str) as low. revert str m.
  induction (tokens None (map to_lower format)) as [|t ts IH]; intros str m low Hspec; [done|]. destruct t as [c|spec|]; cbn [parse_tokens]; [| |done].
  - apply IH. intros spec Hin. apply Hspec. by right.
  - assert (Hs := Hspec spec ltac:(by left)). assert (IH' := fun str m low => IH str m low (fun sp Hin => Hspec sp ltac:(by right))). clear IH.
    destruct (existsb (Z.eqb 58) spec).
    + rewrite (on_path_ext _ (one (match find_char (separator ts) low with Some n => take n str | None => str end) (percents (default [] (last (boost_split (Z.eqb 58) spec)))))
        (parse_step performer short delimiter one algorithms (match find_char (separator ts) low with Some n => take n str | None => str end) (percents (default [] (last (boost_split (Z.eqb 58) spec)))))).
      * destruct (on_path _ _ _ _); cbn [rbind]; [apply IH' | done].
      * intros d' m'. destruct (last_part 58 spec) as (p & -> & Hp). destruct (split_part 58 spec p Hp) as [Hc Hsub]. cbn [default from_option]. unfold one. apply parse_step_flat; [|done].
        intros Hin. by apply Hs, Hsub.
    + destruct (parse_spec _ _ _ _ _ _ _ _); cbn [rbind]; [apply IH' | done].
Qed.

End Depth.

(** ** Values that are read back *)

Section Readable.
Context {TX : BoostText} {LC : LexicalCast} {LN : LexicalNumbers} {LW : LexicalWide} {VT : ValText} {PT : ProtobufText} {BF : BoostFormat}.
Context {TXL : BoostTextLaws} {LD : LexicalDecimal} {typed : Descriptor -> Message -> Prop} {PTL : ProtobufTextLaws typed} {LWL : LexicalWideLaws} {BFL : BoostFormatLaws}.
Variables (performer : DCCLAlgorithmPerformer) (short : bool) (delimiter : Z).

(** a value of the type of its field that its text determines; bytes are written in hexadecimal and not decoded *)
Definition printable (f : FieldDescriptor) (v : Val) : Prop :=
  match fd_type f, v with
  | TInt32, VInt z => - 2 ^ 31 <= z < 2 ^ 31
  | TInt64, VInt z => - 2 ^ 63 <= z < 2 ^ 63
  | TUInt32, VInt z => 0 <= z < 2 ^ 32
  | TUInt64, VInt z => 0 <= z < 2 ^ 64
  | TBool, VBool _ => True
  | TString, VString s => True
  | TFloat, VReal x => as_float (text_prec 6 x) = x
  | TDouble, VReal x => as_double (text_prec 15 x) = x
  | TEnum l, VEnum n => find_enum l (if short then add_name_to_enum (strip_name_from_enum n (fd_name f)) (fd_name f) else n) = Some n
  | TMessage d, VMsg m => typed d m
  | _, _ => False
  end.

Lemma printable_back f v : printable f v -> part_value short f (element_text short f v) = Some v.
Proof.
  unfold printable, part_value, element_text, element_value. destruct (fd_type f) as [| | | | | | | | |names|sub], v as [z|b|s|x|n|m]; try done.
  - intros Hz. by rewrite as_int_string.
  - intros Hz. unfold as_int64. by rewrite lexical_cast_int64_string.
  - intros Hz. by rewrite as_uint32_string.
  - intros Hz. unfold as_uint64. by rewrite lexical_cast_uint64_string.
  - intros _. by destruct b.
  - intros Hx. by rewrite Hx.
  - intros Hx. by rewrite Hx.
  - destruct short; intros Hx; by rewrite Hx.
  - intros Hm. do 2 f_equal. assert (hex_decode (hex_encode (SerializeAsString sub m)) = SerializeAsString sub m) as -> by apply (hex_decode_encode false), native_wf.
    by apply native_roundtrip.
Qed.

(** the text of a field that is set *)
Definition set_text (f : FieldDescriptor) (vs : list Val) : bytes :=
  if is_repeated f then join delimiter (map (element_text short f) vs)
  else match vs with v :: _ => element_text short f v | [] => [] end.

Definition printable_field (f : FieldDescriptor) (vs : list Val) : Prop :=
  vs <> [] /\ Forall (printable f) vs /\
  if is_repeated f then is_enum f = false /\ Forall (fun v => delimiter ∉ element_text short f v) vs else length vs = 1%nat.

Lemma delimited_join l : delimited [delimiter] l = join delimiter l.
Proof. induction l as [|a [|b l] IH]; [done | done|]. cbn [delimited join app] in *. by rewrite IH. Qed.

(** what is fed to the format for a field that is set *)
Lemma field_argument d m i f vs : FindFieldByNumber d (fd_number f) = Some (i, f) -> m !! i = Some vs -> printable_field f vs ->
  exists a, number_arg short [delimiter] d m [] [] (fd_number f) = Ok a /\ arg_text a = set_text f vs.
Proof.
  intros Hf Hm (Hne & Hp & Hr). unfold number_arg. cbn [al_lookup]. rewrite Hf. unfold set_text, repeated_arg, get_value, values. rewrite Hm. cbn [fmap option_fmap option_map default from_option id].
  destruct (is_repeated f); [eexists; split; [done|]; cbn [arg_text]; by rewrite delimited_join|]. destruct vs as [|v vs]; [done|]. cbn [head default from_option id].
  eexists. split; [done|]. apply Forall_cons in Hp as [Hp _]. unfold singular_arg, element_text, printable in *. destruct (fd_type f), v; done.
Qed.

Lemma number_arg_ok d m n : exists a, number_arg short [delimiter] d m [] [] n = Ok a.
Proof.
  unfold number_arg. cbn [al_lookup]. destruct (FindFieldByNumber d n) as [[i f]|]; [|by eexists]. destruct (is_repeated f); by eexists.
Qed.

Lemma format_args_ok d m ns : exists args, format_args short [delimiter] d m [] [] ns = Ok args /\
  Forall2 (fun n a => number_arg short [delimiter] d m [] [] n = Ok a) ns args.
Proof.
  induction ns as [|n ns (args & IH1 & IH2)]; [by exists []|]. destruct (number_arg_ok d m n) as [a Ha]. exists (a :: args).
  cbn [format_args]. rewrite Ha, IH1. cbn [rbind]. split; [done | by constructor].
Qed.

(** reading the text of a field back *)
Lemma put_parts i f vs m m0 : Forall (printable f) vs -> is_repeated f = true -> is_enum f = false -> m0 !! i = Some m -> 
  foldl (put_part short i f None) (Ok m0) (map (element_text short f) vs) = Ok (<[i := m ++ vs]> m0).
Proof.
  intros Hp Hr He. revert m m0. induction Hp as [|v vs Hv _ IH]; intros m m0 Hm; cbn [map foldl].
  - rewrite app_nil_r. by rewrite list_insert_id.
  - unfold put_part at 2. cbn [rbind]. rewrite Hr, He, (printable_back f v Hv). assert (values m0 i = m) as -> by (unfold values; by rewrite Hm).
    rewrite (IH (m ++ [v])); [by rewrite list_insert_insert_eq, <- app_assoc|]. apply list_lookup_insert_eq. by eapply lookup_lt_Some.
Qed.

Lemma spec_split n : boost_split (Z.eqb 46) (as_string n) = [as_string n].
Proof. apply (split_join 46 [as_string n]); [done|]. repeat constructor. intros Hc. apply as_string_digits in Hc. lia. Qed.

Lemma parse_set_field d m0 i f vs : 1 <= fd_number f < 2 ^ 31 -> FindFieldByNumber d (fd_number f) = Some (i, f) -> m0 !! i = Some [] -> printable_field f vs ->
  parse_spec performer short [delimiter] [] (as_string (fd_number f)) (set_text f vs) d m0 = Ok (<[i := vs]> m0).
Proof.
  intros Hn Hf Hm (Hne & Hp & Hr). unfold parse_spec. rewrite spec_split. cbn [head default from_option id]. rewrite lexical_cast_int_string by lia. cbn [rbind]. rewrite Hf.
  unfold run_create. cbn [foldl rbind]. unfold set_text. destruct (is_repeated f) eqn:Er.
  - destruct Hr as [He Hd]. cbn [any_of]. rewrite split_join by (first [by destruct vs | by apply Forall_map]). by rewrite (put_parts i f vs []).
  - destruct vs as [|v [|]]; try done. apply Forall_cons in Hp as [Hv _]. cbn [foldl]. unfold put_part. cbn [rbind]. rewrite Er. by rewrite (printable_back f v Hv).
Qed.

(** ** The fields of a format *)

Definition directives (ps : list Piece) : list Z := omap (fun p => match p with Dir n => Some n | Lit _ => None end) ps.

Definition number_text (d : Descriptor) (m : Message) (n : Z) : bytes :=
  match FindFieldByNumber d n with Some (i, f) => set_text f (values m i) | None => [] end.
Definition out_piece (d : Descriptor) (m : Message) (p : Piece) : bytes := match p with Lit c => [c] | Dir n => number_text d m n end.
Definition out_text (d : Descriptor) (m : Message) (ps : list Piece) : bytes := concat (map (out_piece d m) ps).

(** what follows a field does not occur in its text, whatever the case *)
Definition ends_before (s : bytes) (ps : list Piece) : Prop :=
  match ps with [] => 0 ∉ s | Lit c :: _ => to_lower c ∉ lower s | Dir _ :: _ => False end.
Fixpoint separated (d : Descriptor) (m : Message) (ps : list Piece) : Prop :=
  match ps with
  | [] => True
  | Lit _ :: ps => separated d m ps
  | Dir n :: ps => ends_before (number_text d m n) ps /\ separated d m ps
  end.

Record fits (d : Descriptor) (m : Message) (ps : list Piece) : Prop := MkFits {
  fits_pieces : Forall ok_piece ps;
  fits_plain : matches (nested_spec false false) 0 (format_source ps) = [] /\ matches (indexed_spec false false) 0 (format_source ps) = [];
  fits_numbers : NoDup (map fd_number (fields d));
  fits_once : NoDup (directives ps);
  fits_known : Forall (fun n => n ∈ map fd_number (fields d) /\ n <= max_field_number d) (directives ps);
  fits_fields : Forall2 (fun f vs => if bool_decide (fd_number f ∈ directives ps) then printable_field f vs else vs = []) (fields d) m;
  fits_separated : separated d m ps
}.

Lemma find_number_at n l : forall i j f, NoDup (map fd_number l) -> l !! j = Some f -> fd_number f = n -> find_number n i l = Some ((i + j)%nat, f).
Proof.
  induction l as [|g l IH]; intros i j f Hn Hj Hf; [done|]. cbn [map] in Hn. apply NoDup_cons in Hn as [Hx Hn]. cbn [find_number]. destruct j as [|j].
  - injection Hj as ->. rewrite Hf, Z.eqb_refl. by rewrite Nat.add_0_r.
  - cbn in Hj. destruct (fd_number g =? n) eqn:E.
    + exfalso. apply Hx. apply list_elem_of_fmap. exists f. split; [lia | by eapply list_elem_of_lookup_2].
    + rewrite (IH (S i) j f) by done. f_equal. f_equal. lia.
Qed.

(** the field of a directive *)
Lemma directive_field d m ps n : fits d m ps -> n ∈ directives ps -> exists i f vs,
  FindFieldByNumber d n = Some (i, f) /\ fd_number f = n /\ fields d !! i = Some f /\ m !! i = Some vs /\ printable_field f vs /\ number_text d m n = set_text f vs.
Proof.
  intros H Hn. destruct (proj1 (Forall_forall _ _) (fits_known _ _ _ H) n Hn) as [Hk _]. apply list_elem_of_fmap in Hk as (f & Hf & Hin).
  apply list_elem_of_lookup in Hin as [i Hi]. destruct (Forall2_lookup_l _ _ _ _ _ (fits_fields _ _ _ H) Hi) as (vs & Hvs & Hp).
  rewrite bool_decide_eq_true_2 in Hp by (by rewrite <- Hf). assert (FF : FindFieldByNumber d n = Some (i, f)) by (apply (find_number_at n _ 0 i f (fits_numbers _ _ _ H) Hi); done).
  exists i, f, vs. unfold number_text, values. rewrite FF, Hvs. done.
Qed.

(** ** The text *)

Lemma ok_directive ps n : Forall ok_piece ps -> n ∈ directives ps -> 1 <= n < 2 ^ 31.
Proof.
  induction 1 as [|p ps Hp _ IH]; [intros Hn; by apply elem_of_nil in Hn|]. unfold directives in *. cbn [omap list_omap]. destruct p as [c|k]; [done|].
  intros Hn. apply elem_of_cons in Hn as [->|Hn]; [exact Hp | by apply IH].
Qed.

Lemma format_text d m ps : fits d m ps -> format_serialize performer short [delimiter] [] d m (format_source ps) = Ok (out_text d m ps).
Proof.
  intros H. unfold format_serialize, serialize_step at 1. unfold run_serialize_algorithms. cbn [foldl rbind]. destruct (fits_plain _ _ _ H) as [-> Hix]. cbn [foldl rbind]. rewrite Hix.
  cbn [foldl]. rewrite (boost_accepts_pieces ps (fits_pieces _ _ _ H)). cbn [negb]. destruct (format_args_ok d m (seqZ 1 (max_field_number d))) as (args & -> & Hargs). cbn [rbind].
  rewrite boost_format_pieces by apply (fits_pieces _ _ _ H). unfold out_text. do 2 f_equal. apply map_ext_in. intros p Hp. apply list_elem_of_In in Hp.
  destruct p as [c|n]; [done|]. assert (Hn : n ∈ directives ps) by (apply list_elem_of_omap; by exists (Dir n)). cbn [piece_text out_piece].
  destruct (directive_field d m ps n H Hn) as (i & f & vs & HF & Hf & _ & Hm & Hpf & ->). pose proof (ok_directive ps n (fits_pieces _ _ _ H) Hn) as Hr.
  destruct (proj1 (Forall_forall _ _) (fits_known _ _ _ H) n Hn) as [_ Hmax].
  assert (Hs : seqZ 1 (max_field_number d) !! Z.to_nat (n - 1) = Some n) by (apply lookup_seqZ; lia).
  destruct (Forall2_lookup_l _ _ _ _ _ Hargs Hs) as (a & Ha & Hna). rewrite Ha. cbn [fmap option_fmap option_map default from_option id].
  destruct (field_argument d m i f vs ltac:(by rewrite Hf) Hm Hpf) as (a' & Ha' & <-). rewrite Hf, Hna in Ha'. injection Ha' as ->. done.
Qed.

(** ** Reading the text *)

Definition piece_token (p : Piece) : Token := match p with Lit c => TLit (to_lower c) | Dir n => TSpec (as_string n) end.

Lemma as_string_lower n : map to_lower (as_string n) = as_string n.
Proof. exact (proj2 (number_plain n)). Qed.

Lemma tokens_app s rest : forall p, 37 ∉ s -> tokens (Some p) (s ++ 37 :: rest) = TSpec (p ++ s) :: tokens None rest.
Proof.
  induction s as [|c s IH]; intros p Hs; cbn [app tokens].
  - by rewrite Z.eqb_refl, app_nil_r.
  - apply not_elem_of_cons in Hs as [Hc Hs]. assert ((c =? 37) = false) as -> by lia. rewrite IH by done. by rewrite <- app_assoc.
Qed.

Lemma format_tokens ps : Forall ok_piece ps -> tokens None (format_source ps) = map (fun p => match p with Lit c => TLit c | Dir n => TSpec (as_string n) end) ps.
Proof.
  unfold format_source. induction 1 as [|p ps Hp _ IH]; [done|]. cbn [map concat]. destruct p as [c|n]; cbn [piece_source map app tokens].
  - assert ((c =? 37) = false) as -> by (cbn in Hp; lia). by rewrite IH.
  - rewrite Z.eqb_refl, <- app_assoc. cbn [app]. rewrite tokens_app by (intros Hc; apply as_string_digits in Hc; lia). by rewrite IH.
Qed.

Lemma source_tokens ps : Forall ok_piece ps -> tokens None (map to_lower (format_source ps)) = map piece_token ps.
Proof.
  intros Hps. assert (E : map to_lower (format_source ps) = format_source (map (fun p => match p with Lit c => Lit (to_lower c) | _ => p end) ps)).
  { unfold format_source. rewrite concat_map, !map_map. f_equal. apply map_ext. intros [c|n]; [done|]. cbn [piece_source map]. change (to_lower 37) with 37. f_equal.
    rewrite map_app, as_string_lower. done. }
  rewrite E, format_tokens, map_map; [apply map_ext; by intros [c|n]|]. apply Forall_map. eapply Forall_impl; [exact Hps|]. intros [c|n] Hp; [|exact Hp]. cbn in *.
  intros Hc. apply Hp, (to_lower_other 37 c); [lia | done].
Qed.

Lemma find_char_absent c s : c ∉ s -> find_char c s = None.
Proof. intros Hs. by rewrite <- (app_nil_r s), find_char_skip. Qed.

(** the message with the fields of some numbers *)
Definition filled (d : Descriptor) (m : Message) (ns : list Z) : Message :=
  zip_with (fun f vs => if bool_decide (fd_number f ∈ ns) then vs else []) (fields d) m.

Lemma filled_lookup d m ns i f vs : fields d !! i = Some f -> m !! i = Some vs ->
  filled d m ns !! i = Some (if bool_decide (fd_number f ∈ ns) then vs else []).
Proof. intros Hf Hm. unfold filled. rewrite lookup_zip_with, Hf. cbn. by rewrite Hm. Qed.

Lemma filled_step d m ns i f vs : NoDup (map fd_number (fields d)) -> length m = length (fields d) -> fields d !! i = Some f -> m !! i = Some vs ->
  <[i := vs]> (filled d m ns) = filled d m (ns ++ [fd_number f]).
Proof.
  intros Hn Hl Hf Hm. assert (Hi := lookup_lt_Some _ _ _ Hm). assert (Hlf : forall l, length (filled d m l) = length m) by (intros l; unfold filled; rewrite length_zip_with; lia).
  eapply (list_eq_same_length _ _ (length m)); [by rewrite Hlf | by rewrite length_insert, Hlf|]. intros j x y Hj. destruct (decide (i = j)) as [<-|Hij].
  - rewrite list_lookup_insert_eq by (rewrite Hlf; lia). rewrite (filled_lookup _ _ _ _ _ _ Hf Hm), bool_decide_eq_true_2 by set_solver. congruence.
  - rewrite list_lookup_insert_ne by done. destruct (lookup_lt_is_Some_2 m j Hj) as [ws Hws]. destruct (lookup_lt_is_Some_2 (fields d) j ltac:(lia)) as [g Hg].
    rewrite !(filled_lookup _ _ _ _ _ _ Hg Hws). assert (Hne : fd_number g <> fd_number f).
    { intros E. apply Hij. eapply NoDup_lookup; [exact Hn | |]; rewrite list_lookup_fmap; [rewrite Hf | rewrite Hg]; cbn; [done | by rewrite E]. }
    assert (bool_decide (fd_number g ∈ ns) = bool_decide (fd_number g ∈ ns ++ [fd_number f])) as ->; [|congruence]. apply bool_decide_ext. set_solver.
Qed.

Lemma parse_pieces d m ps0 : fits d m ps0 -> forall ps done0 pending, directives ps0 = done0 ++ directives ps -> separated d m ps ->
  match ps with Lit c :: _ => to_lower c ∉ lower pending | [] => True | Dir _ :: _ => pending = [] end ->
  parse_tokens performer short [delimiter] (parse_step performer short [delimiter] (fun _ _ _ _ => Err Dies) []) [] d
    (map piece_token ps) (pending ++ out_text d m ps) (lower (pending ++ out_text d m ps)) (filled d m done0) = Ok (filled d m (directives ps0)).
Proof.
  intros H. induction ps as [|p ps IH]; intros done0 pending Hd Hs Hp.
  - cbn [map parse_tokens]. by rewrite Hd, app_nil_r.
  - destruct p as [c|n]; cbn [map piece_token parse_tokens].
    + change (out_text d m (Lit c :: ps)) with (c :: out_text d m ps).
      assert (E0 : lower (pending ++ c :: out_text d m ps) = lower pending ++ to_lower c :: lower (out_text d m ps)) by (unfold lower; by rewrite map_app).
      rewrite E0. unfold find_after. rewrite find_char_app by exact Hp. assert (Hlp : length (lower pending) = length pending) by (unfold lower; by rewrite length_map). rewrite Hlp.
      assert (Hdrop : forall (a : bytes) x b, length a = length pending -> drop (S (length pending)) (a ++ x :: b) = b).
      { intros a x b Ha. rewrite drop_app_ge by lia. by replace (S (length pending) - length a)%nat with 1%nat by lia. }
      rewrite !Hdrop by done.
      pose proof (IH done0 []) as G; cbn [app] in G; apply G; [exact Hd | exact Hs|]. destruct ps as [|[c'|n'] ps]; [done| |done]. by apply not_elem_of_nil.
    + subst pending. destruct Hs as [He Hs]. cbn [app]. assert (Hn : n ∈ directives ps0) by (rewrite Hd; set_solver).
      destruct (directive_field d m ps0 n H Hn) as (i & f & vs & HF & Hf & Hfi & Hm & Hpf & Ht).
      assert (Hout : out_text d m (Dir n :: ps) = set_text f vs ++ out_text d m ps) by (unfold out_text; cbn [map concat out_piece]; by rewrite Ht).
      assert (Hx : match find_char (separator (map piece_token ps)) (lower (out_text d m (Dir n :: ps))) with Some k => take k (out_text d m (Dir n :: ps)) | None => out_text d m (Dir n :: ps) end = set_text f vs).
      { rewrite Hout. rewrite Ht in He. destruct ps as [|[c|k] ps]; cbn [map piece_token separator]; [| |done].
        - unfold out_text. cbn [map concat]. rewrite app_nil_r. rewrite find_char_absent; [done|]. apply lower_not_in; [lia | exact He].
        - unfold lower. rewrite map_app. unfold out_text. cbn [map concat out_piece app]. rewrite find_char_app by exact He. rewrite length_map. apply take_app_length. }
      rewrite Hx. rewrite existsb_colon by (intros Hc; apply as_string_digits in Hc; lia). rewrite <- Hf.
      assert (Hnd : n ∉ done0). { intros Hin. pose proof (fits_once _ _ _ H) as Ho. rewrite Hd in Ho. apply NoDup_app in Ho as (_ & Ho & _). apply (Ho n Hin). set_solver. }
      rewrite (parse_set_field d _ i f vs); [| rewrite Hf; by apply (ok_directive ps0 n (fits_pieces _ _ _ H)) | by rewrite Hf | | done]; cycle 1.
      { rewrite (filled_lookup _ _ _ _ _ _ Hfi Hm), bool_decide_eq_false_2; [done|]. by rewrite Hf. }
      cbn [rbind]. pose proof (Forall2_length _ _ _ (fits_fields _ _ _ H)) as Hlen. rewrite (filled_step d m done0 i f vs (fits_numbers _ _ _ H)) by done.
      rewrite Hf, Hout. apply (IH (done0 ++ [n]) (set_text f vs)); [rewrite Hd, <- app_assoc; reflexivity | exact Hs|].
      rewrite Ht in He. destruct ps as [|[c|k] ps]; done.
Qed.

Lemma format_back (d : Descriptor) (m : Message) (ps : list Piece) : fits d m ps ->
  format_parse performer short [delimiter] [] (out_text d m ps) (format_source ps) d (new_message d) = Ok m.
Proof.
  intros H. unfold format_parse, parse_step at 1. rewrite source_tokens by apply (fits_pieces _ _ _ H).
  pose proof (Forall2_length _ _ _ (fits_fields _ _ _ H)) as Hl.
  assert (H0 : new_message d = filled d m []) by (unfold new_message, filled; clear -Hl; revert m Hl; induction (fields d) as [|f fs IH]; intros [|vs m] Hl; try done; cbn; f_equal; apply IH; cbn in Hl; lia).
  assert (H1 : filled d m (directives ps) = m).
  { unfold filled. pose proof (fits_fields _ _ _ H) as HF. clear -HF. induction HF as [|f vs fs m Hf _ IH]; [done|]. cbn [zip_with]. rewrite IH. f_equal. destruct (bool_decide _); [done | by symmetry]. }
  pose proof (parse_pieces d m ps H ps [] []) as G. rewrite H1, <- H0 in G. apply G; [done | apply (fits_separated _ _ _ H)|]. destruct ps as [|[c|n] ps]; [done| |done]. by apply not_elem_of_nil.
Qed.


End Readable.

(** ** A concrete format *)

Module FormatWitness.
#[local] Existing Instances Sample.text Sample.text_laws Reader.cast Reader.numbers Reader.decimal SampleProtobuf.encodings SampleProtobuf.encodings_laws SampleProtobuf.val_text CommasWitness.wide CommasWitness.wide_laws.

(** an implementation of the format strings *)
Fixpoint fill_tokens `{ValText} (args : list FormatArg) (ts : list Token) : option bytes :=
  match ts with
  | [] => Some []
  | TLit c :: ts => (fun r => c :: r) <$> fill_tokens args ts
  | TSpec p :: ts =>
      match Reader.read_Z p with
      | Some n => (fun r => default [] (arg_text <$> args !! Z.to_nat (n - 1)) ++ r) <$> fill_tokens args ts
      | None => None
      end
  | TOpen :: _ => None
  end.
#[export] Instance boost : BoostFormat := {| format_accepted s := bool_decide (is_Some (fill_tokens [] (tokens None s))); boost_format s args := fill_tokens args (tokens None s) |}.
#[export] Instance boost_laws : BoostFormatLaws.
Proof.
  assert (F : forall ps args, Forall ok_piece ps -> fill_tokens args (tokens None (format_source ps)) = Some (concat (map (piece_text args) ps))); [|constructor; [|exact F]; intros ps H; apply bool_decide_eq_true_2; rewrite F by done; done].
  intros ps args H. rewrite format_tokens by done. clear H. induction ps as [|[c|n] ps IH]; [done| |]; cbn [map fill_tokens concat piece_text].
  - rewrite IH. done.
  - rewrite Reader.read_as_string, IH. done.
Qed.

Definition track : Descriptor := MkDescriptor (B "sample.Track")
  [MkField 2 (B "name") false TString (VString []); MkField 1 (B "id") false TUInt32 (VInt 0);
   MkField 5 (B "mode") false (TEnum [B "MODE_IDLE"; B "MODE_SURVEY"]) (VEnum (B "MODE_IDLE")); MkField 4 (B "range") true TInt32 (VInt 0);
   MkField 7 (B "leaf") false (TMessage SampleProtobuf.leaf) (VMsg []); MkField 8 (B "unused") false TInt64 (VInt 0)].
Definition track_message : Message :=
  [[VString (B "Alpha 7")]; [VInt 12]; [VEnum (B "MODE_SURVEY")]; [VInt (-3); VInt 40]; [VMsg [[VInt 9]]]; []].
Definition track_format : list Piece := map Lit (B "Node=") ++ [Dir 2] ++ map Lit (B ", #") ++ [Dir 1; Lit 32; Dir 5; Lit 91; Dir 4; Lit 93; Dir 7].

Lemma track_fits : fits (typed := SampleProtobuf.small) true 44 track track_message track_format.
Proof.
  constructor.
  - unfold track_format. repeat (apply Forall_cons; split; [cbn; lia|]). by apply Forall_nil.
  - split; vm_compute; reflexivity.
  - apply (bool_decide_unpack _). vm_compute. exact I.
  - apply (bool_decide_unpack _). vm_compute. exact I.
  - apply (bool_decide_unpack _). vm_compute. exact I.
  - repeat apply Forall2_cons_2; try apply Forall2_nil_2; try (rewrite bool_decide_eq_true_2 by (apply (bool_decide_unpack _); vm_compute; exact I); split; [done | split; [repeat constructor|done]]).
    + lia.
    + rewrite bool_decide_eq_true_2 by (apply (bool_decide_unpack _); vm_compute; exact I). split; [done|]. split; [by repeat constructor|]. split; [done|].
      apply (bool_decide_unpack (Forall (fun v => 44 ∉ element_text true (MkField 4 (B "range") true TInt32 (VInt 0)) v) [VInt (-3); VInt 40])). vm_compute. exact I.
    + exists 9. split; [lia | done].
    + by rewrite bool_decide_eq_false_2 by (apply (bool_decide_unpack _); vm_compute; exact I).
  - cbn [track_format separated map app]. repeat split; apply (bool_decide_unpack _); vm_compute; exact I.
Qed.


(** the text in full *)
Example track_text : format_serialize CommasWitness.no_algorithms true [44] [] track track_message (B "Node=%2%, #%1% %5%[%4%]%7%") = Ok (B "Node=Alpha 7, #12 SURVEY[-3,40]09").
Proof. vm_compute. reflexivity. Qed.

(** elements and embedded fields *)
Example track_nested : format_serialize CommasWitness.no_algorithms true [44] [] track track_message (B "%4.1%/%4.5%/%7:1%") = Ok (B "40/2147483647/9").
Proof. vm_compute. reflexivity. Qed.

(** when the first field of the type has the largest number, it is left empty *)
Example largest_first : format_serialize CommasWitness.no_algorithms true [44] [] (MkDescriptor (B "T") [MkField 3 (B "b") false TInt32 (VInt 0); MkField 1 (B "a") false TInt32 (VInt 0)])
  [[VInt 5]; [VInt 6]] (B "%1%,%3%") = Ok (B "6,").
Proof. vm_compute. reflexivity. Qed.

(** bytes are written in hexadecimal but read as they are; a repeated enumeration ends the program *)
Example bytes_not_decoded : format_parse CommasWitness.no_algorithms false [44] [] (B "ff00") (B "%1%") (MkDescriptor (B "T") [MkField 1 (B "raw") false TBytes (VString [])]) [[]]
  = Ok [[VString (B "ff00")]].
Proof. vm_compute. reflexivity. Qed.

Example repeated_enum_dies : format_parse CommasWitness.no_algorithms false [44] [] (B "A,B") (B "%1%") (MkDescriptor (B "T") [MkField 1 (B "e") true (TEnum [B "A"; B "B"]) (VEnum (B "A"))]) [[]]
  = Err Dies.
Proof. vm_compute. reflexivity. Qed.

End FormatWitness.
