(* ===== verification/MoosTranslator.v ===== *)
(** * moos/moos_translator.h: messages to MOOS variables and back

    The translator keeps a dictionary of entries by the name of a protobuf
    type. An entry lists the variables that are published for a message and the
    ones that a message is created from, each with a technique. *)

From Stdlib Require Import SpecFloat.
From S2P Require Import Prelude AssocList HexCodec Double Time As Proto Nmea MoosString MessageVal MoosMessage MoosCommas MoosFormat.

(** ** Mail *)

(** [CMOOSMsg]: a number, a text or a binary string *)
Inductive MoosValue : Type := MDouble (d : double) | MString (s : bytes) | MBinary (s : bytes).
Record MoosMsg : Type := MkMoosMsg { mm_key : bytes; mm_value : MoosValue; mm_source : bytes; mm_source_aux : bytes; mm_time : double }.

(** of the MOOS library: the time of a new message, and how a binary string is read *)
Class MoosLibrary : Type := {
  moos_new_time : double;
  IsString : MoosValue -> bool;
  GetString : MoosValue -> bytes;
  GetDouble : MoosValue -> double;
  double_text : double -> bytes       (* [as<std::string>(double)] *)
}.
Class MoosLibraryLaws `{MoosLibrary} : Prop := {
  string_is_string : forall s, IsString (MString s) = true /\ GetString (MString s) = s;
  double_is_double : forall d, IsString (MDouble d) = false /\ GetDouble (MDouble d) = d;
  binary_text : forall s, GetString (MBinary s) = s
}.

Definition set_source_aux (aux : bytes) (m : MoosMsg) : MoosMsg := MkMoosMsg (mm_key m) (mm_value m) (mm_source m) aux (mm_time m).
Definition set_time (t : double) (m : MoosMsg) : MoosMsg := MkMoosMsg (mm_key m) (mm_value m) (mm_source m) (mm_source_aux m) t.

(** [ParserSerializerTechnique_Name] *)
Definition technique_name (t : Technique) : bytes :=
  match t with
  | TECHNIQUE_PROTOBUF_TEXT_FORMAT => B "TECHNIQUE_PROTOBUF_TEXT_FORMAT"
  | TECHNIQUE_PROTOBUF_NATIVE_ENCODED => B "TECHNIQUE_PROTOBUF_NATIVE_ENCODED"
  | TECHNIQUE_COMMA_SEPARATED_KEY_EQUALS_VALUE_PAIRS => B "TECHNIQUE_COMMA_SEPARATED_KEY_EQUALS_VALUE_PAIRS"
  | TECHNIQUE_FORMAT => B "TECHNIQUE_FORMAT"
  | TECHNIQUE_PREFIXED_PROTOBUF_TEXT_FORMAT => B "TECHNIQUE_PREFIXED_PROTOBUF_TEXT_FORMAT"
  | TECHNIQUE_PROTOBUF_NATIVE_HEX => B "TECHNIQUE_PROTOBUF_NATIVE_HEX"
  | TECHNIQUE_PREFIXED_PROTOBUF_NATIVE_HEX => B "TECHNIQUE_PREFIXED_PROTOBUF_NATIVE_HEX"
  | TECHNIQUE_PREFIXED_PROTOBUF_NATIVE_ENCODED => B "TECHNIQUE_PREFIXED_PROTOBUF_NATIVE_ENCODED"
  end.

(** ** Entries *)

Inductive TriggerType : Type := TRIGGER_PUBLISH | TRIGGER_TIME.
Record Trigger : Type := MkTrigger { trigger_type : TriggerType; trigger_moos_var : bytes; trigger_period : Z; mandatory_content : option bytes }.
Record CreateParser : Type := MkCreate {
  cp_technique : Technique; cp_moos_var : bytes; cp_format : bytes; cp_repeated_delimiter : bytes; cp_algorithm : list CreateAlgorithm
}.
Record PublishSerializer : Type := MkPublish {
  ps_technique : Technique; ps_moos_var : bytes; ps_format : bytes; ps_repeated_delimiter : bytes; ps_algorithm : list PublishAlgorithm
}.
Record TranslatorEntry : Type := MkEntry {
  protobuf_name : bytes; trigger : Trigger; create : list CreateParser; publish : list PublishSerializer; use_short_enum : bool
}.

(** the order of strings *)
Fixpoint string_lt (a b : bytes) : bool :=
  match a, b with
  | _, [] => false
  | [], _ => true
  | x :: a, y :: b => if x <? y then true else if y <? x then false else string_lt a b
  end.

(** [std::multimap::insert]: behind the elements with the same key *)
Fixpoint mail_insert (m : MoosMsg) (l : list (bytes * MoosMsg)) (var : bytes) : list (bytes * MoosMsg) :=
  match l with
  | [] => [(var, m)]
  | (k, v) :: rest => if string_lt var k then (var, m) :: l else (k, v) :: mail_insert m rest var
  end.

Section Translator.
Context {TX : BoostText} {LC : LexicalCast} {LN : LexicalNumbers} {LW : LexicalWide} {VT : ValText} {PT : ProtobufText} {BF : BoostFormat} {ML : MoosLibrary}.

(** [MOOSTranslator]; its geodesy and modem names are part of the algorithms it registered *)
Record MOOSTranslator : Type := MkTranslator { dictionary : list (bytes * TranslatorEntry); performer : DCCLAlgorithmPerformer }.

Definition clear_entry (name : bytes) (t : MOOSTranslator) : MOOSTranslator :=
  MkTranslator (List.filter (fun e => negb (bool_decide (fst e = name))) (dictionary t)) (performer t).

Definition add_entry (t : MOOSTranslator) (e : TranslatorEntry) : result TransExn MOOSTranslator :=
  match map_get (protobuf_name e) (dictionary t) with
  | Some _ => Err RuntimeError
  | None => Ok (MkTranslator (map_put (protobuf_name e) e (dictionary t)) (performer t))
  end.

Definition add_entries (t : MOOSTranslator) (l : list TranslatorEntry) : result TransExn MOOSTranslator :=
  foldl (fun acc e => let? t := acc in add_entry t e) (Ok t) l.

(** the constructors, after [initialize]; [None] is an entry that is not initialized *)
Definition new_translator (entry : option TranslatorEntry) (p : DCCLAlgorithmPerformer) : result TransExn MOOSTranslator :=
  match entry with Some e => add_entry (MkTranslator [] p) e | None => Ok (MkTranslator [] p) end.
Definition new_translator_of (entries : list TranslatorEntry) (p : DCCLAlgorithmPerformer) : result TransExn MOOSTranslator :=
  add_entries (MkTranslator [] p) entries.

Definition make_moos_msg (var str : bytes) (is_binary : bool) (technique : Technique) (pb_name : bytes) : MoosMsg :=
  let aux := pb_name ++ 58 :: technique_name technique in
  if is_binary then set_source_aux aux (MkMoosMsg var (MBinary str) [] [] moos_new_time)
  else match lexical_cast_double str with
       | Some d => MkMoosMsg var (MDouble d) [] [] moos_new_time
       | None => set_source_aux aux (MkMoosMsg var (MString str) [] [] moos_new_time)
       end.

(** ** Publishing *)

(** the variable and the text; whether the technique is binary *)
Definition publish_text (t : MOOSTranslator) (short : bool) (p : PublishSerializer) (d : Descriptor) (m : Message) : result TransExn (bytes * bytes * bool) :=
  let var := ps_moos_var p in
  match ps_technique p with
  | TECHNIQUE_PROTOBUF_TEXT_FORMAT => Ok (var, base_serialize TextFormat d m, false)
  | TECHNIQUE_PREFIXED_PROTOBUF_TEXT_FORMAT => Ok (var, prefix_serialize TextFormat d m, false)
  | TECHNIQUE_PREFIXED_PROTOBUF_NATIVE_HEX => Ok (var, prefix_serialize NativeHex d m, false)
  | TECHNIQUE_PROTOBUF_NATIVE_HEX => Ok (var, base_serialize NativeHex d m, false)
  | TECHNIQUE_PROTOBUF_NATIVE_ENCODED => Ok (var, base_serialize NativeEncoded d m, true)
  | TECHNIQUE_PREFIXED_PROTOBUF_NATIVE_ENCODED => Ok (var, prefix_serialize NativeEncoded d m, true)
  | TECHNIQUE_COMMA_SEPARATED_KEY_EQUALS_VALUE_PAIRS =>
      let? s := comma_serialize (performer t) short d m (ps_algorithm p) in Ok (var, s, false)
  | TECHNIQUE_FORMAT =>
      let? var := format_serialize (performer t) short (ps_repeated_delimiter p) (ps_algorithm p) d m (ps_moos_var p) in
      let? s := format_serialize (performer t) short (ps_repeated_delimiter p) (ps_algorithm p) d m (ps_format p) in
      Ok (var, s, false)
  end.

(** [is_binary] is not reset from one variable to the next *)
Definition protobuf_to_moos (t : MOOSTranslator) (d : Descriptor) (m : Message) : result TransExn (list (bytes * MoosMsg)) :=
  match map_get (full_name d) (dictionary t) with
  | None => Err RuntimeError
  | Some entry =>
      let? r := foldl (fun acc p =>
        let? st := acc in
        let? out := publish_text t (use_short_enum entry) p d m in
        let '(var, str, binary) := out in
        let is_binary := snd st || binary in
        Ok (mail_insert (make_moos_msg var str is_binary (ps_technique p) (full_name d)) (fst st) var, is_binary))
        (Ok ([], false)) (publish entry) in
      Ok (fst r)
  end.

(** the text that a parser of an entry would read *)
Definition create_text (t : MOOSTranslator) (short : bool) (c : CreateParser) (d : Descriptor) (m : Message) : result TransExn (bytes * bool) :=
  match cp_technique c with
  | TECHNIQUE_PROTOBUF_TEXT_FORMAT => Ok (base_serialize TextFormat d m, false)
  | TECHNIQUE_PREFIXED_PROTOBUF_TEXT_FORMAT => Ok (prefix_serialize TextFormat d m, false)
  | TECHNIQUE_PROTOBUF_NATIVE_HEX => Ok (base_serialize NativeHex d m, false)
  | TECHNIQUE_PREFIXED_PROTOBUF_NATIVE_HEX => Ok (prefix_serialize NativeHex d m, false)
  | TECHNIQUE_PROTOBUF_NATIVE_ENCODED => Ok (base_serialize NativeEncoded d m, true)
  | TECHNIQUE_PREFIXED_PROTOBUF_NATIVE_ENCODED => Ok (prefix_serialize NativeEncoded d m, true)
  | TECHNIQUE_COMMA_SEPARATED_KEY_EQUALS_VALUE_PAIRS => let? s := comma_serialize (performer t) short d m [] in Ok (s, false)
  | TECHNIQUE_FORMAT => let? s := format_serialize (performer t) short (cp_repeated_delimiter c) [] d m (cp_format c) in Ok (s, false)
  end.

Definition protobuf_to_inverse_moos (now : double) (t : MOOSTranslator) (d : Descriptor) (m : Message) : result TransExn (list (bytes * MoosMsg)) :=
  match map_get (full_name d) (dictionary t) with
  | None => Err RuntimeError
  | Some entry =>
      let? r := foldl (fun acc c =>
        let? st := acc in
        let? out := create_text t (use_short_enum entry) c d m in
        let is_binary := snd st || snd out in
        Ok (mail_insert (make_moos_msg (cp_moos_var c) (fst out) is_binary (cp_technique c) (full_name d)) (fst st) (cp_moos_var c), is_binary))
        (Ok ([], false)) (create entry) in
      let var := trigger_moos_var (trigger entry) in
      match trigger_type (trigger entry) with
      | TRIGGER_TIME => Ok (fst r)
      | TRIGGER_PUBLISH =>
          Ok (if existsb (fun e => bool_decide (fst e = var)) (fst r)
              then map (fun e => if bool_decide (fst e = var) then (fst e, set_time now (snd e)) else e) (fst r)
              else mail_insert (MkMoosMsg var (MString []) [] [] moos_new_time) (fst r) var)
      end
  end.

(** ** Creating a message *)

Definition source_string (vars : list (bytes * MoosMsg)) (var : bytes) : bytes :=
  match map_get var vars with
  | None => []
  | Some m => if IsString (mm_value m) then GetString (mm_value m) else double_text (GetDouble (mm_value m))
  end.

Definition create_parse (t : MOOSTranslator) (short : bool) (c : CreateParser) (s : bytes) (d : Descriptor) (m : Message) : result TransExn Message :=
  match cp_technique c with
  | TECHNIQUE_PROTOBUF_TEXT_FORMAT => Ok (base_parse TextFormat d s)
  | TECHNIQUE_PREFIXED_PROTOBUF_TEXT_FORMAT => prefix_parse TextFormat d s
  | TECHNIQUE_PROTOBUF_NATIVE_HEX => Ok (base_parse NativeHex d s)
  | TECHNIQUE_PREFIXED_PROTOBUF_NATIVE_HEX => prefix_parse NativeHex d s
  | TECHNIQUE_PROTOBUF_NATIVE_ENCODED => Ok (base_parse NativeEncoded d s)
  | TECHNIQUE_PREFIXED_PROTOBUF_NATIVE_ENCODED => prefix_parse NativeEncoded d s
  | TECHNIQUE_COMMA_SEPARATED_KEY_EQUALS_VALUE_PAIRS => comma_parse (performer t) short d s (cp_algorithm c) m
  | TECHNIQUE_FORMAT => format_parse (performer t) short (cp_repeated_delimiter c) (cp_algorithm c) s (cp_format c) d m
  end.

Definition moos_to_protobuf (t : MOOSTranslator) (vars : list (bytes * MoosMsg)) (name : bytes) : result TransExn (Descriptor * Message) :=
  match map_get name (dictionary t), find_type name with
  | None, _ | _, None => Err RuntimeError
  | Some entry, Some d =>
      let? m := foldl (fun acc c =>
        let? m := acc in create_parse t (use_short_enum entry) c (source_string vars (cp_moos_var c)) d m) (Ok (new_message d)) (create entry) in
      Ok (d, m)
  end.

End Translator.
