(* ===== verification/MoosApp.v ===== *)
(** * moos/goby_moos_app.h and dynamic_moos_vars.h: the base of MOOS applications

    An application subscribes for variables, hands the mail to its handlers and
    publishes. Before it is connected and started, messages are buffered and
    subscriptions pending; after a disconnection all subscriptions are made
    again. Handlers publish messages; subscriptions are made by the constructor
    of an application. *)

From Stdlib Require Import SpecFloat.
From S2P Require Import Prelude Double Time As Proto Nmea Prog MessageVal MoosMessage MoosTranslator.
#[local] Open Scope prog_scope.

(** [DynamicMOOSVars] *)
Definition update_moos_vars (m : MoosMsg) (vars : list (bytes * MoosMsg)) : list (bytes * MoosMsg) := map_put (mm_key m) m vars.
Definition update_moos_vars_all (l : list MoosMsg) (vars : list (bytes * MoosMsg)) : list (bytes * MoosMsg) := foldl (fun v m => update_moos_vars m v) vars l.

(** a value that is published when the application connects *)
Inductive IniType : Type := INI_DOUBLE | INI_STRING.
Record Initializer : Type := MkInit { ini_type : IniType; ini_moos_var : bytes; global_cfg_var : option bytes; ini_dval : double; ini_sval : bytes; ini_trim : bool }.

(** a variable with its blackout time, or patterns of a variable and an application *)
Inductive Subscription : Type := SubVar (var : bytes) (blackout : Z) | SubWild (var_pattern app_pattern : bytes) (blackout : Z).

(** what is asked of the client of the server ([m_Comms]): a message to post, right away or from the buffer, or a subscription to
    register; and what is put into the buffer *)
Inductive AppEv : Type := Posted (m : MoosMsg) | Flushed (m : MoosMsg) | Buffered (m : MoosMsg) | Registered (s : Subscription).

Section App.
(** the application's own state, the handlers of mail and of timers, what else happens in a round, exceptions *)
Context {U H L Round X : Type}.

Record SynchronousLoop : Type := MkLoop { unix_next : double; period_seconds : Z; loop_handler : L }.

Record GobyMOOSApp : Type := MkApp {
  start_time : double;
  connected : bool;
  started_up : bool;
  ignore_stale : bool;
  dynamic_moos_vars_enabled : bool;
  dynamic_vars : list (bytes * MoosMsg);
  mail_handlers : list (bytes * list H);
  wildcard_mail_handlers : list (bytes * bytes * list H);
  msg_buffer : list MoosMsg;
  pending_subscriptions : list (bytes * Z);
  existing_subscriptions : list (bytes * Z);
  wildcard_pending_subscriptions : list (bytes * bytes * Z);
  wildcard_existing_subscriptions : list (bytes * bytes * Z);
  synchronous_loops : list SynchronousLoop;
  initializer : list Initializer;
  own : U
}.

Definition new_app (now : double) (ini : list Initializer) (u : U) : GobyMOOSApp :=
  MkApp now false false true true [] [] [] [] [] [] [] [] [] ini u.

Definition set_link (c s : bool) (a : GobyMOOSApp) : GobyMOOSApp :=
  MkApp (start_time a) c s (ignore_stale a) (dynamic_moos_vars_enabled a) (dynamic_vars a) (mail_handlers a) (wildcard_mail_handlers a) (msg_buffer a)
    (pending_subscriptions a) (existing_subscriptions a) (wildcard_pending_subscriptions a) (wildcard_existing_subscriptions a) (synchronous_loops a) (initializer a) (own a).
Definition set_vars (v : list (bytes * MoosMsg)) (a : GobyMOOSApp) : GobyMOOSApp :=
  MkApp (start_time a) (connected a) (started_up a) (ignore_stale a) (dynamic_moos_vars_enabled a) v (mail_handlers a) (wildcard_mail_handlers a) (msg_buffer a)
    (pending_subscriptions a) (existing_subscriptions a) (wildcard_pending_subscriptions a) (wildcard_existing_subscriptions a) (synchronous_loops a) (initializer a) (own a).
Definition set_handlers (h : list (bytes * list H)) (w : list (bytes * bytes * list H)) (a : GobyMOOSApp) : GobyMOOSApp :=
  MkApp (start_time a) (connected a) (started_up a) (ignore_stale a) (dynamic_moos_vars_enabled a) (dynamic_vars a) h w (msg_buffer a)
    (pending_subscriptions a) (existing_subscriptions a) (wildcard_pending_subscriptions a) (wildcard_existing_subscriptions a) (synchronous_loops a) (initializer a) (own a).
Definition set_buffer (l : list MoosMsg) (a : GobyMOOSApp) : GobyMOOSApp :=
  MkApp (start_time a) (connected a) (started_up a) (ignore_stale a) (dynamic_moos_vars_enabled a) (dynamic_vars a) (mail_handlers a) (wildcard_mail_handlers a) l
    (pending_subscriptions a) (existing_subscriptions a) (wildcard_pending_subscriptions a) (wildcard_existing_subscriptions a) (synchronous_loops a) (initializer a) (own a).
Definition set_subscriptions (p e : list (bytes * Z)) (wp we : list (bytes * bytes * Z)) (a : GobyMOOSApp) : GobyMOOSApp :=
  MkApp (start_time a) (connected a) (started_up a) (ignore_stale a) (dynamic_moos_vars_enabled a) (dynamic_vars a) (mail_handlers a) (wildcard_mail_handlers a) (msg_buffer a)
    p e wp we (synchronous_loops a) (initializer a) (own a).
Definition set_loops (l : list SynchronousLoop) (a : GobyMOOSApp) : GobyMOOSApp :=
  MkApp (start_time a) (connected a) (started_up a) (ignore_stale a) (dynamic_moos_vars_enabled a) (dynamic_vars a) (mail_handlers a) (wildcard_mail_handlers a) (msg_buffer a)
    (pending_subscriptions a) (existing_subscriptions a) (wildcard_pending_subscriptions a) (wildcard_existing_subscriptions a) l (initializer a) (own a).
Definition set_own (u : U) (a : GobyMOOSApp) : GobyMOOSApp :=
  MkApp (start_time a) (connected a) (started_up a) (ignore_stale a) (dynamic_moos_vars_enabled a) (dynamic_vars a) (mail_handlers a) (wildcard_mail_handlers a) (msg_buffer a)
    (pending_subscriptions a) (existing_subscriptions a) (wildcard_pending_subscriptions a) (wildcard_existing_subscriptions a) (synchronous_loops a) (initializer a) u.

Abbreviation aprog := (prog GobyMOOSApp AppEv X).

Definition up (a : GobyMOOSApp) : bool := connected a && started_up a.

Definition publish_msg (m : MoosMsg) : aprog unit :=
  let! a := pget in
  if up a then pemit (Posted m) else pmod (set_buffer (msg_buffer a ++ [m])) ;; pemit (Buffered m).

(** ** Handlers *)

(** what a handler does: its changes, the messages it publishes in order, an exception at the end *)
Definition Reaction : Type := U * list MoosMsg * option X.
Definition perform (f : GobyMOOSApp -> Reaction) : aprog unit :=
  let! r := pread f in
  let '(u, l, x) := r in
  pmod (set_own u) ;; pfor l publish_msg ;;
  match x with Some x => pthrow x | None => pret tt end.

Variable inbox : H -> MoosMsg -> GobyMOOSApp -> Reaction.
Variable app_loop : Round -> GobyMOOSApp -> Reaction.
Variable timer : L -> double -> GobyMOOSApp -> Reaction.
(** [MOOSWildCmp] of the MOOS library, and the values of its mission file *)
Variable MOOSWildCmp : bytes -> bytes -> bool.
Variable mission : bytes -> option bytes.
Context {LN : LexicalNumbers} {BT : BoostTrim} {ML : MoosLibrary}.

(** ** Subscriptions *)

(** the result of [Register] is only logged: a subscription that the server refuses counts as existing, too *)
Definition do_subscriptions : aprog unit :=
  let! a := pget in
  pfor (pending_subscriptions a) (fun s => pemit (Registered (SubVar (fst s) (snd s)))) ;;
  pfor (wildcard_pending_subscriptions a) (fun s => pemit (Registered (SubWild (fst (fst s)) (snd (fst s)) (snd s)))) ;;
  pmod (set_subscriptions [] (existing_subscriptions a ++ pending_subscriptions a) [] (wildcard_existing_subscriptions a ++ wildcard_pending_subscriptions a)).

Definition try_subscribing : aprog unit := let! a := pget in pwhen (up a) do_subscriptions.

Definition subscribe (var : bytes) (handler : option H) (blackout : Z) : aprog unit :=
  pmod (fun a => set_subscriptions (pending_subscriptions a ++ [(var, blackout)]) (existing_subscriptions a) (wildcard_pending_subscriptions a) (wildcard_existing_subscriptions a) a) ;;
  try_subscribing ;;
  pmod (fun a =>
    let old := default [] (map_get var (mail_handlers a)) in
    set_handlers (map_put var (match handler with Some h => old ++ [h] | None => old end) (mail_handlers a)) (wildcard_mail_handlers a) a).

(** a map in the order of its keys *)
Definition pair_lt (a b : bytes * bytes) : bool := string_lt (fst a) (fst b) || (bool_decide (fst a = fst b) && string_lt (snd a) (snd b)).
Fixpoint wild_put (k : bytes * bytes) (h : option H) (l : list (bytes * bytes * list H)) : list (bytes * bytes * list H) :=
  let add old := match h with Some h => old ++ [h] | None => old end in
  match l with
  | [] => [(k, add [])]
  | (k', hs) :: rest =>
      if bool_decide (k = k') then (k', add hs) :: rest
      else if pair_lt k k' then (k, add []) :: l else (k', hs) :: wild_put k h rest
  end.

Definition subscribe_wild (var_pattern app_pattern : bytes) (handler : option H) (blackout : Z) : aprog unit :=
  pmod (fun a => set_subscriptions (pending_subscriptions a) (existing_subscriptions a)
    (wildcard_pending_subscriptions a ++ [(var_pattern, app_pattern, blackout)]) (wildcard_existing_subscriptions a) a) ;;
  try_subscribing ;;
  pmod (fun a => set_handlers (mail_handlers a) (wild_put (var_pattern, app_pattern) handler (wildcard_mail_handlers a)) a).

(** ** Callbacks of the MOOS application *)

Definition initial_value (i : Initializer) : option MoosMsg :=
  let msg v := MkMoosMsg (ini_moos_var i) v [] [] moos_new_time in
  let text s := msg (MString (if ini_trim i then boost_trim s else s)) in
  match global_cfg_var i with
  | Some g =>
      (fun result => match ini_type i with INI_DOUBLE => msg (MDouble (as_double result)) | INI_STRING => text result end) <$> mission g
  | None => Some (match ini_type i with INI_DOUBLE => msg (MDouble (ini_dval i)) | INI_STRING => text (ini_sval i) end)
  end.

Definition OnConnectToServer : aprog unit :=
  pmod (fun a => set_link true (started_up a) a) ;;
  try_subscribing ;;
  let! a := pget in
  pfor (omap initial_value (initializer a)) publish_msg.

Definition OnDisconnectFromServer : aprog unit :=
  pmod (fun a => set_link false (started_up a) a) ;;
  pmod (fun a => set_subscriptions (pending_subscriptions a ++ existing_subscriptions a) []
    (wildcard_pending_subscriptions a ++ wildcard_existing_subscriptions a) [] a).

Definition OnStartUp : aprog unit := pmod (fun a => set_link (connected a) true a) ;; try_subscribing.

(** the time of a timer after a round at [now]; whether its handler is called *)
Definition loop_due (now : double) (l : SynchronousLoop) : bool := SFleb (unix_next l) now.
Definition next_time (now : double) (l : SynchronousLoop) : double :=
  let period := double_of_Z (period_seconds l) in
  let next :=
    if loop_due now l then
      let next := dadd (unix_next l) period in
      if dlt next now then dadd now period else next
    else unix_next l in
  if dlt (dadd now (double_of_Z (2 * period_seconds l))) next then dadd now period else next.

Definition run_timer (now : double) (i : nat) : aprog unit :=
  let! a := pget in
  match synchronous_loops a !! i with
  | None => pret tt
  | Some l =>
      pwhen (loop_due now l) (perform (timer (loop_handler l) now)) ;;
      pmod (fun a => set_loops (<[i := MkLoop (next_time now l) (period_seconds l) (loop_handler l)]> (synchronous_loops a)) a)
  end.

Definition Iterate (now : double) (round : Round) : aprog unit :=
  let! a := pget in
  pwhen (up a) (pfor (msg_buffer a) (fun m => pemit (Flushed m)) ;; pmod (set_buffer [])) ;;
  perform (app_loop round) ;;
  let! n := pread (fun a => length (synchronous_loops a)) in
  pfor (seq 0 n) (run_timer now).

Definition handle_mail (m : MoosMsg) : aprog unit :=
  pmod (fun a => if dynamic_moos_vars_enabled a then set_vars (update_moos_vars m (dynamic_vars a)) a else a) ;;
  let! a := pget in
  (if dlt (mm_time m) (start_time a) && ignore_stale a then pret tt
   else pfor (default [] (map_get (mm_key m) (mail_handlers a))) (fun h => perform (inbox h m))) ;;
  pfor (wildcard_mail_handlers a) (fun e =>
    pwhen (MOOSWildCmp (fst (fst e)) (mm_key m) && MOOSWildCmp (snd (fst e)) (mm_source m)) (pfor (snd e) (fun h => perform (inbox h m)))).

Definition OnNewMail (l : list MoosMsg) : aprog unit := pfor l handle_mail.

(** [None]: the conversion to [int] or the product overflows *)
Definition register_timer (now : double) (period : Z) (handler : L) (a : GobyMOOSApp) : option GobyMOOSApp :=
  n ← int_cast (ddiv now (double_of_Z period));
  let start := n * period in
  let next := start + period in
  if (- 2 ^ 31 <=? start) && (start <? 2 ^ 31) && (- 2 ^ 31 <=? next) && (next <? 2 ^ 31)
  then Some (set_loops (synchronous_loops a ++ [MkLoop (double_of_Z next) period handler]) a) else None.

(** ** Messages *)

Definition microsec_moos_time (now : double) : option Z := uint64_cast (dmul now (double_of_Z 1000000)).

Context {PT : ProtobufText}.
Variable moos_technique : Technique.

(** [None]: the global technique is not one of those that [serialize_for_moos] knows, and it exits *)
Definition pb_msg (key : bytes) (d : Descriptor) (m : Message) : option MoosMsg :=
  match serialize_for_moos moos_technique d m with
  | Ok (s, is_binary) => Some (make_moos_msg key s is_binary moos_technique (full_name d))
  | Err _ => None
  end.

(** [protobuf_inbox]: the handler of a typed subscription *)
Definition protobuf_inbox (d : Descriptor) (handler : Message -> GobyMOOSApp -> Reaction) (dies : X) (m : MoosMsg) (a : GobyMOOSApp) : Reaction :=
  match parse_for_moos moos_technique d (GetString (mm_value m)) with
  | Ok pb => handler pb a
  | Err _ => (own a, [], Some dies)
  end.

Definition parse_type_technique (s : bytes) : result TransExn (bytes * Technique) :=
  match s with
  | [] => Err RuntimeError
  | _ =>
      match find_char 58 s with
      | None => Err RuntimeError
      | Some pos =>
          let all := [TECHNIQUE_PROTOBUF_TEXT_FORMAT; TECHNIQUE_PROTOBUF_NATIVE_ENCODED; TECHNIQUE_COMMA_SEPARATED_KEY_EQUALS_VALUE_PAIRS; TECHNIQUE_FORMAT;
                      TECHNIQUE_PREFIXED_PROTOBUF_TEXT_FORMAT; TECHNIQUE_PROTOBUF_NATIVE_HEX; TECHNIQUE_PREFIXED_PROTOBUF_NATIVE_HEX; TECHNIQUE_PREFIXED_PROTOBUF_NATIVE_ENCODED] in
          match List.find (fun t => bool_decide (technique_name t = drop (S pos) s)) all with
          | Some t => Ok (take pos s, t)
          | None => Err RuntimeError
          end
      end
  end.

(** what is put behind the name of the type is read back *)
Lemma type_technique_roundtrip name t : 58 ∉ name -> parse_type_technique (name ++ 58 :: technique_name t) = Ok (name, t).
Proof.
  intros Hn. unfold parse_type_technique. rewrite find_char_app by done. destruct (name ++ 58 :: technique_name t) as [|c s] eqn:E; [by destruct name|]. rewrite <- E.
  rewrite take_app_length. assert (drop (S (length name)) (name ++ 58 :: technique_name t) = technique_name t) as ->.
  { rewrite drop_app_ge by lia. by replace (S (length name) - length name)%nat with 1%nat by lia. }
  destruct t; reflexivity.
Qed.

(** ** Runs of an application *)

Inductive AppCall : Type :=
| CallConnect | CallDisconnect | CallStartUp
| CallSubscribe (var : bytes) (h : option H) (blackout : Z) | CallWild (var_pattern app_pattern : bytes) (h : option H) (blackout : Z)
| CallIterate (now : double) (round : Round) | CallMail (l : list MoosMsg) | CallPublish (m : MoosMsg).

Definition call (c : AppCall) : aprog unit :=
  match c with
  | CallConnect => OnConnectToServer
  | CallDisconnect => OnDisconnectFromServer
  | CallStartUp => OnStartUp
  | CallSubscribe var h b => subscribe var h b
  | CallWild v a h b => subscribe_wild v a h b
  | CallIterate now round => Iterate now round
  | CallMail l => OnNewMail l
  | CallPublish m => publish_msg m
  end.

(** the calls with their events, and the application behind them *)
Fixpoint app_run (cs : list AppCall) (a : GobyMOOSApp) : list (AppCall * list AppEv) * GobyMOOSApp :=
  match cs with
  | [] => ([], a)
  | c :: cs => let '(a1, evs, _) := call c a in let '(tr, a2) := app_run cs a1 in ((c, evs) :: tr, a2)
  end.

(** the subscriptions that were asked for *)
Definition asked (c : AppCall) : list Subscription :=
  match c with CallSubscribe var _ b => [SubVar var b] | CallWild v a _ b => [SubWild v a b] | _ => [] end.
Definition registrations (evs : list AppEv) : list Subscription := omap (fun e => match e with Registered s => Some s | _ => None end) evs.
Definition buffered (evs : list AppEv) : list MoosMsg := omap (fun e => match e with Buffered m => Some m | _ => None end) evs.
Definition flushed (evs : list AppEv) : list MoosMsg := omap (fun e => match e with Flushed m => Some m | _ => None end) evs.

(** the calls of [Register] since the application was disconnected last *)
Definition requested (known : list Subscription) (t : AppCall * list AppEv) : list Subscription :=
  match fst t with CallDisconnect => [] | _ => known ++ registrations (snd t) end.

(** what may happen while the application is up, and while it is not *)
Definition allowed (is_up : bool) (e : AppEv) : Prop :=
  match e with Posted _ | Flushed _ | Registered _ => is_up = true | Buffered _ => is_up = false end.

Definition existing (a : GobyMOOSApp) : list Subscription :=
  map (fun s => SubVar (fst s) (snd s)) (existing_subscriptions a) ++ map (fun s => SubWild (fst (fst s)) (snd (fst s)) (snd s)) (wildcard_existing_subscriptions a).
Definition pending (a : GobyMOOSApp) : list Subscription :=
  map (fun s => SubVar (fst s) (snd s)) (pending_subscriptions a) ++ map (fun s => SubWild (fst (fst s)) (snd (fst s)) (snd s)) (wildcard_pending_subscriptions a).

(** a computation that leaves the subscriptions and the connection alone, and buffers in order *)
Definition quiet (a : GobyMOOSApp) (evs : list AppEv) (a' : GobyMOOSApp) : Prop :=
  pending a' = pending a /\ existing a' = existing a /\ connected a' = connected a /\ started_up a' = started_up a /\
  registrations evs = [] /\ msg_buffer a ++ buffered evs = flushed evs ++ msg_buffer a' /\ Forall (allowed (up a)) evs.
Lemma quiet_refl a : quiet a [] a.
Proof. repeat split; [|done]. unfold flushed, buffered. cbn. by rewrite app_nil_r. Qed.

Lemma quiet_up a evs a' : quiet a evs a' -> up a' = up a.
Proof. intros (_ & _ & C & S & _). unfold up. by rewrite C, S. Qed.

Lemma quiet_trans a e1 b e2 c : quiet a e1 b -> quiet b e2 c -> quiet a (e1 ++ e2) c.
Proof.
  intros Q1 (P2 & E2 & C2 & S2 & R2 & B2 & A2). rewrite (quiet_up _ _ _ Q1) in A2. destruct Q1 as (P1 & E1 & C1 & S1 & R1 & B1 & A1).
  unfold quiet, registrations, buffered, flushed in *. rewrite !omap_app.
  repeat split; try congruence; [by rewrite R1, R2 | | by apply Forall_app]. rewrite app_assoc, B1, <- app_assoc, B2. by rewrite app_assoc.
Qed.

#[local] Instance quiet_composes : Composes quiet.
Proof. constructor; [exact quiet_refl | exact quiet_trans]. Qed.
Abbreviation quietly := (tracks quiet).

Lemma quietly_publish m : quietly (publish_msg m).
Proof.
  intros a. unfold publish_msg, pbind, pget. destruct (up a) eqn:E; cbn; unfold quiet; rewrite E; repeat split; try by repeat constructor. cbn. by rewrite app_nil_r.
Qed.

#[local] Hint Resolve quietly_publish : prog.

(** an assignment of other members *)
Lemma quietly_mod f : (forall a, quiet a [] (f a)) -> quietly (pmod f : aprog unit).
Proof. intros Hf. by apply tracks_mod. Qed.
Lemma quiet_same a a' : pending a' = pending a -> existing a' = existing a -> connected a' = connected a -> started_up a' = started_up a -> msg_buffer a' = msg_buffer a -> quiet a [] a'.
Proof. intros P E C S B. repeat split; try done. cbn. by rewrite B, app_nil_r. Qed.

Lemma quietly_perform f : quietly (perform f).
Proof. unfold perform. tracks_all. apply quietly_mod. intros b. by apply quiet_same. Qed.
#[local] Hint Resolve quietly_perform : prog.

Lemma quietly_timer now i : quietly (run_timer now i).
Proof. unfold run_timer. tracks_all. apply quietly_mod. intros b. by apply quiet_same. Qed.
#[local] Hint Resolve quietly_timer : prog.

Lemma flush_all l (a : GobyMOOSApp) : pfor l (fun m => pemit (Flushed m)) a = (a, map Flushed l, Ok tt) :> GobyMOOSApp * list AppEv * result X unit.
Proof. induction l as [|m l IH]; [done|]. cbn [pfor map]. unfold pbind. cbn. by rewrite IH. Qed.
Lemma flushed_map l : flushed (map Flushed l) = l /\ buffered (map Flushed l) = [] /\ registrations (map Flushed l) = [].
Proof. unfold flushed, buffered, registrations. induction l as [|m l (IH1 & IH2 & IH3)]; [done|]. cbn. by rewrite IH1, IH2, IH3. Qed.

(** behind the buffer, a round is quiet *)
Definition work (now : double) (round : Round) : aprog unit :=
  perform (app_loop round) ;;
  let! n := pread (fun a => length (synchronous_loops a)) in
  pfor (seq 0 n) (run_timer now).

Lemma quietly_work now round : quietly (work now round).
Proof. unfold work. tracks_all. Qed.

Lemma iterate_flushes a : exists evs, pwhen (up a) (pfor (msg_buffer a) (fun m => pemit (Flushed m)) ;; pmod (set_buffer []) : aprog unit) a = (if up a then set_buffer [] a else a, evs, Ok tt) /\
  quiet a evs (if up a then set_buffer [] a else a).
Proof.
  exists (if up a then map Flushed (msg_buffer a) else []). destruct (up a) eqn:Eu; cbn [pwhen]; [|split; [done | apply quiet_refl]].
  rewrite (pbind_ok _ _ _ _ _ _ (flush_all (msg_buffer a) a)). cbn. rewrite app_nil_r. split; [done|].
  destruct (flushed_map (msg_buffer a)) as (F1 & F2 & F3). unfold quiet. rewrite F1, F2, F3, Eu. repeat split. by apply Forall_map, Forall_true.
Qed.

Lemma quietly_iterate now round : quietly (Iterate now round).
Proof. intros a. unfold Iterate. rewrite pbind_get. destruct (iterate_flushes a) as (evs & E & Hq). exact (tracks_then quiet _ (fun _ => work now round) _ _ _ _ E Hq (quietly_work now round)). Qed.

(** while the application is up, a quiet computation leaves an empty buffer empty *)
Lemma quiet_empty a evs a' : quiet a evs a' -> up a = true -> msg_buffer a = [] -> msg_buffer a' = [].
Proof.
  intros (_ & _ & _ & _ & _ & B & F) Hu Hb. rewrite Hu in F. assert (Hn : buffered evs = []).
  { clear B. unfold buffered. induction F as [|e evs He _ IH]; [done|]. destruct e; cbn; done. }
  rewrite Hb, Hn in B. cbn in B. symmetry in B. by apply app_eq_nil in B as [_ B].
Qed.

Lemma iterate_empties now round a : let '(a', _, _) := Iterate now round a in up a' = true -> msg_buffer a' = [].
Proof.
  unfold Iterate. rewrite pbind_get. destruct (iterate_flushes a) as (evs & E & Hq). rewrite (pbind_ok _ _ _ _ _ _ E). fold (work now round).
  pose proof (quietly_work now round (if up a then set_buffer [] a else a)) as Hw. destruct (work now round _) as [[a' e'] r]. intros Hu.
  assert (Hu' : up a = true) by (rewrite (quiet_up _ _ _ Hw), (quiet_up _ _ _ Hq) in Hu; exact Hu). rewrite Hu' in Hw. exact (quiet_empty _ _ _ Hw Hu' eq_refl).
Qed.

Lemma quietly_mail m : quietly (handle_mail m).
Proof.
  unfold handle_mail. apply tracks_bind; [apply _ | |intros ?; tracks_all].
  apply quietly_mod. intros a. destruct (dynamic_moos_vars_enabled a); by apply quiet_same.
Qed.
#[local] Hint Resolve quietly_mail : prog.

(** what [try_subscribing] does *)
Lemma register_all {A} (f : A -> Subscription) l (a : GobyMOOSApp) :
  pfor l (fun s => pemit (Registered (f s))) a = (a, map (fun s => Registered (f s)) l, Ok tt) :> GobyMOOSApp * list AppEv * result X unit.
Proof. induction l as [|s l IH]; [done|]. cbn [pfor map]. unfold pbind. cbn. by rewrite IH. Qed.

Lemma registrations_map {A} (f : A -> Subscription) l :
  registrations (map (fun s => Registered (f s)) l) = map f l /\ buffered (map (fun s => Registered (f s)) l) = [] /\ flushed (map (fun s => Registered (f s)) l) = [].
Proof. unfold flushed, buffered, registrations. induction l as [|s l (IH1 & IH2 & IH3)]; [done|]. cbn. by rewrite IH1, IH2, IH3. Qed.

Lemma try_subscribing_spec a : exists evs,
  try_subscribing a = (if up a then set_subscriptions [] (existing_subscriptions a ++ pending_subscriptions a) []
    (wildcard_existing_subscriptions a ++ wildcard_pending_subscriptions a) a else a, evs, Ok tt) /\
  registrations evs = (if up a then pending a else []) /\ buffered evs = [] /\ flushed evs = [] /\ Forall (allowed (up a)) evs.
Proof.
  unfold try_subscribing. rewrite pbind_get. destruct (up a) eqn:Eu; cbn [pwhen]; [|by exists []]. unfold do_subscriptions. rewrite pbind_get.
  rewrite (pbind_ok _ _ _ _ _ _ (register_all (fun s => SubVar (fst s) (snd s)) (pending_subscriptions a) a)).
  rewrite (pbind_ok _ _ _ _ _ _ (register_all (fun s => SubWild (fst (fst s)) (snd (fst s)) (snd s)) (wildcard_pending_subscriptions a) a)).
  cbn [pmod]. eexists. split; [reflexivity|].
  destruct (registrations_map (fun s : bytes * Z => SubVar (fst s) (snd s)) (pending_subscriptions a)) as (R1 & B1 & F1).
  destruct (registrations_map (fun s : bytes * bytes * Z => SubWild (fst (fst s)) (snd (fst s)) (snd s)) (wildcard_pending_subscriptions a)) as (R2 & B2 & F2).
  unfold registrations, buffered, flushed in *. rewrite !omap_app, R1, R2, B1, B2, F1, F2. cbn. rewrite app_nil_r. repeat split.
  rewrite !Forall_app, !Forall_map. repeat split; try (apply Forall_true; intros ?; exact eq_refl). constructor.
Qed.

(** ** The invariant *)

Record consistent (known want : list Subscription) (a : GobyMOOSApp) : Prop := MkConsistent {
  c_known : existing a ≡ₚ known;
  c_want : pending a ++ existing a ≡ₚ want;
  c_up : up a = true -> pending a = []
}.

Lemma subscribing_consistent known want a : existing a ≡ₚ known -> pending a ++ existing a ≡ₚ want ->
  let '(a', evs, _) := try_subscribing a in consistent (known ++ registrations evs) want a' /\ buffered evs = [] /\ flushed evs = [] /\ msg_buffer a' = msg_buffer a /\ Forall (allowed (up a')) evs.
Proof.
  intros Hk Hw. destruct (try_subscribing_spec a) as (evs & -> & -> & Hb & Hf & Ha). destruct (up a) eqn:Eu.
  - assert (He : existing (set_subscriptions [] (existing_subscriptions a ++ pending_subscriptions a) [] (wildcard_existing_subscriptions a ++ wildcard_pending_subscriptions a) a) ≡ₚ existing a ++ pending a).
    { unfold existing, pending. cbn. rewrite !map_app. solve_Permutation. }
    split; [|rewrite Hb, Hf; repeat split; unfold up in *; cbn; by rewrite Eu]. constructor; [by rewrite He, Hk | | done]. change (pending _) with (@nil Subscription) at 1. cbn [app]. by rewrite He, Permutation_app_comm.
  - split; [|rewrite Hb, Hf; repeat split; by rewrite Eu]. rewrite app_nil_r. constructor; [done | done|]. by rewrite Eu.
Qed.

Lemma quiet_consistent known want a evs a' : consistent known want a -> quiet a evs a' -> consistent (known ++ registrations evs) want a'.
Proof.
  intros [Hk Hw Hu] (P & E & C & S & R & _ & _). rewrite R, app_nil_r. constructor; [by rewrite E | by rewrite P, E|]. unfold up. rewrite C, S, P. exact Hu.
Qed.

Definition kept (a : GobyMOOSApp) (evs : list AppEv) (a' : GobyMOOSApp) : Prop := msg_buffer a ++ buffered evs = flushed evs ++ msg_buffer a' /\ Forall (allowed (up a')) evs.
Lemma quiet_kept a evs a' : quiet a evs a' -> kept a evs a'.
Proof. intros Q. split; [apply Q|]. rewrite (quiet_up _ _ _ Q). apply Q. Qed.

(** subscribing in the middle of a call, with a quiet end *)
Lemma subscribe_then known want a (k : unit -> aprog unit) : existing a ≡ₚ known -> pending a ++ existing a ≡ₚ want -> quietly (k tt) ->
  let '(a', evs, _) := pbind try_subscribing k a in consistent (known ++ registrations evs) want a' /\ kept a evs a'.
Proof.
  intros Hk Hw Hq. pose proof (subscribing_consistent known want a Hk Hw) as Ht. destruct (try_subscribing a) as [[a1 e1] r] eqn:E.
  assert (r = Ok tt) as -> by (destruct (try_subscribing_spec a) as (? & E' & _); rewrite E in E'; by injection E'). rewrite (pbind_ok _ _ _ _ _ _ E).
  destruct Ht as (Hc & Hb & Hf & Hm & Ha). specialize (Hq a1). destruct (k tt a1) as [[a2 e2] r2]. unfold registrations. rewrite omap_app. fold (registrations e1) (registrations e2). rewrite app_assoc.
  split; [by apply (quiet_consistent _ _ a1)|]. rewrite <- (quiet_up _ _ _ Hq) in Ha. apply quiet_kept in Hq as [Hq Hq']. unfold kept, buffered, flushed in *. rewrite !omap_app, Hb, Hf, <- Hm. split; [exact Hq | by apply Forall_app].
Qed.

Lemma quietly_handlers (f : GobyMOOSApp -> GobyMOOSApp) :
  (forall a, exists h w, f a = set_handlers h w a) -> quietly (pmod f : aprog unit).
Proof. intros Hf. apply quietly_mod. intros a. destruct (Hf a) as (h & w & ->). by apply quiet_same. Qed.

Lemma call_consistent c known want a : consistent known want a ->
  let '(a', evs, _) := call c a in consistent (requested known (c, evs)) (want ++ asked c) a' /\ kept a evs a'.
Proof.
  intros Hc.
  assert (Quiet : forall m : aprog unit, quietly m -> let '(a', evs, _) := m a in consistent (known ++ registrations evs) (want ++ []) a' /\ kept a evs a').
  { intros m Hm. specialize (Hm a). destruct (m a) as [[a' evs] r]. rewrite app_nil_r. split; [by apply (quiet_consistent _ _ a) | by apply quiet_kept]. }
  destruct Hc as [Hk Hw Hu]. destruct c as [| | |var h bl|vp ap h bl|now round|l|m]; cbn [call asked requested fst snd].
  - unfold OnConnectToServer. rewrite pbind_mod, app_nil_r. apply (subscribe_then known want (set_link true (started_up a) a)); [done | done|].
    tracks_all.
  - unfold OnDisconnectFromServer. rewrite pbind_mod, app_nil_r. cbn [pmod]. split; [|split; [cbn; by rewrite app_nil_r | done]]. constructor; [done | | done].
    rewrite <- Hw. unfold pending, existing. cbn. rewrite !map_app. solve_Permutation.
  - unfold OnStartUp. rewrite pbind_mod, app_nil_r. pose proof (subscribing_consistent known want (set_link (connected a) true a) Hk Hw) as Ht.
    destruct (try_subscribing _) as [[a1 e1] r]. destruct Ht as (Ht & Hb & Hf & Hm & Ha). split; [exact Ht|]. split; [rewrite Hb, Hf, app_nil_r; by rewrite Hm | exact Ha].
  - unfold subscribe. rewrite pbind_mod. eapply (subscribe_then known (want ++ [SubVar var bl]) (set_subscriptions (pending_subscriptions a ++ [(var, bl)]) (existing_subscriptions a) (wildcard_pending_subscriptions a) (wildcard_existing_subscriptions a) a)); [exact Hk | |].
    + rewrite <- Hw. unfold pending, existing. cbn. rewrite map_app. cbn [map fst snd]. solve_Permutation.
    + apply quietly_handlers. intros b. by eexists _, _.
  - unfold subscribe_wild. rewrite pbind_mod. eapply (subscribe_then known (want ++ [SubWild vp ap bl]) (set_subscriptions (pending_subscriptions a) (existing_subscriptions a) (wildcard_pending_subscriptions a ++ [(vp, ap, bl)]) (wildcard_existing_subscriptions a) a)); [exact Hk | |].
    + rewrite <- Hw. unfold pending, existing. cbn. rewrite map_app. cbn [map fst snd]. solve_Permutation.
    + apply quietly_handlers. intros b. by eexists _, _.
  - apply Quiet, quietly_iterate.
  - apply Quiet. unfold OnNewMail. tracks_all.
  - apply Quiet, quietly_publish.
Qed.

Lemma run_consistent cs : forall known want a, consistent known want a ->
  let '(tr, a') := app_run cs a in
  consistent (foldl requested known tr) (want ++ concat (map asked cs)) a' /\
  msg_buffer a ++ concat (map (fun t => buffered (snd t)) tr) = concat (map (fun t => flushed (snd t)) tr) ++ msg_buffer a'.
Proof.
  induction cs as [|c cs IH]; intros known want a Hc; cbn [app_run].
  - cbn. rewrite !app_nil_r. done.
  - pose proof (call_consistent c known want a Hc) as Hs. destruct (call c a) as [[a1 evs] r]. destruct Hs as [H1 B1]. specialize (IH _ _ a1 H1).
    destruct (app_run cs a1) as [tr a2]. destruct IH as [H2 B2]. cbn [foldl map concat fst snd]. rewrite app_assoc. split; [exact H2|].
    apply proj1 in B1. rewrite app_assoc, B1, <- app_assoc, B2. by rewrite app_assoc.
Qed.

(** C39: Whatever the sequence of connections, disconnections, subscriptions, mail and rounds: no
    subscription of an application is lost, and while it is connected and started it has called
    Register exactly once for each of its subscriptions since it was disconnected last, whether the
    server accepts it or not. A message is posted or registered only while the application is up,
    and put into the buffer only while it is not; publishing does one of both; what was buffered
    leaves in its order and is posted exactly once, and a round of an application that is up leaves
    nothing in the buffer. *)
Theorem app_keeps_subscriptions (now : double) (ini : list Initializer) (u : U) (cs : list AppCall) (c : AppCall) :
  let '(tr, a) := app_run cs (new_app now ini u) in
  let '(a', evs, _) := call c a in
  (pending a ++ existing a ≡ₚ concat (map asked cs)) /\
  (if up a then foldl requested [] tr ≡ₚ concat (map asked cs) else True) /\
  concat (map (fun t => buffered (snd t)) tr) = concat (map (fun t => flushed (snd t)) tr) ++ msg_buffer a /\
  Forall (allowed (up a')) evs /\
  match c with
  | CallIterate _ _ => if up a' then msg_buffer a' = [] else True
  | CallPublish m => evs = [if up a then Posted m else Buffered m]
  | _ => True
  end.
Proof.
  pose proof (run_consistent cs [] [] (new_app now ini u)) as Hr. destruct (app_run cs (new_app now ini u)) as [tr a].
  destruct Hr as [Hc Hb]; [by constructor|]. pose proof (call_consistent c _ _ a Hc) as Hs. destruct Hc as [Hk Hw Hu]. cbn [app] in Hw.
  assert (He : match c with CallIterate now round => let '(a', _, _) := Iterate now round a in up a' = true -> msg_buffer a' = [] | CallPublish m => snd (fst (publish_msg m a)) = [if up a then Posted m else Buffered m] | _ => True end).
  { destruct c; try done; [apply iterate_empties|]. unfold publish_msg. rewrite pbind_get. by destruct (up a). }
  destruct (call c a) as [[a' evs] r] eqn:E. split; [exact Hw|]. split; [|split; [exact Hb | split; [apply Hs|]]].
  - destruct (up a) eqn:Eu; [|done]. rewrite <- Hw, (Hu eq_refl), <- Hk. done.
  - destruct c; try done; cbn [call] in E; rewrite E in He; [|exact He]. destruct (up a'); [by apply He | done].
Qed.

End App.
