(* ===== verification/PTranslator.v ===== *)
(** * apps/moos/pTranslator: translation of messages and MOOS variables

    A message is created from the newest values of variables when a trigger
    variable is published or a timer expires, and published again as the
    entries tell; a message that arrives on a multiplex variable is written to
    the variables it could be created from. *)

From Stdlib Require Import SpecFloat.
From S2P Require Import Prelude AssocList HexCodec Double Time As Proto Nmea Prog MoosString MessageVal MoosMessage MoosCommas MoosCommasLink MoosFormat MoosFormatLink MoosTranslator MoosApp.
#[local] Open Scope prog_scope.

(** the handlers of mail *)
Inductive TranslatorHandler : Type := OnPublish (entry : TranslatorEntry) | OnMultiplex.

(** a timer, by the time it expires in microseconds *)
Record Timer : Type := MkTimer { expires_at : Z; timer_entry : TranslatorEntry }.

(** the own state of [CpTranslator] *)
Record CpTranslator : Type := MkCpTranslator { translator_ : MOOSTranslator; timers_ : list Timer }.

Record pTranslatorConfig : Type := MkTranslatorConfig { translator_entry : list TranslatorEntry; multiplex_create_moos_var : list bytes }.

Section PTranslator.
Context {TX : BoostText} {LC : LexicalCast} {LN : LexicalNumbers} {LW : LexicalWide} {VT : ValText} {PT : ProtobufText} {BF : BoostFormat} {ML : MoosLibrary} {BT : BoostTrim}.
Variable moos_technique : Technique.
(** the clock, in the seconds of MOOS, when a trigger is faked *)
Variable moos_now : double.

Abbreviation tapp := (@GobyMOOSApp CpTranslator TranslatorHandler Empty_set).
Abbreviation treaction := (@Reaction CpTranslator TransExn).
Abbreviation tprog := (prog tapp AppEv TransExn).

Definition do_publish (t : CpTranslator) (d : Descriptor) (m : Message) : treaction :=
  match protobuf_to_moos (translator_ t) d m with
  | Ok out => (t, map snd out, None)
  | Err e => (t, [], Some e)
  end.

Definition do_translation (entry : TranslatorEntry) (t : CpTranslator) (vars : list (bytes * MoosMsg)) : treaction :=
  match moos_to_protobuf (translator_ t) vars (protobuf_name entry) with
  | Ok (d, m) => do_publish t d m
  | Err e => (t, [], Some e)
  end.

Definition create_on_publish (entry : TranslatorEntry) (msg : MoosMsg) (a : tapp) : treaction :=
  if match mandatory_content (trigger entry) with None => true | Some c => contains c (GetString (mm_value msg)) end
  then do_translation entry (own a) (dynamic_vars a)
  else (own a, [], None).

(** whether [catch (std::exception&)] handles a failure *)
Definition is_exception (e : TransExn) : bool :=
  match e with RuntimeError | FormatError | AlgorithmFailed AlgThrow => true | _ => false end.

Definition create_on_multiplex_publish (msg : MoosMsg) (a : tapp) : treaction :=
  match dynamic_parse_for_moos moos_technique (GetString (mm_value msg)) with
  | Err e => (own a, [], Some e)
  | Ok None => (own a, [], None)
  | Ok (Some (d, m)) =>
      match protobuf_to_inverse_moos moos_now (translator_ (own a)) d m with
      | Ok out => (own a, map snd out, None)
      | Err e => (own a, [], if is_exception e then None else Some e)
      end
  end.

Definition inbox (h : TranslatorHandler) (msg : MoosMsg) (a : tapp) : treaction :=
  match h with OnPublish entry => create_on_publish entry msg a | OnMultiplex => create_on_multiplex_publish msg a end.

Definition ALLOWED_TIMER_SKEW_SECONDS : Z := 1.

(** the time a timer is set to when it fires at [now] *)
Definition next_expiry (now : Z) (t : Timer) : Z :=
  let skew := dabs (dsub (goby_time_double now) (ptime2unix_double (Some (expires_at t)))) in
  let period := trigger_period (trigger (timer_entry t)) * 1000000 in
  if dlt (double_of_Z ALLOWED_TIMER_SKEW_SECONDS) skew then now + period else expires_at t + period.

Definition create_on_timer (i : nat) (now : Z) (vars : list (bytes * MoosMsg)) (t : CpTranslator) : treaction :=
  match timers_ t !! i with
  | None => (t, [], None)
  | Some tm => do_translation (timer_entry tm) (MkCpTranslator (translator_ t) (<[i := MkTimer (next_expiry now tm) (timer_entry tm)]> (timers_ t))) vars
  end.

(** [poll] runs the handlers of the timers that have expired: their numbers and times, in order *)
Fixpoint poll (fired : list (nat * Z)) (vars : list (bytes * MoosMsg)) (t : CpTranslator) : treaction :=
  match fired with
  | [] => (t, [], None)
  | (i, now) :: fired =>
      match create_on_timer i now vars t with
      | (t, out, Some e) => (t, out, Some e)
      | (t, out, None) => let '(t, out2, e) := poll fired vars t in (t, out ++ out2, e)
      end
  end.
Definition translator_loop (fired : list (nat * Z)) (a : tapp) : treaction := poll fired (dynamic_vars a) (own a).

(** the part of the constructor for one entry, at the time [now] *)
Definition add_translator_entry (now : Z) (e : TranslatorEntry) : tprog unit :=
  match find_type (protobuf_name e) with
  | None => pthrow RuntimeError
  | Some _ =>
      match trigger_type (trigger e) with
      | TRIGGER_PUBLISH => subscribe (trigger_moos_var (trigger e)) (Some (OnPublish e)) 0
      | TRIGGER_TIME => pmod (fun a => set_own (MkCpTranslator (translator_ (own a)) (timers_ (own a) ++ [MkTimer (now + trigger_period (trigger e) * 1000000) e])) a)
      end ;;
      pfor (create e) (fun c => subscribe (cp_moos_var c) None 0)
  end.

Definition construct (now : Z) (cfg : pTranslatorConfig) : tprog unit :=
  pfor (translator_entry cfg) (add_translator_entry now) ;;
  pfor (multiplex_create_moos_var cfg) (fun var => subscribe var (Some OnMultiplex) 0).

Definition new_ptranslator (now : Z) (cfg : pTranslatorConfig) (p : DCCLAlgorithmPerformer) : result TransExn (tapp * list AppEv * result TransExn unit) :=
  let? t := new_translator_of (translator_entry cfg) p in
  Ok (construct now cfg (new_app moos_now [] (MkCpTranslator t []))).

(** ** An exchange between two translators *)

Context {TXL : BoostTextLaws} {LD : LexicalDecimal} {typed : Descriptor -> Message -> Prop} {PTL : ProtobufTextLaws typed} {LWL : LexicalWideLaws} {BFL : BoostFormatLaws} {MLL : MoosLibraryLaws}.

(** the message survives the technique of the parser *)
Definition carries (short : bool) (c : CreateParser) (d : Descriptor) (m : Message) : Prop :=
  cp_algorithm c = [] /\
  match cp_technique c with
  | TECHNIQUE_COMMA_SEPARATED_KEY_EQUALS_VALUE_PAIRS => good_names d /\ readable (typed := typed) short d m
  | TECHNIQUE_FORMAT => exists delimiter ps, cp_repeated_delimiter c = [delimiter] /\ cp_format c = format_source ps /\ fits (typed := typed) short delimiter d m ps
  | _ => True
  end.

Lemma carries_back t t' short c d m : 93 ∉ full_name d -> typed d m -> carries short c d m ->
  exists s binary, create_text t short c d m = Ok (s, binary) /\ create_parse t' short c s d (new_message d) = Ok m.
Proof.
  intros Hn Hm [Ha Hc]. unfold create_text, create_parse. rewrite Ha. destruct (cp_technique c).
  - eexists _, _. split; [done|]. f_equal. by apply base_roundtrip.
  - eexists _, _. split; [done|]. f_equal. by apply base_roundtrip.
  - destruct Hc as [Hg Hr]. destruct (comma_back short (performer t) d m Hg Hr) as [E _]. destruct (comma_back short (performer t') d m Hg Hr) as [_ E'].
    rewrite E. cbn [rbind]. by eexists _, _.
  - destruct Hc as (dl & ps & -> & -> & Hf). rewrite (format_text (performer t) short dl d m ps Hf). cbn [rbind]. eexists _, _. split; [done|]. by apply format_back.
  - eexists _, _. split; [done|]. by apply prefix_roundtrip.
  - eexists _, _. split; [done|]. f_equal. by apply base_roundtrip.
  - eexists _, _. split; [done|]. by apply prefix_roundtrip.
  - eexists _, _. split; [done|]. by apply prefix_roundtrip.
Qed.

(** MOOS carries the text: it is not taken for a number, and a binary string is read as a string *)
Definition travels (t : MOOSTranslator) (short : bool) (c : CreateParser) (d : Descriptor) (m : Message) : Prop :=
  forall s binary, create_text t short c d m = Ok (s, binary) -> if binary then IsString (MBinary s) = true else lexical_cast_double s = None.

(** an application that is up and has an entry *)
Record serves (a : tapp) (e : TranslatorEntry) (var : bytes) (h : TranslatorHandler) : Prop := MkServes {
  sv_up : up a = true;
  sv_dynamic : dynamic_moos_vars_enabled a = true;
  sv_wild : wildcard_mail_handlers a = [];
  sv_entry : map_get (protobuf_name e) (dictionary (translator_ (own a))) = Some e;
  sv_handler : map_get var (mail_handlers a) = Some [h]
}.

(** an entry with one parser, which its variable triggers *)
Record simple_entry (e : TranslatorEntry) (c : CreateParser) (d : Descriptor) : Prop := MkSimple {
  se_create : create e = [c];
  se_trigger : trigger_type (trigger e) = TRIGGER_PUBLISH /\ trigger_moos_var (trigger e) = cp_moos_var c /\ mandatory_content (trigger e) = None;
  se_type : find_type (protobuf_name e) = Some d /\ full_name d = protobuf_name e /\ 93 ∉ full_name d
}.

Lemma publish_all l (a : tapp) : up a = true -> pfor l publish_msg a = (a, map Posted l, Ok tt) :> tapp * list AppEv * result TransExn unit.
Proof.
  intros Hu. induction l as [|m l IH]; [done|]. cbn [pfor map].
  assert (E : publish_msg m a = (a, [Posted m], Ok tt) :> tapp * list AppEv * result TransExn unit) by (unfold publish_msg; rewrite pbind_get, Hu; done).
  rewrite (pbind_ok _ _ _ _ _ _ E), IH. done.
Qed.

Lemma perform_posts f (a : tapp) u l : up a = true -> f a = (u, l, None) -> perform f a = (set_own u a, map Posted l, Ok tt) :> tapp * list AppEv * result TransExn unit.
Proof.
  intros Hu Hf. unfold perform. rewrite pbind_read, Hf, pbind_mod. rewrite (pbind_ok _ _ _ _ _ _ (publish_all l (set_own u a) Hu)). cbn. by rewrite app_nil_r.
Qed.

Lemma mail_posts wild a e h msg u l : serves a e (mm_key msg) h -> dlt (mm_time msg) (start_time a) = false ->
  inbox h msg (set_vars (update_moos_vars msg (dynamic_vars a)) a) = (u, l, None) ->
  OnNewMail inbox wild [msg] a = (set_own u (set_vars (update_moos_vars msg (dynamic_vars a)) a), map Posted l, Ok tt).
Proof.
  intros [Hu Hd Hw _ Hh] Ht Hr. unfold OnNewMail. cbn [pfor]. set (a1 := set_vars (update_moos_vars msg (dynamic_vars a)) a) in *.
  assert (E : handle_mail inbox wild msg a = (set_own u a1, map Posted l, Ok tt)).
  { unfold handle_mail. rewrite pbind_mod, Hd, pbind_get. change (start_time _) with (start_time a). change (mail_handlers _) with (mail_handlers a).
    change (wildcard_mail_handlers _) with (wildcard_mail_handlers a). rewrite Ht, Hh, Hw. cbn [andb default from_option id].
    assert (Ep : pfor [h] (fun h => perform (inbox h msg)) a1 = (set_own u a1, map Posted l, Ok tt)).
    { cbn [pfor]. rewrite (pbind_ok _ _ _ _ _ _ (perform_posts _ a1 u l Hu Hr)). cbn. by rewrite app_nil_r. }
    rewrite (pbind_ok _ _ _ _ _ _ Ep). cbn. by rewrite app_nil_r. }
  rewrite (pbind_ok _ _ _ _ _ _ E). cbn. by rewrite app_nil_r.
Qed.

Lemma map_get_put {A} k (v : A) l : map_get k (map_put k v l) = Some v.
Proof.
  induction l as [|[k' v'] l IH]; cbn [map_put map_get]; [by rewrite bool_decide_eq_true_2|]. destruct (bool_decide (k = k')) eqn:E; cbn [map_get]; [by rewrite bool_decide_eq_true_2|].
  by rewrite E.
Qed.

(** the message that is written for the parser *)
Definition relayed (e : TranslatorEntry) (c : CreateParser) (s : bytes) (binary : bool) : MoosMsg :=
  set_time moos_now (make_moos_msg (cp_moos_var c) s binary (cp_technique c) (protobuf_name e)).

Lemma relayed_fields e c s binary : mm_key (relayed e c s binary) = cp_moos_var c /\ mm_time (relayed e c s binary) = moos_now.
Proof. unfold relayed, make_moos_msg. destruct binary; [done|]. by destruct (lexical_cast_double s). Qed.

Lemma inverse_publishes e c d m (t : MOOSTranslator) s binary : simple_entry e c d -> map_get (protobuf_name e) (dictionary t) = Some e ->
  create_text t (use_short_enum e) c d m = Ok (s, binary) -> protobuf_to_inverse_moos moos_now t d m = Ok [(cp_moos_var c, relayed e c s binary)].
Proof.
  intros [Hc (Ht & Hv & _) (_ & Hn & _)] Hg Hs. unfold protobuf_to_inverse_moos. rewrite Hn, Hg, Hc. cbn [foldl rbind]. rewrite Hs. cbn [rbind fst snd mail_insert orb]. rewrite Ht, Hv.
  cbn [existsb fst]. rewrite bool_decide_eq_true_2 by done. cbn [orb map fst snd]. rewrite bool_decide_eq_true_2 by done. done.
Qed.

Lemma source_relayed e c s (binary : bool) vars : (if binary then IsString (MBinary s) = true else lexical_cast_double s = None) ->
  source_string (update_moos_vars (relayed e c s binary) vars) (cp_moos_var c) = s.
Proof.
  intros Hb. unfold source_string, update_moos_vars. rewrite (proj1 (relayed_fields e c s binary)), map_get_put. unfold relayed, make_moos_msg.
  destruct binary; [|rewrite Hb]; cbn [set_time set_source_aux mm_value]; [rewrite Hb; apply binary_text|]. destruct (string_is_string s) as [-> ->]. done.
Qed.

Lemma publish_relayed (b : tapp) e c d m s (binary : bool) t out : simple_entry e c d -> map_get (protobuf_name e) (dictionary (translator_ (own b))) = Some e ->
  93 ∉ full_name d -> create_parse (translator_ (own b)) (use_short_enum e) c s d (new_message d) = Ok m ->
  (if binary then IsString (MBinary s) = true else lexical_cast_double s = None) -> protobuf_to_moos (translator_ (own b)) d m = Ok out -> t = relayed e c s binary ->
  inbox (OnPublish e) t (set_vars (update_moos_vars t (dynamic_vars b)) b) = (own b, map snd out, None).
Proof.
  intros [Hc (_ & _ & Hm) (Hf & Hn & _)] Hg _ Hp Hb Ho ->. cbn [inbox]. unfold create_on_publish. rewrite Hm. unfold do_translation, moos_to_protobuf. cbn [own dynamic_vars set_vars].
  rewrite Hg, Hf, Hc. cbn [foldl rbind]. rewrite (source_relayed e c s binary _ Hb), Hp. cbn [rbind]. unfold do_publish. by rewrite Ho.
Qed.

(** C38: Two translators with the same entry: a message in text form on a multiplex variable of the
    first is written to the variable that the entry is created from, by any technique that carries
    it; delivered to the second, this triggers the creation of the same message, and exactly what
    its entry publishes for it is posted. *)
Theorem translator_exchange (wild : bytes -> bytes -> bool) (a b : tapp) (e : TranslatorEntry) (c : CreateParser) (d : Descriptor) (m : Message) (mail : MoosMsg) (out : list (bytes * MoosMsg)) :
  moos_technique = TECHNIQUE_PREFIXED_PROTOBUF_TEXT_FORMAT -> simple_entry e c d ->
  serves a e (mm_key mail) OnMultiplex -> serves b e (cp_moos_var c) (OnPublish e) ->
  typed d m -> carries (use_short_enum e) c d m -> travels (translator_ (own a)) (use_short_enum e) c d m ->
  mm_value mail = MString (prefix_serialize TextFormat d m) -> dlt (mm_time mail) (start_time a) = false -> dlt moos_now (start_time b) = false ->
  protobuf_to_moos (translator_ (own b)) d m = Ok out ->
  exists msg a' b', OnNewMail inbox wild [mail] a = (a', [Posted msg], Ok tt) /\
    OnNewMail inbox wild [msg] b = (b', map Posted (map snd out), Ok tt).
Proof.
  intros HT He Ha Hb Hm Hc Htr Hv Hta Htb Ho. pose proof (se_type _ _ _ He) as (Hf & Hn & Hbr).
  destruct (carries_back (translator_ (own a)) (translator_ (own b)) (use_short_enum e) c d m Hbr Hm Hc) as (s & binary & Hs & Hp). specialize (Htr s binary Hs).
  destruct (relayed_fields e c s binary) as [Hk Hti]. exists (relayed e c s binary). eexists _, _. split.
  - apply (mail_posts wild a e OnMultiplex mail (own a) [relayed e c s binary] Ha Hta). cbn [inbox]. unfold create_on_multiplex_publish. rewrite HT, Hv, (proj2 (string_is_string _)).
    cbn [dynamic_parse_for_moos]. rewrite (dynamic_parse_blank TextFormat d m Hbr) by (by rewrite Hn). cbn [base_parse base_serialize]. rewrite text_skips_blank, text_roundtrip by done.
    cbn [own set_vars]. rewrite (inverse_publishes e c d m _ s binary He (sv_entry _ _ _ _ Ha) Hs). done.
  - rewrite <- Hk in Hb. apply (mail_posts wild b e (OnPublish e) (relayed e c s binary) (own b) (map snd out) Hb); [by rewrite Hti|].
    by apply (publish_relayed b e c d m s binary _ out He (sv_entry _ _ _ _ Hb)).
Qed.

End PTranslator.

(** ** Evaluation *)

Module TranslatorWitness.
#[local] Existing Instances Sample.text Sample.text_laws Reader.cast Reader.numbers Reader.decimal SampleProtobuf.encodings SampleProtobuf.encodings_laws SampleProtobuf.val_text CommasWitness.wide CommasWitness.wide_laws FormatWitness.boost FormatWitness.boost_laws NmeaWitness.trim.

Definition five : double := double_of_Z 5.

#[export] Instance moos : MoosLibrary := {|
  moos_new_time := double_of_Z 4;
  IsString v := match v with MDouble _ => false | _ => true end;
  GetString v := match v with MString s | MBinary s => s | MDouble _ => [] end;
  GetDouble v := match v with MDouble d => d | _ => double_of_Z (-1) end;
  double_text d := as_string (double_to_Z d)
|}.
#[export] Instance moos_laws : MoosLibraryLaws.
Proof. by constructor. Qed.

(** one entry: the value with its name; published again as a number and as a text *)
Definition parser : CreateParser := MkCreate TECHNIQUE_FORMAT (B "DEPTH_IN") (B "depth=%1%m") (B ",") [].
Definition entry : TranslatorEntry := MkEntry (B "sample.Leaf") (MkTrigger TRIGGER_PUBLISH (B "DEPTH_IN") 0 None) [parser]
  [MkPublish TECHNIQUE_FORMAT (B "DEPTH_%1%") (B "%1%") (B ",") []; MkPublish TECHNIQUE_PROTOBUF_TEXT_FORMAT (B "A_DEPTH") [] (B ",") []] false.

Definition started : result TransExn (@GobyMOOSApp CpTranslator TranslatorHandler Empty_set * list AppEv * result TransExn unit) :=
  let? r := new_ptranslator five 0 (MkTranslatorConfig [entry] [B "MUX"]) CommasWitness.no_algorithms in
  let '(a, _, _) := r in
  Ok ((OnConnectToServer (fun _ => None) ;; OnStartUp) a).

(** once started, the application is registered for its variables *)
Example started_registers : (fun r => snd (fst r)) <$> match started with Ok r => Some r | Err _ => None end =
  Some [Registered (SubVar (B "DEPTH_IN") 0); Registered (SubVar (B "DEPTH_IN") 0); Registered (SubVar (B "MUX") 0)].
Proof. vm_compute. reflexivity. Qed.

Definition app : @GobyMOOSApp CpTranslator TranslatorHandler Empty_set :=
  match started with Ok (a, _, _) => a | Err _ => new_app five [] (MkCpTranslator (MkTranslator [] CommasWitness.no_algorithms) []) end.

Definition leaf_format : list Piece := map Lit (B "depth=") ++ [Dir 1; Lit 109].
Lemma leaf_fits : fits (typed := SampleProtobuf.small) false 44 SampleProtobuf.leaf [[VInt 12]] leaf_format.
Proof.
  constructor.
  - unfold leaf_format. repeat (apply Forall_cons; split; [cbn; lia|]). by apply Forall_nil.
  - split; vm_compute; reflexivity.
  - apply (bool_decide_unpack _). vm_compute. exact I.
  - apply (bool_decide_unpack _). vm_compute. exact I.
  - apply (bool_decide_unpack _). vm_compute. exact I.
  - apply Forall2_cons_2; [|apply Forall2_nil_2]. rewrite bool_decide_eq_true_2 by (apply (bool_decide_unpack _); vm_compute; exact I). split; [done|]. split; [by repeat constructor | done].
  - cbn [leaf_format separated map app]. repeat split; apply (bool_decide_unpack _); vm_compute; exact I.
Qed.

Lemma translator_exchange_witness : exists msg a' b',
  OnNewMail (inbox TECHNIQUE_PREFIXED_PROTOBUF_TEXT_FORMAT five) (fun _ _ => false) [MkMoosMsg (B "MUX") (MString (B "@PB[sample.Leaf] 12")) [] [] five] app = (a', [Posted msg], Ok tt) /\
  OnNewMail (inbox TECHNIQUE_PREFIXED_PROTOBUF_TEXT_FORMAT five) (fun _ _ => false) [msg] app =
    (b', map Posted (map snd [(B "A_DEPTH", MkMoosMsg (B "A_DEPTH") (MDouble (double_of_Z 12)) [] [] (double_of_Z 4)); (B "DEPTH_12", MkMoosMsg (B "DEPTH_12") (MDouble (double_of_Z 12)) [] [] (double_of_Z 4))]), Ok tt).
Proof.
  apply (translator_exchange (typed := SampleProtobuf.small) TECHNIQUE_PREFIXED_PROTOBUF_TEXT_FORMAT five (fun _ _ => false) app app entry parser SampleProtobuf.leaf [[VInt 12]]).
  - reflexivity.
  - constructor; [reflexivity | done|]. split; [reflexivity|]. split; [reflexivity|]. apply (bool_decide_unpack _). vm_compute. exact I.
  - constructor; vm_compute; reflexivity.
  - constructor; vm_compute; reflexivity.
  - exists 12. split; [lia | done].
  - split; [done|]. exists 44, leaf_format. split; [done|]. split; [reflexivity|]. exact leaf_fits.
  - intros s binary. assert (E : create_text (translator_ (own app)) false parser SampleProtobuf.leaf [[VInt 12]] = Ok (B "depth=12m", false)) by (vm_compute; reflexivity).
    change (use_short_enum entry) with false. rewrite E. intros [= <- <-]. vm_compute. reflexivity.
  - reflexivity.
  - vm_compute. reflexivity.
  - vm_compute. reflexivity.
  - vm_compute. reflexivity.
Defined.

(** a hexadecimal text of decimal digits is sent as a number and read back as another text *)
Example hex_digits_lost : let t := MkTranslator [(B "sample.Leaf", MkEntry (B "sample.Leaf") (MkTrigger TRIGGER_TIME [] 1 None) [MkCreate TECHNIQUE_PROTOBUF_NATIVE_HEX (B "V") [] [] []] [] false)] CommasWitness.no_algorithms in
  protobuf_to_inverse_moos five t SampleProtobuf.leaf [[VInt 7]] = Ok [(B "V", MkMoosMsg (B "V") (MDouble (double_of_Z 7)) [] [] (double_of_Z 4))] /\
  source_string [(B "V", MkMoosMsg (B "V") (MDouble (double_of_Z 7)) [] [] (double_of_Z 4))] (B "V") = B "7" /\ base_serialize NativeHex SampleProtobuf.leaf [[VInt 7]] = B "07".
Proof. repeat split; vm_compute; reflexivity. Qed.

(** a text that follows a binary variable is sent as a binary string *)
Example binary_sticks : (fun l => map (fun e => mm_value (snd e)) l) <$> match protobuf_to_moos (MkTranslator [(B "sample.Leaf", MkEntry (B "sample.Leaf") (MkTrigger TRIGGER_TIME [] 1 None) []
    [MkPublish TECHNIQUE_PROTOBUF_NATIVE_ENCODED (B "A") [] [] []; MkPublish TECHNIQUE_PROTOBUF_TEXT_FORMAT (B "B") [] [] []] false)] CommasWitness.no_algorithms) SampleProtobuf.leaf [[VInt 7]] with Ok l => Some l | Err _ => None end
  = Some [MBinary [7]; MBinary (B "7")].
Proof. vm_compute. reflexivity. Qed.

(** what was buffered before the connection is posted behind what is published after it *)
Example buffered_is_overtaken : let msg k := MkMoosMsg k (MString []) [] [] five in
  map snd (fst (app_run (U := unit) (H := unit) (L := unit) (Round := unit) (X := unit) (fun _ _ a => (own a, [], None)) (fun _ a => (own a, [], None)) (fun _ _ a => (own a, [], None)) (fun _ _ => false) (fun _ => None)
    [CallPublish (msg (B "first")); CallStartUp; CallConnect; CallPublish (msg (B "second")); CallIterate five tt] (new_app five [] tt))) =
  [[Buffered (msg (B "first"))]; []; []; [Posted (msg (B "second"))]; [Flushed (msg (B "first"))]].
Proof. vm_compute. reflexivity. Qed.

End TranslatorWitness.
