(* ===== verification/AcommsHandler.v ===== *)
(** * apps/moos/pAcommsHandler: the stack as one application

    The application owns the queue manager, the MAC, a router, the translator
    and the modem drivers, connects their signals and exchanges messages with
    the MOOS community. A driver is an instance of [ModemDriver]: what a member
    function does is a tree of the signals it raises, so that a data request is
    answered by the queue manager in the middle of the call. The signals of a
    call of the queue manager or of the MAC are handled in their order when the
    call is over. An exception that leaves a handler ends the application. *)

From Stdlib Require Import SpecFloat.
From S2P Require Import Prelude AssocList HexCodec Double Time As Proto Nmea Queue QueueManager QueueManagerProofs Route Mac Prog DriverBase MoosString MessageVal MoosMessage MoosCommas MoosFormat MoosTranslator MoosApp PTranslator.
#[local] Open Scope prog_scope.

(** ** Drivers *)

Inductive DriverType : Type :=
| DRIVER_NONE | DRIVER_WHOI_MICROMODEM | DRIVER_ABC_EXAMPLE_MODEM | DRIVER_UFIELD_SIM_DRIVER | DRIVER_PB_STORE_SERVER | DRIVER_UDP
| DRIVER_BLUEFIN_MOOS | DRIVER_IRIDIUM | DRIVER_IRIDIUM_SHORE | DRIVER_BENTHOS_ATM900.
#[export] Instance DriverType_eq_dec : EqDecision DriverType.
Proof. solve_decision. Defined.

Inductive DriverSignal : Type :=
| OnReceive (msg : ModemTransmission) | OnTransmitResult (msg : ModemTransmission) | OnRawIncoming (raw : bytes) | OnRawOutgoing (raw : bytes).

(** a call of a member function: the signals, the requests and the end, with the object behind it *)
Inductive Call (D : Type) : Type :=
| Return (d : D)
| Throw (d : D) (x : Exn)
| Emit (s : DriverSignal) (k : Call D)
| DataRequest (msg : ModemTransmission) (k : ModemTransmission -> Call D)
| MacIsRunning (k : bool -> Call D)
| MacRestarts (k : Call D)
| MacStops (k : Call D).
Arguments Return {D} d.
Arguments Throw {D} d x.
Arguments Emit {D} s k.
Arguments DataRequest {D} msg k.
Arguments MacIsRunning {D} k.
Arguments MacRestarts {D} k.
Arguments MacStops {D} k.

(** [DriverConfig] with what the drivers add to it *)
Record DriverConfig (C : Type) : Type := MkDriverConfig { dc_modem_id : option Z; dc_driver_name : option bytes; dc_rest : C }.
Arguments MkDriverConfig {C} _ _ _.
Arguments dc_modem_id {C} _.
Arguments dc_driver_name {C} _.
Arguments dc_rest {C} _.
Definition set_dc_modem_id {C : Type} (v : option Z) (c : DriverConfig C) : DriverConfig C := MkDriverConfig v (dc_driver_name c) (dc_rest c).
Definition get_dc_modem_id {C : Type} (c : DriverConfig C) : Z := default 0 (dc_modem_id c).

(** [ModemDriverBase] with its constructors; the object has the line to its modem in it.
    [md_new] has whether it is given the MAC, [md_silent] is of the Micro-Modem driver only. *)
Class ModemDriver (D C : Type) : Type := {
  md_new : DriverType -> bool -> D;
  md_plugin : bytes -> option D;
  md_startup : Z -> DriverConfig C -> D -> Call D;
  md_shutdown : D -> Call D;
  md_do_work : Z -> D -> Call D;
  md_initiate : Z -> ModemTransmission -> D -> Call D;
  md_update_cfg : DriverConfig C -> D -> D;
  md_silent : bool -> D -> option D;
  set_modem_id_lookup_path : bytes -> C -> C;
  set_moos_connection : bytes -> Z -> C -> C
}.

(** ** Configuration *)

Inductive DriverFailureTechnique : Type := CONTINUALLY_RESTART_DRIVER | MOVE_LISTEN_DRIVER_TO_PRIMARY | DISABLE_AND_MOVE_LISTEN_DRIVER_TO_PRIMARY.

Record MOOSVariables : Type := MkVariables {
  v_prefix : bytes; v_driver_raw_in : bytes; v_driver_raw_out : bytes; v_driver_raw_msg_in : bytes; v_driver_raw_msg_out : bytes;
  v_driver_receive : bytes; v_driver_transmit : bytes; v_driver_cfg_update : bytes;
  v_queue_receive : bytes; v_queue_ack_transmission : bytes; v_queue_ack_original_msg : bytes; v_queue_expire : bytes; v_queue_size : bytes; v_queue_flush : bytes;
  v_mac_cycle_update : bytes; v_mac_initiate_transmission : bytes; v_mac_slot_start : bytes;
  v_config_file : bytes; v_config_file_request : bytes; v_driver_reset : bytes; v_ifrontseat_data_out : bytes
}.

Inductive UpdateType : Type := NO_CHANGE | ASSIGN | PUSH_BACK | PUSH_FRONT | POP_BACK | POP_FRONT | INSERT | ERASE | CLEAR.
Inductive CycleState : Type := STOPPED | STARTED.
Record MACUpdate : Type := MkMACUpdate {
  mu_dest : Z; mu_update_type : UpdateType; mu_slot : list ModemTransmission; mu_first_iterator : Z; mu_second_iterator : Z; mu_cycle_state : option CycleState
}.

(** the handlers of mail *)
Inductive AcommsMail : Type :=
| OnMacCycleUpdate | OnFlushQueue | OnConfigFileRequest | OnExternalInitiate | OnDriverReset | OnDriverCfgUpdate | OnCreatePublish (entry : TranslatorEntry) | OnCreateMultiplex.

(** what ends the application; [HandlerUndefined] is a null pointer or an iterator out of range *)
Inductive HandlerExn : Type := HandlerDies | HandlerUndefined | DriverFails (x : Exn) | QueueFails (e : ManagerError) | MacFails (e : MacError) | TranslatorFails (e : TransExn) | CodecFails.

(** ** Signals *)

(** a slot of [signal_receive]; the raw signals have the message published and its text *)
Inductive ReceiveSlot : Type := ToQueue | ToPublish.
Inductive RawSlot : Type := RawMsg | RawText.
#[export] Instance ReceiveSlot_eq_dec : EqDecision ReceiveSlot.
Proof. solve_decision. Defined.

Record DriverSlots : Type := MkSlots {
  on_receive : list ReceiveSlot; on_data_request : bool; on_transmit_result : bool; on_raw_incoming : list RawSlot; on_raw_outgoing : list RawSlot
}.
Definition no_slots : DriverSlots := MkSlots [] false false [] [].

(** a slot of the MAC's [signal_initiate_transmission]; a driver by its order *)
Inductive InitiateSlot : Type := PublishInitiate | InitiateOn (driver : Z).
#[export] Instance InitiateSlot_eq_dec : EqDecision InitiateSlot.
Proof. solve_decision. Defined.

(** [bind] and [unbind] of the informational signals of the primary driver *)
Definition connect_info (s : DriverSlots) : DriverSlots :=
  MkSlots (on_receive s ++ [ToPublish]) (on_data_request s) true (on_raw_incoming s ++ [RawMsg; RawText]) (on_raw_outgoing s ++ [RawMsg; RawText]).
Definition disconnect_info (s : DriverSlots) : DriverSlots :=
  MkSlots (List.filter (fun x => negb (bool_decide (x = ToPublish))) (on_receive s)) (on_data_request s) false [] [].
(** [bind] of a driver and the queue manager *)
Definition connect_queue (s : DriverSlots) : DriverSlots :=
  MkSlots (on_receive s ++ [ToQueue]) true (on_transmit_result s) (on_raw_incoming s) (on_raw_outgoing s).

(** what the signals publish *)
Inductive Info (M : Type) : Type :=
| InfoTransmission (t : ModemTransmission) | InfoMessage (m : M) | InfoQueueSize (dccl_id : Z) (size : nat) | InfoRaw (raw : bytes) | InfoFrontSeat (dccl : bytes).
Arguments InfoTransmission {M} t.
Arguments InfoMessage {M} m.
Arguments InfoQueueSize {M} dccl_id size.
Arguments InfoRaw {M} raw.
Arguments InfoFrontSeat {M} dccl.

(** ** State *)

Record DriverEntry (D : Type) : Type := MkDriverEntry { de_driver : option D; de_cfg : nat; de_slots : DriverSlots }.
Arguments MkDriverEntry {D} _ _ _.
Arguments de_driver {D} _.
Arguments de_cfg {D} _.
Arguments de_slots {D} _.

Section Handler.
Context {D C : Type} {MD : ModemDriver D C}.
Context `{P : Protobuf} `{DC : !DCCLCodec} {TX : BoostText} {LC : LexicalCast} {LN : LexicalNumbers} {LW : LexicalWide} {VT : ValText} {PT : ProtobufText} {BF : BoostFormat} {ML : MoosLibrary} {BT : BoostTrim}.

(** the driver objects are named by their order, 0 is the null pointer; a
    configuration by its position, the one of the primary driver first *)
Record AcommsHandler : Type := MkHandler {
  h_count : Z;
  h_driver : Z;
  h_drivers : list (Z * DriverEntry D);
  h_cfgs : list (DriverConfig C);
  h_restart : list (Z * double);
  h_mac : MACManager;
  h_initiate : list InitiateSlot;
  h_queue : QueueManager;
  h_router : option RouteManager;
  h_translator : MOOSTranslator;
  h_timers : list Timer;
  h_forward : list bytes
}.

Definition set_drivers (primary : Z) (l : list (Z * DriverEntry D)) (h : AcommsHandler) : AcommsHandler :=
  MkHandler (h_count h) primary l (h_cfgs h) (h_restart h) (h_mac h) (h_initiate h) (h_queue h) (h_router h) (h_translator h) (h_timers h) (h_forward h).
Definition set_count (n : Z) (h : AcommsHandler) : AcommsHandler :=
  MkHandler n (h_driver h) (h_drivers h) (h_cfgs h) (h_restart h) (h_mac h) (h_initiate h) (h_queue h) (h_router h) (h_translator h) (h_timers h) (h_forward h).
Definition set_cfgs (l : list (DriverConfig C)) (h : AcommsHandler) : AcommsHandler :=
  MkHandler (h_count h) (h_driver h) (h_drivers h) l (h_restart h) (h_mac h) (h_initiate h) (h_queue h) (h_router h) (h_translator h) (h_timers h) (h_forward h).
Definition set_restart (l : list (Z * double)) (h : AcommsHandler) : AcommsHandler :=
  MkHandler (h_count h) (h_driver h) (h_drivers h) (h_cfgs h) l (h_mac h) (h_initiate h) (h_queue h) (h_router h) (h_translator h) (h_timers h) (h_forward h).
Definition set_mac (m : MACManager) (h : AcommsHandler) : AcommsHandler :=
  MkHandler (h_count h) (h_driver h) (h_drivers h) (h_cfgs h) (h_restart h) m (h_initiate h) (h_queue h) (h_router h) (h_translator h) (h_timers h) (h_forward h).
Definition set_initiate (l : list InitiateSlot) (h : AcommsHandler) : AcommsHandler :=
  MkHandler (h_count h) (h_driver h) (h_drivers h) (h_cfgs h) (h_restart h) (h_mac h) l (h_queue h) (h_router h) (h_translator h) (h_timers h) (h_forward h).
Definition set_h_queue (q : QueueManager) (h : AcommsHandler) : AcommsHandler :=
  MkHandler (h_count h) (h_driver h) (h_drivers h) (h_cfgs h) (h_restart h) (h_mac h) (h_initiate h) q (h_router h) (h_translator h) (h_timers h) (h_forward h).
Definition set_router (r : option RouteManager) (h : AcommsHandler) : AcommsHandler :=
  MkHandler (h_count h) (h_driver h) (h_drivers h) (h_cfgs h) (h_restart h) (h_mac h) (h_initiate h) (h_queue h) r (h_translator h) (h_timers h) (h_forward h).
Definition set_timers (l : list Timer) (h : AcommsHandler) : AcommsHandler :=
  MkHandler (h_count h) (h_driver h) (h_drivers h) (h_cfgs h) (h_restart h) (h_mac h) (h_initiate h) (h_queue h) (h_router h) (h_translator h) l (h_forward h).
Definition set_forward (l : list bytes) (h : AcommsHandler) : AcommsHandler :=
  MkHandler (h_count h) (h_driver h) (h_drivers h) (h_cfgs h) (h_restart h) (h_mac h) (h_initiate h) (h_queue h) (h_router h) (h_translator h) (h_timers h) l.
Definition set_entry (k : Z) (e : DriverEntry D) (h : AcommsHandler) : AcommsHandler := set_drivers (h_driver h) (al_insert k e (h_drivers h)) h.

Record pAcommsHandlerConfig : Type := MkAcommsConfig {
  ac_modem_id : Z;
  ac_driver_type : DriverType; ac_driver_cfg : DriverConfig C;
  ac_listen_driver_type : list DriverType; ac_listen_driver_cfg : list (DriverConfig C);
  ac_technique : DriverFailureTechnique; ac_driver_backoff_sec : Z;
  ac_mac_cfg : MACConfig; ac_queue_cfg : QueueManagerConfig; ac_route_cfg : option RouteManagerConfig;
  ac_moos_var : MOOSVariables;
  ac_translator_entry : list TranslatorEntry; ac_multiplex_create_moos_var : list bytes; ac_dccl_frontseat_forward_name : list bytes;
  ac_modem_id_lookup_path : bytes; ac_server_host : bytes; ac_server_port : Z
}.

(** the messages of the queues as the translator has them, the contents of a [RouteCommand], and
    the generated protobuf code *)
Class AcommsMessages : Type := {
  to_queue : MoosMessage.Descriptor -> MoosMessage.Message -> Msg;
  of_queue : Msg -> MoosMessage.Descriptor * MoosMessage.Message;
  route_command : Msg -> option (list Z);
  queue_find_descriptor : bytes -> option Proto.Descriptor;
  make_network_ack : Z -> Z -> Z -> Z -> Z -> bool -> Msg;
  info_msg : bytes -> Info Msg -> MoosMsg;
  parse_mac_update : bytes -> MACUpdate;
  parse_flush : bytes -> Z;
  parse_transmission : bytes -> ModemTransmission;
  parse_driver_cfg : bytes -> DriverConfig C;
  config_b64 : list (DriverConfig C) -> bytes
}.
Context {AM : AcommsMessages}.

Variable cfg : pAcommsHandlerConfig.
Variable moos_technique : Technique.
Variable app_name : bytes.
(** bounds of the loops of the MAC and of the queue manager *)
Variables (mac_fuel queue_fuel : nat).

Abbreviation vars := (ac_moos_var cfg).
Abbreviation hprog := (prog AcommsHandler MoosMsg HandlerExn).

(** ** Publishing *)

Definition publish_value (key : bytes) (v : MoosValue) : hprog unit := pemit (MkMoosMsg key v [] [] moos_new_time).

Definition handle_goby_signal (msg1 : Info Msg) (moos_var1 : bytes) (msg2 : Info Msg) (moos_var2 : bytes) : hprog unit :=
  pwhen (negb (bool_decide (moos_var1 = []))) (pemit (info_msg (v_prefix vars ++ moos_var1) msg1)) ;;
  pwhen (negb (bool_decide (moos_var2 = []))) (pemit (info_msg (v_prefix vars ++ moos_var2) msg2)).

Definition handle_raw (raw moos_var : bytes) : hprog unit := publish_value (v_prefix vars ++ moos_var) (MString raw).

(** ** Signals of the queue manager *)

(** whether [catch (std::runtime_error&)] handles a failure: those of boost::format are not of this kind *)
Definition is_runtime_error (x : TransExn) : bool := match x with RuntimeError | AlgorithmFailed AlgThrow => true | _ => false end.

Definition handle_queue_receive (msg : Msg) : hprog unit :=
  let! h := pget in
  let '(d, m) := of_queue msg in
  match protobuf_to_moos (h_translator h) d m with
  | Ok out => pfor out (fun e => pemit (snd e))
  | Err x => if is_runtime_error x then pret tt else pthrow (TranslatorFails x)
  end ;;
  pwhen (bool_decide (Proto.full_name (GetDescriptor msg) ∈ h_forward h))
    match codec_encode (codec_passphrase (h_queue h)) msg with
    | Some b => pemit (info_msg (v_ifrontseat_data_out vars) (InfoFrontSeat b))
    | None => pthrow CodecFails
    end ;;
  match h_router h, route_command msg, ac_route_cfg cfg with
  | Some r, Some hops, Some rc => pmod (set_router (Some (route_set_cfg (MkRouteConfig hops (r_subnet_mask rc) (r_default_gateway rc)) r)))
  | _, _, _ => pret tt
  end.

(** [None]: an exception of the translator *)
Definition handle_encode_on_demand (mvars : list (bytes * MoosMsg)) (t : MOOSTranslator) (data_msg : Msg) : option Msg :=
  match moos_to_protobuf t mvars (Proto.full_name (GetDescriptor data_msg)) with
  | Ok (d, m) => Some (to_queue d m)
  | Err _ => None
  end.

(** what is connected to the signals of the queue manager that return a value. An exception
    of [handle_encode_on_demand], which would end the application, leaves the message as it is. *)
Definition environment (mvars : list (bytes * MoosMsg)) (h : AcommsHandler) : Environment :=
  MkEnvironment
    (fun mt msg id => match h_router h with Some r => handle_out r mt msg id | None => mt end)
    (match h_router h with Some _ => true | None => false end)
    (fun _ data_msg => default data_msg (handle_encode_on_demand mvars (h_translator h) data_msg))
    queue_find_descriptor make_network_ack.

(** the signals that concern the application only *)
Definition queue_info (ev : Event) : hprog unit :=
  match ev with
  | SigReceive m => handle_queue_receive m ;; handle_goby_signal (InfoMessage m) (v_queue_receive vars) (InfoMessage m) []
  | SigAck ack m => handle_goby_signal (InfoTransmission ack) (v_queue_ack_transmission vars) (InfoMessage m) (v_queue_ack_original_msg vars)
  | SigExpire m => handle_goby_signal (InfoMessage m) (v_queue_expire vars) (InfoMessage m) []
  | SigQueueSize id size => handle_goby_signal (InfoQueueSize id size) (v_queue_size vars) (InfoQueueSize id size) []
  | SigInRoute _ _ _ => pret tt
  end.

(** a message in transit is queued again by the router *)
Definition queue_signal (mvars : list (bytes * MoosMsg)) (now : Z) (ev : Event) : hprog unit :=
  match ev with
  | SigInRoute mt m id =>
      let! h := pget in
      match h_router h with
      | None => pret tt
      | Some r =>
          match handle_in (environment mvars h) now r mt m id [h_queue h] with
          | Ok ([q], evs) => pmod (set_h_queue q) ;; pfor evs queue_info
          | Ok _ => pthrow HandlerUndefined
          | Err e => pthrow (QueueFails e)
          end
      end
  | _ => queue_info ev
  end.

(** a call of the queue manager with its signals *)
Definition on_queue (mvars : list (bytes * MoosMsg)) (now : Z) (m : Environment -> QueueManager -> result ManagerError (QueueManager * list Event)) : hprog unit :=
  let! h := pget in
  match m (environment mvars h) (h_queue h) with
  | Ok (q, evs) => pmod (set_h_queue q) ;; pfor evs (queue_signal mvars now)
  | Err e => pthrow (QueueFails e)
  end.

(** ** Calls of a driver *)

Section Round.
(** the newest values of the variables, and the clock *)
Variables (mvars : list (bytes * MoosMsg)) (now : Z).

Definition driver_signal (slots : DriverSlots) (s : DriverSignal) : hprog unit :=
  match s with
  | OnReceive msg => pfor (on_receive slots) (fun slot =>
      match slot with
      | ToQueue => on_queue mvars now (fun e q => handle_modem_receive e msg q)
      | ToPublish => handle_goby_signal (InfoTransmission msg) (v_driver_receive vars) (InfoTransmission msg) []
      end)
  | OnTransmitResult msg => pwhen (on_transmit_result slots) (handle_goby_signal (InfoTransmission msg) (v_driver_transmit vars) (InfoTransmission msg) [])
  | OnRawIncoming raw => pfor (on_raw_incoming slots) (fun slot =>
      match slot with RawMsg => handle_goby_signal (InfoRaw raw) (v_driver_raw_msg_in vars) (InfoRaw raw) [] | RawText => handle_raw raw (v_driver_raw_in vars) end)
  | OnRawOutgoing raw => pfor (on_raw_outgoing slots) (fun slot =>
      match slot with RawMsg => handle_goby_signal (InfoRaw raw) (v_driver_raw_msg_out vars) (InfoRaw raw) [] | RawText => handle_raw raw (v_driver_raw_out vars) end)
  end.

Definition data_request (slots : DriverSlots) (msg : ModemTransmission) : hprog ModemTransmission :=
  if on_data_request slots then
    let! h := pget in
    match handle_modem_data_request queue_fuel (environment mvars h) now msg (h_queue h) with
    | Ok (msg, q, evs) => pmod (set_h_queue q) ;; pfor evs (queue_signal mvars now) ;; pret msg
    | Err e => pthrow (QueueFails e)
    end
  else pret msg.

Definition on_mac (f : MACManager -> result MacError MACManager) : hprog unit :=
  let! h := pget in match f (h_mac h) with Ok m => pmod (set_mac m) | Err e => pthrow (MacFails e) end.

(** the object behind a call *)
Definition store_driver (k : Z) (d : D) : hprog unit :=
  pmod (fun h => match al_lookup k (h_drivers h) with Some e => set_entry k (MkDriverEntry (Some d) (de_cfg e) (de_slots e)) h | None => h end).

Fixpoint run_call (k : Z) (slots : DriverSlots) (c : Call D) : hprog unit :=
  match c with
  | Return d => store_driver k d
  | Throw d x => store_driver k d ;; pthrow (DriverFails x)
  | Emit s c => driver_signal slots s ;; run_call k slots c
  | DataRequest msg c => let! msg := data_request slots msg in run_call k slots (c msg)
  | MacIsRunning c => let! h := pget in run_call k slots (c (Mac.started_up (h_mac h)))
  | MacRestarts c => on_mac (mac_restart mac_fuel now) ;; run_call k slots c
  | MacStops c => on_mac (fun m => Ok (mac_shutdown m)) ;; run_call k slots c
  end.

(** a member function of the driver [k] *)
Definition on_driver (k : Z) (f : D -> Call D) : hprog unit :=
  let! h := pget in
  match al_lookup k (h_drivers h) with
  | Some (MkDriverEntry (Some d) _ slots) => run_call k slots (f d)
  | _ => pthrow HandlerUndefined
  end.

(** [catch (ModemDriverException&)] *)
Definition catch_driver (m handler : hprog unit) : hprog unit :=
  pcatch m (fun x => match x with DriverFails x => if is_driver_exception x then Some handler else None | _ => None end).

(** ** The primary driver *)

Definition update_slots (k : Z) (f : DriverSlots -> DriverSlots) (h : AcommsHandler) : AcommsHandler :=
  match al_lookup k (h_drivers h) with
  | Some e => set_entry k (MkDriverEntry (de_driver e) (de_cfg e) (f (de_slots e))) h
  | None => h
  end.

Definition driver_bind : hprog unit :=
  pmod (fun h => if h_driver h =? 0 then h else update_slots (h_driver h) connect_info (set_initiate (h_initiate h ++ [InitiateOn (h_driver h)]) h)).
Definition driver_unbind : hprog unit :=
  pmod (fun h => if h_driver h =? 0 then h
    else update_slots (h_driver h) disconnect_info (set_initiate (List.filter (fun s => negb (bool_decide (s = InitiateOn (h_driver h)))) (h_initiate h)) h)).

Definition waiting (k : Z) (h : AcommsHandler) : bool := match al_lookup k (h_restart h) with Some _ => true | None => false end.

(** the driver after [k], or the first one *)
Fixpoint next_driver (k : Z) (l : list (Z * DriverEntry D)) (first : option Z) : option Z :=
  match l with
  | [] => None
  | (k', _) :: rest => if k' =? k then match rest with (n, _) :: _ => Some n | [] => first end else next_driver k rest first
  end.

Definition swap_modem_ids (i j : nat) (h : AcommsHandler) : AcommsHandler :=
  let id n := get_dc_modem_id (default (MkDriverConfig None None (dc_rest (ac_driver_cfg cfg))) (h_cfgs h !! n)) in
  let set n v l := alter (set_dc_modem_id (Some v)) n l in
  set_cfgs (set j (id i) (set i (id j) (h_cfgs h))) h.

Definition move_primary (k : Z) : hprog unit :=
  driver_unbind ;;
  let! h := pget in
  if Nat.eqb (length (h_drivers h)) 1 then pthrow HandlerDies
  else
    match next_driver k (h_drivers h) (fst <$> head (h_drivers h)) with
    | None => pthrow HandlerUndefined
    | Some n =>
        pmod (fun h => set_drivers n (h_drivers h) h) ;;
        let! h := pget in
        pwhen (negb (waiting n h)) (on_driver n md_shutdown) ;;
        pmod (fun h => match al_lookup k (h_drivers h), al_lookup n (h_drivers h) with Some old, Some new => swap_modem_ids (de_cfg old) (de_cfg new) h | _, _ => h end) ;;
        driver_bind ;;
        pmod (fun h => set_restart (al_insert_new n (double_of_Z 0) (h_restart h)) h)
    end.

Definition erase_driver (k : Z) (h : AcommsHandler) : AcommsHandler := set_restart (al_erase k (h_restart h)) (set_drivers (h_driver h) (al_erase k (h_drivers h)) h).
Definition restart_later (k : Z) (h : AcommsHandler) : AcommsHandler :=
  set_restart (al_insert_new k (dadd (goby_time_double now) (double_of_Z (ac_driver_backoff_sec cfg))) (h_restart h)) h.

Definition driver_reset (k : Z) : hprog unit :=
  on_driver k md_shutdown ;;
  let! h := pget in
  let move := pwhen (k =? h_driver h) (move_primary k) in
  match ac_technique cfg with
  | DISABLE_AND_MOVE_LISTEN_DRIVER_TO_PRIMARY => move ;; pmod (erase_driver k)
  | MOVE_LISTEN_DRIVER_TO_PRIMARY => move ;; pmod (restart_later k)
  | CONTINUALLY_RESTART_DRIVER => pmod (restart_later k)
  end.

Definition start_driver (k : Z) : hprog unit :=
  let! h := pget in
  match al_lookup k (h_drivers h) ≫= (fun e => h_cfgs h !! de_cfg e) with
  | None => pthrow HandlerUndefined
  | Some c => catch_driver (on_driver k (md_startup now c)) (driver_reset k)
  end.

Definition restart_drivers : hprog unit :=
  let! h := pget in
  let due (e : Z * double) := dlt (snd e) (goby_time_double now) in
  pmod (set_restart (List.filter (fun e => negb (due e)) (h_restart h))) ;;
  pfor (List.filter due (h_restart h)) (fun e => start_driver (fst e)).

(** the drivers in order, up to the first that fails *)
Fixpoint work_drivers (keys : list Z) : hprog unit :=
  match keys with
  | [] => pret tt
  | k :: keys =>
      let! h := pget in
      if waiting k h then work_drivers keys
      else
        let! failed := pcatch (on_driver k (md_do_work now) ;; pret false)
          (fun x => match x with DriverFails x => if is_driver_exception x then Some (pret true) else None | _ => None end) in
        if failed then driver_reset k else work_drivers keys
  end.

(** ** The MAC *)

Definition mac_signal (ev : MacEvent) : hprog unit :=
  match ev with
  | InitiateTransmission s =>
      let! h := pget in
      pfor (h_initiate h) (fun slot =>
        match slot with
        | PublishInitiate => handle_goby_signal (InfoTransmission s) (v_mac_initiate_transmission vars) (InfoTransmission s) []
        | InitiateOn k => on_driver k (md_initiate now s)
        end)
  | SlotStart s => handle_goby_signal (InfoTransmission s) (v_mac_slot_start vars) (InfoTransmission s) []
  end.

(** the handler of the timer, when it has expired *)
Definition mac_slot : hprog unit :=
  let! h := pget in
  match Mac.timer (h_mac h) with
  | None => pret tt
  | Some t =>
      if now <? t then pret tt
      else
        match begin_slot mac_fuel false now (h_mac h) with
        | Ok (m, evs) => pmod (set_mac m) ;; pfor evs mac_signal
        | Err e => pthrow (MacFails e)
        end
  end.

(** ** Translation *)

Definition translate_and_push (entry : TranslatorEntry) : hprog unit :=
  let! h := pget in
  match moos_to_protobuf (h_translator h) mvars (protobuf_name entry) with
  | Err x => if is_runtime_error x then pret tt else pthrow (TranslatorFails x)
  | Ok (d, m) =>
      pcatch (on_queue mvars now (fun e q => manager_push_message e now (to_queue d m) None q))
        (fun x => match x with QueueFails (QueueExc _) => Some (pret tt) | TranslatorFails x => if is_runtime_error x then Some (pret tt) else None | CodecFails => Some (pret tt) | _ => None end)
  end.

Definition acomms_timer (i : nat) : hprog unit :=
  let! h := pget in
  match h_timers h !! i with
  | None => pret tt
  | Some t => pmod (set_timers (<[i := MkTimer (next_expiry now t) (timer_entry t)]> (h_timers h))) ;; translate_and_push (timer_entry t)
  end.

(** ** The loop *)

(** [fired]: the timers of entries that have expired, [slots]: how often the timer of the MAC is looked at *)
Definition acomms_loop (fired : list nat) (slots : nat) : hprog unit :=
  pfor fired acomms_timer ;;
  let! h := pget in
  pwhen (negb (bool_decide (map fst (h_restart h) = []))) restart_drivers ;;
  let! h := pget in
  work_drivers (map fst (h_drivers h)) ;;
  let! h := pget in
  pwhen (negb (waiting (h_driver h) h)) (pfor (seq 0 slots) (fun _ => mac_slot)) ;;
  on_queue mvars now (fun e q => QueueManager.do_work e now q).

(** ** Mail *)

(** an iterator of the cycle is moved past its end: undefined *)
Definition iterator (n : Z) (m : MACManager) : option nat :=
  let i := Z.to_nat n in if (i <=? length (mac_slots m))%nat then Some i else None.

(** the list of slots after the update; [None]: undefined *)
Definition updated_slots (u : MACUpdate) (m : MACManager) : option (list ModemTransmission) :=
  let l := mac_slots m in
  it1 ← iterator (mu_first_iterator u) m; it2 ← iterator (mu_second_iterator u) m;
  match mu_update_type u with
  | ASSIGN => Some (mu_slot u)
  | PUSH_BACK => Some (l ++ mu_slot u)
  | PUSH_FRONT => Some (rev (mu_slot u) ++ l)
  | POP_BACK => Some (take (length l - 1) l)
  | POP_FRONT => Some (drop 1 l)
  | INSERT => Some (take it1 l ++ mu_slot u ++ drop it1 l)
  | ERASE =>
      if negb (mu_second_iterator u =? -1) then (if (it1 <=? it2)%nat then Some (take it1 l ++ drop it2 l) else None)
      else if (it1 <? length l)%nat then Some (take it1 l ++ drop (S it1) l) else None
  | CLEAR => Some []
  | NO_CHANGE => Some l
  end.

(** slots that are only added leave the iterators of the others valid *)
Definition keeps_iterators (u : MACUpdate) : bool := match mu_update_type u with PUSH_BACK | PUSH_FRONT | INSERT | NO_CHANGE => true | _ => false end.

Definition apply_mac_update (u : MACUpdate) : hprog unit :=
  let! h := pget in
  match updated_slots u (h_mac h) with
  | None => pthrow HandlerUndefined
  | Some slots => on_mac (fun m => if keeps_iterators u then Mac.update mac_fuel now (set_mac_slots slots m) else change_slots mac_fuel now slots m)
  end.

(** the Micro-Modem drivers that are not waiting to be restarted *)
Definition silence (s : bool) (h : AcommsHandler) : AcommsHandler :=
  set_drivers (h_driver h) (map (fun ke =>
    let '(k, e) := ke in
    if waiting k h then ke
    else match de_driver e ≫= md_silent s with Some d => (k, MkDriverEntry (Some d) (de_cfg e) (de_slots e)) | None => ke end) (h_drivers h)) h.

Definition handle_mac_cycle_update (msg : bytes) : hprog unit :=
  let u := parse_mac_update msg in
  if negb (mu_dest u =? ac_modem_id cfg) then pret tt
  else
    apply_mac_update u ;;
    match mu_cycle_state u with
    | Some STARTED => on_mac (mac_restart mac_fuel now) ;; pmod (silence false)
    | Some STOPPED => pmod (silence true) ;; on_mac (fun m => Ok (mac_shutdown m))
    | None => pret tt
    end.

Definition handle_flush_queue (msg : bytes) : hprog unit := on_queue mvars now (fun _ q => Ok (flush_queue (parse_flush msg) q)).

Definition handle_config_file_request : hprog unit :=
  let! h := pget in publish_value (v_prefix vars ++ v_config_file vars) (MString (config_b64 (h_cfgs h))).

(** the reset is of the primary driver, which may be a null pointer *)
Definition handle_driver_reset : hprog unit := let! h := pget in driver_reset (h_driver h).

Definition handle_driver_cfg_update (c : DriverConfig C) : hprog unit :=
  pmod (fun h => set_drivers (h_driver h) (map (fun ke =>
    let '(k, e) := ke in
    if bool_decide (get_dc_modem_id <$> h_cfgs h !! de_cfg e = Some (get_dc_modem_id c)) && negb (waiting k h)
    then (k, MkDriverEntry (md_update_cfg c <$> de_driver e) (de_cfg e) (de_slots e)) else ke) (h_drivers h)) h).

Definition handle_external_initiate_transmission (source msg : bytes) : hprog unit :=
  if bool_decide (source = app_name) then pret tt
  else
    let! h := pget in
    if h_driver h =? 0 then pret tt else on_driver (h_driver h) (md_initiate now (parse_transmission msg)).

Definition create_on_publish (entry : TranslatorEntry) (msg : bytes) : hprog unit :=
  pwhen (match mandatory_content (trigger entry) with None => true | Some c => contains c msg end) (translate_and_push entry).

Definition create_on_multiplex_publish (moos_now : double) (msg : bytes) : hprog unit :=
  match dynamic_parse_for_moos moos_technique msg with
  | Err x => pthrow (TranslatorFails x)
  | Ok None => pret tt
  | Ok (Some (d, m)) =>
      let! h := pget in
      match protobuf_to_inverse_moos moos_now (h_translator h) d m with
      | Ok out => pfor out (fun e => pemit (snd e))
      | Err x => if is_exception x then pret tt else pthrow (TranslatorFails x)
      end
  end.

Definition acomms_mail (moos_now : double) (handler : AcommsMail) (m : MoosMsg) : hprog unit :=
  let text := GetString (mm_value m) in
  match handler with
  | OnMacCycleUpdate => handle_mac_cycle_update text
  | OnFlushQueue => handle_flush_queue text
  | OnConfigFileRequest => handle_config_file_request
  | OnExternalInitiate => handle_external_initiate_transmission (mm_source m) text
  | OnDriverReset => handle_driver_reset
  | OnDriverCfgUpdate => handle_driver_cfg_update (parse_driver_cfg text)
  | OnCreatePublish entry => create_on_publish entry text
  | OnCreateMultiplex => create_on_multiplex_publish moos_now text
  end.

(** ** Construction *)

(** [cfg] by its position; the object gets the next order *)
Definition create_driver (type : DriverType) (i : nat) (mac : bool) : hprog (Z * option D) :=
  let! h := pget in
  let made (d : D) := pmod (set_count (h_count h + 1)) ;; pret (h_count h + 1, Some d) in
  let extend f := pmod (fun h => set_cfgs (alter (fun c => MkDriverConfig (dc_modem_id c) (dc_driver_name c) (f (dc_rest c))) i (h_cfgs h)) h) in
  match h_cfgs h !! i ≫= dc_driver_name with
  | Some name => match md_plugin name with Some d => made d | None => pthrow HandlerDies end
  | None =>
      match type with
      | DRIVER_NONE => pret (0, None)
      | DRIVER_UFIELD_SIM_DRIVER => extend (set_modem_id_lookup_path (ac_modem_id_lookup_path cfg)) ;; made (md_new type mac)
      | DRIVER_BLUEFIN_MOOS => extend (set_moos_connection (ac_server_host cfg) (ac_server_port cfg)) ;; made (md_new type mac)
      | _ => made (md_new type mac)
      end
  end.

Definition insert_driver (k : Z) (d : option D) (i : nat) : hprog unit :=
  pmod (fun h => set_drivers (h_driver h) (al_insert_new k (MkDriverEntry d i no_slots) (h_drivers h)) h).

Definition create_drivers : hprog unit :=
  let! kd := create_driver (ac_driver_type cfg) 0 true in
  let '(k, d) := kd in
  pmod (fun h => set_drivers k (h_drivers h) h) ;;
  pwhen (negb (k =? 0)) (insert_driver k d 0) ;;
  if Nat.eqb (length (ac_listen_driver_type cfg)) (length (ac_listen_driver_cfg cfg)) then
    pfor (imap pair (ac_listen_driver_type cfg)) (fun it =>
      let! kd := create_driver (snd it) (S (fst it)) false in
      insert_driver (fst kd) (snd kd) (S (fst it)))
  else pthrow HandlerDies.

(** [process_configuration] up to the translator entries *)
Definition configure : hprog unit :=
  create_drivers ;;
  (if ac_modem_id cfg =? BROADCAST_ID then pthrow HandlerDies else pret tt) ;;
  publish_value (B "MODEM_ID") (MDouble (double_of_Z (ac_modem_id cfg))) ;;
  publish_value (B "VEHICLE_ID") (MDouble (double_of_Z (ac_modem_id cfg))) ;;
  pmod (fun h => set_cfgs (foldr (fun ke l => alter (fun c => match dc_modem_id c with Some _ => c | None => set_dc_modem_id (Some (ac_modem_id cfg)) c end) (de_cfg (snd ke)) l)
                            (h_cfgs h) (h_drivers h)) h) ;;
  pmod (fun h => set_restart (foldr (fun ke l => al_insert_new (fst ke) (double_of_Z 0) l) (h_restart h) (h_drivers h)) h) ;;
  on_mac (mac_startup mac_fuel now (MkMACConfig (ac_modem_id cfg) (mc_type (ac_mac_cfg cfg)) (mc_slot (ac_mac_cfg cfg)) (mc_start_cycle_in_middle (ac_mac_cfg cfg))
                                      (mc_ref_time_type (ac_mac_cfg cfg)) (mc_fixed_ref_time (ac_mac_cfg cfg)))) ;;
  on_queue mvars now (fun e q =>
    let c := ac_queue_cfg cfg in
    manager_set_cfg e now (MkManagerConfig (Some (ac_modem_id cfg)) (c_message_entry c) (c_on_demand_skew_opt c) (c_minimum_ack_wait_opt c) (c_skip_decoding_opt c)
                             (c_make_network_ack_for_src_id c) (c_route_for_additional_modem_id c) (c_encrypt_rule c)) q).

(** the router is made before the manager is configured and connected to it behind *)
Definition make_router : hprog unit :=
  match ac_route_cfg cfg with
  | Some rc => if bool_decide (r_hop rc = []) then pret tt
               else pmod (fun h => set_router (Some (add_subnet_queue (route_set_cfg rc (MkRoute (MkRouteConfig [] None None) [])) (Some (0%nat, h_queue h)))) h)
  | None => pret tt
  end.

Definition bind_drivers : hprog unit :=
  driver_bind ;;
  pmod (fun h => set_drivers (h_driver h) (map (fun ke => (fst ke, MkDriverEntry (de_driver (snd ke)) (de_cfg (snd ke)) (connect_queue (de_slots (snd ke))))) (h_drivers h)) h) ;;
  make_router.

Definition add_forward (name : bytes) : hprog unit :=
  match queue_find_descriptor name with
  | Some d => pmod (fun h => set_forward (Proto.full_name d :: h_forward h) h)
  | None => pthrow HandlerDies
  end.

End Round.

Definition new_handler (t : MOOSTranslator) : AcommsHandler :=
  MkHandler 0 0 [] (ac_driver_cfg cfg :: ac_listen_driver_cfg cfg) [] new_mac [PublishInitiate] new_manager None t [] [].

(** ** The application *)

Abbreviation acapp := (@GobyMOOSApp AcommsHandler AcommsMail Empty_set).
Abbreviation acreaction := (@Reaction AcommsHandler HandlerExn).
Abbreviation acprog := (prog acapp AppEv HandlerExn).

Definition react (m : hprog unit) (a : acapp) : acreaction :=
  let '(h, out, r) := m (own a) in (h, out, match r with Ok _ => None | Err x => Some x end).
Definition acomms_inbox (now : Z) (moos_now : double) (handler : AcommsMail) (m : MoosMsg) (a : acapp) : acreaction := react (acomms_mail (dynamic_vars a) now moos_now handler m) a.
Definition acomms_round (now : Z) (r : list nat * nat) (a : acapp) : acreaction := react (acomms_loop (dynamic_vars a) now (fst r) (snd r)) a.

Definition on_own (m : list (bytes * MoosMsg) -> hprog unit) : acprog unit := perform (fun a => react (m (dynamic_vars a)) a).

Definition add_entry_subscriptions (now : Z) (e : TranslatorEntry) : acprog unit :=
  match find_type (protobuf_name e) with
  | None => pthrow (TranslatorFails RuntimeError)
  | Some _ =>
      match trigger_type (trigger e) with
      | TRIGGER_PUBLISH => subscribe (trigger_moos_var (trigger e)) (Some (OnCreatePublish e)) 0
      | TRIGGER_TIME => on_own (fun _ => pmod (fun h => set_timers (h_timers h ++ [MkTimer (now + trigger_period (trigger e) * 1000000) e]) h))
      end ;;
      pfor (create e) (fun c => subscribe (cp_moos_var c) None 0)
  end.

Definition process_configuration (now : Z) : acprog unit :=
  on_own (fun v => configure v now) ;;
  pfor (ac_translator_entry cfg) (add_entry_subscriptions now) ;;
  pfor (ac_multiplex_create_moos_var cfg) (fun var => subscribe var (Some OnCreateMultiplex) 0) ;;
  on_own (fun _ => pfor (ac_dccl_frontseat_forward_name cfg) add_forward).

Definition construct_acomms (now : Z) : acprog unit :=
  process_configuration now ;;
  on_own (fun _ => bind_drivers) ;;
  subscribe (v_prefix vars ++ v_mac_cycle_update vars) (Some OnMacCycleUpdate) 0 ;;
  subscribe (v_prefix vars ++ v_queue_flush vars) (Some OnFlushQueue) 0 ;;
  subscribe (v_prefix vars ++ v_config_file_request vars) (Some OnConfigFileRequest) 0 ;;
  subscribe (v_prefix vars ++ v_mac_initiate_transmission vars) (Some OnExternalInitiate) 0 ;;
  subscribe (v_prefix vars ++ v_driver_reset vars) (Some OnDriverReset) 0 ;;
  subscribe (v_prefix vars ++ v_driver_cfg_update vars) (Some OnDriverCfgUpdate) 0.

Definition new_acomms (now : Z) (moos_now : double) (p : DCCLAlgorithmPerformer) : result TransExn (acapp * list AppEv * result HandlerExn unit) :=
  let? t := new_translator_of (ac_translator_entry cfg) p in
  Ok (construct_acomms now (new_app moos_now [] (new_handler t))).

End Handler.
