(* ===== verification/AcommsDrivers.v ===== *)
(** * The drivers of pAcommsHandler

    Which of its drivers the application uses, whatever the drivers, the mail
    and the failures: the connections of the primary driver, and that a driver
    is started and shut down in turn. *)

From Stdlib Require Import SpecFloat Sorting.Sorted.
From S2P Require Import Prelude AssocList HexCodec Double Time As Proto Nmea Queue QueueManager QueueManagerProofs Route Mac Prog DriverBase MoosString MessageVal MoosMessage MoosCommas MoosFormat MoosTranslator MoosApp PTranslator AcommsHandler.
#[local] Open Scope prog_scope.

Create HintDb shape.

Section Drivers.
Context {D C : Type} {MD : ModemDriver D C}.
Context `{P : Protobuf} `{DC : !DCCLCodec} {TX : BoostText} {LC : LexicalCast} {LN : LexicalNumbers} {LW : LexicalWide} {VT : ValText} {PT : ProtobufText} {BF : BoostFormat} {ML : MoosLibrary} {BT : BoostTrim} {AM : @AcommsMessages C P}.
Variables (cfg : @pAcommsHandlerConfig C) (moos_technique : Technique) (app_name : bytes) (mac_fuel queue_fuel : nat).

Abbreviation handler := (@AcommsHandler D C P).
Abbreviation hprog := (prog handler MoosMsg HandlerExn).

(** ** What most calls leave alone *)

(** a part of the state that the queue manager, the router, the MAC and the timers are not in *)
Class QuietView {V : Type} (view : handler -> V) : Prop := {
  view_queue : forall q h, view (set_h_queue q h) = view h;
  view_router : forall r h, view (set_router r h) = view h;
  view_mac : forall m h, view (set_mac m h) = view h;
  view_timers : forall l h, view (set_timers l h) = view h
}.

(** a computation that keeps a part of the state, also when it fails *)
Definition steady {V A : Type} (ok : V -> Prop) (view : handler -> V) (m : hprog A) : Prop := forall s, ok s -> keeps (fun h => view h = s) m.

Section Views.
Context {V : Type} {ok : V -> Prop} {view : handler -> V}.

Lemma steady_bind {A B'} (m : hprog A) (k : A -> hprog B') : steady ok view m -> (forall a, steady ok view (k a)) -> steady ok view (pbind m k).
Proof. intros Hm Hk s Hs. apply keeps_bind; [by apply Hm | intros a; by apply Hk]. Qed.
Lemma steady_ret {A} (a : A) : steady ok view (pret a).
Proof. intros s _. apply keeps_ret. Qed.
Lemma steady_throw {A} x : steady ok view (@pthrow _ _ _ A x).
Proof. intros s _. apply keeps_throw. Qed.
Lemma steady_emit e : steady ok view (pemit e).
Proof. intros s _. apply keeps_emit. Qed.
Lemma steady_get : steady ok view pget.
Proof. intros s _. apply keeps_get. Qed.
Lemma steady_mod f : (forall h, view (f h) = view h) -> steady ok view (pmod f).
Proof. intros H s _. apply keeps_mod. intros h <-. apply H. Qed.
Lemma steady_when b m : steady ok view m -> steady ok view (pwhen b m).
Proof. intros H s Hs. by apply keeps_when, H. Qed.
Lemma steady_for {A} (l : list A) body : (forall a, steady ok view (body a)) -> steady ok view (pfor l body).
Proof. intros H s Hs. apply keeps_for. intros a. by apply H. Qed.
Lemma steady_catch {A} (m : hprog A) c : steady ok view m -> (forall x k, c x = Some k -> steady ok view k) -> steady ok view (pcatch m c).
Proof. intros Hm Hc s Hs. apply keeps_catch; [by apply Hm | intros x k E; by apply (Hc x k E)]. Qed.
End Views.

#[local] Hint Resolve steady_ret steady_throw steady_emit steady_get : shape.

Ltac steady_step :=
  repeat first
    [ progress (auto with shape nocore) | apply steady_bind; [|intros ?] | apply steady_when | apply steady_for; intros ?
    | apply steady_mod; intros ?; first [apply view_queue | apply view_router | apply view_mac | apply view_timers] ].

Section Quiet.
Context {V : Type} {ok : V -> Prop} {view : handler -> V} {QV : QuietView view}.

Lemma steady_value key v : steady ok view (publish_value key v).
Proof. apply steady_emit. Qed.
Lemma steady_signal i1 v1 i2 v2 : steady ok view (handle_goby_signal cfg i1 v1 i2 v2).
Proof. unfold handle_goby_signal. steady_step. Qed.
Lemma steady_raw raw v : steady ok view (handle_raw cfg raw v).
Proof. apply steady_emit. Qed.
#[local] Hint Resolve steady_value steady_signal steady_raw : shape.

Lemma steady_receive m : steady ok view (handle_queue_receive cfg m).
Proof.
  unfold handle_queue_receive. apply steady_bind; [apply steady_get | intros h]. destruct (of_queue m). apply steady_bind; [|intros _; apply steady_bind; [|intros _]].
  - destruct (protobuf_to_moos _ _ _) as [out|x]; [steady_step|]. destruct (is_runtime_error x); steady_step.
  - apply steady_when. destruct (codec_encode _ _); steady_step.
  - destruct (h_router h), (route_command m), (ac_route_cfg cfg); steady_step.
Qed.
#[local] Hint Resolve steady_receive : shape.

Lemma steady_info ev : steady ok view (queue_info cfg ev).
Proof. destruct ev; cbn [queue_info]; steady_step. Qed.
#[local] Hint Resolve steady_info : shape.

Lemma steady_queue_signal mvars now ev : steady ok view (queue_signal cfg mvars now ev).
Proof.
  destruct ev; cbn [queue_signal]; auto with shape nocore. apply steady_bind; [apply steady_get | intros h]. destruct (h_router h); [|apply steady_ret].
  destruct (handle_in _ _ _ _ _ _ _) as [[[|q [|]] evs]|]; steady_step.
Qed.
#[local] Hint Resolve steady_queue_signal : shape.

Lemma steady_on_queue mvars now f : steady ok view (on_queue cfg mvars now f).
Proof. unfold on_queue. apply steady_bind; [apply steady_get | intros h]. destruct (f _ _) as [[q evs]|]; steady_step. Qed.
#[local] Hint Resolve steady_on_queue : shape.

Lemma steady_driver_signal mvars now slots s : steady ok view (driver_signal cfg mvars now slots s).
Proof.
  destruct s; cbn [driver_signal]; [apply steady_for; intros [] | apply steady_when | apply steady_for; intros [] | apply steady_for; intros []]; steady_step.
Qed.

Lemma steady_request mvars now slots msg : steady ok view (data_request cfg queue_fuel mvars now slots msg).
Proof.
  unfold data_request. destruct (on_data_request slots); [|apply steady_ret]. apply steady_bind; [apply steady_get | intros h].
  destruct (handle_modem_data_request _ _ _ _ _) as [[[m q] evs]|]; steady_step.
Qed.
Lemma steady_mac f : steady ok view (on_mac f).
Proof. unfold on_mac. apply steady_bind; [apply steady_get | intros h]. destruct (f (h_mac h)); steady_step. Qed.
#[local] Hint Resolve steady_driver_signal steady_request steady_mac : shape.

Lemma steady_translate mvars now e : steady ok view (translate_and_push cfg mvars now e).
Proof.
  unfold translate_and_push. apply steady_bind; [apply steady_get | intros h]. destruct (moos_to_protobuf _ _ _) as [[d m]|x].
  - apply steady_catch; [steady_step|]. intros [| |x|[]|x|x|] k; try done; try (by intros [= <-]; steady_step). destruct (is_runtime_error x); [|done]. intros [= <-]. steady_step.
  - destruct (is_runtime_error x); steady_step.
Qed.
#[local] Hint Resolve steady_translate : shape.

Lemma steady_timer mvars now i : steady ok view (acomms_timer cfg mvars now i).
Proof. unfold acomms_timer. apply steady_bind; [apply steady_get | intros h]. destruct (h_timers h !! i); steady_step. Qed.

Lemma steady_multiplex moos_now text : steady ok view (create_on_multiplex_publish (D := D) (C := C) moos_technique moos_now text).
Proof.
  unfold create_on_multiplex_publish. destruct (dynamic_parse_for_moos _ _) as [[[d m]|]|]; [|apply steady_ret|apply steady_throw]. apply steady_bind; [apply steady_get | intros h].
  destruct (protobuf_to_inverse_moos _ _ _ _) as [out|x]; [steady_step|]. destruct (is_exception x); steady_step.
Qed.

Lemma steady_update now u : steady ok view (apply_mac_update (D := D) mac_fuel now u).
Proof. unfold apply_mac_update. apply steady_bind; [apply steady_get | intros h]. destruct (updated_slots _ _); steady_step. Qed.

(** calls of drivers, when the objects are not in the view *)
Hypothesis steady_stored : forall k d, steady ok view (store_driver (C := C) k d).
#[local] Hint Resolve steady_stored : shape.

Lemma steady_call mvars now k slots c : steady ok view (run_call cfg mac_fuel queue_fuel mvars now k slots c).
Proof. induction c; cbn [run_call]; steady_step. Qed.
#[local] Hint Resolve steady_call : shape.

Lemma steady_on_driver mvars now k f : steady ok view (on_driver cfg mac_fuel queue_fuel mvars now k f).
Proof. unfold on_driver. apply steady_bind; [apply steady_get | intros h]. destruct (al_lookup k (h_drivers h)) as [[[d|] i slots]|]; steady_step. Qed.
#[local] Hint Resolve steady_on_driver : shape.

Lemma steady_mac_signal mvars now ev : steady ok view (mac_signal cfg mac_fuel queue_fuel mvars now ev).
Proof. destruct ev; cbn [mac_signal]; [|steady_step]. apply steady_bind; [apply steady_get | intros h]. apply steady_for. intros []; steady_step. Qed.
#[local] Hint Resolve steady_mac_signal : shape.

Lemma steady_mac_slot mvars now : steady ok view (mac_slot cfg mac_fuel queue_fuel mvars now).
Proof.
  unfold mac_slot. apply steady_bind; [apply steady_get | intros h]. destruct (Mac.timer (h_mac h)); [|steady_step]. destruct (now <? _); [steady_step|].
  destruct (begin_slot _ _ _ _) as [[m evs]|]; steady_step.
Qed.
End Quiet.

(** ** The shape *)

Definition entry_shape (ke : Z * DriverEntry D) : Z * (nat * DriverSlots) := (fst ke, (de_cfg (snd ke), de_slots (snd ke))).
Definition shape (h : handler) : Z * list (Z * (nat * DriverSlots)) * list (Z * double) * list InitiateSlot :=
  (h_driver h, map entry_shape (h_drivers h), h_restart h, h_initiate h).
Definition sorted_shape (s : Z * list (Z * (nat * DriverSlots)) * list (Z * double) * list InitiateSlot) : Prop := StronglySorted Z.lt (map fst (snd (fst (fst s)))).

#[local] Instance quiet_shape : QuietView shape.
Proof. by constructor. Qed.
#[local] Instance quiet_count : QuietView (@h_count D C P).
Proof. by constructor. Qed.

(** an entry whose shape is unchanged *)
Lemma insert_shape k (e e' : DriverEntry D) l : StronglySorted Z.lt (map fst l) -> al_lookup k l = Some e -> (de_cfg e', de_slots e') = (de_cfg e, de_slots e) ->
  map entry_shape (al_insert k e' l) = map entry_shape l.
Proof.
  intros Hs Hl He. induction l as [|[j w] l IH]; [done|]. cbn [al_lookup map fst] in *. cbn [al_insert]. apply StronglySorted_inv in Hs as [Hs Hf]. destruct (k =? j) eqn:E.
  - injection Hl as ->. apply Z.eqb_eq in E as ->. cbn [map]. unfold entry_shape at 1 3. cbn [fst snd]. by rewrite He.
  - assert (j < k) by (apply al_lookup_elem in Hl; rewrite Forall_forall in Hf; apply Hf, list_elem_of_fmap; by exists (k, e)).
    rewrite (proj2 (Z.ltb_ge k j)) by lia. cbn [map]. by rewrite IH.
Qed.

Lemma shape_keys (h : handler) : map fst (map entry_shape (h_drivers h)) = map fst (h_drivers h).
Proof. rewrite map_map. by apply map_ext. Qed.

Lemma steady_store k d : steady sorted_shape shape (store_driver (C := C) k d).
Proof.
  intros s Hs. apply keeps_mod. intros h <-. destruct (al_lookup k (h_drivers h)) as [e|] eqn:E; [|done]. unfold shape, set_entry, set_drivers. cbn.
  rewrite (insert_shape k e) by (done || (unfold sorted_shape in Hs; cbn in Hs; by rewrite shape_keys in Hs)). done.
Qed.

(** changes of the objects only *)
Lemma map_shape (f : Z * DriverEntry D -> Z * DriverEntry D) (h : handler) : (forall ke, entry_shape (f ke) = entry_shape ke) -> shape (set_drivers (h_driver h) (map f (h_drivers h)) h) = shape h.
Proof. intros H. unfold shape. cbn. rewrite map_map. by rewrite (map_ext _ entry_shape H). Qed.

Lemma silence_shape s (h : handler) : shape (silence s h) = shape h.
Proof. apply map_shape. intros [k e]. destruct (waiting k h); [done|]. by destruct (de_driver e ≫= md_silent s). Qed.

Lemma cfg_update_shape c (h : handler) : shape (fst (fst (handle_driver_cfg_update c h))) = shape h.
Proof. cbn. apply map_shape. intros [k e]. by destruct (bool_decide _ && _). Qed.

(** ** The connections *)

Definition slots_ok (primary : bool) (s : DriverSlots) : Prop :=
  on_receive s ≡ₚ (if primary then [ToQueue; ToPublish] else [ToQueue]) /\ on_data_request s = true /\ on_transmit_result s = primary /\
  on_raw_incoming s = (if primary then [RawMsg; RawText] else []) /\ on_raw_outgoing s = (if primary then [RawMsg; RawText] else []).

Record shape_ok (p : Z) (ds : list (Z * (nat * DriverSlots))) (rs : list (Z * double)) (ini : list InitiateSlot) : Prop := MkShapeOk {
  so_sorted : StronglySorted Z.lt (map fst ds);
  so_positive : forall k, is_Some (al_lookup k ds) -> 0 < k;
  so_primary : p = 0 \/ is_Some (al_lookup p ds);
  so_initiate : ini = PublishInitiate :: (if p =? 0 then [] else [InitiateOn p]);
  so_slots : forall k i s, al_lookup k ds = Some (i, s) -> slots_ok (k =? p) s;
  so_restart : StronglySorted Z.lt (map fst rs);
  so_waiting : forall k, is_Some (al_lookup k rs) -> is_Some (al_lookup k ds)
}.
Definition handler_ok (h : handler) : Prop := shape_ok (h_driver h) (map entry_shape (h_drivers h)) (h_restart h) (h_initiate h).

Lemma ok_shape h h' : shape h' = shape h -> handler_ok h -> handler_ok h'.
Proof. unfold shape, handler_ok. by intros [= -> -> -> ->]. Qed.
Lemma ok_sorted h : handler_ok h -> sorted_shape (shape h).
Proof. apply so_sorted. Qed.

(** steady computations keep the connections *)
Lemma steady_ok {A} (m : hprog A) : steady sorted_shape shape m -> keeps handler_ok m.
Proof.
  intros Hm h Ho. specialize (Hm (shape h) (ok_sorted h Ho) h eq_refl). destruct (m h) as [[h' evs] [a|x]]; by apply (ok_shape h).
Qed.

(** the association lists of the shape *)
Lemma shape_lookup k l : al_lookup k (map entry_shape l) = (fun e => (de_cfg e, de_slots e)) <$> al_lookup k l.
Proof. induction l as [|[j e] l IH]; [done|]. cbn [map entry_shape fst snd al_lookup]. by destruct (k =? j). Qed.
Lemma shape_insert k e l : map entry_shape (al_insert k e l) = al_insert k (de_cfg e, de_slots e) (map entry_shape l).
Proof. induction l as [|[j e'] l IH]; [done|]. cbn [map entry_shape fst snd al_insert]. destruct (k =? j); [done|]. destruct (k <? j); [done|]. cbn [map entry_shape fst snd]. by rewrite IH. Qed.
Lemma shape_erase k l : map entry_shape (al_erase k l) = al_erase k (map entry_shape l).
Proof. unfold al_erase. induction l as [|[j e] l IH]; [done|]. cbn [map entry_shape fst snd remove_first]. destruct (j =? k); [done|]. cbn [map entry_shape fst snd]. by rewrite IH. Qed.

Lemma disconnect_ok s : slots_ok true s -> slots_ok false (disconnect_info s).
Proof.
  intros (Hr & Hd & _ & _ & _). split; [|done]. cbn [disconnect_info on_receive]. symmetry in Hr. by destruct (Permutation_length_2_inv Hr) as [-> | ->].
Qed.
Lemma connect_ok s : slots_ok false s -> slots_ok true (connect_info s).
Proof.
  intros (Hr & Hd & _ & Hi & Ho). unfold slots_ok. cbn [connect_info on_receive on_data_request on_transmit_result on_raw_incoming on_raw_outgoing].
  apply Permutation_singleton_r in Hr. by rewrite Hr, Hi, Ho.
Qed.

(** the primary driver moves from [k] to [n] *)
Lemma moved_ok k n ds rs ini ik sk jn sn : shape_ok k ds rs ini -> n <> k -> al_lookup k ds = Some (ik, sk) -> al_lookup n ds = Some (jn, sn) ->
  shape_ok n (al_insert n (jn, connect_info sn) (al_insert k (ik, disconnect_info sk) ds)) (al_insert_new n (double_of_Z 0) rs) [PublishInitiate; InitiateOn n].
Proof.
  intros [H1 H2 H3 H4 H5 H6 H7] Hn Hk Hj.
  assert (Hl : forall x, is_Some (al_lookup x (al_insert n (jn, connect_info sn) (al_insert k (ik, disconnect_info sk) ds))) <-> is_Some (al_lookup x ds)).
  { intros x. rewrite !al_lookup_insert. destruct (x =? n) eqn:En; to_prop; [subst; by rewrite Hj|]. destruct (x =? k) eqn:Ek; to_prop; [subst; by rewrite Hk | done]. }
  split.
  - by apply al_insert_sorted, al_insert_sorted.
  - intros x Hx. by apply H2, Hl.
  - right. apply Hl. by rewrite Hj.
  - rewrite (proj2 (Z.eqb_neq n 0)); [done|]. assert (0 < n) by (apply H2; by rewrite Hj). lia.
  - intros x i s. rewrite !al_lookup_insert. destruct (x =? n) eqn:En; to_prop.
    + intros [= <- <-]. apply connect_ok. specialize (H5 n jn sn Hj). by rewrite (proj2 (Z.eqb_neq n k) Hn) in H5.
    + destruct (x =? k) eqn:Ek; to_prop; [intros [= <- <-]; subst; apply disconnect_ok; specialize (H5 k ik sk Hk); by rewrite Z.eqb_refl in H5|].
      intros Hx. specialize (H5 x i s Hx). by rewrite (proj2 (Z.eqb_neq x k) Ek) in H5.
  - by apply al_insert_new_sorted.
  - intros x. rewrite al_insert_new_lookup, Hl. destruct (al_lookup x rs) eqn:Ex; [intros _; apply H7; by rewrite Ex|]. destruct (x =? n) eqn:En; to_prop; [subst; by rewrite Hj | by intros [? ?]].
Qed.

(** the next driver is another one *)
Lemma next_driver_other k (l : list (Z * DriverEntry D)) first n : StronglySorted Z.lt (map fst l) -> next_driver k l first = Some n ->
  is_Some (al_lookup k l) /\ ((n <> k /\ is_Some (al_lookup n l)) \/ (first = Some n /\ exists e, last l = Some (k, e))).
Proof.
  induction l as [|[j e] l IH]; cbn [map fst next_driver al_lookup]; [done|]. intros [Hs Hf]%StronglySorted_inv. destruct (j =? k) eqn:E; to_prop.
  - subst j. rewrite Z.eqb_refl. split; [done|]. destruct l as [|[m e'] l]; [right; split; [done | by exists e]|]. injection H as <-. left.
    apply Forall_cons in Hf as [Hf _]. cbn [fst] in Hf. split; [lia|]. destruct (m =? k) eqn:Em; to_prop; [lia|]. cbn [al_lookup]. by rewrite Z.eqb_refl.
  - intros Hn. destruct (IH Hs Hn) as [Hk Hc]. assert (k <> j) as Hkj by congruence. rewrite (proj2 (Z.eqb_neq k j) Hkj). split; [done|]. destruct Hc as [[Hne Hl]|[Hfi (e' & He)]].
    + left. split; [done|]. destruct (n =? j); [done | done].
    + right. split; [done|]. exists e'. destruct l; [done|]. done.
Qed.

Lemma next_driver_ok k (l : list (Z * DriverEntry D)) n : StronglySorted Z.lt (map fst l) -> Nat.eqb (length l) 1 = false -> next_driver k l (fst <$> head l) = Some n ->
  is_Some (al_lookup k l) /\ n <> k /\ is_Some (al_lookup n l).
Proof.
  intros Hs Hl Hn. destruct (next_driver_other k l _ n Hs Hn) as [Hk [[? ?]|[Hf (e & He)]]]; [done|]. split; [done|].
  destruct l as [|[j e0] l]; [done|]. cbn in Hf. injection Hf as ->. cbn [al_lookup]. rewrite Z.eqb_refl. split; [|done].
  destruct l as [|x l]; [done|]. cbn [map fst] in Hs. apply StronglySorted_inv in Hs as [_ Hs]. rewrite Forall_forall in Hs.
  assert (n < k); [|lia]. apply Hs. apply (list_elem_of_fmap_2 fst (x :: l) (k, e)). cbn [last] in He. by apply last_Some_elem_of.
Qed.

(** ** Resetting a driver *)

Definition good {A : Type} (Pre : handler -> Prop) (m : hprog A) (Q : handler -> Prop) : Prop := triple Pre m (fun _ => Q) (fun _ _ => True).

Lemma good_bind {A B'} (Pre Q Q' : handler -> Prop) (m : hprog A) (k : A -> hprog B') : good Pre m Q -> (forall a, good Q (k a) Q') -> good Pre (pbind m k) Q'.
Proof. intros Hm Hk. by apply (triple_bind Pre (fun _ => Q) (fun _ => Q')). Qed.
Lemma good_mod (Pre Q : handler -> Prop) f : (forall h, Pre h -> Q (f h)) -> good Pre (pmod f) Q.
Proof. intros H h Hh. by apply H. Qed.
Lemma good_ret {A} (Pre : handler -> Prop) (a : A) : good Pre (pret a) Pre.
Proof. by intros h Hh. Qed.
Lemma good_throw {A} (Pre Q : handler -> Prop) x : good Pre (@pthrow _ _ _ A x) Q.
Proof. by intros h Hh. Qed.
(** a computation that reads the state first *)
Lemma good_get {A} (Pre Q : handler -> Prop) (k : handler -> hprog A) : (forall h, Pre h -> good (fun h' => h' = h) (k h) Q) -> good Pre (pbind pget k) Q.
Proof. intros H h Hh. rewrite pbind_get. by apply (H h Hh h eq_refl). Qed.
Lemma good_when Pre Q b m : (b = true -> good Pre m Q) -> (b = false -> forall h, Pre h -> Q h) -> good Pre (pwhen b m) Q.
Proof. destruct b; intros H1 H2; [by apply H1|]. intros h Hh. by apply (H2 eq_refl). Qed.
Lemma good_weaken {A} (Pre Pre' Q Q' : handler -> Prop) (m : hprog A) : good Pre m Q -> (forall h, Pre' h -> Pre h) -> (forall h, Q h -> Q' h) -> good Pre' m Q'.
Proof. intros H HP HQ. by apply (triple_conseq Pre Pre' (fun _ => Q) (fun _ => Q') (fun _ _ => True) (fun _ _ => True)); [apply H | apply HP | intros a; apply HQ | done]. Qed.
Lemma good_steady {A} (m : hprog A) s : sorted_shape s -> steady sorted_shape shape m -> good (fun h => shape h = s) m (fun h => shape h = s).
Proof. intros Hs Hm h Hh. specialize (Hm s Hs h Hh). by destruct (m h) as [[h' evs] [a|x]]. Qed.

Lemma unbind_shape h k ik sk : h_driver h = k -> k <> 0 -> al_lookup k (map entry_shape (h_drivers h)) = Some (ik, sk) -> h_initiate h = [PublishInitiate; InitiateOn k] ->
  exists h', driver_unbind h = (h', [], Ok tt) /\ shape h' = (k, al_insert k (ik, disconnect_info sk) (map entry_shape (h_drivers h)), h_restart h, [PublishInitiate]) /\
    map fst (h_drivers h') = map fst (al_insert k (ik, disconnect_info sk) (map entry_shape (h_drivers h))).
Proof.
  intros <- H0 Hl Hi. eexists. split; [reflexivity|]. rewrite (proj2 (Z.eqb_neq _ _) H0). rewrite shape_lookup in Hl. unfold update_slots. cbn [h_drivers set_initiate].
  destruct (al_lookup (h_driver h) (h_drivers h)) as [e|] eqn:E; [|done]. injection Hl as <- <-. unfold shape. cbn [set_entry set_drivers set_initiate h_drivers h_driver h_restart h_initiate].
  rewrite shape_insert, Hi. cbn [de_cfg de_slots List.filter]. rewrite bool_decide_eq_false_2, bool_decide_eq_true_2 by done. split; [done|].
  rewrite <- (shape_insert _ (MkDriverEntry (de_driver e) (de_cfg e) (disconnect_info (de_slots e)))). rewrite map_map. by apply map_ext.
Qed.

Lemma bind_shape h n jn sn : h_driver h = n -> n <> 0 -> al_lookup n (map entry_shape (h_drivers h)) = Some (jn, sn) ->
  exists h', driver_bind h = (h', [], Ok tt) /\ shape h' = (n, al_insert n (jn, connect_info sn) (map entry_shape (h_drivers h)), h_restart h, h_initiate h ++ [InitiateOn n]).
Proof.
  intros <- H0 Hl. eexists. split; [reflexivity|]. rewrite (proj2 (Z.eqb_neq _ _) H0). rewrite shape_lookup in Hl. unfold update_slots. cbn [h_drivers set_initiate].
  destruct (al_lookup (h_driver h) (h_drivers h)) as [e|] eqn:E; [|done]. injection Hl as <- <-. unfold shape. cbn [set_entry set_drivers set_initiate h_drivers h_driver h_restart h_initiate].
  by rewrite shape_insert.
Qed.

(** the primary driver is one of the others *)
Lemma move_good mvars now k : good (fun h => handler_ok h /\ h_driver h = k /\ k <> 0) (move_primary cfg mac_fuel queue_fuel mvars now k)
  (fun h => handler_ok h /\ h_driver h <> k /\ is_Some (al_lookup k (map entry_shape (h_drivers h)))).
Proof.
  intros h (Ho & Hk & H0). pose proof Ho as [_ _ Hp Hi _ _ _]. rewrite Hk in *. destruct Hp as [|[[ik sk] Hl]]; [done|]. rewrite (proj2 (Z.eqb_neq k 0) H0) in Hi.
  destruct (unbind_shape h k ik sk Hk H0 Hl Hi) as (h1 & E1 & S1 & K1). unfold move_primary. rewrite (pbind_ok _ _ _ _ _ _ E1), pbind_get.
  set (ds1 := al_insert k (ik, disconnect_info sk) (map entry_shape (h_drivers h))) in *.
  assert (Hs1 : StronglySorted Z.lt (map fst ds1)) by (apply al_insert_sorted, (so_sorted _ _ _ _ Ho)). injection S1 as D1 M1 R1 I1.
  destruct (Nat.eqb (length (h_drivers h1)) 1) eqn:El; [done|]. destruct (next_driver k (h_drivers h1) (fst <$> head (h_drivers h1))) as [n|] eqn:En; [|done].
  apply next_driver_ok in En as (_ & Hn & Hln); [|by rewrite K1 | done]. rewrite pbind_mod, pbind_get. set (h2 := set_drivers n (h_drivers h1) h1).
  assert (S2 : shape h2 = (n, ds1, h_restart h, [PublishInitiate])) by (unfold shape; cbn; by rewrite M1, R1, I1).
  destruct (al_lookup n ds1) as [[jn sn]|] eqn:Hds; [|rewrite <- M1, shape_lookup in Hds; destruct Hln as [e He]; by rewrite He in Hds].
  assert (Hdn : al_lookup n (map entry_shape (h_drivers h)) = Some (jn, sn)) by (unfold ds1 in Hds; rewrite al_lookup_insert, (proj2 (Z.eqb_neq n k) Hn) in Hds; done).
  pose proof (moved_ok k n _ _ _ ik sk jn sn (eq_ind _ (fun x => shape_ok x _ _ _) Ho _ Hk) Hn Hl Hdn) as Hm. fold ds1 in Hm.
  assert (Hn0 : n <> 0) by (intros ->; pose proof (so_positive _ _ _ _ Hm 0) as Hz; rewrite al_lookup_insert, Z.eqb_refl in Hz; specialize (Hz ltac:(done)); lia).
  assert (G : good (fun h' => shape h' = (n, ds1, h_restart h, [PublishInitiate])) (pmod (fun h => match al_lookup k (h_drivers h), al_lookup n (h_drivers h) with Some old, Some new => swap_modem_ids cfg (de_cfg old) (de_cfg new) h | _, _ => h end) ;;
    driver_bind ;; pmod (fun h => set_restart (al_insert_new n (double_of_Z 0) (h_restart h)) h)) (fun h => handler_ok h /\ h_driver h <> k /\ is_Some (al_lookup k (map entry_shape (h_drivers h))))).
  { apply (good_bind _ (fun h' => shape h' = (n, ds1, h_restart h, [PublishInitiate]))).
    - apply good_mod. intros h' Sh. destruct (al_lookup k (h_drivers h')), (al_lookup n (h_drivers h')); done.
    - intros _ h' Sh. injection Sh as D' M' R' I'. rewrite <- M' in Hds. destruct (bind_shape h' n jn sn D' Hn0 Hds) as (h3 & E3 & S3). rewrite (pbind_ok _ _ _ _ _ _ E3). cbn.
      injection S3 as D3 M3 R3 I3. unfold handler_ok. cbn. rewrite D3, M3, R3, I3, M', R', I'. split; [exact Hm|]. split; [done|].
      rewrite al_lookup_insert. rewrite (proj2 (Z.eqb_neq k n)) by done. unfold ds1. by rewrite al_lookup_insert, Z.eqb_refl. }
  assert (G2 : good (fun h' => shape h' = (n, ds1, h_restart h, [PublishInitiate])) (pwhen (negb (waiting n h2)) (on_driver cfg mac_fuel queue_fuel mvars now n md_shutdown))
    (fun h' => shape h' = (n, ds1, h_restart h, [PublishInitiate]))) by (apply good_steady; [exact Hs1 | apply steady_when, steady_on_driver, steady_store]).
  pose proof (good_bind _ _ _ _ _ G2 (fun _ => G) h2 S2) as X. unfold triple in X.
  match type of X with context [let (_, _) := ?t in _] => destruct t as [[h3 ev3] [u|x]] end; exact X.
Qed.

Lemma good_ok {A} (m : hprog A) : steady sorted_shape shape m -> good handler_ok m handler_ok.
Proof. intros Hm h Ho. pose proof (steady_ok m Hm h Ho) as X. by destruct (m h) as [[h' evs] [a|x]]. Qed.

Lemma shape_has k h h' : shape h' = shape h -> is_Some (al_lookup k (map entry_shape (h_drivers h))) -> is_Some (al_lookup k (map entry_shape (h_drivers h'))).
Proof. unfold shape. by intros [= _ -> _ _]. Qed.

(** a call that returns has found its driver *)
Lemma driver_called mvars now k f : good handler_ok (on_driver cfg mac_fuel queue_fuel mvars now k f) (fun h => handler_ok h /\ is_Some (al_lookup k (map entry_shape (h_drivers h)))).
Proof.
  intros h Ho. pose proof (steady_on_driver (ok := sorted_shape) (view := shape) steady_store mvars now k f (shape h) (ok_sorted h Ho) h eq_refl) as X.
  destruct (al_lookup k (h_drivers h)) as [e|] eqn:E.
  - destruct (on_driver cfg mac_fuel queue_fuel mvars now k f h) as [[h' evs] [a|x]]; [|done]. split; [by apply (ok_shape h)|]. apply (shape_has k h h' X). by rewrite shape_lookup, E.
  - unfold on_driver. rewrite pbind_get, E. done.
Qed.

Lemma erase_driver_ok k h : handler_ok h -> h_driver h <> k -> handler_ok (erase_driver k h).
Proof.
  intros [H1 H2 H3 H4 H5 H6 H7] Hn. unfold handler_ok, erase_driver. cbn. rewrite shape_erase.
  assert (Hl : forall x, al_lookup x (al_erase k (map entry_shape (h_drivers h))) = if x =? k then None else al_lookup x (map entry_shape (h_drivers h))) by (intros x; by apply al_erase_lookup).
  split.
  - by apply al_erase_sorted.
  - intros x. rewrite Hl. destruct (x =? k); [by intros [? ?] | apply H2].
  - destruct H3 as [H3|H3]; [by left | right]. by rewrite Hl, (proj2 (Z.eqb_neq _ _) Hn).
  - exact H4.
  - intros x i s. rewrite Hl. destruct (x =? k); [done | apply H5].
  - by apply al_erase_sorted.
  - intros x. rewrite Hl, al_erase_lookup by done. destruct (x =? k); [by intros [? ?] | apply H7].
Qed.

Lemma later_ok now k h : handler_ok h -> is_Some (al_lookup k (map entry_shape (h_drivers h))) -> handler_ok (restart_later cfg now k h).
Proof.
  intros [H1 H2 H3 H4 H5 H6 H7] Hk. split; try done; cbn.
  - by apply al_insert_new_sorted.
  - intros x. rewrite al_insert_new_lookup. destruct (al_lookup x (h_restart h)) eqn:E; [intros _; apply H7; by rewrite E|]. destruct (x =? k) eqn:Ek; to_prop; [by subst | by intros [? ?]].
Qed.

Lemma reset_good mvars now k : good handler_ok (driver_reset cfg mac_fuel queue_fuel mvars now k) handler_ok.
Proof.
  unfold driver_reset. apply (good_bind _ _ _ _ _ (driver_called mvars now k md_shutdown)). intros _. apply good_get. intros h [Ho Hk].
  assert (G : good (fun h' => h' = h) (pwhen (k =? h_driver h) (move_primary cfg mac_fuel queue_fuel mvars now k)) (fun h => handler_ok h /\ h_driver h <> k /\ is_Some (al_lookup k (map entry_shape (h_drivers h))))).
  { apply good_when; intros E; to_prop.
    - apply (good_weaken _ _ _ _ _ (move_good mvars now k)); [|done]. intros h' ->. split; [done|]. split; [done|]. pose proof (so_positive _ _ _ _ Ho k Hk). lia.
    - intros h' ->. auto. }
  destruct (ac_technique cfg).
  - apply good_mod. intros h' ->. by apply later_ok.
  - apply (good_bind _ _ _ _ _ G). intros _. apply good_mod. intros h' (Ho' & _ & Hk'). by apply later_ok.
  - apply (good_bind _ _ _ _ _ G). intros _. apply good_mod. intros h' (Ho' & Hd & _). by apply erase_driver_ok.
Qed.

(** a failure of a steady computation is handled *)
Lemma good_catch {A} (m : hprog A) c : steady sorted_shape shape m -> (forall x k, c x = Some k -> good handler_ok k handler_ok) -> good handler_ok (pcatch m c) handler_ok.
Proof.
  intros Hm Hc h Ho. pose proof (steady_ok m Hm h Ho) as X. unfold pcatch. destruct (m h) as [[h' evs] [a|x]]; [done|]. destruct (c x) as [k|] eqn:E; [|done].
  specialize (Hc x k E h' X). by destruct (k h') as [[h2 e2] [b|y]].
Qed.

Lemma start_good mvars now k : good handler_ok (start_driver cfg mac_fuel queue_fuel mvars now k) handler_ok.
Proof.
  unfold start_driver. apply good_get. intros h Ho. destruct (al_lookup k (h_drivers h) ≫= _) as [c|]; [|apply good_throw].
  apply (good_weaken handler_ok _ handler_ok _); [|by intros h' -> | done]. apply good_catch; [apply steady_on_driver, steady_store|].
  intros [] r; try done. destruct (is_driver_exception x); [|done]. intros [= <-]. apply reset_good.
Qed.

Lemma filter_lookup_some {V} (p : Z * V -> bool) k (l : list (Z * V)) : is_Some (al_lookup k (List.filter p l)) -> is_Some (al_lookup k l).
Proof.
  rewrite <- !al_lookup_key. intros H. apply list_elem_of_fmap in H as (x & -> & Hx). apply list_elem_of_In, filter_In in Hx as [Hx _]. apply list_elem_of_fmap. exists x. split; [done|]. by apply list_elem_of_In.
Qed.
Lemma filter_keys_sorted {V} (p : Z * V -> bool) (l : list (Z * V)) : StronglySorted Z.lt (map fst l) -> StronglySorted Z.lt (map fst (List.filter p l)).
Proof.
  induction l as [|x l IH]; [done|]. cbn [map List.filter]. intros [Hs Hf]%StronglySorted_inv. destruct (p x); [|by apply IH]. cbn [map]. constructor; [by apply IH|].
  rewrite Forall_forall in *. intros y Hy. apply Hf. apply list_elem_of_fmap in Hy as (z & -> & Hz). apply list_elem_of_In, filter_In in Hz as [Hz _]. apply list_elem_of_fmap. exists z. split; [done|]. by apply list_elem_of_In.
Qed.

Lemma good_for {A} (Pre : handler -> Prop) (l : list A) body : (forall a, good Pre (body a) Pre) -> good Pre (pfor l body) Pre.
Proof. intros H. induction l as [|a l IH]; [apply good_ret|]. cbn [pfor]. by apply (good_bind _ Pre). Qed.

Lemma restart_good mvars now : good handler_ok (restart_drivers cfg mac_fuel queue_fuel mvars now) handler_ok.
Proof.
  unfold restart_drivers. apply good_get. intros h Ho. apply (good_bind _ handler_ok); [|intros _; apply good_for; intros e; apply start_good].
  apply good_mod. intros h' ->. destruct Ho as [H1 H2 H3 H4 H5 H6 H7]. split; try done; cbn.
  - by apply filter_keys_sorted.
  - intros k Hk. apply H7. by apply filter_lookup_some in Hk.
Qed.

Lemma work_good mvars now keys : good handler_ok (work_drivers cfg mac_fuel queue_fuel mvars now keys) handler_ok.
Proof.
  induction keys as [|k keys IH]; [apply good_ret|]. cbn [work_drivers]. apply good_get. intros h Ho. destruct (waiting k h); [apply (good_weaken _ _ _ _ _ IH); [by intros h' -> | done]|].
  apply (good_weaken handler_ok _ handler_ok _); [|by intros h' -> | done]. apply (good_bind _ handler_ok).
  - apply good_catch; [apply steady_bind; [apply steady_on_driver, steady_store | intros _; apply steady_ret]|]. intros [] r; try done. destruct (is_driver_exception x); [|done]. intros [= <-]. apply good_ret.
  - intros []; [apply reset_good | apply IH].
Qed.

Lemma loop_good mvars now fired slots : good handler_ok (acomms_loop cfg mac_fuel queue_fuel mvars now fired slots) handler_ok.
Proof.
  unfold acomms_loop. apply (good_bind _ handler_ok); [apply good_for; intros i; apply good_ok, steady_timer | intros _]. apply good_get. intros h Ho.
  apply (good_weaken handler_ok _ handler_ok _); [|by intros h' -> | done]. apply (good_bind _ handler_ok); [apply good_when; [intros _; apply restart_good | done] | intros _].
  apply good_get. intros h1 Ho1. apply (good_weaken handler_ok _ handler_ok _); [|by intros h' -> | done]. apply (good_bind _ handler_ok); [apply work_good | intros _].
  apply good_get. intros h2 Ho2. apply (good_weaken handler_ok _ handler_ok _); [|by intros h' -> | done].
  apply (good_bind _ handler_ok); [apply good_when; [intros _; apply good_for; intros i; apply good_ok, steady_mac_slot, steady_store | done] | intros _]. apply good_ok, steady_on_queue.
Qed.

Lemma steady_cycle now text : steady sorted_shape shape (handle_mac_cycle_update (D := D) cfg mac_fuel now text).
Proof.
  unfold handle_mac_cycle_update. destruct (negb _); [apply steady_ret|]. apply steady_bind; [apply steady_update|].
  intros _. destruct (mu_cycle_state _) as [[]|]; [| |apply steady_ret]; apply steady_bind; try (intros _); try apply steady_mac; apply steady_mod; intros h; apply silence_shape.
Qed.

Lemma mail_good mvars now moos_now (c : AcommsMail) msg : good handler_ok (acomms_mail cfg moos_technique app_name mac_fuel queue_fuel mvars now moos_now c msg) handler_ok.
Proof.
  destruct c; cbn [acomms_mail].
  - apply good_ok, steady_cycle.
  - apply good_ok, steady_on_queue.
  - apply good_ok. unfold handle_config_file_request. apply steady_bind; [apply steady_get | intros h]. apply steady_value.
  - unfold handle_external_initiate_transmission. case_bool_decide; [apply good_ret|]. apply good_ok. apply steady_bind; [apply steady_get | intros h]. destruct (h_driver h =? 0); [apply steady_ret | apply steady_on_driver, steady_store].
  - unfold handle_driver_reset. apply good_get. intros h Ho. apply (good_weaken handler_ok _ handler_ok _); [apply reset_good | by intros h' -> | done].
  - apply good_mod. intros h Ho. apply (ok_shape h); [|done]. apply map_shape. intros [k e]. by destruct (bool_decide _ && _).
  - apply good_ok. unfold create_on_publish. apply steady_when, steady_translate.
  - apply good_ok, steady_multiplex.
Qed.

(** ** Construction *)

(** before the signals of the drivers are connected *)
Record created (h : handler) : Prop := MkCreated {
  cr_sorted : StronglySorted Z.lt (map fst (h_drivers h));
  cr_bounds : forall k, is_Some (al_lookup k (h_drivers h)) -> 0 < k <= h_count h;
  cr_count : 0 <= h_count h;
  cr_slots : forall k e, al_lookup k (h_drivers h) = Some e -> de_slots e = no_slots;
  cr_initiate : h_initiate h = [PublishInitiate];
  cr_restart : StronglySorted Z.lt (map fst (h_restart h));
  cr_waiting : forall k, is_Some (al_lookup k (h_restart h)) -> is_Some (al_lookup k (h_drivers h))
}.
Definition primary_in (h : handler) : Prop := h_driver h = 0 \/ is_Some (al_lookup (h_driver h) (h_drivers h)).

(** a new object has the next order *)
Lemma created_count h h' : h_drivers h' = h_drivers h -> h_initiate h' = h_initiate h -> h_restart h' = h_restart h -> h_count h <= h_count h' -> created h -> created h'.
Proof. intros E1 E2 E3 Hc [H1 H2 H3 H4 H5 H6 H7]. split; rewrite ?E1, ?E2, ?E3; try done; [|lia]. intros k Hk. specialize (H2 k Hk). lia. Qed.

Definition fresh (k : Z) (h : handler) : Prop := k = h_count h /\ 0 < k /\ al_lookup k (h_drivers h) = None.

Lemma create_driver_spec type i mac h kd h' out : created h -> create_driver cfg type i mac h = (h', out, Ok kd) ->
  created h' /\ h_driver h' = h_driver h /\ h_drivers h' = h_drivers h /\ ((type = DRIVER_NONE /\ kd = (0, None)) \/ fresh (fst kd) h').
Proof.
  intros Hc. pose proof Hc as [_ Hb Hn _ _ _ _].
  assert (Hf : al_lookup (h_count h + 1) (h_drivers h) = None) by (destruct (al_lookup _ _) eqn:E; [|done]; pose proof (Hb (h_count h + 1) (mk_is_Some _ _ E)); lia).
  assert (Hx : forall x, created (set_count (h_count h + 1) (set_cfgs x h))) by (intros x; apply (created_count h); cbn; try done; lia).
  assert (Hy : created (set_count (h_count h + 1) h)) by (apply (created_count h); cbn; try done; lia).
  assert (Hz : 0 < h_count h + 1) by lia.
  unfold create_driver. rewrite pbind_get. destruct (_ ≫= dc_driver_name) as [name|].
  - destruct (md_plugin name); [|done]. intros [= <- _ <-]. split; [done|]. split; [done|]. split; [done|]. right. done.
  - destruct type; intros [= <- _ <-]; (split; [by auto|]); (split; [done|]); (split; [done|]); first [by left | by right].
Qed.

Lemma insert_created h k d i : created h -> fresh k h ->
  let h' := set_drivers (h_driver h) (al_insert_new k (MkDriverEntry d i no_slots) (h_drivers h)) h in
  created h' /\ is_Some (al_lookup k (h_drivers h')) /\ (forall x, is_Some (al_lookup x (h_drivers h)) -> is_Some (al_lookup x (h_drivers h'))).
Proof.
  intros [H1 H2 H3 H4 H5 H6 H7] (-> & Hp & Hf). cbn.
  assert (Hl : forall x, al_lookup x (al_insert_new (h_count h) (MkDriverEntry d i no_slots) (h_drivers h)) = if x =? h_count h then Some (MkDriverEntry d i no_slots) else al_lookup x (h_drivers h)).
  { intros x. rewrite al_insert_new_lookup. destruct (x =? h_count h) eqn:E; to_prop; [subst; by rewrite Hf|]. by destruct (al_lookup x (h_drivers h)). }
  assert (Hm : forall x, is_Some (al_lookup x (h_drivers h)) -> is_Some (al_lookup x (al_insert_new (h_count h) (MkDriverEntry d i no_slots) (h_drivers h)))).
  { intros x Hx. rewrite Hl. by destruct (x =? h_count h). }
  split; [|split; [by rewrite Hl, Z.eqb_refl | done]]. split; cbn; try done.
  - by apply al_insert_new_sorted.
  - intros x. rewrite Hl. destruct (x =? h_count h) eqn:E; to_prop; [intros _; lia | apply H2].
  - intros x e. rewrite Hl. destruct (x =? h_count h); [by intros [= <-] | apply H4].
  - intros x Hx. by apply Hm, H7.
Qed.

Lemma listeners_good (l : list (nat * DriverType)) : DRIVER_NONE ∉ l.*2 ->
  good (fun h => created h /\ primary_in h) (pfor l (fun it => let! kd := create_driver cfg (snd it) (S (fst it)) false in insert_driver (fst kd) (snd kd) (S (fst it))))
    (fun h => created h /\ primary_in h).
Proof.
  induction l as [|[i t] l IH]; intros Hn; [apply good_ret|]. cbn [pfor fst snd]. apply (good_bind _ (fun h => created h /\ primary_in h)); [|intros _; apply IH; set_solver].
  intros h [Hc Hp]. unfold pbind. destruct (create_driver cfg t (S i) false h) as [[h1 o1] [kd|x]] eqn:E; [|done].
  apply create_driver_spec in E as (Hc1 & Hd & Hs & [[-> _]|Hf]); [exfalso; apply Hn; cbn; left | | done]. destruct (insert_created h1 (fst kd) (snd kd) (S i) Hc1 Hf) as (Hc2 & _ & Hm). cbn.
  split; [exact Hc2|]. unfold primary_in in *. cbn in *. rewrite Hd. destruct Hp as [Hp|Hp]; [by left | right]. apply Hm. by rewrite Hs.
Qed.

Lemma drivers_good : DRIVER_NONE ∉ ac_listen_driver_type cfg -> good (fun h => created h /\ primary_in h) (create_drivers cfg) (fun h => created h /\ primary_in h).
Proof.
  intros Hn. unfold create_drivers. intros h [Hc Hp].
  destruct (create_driver cfg (ac_driver_type cfg) 0 true h) as [[h1 o1] [[k d]|x]] eqn:E; [|by unfold pbind; rewrite E].
  apply create_driver_spec in E as E'; [|done]. destruct E' as (Hc1 & Hd & Hs & Hk).
  set (rest := if Nat.eqb (length (ac_listen_driver_type cfg)) (length (ac_listen_driver_cfg cfg)) then _ else _).
  assert (Gr : good (fun h => created h /\ primary_in h) rest (fun h => created h /\ primary_in h)).
  { unfold rest. destruct (Nat.eqb _ _); [|apply good_throw]. apply listeners_good. intros [[i t] [Ht Hi]]%list_elem_of_fmap. cbn in Ht. subst t.
    apply elem_of_lookup_imap in Hi as (j & t & [= <- <-] & Hj). apply Hn. by eapply list_elem_of_lookup_2. }
  assert (G : good (fun h => h = h1) (pmod (fun h => set_drivers k (h_drivers h) h) ;; pwhen (negb (k =? 0)) (insert_driver k d 0) ;; rest) (fun h => created h /\ primary_in h)).
  { apply (good_bind _ (fun h => h = set_drivers k (h_drivers h1) h1)); [by apply good_mod; intros h' ->|]. intros _. apply (good_bind _ (fun h => created h /\ primary_in h)); [|by intros _].
    assert (Hc2 : created (set_drivers k (h_drivers h1) h1)) by (by apply (created_count h1)).
    apply good_when; intros Ek; to_prop.
    - destruct Hk as [[_ [= -> _]]|Hf]; [done|]. destruct (insert_created (set_drivers k (h_drivers h1) h1) k d 0 Hc2 Hf) as (Hc3 & Hi & _). apply good_mod. intros h' ->. split; [exact Hc3|]. right. exact Hi.
    - intros h' ->. split; [done|]. left. subst k. done. }
  specialize (G h1 eq_refl). unfold pbind at 1. rewrite E. destruct ((_ ;; _) h1) as [[h2 o2] [a|x]] eqn:E2 in G |- *; [|done]. exact G.
Qed.

(** only what the signals do not concern has changed *)
Definition same_drivers (h h' : handler) : Prop := shape h' = shape h /\ map fst (h_drivers h') = map fst (h_drivers h).

Lemma created_shape h h' : shape h' = shape h -> h_count h' = h_count h -> created h -> created h'.
Proof.
  unfold shape. intros [= Ed Em Er Ei] Ec [H1 H2 H3 H4 H5 H6 H7].
  assert (Hl : forall k, (fun e => (de_cfg e, de_slots e)) <$> al_lookup k (h_drivers h') = (fun e => (de_cfg e, de_slots e)) <$> al_lookup k (h_drivers h)) by (intros k; by rewrite <- !shape_lookup, Em).
  assert (Hs : forall k, is_Some (al_lookup k (h_drivers h')) <-> is_Some (al_lookup k (h_drivers h))).
  { intros k. specialize (Hl k). destruct (al_lookup k (h_drivers h')), (al_lookup k (h_drivers h)); done. }
  split; rewrite ?Ei, ?Er, ?Ec; try done.
  - by rewrite <- shape_keys, Em, shape_keys.
  - intros k Hk. by apply H2, Hs.
  - intros k e Hk. specialize (Hl k). rewrite Hk in Hl. destruct (al_lookup k (h_drivers h)) as [e'|] eqn:E; [|done]. injection Hl as _ ->. by apply (H4 k).
  - intros k Hk. by apply Hs, H7.
Qed.
Lemma primary_shape h h' : shape h' = shape h -> primary_in h -> primary_in h'.
Proof.
  unfold shape, primary_in. intros [= Ed Em _ _] [H|H]; rewrite Ed; [by left | right]. pose proof (f_equal (al_lookup (h_driver h)) Em) as X. rewrite !shape_lookup in X.
  destruct H as [e He]. rewrite He in X. destruct (al_lookup (h_driver h) (h_drivers h')); done.
Qed.

Lemma created_good {A} (m : hprog A) : steady sorted_shape shape m -> steady (fun _ => True) h_count m -> good (fun h => created h /\ primary_in h) m (fun h => created h /\ primary_in h).
Proof.
  intros Hs Hn h [Hc Hp]. assert (Hk : sorted_shape (shape h)) by (unfold sorted_shape; cbn; rewrite shape_keys; apply Hc).
  pose proof (Hs (shape h) Hk h eq_refl) as X. pose proof (Hn (h_count h) I h eq_refl) as Y. destruct (m h) as [[h' evs] [a|x]]; [|done]. split; [by apply (created_shape h) | by apply (primary_shape h)].
Qed.

(** every driver is to be started *)
Lemma all_waiting (ds : list (Z * DriverEntry D)) rs : StronglySorted Z.lt (map fst rs) ->
  let l := foldr (fun ke l => al_insert_new (fst ke) (double_of_Z 0) l) rs ds in
  StronglySorted Z.lt (map fst l) /\ forall k, is_Some (al_lookup k l) <-> is_Some (al_lookup k ds) \/ is_Some (al_lookup k rs).
Proof.
  intros Hs. induction ds as [|[j e] ds [IH1 IH2]]; cbn [foldr fst]; [split; [done | intros k; cbn; split; [by right | by intros [[? ?]|]]]|].
  split; [by apply al_insert_new_sorted|]. intros k. cbn [al_lookup]. rewrite al_insert_new_lookup. specialize (IH2 k). destruct (al_lookup k (foldr _ _ _)) as [w|].
  - destruct (k =? j); [naive_solver|]. rewrite <- IH2. done.
  - destruct (k =? j); [split; [by left | done]|]. rewrite <- IH2. done.
Qed.

Lemma configure_good mvars now : DRIVER_NONE ∉ ac_listen_driver_type cfg ->
  good (fun h => created h /\ primary_in h) (configure cfg mac_fuel mvars now) (fun h => created h /\ primary_in h).
Proof.
  intros Hn. unfold configure. apply (good_bind _ (fun h => created h /\ primary_in h)); [by apply drivers_good | intros _].
  apply (good_bind _ (fun h => created h /\ primary_in h)); [destruct (_ =? _); [apply good_throw | apply good_ret] | intros _].
  do 2 (apply (good_bind _ (fun h => created h /\ primary_in h)); [apply created_good; apply steady_value | intros _]).
  apply (good_bind _ (fun h => created h /\ primary_in h)); [apply created_good; by apply steady_mod | intros _].
  apply (good_bind _ (fun h => created h /\ primary_in h)).
  - apply good_mod. intros h [[H1 H2 H3 H4 H5 H6 H7] Hp]. destruct (all_waiting (h_drivers h) (h_restart h) H6) as [Hs Hl]. split; [|done]. split; cbn; try done.
    intros k Hk. apply Hl in Hk as [Hk|Hk]; [done | by apply H7].
  - intros _. apply (good_bind _ (fun h => created h /\ primary_in h)); [|intros _; apply created_good; apply steady_on_queue].
    apply created_good; apply steady_mac.
Qed.

(** the last step of the construction *)
Definition connect_queues (h : handler) : handler :=
  set_drivers (h_driver h) (map (fun ke => (fst ke, MkDriverEntry (de_driver (snd ke)) (de_cfg (snd ke)) (connect_queue (de_slots (snd ke))))) (h_drivers h)) h.

Lemma connect_shape (l : list (Z * DriverEntry D)) :
  map entry_shape (map (fun ke => (fst ke, MkDriverEntry (de_driver (snd ke)) (de_cfg (snd ke)) (connect_queue (de_slots (snd ke))))) l) =
  map (fun x => (fst x, (fst (snd x), connect_queue (snd (snd x))))) (map entry_shape l).
Proof. rewrite !map_map. by apply map_ext. Qed.
Lemma connect_lookup k (l : list (Z * (nat * DriverSlots))) :
  al_lookup k (map (fun x => (fst x, (fst (snd x), connect_queue (snd (snd x))))) l) = (fun x => (fst x, connect_queue (snd x))) <$> al_lookup k l.
Proof. induction l as [|[j [i s]] l IH]; [done|]. cbn [map fst snd al_lookup]. by destruct (k =? j). Qed.

Lemma connect_queues_ok p ds rs h : shape h = (p, ds, rs, PublishInitiate :: (if p =? 0 then [] else [InitiateOn p])) -> StronglySorted Z.lt (map fst ds) -> (forall k, is_Some (al_lookup k ds) -> 0 < k) ->
  p = 0 \/ is_Some (al_lookup p ds) -> (forall k i s, al_lookup k ds = Some (i, s) -> s = if k =? p then connect_info no_slots else no_slots) ->
  StronglySorted Z.lt (map fst rs) -> (forall k, is_Some (al_lookup k rs) -> is_Some (al_lookup k ds)) -> handler_ok (connect_queues h).
Proof.
  unfold shape. intros [= Ep Ed Er Ei] H1 H2 H3 H4 H5 H6. unfold handler_ok, connect_queues. cbn. rewrite connect_shape, Ed, Ep, Er, Ei.
  assert (Hs : forall k, is_Some (al_lookup k (map (fun x => (fst x, (fst (snd x), connect_queue (snd (snd x))))) ds)) <-> is_Some (al_lookup k ds)) by (intros k; by rewrite connect_lookup, fmap_is_Some).
  split; try done.
  - by rewrite map_map.
  - intros k Hk. by apply H2, Hs.
  - destruct H3 as [H3|H3]; [by left | right; by apply Hs].
  - intros k i s. rewrite connect_lookup. destruct (al_lookup k ds) as [[i' s']|] eqn:E; [|done]. intros [= <- <-]. cbn [snd]. rewrite (H4 _ _ _ E). destruct (k =? p); [|done]. split; [apply Permutation_swap | done].
  - intros k Hk. by apply Hs, H6.
Qed.

Lemma router_good : good handler_ok (make_router cfg) handler_ok.
Proof. unfold make_router. destruct (ac_route_cfg cfg) as [rc|]; [|apply good_ret]. case_bool_decide; [apply good_ret|]. apply good_mod. intros h Ho. by apply (ok_shape h). Qed.

Lemma bind_good : good (fun h => created h /\ primary_in h) (bind_drivers cfg) handler_ok.
Proof.
  intros h [[H1 H2 H3 H4 H5 H6 H7] Hp].
  assert (Hs : forall k, is_Some (al_lookup k (map entry_shape (h_drivers h))) <-> is_Some (al_lookup k (h_drivers h))) by (intros k; by rewrite shape_lookup, fmap_is_Some).
  assert (He : forall k i s, al_lookup k (map entry_shape (h_drivers h)) = Some (i, s) -> s = no_slots).
  { intros k i s. rewrite shape_lookup. destruct (al_lookup k (h_drivers h)) as [e|] eqn:E; [|done]. intros [= _ <-]. by apply (H4 k). }
  assert (Hb : exists h1, driver_bind h = (h1, [], Ok tt) /\ handler_ok (connect_queues h1)).
  { destruct (h_driver h =? 0) eqn:E0; to_prop.
    - exists h. split; [unfold driver_bind, pmod; by rewrite E0|]. apply (connect_queues_ok 0 (map entry_shape (h_drivers h)) (h_restart h)).
      + unfold shape. by rewrite E0, H5.
      + by rewrite shape_keys.
      + intros k Hk. by apply H2, Hs.
      + by left.
      + intros k i s Hk. rewrite (He k i s Hk). destruct (k =? 0) eqn:Ek; [|done]. to_prop. subst k. assert (0 < 0 <= h_count h) by (apply H2, Hs; by rewrite Hk). lia.
      + done.
      + intros k Hk. by apply Hs, H7.
    - destruct Hp as [Hp|Hp]; [done|]. apply Hs in Hp as Hp'. destruct Hp' as [[jn sn] Hl]. destruct (bind_shape h (h_driver h) jn sn eq_refl E0 Hl) as (h1 & E1 & S1). exists h1. split; [done|].
      rewrite H5, (He _ _ _ Hl) in S1. apply (connect_queues_ok _ _ _ _ (eq_trans S1 (f_equal (pair _) (eq_sym (f_equal (cons PublishInitiate) (f_equal (fun b : bool => if b then [] else [InitiateOn (h_driver h)]) (proj2 (Z.eqb_neq _ _) E0))))))).
      + apply al_insert_sorted. by rewrite shape_keys.
      + intros k. rewrite al_lookup_insert. destruct (k =? h_driver h) eqn:Ek; to_prop; [intros _; subst k; by apply H2 | intros Hk; by apply H2, Hs].
      + right. by rewrite al_lookup_insert, Z.eqb_refl.
      + intros k i s. rewrite al_lookup_insert. destruct (k =? h_driver h); [by intros [= <- <-] | apply He].
      + done.
      + intros k Hk. rewrite al_lookup_insert. destruct (k =? h_driver h); [done | by apply Hs, H7]. }
  destruct Hb as (h1 & E1 & Ho). unfold bind_drivers. rewrite (pbind_ok _ _ _ _ _ _ E1), pbind_mod. pose proof (router_good _ Ho) as X. fold (connect_queues h1). destruct (make_router cfg (connect_queues h1)) as [[h2 o2] [a|x]]; done.
Qed.

(** ** Runs *)

Definition constructed (h : handler) : Prop :=
  exists mvars now t ts fw h1 out1 out2,
    configure cfg mac_fuel mvars now (new_handler cfg t) = (h1, out1, Ok tt) /\ bind_drivers cfg (set_forward fw (set_timers ts h1)) = (h, out2, Ok tt).

Inductive handler_step : handler -> handler -> Prop :=
| StepMail mvars now moos_now c msg h h' out : acomms_mail cfg moos_technique app_name mac_fuel queue_fuel mvars now moos_now c msg h = (h', out, Ok tt) -> handler_step h h'
| StepLoop mvars now fired slots h h' out : acomms_loop cfg mac_fuel queue_fuel mvars now fired slots h = (h', out, Ok tt) -> handler_step h h'.
Definition handler_reachable (h : handler) : Prop := exists h0, constructed h0 /\ rtc handler_step h0 h.

(** what the constructor leaves is constructed *)
Abbreviation app := (@GobyMOOSApp handler AcommsMail Empty_set).
Abbreviation appprog := (prog app AppEv HandlerExn).
Definition owns (Pre : handler -> Prop) (m : appprog unit) (Post : handler -> Prop) : Prop := triple (fun a => Pre (own a)) m (fun _ a => Post (own a)) (fun _ _ => True).

Lemma owns_bind Pre Mid Post (m : appprog unit) (k : unit -> appprog unit) : owns Pre m Mid -> (forall u, owns Mid (k u) Post) -> owns Pre (pbind m k) Post.
Proof. intros Hm Hk. by apply (triple_bind _ (fun _ a => Mid (own a))). Qed.
Lemma owns_ret Pre : owns Pre (pret tt) Pre.
Proof. by intros a Ha. Qed.
Lemma owns_keeps Pre (m : appprog unit) : (forall u, keeps (fun a => own a = u) m) -> owns Pre m Pre.
Proof. intros Hm a Ha. specialize (Hm (own a) a eq_refl). destruct (m a) as [[a' o] [v|x]]; [by rewrite Hm | done]. Qed.
Lemma owns_for {A} Pre (l : list A) body : (forall a, owns Pre (body a) Pre) -> owns Pre (pfor l body) Pre.
Proof. intros H. induction l as [|x l IH]; [apply owns_ret|]. cbn [pfor]. by apply (owns_bind _ Pre). Qed.

Lemma publish_own u m : keeps (fun a : app => own a = u) (publish_msg m : appprog unit).
Proof. unfold publish_msg. apply keeps_bind; [apply keeps_get | intros a]. destruct (up a); [apply keeps_emit|]. apply keeps_bind; [by apply keeps_mod | intros _; apply keeps_emit]. Qed.
Lemma subscribe_own u var h b : keeps (fun a : app => own a = u) (subscribe var h b : appprog unit).
Proof.
  unfold subscribe, try_subscribing, do_subscriptions. apply keeps_bind; [by apply keeps_mod | intros _]. apply keeps_bind; [|intros _; by apply keeps_mod].
  apply keeps_bind; [apply keeps_get | intros a]. apply keeps_when. apply keeps_bind; [apply keeps_get | intros a1]. apply keeps_bind; [apply keeps_for; intros s; apply keeps_emit | intros _].
  apply keeps_bind; [apply keeps_for; intros s; apply keeps_emit | intros _; by apply keeps_mod].
Qed.

Lemma own_owns (Pre Post : handler -> Prop) (m : list (bytes * MoosMsg) -> hprog unit) :
  (forall v h h' out, Pre h -> m v h = (h', out, Ok tt) -> Post h') -> owns Pre (on_own m) Post.
Proof.
  intros Hm a Ha. unfold on_own, perform. rewrite pbind_read. unfold react. destruct (m (dynamic_vars a) (own a)) as [[h' out] r] eqn:E. rewrite pbind_mod.
  assert (Hp : keeps (fun a : app => own a = h') (pfor out publish_msg : appprog unit)) by (apply keeps_for; intros x; apply publish_own). specialize (Hp (set_own h' a) eq_refl). unfold pbind.
  destruct (pfor out publish_msg (set_own h' a)) as [[a1 o1] [u|x]]; [|done]. destruct r as [[]|x]; [|done]. cbn. rewrite Hp. by apply (Hm _ _ _ _ Ha E).
Qed.

Lemma construct_constructed now moos_now p a evs : new_acomms cfg mac_fuel now moos_now p = Ok (a, evs, Ok tt) -> constructed (own a).
Proof.
  unfold new_acomms. destruct (new_translator_of _ _) as [t|] eqn:Et; [|done]. cbn [rbind]. intros [= E].
  set (begun := fun h : handler => h = new_handler cfg t).
  set (configured := fun h : handler => exists mvars ts fw h1 out, configure cfg mac_fuel mvars now (new_handler cfg t) = (h1, out, Ok tt) /\ h = set_forward fw (set_timers ts h1)).
  assert (G : owns begun (construct_acomms cfg mac_fuel now) constructed).
  { unfold construct_acomms. apply (owns_bind _ configured).
    - unfold process_configuration. apply (owns_bind _ configured); [|intros _; apply (owns_bind _ configured); [|intros _; apply (owns_bind _ configured); [|intros _]]].
      + apply own_owns. intros v h h' out -> Hc. exists v, (h_timers h'), (h_forward h'), h', out. split; [done | by destruct h'].
      + apply owns_for. intros e. unfold add_entry_subscriptions. destruct (find_type _); [|by intros b Hb]. apply (owns_bind _ configured).
        * destruct (trigger_type _); [apply owns_keeps; intros u; apply subscribe_own|]. apply own_owns. intros v h h' out (mv & ts & fw & h1 & o & Hc & ->) [= <- _]. by eexists mv, _, fw, h1, o.
        * intros _. apply owns_for. intros c. apply owns_keeps. intros u. apply subscribe_own.
      + apply owns_for. intros v. apply owns_keeps. intros u. apply subscribe_own.
      + apply own_owns. intros v h h' out Hh. revert h h' out Hh. induction (ac_dccl_frontseat_forward_name cfg) as [|n l IH]; intros h h' out Hh; cbn [pfor]; [intros [= <- _]; exact Hh|].
        unfold pbind. destruct (add_forward n h) as [[h1 o1] [u|x]] eqn:Ef; [|done]. destruct (pfor l add_forward h1) as [[h2 o2] r] eqn:Er. intros [= -> _ ->]. apply (IH h1 h' o2); [|exact Er].
        unfold add_forward in Ef. destruct (queue_find_descriptor n); [|done]. injection Ef as <- _. destruct Hh as (mv & ts & fw & h0 & o & Hc & ->). by eexists mv, ts, _, h0, o.
    - intros _. apply (owns_bind _ constructed).
      + apply own_owns. intros v h h' out (mv & ts & fw & h1 & o & Hc & ->) Hb. by exists mv, now, t, ts, fw, h1, o, out.
      + intros _. do 5 (apply (owns_bind _ constructed); [apply owns_keeps; intros u; apply subscribe_own | intros _]). apply owns_keeps; intros u; apply subscribe_own. }
  specialize (G (new_app moos_now [] (new_handler cfg t)) eq_refl). rewrite E in G. exact G.
Qed.

Lemma constructed_ok h : DRIVER_NONE ∉ ac_listen_driver_type cfg -> constructed h -> handler_ok h.
Proof.
  intros Hn (mvars & now & t & ts & fw & h1 & out1 & out2 & E1 & E2).
  assert (H0 : created (new_handler cfg t) /\ primary_in (new_handler cfg t)).
  { split; [|by left]. split; cbn; try done; try (by constructor); by intros k [? ?]. }
  pose proof (configure_good mvars now Hn _ H0) as X. rewrite E1 in X. destruct X as [Hc Hp].
  assert (H2 : created (set_forward fw (set_timers ts h1)) /\ primary_in (set_forward fw (set_timers ts h1))) by (split; [by apply (created_shape h1) | done]).
  pose proof (bind_good _ H2) as Y. by rewrite E2 in Y.
Qed.

Lemma step_ok h h' : handler_step h h' -> handler_ok h -> handler_ok h'.
Proof.
  intros [mvars now moos_now c msg h1 h2 out E|mvars now fired slots h1 h2 out E] Ho.
  - pose proof (mail_good mvars now moos_now c msg h1 Ho) as X. by rewrite E in X.
  - pose proof (loop_good mvars now fired slots h1 Ho) as X. by rewrite E in X.
Qed.

(** C12: In every state that pAcommsHandler can reach by its mail and its rounds, whatever the
    drivers do and however they fail (with an exception that ends the application the run ends),
    when DRIVER_NONE is not configured as a listening driver: the primary driver is one of the
    drivers (or there is none), the slots of the MAC go to it and to no other, its signals and only
    its are published, each driver is connected to the queue manager once, and only drivers it has
    wait for a restart. *)
Theorem acomms_drivers_connected (h : handler) : DRIVER_NONE ∉ ac_listen_driver_type cfg -> handler_reachable h ->
  (h_driver h = 0 \/ is_Some (al_lookup (h_driver h) (h_drivers h))) /\
  h_initiate h = PublishInitiate :: (if h_driver h =? 0 then [] else [InitiateOn (h_driver h)]) /\
  (forall k e, al_lookup k (h_drivers h) = Some e -> slots_ok (k =? h_driver h) (de_slots e)) /\
  (forall k, waiting k h = true -> is_Some (al_lookup k (h_drivers h))).
Proof.
  intros Hn (h0 & Hc & Hr). assert (Ho : handler_ok h).
  { apply (constructed_ok h0 Hn) in Hc. induction Hr as [|h1 h2 h3 Hs _ IH]; [done|]. by apply IH, (step_ok h1). }
  destruct Ho as [H1 H2 H3 H4 H5 H6 H7]. assert (Hs : forall k, is_Some (al_lookup k (map entry_shape (h_drivers h))) <-> is_Some (al_lookup k (h_drivers h))) by (intros k; by rewrite shape_lookup, fmap_is_Some).
  split; [rewrite <- Hs; done|]. split; [done|]. split.
  - intros k e He. apply (H5 k (de_cfg e)). by rewrite shape_lookup, He.
  - intros k Hw. apply Hs, H7. unfold waiting in Hw. by destruct (al_lookup k (h_restart h)).
Qed.

End Drivers.
