(* ===== verification/AcommsRestart.v ===== *)
(** * The drivers of pAcommsHandler are started and shut down in turn

    With the approach that restarts failing drivers, a driver is running exactly
    when it does not wait for its restart, so [startup] is only called on a
    driver that is shut down. With an approach that moves a listening driver to
    the primary, a driver can be started twice. *)

From Stdlib Require Import SpecFloat Sorting.Sorted.
From S2P Require Import Prelude AssocList HexCodec Double Time As Proto Nmea Queue QueueManager QueueManagerProofs Route Mac Prog DriverBase MoosString MessageVal MoosMessage MoosCommas MoosCommasLink MoosFormat MoosFormatLink MoosTranslator MoosApp PTranslator AcommsHandler AcommsDrivers.
#[local] Open Scope prog_scope.

(** a call that returns leaves an object with a property *)
Fixpoint ends {D : Type} (c : Call D) (Q : D -> Prop) : Prop :=
  match c with
  | Return d => Q d
  | Throw _ _ => True
  | Emit _ c => ends c Q
  | DataRequest _ k => forall m, ends (k m) Q
  | MacIsRunning k => forall b, ends (k b) Q
  | MacRestarts c | MacStops c => ends c Q
  end.

(** what a driver promises: whether it is running. [startup] promises nothing for a running driver. *)
Class DriverRuns {D C : Type} `{MD : ModemDriver D C} (running : D -> bool) : Prop := {
  new_stopped : forall t mac, running (md_new t mac) = false;
  plugin_stopped : forall name d, md_plugin name = Some d -> running d = false;
  startup_runs : forall now c d, running d = false -> ends (md_startup now c d) (fun d' => running d' = true);
  shutdown_stops : forall d, ends (md_shutdown d) (fun d' => running d' = false);
  work_runs : forall now d, running d = true -> ends (md_do_work now d) (fun d' => running d' = true);
  initiate_keeps : forall now t d, ends (md_initiate now t d) (fun d' => running d' = running d);
  update_keeps : forall c d, running (md_update_cfg c d) = running d;
  silent_keeps : forall s d d', md_silent s d = Some d' -> running d' = running d
}.

Section Restart.
Context {D C : Type} {MD : ModemDriver D C} {running : D -> bool} {DR : DriverRuns running}.
Context `{P : Protobuf} `{DC : !DCCLCodec} {TX : BoostText} {LC : LexicalCast} {LN : LexicalNumbers} {LW : LexicalWide} {VT : ValText} {PT : ProtobufText} {BF : BoostFormat} {ML : MoosLibrary} {BT : BoostTrim} {AM : @AcommsMessages C P}.
Variables (cfg : @pAcommsHandlerConfig C) (moos_technique : Technique) (app_name : bytes) (mac_fuel queue_fuel : nat).

Abbreviation handler := (@AcommsHandler D C P).
Abbreviation hprog := (prog handler MoosMsg HandlerExn).

(** every driver runs exactly when it does not wait for its restart *)
Definition runs_or_waits (h : handler) : Prop := forall k e d, al_lookup k (h_drivers h) = Some e -> de_driver e = Some d -> running d = negb (waiting k h).

(** the objects, and which of them wait *)
Definition objects (h : handler) : list (Z * DriverEntry D) * list (Z * double) := (h_drivers h, h_restart h).
#[local] Instance quiet_objects : QuietView objects.
Proof. by constructor. Qed.

Abbreviation still m := (steady (fun _ => True) objects m).

(** the object [k] replaced *)
Definition replaced (k : Z) (d : D) (l : list (Z * DriverEntry D)) : list (Z * DriverEntry D) :=
  match al_lookup k l with Some e => al_insert k (MkDriverEntry (Some d) (de_cfg e) (de_slots e)) l | None => l end.

Lemma store_objects k d (h : handler) : objects (fst (fst (store_driver (C := C) k d h))) = (replaced k d (h_drivers h), h_restart h).
Proof. unfold store_driver, replaced, objects. cbn. by destruct (al_lookup k (h_drivers h)). Qed.

(** a call replaces its object, or ends the application with the objects as they were *)
Definition calls (m : hprog unit) (k : Z) (Q : D -> Prop) : Prop := forall h,
  match m h with
  | (h', _, Ok _) => exists d, Q d /\ objects h' = (replaced k d (h_drivers h), h_restart h)
  | (h', _, Err (DriverFails _)) => objects h' = objects h \/ exists d, objects h' = (replaced k d (h_drivers h), h_restart h)
  | _ => True
  end.

Lemma calls_after {A} (m : hprog A) (k : A -> hprog unit) i Q : still m -> (forall a, calls (k a) i Q) -> calls (pbind m k) i Q.
Proof.
  intros Hm Hk h. pose proof (Hm (objects h) I h eq_refl) as X. unfold pbind. destruct (m h) as [[h1 o1] [a|x]].
  - specialize (Hk a h1). injection X as E1 E2. rewrite E1, E2 in Hk. destruct (k a h1) as [[h2 o2] [u|[]]]; try done. unfold objects in *. by rewrite E1, E2 in Hk.
  - destruct x; auto.
Qed.

Lemma call_ends mvars now k slots c Q : ends c Q -> calls (run_call cfg mac_fuel queue_fuel mvars now k slots c) k Q.
Proof.
  induction c as [d|d x|s c IH|m c IH|c IH|c IH|c IH]; cbn [ends run_call]; intros He.
  - intros h. pose proof (store_objects k d h) as E. destruct (store_driver k d h) as [[h1 o1] r] eqn:Es. unfold store_driver, pmod in Es. injection Es as <- <- <-. by exists d.
  - intros h. pose proof (store_objects k d h) as E. unfold pbind. destruct (store_driver k d h) as [[h1 o1] r] eqn:Es. unfold store_driver, pmod in Es. injection Es as <- <- <-. right. by exists d.
  - apply calls_after; [apply steady_driver_signal; try apply quiet_objects | intros _; by apply IH].
  - apply calls_after; [apply steady_request; try apply quiet_objects | intros a; by apply IH].
  - apply calls_after; [apply steady_get | intros h; by apply IH].
  - apply calls_after; [apply steady_mac; try apply quiet_objects | intros _; by apply IH].
  - apply calls_after; [apply steady_mac; try apply quiet_objects | intros _; by apply IH].
Qed.

(** ** Running or waiting *)

(** the drivers of [l] are about to be started *)
Record in_turn (l : list Z) (h : handler) : Prop := MkTurn {
  it_sorted : StronglySorted Z.lt (map fst (h_drivers h));
  it_waiting_sorted : StronglySorted Z.lt (map fst (h_restart h));
  it_runs : forall k e d, al_lookup k (h_drivers h) = Some e -> de_driver e = Some d -> running d = negb (waiting k h) && negb (bool_decide (k ∈ l));
  it_due : forall k, k ∈ l -> waiting k h = false
}.

Lemma turn_objects l h h' : objects h' = objects h -> in_turn l h -> in_turn l h'.
Proof. unfold objects. intros [= E1 E2] [H1 H2 H3 H4]. split; unfold waiting; rewrite ?E1, ?E2; done. Qed.

Lemma turn_still {A} l (m : hprog A) : still m -> good (in_turn l) m (in_turn l).
Proof. intros Hm h Ht. pose proof (Hm (objects h) I h eq_refl) as X. destruct (m h) as [[h' o] [a|x]]; [|done]. by apply (turn_objects l h). Qed.

Lemma replaced_lookup k d l k' : al_lookup k' (replaced k d l) = if k' =? k then (fun e => MkDriverEntry (Some d) (de_cfg e) (de_slots e)) <$> al_lookup k l else al_lookup k' l.
Proof.
  unfold replaced. destruct (al_lookup k l) as [e|] eqn:E; [by rewrite al_lookup_insert|]. destruct (k' =? k) eqn:Ek; to_prop; [by subst | done].
Qed.
Lemma replaced_sorted k d l : StronglySorted Z.lt (map fst l) -> StronglySorted Z.lt (map fst (replaced k d l)).
Proof. unfold replaced. destruct (al_lookup k l); [apply al_insert_sorted | done]. Qed.

(** a driver that is replaced by one that runs as it should *)
Lemma turn_replaced l l' k d h h' : in_turn l h -> objects h' = (replaced k d (h_drivers h), h_restart h) ->
  running d = negb (waiting k h) && negb (bool_decide (k ∈ l')) -> (forall x, x <> k -> x ∈ l' <-> x ∈ l) -> (k ∈ l' -> waiting k h = false) -> in_turn l' h'.
Proof.
  unfold objects. intros [H1 H2 H3 H4] [= E1 E2] Hr Hl Hk. split; unfold waiting in *; rewrite ?E1, ?E2.
  - by apply replaced_sorted.
  - done.
  - intros x e d' . rewrite replaced_lookup. destruct (x =? k) eqn:Ex; to_prop.
    + subst x. destruct (al_lookup k (h_drivers h)); [|done]. intros [= <-] [= <-]. exact Hr.
    + intros He Hd. rewrite (H3 x e d' He Hd). by rewrite (bool_decide_ext _ _ (Hl x Ex)).
  - intros x Hx. destruct (Z.eq_dec x k) as [->|Hne]; [by apply Hk | by apply H4, Hl].
Qed.

(** a call that leaves a driver running or stopped as it was *)
Lemma turn_called l mvars now k f : (forall h e d, in_turn l h -> al_lookup k (h_drivers h) = Some e -> de_driver e = Some d -> ends (f d) (fun d' => running d' = running d)) ->
  good (in_turn l) (on_driver cfg mac_fuel queue_fuel mvars now k f) (in_turn l).
Proof.
  intros Hf h Ht. unfold on_driver. rewrite pbind_get. destruct (al_lookup k (h_drivers h)) as [[[d|] i slots]|] eqn:E; [|done|done].
  pose proof (call_ends mvars now k slots (f d) _ (Hf h _ d Ht E eq_refl) h) as X. destruct (run_call _ _ _ _ _ _ _ _ h) as [[h' o] [u|x]]; [|done].
  destruct X as (d' & Hd & Ho). apply (turn_replaced l l k d' h h' Ht Ho); [|done|apply Ht]. rewrite Hd. by apply (it_runs l h Ht k _ d E).
Qed.

(** a call that may not have ended as it should *)
Record loose (k : Z) (l : list Z) (h : handler) : Prop := MkLoose {
  lo_sorted : StronglySorted Z.lt (map fst (h_drivers h));
  lo_waiting_sorted : StronglySorted Z.lt (map fst (h_restart h));
  lo_runs : forall x e d, x <> k -> al_lookup x (h_drivers h) = Some e -> de_driver e = Some d -> running d = negb (waiting x h) && negb (bool_decide (x ∈ l));
  lo_due : forall x, x ∈ l -> waiting x h = false
}.

Lemma turn_loose k l l' h h' : in_turn l h -> (forall x, x <> k -> x ∈ l' <-> x ∈ l) -> k ∉ l' -> objects h' = objects h \/ (exists d, objects h' = (replaced k d (h_drivers h), h_restart h)) -> loose k l' h'.
Proof.
  intros [H1 H2 H3 H4] Hl Hk Ho. assert (Hx : exists ds, objects h' = (ds, h_restart h) /\ StronglySorted Z.lt (map fst ds) /\ forall x, x <> k -> al_lookup x ds = al_lookup x (h_drivers h)).
  { destruct Ho as [->|[d ->]]; [by exists (h_drivers h)|]. eexists. split; [done|]. split; [by apply replaced_sorted|]. intros x Hx. rewrite replaced_lookup. by rewrite (proj2 (Z.eqb_neq x k) Hx). }
  destruct Hx as (ds & E & Hs & Hd). unfold objects in E. injection E as E1 E2. split; unfold waiting; rewrite ?E1, ?E2; try done.
  - intros x e d Hx He Hdr. rewrite (Hd x Hx) in He. rewrite (H3 x e d He Hdr). unfold waiting. by rewrite (bool_decide_ext _ _ (Hl x Hx)).
  - intros x Hx. apply H4. apply Hl; [|done]. by intros ->.
Qed.

Lemma waiting_later x k now (h : handler) : waiting x (restart_later cfg now k h) = (x =? k) || waiting x h.
Proof. unfold waiting, restart_later. cbn. rewrite al_insert_new_lookup. destruct (al_lookup x (h_restart h)); [by rewrite orb_true_r|]. by destruct (x =? k). Qed.

Hypothesis restarts : ac_technique cfg = CONTINUALLY_RESTART_DRIVER.

Lemma reset_turn mvars now k l : k ∉ l -> good (loose k l) (driver_reset cfg mac_fuel queue_fuel mvars now k) (in_turn l).
Proof.
  intros Hk h [H1 H2 H3 H4]. unfold driver_reset. rewrite restarts.
  assert (G : good (fun h' => h' = h) (on_driver cfg mac_fuel queue_fuel mvars now k md_shutdown) (fun h' => exists d, running d = false /\ objects h' = (replaced k d (h_drivers h), h_restart h))).
  { intros ? ->. unfold on_driver. rewrite pbind_get. destruct (al_lookup k (h_drivers h)) as [[[d|] i slots]|] eqn:E; [|done|done].
    pose proof (call_ends mvars now k slots (md_shutdown d) _ (shutdown_stops d) h) as X. destruct (run_call _ _ _ _ _ _ _ _ h) as [[h' o] [u|x]]; [|done]. destruct X as (d' & Hd & Ho). by exists d'. }
  refine (good_bind _ _ _ _ _ G (fun _ => _) h eq_refl). apply good_get. intros h0 (d & Hd & Ho). apply good_mod. intros ? ->. unfold objects in Ho. injection Ho as E1 E2. split.
  - cbn. rewrite E1. by apply replaced_sorted.
  - cbn. rewrite E2. by apply al_insert_new_sorted.
  - intros x e d' He Hde. rewrite waiting_later. change (h_drivers (restart_later cfg now k h0)) with (h_drivers h0) in He. rewrite E1, replaced_lookup in He. destruct (x =? k) eqn:Ex; to_prop.
    + destruct (al_lookup k (h_drivers h)); [|done]. injection He as <-. injection Hde as <-. by rewrite Hd.
    + cbn [orb]. rewrite (H3 x e d' Ex He Hde). unfold waiting. by rewrite E2.
  - intros x Hx. rewrite waiting_later. assert (x <> k) as Hne by (by intros ->). rewrite (proj2 (Z.eqb_neq x k) Hne). cbn [orb]. unfold waiting in *. rewrite E2. by apply H4.
Qed.

Lemma start_turn mvars now k l : k ∉ l -> good (in_turn (k :: l)) (start_driver cfg mac_fuel queue_fuel mvars now k) (in_turn l).
Proof.
  intros Hk. unfold start_driver. apply good_get. intros h Ht. destruct (al_lookup k (h_drivers h) ≫= _) as [c|]; [|apply good_throw]. intros ? ->. unfold catch_driver, pcatch.
  assert (Hl : forall x, x <> k -> x ∈ l <-> x ∈ k :: l) by (intros x Hx; rewrite elem_of_cons; naive_solver).
  destruct (on_driver cfg mac_fuel queue_fuel mvars now k (md_startup now c) h) as [[h1 o1] r] eqn:E1.
  unfold on_driver in E1. rewrite pbind_get in E1. destruct (al_lookup k (h_drivers h)) as [[[d|] i slots]|] eqn:E; [|by injection E1 as <- <- <-|by injection E1 as <- <- <-].
  assert (Hd : running d = false) by (rewrite (it_runs _ _ Ht k _ d E eq_refl); rewrite bool_decide_eq_true_2 by set_solver; by rewrite andb_false_r).
  pose proof (call_ends mvars now k slots (md_startup now c d) _ (startup_runs now c d Hd) h) as X.
  replace (run_call cfg mac_fuel queue_fuel mvars now k slots (md_startup now c d) h) with (h1, o1, r) in X by (rewrite <- E1; by destruct (run_call _ _ _ _ _ _ _ _ h) as [[? ?] ?]).
  destruct r as [u|x].
  - destruct X as (d' & Hd' & Ho). apply (turn_replaced (k :: l) l k d' h h1 Ht Ho); [|done|done]. rewrite Hd', (it_due _ _ Ht k) by set_solver. by rewrite bool_decide_eq_false_2.
  - destruct x; try done. destruct (is_driver_exception x); [|done]. pose proof (reset_turn mvars now k l Hk h1 (turn_loose k (k :: l) l h h1 Ht Hl Hk X)) as Y.
    destruct (driver_reset cfg mac_fuel queue_fuel mvars now k h1) as [[h2 o2] [u|y]]; done.
Qed.

Lemma filter_lookup {V} (p : Z * V -> bool) k (l : list (Z * V)) : StronglySorted Z.lt (map fst l) -> al_lookup k (List.filter p l) = match al_lookup k l with Some v => if p (k, v) then Some v else None | None => None end.
Proof.
  induction l as [|[j v] l IH]; [done|]. cbn [map fst List.filter al_lookup]. intros [Hs Hf]%StronglySorted_inv. destruct (k =? j) eqn:E; to_prop.
  - subst j. destruct (p (k, v)); cbn [al_lookup]; [by rewrite Z.eqb_refl|]. rewrite (IH Hs). destruct (al_lookup k l) as [w|] eqn:El; [|done]. exfalso.
    rewrite Forall_forall in Hf. pose proof (Hf k (proj2 (al_lookup_key k l) (mk_is_Some _ _ El))). lia.
  - destruct (p (j, v)); cbn [al_lookup]; [rewrite (proj2 (Z.eqb_neq k j) E)|]; by apply IH.
Qed.

Lemma restart_turn mvars now : good (in_turn []) (restart_drivers cfg mac_fuel queue_fuel mvars now) (in_turn []).
Proof.
  unfold restart_drivers. apply good_get. intros h [H1 H2 H3 H4]. set (due := fun e : Z * double => dlt (snd e) (goby_time_double now)).
  assert (Hdue : forall x, x ∈ map fst (List.filter due (h_restart h)) <-> exists v, al_lookup x (h_restart h) = Some v /\ due (x, v) = true).
  { intros x. rewrite al_lookup_key, filter_lookup by done. destruct (al_lookup x (h_restart h)) as [v|]; [|split; [by intros [? ?] | by intros (? & ? & ?)]].
    destruct (due (x, v)) eqn:Ed; split; [by exists v | done | by intros [? ?] | intros (w & [= <-] & Hw); congruence]. }
  apply (good_bind _ (in_turn (map fst (List.filter due (h_restart h))))).
  - apply good_mod. intros ? ->. split; [done | by apply filter_keys_sorted | |].
    + intros k e d He Hd. rewrite (H3 k e d He Hd). rewrite bool_decide_eq_false_2 by set_solver. rewrite andb_true_r. unfold waiting. cbn [set_restart h_restart].
      rewrite filter_lookup by done. destruct (al_lookup k (h_restart h)) as [v|] eqn:Ew.
      * change (dlt (k, v).2 (goby_time_double now)) with (due (k, v)). destruct (due (k, v)) eqn:Ed; cbn [negb]; [|done]. rewrite bool_decide_eq_true_2 by (apply Hdue; by exists v). done.
      * rewrite bool_decide_eq_false_2; [done|]. rewrite Hdue. intros (v & Hv & _). congruence.
    + intros k Hk. apply Hdue in Hk as (v & Hv & Hd). unfold waiting. cbn [set_restart h_restart]. rewrite filter_lookup, Hv by done. change (dlt (k, v).2 (goby_time_double now)) with (due (k, v)). by rewrite Hd.
  - intros _. assert (Hn : NoDup (map fst (List.filter due (h_restart h)))).
    { pose proof (filter_keys_sorted due (h_restart h) H2) as Hs. clear -Hs. induction (map fst (List.filter due (h_restart h))) as [|x l IH]; [constructor|]. apply StronglySorted_inv in Hs as [Hs Hf].
      constructor; [|by apply IH]. intros Hx. rewrite Forall_forall in Hf. specialize (Hf x Hx). lia. }
    clear Hdue. induction (List.filter due (h_restart h)) as [|[k v] l IH]; [apply good_ret|]. cbn [pfor map fst] in *. apply NoDup_cons in Hn as [Hk Hn].
    apply (good_bind _ (in_turn (map fst l))); [by apply start_turn | intros _; by apply IH].
Qed.

Lemma work_turn mvars now keys : good (in_turn []) (work_drivers cfg mac_fuel queue_fuel mvars now keys) (in_turn []).
Proof.
  induction keys as [|k keys IH]; [apply good_ret|]. cbn [work_drivers]. apply good_get. intros h Ht. destruct (waiting k h) eqn:Ew; [by apply (good_weaken _ _ _ _ _ IH); [intros ? ->|]|].
  intros ? ->. unfold pbind at 1, pcatch.
  destruct ((on_driver cfg mac_fuel queue_fuel mvars now k (md_do_work now) ;; pret false) h) as [[h1 o1] r] eqn:E1. unfold pbind at 1 in E1.
  destruct (on_driver cfg mac_fuel queue_fuel mvars now k (md_do_work now) h) as [[h2 o2] r2] eqn:E2. unfold on_driver in E2. rewrite pbind_get in E2.
  destruct (al_lookup k (h_drivers h)) as [[[d|] i slots]|] eqn:E; [|by injection E2 as <- <- <-; injection E1 as <- <- <-|by injection E2 as <- <- <-; injection E1 as <- <- <-].
  assert (Hd : running d = true) by (rewrite (it_runs _ _ Ht k _ d E eq_refl), Ew; by rewrite bool_decide_eq_false_2 by set_solver).
  pose proof (call_ends mvars now k slots (md_do_work now d) _ (work_runs now d Hd) h) as X.
  replace (run_call cfg mac_fuel queue_fuel mvars now k slots (md_do_work now d) h) with (h2, o2, r2) in X by (rewrite <- E2; by destruct (run_call _ _ _ _ _ _ _ _ h) as [[? ?] ?]).
  destruct r2 as [u|x].
  - injection E1 as <- <- <-. destruct X as (d' & Hd' & Ho). assert (Ht2 : in_turn [] h2).
    { apply (turn_replaced [] [] k d' h h2 Ht Ho); [|done|by intros ?%elem_of_nil]. rewrite Hd', Ew. by rewrite bool_decide_eq_false_2 by set_solver. }
    pose proof (IH h2 Ht2) as Y. destruct (work_drivers _ _ _ _ _ keys h2) as [[h3 o3] [v|y]]; done.
  - injection E1 as <- <- <-. destruct x; try done. destruct (is_driver_exception x); [|done]. cbn [pret].
    pose proof (reset_turn mvars now k [] ltac:(set_solver) h2 (turn_loose k [] [] h h2 Ht ltac:(done) ltac:(set_solver) X)) as Y.
    destruct (driver_reset cfg mac_fuel queue_fuel mvars now k h2) as [[h3 o3] [v|y]]; done.
Qed.

Lemma initiate_turn mvars now k t : good (in_turn []) (on_driver cfg mac_fuel queue_fuel mvars now k (md_initiate now t)) (in_turn []).
Proof. apply turn_called. intros h e d _ _ _. apply initiate_keeps. Qed.

Lemma mac_slot_turn mvars now : good (in_turn []) (mac_slot cfg mac_fuel queue_fuel mvars now) (in_turn []).
Proof.
  unfold mac_slot. apply good_get. intros h Ht. apply (good_weaken (in_turn []) _ (in_turn []) _); [|by intros ? -> | done]. destruct (Mac.timer (h_mac h)); [|apply good_ret]. destruct (now <? _); [apply good_ret|].
  destruct (begin_slot _ _ _ _) as [[m evs]|]; [|apply good_throw]. apply (good_bind _ (in_turn [])); [by apply good_mod; intros h' Ht'; apply (turn_objects [] h') | intros _].
  apply good_for. intros []; cbn [mac_signal].
  - apply good_get. intros h' Ht'. apply (good_weaken (in_turn []) _ (in_turn []) _); [|by intros ? -> | done]. apply good_for. intros []; [apply turn_still, steady_signal; try apply quiet_objects | apply initiate_turn].
  - apply turn_still, steady_signal; try apply quiet_objects.
Qed.

Lemma loop_turn mvars now fired slots : good (in_turn []) (acomms_loop cfg mac_fuel queue_fuel mvars now fired slots) (in_turn []).
Proof.
  unfold acomms_loop. apply (good_bind _ (in_turn [])); [apply good_for; intros i; apply turn_still, steady_timer; try apply quiet_objects | intros _]. apply good_get. intros h Ho.
  apply (good_weaken (in_turn []) _ (in_turn []) _); [|by intros h' -> | done]. apply (good_bind _ (in_turn [])); [apply good_when; [intros _; apply restart_turn | done] | intros _].
  apply good_get. intros h1 Ho1. apply (good_weaken (in_turn []) _ (in_turn []) _); [|by intros h' -> | done]. apply (good_bind _ (in_turn [])); [apply work_turn | intros _].
  apply good_get. intros h2 Ho2. apply (good_weaken (in_turn []) _ (in_turn []) _); [|by intros h' -> | done].
  apply (good_bind _ (in_turn [])); [apply good_when; [intros _; apply good_for; intros i; apply mac_slot_turn | done] | intros _]. apply turn_still, steady_on_queue; try apply quiet_objects.
Qed.

(** the objects changed in place *)
Lemma turn_mapped l (f : Z * DriverEntry D -> Z * DriverEntry D) (h : handler) :
  (forall k e, fst (f (k, e)) = k) -> (forall k e d', de_driver (snd (f (k, e))) = Some d' -> exists d, de_driver e = Some d /\ running d' = running d) ->
  in_turn l h -> in_turn l (set_drivers (h_driver h) (map f (h_drivers h)) h).
Proof.
  intros Hk Hd [H1 H2 H3 H4].
  assert (Hl : forall k ds, al_lookup k (map f ds) = (fun e => snd (f (k, e))) <$> al_lookup k ds).
  { intros k ds. induction ds as [|[j e] ds IH]; [done|]. cbn [map al_lookup]. destruct (f (j, e)) as [j' e'] eqn:E. pose proof (Hk j e) as Hj. rewrite E in Hj. cbn in Hj. subst j'.
    cbn [al_lookup]. destruct (k =? j) eqn:Ek; to_prop; [subst; cbn; by rewrite E | done]. }
  split; cbn.
  - rewrite map_map. rewrite (map_ext _ fst); [done|]. intros [k e]. apply Hk.
  - done.
  - intros k e d'. rewrite Hl. destruct (al_lookup k (h_drivers h)) as [e0|] eqn:E; [|done]. intros [= <-] Hd'. destruct (Hd k e0 d' Hd') as (d & Hde & ->). by apply (H3 k e0).
  - done.
Qed.

Lemma silence_turn s : good (in_turn []) (pmod (silence (D := D) (C := C) s)) (in_turn []).
Proof.
  apply good_mod. intros h Ht. unfold silence. refine (turn_mapped [] _ h _ _ Ht).
  - intros k e. destruct (waiting k h); [done|]. by destruct (de_driver e ≫= md_silent s).
  - intros k e d'. destruct (waiting k h); [cbn; intros E; by exists d'|]. destruct (de_driver e) as [d|] eqn:Ed; [|by cbn; rewrite Ed]. cbn. destruct (md_silent s d) as [d2|] eqn:Es; cbn.
    + intros [= <-]. exists d. split; [done|]. by apply (silent_keeps s).
    + rewrite Ed. intros [= <-]. by exists d.
Qed.

Lemma mail_turn mvars now moos_now (c : AcommsMail) msg : good (in_turn []) (acomms_mail cfg moos_technique app_name mac_fuel queue_fuel mvars now moos_now c msg) (in_turn []).
Proof.
  destruct c; cbn [acomms_mail].
  - unfold handle_mac_cycle_update. destruct (negb _); [apply good_ret|]. apply (good_bind _ (in_turn [])); [apply turn_still, steady_update; try apply quiet_objects | intros _].
    destruct (mu_cycle_state _) as [[]|]; [| |apply good_ret]; apply (good_bind _ (in_turn [])); try (intros _); try apply silence_turn; apply turn_still, steady_mac; try apply quiet_objects.
  - apply turn_still, steady_on_queue; try apply quiet_objects.
  - unfold handle_config_file_request. apply turn_still. apply steady_bind; [apply steady_get | intros h; apply steady_value].
  - unfold handle_external_initiate_transmission. case_bool_decide; [apply good_ret|]. apply good_get. intros h Ho. apply (good_weaken (in_turn []) _ (in_turn []) _); [|by intros h' -> | done].
    destruct (h_driver h =? 0); [apply good_ret | apply initiate_turn].
  - unfold handle_driver_reset. apply good_get. intros h Ho. apply (good_weaken (loose (h_driver h) []) _ (in_turn []) _); [apply reset_turn; set_solver | | done].
    intros ? ->. apply (turn_loose _ [] [] h h Ho); [done | set_solver | by left].
  - apply good_mod. intros h Ht. refine (turn_mapped [] _ h _ _ Ht).
    + intros k e. by destruct (bool_decide _ && _).
    + intros k e d'. destruct (bool_decide _ && _); cbn; [|intros E; by exists d']. destruct (de_driver e) as [d|]; [|done]. intros [= <-]. exists d. split; [done|]. apply update_keeps.
  - apply turn_still. unfold AcommsHandler.create_on_publish. apply steady_when, steady_translate; try apply quiet_objects.
  - apply turn_still, steady_multiplex.
Qed.

(** ** Construction *)

Record stopped (h : handler) : Prop := MkStopped {
  st_sorted : StronglySorted Z.lt (map fst (h_drivers h));
  st_waiting : StronglySorted Z.lt (map fst (h_restart h));
  st_stopped : forall k e d, al_lookup k (h_drivers h) = Some e -> de_driver e = Some d -> running d = false
}.

Lemma stopped_objects h h' : objects h' = objects h -> stopped h -> stopped h'.
Proof. unfold objects. intros [= E1 E2] [H1 H2 H3]. split; by rewrite ?E1, ?E2. Qed.
Lemma stopped_still {A} (m : hprog A) : still m -> good stopped m stopped.
Proof. intros Hm h Ht. pose proof (Hm (objects h) I h eq_refl) as X. destruct (m h) as [[h' o] [a|x]]; [|done]. by apply (stopped_objects h). Qed.

Lemma create_stopped type i mac h h' out kd : create_driver cfg type i mac h = (h', out, Ok kd) -> objects h' = objects h /\ forall d, snd kd = Some d -> running d = false.
Proof.
  unfold create_driver. rewrite pbind_get. destruct (_ ≫= dc_driver_name) as [name|].
  - destruct (md_plugin name) as [d|] eqn:E; [|done]. intros [= <- _ <-]. split; [done|]. intros ? [= <-]. by apply (plugin_stopped name).
  - destruct type; intros [= <- _ <-]; (split; [done|]); try done; intros ? [= <-]; apply new_stopped.
Qed.

Lemma insert_stopped k d i : (forall d', d = Some d' -> running d' = false) -> good stopped (insert_driver (D := D) (C := C) k d i) stopped.
Proof.
  intros Hd. apply good_mod. intros h [H1 H2 H3]. split; [by apply al_insert_new_sorted | done|]. intros x e d'. cbn. rewrite al_insert_new_lookup. destruct (al_lookup x (h_drivers h)) as [e'|] eqn:E.
  - intros [= <-]. by apply (H3 x).
  - destruct (x =? k); [|done]. intros [= <-]. apply Hd.
Qed.

Lemma create_insert type i mac (k : Z * option D -> hprog unit) (Q : handler -> Prop) : (forall kd, (forall d, snd kd = Some d -> running d = false) -> good stopped (k kd) Q) -> good stopped (pbind (create_driver cfg type i mac) k) Q.
Proof.
  intros Hk h Hs. unfold pbind. destruct (create_driver cfg type i mac h) as [[h1 o1] [kd|x]] eqn:E; [|done]. apply create_stopped in E as [Ho Hd]. apply (stopped_objects h) in Ho; [|done].
  specialize (Hk kd Hd h1 Ho). by destruct (k kd h1) as [[h2 o2] [u|y]].
Qed.

Lemma create_drivers_stopped : good stopped (create_drivers cfg) stopped.
Proof.
  unfold create_drivers. apply create_insert. intros [k d] Hd. apply (good_bind _ stopped); [by apply good_mod; intros h Hs; apply (stopped_objects h) | intros _].
  apply (good_bind _ stopped); [apply good_when; [intros _; by apply insert_stopped | done] | intros _]. destruct (Nat.eqb _ _); [|apply good_throw].
  apply good_for. intros it. apply create_insert. intros kd Hkd. by apply insert_stopped.
Qed.

Lemma configure_turn mvars now : good stopped (configure cfg mac_fuel mvars now) (in_turn []).
Proof.
  unfold configure. apply (good_bind _ stopped); [apply create_drivers_stopped | intros _].
  apply (good_bind _ stopped); [destruct (_ =? _); [apply good_throw | apply good_ret] | intros _].
  do 2 (apply (good_bind _ stopped); [apply stopped_still, steady_value | intros _]).
  apply (good_bind _ stopped); [by apply stopped_still, steady_mod | intros _].
  apply (good_bind _ (in_turn [])); [|intros _; apply (good_bind _ (in_turn [])); [apply turn_still, steady_mac; try apply quiet_objects | intros _; apply turn_still, steady_on_queue; try apply quiet_objects]].
  apply good_mod. intros h [H1 H2 H3]. destruct (all_waiting (h_drivers h) (h_restart h) H2) as [Hs Hl]. split; [done | done | |].
  - intros k e d He Hd. cbn [set_restart h_drivers] in He. rewrite (H3 k e d He Hd). unfold waiting. cbn [set_restart h_restart]. destruct (proj2 (Hl k) (or_introl (mk_is_Some _ _ He))) as [w Hw]. rewrite Hw. done.
  - by intros k ?%elem_of_nil.
Qed.

Lemma bind_turn : good (in_turn []) (bind_drivers cfg) (in_turn []).
Proof.
  unfold bind_drivers. apply (good_bind _ (in_turn [])); [|intros _; apply (good_bind _ (in_turn []))].
  - unfold driver_bind. apply good_mod. intros h [H1 H2 H3 H4]. destruct (h_driver h =? 0); [by split|]. unfold update_slots. cbn [h_drivers set_initiate].
    destruct (al_lookup (h_driver h) (h_drivers h)) as [e|] eqn:E; [|by split]. split; cbn; [by apply al_insert_sorted | done | | done].
    intros k e' d. rewrite al_lookup_insert. destruct (k =? h_driver h) eqn:Ek; to_prop; [|apply H3]. intros [= <-] Hd. subst k. by apply (H3 (h_driver h) e d).
  - apply good_mod. intros h Ht. refine (turn_mapped [] _ h _ _ Ht); [done|]. intros k e d'. cbn. intros Hd. by exists d'.
  - intros _. unfold make_router. destruct (ac_route_cfg cfg); [|apply good_ret]. case_bool_decide; [apply good_ret|]. by apply good_mod; intros h Ht; apply (turn_objects [] h).
Qed.

(** When the drivers of pAcommsHandler are restarted in place, then in every state it can reach
    by its mail and its rounds a driver runs exactly when it does not wait for a restart, through
    any failures of its startup, work and transmissions. *)
Lemma acomms_drivers_run_or_wait (h : handler) : handler_reachable cfg moos_technique app_name mac_fuel queue_fuel h -> runs_or_waits h.
Proof.
  intros (h0 & (mvars & now & t & ts & fw & h1 & out1 & out2 & E1 & E2) & Hr).
  assert (H0 : in_turn [] h0).
  { assert (Hn : stopped (new_handler cfg t)) by (split; try constructor; done). pose proof (configure_turn mvars now _ Hn) as X. rewrite E1 in X.
    assert (X2 : in_turn [] (set_forward fw (set_timers ts h1))) by (by apply (turn_objects [] h1)). pose proof (bind_turn _ X2) as Y. by rewrite E2 in Y. }
  assert (Ht : in_turn [] h).
  { clear E1 E2. induction Hr as [|x y z Hs _ IH]; [done|]. apply IH. destruct Hs as [mv nw mn c msg x y out E|mv nw fired slots x y out E].
    - pose proof (mail_turn mv nw mn c msg x H0) as X. by rewrite E in X.
    - pose proof (loop_turn mv nw fired slots x H0) as X. by rewrite E in X. }
  intros k e d He Hd. rewrite (it_runs _ _ Ht k e d He Hd). rewrite bool_decide_eq_false_2 by set_solver. by rewrite andb_true_r.
Qed.

End Restart.

(** ** Evaluation *)

Module AcommsToy.
#[export] Existing Instances Sample.protobuf Sample.codec Sample.text Reader.cast Reader.numbers SampleProtobuf.encodings SampleProtobuf.val_text CommasWitness.wide FormatWitness.boost NmeaWitness.trim TranslatorWitness.moos.

(** a driver that remembers its calls; one of type [DRIVER_UDP] fails to start once *)
Inductive ToyCall : Type := Started | Stopped.
Record Toy : Type := MkToy { is_up : bool; history : list ToyCall; bad_starts : nat }.

#[export] Instance toy : ModemDriver Toy unit := {|
  md_new t _ := MkToy false [] (if bool_decide (t = DRIVER_UDP) then 1 else 0);
  md_plugin _ := None;
  md_startup _ _ d := match bad_starts d with S n => Throw (MkToy false (history d) n) (DriverException STARTUP_FAILED) | O => Return (MkToy true (history d ++ [Started]) 0) end;
  md_shutdown d := Return (MkToy false (history d ++ [Stopped]) (bad_starts d));
  md_do_work _ d := Return d;
  md_initiate _ _ d := Return d;
  md_update_cfg _ d := d;
  md_silent _ _ := None;
  set_modem_id_lookup_path _ c := c;
  set_moos_connection _ _ c := c
|}.
#[export] Instance toy_runs : DriverRuns is_up.
Proof.
  split; try done.
  - intros now c d Hd. cbn. by destruct (bad_starts d).
Qed.

#[export] Instance toy_messages : @AcommsMessages unit Sample.protobuf := {|
  to_queue _ _ := Sample.MkMsg 1 1 2 []; of_queue m := (SampleProtobuf.leaf, [[VInt (Sample.m_type m)]]); route_command _ := None;
  queue_find_descriptor _ := None : option Proto.Descriptor; make_network_ack _ _ _ _ _ _ := Sample.MkMsg 1 1 2 [];
  info_msg key _ := MkMoosMsg key (MString []) [] [] (double_of_Z 0);
  parse_mac_update _ := MkMACUpdate 1 NO_CHANGE [] 0 (-1) None; parse_flush _ := 1; parse_transmission _ := empty_transmission;
  parse_driver_cfg _ := MkDriverConfig None None tt; config_b64 _ := []
|}.

Definition variables : MOOSVariables :=
  MkVariables (B "ACOMMS_") (B "NMEA_IN") (B "NMEA_OUT") (B "RAW_INCOMING") (B "RAW_OUTGOING") (B "MODEM_RECEIVE") (B "MODEM_TRANSMIT") (B "DRIVER_CONFIG_UPDATE")
    (B "QUEUE_RECEIVE") (B "ACK") (B "ACK_ORIGINAL") (B "EXPIRE") (B "QSIZE") (B "FLUSH_QUEUE") (B "MAC_CYCLE_UPDATE") (B "MAC_INITIATE_TRANSMISSION") (B "MAC_SLOT_START")
    (B "CONFIG") (B "CONFIG_REQUEST") (B "DRIVER_RESET") (B "IFS_DATA_OUT").
Definition with_technique (t : DriverFailureTechnique) : @pAcommsHandlerConfig unit :=
  MkAcommsConfig 3 DRIVER_UDP (MkDriverConfig None None tt) [DRIVER_ABC_EXAMPLE_MODEM] [MkDriverConfig (Some 7) None tt] t 60
    (MacWitness.config 3) (MkManagerConfig None [] None None None [] [] []) None variables [] [] [] [] [] 0.

Definition now : Z := MacWitness.t_now.
Definition translator : MOOSTranslator := MkTranslator [] CommasWitness.no_algorithms.
Definition toy_handler : Type := @AcommsHandler Toy unit Sample.protobuf.

(** a run of a construction and one round *)
Definition outcome {S Ev X A} (r : S * list Ev * result X A) : S * result X A := (fst (fst r), snd r).
Lemma outcome_run {S Ev X A} (r : S * list Ev * result X A) s a : outcome r = (s, a) -> r = (s, snd (fst r), a).
Proof. destruct r as [[s' e] a']. unfold outcome. cbn. by intros [= -> ->]. Qed.
Lemma reachable1 (cfg : @pAcommsHandlerConfig unit) (h1 h0 h2 : toy_handler) :
  outcome (configure cfg 9 [] now (new_handler cfg translator)) = (h1, Ok tt) -> outcome (bind_drivers cfg (set_forward [] (set_timers [] h1))) = (h0, Ok tt) ->
  outcome (acomms_loop cfg 9 9 [] now [] 0 h0) = (h2, Ok tt) -> handler_reachable cfg TECHNIQUE_PREFIXED_PROTOBUF_TEXT_FORMAT (B "pAcommsHandler") 9 9 h2.
Proof.
  intros E1%outcome_run E2%outcome_run E3%outcome_run. exists h0. split; [by exists [], now, translator, [], [], h1; eexists _, _|].
  eapply rtc_l; [by eapply (StepLoop _ _ _ _ _ [] now [] 0) | apply rtc_refl].
Qed.

(** the application after its construction and a round *)
Definition built (t : DriverFailureTechnique) : toy_handler := fst (fst (configure (with_technique t) 9 [] now (new_handler (with_technique t) translator))).
Definition bound (t : DriverFailureTechnique) (h : toy_handler) : toy_handler := fst (fst (bind_drivers (with_technique t) (set_forward [] (set_timers [] h)))).
Definition round (t : DriverFailureTechnique) (h : toy_handler) : toy_handler := fst (fst (acomms_loop (with_technique t) 9 9 [] now [] 0 h)).
Definition built_moving : toy_handler := Eval vm_compute in built MOVE_LISTEN_DRIVER_TO_PRIMARY.
Definition built_restarting : toy_handler := Eval vm_compute in built CONTINUALLY_RESTART_DRIVER.
Definition bound_moving : toy_handler := Eval vm_compute in bound MOVE_LISTEN_DRIVER_TO_PRIMARY built_moving.
Definition bound_restarting : toy_handler := Eval vm_compute in bound CONTINUALLY_RESTART_DRIVER built_restarting.
Definition moved1 : toy_handler := Eval vm_compute in round MOVE_LISTEN_DRIVER_TO_PRIMARY bound_moving.
Definition restarted1 : toy_handler := Eval vm_compute in round CONTINUALLY_RESTART_DRIVER bound_restarting.

Lemma moved_reachable : handler_reachable (with_technique MOVE_LISTEN_DRIVER_TO_PRIMARY) TECHNIQUE_PREFIXED_PROTOBUF_TEXT_FORMAT (B "pAcommsHandler") 9 9 moved1.
Proof. apply (reachable1 _ built_moving bound_moving); vm_compute; reflexivity. Qed.
Lemma restarted_reachable : handler_reachable (with_technique CONTINUALLY_RESTART_DRIVER) TECHNIQUE_PREFIXED_PROTOBUF_TEXT_FORMAT (B "pAcommsHandler") 9 9 restarted1.
Proof. apply (reachable1 _ built_restarting bound_restarting); vm_compute; reflexivity. Qed.

(** the primary driver fails to start: the listening driver is the primary *)
Lemma acomms_drivers_connected_witness : h_driver moved1 = 2 /\ h_initiate moved1 = [PublishInitiate; InitiateOn 2] /\ is_Some (al_lookup 2 (h_drivers moved1)).
Proof.
  destruct (acomms_drivers_connected (with_technique MOVE_LISTEN_DRIVER_TO_PRIMARY) TECHNIQUE_PREFIXED_PROTOBUF_TEXT_FORMAT (B "pAcommsHandler") 9 9 moved1 ltac:(apply (bool_decide_unpack _); exact I) moved_reachable) as (H1 & H2 & _).
  split; [reflexivity|]. split; [exact H2|]. destruct H1 as [H1|H1]; [discriminate H1 | exact H1].
Defined.

Example acomms_drivers_run_or_wait_witness : forall e d, al_lookup 1 (h_drivers restarted1) = Some e -> de_driver e = Some d -> is_up d = false.
Proof.
  exact (acomms_drivers_run_or_wait (with_technique CONTINUALLY_RESTART_DRIVER) TECHNIQUE_PREFIXED_PROTOBUF_TEXT_FORMAT (B "pAcommsHandler") 9 9 eq_refl restarted1 restarted_reachable 1).
Qed.

(** when the listening driver becomes the primary in the round in which both are to be started, it is
    shut down before it was started, started, and started again in the next round *)
Definition histories (h : toy_handler) : list (Z * option (list ToyCall)) := map (fun ke => (fst ke, history <$> de_driver (snd ke))) (h_drivers h).
Example started_twice :
  histories moved1 = [(1, Some [Stopped]); (2, Some [Stopped; Started])] /\ h_driver moved1 = 2 /\
  histories (round MOVE_LISTEN_DRIVER_TO_PRIMARY moved1) = [(1, Some [Stopped]); (2, Some [Stopped; Started; Started])].
Proof. repeat split; vm_compute; reflexivity. Qed.

(** a reset without a primary driver is a call on a null pointer *)
Example reset_without_driver : let cfg := MkAcommsConfig 3 DRIVER_NONE (MkDriverConfig None None tt) [] [] CONTINUALLY_RESTART_DRIVER 60 (MacWitness.config 3)
    (MkManagerConfig None [] None None None [] [] []) None variables [] [] [] [] [] 0 in
  snd (handle_driver_reset cfg 9 9 [] now (fst (fst (configure cfg 9 [] now (new_handler cfg translator : toy_handler))))) = Err HandlerUndefined.
Proof. vm_compute. reflexivity. Qed.

End AcommsToy.
