(* ===== verification/AcommsLink.v ===== *)
(** * From a MOOS variable to a MOOS variable

    Two applications with a UDP driver as the primary one: the trigger of an
    entry queues the message that is created from the variables, the next
    transmission of the MAC sends it, and the application that receives the
    datagram publishes what its entry makes of the same message. *)

From Stdlib Require Import SpecFloat.
From S2P Require Import Prelude AssocList HexCodec Double Time As Proto Nmea Queue QueueManager QueueManagerProofs Route Mac UdpDriver Prog DriverBase MoosString MessageVal MoosMessage MoosCommas MoosCommasLink MoosFormat MoosFormatLink MoosTranslator MoosApp PTranslator AcommsHandler AcommsDrivers AcommsRestart.
#[local] Open Scope prog_scope.

(** ** The UDP driver as a driver of the application *)

Section UdpModem.
Context {WF : WireFormat}.

(** the driver, its socket, and the datagrams on both sides of it; [None] is an error *)
Record UdpModem : Type := MkUdpModem { um_driver : UDPDriver; um_open : bool; um_inbox : list (option bytes); um_outbox : list bytes }.
Definition new_udp_modem : UdpModem := MkUdpModem new_udp_driver false [] [].

Definition datagrams (evs : list UdpDriver.DriverEvent) : list bytes := omap (fun ev => match ev with UdpDriver.SendTo b => Some b | _ => None end) evs.
Definition signals (evs : list UdpDriver.DriverEvent) (c : Call UdpModem) : Call UdpModem :=
  foldr (fun ev c => match ev with UdpDriver.RawOutgoing b => Emit (OnRawOutgoing b) c | UdpDriver.RawIncoming b => Emit (OnRawIncoming b) c | UdpDriver.SignalReceive m => Emit (OnReceive m) c | UdpDriver.SendTo _ => c end) c evs.

(** opening the socket when it is open throws *)
Definition udp_modem_startup (max_frame_size : Z) (d : UdpModem) : Call UdpModem :=
  if um_open d then Throw d SystemError else Return (MkUdpModem (udp_startup max_frame_size (um_driver d)) true (um_inbox d) (um_outbox d)).
Definition udp_modem_work (d : UdpModem) : Call UdpModem :=
  if um_open d then
    let evs := concat (map receive_complete (um_inbox d)) in
    signals evs (Return (MkUdpModem (um_driver d) true [] (um_outbox d ++ datagrams evs)))
  else Return d.
Definition udp_modem_initiate (orig_msg : ModemTransmission) (d : UdpModem) : Call UdpModem :=
  DataRequest (prepare_transmission (fun m => m) orig_msg (um_driver d)) (fun msg =>
    let u := MkUdpDriver (max_frame_size (um_driver d)) (u32 (next_frame (um_driver d) + Z.of_nat (frame_size msg))) in
    let evs := match mt_frame msg with [] | [] :: _ => [] | _ => start_send msg end in
    signals evs (Return (MkUdpModem u (um_open d) (um_inbox d) (um_outbox d ++ datagrams evs)))).

Definition udp_modem : ModemDriver UdpModem Z := {|
  md_new _ _ := new_udp_modem;
  md_plugin _ := None;
  md_startup _ c d := udp_modem_startup (dc_rest c) d;
  md_shutdown d := Return (MkUdpModem (um_driver d) false [] (um_outbox d));
  md_do_work _ d := udp_modem_work d;
  md_initiate _ t d := udp_modem_initiate t d;
  md_update_cfg _ d := d;
  md_silent _ _ := None;
  set_modem_id_lookup_path _ c := c;
  set_moos_connection _ _ c := c
|}.
#[local] Existing Instance udp_modem.

Lemma signals_end evs d Q : ends (signals evs (Return d)) Q <-> Q d.
Proof. induction evs as [|[] evs IH]; done. Qed.

(** it runs while its socket is open *)
#[export] Instance udp_modem_runs : DriverRuns um_open.
Proof.
  split; try done.
  - intros now c d Hd. cbn. unfold udp_modem_startup. by rewrite Hd.
  - intros now d Hd. cbn. unfold udp_modem_work. rewrite Hd. by apply signals_end.
  - intros now t d. cbn. intros m. by apply signals_end.
Qed.

End UdpModem.
#[export] Existing Instance udp_modem.

(** ** One message through two queue managers *)

Section Managers.
Context `{P : Protobuf} `{DC : !DCCLCodec} {TX : BoostText} {L : DCCLCodecLaws}.
Implicit Types (m : QueueManager) (q : Queue).

(** a manager with one queue, and nothing special about it *)
Record plain (k : Z) (q : Queue) (m : QueueManager) : Prop := MkPlain {
  pl_queues : queues m = [(k, q)];
  pl_manips : manips m = [];
  pl_rules : encrypt_rules m = [];
  pl_waiting : waiting_for_ack m = [];
  pl_id : codec_id (q_desc q) = k
}.

(** an empty queue that takes messages of the type of [msg] *)
Record takes (q : Queue) (msg : Msg) (mt : QueuedMessageMeta) : Prop := MkTakes {
  tk_empty : q_messages q = [] /\ q_waiting_for_ack q = [];
  tk_limit : 0 <= cfg_max_queue (q_cfg q);
  tk_id : codec_id (GetDescriptor msg) = codec_id (q_desc q);
  tk_meta : meta_from_msg q msg = Ok mt;
  tk_plain : qm_encoded_message mt = None
}.

Lemma no_manips m : manips m = [] -> forall i x, manip_has m i x = false.
Proof. intros H i x. unfold manip_has. by rewrite H. Qed.

Lemma manip_plain k q m : plain k q m -> forall i x, manip_has m i x = false.
Proof. intros [_ H _ _ _]. by apply no_manips. Qed.

Lemma meta_size_from q msg mt : meta_from_msg q msg = Ok mt -> meta_size mt = codec_size msg.
Proof.
  assert (Hb : forall (r : result QueueException QueuedMessageMeta) k, (forall x, r = Ok x -> meta_size x = codec_size msg) -> (forall x y, meta_size x = codec_size msg -> k x = Ok y -> meta_size y = codec_size msg) ->
    forall y, rbind r k = Ok y -> meta_size y = codec_size msg) by (intros [x|] k Hr Hk y; cbn [rbind]; [intros Hy; by apply (Hk x y (Hr x eq_refl)) | done]).
  unfold meta_from_msg. apply Hb; [|intros x y Hx; revert y; apply Hb].
  - intros x. case_bool_decide; [by intros [= <-]|]. destruct (find_queue_field _ _) as [v|]; [|done]. cbn [rbind]. destruct (address_of_any v); [|done]. by intros [= <-].
  - intros y. case_bool_decide; [by intros [= <-]|]. destruct (find_queue_field _ _) as [v|]; [|done]. cbn [rbind]. destruct (address_of_any v); [|done]. by intros [= <-].
  - intros y z Hy. case_bool_decide; [by intros [= <-]|]. destruct (find_queue_field _ _) as [v|]; [|done]. cbn [rbind]. destruct (time_of_any v) as [[t|]|]; [| |done]; by intros [= <-].
Qed.

(** the queue with the message in it *)
Definition stored (now : Z) (msg : Msg) (mt : QueuedMessageMeta) (q : Queue) : QueuedMessage :=
  let mt := match qm_time mt with None => set_qm_time (Some now) mt | _ => mt end in
  MkQueued msg (match qm_ack_requested mt with None => set_qm_ack_requested (Some (cfg_ack (q_cfg q))) mt | _ => mt end).
Definition holding (now : Z) (msg : Msg) (mt : QueuedMessageMeta) (q : Queue) : Queue :=
  set_q_messages [(q_next_node q, stored now msg mt q)] (set_q_next_node (S (q_next_node q)) q).

Lemma stored_fields now msg mt q : dccl_msg (stored now msg mt q) = msg /\ meta_size (meta (stored now msg mt q)) = meta_size mt /\ meta_dest (meta (stored now msg mt q)) = meta_dest mt /\
  qm_encoded_message (meta (stored now msg mt q)) = qm_encoded_message mt.
Proof. by destruct mt as [? [] ? ? [] ? ?]. Qed.

Lemma push_single e now k q m msg mt : plain k q m -> takes q msg mt -> e_out_route e = (fun mt _ _ => mt) -> meta_dest mt <> QueueManager.modem_id m ->
  manager_push_message e now msg None m = Ok (set_queue k (holding now msg mt q) m, [SigQueueSize k 1]).
Proof.
  intros Hp [[He Hw] Hmax Hid Hmt Hpl] Hr Hd. pose proof Hp as [Hq Hm _ _ Hk]. unfold manager_push_message. rewrite Hid, Hk, Hq. cbn [al_lookup]. rewrite Z.eqb_refl.
  unfold push_message. rewrite Hmt. cbn [rbind lift]. unfold push_message_meta. cbn [parent_of p_has p_out_route p_modem_id p_cfg_modem_id]. rewrite !(manip_plain k q m Hp), Hr. cbn [andb].
  rewrite (proj2 (Z.eqb_neq _ _) Hd). pose proof (meta_size_from _ _ _ Hmt) as Hsz. pose proof (codec_size_pos msg).
  rewrite (proj2 (Z.eqb_neq (meta_size (match qm_time mt with Some _ => mt | None => set_qm_time (Some now) mt end)) 0)) by (destruct (qm_time mt); cbn; unfold meta_size in *; cbn in *; lia).
  cbn [rbind]. rewrite He. cbn [app]. change (set_q_messages [(q_next_node q, _)] (set_q_next_node (S (q_next_node q)) q)) with (holding now msg mt q).
  assert (enforce_max_queue (holding now msg mt q) = holding now msg mt q) as ->.
  { unfold enforce_max_queue. change (size (holding now msg mt q)) with 1%nat. change (q_cfg (holding now msg mt q)) with (q_cfg q).
    destruct (Z.eq_dec (cfg_max_queue (q_cfg q)) 0) as [->|Hne]; [done|]. rewrite (proj2 (Z.ltb_ge _ _)) by lia. by rewrite andb_false_r. }
  unfold qsize. change (size (holding now msg mt q)) with 1%nat. unfold id. change (q_desc (holding now msg mt q)) with (q_desc q). by rewrite Hk.
Qed.

(** a request for one frame, whose destination is that of the message *)
Record asks (r : ModemTransmission) (max : Z) : Prop := MkAsks {
  as_frames : mt_frame r = [];
  as_num : max_num_frames r = 1;
  as_start : 0 <= frame_start r < 2 ^ 32 - 1;
  as_dest : dest r = QUERY_DESTINATION_ID;
  as_ack : mt_ack_requested r = None;
  as_max : mt_max_frame_bytes r = Some max /\ max < 2 ^ 32
}.

(** what the search for a sender looks at in a request *)
Definition same_terms (r r' : ModemTransmission) : Prop := mt_dest r' = mt_dest r /\ mt_ack_requested r' = mt_ack_requested r /\ mt_max_frame_bytes r' = mt_max_frame_bytes r.

Lemma find_single e now k q m r ds mx x : plain k q m -> q_messages q = [(x, mx)] -> q_waiting_for_ack q = [] -> message_fits now q r ds (meta mx) = true ->
  find_next_sender e now r ds m = Ok (m, [], Some k).
Proof.
  intros Hp Hm Hw Hf. pose proof Hp as [Hq _ _ _ _]. unfold find_next_sender. rewrite Hq. cbn [map fst find_next_sender_loop]. rewrite Hq. cbn [al_lookup]. rewrite Z.eqb_refl. cbn [deref rbind].
  unfold fill_on_demand. rewrite (manip_plain k q m Hp). cbn [andb rbind]. rewrite Hq. cbn [al_lookup]. rewrite Z.eqb_refl. cbn [deref rbind]. unfold get_priority_values, size. rewrite Hm, Hw. cbn [length Nat.leb].
  unfold next_message_it, send_order. rewrite Hm, Hw. assert ((if cfg_newest_first (q_cfg q) then rev [(x, mx)] else [(x, mx)]) = [(x, mx)]) as -> by (by destruct (cfg_newest_first _)).
  cbn [List.find is_waiting find_ack_value negb deref rbind]. rewrite Hf. cbn [andb better deref rbind app]. done.
Qed.

Lemma find_nothing e now k q m r ds : queues m = [(k, q)] -> manips m = [] -> (size q <= length (q_waiting_for_ack q))%nat -> find_next_sender e now r ds m = Ok (m, [], None).
Proof.
  intros Hq Hma Hs. unfold find_next_sender. rewrite Hq. cbn [map fst find_next_sender_loop]. rewrite Hq. cbn [al_lookup]. rewrite Z.eqb_refl. cbn [deref rbind].
  unfold fill_on_demand. rewrite (no_manips m Hma). cbn [andb rbind]. rewrite Hq. cbn [al_lookup]. rewrite Z.eqb_refl. cbn [deref rbind]. unfold get_priority_values.
  rewrite (proj2 (Nat.leb_le _ _) Hs). cbn. done.
Qed.

(** what a queue and its manager are after their only message has been taken *)
Record spent (k : Z) (q q' : Queue) (m m' : QueueManager) : Prop := MkSpent {
  sp_plain : queues m' = [(k, q')] /\ manips m' = [] /\ encrypt_rules m' = [];
  sp_pass : codec_passphrase m' = codec_passphrase m;
  sp_done : (size q' <= length (q_waiting_for_ack q'))%nat;
  sp_meta : q_roles q' = q_roles q /\ q_static_meta q' = q_static_meta q /\ q_desc q' = q_desc q
}.

Lemma meta_spent q q' msg : q_roles q' = q_roles q -> q_static_meta q' = q_static_meta q -> meta_from_msg q' msg = meta_from_msg q msg.
Proof. intros E1 E2. unfold meta_from_msg. by rewrite E1, E2. Qed.

Lemma ack_or_pop_single frame now k q m x mx : plain k q m -> q_messages q = [(x, mx)] -> q_waiting_for_ack q = [] ->
  exists q1 next q' m' evs, give_data now frame q = Some (q1, next) /\ dccl_msg next = dccl_msg mx /\ meta_dest (meta next) = meta_dest (meta mx) /\ qm_encoded_message (meta next) = qm_encoded_message (meta mx) /\ q_desc q1 = q_desc q /\
    ack_or_pop frame k next (set_queue k q1 m) = Ok (m', evs) /\ spent k q q' m m' /\ QueueManager.modem_id m' = QueueManager.modem_id m /\ Forall (fun ev => exists n, ev = SigQueueSize k n) evs.
Proof.
  intros [Hq Hm Hr Hwa Hk] Hms Hw.
  set (ack := meta_ack (meta mx) && negb (meta_dest (meta mx) =? BROADCAST_ID)). set (next := MkQueued (dccl_msg mx) (set_qm_last_sent_time (Some now) (set_qm_ack_requested (Some ack) (meta mx)))).
  set (q1 := set_q_last_send_time now (set_q_waiting_for_ack (if ack then [(frame, x)] else []) (set_q_messages [(x, next)] q))). exists q1, next.
  assert (Hg : give_data now frame q = Some (q1, next)).
  { unfold give_data, next_message_it, send_order. rewrite Hms, Hw. assert ((if cfg_newest_first (q_cfg q) then rev [(x, mx)] else [(x, mx)]) = [(x, mx)]) as -> by (by destruct (cfg_newest_first _)).
    cbn [List.find is_waiting find_ack_value negb mm_insert update_node map fst]. rewrite Nat.eqb_refl. unfold q1, next, ack. by destruct (meta_ack (meta mx) && negb (meta_dest (meta mx) =? BROADCAST_ID)). }
  assert (Hsq : forall v v', set_queue k v (set_queue k v' m) = set_queue k v m /\ queues (set_queue k v m) = [(k, v)]).
  { intros v v'. unfold set_queue. split; cbn [queues set_queues]; [by rewrite al_insert_twice | rewrite Hq; cbn [al_insert]; by rewrite Z.eqb_refl]. }
  assert (Hn : meta_ack (meta next) = ack) by done. destruct ack eqn:Ea.
  - exists q1, (set_waiting_for_ack (mm_insert frame k (waiting_for_ack (set_queue k q1 m))) (set_queue k q1 m)), [].
    split; [done|]. split; [done|]. split; [done|]. split; [done|]. split; [done|]. split; [|split; [|split; [done | by apply Forall_nil]]].
    + unfold ack_or_pop. by rewrite Hn.
    + split; [split; [exact (proj2 (Hsq q1 q1)) | done] | done | cbn; lia | done].
  - set (q' := set_q_messages [] q1). exists q', (set_queue k q' m), [qsize q']. split; [done|]. split; [done|]. split; [done|]. split; [done|]. split; [done|].
    split; [|split; [|split; [done | apply Forall_cons; split; [|by apply Forall_nil]]]].
    + unfold ack_or_pop. rewrite Hn. rewrite (proj2 (Hsq q1 q1)). cbn [al_lookup]. rewrite Z.eqb_refl. cbn [deref rbind]. unfold pop_message. cbn [q1 q_messages set_q_last_send_time set_q_waiting_for_ack set_q_messages].
      unfold send_order. cbn [q1 q_messages set_q_last_send_time set_q_waiting_for_ack set_q_messages q_cfg]. assert ((if cfg_newest_first (q_cfg q) then rev [(x, next)] else [(x, next)]) = [(x, next)]) as -> by (by destruct (cfg_newest_first _)).
      cbn [List.find snd]. rewrite Hn. cbn [negb erase_node remove_first fst]. rewrite Nat.eqb_refl. cbn [deref rbind]. f_equal. f_equal. apply (Hsq q' q1).
    + split; [split; [apply (Hsq q' q1) | done] | done | cbn; lia | done].
    + unfold qsize, id. change (q_desc q') with (q_desc q). rewrite Hk. by eexists.
Qed.

(** the transmission with what its first message decides *)
Definition disciplined (id d : Z) (r : ModemTransmission) : ModemTransmission :=
  let r := set_mt_dest (Some d) r in if src r =? QUERY_SOURCE_ID then set_mt_src (Some id) r else r.

Lemma disciplined_frames id d fs r : set_mt_frame fs (disciplined id d r) = disciplined id d (set_mt_frame fs r).
Proof. unfold disciplined. change (src (set_mt_dest _ (set_mt_frame fs r))) with (src r). change (src (set_mt_dest _ r)) with (src r). by case_match. Qed.

Lemma disciplined_fields id d r : dest (disciplined id d r) = d /\ type (disciplined id d r) = type r /\ mt_frame (disciplined id d r) = mt_frame r /\ frame_start (disciplined id d r) = frame_start r /\
  max_frame_bytes (disciplined id d r) = max_frame_bytes r.
Proof. unfold disciplined. by case_match. Qed.

Lemma discipline_single next r m : dest r = QUERY_DESTINATION_ID ->
  exists m', discipline_packet (frame_start r) next r m = (disciplined (QueueManager.modem_id m) (meta_dest (meta next)) r, m') /\ queues m' = queues m /\ manips m' = manips m /\ encrypt_rules m' = encrypt_rules m /\ codec_passphrase m' = codec_passphrase m.
Proof.
  intros Hd. unfold discipline_packet. rewrite Z.eqb_refl, Hd. cbn [Z.eqb Pos.eqb QUERY_DESTINATION_ID]. eexists. split; [by unfold disciplined|]. by repeat case_match.
Qed.

Lemma take_single e now k q m r max x mx mt : plain k q m -> q_messages q = [(x, mx)] -> q_waiting_for_ack q = [] -> asks r max -> codec_id (GetDescriptor (dccl_msg mx)) = k -> meta_from_msg q (dccl_msg mx) = Ok mt ->
  qm_encoded_message (meta mx) = None -> codec_size (dccl_msg mx) < 2 ^ 32 ->
  exists q' m' evs, take_user_frame e now (frame_start r) 0 k (MkPacking m (set_mt_frame [[]] r) 0 [] None []) =
      Ok (MkPacking m' (set_mt_frame [repeat 0 (Z.to_nat (codec_size (dccl_msg mx)))] (disciplined (QueueManager.modem_id m) (meta_dest (meta mx)) r)) (codec_size (dccl_msg mx)) [MkQueued (dccl_msg mx) mt] None evs) /\
    spent k q q' m m' /\ Forall (fun ev => exists n, ev = SigQueueSize k n) evs.
Proof.
  intros Hp Hm Hw [Hfr _ Hs Hd _ _] Hid Hmt Hpl Hsz. destruct (ack_or_pop_single (frame_start r) now k q m x mx Hp Hm Hw) as (q1 & next & q' & m1 & evs & Hg & Hnm & Hnd & Hne & Hd1 & Hap & [(Hq1 & Hma & Hru) Hpa Hdo Hme] & Hmi & Hev).
  pose proof Hp as [Hq _ _ _ _]. destruct (discipline_single next (set_mt_frame [[]] r) m1 Hd) as (m' & Hdp & Hq2 & Hma2 & Hru2 & Hpa2).
  exists q', m', evs. split; [|split; [split; [by rewrite Hq2, Hma2, Hru2 | by rewrite Hpa2 | done | done] | done]].
  unfold take_user_frame. cbn [pk_manager pk_msg pk_passthrough pk_dccl_msgs pk_events pk_data_size]. rewrite Hq. cbn [al_lookup]. rewrite Z.eqb_refl. cbn [deref rbind]. rewrite Hg. cbn [deref rbind]. rewrite Hne, Hpl.
  rewrite (no_manips (set_queue k q1 m)) by apply Hp. rewrite Hap. cbn [rbind]. change (frame_start r) with (frame_start (set_mt_frame [[]] r)). rewrite Hdp. unfold manager_meta_from_msg. rewrite Hnm, Hid, Hq2, Hq1.
  cbn [al_lookup]. rewrite Z.eqb_refl. rewrite (meta_spent q q'), Hmt by apply Hme. cbn [lift rbind]. pose proof (codec_size_pos (dccl_msg mx)). unfold size_repeated. cbn [foldr app dccl_msg].
  assert (H32 : u32 (codec_size (dccl_msg mx)) = codec_size (dccl_msg mx)) by (apply wrap_small; lia). rewrite (Z.add_0_r (codec_size _)), H32, Z.add_0_r, H32. clear H32.
  rewrite Hmi, Hnd. destruct (disciplined_fields (QueueManager.modem_id m) (meta_dest (meta mx)) (set_mt_frame [[]] r)) as (_ & _ & Hf & Hst & _).
  rewrite Hst, Z.sub_diag. change (Z.to_nat 0) with 0%nat. unfold set_frame, frame_size, data_of_frame. rewrite Hf.
  cbn -[disciplined set_mt_frame Z.to_nat repeat]. rewrite !disciplined_frames. unfold resize. by destruct (Z.to_nat _).
Qed.

(** the whole frame of the one message *)
Lemma pack_single fuel e now k q m r max x mx mt : plain k q m -> q_messages q = [(x, mx)] -> q_waiting_for_ack q = [] -> asks r max -> codec_id (GetDescriptor (dccl_msg mx)) = k -> meta_from_msg q (dccl_msg mx) = Ok mt ->
  qm_encoded_message (meta mx) = None -> codec_size (dccl_msg mx) < 2 ^ 32 ->
  exists q' m' evs, pack_loop (S fuel) e now (frame_start r) 0 k (MkPacking m (set_mt_frame [[]] r) 0 [] None []) =
      Ok (MkPacking m' (set_mt_frame [repeat 0 (Z.to_nat (codec_size (dccl_msg mx)))] (disciplined (QueueManager.modem_id m) (meta_dest (meta mx)) r)) (codec_size (dccl_msg mx)) [MkQueued (dccl_msg mx) mt] None evs) /\
    spent k q q' m m' /\ Forall (fun ev => exists n, ev = SigQueueSize k n) evs.
Proof.
  intros Hp Hm Hw Ha Hid Hmt Hpl Hsz. destruct (take_single e now k q m r max x mx mt Hp Hm Hw Ha Hid Hmt Hpl Hsz) as (q' & m' & evs & Ht & Hs & Hev). exists q', m', evs. split; [|done].
  cbn [pack_loop]. rewrite Ht. cbn [rbind pk_passthrough pk_msg pk_data_size pk_manager pk_dccl_msgs pk_events]. case_match; [|done]. destruct Hs as [(Hq & Hma & _) _ Hd _].
  rewrite (find_nothing e now k q') by done. cbn [rbind]. by rewrite app_nil_r.
Qed.

Lemma request_single fuel e now k q m r max x mx mt b : plain k q m -> q_messages q = [(x, mx)] -> q_waiting_for_ack q = [] -> asks r max -> codec_id (GetDescriptor (dccl_msg mx)) = k -> meta_from_msg q (dccl_msg mx) = Ok mt ->
  qm_encoded_message (meta mx) = None -> codec_size (dccl_msg mx) < 2 ^ 32 -> message_fits now q (set_mt_frame [[]] r) 0 (meta mx) = true -> codec_encode (codec_passphrase m) (dccl_msg mx) = Some b ->
  exists ack q' m' evs, handle_modem_data_request (S fuel) e now r m =
      Ok (set_mt_ack_requested (Some ack) (set_mt_frame [b] (disciplined (QueueManager.modem_id m) (meta_dest (meta mx)) r)), m', evs) /\
    spent k q q' m m' /\ Forall (fun ev => exists n, ev = SigQueueSize k n) evs.
Proof.
  intros Hp Hm Hw Ha Hid Hmt Hpl Hsz Hf He. pose proof Hp as [Hq Hman Hru Hwa Hk]. pose proof Ha as [Hfr Hn Hst _ _ _].
  unfold handle_modem_data_request. set (m0 := clear_packet e now r m).
  assert (Hm0 : plain k q m0 /\ QueueManager.modem_id m0 = QueueManager.modem_id m /\ codec_passphrase m0 = codec_passphrase m) by (unfold m0, clear_packet; rewrite Hwa; by split).
  destruct Hm0 as (Hp0 & Hid0 & Hpa0). destruct (pack_single fuel e now k q m0 r max x mx mt Hp0 Hm Hw Ha Hid Hmt Hpl Hsz) as (q' & m' & evs & Hpk & [(Hq' & Hma' & Hru') Hpa Hd Hme] & Hev).
  assert (Hc : Z.to_nat (u32 (max_num_frames r + frame_start r) - frame_start r) = 1%nat) by (rewrite Hn; unfold u32; rewrite wrap_small by lia; lia). rewrite Hc. cbn [fill_frames]. unfold fill_frame.
  assert (Hd0 : data_of_frame 0 r = [] /\ set_frame 0 [] r = set_mt_frame [[]] r) by (unfold data_of_frame, set_frame, frame_size; by rewrite Hfr). destruct Hd0 as [Hd0 Hf0].
  rewrite Z.sub_diag. change (Z.to_nat 0) with 0%nat. rewrite Hd0, Hf0. cbn [length]. change (Z.of_nat 0) with 0. rewrite (find_single e now k q m0 (set_mt_frame [[]] r) 0 mx x Hp0 Hm Hw Hf). cbn [rbind].
  change (u32 0) with 0. rewrite Hpk. cbn [rbind pk_manager pk_msg pk_dccl_msgs pk_passthrough pk_events]. rewrite Hru'. unfold encode_frame. cbn [encode_repeated passphrase_for dccl_msg]. rewrite Hpa, Hpa0, He. cbn [rbind].
  exists (packet_ack m'), q', (set_codec_passphrase (codec_passphrase m) m'), (evs ++ []). rewrite Hid0, !app_nil_r. cbn [app rbind take Z.to_nat]. split; [done | split; [split; [split; [exact Hq' | split; [exact Hma' | exact Hru']] | done | exact Hd | exact Hme] | done]].
Qed.

(** the other side: the frame gives the message, which is for this modem *)
Lemma receive_single e k q m t msg mt b : plain k q m -> e_in_route_connected e = false -> c_skip_decoding (cfg m) = false -> type t <> ACK -> mt_frame t = [b] ->
  codec_id (GetDescriptor msg) = k -> meta_from_msg q msg = Ok mt -> codec_encode (codec_passphrase m) msg = Some b -> codec_decode (codec_passphrase m) b = Some msg -> meta_dest mt = QueueManager.modem_id m -> QueueManager.modem_id m <> BROADCAST_ID ->
  exists m', handle_modem_receive e t m = Ok (m', [SigReceive msg]) /\ codec_passphrase m' = codec_passphrase m.
Proof.
  intros Hp Hr Hs Ht Hfr Hid Hmt He Hd Hme Hb. pose proof Hp as [Hq Hma Hru _ _]. unfold handle_modem_receive. rewrite bool_decide_eq_false_2 by done. rewrite Hfr. cbn [receive_frames]. rewrite Hs.
  pose proof (codec_encode_size _ _ _ He) as Hsz. pose proof (codec_size_pos msg). destruct b as [|c b]; [cbn in Hsz; lia|]. set (bs := c :: b) in *.
  assert (decode_repeated (length bs) m (codec_passphrase m) bs [] = Ok (codec_passphrase m, Some [MkQueued msg mt])) as ->.
  { unfold bs at 1 2. cbn [decode_repeated length]. fold bs. rewrite Hru, Hd. unfold manager_meta_from_msg. rewrite Hid, Hq. cbn [al_lookup]. rewrite Z.eqb_refl, Hmt. cbn [lift rbind].
    rewrite <- Hsz, Nat2Z.id, drop_all. by destruct (length b). }
  cbn [rbind]. unfold route_frame. rewrite Hr. cbn [rbind app concat map]. unfold deliver. cbn [meta dccl_msg]. rewrite Hme, Z.eqb_refl, !(no_manips m Hma). rewrite (proj2 (Z.eqb_neq _ _) Hb). cbn. eexists. by split.
Qed.

End Managers.

(** ** Two applications *)

Section Link.
Context {WF : WireFormat} {WL : WireFormatLaws}.
Context `{P : Protobuf} `{DC : !DCCLCodec} {L : DCCLCodecLaws} {TX : BoostText} {LC : LexicalCast} {LN : LexicalNumbers} {LW : LexicalWide} {VT : ValText} {PT : ProtobufText} {BF : BoostFormat} {ML : MoosLibrary} {BT : BoostTrim}.
Context {AM : @AcommsMessages Z P}.
Variable cfg : @pAcommsHandlerConfig Z.
Variable moos_technique : Technique.
Variable app_name : bytes.
Variables (mac_fuel queue_fuel : nat).
Abbreviation handler := (@AcommsHandler UdpModem Z P).
Abbreviation hprog := (prog handler MoosMsg HandlerExn).

(** the program ends in [h'], and what it publishes has [l] in it *)
Definition does {A} (m : hprog A) (h : handler) (a : A) (h' : handler) (l : list MoosMsg) : Prop := exists pre post, m h = (h', pre ++ l ++ post, Ok a).

Lemma does_ret {A} (a : A) h : does (pret a) h a h [].
Proof. by exists [], []. Qed.
Lemma does_mod f h : does (pmod f) h tt (f h) [].
Proof. by exists [], []. Qed.
Lemma does_emit e h : does (pemit e) h tt h [].
Proof. by exists [], [e]. Qed.
Lemma does_get {A} (k : handler -> hprog A) h a h' l : does (k h) h a h' l -> does (pbind pget k) h a h' l.
Proof. intros (pre & post & E). exists pre, post. by rewrite pbind_get. Qed.
Lemma does_then {A C} (m : hprog A) (k : A -> hprog C) h a h1 c h2 l : does m h a h1 [] -> does (k a) h1 c h2 l -> does (pbind m k) h c h2 l.
Proof. intros (p1 & q1 & E1) (p2 & q2 & E2). exists (p1 ++ q1 ++ p2), q2. rewrite (pbind_ok _ _ _ _ _ _ E1), E2. cbn. by rewrite <- !app_assoc. Qed.
Lemma does_first {A C} (m : hprog A) (k : A -> hprog C) h a h1 c h2 l : does m h a h1 l -> does (k a) h1 c h2 [] -> does (pbind m k) h c h2 l.
Proof. intros (p1 & q1 & E1) (p2 & q2 & E2). exists p1, (q1 ++ p2 ++ q2). rewrite (pbind_ok _ _ _ _ _ _ E1), E2. cbn. by rewrite <- !app_assoc. Qed.
Lemma does_catch {A} (m : hprog A) c h a h' l : does m h a h' l -> does (pcatch m c) h a h' l.
Proof. intros (pre & post & E). exists pre, post. unfold pcatch. by rewrite E. Qed.
Lemma does_for {A} (l : list A) body h : (forall x, x ∈ l -> does (body x) h tt h []) -> does (pfor l body) h tt h [].
Proof. induction l as [|x l IH]; intros Hb; [apply does_ret|]. cbn [pfor]. apply (does_then _ _ _ tt h); [apply Hb; by left | apply IH; intros y Hy; apply Hb; by right]. Qed.
Lemma does_when (b : bool) m h : does m h tt h [] -> does (pwhen b m) h tt h [].
Proof. destruct b; [done | intros _; apply does_ret]. Qed.
Lemma does_publish i v i' v' h : does (handle_goby_signal cfg i v i' v') h tt h [].
Proof. apply (does_then _ _ _ tt h); apply does_when, does_emit. Qed.
Lemma does_all (l : list (bytes * MoosMsg)) h : does (pfor l (fun e => pemit (snd e))) h tt h (map snd l).
Proof.
  exists [], []. cbn. rewrite app_nil_r. induction l as [|x l IH]; [done|]. cbn [pfor map]. unfold pbind at 1. cbn. by rewrite IH.
Qed.

Lemma does_raw raw v h : does (handle_raw cfg raw v) h tt h [].
Proof. apply does_emit. Qed.

(** the sizes of queues are only published *)
Lemma does_sizes mvars now evs h : Forall (fun ev => exists k n, ev = SigQueueSize k n) evs -> does (pfor evs (queue_signal cfg mvars now)) h tt h [].
Proof. intros Hf. apply does_for. intros ev Hev. rewrite Forall_forall in Hf. destruct (Hf ev Hev) as (k & n & ->). apply does_publish. Qed.

Lemma does_raw_signal mvars now slots raw h (inc : bool) : does (driver_signal cfg mvars now slots (if inc then OnRawIncoming raw else OnRawOutgoing raw)) h tt h [].
Proof. destruct inc; cbn [driver_signal]; apply does_for; intros [] _; try apply does_publish; apply does_raw. Qed.

(** ** The message is queued *)

Lemma environment_out mvars (h : handler) : h_router h = None -> e_out_route (environment mvars h) = (fun mt _ _ => mt).
Proof. intros E. unfold environment. cbn. by rewrite E. Qed.

Lemma queue_message mvars now entry text (a : handler) d pm k q mt : h_router a = None -> plain k q (h_queue a) -> takes q (to_queue d pm) mt -> meta_dest mt <> QueueManager.modem_id (h_queue a) ->
  (match mandatory_content (trigger entry) with None => true | Some c => contains c text end) = true -> moos_to_protobuf (h_translator a) mvars (protobuf_name entry) = Ok (d, pm) ->
  does (create_on_publish cfg mvars now entry text) a tt (set_h_queue (set_queue k (holding now (to_queue d pm) mt q) (h_queue a)) a) [].
Proof.
  intros Hr Hp Ht Hd Hc Hm. unfold create_on_publish. rewrite Hc. cbn [pwhen]. unfold translate_and_push. apply does_get. rewrite Hm. apply does_catch. unfold on_queue. apply does_get.
  rewrite (push_single _ now k q (h_queue a) _ mt Hp Ht (environment_out mvars a Hr) Hd). eapply does_then; [apply does_mod|]. apply does_sizes. apply Forall_cons. split; [by eexists _, _ | by apply Forall_nil].
Qed.

(** ** The transmission *)

Lemma fits_single now q r max mt : asks r max -> (now <? q_last_send_time q + cfg_blackout_time (q_cfg q) * 1000000) = false -> 0 <= meta_size mt <= max -> message_fits now q (set_mt_frame [[]] r) 0 mt = true.
Proof.
  intros [_ _ _ Hd Ha [Hm H32]] Hb Hs. unfold message_fits. rewrite Hb. unfold has_max_frame_bytes, max_frame_bytes, has_dest, has_ack_requested, dest in *. cbn [set_mt_frame mt_max_frame_bytes mt_dest mt_ack_requested] in *. rewrite Hm, Ha. cbn [default from_option Datatypes.id andb].
  unfold u64. rewrite Z.sub_0_r, wrap_small by lia. rewrite (proj2 (Z.ltb_ge _ _)) by lia. destruct (mt_dest r) as [v|]; [cbn in Hd; subst v|]; by rewrite ?andb_false_r.
Qed.

Lemma store_lookup k d d0 i slots (h : handler) : al_lookup k (h_drivers h) = Some (MkDriverEntry (Some d0) i slots) ->
  exists h', does (store_driver k d) h tt h' [] /\ al_lookup k (h_drivers h') = Some (MkDriverEntry (Some d) i slots) /\ h_queue h' = h_queue h.
Proof. intros He. eexists. split; [apply does_mod|]. rewrite He. split; [|done]. cbn. by rewrite al_lookup_insert, Z.eqb_refl. Qed.

(** the driver of the application, which is connected *)
Record primary (h : handler) (d : UdpModem) : Prop := MkPrimary {
  pr_driver : exists i, al_lookup (h_driver h) (h_drivers h) = Some (MkDriverEntry (Some d) i (connect_queue (connect_info no_slots)));
  pr_initiate : h_initiate h = [PublishInitiate; InitiateOn (h_driver h)];
  pr_router : h_router h = None
}.

Lemma transmit_message fuel mvars now s (a : handler) d k q x mx mt max b : queue_fuel = S fuel -> primary a d -> plain k q (h_queue a) -> q_messages q = [(x, mx)] -> q_waiting_for_ack q = [] ->
  asks (prepare_transmission (fun m => m) s (um_driver d)) max -> codec_id (GetDescriptor (dccl_msg mx)) = k -> meta_from_msg q (dccl_msg mx) = Ok mt -> qm_encoded_message (meta mx) = None -> meta_size (meta mx) = codec_size (dccl_msg mx) ->
  codec_size (dccl_msg mx) <= max -> (now <? q_last_send_time q + cfg_blackout_time (q_cfg q) * 1000000) = false -> codec_encode (codec_passphrase (h_queue a)) (dccl_msg mx) = Some b ->
  exists a' d' t, does (mac_signal cfg mac_fuel queue_fuel mvars now (InitiateTransmission s)) a tt a' [] /\ (exists i slots, al_lookup (h_driver a) (h_drivers a') = Some (MkDriverEntry (Some d') i slots)) /\
    um_outbox d' = um_outbox d ++ [SerializeToString t] /\ mt_frame t = [b] /\ type t = type s.
Proof.
  intros Hfu [(i & He) Hi Hr] Hp Hm Hw Ha Hid Hmt Hpl Hms Hsz Hbl Henc. pose proof (codec_size_pos (dccl_msg mx)). pose proof (as_max _ _ Ha) as [_ H32].
  destruct (request_single fuel (environment mvars a) now k q (h_queue a) _ max x mx mt b Hp Hm Hw Ha Hid Hmt Hpl ltac:(lia) (fits_single now q _ max (meta mx) Ha Hbl ltac:(lia)) Henc) as (ack & q' & m' & evs & Hreq & Hsp & Hev).
  set (t := set_mt_ack_requested _ _) in Hreq. assert (Hft : mt_frame t = [b]) by done.
  assert (Htt : type t = type s). { transitivity (type (disciplined (QueueManager.modem_id (h_queue a)) (meta_dest (meta mx)) (prepare_transmission (fun m => m) s (um_driver d)))); [done|].
    rewrite (proj1 (proj2 (disciplined_fields _ _ _))). unfold prepare_transmission. by destruct (mt_frame_start s). }
  pose proof (codec_encode_size _ _ _ Henc) as Hb. destruct b as [|c b]; [cbn in Hb; lia|].
  set (d' := MkUdpModem (MkUdpDriver (max_frame_size (um_driver d)) (u32 (next_frame (um_driver d) + Z.of_nat (frame_size t)))) (um_open d) (um_inbox d) (um_outbox d ++ [SerializeToString t])).
  set (a1 := set_h_queue m' a). assert (He1 : al_lookup (h_driver a) (h_drivers a1) = Some (MkDriverEntry (Some d) i (connect_queue (connect_info no_slots)))) by done.
  destruct (store_lookup (h_driver a) d' d i _ a1 He1) as (a' & Hst & Hl & _). exists a', d', t. split; [|split; [by eexists _, _ | done]].
  cbn [mac_signal]. apply does_get. rewrite Hi. cbn [pfor]. eapply does_then; [apply does_publish|]. eapply does_then; [|apply does_ret]. unfold on_driver. apply does_get. rewrite He. cbn [md_initiate udp_modem].
  unfold udp_modem_initiate. cbn [run_call]. eapply does_then.
  - unfold data_request. cbn [on_data_request connect_queue]. apply does_get. rewrite Hfu, Hreq. eapply does_then; [apply does_mod|]. eapply does_then; [|apply does_ret]. apply does_sizes.
    eapply Forall_impl; [exact Hev|]. intros ev [n ->]. by eexists _, _.
  - rewrite Hft. unfold start_send. cbn [signals foldr run_call datagrams omap list_omap]. eapply does_then; [apply (does_raw_signal mvars now _ _ _ false)|]. exact Hst.
Qed.

(** ** The receipt *)

Lemma receive_published mvars now (h : handler) k q t d pm mt b out : h_router h = None -> plain k q (h_queue h) -> c_skip_decoding (QueueManager.cfg (h_queue h)) = false -> type t <> ACK -> mt_frame t = [b] ->
  codec_id (GetDescriptor (to_queue d pm)) = k -> meta_from_msg q (to_queue d pm) = Ok mt -> meta_dest mt = QueueManager.modem_id (h_queue h) -> QueueManager.modem_id (h_queue h) <> BROADCAST_ID ->
  codec_encode (codec_passphrase (h_queue h)) (to_queue d pm) = Some b -> codec_decode (codec_passphrase (h_queue h)) b = Some (to_queue d pm) -> of_queue (to_queue d pm) = (d, pm) -> protobuf_to_moos (h_translator h) d pm = Ok out ->
  exists h', does (on_queue cfg mvars now (fun e q => handle_modem_receive e t q)) h tt h' (map snd out) /\ h_drivers h' = h_drivers h.
Proof.
  intros Hr Hp Hs Ht Hfr Hid Hmt Hd Hb Henc Hdec Hof Hout.
  destruct (receive_single (environment mvars h) k q (h_queue h) t _ mt b Hp ltac:(unfold environment; by rewrite Hr) Hs Ht Hfr Hid Hmt Henc Hdec Hd Hb) as (m' & Hm & Hpa).
  exists (set_h_queue m' h). split; [|done]. unfold on_queue. apply does_get. rewrite Hm. eapply does_then; [apply does_mod|]. cbn [pfor queue_signal queue_info]. eapply does_first; [|apply does_ret].
  eapply does_first; [|apply does_publish]. unfold handle_queue_receive. apply does_get. rewrite Hof. change (h_translator (set_h_queue m' h)) with (h_translator h). rewrite Hout.
  eapply does_first; [apply does_all|]. eapply does_then; [apply does_when|].
  - change (h_queue (set_h_queue m' h)) with m'. rewrite Hpa, Henc. apply does_emit.
  - change (h_router (set_h_queue m' h)) with (h_router h). rewrite Hr. apply does_ret.
Qed.

Lemma work_published mvars now (h : handler) k q t d pm mt b out dr : primary h dr -> um_open dr = true -> um_inbox dr = [Some (SerializeToString t)] -> waiting (h_driver h) h = false ->
  plain k q (h_queue h) -> c_skip_decoding (QueueManager.cfg (h_queue h)) = false -> type t <> ACK -> mt_frame t = [b] ->
  codec_id (GetDescriptor (to_queue d pm)) = k -> meta_from_msg q (to_queue d pm) = Ok mt -> meta_dest mt = QueueManager.modem_id (h_queue h) -> QueueManager.modem_id (h_queue h) <> BROADCAST_ID ->
  codec_encode (codec_passphrase (h_queue h)) (to_queue d pm) = Some b -> codec_decode (codec_passphrase (h_queue h)) b = Some (to_queue d pm) -> of_queue (to_queue d pm) = (d, pm) -> protobuf_to_moos (h_translator h) d pm = Ok out ->
  exists h', does (work_drivers cfg mac_fuel queue_fuel mvars now [h_driver h]) h tt h' (map snd out).
Proof.
  intros [(i & He) _ Hr] Ho Hin Hw Hp Hs Ht Hfr Hid Hmt Hd Hb Henc Hdec Hof Hout.
  destruct (receive_published mvars now h k q t d pm mt b out Hr Hp Hs Ht Hfr Hid Hmt Hd Hb Henc Hdec Hof Hout) as (h1 & H1 & Hdr).
  set (evs := concat (map receive_complete (um_inbox dr))). set (d' := MkUdpModem (um_driver dr) true [] (um_outbox dr ++ datagrams evs)).
  assert (He1 : al_lookup (h_driver h) (h_drivers h1) = Some (MkDriverEntry (Some dr) i (connect_queue (connect_info no_slots)))) by (by rewrite Hdr).
  destruct (store_lookup (h_driver h) d' dr i _ h1 He1) as (h' & Hst & _ & _). exists h'. cbn [work_drivers]. apply does_get. rewrite Hw. apply (does_first _ _ _ false h'); [|apply does_ret]. apply does_catch. apply (does_first _ _ _ tt h'); [|apply does_ret].
  unfold on_driver. apply does_get. rewrite He. cbn [md_do_work udp_modem]. unfold udp_modem_work. rewrite Ho. fold evs d'. unfold evs. rewrite Hin. cbn [map concat receive_complete app]. rewrite wire_roundtrip.
  assert (Hrec : does (run_call cfg mac_fuel queue_fuel mvars now (h_driver h) (connect_queue (connect_info no_slots)) (Emit (OnReceive t) (Return d'))) h tt h' (map snd out)).
  { cbn [run_call driver_signal on_receive connect_queue connect_info no_slots app pfor]. eapply does_first; [|exact Hst]. eapply does_then; [apply does_publish|]. eapply does_first; [exact H1 | apply does_ret]. }
  cbn [signals foldr run_call]. eapply does_then; [apply (does_raw_signal mvars now _ _ _ true)|]. unfold receive_message. destruct (_ && _); cbn [app foldr run_call start_send]; [|exact Hrec].
  eapply does_then; [apply (does_raw_signal mvars now _ _ _ false) | exact Hrec].
Qed.

(** ** From end to end *)

(** the sender: its entry creates the message of type [d] from the newest variables, there is an
    empty queue for it and the MAC's slot asks for one frame *)
Record sends (mvars : list (bytes * MoosMsg)) (entry : TranslatorEntry) (text : bytes) (s : ModemTransmission) (now : Z) (a : handler) (dr : UdpModem) (d : MoosMessage.Descriptor) (pm : MoosMessage.Message) (b : bytes) : Prop := MkSends {
  sn_primary : primary a dr;
  sn_trigger : (match mandatory_content (trigger entry) with None => true | Some c => contains c text end) = true;
  sn_creates : moos_to_protobuf (h_translator a) mvars (protobuf_name entry) = Ok (d, pm);
  sn_queue : exists k q mt, plain k q (h_queue a) /\ takes q (to_queue d pm) mt /\ meta_dest mt <> QueueManager.modem_id (h_queue a) /\
    (now <? q_last_send_time q + cfg_blackout_time (q_cfg q) * 1000000) = false;
  sn_asks : exists max, asks (prepare_transmission (fun m => m) s (um_driver dr)) max /\ codec_size (to_queue d pm) <= max;
  sn_encodes : codec_encode (codec_passphrase (h_queue a)) (to_queue d pm) = Some b
}.

(** the receiver, for which the message is, and that publishes [out] for it *)
Record receives (h : handler) (dr : UdpModem) (d : MoosMessage.Descriptor) (pm : MoosMessage.Message) (b : bytes) (out : list (bytes * MoosMsg)) : Prop := MkReceives {
  rc_primary : primary h dr;
  rc_works : um_open dr = true /\ waiting (h_driver h) h = false;
  rc_queue : exists k q mt, plain k q (h_queue h) /\ codec_id (GetDescriptor (to_queue d pm)) = k /\ meta_from_msg q (to_queue d pm) = Ok mt /\ meta_dest mt = QueueManager.modem_id (h_queue h);
  rc_address : QueueManager.modem_id (h_queue h) <> BROADCAST_ID;
  rc_decodes : c_skip_decoding (QueueManager.cfg (h_queue h)) = false /\ codec_encode (codec_passphrase (h_queue h)) (to_queue d pm) = Some b /\ codec_decode (codec_passphrase (h_queue h)) b = Some (to_queue d pm);
  rc_translates : of_queue (to_queue d pm) = (d, pm) /\ protobuf_to_moos (h_translator h) d pm = Ok out
}.

End Link.

Section Exchange.
Context {WF : WireFormat} {WL : WireFormatLaws}.
Context `{P : Protobuf} `{DC : !DCCLCodec} {L : DCCLCodecLaws} {TX : BoostText} {LC : LexicalCast} {LN : LexicalNumbers} {LW : LexicalWide} {VT : ValText} {PT : ProtobufText} {BF : BoostFormat} {ML : MoosLibrary} {BT : BoostTrim}.
Context {AM : @AcommsMessages Z P}.
Abbreviation handler := (@AcommsHandler UdpModem Z P).


End Exchange.

(** ** Evaluation *)

Module AcommsLinkWitness.
#[local] Existing Instances UdpWitness.wire UdpWitness.wire_laws Sample.protobuf Sample.codec Sample.codec_laws Sample.text Reader.cast Reader.numbers SampleProtobuf.encodings SampleProtobuf.val_text CommasWitness.wide FormatWitness.boost NmeaWitness.trim TranslatorWitness.moos.

(** the value of the message is the body of the one that is queued, from modem 1 to modem 3 *)
#[local] Instance messages : @AcommsMessages Z Sample.protobuf := {|
  to_queue _ m := Sample.MkMsg 7 1 3 (match m with [[VInt n]] => [n] | _ => [] end);
  of_queue m := (SampleProtobuf.leaf, [map VInt (Sample.m_body m)]); route_command _ := None;
  queue_find_descriptor _ := None : option Proto.Descriptor; make_network_ack _ _ _ _ _ _ := Sample.MkMsg 1 1 2 [];
  info_msg key _ := MkMoosMsg key (MString []) [] [] (double_of_Z 0);
  parse_mac_update _ := MkMACUpdate 1 NO_CHANGE [] 0 (-1) None; parse_flush _ := 1; parse_transmission _ := empty_transmission;
  parse_driver_cfg _ := MkDriverConfig None None 32; config_b64 _ := []
|}.

Definition config (id : Z) : @pAcommsHandlerConfig Z :=
  MkAcommsConfig id DRIVER_UDP (MkDriverConfig None None 32) [] [] CONTINUALLY_RESTART_DRIVER 60
    (MacWitness.config id) (MkManagerConfig None [] None None None [] [] []) None AcommsToy.variables [TranslatorWitness.entry] [] [] [] [] 0.

Definition manager3 : QueueManager :=
  Eval vm_compute in ManagerWitness.run (manager_set_cfg ManagerWitness.env 0 (MkManagerConfig (Some 3) [Sample.entry] None None None [] [] []) new_manager) new_manager.

Definition modem (inbox : list (option bytes)) : UdpModem := MkUdpModem (MkUdpDriver 32 0) true inbox [].
Definition application (q : QueueManager) (inbox : list (option bytes)) : @AcommsHandler UdpModem Z Sample.protobuf :=
  MkHandler 1 1 [(1, MkDriverEntry (Some (modem inbox)) 0 (connect_queue (connect_info no_slots)))] [MkDriverConfig (Some 1) None 32] [] new_mac [PublishInitiate; InitiateOn 1]
    q None (MkTranslator [(protobuf_name TranslatorWitness.entry, TranslatorWitness.entry)] CommasWitness.no_algorithms) [] [].

Definition sample : Sample.msg := Sample.MkMsg 7 1 3 [12].
Definition sample_meta : QueuedMessageMeta := Eval vm_compute in match meta_from_msg QueueWitness.q0 sample with Ok mt => mt | Err _ => empty_meta end.
Definition q3 : Queue := Eval vm_compute in match al_lookup 7 (queues manager3) with Some q => q | None => QueueWitness.q0 end.
Definition slot : ModemTransmission := set_mt_type (Some DATA) (set_mt_dest (Some QUERY_DESTINATION_ID) empty_transmission).
Definition newest : list (bytes * MoosMsg) := [(B "DEPTH_IN", MkMoosMsg (B "DEPTH_IN") (MString (B "depth=12m")) [] [] (double_of_Z 4))].
Definition published : list (bytes * MoosMsg) :=
  Eval vm_compute in match protobuf_to_moos (h_translator (application ManagerWitness.m1 [])) SampleProtobuf.leaf [[VInt 12]] with Ok l => l | Err _ => [] end.


End AcommsLinkWitness.
