(* ===== verification/ModemApp.v ===== *)
(** * apps/acomms/goby_modemdriver: a modem driver as an application

    The application runs one driver and speaks over publish/subscribe groups
    whose names end in the identifier of the modem: what the driver receives is
    published, a transmission is initiated in the round after it came, and a
    data request is published and waited for. The publish/subscribe library is
    the groups and contents of what is published and what each poll delivers;
    the extensions of a transmission are not in the interface of a driver. *)

From Stdlib Require Import SpecFloat.
From S2P Require Import Prelude Double Time As Proto Prog DriverBase MmData AcommsHandler AcommsRestart.
#[local] Open Scope prog_scope.

(** ** Messages *)

Inductive ModemStatus : Type := NOMINAL | Failure (s : Status) | MANUAL_RESET.
Record ModemDriverStatus : Type := MkStatus { ds_src : Z; ds_time : option double; ds_status : ModemStatus; ds_n_resets : Z }.
Definition set_ds_status (v : ModemStatus) (s : ModemDriverStatus) : ModemDriverStatus := MkStatus (ds_src s) (ds_time s) v (ds_n_resets s).
Definition set_ds_time (v : option double) (s : ModemDriverStatus) : ModemDriverStatus := MkStatus (ds_src s) v (ds_status s) (ds_n_resets s).
Definition set_ds_n_resets (v : Z) (s : ModemDriverStatus) : ModemDriverStatus := MkStatus (ds_src s) (ds_time s) (ds_status s) v.

(** what is published: a message of a type that only the receiver knows is [PMessage] *)
Inductive Payload (M : Type) : Type := PTransmission (t : MMTransmission) | PStatus (s : ModemDriverStatus) | PMessage (m : M).
Arguments PTransmission {M} t.
Arguments PStatus {M} s.
Arguments PMessage {M} m.

(** a transmission without extensions *)
Definition plain_transmission (t : ModemTransmission) : MMTransmission := MkMM t None None None None None None None None None [] [] [].

(** the name of a group: a prefix and the identifier of the modem *)
Definition group (prefix : bytes) (modem_id : Z) : bytes := prefix ++ as_string modem_id.

(** ** The application *)

(** [data_request_timeout] bounds the polls of a data request *)
Record ModemDriverConfig (C : Type) : Type := MkModemConfig { mo_driver_type : DriverType; mo_driver_cfg : DriverConfig C; mo_status_period_s : Z }.
Arguments MkModemConfig {C} _ _ _.
Arguments mo_driver_type {C} _.
Arguments mo_driver_cfg {C} _.
Arguments mo_status_period_s {C} _.

(** a message that a poll delivers to a handler of the application *)
Inductive Arrival : Type := OnTx (t : ModemTransmission) | OnDataResponse (t : ModemTransmission).

Inductive AppEvent : Type := Publish (grp : bytes) (m : Payload Empty_set) | Sleep (seconds : Z).

(** [NoMac]: a driver that was not given the MAC does not ask for it *)
Inductive AppExn : Type := DriverFails (x : Exn) | InvalidDriver | NoMac.

(** [ma_polls]: for each coming data request what the polls until its timeout deliver *)
Record ModemApp (D : Type) : Type := MkModemApp {
  ma_driver : D;
  ma_response_received : bool;
  ma_response : ModemTransmission;
  ma_pending : bool;
  ma_initiate : ModemTransmission;
  ma_started : bool;
  ma_last_status_time : double;
  ma_status : ModemDriverStatus;
  ma_polls : list (list (list Arrival))
}.
Arguments MkModemApp {D} _ _ _ _ _ _ _ _ _.
Arguments ma_driver {D} _.
Arguments ma_response_received {D} _.
Arguments ma_response {D} _.
Arguments ma_pending {D} _.
Arguments ma_initiate {D} _.
Arguments ma_started {D} _.
Arguments ma_last_status_time {D} _.
Arguments ma_status {D} _.
Arguments ma_polls {D} _.

Section App.
Context {D C : Type} {MD : ModemDriver D C}.
Implicit Types (a : ModemApp D).

Definition set_ma_driver (v : D) a : ModemApp D := MkModemApp v (ma_response_received a) (ma_response a) (ma_pending a) (ma_initiate a) (ma_started a) (ma_last_status_time a) (ma_status a) (ma_polls a).
Definition set_ma_response (r : bool) (v : ModemTransmission) a : ModemApp D := MkModemApp (ma_driver a) r v (ma_pending a) (ma_initiate a) (ma_started a) (ma_last_status_time a) (ma_status a) (ma_polls a).
Definition set_ma_initiate (p : bool) (v : ModemTransmission) a : ModemApp D := MkModemApp (ma_driver a) (ma_response_received a) (ma_response a) p v (ma_started a) (ma_last_status_time a) (ma_status a) (ma_polls a).
Definition set_ma_started (v : bool) a : ModemApp D := MkModemApp (ma_driver a) (ma_response_received a) (ma_response a) (ma_pending a) (ma_initiate a) v (ma_last_status_time a) (ma_status a) (ma_polls a).
Definition set_ma_status (t : double) (v : ModemDriverStatus) a : ModemApp D := MkModemApp (ma_driver a) (ma_response_received a) (ma_response a) (ma_pending a) (ma_initiate a) (ma_started a) t v (ma_polls a).
Definition set_ma_polls (v : list (list (list Arrival))) a : ModemApp D := MkModemApp (ma_driver a) (ma_response_received a) (ma_response a) (ma_pending a) (ma_initiate a) (ma_started a) (ma_last_status_time a) (ma_status a) v.

Variable cfg : ModemDriverConfig C.
Abbreviation aprog := (prog (ModemApp D) AppEvent AppExn).

Definition app_modem_id : Z := get_dc_modem_id (mo_driver_cfg cfg).
Definition app_publish (prefix : bytes) (m : Payload Empty_set) : aprog unit := pemit (Publish (group prefix app_modem_id) m).

Definition supported (t : DriverType) : bool :=
  match t with DRIVER_WHOI_MICROMODEM | DRIVER_PB_STORE_SERVER | DRIVER_UDP | DRIVER_IRIDIUM | DRIVER_IRIDIUM_SHORE => true | _ => false end.

Definition new_modem_app (polls : list (list (list Arrival))) : result AppExn (ModemApp D) :=
  if supported (mo_driver_type cfg)
  then Ok (MkModemApp (md_new (mo_driver_type cfg) false) false empty_transmission false empty_transmission false (double_of_Z 0) (MkStatus app_modem_id None NOMINAL 0) polls)
  else Err InvalidDriver.

(** ** Messages that arrive *)

Definition handle_data_response (message : ModemTransmission) : aprog unit := pmod (set_ma_response true message).
Definition handle_initiate_transmission (message : ModemTransmission) : aprog unit := pmod (set_ma_initiate true message).
Definition handle_arrival (x : Arrival) : aprog unit := match x with OnTx t => handle_initiate_transmission t | OnDataResponse t => handle_data_response t end.

(** the loop of polls; its end is the timeout *)
Fixpoint wait_response (polls : list (list Arrival)) : aprog unit :=
  match polls with
  | [] => pret tt
  | arrivals :: polls => pfor arrivals handle_arrival ;; let! a := pget in if ma_response_received a then pret tt else wait_response polls
  end.

Definition app_data_request (msg : ModemTransmission) : aprog ModemTransmission :=
  app_publish (B "DataRequest") (PTransmission (plain_transmission msg)) ;;
  pmod (fun a => set_ma_response false (ma_response a) a) ;;
  let! a := pget in
  pmod (set_ma_polls (tail (ma_polls a))) ;;
  wait_response (default [] (head (ma_polls a))) ;;
  let! a := pget in
  pret (if ma_response_received a then ma_response a else msg).

Definition app_modem_receive (message : ModemTransmission) : aprog unit := app_publish (B "Rx") (PTransmission (plain_transmission message)).

(** ** Calls of the driver *)

Fixpoint app_call (c : Call D) : aprog unit :=
  match c with
  | Return d => pmod (set_ma_driver d)
  | Throw d x => pmod (set_ma_driver d) ;; pthrow (DriverFails x)
  | Emit (OnReceive m) c => app_modem_receive m ;; app_call c
  | Emit _ c => app_call c                        (* not connected *)
  | DataRequest msg k => let! msg := app_data_request msg in app_call (k msg)
  | MacIsRunning _ | MacRestarts _ | MacStops _ => pthrow NoMac
  end.
Definition app_driver (f : D -> Call D) : aprog unit := let! a := pget in app_call (f (ma_driver a)).

Definition app_reset (st : Status) : aprog unit :=
  pmod (fun a => let s := ma_status a in set_ma_status (ma_last_status_time a) (set_ds_n_resets (u32 (ds_n_resets s + 1)) (set_ds_status (Failure st) s)) a) ;;
  app_driver md_shutdown ;;
  pemit (Sleep 15) ;;
  pmod (set_ma_started false).

Definition start_and_work (now : Z) : aprog unit :=
  (let! a := pget in
   pwhen (negb (ma_started a))
     (app_driver (md_startup now (mo_driver_cfg cfg)) ;;
      pmod (fun a => set_ma_status (ma_last_status_time a) (set_ds_status NOMINAL (ma_status a)) (set_ma_started true a)))) ;;
  app_driver (md_do_work now).

(** [catch (const ModemDriverException&)] *)
Definition on_failure (x : AppExn) : option (aprog unit) := match x with DriverFails (DriverException st) => Some (app_reset st) | _ => None end.

(** the last part of the round is outside of the try block *)
Definition initiate_pending (now : Z) : aprog unit :=
  let! a := pget in
  pwhen (ma_pending a) (app_driver (md_initiate now (ma_initiate a)) ;; pmod (fun a => set_ma_initiate false (ma_initiate a) a)).

Definition dle (x y : double) : bool := dlt x y || deq x y.

Definition publish_status (now : double) : aprog unit :=
  let! a := pget in
  pwhen (dle (dadd (ma_last_status_time a) (double_of_Z (mo_status_period_s cfg))) now)
    (pmod (fun a => set_ma_status (ma_last_status_time a) (set_ds_time (Some now) (ma_status a)) a) ;;
     let! a := pget in
     app_publish (B "Status") (PStatus (ma_status a)) ;;
     pmod (fun a => set_ma_status now (ma_status a) a)).

(** a round, with the clock before and behind the work of the driver *)
Definition app_loop (now later : Z) : aprog unit :=
  pcatch (start_and_work now) on_failure ;;
  publish_status (goby_time_double later) ;;
  initiate_pending later.

(** the messages that came since the last round, then a round *)
Definition app_round (now later : Z) (arrivals : list Arrival) : aprog unit := pfor arrivals handle_arrival ;; app_loop now later.
Definition app_destroy : aprog unit := app_driver md_shutdown.

(** ** The driver runs when it was started *)

Context {running : D -> bool} {DR : DriverRuns running}.

Definition in_step (a : ModemApp D) : Prop := running (ma_driver a) = ma_started a.

(** waiting for a response leaves the driver alone *)
Lemma wait_keeps d st polls : keeps (fun a => ma_driver a = d /\ ma_started a = st) (wait_response polls).
Proof.
  induction polls as [|l polls IH]; cbn [wait_response]; [apply keeps_ret|]. apply keeps_bind; [|intros _; apply keeps_bind; [apply keeps_get | intros a; destruct (ma_response_received a); [apply keeps_ret | done]]].
  apply keeps_for. intros []; by apply keeps_mod.
Qed.

Lemma app_request_keeps d st msg : keeps (fun a => ma_driver a = d /\ ma_started a = st) (app_data_request msg).
Proof.
  unfold app_data_request, app_publish. apply keeps_bind; [apply keeps_emit | intros _]. apply keeps_bind; [by apply keeps_mod | intros _]. apply keeps_bind; [apply keeps_get | intros a].
  apply keeps_bind; [by apply keeps_mod | intros _]. apply keeps_bind; [apply wait_keeps | intros _]. apply keeps_bind; [apply keeps_get | intros; apply keeps_ret].
Qed.

Lemma app_call_ends c Q st : ends c Q -> triple (fun a => ma_started a = st) (app_call c) (fun _ a => Q (ma_driver a) /\ ma_started a = st) (fun _ _ => True).
Proof.
  induction c as [d|d x|s c IH|m k IH|k IH|c IH|c IH]; cbn [ends app_call]; intros Hc; try (by intros a Ha).
  - destruct s; try (by apply IH). eapply (triple_bind _ (fun _ a => ma_started a = st)); [by intros a Ha | intros _; by apply IH].
  - eapply (triple_bind _ (fun _ a => ma_started a = st)); [|intros v; apply IH, Hc]. intros a <-. pose proof (app_request_keeps (ma_driver a) (ma_started a) m a (conj eq_refl eq_refl)) as H.
    destruct (app_data_request m a) as [[a' e] [v|x]]; [by destruct H | done].
Qed.

Lemma driver_ends f Q st : (forall d, ends (f d) Q) -> triple (fun a => ma_started a = st) (app_driver f) (fun _ a => Q (ma_driver a) /\ ma_started a = st) (fun _ _ => True).
Proof. intros Hf a Ha. unfold app_driver. rewrite pbind_get. by apply (app_call_ends _ Q st (Hf _)). Qed.

Lemma reset_ends st : triple (fun _ => True) (app_reset st) (fun _ a => running (ma_driver a) = false /\ ma_started a = false) (fun _ _ => True).
Proof.
  intros a _. unfold app_reset. rewrite pbind_mod. match goal with |- context [pbind _ _ ?s] => pose proof (driver_ends md_shutdown (fun d => running d = false) (ma_started a) shutdown_stops s eq_refl) as H end.
  unfold pbind. destruct (app_driver md_shutdown _) as [[a1 e1] [[]|x]]; [|done]. cbn. by split; [apply H|].
Qed.

Lemma work_ends now : triple in_step (start_and_work now) (fun _ a => running (ma_driver a) = true /\ ma_started a = true) (fun _ _ => True).
Proof.
  unfold start_and_work. eapply (triple_bind _ (fun _ a => running (ma_driver a) = true /\ ma_started a = true)).
  - intros a Ha. rewrite pbind_get. unfold in_step in Ha. destruct (ma_started a) eqn:Hs; cbn [negb pwhen]; [by split|].
    unfold app_driver. unfold pbind at 1. rewrite pbind_get. pose proof (app_call_ends _ (fun d => running d = true) false (startup_runs now (mo_driver_cfg cfg) (ma_driver a) Ha) a Hs) as H.
    destruct (app_call _ a) as [[a1 e1] [[]|x]]; [|done]. cbn. by split; [apply H|].
  - intros _ a [Ha Hs]. unfold app_driver. rewrite pbind_get. exact (app_call_ends _ (fun d => running d = true) true (work_runs now (ma_driver a) Ha) a Hs).
Qed.

(** Whatever the driver, the messages and the failures: behind every round that does not end the
    application, the driver is running exactly when the application takes it for started, so that
    [startup] is only called on a driver that is shut down and [do_work] on one that runs. *)
Lemma round_in_step now later arrivals : triple in_step (app_round now later arrivals) (fun _ => in_step) (fun _ _ => True).
Proof.
  unfold app_round. eapply (triple_bind _ (fun _ => in_step)).
  { apply (triple_conseq in_step in_step (fun _ => in_step) (fun _ => in_step) (fun _ => in_step) (fun _ _ => True)); [apply keeps_for; intros []; by apply keeps_mod | done..]. }
  intros _. unfold app_loop. eapply (triple_bind _ (fun _ => in_step)).
  { intros a Ha. pose proof (work_ends now a Ha) as H. unfold pcatch. destruct (start_and_work now a) as [[a1 e1] [[]|x]]; [unfold in_step; by destruct H as [-> ->]|].
    destruct x as [[st| | | | | | | | | |]| |]; try done. cbn [on_failure]. pose proof (reset_ends st a1 I) as H1. destruct (app_reset st a1) as [[a2 e2] [[]|x]]; [unfold in_step; by destruct H1 as [-> ->] | done]. }
  intros _. eapply (triple_bind _ (fun _ => in_step)).
  { apply (triple_conseq in_step in_step (fun _ => in_step) (fun _ => in_step) (fun _ => in_step) (fun _ _ => True)); [|done..]. unfold publish_status. apply keeps_bind; [apply keeps_get | intros a]. apply keeps_when.
    apply keeps_bind; [by apply keeps_mod | intros _]. apply keeps_bind; [apply keeps_get | intros a']. apply keeps_bind; [apply keeps_emit | intros _]. by apply keeps_mod. }
  intros _ a Ha. unfold initiate_pending. rewrite pbind_get. unfold pwhen. destruct (ma_pending a); [|done]. unfold app_driver. unfold pbind at 1. rewrite pbind_get.
  pose proof (app_call_ends _ (fun d => running d = running (ma_driver a)) (ma_started a) (initiate_keeps later (ma_initiate a) (ma_driver a)) a eq_refl) as H.
  destruct (app_call _ a) as [[a1 e1] [[]|x]]; [|done]. cbn. unfold in_step in *. destruct H as [H1 H2]. cbn. congruence.
Qed.

Lemma new_in_step polls a : new_modem_app polls = Ok a -> in_step a.
Proof. unfold new_modem_app. destruct (supported _); [|done]. intros [= <-]. unfold in_step. cbn. apply new_stopped. Qed.

(** a session: rounds with their clocks and messages *)
Definition app_session (rounds : list (Z * Z * list Arrival)) : aprog unit := pfor rounds (fun r => let '(now, later, arrivals) := r in app_round now later arrivals).

Lemma session_in_step rounds : triple in_step (app_session rounds) (fun _ => in_step) (fun _ _ => True).
Proof.
  induction rounds as [|[[now later] arrivals] rounds IH]; [by intros a Ha|]. eapply (triple_bind _ (fun _ => in_step)); [apply round_in_step | intros _; exact IH].
Qed.

(** ** The wait for a response *)

Definition is_response (x : Arrival) : bool := match x with OnDataResponse _ => true | OnTx _ => false end.

(** polls that deliver nothing, then the response *)
Lemma wait_answered n t polls a : ma_response_received a = false -> wait_response (repeat [] n ++ [OnDataResponse t] :: polls) a = (set_ma_response true t a, [], Ok tt).
Proof.
  intros Ha. induction n as [|n IH]; cbn [repeat app wait_response pfor].
  - unfold handle_arrival, handle_data_response. unfold pbind at 1. rewrite pbind_mod. cbn [pret]. by rewrite pbind_get.
  - rewrite pbind_ret, pbind_get, Ha. exact IH.
Qed.

Lemma request_answered n t polls more msg a : ma_polls a = (repeat [] n ++ [OnDataResponse t] :: polls) :: more ->
  app_data_request msg a = (set_ma_polls more (set_ma_response true t a), [Publish (group (B "DataRequest") app_modem_id) (PTransmission (plain_transmission msg))], Ok t).
Proof.
  intros Hp. unfold app_data_request, app_publish. unfold pbind at 1, pemit. rewrite pbind_mod, pbind_get, pbind_mod. cbn [ma_polls set_ma_response]. rewrite Hp. cbn [head tail default].
  rewrite (pbind_ok _ _ _ _ _ _ (wait_answered n t polls (set_ma_polls more (set_ma_response false (ma_response a) a)) eq_refl)). rewrite pbind_get. done.
Qed.

(** a request that times out leaves the transmission as it is *)
Lemma request_times_out n more msg a : ma_polls a = repeat [] n :: more ->
  app_data_request msg a = (set_ma_polls more (set_ma_response false (ma_response a) a), [Publish (group (B "DataRequest") app_modem_id) (PTransmission (plain_transmission msg))], Ok msg).
Proof.
  intros Hp. assert (Hw : forall n a, ma_response_received a = false -> wait_response (repeat [] n) a = (a, [], Ok tt)).
  { clear. intros n. induction n as [|n IH]; intros a Ha; [done|]. cbn [repeat wait_response pfor]. rewrite pbind_ret, pbind_get, Ha. by apply IH. }
  unfold app_data_request, app_publish. unfold pbind at 1, pemit. rewrite pbind_mod, pbind_get, pbind_mod. cbn [ma_polls set_ma_response]. rewrite Hp. cbn [head tail default].
  rewrite (pbind_ok _ _ _ _ _ _ (Hw n (set_ma_polls more (set_ma_response false (ma_response a) a)) eq_refl)). rewrite pbind_get. done.
Qed.

End App.
