(* ===== verification/Bridge.v ===== *)
(** * apps/acomms/goby_bridge: a gateway between subnets

    The bridge has a queue manager and a MAC for each subnet, joins them with
    one router, and speaks with the modem driver of each over publish/subscribe
    groups. It also serves two commands that it receives as messages: hardware
    control of a Micro-Modem and a time update, one of each at a time. The
    codec is shared, and its passphrase with it. The signals of a call are
    handled in their order when the call is over. *)

From Stdlib Require Import SpecFloat.
From S2P Require Import Prelude AssocList Double Time As Proto Nmea Queue QueueManager QueueManagerProofs Route Mac Prog DriverBase MmData AcommsHandler ModemApp.
#[local] Open Scope prog_scope.

(** ** Messages *)

Record HardwareControlCommand : Type := MkHwCommand { hc_command_src : Z; hc_command_dest : Z; hc_time : option Z; hc_hw_ctl_dest : option Z; hc_control : option HardwareControl }.
Record TimeUpdateRequest : Type := MkTimeRequest { tr_src : Z; tr_dest : option Z; tr_time : Z; tr_update_time_for_id : Z }.
Record TimeUpdateResponse : Type := MkTimeResponse { tu_src : Z; tu_dest : Z; tu_time : Z; tu_time_of_flight : option Z; tu_request_src : Z }.

(** the generated code of the messages that the bridge makes or looks into *)
Class BridgeMessages `{P : Protobuf} : Type := {
  as_route_command : Msg -> option (list Z);
  as_hw_command : Msg -> option HardwareControlCommand;
  as_time_request : Msg -> option TimeUpdateRequest;
  time_response_msg : TimeUpdateResponse -> Msg;
  receive_stat_msg : Statistics -> Msg;
  ranging_msg : RangingReply -> Msg;
  status_msg : ModemDriverStatus -> Msg;
  network_ack_msg : Z -> Z -> Z -> Z -> Z -> bool -> Msg;
  hw_command_descriptor : Proto.Descriptor;
  time_request_descriptor : Proto.Descriptor;
  find_descriptor : bytes -> option Proto.Descriptor;
  load_from_shared_lib : bytes -> bool;
  load_from_proto_file : bytes -> bool
}.

(** ** State *)

Inductive BridgeExn : Type :=
| BridgeDies
| QueueError (e : ManagerError)
| MacError (e : Mac.MacError)
| CodecError                       (* [DCCLException] *)
| NoSubnet                         (* [vector::at] *)
| BridgeUndefined.

(** [catch (std::exception&)] *)
Definition caught (x : BridgeExn) : bool :=
  match x with QueueError (QueueExc _) | QueueError QueueManager.OutOfRange | CodecError | NoSubnet => true | _ => false end.

Section Bridge.
Context `{P : Protobuf} `{DC : !DCCLCodec} {TX : BoostText} {BM : BridgeMessages}.

Inductive BridgeEvent : Type := BridgePublish (grp : bytes) (m : Payload Msg).

Record Subnet : Type := MkSubnet { sn_queue_cfg : QueueManagerConfig; sn_mac_cfg : MACConfig }.
Record BridgeConfig : Type := MkBridgeConfig {
  bc_subnet : list Subnet;
  bc_route_cfg : RouteManagerConfig;
  bc_load_shared_library : list bytes;
  bc_load_proto_file : list bytes;
  bc_crypto_passphrase : option bytes;
  bc_forward_cacst : option bool;
  bc_forward_ranging_reply : option bool;
  bc_special_command_ttl : option Z
}.
Definition forward_cacst (c : BridgeConfig) : bool := default true (bc_forward_cacst c).
Definition forward_ranging_reply (c : BridgeConfig) : bool := default true (bc_forward_ranging_reply c).
Definition special_command_ttl (c : BridgeConfig) : Z := default 1800 (bc_special_command_ttl c).

Record Bridge : Type := MkBridge {
  b_queues : list QueueManager;
  b_macs : list MACManager;
  b_router : RouteManager;
  b_hw_ctl : option HardwareControlCommand;
  b_time_update : option TimeUpdateResponse;
  b_request_time : Z
}.
Definition set_b_queues (v : list QueueManager) (b : Bridge) : Bridge := MkBridge v (b_macs b) (b_router b) (b_hw_ctl b) (b_time_update b) (b_request_time b).
Definition set_b_macs (v : list MACManager) (b : Bridge) : Bridge := MkBridge (b_queues b) v (b_router b) (b_hw_ctl b) (b_time_update b) (b_request_time b).
Definition set_b_router (v : RouteManager) (b : Bridge) : Bridge := MkBridge (b_queues b) (b_macs b) v (b_hw_ctl b) (b_time_update b) (b_request_time b).
Definition set_b_hw_ctl (v : option HardwareControlCommand) (b : Bridge) : Bridge := MkBridge (b_queues b) (b_macs b) (b_router b) v (b_time_update b) (b_request_time b).
Definition set_b_time_update (v : option TimeUpdateResponse) (b : Bridge) : Bridge := MkBridge (b_queues b) (b_macs b) (b_router b) (b_hw_ctl b) v (b_request_time b).
Definition set_b_request_time (v : Z) (b : Bridge) : Bridge := MkBridge (b_queues b) (b_macs b) (b_router b) (b_hw_ctl b) (b_time_update b) v.

(** a manager with the codec that all of them share *)
Definition set_manager (i : nat) (m : QueueManager) (b : Bridge) : Bridge :=
  set_b_queues (map (set_codec_passphrase (codec_passphrase m)) (<[i := m]> (b_queues b))) b.

Variable cfg : BridgeConfig.
(** bounds of the loops of the MAC and of the queue manager *)
Variables (mac_fuel queue_fuel : nat).
Abbreviation bprog := (prog Bridge BridgeEvent BridgeExn).

Definition environment (b : Bridge) : Environment := MkEnvironment (handle_out (b_router b)) true (fun _ m => m) find_descriptor network_ack_msg.

Definition manager (i : nat) : bprog QueueManager := let! b := pget in match b_queues b !! i with Some m => pret m | None => pthrow BridgeUndefined end.
Definition publish_for (prefix : bytes) (modem_id : Z) (m : Payload Msg) : bprog unit := pemit (BridgePublish (group prefix modem_id) m).
Definition subnet_modem_id (i : nat) : Z := match bc_subnet cfg !! i with Some s => c_modem_id (sn_queue_cfg s) | None => 0 end.

(** ** Signals of the queue managers *)

Definition handle_queue_receive (i : nat) (msg : Msg) : bprog unit :=
  let! m := manager i in
  publish_for (B "QueueRx") (QueueManager.modem_id m) (PMessage msg) ;;
  match as_route_command msg with
  | Some hops => pmod (fun b => set_b_router (route_set_cfg (MkRouteConfig hops (r_subnet_mask (bc_route_cfg cfg)) (r_default_gateway (bc_route_cfg cfg))) (b_router b)) b)
  | None =>
      match as_hw_command msg with
      | Some c => pmod (set_b_hw_ctl (Some (MkHwCommand (hc_command_src c) (hc_command_dest c) (hc_time c) (Some (default (hc_command_dest c) (hc_hw_ctl_dest c))) (hc_control c))))
      | None =>
          match as_time_request msg with
          | Some r => pmod (fun b => set_b_request_time (tr_time r) (set_b_time_update (Some (MkTimeResponse (QueueManager.modem_id m) (tr_update_time_for_id r) (tr_time r) None (tr_src r))) b))
          | None => pret tt
          end
      end
  end.

Definition handle_link_ack (i : nat) (orig_msg : Msg) : bprog unit := let! m := manager i in publish_for (B "QueueAckOrig") (QueueManager.modem_id m) (PMessage orig_msg).

(** the signals of a push, which routes nothing *)
Definition queue_info (i : nat) (ev : Event) : bprog unit :=
  match ev with
  | SigReceive m => handle_queue_receive i m
  | SigAck _ m => handle_link_ack i m
  | SigExpire _ | SigQueueSize _ _ | SigInRoute _ _ _ => pret tt
  end.

(** the router's [handle_in], with the signals of the manager that it pushes on *)
Definition route_in (now : Z) (mt : QueuedMessageMeta) (msg : Msg) (id : Z) : bprog unit :=
  let! b := pget in
  match handle_in (environment b) now (b_router b) mt msg id (b_queues b) with
  | Ok (qs, evs) =>
      pmod (set_b_queues qs) ;;
      match al_lookup (subnet_of (b_router b) (find_next_hop (b_router b) id (meta_dest mt))) (subnet_map (b_router b)) with
      | Some j => pfor evs (queue_info j)
      | None => pret tt
      end
  | Err e => pthrow (QueueError e)
  end.

Definition queue_signal (now : Z) (i : nat) (ev : Event) : bprog unit :=
  match ev with SigInRoute mt msg id => route_in now mt msg id | _ => queue_info i ev end.

(** a call of a queue manager with its signals *)
Definition on_manager (now : Z) (i : nat) (f : Environment -> QueueManager -> result ManagerError (QueueManager * list Event)) : bprog unit :=
  let! b := pget in
  let! m := manager i in
  match f (environment b) m with
  | Ok (m, evs) => pmod (set_manager i m) ;; pfor evs (queue_signal now i)
  | Err e => pthrow (QueueError e)
  end.

(** a message of the bridge itself, as if it came in over the subnet *)
Definition route_own (now : Z) (i : nat) (msg : Msg) : bprog unit :=
  let! m := manager i in
  match manager_meta_from_msg m msg with
  | Ok mt => route_in now mt msg (QueueManager.modem_id m)
  | Err e => pthrow (QueueError e)
  end.

(** ** Commands *)

(** [is_ack]: the type is ACK, otherwise EXPIRE *)
Definition generate_hw_ctl_network_ack (now : Z) (i : nat) (is_ack : bool) : bprog unit :=
  let! b := pget in
  match b_hw_ctl b with
  | None => pthrow BridgeUndefined
  | Some c => route_own now i (network_ack_msg (default 0 (hc_hw_ctl_dest c)) (codec_id hw_command_descriptor) (hc_command_src c) (hc_command_dest c) (default 0 (hc_time c)) is_ack)
  end.

Definition generate_time_update_network_ack (now : Z) (i : nat) (is_ack : bool) : bprog unit :=
  let! b := pget in
  match b_time_update b with
  | None => pthrow BridgeUndefined
  | Some u => route_own now i (network_ack_msg (tu_dest u) (codec_id time_request_descriptor) (tu_request_src u) (tu_dest u) (b_request_time b) is_ack)
  end.

(** [time + ttl * 1000000 < now]: the product is an [int], the sum unsigned *)
Definition expired (time now : Z) : bprog bool :=
  let ttl := special_command_ttl cfg * 1000000 in
  if (- 2 ^ 31 <=? ttl) && (ttl <? 2 ^ 31) then pret (u64 (time + ttl) <? now) else pthrow BridgeUndefined.

Definition first_manager : bprog nat := let! b := pget in match b_queues b with [] => pthrow NoSubnet | _ => pret 0%nat end.

Definition expire_hw_ctl (now : Z) : bprog unit :=
  let! b := pget in
  match b_hw_ctl b with
  | None => pret tt
  | Some c =>
      let! late := expired (default 0 (hc_time c)) now in
      pwhen late (let! i := first_manager in generate_hw_ctl_network_ack now i false ;; pmod (set_b_hw_ctl None))
  end.

Definition expire_time_update (now : Z) : bprog unit :=
  let! b := pget in
  match b_time_update b with
  | None => pret tt
  | Some u =>
      let! late := expired (tu_time u) now in
      pwhen late (let! i := first_manager in generate_time_update_network_ack now i false ;; pmod (set_b_time_update None))
  end.

(** ** Messages of the modem drivers *)

(** [None]: a product of a double that no [uint64] has *)
Definition time_of_flight (r : RangingReply) : option (option Z) :=
  match one_way_travel_time r with
  | [] => Some None
  | t :: _ => match uint64_cast (dmul t d1e6) with Some v => Some (Some v) | None => None end
  end.
Definition set_time_of_flight (v : Z) (u : TimeUpdateResponse) : TimeUpdateResponse := MkTimeResponse (tu_src u) (tu_dest u) (tu_time u) (Some v) (tu_request_src u).

Definition is_special (t : MMTransmission) (x : MMType) : bool := bool_decide (type (base t) = DRIVER_SPECIFIC) && bool_decide (default BASE_TYPE (mm_type t) = x).

Definition receive_time_update (now : Z) (i : nat) (message : MMTransmission) : bprog unit :=
  let! b := pget in
  match b_time_update b with
  | None => pret tt
  | Some u =>
      if is_special message MICROMODEM_TWO_WAY_PING then
        match time_of_flight (default empty_ranging (ranging_reply message)) with
        | None => pthrow BridgeUndefined
        | Some None => pret tt
        | Some (Some v) => pmod (set_b_time_update (Some (set_time_of_flight v u)))
        end
      else
        pwhen (bool_decide (type (base message) = ACK) && bool_decide (is_Some (tu_time_of_flight u)) && match mt_acked_frame (base message) with f :: _ => f =? 0 | [] => false end)
          (generate_time_update_network_ack now i true ;; pmod (set_b_time_update None))
  end.

Definition receive_hw_ctl (now : Z) (i : nat) (message : MMTransmission) : bprog unit :=
  let! b := pget in
  match b_hw_ctl b with
  | None => pret tt
  | Some c =>
      let! m := manager i in
      pwhen (is_special message MICROMODEM_HARDWARE_CONTROL_REPLY && (src (base message) =? default 0 (hc_hw_ctl_dest c)) && (dest (base message) =? QueueManager.modem_id m))
        (generate_hw_ctl_network_ack now i true ;; pmod (set_b_hw_ctl None))
  end.

Definition bridge_modem_receive (now : Z) (i : nat) (message : MMTransmission) : bprog unit :=
  pcatch
    (on_manager now i (fun e m => handle_modem_receive e (base message) m) ;;
     pwhen (forward_cacst cfg) (pfor (receive_stat message) (fun s => route_own now i (receive_stat_msg s))) ;;
     match ranging_reply message with
     | Some r => pwhen (forward_ranging_reply cfg) (route_own now i (ranging_msg r))
     | None => pret tt
     end ;;
     receive_time_update now i message ;;
     receive_hw_ctl now i message)
    (fun x => if caught x then Some (pret tt) else None).

Definition handle_external_push (now : Z) (i : nat) (msg : Msg) : bprog unit :=
  pcatch (on_manager now i (fun e m => manager_push_message e now msg None m)) (fun x => if caught x then Some (pret tt) else None).

(** the extensions of the request are kept *)
Definition handle_data_request (now : Z) (i : nat) (orig_msg : MMTransmission) : bprog unit :=
  let! b := pget in
  let! m := manager i in
  match handle_modem_data_request queue_fuel (environment b) now (base orig_msg) m with
  | Ok (msg, m, evs) =>
      pmod (set_manager i m) ;; pfor evs (queue_signal now i) ;;
      publish_for (B "DataResponse") (subnet_modem_id i) (PTransmission (set_base msg orig_msg))
  | Err e => pthrow (QueueError e)
  end.

Definition handle_driver_status (now : Z) (i : nat) (s : ModemDriverStatus) : bprog unit := route_own now i (status_msg s).

(** ** The slots of the MACs *)

Definition override_time_update (now : Z) (u : TimeUpdateResponse) (m : ModemTransmission) : bprog MMTransmission :=
  match tu_time_of_flight u with
  | None =>
      pret (set_mm_type (Some MICROMODEM_TWO_WAY_PING) (plain_transmission (set_mt_type (Some DRIVER_SPECIFIC) (set_mt_dest (Some (tu_dest u)) m))))
  | Some v =>
      let u := MkTimeResponse (tu_src u) (tu_dest u) now (Some v) (tu_request_src u) in
      pmod (set_b_time_update (Some u)) ;;
      let! b := pget in
      match codec_encode (match b_queues b with q :: _ => codec_passphrase q | [] => None end) (time_response_msg u) with
      | None => pthrow CodecError
      | Some f =>
          let t := set_mt_dest (Some (tu_dest u)) (set_mt_ack_requested (Some true) (set_mt_type (Some DATA) m)) in
          pret (plain_transmission (set_mt_frame (mt_frame t ++ [f]) t))
      end
  end.

Definition override_hw_ctl (c : HardwareControlCommand) (m : ModemTransmission) : MMTransmission :=
  set_hw_ctl (Some (default (MkHw None None None) (hc_control c)))
    (set_mm_type (Some MICROMODEM_HARDWARE_CONTROL) (plain_transmission (set_mt_type (Some DRIVER_SPECIFIC) (set_mt_dest (Some (default 0 (hc_hw_ctl_dest c))) m)))).

Definition bridge_initiate (now : Z) (i : nat) (m : ModemTransmission) : bprog unit :=
  let! b := pget in
  let for_dest d := (dest m =? d) || (dest m =? QUERY_DESTINATION_ID) in
  let tx t := publish_for (B "Tx") (subnet_modem_id i) (PTransmission t) in
  match b_time_update b, b_hw_ctl b with
  | Some u, hw =>
      if for_dest (tu_dest u) then let! t := override_time_update now u m in tx t
      else match hw with
           | Some c => if for_dest (default 0 (hc_hw_ctl_dest c)) then tx (override_hw_ctl c m) else tx (plain_transmission m)
           | None => tx (plain_transmission m)
           end
  | None, Some c => if for_dest (default 0 (hc_hw_ctl_dest c)) then tx (override_hw_ctl c m) else tx (plain_transmission m)
  | None, None => tx (plain_transmission m)
  end.

Definition mac_signal (now : Z) (i : nat) (ev : MacEvent) : bprog unit := match ev with InitiateTransmission s => bridge_initiate now i s | SlotStart _ => pret tt end.

(** [do_work] of a MAC: the handler of its timer, when it has expired *)
Definition mac_work (now : Z) (i : nat) : bprog unit :=
  let! b := pget in
  match b_macs b !! i with
  | None => pthrow BridgeUndefined
  | Some m =>
      match Mac.timer m with
      | Some t =>
          if now <? t then pret tt
          else match begin_slot mac_fuel false now m with
               | Ok (m, evs) => pmod (fun b => set_b_macs (<[i := m]> (b_macs b)) b) ;; pfor evs (mac_signal now i)
               | Err e => pthrow (MacError e)
               end
      | None => pret tt
      end
  end.

Definition bridge_loop (now : Z) : bprog unit :=
  let! b := pget in
  pfor (seq 0 (length (b_queues b))) (fun i => on_manager now i (fun e m => QueueManager.do_work e now m)) ;;
  pfor (seq 0 (length (b_macs b))) (mac_work now) ;;
  expire_hw_ctl now ;;
  expire_time_update now.

(** ** Subscriptions *)

Inductive Subscription : Type := SubRx | SubQueuePush | SubDataRequest | SubStatus.
Definition prefix_of (s : Subscription) : bytes := match s with SubRx => B "Rx" | SubQueuePush => B "QueuePush" | SubDataRequest => B "DataRequest" | SubStatus => B "Status" end.

Definition subscriptions : list (bytes * Subscription * nat) :=
  concat (imap (fun i s => map (fun x => (group (prefix_of x) (c_modem_id (sn_queue_cfg s)), x, i)) [SubRx; SubQueuePush; SubDataRequest; SubStatus]) (bc_subnet cfg)).

(** a subscription is for messages of one type, but that of pushes *)
Definition bridge_handler (now : Z) (x : Subscription) (i : nat) (m : Payload Msg) : bprog unit :=
  match x, m with
  | SubRx, PTransmission t => bridge_modem_receive now i t
  | SubDataRequest, PTransmission t => handle_data_request now i t
  | SubStatus, PStatus s => handle_driver_status now i s
  | SubQueuePush, PMessage m => handle_external_push now i m
  | SubQueuePush, PStatus s => handle_external_push now i (status_msg s)
  | _, _ => pret tt
  end.

Definition bridge_mail (now : Z) (grp : bytes) (m : Payload Msg) : bprog unit :=
  pfor subscriptions (fun e => let '(g, x, i) := e in pwhen (bool_decide (g = grp)) (bridge_handler now x i m)).

(** ** Construction *)

(** the managers and MACs exist when the first subnet is configured; the constructor of a manager
    gets the shared codec *)
Definition configure_subnet (now : Z) (i : nat) (s : Subnet) : bprog unit :=
  on_manager now i (fun e m => manager_set_cfg e now (sn_queue_cfg s) m) ;;
  let! b := pget in
  match mac_startup mac_fuel now (sn_mac_cfg s) (default new_mac (b_macs b !! i)) with
  | Ok mac =>
      pmod (fun b => set_b_macs (<[i := mac]> (b_macs b)) b) ;;
      let! m := manager i in
      pmod (fun b => set_b_router (add_subnet_queue (b_router b) (Some (i, m))) b)
  | Err e => pthrow (MacError e)
  end.

Definition new_bridge (now : Z) : bprog unit :=
  pfor (bc_load_shared_library cfg) (fun l => pwhen (negb (load_from_shared_lib l)) (pthrow BridgeDies)) ;;
  pfor (bc_load_proto_file cfg) (fun l => pwhen (negb (load_from_proto_file l)) (pthrow BridgeDies)) ;;
  pmod (fun _ => MkBridge (map (fun _ => set_codec_passphrase (bc_crypto_passphrase cfg) new_manager) (bc_subnet cfg)) (map (fun _ => new_mac) (bc_subnet cfg)) (MkRoute (bc_route_cfg cfg) []) None None 0) ;;
  pfor (imap pair (bc_subnet cfg)) (fun e => configure_subnet now (fst e) (snd e)).

End Bridge.
