(* ===== verification/BridgeProofs.v ===== *)
(** * apps/acomms/goby_bridge: the managers, the router and the codec stay consistent

    Whatever the messages, the slots and the commands, the router leads to
    managers that exist, under the subnets of their identifiers, the tables of
    every manager agree, and all managers have the same codec. *)

From Stdlib Require Import SpecFloat.
From S2P Require Import Prelude AssocList Double Time As Proto Nmea Queue QueueManager QueueManagerProofs Route Mac Prog DriverBase MmData AcommsHandler ModemApp Bridge.
#[local] Open Scope prog_scope.

(** ** The managers keep their identifier *)

Section Identifier.
Context `{P : Protobuf} `{DC : !DCCLCodec} {TX : BoostText}.
Implicit Types (m : QueueManager).
Abbreviation qid := QueueManager.modem_id.

Lemma do_work_id e now keys m m' evs : do_work_loop e now keys m = Ok (m', evs) -> qid m' = qid m.
Proof.
  revert m m' evs. induction keys as [|k keys IH]; simpl; intros m m' evs; [by intros [= <- _]|]. destruct (al_lookup k (queues m)) as [q|]; [|apply IH].
  destruct (expire now q) as [q' ex]. destruct (signal_expired _ _ _) as [ev|]; simpl; [|done]. destruct (do_work_loop _ _ _ _) as [[m1 ev1]|] eqn:El; simpl; [|done]. intros [= <- _]. by apply IH in El.
Qed.

Lemma process_entries_id e now entries m m' evs : process_entries e now entries m = Ok (m', evs) -> qid m' = qid m.
Proof.
  revert m m' evs. induction entries as [|en entries IH]; simpl; intros m m' evs; [by intros [= <- _]|]. destruct (e_find_descriptor _ _) as [desc|]; [|apply IH].
  destruct (add_queue _ _ _ _) as [[m1 ev1]|] eqn:Ea; simpl; [|done]. destruct (process_entries _ _ _ _) as [[m2 ev2]|] eqn:Ep; simpl; [|done]. intros [= <- _]. apply IH in Ep. rewrite Ep. cbn.
  revert Ea. unfold add_queue. destruct (negb _); [done|]. destruct (al_lookup _ _) as [q|].
  - destruct (Queue.set_cfg en q); simpl; [|done]. by intros [= <- _].
  - destruct (new_queue _ _ _); simpl; [|done]. by intros [= <- _].
Qed.

Lemma set_cfg_id e now c m m' evs : manager_set_cfg e now c m = Ok (m', evs) -> qid m' = c_modem_id c.
Proof.
  unfold manager_set_cfg, manager_process_cfg. destruct (process_entries _ _ _ _) as [[m1 ev1]|] eqn:Ep; simpl; [|done]. intros [= <- _]. cbn. by apply process_entries_id in Ep.
Qed.

Lemma push_pass e now x mt m m' evs : manager_push_message e now x mt m = Ok (m', evs) -> codec_passphrase m' = codec_passphrase m.
Proof.
  unfold manager_push_message. destruct (al_lookup _ _) as [q|]; [|done]. match goal with |- context [rbind ?r _] => destruct r as [[[? ?] ?]|] end; simpl; [|done]. by intros [= <- _].
Qed.

Lemma fill_on_demand_id e now msg k q m m' evs : fill_on_demand e now msg k q m = Ok (m', evs) -> qid m' = qid m.
Proof.
  unfold fill_on_demand. destruct (_ && _); [|by intros [= <- _]]. destruct (IsInitialized _); [|by intros [= <- _]]. apply push_message_modem_id.
Qed.

Lemma find_next_sender_id e now msg n m m' evs w : find_next_sender e now msg n m = Ok (m', evs, w) -> qid m' = qid m.
Proof.
  assert (H : forall keys w m m' evs w', find_next_sender_loop e now msg n keys w m = Ok (m', evs, w') -> qid m' = qid m).
  { clear. induction keys as [|k keys IH]; simpl; intros w m m' evs w'; [by intros [= <- _ _]|]. destruct (al_lookup k (queues m)) as [q|]; simpl; [|done].
    destruct (fill_on_demand _ _ _ _ _ _) as [[m1 ev1]|] eqn:Ef; simpl; [|done]. destruct (al_lookup k (queues m1)) as [q1|]; simpl; [|done]. destruct (get_priority_values _ _ _ _) as [[[p l] ok]|]; simpl; [|done].
    destruct (find_next_sender_loop _ _ _ _ _ _ _) as [[[m2 ev2] w2]|] eqn:El; simpl; [|done]. intros [= <- _ _]. apply IH in El. rewrite El. by eapply fill_on_demand_id. }
  unfold find_next_sender. destruct (find_next_sender_loop _ _ _ _ _ _ _) as [[[m2 ev2] w2]|] eqn:El; simpl; [|done]. intros [= <- _ _]. by eapply H.
Qed.

Lemma take_user_frame_id e now f o k s s' : take_user_frame e now f o k s = Ok s' -> qid (pk_manager s') = qid (pk_manager s).
Proof.
  unfold take_user_frame. destruct (al_lookup k _) as [q|]; simpl; [|done]. destruct (give_data now f q) as [[q1 next]|]; simpl; [|done].
  destruct (ack_or_pop _ _ _ _) as [[m1 ev]|] eqn:Ea; simpl; [|done]. destruct (discipline_packet _ _ _ _) as [msg m2] eqn:Ed. simpl. destruct (manager_meta_from_msg _ _) as [mt|]; simpl; [|done]. intros H.
  assert (Hm : pk_manager s' = m2) by (destruct (qm_encoded_message (meta next)); [|destruct (pk_passthrough s)]; by injection H as <-). rewrite Hm.
  apply discipline_packet_manager in Ed as (_ & _ & _ & _ & _ & -> & _). revert Ea. unfold ack_or_pop. destruct (meta_ack _); [by intros [= <- _]|].
  destruct (al_lookup _ _) as [q2|]; simpl; [|done]. destruct (pop_message q2) as [[q3 b]|]; simpl; [|done]. by intros [= <- _].
Qed.

Lemma pack_loop_id e now f o fuel k s s' : pack_loop fuel e now f o k s = Ok s' -> qid (pk_manager s') = qid (pk_manager s).
Proof.
  revert k s s'. induction fuel as [|fuel IH]; simpl; intros k s s'; [done|]. destruct (take_user_frame _ _ _ _ _ _) as [s1|] eqn:Et; simpl; [|done]. apply take_user_frame_id in Et. rewrite <- Et.
  destruct (pk_passthrough s1); [by intros [= <-]|]. destruct (0 <? _); [|by intros [= <-]]. destruct (find_next_sender _ _ _ _ _) as [[[m2 ev] w]|] eqn:Ef; simpl; [|done]. apply find_next_sender_id in Ef. rewrite <- Ef.
  destruct w as [k2|]; [intros H; by apply IH in H | by intros [= <-]].
Qed.

Lemma data_request_id fuel e now msg m msg' m' evs : handle_modem_data_request fuel e now msg m = Ok (msg', m', evs) -> qid m' = qid m.
Proof.
  assert (H1 : forall f msg m msg' m' evs, fill_frame fuel e now f msg m = Ok (msg', m', evs) -> qid m' = qid m).
  { clear. intros f msg m msg' m' evs. unfold fill_frame. destruct (find_next_sender _ _ _ _ _) as [[[m1 ev] w]|] eqn:Ef; simpl; [|done]. apply find_next_sender_id in Ef. rewrite <- Ef. destruct w as [k|]; [|by intros [= _ <- _]].
    destruct (pack_loop _ _ _ _ _ _ _) as [s|] eqn:Ep; simpl; [|done]. destruct (encode_frame _ _ _ _ _) as [[pass data]|]; simpl; [|done]. intros [= _ <- _]. cbn. by apply pack_loop_id in Ep. }
  assert (H2 : forall n f msg m msg' m' evs, fill_frames fuel e now n f msg m = Ok (msg', m', evs) -> qid m' = qid m).
  { clear -H1. induction n as [|n IH]; simpl; intros f msg m msg' m' evs; [by intros [= _ <- _]|]. destruct (fill_frame _ _ _ _ _ _) as [[[msg1 m1] ev1]|] eqn:Ef; simpl; [|done].
    destruct (fill_frames _ _ _ _ _ _ _) as [[[msg2 m2] ev2]|] eqn:El; simpl; [|done]. intros [= _ <- _]. apply IH in El. rewrite El. by eapply H1. }
  unfold handle_modem_data_request. destruct (fill_frames _ _ _ _ _ _ _) as [[[msg1 m1] ev1]|] eqn:El; simpl; [|done]. intros [= _ <- _]. apply H2 in El. rewrite El.
  unfold clear_packet. by destruct (clear_packet_loop _ _ _ _ _).
Qed.

Lemma receive_id e t m m' evs : handle_modem_receive e t m = Ok (m', evs) -> qid m' = qid m.
Proof.
  assert (Ha : forall f fuel m m' evs, ack_frame_loop fuel e t f m = Ok (m', evs) -> qid m' = qid m).
  { clear. intros f. induction fuel as [|fuel IH]; simpl; intros m m' evs; (destruct (List.find _ _) as [[z k]|]; [|by intros [= <- _]]); [done|]. destruct (al_lookup k (queues m)) as [q|]; simpl; [|done].
    destruct (pop_message_ack f q) as [[q' removed]|]; simpl; [|done]. match goal with |- context [rbind ?r _] => destruct r as [evs1|]; simpl; [|done] end.
    destruct (ack_frame_loop _ _ _ _ _) as [[m1 ev1]|] eqn:El; simpl; [|done]. intros [= <- _]. by apply IH in El. }
  unfold handle_modem_receive. case_bool_decide.
  - generalize (mt_acked_frame t) as frames. intros frames. revert m m' evs. induction frames as [|f frames IH]; simpl; intros m m' evs; [by intros [= <- _]|]. destruct (negb _); [apply IH|].
    destruct (ack_frame_loop _ _ _ _ _) as [[m1 ev1]|] eqn:El; simpl; [|done]. destruct (process_modem_ack _ _ _ _) as [[m2 ev2]|] eqn:Ep; simpl; [|done]. intros [= <- _]. apply IH in Ep. rewrite Ep. by eapply Ha.
  - generalize (mt_frame t) as frames. intros frames. revert m m' evs. induction frames as [|f frames IH]; simpl; intros m m' evs; [by intros [= <- _]|].
    set (r := if c_skip_decoding (QueueManager.cfg m) then _ else _). destruct r as [[m1 ev1]|] eqn:Er; simpl; [|done].
    assert (E1 : qid m1 = qid m).
    { unfold r in Er. destruct (c_skip_decoding _); [by injection Er as <- _|]. destruct (decode_repeated _ _ _ _ _) as [[pass ms]|]; simpl in Er; [|done]. by injection Er as <- _. }
    destruct (route_frame _ _ _ _) as [ev|]; simpl; [|done]. destruct (receive_frames _ _ _ _) as [[m2 ev2]|] eqn:El; simpl; [|done]. intros [= <- _]. apply IH in El. congruence.
Qed.

End Identifier.

(** ** The invariant *)

Section BridgeInvariant.
Context `{P : Protobuf} `{DC : !DCCLCodec} {TX : BoostText} {BM : BridgeMessages}.
Variable cfg : BridgeConfig.
Variables (mac_fuel queue_fuel : nat).
Implicit Types (b : Bridge) (m : QueueManager).
Abbreviation qid := QueueManager.modem_id.
Abbreviation bprog := (prog Bridge BridgeEvent BridgeExn).

(** with the managers of the first [n] subnets configured and the first [k] known to the router,
    which reaches each only with the subnet of its identifier *)
Record configured (n k : nat) b : Prop := MkConfigured {
  cf_managers : length (b_queues b) = length (bc_subnet cfg);
  cf_macs : length (b_macs b) = length (bc_subnet cfg);
  cf_ids : forall i m s, (i < n)%nat -> b_queues b !! i = Some m -> bc_subnet cfg !! i = Some s -> qid m = c_modem_id (sn_queue_cfg s);
  cf_tables : Forall manager_wf (b_queues b);
  cf_codec : exists p, Forall (fun m => codec_passphrase m = p) (b_queues b);
  cf_route : forall s j, al_lookup s (subnet_map (b_router b)) = Some j -> (j < k)%nat /\ exists m, b_queues b !! j = Some m /\ subnet_of (b_router b) (qid m) = s;
  cf_mask : r_subnet_mask (r_cfg (b_router b)) = r_subnet_mask (bc_route_cfg cfg)
}.

(** the parts of the state that it is about *)
Lemma configured_ext n k b b' : b_queues b' = b_queues b -> length (b_macs b') = length (b_macs b) -> subnet_map (b_router b') = subnet_map (b_router b) -> r_subnet_mask (r_cfg (b_router b')) = r_subnet_mask (r_cfg (b_router b)) ->
  configured n k b -> configured n k b'.
Proof.
  intros Eq Em Es Ek [H1 H2 H3 H4 H5 H6 H7]. constructor; rewrite ?Eq, ?Em, ?Es, ?Ek; try done. intros s j Hj. destruct (H6 s j Hj) as (Hn & m & Hm & Hs). split; [done|]. exists m. split; [done|].
  rewrite <- Hs. unfold subnet_of, subnet_mask. by rewrite Ek.
Qed.

(** a manager replaced by one with the same identifier, and the same codec for all *)
Lemma managers_replaced n k b qs : length qs = length (b_queues b) ->
  (forall i m', qs !! i = Some m' -> exists m, b_queues b !! i = Some m /\ qid m' = qid m) -> Forall manager_wf qs -> (exists p, Forall (fun m => codec_passphrase m = p) qs) ->
  configured n k b -> configured n k (set_b_queues qs b).
Proof.
  intros Hl Hi Hw Hc [H1 H2 H3 H4 H5 H6 H7]. constructor; cbn [b_queues b_macs b_router set_b_queues]; try done; [by rewrite Hl | |].
  - intros i m s Hn Hm Hs. destruct (Hi i m Hm) as (m0 & Hm0 & ->). by eapply H3.
  - intros s j Hj. destruct (H6 s j Hj) as (Hn & m & Hm & Hs). split; [done|]. destruct (lookup_lt_is_Some_2 qs j) as [m' Hm']; [rewrite Hl; by eapply lookup_lt_Some|].
    exists m'. split; [done|]. destruct (Hi j m' Hm') as (m0 & Hm0 & Hid). rewrite Hm in Hm0. injection Hm0 as <-. by rewrite Hid.
Qed.

Lemma set_manager_configured n k i m m' b : b_queues b !! i = Some m -> manager_wf m' -> qid m' = qid m -> configured n k b -> configured n k (set_manager i m' b).
Proof.
  intros Hm Hw Hid Hc. unfold set_manager. apply managers_replaced; [by rewrite length_map, length_insert | | | | done].
  - intros j x Hx. change (map ?f ?l) with (f <$> l) in Hx. rewrite list_lookup_fmap in Hx. apply fmap_Some in Hx as (y & Hy & ->). cbn. destruct (decide (i = j)) as [<-|Hne].
    + rewrite list_lookup_insert_eq in Hy by (by eapply lookup_lt_Some). injection Hy as <-. by exists m.
    + rewrite list_lookup_insert_ne in Hy by done. by exists y.
  - apply Forall_map. apply Forall_insert; [|by eapply manager_wf_ext; [| |exact Hw]]. eapply Forall_impl; [apply Hc|]. intros x Hx. by eapply manager_wf_ext; [| |exact Hx].
  - exists (codec_passphrase m'). apply Forall_map, Forall_true. done.
Qed.

Lemma manager_keeps n k i : keeps (configured n k) (manager i).
Proof. unfold manager. apply keeps_bind; [apply keeps_get | intros b]. destruct (b_queues b !! i); [apply keeps_ret | apply keeps_throw]. Qed.
Lemma publish_keeps n k p i x : keeps (configured n k) (publish_for p i x).
Proof. apply keeps_emit. Qed.
Lemma hw_ctl_keeps n k c : keeps (configured n k) (pmod (set_b_hw_ctl c) : bprog unit).
Proof. apply keeps_mod. intros b. by apply configured_ext. Qed.
Lemma time_update_keeps n k c : keeps (configured n k) (pmod (set_b_time_update c) : bprog unit).
Proof. apply keeps_mod. intros b. by apply configured_ext. Qed.
#[local] Hint Resolve manager_keeps publish_keeps hw_ctl_keeps time_update_keeps : prog.

Lemma receive_signal_keeps n k i msg : keeps (configured n k) (handle_queue_receive cfg i msg).
Proof.
  unfold handle_queue_receive. apply keeps_bind; [apply manager_keeps | intros m]. apply keeps_bind; [apply publish_keeps | intros _]. destruct (as_route_command msg) as [hops|].
  - apply keeps_mod. intros b Hb. apply (configured_ext n k b); try done. cbn. by rewrite (cf_mask _ _ _ Hb).
  - destruct (as_hw_command msg); [apply hw_ctl_keeps|]. destruct (as_time_request msg); [|apply keeps_ret]. apply keeps_mod. intros b. by apply configured_ext.
Qed.
#[local] Hint Resolve receive_signal_keeps : prog.

Lemma link_ack_keeps n k i msg : keeps (configured n k) (handle_link_ack i msg).
Proof. unfold handle_link_ack. keeps_all. Qed.
#[local] Hint Resolve link_ack_keeps : prog.

Lemma info_keeps n k i ev : keeps (configured n k) (queue_info cfg i ev).
Proof. destruct ev; cbn [queue_info]; keeps_all. Qed.
#[local] Hint Resolve info_keeps : prog.

(** a message that is routed is pushed on one of the managers *)
Lemma routed_configured n k b now mt msg id qs evs : configured n k b -> handle_in (environment b) now (b_router b) mt msg id (b_queues b) = Ok (qs, evs) -> configured n k (set_b_queues qs b).
Proof.
  intros Hb. unfold handle_in. destruct (meta_dest mt =? id); [intros [= <- _]; by apply (configured_ext n k b)|]. destruct (negb _); [|intros [= <- _]; by apply (configured_ext n k b)].
  destruct (al_lookup _ _) as [j|]; [|intros [= <- _]; by apply (configured_ext n k b)]. destruct (b_queues b !! j) as [m|] eqn:Hm; [|done]. cbn [deref rbind].
  destruct (manager_push_message _ _ _ _ m) as [[m' ev]|] eqn:Hp; [|done]. cbn [rbind]. intros [= <- _].
  pose proof (Forall_lookup_1 _ _ _ _ (cf_tables _ _ _ Hb) Hm) as Hw. destruct (cf_codec _ _ _ Hb) as [p Hc]. apply managers_replaced; [by rewrite length_insert | | | | done].
  - intros i x Hx. destruct (decide (j = i)) as [<-|Hne]; [rewrite list_lookup_insert_eq in Hx by (by eapply lookup_lt_Some); injection Hx as <- | rewrite list_lookup_insert_ne in Hx by done; by exists x].
    exists m. split; [done | by eapply push_message_modem_id].
  - apply Forall_insert; [apply Hb | by eapply manager_push_message_wf].
  - exists p. apply Forall_insert; [done|]. rewrite (push_pass _ _ _ _ _ _ _ Hp). by apply (Forall_lookup_1 _ _ _ _ Hc Hm).
Qed.

Lemma route_in_keeps n k now mt msg id : keeps (configured n k) (route_in cfg now mt msg id).
Proof.
  intros b Hb. unfold route_in. rewrite pbind_get. destruct (handle_in _ _ _ _ _ _ _) as [[qs evs]|x] eqn:Hr; [|done]. rewrite pbind_mod. pose proof (routed_configured n k b now mt msg id qs evs Hb Hr) as H.
  destruct (al_lookup _ _) as [j|]; [|done]. revert H. generalize (set_b_queues qs b). intros b1 H1. revert b1 H1. change (keeps (configured n k) (pfor evs (queue_info cfg j))). apply keeps_for. intros ev. apply info_keeps.
Qed.
#[local] Hint Resolve route_in_keeps : prog.

Lemma signal_keeps n k now i ev : keeps (configured n k) (queue_signal cfg now i ev).
Proof. destruct ev; cbn [queue_signal]; first [apply route_in_keeps | apply info_keeps]. Qed.
#[local] Hint Resolve signal_keeps : prog.

(** a call that keeps the tables and the identifier *)
Definition safe_call (f : Environment -> QueueManager -> result ManagerError (QueueManager * list Event)) : Prop :=
  forall e m m' evs, manager_wf m -> f e m = Ok (m', evs) -> manager_wf m' /\ qid m' = qid m.

Lemma manager_some {A} i m (k : QueueManager -> bprog A) b : b_queues b !! i = Some m -> pbind (manager i) k b = k m b.
Proof. intros Hm. unfold manager. by rewrite pbind_assoc, pbind_get, Hm, pbind_ret. Qed.
Lemma manager_none {A} i (k : QueueManager -> bprog A) b : b_queues b !! i = None -> pbind (manager i) k b = (b, [], Err BridgeUndefined).
Proof. intros Hm. unfold manager. by rewrite pbind_assoc, pbind_get, Hm. Qed.

Lemma on_manager_keeps n k now i f : safe_call f -> keeps (configured n k) (on_manager cfg now i f).
Proof.
  intros Hf b Hb. unfold on_manager. rewrite pbind_get. destruct (b_queues b !! i) as [m|] eqn:Hm; [|by rewrite manager_none].
  rewrite (manager_some i m) by done. destruct (f (environment b) m) as [[m' evs]|x] eqn:Ef; [|done]. rewrite pbind_mod.
  destruct (Hf _ _ _ _ (Forall_lookup_1 _ _ _ _ (cf_tables _ _ _ Hb) Hm) Ef) as [Hw Hid]. pose proof (set_manager_configured n k i m m' b Hm Hw Hid Hb) as H. revert H. generalize (set_manager i m' b). intros b1 H1. revert b1 H1.
  change (keeps (configured n k) (pfor evs (queue_signal cfg now i))). apply keeps_for. intros ev. apply signal_keeps.
Qed.

Lemma safe_work now : safe_call (fun e m => QueueManager.do_work e now m).
Proof. intros e m m' evs Hw H. split; [by eapply do_work_loop_wf | by eapply do_work_id]. Qed.
Lemma safe_push now msg mt : safe_call (fun e m => manager_push_message e now msg mt m).
Proof. intros e m m' evs Hw H. split; [by eapply manager_push_message_wf | by eapply push_message_modem_id]. Qed.
Lemma safe_receive t : safe_call (fun e m => handle_modem_receive e t m).
Proof. intros e m m' evs Hw H. split; [by eapply manager_step_wf; [eapply MStepReceive|] | by eapply receive_id]. Qed.

Lemma own_keeps n k now i msg : keeps (configured n k) (route_own cfg now i msg).
Proof. unfold route_own. apply keeps_bind; [apply manager_keeps | intros m]. destruct (manager_meta_from_msg m msg); [apply route_in_keeps | apply keeps_throw]. Qed.
#[local] Hint Resolve own_keeps : prog.

Lemma hw_ack_keeps n k now i a : keeps (configured n k) (generate_hw_ctl_network_ack cfg now i a).
Proof. unfold generate_hw_ctl_network_ack. keeps_all. Qed.
Lemma time_ack_keeps n k now i a : keeps (configured n k) (generate_time_update_network_ack cfg now i a).
Proof. unfold generate_time_update_network_ack. keeps_all. Qed.
Lemma expired_keeps n k t now : keeps (configured n k) (expired cfg t now).
Proof. unfold expired. keeps_all. Qed.
Lemma first_keeps n k : keeps (configured n k) first_manager.
Proof. unfold first_manager. keeps_all. Qed.
#[local] Hint Resolve hw_ack_keeps time_ack_keeps expired_keeps first_keeps : prog.

Lemma expire_hw_keeps n k now : keeps (configured n k) (expire_hw_ctl cfg now).
Proof. unfold expire_hw_ctl. keeps_all. Qed.
Lemma expire_time_keeps n k now : keeps (configured n k) (expire_time_update cfg now).
Proof. unfold expire_time_update. keeps_all. Qed.
Lemma time_receive_keeps n k now i t : keeps (configured n k) (receive_time_update cfg now i t).
Proof. unfold receive_time_update. keeps_all. Qed.
Lemma hw_receive_keeps n k now i t : keeps (configured n k) (receive_hw_ctl cfg now i t).
Proof. unfold receive_hw_ctl. keeps_all. Qed.
#[local] Hint Resolve expire_hw_keeps expire_time_keeps time_receive_keeps hw_receive_keeps : prog.

Lemma receive_keeps n k now i t : keeps (configured n k) (bridge_modem_receive cfg now i t).
Proof.
  unfold bridge_modem_receive. apply keeps_catch; [|intros x c; destruct (caught x); [intros [= <-]; apply keeps_ret | done]]. apply keeps_bind; [apply on_manager_keeps, safe_receive | intros _]. keeps_all.
Qed.
Lemma push_keeps n k now i msg : keeps (configured n k) (handle_external_push cfg now i msg).
Proof. unfold handle_external_push. apply keeps_catch; [apply on_manager_keeps, safe_push|]. intros x c. destruct (caught x); [intros [= <-]; apply keeps_ret | done]. Qed.
Lemma status_keeps n k now i st : keeps (configured n k) (handle_driver_status cfg now i st).
Proof. apply own_keeps. Qed.

Lemma request_keeps n k now i t : keeps (configured n k) (handle_data_request cfg queue_fuel now i t).
Proof.
  intros b Hb. unfold handle_data_request. rewrite pbind_get. destruct (b_queues b !! i) as [m|] eqn:Hm; [|by rewrite manager_none]. rewrite (manager_some i m) by done.
  destruct (handle_modem_data_request _ _ _ _ m) as [[[msg m'] evs]|x] eqn:Er; [|done]. rewrite pbind_mod.
  pose proof (set_manager_configured n k i m m' b Hm (handle_modem_data_request_wf _ _ _ _ _ _ _ _ (Forall_lookup_1 _ _ _ _ (cf_tables _ _ _ Hb) Hm) Er) (data_request_id _ _ _ _ _ _ _ _ Er) Hb) as H.
  revert H. generalize (set_manager i m' b). intros b1 H1. revert b1 H1. change (keeps (configured n k) (pbind (pfor evs (queue_signal cfg now i)) (fun _ => publish_for (B "DataResponse") (subnet_modem_id cfg i) (PTransmission (set_base msg t))))). keeps_all.
Qed.
#[local] Hint Resolve receive_keeps push_keeps status_keeps request_keeps : prog.

Lemma initiate_keeps n k now i t : keeps (configured n k) (bridge_initiate cfg now i t).
Proof. unfold bridge_initiate, override_time_update. keeps_all. Qed.
#[local] Hint Resolve initiate_keeps : prog.

Lemma mac_keeps n k now i : keeps (configured n k) (mac_work cfg mac_fuel now i).
Proof.
  unfold mac_work. apply keeps_bind; [apply keeps_get | intros b0]. destruct (b_macs b0 !! i) as [m|]; [|apply keeps_throw]. destruct (Mac.timer m); [|apply keeps_ret]. destruct (_ <? _); [apply keeps_ret|].
  destruct (begin_slot _ _ _ _) as [[m' evs]|]; [|apply keeps_throw]. apply keeps_bind.
  - apply keeps_mod. intros b. apply configured_ext; try done. cbn. by rewrite length_insert.
  - intros _. apply keeps_for. intros []; cbn [mac_signal]; [apply initiate_keeps | apply keeps_ret].
Qed.

Lemma loop_keeps n k now : keeps (configured n k) (bridge_loop cfg mac_fuel now).
Proof.
  unfold bridge_loop. apply keeps_bind; [apply keeps_get | intros b]. apply keeps_bind; [apply keeps_for; intros i; apply on_manager_keeps, safe_work | intros _].
  apply keeps_bind; [apply keeps_for; intros i; apply mac_keeps | intros _]. keeps_all.
Qed.

Lemma mail_keeps n k now g (pay : Payload Msg) : keeps (configured n k) (bridge_mail cfg queue_fuel now g pay).
Proof.
  unfold bridge_mail. apply keeps_for. intros [[g' x] i]. apply keeps_when. destruct x, pay; cbn [bridge_handler]; auto with prog nocore; apply keeps_ret.
Qed.

(** ** Construction *)

Lemma subnet_same_mask r r' i : r_subnet_mask (r_cfg r) = r_subnet_mask (r_cfg r') -> subnet_of r i = subnet_of r' i.
Proof. unfold subnet_of, subnet_mask. by intros ->. Qed.


(** the manager of the next subnet gets its identifier *)
Lemma set_manager_configures i m m' s b : b_queues b !! i = Some m -> bc_subnet cfg !! i = Some s -> manager_wf m' -> qid m' = c_modem_id (sn_queue_cfg s) -> configured i i b -> configured (S i) i (set_manager i m' b).
Proof.
  intros Hm Hs Hw Hid [H1 H2 H3 H4 [p H5] H6 H7].
  assert (Hl : forall j x, b_queues (set_manager i m' b) !! j = Some x -> (j = i /\ qid x = c_modem_id (sn_queue_cfg s)) \/ (j <> i /\ exists y, b_queues b !! j = Some y /\ qid x = qid y)).
  { intros j x Hx. cbn in Hx. change (map ?f ?l) with (f <$> l) in Hx. rewrite list_lookup_fmap in Hx. apply fmap_Some in Hx as (y & Hy & ->). destruct (decide (i = j)) as [<-|Hne].
    - rewrite list_lookup_insert_eq in Hy by (by eapply lookup_lt_Some). injection Hy as <-. by left.
    - rewrite list_lookup_insert_ne in Hy by done. right. split; [done | by exists y]. }
  constructor; try done.
  - cbn. by rewrite length_map, length_insert.
  - intros j x s' Hj Hx Hs'. destruct (Hl j x Hx) as [[-> Hq]|(Hne & y & Hy & ->)]; [congruence|]. apply (H3 j y s'); [lia | done..].
  - cbn. apply Forall_map. apply Forall_insert; [|by eapply manager_wf_ext; [| |exact Hw]]. eapply Forall_impl; [exact H4|]. intros x Hx. by eapply manager_wf_ext; [| |exact Hx].
  - exists (codec_passphrase m'). cbn. apply Forall_map, Forall_true. done.
  - intros s' j Hj. destruct (H6 s' j Hj) as (Hn & x & Hx & Hq). split; [done|]. destruct (lookup_lt_is_Some_2 (b_queues (set_manager i m' b)) j) as [x' Hx']; [cbn; rewrite length_map, length_insert; by eapply lookup_lt_Some|].
    exists x'. split; [done|]. destruct (Hl j x' Hx') as [[-> _]|(_ & y & Hy & ->)]; [lia|]. rewrite Hx in Hy. injection Hy as <-. exact Hq.
Qed.

(** [on_manager] for a call that gives the manager its identifier *)
Lemma configure_extends now i s : bc_subnet cfg !! i = Some s ->
  triple (configured i i) (configure_subnet cfg mac_fuel now i s) (fun _ => configured (S i) (S i)) (fun _ _ => True).
Proof.
  intros Hs. unfold configure_subnet. eapply (triple_bind _ (fun _ => configured (S i) i)).
  - intros b Hb. unfold on_manager. rewrite pbind_get. destruct (b_queues b !! i) as [m|] eqn:Hm; [|by rewrite manager_none]. rewrite (manager_some i m) by done.
    destruct (manager_set_cfg _ _ _ m) as [[m' evs]|x] eqn:Ef; [|done]. rewrite pbind_mod.
    assert (Hw : manager_wf m') by (eapply manager_step_wf; [by eapply MStepSetCfg | by apply (Forall_lookup_1 _ _ _ _ (cf_tables _ _ _ Hb) Hm)]).
    pose proof (set_manager_configures i m m' s b Hm Hs Hw (set_cfg_id _ _ _ _ _ _ Ef) Hb) as H. pose proof (keeps_for (configured (S i) i) evs (queue_signal cfg now i) (signal_keeps (S i) i now i) _ H) as Hk.
    destruct (pfor evs _ _) as [[b2 e2] [[]|x]]; done.
  - intros _ b Hb. rewrite pbind_get. destruct (mac_startup _ _ _ _) as [mac|]; [|done]. rewrite pbind_mod. set (b1 := set_b_macs _ b).
    assert (Hb1 : configured (S i) i b1) by (apply (configured_ext _ _ b); try done; cbn; by rewrite length_insert).
    destruct (b_queues b1 !! i) as [m|] eqn:Hm; [|by rewrite manager_none]. rewrite (manager_some i m) by done. cbn.
    destruct Hb1 as [H1 H2 H3 H4 H5 H6 H7]. constructor; try done. intros s' j. cbn [b_router set_b_router add_subnet_queue subnet_map]. rewrite al_lookup_insert. destruct (s' =? _) eqn:E; to_prop.
    + intros [= <-]. split; [lia|]. exists m. split; [done|]. by subst s'.
    + intros Hj. destruct (H6 s' j Hj) as (Hn & x & Hx & Hq). split; [lia|]. exists x. by split.
Qed.

Lemma configure_all now l : forall i, drop i (bc_subnet cfg) = l ->
  triple (configured i i) (pfor (imap (fun j s => ((i + j)%nat, s)) l) (fun e => configure_subnet cfg mac_fuel now (fst e) (snd e))) (fun _ => configured (length (bc_subnet cfg)) (length (bc_subnet cfg))) (fun _ _ => True).
Proof.
  induction l as [|s l IH]; intros i Hl.
  - assert (Hi : (length (bc_subnet cfg) <= i)%nat) by (assert (H := length_drop (bc_subnet cfg) i); rewrite Hl in H; cbn in H; lia). intros b [H1 H2 H3 H4 H5 H6 H7]. cbn. constructor; try done.
    + intros j m s _ Hm Hs. apply (H3 j m s); [|done..]. apply lookup_lt_Some in Hs. lia.
    + intros s j Hj. destruct (H6 s j Hj) as (_ & m & Hm & Hq). split; [|by exists m]. rewrite <- H1. by eapply lookup_lt_Some.
  - assert (Hs : bc_subnet cfg !! i = Some s) by (rewrite <- (Nat.add_0_r i), <- lookup_drop, Hl; done).
    assert (Hd : drop (S i) (bc_subnet cfg) = l) by (rewrite <- Nat.add_1_r, <- drop_drop, Hl; done).
    cbn [imap pfor]. eapply (triple_bind _ (fun _ => configured (S i) (S i))).
    + cbn [fst snd]. rewrite Nat.add_0_r. by apply configure_extends.
    + intros _. specialize (IH (S i) Hd). erewrite (imap_ext _ _ l); [exact IH|]. intros j x _. cbn. f_equal. lia.
Qed.

Lemma new_bridge_configured now b0 : match new_bridge cfg mac_fuel now b0 with (b, _, Ok _) => configured (length (bc_subnet cfg)) (length (bc_subnet cfg)) b | (_, _, Err _) => True end.
Proof.
  unfold new_bridge.
  assert (Hl : forall (l : list bytes) f (b : Bridge), (exists e, pfor l (fun x => pwhen (f x) (pthrow BridgeDies) : bprog unit) b = (b, e, Ok tt)) \/ (exists e, pfor l (fun x => pwhen (f x) (pthrow BridgeDies) : bprog unit) b = (b, e, Err BridgeDies))).
  { intros l f b. induction l as [|x l IH]; [left; by exists []|]. cbn [pfor]. destruct (f x); cbn [pwhen]; [right; by exists [] | rewrite pbind_ret; exact IH]. }
  unfold pbind at 1. destruct (Hl (bc_load_shared_library cfg) (fun l => negb (load_from_shared_lib l)) b0) as [[e ->]|[e ->]]; [|done].
  unfold pbind at 1. destruct (Hl (bc_load_proto_file cfg) (fun l => negb (load_from_proto_file l)) b0) as [[e' ->]|[e' ->]]; [|done].
  rewrite pbind_mod. set (b := MkBridge _ _ _ _ _ _). assert (Hb : configured 0 0 b).
  { constructor; cbn; rewrite ?length_map; try done; [intros; lia | |].
    - apply Forall_map, Forall_true. intros s. eapply manager_wf_ext; [| |exact new_manager_wf]; done.
    - exists (bc_crypto_passphrase cfg). by apply Forall_map, Forall_true. }
  pose proof (configure_all now (bc_subnet cfg) 0 eq_refl b Hb) as H. change (imap (fun j s => ((0 + j)%nat, s)) (bc_subnet cfg)) with (imap pair (bc_subnet cfg)) in H.
  destruct (pfor _ _ b) as [[b1 e1] [[]|x]]; done.
Qed.

(** ** Reachable states *)

(** a message that came, or a round *)
Inductive bridge_step : Bridge -> Bridge -> Prop :=
| BridgeMail now g pay b b' evs : bridge_mail cfg queue_fuel now g pay b = (b', evs, Ok tt) -> bridge_step b b'
| BridgeRound now b b' evs : bridge_loop cfg mac_fuel now b = (b', evs, Ok tt) -> bridge_step b b'.

End BridgeInvariant.

Section BridgeReachable.
Context `{P : Protobuf} `{DC : !DCCLCodec} {TX : BoostText} {BM : BridgeMessages}.


End BridgeReachable.
