(* ===== verification/BridgeLink.v ===== *)
(** * A frame across the bridge

    A frame that comes in on one subnet for a modem on another: the modem
    driver application of the first subnet publishes it, the bridge routes it
    to the queue manager of the second, and the modem driver application there
    fetches it with a data request in the next slot and sends the same bytes
    to the next hop. *)

From Stdlib Require Import SpecFloat.
From S2P Require Import Prelude AssocList Double Time As Proto Nmea Queue QueueManager QueueManagerProofs Route Mac UdpDriver Prog DriverBase MmData AcommsHandler AcommsDrivers AcommsRestart AcommsLink ModemApp Bridge BridgeProofs.
#[local] Open Scope prog_scope.

(** ** One frame through the two queue managers *)

Section Transit.
Context `{P : Protobuf} `{DC : !DCCLCodec} {TX : BoostText} {L : DCCLCodecLaws}.
Implicit Types (m : QueueManager) (q : Queue).

(** the meta data with which a frame in transit is routed *)
Definition transit_meta (bs : bytes) (mt : QueuedMessageMeta) : QueuedMessageMeta := set_qm_non_repeated_size (Some (Z.of_nat (length bs))) (set_qm_encoded_message (Some bs) mt).

(** a frame with the message [msg], whose header alone is [hmsg], for another modem *)
Record in_transit (m : QueueManager) (bs : bytes) (msg hmsg : Msg) (mt : QueuedMessageMeta) : Prop := MkInTransit {
  it_nonempty : bs <> [];
  it_decodes : c_skip_decoding (QueueManager.cfg m) = true \/
    (codec_decode (codec_passphrase m) bs = Some msg /\ codec_size msg = Z.of_nat (length bs) /\ exists mtf, manager_meta_from_msg m msg = Ok mtf /\ meta_dest mtf = meta_dest mt);
  it_header : codec_decode_head (codec_passphrase m) bs = Some hmsg;
  it_meta : manager_meta_from_msg m hmsg = Ok mt;
  it_dest : meta_dest mt <> BROADCAST_ID /\ meta_dest mt <> QueueManager.modem_id m
}.

Lemma receive_transit e m t bs msg hmsg mt : in_transit m bs msg hmsg mt -> encrypt_rules m = [] -> manips m = [] -> e_in_route_connected e = true -> type t <> ACK -> mt_frame t = [bs] -> dest t = QueueManager.modem_id m ->
  exists m', handle_modem_receive e t m = Ok (m', [SigInRoute (transit_meta bs mt) hmsg (QueueManager.modem_id m)]) /\ codec_passphrase m' = codec_passphrase m /\ queues m' = queues m /\ QueueManager.modem_id m' = QueueManager.modem_id m /\ m' = set_codec_passphrase (codec_passphrase m) m.
Proof.
  intros [Hne Hdec Hh Hmt [Hb Hd]] Hru Hma He Ht Hfr Hdt. unfold handle_modem_receive. rewrite bool_decide_eq_false_2 by done. rewrite Hfr. cbn [receive_frames].
  assert (E : exists m1, (if c_skip_decoding (QueueManager.cfg m) then Ok (m, []) else let? (pass, msgs) := decode_repeated (length bs) m (codec_passphrase m) bs [] in
      Ok (set_codec_passphrase pass m, match msgs with Some msgs => concat (map (deliver m) msgs) | None => [] end)) = Ok (m1, []) /\ m1 = set_codec_passphrase (codec_passphrase m) m).
  { destruct Hdec as [->|(Hdc & Hsz & mtf & Hmf & Hdf)]; [exists m; split; [done | by destruct m]|]. destruct (c_skip_decoding _); [exists m; split; [done | by destruct m]|].
    destruct bs as [|c bs]; [done|]. set (l := c :: bs) in *. unfold l at 1 2. cbn [decode_repeated length]. fold l. rewrite Hru, Hdc, Hmf. cbn [rbind].
    rewrite Hsz, Nat2Z.id, drop_all. assert (decode_repeated (length bs) m (codec_passphrase m) [] ([] ++ [MkQueued msg mtf]) = Ok (codec_passphrase m, Some [MkQueued msg mtf])) as -> by (by destruct (length bs)).
    cbn [rbind map concat]. unfold deliver. cbn [meta dccl_msg]. rewrite Hdf, (proj2 (Z.eqb_neq _ _) Hb), (proj2 (Z.eqb_neq _ _) Hd), !(no_manips m Hma). cbn. by eexists. }
  destruct E as (m1 & -> & ->). cbn [rbind]. set (m1 := set_codec_passphrase _ m). unfold route_frame. rewrite He. change (codec_passphrase m1) with (codec_passphrase m). rewrite Hh.
  change (manager_meta_from_msg m1 hmsg) with (manager_meta_from_msg m hmsg). rewrite Hmt. cbn [rbind]. change (QueueManager.modem_id m1) with (QueueManager.modem_id m). rewrite Hdt, Z.eqb_refl. cbn [orb rbind app].
  exists m1. split; [done|]. split; [done|]. split; [done|]. by split.
Qed.

(** the message is queued with the destination that the router gives it *)
Lemma push_transit e now k q m msg mt mt' : plain k q m -> q_messages q = [] -> 0 <= cfg_max_queue (q_cfg q) -> codec_id (GetDescriptor msg) = k ->
  e_out_route e mt msg (c_modem_id (QueueManager.cfg m)) = mt' -> meta_dest mt' <> QueueManager.modem_id m -> meta_size mt' <> 0 ->
  manager_push_message e now msg (Some mt) m = Ok (set_queue k (holding now msg mt' q) m, [SigQueueSize k 1]).
Proof.
  intros Hp He Hmax Hid Hr Hd Hs. pose proof Hp as [Hq Hm _ _ Hk]. unfold manager_push_message. rewrite Hid, Hq. cbn [al_lookup]. rewrite Z.eqb_refl. unfold push_message_meta. cbn [parent_of p_has p_out_route p_modem_id p_cfg_modem_id].
  rewrite !(manip_plain k q m Hp), Hr. cbn [andb]. rewrite (proj2 (Z.eqb_neq _ _) Hd).
  rewrite (proj2 (Z.eqb_neq (meta_size (match qm_time mt' with Some _ => mt' | None => set_qm_time (Some now) mt' end)) 0)) by (by destruct (qm_time mt')).
  cbn [rbind]. rewrite He. cbn [app]. change (set_q_messages [(q_next_node q, _)] (set_q_next_node (S (q_next_node q)) q)) with (holding now msg mt' q).
  assert (enforce_max_queue (holding now msg mt' q) = holding now msg mt' q) as ->.
  { unfold enforce_max_queue. change (size (holding now msg mt' q)) with 1%nat. change (q_cfg (holding now msg mt' q)) with (q_cfg q).
    destruct (Z.eq_dec (cfg_max_queue (q_cfg q)) 0) as [->|Hne]; [done|]. rewrite (proj2 (Z.ltb_ge _ _)) by lia. by rewrite andb_false_r. }
  unfold qsize. change (size (holding now msg mt' q)) with 1%nat. unfold id. change (q_desc (holding now msg mt' q)) with (q_desc q). by rewrite Hk.
Qed.

(** the frame that passes through is packed as it is *)
Lemma take_transit e now k q m r max x mx mt bs : plain k q m -> q_messages q = [(x, mx)] -> q_waiting_for_ack q = [] -> asks r max -> codec_id (GetDescriptor (dccl_msg mx)) = k -> meta_from_msg q (dccl_msg mx) = Ok mt ->
  qm_encoded_message (meta mx) = Some bs ->
  exists q' m' evs, take_user_frame e now (frame_start r) 0 k (MkPacking m (set_mt_frame [[]] r) 0 [] None []) =
      Ok (MkPacking m' (disciplined (QueueManager.modem_id m) (meta_dest (meta mx)) (set_mt_frame [[]] r)) 0 [MkQueued (dccl_msg mx) mt] (Some bs) evs) /\
    spent k q q' m m' /\ Forall (fun ev => exists n, ev = SigQueueSize k n) evs.
Proof.
  intros Hp Hm Hw [Hfr _ Hs Hd _ _] Hid Hmt Hpl. destruct (ack_or_pop_single (frame_start r) now k q m x mx Hp Hm Hw) as (q1 & next & q' & m1 & evs & Hg & Hnm & Hnd & Hne & Hd1 & Hap & [(Hq1 & Hma & Hru) Hpa Hdo Hme] & Hmi & Hev).
  pose proof Hp as [Hq _ _ _ _]. destruct (discipline_single next (set_mt_frame [[]] r) m1 Hd) as (m' & Hdp & Hq2 & Hma2 & Hru2 & Hpa2).
  exists q', m', evs. split; [|split; [split; [by rewrite Hq2, Hma2, Hru2 | by rewrite Hpa2 | done | done] | done]].
  unfold take_user_frame. cbn [pk_manager pk_msg pk_passthrough pk_dccl_msgs pk_events pk_data_size]. rewrite Hq. cbn [al_lookup]. rewrite Z.eqb_refl. cbn [deref rbind]. rewrite Hg. cbn [deref rbind]. rewrite Hne, Hpl.
  rewrite (no_manips (set_queue k q1 m)) by apply Hp. rewrite Hap. cbn [rbind]. change (frame_start r) with (frame_start (set_mt_frame [[]] r)). rewrite Hdp. unfold manager_meta_from_msg. rewrite Hnm, Hid, Hq2, Hq1.
  cbn [al_lookup]. rewrite Z.eqb_refl. rewrite (meta_spent q q'), Hmt by apply Hme. cbn [lift rbind app]. by rewrite Hmi, Hnd.
Qed.

Lemma request_transit fuel e now k q m r max x mx mt bs head : plain k q m -> q_messages q = [(x, mx)] -> q_waiting_for_ack q = [] -> asks r max -> codec_id (GetDescriptor (dccl_msg mx)) = k -> meta_from_msg q (dccl_msg mx) = Ok mt ->
  qm_encoded_message (meta mx) = Some bs -> message_fits now q (set_mt_frame [[]] r) 0 (meta mx) = true -> codec_encode_head (codec_passphrase m) (dccl_msg mx) = Some head -> take (length head) bs = head ->
  exists ack q' m' evs, handle_modem_data_request (S fuel) e now r m =
      Ok (set_mt_ack_requested (Some ack) (set_mt_frame [bs] (disciplined (QueueManager.modem_id m) (meta_dest (meta mx)) r)), m', evs) /\
    spent k q q' m m' /\ Forall (fun ev => exists n, ev = SigQueueSize k n) evs.
Proof.
  intros Hp Hm Hw Ha Hid Hmt Hpl Hf He Hh. pose proof Hp as [Hq Hman Hru Hwa Hk]. pose proof Ha as [Hfr Hn Hst _ _ _].
  unfold handle_modem_data_request. set (m0 := clear_packet e now r m).
  assert (Hm0 : plain k q m0 /\ QueueManager.modem_id m0 = QueueManager.modem_id m /\ codec_passphrase m0 = codec_passphrase m) by (unfold m0, clear_packet; rewrite Hwa; by split).
  destruct Hm0 as (Hp0 & Hid0 & Hpa0). destruct (take_transit e now k q m0 r max x mx mt bs Hp0 Hm Hw Ha Hid Hmt Hpl) as (q' & m' & evs & Htk & [(Hq' & Hma' & Hru') Hpa Hd Hme] & Hev).
  assert (Hc : Z.to_nat (u32 (max_num_frames r + frame_start r) - frame_start r) = 1%nat) by (rewrite Hn; unfold u32; rewrite wrap_small by lia; lia). rewrite Hc. cbn [fill_frames]. unfold fill_frame.
  assert (Hd0 : data_of_frame 0 r = [] /\ set_frame 0 [] r = set_mt_frame [[]] r) by (unfold data_of_frame, set_frame, frame_size; by rewrite Hfr). destruct Hd0 as [Hd0 Hf0].
  rewrite Z.sub_diag. change (Z.to_nat 0) with 0%nat. rewrite Hd0, Hf0. cbn [length]. change (Z.of_nat 0) with 0. rewrite (find_single e now k q m0 (set_mt_frame [[]] r) 0 mx x Hp0 Hm Hw Hf). cbn [rbind].
  change (u32 0) with 0. cbn [pack_loop]. rewrite Htk. cbn [rbind pk_manager pk_msg pk_dccl_msgs pk_passthrough pk_events]. rewrite Hru'.
  assert (Hlen : (length bs <? length head)%nat = false) by (apply Nat.ltb_ge; rewrite <- Hh; rewrite length_take; lia).
  unfold encode_frame. change (last [MkQueued (dccl_msg mx) mt]) with (Some (MkQueued (dccl_msg mx) mt)). cbn [length Nat.sub take encode_repeated dccl_msg]. rewrite Hpa, Hpa0, He, Hlen. cbn [rbind].
  exists (packet_ack m'), q', (set_codec_passphrase (codec_passphrase m) m'), (evs ++ []). rewrite Hid0, !app_nil_r. cbn [app take Z.to_nat].
  assert (Hbs : head ++ drop (length head) bs = bs) by (rewrite <- Hh at 1; apply take_drop). rewrite Hbs.
  set (r1 := disciplined _ _ (set_mt_frame [[]] r)). assert (Hr1 : set_frame 0 bs r1 = set_mt_frame [bs] (disciplined (QueueManager.modem_id m) (meta_dest (meta mx)) r)).
  { unfold set_frame, frame_size, r1. destruct (disciplined_fields (QueueManager.modem_id m) (meta_dest (meta mx)) (set_mt_frame [[]] r)) as (_ & _ & -> & _). cbn [mt_frame set_mt_frame length Nat.ltb Nat.leb insert list_insert]. by rewrite !disciplined_frames. }
  change (take (Z.to_nat 0) (data_of_frame 0 r1) ++ bs) with bs. rewrite Hr1. split; [done | split; [split; [split; [exact Hq' | split; [exact Hma' | exact Hru']] | done | exact Hd | exact Hme] | done]].
Qed.

End Transit.

(** ** The groups of the modems *)

Lemma as_string_inj x y : as_string x = as_string y -> x = y.
Proof. intros H. apply (f_equal Reader.read_Z) in H. rewrite !Reader.read_as_string in H. congruence. Qed.

Lemma group_inj x y i j : group (prefix_of x) i = group (prefix_of y) j -> x = y /\ i = j.
Proof.
  unfold group. destruct x, y; cbn [prefix_of]; intros H; try (exfalso; apply (f_equal head) in H; vm_compute in H; congruence); (split; [done|]); by apply app_inv_head, as_string_inj in H.
Qed.

Section Mail.
Context `{P : Protobuf} `{DC : !DCCLCodec} {TX : BoostText} {BM : BridgeMessages}.
Variable cfg : BridgeConfig.
Variable queue_fuel : nat.
Abbreviation bprog := (prog Bridge BridgeEvent BridgeExn).

(** the subnets have modems of their own *)
Definition own_modems : Prop := forall i j s s', bc_subnet cfg !! i = Some s -> bc_subnet cfg !! j = Some s' -> c_modem_id (sn_queue_cfg s) = c_modem_id (sn_queue_cfg s') -> i = j.

(** a loop in which one element does something *)
Lemma pfor_one {A} (l : list A) (body : A -> bprog unit) a pre post b : l = pre ++ a :: post -> (forall x, x ∈ pre ++ post -> forall b, body x b = (b, [], Ok tt)) -> pfor l body b = body a b.
Proof.
  intros -> Hq. assert (Hn : forall l b, (forall x, x ∈ l -> x ∈ pre ++ post) -> pfor l body b = (b, [], Ok tt)).
  { clear b. induction l as [|x l IH]; intros b Hl; [done|]. cbn [pfor]. rewrite (pbind_quiet _ _ _ _ _ (Hq x (Hl x (list_elem_of_here _ _)) b)). apply IH. intros y Hy. apply Hl. by right. }
  assert (Hp : forall pre' b, (forall x, x ∈ pre' -> x ∈ pre ++ post) -> pfor (pre' ++ a :: post) body b = pfor (a :: post) body b).
  { clear b. induction pre' as [|x pre' IH]; intros b Hl; [done|]. cbn [app pfor]. rewrite (pbind_quiet _ _ _ _ _ (Hq x (Hl x (list_elem_of_here _ _)) b)). apply IH. intros y Hy. apply Hl. by right. }
  rewrite Hp by (intros x Hx; apply elem_of_app; by left). cbn [pfor]. unfold pbind. destruct (body a b) as [[b1 e1] [[]|x]]; [|done]. rewrite Hn by (intros x Hx; apply elem_of_app; by right). by rewrite app_nil_r.
Qed.

(** a message of a group is for one handler of one subnet *)
Lemma mail_one now x i s pay b : own_modems -> bc_subnet cfg !! i = Some s -> bridge_mail cfg queue_fuel now (group (prefix_of x) (c_modem_id (sn_queue_cfg s))) pay b = bridge_handler cfg queue_fuel now x i pay b.
Proof.
  intros Ho Hs. unfold bridge_mail.
  set (f := fun (i : nat) (s : Subnet) => map (fun x => (group (prefix_of x) (c_modem_id (sn_queue_cfg s)), x, i)) [SubRx; SubQueuePush; SubDataRequest; SubStatus]).
  set (l1 := take i (bc_subnet cfg)). set (l2 := drop (S i) (bc_subnet cfg)). assert (Hlen : length l1 = i) by (unfold l1; rewrite length_take; apply lookup_lt_Some in Hs; lia).
  assert (El : bc_subnet cfg = l1 ++ s :: l2) by (symmetry; by apply take_drop_middle).
  assert (E : subscriptions cfg = concat (imap f l1) ++ f i s ++ concat (imap (fun n => f (S i + n)%nat) l2)).
  { unfold subscriptions. fold f. rewrite El, imap_app, concat_app. cbn [imap concat]. rewrite Nat.add_0_r, Hlen. f_equal. f_equal. f_equal. apply imap_ext. intros n y _. unfold compose. by replace (i + S n)%nat with (S i + n)%nat by lia. }
  assert (Hother : forall g y j, (g, y, j) ∈ concat (imap f l1) ++ concat (imap (fun n => f (S i + n)%nat) l2) -> g <> group (prefix_of x) (c_modem_id (sn_queue_cfg s))).
  { intros g y j Hin Hg. assert (exists s', j <> i /\ bc_subnet cfg !! j = Some s' /\ g = group (prefix_of y) (c_modem_id (sn_queue_cfg s'))) as (s' & Hne & Hs' & ->).
    { apply elem_of_app in Hin as [Hin|Hin]; apply list_elem_of_In, in_concat in Hin as (l & Hl & Hx); apply list_elem_of_In, elem_of_lookup_imap in Hl as (n & s' & -> & Hn); exists s';
        apply in_map_iff in Hx as (y' & [= <- <- <-] & _).
      - split; [apply lookup_lt_Some in Hn; lia|]. split; [|done]. rewrite El. by apply lookup_app_l_Some.
      - split; [lia|]. split; [|done]. unfold l2 in Hn. by rewrite lookup_drop in Hn. }
    apply group_inj in Hg as [_ Hg]. apply Hne. by apply (Ho j i s' s). }
  assert (Hsame : forall g y, (g, y, i) ∈ f i s -> y <> x -> g <> group (prefix_of x) (c_modem_id (sn_queue_cfg s))).
  { intros g y Hin Hne ->. apply list_elem_of_In, in_map_iff in Hin as (y' & [= H <-] & _). by apply group_inj in H as [-> _]. }
  assert (Hx : exists pre post, f i s = pre ++ (group (prefix_of x) (c_modem_id (sn_queue_cfg s)), x, i) :: post /\ Forall (fun e => snd e = i /\ snd (fst e) <> x) (pre ++ post)).
  { destruct x; [exists [], (tail (f i s)) | exists (take 1 (f i s)), (drop 2 (f i s)) | exists (take 2 (f i s)), (drop 3 (f i s)) | exists (take 3 (f i s)), []]; (split; [reflexivity | repeat constructor; discriminate]). }
  destruct Hx as (pre & post & Hf & Hpp). rewrite Forall_forall in Hpp.
  erewrite (pfor_one _ _ (group (prefix_of x) (c_modem_id (sn_queue_cfg s)), x, i) (concat (imap f l1) ++ pre) (post ++ concat (imap (fun n => f (S i + n)%nat) l2))).
  - by rewrite bool_decide_eq_true_2.
  - rewrite E, Hf, <- !app_assoc. done.
  - intros [[g y] j] Hin b1. rewrite bool_decide_eq_false_2; [done|]. rewrite !elem_of_app in Hin. destruct Hin as [[Hin|Hin]|[Hin|Hin]].
    + apply (Hother g y j). apply elem_of_app. by left.
    + destruct (Hpp (g, y, j)) as [H2 H3]; [apply elem_of_app; by left|]. cbn in H2, H3. subst j. apply (Hsame g y); [|done]. rewrite Hf. apply elem_of_app. by left.
    + destruct (Hpp (g, y, j)) as [H2 H3]; [apply elem_of_app; by right|]. cbn in H2, H3. subst j. apply (Hsame g y); [|done]. rewrite Hf. apply elem_of_app. right. by right.
    + apply (Hother g y j). apply elem_of_app. by right.
Qed.

End Mail.

(** ** The bridge *)

Section Relay.
Context `{P : Protobuf} `{DC : !DCCLCodec} {TX : BoostText} {L : DCCLCodecLaws} {BM : BridgeMessages}.
Variable cfg : BridgeConfig.
Variable queue_fuel : nat.
Abbreviation bprog := (prog Bridge BridgeEvent BridgeExn).

Lemma set_pass_same m : set_codec_passphrase (codec_passphrase m) m = m.
Proof. by destruct m. Qed.

(** all managers have the codec already *)
Lemma set_manager_shared i m b : Forall (fun x => codec_passphrase x = codec_passphrase m) (b_queues b) -> set_manager i m b = set_b_queues (<[i := m]> (b_queues b)) b.
Proof.
  intros Hc. unfold set_manager. f_equal. transitivity (map (fun x => x) (<[i := m]> (b_queues b))); [|apply List.map_id]. apply map_ext_in. intros x Hx. apply list_elem_of_In in Hx.
  assert (Hf : Forall (fun x => codec_passphrase x = codec_passphrase m) (<[i := m]> (b_queues b))) by (by apply Forall_insert). rewrite Forall_forall in Hf. rewrite <- (Hf x Hx). apply set_pass_same.
Qed.

(** the bridge, with a frame of the first subnet in transit to the second *)
Record crossing (b : Bridge) (i j : nat) (mi mj : QueueManager) (k : Z) (q : Queue) (bs head : bytes) (msg hmsg : Msg) (mt mt' mth : QueuedMessageMeta) : Prop := MkCrossing {
  cr_managers : b_queues b !! i = Some mi /\ b_queues b !! j = Some mj;
  cr_codec : Forall (fun x => codec_passphrase x = codec_passphrase mi) (b_queues b);
  cr_commands : b_hw_ctl b = None /\ b_time_update b = None;
  cr_frame : in_transit mi bs msg hmsg mt;
  cr_plain : encrypt_rules mi = [] /\ manips mi = [];
  cr_hop : find_next_hop (b_router b) (QueueManager.modem_id mi) (meta_dest mt) <> -1;
  cr_subnet : al_lookup (subnet_of (b_router b) (find_next_hop (b_router b) (QueueManager.modem_id mi) (meta_dest mt))) (subnet_map (b_router b)) = Some j;
  cr_queue : plain k q mj /\ q_messages q = [] /\ q_waiting_for_ack q = [] /\ 0 <= cfg_max_queue (q_cfg q) /\ codec_id (GetDescriptor hmsg) = k /\ meta_from_msg q hmsg = Ok mth;
  cr_out : handle_out (b_router b) (transit_meta bs mt) hmsg (c_modem_id (QueueManager.cfg mj)) = mt' /\ meta_dest mt' <> QueueManager.modem_id mj;
  cr_head : codec_encode_head (codec_passphrase mi) hmsg = Some head /\ take (length head) bs = head
}.

Lemma pfor_quiet {A} (l : list A) (body : A -> bprog unit) b : Forall (fun x => body x b = (b, [], Ok tt)) l -> pfor l body b = (b, [], Ok tt).
Proof. induction 1 as [|x l Hx _ IH]; [done|]. cbn [pfor]. by rewrite (pbind_quiet _ _ _ _ _ Hx). Qed.

Lemma sizes_quiet now i evs b : Forall (fun ev => exists k n, ev = SigQueueSize k n) evs -> pfor evs (queue_signal cfg now i) b = (b, [], Ok tt).
Proof. intros H. apply pfor_quiet. eapply Forall_impl; [exact H|]. by intros ev (k & n & ->). Qed.

Lemma handle_out_fields r mt msg id : meta_size (handle_out r mt msg id) = meta_size mt /\ qm_encoded_message (handle_out r mt msg id) = qm_encoded_message mt.
Proof. unfold handle_out. by destruct (negb _). Qed.

(** the frame is queued on the other subnet *)
Lemma bridge_queues_frame now b i j mi mj k q bs head msg hmsg mt mt' mth t : crossing b i j mi mj k q bs head msg hmsg mt mt' mth -> type t <> ACK -> mt_frame t = [bs] -> dest t = QueueManager.modem_id mi ->
  bridge_modem_receive cfg now i (plain_transmission t) b = (set_b_queues (<[j := set_queue k (holding now hmsg mt' q) mj]> (b_queues b)) b, [], Ok tt).
Proof.
  intros [[Hi Hj] Hc [Hhw Htu] Hf [Hru Hma] Hhop Hsub (Hp & He & _ & Hmax & Hid & _) [Ho Hd] _] Ht Hfr Hdt.
  destruct (receive_transit (environment b) mi t bs msg hmsg mt Hf Hru Hma eq_refl Ht Hfr Hdt) as (m' & Hr & _ & _ & _ & ->). rewrite set_pass_same in Hr.
  destruct (handle_out_fields (b_router b) (transit_meta bs mt) hmsg (c_modem_id (QueueManager.cfg mj))) as [Hs He']. rewrite Ho in Hs, He'.
  assert (Hsz : meta_size mt' <> 0) by (rewrite Hs; cbn; pose proof (it_nonempty _ _ _ _ _ Hf); destruct bs; [done | cbn; lia]).
  pose proof (push_transit (environment b) now k q mj hmsg (transit_meta bs mt) mt' Hp He Hmax Hid Ho Hd Hsz) as Hpush.
  assert (Hm : set_manager i mi b = b).
  { rewrite set_manager_shared by done. rewrite list_insert_id by done. by destruct b. }
  set (b1 := set_b_queues (<[j := set_queue k (holding now hmsg mt' q) mj]> (b_queues b)) b).
  assert (Hon : on_manager cfg now i (fun e m => handle_modem_receive e t m) b = (b1, [], Ok tt)).
  { unfold on_manager. rewrite pbind_get. rewrite (manager_some i mi) by done. rewrite Hr. rewrite pbind_mod, Hm. cbn [pfor queue_signal]. unfold route_in. rewrite pbind_assoc, pbind_get. unfold handle_in.
    change (meta_dest (transit_meta bs mt)) with (meta_dest mt). rewrite (proj2 (Z.eqb_neq _ _) (proj2 (it_dest _ _ _ _ _ Hf))), (proj2 (Z.eqb_neq _ _) Hhop). cbn [negb]. rewrite Hsub, Hj. cbn [deref rbind]. rewrite Hpush. cbn [rbind].
    rewrite pbind_assoc, pbind_mod. cbn [pfor queue_info]. fold b1. reflexivity. }
  unfold bridge_modem_receive, pcatch. change (base (plain_transmission t)) with t. rewrite (pbind_quiet _ _ _ _ _ Hon). cbn [receive_stat plain_transmission ranging_reply pfor].
  assert (Hw : (pwhen (forward_cacst cfg) (pret tt) : bprog unit) b1 = (b1, [], Ok tt)) by (by destruct (forward_cacst cfg)). rewrite (pbind_quiet _ _ _ _ _ Hw). rewrite pbind_ret.
  unfold receive_time_update, receive_hw_ctl. rewrite pbind_assoc, pbind_get. change (b_time_update b1) with (b_time_update b). rewrite Htu, pbind_ret, pbind_get. change (b_hw_ctl b1) with (b_hw_ctl b). by rewrite Hhw.
Qed.

Lemma bridge_slot now j s b : b_hw_ctl b = None -> b_time_update b = None -> bridge_initiate cfg now j s b = (b, [BridgePublish (group (B "Tx") (subnet_modem_id cfg j)) (PTransmission (plain_transmission s))], Ok tt).
Proof. intros Hh Ht. unfold bridge_initiate. by rewrite pbind_get, Hh, Ht. Qed.

(** the data request is answered with the frame, for the next hop *)
Lemma bridge_answers fuel now1 now b i j mi mj k q bs head msg hmsg mt mt' mth r max : queue_fuel = S fuel -> crossing b i j mi mj k q bs head msg hmsg mt mt' mth -> asks r max -> Z.of_nat (length bs) <= max ->
  (now <? q_last_send_time q + cfg_blackout_time (q_cfg q) * 1000000) = false ->
  exists b2 t, handle_data_request cfg queue_fuel now j (plain_transmission r) (set_b_queues (<[j := set_queue k (holding now1 hmsg mt' q) mj]> (b_queues b)) b) =
      (b2, [BridgePublish (group (B "DataResponse") (subnet_modem_id cfg j)) (PTransmission (plain_transmission t))], Ok tt) /\ mt_frame t = [bs] /\ dest t = meta_dest mt' /\ type t = type r.
Proof.
  intros Hfu [[Hi Hj] Hc _ Hf _ _ _ (Hp & He & Hw & Hmax & Hid & Hmth) [Ho Hd] [Hh Htk]] Ha Hsz Hb. rewrite Hfu.
  destruct (handle_out_fields (b_router b) (transit_meta bs mt) hmsg (c_modem_id (QueueManager.cfg mj))) as [Hs He']. rewrite Ho in Hs, He'.
  set (mj1 := set_queue k (holding now1 hmsg mt' q) mj). set (b1 := set_b_queues (<[j := mj1]> (b_queues b)) b). destruct (stored_fields now1 hmsg mt' q) as (Hm1 & Hm2 & Hm3 & Hm4).
  assert (Hj1 : b_queues b1 !! j = Some mj1) by (cbn; apply list_lookup_insert_eq; by eapply lookup_lt_Some).
  pose proof (Forall_lookup_1 _ _ _ _ Hc Hj) as Hcj. cbn in Hcj.
  assert (Hp1 : plain k (holding now1 hmsg mt' q) mj1) by (destruct Hp as [Hq Hma Hru Hwa Hk]; split; try done; cbn; rewrite Hq; cbn; by rewrite Z.eqb_refl).
  destruct (request_transit fuel (environment b1) now k (holding now1 hmsg mt' q) mj1 r max (q_next_node q) (stored now1 hmsg mt' q) mth bs head Hp1 eq_refl Hw Ha) as (ack & q' & m' & evs & Hreq & [_ Hpa _ _] & Hev).
  - by rewrite Hm1.
  - rewrite Hm1. exact Hmth.
  - by rewrite Hm4, He'.
  - apply (fits_single now _ r max _ Ha); [exact Hb|]. rewrite Hm2, Hs. cbn. lia.
  - change (codec_passphrase mj1) with (codec_passphrase mj). by rewrite Hm1, Hcj.
  - done.
  - set (t := set_mt_ack_requested _ _) in Hreq. exists (set_manager j m' b1), t. split; [|split; [done | split]].
    + unfold handle_data_request. rewrite pbind_get. rewrite (manager_some j mj1) by done. change (base (plain_transmission r)) with r. rewrite Hreq, pbind_mod.
      rewrite (pbind_quiet _ _ _ _ _ (sizes_quiet now j evs _ (Forall_impl _ _ _ Hev (fun ev '(ex_intro _ n H) => ex_intro _ k (ex_intro _ n H))))). done.
    + unfold t. change (dest (disciplined (QueueManager.modem_id mj1) (meta_dest (meta (stored now1 hmsg mt' q))) r) = meta_dest mt'). by rewrite (proj1 (disciplined_fields _ _ _)).
    + unfold t. change (type (disciplined (QueueManager.modem_id mj1) (meta_dest (meta (stored now1 hmsg mt' q))) r) = type r). by rewrite (proj1 (proj2 (disciplined_fields _ _ _))).
Qed.

End Relay.

(** ** The modem driver applications *)

Section Apps.
Context {WF : WireFormat} {WL : WireFormatLaws}.
Variable cfg : ModemDriverConfig Z.
Abbreviation aprog := (prog (ModemApp UdpModem) AppEvent AppExn).

Definition receipts (evs : list UdpDriver.DriverEvent) : list AppEvent :=
  omap (fun ev => match ev with SignalReceive m => Some (Publish (group (B "Rx") (app_modem_id cfg)) (PTransmission (plain_transmission m))) | _ => None end) evs.

Lemma app_signals evs d (a : ModemApp UdpModem) : app_call cfg (signals evs (Return d)) a = (set_ma_driver d a, receipts evs, Ok tt).
Proof.
  induction evs as [|[] evs IH]; [done|..]; cbn [signals foldr app_call receipts omap list_omap]; try exact IH. unfold app_modem_receive, app_publish. rewrite (pbind_ok _ _ _ _ _ _ (eq_refl : pemit _ a = (a, [_], Ok tt))).
  unfold signals in IH. by rewrite IH.
Qed.

Lemma status_published t (a : ModemApp UdpModem) : exists x y evs, publish_status cfg t a = (set_ma_status x y a, evs, Ok tt).
Proof.
  unfold publish_status. rewrite pbind_get. unfold pwhen. destruct (dle _ _).
  - eexists _, _, _. rewrite pbind_mod, pbind_get. unfold app_publish, pbind, pemit, pmod. reflexivity.
  - exists (ma_last_status_time a), (ma_status a), []. by destruct a.
Qed.

(** the application, with its driver started *)
Definition operating (a : ModemApp UdpModem) : Prop := ma_started a = true /\ um_open (ma_driver a) = true /\ ma_pending a = false.

Lemma app_works now (a : ModemApp UdpModem) : ma_started a = true -> um_open (ma_driver a) = true ->
  let evs := concat (map receive_complete (um_inbox (ma_driver a))) in
  start_and_work cfg now a = (set_ma_driver (MkUdpModem (um_driver (ma_driver a)) true [] (um_outbox (ma_driver a) ++ datagrams evs)) a, receipts evs, Ok tt).
Proof.
  intros Hs Ho evs. unfold start_and_work. rewrite pbind_assoc, pbind_get, Hs. cbn [negb pwhen]. rewrite pbind_ret. unfold app_driver. rewrite pbind_get. cbn [md_do_work udp_modem]. unfold udp_modem_work. rewrite Ho. apply app_signals.
Qed.

Lemma app_publishes_received now later (a : ModemApp UdpModem) t : operating a -> um_inbox (ma_driver a) = [Some (SerializeToString t)] ->
  exists a' evs, app_round cfg now later [] a = (a', evs, Ok tt) /\ Publish (group (B "Rx") (app_modem_id cfg)) (PTransmission (plain_transmission t)) ∈ evs.
Proof.
  intros (Hs & Ho & Hp) Hin. unfold app_round, app_loop. cbn [pfor]. rewrite pbind_ret. pose proof (app_works now a Hs Ho) as Hw. rewrite Hin in Hw. cbn zeta in Hw. set (evs := concat _) in Hw. set (a1 := set_ma_driver _ a) in Hw.
  assert (Hc : pcatch (start_and_work cfg now) (on_failure cfg) a = (a1, receipts evs, Ok tt)) by (unfold pcatch; by rewrite Hw). rewrite (pbind_ok _ _ _ _ _ _ Hc).
  destruct (status_published (goby_time_double later) a1) as (x & y & evs2 & H2). rewrite (pbind_ok _ _ _ _ _ _ H2). unfold initiate_pending. rewrite pbind_get. change (ma_pending (set_ma_status x y a1)) with (ma_pending a). rewrite Hp. cbn [pwhen pret].
  eexists _, _. split; [reflexivity|]. apply elem_of_app. left. unfold evs. cbn [map concat receive_complete app]. rewrite wire_roundtrip, app_nil_r. unfold receive_message.
  destruct (_ && _); cbn [app start_send receipts omap list_omap]; by left.
Qed.

(** a slot: the data request is published, and its answer sent *)
Lemma app_sends now later (a : ModemApp UdpModem) s t n polls more : operating a -> um_inbox (ma_driver a) = [] -> ma_polls a = (repeat [] n ++ [OnDataResponse t] :: polls) :: more ->
  (match mt_frame t with [] | [] :: _ => false | _ => true end) = true ->
  exists a' evs, app_round cfg now later [OnTx s] a = (a', evs, Ok tt) /\ Publish (group (B "DataRequest") (app_modem_id cfg)) (PTransmission (plain_transmission (prepare_transmission (fun m => m) s (um_driver (ma_driver a))))) ∈ evs /\
    um_outbox (ma_driver a') = um_outbox (ma_driver a) ++ [SerializeToString t] /\ operating a'.
Proof.
  intros (Hs & Ho & Hp) Hin Hpo Hfr. unfold app_round, app_loop. cbn [pfor]. rewrite pbind_assoc. unfold handle_arrival, handle_initiate_transmission. rewrite pbind_mod, pbind_ret. set (a0 := set_ma_initiate true s a).
  pose proof (app_works now a0 Hs Ho) as Hw. change (um_inbox (ma_driver a0)) with (um_inbox (ma_driver a)) in Hw. rewrite Hin in Hw. cbn [map concat datagrams omap list_omap receipts] in Hw. rewrite app_nil_r in Hw. set (a1 := set_ma_driver _ a0) in Hw.
  assert (Hc : pcatch (start_and_work cfg now) (on_failure cfg) a0 = (a1, [], Ok tt)) by (unfold pcatch; by rewrite Hw). rewrite (pbind_ok _ _ _ _ _ _ Hc).
  destruct (status_published (goby_time_double later) a1) as (x & y & evs2 & H2). rewrite (pbind_ok _ _ _ _ _ _ H2). set (a2 := set_ma_status x y a1). unfold initiate_pending. rewrite pbind_get.
  change (ma_pending a2) with true. cbn [pwhen]. unfold app_driver. rewrite pbind_assoc, pbind_get. change (ma_initiate a2) with s. cbn [md_initiate udp_modem]. unfold udp_modem_initiate. cbn [app_call]. rewrite pbind_assoc.
  set (r := prepare_transmission (fun m => m) s (um_driver (ma_driver a2))). rewrite (pbind_ok _ _ _ _ _ _ (request_answered cfg n t polls more r a2 Hpo)).
  assert (He : (match mt_frame t with [] | [] :: _ => [] | _ => start_send t end) = start_send t) by (by destruct (mt_frame t) as [|[] ?]). rewrite He.
  rewrite (pbind_ok _ _ _ _ _ _ (app_signals _ _ _)). cbn [pmod]. eexists _, _. split; [reflexivity|]. split; [|split; [done | by split]].
  rewrite !elem_of_app. right. right. left. change r with (prepare_transmission (fun m => m) s (um_driver (ma_driver a))). by left.
Qed.

End Apps.

(** ** From subnet to subnet *)

Section Gateway.
Context {WF : WireFormat} {WL : WireFormatLaws}.
Context `{P : Protobuf} `{DC : !DCCLCodec} {TX : BoostText} {L : DCCLCodecLaws} {BM : BridgeMessages}.


End Gateway.

(** ** Evaluation *)

Module BridgeWitness.
#[local] Existing Instances UdpWitness.wire UdpWitness.wire_laws Sample.protobuf Sample.text.

(** a codec whose header is the type and the addresses *)
Definition encode (m : Sample.msg) : bytes := Sample.m_type m :: Sample.m_src m :: Sample.m_dest m :: Z.of_nat (length (Sample.m_body m)) :: Sample.m_body m.
Definition codec : @DCCLCodec Sample.protobuf :=
  Build_DCCLCodec Sample.protobuf (fun d : Z => d) (fun _ => true) (fun m : Sample.msg => 4 + Z.of_nat (length (Sample.m_body m)))
    (fun _ m => Some (encode m)) (fun _ m => Some (take 3 (encode m)))
    (fun _ s => match s with t :: sr :: de :: n :: body => if (Z.to_nat n <=? length body)%nat then Some (Sample.MkMsg t sr de (take (Z.to_nat n) body)) else None | _ => None end)
    (fun _ s => match s with t :: sr :: de :: _ => Some (Sample.MkMsg t sr de []) | _ => None end).
#[local] Existing Instance codec.
#[local] Instance codec_laws : DCCLCodecLaws.
Proof. split; [intros m; cbn; lia|]. intros pass m b [= <-]. cbn. lia. Qed.

#[local] Instance messages : BridgeMessages := {|
  as_route_command _ := None; as_hw_command _ := None; as_time_request _ := None;
  time_response_msg u := Sample.MkMsg 8 (tu_src u) (tu_dest u) []; receive_stat_msg _ := Sample.MkMsg 10 0 0 []; ranging_msg _ := Sample.MkMsg 11 0 0 [];
  status_msg st := Sample.MkMsg 12 (ds_src st) 0 []; network_ack_msg _ _ s d _ _ := Sample.MkMsg 9 s d [];
  hw_command_descriptor := 13 : Proto.Descriptor; time_request_descriptor := 14 : Proto.Descriptor;
  find_descriptor name := if bool_decide (name = B "sample") then Some (7 : Proto.Descriptor) else None;
  load_from_shared_lib _ := true; load_from_proto_file _ := true
|}.

(** modems 1 and 17 of the bridge, on the subnets 0 and 16 *)
Definition subnet (id : Z) : Subnet := MkSubnet (MkManagerConfig (Some id) [Sample.entry] None None None [] [] []) (MacWitness.config id).
Definition cfg : BridgeConfig := MkBridgeConfig [subnet 1; subnet 17] (MkRouteConfig [3; 1; 17; 18] (Some 240) None) [] [] None None None None.
Definition nowhere : Bridge := MkBridge [] [] (MkRoute (MkRouteConfig [] None None) []) None None 0.
Definition started : Bridge * list BridgeEvent := Eval vm_compute in fst (new_bridge cfg 9 0 nowhere).
Definition bridge : Bridge := Eval vm_compute in fst started.
Definition m1 : QueueManager := Eval vm_compute in default new_manager (b_queues bridge !! 0%nat).
Definition m17 : QueueManager := Eval vm_compute in default new_manager (b_queues bridge !! 1%nat).
Definition q17 : Queue := Eval vm_compute in match al_lookup 7 (queues m17) with Some q => q | None => QueueWitness.q0 end.

(** a frame from modem 3 to modem 18 *)
Definition message : Sample.msg := Sample.MkMsg 7 3 18 [42].
Definition header : Sample.msg := Sample.MkMsg 7 3 18 [].
Definition frame : bytes := Eval vm_compute in encode message.
Definition get {A} (r : result ManagerError A) (a : A) : A := match r with Ok a => a | Err _ => a end.
Definition meta1 : QueuedMessageMeta := Eval vm_compute in get (manager_meta_from_msg m1 header) empty_meta.
Definition meta17 : QueuedMessageMeta := Eval vm_compute in handle_out (b_router bridge) (transit_meta frame meta1) header 17.
Definition received : ModemTransmission := set_mt_frame [frame] (set_mt_type (Some DATA) (set_mt_src (Some 3) (set_mt_dest (Some 1) empty_transmission))).
Definition slot : ModemTransmission := set_mt_type (Some DATA) (set_mt_dest (Some QUERY_DESTINATION_ID) empty_transmission).

Definition app_cfg (id : Z) : ModemDriverConfig Z := MkModemConfig DRIVER_UDP (MkDriverConfig (Some id) None 32) 300.
Definition app (id : Z) (inbox : list (option bytes)) (polls : list (list (list Arrival))) : ModemApp UdpModem :=
  MkModemApp (MkUdpModem (MkUdpDriver 32 0) true inbox []) false empty_transmission false empty_transmission true (double_of_Z 0) (MkStatus id None NOMINAL 0) polls.

Lemma crosses : crossing bridge 0 1 m1 m17 7 q17 frame [7; 3; 18] message header meta1 meta17 (set_qm_non_repeated_size (Some 4) meta1).
Proof.
  constructor.
  - split; reflexivity.
  - repeat constructor.
  - split; reflexivity.
  - constructor; [discriminate | right | reflexivity | reflexivity | split; discriminate]. split; [reflexivity|]. split; [reflexivity|]. eexists. split; [vm_compute; reflexivity | reflexivity].
  - split; reflexivity.
  - vm_compute. discriminate.
  - vm_compute. reflexivity.
  - split; [constructor; reflexivity|]. split; [reflexivity|]. split; [reflexivity|]. split; [discriminate|]. split; [reflexivity | vm_compute; reflexivity].
  - split; [reflexivity | discriminate].
  - split; reflexivity.
Qed.

Lemma own : own_modems cfg.
Proof. intros i j s s' Hi Hj. destruct i as [|[|i]], j as [|[|j]]; cbn in Hi, Hj; try done; injection Hi as <-; injection Hj as <-; discriminate. Qed.



(** a transmission that comes during the wait of another one is lost: the flag is cleared behind it *)
Example transmission_lost : let '(a, _, x) := app_round (app_cfg 17) 4000000 4000000 [OnTx slot] (app 17 [] [[[OnTx received]; [OnDataResponse received]]]) in
  x = Ok tt /\ ma_pending a = false /\ um_outbox (ma_driver a) = [SerializeToString received] /\ ma_initiate a = received.
Proof. vm_compute. repeat split. Qed.

(** a response that comes too late answers the next request *)
Example late_response : let '(a, _, x) := app_session (app_cfg 17) [(4000000, 4000000, [OnTx slot]); (5000000, 5000000, [OnTx slot])] (app 17 [] [[[]; []]; [[OnDataResponse received]; [OnDataResponse slot]]]) in
  x = Ok tt /\ um_outbox (ma_driver a) = [SerializeToString received].
Proof. vm_compute. repeat split. Qed.

End BridgeWitness.
