(* ===== verification/PbDriver.v ===== *)
(** * pb/pb_modem_driver.{h,cpp}: a driver over a store server

    The driver collects its transmissions in the outbox of a request. It sends
    the request to a server at intervals, one at a time, and takes the reply as
    what it has received. The socket is events and the list of replies that the
    poll of the ZeroMQ service delivers. *)

From Stdlib Require Import SpecFloat.
From S2P Require Import Prelude Double As Proto Prog DriverBase UdpDriver.

#[local] Open Scope prog_scope.

(** ** Data *)

(** [PBDriverTransmission::TransmissionType] *)
Inductive PBType : Type := PB_BASE_TYPE | PB_DRIVER_POLL.
#[export] Instance PBType_eq_dec : EqDecision PBType.
Proof. solve_decision. Defined.

(** a transmission with the extensions of this driver *)
Record PMsg : Type := MkPMsg { pm : ModemTransmission; pm_type : option PBType; pm_poll_src : option Z; pm_poll_dest : option Z }.
Definition plain_pmsg (m : ModemTransmission) : PMsg := MkPMsg m None None None.
Definition on_pm (f : ModemTransmission -> ModemTransmission) (m : PMsg) : PMsg :=
  MkPMsg (f (pm m)) (pm_type m) (pm_poll_src m) (pm_poll_dest m).

(** acomms/protobuf/store_server.proto *)
Record StoreServerRequest : Type := MkRequest { rq_modem_id : option Z; rq_outbox : list PMsg; rq_request_id : option Z }.
Record StoreServerResponse : Type := MkResponse { rs_modem_id : Z; rs_inbox : list PMsg }.

(** [PBDriverConfig]; a socket is its id *)
Record PBConfig : Type := MkPBConfig {
  pb_modem_id : Z;
  pb_request_socket : Z;
  pb_query_interval_seconds : double;
  pb_max_frame_size : Z;
  pb_reset_interval_seconds : double;
  pb_rate_to_bytes : list Z;
  pb_rate_to_frames : list Z
}.

Record PBDriver : Type := MkPB {
  pb_cfg : PBConfig;
  service_cfg : list Z;                  (* the sockets *)
  request : StoreServerRequest;
  last_send_time : Z;
  request_socket_id : Z;
  query_interval_seconds : double;
  reset_interval_seconds : double;
  waiting_for_reply : bool;
  pb_next_frame : Z;
  next_request_id : Z                    (* the static variable of [do_work] *)
}.

Definition new_pb_driver (cfg : PBConfig) (now : Z) : PBDriver :=
  MkPB cfg [] (MkRequest None [] None) now 0 (double_of_Z 1) (double_of_Z 120) false 0 0.

Definition set_request (r : StoreServerRequest) (d : PBDriver) : PBDriver :=
  MkPB (pb_cfg d) (service_cfg d) r (last_send_time d) (request_socket_id d) (query_interval_seconds d) (reset_interval_seconds d)
    (waiting_for_reply d) (pb_next_frame d) (next_request_id d).
Definition set_waiting (b : bool) (d : PBDriver) : PBDriver :=
  MkPB (pb_cfg d) (service_cfg d) (request d) (last_send_time d) (request_socket_id d) (query_interval_seconds d) (reset_interval_seconds d)
    b (pb_next_frame d) (next_request_id d).
Definition set_next_frame (n : Z) (d : PBDriver) : PBDriver :=
  MkPB (pb_cfg d) (service_cfg d) (request d) (last_send_time d) (request_socket_id d) (query_interval_seconds d) (reset_interval_seconds d)
    (waiting_for_reply d) n (next_request_id d).
Definition set_sent (t : Z) (d : PBDriver) : PBDriver :=
  MkPB (pb_cfg d) (service_cfg d) (request d) t (request_socket_id d) (query_interval_seconds d) (reset_interval_seconds d)
    (waiting_for_reply d) (pb_next_frame d) (next_request_id d).
Definition set_next_request (n : Z) (d : PBDriver) : PBDriver :=
  MkPB (pb_cfg d) (service_cfg d) (request d) (last_send_time d) (request_socket_id d) (query_interval_seconds d) (reset_interval_seconds d)
    (waiting_for_reply d) (pb_next_frame d) n.

Definition add_outbox (m : PMsg) (d : PBDriver) : PBDriver :=
  set_request (MkRequest (rq_modem_id (request d)) (rq_outbox (request d) ++ [m]) (rq_request_id (request d))) d.

Inductive PEvent : Type :=
| PSetCfg (sockets : list Z) | PCloseAll
| PSend (socket : Z) (r : StoreServerRequest)
| PReceive (m : PMsg).

(** what is connected to the signals; [None] is an exception out of the slot *)
Record PSlots (W : Type) : Type := MkPSlots {
  ps_modify : PMsg -> W -> W * option PMsg;
  ps_data_request : PMsg -> W -> W * option PMsg;
  ps_receive : PMsg -> W -> W * option unit
}.
Arguments ps_modify {W}.
Arguments ps_data_request {W}.
Arguments ps_receive {W}.

Record PState (W : Type) : Type := MkPState { pbd : PBDriver; p_world : W }.
Arguments MkPState {W}.
Arguments pbd {W}.
Arguments p_world {W}.

Section Driver.
Context {W : Type} (slots : PSlots W).

Abbreviation pbprog := (prog (PState W) PEvent Exn).

Definition p_call {A : Type} (f : W -> W * option A) : pbprog A := fun s =>
  let '(w, r) := f (p_world s) in
  (MkPState (pbd s) w, [], match r with Some a => Ok a | None => Err SlotException end).

Definition on_pb (f : PBDriver -> PBDriver) : pbprog unit := pmod (fun s => MkPState (f (pbd s)) (p_world s)).

(** ** Startup and shutdown *)

(** a second startup adds its socket to the first *)
Definition p_startup (cfg : PBConfig) : pbprog unit :=
  on_pb (fun d => MkPB cfg (service_cfg d ++ [pb_request_socket cfg])
                    (MkRequest (Some (pb_modem_id cfg)) (rq_outbox (request d)) (rq_request_id (request d))) (last_send_time d)
                    (pb_request_socket cfg) (pb_query_interval_seconds cfg) (pb_reset_interval_seconds cfg) (waiting_for_reply d)
                    (pb_next_frame d) (next_request_id d));;
  let! d := pread pbd in
  pemit (PSetCfg (service_cfg d)).

Definition p_shutdown : pbprog unit := pret tt.

(** ** Sending *)

(** the limits of a transmission; a negative rate reads before the array *)
Definition limited (cfg : PBConfig) (msg : PMsg) : result Exn PMsg :=
  let r := rate (pm msg) in
  let bytes := default (pb_max_frame_size cfg) (pb_rate_to_bytes cfg !! Z.to_nat r) in
  let msg := on_pm (set_mt_max_frame_bytes (Some (u32 bytes))) msg in
  if r <? 0 then Err UndefinedBehaviour
  else Ok (match pb_rate_to_frames cfg !! Z.to_nat r with
           | Some n => on_pm (set_mt_max_num_frames (Some (u32 n))) msg
           | None => msg
           end).

(** the request to another node to transmit *)
Definition p_poll_of (id : Z) (msg : PMsg) : PMsg :=
  let m := pm msg in
  MkPMsg (set_mt_type (Some DRIVER_SPECIFIC) (set_mt_src (Some id) (set_mt_dest (Some (src m)) m)))
    (Some PB_DRIVER_POLL) (Some (src m)) (Some (dest m)).

Definition numbered (next : Z) (msg : PMsg) : PMsg :=
  match mt_frame_start (pm msg) with
  | Some _ => msg
  | None => on_pm (set_mt_frame_start (Some next)) msg
  end.

Definition p_handle_initiate_transmission (orig_msg : PMsg) : pbprog unit :=
  match type (pm orig_msg) with
  | DATA =>
      let! msg := p_call (ps_modify slots orig_msg) in
      let! d := pread pbd in
      if pb_modem_id (pb_cfg d) =? src (pm msg) then
        let! msg := plift (limited (pb_cfg d) (numbered (pb_next_frame d) msg)) in
        let! msg := if Z.of_nat (frame_size (pm msg)) <? s32 (max_num_frames (pm msg))
                    then p_call (ps_data_request slots msg) else pret msg in
        on_pb (fun d => set_next_frame (u32 (pb_next_frame d + Z.of_nat (frame_size (pm msg)))) d);;
        match mt_frame (pm msg) with
        | (_ :: _) :: _ => on_pb (add_outbox msg)
        | _ => pret tt
        end
      else on_pb (add_outbox (p_poll_of (pb_modem_id (pb_cfg d)) msg))
  | _ => pret tt
  end.

(** ** Receiving *)

Definition is_poll_for (id : Z) (msg : PMsg) : bool :=
  bool_decide (type (pm msg) = DRIVER_SPECIFIC) && bool_decide (default PB_BASE_TYPE (pm_type msg) = PB_DRIVER_POLL)
  && (default 0 (pm_poll_src msg) =? id).

(** the transmission that a poll asks for *)
Definition p_polled (msg : PMsg) : PMsg :=
  plain_pmsg (set_mt_dest (Some (default 0 (pm_poll_dest msg))) (set_mt_src (Some (default 0 (pm_poll_src msg))) (set_mt_type (Some DATA) (pm msg)))).

Definition p_receive (msg : PMsg) : pbprog unit :=
  let! d := pread pbd in
  if is_poll_for (pb_modem_id (pb_cfg d)) msg then p_handle_initiate_transmission (p_polled msg)
  else
    pwhen ((dest (pm msg) =? pb_modem_id (pb_cfg d)) && bool_decide (type (pm msg) = DATA) && ack_requested (pm msg))
      (on_pb (add_outbox (plain_pmsg (make_ack (pm msg)))));;
    pemit (PReceive msg);;
    p_call (ps_receive slots msg).

Definition handle_response (response : StoreServerResponse) : pbprog unit :=
  pfor (rs_inbox response) p_receive;;
  on_pb (set_waiting false).

(** ** The work loop *)

(** [request_.IsInitialized()]: the required field *)
Definition is_initialized (r : StoreServerRequest) : bool := bool_decide (is_Some (rq_modem_id r)).

Definition query_due (now : Z) (d : PBDriver) : result Exn bool :=
  match uint64_cast (query_interval_seconds d) with
  | Some s => Ok (u64 (last_send_time d + u64 (1000000 * s)) <? now)
  | None => Err UndefinedBehaviour
  end.

Definition reset_due (now : Z) (d : PBDriver) : bool :=
  dlt (dadd (double_of_Z (last_send_time d)) (dmul d1e6 (reset_interval_seconds d))) (double_of_Z now).

(** [sent_time] is the clock behind the call of [send] *)
Definition send_request (sent_time : Z) : pbprog unit :=
  on_pb (fun d => set_request (MkRequest (rq_modem_id (request d)) (rq_outbox (request d)) (Some (u64 (next_request_id d))))
                    (set_next_request (s32 (next_request_id d + 1)) d));;
  let! d := pread pbd in
  pemit (PSend (request_socket_id d) (request d));;
  on_pb (set_sent sent_time);;
  on_pb (fun d => set_request (MkRequest (rq_modem_id (request d)) [] (rq_request_id (request d))) d);;
  on_pb (set_waiting true).

(** [replies]: what the poll of the service delivers; [now]: the clock in the condition *)
Definition p_do_work (replies : list StoreServerResponse) (now sent_time : Z) : pbprog unit :=
  pfor replies handle_response;;
  let! d := pread pbd in
  let! due := plift (if negb (waiting_for_reply d) && is_initialized (request d) then query_due now d else Ok false) in
  if due then send_request sent_time
  else
    pwhen (waiting_for_reply d && reset_due now d)
      (pemit PCloseAll;; pemit (PSetCfg (service_cfg d));; on_pb (set_waiting false)).

End Driver.
