(* ===== verification/StoreServer.v ===== *)
(** * apps/acomms/goby_store_server: the server of the PB drivers

    A request posts the outbox of a modem to a table and is answered with what
    other modems posted since the last request of this modem. The table is an
    SQLite database, an interface whose laws say what the two statements do.
    The theorems compare the server, which selects rows by their time, with a
    log and a position in it for every modem. *)

From stdpp Require Import gmap countable.
From S2P Require Import Prelude Proto Prog DriverBase UdpDriver PbDriver.

#[local] Open Scope prog_scope.

(** ** Data *)

(** a row of the table ModemTransmission *)
Record Row : Type := MkRow { row_src : Z; row_dest : Z; row_microtime : Z; row_bytes : bytes }.

(** [SerializeToString] and [ParseFromArray] *)
Class StoreWire : Type := { p_serialize : PMsg -> bytes; p_parse : bytes -> PMsg }.
Class StoreWireLaws `{StoreWire} : Prop := { p_roundtrip : forall m, p_parse (p_serialize m) = m }.

(** the INSERT statement and the SELECT statement with its condition; [None] is
    an error code *)
Class Database (Db : Type) : Type := {
  db_rows : Db -> list Row;
  db_insert : Row -> Db -> option Db;
  db_select : (Row -> bool) -> Db -> option (list bytes)
}.
Class DatabaseLaws (Db : Type) `{Database Db} : Prop := {
  db_insert_rows : forall r d d', db_insert r d = Some d' -> db_rows d' = db_rows d ++ [r];
  db_select_rows : forall p d l, db_select p d = Some l -> l ≡ₚ map row_bytes (List.filter p (db_rows d))
}.
(** no statement fails *)
Class Healthy (Db : Type) `{Database Db} : Prop := {
  db_insert_ok : forall r d, is_Some (db_insert r d);
  db_select_ok : forall p d, is_Some (db_select p d)
}.

Record GobyStoreServer (Db : Type) : Type := MkServer { db : Db; last_request_time : gmap Z Z }.
Arguments MkServer {Db}.
Arguments db {Db}.
Arguments last_request_time {Db}.

Inductive SEvent : Type := SSend (r : StoreServerResponse).

Definition modem_id (r : StoreServerRequest) : Z := default 0 (rq_modem_id r).

Section Server.
Context {WR : StoreWire} {Db : Type} {DB : Database Db}.

Abbreviation sprog := (prog (GobyStoreServer Db) SEvent Exn).

(** the constructor: [opened] is the database of the file *)
Definition new_server (dir_exists : bool) (opened : option Db) : result Exn (GobyStoreServer Db) :=
  if negb dir_exists then Err SystemError
  else match opened with Some d => Ok (MkServer d ∅) | None => Err SystemError end.

(** [check] *)
Definition checked {A : Type} (o : option A) : sprog A := match o with Some a => pret a | None => pthrow SystemError end.

(** the rows of an outbox; [clock i] is the time at the [i]-th row *)
Fixpoint insert_outbox (clock : nat -> Z) (i : nat) (outbox : list PMsg) : sprog unit :=
  match outbox with
  | [] => pret tt
  | m :: outbox =>
      let! s := pget in
      let! d := checked (db_insert (MkRow (src (pm m)) (dest (pm m)) (s64 (clock i)) (p_serialize m)) (db s)) in
      pmod (fun s => MkServer d (last_request_time s));;
      insert_outbox clock (S i) outbox
  end.

(** the condition of the SELECT statement *)
Definition wanted (id last now : Z) (r : Row) : bool :=
  negb (row_src r =? id) && (s64 last <? row_microtime r) && (row_microtime r <=? s64 now).

Definition last_time (id : Z) (s : GobyStoreServer Db) : Z := default 0 (last_request_time s !! id).

Definition handle_request (request_time : Z) (clock : nat -> Z) (request : StoreServerRequest) : sprog unit :=
  let id := modem_id request in
  insert_outbox clock 0 (rq_outbox request);;
  pmod (fun s => MkServer (db s) (<[id := last_time id s]> (last_request_time s)));;
  let! s := pget in
  let! rows := checked (db_select (wanted id (last_time id s) request_time) (db s)) in
  pmod (fun s => MkServer (db s) (<[id := request_time]> (last_request_time s)));;
  pemit (SSend (MkResponse id (map p_parse rows))).

(** a request with the clock readings of its handler *)
Record Step : Type := MkStep { st_time : Z; st_clock : nat -> Z; st_request : StoreServerRequest }.

Definition serve (steps : list Step) : sprog unit :=
  pfor steps (fun st => handle_request (st_time st) (st_clock st) (st_request st)).

End Server.

(** ** The abstract server: a log *)

Record Log : Type := MkLog { entries : list PMsg; position : gmap Z nat }.
Definition empty_log : Log := MkLog [] ∅.

Definition foreign (id : Z) (m : PMsg) : bool := negb (src (pm m) =? id).
Definition position_of (id : Z) (l : Log) : nat := default 0%nat (position l !! id).

(** a modem reads what others posted behind its position *)
Definition pending (id : Z) (l : Log) : list PMsg := List.filter (foreign id) (drop (position_of id l) (entries l)).
Definition log_response (r : StoreServerRequest) (l : Log) : StoreServerResponse := MkResponse (modem_id r) (pending (modem_id r) l).
Definition log_request (r : StoreServerRequest) (l : Log) : Log :=
  let all := entries l ++ rq_outbox r in MkLog all (<[modem_id r := length all]> (position l)).

Fixpoint log_responses (requests : list StoreServerRequest) (l : Log) : list StoreServerResponse :=
  match requests with
  | [] => []
  | r :: requests => log_response r l :: log_responses requests (log_request r l)
  end.

(** what a modem gets in all *)
Definition delivered (id : Z) (l : list StoreServerResponse) : list PMsg :=
  concat (map rs_inbox (List.filter (fun r => rs_modem_id r =? id) l)).

(** what is posted up to the last request of a modem *)
Fixpoint posted (id : Z) (requests : list StoreServerRequest) : list PMsg :=
  match requests with
  | [] => []
  | r :: rest =>
      if existsb (fun r => modem_id r =? id) requests then rq_outbox r ++ posted id rest else []
  end.

Definition honest (r : StoreServerRequest) : Prop := Forall (fun m => src (pm m) = modem_id r) (rq_outbox r).

Lemma posted_none id requests : existsb (fun r => modem_id r =? id) requests = false -> posted id requests = [].
Proof. destruct requests as [|r rest]; [done|]. cbn [posted]. by intros ->. Qed.

Lemma own_filtered r : honest r -> List.filter (foreign (modem_id r)) (rq_outbox r) = [].
Proof.
  unfold honest, foreign. induction 1 as [|m l Hm _ IH]; [done|]. cbn [List.filter]. rewrite Hm, Z.eqb_refl. exact IH.
Qed.

Lemma position_after id r l : position_of id (log_request r l) = if modem_id r =? id then length (entries l ++ rq_outbox r) else position_of id l.
Proof.
  unfold position_of, log_request. cbn [position]. destruct (Z.eqb_spec (modem_id r) id) as [->|]; [by rewrite lookup_insert_eq | by rewrite lookup_insert_ne].
Qed.

Lemma position_bound id r l :
  (position_of id l <= length (entries l))%nat -> (position_of id (log_request r l) <= length (entries (log_request r l)))%nat.
Proof. intros H. rewrite position_after. cbn [log_request entries]. destruct (_ =? id); [done|]. rewrite length_app. lia. Qed.

Lemma pending_own r l : pending (modem_id r) (log_request r l) = [].
Proof. unfold pending. rewrite position_after, Z.eqb_refl. cbn [log_request entries]. by rewrite drop_all. Qed.

Lemma pending_other id r l : modem_id r <> id -> (position_of id l <= length (entries l))%nat ->
  pending id (log_request r l) = pending id l ++ List.filter (foreign id) (rq_outbox r).
Proof.
  intros E Hp. unfold pending. rewrite position_after, (proj2 (Z.eqb_neq _ _) E). cbn [log_request entries]. by rewrite drop_app_le, List.filter_app.
Qed.

(** every message of another modem is delivered once *)
Lemma log_delivers id requests l :
  Forall honest requests -> (position_of id l <= length (entries l))%nat ->
  delivered id (log_responses requests l) =
    (if existsb (fun r => modem_id r =? id) requests then pending id l else []) ++ List.filter (foreign id) (posted id requests).
Proof.
  revert l. induction requests as [|r rest IH]; intros l Hh Hp; [done|].
  apply Forall_cons in Hh as [Hr Hh]. cbn [log_responses]. unfold delivered. cbn [List.filter]. cbn [rs_modem_id log_response].
  pose proof (IH (log_request r l) Hh (position_bound id r l Hp)) as IH'. unfold delivered in IH'. cbn [existsb posted].
  destruct (Z.eqb_spec (modem_id r) id) as [E|E]; cbn [orb].
  - subst id. cbn [map concat rs_inbox]. rewrite IH', pending_own, List.filter_app, own_filtered by done. by destruct existsb.
  - rewrite IH', pending_other by done. destruct (existsb _ rest) eqn:Ex; [by rewrite List.filter_app, app_assoc|]. by rewrite posted_none.
Qed.

(** ** The simulation *)

Section Simulation.
Context {WR : StoreWire} {WRL : StoreWireLaws} {Db : Type} {DB : Database Db} {DBL : DatabaseLaws Db} {DBH : Healthy Db}.

(** a row and the entry of the log it stands for, posted up to [now] *)
Definition row_of (now : Z) (r : Row) (m : PMsg) : Prop :=
  row_src r = src (pm m) /\ row_bytes r = p_serialize m /\ 0 < row_microtime r <= now.

(** for every modem the time of its last request divides the foreign rows where its position divides the log *)
Definition divides (id last : Z) (pos : nat) (rows : list Row) : Prop :=
  forall i r, rows !! i = Some r -> row_src r <> id -> (last < row_microtime r <-> (pos <= i)%nat).

Record simulates (now : Z) (s : GobyStoreServer Db) (l : Log) : Prop := {
  sim_rows : Forall2 (row_of now) (db_rows (db s)) (entries l);
  sim_divides : forall id, divides id (last_time id s) (position_of id l) (db_rows (db s));
  sim_last : forall id, 0 <= last_time id s <= now;
  sim_position : forall id, (position_of id l <= length (entries l))%nat
}.

(** the readings of the clock in a step, behind [now] and up to [later] *)
Definition on_time (now later : Z) (st : Step) : Prop :=
  now < st_time st <= later /\ later < 2 ^ 63 /\ forall i, st_time st <= st_clock st i <= later.

Definition outbox_rows (clock : nat -> Z) (i : nat) (outbox : list PMsg) : list Row :=
  imap (fun k m => MkRow (src (pm m)) (dest (pm m)) (s64 (clock (i + k)%nat)) (p_serialize m)) outbox.

Lemma insert_outbox_rows clock outbox i (s : GobyStoreServer Db) : exists d,
  insert_outbox clock i outbox s = (MkServer d (last_request_time s), [], Ok tt) /\
  db_rows d = db_rows (db s) ++ outbox_rows clock i outbox.
Proof.
  revert i s. induction outbox as [|m outbox IH]; intros i s.
  - exists (db s). cbn. rewrite app_nil_r. by destruct s.
  - cbn [insert_outbox]. rewrite pbind_get. set (r := MkRow _ _ _ _). destruct (db_insert_ok r (db s)) as [d Hd]. rewrite Hd. cbn [checked].
    rewrite pbind_ret, pbind_mod. destruct (IH (S i) (MkServer d (last_request_time s))) as (d' & -> & Hrows). exists d'. split; [done|].
    rewrite Hrows. cbn [db]. rewrite (db_insert_rows _ _ _ Hd), <- app_assoc. f_equal. unfold outbox_rows. rewrite imap_cons. cbn [app].
    f_equal; [unfold r; do 3 f_equal; lia|]. apply imap_ext. intros k x _. cbn. do 3 f_equal. lia.
Qed.

Lemma divides_tail id last pos r rows : divides id last pos (r :: rows) -> divides id last (pos - 1) rows.
Proof. intros H i x Hi Hx. rewrite (H (S i) x Hi Hx). lia. Qed.

Lemma wanted_rows id last pos now t rows l :
  Forall2 (row_of now) rows l -> divides id last pos rows -> 0 <= last <= now -> now < t < 2 ^ 63 ->
  map row_bytes (List.filter (wanted id last t) rows) = map p_serialize (List.filter (foreign id) (drop pos l)).
Proof.
  intros H. revert pos. induction H as [|r m rows l (Hs & Hb & Ht) _ IH]; intros pos Hd Hl Ht'; [by destruct pos|].
  pose proof (IH _ (divides_tail _ _ _ _ _ Hd) Hl Ht') as IH'. pose proof (Hd 0%nat r eq_refl) as H0.
  cbn [List.filter]. unfold wanted at 1. rewrite !s64_small by lia. assert ((row_microtime r <=? t) = true) as -> by lia. rewrite andb_true_r, Hs in *.
  destruct (src (pm m) =? id) eqn:E; cbn [negb andb].
  - rewrite IH'. destruct pos as [|pos]; cbn [drop Nat.sub]; [|by rewrite Nat.sub_0_r]. cbn [List.filter]. unfold foreign at 2. rewrite E. done.
  - assert (H1 : last < row_microtime r <-> (pos <= 0)%nat) by (apply H0; lia).
    destruct pos as [|pos]; cbn [drop Nat.sub].
    + assert ((last <? row_microtime r) = true) as -> by lia. cbn [List.filter map]. unfold foreign at 1. rewrite E. cbn [negb map]. by rewrite Hb, IH'.
    + assert ((last <? row_microtime r) = false) as -> by lia. rewrite IH'. cbn [Nat.sub]. by rewrite Nat.sub_0_r.
Qed.

Lemma own_rows_unwanted id last t clock i outbox :
  Forall (fun m => src (pm m) = id) outbox -> List.filter (wanted id last t) (outbox_rows clock i outbox) = [].
Proof.
  intros H. revert i. induction H as [|m l Hm _ IH]; intros i; [done|]. unfold outbox_rows. rewrite imap_cons. cbn [List.filter].
  unfold wanted at 1. cbn [row_src]. rewrite Hm, Z.eqb_refl. cbn [negb andb]. rewrite <- (IH (S i)). f_equal. apply imap_ext. intros k x _. cbn. do 3 f_equal. lia.
Qed.

Lemma outbox_rows_of now st later outbox : on_time now later st -> 0 <= now ->
  Forall2 (row_of later) (outbox_rows (st_clock st) 0 outbox) outbox.
Proof.
  intros (Ht & Hl & Hc) Hn. apply Forall2_same_length_lookup. unfold outbox_rows. rewrite length_imap. split; [done|]. intros i r m Hr Hm.
  rewrite list_lookup_imap, Hm in Hr. injection Hr as <-. specialize (Hc i). split; [done|]. split; [done|]. cbn [row_microtime Nat.add].
  rewrite s64_small; lia.
Qed.

Lemma last_time_insert id id' t (s : GobyStoreServer Db) (d : Db) :
  last_time id' (MkServer d (<[id := t]> (last_request_time s))) = if id =? id' then t else last_time id' s.
Proof.
  unfold last_time. cbn [last_request_time]. destruct (Z.eqb_spec id id') as [->|]; [by rewrite lookup_insert_eq | by rewrite lookup_insert_ne].
Qed.

(** the relation is kept by the rows of a step and the new time of its modem *)
Lemma simulates_step now later st (s : GobyStoreServer Db) l d :
  simulates now s l -> on_time now later st -> honest (st_request st) ->
  db_rows d = db_rows (db s) ++ outbox_rows (st_clock st) 0 (rq_outbox (st_request st)) ->
  simulates later (MkServer d (<[modem_id (st_request st) := st_time st]> (last_request_time s))) (log_request (st_request st) l).
Proof.
  intros [Hrows Hdiv Hlast Hpos] Ht Hh Hd. pose proof Ht as (Ht1 & Ht2 & Ht3). assert (Hn : 0 <= now) by (specialize (Hlast 0); lia).
  pose proof (Forall2_length _ _ _ Hrows) as Hlen. pose proof (outbox_rows_of now st later (rq_outbox (st_request st)) Ht Hn) as Hnew. split; cbn [db].
  - rewrite Hd. cbn [entries log_request]. apply Forall2_app; [|exact Hnew]. eapply Forall2_impl; [exact Hrows|]. intros r m (? & ? & ?). repeat split; try done; lia.
  - intros id i r Hr Hs. rewrite last_time_insert, position_after. rewrite Hd in Hr. specialize (Hlast id). apply lookup_app_Some in Hr as [Hr | [Hi Hr]].
    + pose proof (lookup_lt_Some _ _ _ Hr) as Hi. destruct (Forall2_lookup_l _ _ _ _ _ Hrows Hr) as (m & _ & _ & _ & Hm).
      destruct (Z.eqb_spec (modem_id (st_request st)) id) as [E|E]; [rewrite length_app; split; lia|]. by apply Hdiv.
    + destruct (Forall2_lookup_l _ _ _ _ _ Hnew Hr) as (m & Hm & Hsrc & _ & _). pose proof (proj1 (Forall_lookup _ _) Hh _ _ Hm) as Hm'. cbn beta in Hm'.
      destruct (Z.eqb_spec (modem_id (st_request st)) id) as [E|E]; [congruence|]. specialize (Hpos id).
      unfold outbox_rows in Hr. rewrite list_lookup_imap, Hm in Hr. injection Hr as <-. cbn [row_microtime].
      specialize (Ht3 (i - length (db_rows (db s)))%nat). cbn [Nat.add]. rewrite s64_small by lia. split; lia.
  - intros id. rewrite last_time_insert. specialize (Hlast id). destruct (_ =? id); lia.
  - intros id. by apply position_bound.
Qed.

Definition same_response (a b : StoreServerResponse) : Prop := rs_modem_id a = rs_modem_id b /\ rs_inbox a ≡ₚ rs_inbox b.

(** a request is answered as by the log *)
Lemma handle_request_simulates now later st (s : GobyStoreServer Db) l :
  simulates now s l -> on_time now later st -> honest (st_request st) -> exists s' response,
  handle_request (st_time st) (st_clock st) (st_request st) s = (s', [SSend response], Ok tt) /\
  same_response response (log_response (st_request st) l) /\ simulates later s' (log_request (st_request st) l).
Proof.
  intros Hsim Ht Hh. pose proof Ht as (Ht1 & Ht2 & _). set (r := st_request st) in *.
  destruct (insert_outbox_rows (st_clock st) (rq_outbox r) 0 s) as (d & Hi & Hrows). unfold handle_request. rewrite (pbind_quiet _ _ _ _ _ Hi), pbind_mod, pbind_get.
  cbn [db]. rewrite last_time_insert, Z.eqb_refl. change (last_time (modem_id r) (MkServer d (last_request_time s))) with (last_time (modem_id r) s).
  destruct (db_select_ok (wanted (modem_id r) (last_time (modem_id r) s) (st_time st)) d) as [rows Hsel]. rewrite Hsel. cbn [checked]. rewrite pbind_ret, pbind_mod.
  cbn [db last_request_time]. rewrite insert_insert_eq. eexists _, _. split; [reflexivity|]. split; [|by apply (simulates_step now)].
  split; [done|]. cbn [rs_inbox]. apply db_select_rows in Hsel. rewrite Hrows, List.filter_app, own_rows_unwanted, app_nil_r in Hsel by exact Hh.
  rewrite (wanted_rows _ _ (position_of (modem_id r) l) now _ _ (entries l)) in Hsel; [|apply Hsim|apply Hsim|apply Hsim|lia].
  rewrite Hsel, map_map. unfold log_response. cbn [rs_inbox]. erewrite map_ext; [by rewrite map_id|]. intros m. apply p_roundtrip.
Qed.

Lemma simulates_empty (d : Db) : db_rows d = [] -> simulates 0 (MkServer d ∅) empty_log.
Proof.
  intros Hd. split; cbn [db]; rewrite ?Hd; cbn [entries empty_log]; [constructor | intros id i r Hr; by rewrite lookup_nil in Hr | |];
    intros id; unfold last_time, position_of; cbn; by rewrite lookup_empty.
Qed.

(** the clock goes on from step to step *)
Fixpoint timeline (now : Z) (steps : list Step) : Prop :=
  match steps with
  | [] => True
  | st :: steps => exists later, on_time now later st /\ timeline later steps
  end.

Lemma serve_simulates steps now (s : GobyStoreServer Db) l :
  simulates now s l -> timeline now steps -> Forall honest (map st_request steps) -> exists s' responses,
  serve steps s = (s', map SSend responses, Ok tt) /\ Forall2 same_response responses (log_responses (map st_request steps) l).
Proof.
  revert now s l. induction steps as [|st steps IH]; intros now s l Hsim Ht Hh; [by exists s, []; repeat constructor|].
  destruct Ht as (later & Ht & Hts). apply Forall_cons in Hh as [Hh Hhs].
  destruct (handle_request_simulates now later st s l Hsim Ht Hh) as (s1 & r & E & Hr & Hsim1).
  destruct (IH later s1 _ Hsim1 Hts Hhs) as (s2 & rs & E2 & Hrs). exists s2, (r :: rs). split; [|by constructor].
  unfold serve in *. cbn [pfor]. unfold pbind. by rewrite E, E2.
Qed.

Lemma delivered_same id rs rs' : Forall2 same_response rs rs' -> delivered id rs ≡ₚ delivered id rs'.
Proof.
  unfold delivered. induction 1 as [|a b l l' [Hid Hin] _ IH]; [done|]. cbn [List.filter]. rewrite Hid.
  destruct (_ =? id); [|exact IH]. cbn [map concat]. by rewrite Hin, IH.
Qed.

(** C18: Starting with an empty table, with a database that carries out every statement, requests
    whose outbox names the requester as the source of each message, and a clock that is later at
    each request than at everything of the requests before: the store server, which selects rows by
    the time of the last request, answers every sequence of such requests with the messages (in some
    order) that a log with a position for every modem answers with; in all, a modem gets every
    message that others posted up to its last request exactly once. *)
Theorem store_server_refines_log (d : Db) (steps : list Step) :
  db_rows d = [] -> timeline 0 steps -> Forall honest (map st_request steps) -> exists s responses,
  serve steps (MkServer d ∅) = (s, map SSend responses, Ok tt) /\
  Forall2 same_response responses (log_responses (map st_request steps) empty_log) /\
  forall id, delivered id responses ≡ₚ List.filter (foreign id) (posted id (map st_request steps)).
Proof.
  intros Hd Ht Hh. destruct (serve_simulates steps 0 _ _ (simulates_empty d Hd) Ht Hh) as (s & rs & E & Hrs). exists s, rs. split; [exact E|].
  split; [exact Hrs|]. intros id. rewrite (delivered_same _ _ _ Hrs), log_delivers by (try exact Hh; unfold position_of; cbn; by rewrite lookup_empty).
  unfold pending, position_of. cbn [entries position empty_log]. rewrite lookup_empty. by destruct existsb.
Qed.

End Simulation.

(** ** A concrete server *)

Module StoreWitness.

(** rows in a list, read from the newest to the oldest *)
#[local] Instance rows_db : Database (list Row) := {|
  db_rows d := d; db_insert r d := Some (d ++ [r]); db_select p d := Some (rev (map row_bytes (List.filter p d)))
|}.
#[local] Instance rows_db_laws : DatabaseLaws (list Row).
Proof. constructor; cbn; [by intros r d d' [= <-] | intros p d l [= <-]; apply Permutation_sym, Permutation_rev]. Qed.
#[local] Instance rows_db_healthy : Healthy (list Row).
Proof. constructor; cbn; eauto. Qed.

(** a wire format: transmissions are countable *)
#[local] Existing Instances UdpWitness.spec_float_eq_dec UdpWitness.spec_float_countable UdpWitness.type_countable.
#[local] Instance pb_type_countable : Countable PBType :=
  inj_countable' (fun t => match t with PB_BASE_TYPE => false | PB_DRIVER_POLL => true end)
    (fun b : bool => if b then PB_DRIVER_POLL else PB_BASE_TYPE) (fun t => match t with PB_BASE_TYPE | PB_DRIVER_POLL => eq_refl end).
#[local] Instance store_wire : StoreWire := {|
  p_serialize m := [Zpos (encode (UdpWitness.tuple (pm m), pm_type m, pm_poll_src m, pm_poll_dest m))];
  p_parse b :=
    match b with
    | [Zpos p] => match decode p with Some (t, a, b, c) => MkPMsg (UdpWitness.untuple t) a b c | None => plain_pmsg empty_transmission end
    | _ => plain_pmsg empty_transmission
    end
|}.
#[local] Instance store_wire_laws : StoreWireLaws.
Proof. constructor. intros m. cbn [p_parse p_serialize store_wire]. rewrite decode_encode. by destruct m as [[] ? ? ?]. Qed.

Definition note (from to : Z) (text : bytes) : PMsg :=
  plain_pmsg (set_mt_frame [text] (set_mt_src (Some from) (set_mt_dest (Some to) (set_mt_type (Some DATA) empty_transmission)))).
Definition step (t id : Z) (outbox : list PMsg) : Step := MkStep t (fun _ => t) (MkRequest (Some id) outbox None).

Definition steps : list Step :=
  [step 10 1 [note 1 2 [5]; note 1 0 [6]]; step 20 2 [note 2 1 [7]]; step 30 2 []; step 40 1 [note 1 2 [8]]; step 50 3 []; step 60 2 []].

Example store_server_refines_log_witness : exists responses,
  Forall2 same_response responses (log_responses (map st_request steps) empty_log) /\
  delivered 2 responses ≡ₚ [note 1 2 [5]; note 1 0 [6]; note 1 2 [8]].
Proof.
  destruct (store_server_refines_log [] steps) as (s & responses & _ & H & D).
  - reflexivity.
  - exists 10; split; [repeat split; cbn; lia|]. exists 20; split; [repeat split; cbn; lia|]. exists 30; split; [repeat split; cbn; lia|].
    exists 40; split; [repeat split; cbn; lia|]. exists 50; split; [repeat split; cbn; lia|]. exists 60; split; [repeat split; cbn; lia | exact I].
  - repeat constructor.
  - exists responses. split; [exact H | exact (D 2)].
Defined.

End StoreWitness.
