(* ===== verification/StoreLink.v ===== *)
(** * Two PB drivers and the store server

    What one driver sends reaches the other with the replies of the server, and
    the acknowledgement comes back the same way. The proof uses the server only
    through its log. *)

From stdpp Require Import gmap countable.
From S2P Require Import Prelude Double As Proto Prog DriverBase UdpDriver PbDriver StoreServer.

#[local] Open Scope prog_scope.

(** ** The driver *)

Section Driver.
Context {W : Type} (slots : PSlots W).

(** the request as it is sent, and the driver behind it *)
Definition outgoing (d : PBDriver) : StoreServerRequest :=
  MkRequest (rq_modem_id (request d)) (rq_outbox (request d)) (Some (u64 (next_request_id d))).
Definition after_send (sent_time : Z) (d : PBDriver) : PBDriver :=
  set_waiting true (set_request (MkRequest (rq_modem_id (request d)) [] (Some (u64 (next_request_id d))))
    (set_sent sent_time (set_next_request (s32 (next_request_id d + 1)) d))).

Definition ready (now : Z) (d : PBDriver) : Prop :=
  waiting_for_reply d = false /\ is_Some (rq_modem_id (request d)) /\ query_due now d = Ok true.

Lemma request_sent now sent_time d (w : W) : ready now d ->
  p_do_work slots [] now sent_time (MkPState d w) = (MkPState (after_send sent_time d) w, [PSend (request_socket_id d) (outgoing d)], Ok tt).
Proof.
  intros (Hw & Hi & Hq). unfold p_do_work. cbn [pfor]. rewrite pbind_ret, pbind_read. cbn [pbd]. rewrite Hw. unfold is_initialized.
  rewrite bool_decide_eq_true_2 by done. cbn [negb andb]. rewrite Hq, pbind_lift. reflexivity.
Qed.

Lemma do_work_reply r now sent_time (s : PState W) :
  p_do_work slots [r] now sent_time s = pbind (handle_response slots r) (fun _ => p_do_work slots [] now sent_time) s.
Proof. unfold p_do_work. cbn [pfor]. by rewrite !pbind_assoc. Qed.

Lemma response_empty id d (w : W) : handle_response slots (MkResponse id []) (MkPState d w) = (MkPState (set_waiting false d) w, [], Ok tt).
Proof. done. Qed.

(** a message that is not a poll is signalled; data for this modem are answered *)
Lemma response_one id msg d (w w' : W) :
  is_poll_for (pb_modem_id (pb_cfg d)) msg = false -> ps_receive slots msg w = (w', Some tt) ->
  handle_response slots (MkResponse id [msg]) (MkPState d w) =
    (MkPState (set_waiting false
       (if (dest (pm msg) =? pb_modem_id (pb_cfg d)) && bool_decide (type (pm msg) = DATA) && ack_requested (pm msg)
        then add_outbox (plain_pmsg (make_ack (pm msg))) d else d)) w', [PReceive msg], Ok tt).
Proof.
  intros Hp Hr. unfold handle_response. cbn [rs_inbox pfor]. unfold p_receive. rewrite pbind_assoc, pbind_assoc, pbind_read. cbn [pbd]. rewrite Hp.
  destruct (_ && _ && _); unfold pwhen, on_pb, p_call, pbind, pmod, pret, pemit; cbn [p_world pbd]; by rewrite Hr.
Qed.

(** a transmission of this modem with all its frames is put in the outbox *)
Lemma initiate_own orig msg data d (w w' : W) :
  type (pm orig) = DATA -> ps_modify slots orig w = (w', Some msg) -> src (pm msg) = pb_modem_id (pb_cfg d) ->
  limited (pb_cfg d) (numbered (pb_next_frame d) msg) = Ok data -> s32 (max_num_frames (pm data)) <= Z.of_nat (frame_size (pm data)) ->
  (exists c f frames, mt_frame (pm data) = (c :: f) :: frames) ->
  p_handle_initiate_transmission slots orig (MkPState d w) =
    (MkPState (add_outbox data (set_next_frame (u32 (pb_next_frame d + Z.of_nat (frame_size (pm data)))) d)) w', [], Ok tt).
Proof.
  intros Ht Hm Hs Hl Hn (c & f & frames & Hf). unfold p_handle_initiate_transmission. rewrite Ht.
  assert (E : p_call (ps_modify slots orig) (MkPState d w) = (MkPState d w', [], Ok msg)) by (unfold p_call; cbn [p_world]; by rewrite Hm).
  rewrite (pbind_quiet _ _ _ _ _ E), pbind_read. cbn [pbd]. rewrite Hs, Z.eqb_refl, Hl, pbind_lift. rewrite (proj2 (Z.ltb_ge _ _) Hn), pbind_ret.
  unfold on_pb. rewrite pbind_mod. rewrite Hf. done.
Qed.

Lemma limited_keeps cfg n msg data : limited cfg (numbered n msg) = Ok data ->
  src (pm data) = src (pm msg) /\ dest (pm data) = dest (pm msg) /\ type (pm data) = type (pm msg) /\ ack_requested (pm data) = ack_requested (pm msg).
Proof.
  unfold limited, numbered. destruct msg as [m ? ? ?]. cbn [pm]. destruct (mt_frame_start m); destruct (_ <? 0); try done;
    destruct (pb_rate_to_frames _ !! _); by intros [= <-].
Qed.

Lemma not_poll id msg : type (pm msg) <> DRIVER_SPECIFIC -> is_poll_for id msg = false.
Proof. intros H. unfold is_poll_for. by rewrite bool_decide_eq_false_2. Qed.

End Driver.

(** ** The exchange *)

Section Exchange.
Context {WR : StoreWire} {WRL : StoreWireLaws} {Db : Type} {DB : Database Db} {DBL : DatabaseLaws Db} {DBH : Healthy Db}.

(** a request with at most one pending message has one possible answer *)
Lemma handle_request_exact now later t clock r (s : GobyStoreServer Db) l inbox :
  simulates now s l -> on_time now later (MkStep t clock r) -> honest r -> pending (modem_id r) l = inbox -> (length inbox <= 1)%nat ->
  exists s', handle_request t clock r s = (s', [SSend (MkResponse (modem_id r) inbox)], Ok tt) /\ simulates later s' (log_request r l).
Proof.
  intros Hs Ht Hh <- Hl. destruct (handle_request_simulates now later (MkStep t clock r) s l Hs Ht Hh) as (s' & [id box] & E & [H1 H2] & Hs').
  exists s'. split; [|exact Hs']. cbn [log_response rs_modem_id rs_inbox st_request] in H1, H2. subst id.
  assert (box = pending (modem_id r) l) as <-; [|exact E]. destruct (pending (modem_id r) l) as [|m [|]]; [| |cbn in Hl; lia].
  - by apply Permutation_nil_r in H2.
  - by apply Permutation_singleton_r in H2.
Qed.

(** the server's part: one message to each of two modems *)
Lemma requests_served ia ib data ack rA rB rB' rA' now t1 t2 t3 t4 c1 c2 c3 c4 (s : GobyStoreServer Db) l :
  ia <> ib -> simulates now s l -> pending ia l = [] -> pending ib l = [] ->
  modem_id rA = ia -> modem_id rB = ib -> modem_id rB' = ib -> modem_id rA' = ia ->
  rq_outbox rA = [data] -> rq_outbox rB = [] -> rq_outbox rB' = [ack] -> rq_outbox rA' = [] -> src (pm data) = ia -> src (pm ack) = ib ->
  timeline now [MkStep t1 c1 rA; MkStep t2 c2 rB; MkStep t3 c3 rB'; MkStep t4 c4 rA'] -> exists s1 s2 s3 s4,
  handle_request t1 c1 rA s = (s1, [SSend (MkResponse ia [])], Ok tt) /\ handle_request t2 c2 rB s1 = (s2, [SSend (MkResponse ib [data])], Ok tt) /\
  handle_request t3 c3 rB' s2 = (s3, [SSend (MkResponse ib [])], Ok tt) /\ handle_request t4 c4 rA' s3 = (s4, [SSend (MkResponse ia [ack])], Ok tt).
Proof.
  intros Hne Hs Pa Pb <- <- MB MA OA OB OB' OA' Sd Sa (n1 & T1 & n2 & T2 & n3 & T3 & n4 & T4 & _).
  assert (HA : honest rA) by (unfold honest; rewrite OA; by repeat constructor). assert (HB : honest rB) by (unfold honest; rewrite OB; constructor).
  assert (HB' : honest rB') by (unfold honest; rewrite OB'; by repeat constructor; rewrite MB). assert (HA' : honest rA') by (unfold honest; rewrite OA'; constructor).
  destruct (handle_request_exact _ _ _ _ _ _ _ _ Hs T1 HA Pa ltac:(cbn; lia)) as (s1 & E1 & S1).
  assert (P1 : pending (modem_id rB) (log_request rA l) = [data]).
  { rewrite pending_other, Pb, OA; [|done|apply Hs]. cbn. unfold foreign. by rewrite Sd, (proj2 (Z.eqb_neq _ _) Hne). }
  destruct (handle_request_exact _ _ _ _ _ _ _ _ S1 T2 HB P1 ltac:(cbn; lia)) as (s2 & E2 & S2).
  assert (P2 : pending (modem_id rB') (log_request rB (log_request rA l)) = []) by (rewrite MB; apply pending_own).
  destruct (handle_request_exact _ _ _ _ _ _ _ _ S2 T3 HB' P2 ltac:(cbn; lia)) as (s3 & E3 & S3).
  assert (P3 : pending (modem_id rA') (log_request rB' (log_request rB (log_request rA l))) = [ack]).
  { rewrite MA, pending_other, pending_other, pending_own, OB, OB'; [|congruence|apply S1|congruence|apply S2]. cbn. unfold foreign. by rewrite Sa, (proj2 (Z.eqb_neq _ _)). }
  destruct (handle_request_exact _ _ _ _ _ _ _ _ S3 T4 HA' P3 ltac:(cbn; lia)) as (s4 & E4 & _).
  exists s1, s2, s3, s4. rewrite MB in E3. rewrite MA in E4. done.
Qed.

Context {WA WB : Type} (slots_a : PSlots WA) (slots_b : PSlots WB).

(** a driver between two requests *)
Definition idle (id : Z) (d : PBDriver) : Prop :=
  pb_modem_id (pb_cfg d) = id /\ rq_modem_id (request d) = Some id /\ rq_outbox (request d) = [] /\ waiting_for_reply d = false.

(** C19: Two PB drivers and the store server: a transmission of the first driver is sent with its
    next request, is the answer to the next request of the second, which signals it and acknowledges
    its frames with its following request, and the first driver signals the acknowledgement that its
    own next request is answered with. *)
Theorem pb_exchange (ia ib : Z) (da db : PBDriver) (wa wa1 wa2 : WA) (wb wb1 : WB) (s : GobyStoreServer Db) (l : Log) (orig msg data : PMsg)
    (now t1 t2 t3 t4 na1 ta1 na2 ta2 nb1 tb1 nb2 tb2 : Z) (c1 c2 c3 c4 : nat -> Z) :
  let ack := plain_pmsg (make_ack (pm data)) in
  let a1 := add_outbox data (set_next_frame (u32 (pb_next_frame da + Z.of_nat (frame_size (pm data)))) da) in
  let a2 := after_send ta1 a1 in
  let a3 := set_waiting false a2 in
  let b1 := after_send tb1 db in
  let b2 := set_waiting false (add_outbox ack b1) in
  idle ia da -> idle ib db -> ia <> ib -> simulates now s l -> pending ia l = [] -> pending ib l = [] ->
  timeline now [MkStep t1 c1 (outgoing a1); MkStep t2 c2 (outgoing db); MkStep t3 c3 (outgoing b2); MkStep t4 c4 (outgoing a3)] ->
  type (pm orig) = DATA -> ps_modify slots_a orig wa = (wa1, Some msg) -> src (pm msg) = ia -> dest (pm msg) = ib ->
  type (pm msg) = DATA -> ack_requested (pm msg) = true ->
  limited (pb_cfg da) (numbered (pb_next_frame da) msg) = Ok data -> s32 (max_num_frames (pm data)) <= Z.of_nat (frame_size (pm data)) ->
  (exists c f frames, mt_frame (pm data) = (c :: f) :: frames) ->
  ps_receive slots_b data wb = (wb1, Some tt) -> ps_receive slots_a ack wa1 = (wa2, Some tt) ->
  query_due na1 da = Ok true -> query_due nb1 db = Ok true -> query_due nb2 (set_sent tb1 db) = Ok true -> query_due na2 (set_sent ta1 da) = Ok true ->
  exists s1 s2 s3 s4,
    p_handle_initiate_transmission slots_a orig (MkPState da wa) = (MkPState a1 wa1, [], Ok tt) /\
    p_do_work slots_a [] na1 ta1 (MkPState a1 wa1) = (MkPState a2 wa1, [PSend (request_socket_id da) (outgoing a1)], Ok tt) /\
    handle_request t1 c1 (outgoing a1) s = (s1, [SSend (MkResponse ia [])], Ok tt) /\
    p_do_work slots_b [] nb1 tb1 (MkPState db wb) = (MkPState b1 wb, [PSend (request_socket_id db) (outgoing db)], Ok tt) /\
    handle_request t2 c2 (outgoing db) s1 = (s2, [SSend (MkResponse ib [data])], Ok tt) /\
    p_do_work slots_b [MkResponse ib [data]] nb2 tb2 (MkPState b1 wb) =
      (MkPState (after_send tb2 b2) wb1, [PReceive data; PSend (request_socket_id db) (outgoing b2)], Ok tt) /\
    handle_request t3 c3 (outgoing b2) s2 = (s3, [SSend (MkResponse ib [])], Ok tt) /\
    p_do_work slots_a [MkResponse ia []] na2 ta2 (MkPState a2 wa1) =
      (MkPState (after_send ta2 a3) wa1, [PSend (request_socket_id da) (outgoing a3)], Ok tt) /\
    handle_request t4 c4 (outgoing a3) s3 = (s4, [SSend (MkResponse ia [ack])], Ok tt) /\
    handle_response slots_a (MkResponse ia [ack]) (MkPState (after_send ta2 a3) wa1) =
      (MkPState (set_waiting false (after_send ta2 a3)) wa2, [PReceive ack], Ok tt) /\
    mt_acked_frame (pm ack) = acked_frames (pm data).
Proof.
  intros ack a1 a2 a3 b1 b2 (Ia & Ra & Oa & Qa) (Ib & Rb & Ob & Qb) Hne Hs Pa Pb Ht To Hm Hsrc Hdest Tm Am Hl Hn Hf RB RA D1 D2 D3 D4.
  destruct (limited_keeps _ _ _ _ Hl) as (Ds & Dd & Dt & Da). rewrite Hsrc in Ds. rewrite Hdest in Dd. rewrite Tm in Dt. rewrite Am in Da.
  destruct (requests_served ia ib data ack (outgoing a1) (outgoing db) (outgoing b2) (outgoing a3) now t1 t2 t3 t4 c1 c2 c3 c4 s l)
    as (s1 & s2 & s3 & s4 & E1 & E2 & E3 & E4); try done;
    try (unfold modem_id; cbn; by rewrite ?Ra, ?Rb); [cbn; by rewrite Oa|].
  exists s1, s2, s3, s4. split; [apply (initiate_own _ _ msg); try done; by rewrite Ia|].
  split; [rewrite request_sent; [done|]; split; [done|]; split; [cbn; by rewrite Ra | exact D1]|]. split; [exact E1|].
  split; [apply request_sent; split; [done|]; split; [by rewrite Rb | exact D2]|]. split; [exact E2|]. split; [|split; [exact E3|split; [|split; [exact E4|split; [|done]]]]].
  - rewrite do_work_reply. rewrite (pbind_ok _ _ _ _ _ _ (response_one _ ib data b1 wb wb1 (not_poll _ _ ltac:(by rewrite Dt)) RB)).
    change (pb_modem_id (pb_cfg b1)) with (pb_modem_id (pb_cfg db)). rewrite Ib, Dd, Z.eqb_refl, Dt, Da, bool_decide_eq_true_2 by done. cbn [andb].
    rewrite request_sent; [done|]. split; [done|]. split; [cbn; by rewrite Rb | exact D3].
  - rewrite do_work_reply, (pbind_quiet _ _ _ _ _ (response_empty _ _ _ _)). rewrite request_sent; [done|]. split; [done|]. split; [cbn; by rewrite Ra | exact D4].
  - rewrite (response_one _ ia ack _ _ wa2); [|by apply not_poll | exact RA]. change (type (pm ack)) with ACK.
    rewrite (bool_decide_eq_false_2 (ACK = DATA)) by done. rewrite andb_false_r. done.
Qed.

End Exchange.

(** ** A concrete exchange *)

Module PbWitness.
#[local] Existing Instances StoreWitness.rows_db StoreWitness.rows_db_laws StoreWitness.rows_db_healthy StoreWitness.store_wire StoreWitness.store_wire_laws.

Definition slots : PSlots unit := MkPSlots unit (fun m w => (w, Some m)) (fun m w => (w, Some m)) (fun _ w => (w, Some tt)).
Definition config (id : Z) : PBConfig := MkPBConfig id 103 (double_of_Z 1) 65536 (double_of_Z 120) [32; 64] [1; 2].
Definition driver (id : Z) : PBDriver :=
  Eval vm_compute in pbd (fst (fst (p_startup (config id) (MkPState (new_pb_driver (config id) 1000000) tt)))).

Definition message : PMsg :=
  plain_pmsg (set_mt_frame [[1; 2; 3]; [4; 5]] (set_mt_dest (Some 2) (set_mt_src (Some 1) (set_mt_rate (Some 1) (set_mt_type (Some DATA) empty_transmission))))).
Definition data : PMsg :=
  on_pm (set_mt_max_num_frames (Some 2)) (on_pm (set_mt_max_frame_bytes (Some 64)) (on_pm (set_mt_frame_start (Some 0)) message)).

Example pb_exchange_witness : exists s1 s2 : GobyStoreServer (list Row),
  handle_request 3000000 (fun _ => 3000001) (outgoing (driver 2)) s1 = (s2, [SSend (MkResponse 2 [data])], Ok tt) /\
  mt_acked_frame (make_ack (pm data)) = [0; 1].
Proof.
  destruct (pb_exchange slots slots 1 2 (driver 1) (driver 2) tt tt tt tt tt (MkServer [] ∅) empty_log message message data
    0 2100001 3000000 5000000 6000000 2100000 2100000 5500000 5500000 2200000 2200000 4500000 4500000
    (fun _ => 2100001) (fun _ => 3000001) (fun _ => 5000000) (fun _ => 6000000)) as (s1 & s2 & s3 & s4 & H);
    [by repeat split | by repeat split | discriminate | by apply simulates_empty | reflexivity | reflexivity | | reflexivity | reflexivity
    | reflexivity | reflexivity | reflexivity | reflexivity | vm_compute; reflexivity | vm_compute; discriminate | by exists 1, [2; 3], [[4; 5]]
    | reflexivity | reflexivity | vm_compute; reflexivity | vm_compute; reflexivity | vm_compute; reflexivity | vm_compute; reflexivity |].
  - exists 2100001. split; [repeat split; cbn; lia|]. exists 3000001. split; [repeat split; cbn; lia|]. exists 5000000. split; [repeat split; cbn; lia|].
    exists 6000000. split; [repeat split; cbn; lia | exact I].
  - exists s1, s2. split; [exact (proj1 (proj2 (proj2 (proj2 (proj2 H))))) | vm_compute; reflexivity].
Defined.

End PbWitness.
