(* ===== verification/UFieldDriver.v ===== *)
(** * moos/moos_ufield_sim_driver.{h,cpp}: a modem simulated by uFldNodeComms

    The driver publishes a transmission as hexadecimal text with the names of
    both nodes; the simulator of the uField toolbox hands the text to the node
    named as destination. The MOOS client is events and mail; the wire format of
    protobuf is an interface. *)

From Stdlib Require Import SpecFloat.
From stdpp Require Import countable.
From S2P Require Import Prelude AssocList HexCodec Double Time As Proto Nmea MoosString UdpDriver Prog DriverBase MmData.

#[local] Open Scope prog_scope.

(** ** Data *)

(** [protobuf::DriverTransmissionType] *)
Inductive UFieldType : Type := UFIELD_NOT_A_DRIVER_TRANSMISSION | UFIELD_DRIVER_POLL.
#[export] Instance UFieldType_eq_dec : EqDecision UFieldType.
Proof. solve_decision. Defined.

(** a transmission with the extensions of this driver and of the Micro-Modem *)
Record UMsg : Type := MkUMsg {
  um : ModemTransmission;
  um_type : option UFieldType;
  um_poll_src : option Z;
  um_poll_dest : option Z;
  um_mm_type : option MMType;
  um_travel_time : list double
}.
Definition plain_msg (m : ModemTransmission) : UMsg := MkUMsg m None None None None [].
Definition on_um (f : ModemTransmission -> ModemTransmission) (m : UMsg) : UMsg :=
  MkUMsg (f (um m)) (um_type m) (um_poll_src m) (um_poll_dest m) (um_mm_type m) (um_travel_time m).

(** [SerializeAsString] and [ParseFromString] *)
Class UWireFormat : Type := {
  u_serialize : UMsg -> bytes;
  u_parse : bytes -> UMsg
}.
Class UWireFormatLaws `{UWireFormat} : Prop := {
  u_roundtrip : forall m, u_parse (u_serialize m) = m;
  u_serialize_wf : forall m, wf_bytes (u_serialize m)
}.

Record UFldConfig : Type := MkUFldConfig {
  uf_modem_id : Z;
  rate_to_bytes : list Z;
  incoming_moos_var : bytes;
  outgoing_moos_var : bytes;
  ufield_outgoing_moos_var : bytes;
  range_request_var : bytes;
  range_report_var : bytes
}.

Record UFldDriver : Type := MkUFld { uf_cfg : UFldConfig; modem_lookup : ModemIdConvert; last_ccmpc_dest : Z }.

Inductive UEvent : Type :=
| URun | UClose | URegister (var : bytes)
| UNotify (var text : bytes)
| URaw (incoming : bool) (raw : bytes)
| UReceive (m : UMsg).

(** what is connected to the signals; [None] is an exception out of the slot *)
Record USlots (W : Type) : Type := MkUSlots {
  us_modify : UMsg -> W -> W * option UMsg;
  us_data_request : UMsg -> W -> W * option UMsg;
  us_receive : UMsg -> W -> W * option unit
}.
Arguments us_modify {W}.
Arguments us_data_request {W}.
Arguments us_receive {W}.

Record UState (W : Type) : Type := MkUState { ufld : UFldDriver; u_world : W }.
Arguments MkUState {W}.
Arguments ufld {W}.
Arguments u_world {W}.

Definition DEFAULT_PACKET_SIZE : Z := 64.
Definition NOMINAL_SPEED_OF_SOUND : Z := 1500.

Definition new_ufld (c : UFldConfig) : UFldDriver := MkUFld c new_id_convert (-1).

(** mail of the MOOS client *)
Record Mail : Type := MkMail { mail_key : bytes; mail_text : bytes }.

Section Driver.
Context {TX : BoostText} {LN : LexicalNumbers} {WF : UWireFormat}.
Context {W : Type} (slots : USlots W).

Abbreviation uprog := (prog (UState W) UEvent Exn).

Definition u_call {A : Type} (f : W -> W * option A) : uprog A := fun s =>
  let '(w, r) := f (u_world s) in
  (MkUState (ufld s) w, [], match r with Some a => Ok a | None => Err SlotException end).

Definition u_cfg : uprog UFldConfig := pread (fun s => uf_cfg (ufld s)).
Definition on_ufld (f : UFldDriver -> UFldDriver) : uprog unit := pmod (fun s => MkUState (f (ufld s)) (u_world s)).

(** ** Startup and shutdown *)

(** [while (!IsConnected())], with what the client answers *)
Fixpoint wait_connected (polls : list bool) : uprog unit :=
  match polls with
  | [] => pthrow StillWaiting
  | true :: _ => pret tt
  | false :: polls => wait_connected polls
  end.

(** [debug]: the log level at which the lookup file is read *)
Definition u_startup (debug : bool) (file : option (list bytes)) (polls : list bool) (cfg : UFldConfig) : uprog unit :=
  on_ufld (fun d => MkUFld cfg (modem_lookup d) (last_ccmpc_dest d));;
  pwhen debug (on_ufld (fun d => MkUFld (uf_cfg d) (read_lookup_file file (modem_lookup d)) (last_ccmpc_dest d)));;
  pemit URun;;
  wait_connected polls;;
  pemit (URegister (incoming_moos_var cfg));;
  pemit (URegister (range_report_var cfg)).

Definition u_shutdown : uprog unit := pemit UClose.

(** ** Sending *)

(** the text for the simulator *)
Definition node_text (d : UFldDriver) (msg : UMsg) : bytes :=
  let to := if dest (um msg) =? BROADCAST_ID then B "all" else get_name_from_id (dest (um msg)) (modem_lookup d) in
  B "src_node=" ++ get_name_from_id (src (um msg)) (modem_lookup d) ++ B ",dest_node=" ++ to
  ++ B ",var_name=" ++ incoming_moos_var (uf_cfg d) ++ B ",string_val=" ++ hex_encode (u_serialize msg).

Definition send_message (msg : UMsg) : uprog unit :=
  let! d := pread ufld in
  let text := node_text d msg in
  pemit (URaw false text);;
  pemit (UNotify (outgoing_moos_var (uf_cfg d)) (hex_encode (u_serialize msg)));;
  pemit (UNotify (ufield_outgoing_moos_var (uf_cfg d)) text).

Definition ccmpc (msg : UMsg) : uprog unit :=
  let! d := pread ufld in
  on_ufld (fun d => MkUFld (uf_cfg d) (modem_lookup d) (dest (um msg)));;
  pemit (UNotify (range_request_var (uf_cfg d)) (B "name=" ++ get_name_from_id (src (um msg)) (modem_lookup d))).

(** the size of a frame; a negative rate reads before the array *)
Definition frame_bytes (cfg : UFldConfig) (rate : Z) : result Exn Z :=
  if rate <? 0 then Err UndefinedBehaviour else Ok (default DEFAULT_PACKET_SIZE (rate_to_bytes cfg !! Z.to_nat rate)).

(** the request to another node to transmit *)
Definition poll_of (id : Z) (msg : UMsg) : UMsg :=
  let m := um msg in
  MkUMsg (set_mt_type (Some DRIVER_SPECIFIC) (set_mt_src (Some id) (set_mt_dest (Some (src m)) m)))
    (Some UFIELD_DRIVER_POLL) (Some (src m)) (Some (dest m)) (um_mm_type msg) (um_travel_time msg).

Definition u_handle_initiate_transmission (orig_msg : UMsg) : uprog unit :=
  let! msg := u_call (us_modify slots orig_msg) in
  let! cfg := u_cfg in
  match type (um msg) with
  | DATA =>
      if uf_modem_id cfg =? src (um msg) then
        let! bytes := plift (frame_bytes cfg (rate (um msg))) in
        let msg := on_um (set_mt_max_frame_bytes (Some bytes)) msg in
        let! msg := match mt_frame (um msg) with [] => u_call (us_data_request slots msg) | _ => pret msg end in
        match mt_frame (um msg) with
        | (_ :: _) :: _ => send_message msg
        | _ => pret tt
        end
      else send_message (poll_of (uf_modem_id cfg) msg)
  | DRIVER_SPECIFIC =>
      match um_mm_type msg with
      | Some MICROMODEM_TWO_WAY_PING => ccmpc msg
      | _ => pret tt
      end
  | _ => pret tt
  end.

(** ** Receiving *)

Definition u_make_ack (msg : UMsg) : UMsg :=
  plain_msg (set_mt_acked_frame (map Z.of_nat (seq 0 (frame_size (um msg))))
    (set_mt_dest (Some (src (um msg))) (set_mt_src (Some (dest (um msg))) (set_mt_type (Some ACK) empty_transmission)))).

(** the transmission that a poll asks for *)
Definition polled (msg : UMsg) : UMsg :=
  MkUMsg (set_mt_dest (Some (default 0 (um_poll_dest msg))) (set_mt_src (Some (default 0 (um_poll_src msg))) (set_mt_type (Some DATA) (um msg))))
    None None None (um_mm_type msg) (um_travel_time msg).

Definition u_signal_receive (msg : UMsg) : uprog unit := pemit (UReceive msg);; u_call (us_receive slots msg).

Definition u_receive_message (msg : UMsg) : uprog unit :=
  if bool_decide (type (um msg) = DRIVER_SPECIFIC) && bool_decide (default UFIELD_NOT_A_DRIVER_TRANSMISSION (um_type msg) = UFIELD_DRIVER_POLL)
  then u_handle_initiate_transmission (polled msg)
  else
    pwhen (bool_decide (type (um msg) = DATA) && ack_requested (um msg) && negb (dest (um msg) =? BROADCAST_ID)) (send_message (u_make_ack msg));;
    u_signal_receive msg.

(** [static_cast<uint64>(time) * 1000000], where the cast is defined *)
Definition micro_of (time : double) : option Z := (fun v => u64 (v * 1000000)) <$> uint64_cast time.

Definition or_error {A : Type} (o : option A) : uprog A := match o with Some a => pret a | None => pthrow SystemError end.

(** the answer to a ping *)
Definition range_report (text : bytes) : uprog unit :=
  let! target := or_error (val_from_string text (B "target")) in
  let! range := or_error (double_from_string text (B "range")) in
  let! time := or_error (double_from_string text (B "time")) in
  let! d := pread ufld in
  if negb (bool_decide (target = get_name_from_id (last_ccmpc_dest d) (modem_lookup d))) then pret tt
  else
    let! t := match micro_of time with Some t => pret t | None => pthrow UndefinedBehaviour end in
    let m := set_mt_type (Some DRIVER_SPECIFIC) (set_mt_dest (Some (last_ccmpc_dest d))
               (set_mt_src (Some (uf_modem_id (uf_cfg d))) (set_mt_time (Some t) empty_transmission))) in
    u_signal_receive (MkUMsg m None None None (Some MICROMODEM_TWO_WAY_PING) [ddiv range (double_of_Z NOMINAL_SPEED_OF_SOUND)]);;
    on_ufld (fun d => MkUFld (uf_cfg d) (modem_lookup d) (-1)).

Definition u_handle_mail (mail : Mail) : uprog unit :=
  let! cfg := u_cfg in
  if bool_decide (mail_key mail = incoming_moos_var cfg) then
    pemit (URaw true (mail_text mail));;
    u_receive_message (u_parse (hex_decode (mail_text mail)))
  else if bool_decide (mail_key mail = range_report_var cfg) then
    pcatch (range_report (mail_text mail)) (fun x => if is_std_exception x then Some (pret tt) else None)
  else pret tt.

Definition u_do_work (mail : list Mail) : uprog unit := pfor mail u_handle_mail.

End Driver.

(** ** An exchange of two nodes *)

Section Exchange.
Context {TX : BoostText} {LN : LexicalNumbers} {WF : UWireFormat} {WFL : UWireFormatLaws}.

Definition node_pairs (d : UFldDriver) (msg : UMsg) : list (bytes * Value) :=
  [(B "src_node", Plain (get_name_from_id (src (um msg)) (modem_lookup d)));
   (B "dest_node", Plain (if dest (um msg) =? BROADCAST_ID then B "all" else get_name_from_id (dest (um msg)) (modem_lookup d)));
   (B "var_name", Plain (incoming_moos_var (uf_cfg d)));
   (B "string_val", Plain (hex_encode (u_serialize msg)))].

Lemma node_text_pairs d msg : node_text d msg = pairs_text (node_pairs d msg).
Proof.
  unfold node_text, pairs_text, node_pairs, pair_text. cbn [map join fst snd value_text].
  change (B "src_node=") with (B "src_node" ++ [61]). change (B ",dest_node=") with (44 :: B "dest_node" ++ [61]).
  change (B ",var_name=") with (44 :: B "var_name" ++ [61]). change (B ",string_val=") with (44 :: B "string_val" ++ [61]).
  repeat (rewrite <- !app_assoc || rewrite <- !app_comm_cons). reflexivity.
Qed.

(** a name or variable that can stand in the text *)
Definition ok_text (s : bytes) : Prop := ok_value (Plain s).

Lemma hex_ok_text m : ok_text (hex_encode (u_serialize m)).
Proof.
  assert (H : forall c, c ∈ hex_encode (u_serialize m) -> c <> 44 /\ c <> 123).
  { intros c Hc. pose proof (hex_encode_up_chars false _ c Hc (u_serialize_wf m)). lia. }
  split; [intros Hc; by destruct (H 44 Hc)|]. destruct (hex_encode (u_serialize m)) as [|c s]; [done|]. intros [= ->].
  by destruct (H 123 ltac:(by left)).
Qed.

Definition names_ok (d : UFldDriver) (msg : UMsg) : Prop :=
  ok_text (get_name_from_id (src (um msg)) (modem_lookup d)) /\ ok_text (get_name_from_id (dest (um msg)) (modem_lookup d)) /\
  ok_text (incoming_moos_var (uf_cfg d)).

(** what the simulator reads in the text *)
Lemma node_text_read d msg :
  names_ok d msg -> dest (um msg) <> BROADCAST_ID ->
  val_from_string (node_text d msg) (B "src_node") = Some (get_name_from_id (src (um msg)) (modem_lookup d)) /\
  val_from_string (node_text d msg) (B "dest_node") = Some (get_name_from_id (dest (um msg)) (modem_lookup d)) /\
  val_from_string (node_text d msg) (B "var_name") = Some (incoming_moos_var (uf_cfg d)) /\
  val_from_string (node_text d msg) (B "string_val") = Some (hex_encode (u_serialize msg)).
Proof.
  intros (H1 & H2 & H3) Hd. rewrite node_text_pairs. unfold node_pairs. rewrite (proj2 (Z.eqb_neq _ _) Hd).
  assert (Hk : Forall ok_key [B "src_node"; B "dest_node"; B "var_name"; B "string_val"]).
  { repeat constructor; cbn; intros H; set_unfold in H; lia. }
  rewrite !Forall_cons in Hk. destruct Hk as (K1 & K2 & K3 & K4 & _).
  pose proof (hex_ok_text msg) as H4. match goal with |- context [pairs_text ?l] => assert (Hall : Forall (fun f => ok_key (fst f) /\ ok_value (snd f)) l) end.
  { repeat (apply Forall_cons; split; [by split|]). done. }
  by rewrite !val_from_string_pairs by done.
Qed.

Context {WA WB : Type} (sa : USlots WA) (sb : USlots WB).

(** the events of a transmission *)
Definition sent (d : UFldDriver) (msg : UMsg) : list UEvent :=
  [URaw false (node_text d msg); UNotify (outgoing_moos_var (uf_cfg d)) (hex_encode (u_serialize msg));
   UNotify (ufield_outgoing_moos_var (uf_cfg d)) (node_text d msg)].

Lemma send_message_events {W} msg (s : UState W) : send_message msg s = (s, sent (ufld s) msg, Ok tt).
Proof. done. Qed.

Lemma hex_serialize m : hex_decode (hex_encode (u_serialize m)) = u_serialize m.
Proof. apply (hex_decode_encode false), u_serialize_wf. Qed.

Lemma received_data (d : UFldDriver) (w w' : WB) msg :
  type (um msg) = DATA -> ack_requested (um msg) = true -> dest (um msg) <> BROADCAST_ID ->
  us_receive sb msg w = (w', Some tt) ->
  u_handle_mail sb (MkMail (incoming_moos_var (uf_cfg d)) (hex_encode (u_serialize msg))) (MkUState d w) =
    (MkUState d w', URaw true (hex_encode (u_serialize msg)) :: sent d (u_make_ack msg) ++ [UReceive msg], Ok tt).
Proof.
  intros Ht Ha Hd Hr. unfold u_handle_mail, u_cfg. rewrite pbind_read. cbn [mail_key mail_text ufld]. rewrite bool_decide_eq_true_2 by done.
  rewrite hex_serialize, u_roundtrip. unfold u_receive_message. rewrite Ht, Ha, (proj2 (Z.eqb_neq _ _) Hd). cbn [andb negb].
  rewrite (bool_decide_eq_false_2 (DATA = DRIVER_SPECIFIC)), (bool_decide_eq_true_2 (DATA = DATA)) by done. cbn [andb pwhen].
  unfold pbind at 1. cbn [pemit]. rewrite (pbind_ok _ _ _ _ _ _ (send_message_events _ _)). unfold u_signal_receive, pbind, pemit, u_call. cbn [u_world]. by rewrite Hr.
Qed.

Lemma received_ack (d : UFldDriver) (w w' : WA) msg :
  type (um msg) = ACK -> us_receive sa msg w = (w', Some tt) ->
  u_handle_mail sa (MkMail (incoming_moos_var (uf_cfg d)) (hex_encode (u_serialize msg))) (MkUState d w) =
    (MkUState d w', [URaw true (hex_encode (u_serialize msg)); UReceive msg], Ok tt).
Proof.
  intros Ht Hr. unfold u_handle_mail, u_cfg. rewrite pbind_read. cbn [mail_key mail_text ufld]. rewrite bool_decide_eq_true_2 by done.
  rewrite hex_serialize, u_roundtrip. unfold u_receive_message. rewrite Ht.
  rewrite (bool_decide_eq_false_2 (ACK = DRIVER_SPECIFIC)), (bool_decide_eq_false_2 (ACK = DATA)) by done. cbn [andb pwhen].
  unfold u_signal_receive, pbind, pemit, pret, u_call. cbn [u_world]. by rewrite Hr.
Qed.

(** C16: Two uField drivers: a data transmission that asks for an acknowledgement is published as a
    node message whose fields name the destination and hold the transmission; delivered to the other
    driver it is signalled unchanged and answered with an acknowledgement of its frames, which the
    first driver signals in turn. *)
Theorem ufield_exchange (da db : UFldDriver) (wa wa1 wa2 : WA) (wb wb1 : WB) (orig msg : UMsg) :
  let data := on_um (set_mt_max_frame_bytes (Some (default DEFAULT_PACKET_SIZE (rate_to_bytes (uf_cfg da) !! Z.to_nat (rate (um msg)))))) msg in
  let ack := u_make_ack data in
  us_modify sa orig wa = (wa1, Some msg) -> type (um msg) = DATA -> src (um msg) = uf_modem_id (uf_cfg da) -> 0 <= rate (um msg) ->
  ack_requested (um msg) = true -> dest (um msg) <> BROADCAST_ID -> uf_modem_id (uf_cfg da) <> BROADCAST_ID ->
  (exists c f frames, mt_frame (um msg) = (c :: f) :: frames) ->
  names_ok da data -> names_ok db ack -> incoming_moos_var (uf_cfg da) = incoming_moos_var (uf_cfg db) ->
  us_receive sb data wb = (wb1, Some tt) -> us_receive sa ack wa1 = (wa2, Some tt) ->
  let deliver := val_from_string (node_text da data) in
  let answer := val_from_string (node_text db ack) in
  u_handle_initiate_transmission sa orig (MkUState da wa) = (MkUState da wa1, sent da data, Ok tt) /\
  deliver (B "dest_node") = Some (get_name_from_id (dest (um msg)) (modem_lookup da)) /\
  u_handle_mail sb (MkMail (default [] (deliver (B "var_name"))) (default [] (deliver (B "string_val")))) (MkUState db wb) =
    (MkUState db wb1, URaw true (hex_encode (u_serialize data)) :: sent db ack ++ [UReceive data], Ok tt) /\
  answer (B "dest_node") = Some (get_name_from_id (uf_modem_id (uf_cfg da)) (modem_lookup db)) /\
  u_handle_mail sa (MkMail (default [] (answer (B "var_name"))) (default [] (answer (B "string_val")))) (MkUState da wa1) =
    (MkUState da wa2, [URaw true (hex_encode (u_serialize ack)); UReceive ack], Ok tt) /\
  mt_acked_frame (um ack) = map Z.of_nat (seq 0 (frame_size (um msg))).
Proof.
  intros data ack Hmod Ht Hsrc Hrate Hack Hdest Hid (c & f & frames & Hf) Hna Hnb Hvar Hrb Hra deliver answer.
  assert (Hs : src (um data) = uf_modem_id (uf_cfg da)) by exact Hsrc.
  destruct (node_text_read da data Hna Hdest) as (_ & D1 & D2 & D3).
  assert (Hda : dest (um ack) <> BROADCAST_ID) by (change (dest (um ack)) with (src (um data)); by rewrite Hs).
  destruct (node_text_read db ack Hnb Hda) as (_ & A1 & A2 & A3).
  split; [|split; [exact D1|]; split; [|split; [|split]]].
  - unfold u_handle_initiate_transmission. assert (E : u_call (us_modify sa orig) (MkUState da wa) = (MkUState da wa1, [], Ok msg)) by (unfold u_call; cbn [u_world]; by rewrite Hmod).
    rewrite (pbind_quiet _ _ _ _ _ E). unfold u_cfg. rewrite pbind_read, Ht. cbn [ufld]. rewrite Hsrc, Z.eqb_refl.
    unfold frame_bytes. rewrite (proj2 (Z.ltb_ge _ _) Hrate), pbind_lift. fold data.
    assert (Hd : mt_frame (um data) = (c :: f) :: frames) by exact Hf. rewrite Hd, pbind_ret, Hd. apply send_message_events.
  - unfold deliver. rewrite D2, D3. cbn [default from_option id]. rewrite Hvar. by apply received_data.
  - unfold answer. rewrite A1. do 2 f_equal. exact Hs.
  - unfold answer. rewrite A2, A3. cbn [default from_option id]. rewrite <- Hvar. by apply received_ack.
  - done.
Qed.

End Exchange.

(** ** A concrete exchange *)

Module UFieldWitness.
#[local] Existing Instances Sample.text Reader.numbers UdpWitness.spec_float_eq_dec UdpWitness.spec_float_countable UdpWitness.type_countable.

(** a wire format: messages are countable, and a number is its binary digits *)
#[local] Instance ufield_type_countable : Countable UFieldType :=
  inj_countable' (fun t => match t with UFIELD_NOT_A_DRIVER_TRANSMISSION => false | UFIELD_DRIVER_POLL => true end)
    (fun b : bool => if b then UFIELD_DRIVER_POLL else UFIELD_NOT_A_DRIVER_TRANSMISSION)
    (fun t => match t with UFIELD_NOT_A_DRIVER_TRANSMISSION | UFIELD_DRIVER_POLL => eq_refl end).

Definition mm_types : list MMType :=
  [BASE_TYPE; MICROMODEM_TWO_WAY_PING; MICROMODEM_REMUS_LBL_RANGING; MICROMODEM_NARROWBAND_LBL_RANGING; MICROMODEM_MINI_DATA;
   MICROMODEM_FLEXIBLE_DATA; MICROMODEM_HARDWARE_CONTROL; MICROMODEM_HARDWARE_CONTROL_REPLY; MICROMODEM_GENERIC_LBL_RANGING;
   MICROMODEM_FM_SWEEP; MICROMODEM_M_SEQUENCE].
Fixpoint index_of (t : MMType) (l : list MMType) : nat :=
  match l with [] => 0 | x :: l => if bool_decide (t = x) then 0 else S (index_of t l) end.
#[local] Instance mm_type_countable : Countable MMType.
Proof.
  refine (inj_countable' (fun t => index_of t mm_types) (fun n => default BASE_TYPE (mm_types !! n)) _). intros t. by destruct t.
Defined.

Fixpoint digits (p : positive) : bytes := match p with xH => [] | xO p => 0 :: digits p | xI p => 1 :: digits p end.
Fixpoint undigits (b : bytes) : positive := match b with [] => xH | c :: b => if c =? 0 then xO (undigits b) else xI (undigits b) end.
Lemma undigits_digits p : undigits (digits p) = p.
Proof. induction p as [p IH|p IH|]; cbn; [by rewrite IH | by rewrite IH | done]. Qed.
Lemma digits_wf p : wf_bytes (digits p).
Proof. induction p; constructor; try done; unfold is_byte; lia. Qed.

Definition u_tuple (m : UMsg) :=
  (UdpWitness.tuple (um m), um_type m, um_poll_src m, um_poll_dest m, um_mm_type m, um_travel_time m).

#[local] Instance wire : UWireFormat := {|
  u_serialize m := digits (encode (u_tuple m));
  u_parse b := match decode (undigits b) with
               | Some (t, a, b, c, d, e) => MkUMsg (UdpWitness.untuple t) a b c d e
               | None => plain_msg empty_transmission
               end
|}.
#[local] Instance wire_laws : UWireFormatLaws.
Proof.
  constructor; [|intros m; apply digits_wf]. intros m. cbn [u_parse u_serialize wire]. rewrite undigits_digits, decode_encode.
  by destruct m as [[] ? ? ? ? ?].
Qed.

Definition slots : USlots unit := MkUSlots unit (fun m w => (w, Some m)) (fun m w => (w, Some m)) (fun _ w => (w, Some tt)).

Definition table : ModemIdConvert :=
  read_lookup_file (Some [B "// id, name, type"; B "1, alpha, auv"; B "2, bravo, auv, buoy # moored"]) new_id_convert.
Definition config (id : Z) : UFldConfig :=
  MkUFldConfig id [32; 64] (B "NODE_IN") (B "NODE_OUT") (B "NODE_MESSAGE_LOCAL") (B "RANGE_REQUEST") (B "RANGE_REPORT").
Definition node (id : Z) : UFldDriver := MkUFld (config id) table (-1).

Definition message : UMsg :=
  plain_msg (set_mt_frame [[1; 2; 3]; [4; 5]] (set_mt_ack_requested (Some true)
    (set_mt_dest (Some 2) (set_mt_src (Some 1) (set_mt_rate (Some 1) (set_mt_type (Some DATA) empty_transmission)))))).
Definition data : UMsg := on_um (set_mt_max_frame_bytes (Some 64)) message.

Example ufield_exchange_witness :
  u_handle_initiate_transmission slots message (MkUState (node 1) tt) = (MkUState (node 1) tt, sent (node 1) data, Ok tt) /\
  val_from_string (node_text (node 1) data) (B "dest_node") = Some (B "bravo") /\
  mt_acked_frame (um (u_make_ack data)) = [0; 1].
Proof.
  destruct (ufield_exchange slots slots (node 1) (node 2) tt tt tt tt tt message message) as (H1 & H2 & _ & _ & _ & H3);
    [reflexivity | reflexivity | reflexivity | vm_compute; discriminate | reflexivity | vm_compute; discriminate | vm_compute; discriminate
    | by exists 1, [2; 3], [[4; 5]] | | | reflexivity | reflexivity | reflexivity |].
  - repeat split; vm_compute; try discriminate; intros H; set_unfold in H; lia.
  - repeat split; vm_compute; try discriminate; intros H; set_unfold in H; lia.
  - split; [exact H1|]. split; [exact H2 | exact H3].
Defined.

End UFieldWitness.
