(* ===== verification/BluefinComms.v ===== *)
(** * moos/moos_bluefin_driver.{h,cpp}: the modem behind the Bluefin vehicle

    The vehicle's computer (Huxley) owns the modem: it grants windows of time
    ([BFCMA]), takes packets ([BPCPD]), reports how they were sent ([BFCPS]) and
    hands over what it received ([BFCPR]). The sentences travel in a MOOS
    variable; the MAC is started and stopped with the windows. *)

From Stdlib Require Import SpecFloat.
From stdpp Require Import gmap.
From S2P Require Import Prelude AssocList HexCodec Double Time As Proto Nmea Prog DriverBase UFieldDriver FrontSeatData FrontSeat Bluefin BluefinIncoming.

#[local] Open Scope prog_scope.

Record HardwareRatePair : Type := MkRatePair { hardware_name : bytes; pair_rate : Z; packet_bytes : Z }.

Record BluefinCommsConfig : Type := MkCommsConfig {
  bc_modem_id : Z;
  hardware_to_rate : list HardwareRatePair;
  bc_modem_lookup : list (Z * Z);      (* goby id, Bluefin id *)
  nmea_in_moos_var : bytes;
  nmea_out_moos_var : bytes
}.

(** [mac]: none, or whether it is running *)
Record BluefinCommsDriver : Type := MkComms {
  bc_cfg : BluefinCommsConfig;
  current_modem : bytes;
  end_of_mac_window : double;
  modem_to_rate_to_bytes : gmap bytes (list (Z * Z));
  goby_to_bluefin_id : list (Z * Z);
  mac : option bool;
  last_request_id : Z;
  last_data_msg : ModemTransmission
}.

Inductive CEvent : Type :=
| CRun | CClose | CRegister (var : bytes)
| CNotify (var text : bytes)
| CRaw (incoming : bool) (raw : bytes)
| CReceive (m : ModemTransmission)
| MacRestart | MacShutdown.

Definition new_comms (c : BluefinCommsConfig) (mac : option bool) : BluefinCommsDriver :=
  MkComms c [] (double_of_Z 0) ∅ [] mac (Z.shiftl 1 24) empty_transmission.

(** assignments to the members *)
Definition set_window (t : double) (d : BluefinCommsDriver) : BluefinCommsDriver :=
  MkComms (bc_cfg d) (current_modem d) t (modem_to_rate_to_bytes d) (goby_to_bluefin_id d) (mac d) (last_request_id d) (last_data_msg d).
Definition set_modem (m : bytes) (d : BluefinCommsDriver) : BluefinCommsDriver :=
  MkComms (bc_cfg d) m (end_of_mac_window d) (modem_to_rate_to_bytes d) (goby_to_bluefin_id d) (mac d) (last_request_id d) (last_data_msg d).
Definition set_mac (m : option bool) (d : BluefinCommsDriver) : BluefinCommsDriver :=
  MkComms (bc_cfg d) (current_modem d) (end_of_mac_window d) (modem_to_rate_to_bytes d) (goby_to_bluefin_id d) m (last_request_id d) (last_data_msg d).
Definition set_request_id (i : Z) (d : BluefinCommsDriver) : BluefinCommsDriver :=
  MkComms (bc_cfg d) (current_modem d) (end_of_mac_window d) (modem_to_rate_to_bytes d) (goby_to_bluefin_id d) (mac d) i (last_data_msg d).
Definition set_last_data (m : ModemTransmission) (d : BluefinCommsDriver) : BluefinCommsDriver :=
  MkComms (bc_cfg d) (current_modem d) (end_of_mac_window d) (modem_to_rate_to_bytes d) (goby_to_bluefin_id d) (mac d) (last_request_id d) m.

(** [boost::bimap]: an insertion that repeats a key on either side is ignored *)
Definition bimap_insert (g b : Z) (l : list (Z * Z)) : list (Z * Z) :=
  if existsb (fun e => (fst e =? g) || (snd e =? b)) l then l else l ++ [(g, b)].
Definition left_at (g : Z) (l : list (Z * Z)) : Z := default (-1) (snd <$> List.find (fun e => fst e =? g) l).
Definition right_at (b : Z) (l : list (Z * Z)) : Z := default (-1) (fst <$> List.find (fun e => snd e =? b) l).

Definition rate_table (l : list HardwareRatePair) : gmap bytes (list (Z * Z)) :=
  foldl (fun t p => <[hardware_name p := al_insert (pair_rate p) (packet_bytes p) (default [] (t !! hardware_name p))]> t) ∅ l.
Definition id_table (l : list (Z * Z)) : list (Z * Z) := foldl (fun t e => bimap_insert (fst e) (snd e) t) [] l.

Record CSlots (W : Type) : Type := MkCSlots {
  cs_modify : ModemTransmission -> W -> W * option ModemTransmission;
  cs_data_request : ModemTransmission -> W -> W * option ModemTransmission;
  cs_receive : ModemTransmission -> W -> W * option unit
}.
Arguments cs_modify {W}.
Arguments cs_data_request {W}.
Arguments cs_receive {W}.

Record CState (W : Type) : Type := MkCState { comms : BluefinCommsDriver; c_world : W }.
Arguments MkCState {W}.
Arguments comms {W}.
Arguments c_world {W}.

Section Driver.
Context {TX : BoostText} {TR : BoostTrim} {LC : LexicalCast} {VT : VehicleText}.
Context {W : Type} (slots : CSlots W).

Abbreviation cprog := (prog (CState W) CEvent Exn).

Definition c_call {A : Type} (f : W -> W * option A) : cprog A := fun s =>
  let '(w, r) := f (c_world s) in
  (MkCState (comms s) w, [], match r with Some a => Ok a | None => Err SlotException end).
Definition on_comms (f : BluefinCommsDriver -> BluefinCommsDriver) : cprog unit := pmod (fun s => MkCState (f (comms s)) (c_world s)).
Definition in_range {A : Type} (o : option A) : cprog A := match o with Some a => pret a | None => pthrow OutOfRange end.
Definition c_at (nmea : Sentence) (i : nat) : cprog bytes := in_range (nmea !! i).

(** ** Startup and shutdown *)

Fixpoint c_wait_connected (polls : list bool) : cprog unit :=
  match polls with
  | [] => pthrow StillWaiting
  | true :: _ => pret tt
  | false :: polls => c_wait_connected polls
  end.

Definition c_startup (polls : list bool) (cfg : BluefinCommsConfig) : cprog unit :=
  on_comms (fun d => MkComms cfg (current_modem d) (end_of_mac_window d) (rate_table (hardware_to_rate cfg)) (id_table (bc_modem_lookup cfg))
                       (mac d) (last_request_id d) (last_data_msg d));;
  pemit CRun;;
  c_wait_connected polls;;
  pemit (CRegister (nmea_in_moos_var cfg)).

Definition c_shutdown : cprog unit := pemit CClose.

(** ** Sending *)

Definition MAX_FRAMES : nat := 8.

(** the eight fields of the frames *)
Definition frame_fields (frames : list bytes) : list bytes :=
  map (fun i => match frames !! i with Some f => map to_upper (hex_encode f) | None => [] end) (seq 0 MAX_FRAMES).

Definition cpd_sentence (now : double) (request bf_dest : Z) (msg : ModemTransmission) : Sentence :=
  stamped now "$BPCPD"
  ++ [as_string request; as_string bf_dest; as_string (rate msg); (if ack_requested msg then B "1" else B "0");
      as_string (Z.of_nat (frame_size msg))]
  ++ frame_fields (mt_frame msg).

(** the sentence in the text of a message *)
Definition raw_text (sentence : bytes) : bytes := B "@PB[lamss.protobuf.FrontSeatRaw] raw: " ++ [34] ++ sentence ++ [34].

Definition c_nmea {A : Type} (r : result bad_nmea_sentence A) : cprog A :=
  match r with Ok a => pret a | Err e => pthrow (BadNmea e) end.

Definition send_packet (now : double) (msg : ModemTransmission) : cprog unit :=
  on_comms (fun d => set_request_id (last_request_id d + 1) d);;
  let! d := pread comms in
  let! sentence := c_nmea (message (cpd_sentence now (last_request_id d) (left_at (dest msg) (goby_to_bluefin_id d)) msg)) in
  pemit (CRaw false (raw_text sentence));;
  pemit (CNotify (nmea_out_moos_var (bc_cfg d)) (raw_text sentence));;
  on_comms (set_last_data msg).

Definition c_handle_initiate_transmission (now : double) (orig_msg : ModemTransmission) : cprog unit :=
  let! msg := c_call (cs_modify slots orig_msg) in
  let! d := pread comms in
  match type msg with
  | DATA =>
      if bc_modem_id (bc_cfg d) =? src msg then
        match modem_to_rate_to_bytes d !! current_modem d with
        | None => pret tt
        | Some rates =>
            match al_lookup (rate msg) rates with
            | None => pret tt
            | Some bytes =>
                let msg := set_mt_max_frame_bytes (Some bytes) msg in
                let! msg := match mt_frame msg with [] => c_call (cs_data_request slots msg) | _ => pret msg end in
                match mt_frame msg with
                | (_ :: _) :: _ => send_packet now msg
                | _ => pret tt
                end
            end
        end
      else pret tt
  | _ => pret tt
  end.

(** ** The vehicle's sentences *)

Definition c_time (day : Z) (text : bytes) : cprog ptime :=
  match nmea_time2ptime day text with
  | NmeaTime t => pret t
  | NmeaOutOfRange => pthrow OutOfRange
  | NmeaIntOverflow => pthrow UndefinedBehaviour
  end.

Definition bfcma (day : Z) (nmea : Sentence) : cprog unit :=
  let! text := c_at nmea 2 in
  let! t := c_time day text in
  on_comms (set_window (ptime2unix_double t));;
  let! modem := c_at nmea 4 in
  on_comms (set_modem modem);;
  let! d := pread comms in
  match mac d with
  | Some _ => pemit MacRestart;; on_comms (set_mac (Some true))
  | None => pret tt
  end.

(** the frames [i] to [n] whose status in [fields] is 2 *)
Fixpoint sent_frames (i n : Z) (fields : list bytes) : result Exn (list Z) :=
  if n <=? i then Ok []
  else match fields with
       | [] => Err OutOfRange
       | f :: fields =>
           let? rest := sent_frames (i + 1) n fields in
           Ok (if as_int f =? 2 then i :: rest else rest)
       end.

Definition c_signal_receive (m : ModemTransmission) : cprog unit := pemit (CReceive m);; c_call (cs_receive slots m).

Definition bfcps (now_micro : Z) (nmea : Sentence) : cprog unit :=
  let! d := pread comms in
  let! request := c_at nmea 3 in
  if as_int request =? last_request_id d then
    let! n := c_at nmea 4 in
    let! acked := plift (sent_frames 0 (as_int n) (drop 5 nmea)) in
    c_signal_receive (set_mt_acked_frame acked (set_mt_type (Some ACK) (set_mt_dest (Some (src (last_data_msg d)))
      (set_mt_src (Some (dest (last_data_msg d))) (set_mt_time (Some now_micro) empty_transmission)))))
  else pret tt.

(** the frames [i] to [n] of pairs of a status and hexadecimal data; those with status 1 are kept *)
Fixpoint received_frames (i n : Z) (fields : list bytes) : result Exn (list bytes) :=
  if n <=? i then Ok []
  else match fields with
       | [] => Err OutOfRange
       | [status] => if (as_int status =? 1) || (i + 1 <? n) then Err OutOfRange else Ok []
       | status :: hex :: fields =>
           let? rest := received_frames (i + 1) n fields in
           Ok (if as_int status =? 1 then hex_decode hex :: rest else rest)
       end.

(** the [time_source] of the message, MODEM_TIME, is a field that nothing behind the signal reads *)
Definition bfcpr (day : Z) (nmea : Sentence) : cprog unit :=
  let! text := c_at nmea 2 in
  let! t := c_time day text in
  let! d := pread comms in
  let! source := c_at nmea 3 in
  let! destination := c_at nmea 4 in
  let! n := c_at nmea 6 in
  let! frames := plift (received_frames 0 (as_int n) (drop 7 nmea)) in
  c_signal_receive (set_mt_frame frames (set_mt_type (Some DATA)
    (set_mt_dest (Some (right_at (as_int destination) (goby_to_bluefin_id d)))
      (set_mt_src (Some (right_at (as_int source) (goby_to_bluefin_id d)))
        (set_mt_time (Some (ptime2unix_microsec t)) empty_transmission))))).

(** ** The work loop *)

(** the text from the end of the first occurrence of [p] on *)
Fixpoint after (p s : bytes) : option bytes :=
  if is_prefix_of p s then Some (drop (length p) s)
  else match s with [] => None | _ :: s => after p s end.

(** the text between the quotation marks of [raw] *)
Definition raw_value (text : bytes) : option bytes :=
  match after (B "raw: " ++ [34]) text with
  | Some rest => match find_char 34 rest with Some stop => Some (take stop rest) | None => None end
  | None => None
  end.

Definition c_handle_mail (now_micro day : Z) (m : Mail) : cprog unit :=
  let! d := pread comms in
  match raw_value (mail_text m) with
  | None => pret tt
  | Some value =>
      if bool_decide (mail_key m = nmea_in_moos_var (bc_cfg d))
         && (bool_decide (take 5 value = B "$BFCP") || bool_decide (take 6 value = B "$BFCMA"))
      then
        pemit (CRaw true (mail_text m));;
        pcatch
          (let! nmea := c_nmea (parse_nmea true value VALIDATE) in
           let! id := in_range (sentence_id nmea) in
           if bool_decide (id = B "CMA") then bfcma day nmea
           else if bool_decide (id = B "CPS") then bfcps now_micro nmea
           else if bool_decide (id = B "CPR") then bfcpr day nmea
           else pret tt)
          (fun x => if is_std_exception x then Some (pret tt) else None)
      else pret tt
  end.

Definition c_do_work (now : double) (now_micro day : Z) (mail : list Mail) : cprog unit :=
  let! d := pread comms in
  pwhen (bool_decide (mac d = Some true) && dlt (end_of_mac_window d) now) (pemit MacShutdown;; on_comms (set_mac (Some false)));;
  pfor mail (c_handle_mail now_micro day).

End Driver.

(** ** Identifiers *)

Definition bijective (l : list (Z * Z)) : Prop := NoDup (map fst l) /\ NoDup (map snd l).

Lemma bimap_insert_bijective g b l : bijective l -> bijective (bimap_insert g b l).
Proof.
  intros [H1 H2]. unfold bimap_insert. destruct (existsb _ _) eqn:E; [done|].
  assert (Hn : forall e, In e l -> fst e <> g /\ snd e <> b).
  { intros e He. apply not_true_iff_false in E. split; intros Heq; apply E, existsb_exists; exists e; (split; [done|]);
      rewrite Heq, Z.eqb_refl; by rewrite ?orb_true_r. }
  split; rewrite map_app; apply NoDup_app; (split; [done|]); (split; [|apply NoDup_singleton]);
    intros z Hz Hz'; apply list_elem_of_singleton in Hz' as ->; apply list_elem_of_In, in_map_iff in Hz as (e & He & Hin); destruct (Hn e Hin); cbn in He; congruence.
Qed.

Lemma id_table_bijective l : bijective (id_table l).
Proof.
  unfold id_table. assert (H : forall t, bijective t -> bijective (foldl (fun t e => bimap_insert (fst e) (snd e) t) t l)).
  { induction l as [|e l IH]; intros t Ht; [done|]. by apply IH, bimap_insert_bijective. }
  apply H. split; constructor.
Qed.

Lemma find_unique {A} (k : A -> Z) l e : NoDup (map k l) -> In e l -> List.find (fun x => k x =? k e) l = Some e.
Proof.
  induction l as [|x l IH]; [done|]. cbn [map List.find]. intros Hn Hi. apply NoDup_cons in Hn as [Hx Hn].
  destruct Hi as [-> | Hi]; [by rewrite Z.eqb_refl|]. destruct (k x =? k e) eqn:E; [|by apply IH]. to_prop. exfalso. apply Hx.
  rewrite E. apply list_elem_of_In, in_map_iff. by exists e.
Qed.

(** the two sides of the table are inverse to each other *)
Lemma ids_invert l g b : bijective l -> In (g, b) l -> left_at g l = b /\ right_at b l = g.
Proof.
  intros [H1 H2] Hi. unfold left_at, right_at. by rewrite (find_unique fst l (g, b) H1 Hi : List.find (fun x => fst x =? g) l = _),
    (find_unique snd l (g, b) H2 Hi : List.find (fun x => snd x =? b) l = _).
Qed.

(** ** Frames *)

Lemma nibble_upper n : 0 <= n < 16 -> to_upper (nibble_char false n) = nibble_char true n.
Proof.
  intros H. apply Z.eqb_eq. apply (Z_range_forall 16 (fun n => to_upper (nibble_char false n) =? nibble_char true n)); [reflexivity | lia].
Qed.

Lemma land_15 x : 0 <= Z.land x 15 < 16.
Proof. change 15 with (Z.ones 4). rewrite Z.land_ones by lia. apply (Z.mod_pos_bound x 16). lia. Qed.

Lemma upper_hex f : map to_upper (hex_encode f) = hex_encode_up true f.
Proof.
  unfold hex_encode. induction f as [|c f IH]; [done|]. cbn [hex_encode_up map].
  by rewrite IH, !nibble_upper by apply land_15.
Qed.

(** the vehicle's fields for the frames of a packet *)
Definition received_fields (frames : list bytes) : list bytes := concat (map (fun f => [B "1"; map to_upper (hex_encode f)]) frames).

Section Frames.
Context {LC : LexicalCast} {LN : LexicalNumbers} {LD : LexicalDecimal}.

Lemma received_frames_all frames : forall i rest, Forall wf_bytes frames ->
  received_frames i (i + Z.of_nat (length frames)) (received_fields frames ++ rest) = Ok frames.
Proof.
  induction frames as [|f frames IH]; intros i rest Hf; cbn [length received_frames received_fields map concat app].
  - destruct rest as [|s1 [|s2 rest]]; cbn [received_frames]; by rewrite Z.add_0_r, Z.leb_refl.
  - apply Forall_cons in Hf as [Hw Hf]. cbn [received_frames]. assert ((i + Z.of_nat (S (length frames)) <=? i) = false) as -> by (apply Z.leb_gt; lia).
    replace (i + Z.of_nat (S (length frames))) with ((i + 1) + Z.of_nat (length frames)) by lia.
    fold (received_fields frames). rewrite IH by done. cbn [rbind]. change (B "1") with (as_string 1). rewrite as_int_string by lia. cbn [Z.eqb Pos.eqb].
    by rewrite upper_hex, (proj1 (hex_decode_encode true f Hw)).
Qed.

Lemma sent_frames_all k : forall i rest, sent_frames i (i + Z.of_nat k) (repeat (B "2") k ++ rest) = Ok (map (fun j => i + Z.of_nat j) (seq 0 k)).
Proof.
  induction k as [|k IH]; intros i rest; cbn [repeat app sent_frames seq map].
  - destruct rest; cbn [sent_frames]; by rewrite Z.add_0_r, Z.leb_refl.
  - assert ((i + Z.of_nat (S k) <=? i) = false) as -> by (apply Z.leb_gt; lia). replace (i + Z.of_nat (S k)) with ((i + 1) + Z.of_nat k) by lia.
    rewrite IH. cbn [rbind]. change (B "2") with (as_string 2). rewrite as_int_string by lia. cbn [Z.eqb Pos.eqb]. do 2 f_equal; [lia|].
    rewrite <- seq_shift, map_map. apply map_ext. intros j. lia.
Qed.

End Frames.

(** ** An exchange *)

(** what the receiving vehicle reports of a packet, and the sending one *)
Definition cpr_sentence (time arrival : bytes) (bf_src bf_dest rate : Z) (frames : list bytes) : Sentence :=
  [B "$BFCPR"; time; arrival; as_string bf_src; as_string bf_dest; as_string rate; as_string (Z.of_nat (length frames))] ++ received_fields frames.
Definition cps_sentence (time sent : bytes) (request : Z) (n : nat) : Sentence :=
  [B "$BFCPS"; time; sent; as_string request; as_string (Z.of_nat n)] ++ repeat (B "2") n.

(** a text without commas and quotation marks *)
Definition quiet (s : bytes) : Prop := (44 ∉ s) /\ (34 ∉ s).

Lemma quiet_string z : quiet (as_string z).
Proof. split; intros H; apply as_string_digits in H; lia. Qed.

Lemma quiet_hex f : wf_bytes f -> quiet (map to_upper (hex_encode f)).
Proof. intros H. rewrite upper_hex. split; intros Hc; apply hex_encode_up_chars in Hc; try done; lia. Qed.

Lemma quiet_received frames : Forall wf_bytes frames -> Forall quiet (received_fields frames).
Proof.
  induction 1 as [|f frames Hf _ IH]; [constructor|]. cbn [received_fields map concat app]. constructor; [apply (quiet_string 1)|].
  constructor; [by apply quiet_hex | exact IH].
Qed.

Lemma quiet_repeat n : Forall quiet (repeat (B "2") n).
Proof. induction n; constructor; [apply (quiet_string 2) | done]. Qed.

Lemma join_free c d l : c <> d -> Forall (fun s => c ∉ s) l -> c ∉ join d l.
Proof.
  intros Hne. induction 1 as [|s [|s2 l] Hs _ IH]; [cbn; set_solver | done |]. change (join d (s :: s2 :: l)) with (s ++ d :: join d (s2 :: l)). set_solver.
Qed.

Section Exchange.
Context {TX : BoostText} {TR : BoostTrim} {LC : LexicalCast} {LN : LexicalNumbers} {VT : VehicleText}.
Context {TXL : BoostTextLaws} {TRL : BoostTrimLaws} {LD : LexicalDecimal}.

Lemma quiet_message rest more value :
  quiet (36 :: rest) -> Forall quiet more -> length rest = 5%nat -> message ((36 :: rest) :: more) = Ok value ->
  well_formed true ((36 :: rest) :: more) /\ 34 ∉ value.
Proof.
  intros Hq Hm Hl Hv. assert (Hall : Forall quiet ((36 :: rest) :: more)) by (by constructor).
  assert (Hwf : well_formed true ((36 :: rest) :: more)).
  { split; [eapply Forall_impl; [exact Hall|]; by intros s [] |]. exists 36, rest, more. split; [done|]. split; [by left|]. cbn. by rewrite Hl. }
  split; [done|]. destruct (well_formed_message true _ Hwf) as (c & body & csum & Hj & _ & _ & Hb & Hmsg). assert (value = join 44 ((36 :: rest) :: more) ++ [42] ++ hex_encode_up true [csum]) as -> by congruence.
  rewrite !elem_of_app. intros [Hc | [Hc | Hc]].
  - revert Hc. apply join_free; [done|]. eapply Forall_impl; [exact Hall|]. by intros s [].
  - set_unfold in Hc. lia.
  - apply hex_encode_up_chars in Hc; [lia|]. by constructor.
Qed.

(** the sentence is read out of the text *)
Lemma raw_value_text value : 34 ∉ value -> raw_value (raw_text value) = Some value.
Proof.
  intros H. unfold raw_value. assert (after (B "raw: " ++ [34]) (raw_text value) = Some (value ++ [34])) as -> by reflexivity.
  by rewrite find_char_app, take_app_length.
Qed.

Context {WA WB : Type} (sa : CSlots WA) (sb : CSlots WB).

(** a sentence of the vehicle, up to its handler *)
Lemma vehicle_mail {W} (slots : CSlots W) now_micro day rest more value d w s' ev :
  quiet (36 :: rest) -> Forall quiet more -> length rest = 5%nat -> message ((36 :: rest) :: more) = Ok value ->
  take 4 rest = B "BFCP" -> 
  (let nmea := (36 :: rest) :: more in
   let id := drop 2 rest in
   if bool_decide (id = B "CMA") then bfcma day nmea
   else if bool_decide (id = B "CPS") then bfcps slots now_micro nmea
   else if bool_decide (id = B "CPR") then bfcpr slots day nmea else pret tt) (MkCState d w) = (s', ev, Ok tt) ->
  c_handle_mail slots now_micro day (MkMail (nmea_in_moos_var (bc_cfg d)) (raw_text value)) (MkCState d w) =
    (s', CRaw true (raw_text value) :: ev, Ok tt).
Proof.
  intros Hq Hm Hl Hv Ht E. destruct (quiet_message rest more value Hq Hm Hl Hv) as [Hwf Hn].
  unfold c_handle_mail. rewrite pbind_read. cbn [mail_text mail_key comms]. rewrite (raw_value_text value Hn), bool_decide_eq_true_2 by done.
  assert (Hp : take 5 value = B "$BFCP").
  { destruct (well_formed_message true _ Hwf) as (c & body & csum & Hj & _ & _ & _ & Hmsg). rewrite Hmsg in Hv. injection Hv as <-.
    destruct rest as [|r1 [|r2 [|r3 [|r4 [|r5 [|]]]]]]; try discriminate Hl. injection Ht as -> -> -> ->. by destruct more. }
  rewrite (bool_decide_eq_true_2 (take 5 value = B "$BFCP")) by done. cbn [andb orb]. unfold pbind at 1. cbn [pemit]. unfold pcatch.
  assert (Htrim : boost_trim value = value) by (rewrite <- (app_nil_r value) at 1; by apply (message_trimmed true _ value [] Hwf Hv)).
  rewrite (parse_trimmed true VALIDATE _ value value Hwf Hv Htrim). cbn [c_nmea]. rewrite pbind_ret. unfold sentence_id. cbn [length]. rewrite Hl. cbn [Nat.ltb Nat.leb in_range].
  rewrite pbind_ret. change (drop 3 (36 :: rest)) with (drop 2 rest). cbv zeta in E. rewrite E. done.
Qed.

Lemma cpr_received now_micro day time arrival t d w w' bf_src bf_dest rt frames value gs gd :
  let m := set_mt_frame frames (set_mt_type (Some DATA) (set_mt_dest (Some gd) (set_mt_src (Some gs)
             (set_mt_time (Some (ptime2unix_microsec t)) empty_transmission)))) in
  quiet time -> quiet arrival -> nmea_time2ptime day arrival = NmeaTime t -> Forall wf_bytes frames -> Z.of_nat (length frames) < 2 ^ 31 ->
  - 2 ^ 31 <= bf_src < 2 ^ 31 -> - 2 ^ 31 <= bf_dest < 2 ^ 31 ->
  right_at bf_src (goby_to_bluefin_id d) = gs -> right_at bf_dest (goby_to_bluefin_id d) = gd ->
  message (cpr_sentence time arrival bf_src bf_dest rt frames) = Ok value -> cs_receive sb m w = (w', Some tt) ->
  c_handle_mail sb now_micro day (MkMail (nmea_in_moos_var (bc_cfg d)) (raw_text value)) (MkCState d w) =
    (MkCState d w', [CRaw true (raw_text value); CReceive m], Ok tt).
Proof.
  intros m Hq1 Hq2 Ht Hf Hlen Hs Hd Hgs Hgd Hv Hr.
  apply (vehicle_mail sb now_micro day (B "BFCPR") (drop 1 (cpr_sentence time arrival bf_src bf_dest rt frames))); try done.
  - split; cbn; intros H; set_unfold in H; lia.
  - cbn [cpr_sentence app drop]. do 6 (constructor; [try done; apply quiet_string|]). by apply quiet_received.
  - cbv zeta. rewrite !bool_decide_eq_false_2, bool_decide_eq_true_2 by done. unfold bfcpr, c_at. cbn [cpr_sentence app drop lookup list_lookup in_range].
    rewrite pbind_ret. unfold c_time. rewrite Ht, pbind_ret, pbind_read, !pbind_ret. rewrite !as_int_string by lia.
    replace (Z.of_nat (length frames)) with (0 + Z.of_nat (length frames)) by lia. rewrite drop_0, <- (app_nil_r (received_fields frames)), received_frames_all by done.
    rewrite pbind_lift. cbn [comms]. rewrite Hgs, Hgd. fold m. unfold c_signal_receive, pbind, pemit, c_call. cbn [c_world]. by rewrite Hr.
Qed.

Lemma cps_received now_micro day time sent d w w' n value :
  let m := set_mt_acked_frame (map Z.of_nat (seq 0 n)) (set_mt_type (Some ACK) (set_mt_dest (Some (src (last_data_msg d)))
             (set_mt_src (Some (dest (last_data_msg d))) (set_mt_time (Some now_micro) empty_transmission)))) in
  quiet time -> quiet sent -> - 2 ^ 31 <= last_request_id d < 2 ^ 31 -> Z.of_nat n < 2 ^ 31 ->
  message (cps_sentence time sent (last_request_id d) n) = Ok value -> cs_receive sa m w = (w', Some tt) ->
  c_handle_mail sa now_micro day (MkMail (nmea_in_moos_var (bc_cfg d)) (raw_text value)) (MkCState d w) =
    (MkCState d w', [CRaw true (raw_text value); CReceive m], Ok tt).
Proof.
  intros m Hq1 Hq2 Hid Hn Hv Hr.
  apply (vehicle_mail sa now_micro day (B "BFCPS") (drop 1 (cps_sentence time sent (last_request_id d) n))); try done.
  - split; cbn; intros H; set_unfold in H; lia.
  - cbn [cps_sentence app drop]. do 4 (constructor; [try done; apply quiet_string|]). apply quiet_repeat.
  - cbv zeta. rewrite (bool_decide_eq_false_2 (drop 2 (B "BFCPS") = B "CMA")), (bool_decide_eq_true_2 (drop 2 (B "BFCPS") = B "CPS")) by done.
    unfold bfcps, c_at. cbn [cps_sentence app drop lookup list_lookup in_range].
    rewrite pbind_read, pbind_ret, as_int_string by lia. cbn [comms]. rewrite Z.eqb_refl, pbind_ret, as_int_string by lia.
    replace (Z.of_nat n) with (0 + Z.of_nat n) by lia. rewrite drop_0, <- (app_nil_r (repeat (B "2") n)), sent_frames_all, pbind_lift.
    assert (map (fun j => 0 + Z.of_nat j) (seq 0 n) = map Z.of_nat (seq 0 n)) as -> by (apply map_ext; intros; lia). fold m.
    unfold c_signal_receive, pbind, pemit, c_call. cbn [c_world]. by rewrite Hr.
Qed.

(** C17: Two Bluefin communications drivers whose tables of modem ids agree: the packet that the
    first publishes for the vehicle holds the frames; when the vehicle reports their reception to
    the second driver the frames are signalled between the same two modems, and when it reports them
    as acknowledged to the first, the acknowledgement of exactly these frames is signalled. *)
Theorem bluefin_comms_exchange (da db : BluefinCommsDriver) (wa wa1 wa2 : WA) (wb wb1 : WB) (now : double) (now_micro day : Z)
    (orig msg : ModemTransmission) (lookup rates : list (Z * Z)) (ba bb bytes : Z) (t : ptime) (time arrival sent : list Z) :
  let data := set_mt_max_frame_bytes (Some bytes) msg in
  let n := length (mt_frame msg) in
  let received := set_mt_frame (mt_frame msg) (set_mt_type (Some DATA) (set_mt_dest (Some (dest msg)) (set_mt_src (Some (src msg))
                    (set_mt_time (Some (ptime2unix_microsec t)) empty_transmission)))) in
  let ack := set_mt_acked_frame (map Z.of_nat (seq 0 n)) (set_mt_type (Some ACK) (set_mt_dest (Some (src msg))
               (set_mt_src (Some (dest msg)) (set_mt_time (Some now_micro) empty_transmission)))) in
  let request := last_request_id da + 1 in
  let da' := set_last_data data (set_request_id request da) in
  cs_modify sa orig wa = (wa1, Some msg) -> type msg = DATA -> src msg = bc_modem_id (bc_cfg da) ->
  modem_to_rate_to_bytes da !! current_modem da = Some rates -> al_lookup (rate msg) rates = Some bytes ->
  (exists c f frames, mt_frame msg = (c :: f) :: frames) -> Forall wf_bytes (mt_frame msg) -> (n <= MAX_FRAMES)%nat ->
  goby_to_bluefin_id da = id_table lookup -> goby_to_bluefin_id db = id_table lookup ->
  In (src msg, ba) (id_table lookup) -> In (dest msg, bb) (id_table lookup) ->
  - 2 ^ 31 <= ba < 2 ^ 31 -> - 2 ^ 31 <= bb < 2 ^ 31 -> - 2 ^ 31 <= request < 2 ^ 31 ->
  quiet time -> quiet arrival -> quiet sent -> nmea_time2ptime day arrival = NmeaTime t ->
  cs_receive sb received wb = (wb1, Some tt) -> cs_receive sa ack wa1 = (wa2, Some tt) ->
  exists cpd cpr cps,
    message (cpd_sentence now request bb data) = Ok cpd /\
    message (cpr_sentence time arrival ba bb (rate msg) (mt_frame msg)) = Ok cpr /\
    message (cps_sentence time sent request n) = Ok cps /\
    c_handle_initiate_transmission sa now orig (MkCState da wa) =
      (MkCState da' wa1, [CRaw false (raw_text cpd); CNotify (nmea_out_moos_var (bc_cfg da)) (raw_text cpd)], Ok tt) /\
    c_handle_mail sb now_micro day (MkMail (nmea_in_moos_var (bc_cfg db)) (raw_text cpr)) (MkCState db wb) =
      (MkCState db wb1, [CRaw true (raw_text cpr); CReceive received], Ok tt) /\
    c_handle_mail sa now_micro day (MkMail (nmea_in_moos_var (bc_cfg da)) (raw_text cps)) (MkCState da' wa1) =
      (MkCState da' wa2, [CRaw true (raw_text cps); CReceive ack], Ok tt).
Proof.
  intros data n received ack request da' Hmod Ht Hsrc Hrates Hrate (c & f & frames & Hf) Hwf Hn Hia Hib Ha Hb Hba Hbb Hreq Hq1 Hq2 Hq3 Htime Hrb Hra.
  destruct (ids_invert _ _ _ (id_table_bijective lookup) Ha) as [_ Rs]. destruct (ids_invert _ _ _ (id_table_bijective lookup) Hb) as [Ld Rd].
  destruct (message_total (B "BPCPD") (drop 1 (cpd_sentence now request bb data))) as [cpd E1].
  destruct (message_total (B "BFCPR") (drop 1 (cpr_sentence time arrival ba bb (rate msg) (mt_frame msg)))) as [cpr E2].
  destruct (message_total (B "BFCPS") (drop 1 (cps_sentence time sent request n))) as [cps E3].
  unfold MAX_FRAMES in Hn. exists cpd, cpr, cps. split; [exact E1|]. split; [exact E2|]. split; [exact E3|]. split; [|split].
  - unfold c_handle_initiate_transmission.
    assert (E : c_call (cs_modify sa orig) (MkCState da wa) = (MkCState da wa1, [], Ok msg)) by (unfold c_call; cbn [c_world]; by rewrite Hmod).
    rewrite (pbind_quiet _ _ _ _ _ E), pbind_read, Ht. cbn [comms]. rewrite Hsrc, Z.eqb_refl, Hrates, Hrate. fold data.
    assert (Hd : mt_frame data = (c :: f) :: frames) by exact Hf. rewrite Hd, pbind_ret, Hd.
    unfold send_packet, on_comms. rewrite pbind_mod, pbind_read. cbn [comms last_request_id set_request_id goby_to_bluefin_id bc_cfg].
    fold request. change (dest data) with (dest msg). rewrite Hia, Ld. change (message (cpd_sentence now request bb data) = Ok cpd) in E1. rewrite E1. done.
  - apply (cpr_received now_micro day time arrival t db wb wb1 ba bb (rate msg)); try done; [lia | by rewrite Hib | by rewrite Hib].
  - apply (cps_received now_micro day time sent da' wa1 wa2 n); try done. lia.
Qed.

End Exchange.

(** ** A concrete exchange *)

Module CommsWitness.
#[local] Existing Instances Sample.text Sample.text_laws NmeaWitness.trim NmeaWitness.trim_laws Reader.cast Reader.numbers Reader.decimal.

#[local] Instance vehicle_text : VehicleText := {|
  string_of_double v := as_string (double_to_Z v);
  string_of_double_prec _ v := as_string (double_to_Z v);
  b64_encode s := s;
  no_time_text := []
|}.

Definition slots : CSlots unit := MkCSlots unit (fun m w => (w, Some m)) (fun m w => (w, Some m)) (fun _ w => (w, Some tt)).

Definition config (id : Z) : BluefinCommsConfig :=
  MkCommsConfig id [MkRatePair (B "sonardyne") 1 64] [(1, 101); (2, 102)] (B "NMEA_IN") (B "NMEA_OUT").

(** a driver after startup and a window of the modem *)
Definition driver (id : Z) : BluefinCommsDriver :=
  comms (fst (fst (c_startup [true] (config id) (MkCState (set_modem (B "sonardyne") (new_comms (config id) None)) tt)))).

Definition packet : ModemTransmission :=
  set_mt_frame [[1; 2; 3]; [255]] (set_mt_dest (Some 2) (set_mt_src (Some 1) (set_mt_rate (Some 1) (set_mt_type (Some DATA) empty_transmission)))).

Lemma no_mark s : forallb (fun c => negb (c =? 44) && negb (c =? 34)) s = true -> quiet s.
Proof.
  intros H. rewrite forallb_forall in H. split; intros Hc; apply list_elem_of_In, H in Hc; done.
Qed.

Example bluefin_comms_exchange_witness :
  exists cpr, message (cpr_sentence (B "120001.0") (B "120000.5") 101 102 1 [[1; 2; 3]; [255]]) = Ok cpr /\
    snd (fst (c_handle_mail slots 0 17000 (MkMail (B "NMEA_IN") (raw_text cpr)) (MkCState (driver 2) tt))) =
      [CRaw true (raw_text cpr);
       CReceive (set_mt_frame [[1; 2; 3]; [255]] (set_mt_type (Some DATA) (set_mt_dest (Some 2) (set_mt_src (Some 1)
         (set_mt_time (Some 1468843200500000) empty_transmission)))))].
Proof.
  destruct (bluefin_comms_exchange slots slots (driver 1) (driver 2) tt tt tt tt tt (double_of_Z 1000) 0 17000 packet packet [(1, 101); (2, 102)]
    [(1, 64)] 101 102 64 (Some 1468843200500000) (B "120001.0") (B "120000.5") (B "120000.7")) as (cpd & cpr & cps & _ & E2 & _ & _ & E & _);
    try reflexivity; try (cbn; lia); try (apply no_mark; reflexivity).
  - by exists 1, [2; 3], [[255]].
  - repeat constructor; unfold is_byte; lia.
  - by apply Nat.leb_le.
  - by left.
  - by right; left.
  - vm_compute. by split.
  - exists cpr. split; [exact E2|]. change (B "NMEA_IN") with (nmea_in_moos_var (bc_cfg (driver 2))). by rewrite E.
Defined.

End CommsWitness.
