(* ===== verification/MmDriver.v ===== *)
(** * acomms/modemdriver/mm_driver.cpp: the driver of the WHOI Micro-Modem

    One definition per member function, as a computation ([Prog]) on the driver
    and on the world behind its signals. The sentences of the modem are lists of
    fields ([Nmea]). Time is an argument in microseconds: a handler sees one
    time, a loop that waits for the clock or for the modem takes the successive
    readings. Descriptions of sentences, logging and control lines of the serial
    port are left out. *)

From Stdlib Require Import SpecFloat.
From S2P Require Import Prelude AssocList HexCodec Double Time As Prog Proto Nmea DriverBase MmData.

#[local] Open Scope prog_scope.

(** ** Interfaces *)

(** calendar and text forms of boost's date_time *)
Class Calendar : Type := {
  cal_year : Z -> Z;
  cal_month : Z -> Z;
  cal_day : Z -> Z;
  iso_extended : Z -> bytes;              (* "%Y-%m-%dT%H:%M:%SZ" *)
  civil_days : Z -> Z -> Z -> option Z;   (* [date(y, m, d)], [None]: it throws *)
  read_iso_extended : bytes -> ptime;
  nat_milliseconds : Z;                   (* of a difference with [not_a_date_time] *)
  nat_fractional_seconds : Z
}.

Record AckPart : Type := MkPart { ack_dest : Z; acked_frames : Z }.

Record MMApplicationAck : Type := MkAppAck {
  part : list AckPart;
  app_ack_requested : bool;
  app_frame_start : Z
}.

(** the DCCL codec of [MMApplicationAck]: whether a string starts with its
    identifier, its size, and the two directions; [None] is an exception *)
Class AppAckCodec : Type := {
  ack_id_matches : bytes -> option bool;
  ack_size : MMApplicationAck -> nat;
  ack_encode : MMApplicationAck -> option bytes;
  ack_decode : bytes -> option (MMApplicationAck * bytes)
}.

(** ** Constants *)

Definition MODEM_WAIT : Z := 5000000.
Definition HYDROID_GATEWAY_GPS_REQUEST_INTERVAL : Z := 30000000.
Definition HYDROID_GATEWAY_PREFIX_LENGTH : nat := 3.
Definition SERIAL_DELIMITER : bytes := [13].
Definition DEFAULT_BAUD : Z := 19200.
Definition MAX_FAILS_BEFORE_DEAD : Z := 5.
Definition RETRIES : Z := 3.
Definition ROUGH_SPEED_OF_SOUND : Z := 1500.
Definition PACKET_FRAME_COUNT : list Z := [1; 3; 3; 2; 2; 8].
Definition PACKET_SIZE : list Z := [32; 64; 64; 256; 256; 256].

(** [a[i]] for an array: out of its bounds the behaviour is undefined *)
Definition array_at {A : Type} (a : list A) (i : Z) : result Exn A :=
  if i <? 0 then Err UndefinedBehaviour
  else match a !! Z.to_nat i with Some x => Ok x | None => Err UndefinedBehaviour end.

(** the sentence identifiers that [process_receive] distinguishes *)
Inductive SentenceID : Type :=
| SidREV | SidERR | SidDRQ | SidCFG | SidCLK | SidTMS | SidTMQ | SidCYC | SidXST | SidRXD | SidMSG
| SidCST | SidMUA | SidRDP | SidACK | SidMPR | SidMPA | SidTTA | SidMER | SidOther.

#[export] Instance SentenceID_eq_dec : EqDecision SentenceID.
Proof. solve_decision. Defined.

Definition sentence_id_map : list (bytes * SentenceID) :=
  [(B "ACK", SidACK); (B "DRQ", SidDRQ); (B "RXD", SidRXD); (B "CYC", SidCYC); (B "MPA", SidMPA);
   (B "MPR", SidMPR); (B "MER", SidMER); (B "MUA", SidMUA); (B "TTA", SidTTA); (B "CLK", SidCLK);
   (B "CFG", SidCFG); (B "CST", SidCST); (B "MSG", SidMSG); (B "REV", SidREV); (B "ERR", SidERR);
   (B "XST", SidXST); (B "RDP", SidRDP); (B "TMS", SidTMS); (B "TMQ", SidTMQ)].

Definition sentence_kind (id : bytes) : SentenceID :=
  match List.find (fun x => bool_decide (fst x = id)) sentence_id_map with
  | Some (_, k) => k
  | None => SidOther
  end.

(** ** The driver with the world behind its signals *)

Inductive MMEvent : Type :=
| OnLine (e : DriverEvent)
| SignalReceive (m : MMTransmission)
| SignalTransmitResult (m : MMTransmission).

(** what is connected to the signals; [None] is an exception out of the slot *)
Record Slots (W : Type) : Type := MkSlots {
  modify_transmission : MMTransmission -> W -> W * option MMTransmission;
  data_request : MMTransmission -> W -> W * option MMTransmission;
  receive_slot : MMTransmission -> W -> W * option unit
}.
Arguments modify_transmission {W}.
Arguments data_request {W}.
Arguments receive_slot {W}.

Record State (W : Type) : Type := MkState { mm : MMDriver; wld : W }.
Arguments mm {W}.
Arguments wld {W}.
Arguments MkState {W}.

Section Driver.
Context {TX : BoostText} {TR : BoostTrim} {LC : LexicalCast} {LN : LexicalNumbers}
  {CAL : Calendar} {AA : AppAckCodec}.
Context {W : Type} (slots : Slots W).

Abbreviation mprog := (prog (State W) MMEvent Exn).

Definition rd {A : Type} (f : MMDriver -> A) : mprog A := pread (fun s => f (mm s)).
Definition upd (f : MMDriver -> MMDriver) : mprog unit := pmod (fun s => MkState (f (mm s)) (wld s)).

Lemma pbind_rd {A C} (f : MMDriver -> A) (k : A -> mprog C) s : pbind (rd f) k s = k (f (mm s)) s.
Proof. apply (pbind_read (fun s => f (mm s))). Qed.
Lemma pbind_upd {C} f (k : unit -> mprog C) s : pbind (upd f) k s = k tt (MkState (f (mm s)) (wld s)).
Proof. apply (pbind_mod (fun s => MkState (f (mm s)) (wld s))). Qed.

(** a function of the base class *)
Definition on_base {A : Type} (m : prog ModemDriverBase DriverEvent Exn A) : mprog A := fun s =>
  let '(b, ev, r) := m (base_driver (mm s)) in
  (MkState (set_base_driver b (mm s)) (wld s), map OnLine ev, r).

(** changes of the two messages of the driver *)
Definition upd_rx (f : MMTransmission -> MMTransmission) : mprog unit :=
  upd (fun d => set_receive_msg (f (receive_msg d)) d).
Definition upd_tx (f : MMTransmission -> MMTransmission) : mprog unit :=
  upd (fun d => set_transmit_msg (f (transmit_msg d)) d).

(** [nmea[i]] and [nmea.at(i)] *)
Definition field (nmea : list bytes) (i : nat) : mprog bytes :=
  plift (match nmea !! i with Some f => Ok f | None => Err UndefinedBehaviour end).
Definition field_at (nmea : list bytes) (i : nat) : mprog bytes :=
  plift (match nmea !! i with Some f => Ok f | None => Err OutOfRange end).

Definition lift_nmea {A : Type} (r : result bad_nmea_sentence A) : mprog A :=
  plift (match r with Ok a => Ok a | Err e => Err (BadNmea e) end).

Definition sid (nmea : list bytes) : mprog bytes :=
  plift (match sentence_id nmea with Some s => Ok s | None => Err OutOfRange end).

Definition my_id (d : MMDriver) : Z := cfg_modem_id (driver_cfg d).

(** fields pushed one after the other *)
Definition sentence (talker : bytes) (fields : list bytes) : list bytes :=
  foldl (fun acc f => nmea_push_back f acc) [talker] fields.

(** ** Outgoing sentences *)

Definition mm_write (now : Z) (nmea : list bytes) : mprog unit :=
  let! raw := lift_nmea (message nmea) in
  on_base (signal_raw false raw);;
  let! prefix := rd hydroid_gateway_modem_prefix in
  on_base (modem_write (prefix ++ raw ++ [13; 10]));;
  upd (set_waiting_for_modem true);;
  upd (set_last_write_time now).

Definition increment_present_fail : mprog unit :=
  upd (fun d => set_present_fail_count (u32 (present_fail_count d + 1)) d);;
  let! n := rd present_fail_count in
  if RETRIES <=? n then pthrow (DriverException MODEM_NOT_RESPONDING) else pret tt.

Definition pop_out : mprog unit :=
  upd (set_waiting_for_modem false);;
  upd (fun d => set_out (drop 1 (out d)) d);;
  upd (set_present_fail_count 0).

Definition present_fail_exceeds_retries : mprog unit := pop_out.

Definition shutdown : mprog unit :=
  upd (set_out []);;
  upd (set_startup_done false);;
  on_base modem_close.

Definition catch_driver (m h : mprog unit) : mprog unit :=
  pcatch m (fun x => if is_driver_exception x then Some h else None).

Definition try_send (now : Z) : mprog unit :=
  let! d := rd (fun d => d) in
  match out d with
  | [] => pret tt
  | nmea :: _ =>
      if negb (waiting_for_modem d) then mm_write now nmea
      else if last_write_time d <=? now - MODEM_WAIT
      then
        upd (fun d => set_global_fail_count (u32 (global_fail_count d + 1)) d);;
        let! n := rd global_fail_count in
        if n =? MAX_FAILS_BEFORE_DEAD
        then
          shutdown;;
          upd (set_global_fail_count 0);;
          pthrow (DriverException MODEM_NOT_RESPONDING)
        else catch_driver (increment_present_fail;; mm_write now nmea) present_fail_exceeds_retries
      else pret tt
  end.

Definition append_to_write_queue (now : Z) (nmea : list bytes) : mprog unit :=
  upd (fun d => set_out (out d ++ [nmea]) d);;
  try_send now.

Definition write_single_cfg (now : Z) (s : bytes) : mprog unit :=
  let s := if bool_decide (find_char 44 s = Some 3%nat) then map to_upper s else s in
  append_to_write_queue now (sentence (B "$CCCFG") [s]).

Definition write_cfg (now : Z) : mprog unit :=
  let! d := rd (fun d => d) in
  pwhen (negb (is_hydroid_gateway d) && reset_nvram (driver_cfg d)) (write_single_cfg now (B "ALL,0"));;
  write_single_cfg now (B "CST,1");;
  pfor (nvram_cfg_list (driver_cfg d)) (write_single_cfg now);;
  write_single_cfg now (B "SRC," ++ as_string (my_id d));;
  write_single_cfg now (B "REV,1");;
  write_single_cfg now (B "RXP,1").

(** the configuration given, not the one the driver keeps *)
Definition update_cfg (now : Z) (cfg : DriverConfig) : mprog unit :=
  pfor (nvram_cfg_list cfg) (write_single_cfg now).

Definition query_all_cfg (now : Z) : mprog unit :=
  let! r := rd revision in
  append_to_write_queue now (if 2 <=? mm_major r then [B "$CCCFQ"; B "TOP"] else [B "$CCCFQ"; B "ALL"]).

Definition set_silent (now : Z) (silent : bool) : mprog unit :=
  let! d := rd (fun d => d) in
  write_single_cfg now (if silent then B "SRC,0" else B "SRC," ++ as_string (my_id d)).

Definition set_hydroid_gateway_prefix (id : Z) : mprog unit :=
  upd (set_is_hydroid_gateway true);;
  upd (set_hydroid_gateway_gps_request (B "#G" ++ as_string id ++ [13; 10]));;
  upd (set_hydroid_gateway_modem_prefix (B "#M" ++ as_string id)).

(** between 50 and 100 ms after the top of a second *)
Definition frac_sec (p : Z) : double := ddiv (double_of_Z (p mod 1000000)) (double_of_Z 1000000).
Definition clock_window (p : Z) : bool :=
  negb (dlt (ddiv (double_of_Z 100) (double_of_Z 1000)) (frac_sec p))
  && negb (dlt (frac_sec p) (ddiv (double_of_Z 50) (double_of_Z 1000))).

(** [readings] are the successive values of the clock *)
Definition set_clock (readings : list Z) : mprog unit :=
  match List.find clock_window readings with
  | None => pthrow StillWaiting
  | Some p =>
      let! r := rd revision in
      let tod := (p mod us_per_day) / 1000000 in
      append_to_write_queue p
        (if 2 <=? mm_major r
         then sentence (B "$CCTMS") [iso_extended (p + 1000000); as_string 0]
         else sentence (B "$CCCLK")
                [as_string (cal_year p); as_string (cal_month p); as_string (cal_day p);
                 as_string (tod / 3600); as_string (tod / 60 mod 60); as_string (tod mod 60 + 1)])
  end.

(** ** Signals *)

Definition call_slot {A : Type} (f : W -> W * option A) : mprog A := fun s =>
  let '(w, r) := f (wld s) in
  (MkState (mm s) w, [], match r with Some a => Ok a | None => Err SlotException end).

Definition signal_receive (m : MMTransmission) : mprog unit :=
  pemit (SignalReceive m);;
  call_slot (receive_slot slots m).

(** on the message being received *)
Definition signal_receive_and_clear : mprog unit :=
  let! m := rd receive_msg in
  pcatch (signal_receive m;; upd_rx (fun _ => empty_mm))
    (fun x => if is_std_exception x then Some (upd_rx (fun _ => empty_mm);; pthrow x) else None).

(** "if enabled cacst will signal_receive" *)
Definition signal_unless_cst : mprog unit :=
  let! cst := rd (nvram (B "CST")) in
  pwhen (cst =? 0) signal_receive_and_clear.

Definition signal_data_request : mprog unit :=
  let! m := rd transmit_msg in
  let! m := call_slot (data_request slots m) in
  upd_tx (fun _ => m).

(** ** Acknowledgements of the application *)

(** the frames of a set as the bits of a 32 bit mask *)
Definition ack_mask (frames : list Z) : Z :=
  fold_left (fun acked f => u32 (Z.lor acked (Z.shiftl 1 f))) frames 0.

Definition ack_parts (l : list (Z * list Z)) : list AckPart :=
  map (fun x => MkPart (s32 (fst x)) (ack_mask (snd x))) l.

(** [mutable_frame(0)] *)
Definition upd_frame0 (f : bytes -> bytes) : mprog unit :=
  let! m := rd transmit_msg in
  match mt_frame (base m) with
  | [] => pthrow UndefinedBehaviour
  | f0 :: rest => upd_tx (set_b set_mt_frame (f f0 :: rest))
  end.

Definition process_outgoing_app_ack : mprog unit :=
  let! d := rd (fun d => d) in
  match mt_frame (base (transmit_msg d)) with
  | _ :: _ => pret tt
  | [] =>
      let parts := ack_parts (frames_to_ack d) in
      upd (set_frames_to_ack []);;
      let start := u32 (next_frame d) in
      upd_tx (set_b set_mt_frame_start (Some start));;
      let size := ack_size (MkAppAck parts false start) in
      upd_tx (fun m => set_b set_mt_frame (mt_frame (base m) ++ [repeat 0 size]) m);;
      signal_data_request;;
      let! m := rd transmit_msg in
      let acks := MkAppAck parts (ack_requested (base m)) start in
      let! ack_bytes := plift (match ack_encode acks with Some b => Ok b | None => Err CodecException end) in
      upd_frame0 (fun s => ack_bytes ++ drop size s);;
      let! m := rd transmit_msg in
      if bool_decide (parts = []) && (frame_size (base m) =? 1)%nat
         && bool_decide (length <$> head (mt_frame (base m)) = Some size)
      then upd_tx (set_b set_mt_frame [])
      else pwhen (dest (base m) =? QUERY_DESTINATION_ID) (upd_tx (set_b set_mt_dest (Some BROADCAST_ID)))
  end.

(** [m] is returned with the acknowledgement added *)
Definition handle_ack (now src dest frame : Z) (m : MMTransmission) : mprog MMTransmission :=
  let! waiting := rd frames_waiting_for_ack in
  if set_mem frame waiting
  then
    let b := base m in
    let b := set_mt_time (Some now) b in
    let b := set_mt_src (Some (s32 src)) b in
    let b := set_mt_dest (Some (s32 dest)) b in
    let b := set_mt_type (Some ACK) b in
    let b := set_mt_acked_frame (mt_acked_frame b ++ [frame]) b in
    upd (fun d => set_frames_waiting_for_ack (set_erase frame (frames_waiting_for_ack d)) d);;
    pret (set_base b m)
  else pret m.

(** the acknowledgements of one part *)
Definition handle_ack_part (now src : Z) (p : AckPart) : mprog unit :=
  let! d := rd (fun d => d) in
  pwhen (ack_dest p =? my_id d)
    (pfor (map Z.of_nat (seq 0 (Z.to_nat (application_ack_max_frames d))))
       (fun j =>
          pwhen (negb (Z.land (acked_frames p) (Z.shiftl 1 j) =? 0))
            (let! msg := handle_ack now (u32 src) (u32 (ack_dest p)) j empty_mm in
             signal_receive msg))).

Definition process_incoming_app_ack (now : Z) : mprog unit :=
  let! m := rd receive_msg in
  match mt_frame (base m) with
  | [] => pthrow UndefinedBehaviour
  | f0 :: rest =>
      match ack_id_matches f0 with
      | None => pthrow CodecException
      | Some false => pret tt
      | Some true =>
          match ack_decode f0 with
          | None => pthrow CodecException
          | Some (acks, f0) =>
              upd_rx (set_b set_mt_frame (f0 :: rest));;
              let! d := rd (fun d => d) in
              pwhen ((dest (base m) =? my_id d) && app_ack_requested acks)
                (upd (fun d =>
                   let k := u32 (src (base m)) in
                   set_frames_to_ack
                     (al_insert k (set_insert (app_frame_start acks) (default [] (al_lookup k (frames_to_ack d))))
                        (frames_to_ack d)) d));;
              pfor (part acks) (handle_ack_part now (src (base m)))
          end
      end
  end.

(** ** Transmissions *)

Definition cache_outgoing_data : mprog unit :=
  let! d := rd (fun d => d) in
  let m := base (transmit_msg d) in
  pwhen (src m =? my_id d)
    (pwhen (negb (using_application_acks d)
            || (application_ack_max_frames d <? next_frame d + s32 (max_num_frames m)))
       (upd (set_frames_waiting_for_ack []);;
        upd (set_expected_ack_destination 0);;
        upd (set_next_frame 0));;
     if using_application_acks d then process_outgoing_app_ack else signal_data_request).

(** the frame is entered as waiting for an acknowledgement from [dest] *)
Definition expect_ack (dest : Z) : mprog unit :=
  upd (set_expected_ack_destination (u32 dest));;
  upd (fun d => set_frames_waiting_for_ack (set_insert (u32 (next_frame d)) (frames_waiting_for_ack d)) d);;
  upd (fun d => set_next_frame (s32 (next_frame d + 1)) d).

Definition is_empty_frame (f : option bytes) : bool := match f with None | Some [] => true | _ => false end.

Definition cccyc (now : Z) : mprog unit :=
  upd (set_local_cccyc true);;
  let! m := rd transmit_msg in
  let! count := plift (array_at PACKET_FRAME_COUNT (rate (base m))) in
  upd_tx (set_b set_mt_max_num_frames (Some count));;
  let! size := plift (array_at PACKET_SIZE (rate (base m))) in
  upd_tx (set_b set_mt_max_frame_bytes (Some size));;
  cache_outgoing_data;;
  let! d := rd (fun d => d) in
  let m := base (transmit_msg d) in
  let is_local_cycle := src m =? my_id d in
  pwhen (negb (is_local_cycle && is_empty_frame (head (mt_frame m))))
    (append_to_write_queue now
       (sentence (B "$CCCYC")
          [as_string 0; as_string (src m); as_string (dest m); as_string (rate m);
           as_string (if is_local_cycle then Z.b2z (ack_requested m) else 1);
           as_string (if is_local_cycle then Z.of_nat (frame_size m) else max_num_frames m)]);;
     upd (set_expected_remaining_caxst (if (rate m =? 0) && is_local_cycle then 1 else 0))).

(** [resize] of a string *)
Definition resize (n : nat) (s : bytes) : bytes := take n s ++ repeat 0 (n - length s).

Definition ccmuc (now : Z) : mprog unit :=
  upd_tx (set_b set_mt_max_num_frames (Some 1));;
  upd_tx (set_b set_mt_max_frame_bytes (Some 2));;
  cache_outgoing_data;;
  let! m := rd transmit_msg in
  pwhen (negb (is_empty_frame (head (mt_frame (base m)))))
    (upd_frame0 (resize 2);;
     upd_frame0 (fun s => match s with c :: s => Z.land c 31 :: s | [] => [] end);;
     let! m := rd transmit_msg in
     let m := base m in
     append_to_write_queue now
       (sentence (B "$CCMUC")
          [as_string (src m); as_string (dest m); hex_encode (default [] (head (mt_frame m)))])).

Definition cctdp (now : Z) : mprog unit :=
  upd_tx (set_b set_mt_max_num_frames (Some 1));;
  let! m := rd transmit_msg in
  pwhen (negb (has_max_frame_bytes (base m))) (upd_tx (set_b set_mt_max_frame_bytes (Some 100)));;
  cache_outgoing_data;;
  let! d := rd (fun d => d) in
  let m := base (transmit_msg d) in
  pwhen (negb (is_empty_frame (head (mt_frame m))))
    (pwhen (ack_requested m && using_application_acks d) (expect_ack (dest m));;
     append_to_write_queue now
       (sentence (B "$CCTDP")
          [as_string (dest m); as_string (rate m); as_string 0; as_string 0;
           hex_encode (default [] (head (mt_frame m)))])).

Definition ccmpc (now : Z) (m : ModemTransmission) : mprog unit :=
  append_to_write_queue now (sentence (B "$CCMPC") [as_string (src m); as_string (dest m)]).

(** [int((range * 2.0 / ROUGH_SPEED_OF_SOUND) * 1000 + tat)] *)
Definition lbl_timeout (range tat : Z) : Z :=
  double_to_Z (dadd (dmul (ddiv (dmul (double_of_Z range) (double_of_Z 2)) (double_of_Z ROUGH_SPEED_OF_SOUND))
                       (double_of_Z 1000)) (double_of_Z tat)).

(** the turn-around time is written when the modem has another one *)
Definition write_tat (now tat : Z) : mprog unit :=
  let! v := rd (nvram (B "TAT")) in
  pwhen (negb (u32 v =? tat)) (write_single_cfg now (B "TAT," ++ as_string tat)).

Definition bit (z i : Z) : Z := Z.land (Z.shiftr z i) 1.

Definition ccpdt (now : Z) (m : MMTransmission) : mprog unit :=
  upd (set_last_lbl_type MICROMODEM_REMUS_LBL_RANGING);;
  let! d := rd (fun d => d) in
  let params := merge_remus (default empty_remus (cfg_remus_lbl (driver_cfg d))) (default empty_remus (remus_lbl m)) in
  let tat := default 50 (rm_turnaround_ms params) in
  write_tat now tat;;
  let beacons := default 15 (rm_enable_beacons params) in
  append_to_write_queue now
    (sentence (B "$CCPDT")
       [as_string 1; as_string (Z.rem (src (base m)) 4 + 1); as_string 0; as_string 0;
        as_string (lbl_timeout (default 1000 (rm_lbl_max_range params)) tat);
        as_string (bit beacons 0); as_string (bit beacons 1); as_string (bit beacons 2);
        as_string (bit beacons 3)]).

(** four entries of a list, completed with zeros *)
Definition four (l : list Z) : list Z := map (fun i => default 0 (l !! i)) (seq 0 4).

Definition ccpnt (now : Z) (m : MMTransmission) : mprog unit :=
  upd (set_last_lbl_type MICROMODEM_NARROWBAND_LBL_RANGING);;
  let! d := rd (fun d => d) in
  let params := merge_narrowband (default empty_narrowband (cfg_narrowband_lbl (driver_cfg d)))
                  (default empty_narrowband (narrowband_lbl m)) in
  let tat := default 0 (nb_turnaround_ms params) in
  write_tat now tat;;
  append_to_write_queue now
    (sentence (B "$CCPNT")
       ([as_string (default 0 (nb_transmit_freq params)); as_string (default 0 (nb_transmit_ping_ms params));
         as_string (default 0 (nb_receive_ping_ms params));
         as_string (lbl_timeout (default 2000 (nb_lbl_max_range params)) tat)]
        ++ map as_string (four (nb_receive_freq params))
        ++ [as_string (Z.b2z (default true (nb_transmit_flag params)))])).

Definition ccmec (now : Z) (m : MMTransmission) : mprog unit :=
  let params := default (MkHw None None None) (hw_ctl m) in
  append_to_write_queue now
    (sentence (B "$CCMEC")
       [as_string (src (base m)); as_string (dest (base m)); as_string (default 5 (hw_line params));
        as_string (default 0 (hw_mode params)); as_string (default 0 (hw_arg params))]).

Definition ccpgt (now : Z) (m : MMTransmission) : mprog unit :=
  upd (set_last_lbl_type MICROMODEM_GENERIC_LBL_RANGING);;
  let! d := rd (fun d => d) in
  let params := merge_generic (default empty_generic (cfg_generic_lbl (driver_cfg d)))
                  (default empty_generic (generic_lbl m)) in
  let tat := default 0 (gn_turnaround_ms params) in
  write_tat now tat;;
  append_to_write_queue now
    (sentence (B "$CCPGT")
       ([as_string (default 0 (gn_transmit_freq params)); as_string (default 0 (gn_n_bits params));
         as_string (default 0 (gn_transmit_seq_code params));
         as_string (lbl_timeout (default 2000 (gn_lbl_max_range params)) tat);
         as_string (default 0 (gn_receive_freq params))]
        ++ map as_string (four (gn_receive_seq_code params))
        ++ [as_string (default 0 (gn_bandwidth params)); as_string 0])).

Definition d0 : double := double_of_Z 0.
Definition times10 (d : double) : Z := double_to_Z (dmul d (double_of_Z 10)).

Definition ccswp (now : Z) (m : MMTransmission) : mprog unit :=
  let! d := rd (fun d => d) in
  let params := merge_sweep (default empty_sweep (cfg_fm_sweep (driver_cfg d))) (default empty_sweep (fm_sweep m)) in
  let start := default d0 (sw_start_freq params) in
  let stop := default d0 (sw_stop_freq params) in
  append_to_write_queue now
    (sentence (B "$CCSWP")
       [as_string (times10 start); as_string (times10 stop); as_string (double_to_Z (dabs (dsub start stop)));
        as_string (times10 (default d0 (sw_duration_ms params)));
        as_string (default 1 (sw_number_repetitions params));
        as_string (times10 (default (double_of_Z 1000) (sw_repetition_period_ms params)))]).

Definition ccmsq (now : Z) (m : MMTransmission) : mprog unit :=
  let! d := rd (fun d => d) in
  let params := merge_m_sequence (default empty_m_sequence (cfg_m_sequence (driver_cfg d)))
                  (default empty_m_sequence (m_sequence m)) in
  append_to_write_queue now
    (sentence (B "$CCMSQ")
       [as_string (default 0 (ms_seqlen_bits params)); as_string (default 0 (ms_number_repetitions params));
        as_string (default 0 (ms_carrier_cycles_per_chip params));
        as_string (default 0 (ms_carrier_freq params))]).

Definition initiate (now : Z) : mprog unit :=
  let! m := rd transmit_msg in
  match type (base m) with
  | DATA => cccyc now
  | DRIVER_SPECIFIC =>
      match default BASE_TYPE (mm_type m) with
      | MICROMODEM_MINI_DATA => ccmuc now
      | MICROMODEM_FLEXIBLE_DATA => cctdp now
      | MICROMODEM_TWO_WAY_PING => ccmpc now (base m)
      | MICROMODEM_REMUS_LBL_RANGING => ccpdt now m
      | MICROMODEM_NARROWBAND_LBL_RANGING => ccpnt now m
      | MICROMODEM_HARDWARE_CONTROL => ccmec now m
      | MICROMODEM_GENERIC_LBL_RANGING => ccpgt now m
      | MICROMODEM_FM_SWEEP => ccswp now m
      | MICROMODEM_M_SEQUENCE => ccmsq now m
      | _ => pret tt
      end
  | _ => pret tt
  end.

Definition handle_initiate_transmission (now : Z) (msg : MMTransmission) : mprog unit :=
  upd_tx (fun _ => msg);;
  catch_driver
    (let! m := call_slot (modify_transmission slots msg) in
     upd_tx (fun _ => m);;
     initiate now)
    (pret tt).

End Driver.
