(* ===== verification/MmReceive.v ===== *)
(** * acomms/modemdriver/mm_driver.cpp: sentences from the modem, the work loop and startup *)

From Stdlib Require Import SpecFloat.
From S2P Require Import Prelude AssocList HexCodec Double Time As Prog Proto Nmea DriverBase MmData MmDriver.

#[local] Open Scope prog_scope.

Section Receive.
Context {TX : BoostText} {TR : BoostTrim} {LC : LexicalCast} {LN : LexicalNumbers}
  {CAL : Calendar} {AA : AppAckCodec}.
Context {W : Type} (slots : Slots W).

Abbreviation mprog := (prog (State W) MMEvent Exn).

(** [as<T>(nmea[i])] *)
Definition int_of (nmea : list bytes) (i : nat) : mprog Z := let! f := field nmea i in pret (as_int f).
Definition uint_of (nmea : list bytes) (i : nat) : mprog Z := let! f := field nmea i in pret (as_uint32 f).

(** ** Data cycle *)

Definition caack (now : Z) (nmea : list bytes) : mprog unit :=
  let! d := rd (fun d => d) in
  let! f2 := int_of nmea 2 in
  if negb (f2 =? my_id d) then pret tt
  else
    let! f1 := uint_of nmea 1 in
    if negb (f1 =? expected_ack_destination d) then pret tt
    else
      let! f3 := uint_of nmea 3 in
      let! dst := uint_of nmea 2 in
      let! m := handle_ack now f1 dst (u32 (f3 - 1)) (receive_msg d) in
      upd_rx (fun _ => m);;
      signal_unless_cst slots.

Definition cadrq (now : Z) (nmea : list bytes) : mprog unit :=
  let! m := rd transmit_msg in
  let m := base m in
  let! f6 := int_of nmea 6 in
  let frame := s32 (f6 - 1) in
  let! data :=
    if frame <? Z.of_nat (frame_size m)
    then if frame <? 0 then pthrow UndefinedBehaviour
         else pret (default [] (mt_frame m !! Z.to_nat frame))
    else pret [] in
  match data with
  | _ :: _ =>
      let! f5 := field_at nmea 5 in
      let max_bytes := as_int f5 in
      let padding := u64 (max_bytes - Z.of_nat (length data)) in
      if 2 ^ 62 <=? padding then pthrow LengthError
      else
        let nmea_out :=
          sentence (B "$CCTXD")
            [as_string (src m); as_string (dest m); as_string (Z.b2z (ack_requested m));
             hex_encode (data ++ repeat 0 (Z.to_nat padding))] in
        pwhen (ack_requested m) (expect_ack (dest m));;
        append_to_write_queue now nmea_out
  | [] =>
      let! f2 := field nmea 2 in
      let! f3 := field nmea 3 in
      let! f4 := field nmea 4 in
      append_to_write_queue now (sentence (B "$CCTXD") [f2; f3; f4; []])
  end.

(** what [carxd] and [camsg] do at their end *)
Definition signal_if_last : mprog unit :=
  let! waiting := rd frames_waiting_to_receive in
  pwhen (bool_decide (waiting = [])) (signal_unless_cst slots).

Definition camsg (nmea : list bytes) : mprog unit :=
  let! f1 := field_at nmea 1 in
  let! waiting := rd frames_waiting_to_receive in
  pwhen ((bool_decide (f1 = B "BAD_CRC") || bool_decide (f1 = B "Bad CRC")) && negb (bool_decide (waiting = [])))
    (upd_rx (fun m => set_frame_with_bad_crc (frame_with_bad_crc m ++ [Z.of_nat (frame_size (base m))]) m);;
     upd_rx (fun m => set_b set_mt_frame (mt_frame (base m) ++ [[]]) m);;
     upd (fun d => set_frames_waiting_to_receive (drop 1 (frames_waiting_to_receive d)) d);;
     signal_if_last).

Definition carxd (now : Z) (nmea : list bytes) : mprog unit :=
  let! f4 := uint_of nmea 4 in
  let frame := u32 (f4 - 1) in
  pwhen (frame =? 0)
    (upd_rx (set_b set_mt_time (Some now));;
     let! f1 := uint_of nmea 1 in
     upd_rx (set_b set_mt_src (Some (s32 f1)));;
     let! f2 := uint_of nmea 2 in
     upd_rx (set_b set_mt_dest (Some (s32 f2)));;
     upd_rx (set_b set_mt_type (Some DATA));;
     let! f3 := field nmea 3 in
     upd_rx (set_b set_mt_ack_requested (Some (as_bool f3))));;
  let! f5 := field nmea 5 in
  pwhen (negb (bool_decide (f5 = [])))
    (upd_rx (fun m => set_b set_mt_frame (mt_frame (base m) ++ [hex_decode f5]) m));;
  upd (fun d => set_frames_waiting_to_receive (set_erase frame (frames_waiting_to_receive d)) d);;
  signal_if_last.

Definition cacyc (now : Z) (nmea : list bytes) : mprog unit :=
  let! d := rd (fun d => d) in
  let! f2 := int_of nmea 2 in
  if f2 =? my_id d
  then
    if negb (local_cccyc d)
    then
      pwhen (nvram (B "XST") d =? 0) (upd_tx (fun _ => empty_mm));;
      upd_tx (set_b set_mt_time (Some now));;
      let! u2 := uint_of nmea 2 in
      upd_tx (set_b set_mt_src (Some (s32 u2)));;
      let! u3 := uint_of nmea 3 in
      upd_tx (set_b set_mt_dest (Some (s32 u3)));;
      let! u4 := uint_of nmea 4 in
      upd_tx (set_b set_mt_rate (Some (s32 u4)));;
      let! u6 := uint_of nmea 6 in
      upd_tx (set_b set_mt_max_num_frames (Some u6));;
      let! size := plift (array_at PACKET_SIZE (s32 u4)) in
      upd_tx (set_b set_mt_max_frame_bytes (Some size));;
      cache_outgoing_data slots
    else upd (set_local_cccyc false)
  else
    let! rate := uint_of nmea 4 in
    if local_cccyc d && negb (rate =? 0) then upd (set_local_cccyc false)
    else
      let! num_frames := uint_of nmea 6 in
      upd (set_frames_waiting_to_receive (map Z.of_nat (seq 0 (Z.to_nat num_frames))));;
      let! f4 := int_of nmea 4 in
      upd (set_expected_remaining_cacst (if (f4 =? 0) && negb (local_cccyc d) then 1 else 0));;
      upd (set_local_cccyc false).

(** ** Mini packets and the flexible data protocol *)

(** the header fields set on the message being received *)
Definition set_rx_header (now : Z) (nmea : list bytes) : mprog unit :=
  upd_rx (set_b set_mt_time (Some now));;
  let! f1 := uint_of nmea 1 in
  upd_rx (set_b set_mt_src (Some (s32 f1)));;
  let! f2 := uint_of nmea 2 in
  upd_rx (set_b set_mt_dest (Some (s32 f2))).

Definition set_rx_type (t : MMType) : mprog unit :=
  upd_rx (set_b set_mt_type (Some DRIVER_SPECIFIC));;
  upd_rx (set_mm_type (Some t)).

Definition add_rx_frame (f : bytes) : mprog unit :=
  upd_rx (fun m => set_b set_mt_frame (mt_frame (base m) ++ [f]) m).

Definition camua (now : Z) (nmea : list bytes) : mprog unit :=
  set_rx_header now nmea;;
  set_rx_type MICROMODEM_MINI_DATA;;
  let! f3 := field nmea 3 in
  add_rx_frame (hex_decode f3);;
  signal_unless_cst slots.

(** triples of CRC check, size and data: the data joined, or [None] at the
    first frame whose check failed *)
Fixpoint join_fdp (frames : list bytes) : option bytes :=
  match frames with
  | crccheck :: _ :: data :: frames =>
      if as_bool crccheck then app data <$> join_fdp frames else None
  | _ => Some []
  end.

Definition semicolon_split (s : bytes) : list bytes :=
  match s with [] => [] | _ => boost_split (Z.eqb 59) s end.

Definition cardp (now : Z) (nmea : list bytes) : mprog unit :=
  set_rx_header now nmea;;
  let! f3 := uint_of nmea 3 in
  upd_rx (set_b set_mt_rate (Some (s32 f3)));;
  set_rx_type MICROMODEM_FLEXIBLE_DATA;;
  let! mini := field nmea 6 in
  let! data := field nmea 7 in
  match join_fdp (semicolon_split mini ++ semicolon_split data) with
  | None =>
      upd_rx (fun m => set_frame_with_bad_crc (frame_with_bad_crc m ++ [0]) m);;
      add_rx_frame []
  | Some frame_hex =>
      add_rx_frame (hex_decode frame_hex);;
      let! app := rd using_application_acks in
      pwhen app (process_incoming_app_ack slots now)
  end;;
  signal_unless_cst slots.

(** ** Hardware control and ranging *)

Definition camer (now : Z) (nmea : list bytes) : mprog unit :=
  let! d := rd (fun d => d) in
  let r := revision d in
  let swapped := (mm_major r =? 2) && (mm_minor r =? 0) && (mm_patch r <? 18307) in
  let '(src_field, dest_field) := if swapped then (2%nat, 1%nat) else (1%nat, 2%nat) in
  let! dst := int_of nmea dest_field in
  if negb (dst =? my_id d) then pret tt
  else
    upd_rx (set_b set_mt_time (Some now));;
    let! s := uint_of nmea src_field in
    upd_rx (set_b set_mt_src (Some (s32 s)));;
    let! t := uint_of nmea dest_field in
    upd_rx (set_b set_mt_dest (Some (s32 t)));;
    set_rx_type MICROMODEM_HARDWARE_CONTROL_REPLY;;
    let upd_hw f := upd_rx (fun m => set_hw_ctl (Some (f (default (MkHw None None None) (hw_ctl m)))) m) in
    upd_hw (fun h => h);;
    let! f3 := field_at nmea 3 in
    upd_hw (fun h => MkHw (Some (as_enum f3)) (hw_mode h) (hw_arg h));;
    let! f4 := field_at nmea 4 in
    upd_hw (fun h => MkHw (hw_line h) (Some (as_enum f4)) (hw_arg h));;
    let! f5 := field_at nmea 5 in
    upd_hw (fun h => MkHw (hw_line h) (hw_mode h) (Some (as_enum f5)));;
    signal_unless_cst slots.

Definition upd_ranging (f : RangingReply -> RangingReply) : mprog unit :=
  upd_rx (fun m => set_ranging_reply (Some (f (default empty_ranging (ranging_reply m)))) m).

Definition add_travel_time (t : double) (r : RangingReply) : RangingReply :=
  MkRanging (one_way_travel_time r ++ [t]) (ambiguity r) (is_one_way_synchronous r) (receiver_clk_mode r).

Definition campr (now : Z) (nmea : list bytes) : mprog unit :=
  set_rx_header now nmea;;
  upd_ranging (fun r => r);;
  match nmea !! 3%nat with
  | Some f3 => upd_ranging (add_travel_time (as_double f3))
  | None => pret tt
  end;;
  set_rx_type MICROMODEM_TWO_WAY_PING;;
  signal_unless_cst slots.

Definition campa (now : Z) (nmea : list bytes) : mprog unit :=
  set_rx_header now nmea;;
  set_rx_type MICROMODEM_TWO_WAY_PING;;
  signal_unless_cst slots.

Definition time_result (now : Z) (s : bytes) : result Exn Z :=
  match nmea_time2ptime (now / us_per_day) s with
  | NmeaTime t => Ok (ptime2unix_microsec t)
  | NmeaOutOfRange => Err OutOfRange
  | NmeaIntOverflow => Err UndefinedBehaviour
  end.

Definition sntta (now : Z) (nmea : list bytes) : mprog unit :=
  upd_ranging (fun r => r);;
  pfor [1; 2; 3; 4]%nat
    (fun i => let! f := field nmea i in upd_ranging (add_travel_time (as_double f)));;
  let! d := rd (fun d => d) in
  set_rx_type (last_lbl_type d);;
  upd_rx (set_b set_mt_src (Some (my_id d)));;
  let! f5 := field nmea 5 in
  let! t := plift (time_result now f5) in
  upd_rx (set_b set_mt_time (Some t));;
  upd_rx (set_time_source (Some MODEM_TIME));;
  signal_receive_and_clear slots.

(** ** The local modem *)

Definition cacfg (nmea : list bytes) : mprog unit :=
  let! k := field nmea 1 in
  let! v := field_at nmea 2 in
  upd (set_nvram k (as_int v)).

Definition carev (nmea : list bytes) : mprog unit :=
  let! f2 := field nmea 2 in
  if bool_decide (f2 = B "INIT") then upd (set_clock_set false)
  else if bool_decide (f2 = B "AUV") then
    let! f3 := field nmea 3 in
    match map as_int (boost_split (Z.eqb 46) f3) with
    | [a; b; c] => upd (set_revision (MkRev a b c))
    | [a; b; c; e] => upd (set_revision (MkRev a b (s32 (c * 100 + e))))
    | _ => pret tt
    end
  else pret tt.

Definition caerr (nmea : list bytes) : mprog unit :=
  let! f2 := field_at nmea 2 in
  pwhen (bool_decide (f2 = B "NMEA"))
    (upd (set_waiting_for_modem false);;
     catch_driver increment_present_fail present_fail_exceeds_retries).

(** the time the modem reports *)
Definition reported_time (nmea : list bytes) (k : SentenceID) : mprog ptime :=
  match k with
  | SidCLK =>
      let! y := field_at nmea 1 in
      let! mo := field_at nmea 2 in
      let! da := field_at nmea 3 in
      let! h := field_at nmea 4 in
      let! mi := field_at nmea 5 in
      let! s := field_at nmea 6 in
      match civil_days (as_int y) (as_int mo) (as_int da) with
      | None => pthrow OutOfRange
      | Some days =>
          pret (Some (days * us_per_day + ((as_int h * 60 + as_int mi) * 60 + as_int s) * 1000000))
      end
  | _ =>
      let! t := field_at nmea (if bool_decide (k = SidTMS) then 2%nat else 1%nat) in
      pret (read_iso_extended (take (length t - 1) t))
  end.

Definition receive_time (now : Z) (nmea : list bytes) (k : SentenceID) : mprog unit :=
  let! d := rd (fun d => d) in
  match out d with
  | [] => pret tt
  | front :: _ =>
      let! id := sid front in
      let name := match k with SidCLK => B "CLK" | SidTMS => B "TMS" | _ => B "TMQ" end in
      if negb (bool_decide (id = name)) then pret tt
      else
        let! reported := reported_time nmea k in
        let diff_ms := match reported with
                       | Some t => Z.quot (t - now) 1000
                       | None => nat_milliseconds
                       end in
        upd (set_clock_set (Z.abs (s32 diff_ms) <? allowed_skew_ms (driver_cfg d)))
  end.

(** ** Statistics *)

(** a field of the sentence, and how it is converted *)
Definition stat_row : Type := (StatField * nat * (bytes -> result Exn StatValue)).

Definition row_int : bytes -> result Exn StatValue := fun s => Ok (VInt (as_int s)).
Definition row_double : bytes -> result Exn StatValue := fun s => Ok (VDouble (as_double s)).
(** [as<double>] stored in an [int32] field *)
Definition row_truncated : bytes -> result Exn StatValue := fun s => Ok (VInt (double_to_Z (as_double s))).
Definition row_string : bytes -> result Exn StatValue := fun s => Ok (VString s).
Definition row_bool : bytes -> result Exn StatValue := fun s => Ok (VBool (as_bool s)).
Definition row_enum (valid : Z -> bool) : bytes -> result Exn StatValue :=
  fun s => Ok (VInt (if valid (as_int s) then as_enum s else -1)).

(** the assignments in order, up to the first exception *)
Fixpoint set_fields (nmea : list bytes) (offset : nat) (rows : list stat_row) (st : Statistics)
  : Statistics * option Exn :=
  match rows with
  | [] => (st, None)
  | (f, i, conv) :: rows =>
      match nmea !! (i + offset)%nat with
      | None => (st, Some OutOfRange)
      | Some s =>
          match conv s with
          | Ok v => set_fields nmea offset rows (st ++ [(f, v)])
          | Err x => (st, Some x)
          end
      end
  end.

Definition xst_rows : list stat_row :=
  [(StDate, 1%nat, row_string); (StTime, 2%nat, row_string);
   (StClockMode, 3%nat, row_enum ClockMode_IsValid); (StMode, 4%nat, row_enum TransmitMode_IsValid);
   (StProbeLength, 5%nat, row_int); (StBandwidth, 6%nat, row_int); (StCarrierFreq, 7%nat, row_int);
   (StRate, 8%nat, row_int); (StSource, 9%nat, row_int); (StDest, 10%nat, row_int);
   (StAckRequested, 11%nat, row_bool); (StFramesExpected, 12%nat, row_int);
   (StFramesSent, 13%nat, row_int); (StPacketType, 14%nat, row_enum PacketType_IsValid);
   (StNumberBytes, 15%nat, row_int)].

Definition cst_rows (now : Z) : list stat_row :=
  [(StMode, 1%nat, row_enum ReceiveMode_IsValid);
   (StTime, 2%nat, fun s => let? t := time_result now s in Ok (VInt t));
   (StClockMode, 3%nat, row_enum ClockMode_IsValid); (StMfdPeak, 4%nat, row_truncated);
   (StMfdPower, 5%nat, row_truncated); (StMfdRatio, 6%nat, row_truncated); (StSpl, 7%nat, row_truncated);
   (StShfAgn, 8%nat, row_truncated); (StShfAinpshift, 9%nat, row_truncated);
   (StShfAinshift, 10%nat, row_truncated); (StShfMfdshift, 11%nat, row_truncated);
   (StShfP2bshift, 12%nat, row_truncated); (StRate, 13%nat, row_int); (StSource, 14%nat, row_int);
   (StDest, 15%nat, row_int); (StPskErrorCode, 16%nat, row_enum PSKErrorCode_IsValid);
   (StPacketType, 17%nat, row_enum PacketType_IsValid); (StNumberFrames, 18%nat, row_int);
   (StNumberBadFrames, 19%nat, row_int); (StSnrRss, 20%nat, row_truncated);
   (StSnrIn, 21%nat, row_truncated); (StSnrOut, 22%nat, row_truncated);
   (StSnrSymbols, 23%nat, row_truncated); (StMseEqualizer, 24%nat, row_truncated);
   (StDataQualityFactor, 25%nat, row_int); (StDoppler, 26%nat, row_double);
   (StStddevNoise, 27%nat, row_truncated); (StCarrierFreq, 28%nat, row_truncated);
   (StBandwidth, 29%nat, row_truncated)].

(** [catch (std::out_of_range&)] *)
Definition check_caught (x : option Exn) : mprog unit :=
  match x with
  | None | Some OutOfRange => pret tt
  | Some x => pthrow x
  end.

(** the last entry of a repeated field replaced *)
Definition set_last {A : Type} (x : A) (l : list A) : list A := take (length l - 1) l ++ [x].

Definition caxst (nmea : list bytes) : mprog unit :=
  upd_tx (fun m => set_transmit_stat (transmit_stat m ++ [[]]) m);;
  let! f1 := field_at nmea 1 in
  let version := if 19700000 <? as_int f1 then 0 else as_int f1 in
  let '(xst, x) := set_fields nmea (if version =? 6 then 1 else 0) xst_rows [(StVersion, VInt version)] in
  upd_tx (fun m => set_transmit_stat (set_last xst (transmit_stat m)) m);;
  check_caught x;;
  pwhen (bool_decide (x = None)) (upd (set_clk_mode (stat_int StClockMode INVALID_CLOCK_MODE xst)));;
  let! n := rd expected_remaining_caxst in
  if n =? 0
  then let! m := rd transmit_msg in
       pemit (SignalTransmitResult m);;
       upd_tx (fun _ => empty_mm)
  else upd (set_expected_remaining_caxst (u32 (n - 1))).

(** time of arrival of the packet, relative to the top of the second *)
Definition toa_fraction (t : Z) : double :=
  match unix_microsec2ptime t with
  | Some us => frac_sec us
  | None => ddiv (double_of_Z nat_fractional_seconds) (double_of_Z 1000000)
  end.

Definition cacst (now : Z) (nmea : list bytes) : mprog unit :=
  upd_rx (fun m => set_receive_stat (receive_stat m ++ [[]]) m);;
  let! f1 := field_at nmea 1 in
  let version := if as_int f1 <? 6 then 0 else as_int f1 in
  let '(cst, x) := set_fields nmea (if version =? 6 then 1 else 0) (cst_rows now) [(StVersion, VInt version)] in
  upd_rx (fun m => set_receive_stat (set_last cst (receive_stat m)) m);;
  check_caught x;;
  let clock_mode := stat_int StClockMode INVALID_CLOCK_MODE cst in
  upd (set_clk_mode clock_mode);;
  pwhen ((clock_mode =? SYNC_TO_PPS_AND_CCCLK_GOOD) || (clock_mode =? SYNC_TO_PPS_AND_CCCLK_BAD))
    (upd_ranging (fun r =>
       MkRanging (one_way_travel_time r ++ [toa_fraction (stat_int StTime 0 cst)])
         (Some OWTT_SECOND_AMBIGUOUS) (Some true) (Some clock_mode)));;
  match stat_get StTime cst with
  | Some _ =>
      upd_rx (set_b set_mt_time (Some (stat_int StTime 0 cst)));;
      upd_rx (set_time_source (Some MODEM_TIME))
  | None => pret tt
  end;;
  let! n := rd expected_remaining_cacst in
  if n =? 0 then signal_receive_and_clear slots
  else upd (set_expected_remaining_cacst (u32 (n - 1))).

(** ** Dispatch *)

Definition dispatch (now : Z) (k : SentenceID) (nmea : list bytes) : mprog unit :=
  match k with
  | SidREV => carev nmea
  | SidERR => caerr nmea
  | SidDRQ => cadrq now nmea
  | SidCFG => cacfg nmea
  | SidCLK | SidTMS | SidTMQ => receive_time now nmea k
  | SidCYC => cacyc now nmea
  | SidXST => caxst nmea
  | SidRXD => carxd now nmea
  | SidMSG => camsg nmea
  | SidCST => cacst now nmea
  | SidMUA => camua now nmea
  | SidRDP => cardp now nmea
  | SidACK => caack now nmea
  | SidMPR => campr now nmea
  | SidMPA => campa now nmea
  | SidTTA => sntta now nmea
  | SidMER => camer now nmea
  | SidOther => pret tt
  end.

(** does [nmea] acknowledge the sentence [front]? *)
Definition acknowledges (front_id id : bytes) (front nmea : list bytes) : result Exn bool :=
  if bool_decide (front_id = B "CFG")
  then if (length nmea =? 3)%nat
       then match front !! 1%nat with
            | None => Err OutOfRange
            | Some f1 =>
                if bool_decide (nmea !! 1%nat = Some f1)
                then match front !! 2%nat with
                     | None => Err OutOfRange
                     | Some f2 => Ok (bool_decide (nmea !! 2%nat = Some f2))
                     end
                else Ok false
            end
       else Ok false
  else Ok ((bool_decide (front_id = B "CFQ") && bool_decide (id = B "CFG"))
           || (bool_decide (front_id = B "MSC")
               && (bool_decide (id = B "REV") || bool_decide (id = B "MSC")))
           || bool_decide (front_id = id)).

(** clear the last send given modem acknowledgement *)
Definition clear_acknowledged (id : bytes) (nmea : list bytes) : mprog unit :=
  let! o := rd out in
  match o with
  | [] => pret tt
  | front :: _ =>
      let! front_id := sid front in
      let! b := plift (acknowledges front_id id front nmea) in
      pwhen b pop_out
  end.

Definition process_receive (now : Z) (nmea : list bytes) : mprog unit :=
  let! raw := lift_nmea (message nmea) in
  let! id := sid nmea in
  let k := sentence_kind id in
  let! _ := if bool_decide (k = SidCFG) then field_at nmea 1 else pret [] in
  on_base (signal_raw true raw);;
  upd (set_global_fail_count 0);;
  dispatch now k nmea;;
  clear_acknowledged id nmea.

(** ** The work loop *)

(** a line of the modem; exceptions are logged *)
Definition handle_line (now : Z) (line : bytes) : mprog unit :=
  let! hydroid := rd is_hydroid_gateway in
  let line := boost_trim line in
  let line := if (hydroid : bool) then drop HYDROID_GATEWAY_PREFIX_LENGTH line else line in
  pcatch (let! nmea := lift_nmea (parse_nmea true line VALIDATE) in process_receive now nmea)
    (fun x => if is_std_exception x then Some (pret tt) else None).

(** [while (modem_read(&in))] *)
Fixpoint read_lines (now : Z) (lines : list bytes) : mprog unit :=
  match lines with
  | [] => on_base (modem_read None);; pret tt
  | l :: lines =>
      on_base (modem_read (Some l));;
      handle_line now l;;
      read_lines now lines
  end.

(** one call of [do_work]: the time, the readings of the clock while it waits
    to set the modem's, the lines that are there and whether the line is active *)
Record Tick : Type := MkTick {
  t_now : Z;
  t_readings : list Z;
  t_lines : list bytes;
  t_active : bool
}.

Definition set_active (b : bool) : mprog unit :=
  on_base (pmod (fun d => MkBase (match modem d with Some _ => Some b | None => None end) (raw_fs d)
                            (raw_fs_connections_made d))).

Definition do_work (t : Tick) : mprog unit :=
  let now := t_now t in
  set_active (t_active t);;
  let! d := rd (fun d => d) in
  pwhen (negb (clock_set d) && bool_decide (out d = [])) (set_clock (t_readings t));;
  let now_d := goby_time_double now in
  let! d := rd (fun d => d) in
  pwhen (negb (dlt now_d (dadd (last_keep_alive_time d) (double_of_Z (keep_alive_seconds (driver_cfg d))))))
    (append_to_write_queue now (sentence (B "$CCCFQ") [B "SRC"]);;
     upd (set_last_keep_alive_time now_d));;
  try_send now;;
  read_lines now (t_lines t);;
  let! d := rd (fun d => d) in
  pwhen (is_hydroid_gateway d
         && (last_hydroid_gateway_gps_request d + HYDROID_GATEWAY_GPS_REQUEST_INTERVAL <? now))
    (on_base (modem_write (hydroid_gateway_gps_request d));;
     upd (set_last_hydroid_gateway_gps_request now)).

(** ** Startup *)

(** [while (!done) do_work();] the ticks that are left are returned *)
Fixpoint work_until (done : MMDriver -> bool) (ticks : list Tick) : mprog (list Tick) :=
  let! d := rd (fun d => d) in
  if done d then pret ticks
  else match ticks with
       | [] => pthrow StillWaiting
       | t :: ticks => do_work t;; work_until done ticks
       end.

Definition effective_config (cfg : DriverConfig) : DriverConfig :=
  let c := connection cfg in
  let c := match line_delimiter c with None => set_line_delimiter SERIAL_DELIMITER c | Some _ => c end in
  let c := match serial_baud c with None => set_serial_baud DEFAULT_BAUD c | Some _ => c end in
  MkCfg c (reset_nvram cfg) (nvram_cfg_list cfg) (hydroid_gateway_id cfg) (cfg_narrowband_lbl cfg)
    (cfg_remus_lbl cfg) (cfg_generic_lbl cfg) (cfg_fm_sweep cfg) (cfg_m_sequence cfg)
    (keep_alive_seconds cfg) (allowed_skew_ms cfg) (use_application_acks cfg).

Definition startup (log_name : bytes -> bytes) (log_opened : bool) (polls : list bool)
    (now : Z) (readings : list Z) (ticks : list Tick) (cfg : DriverConfig) : mprog (list Tick) :=
  let! d := rd (fun d => d) in
  if startup_done d then pret ticks
  else
    let cfg := effective_config cfg in
    upd (set_driver_cfg cfg);;
    match hydroid_gateway_id cfg with
    | Some id => set_hydroid_gateway_prefix (s32 id)
    | None => pret tt
    end;;
    upd (set_using_application_acks (use_application_acks cfg));;
    upd (set_application_ack_max_frames 32);;
    on_base (modem_start log_name log_opened polls (connection cfg));;
    write_cfg now;;
    let id := as_string (cfg_modem_id cfg) in
    append_to_write_queue now (sentence (B "$CCMSC") [id; id; as_string 0]);;
    let! ticks := work_until (fun d => bool_decide (out d = [])) ticks in
    set_clock readings;;
    upd (set_clk_mode NO_SYNC_TO_PPS_AND_CCCLK_BAD);;
    let! ticks := work_until clock_set ticks in
    query_all_cfg now;;
    upd (set_startup_done true);;
    pret ticks.

End Receive.

(** ** Sample instances *)

Module MmSample.
#[export] Existing Instances Sample.text NmeaWitness.trim Reader.cast Reader.numbers Reader.decimal.

#[export] Instance calendar : Calendar := {|
  cal_year := fun p => 1970 + p / (365 * us_per_day);
  cal_month := fun _ => 1;
  cal_day := fun _ => 1;
  iso_extended := fun p => as_string p;
  civil_days := fun y m d => Some (365 * (y - 1970) + 30 * (m - 1) + (d - 1));
  read_iso_extended := fun _ => None;
  nat_milliseconds := 0;
  nat_fractional_seconds := 0 |}.

(** no acknowledgement of the application *)
#[export] Instance codec : AppAckCodec := {|
  ack_id_matches := fun _ => Some false;
  ack_size := fun _ => 0%nat;
  ack_encode := fun _ => None;
  ack_decode := fun _ => None |}.

Definition slots : Slots unit :=
  {| modify_transmission := fun m w => (w, Some m);
     data_request := fun m w => (w, Some m);
     receive_slot := fun _ w => (w, Some tt) |}.

Definition config (id : Z) : DriverConfig :=
  MkCfg (MkConnection (Some id) None None (Some (B "/dev/ttyS0")) (Some DEFAULT_BAUD) None None None None)
    false [] None None None None None None 3600 5000 false.

(** a driver with its line up, the clock set and statistics enabled *)
Definition driver (id : Z) : MMDriver :=
  set_nvram (B "CST") 1 (set_clock_set true (set_base_driver (MkBase (Some true) false false)
    (new_mm_driver 0 (config id) 0 BASE_TYPE))).

End MmSample.
