(* ===== verification/MmQueue.v ===== *)
(** * The Micro-Modem driver's queue of commands

    The driver writes one sentence at a time and waits for the modem's answer.
    The protocol is a labelled step relation on the few members that take part
    in it. Its visible labels are the sentences that go out and come in; every
    operation of the driver moves along it with exactly the sentences of its
    events, whatever the modem, the clock and the connected slots do. *)

From stdpp Require Import relations.
From S2P Require Import Prelude AssocList HexCodec Double Time As Prog Proto Nmea DriverBase MmData MmDriver MmReceive.

#[local] Open Scope prog_scope.

(** ** The protocol *)

Record CommandQueue : Type := MkQueue {
  q_out : list (list bytes);
  q_waiting : bool;
  q_last_write : Z;
  q_present : Z;
  q_global : Z
}.

Definition queue_of (d : MMDriver) : CommandQueue :=
  MkQueue (out d) (waiting_for_modem d) (last_write_time d) (present_fail_count d) (global_fail_count d).

(** how far the sentence that came last has been handled *)
Inductive Phase : Type :=
| Quiet
| Heard (nmea : list bytes)
| Taken (nmea : list bytes)
| Rejected (nmea : list bytes).

Inductive Label : Type :=
| LEnqueue (command : list bytes)
| LOut (raw : bytes)
| LIn (raw : bytes)
| LClose.

Section Protocol.
Context {TX : BoostText} {TR : BoostTrim}.

(** the front is written, or it is malformed *)
Definition attempt (x : list bytes) : list Label := match message x with Ok raw => [LOut raw] | Err _ => [] end.

Definition answers (front nmea : list bytes) : Prop := exists front_id id,
  sentence_id front = Some front_id /\ sentence_id nmea = Some id /\ acknowledges front_id id front nmea = Ok true.
Definition rejects (nmea : list bytes) : Prop := exists id,
  sentence_id nmea = Some id /\ sentence_kind id = SidERR /\ nmea !! 2%nat = Some (B "NMEA").

(** the answer to the front, which was written at [l], is late; it is not the last failure in a row *)
Definition overdue (now l g : Z) : Prop := l <= now - MODEM_WAIT /\ g + 1 < MAX_FAILS_BEFORE_DEAD.

Inductive qstep : Phase * CommandQueue -> list Label -> Phase * CommandQueue -> Prop :=
| q_enqueue x ph o w l p g :
    qstep (ph, MkQueue o w l p g) [LEnqueue x] (ph, MkQueue (o ++ [x]) w l p g)
| q_write now raw x ph o l p g :                   (* the front is written when nothing is outstanding *)
    message x = Ok raw -> qstep (ph, MkQueue (x :: o) false l p g) [LOut raw] (ph, MkQueue (x :: o) true now p g)
| q_write_failed raw x ph o l p g :                (* the line is down *)
    message x = Ok raw -> qstep (ph, MkQueue (x :: o) false l p g) [LOut raw] (ph, MkQueue (x :: o) false l p g)
| q_rewrite now raw x ph o l p g :                 (* and again when the answer is late *)
    overdue now l g -> p + 1 < RETRIES -> message x = Ok raw ->
    qstep (ph, MkQueue (x :: o) true l p g) [LOut raw] (ph, MkQueue (x :: o) true now (p + 1) (g + 1))
| q_rewrite_failed now x ph o l p g :
    overdue now l g -> p + 1 < RETRIES ->
    qstep (ph, MkQueue (x :: o) true l p g) (attempt x) (ph, MkQueue (x :: o) true l (p + 1) (g + 1))
| q_line_failed now raw x ph o l p g :             (* it is dropped when the line is down *)
    overdue now l g -> p + 1 < RETRIES -> message x = Ok raw ->
    qstep (ph, MkQueue (x :: o) true l p g) [LOut raw] (ph, MkQueue o false l 0 (g + 1))
| q_give_up now x ph o l p g :                     (* or has been written too many times *)
    overdue now l g -> RETRIES <= p + 1 ->
    qstep (ph, MkQueue (x :: o) true l p g) [] (ph, MkQueue o false l 0 (g + 1))
| q_dead now x ph o l p g :                        (* the modem does not answer at all *)
    l <= now - MODEM_WAIT -> g + 1 = MAX_FAILS_BEFORE_DEAD ->
    qstep (ph, MkQueue (x :: o) true l p g) [] (ph, MkQueue [] true l p 0)
| q_heard nmea raw ph q :                          (* a sentence of the modem *)
    message nmea = Ok raw -> qstep (ph, q) [LIn raw] (Heard nmea, q)
| q_alive nmea o w l p g :                         (* whatever it is, the modem is alive *)
    qstep (Heard nmea, MkQueue o w l p g) [] (Taken nmea, MkQueue o w l p 0)
| q_error nmea o w l p g :                         (* the modem rejects a sentence *)
    rejects nmea -> p + 1 < RETRIES -> qstep (Taken nmea, MkQueue o w l p g) [] (Rejected nmea, MkQueue o false l (p + 1) g)
| q_error_dropped nmea o w l p g :
    rejects nmea -> RETRIES <= p + 1 -> qstep (Taken nmea, MkQueue o w l p g) [] (Rejected nmea, MkQueue (drop 1 o) false l 0 g)
| q_answered nmea ph x o w l p g :                 (* the answer to the front *)
    ph = Taken nmea \/ ph = Rejected nmea -> answers x nmea -> qstep (ph, MkQueue (x :: o) w l p g) [] (Quiet, MkQueue o false l 0 g)
| q_closed ph o w l p g :                          (* the application shuts the driver down *)
    qstep (ph, MkQueue o w l p g) [LClose] (ph, MkQueue [] w l p g).

Inductive qrun : Phase * CommandQueue -> list Label -> Phase * CommandQueue -> Prop :=
| run_nil a : qrun a [] a
| run_step a l b t c : qstep a l b -> qrun b t c -> qrun a (l ++ t) c.

Lemma run_one a l b : qstep a l b -> qrun a l b.
Proof. intros H. rewrite <- (app_nil_r l). by apply (run_step _ _ b); [|constructor]. Qed.

Lemma qrun_app a t b t' c : qrun a t b -> qrun b t' c -> qrun a (t ++ t') c.
Proof. induction 1 as [|a l b t d Hs _ IH]; [done|]. intros H. rewrite <- app_assoc. apply (run_step _ _ b); auto. Qed.

(** *** Order: what leaves has been at the front *)

Definition enqueued (t : list Label) : list (list bytes) := omap (fun l => match l with LEnqueue x => Some x | _ => None end) t.

Lemma attempt_enqueued x : enqueued (attempt x) = [].
Proof. unfold attempt. by destruct (message x). Qed.

Lemma step_order a l b : qstep a l b -> exists gone, q_out (snd a) ++ enqueued l = gone ++ q_out (snd b).
Proof.
  destruct 1 as [| | | |now x ph o w p g| |now x|now x ph o| | | |nm o| nm ph x|ph o]; cbn [snd q_out]; rewrite ?attempt_enqueued; cbn; rewrite ?app_nil_r;
    try (by exists []); try (by exists [x]); [exists (x :: o) | exists (take 1 o) | exists o]; by rewrite ?app_nil_r, ?take_drop.
Qed.

Lemma run_order a t b : qrun a t b -> exists gone, q_out (snd a) ++ enqueued t = gone ++ q_out (snd b).
Proof.
  induction 1 as [a|a l b t c Hs _ [g2 E2]]; [exists []; cbn; by rewrite app_nil_r|]. destruct (step_order _ _ _ Hs) as [g1 E1]. exists (g1 ++ g2).
  unfold enqueued in *. rewrite omap_app, app_assoc, E1, <- app_assoc, E2. by rewrite app_assoc.
Qed.

(** *** The counters stay below their limits *)

Definition counters_ok (q : CommandQueue) : Prop :=
  0 <= q_present q < RETRIES /\ 0 <= q_global q < MAX_FAILS_BEFORE_DEAD.

Lemma step_counters a l b : qstep a l b -> counters_ok (snd a) -> counters_ok (snd b).
Proof. destruct 1; unfold counters_ok, overdue, RETRIES, MAX_FAILS_BEFORE_DEAD in *; simpl in *; lia. Qed.

Lemma run_counters a t b : qrun a t b -> counters_ok (snd a) -> counters_ok (snd b).
Proof. induction 1; eauto using step_counters. Qed.

End Protocol.

(** *** What is seen from outside *)

Definition visible (l : Label) : list Label := match l with LOut _ | LIn _ => [l] | _ => [] end.
Definition wire (e : MMEvent) : list Label :=
  match e with OnLine (RawOutgoing raw) => [LOut raw] | OnLine (RawIncoming raw) => [LIn raw] | _ => [] end.
Definition closes (t : list Label) : nat := length (List.filter (fun l => match l with LClose => true | _ => false end) t).

Abbreviation seen t := (concat (map visible t)).
Abbreviation wires ev := (concat (map wire ev)).

Lemma closes_app t t' : closes (t ++ t') = (closes t + closes t')%nat.
Proof. unfold closes. by rewrite List.filter_app, length_app. Qed.
Lemma concat_map_app {A} (f : A -> list Label) l l' : concat (map f (l ++ l')) = concat (map f l) ++ concat (map f l').
Proof. by rewrite map_app, concat_app. Qed.

Section Queue.
Context {TX : BoostText} {TR : BoostTrim} {LC : LexicalCast} {LN : LexicalNumbers}
  {CAL : Calendar} {AA : AppAckCodec}.
Context {W : Type} (slots : Slots W).
Implicit Types (s : State W) (q : CommandQueue) (A C : Phase -> Prop).
Abbreviation mprog := (prog (State W) MMEvent Exn).

(** the driver moves along the protocol, from a phase in [A] to one in [C], with the sentences of its events *)
Definition goes A C s (ev : list MMEvent) s' : Prop := forall ph, A ph -> counters_ok (queue_of (mm s)) ->
  exists ph' t, C ph' /\ qrun (ph, queue_of (mm s)) t (ph', queue_of (mm s')) /\ seen t = wires ev /\ closes t = 0%nat.

Definition stays s ev s' : Prop := forall ph, goes (eq ph) (eq ph) s ev s'.
Definition roams := goes (fun _ => True) (fun _ => True).

Lemma goes_trans A C (D : Phase -> Prop) s e1 s1 e2 s2 : goes A C s e1 s1 -> goes C D s1 e2 s2 -> goes A D s (e1 ++ e2) s2.
Proof.
  intros H1 H2 ph Hph Hc. destruct (H1 ph Hph Hc) as (ph1 & t1 & Hp1 & Hr1 & E1 & N1).
  destruct (H2 ph1 Hp1 (run_counters _ _ _ Hr1 Hc)) as (ph2 & t2 & Hp2 & Hr2 & E2 & N2). exists ph2, (t1 ++ t2). split; [done|].
  rewrite !concat_map_app, closes_app, E1, E2, N1, N2. split; [by apply (qrun_app _ _ (ph1, queue_of (mm s1)))|]. done.
Qed.

Lemma goes_refl A s : goes A A s [] s.
Proof. intros ph Hph _. exists ph, []. repeat split; [done | constructor]. Qed.

#[local] Instance stays_composes : Composes stays.
Proof. constructor; [intros s ph; apply goes_refl|]. intros s e1 s1 e2 s2 H1 H2 ph. by apply (goes_trans _ (eq ph) _ _ _ s1). Qed.
#[local] Instance roams_composes : Composes roams.
Proof. constructor; [intros s; apply goes_refl|]. intros s e1 s1 e2 s2. apply goes_trans. Qed.

Lemma goes_weaken A A' C C' s ev s' : (forall ph, A' ph -> A ph) -> (forall ph, C ph -> C' ph) -> goes A C s ev s' -> goes A' C' s ev s'.
Proof. intros HA HC H ph Hph Hc. destruct (H ph (HA _ Hph) Hc) as (ph' & t & Hp & R). exists ph', t. split; [by apply HC | done]. Qed.

Lemma stays_goes A s ev s' : stays s ev s' -> goes A A s ev s'.
Proof. intros H ph Hph Hc. destruct (H ph ph eq_refl Hc) as (ph' & t & <- & R). by exists ph, t. Qed.

Lemma stays_roams {X} (m : mprog X) : tracks stays m -> tracks roams m.
Proof. apply tracks_weaken. intros s ev s'. apply stays_goes. Qed.

(** computations one after the other; an exception leaves the phase in between *)
Lemma goes_bind {X Y} A C (m : mprog X) (k : X -> mprog Y) :
  tracks (goes A C) m -> (forall x, tracks (goes C (fun _ => True)) (k x)) -> tracks (goes A (fun _ => True)) (pbind m k).
Proof.
  intros Hm Hk s. specialize (Hm s). unfold pbind. destruct (m s) as [[s1 e1] [x|x]].
  - specialize (Hk x s1). destruct (k x s1) as [[s2 e2] r]. by apply (goes_trans _ C _ _ _ s1).
  - by apply (goes_weaken A A C (fun _ => True)).
Qed.

(** *** Steps *)

Lemma goes_step A C s ev s' l : (forall ph, A ph -> exists ph', C ph' /\ qstep (ph, queue_of (mm s)) l (ph', queue_of (mm s'))) ->
  seen l = wires ev -> closes l = 0%nat -> goes A C s ev s'.
Proof. intros H E N ph Hph _. destruct (H ph Hph) as (ph' & Hc & Hs). exists ph', l. repeat split; [done | by apply run_one | done | done]. Qed.

Lemma stays_step s ev s' l : (forall ph, qstep (ph, queue_of (mm s)) l (ph, queue_of (mm s'))) -> seen l = wires ev -> closes l = 0%nat -> stays s ev s'.
Proof. intros H E N ph. apply (goes_step _ _ _ _ _ l); [|done|done]. intros ? <-. by exists ph. Qed.

Lemma stays_same s ev s' : queue_of (mm s') = queue_of (mm s) -> wires ev = [] -> stays s ev s'.
Proof. intros E Ew ph ? <- _. exists ph, []. rewrite E. repeat split; [constructor | by rewrite Ew]. Qed.

(** events of the base class that are not sentences *)
Definition silent (b : ModemDriverBase) (ev : list DriverEvent) (b' : ModemDriverBase) : Prop := wires (map OnLine ev) = [].
#[local] Instance silent_composes : Composes silent.
Proof. constructor; [done|]. unfold silent. intros b e1 b1 e2 b2 H1 H2. by rewrite map_app, concat_map_app, H1, H2. Qed.

Lemma stays_on_base {X} (m : prog ModemDriverBase DriverEvent Exn X) : tracks silent m -> tracks stays (on_base (W := W) m).
Proof. intros H s. unfold on_base. specialize (H (base_driver (mm s))). destruct (m _) as [[b ev] r]. by apply stays_same. Qed.

#[local] Ltac silent_solve := tracks_all; try (apply tracks_mod; intros ?; reflexivity); try (apply tracks_emit; intros ?; reflexivity).

Lemma silent_write raw : tracks silent (modem_write raw).
Proof. unfold modem_write. silent_solve. Qed.
Lemma silent_read l : tracks silent (modem_read l).
Proof. unfold modem_read. silent_solve. Qed.
Lemma silent_start ln lo polls c : tracks silent (modem_start ln lo polls c).
Proof. unfold modem_start, open_raw_log. silent_solve. Qed.

Lemma stays_call_slot {X} (f : W -> W * option X) : tracks stays (call_slot f).
Proof. intros s. unfold call_slot. destruct (f _) as [w [a|]]; by apply stays_same. Qed.

Lemma stays_upd f : (forall d, queue_of (f d) = queue_of d) -> tracks stays (upd (W := W) f).
Proof. intros H. apply tracks_mod. intros s. apply stays_same; [apply H | done]. Qed.

Lemma stays_emit e : wire e = [] -> tracks stays (pemit (S := State W) (X := Exn) e).
Proof. intros H. apply tracks_emit. intros s. apply stays_same; [done|]. cbn. by rewrite H. Qed.
#[local] Hint Resolve stays_on_base stays_call_slot silent_write silent_read silent_start : prog.

(** ** Writing *)

(** the part of a write behind the signal *)
Definition send (now : Z) (raw : bytes) : mprog unit :=
  let! prefix := rd hydroid_gateway_modem_prefix in
  on_base (modem_write (prefix ++ raw ++ [13; 10]));;
  upd (set_waiting_for_modem true);;
  upd (set_last_write_time now).

(** how a write ends that began in [s]: the time of the write, or nothing *)
Definition written (now : Z) s (s' : State W) (r : result Exn unit) : Prop :=
  match r with
  | Ok _ => exists d, queue_of d = queue_of (mm s) /\ mm s' = set_last_write_time now (set_waiting_for_modem true d)
  | Err _ => queue_of (mm s') = queue_of (mm s)
  end.

Lemma send_cases now raw s : let '(s', ev, r) := send now raw s in wires ev = [] /\ written now s s' r.
Proof.
  unfold send. rewrite pbind_rd. unfold pbind at 1, on_base.
  pose proof (silent_write (hydroid_gateway_modem_prefix (mm s) ++ raw ++ [13; 10]) (base_driver (mm s))) as Hl.
  destruct (modem_write _ _) as [[b2 e2] [[]|x]]; cbn; rewrite ?app_nil_r; split; try exact Hl; [|done].
  by exists (set_base_driver b2 (mm s)).
Qed.

Lemma mm_write_cases now nmea s :
  let '(s', ev, r) := mm_write now nmea s in
  wires ev = attempt nmea /\ written now s s' r /\
  match r with Ok _ => is_ok (message nmea) = true | Err x => is_driver_exception x = true -> is_ok (message nmea) = true end.
Proof.
  unfold mm_write, lift_nmea, attempt. destruct (message nmea) as [raw|e]; [|done].
  rewrite pbind_lift. fold (send now raw). unfold pbind at 1, on_base at 1, signal_raw. rewrite pbind_get. unfold pbind at 1, pemit at 1.
  destruct (raw_fs_connections_made (base_driver (mm s))); cbn [pwhen]; [destruct (raw_fs (base_driver (mm s)))|]; cbn -[send]; [|done|];
    match goal with |- context [send now raw ?s1] => pose proof (send_cases now raw s1) as Hs; destruct (send now raw s1) as [[s' ev] r]; destruct Hs as [Hv Hw] end;
    cbn; (split; [f_equal; exact Hv | split; [exact Hw | by destruct r]]).
Qed.

Lemma first_write now nmea o s s' ev r :
  out (mm s) = nmea :: o -> waiting_for_modem (mm s) = false -> mm_write now nmea s = (s', ev, r) -> stays s ev s'.
Proof.
  intros Eo Ew E. pose proof (mm_write_cases now nmea s) as H. rewrite E in H. destruct H as (Hw & Hd & Hm). unfold attempt in Hw.
  destruct (message nmea) as [raw|e] eqn:Em.
  - apply (stays_step _ _ _ [LOut raw]); [|done|done]. intros ph. destruct r as [[]|x]; cbn in Hd.
    + destruct Hd as (d & Eq & ->). unfold queue_of in Eq |- *. rewrite Eo, Ew in *. injection Eq as E1 _ _ E4 E5. simpl. rewrite E1, E4, E5. by apply q_write.
    + rewrite Hd. unfold queue_of. rewrite Eo, Ew. by apply q_write_failed.
  - destruct r as [[]|x]; [done|]. by apply stays_same.
Qed.

Lemma retry now nmea o s : counters_ok (queue_of (mm s)) ->
  out (mm s) = nmea :: o -> waiting_for_modem (mm s) = true -> overdue now (last_write_time (mm s)) (global_fail_count (mm s)) ->
  let '(s', ev, _) := catch_driver (increment_present_fail;; mm_write now nmea) present_fail_exceeds_retries
          (MkState (set_global_fail_count (global_fail_count (mm s) + 1) (mm s)) (wld s)) in stays s ev s'.
Proof.
  intros ((Hp0 & Hp) & _) Eo Ew Ho. simpl in Hp0, Hp.
  assert (Ep : u32 (present_fail_count (mm s) + 1) = present_fail_count (mm s) + 1) by (apply wrap_small; unfold RETRIES in Hp; lia).
  unfold catch_driver, pcatch, increment_present_fail. rewrite pbind_assoc, pbind_upd, pbind_assoc, pbind_rd. cbn [mm wld].
  simpl (present_fail_count _). rewrite Ep. destruct (RETRIES <=? _) eqn:Er; to_prop.
  - cbn. apply (stays_step _ _ _ []); [|done|done]. intros ph. unfold queue_of. simpl. rewrite Eo, Ew. simpl. by apply (q_give_up now).
  - rewrite pbind_ret. set (s1 := MkState _ _). pose proof (mm_write_cases now nmea s1) as H. destruct (mm_write now nmea s1) as [[s' ev] r].
    destruct H as (Hw & Hd & Hm). assert (Ha : seen (attempt nmea) = wires ev /\ closes (attempt nmea) = 0%nat) by (rewrite Hw; unfold attempt; by destruct (message nmea)).
    destruct r as [[]|x]; cbn in Hd.
    + destruct Hd as (d & Eq & E'). unfold attempt in Hw. destruct (message nmea) as [raw|] eqn:Em; [|done].
      apply (stays_step _ _ _ [LOut raw]); [|done|done]. intros ph. rewrite E'. unfold queue_of in Eq |- *. injection Eq as E1 E2 E3 E4 E5. simpl in *.
      rewrite E1, E4, E5, Eo, Ew. by apply q_rewrite.
    + unfold queue_of in Hd. injection Hd as E1 E2 E3 E4 E5. simpl in *. destruct (is_driver_exception x).
      * unfold attempt in Hw. destruct (message nmea) as [raw|] eqn:Em; [|by discriminate Hm]. cbn. rewrite ?app_nil_r.
        apply (stays_step _ _ _ [LOut raw]); [|by rewrite Hw|done]. intros ph. unfold queue_of. simpl. rewrite E1, E3, E5, Eo, Ew. simpl. by apply (q_line_failed now raw).
      * apply (stays_step _ _ _ (attempt nmea)); [|apply Ha..]. intros ph. unfold queue_of. rewrite E1, E2, E3, E4, E5, Eo, Ew. by apply (q_rewrite_failed now).
Qed.

(** it is enough to look at states whose counters are fine *)
Lemma stays_counters s ev s' : (counters_ok (queue_of (mm s)) -> stays s ev s') -> stays s ev s'.
Proof. intros H ph ph0 E Hc. exact (H Hc ph ph0 E Hc). Qed.

Lemma stays_try_send now : tracks stays (try_send (W := W) now).
Proof.
  intros s. destruct (try_send now s) as [[s' ev] r] eqn:E. apply stays_counters. intros Hc. pose proof Hc as (_ & Hg). simpl in Hg. revert E. unfold try_send.
  rewrite pbind_rd. destruct (out (mm s)) as [|nmea o] eqn:Eo; [intros [= <- <- _]; by apply stays_same|].
  destruct (waiting_for_modem (mm s)) eqn:Ew; cbn [negb]; [|by apply (first_write now nmea o)].
  destruct (_ <=? _) eqn:Et; [|intros [= <- <- _]; by apply stays_same]. to_prop.
  assert (Eg : u32 (global_fail_count (mm s) + 1) = global_fail_count (mm s) + 1) by (apply wrap_small; unfold MAX_FAILS_BEFORE_DEAD in Hg; lia).
  rewrite pbind_upd, pbind_rd. cbn [mm wld]. simpl (global_fail_count _). rewrite Eg. destruct (_ =? _) eqn:Ed; to_prop.
  - cbn. intros [= <- <- _]. apply (stays_step _ _ _ []); [|done|done]. intros ph. unfold queue_of. simpl. rewrite Eo, Ew. by apply (q_dead now).
  - intros E. pose proof (retry now nmea o s Hc Eo Ew) as H. unfold overdue in H. specialize (H ltac:(split; [done | lia])). by rewrite E in H.
Qed.
#[local] Hint Resolve stays_try_send : prog.

Lemma stays_rd {X} (f : MMDriver -> X) : tracks stays (rd (W := W) f).
Proof. apply tracks_read, _. Qed.
Lemma stays_field nmea i : tracks stays (field (W := W) nmea i).
Proof. apply tracks_lift, _. Qed.
Lemma stays_field_at nmea i : tracks stays (field_at (W := W) nmea i).
Proof. apply tracks_lift, _. Qed.
Lemma stays_lift_nmea {X} (r : result bad_nmea_sentence X) : tracks stays (lift_nmea (W := W) r).
Proof. apply tracks_lift, _. Qed.
Lemma stays_sid nmea : tracks stays (sid (W := W) nmea).
Proof. apply tracks_lift, _. Qed.
Lemma stays_upd_rx f : tracks stays (upd_rx (W := W) f).
Proof. by apply stays_upd. Qed.
Lemma stays_upd_tx f : tracks stays (upd_tx (W := W) f).
Proof. by apply stays_upd. Qed.
#[local] Hint Resolve stays_rd stays_field stays_field_at stays_lift_nmea stays_sid stays_upd_rx stays_upd_tx : prog.

(** a computation of the driver, down to assignments of members outside the queue and events that are no sentences *)
Local Ltac stays_solve :=
  tracks_all; try (apply stays_upd; reflexivity); try (apply stays_emit; reflexivity).
(** a handler of exceptions *)
Local Ltac stays_catch :=
  apply tracks_catch; [apply _ | stays_solve |
    let x := fresh in let k := fresh in intros x k;
    match goal with |- (if ?b then _ else _) = _ -> _ => destruct b; [|done] end; intros [= <-]; stays_solve].

Lemma stays_append now nmea : tracks stays (append_to_write_queue (W := W) now nmea).
Proof.
  unfold append_to_write_queue. stays_solve. intros s. apply (stays_step _ _ _ [LEnqueue nmea]); [|done|done]. intros ph. constructor.
Qed.
#[local] Hint Resolve stays_append : prog.

Lemma stays_write_single_cfg now c : tracks stays (write_single_cfg (W := W) now c).
Proof. unfold write_single_cfg. stays_solve. Qed.
#[local] Hint Resolve stays_write_single_cfg : prog.

Lemma stays_write_cfg now : tracks stays (write_cfg (W := W) now).
Proof. unfold write_cfg. stays_solve. Qed.
Lemma stays_update_cfg now cfg : tracks stays (update_cfg (W := W) now cfg).
Proof. unfold update_cfg. stays_solve. Qed.
Lemma stays_query_all_cfg now : tracks stays (query_all_cfg (W := W) now).
Proof. unfold query_all_cfg. stays_solve. Qed.
Lemma stays_set_silent now b : tracks stays (set_silent (W := W) now b).
Proof. unfold set_silent. stays_solve. Qed.
Lemma stays_set_clock readings : tracks stays (set_clock (W := W) readings).
Proof. unfold set_clock. stays_solve. Qed.
Lemma stays_signal_receive m : tracks stays (signal_receive slots m).
Proof. unfold signal_receive. stays_solve. Qed.
#[local] Hint Resolve stays_signal_receive stays_set_clock stays_write_cfg stays_query_all_cfg : prog.

Lemma stays_signal_receive_and_clear : tracks stays (signal_receive_and_clear slots).
Proof. unfold signal_receive_and_clear. stays_solve. stays_catch. Qed.
#[local] Hint Resolve stays_signal_receive_and_clear : prog.

Lemma stays_signal_unless_cst : tracks stays (signal_unless_cst slots).
Proof. unfold signal_unless_cst. stays_solve. Qed.
Lemma stays_signal_data_request : tracks stays (signal_data_request slots).
Proof. unfold signal_data_request. stays_solve. Qed.
#[local] Hint Resolve stays_signal_unless_cst stays_signal_data_request : prog.

Lemma stays_handle_ack now a b c m : tracks stays (handle_ack (W := W) now a b c m).
Proof. unfold handle_ack. stays_solve. Qed.
Lemma stays_expect_ack dest : tracks stays (expect_ack (W := W) dest).
Proof. unfold expect_ack. stays_solve. Qed.
Lemma stays_process_outgoing : tracks stays (process_outgoing_app_ack slots).
Proof. unfold process_outgoing_app_ack, upd_frame0. stays_solve. Qed.
#[local] Hint Resolve stays_handle_ack stays_expect_ack stays_process_outgoing : prog.

Lemma stays_process_incoming now : tracks stays (process_incoming_app_ack slots now).
Proof. unfold process_incoming_app_ack, handle_ack_part. stays_solve. Qed.
Lemma stays_cache_outgoing : tracks stays (cache_outgoing_data slots).
Proof. unfold cache_outgoing_data. stays_solve. Qed.
#[local] Hint Resolve stays_process_incoming stays_cache_outgoing : prog.

Lemma stays_initiate now : tracks stays (initiate slots now).
Proof.
  unfold initiate, cccyc, ccmuc, cctdp, ccmpc, ccpdt, ccpnt, ccmec, ccpgt, ccswp, ccmsq, write_tat, upd_frame0. stays_solve.
Qed.
#[local] Hint Resolve stays_initiate : prog.

Lemma stays_handle_initiate now msg : tracks stays (handle_initiate_transmission slots now msg).
Proof. unfold handle_initiate_transmission. stays_solve. unfold catch_driver. stays_catch. Qed.

(** ** Sentences from the modem *)

Lemma goes_caerr nmea : (exists id, sentence_id nmea = Some id /\ sentence_kind id = SidERR) ->
  tracks (goes (eq (Taken nmea)) (fun ph => ph = Taken nmea \/ ph = Rejected nmea)) (caerr (W := W) nmea).
Proof.
  intros (id & Hid & Hk) s. destruct (caerr nmea s) as [[s' ev] r] eqn:E. intros ph <- Hc. revert E. unfold caerr, field_at.
  destruct (nmea !! 2%nat) as [f2|] eqn:E2; [|intros [= <- <- _]; exists (Taken nmea), []; repeat split; [by left | constructor]].
  rewrite pbind_lift. destruct (bool_decide (f2 = B "NMEA")) eqn:Eb; cbn [pwhen]; [|intros [= <- <- _]; exists (Taken nmea), []; repeat split; [by left | constructor]].
  to_prop. subst f2. pose proof Hc as ((Hp0 & Hp) & _). simpl in Hp0, Hp. assert (Hr : rejects nmea) by (by exists id).
  unfold catch_driver, pcatch, increment_present_fail. cbn.
  unfold u32. rewrite (wrap_small 32) by (unfold RETRIES in Hp; lia). destruct (RETRIES <=? _) eqn:Er; to_prop; cbn; intros [= <- <- _];
    exists (Rejected nmea), []; (split; [by right|]); (split; [|done]); apply run_one; [by apply q_error_dropped | by apply q_error].
Qed.

Lemma stays_int_of nmea i : tracks stays (int_of (W := W) nmea i).
Proof. unfold int_of. stays_solve. Qed.
Lemma stays_uint_of nmea i : tracks stays (uint_of (W := W) nmea i).
Proof. unfold uint_of. stays_solve. Qed.
#[local] Hint Resolve stays_int_of stays_uint_of : prog.

Lemma stays_dispatch now k nmea : k <> SidERR -> tracks stays (dispatch slots now k nmea).
Proof.
  intros Hk. unfold dispatch. destruct k; try done;
    unfold carev, cadrq, cacfg, receive_time, reported_time, cacyc, caxst, carxd, camsg, cacst, camua, cardp,
      caack, campr, campa, sntta, camer, signal_if_last, set_rx_header, set_rx_type,
      add_rx_frame, upd_ranging, check_caught; stays_solve.
Qed.

Lemma goes_dispatch now nmea id : sentence_id nmea = Some id ->
  tracks (goes (eq (Taken nmea)) (fun ph => ph = Taken nmea \/ ph = Rejected nmea)) (dispatch slots now (sentence_kind id) nmea).
Proof.
  intros Hid. destruct (decide (sentence_kind id = SidERR)) as [E|E].
  - rewrite E. apply goes_caerr. by exists id.
  - intros s. pose proof (stays_dispatch now _ nmea E s) as H. destruct (dispatch _ _ _ _ s) as [[s' ev] r].
    apply (goes_weaken (eq (Taken nmea)) _ (eq (Taken nmea)) _); [done | by left | by apply stays_goes].
Qed.

Lemma goes_clear nmea id : sentence_id nmea = Some id ->
  tracks (goes (fun ph => ph = Taken nmea \/ ph = Rejected nmea) (fun _ => True)) (clear_acknowledged (W := W) id nmea).
Proof.
  intros Hid s. unfold clear_acknowledged. rewrite pbind_rd.
  assert (Hs : goes (fun ph => ph = Taken nmea \/ ph = Rejected nmea) (fun _ => True) s [] s) by (apply (goes_weaken (fun _ => True) _ (fun _ => True) _); [done | done | apply goes_refl]).
  destruct (out (mm s)) as [|front o] eqn:Eo; [done|]. unfold sid.
  destruct (sentence_id front) as [fid|] eqn:Ef; [|done]. rewrite pbind_lift. destruct (acknowledges _ _ _ _) as [[]|] eqn:Ea; [|exact Hs|exact Hs].
  cbn. apply (goes_step _ _ _ _ _ []); [|done|done]. intros ph Hph. exists Quiet. split; [done|]. unfold queue_of. simpl. rewrite Eo.
  apply (q_answered nmea); [done|]. by exists fid, id.
Qed.

Lemma goes_process_receive now nmea : tracks roams (process_receive slots now nmea).
Proof.
  unfold process_receive, lift_nmea, sid. destruct (message nmea) as [raw|e] eqn:Em; [|intros s; apply goes_refl].
  destruct (sentence_id nmea) as [id|] eqn:Eid; [|intros s; apply goes_refl]. intros s. rewrite !pbind_lift. revert s. cbv zeta.
  apply (tracks_bind roams); [apply stays_roams; stays_solve |]. intros _.
  apply (goes_bind (fun _ => True) (eq (Heard nmea))).
  { intros s. unfold on_base, signal_raw. rewrite pbind_get.
    assert (Hh : forall b ev, wires ev = [LIn raw] -> goes (fun _ => True) (eq (Heard nmea)) s ev (MkState (set_base_driver b (mm s)) (wld s))).
    { intros b ev Hev. apply (goes_step _ _ _ _ _ [LIn raw]); [|by rewrite Hev|done]. intros ph _. exists (Heard nmea). split; [done|]. by apply q_heard. }
    unfold pbind, pemit. destruct (raw_fs_connections_made _); cbn [pwhen]; [destruct (raw_fs _)|]; by apply Hh. }
  intros _. apply (goes_bind (eq (Heard nmea)) (eq (Taken nmea))).
  { intros s. cbn. apply (goes_step _ _ _ _ _ []); [|done|done]. intros ph <-. exists (Taken nmea). split; [done | apply q_alive]. }
  intros _. apply (goes_bind _ (fun ph => ph = Taken nmea \/ ph = Rejected nmea)); [by apply goes_dispatch|].
  intros _. by apply goes_clear.
Qed.

Lemma roams_handle_line now line : tracks roams (handle_line slots now line).
Proof.
  unfold handle_line. tracks_step; [apply stays_roams; stays_solve|]. cbv zeta. apply (tracks_catch roams).
  - tracks_step; [apply stays_roams; stays_solve | apply goes_process_receive].
  - intros x k. destruct (is_std_exception x); [|done]. intros [= <-]. tracks_all.
Qed.

Lemma roams_read_lines now lines : tracks roams (read_lines slots now lines).
Proof.
  induction lines as [|l lines IH]; cbn [read_lines]; [apply stays_roams; stays_solve|].
  tracks_step; [apply stays_roams; stays_solve|]. tracks_step; [apply roams_handle_line | done].
Qed.

Lemma roams_do_work t : tracks roams (do_work slots t).
Proof.
  unfold do_work, set_active. cbv zeta. apply (tracks_bind roams); [apply stays_roams, stays_on_base, tracks_mod; by intros b|intros ?].
  repeat (apply (tracks_bind roams); [first [apply roams_read_lines | apply stays_roams; stays_solve] |intros ?]). apply stays_roams. stays_solve.
Qed.

Lemma roams_work_until done ticks : tracks roams (work_until slots done ticks).
Proof.
  induction ticks as [|t ticks IH]; cbn [work_until]; (tracks_step; [apply stays_roams; stays_solve|]); tracks_step; try solve [apply stays_roams; stays_solve].
  tracks_step; [apply roams_do_work | done].
Qed.

Lemma roams_startup ln lo polls now readings ticks cfg :
  tracks roams (startup slots ln lo polls now readings ticks cfg).
Proof.
  unfold startup, set_hydroid_gateway_prefix. tracks_step; [apply stays_roams; stays_solve|]. tracks_step; [apply stays_roams; stays_solve|]. cbv zeta.
  repeat (apply (tracks_bind roams); [first [apply roams_work_until | apply stays_roams; stays_solve] |intros ?]). apply stays_roams. stays_solve.
Qed.

(** ** Every operation *)

(** the calls a driver receives, with what the world does during them *)
Inductive Call : Type :=
| CallStartup (log_name : bytes -> bytes) (log_opened : bool) (polls : list bool) (now : Z)
    (readings : list Z) (ticks : list Tick) (cfg : DriverConfig)
| CallShutdown
| CallWork (t : Tick)
| CallInitiate (now : Z) (msg : MMTransmission)
| CallUpdateCfg (now : Z) (cfg : DriverConfig)
| CallSilent (now : Z) (silent : bool)
| CallWriteCfg (now : Z) (s : bytes).

Definition run_call (c : Call) (s : State W) : State W * list MMEvent * result Exn unit :=
  match c with
  | CallStartup ln lo polls now readings ticks cfg =>
      (startup slots ln lo polls now readings ticks cfg;; pret tt) s
  | CallShutdown => shutdown s
  | CallWork t => do_work slots t s
  | CallInitiate now msg => handle_initiate_transmission slots now msg s
  | CallUpdateCfg now cfg => update_cfg now cfg s
  | CallSilent now b => set_silent now b s
  | CallWriteCfg now c => write_single_cfg now c s
  end.

(** the state after a call, whether it returns or throws *)
Definition after_call (c : Call) (s : State W) : State W := fst (fst (run_call c s)).

Fixpoint after_calls (cs : list Call) (s : State W) : State W :=
  match cs with
  | [] => s
  | c :: cs => after_calls cs (after_call c s)
  end.

Definition call_events (c : Call) (s : State W) : list MMEvent := snd (fst (run_call c s)).
Fixpoint calls_events (cs : list Call) (s : State W) : list MMEvent :=
  match cs with
  | [] => []
  | c :: cs => call_events c s ++ calls_events cs (after_call c s)
  end.

Definition shutdowns (cs : list Call) : nat := length (List.filter (fun c => match c with CallShutdown => true | _ => false end) cs).

(** along the protocol, with the sentences of the events and a number of times that the driver is closed *)
Definition moves (n : nat) s (ev : list MMEvent) s' : Prop := forall ph, counters_ok (queue_of (mm s)) ->
  exists ph' t, qrun (ph, queue_of (mm s)) t (ph', queue_of (mm s')) /\ seen t = wires ev /\ closes t = n.

Lemma roams_moves s ev s' : roams s ev s' -> moves 0 s ev s'.
Proof. intros H ph Hc. destruct (H ph I Hc) as (ph' & t & _ & R). by exists ph', t. Qed.

Lemma run_call_roams c : c <> CallShutdown -> tracks roams (run_call c).
Proof.
  destruct c; intros Hc; cbn [run_call]; try done.
  - exact (tracks_bind roams _ (fun _ => pret tt) (roams_startup _ _ _ _ _ _ _) (fun _ => tracks_ret roams tt)).
  - apply roams_do_work.
  - apply stays_roams, stays_handle_initiate.
  - apply stays_roams, stays_update_cfg.
  - apply stays_roams, stays_set_silent.
  - apply stays_roams, stays_write_single_cfg.
Qed.

Lemma call_moves c s : moves (shutdowns [c]) s (call_events c s) (after_call c s).
Proof.
  destruct c; try (apply roams_moves; unfold call_events, after_call;
    match goal with |- context [run_call ?c ?s] => pose proof (run_call_roams c ltac:(done) s) as H; by destruct (run_call c s) as [[s' ev] r] end).
  intros ph Hc. exists ph, [LClose]. repeat split. apply run_one. cbn. apply q_closed.
Qed.

Lemma calls_move cs : forall s, moves (shutdowns cs) s (calls_events cs s) (after_calls cs s).
Proof.
  induction cs as [|c cs IH]; intros s ph Hc; [exists ph, []; repeat split; constructor|].
  destruct (call_moves c s ph Hc) as (ph1 & t1 & R1 & E1 & N1). destruct (IH (after_call c s) ph1 (run_counters _ _ _ R1 Hc)) as (ph2 & t2 & R2 & E2 & N2).
  exists ph2, (t1 ++ t2). cbn [after_calls calls_events]. rewrite !concat_map_app, closes_app, E1, E2, N1, N2. split; [by apply (qrun_app _ _ _ _ _ R1)|]. split; [done|].
  unfold shutdowns. cbn [List.filter]. by destruct c.
Qed.

(** C28: Whatever calls the Micro-Modem driver receives and whatever the modem sends, its command
    queue moves along a stop-and-wait protocol whose visible labels are exactly the sentences that
    the driver signals as outgoing and incoming, in their order: a command enters at the back; only
    the front is written, when nothing is outstanding or when its answer is late; it leaves when a
    sentence that came in answers it, when a sentence of the modem rejects it too often, when its
    writes are used up or fail, or when the driver dies or is shut down, and it is shut down as
    often as it is called to. Commands leave in the order in which they entered. *)
Theorem mm_commands_stop_and_wait (cs : list Call) (s : State W) :
  counters_ok (queue_of (mm s)) ->
  exists ph t, qrun (Quiet, queue_of (mm s)) t (ph, queue_of (mm (after_calls cs s))) /\
    seen t = wires (calls_events cs s) /\ closes t = shutdowns cs /\
    exists gone, out (mm s) ++ enqueued t = gone ++ out (mm (after_calls cs s)).
Proof.
  intros H. destruct (calls_move cs s Quiet H) as (ph & t & R & E & N). exists ph, t. repeat (split; [done|]). exact (run_order _ _ _ R).
Qed.

(** From its construction on, after any calls, the failures of the present command stay below
    RETRIES and the failures in a row below MAX_FAILS_BEFORE_DEAD, so that neither counter wraps
    around and the comparison for equality is enough. *)
Lemma mm_fail_counts_bounded (cs : list Call) (now : Z) (cfg : DriverConfig) (clk : Z) (lbl : MMType) (w : W) :
  let d := mm (after_calls cs (MkState (new_mm_driver now cfg clk lbl) w)) in
  0 <= present_fail_count d < RETRIES /\ 0 <= global_fail_count d < MAX_FAILS_BEFORE_DEAD.
Proof.
  assert (H : counters_ok (queue_of (new_mm_driver now cfg clk lbl))) by (unfold counters_ok, RETRIES, MAX_FAILS_BEFORE_DEAD; simpl; lia).
  destruct (calls_move cs (MkState (new_mm_driver now cfg clk lbl) w) Quiet H) as (ph & t & R & _). exact (run_counters _ _ _ R H).
Qed.

End Queue.

Module MmQueueWitness.
Import MmSample.

Definition calls : list Call :=
  [CallSilent 0 true; CallWork (MkTick 1000000 [] [B "$CACFG,SRC,0"] true); CallShutdown].

Lemma mm_commands_stop_and_wait_witness : exists ph t,
  qrun (Quiet, queue_of (driver 1)) t (ph, queue_of (mm (after_calls slots calls (MkState (driver 1) tt)))) /\
  seen t = wires (calls_events slots calls (MkState (driver 1) tt)) /\ closes t = 1%nat.
Proof.
  destruct (mm_commands_stop_and_wait slots calls (MkState (driver 1) tt)) as (ph & t & R & E & N & _); [vm_compute; intuition congruence|].
  exists ph, t. split; [exact R | split; [exact E | exact N]].
Defined.

End MmQueueWitness.
