(* ===== verification/MmLive.v ===== *)
(** * The Micro-Modem driver notices a modem that does not answer

    While the modem is silent, every call of [do_work] that finds the answer
    late moves the driver one stage on: the first command is written three times
    and given up, the second one twice, and then the driver closes the line and
    throws. *)

From S2P Require Import Prelude AssocList HexCodec Double Time As Prog Proto Nmea DriverBase MmData MmDriver MmReceive.

#[local] Open Scope prog_scope.

Definition printable (nmea : list bytes) : Prop := is_ok (message nmea) = true.

(** what goes to the modem and what goes to the application *)
Definition written (ev : list MMEvent) : list bytes :=
  omap (fun e => match e with OnLine (WriteLine l) => Some l | _ => None end) ev.
Definition received (ev : list MMEvent) : list MMTransmission :=
  omap (fun e => match e with SignalReceive m => Some m | _ => None end) ev.

(** the line is up, the log can be written, the clock has been set *)
Definition ready (d : MMDriver) : Prop :=
  modem (base_driver d) = Some true /\ log_open (base_driver d) /\ Forall printable (out d) /\
  clock_set d = true.

(** whether the driver waits, its two counters, and how many commands it must have *)
Definition stages : list (bool * Z * Z * nat) :=
  [(false, 0, 0, 2%nat); (true, 0, 0, 2%nat); (true, 1, 1, 2%nat); (true, 2, 2, 2%nat);
   (false, 3, 0, 1%nat); (true, 3, 0, 1%nat); (true, 4, 1, 1%nat)].

Definition stage (k : nat) (d : MMDriver) : Prop :=
  match stages !! k with
  | Some (w, g, p, n) =>
      waiting_for_modem d = w /\ global_fail_count d = g /\ present_fail_count d = p /\
      (n <= length (out d))%nat
  | None => False
  end.

Section Live.
Context {TX : BoostText} {TR : BoostTrim} {LC : LexicalCast} {LN : LexicalNumbers}
  {CAL : Calendar} {AA : AppAckCodec}.
Context {W : Type} (slots : Slots W).
Implicit Types (s : State W) (d : MMDriver).

Lemma set_base_same d : set_base_driver (base_driver d) d = d.
Proof. by destruct d. Qed.

(** a function of the base class that leaves it as it is *)
Lemma on_base_same {A} (m : prog ModemDriverBase DriverEvent Exn A) s ev r :
  m (base_driver (mm s)) = (base_driver (mm s), ev, r) ->
  on_base m s = (s, map OnLine ev, r).
Proof. unfold on_base. intros ->. rewrite set_base_same. by destruct s. Qed.

(** signals on the line only *)
Definition silent_events (ev : list MMEvent) : Prop := written ev = [] /\ received ev = [].

Lemma signal_raw_ok rx raw b :
  log_open b -> exists ev, signal_raw rx raw b = (b, ev, Ok tt) /\ silent_events (map OnLine ev).
Proof.
  intros H. unfold signal_raw. cbn. destruct (raw_fs_connections_made b) eqn:E; cbn.
  - rewrite (H E). cbn. eexists. split; [done|]. by destruct rx.
  - eexists. split; [done|]. by destruct rx.
Qed.

Lemma modem_write_ok x b : modem b = Some true -> modem_write x b = (b, [WriteLine x], Ok tt).
Proof. unfold modem_write. cbn. by intros ->. Qed.

(** a sentence as it is written *)
Definition as_line d (nmea : list bytes) : bytes :=
  match message nmea with
  | Ok raw => hydroid_gateway_modem_prefix d ++ raw ++ [13; 10]
  | Err _ => []
  end.

(** writing succeeds on a line that is up *)
Lemma mm_write_ok now nmea s :
  modem (base_driver (mm s)) = Some true -> log_open (base_driver (mm s)) -> printable nmea ->
  exists ev, mm_write now nmea s =
    (MkState (set_last_write_time now (set_waiting_for_modem true (mm s))) (wld s), ev, Ok tt) /\
    written ev = [as_line (mm s) nmea] /\ received ev = [].
Proof.
  intros Hm Hl Hp. unfold printable, is_ok in Hp. unfold mm_write, lift_nmea, as_line.
  destruct (message nmea) as [raw|]; [|done].
  destruct (signal_raw_ok false raw _ Hl) as (e1 & E1 & S1 & S2).
  unfold pbind at 1. cbn [plift]. rewrite (pbind_ok _ _ _ _ _ _ (on_base_same _ s e1 _ E1)).
  unfold pbind at 1. cbn [rd pread].
  erewrite pbind_ok by (apply on_base_same, modem_write_ok, Hm). cbn. eexists. split; [reflexivity|].
  unfold written, received in *. by rewrite !omap_app, S1, S2.
Qed.

Lemma ready_write now d : ready d -> ready (set_last_write_time now (set_waiting_for_modem true d)).
Proof. done. Qed.

(** the answer is late, or none is awaited *)
Definition due (now : Z) d : Prop := waiting_for_modem d = true -> last_write_time d <= now - MODEM_WAIT.

(** the outcome of an attempt to send: the driver is given up *)
Definition gave_up (r : State W * list MMEvent * result Exn unit) : Prop :=
  match r with
  | (s', _, Err x) =>
      x = DriverException MODEM_NOT_RESPONDING /\ modem (base_driver (mm s')) = None /\
      out (mm s') = [] /\ startup_done (mm s') = false
  | _ => False
  end.

(** or it is at a later stage, with the time of its last write *)
Definition moved_on (now : Z) (k : nat) (r : State W * list MMEvent * result Exn unit) : Prop :=
  match r with
  | (s', _, Ok _) =>
      exists k', (k < k')%nat /\ stage k' (mm s') /\ ready (mm s') /\
        (waiting_for_modem (mm s') = true -> last_write_time (mm s') = now)
  | _ => False
  end.

(** the driver is not waiting: the front is written *)
Lemma try_send_write now nmea o s :
  ready (mm s) -> waiting_for_modem (mm s) = false -> out (mm s) = nmea :: o ->
  exists ev, try_send now s =
    (MkState (set_last_write_time now (set_waiting_for_modem true (mm s))) (wld s), ev, Ok tt) /\
    written ev = [as_line (mm s) nmea] /\ received ev = [].
Proof.
  intros (Hm & Hl & Hf & _) Hw Ho. unfold try_send. unfold pbind at 1. cbn [rd pread].
  rewrite Ho in *. rewrite Hw. cbn [negb]. inversion_clear Hf.
  destruct (mm_write_ok now nmea s) as (ev & -> & H1 & H2); [done..|]. cbn. eauto.
Qed.

(** the answer is not late: nothing happens *)
Lemma try_send_early now s :
  waiting_for_modem (mm s) = true -> now - MODEM_WAIT < last_write_time (mm s) ->
  try_send now s = (s, [], Ok tt).
Proof.
  intros Hw Ht. unfold try_send. unfold pbind at 1. cbn [rd pread].
  destruct (out (mm s)); [by destruct s|]. rewrite Hw. cbn [negb].
  replace (_ <=? _) with false by (symmetry; apply Z.leb_gt; lia). by destruct s.
Qed.

Section Late.
Context (now : Z) (nmea : list bytes) (o : list (list bytes)) (s : State W).
Hypothesis (Hr : ready (mm s)) (Hw : waiting_for_modem (mm s) = true)
  (Ht : last_write_time (mm s) <= now - MODEM_WAIT) (Ho : out (mm s) = nmea :: o)
  (Hg0 : 0 <= global_fail_count (mm s) < MAX_FAILS_BEFORE_DEAD)
  (Hp0 : 0 <= present_fail_count (mm s) < RETRIES).

Lemma counters_wrap :
  u32 (global_fail_count (mm s) + 1) = global_fail_count (mm s) + 1 /\
  u32 (present_fail_count (mm s) + 1) = present_fail_count (mm s) + 1.
Proof. unfold MAX_FAILS_BEFORE_DEAD, RETRIES in *. split; apply wrap_small; lia. Qed.

(** the driver closes the line *)
Lemma try_send_dead :
  global_fail_count (mm s) + 1 = MAX_FAILS_BEFORE_DEAD -> gave_up (try_send now s).
Proof.
  intros Hg. destruct counters_wrap as [Eg _]. unfold try_send. unfold pbind at 1. cbn [rd pread].
  rewrite Ho, Hw. cbn [negb]. rewrite (proj2 (Z.leb_le _ _) Ht).
  unfold pbind at 1. cbn [upd pmod]. unfold pbind at 1. cbn [rd pread mm]. simpl (global_fail_count _).
  rewrite Eg, Hg. done.
Qed.

Definition with_failure (d : MMDriver) : MMDriver := set_global_fail_count (global_fail_count (mm s) + 1) d.

Lemma try_send_again :
  global_fail_count (mm s) + 1 < MAX_FAILS_BEFORE_DEAD -> present_fail_count (mm s) + 1 < RETRIES ->
  exists ev, try_send now s =
    (MkState (set_last_write_time now (set_waiting_for_modem true
       (set_present_fail_count (present_fail_count (mm s) + 1) (with_failure (mm s))))) (wld s), ev, Ok tt).
Proof.
  intros Hg Hp. destruct counters_wrap as [Eg Ep]. destruct Hr as (Hm & Hl & Hf & _).
  unfold try_send. unfold pbind at 1. cbn [rd pread]. rewrite Ho in *. rewrite Hw. cbn [negb].
  rewrite (proj2 (Z.leb_le _ _) Ht). unfold pbind at 1. cbn [upd pmod]. unfold pbind at 1.
  cbn [rd pread mm]. simpl (global_fail_count _). rewrite Eg.
  rewrite (proj2 (Z.eqb_neq _ _)) by lia. unfold catch_driver, pcatch, increment_present_fail.
  unfold pbind at 1. unfold pbind at 1. cbn [upd pmod mm wld]. unfold pbind at 1. cbn [rd pread mm].
  simpl (present_fail_count _). rewrite Ep. rewrite (proj2 (Z.leb_gt _ _) Hp). cbn [pret].
  inversion_clear Hf. set (s1 := MkState _ _). destruct (mm_write_ok now nmea s1) as (ev & -> & _); [done..|].
  cbn. eauto.
Qed.

Lemma try_send_give_up :
  global_fail_count (mm s) + 1 < MAX_FAILS_BEFORE_DEAD -> RETRIES <= present_fail_count (mm s) + 1 ->
  exists ev d, try_send now s = (MkState d (wld s), ev, Ok tt) /\ out d = o /\
    waiting_for_modem d = false /\ present_fail_count d = 0 /\
    global_fail_count d = global_fail_count (mm s) + 1 /\ base_driver d = base_driver (mm s) /\
    clock_set d = clock_set (mm s).
Proof.
  intros Hg Hp. destruct counters_wrap as [Eg Ep].
  unfold try_send. unfold pbind at 1. cbn [rd pread]. rewrite Ho, Hw. cbn [negb].
  rewrite (proj2 (Z.leb_le _ _) Ht). unfold pbind at 1. cbn [upd pmod]. unfold pbind at 1.
  cbn [rd pread mm]. simpl (global_fail_count _). rewrite Eg.
  rewrite (proj2 (Z.eqb_neq _ _)) by lia. unfold catch_driver, pcatch, increment_present_fail.
  unfold pbind at 1. unfold pbind at 1. cbn [upd pmod mm wld]. unfold pbind at 1. cbn [rd pread mm].
  simpl (present_fail_count _). rewrite Ep. rewrite (proj2 (Z.leb_le _ _) Hp). cbn.
  do 2 eexists. split; [reflexivity|]. cbn. by rewrite Ho.
Qed.
End Late.

Lemma try_send_moves now k s :
  stage k (mm s) -> ready (mm s) -> due now (mm s) ->
  gave_up (try_send now s) \/ moved_on now k (try_send now s).
Proof.
  intros Hk Hr Hd. unfold due in Hd.
  assert (Hb : 0 <= global_fail_count (mm s) < MAX_FAILS_BEFORE_DEAD /\ 0 <= present_fail_count (mm s) < RETRIES).
  { unfold MAX_FAILS_BEFORE_DEAD, RETRIES. unfold stage in Hk.
    do 7 (destruct k as [|k]; [simpl in Hk; lia|]). done. }
  destruct (out (mm s)) as [|nmea o] eqn:Eo.
  { unfold stage in Hk. rewrite Eo in Hk. do 7 (destruct k as [|k]; [simpl in Hk; lia|]). done. }
  pose proof (try_send_write now nmea o s Hr) as Lw.
  pose proof (fun H H' => try_send_again now nmea o s Hr H H' Eo (proj1 Hb) (proj2 Hb)) as La.
  pose proof (fun H H' => try_send_give_up now nmea o s H H' Eo (proj1 Hb) (proj2 Hb)) as Lg.
  pose proof (fun H H' => try_send_dead now nmea o s H H' Eo (proj1 Hb) (proj2 Hb)) as Ld.
  unfold stage, with_failure, MAX_FAILS_BEFORE_DEAD, RETRIES in *.
  destruct k as [|[|[|[|[|[|[|k]]]]]]]; cbn in Hk; try done; destruct Hk as (Ew & Eg & Ep & Hlen);
    rewrite ?Eg, ?Ep, ?Ew in *.
  1,5: right; destruct (Lw eq_refl Eo) as (ev & -> & _); eexists (S _); split; [apply Nat.lt_succ_diag_r|]; done.
  1,2,4: right; destruct (La eq_refl (Hd eq_refl) ltac:(lia) ltac:(lia)) as [ev ->];
    eexists (S _); split; [apply Nat.lt_succ_diag_r|]; done.
  - right. destruct (Lg eq_refl (Hd eq_refl) ltac:(lia) ltac:(lia)) as (ev & d & -> & E1 & E2 & E3 & E4 & E5 & E6).
    exists 4%nat. split; [lia|]. cbn [mm]. split; [|split; [|by rewrite E2]].
    + unfold stage. cbn. rewrite E1, E2, E3, E4. rewrite Eo in Hlen. simpl in Hlen. repeat split; lia.
    + destruct Hr as (Hm & Hl & Hf & Hc). unfold ready. rewrite E1, E5, E6. rewrite Eo in Hf.
      inversion_clear Hf. done.
  - left. apply Ld; [done | by apply Hd | lia].
Qed.

(** a second attempt at the same time: it writes what the first one left unwritten *)
Lemma try_send_settles now k s :
  stage k (mm s) -> ready (mm s) ->
  (waiting_for_modem (mm s) = true -> last_write_time (mm s) = now) ->
  exists k' s' ev, try_send now s = (s', ev, Ok tt) /\ (k <= k')%nat /\ stage k' (mm s') /\ ready (mm s') /\
    (waiting_for_modem (mm s') = true -> last_write_time (mm s') = now).
Proof.
  intros Hk Hr Ht. destruct (waiting_for_modem (mm s)) eqn:Ew.
  - rewrite try_send_early; [|done | rewrite Ht by done; unfold MODEM_WAIT; lia].
    exists k, s, []. split; [done|]. split; [lia|]. split; [done|]. split; [done|]. auto.
  - pose proof (try_send_moves now k s Hk Hr) as [H|H]; [unfold due; by rewrite Ew| |].
    + exfalso. destruct (out (mm s)) as [|nmea o] eqn:Eo.
      * unfold try_send in H. unfold pbind at 1 in H. cbn [rd pread] in H. rewrite Eo in H. exact H.
      * destruct (try_send_write now nmea o s Hr Ew Eo) as (ev & E & _). rewrite E in H. exact H.
    + destruct (try_send now s) as [[s' ev] [[]|]]; [|done]. destruct H as (k' & Hk' & H).
      exists k', s', ev. split; [done|]. split; [lia | done].
Qed.

Lemma stage_enqueue k x s :
  stage k (mm s) -> stage k (set_out (out (mm s) ++ [x]) (mm s)).
Proof.
  unfold stage. destruct (stages !! k) as [[[[w g] p] n]|]; [|done]. cbn. rewrite length_app.
  intros (? & ? & ? & ?). repeat split; try done. lia.
Qed.

Lemma append_moves now k x s :
  stage k (mm s) -> ready (mm s) -> due now (mm s) -> printable x ->
  gave_up (append_to_write_queue now x s) \/ moved_on now k (append_to_write_queue now x s).
Proof.
  intros Hk (Hm & Hl & Hf & Hc) Hd Hx. unfold append_to_write_queue. unfold pbind. cbn [upd pmod].
  set (s1 := MkState _ _).
  assert (Hr : ready (mm s1)).
  { split; [done|]. split; [done|]. split; [|done]. apply Forall_app. split; [done | by constructor]. }
  destruct (try_send_moves now k s1 (stage_enqueue k x s Hk) Hr Hd) as [H|H];
    destruct (try_send now s1) as [[s' ev] [[]|y]]; cbn [app] in *; auto.
Qed.

(** ** A call of [do_work] while the modem is silent *)

Definition silent (t : Tick) : Prop := t_lines t = [] /\ t_active t = true.

Lemma set_active_same s : modem (base_driver (mm s)) = Some true -> set_active true s = (s, [], Ok tt).
Proof.
  intros H. unfold set_active, on_base. cbn. rewrite H.
  destruct s as [d w]. destruct d as [? b]. destruct b. simpl in *. by rewrite H.
Qed.

(** the end of [do_work], on a line that is up *)
Lemma do_work_end now k s :
  stage k (mm s) -> ready (mm s) -> (waiting_for_modem (mm s) = true -> last_write_time (mm s) = now) ->
  exists s' ev, (read_lines slots now [];;
    let! d := rd (fun d => d) in
    pwhen (is_hydroid_gateway d
           && (last_hydroid_gateway_gps_request d + HYDROID_GATEWAY_GPS_REQUEST_INTERVAL <? now))
      (on_base (modem_write (hydroid_gateway_gps_request d));;
       upd (set_last_hydroid_gateway_gps_request now))) s = (s', ev, Ok tt) /\
    stage k (mm s') /\ ready (mm s') /\ (waiting_for_modem (mm s') = true -> last_write_time (mm s') = now).
Proof.
  intros Hk Hr Ht. pose proof Hr as (Hm & _).
  assert (E : read_lines slots now [] s = (s, [], Ok tt)).
  { unfold read_lines. erewrite pbind_ok; [|apply on_base_same; unfold modem_read; cbn; by rewrite Hm]. done. }
  rewrite (pbind_ok _ _ _ _ _ _ E). unfold pbind at 1. cbn [rd pread].
  destruct (_ && _); [|by exists s, []]. cbn [pwhen].
  erewrite pbind_ok by (apply on_base_same, modem_write_ok, Hm). cbn.
  do 2 eexists. split; [reflexivity|]. done.
Qed.

(** the outcome of a computation whose first part moves the driver on *)
Lemma then_moves {now k} (m : prog (State W) MMEvent Exn unit) rest s :
  gave_up (m s) \/ moved_on now k (m s) ->
  (forall k1 s1, (k < k1)%nat -> stage k1 (mm s1) -> ready (mm s1) ->
     (waiting_for_modem (mm s1) = true -> last_write_time (mm s1) = now) -> moved_on now k (rest tt s1)) ->
  gave_up (pbind m rest s) \/ moved_on now k (pbind m rest s).
Proof.
  unfold pbind. intros [H|H] Hrest; destruct (m s) as [[s1 e1] [[]|x]]; try done; [by left|].
  destruct H as (k1 & H1 & H2 & H3 & H4). right.
  pose proof (Hrest k1 s1 H1 H2 H3 H4) as H5. by destruct (rest tt s1) as [[s3 e3] [[]|]].
Qed.

Lemma do_work_moves t k s :
  stage k (mm s) -> ready (mm s) -> due (t_now t) (mm s) -> silent t ->
  gave_up (do_work slots t s) \/ moved_on (t_now t) k (do_work slots t s).
Proof.
  intros Hk Hr Hd [Hl Ha]. pose proof Hr as (Hm & _ & _ & Hc). set (now := t_now t) in *.
  unfold do_work. rewrite Ha, Hl. fold now. rewrite (pbind_quiet _ _ _ _ _ (set_active_same s Hm)).
  rewrite pbind_rd, Hc. cbn [negb andb pwhen]. rewrite pbind_ret, pbind_rd.
  set (keep_alive := negb _).
  match goal with |- context [pbind (pwhen keep_alive _) ?k] => set (rest := k) end.
  assert (Hrest : forall k1 s1, (k < k1)%nat -> stage k1 (mm s1) -> ready (mm s1) ->
            (waiting_for_modem (mm s1) = true -> last_write_time (mm s1) = now) ->
            moved_on now k (rest tt s1)).
  { intros k1 s1 H1 H2 H3 H4. unfold rest. cbv beta.
    destruct (try_send_settles now k1 s1 H2 H3 H4) as (k2 & s2 & ev & E & L & S2 & R2 & T2).
    rewrite (pbind_ok _ _ _ _ _ _ E).
    destruct (do_work_end now k2 s2 S2 R2 T2) as (s3 & ev3 & E3 & H5). rewrite E3. cbn.
    exists k2. split; [lia | done]. }
  destruct keep_alive; cbn [pwhen].
  - rewrite pbind_assoc. apply then_moves; [by apply append_moves|].
    intros k1 s1 H1 H2 H3 H4. rewrite pbind_upd. by apply (Hrest k1).
  - rewrite pbind_ret. apply then_moves; [by apply try_send_moves|]. intros k1 s1 H1 H2 H3 H4.
    destruct (do_work_end now k1 s1 H2 H3 H4) as (s3 & ev3 & E3 & H5). rewrite E3. cbn. eauto.
Qed.

(** calls at least as far apart as the driver waits *)
Fixpoint spaced (last : Z) (ticks : list Tick) : Prop :=
  match ticks with
  | [] => True
  | t :: ticks => last + MODEM_WAIT <= t_now t /\ spaced (t_now t) ticks
  end.

Lemma stage_bound k d : stage k d -> (k < 7)%nat.
Proof. unfold stage. intros H. destruct (decide (k < 7)%nat); [done|]. by rewrite lookup_ge_None_2 in H by (simpl; lia). Qed.

Lemma silent_modem_gives_up ticks : forall k s last,
  stage k (mm s) -> ready (mm s) -> (waiting_for_modem (mm s) = true -> last_write_time (mm s) <= last) ->
  spaced last ticks -> Forall silent ticks -> (7 <= k + length ticks)%nat ->
  gave_up (pfor ticks (do_work slots) s).
Proof.
  induction ticks as [|t ticks IH]; intros k s last Hk Hr Hw Hs Hf Hn.
  { apply stage_bound in Hk. simpl in Hn. lia. }
  simpl in Hs. destruct Hs as [Ht Hs]. inversion_clear Hf. cbn [pfor]. unfold pbind.
  assert (Hd : due (t_now t) (mm s)) by (unfold due; intros Ew; specialize (Hw Ew); lia).
  destruct (do_work_moves t k s Hk Hr Hd) as [G|M]; [done| |];
    destruct (do_work slots t s) as [[s1 e1] [[]|x]]; try done.
  destruct M as (k1 & H1 & H2 & H3 & H4).
  assert (G : gave_up (pfor ticks (do_work slots) s1)).
  { apply (IH k1 s1 (t_now t)); try done; [intros; rewrite H4 by done; lia | simpl in Hn; lia]. }
  by destruct (pfor ticks (do_work slots) s1) as [[s2 e2] [[]|]].
Qed.

(** C29: When the modem stays silent, a driver with two queued commands gives up within seven calls
    of do_work that are at least five seconds apart: it throws MODEM_NOT_RESPONDING with the line
    closed and no command left. *)
Theorem unresponsive_modem_detected (s : State W) (ticks : list Tick) :
  ready (mm s) -> waiting_for_modem (mm s) = false ->
  present_fail_count (mm s) = 0 -> global_fail_count (mm s) = 0 -> (2 <= length (out (mm s)))%nat ->
  (7 <= length ticks)%nat -> Forall silent ticks -> spaced (last_write_time (mm s)) ticks ->
  gave_up (pfor ticks (do_work slots) s).
Proof.
  intros Hr Hw Hp Hg Hl Hn Hf Hs. apply (silent_modem_gives_up ticks 0 s (last_write_time (mm s))); try done.
Qed.

End Live.

Module MmLiveWitness.
Import MmSample.

Definition start : State unit :=
  MkState (set_out [[B "$CCCFG"; B "SRC"; B "1"]; [B "$CCCFG"; B "REV"; B "1"]] (driver 1)) tt.

Definition ticks : list Tick := map (fun k => MkTick (5000000 * k) [] [] true) [1; 2; 3; 4; 5; 6; 7].

Lemma unresponsive_modem_detected_witness : gave_up (pfor ticks (do_work slots) start).
Proof.
  apply (unresponsive_modem_detected slots start ticks); try (vm_compute; reflexivity || lia).
  - split; [done|]. split; [done|]. split; [|done]. repeat constructor.
  - repeat constructor.
  - vm_compute. intuition congruence.
Defined.

End MmLiveWitness.
