(* ===== verification/MmLink.v ===== *)
(** * A data cycle between two Micro-Modems

    The modem asks the driver of the sender for its frames, one by one; the
    modem of the receiver hands them to its driver with the number of each. The
    theorems follow the data from the message of the sender to the signal of the
    receiver, and the acknowledgements back. *)

From S2P Require Import Prelude AssocList HexCodec Double Time As Prog Proto Nmea DriverBase MmData MmDriver MmReceive MmLive.

#[local] Open Scope prog_scope.

(** ** Sets of frame numbers *)

Definition frames_upto (n : nat) : list Z := map Z.of_nat (seq 0 n).

Lemma elem_frames_upto x n : x ∈ frames_upto n <-> 0 <= x < Z.of_nat n.
Proof.
  unfold frames_upto. rewrite list_elem_of_In, in_map_iff. split.
  - intros (i & <- & Hi). apply in_seq in Hi. lia.
  - intros H. exists (Z.to_nat x). split; [lia|]. apply in_seq. lia.
Qed.

Lemma set_insert_upto n : set_insert (Z.of_nat n) (frames_upto n) = frames_upto (S n).
Proof.
  unfold frames_upto. rewrite seq_S, map_app. simpl.
  assert (H : forall l, Forall (fun y => y < Z.of_nat n) l -> set_insert (Z.of_nat n) l = l ++ [Z.of_nat n]).
  { induction l as [|y l IH]; intros Hl; [done|]. inversion_clear Hl. simpl.
    replace (_ <? y) with false by (symmetry; apply Z.ltb_ge; lia).
    replace (_ =? y) with false by (symmetry; apply Z.eqb_neq; lia). by rewrite IH. }
  apply H. apply Forall_forall. intros y Hy. apply (elem_frames_upto y n) in Hy. lia.
Qed.

Definition frames_from (k n : nat) : list Z := map Z.of_nat (seq k n).

Lemma set_erase_from k n : set_erase (Z.of_nat k) (frames_from k (S n)) = frames_from (S k) n.
Proof.
  unfold set_erase, frames_from. simpl. rewrite Z.eqb_refl. simpl.
  assert (H : forall m j, (k < j)%nat ->
    List.filter (fun y => negb (y =? Z.of_nat k)) (map Z.of_nat (seq j m)) = map Z.of_nat (seq j m)).
  { induction m as [|m IH]; intros j Hj; [done|]. simpl.
    replace (Z.of_nat j =? Z.of_nat k) with false by (symmetry; apply Z.eqb_neq; lia).
    simpl. by rewrite IH by lia. }
  apply H. lia.
Qed.

(** ** Sentences *)

Lemma find_first_of_app_head cs c s : c ∈ cs -> find_first_of cs (c :: s) = Some 0%nat.
Proof. intros H. simpl. by rewrite bool_decide_eq_true_2. Qed.

(** a sentence whose first field starts with a dollar sign can be printed *)
Lemma printable_dollar f fs : printable ((36 :: f) :: fs).
Proof.
  unfold printable, message. rewrite message_no_cs_join by done. cbn [rbind].
  assert (E : exists t, join 44 ((36 :: f) :: fs) = 36 :: t) by (destruct fs; simpl; eauto).
  destruct E as [t ->]. unfold checksum. by rewrite find_first_of_app_head by set_solver.
Qed.

Section Link.
Context {TX : BoostText} {TR : BoostTrim} {CAL : Calendar} {AA : AppAckCodec}
  {LC : LexicalCast} {LN : LexicalNumbers} {LD : LexicalDecimal}.
Context {W : Type} (slots : Slots W).
Implicit Types (s : State W) (d : MMDriver).

(** the header of a cycle *)
Record Cycle : Type := MkCycle {
  cy_src : Z;
  cy_dest : Z;
  cy_ack : bool;
  cy_rate : Z;
  cy_bytes : Z        (* bytes of a frame *)
}.

Definition cycle_ok (c : Cycle) : Prop :=
  0 <= cy_src c < 2 ^ 31 /\ 0 <= cy_dest c < 2 ^ 31 /\ 0 < cy_rate c <= 5 /\ 0 <= cy_bytes c < 2 ^ 31.

Definition frame_ok (c : Cycle) (f : bytes) : Prop :=
  wf_bytes f /\ f <> [] /\ Z.of_nat (length f) <= cy_bytes c.

Definition padded (c : Cycle) (f : bytes) : bytes := f ++ repeat 0 (Z.to_nat (cy_bytes c) - length f).

Definition flag (b : bool) : bytes := as_string (Z.b2z b).

(** the modem's sentences: a request for frame [i], the announcement of a cycle
    of [n] frames, the arrival of a frame that was sent with the sentence [tx] *)
Definition drq (t : bytes) (c : Cycle) (i : nat) : list bytes :=
  [B "$CADRQ"; t; as_string (cy_src c); as_string (cy_dest c); flag (cy_ack c); as_string (cy_bytes c);
   as_string (Z.of_nat i + 1)].
Definition cyc (cmd : bytes) (c : Cycle) (n : nat) : list bytes :=
  [B "$CACYC"; cmd; as_string (cy_src c); as_string (cy_dest c); as_string (cy_rate c); flag (cy_ack c);
   as_string (Z.of_nat n)].
Definition rxd (i : nat) (tx : list bytes) : list bytes :=
  B "$CARXD" :: take 3 (drop 1 tx) ++ [as_string (Z.of_nat i + 1)] ++ drop 4 tx.

(** what the driver answers to a request *)
Definition txd (c : Cycle) (f : bytes) : list bytes :=
  [B "$CCTXD"; as_string (cy_src c); as_string (cy_dest c); flag (cy_ack c); hex_encode (padded c f)].

Lemma flag_bool b : as_bool (flag b) = b.
Proof. by destruct b. Qed.

Definition comma_free (f : bytes) : Prop := 44 ∉ f.

Lemma comma_free_number z : comma_free (as_string z).
Proof. intros H. apply as_string_digits in H. lia. Qed.
Lemma comma_free_hex x : comma_free (hex_encode x).
Proof. intros H. apply hex_encode_up_digits in H. lia. Qed.
Lemma comma_free_nil : comma_free [].
Proof. apply not_elem_of_nil. Qed.

Lemma sentence_fields t fs : Forall comma_free fs -> sentence t fs = t :: fs.
Proof.
  unfold sentence. change (t :: fs) with ([t] ++ fs). generalize [t]. induction fs as [|f fs IH]; intros acc Hf.
  - by rewrite app_nil_r.
  - inversion_clear Hf. cbn [foldl]. unfold nmea_push_back at 2. rewrite bool_decide_eq_false_2 by done.
    rewrite IH by done. by rewrite <- app_assoc.
Qed.

(** ** A sentence is received *)

(** the first part of [process_receive]: the raw sentence is signalled *)
Lemma process_receive_start now nmea id s :
  log_open (base_driver (mm s)) -> printable nmea -> sentence_id nmea = Some id ->
  sentence_kind id <> SidCFG ->
  exists ev, silent_events ev /\
    process_receive slots now nmea s =
    (let '(s', ev', r) := (dispatch slots now (sentence_kind id) nmea;; clear_acknowledged id nmea)
                            (MkState (set_global_fail_count 0 (mm s)) (wld s)) in (s', ev ++ ev', r)).
Proof.
  intros Hl Hp Hid Hk. unfold printable, is_ok in Hp. unfold process_receive, lift_nmea, sid. rewrite Hid.
  destruct (message nmea) as [raw|]; [|done]. rewrite !pbind_lift. rewrite bool_decide_eq_false_2 by done.
  rewrite pbind_ret. destruct (signal_raw_ok true raw _ Hl) as (ev & E & Hs).
  exists (map OnLine ev). split; [done|]. rewrite (pbind_ok _ _ _ _ _ _ (on_base_same _ s ev _ E)).
  by rewrite pbind_upd.
Qed.

Lemma clear_nothing id nmea s : out (mm s) = [] -> clear_acknowledged id nmea s = (s, [], Ok tt).
Proof. intros H. unfold clear_acknowledged. rewrite pbind_rd, H. done. Qed.

Lemma silent_app ev ev' :
  silent_events ev -> written (ev ++ ev') = written ev' /\ received (ev ++ ev') = received ev'.
Proof. intros [H1 H2]. unfold written, received in *. by rewrite !omap_app, H1, H2. Qed.

(** ** The sender *)

(** nothing is waiting to be sent or to be answered *)
Definition idle d : Prop :=
  modem (base_driver d) = Some true /\ log_open (base_driver d) /\ out d = [] /\ waiting_for_modem d = false.

(** the message being transmitted *)
Definition carries (c : Cycle) (fs : list bytes) d : Prop :=
  let m := base (transmit_msg d) in
  src m = cy_src c /\ dest m = cy_dest c /\ ack_requested m = cy_ack c /\ mt_frame m = fs.

(** the driver with one more frame entered as waiting for its acknowledgement *)
Definition awaiting_ack (c : Cycle) d : MMDriver :=
  set_next_frame (s32 (next_frame d + 1))
    (set_frames_waiting_for_ack (set_insert (u32 (next_frame d)) (frames_waiting_for_ack d))
       (set_expected_ack_destination (u32 (cy_dest c)) d)).

Lemma pbind_field {C} nmea i f (k : bytes -> prog (State W) MMEvent Exn C) s :
  nmea !! i = Some f -> pbind (field nmea i) k s = k f s.
Proof. unfold field. intros ->. apply pbind_lift. Qed.
Lemma pbind_field_at {C} nmea i f (k : bytes -> prog (State W) MMEvent Exn C) s :
  nmea !! i = Some f -> pbind (field_at nmea i) k s = k f s.
Proof. unfold field_at. intros ->. apply pbind_lift. Qed.
Lemma pbind_int_of {C} nmea i z (k : Z -> prog (State W) MMEvent Exn C) s :
  nmea !! i = Some (as_string z) -> - 2 ^ 31 <= z < 2 ^ 31 -> pbind (int_of nmea i) k s = k z s.
Proof.
  intros E Hz. unfold int_of. rewrite pbind_assoc, (pbind_field _ _ _ _ _ E), pbind_ret. by rewrite as_int_string.
Qed.
Lemma pbind_uint_of {C} nmea i z (k : Z -> prog (State W) MMEvent Exn C) s :
  nmea !! i = Some (as_string z) -> 0 <= z < 2 ^ 32 -> pbind (uint_of nmea i) k s = k z s.
Proof.
  intros E Hz. unfold uint_of. rewrite pbind_assoc, (pbind_field _ _ _ _ _ E), pbind_ret. by rewrite as_uint32_string.
Qed.

(** a command given to an idle driver is written at once *)
Lemma append_idle now x s :
  idle (mm s) -> printable x ->
  exists ev, append_to_write_queue now x s =
    (MkState (set_last_write_time now (set_waiting_for_modem true (set_out [x] (mm s)))) (wld s), ev, Ok tt) /\
    written ev = [as_line (mm s) x] /\ received ev = [].
Proof.
  intros (Hm & Hl & Ho & Hw) Hp. unfold append_to_write_queue. rewrite pbind_upd, Ho. cbn [app].
  unfold try_send. rewrite pbind_rd. cbn. rewrite Hw. cbn [negb].
  by apply (mm_write_ok now x (MkState (set_out [x] (mm s)) (wld s))).
Qed.

Lemma padding_of c f :
  cycle_ok c -> frame_ok c f ->
  u64 (cy_bytes c - Z.of_nat (length f)) = Z.of_nat (Z.to_nat (cy_bytes c) - length f).
Proof. intros (_ & _ & _ & Hb) (_ & _ & Hf). unfold u64. rewrite wrap_small; lia. Qed.

Lemma cadrq_writes now t c i fs f s :
  cycle_ok c -> frame_ok c f -> idle (mm s) -> carries c fs (mm s) -> fs !! i = Some f ->
  Z.of_nat (length fs) < 2 ^ 31 ->
  let d := if cy_ack c then awaiting_ack c (mm s) else mm s in
  exists ev, cadrq now (drq t c i) s =
    (MkState (set_last_write_time now (set_waiting_for_modem true (set_out [txd c f] d))) (wld s), ev, Ok tt) /\
    written ev = [as_line (mm s) (txd c f)] /\ received ev = [].
Proof.
  intros Hc Hf Hi (Es & Ed & Ea & Ef) Hi' Hn d. pose proof (lookup_lt_Some _ _ _ Hi') as Hlt.
  unfold cadrq. rewrite pbind_rd. cbv zeta.
  rewrite (pbind_int_of _ _ (Z.of_nat i + 1)) by (done || lia). rewrite Ef.
  replace (s32 (Z.of_nat i + 1 - 1)) with (Z.of_nat i)
    by (rewrite Z.add_simpl_r; unfold s32; rewrite Z.mod_small; lia).
  unfold frame_size. rewrite Ef. replace (Z.of_nat i <? _) with true by (symmetry; apply Z.ltb_lt; lia).
  replace (Z.of_nat i <? 0) with false by (symmetry; apply Z.ltb_ge; lia).
  rewrite Nat2Z.id, Hi'. cbn [default from_option]. rewrite pbind_ret.
  destruct f as [|b f]; [by destruct Hf as (_ & ? & _)|]. unfold id. cbv iota. set (g := b :: f) in *.
  rewrite (pbind_field_at _ _ (as_string (cy_bytes c))) by done.
  pose proof Hc as (_ & _ & _ & Hb). rewrite as_int_string by lia. rewrite padding_of by done.
  destruct (2 ^ 62 <=? _) eqn:E; [to_prop; lia|]. rewrite Nat2Z.id, Es, Ed, Ea.
  rewrite sentence_fields by (repeat constructor; apply comma_free_number || apply comma_free_hex).
  change (_ :: _ :: _ :: _ :: [_]) with (txd c g).
  assert (Hd : idle d) by (unfold d; destruct (cy_ack c); exact Hi).
  unfold d. destruct (cy_ack c); cbn [pwhen].
  - unfold expect_ack. rewrite !pbind_assoc, pbind_upd, pbind_assoc, !pbind_upd.
    by apply (append_idle now (txd c g) (MkState (awaiting_ack c (mm s)) (wld s))).
  - rewrite pbind_ret. by apply append_idle.
Qed.

(** the driver has served [k] frames *)
Definition sending (c : Cycle) (fs : list bytes) (k : nat) d : Prop :=
  idle d /\ carries c fs d /\
  (cy_ack c = true -> next_frame d = Z.of_nat k /\ frames_waiting_for_ack d = frames_upto k).

(** sentences with the times they are received *)
Definition receive_all (l : list (Z * list bytes)) : prog (State W) MMEvent Exn unit :=
  pfor l (fun x => process_receive slots (fst x) (snd x)).

Lemma receive_all_app l l' s s1 s2 e1 e2 r :
  receive_all l s = (s1, e1, Ok tt) -> receive_all l' s1 = (s2, e2, r) ->
  receive_all (l ++ l') s = (s2, e1 ++ e2, r).
Proof.
  revert s s1 e1. induction l as [|x l IH]; intros s s1 e1 H1 H2.
  - cbn in H1. by injection H1 as <- <-.
  - cbn [receive_all pfor app] in *. unfold pbind in *.
    destruct (process_receive slots (fst x) (snd x) s) as [[s' e'] [[]|y]]; [|done].
    destruct (pfor l _ s') as [[s'' e''] [[]|y]] eqn:E; [|done]. injection H1 as <- <-.
    change (pfor (l ++ l') _) with (receive_all (l ++ l')). rewrite (IH s' s'' e'' E H2). by rewrite app_assoc.
Qed.

Lemma receive_one now nmea s s1 e1 :
  process_receive slots now nmea s = (s1, e1, Ok tt) -> receive_all [(now, nmea)] s = (s1, e1, Ok tt).
Proof.
  intros E. unfold receive_all. cbn [pfor fst snd]. rewrite (pbind_ok _ _ _ _ _ _ E). cbn [pret].
  by rewrite app_nil_r.
Qed.

(** the request and the modem's answer to the sentence with the frame *)
Definition request (now : nat -> Z) (t : bytes) (c : Cycle) (answer : list bytes) (i : nat) : list (Z * list bytes) :=
  [(now i, drq t c i); (now i, answer)].

Lemma receive_drq now t c i fs f s :
  cycle_ok c -> frame_ok c f -> sending c fs i (mm s) -> fs !! i = Some f -> Z.of_nat (length fs) < 2 ^ 31 ->
  exists d ev, process_receive slots now (drq t c i) s = (MkState d (wld s), ev, Ok tt) /\
    modem (base_driver d) = Some true /\ log_open (base_driver d) /\ out d = [txd c f] /\
    carries c fs d /\ hydroid_gateway_modem_prefix d = hydroid_gateway_modem_prefix (mm s) /\
    (cy_ack c = true -> next_frame d = Z.of_nat (S i) /\ frames_waiting_for_ack d = frames_upto (S i)) /\
    written ev = [as_line (mm s) (txd c f)] /\ received ev = [].
Proof.
  intros Hc Hf (Hi & Hm & Ha) Hif Hn. pose proof (lookup_lt_Some _ _ _ Hif) as Hlt. pose proof Hi as (Hup & Hl & _).
  destruct (process_receive_start now (drq t c i) (B "DRQ") s Hl) as (e1 & S1 & ->); [|done|done|].
  { apply (printable_dollar (B "CADRQ")). }
  set (s1 := MkState _ _). change (sentence_kind (B "DRQ")) with SidDRQ. cbn [dispatch].
  destruct (cadrq_writes now t c i fs f s1 Hc Hf Hi Hm Hif Hn) as (e2 & E2 & W2 & R2).
  rewrite (pbind_ok _ _ _ _ _ _ E2). unfold clear_acknowledged. rewrite pbind_rd. cbn -[sentence_id acknowledges].
  do 2 eexists. split; [reflexivity|]. destruct (silent_app e1 (e2 ++ []) S1) as [-> ->].
  rewrite app_nil_r, W2, R2. do 5 (split; [by destruct (cy_ack c)|]). split; [|done].
  intros Ea. rewrite Ea. destruct Ha as [E3 E4]; [done|]. cbn. rewrite E3, E4. split.
  - unfold s32. rewrite Z.mod_small; lia.
  - unfold u32. rewrite wrap_small by lia. apply set_insert_upto.
Qed.

(** the modem has taken the frame *)
Lemma receive_taken now answer c f s :
  log_open (base_driver (mm s)) -> printable answer -> sentence_id answer = Some (B "TXD") ->
  out (mm s) = [txd c f] ->
  exists ev, process_receive slots now answer s =
    (MkState (set_present_fail_count 0 (set_out [] (set_waiting_for_modem false (set_global_fail_count 0 (mm s)))))
       (wld s), ev, Ok tt) /\ silent_events ev.
Proof.
  intros Hl Hp Hid Ho. destruct (process_receive_start now answer _ s Hl Hp Hid) as (e1 & S1 & ->); [done|].
  change (sentence_kind (B "TXD")) with SidOther. cbn [dispatch]. rewrite pbind_ret.
  unfold clear_acknowledged. rewrite pbind_rd. cbn [mm]. simpl (out _). rewrite Ho.
  unfold sid. change (sentence_id (txd c f)) with (Some (B "TXD")). cbv iota. rewrite pbind_lift.
  assert (E : acknowledges (B "TXD") (B "TXD") (txd c f) answer = Ok true) by done.
  rewrite E, pbind_lift. cbn. rewrite Ho. exists (e1 ++ []). rewrite app_nil_r. done.
Qed.

Lemma serve_frame now t c answer i fs f s :
  cycle_ok c -> frame_ok c f -> sending c fs i (mm s) -> fs !! i = Some f -> Z.of_nat (length fs) < 2 ^ 31 ->
  printable answer -> sentence_id answer = Some (B "TXD") ->
  exists d ev, receive_all (request now t c answer i) s = (MkState d (wld s), ev, Ok tt) /\
    sending c fs (S i) d /\ hydroid_gateway_modem_prefix d = hydroid_gateway_modem_prefix (mm s) /\
    written ev = [as_line (mm s) (txd c f)] /\ received ev = [].
Proof.
  intros Hc Hf Hs Hif Hn Hp Hid.
  destruct (receive_drq (now i) t c i fs f s Hc Hf Hs Hif Hn) as (d & e1 & E1 & Hm & Hl & Ho & Hca & Hpre & Ha & W1 & R1).
  destruct (receive_taken (now i) answer c f (MkState d (wld s)) Hl Hp Hid Ho) as (e2 & E2 & W2 & R2).
  exists (set_present_fail_count 0 (set_out [] (set_waiting_for_modem false (set_global_fail_count 0 d)))), (e1 ++ e2).
  split; [exact (receive_all_app [_] [_] _ _ _ _ _ _ (receive_one _ _ _ _ _ E1) (receive_one _ _ _ _ _ E2))|].
  split; [done|]. split; [done|]. unfold written, received in *. by rewrite !omap_app, W1, R1, W2, R2.
Qed.

Lemma serve_frames now t c answer fs : forall n i s,
  cycle_ok c -> Forall (frame_ok c) fs -> sending c fs i (mm s) -> (i + n = length fs)%nat ->
  Z.of_nat (length fs) < 2 ^ 31 -> printable answer -> sentence_id answer = Some (B "TXD") ->
  exists d ev, receive_all (concat (map (request now t c answer) (seq i n))) s = (MkState d (wld s), ev, Ok tt) /\
    sending c fs (length fs) d /\
    written ev = map (fun f => as_line (mm s) (txd c f)) (drop i fs) /\ received ev = [].
Proof.
  induction n as [|n IH]; intros i s Hc Hfs Hs Hi Hn Hp Hid.
  - exists (mm s), []. rewrite drop_ge by lia. replace (length fs) with i by lia. by destruct s.
  - destruct (lookup_lt_is_Some_2 fs i) as [f Hf]; [lia|].
    pose proof (Forall_lookup_1 _ _ _ _ Hfs Hf) as Hok.
    destruct (serve_frame now t c answer i fs f s Hc Hok Hs Hf Hn Hp Hid) as (d1 & e1 & E1 & S1 & P1 & W1 & R1).
    destruct (IH (S i) (MkState d1 (wld s))) as (d2 & e2 & E2 & S2 & W2 & R2); [done..|lia|done|done|done|].
    exists d2, (e1 ++ e2). cbn [seq map concat]. split; [exact (receive_all_app _ _ _ _ _ _ _ _ E1 E2)|].
    split; [done|]. rewrite (drop_S _ _ _ Hf). unfold written, received in *.
    rewrite !omap_app, W1, R1, W2, R2. split; [|done]. cbn [map app]. f_equal.
    apply map_ext. intros g. unfold as_line. cbn [mm]. by rewrite P1.
Qed.

(** ** The receiver *)

(** the driver has nothing to send and the modem reports statistics, which end
    the reception *)
Definition listening d : Prop :=
  log_open (base_driver d) /\ out d = [] /\ nvram (B "CST") d <> 0.

(** the part of a message that the sentences with data set *)
Definition data_message (c : Cycle) (fs : list bytes) (m : ModemTransmission) : Prop :=
  src m = cy_src c /\ dest m = cy_dest c /\ type m = DATA /\ ack_requested m = cy_ack c /\ mt_frame m = fs.

(** [k] frames of [fs] have arrived *)
Definition receiving (c : Cycle) (fs : list bytes) (k : nat) d : Prop :=
  listening d /\ expected_remaining_cacst d = 0 /\
  frames_waiting_to_receive d = frames_from k (length fs - k) /\
  mt_frame (base (receive_msg d)) = map (padded c) (take k fs) /\
  (k <> 0%nat -> data_message c (map (padded c) (take k fs)) (base (receive_msg d))).

(** any sentence received while there is nothing to send *)
Lemma receive_listening now nmea id s s' ev :
  log_open (base_driver (mm s)) -> printable nmea -> sentence_id nmea = Some id -> sentence_kind id <> SidCFG ->
  dispatch slots now (sentence_kind id) nmea (MkState (set_global_fail_count 0 (mm s)) (wld s)) = (s', ev, Ok tt) ->
  out (mm s') = [] ->
  exists ev', process_receive slots now nmea s = (s', ev', Ok tt) /\ written ev' = written ev /\ received ev' = received ev.
Proof.
  intros Hl Hp Hid Hk Hd Ho. destruct (process_receive_start now nmea id s Hl Hp Hid Hk) as (e1 & S1 & ->).
  rewrite (pbind_ok _ _ _ _ _ _ Hd), clear_nothing by done. rewrite app_nil_r.
  destruct (silent_app e1 ev S1) as [W1 R1]. exists (e1 ++ ev). by rewrite W1, R1.
Qed.

Lemma receive_cyc now cmd c fs s :
  cycle_ok c -> Z.of_nat (length fs) < 2 ^ 31 -> listening (mm s) -> local_cccyc (mm s) = false ->
  my_id (mm s) <> cy_src c -> mt_frame (base (receive_msg (mm s))) = [] ->
  exists d ev, process_receive slots now (cyc cmd c (length fs)) s = (MkState d (wld s), ev, Ok tt) /\
    receiving c fs 0 d /\ written ev = [] /\ received ev = [].
Proof.
  intros (H1 & H2 & H3 & H4) Hn (Hl & Ho & Hc) Hloc Hid Hm.
  set (d1 := set_local_cccyc false (set_expected_remaining_cacst 0
    (set_frames_waiting_to_receive (frames_upto (length fs)) (set_global_fail_count 0 (mm s))))).
  assert (E : dispatch slots now (sentence_kind (B "CYC")) (cyc cmd c (length fs))
    (MkState (set_global_fail_count 0 (mm s)) (wld s)) = (MkState d1 (wld s), [], Ok tt)).
  { change (sentence_kind (B "CYC")) with SidCYC. cbn [dispatch]. unfold cacyc. rewrite pbind_rd. cbn [mm].
    rewrite (pbind_int_of _ _ (cy_src c)) by (done || lia). change (my_id (set_global_fail_count 0 (mm s))) with (my_id (mm s)).
    rewrite (proj2 (Z.eqb_neq _ _)) by congruence. rewrite (pbind_uint_of _ _ (cy_rate c)) by (done || lia).
    simpl (local_cccyc _). rewrite Hloc. cbn [andb negb].
    rewrite (pbind_uint_of _ _ (Z.of_nat (length fs))) by (done || lia).
    rewrite pbind_upd, Nat2Z.id. rewrite (pbind_int_of _ _ (cy_rate c)) by (done || lia).
    rewrite (proj2 (Z.eqb_neq _ _)) by lia. rewrite pbind_upd. done. }
  destruct (receive_listening now (cyc cmd c (length fs)) (B "CYC") s _ _ Hl
    (printable_dollar (B "CACYC") _) eq_refl ltac:(done) E Ho) as (ev & E1 & W1 & R1).
  exists d1, ev. split; [done|]. split; [|done]. split; [done|]. split; [done|].
  split; [|by split; [exact Hm|]]. cbn. unfold frames_from, frames_upto. by rewrite Nat.sub_0_r.
Qed.

Lemma signal_if_last_cst s : nvram (B "CST") (mm s) <> 0 -> signal_if_last slots s = (s, [], Ok tt).
Proof.
  intros H. unfold signal_if_last, signal_unless_cst. rewrite pbind_rd.
  destruct (bool_decide _); [|done]. cbn [pwhen]. rewrite pbind_rd. by rewrite (proj2 (Z.eqb_neq _ _)).
Qed.

Lemma padded_wf c f : frame_ok c f -> wf_bytes (padded c f) /\ padded c f <> [].
Proof.
  intros (Hw & Hne & _). split; [|by destruct f]. apply Forall_app. split; [done|].
  apply Forall_forall. intros x Hx. apply list_elem_of_In, repeat_spec in Hx. subst. done.
Qed.

Lemma hex_padded c f : frame_ok c f -> hex_decode (hex_encode (padded c f)) = padded c f.
Proof. intros H. apply (hex_decode_encode false), (padded_wf c f H). Qed.

(** what the first frame sets *)
Definition rx_header (now : Z) (c : Cycle) (m : MMTransmission) : MMTransmission :=
  set_b set_mt_ack_requested (Some (cy_ack c)) (set_b set_mt_type (Some DATA)
    (set_b set_mt_dest (Some (cy_dest c)) (set_b set_mt_src (Some (cy_src c))
      (set_b set_mt_time (Some now) m)))).

Lemma carxd_frame now c k f s :
  cycle_ok c -> frame_ok c f -> Z.of_nat k < 2 ^ 31 -> nvram (B "CST") (mm s) <> 0 ->
  let m := if (k =? 0)%nat then rx_header now c (receive_msg (mm s)) else receive_msg (mm s) in
  carxd slots now (rxd k (txd c f)) s =
    (MkState (set_frames_waiting_to_receive (set_erase (Z.of_nat k) (frames_waiting_to_receive (mm s)))
       (set_receive_msg (set_b set_mt_frame (mt_frame (base m) ++ [padded c f]) m) (mm s))) (wld s), [], Ok tt).
Proof.
  intros (H1 & H2 & H3 & H4) Hf Hk Hcst m. unfold carxd.
  rewrite (pbind_uint_of _ _ (Z.of_nat k + 1)) by (done || lia). rewrite Z.add_simpl_r.
  replace (u32 (Z.of_nat k)) with (Z.of_nat k) by (unfold u32; rewrite wrap_small; lia).
  assert (Hsmall : forall z, 0 <= z < 2 ^ 31 -> s32 z = z) by (intros z Hz; unfold s32; rewrite Z.mod_small; lia).
  set (s1 := MkState (set_receive_msg m (mm s)) (wld s)).
  match goal with |- pbind ?a _ _ = _ => assert (E : a s = (s1, [], Ok tt)) end.
  { unfold s1, m. destruct k as [|k]; cbn [Nat.eqb].
    - change (Z.of_nat 0 =? 0) with true. cbn [pwhen]. unfold upd_rx. rewrite pbind_upd, (pbind_uint_of _ _ (cy_src c)) by (done || lia).
      rewrite pbind_upd, (pbind_uint_of _ _ (cy_dest c)) by (done || lia). rewrite !pbind_upd.
      rewrite (pbind_field _ _ (flag (cy_ack c))) by done. rewrite flag_bool, !Hsmall by done. done.
    - destruct s as [[]]. done. }
  rewrite (pbind_quiet _ _ _ _ _ E). rewrite (pbind_field _ _ (hex_encode (padded c f))) by done.
  rewrite bool_decide_eq_false_2.
  2:{ intros E1. apply (proj2 (padded_wf c f Hf)). rewrite <- (hex_padded c f Hf), E1. done. }
  cbn [negb pwhen]. unfold upd_rx. rewrite !pbind_upd, hex_padded by done. by apply signal_if_last_cst.
Qed.

Lemma receive_rxd now c fs k f s :
  cycle_ok c -> Z.of_nat (length fs) < 2 ^ 31 -> fs !! k = Some f -> frame_ok c f -> receiving c fs k (mm s) ->
  exists d ev, process_receive slots now (rxd k (txd c f)) s = (MkState d (wld s), ev, Ok tt) /\
    receiving c fs (S k) d /\ written ev = [] /\ received ev = [].
Proof.
  intros Hc Hn Hk Hf ((Hl & Ho & Hcst) & He & Hw & Hm & Hd). pose proof (lookup_lt_Some _ _ _ Hk) as Hlt.
  set (s0 := MkState (set_global_fail_count 0 (mm s)) (wld s)).
  pose proof (carxd_frame now c k f s0 Hc Hf ltac:(lia) Hcst) as E. cbv zeta in E.
  destruct (receive_listening now (rxd k (txd c f)) (B "RXD") s _ _ Hl
    (printable_dollar (B "CARXD") _) eq_refl ltac:(done) E Ho) as (ev & E1 & W1 & R1).
  do 2 eexists. split; [exact E1|]. split; [|done]. split; [done|]. split; [done|].
  assert (Ht : map (padded c) (take (S k) fs) = map (padded c) (take k fs) ++ [padded c f]).
  { rewrite (take_S_r _ _ _ Hk), map_app. done. }
  rewrite Ht. split; [|split].
  - cbn. rewrite Hw. replace (length fs - k)%nat with (S (length fs - S k)) by lia. apply set_erase_from.
  - cbn. rewrite <- Hm. by destruct k.
  - intros _. destruct k as [|k]; [rewrite <- Hm; done|]. destruct (Hd ltac:(done)) as (D1 & D2 & D3 & D4 & D5).
    unfold data_message. cbn. rewrite D5. done.
Qed.

Lemma receive_frames nows c fs : forall n k s,
  cycle_ok c -> Forall (frame_ok c) fs -> Z.of_nat (length fs) < 2 ^ 31 -> (k + n = length fs)%nat ->
  receiving c fs k (mm s) ->
  exists d ev, receive_all (imap (fun i tx => (nows i, rxd (k + i) tx)) (map (txd c) (drop k fs))) s
      = (MkState d (wld s), ev, Ok tt) /\
    receiving c fs (length fs) d /\ written ev = [] /\ received ev = [].
Proof.
  intros n. revert nows. induction n as [|n IH]; intros nows k s Hc Hf Hn Hk Hr.
  - rewrite drop_ge by lia. replace (length fs) with k by lia. exists (mm s), []. by destruct s.
  - destruct (lookup_lt_is_Some_2 fs k) as [f Hl]; [lia|]. rewrite (drop_S _ _ _ Hl). cbn [map].
    rewrite imap_cons, Nat.add_0_r. pose proof (Forall_lookup_1 _ _ _ _ Hf Hl) as Hok.
    destruct (receive_rxd (nows 0%nat) c fs k f s Hc Hn Hl Hok Hr) as (d1 & e1 & E1 & R1 & W1 & V1).
    destruct (IH (fun i => nows (S i)) (S k) (MkState d1 (wld s))) as (d2 & e2 & E2 & R2 & W2 & V2); [done..|lia|done|].
    exists d2, (e1 ++ e2). split; [|unfold written, received in *; by rewrite !omap_app, W1, W2, V1, V2].
    apply (receive_all_app [_] _ _ _ _ _ _ _ (receive_one _ _ _ _ _ E1)).
    erewrite imap_ext; [exact E2|]. intros i x _. cbn. do 2 f_equal. lia.
Qed.

(** ** The statistics end the reception *)

(** the statistics can be read, up to a field that may be missing *)
Definition readable_cst (now : Z) (cst : list bytes) : Prop :=
  printable cst /\ sentence_id cst = Some (B "CST") /\ cst !! 1%nat <> None /\
  forall v off, (off <= 1)%nat ->
    match snd (set_fields cst off (cst_rows now) [v]) with
    | None | Some OutOfRange => True
    | Some _ => False
    end.

Section Statistics.
(** a property of messages that does not depend on their time *)
Context (P : ModemTransmission -> Prop).
Hypothesis (P_time : forall t b, P b -> P (set_mt_time t b)).

(** a state that differs in the statistics only *)
Definition unchanged s s' : Prop :=
  wld s' = wld s /\ P (base (receive_msg (mm s'))) /\ base_driver (mm s') = base_driver (mm s) /\
  out (mm s') = out (mm s) /\ expected_remaining_cacst (mm s') = expected_remaining_cacst (mm s) /\
  frames_waiting_for_ack (mm s') = frames_waiting_for_ack (mm s).

Lemma pwhen_upd_ranging b m s :
  (exists f, m = upd_ranging f) ->
  exists r, pwhen b m s = (MkState (set_receive_msg (set_ranging_reply r (receive_msg (mm s))) (mm s)) (wld s), [], Ok tt).
Proof.
  intros (f & ->). destruct b; cbn [pwhen]; [eexists; reflexivity|]. exists (ranging_reply (receive_msg (mm s))).
  destruct s as [d w]. cbn. do 3 f_equal. destruct d as [? ? ? ? ? ? ? ? ? ? ? ? ? ? ? ? ? rm]. by destruct rm.
Qed.

(** the statistics leave the fields that the frames set *)
Lemma cacst_signals now cst s :
  readable_cst now cst -> expected_remaining_cacst (mm s) = 0 -> P (base (receive_msg (mm s))) ->
  (forall m w, exists w', receive_slot slots m w = (w', Some tt)) ->
  exists s' m, cacst slots now cst s = (s', [SignalReceive m], Ok tt) /\
    P (base m) /\ out (mm s') = out (mm s) /\ frames_waiting_for_ack (mm s') = frames_waiting_for_ack (mm s).
Proof.
  intros (_ & _ & Hf1 & Hread) He Hm Hslot. unfold cacst, upd_rx. rewrite pbind_upd.
  destruct (cst !! 1%nat) as [f1|] eqn:E1; [|done]. rewrite (pbind_field_at _ _ _ _ _ E1). cbv zeta.
  match goal with |- context [set_fields cst ?off _ [(StVersion, VInt ?v)]] =>
    specialize (Hread (StVersion, VInt v) off ltac:(destruct (_ =? 6); lia));
    destruct (set_fields cst off (cst_rows now) [(StVersion, VInt v)]) as [st x] end.
  cbn [snd] in Hread. rewrite pbind_upd.
  assert (Ec : forall s1 : State W, check_caught x s1 = (s1, [], Ok tt)) by (intros s1; destruct x as [[]|]; done).
  rewrite (pbind_quiet _ _ _ _ _ (Ec _)). rewrite pbind_upd. set (s2 := MkState _ _).
  assert (H2 : unchanged s s2) by done. clearbody s2. clear Ec.
  match goal with |- context [pbind (pwhen ?b ?m) _ s2] => destruct (pwhen_upd_ranging b m s2 ltac:(eexists; reflexivity)) as (r & E3) end.
  rewrite (pbind_quiet _ _ _ _ _ E3). set (s3 := MkState _ _). assert (H3 : unchanged s s3) by done.
  clearbody s3. clear E3.
  match goal with |- context [pbind ?m _ s3] => assert (E4 : exists s4, m s3 = (s4, [], Ok tt) /\ unchanged s s4) end.
  { destruct (stat_get StTime st); [|eauto]. rewrite pbind_upd. eexists. split; [reflexivity|].
    destruct H3 as (? & ? & ?). split; [done|]. split; [by apply P_time | done]. }
  destruct E4 as (s4 & E4 & H4). rewrite (pbind_quiet _ _ _ _ _ E4), pbind_rd.
  destruct H4 as (Hw4 & D4 & B4 & O4 & R4 & F4). rewrite R4, He. cbn [Z.eqb].
  unfold signal_receive_and_clear, signal_receive, call_slot. rewrite pbind_rd. unfold pcatch, pbind, pemit.
  destruct (Hslot (receive_msg (mm s4)) (wld s4)) as [w' E5]. rewrite E5. cbn.
  do 2 eexists. split; [reflexivity|]. done.
Qed.

(** the sentence with the statistics *)
Lemma receive_cst now cst s :
  readable_cst now cst -> log_open (base_driver (mm s)) -> out (mm s) = [] ->
  expected_remaining_cacst (mm s) = 0 -> P (base (receive_msg (mm s))) ->
  (forall m w, exists w', receive_slot slots m w = (w', Some tt)) ->
  exists s' ev m, process_receive slots now cst s = (s', ev, Ok tt) /\ received ev = [m] /\ P (base m) /\
    frames_waiting_for_ack (mm s') = frames_waiting_for_ack (mm s).
Proof.
  intros Hr Hl Ho He Hm Hslot. pose proof Hr as (Hp & Hid & _).
  destruct (cacst_signals now cst (MkState (set_global_fail_count 0 (mm s)) (wld s)) Hr He Hm Hslot)
    as (s' & m & E & Pm & O1 & F1).
  destruct (receive_listening now cst (B "CST") s s' [SignalReceive m] Hl Hp Hid ltac:(done) E) as (ev & E1 & W1 & R1);
    [by rewrite O1|].
  exists s', ev, m. by rewrite R1.
Qed.
End Statistics.
(** ** Acknowledgements *)

(** the modem reports that [cy_dest] has acknowledged frame [f] *)
Definition ack_sentence (c : Cycle) (f : Z) : list bytes :=
  [B "$CAACK"; as_string (cy_dest c); as_string (cy_src c); as_string (f + 1); as_string 0].

Definition ack_message (c : Cycle) (l : list Z) (m : ModemTransmission) : Prop :=
  mt_acked_frame m = l /\
  (l <> [] -> type m = ACK /\ src m = cy_dest c /\ dest m = cy_src c).

(** the sender, when the acknowledgements of [l] have been reported *)
Definition awaiting (c : Cycle) (waiting l : list Z) d : Prop :=
  listening d /\ my_id d = cy_src c /\ expected_ack_destination d = cy_dest c /\
  expected_remaining_cacst d = 0 /\ frames_waiting_for_ack d = List.filter (fun f => negb (set_mem f l)) waiting /\
  ack_message c l (base (receive_msg d)).

Lemma set_mem_filter f l waiting :
  f ∈ waiting -> f ∉ l -> set_mem f (List.filter (fun f => negb (set_mem f l)) waiting) = true.
Proof.
  intros H1 H2. apply bool_decide_eq_true_2. apply list_elem_of_In, filter_In. split; [by apply list_elem_of_In|].
  unfold set_mem. by rewrite bool_decide_eq_false_2.
Qed.

Lemma set_erase_filter f l waiting :
  set_erase f (List.filter (fun f => negb (set_mem f l)) waiting) =
  List.filter (fun x => negb (set_mem x (l ++ [f]))) waiting.
Proof.
  unfold set_erase. induction waiting as [|x waiting IH]; [done|]. cbn [List.filter].
  assert (E : set_mem x (l ++ [f]) = set_mem x l || (x =? f)).
  { unfold set_mem. apply eq_bool_prop_intro. rewrite orb_True, !bool_decide_spec.
    rewrite elem_of_app, list_elem_of_singleton. rewrite Is_true_true, Z.eqb_eq. done. }
  rewrite E. destruct (set_mem x l); cbn [negb orb]; [done|]. cbn [List.filter].
  destruct (x =? f); cbn [negb]; [done | by rewrite IH].
Qed.

Lemma receive_ack now c waiting l f s :
  cycle_ok c -> f ∈ waiting -> f ∉ l -> 0 <= f < 2 ^ 31 -> awaiting c waiting l (mm s) ->
  exists d ev, process_receive slots now (ack_sentence c f) s = (MkState d (wld s), ev, Ok tt) /\
    awaiting c waiting (l ++ [f]) d /\ received ev = [].
Proof.
  intros (H1 & H2 & _) Hw Hf Hr ((Hl & Ho & Hc) & Hid & He & Hrem & Hfr & Ha).
  set (m := receive_msg (mm s)).
  set (b := set_mt_acked_frame (mt_acked_frame (base m) ++ [f]) (set_mt_type (Some ACK)
     (set_mt_dest (Some (cy_src c)) (set_mt_src (Some (cy_dest c)) (set_mt_time (Some now) (base m)))))).
  set (d1 := set_receive_msg (set_base b m) (set_frames_waiting_for_ack (set_erase f (frames_waiting_for_ack (mm s)))
     (set_global_fail_count 0 (mm s)))).
  assert (Hs : forall z, 0 <= z < 2 ^ 31 -> s32 z = z) by (intros z Hz; unfold s32; rewrite Z.mod_small; lia).
  assert (E : dispatch slots now (sentence_kind (B "ACK")) (ack_sentence c f)
    (MkState (set_global_fail_count 0 (mm s)) (wld s)) = (MkState d1 (wld s), [], Ok tt)).
  { change (sentence_kind (B "ACK")) with SidACK. cbn [dispatch]. unfold caack. rewrite pbind_rd. cbn [mm].
    rewrite (pbind_int_of _ _ (cy_src c)) by (done || lia).
    change (my_id (set_global_fail_count 0 (mm s))) with (my_id (mm s)). rewrite Hid, Z.eqb_refl. cbn [negb].
    rewrite (pbind_uint_of _ _ (cy_dest c)) by (done || lia). simpl (expected_ack_destination _).
    rewrite He, Z.eqb_refl. cbn [negb]. rewrite (pbind_uint_of _ _ (f + 1)) by (done || lia).
    rewrite (pbind_uint_of _ _ (cy_src c)) by (done || lia). rewrite Z.add_simpl_r.
    replace (u32 f) with f by (unfold u32; rewrite wrap_small; lia).
    unfold handle_ack. rewrite pbind_assoc, pbind_rd. simpl (frames_waiting_for_ack _).
    rewrite Hfr, set_mem_filter by done. rewrite pbind_assoc, pbind_upd, pbind_ret. unfold upd_rx.
    rewrite pbind_upd. unfold signal_unless_cst. rewrite pbind_rd. cbn [mm wld].
    rewrite !Hs by lia. rewrite (proj2 (Z.eqb_neq _ _)) by exact Hc. done. }
  destruct (receive_listening now (ack_sentence c f) (B "ACK") s _ _ Hl
    (printable_dollar (B "CAACK") _) eq_refl ltac:(done) E Ho) as (ev & E1 & W1 & R1).
  exists d1, ev. split; [done|]. split; [|done]. split; [done|]. split; [done|]. split; [done|]. split; [done|].
  split; [cbn; rewrite Hfr; apply set_erase_filter|]. split; [|done]. cbn. unfold m. by rewrite (proj1 Ha).
Qed.

Lemma receive_acks now c waiting : forall l0 l s,
  cycle_ok c -> NoDup (l0 ++ l) -> (forall f, f ∈ l -> f ∈ waiting /\ 0 <= f < 2 ^ 31) ->
  awaiting c waiting l0 (mm s) ->
  exists d ev, receive_all (map (fun f => (now, ack_sentence c f)) l) s = (MkState d (wld s), ev, Ok tt) /\
    awaiting c waiting (l0 ++ l) d /\ received ev = [].
Proof.
  intros l0 l. revert l0. induction l as [|f l IH]; intros l0 s Hc Hnd Hl Ha.
  - exists (mm s), []. rewrite app_nil_r. by destruct s.
  - destruct (Hl f) as [H1 H2]; [by left|].
    destruct (receive_ack now c waiting l0 f s Hc H1) as (d1 & e1 & E1 & A1 & R1); [|done|done|].
    { intros H3. apply NoDup_app in Hnd as (_ & Hd & _). apply (Hd f H3). by left. }
    replace (l0 ++ f :: l) with ((l0 ++ [f]) ++ l) in * by by rewrite <- app_assoc.
    destruct (IH (l0 ++ [f]) (MkState d1 (wld s)) Hc Hnd) as (d2 & e2 & E2 & A2 & R2); [|done|].
    { intros g Hg. apply Hl. by right. }
    exists d2, (e1 ++ e2). split; [exact (receive_all_app [_] _ _ _ _ _ _ _ (receive_one _ _ _ _ _ E1) E2)|].
    split; [done|]. unfold received in *. by rewrite omap_app, R1, R2.
Qed.

(** The acknowledgements the modem reports for frames that wait for them, followed by the
    statistics, are signalled as one message with these frames in order, from the destination of the
    data to its source, and exactly these frames stop waiting. *)
Lemma mm_acks_release_frames (now : Z) (c : Cycle) (waiting l : list Z) (cst : list bytes) (s : State W) :
  cycle_ok c -> NoDup l -> l <> [] -> (forall f, f ∈ l -> f ∈ waiting /\ 0 <= f < 2 ^ 31) ->
  awaiting c waiting [] (mm s) -> readable_cst now cst ->
  (forall m w, exists w', receive_slot slots m w = (w', Some tt)) ->
  exists s' ev m,
    receive_all (map (fun f => (now, ack_sentence c f)) l ++ [(now, cst)]) s = (s', ev, Ok tt) /\
    received ev = [m] /\ mt_acked_frame (base m) = l /\
    type (base m) = ACK /\ src (base m) = cy_dest c /\ dest (base m) = cy_src c /\
    frames_waiting_for_ack (mm s') = List.filter (fun f => negb (set_mem f l)) waiting.
Proof.
  intros Hc Hnd Hne Hl Ha Hr Hslot.
  destruct (receive_acks now c waiting [] l s Hc Hnd Hl Ha) as (d1 & e1 & E1 & A1 & R1).
  destruct A1 as ((Hl1 & Ho1 & _) & _ & _ & Hrem & Hfr & Hm).
  destruct (receive_cst (ack_message c l) ltac:(done) now cst (MkState d1 (wld s)) Hr Hl1 Ho1 Hrem Hm Hslot)
    as (s' & e2 & m & E2 & R2 & (M1 & M2) & F2).
  exists s', (e1 ++ e2), m. destruct (M2 Hne) as (M3 & M4 & M5).
  split; [exact (receive_all_app _ _ _ _ _ _ _ _ E1 (receive_one _ _ _ _ _ E2))|].
  unfold received in *. rewrite omap_app, R1, R2, F2. done.
Qed.

(** ** Acknowledgements of the application *)

Lemma ack_mask_testbit l j :
  Forall (fun f => 0 <= f < 32) l -> 0 <= j < 32 -> Z.testbit (ack_mask l) j = set_mem j l.
Proof.
  intros Hl Hj. unfold ack_mask.
  assert (H : forall l acc, Forall (fun f => 0 <= f < 32) l ->
    Z.testbit (fold_left (fun acked f => u32 (Z.lor acked (Z.shiftl 1 f))) l acc) j = Z.testbit acc j || set_mem j l).
  { clear l Hl. induction l as [|f l IH]; intros acc Hl; [by rewrite orb_false_r|]. inversion_clear Hl. cbn [fold_left].
    rewrite IH by done. unfold u32, wrap. rewrite Z.mod_pow2_bits_low by lia. rewrite Z.lor_spec, Z.shiftl_1_l.
    rewrite Z.pow2_bits_eqb by lia. rewrite <- orb_assoc. f_equal. unfold set_mem.
    destruct (f =? j) eqn:E; to_prop.
    - cbn [orb]. symmetry. apply bool_decide_eq_true_2. subst. by left.
    - cbn [orb]. apply bool_decide_ext. rewrite elem_of_cons. intuition congruence. }
  rewrite H by done. by rewrite Z.testbit_0_l.
Qed.

Lemma land_bit a j : 0 <= j -> negb (Z.land a (Z.shiftl 1 j) =? 0) = Z.testbit a j.
Proof.
  intros Hj. rewrite Z.shiftl_1_l. destruct (Z.testbit a j) eqn:E.
  - apply negb_true_iff, Z.eqb_neq. intros H. apply (f_equal (fun x => Z.testbit x j)) in H.
    rewrite Z.land_spec, Z.pow2_bits_true, E, Z.testbit_0_l in H by lia. done.
  - apply negb_false_iff, Z.eqb_eq. apply Z.bits_inj'. intros i Hi.
    rewrite Z.land_spec, Z.pow2_bits_eqb, Z.testbit_0_l by lia. destruct (j =? i) eqn:E2; to_prop; [subst; by rewrite E|].
    by rewrite andb_false_r.
Qed.

(** the message signalled for frame [j] *)
Definition app_ack_message (now src dst j : Z) : MMTransmission :=
  set_base (set_mt_acked_frame [j] (set_mt_type (Some ACK) (set_mt_dest (Some (s32 dst))
    (set_mt_src (Some (s32 src)) (set_mt_time (Some now) (base empty_mm)))))) empty_mm.

Lemma handle_ack_spec now src dst j s :
  handle_ack now src dst j empty_mm s =
  (MkState (set_frames_waiting_for_ack (set_erase j (frames_waiting_for_ack (mm s))) (mm s)) (wld s), [],
   Ok (if set_mem j (frames_waiting_for_ack (mm s)) then app_ack_message now src dst j else empty_mm)).
Proof.
  unfold handle_ack. rewrite pbind_rd. destruct (set_mem _ _) eqn:E; [done|].
  assert (E1 : set_erase j (frames_waiting_for_ack (mm s)) = frames_waiting_for_ack (mm s)).
  { unfold set_erase, set_mem in *. apply bool_decide_eq_false in E. induction (frames_waiting_for_ack (mm s)) as [|x l IH]; [done|].
    rewrite not_elem_of_cons in E. destruct E as [E1 E2]. cbn [List.filter].
    rewrite (proj2 (Z.eqb_neq x j)) by congruence. cbn [negb]. by rewrite IH. }
  rewrite E1. destruct s as [[]]. done.
Qed.

Lemma set_mem_cons x y l : set_mem x (y :: l) = (x =? y) || set_mem x l.
Proof.
  unfold set_mem. destruct (x =? y) eqn:E; to_prop; cbn [orb].
  - apply bool_decide_eq_true_2. subst. by left.
  - apply bool_decide_ext. rewrite elem_of_cons. intuition congruence.
Qed.

Lemma set_mem_erase x y l : x <> y -> set_mem x (set_erase y l) = set_mem x l.
Proof.
  intros H. apply bool_decide_ext. unfold set_erase. rewrite !list_elem_of_In, filter_In.
  rewrite negb_true_iff, Z.eqb_neq. naive_solver.
Qed.

(** the frames [js] are looked up in the mask, one after the other *)
Lemma app_ack_loop now src dst l : forall js s,
  Forall (fun f => 0 <= f < 32) l -> Forall (fun f => 0 <= f < 32) js -> NoDup js ->
  (forall m w, exists w', receive_slot slots m w = (w', Some tt)) ->
  exists s' ev, pfor js (fun j => pwhen (negb (Z.land (ack_mask l) (Z.shiftl 1 j) =? 0))
      (let! msg := handle_ack now src dst j empty_mm in signal_receive slots msg)) s = (s', ev, Ok tt) /\
    frames_waiting_for_ack (mm s')
      = List.filter (fun f => negb (set_mem f l && set_mem f js)) (frames_waiting_for_ack (mm s)) /\
    received ev = map (fun j => if set_mem j (frames_waiting_for_ack (mm s))
                                then app_ack_message now src dst j else empty_mm)
                    (List.filter (fun j => set_mem j l) js).
Proof.
  induction js as [|j js IH]; intros s Hl Hjs Hnd Hslot.
  { exists s, []. split; [done|]. split; [|done]. rewrite (filter_ext _ (fun _ => true)); [by rewrite filter_true|].
    intros f. by rewrite andb_false_r. }
  inversion_clear Hjs as [|? ? Hj Hjs']. inversion_clear Hnd as [|? ? Hnj Hnd'].
  cbn [pfor List.filter]. rewrite land_bit, ack_mask_testbit by (done || lia).
  destruct (set_mem j l) eqn:Ej; cbn [pwhen].
  - rewrite pbind_assoc, (pbind_quiet _ _ _ _ _ (handle_ack_spec _ _ _ _ _)).
    set (m := if _ : bool then _ else _). set (s1 := MkState _ _).
    destruct (Hslot m (wld s1)) as [w' Ew].
    assert (E1 : signal_receive slots m s1 = (MkState (mm s1) w', [SignalReceive m], Ok tt)).
    { unfold signal_receive, call_slot, pbind, pemit. by rewrite Ew. }
    rewrite (pbind_ok _ _ _ _ _ _ E1).
    destruct (IH (MkState (mm s1) w') Hl Hjs' Hnd' Hslot) as (s' & ev & -> & F & R).
    do 2 eexists. split; [reflexivity|]. split.
    + rewrite F. cbn. unfold set_erase. rewrite filter_filter. apply filter_ext. intros f.
      rewrite set_mem_cons. destruct (f =? j) eqn:E; to_prop; [subst; by rewrite Ej | done].
    + cbn [app received omap list_omap]. change (received (?a :: ?b)) with (received [a] ++ received b).
      unfold received in *. cbn. f_equal. rewrite R. apply map_ext_in. intros x Hx. cbn.
      rewrite set_mem_erase; [done|]. intros ->. apply filter_In in Hx as [Hx _]. by apply Hnj, list_elem_of_In.
  - rewrite pbind_ret. destruct (IH s Hl Hjs' Hnd' Hslot) as (s' & ev & -> & F & R).
    do 2 eexists. split; [reflexivity|]. split; [|done]. rewrite F. apply filter_ext. intros f. rewrite set_mem_cons.
    destruct (f =? j) eqn:E; to_prop; [subst; by rewrite Ej | done].
Qed.

(** An application acknowledgement for this modem with the mask of a set of frames stops
    exactly the frames of the set from waiting, and signals one message for each of them in
    increasing order: the acknowledgement where the frame was waiting, an empty message where it was
    not. *)
Lemma app_acks_release_frames (now src : Z) (l : list Z) (s : State W) :
  Forall (fun f => 0 <= f < 32) l -> application_ack_max_frames (mm s) = 32 ->
  (forall m w, exists w', receive_slot slots m w = (w', Some tt)) ->
  exists s' ev,
    handle_ack_part slots now src (MkPart (my_id (mm s)) (ack_mask l)) s = (s', ev, Ok tt) /\
    frames_waiting_for_ack (mm s')
      = List.filter (fun f => negb (set_mem f l && set_mem f (frames_upto 32))) (frames_waiting_for_ack (mm s)) /\
    received ev = map (fun j => if set_mem j (frames_waiting_for_ack (mm s))
                                then app_ack_message now (u32 src) (u32 (my_id (mm s))) j else empty_mm)
                    (List.filter (fun j => set_mem j l) (frames_upto 32)).
Proof.
  intros Hl Hmax Hslot. unfold handle_ack_part. rewrite pbind_rd, Hmax. cbn [ack_dest acked_frames].
  rewrite Z.eqb_refl. cbn [pwhen]. apply app_ack_loop; try done.
  - apply Forall_forall. intros f Hf. apply elem_frames_upto in Hf. lia.
  - apply (bool_decide_unpack _). vm_compute. exact I.
Qed.

(** ** Rates *)

Definition rate_out_of_bounds (m : ModemTransmission) : Prop := rate m < 0 \/ 5 < rate m.

Lemma array_at_out {A} (a : list A) i : i < 0 \/ Z.of_nat (length a) <= i -> array_at a i = Err UndefinedBehaviour.
Proof.
  intros H. unfold array_at. destruct (i <? 0) eqn:E; [done|]. to_prop. by rewrite lookup_ge_None_2 by lia.
Qed.

(** Initiating a data transmission whose rate is outside 0 to 5 reads the tables of packet
    sizes out of their bounds. *)
Lemma unchecked_rate_undefined (now : Z) (m m' : MMTransmission) (s : State W) (w' : W) :
  modify_transmission slots m (wld s) = (w', Some m') -> type (base m') = DATA ->
  rate_out_of_bounds (base m') ->
  snd (handle_initiate_transmission slots now m s) = Err UndefinedBehaviour.
Proof.
  intros Hs Ht Hr. unfold rate_out_of_bounds in Hr. unfold handle_initiate_transmission, catch_driver, pcatch, upd_tx. rewrite pbind_upd.
  unfold call_slot. unfold pbind at 1. cbn [wld]. rewrite Hs, pbind_upd. unfold initiate. rewrite pbind_rd. cbn [mm].
  simpl (transmit_msg _). rewrite Ht. unfold cccyc. rewrite pbind_upd, pbind_rd.
  simpl (transmit_msg _). unfold pbind at 1. rewrite array_at_out by (simpl; lia). done.
Qed.

End Link.

Section Composition.
Context {TX : BoostText} {TR : BoostTrim} {CAL : Calendar} {AA : AppAckCodec}
  {LC : LexicalCast} {LN : LexicalNumbers} {LD : LexicalDecimal}.
Context {WA WB : Type} (slotsA : Slots WA) (slotsB : Slots WB).

(** C7: Two Micro-Modem drivers: the sender answers the modem's requests with one sentence per
    frame, the frame padded to the size of the packet, and enters every frame as waiting for its
    acknowledgement when one is asked for; when the modem of the receiver reports the cycle, these
    frames in order and the statistics, the receiver signals exactly one message, with the source,
    the destination and the padded frames of the sender. *)
Theorem mm_data_cycle_delivers (c : Cycle) (fs : list bytes) (sA : State WA) (sB : State WB)
    (nowA nowB : nat -> Z) (now : Z) (t cmd : bytes) (answer cst : list bytes) :
  cycle_ok c -> Forall (frame_ok c) fs -> fs <> [] -> Z.of_nat (length fs) < 2 ^ 31 ->
  sending c fs 0 (mm sA) -> printable answer -> sentence_id answer = Some (B "TXD") ->
  listening (mm sB) -> local_cccyc (mm sB) = false -> my_id (mm sB) <> cy_src c ->
  mt_frame (base (receive_msg (mm sB))) = [] -> readable_cst now cst ->
  (forall m w, exists w', receive_slot slotsB m w = (w', Some tt)) ->
  exists dA evA txs sB' evB m,
    receive_all slotsA (concat (map (request nowA t c answer) (seq 0 (length fs)))) sA
      = (MkState dA (wld sA), evA, Ok tt) /\
    written evA = map (as_line (mm sA)) txs /\
    (cy_ack c = true -> frames_waiting_for_ack dA = frames_upto (length fs)) /\
    receive_all slotsB
      ((now, cyc cmd c (length txs)) :: imap (fun i tx => (nowB i, rxd i tx)) txs ++ [(now, cst)]) sB
      = (sB', evB, Ok tt) /\
    received evB = [m] /\ data_message c (map (padded c) fs) (base m).
Proof.
  intros Hc Hf Hne Hn HA Hp Hid HB Hloc Hmy Hempty Hr Hslot.
  destruct (serve_frames slotsA nowA t c answer fs (length fs) 0 sA Hc Hf HA eq_refl Hn Hp Hid)
    as (dA & eA & EA & (_ & _ & SA) & WrA & _).
  destruct (receive_cyc slotsB now cmd c fs sB Hc Hn HB Hloc Hmy Hempty) as (d1 & e1 & E1 & R1 & _ & V1).
  destruct (receive_frames slotsB nowB c fs (length fs) 0 (MkState d1 (wld sB)) Hc Hf Hn eq_refl R1)
    as (d2 & e2 & E2 & ((Hl2 & Ho2 & _) & He2 & _ & _ & D2) & _ & V2).
  rewrite take_ge in D2 by done. specialize (D2 ltac:(by destruct fs)).
  destruct (receive_cst slotsB (data_message c (map (padded c) fs)) ltac:(done) now cst
    (MkState d2 (wld sB)) Hr Hl2 Ho2 He2 D2 Hslot) as (s3 & e3 & m & E3 & V3 & Dm & _).
  exists dA, eA, (map (txd c) fs), s3, (e1 ++ e2 ++ e3), m.
  split; [done|]. split; [by rewrite WrA, map_map|]. split; [by intros Ha; apply (SA Ha)|]. split.
  - rewrite length_map. apply (receive_all_app slotsB [_] _ _ _ _ _ _ _ (receive_one _ _ _ _ _ _ E1)).
    apply (receive_all_app slotsB _ [_] _ _ _ _ _ _ E2 (receive_one _ _ _ _ _ _ E3)).
  - unfold received in *. by rewrite !omap_app, V1, V2, V3.
Qed.

End Composition.

Module MmLinkWitness.
Import MmSample.

Definition cycle : Cycle := MkCycle 1 2 true 1 8.
Definition frames : list bytes := [B "hello"; B "world!"].

Definition sender : State unit :=
  MkState (set_transmit_msg (set_base (set_mt_frame frames (set_mt_ack_requested (Some true)
    (set_mt_dest (Some 2) (set_mt_src (Some 1) empty_transmission)))) empty_mm) (driver 1)) tt.

Definition cst : list bytes := [B "$CACST"; B "1"].

Lemma cst_readable : readable_cst 0 cst.
Proof. split; [done|]. split; [done|]. split; [done|]. intros v [|[|off]] H; [done | done | lia]. Qed.

Lemma cycle_fits : cycle_ok cycle.
Proof. unfold cycle_ok. cbn. lia. Qed.

Lemma frames_fit : Forall (frame_ok cycle) frames.
Proof. repeat constructor; discriminate || (cbn; lia). Qed.

Lemma mm_data_cycle_delivers_witness :
  exists dA evA txs sB' evB m,
    receive_all slots (concat (map (request (fun _ => 0) (B "120000") cycle [B "$CATXD"]) (seq 0 2))) sender
      = (MkState dA tt, evA, Ok tt) /\
    written evA = map (as_line (mm sender)) txs /\
    receive_all slots
      ((0, cyc (B "0") cycle (length txs)) :: imap (fun i tx => (0, rxd i tx)) txs ++ [(0, cst)])
      (MkState (driver 2) tt) = (sB', evB, Ok tt) /\
    received evB = [m] /\ mt_frame (base m) = [B "hello" ++ [0; 0; 0]; B "world!" ++ [0; 0]].
Proof.
  destruct (mm_data_cycle_delivers slots slots cycle frames sender (MkState (driver 2) tt)
    (fun _ => 0) (fun _ => 0) 0 (B "120000") (B "0") [B "$CATXD"] cst cycle_fits frames_fit)
    as (dA & evA & txs & sB' & evB & m & EA & WA & _ & EB & RB & MB); try done.
  - apply cst_readable.
  - intros ? w. by exists w.
  - exists dA, evA, txs, sB', evB, m. split; [exact EA|]. split; [exact WA|]. split; [exact EB|].
    split; [exact RB | apply MB].
Defined.

Example mm_acks_release_frames_witness :
  exists s' ev m,
    receive_all slots (map (fun f => (0, ack_sentence cycle f)) [0; 2] ++ [(0, cst)])
      (MkState (set_frames_waiting_for_ack [0; 1; 2] (set_expected_ack_destination 2 (driver 1))) tt) = (s', ev, Ok tt) /\
    received ev = [m] /\ mt_acked_frame (base m) = [0; 2] /\ frames_waiting_for_ack (mm s') = [1].
Proof.
  destruct (mm_acks_release_frames slots 0 cycle [0; 1; 2] [0; 2] cst
    (MkState (set_frames_waiting_for_ack [0; 1; 2] (set_expected_ack_destination 2 (driver 1))) tt) cycle_fits)
    as (s' & ev & m & E & R & A & _ & _ & _ & F); try done.
  - apply (bool_decide_unpack _). vm_compute. exact I.
  - intros f Hf. rewrite !elem_of_cons, elem_of_nil in *. lia.
  - apply cst_readable.
  - intros ? w. by exists w.
  - exists s', ev, m. split; [exact E|]. split; [exact R|]. split; [exact A|]. rewrite F. reflexivity.
Qed.

Example app_acks_release_frames_witness :
  exists s' ev,
    handle_ack_part slots 0 2 (MkPart 1 5)
      (MkState (set_application_ack_max_frames 32 (set_frames_waiting_for_ack [0; 1; 2] (driver 1))) tt) = (s', ev, Ok tt) /\
    frames_waiting_for_ack (mm s') = [1].
Proof.
  destruct (app_acks_release_frames slots 0 2 [0; 2]
    (MkState (set_application_ack_max_frames 32 (set_frames_waiting_for_ack [0; 1; 2] (driver 1))) tt))
    as (s' & ev & E & F & _); try done.
  - repeat constructor; lia.
  - intros ? w. by exists w.
  - exists s', ev. split; [exact E|]. rewrite F. reflexivity.
Qed.

Example unchecked_rate_undefined_witness :
  snd (handle_initiate_transmission slots 0
    (set_b set_mt_rate (Some 6) (set_b set_mt_type (Some DATA) empty_mm)) (MkState (driver 1) tt)) = Err UndefinedBehaviour.
Proof.
  apply (unchecked_rate_undefined slots 0 _ (set_b set_mt_rate (Some 6) (set_b set_mt_type (Some DATA) empty_mm)) _ tt);
    [reflexivity | reflexivity | right; vm_compute; reflexivity].
Qed.

End MmLinkWitness.
