(* ===== verification/FileTransfer.v ===== *)
(** * apps/acomms/goby_file_transfer/file_transfer.cpp

    The application as a state machine: the fragments received from each node,
    the requests, and what it publishes, writes and how it ends. The file system
    is a parameter (what can be read and written). Where the source would
    dereference an iterator past the end the model returns [Err OutOfBounds]. *)

From Stdlib Require Import Sorting.Sorted.
From S2P Require Import Prelude AssocList.

(** ** acomms/protobuf/file_transfer.proto *)

Record FileFragment : Type := MkFragment {
  ff_src : Z;
  ff_dest : Z;
  ff_fragment : Z;
  ff_is_last : bool;
  ff_num_bytes : Z;
  ff_data : bytes
}.

#[export] Instance FileFragment_eq_dec : EqDecision FileFragment.
Proof. solve_decision. Defined.

Inductive PushPull : Type := PUSH | PULL.

Record TransferRequest : Type := MkRequest {
  tr_src : Z;
  tr_dest : Z;
  tr_push_or_pull : PushPull;
  tr_file : bytes
}.

Definition empty_request : TransferRequest := MkRequest 0 0 PUSH [].

Inductive ErrorCode : Type :=
| COULD_NOT_READ_FILE | FILE_TOO_LARGE | TIMEOUT | COULD_NOT_WRITE_FILE
| ERROR_WHILE_READING | OTHER_ERROR.

Record TransferResponse : Type := MkResponse {
  rs_src : Z;
  rs_dest : Z;
  rs_transfer_successful : bool;
  rs_error : option ErrorCode;
  rs_num_fragments : option Z
}.

Inductive Action : Type := WAIT | ACTION_PUSH | ACTION_PULL.

Record FileTransferConfig : Type := MkFtConfig {
  ft_daemon : bool;
  ft_local_id : Z;
  ft_remote_id : option Z;
  ft_local_file : option bytes;
  ft_remote_file : bytes;
  ft_action : Action
}.

Definition remote_id (c : FileTransferConfig) : Z := default 0 (ft_remote_id c).
Definition local_file (c : FileTransferConfig) : bytes := default [] (ft_local_file c).

Inductive FtEvent : Type :=
| PublishRequest (r : TransferRequest)
| PublishFragment (f : FileFragment)
| PublishResponse (r : TransferResponse)
| WriteFile (path content : bytes)
| Exit (success : bool).

Record FileTransfer : Type := MkFileTransfer {
  receive_files : list (Z * list (Z * FileFragment));
  requests : list (Z * TransferRequest);
  waiting_for_request_ack : bool
}.

Inductive FtError : Type := Thrown (c : ErrorCode) | OutOfBounds.

Definition MAX_FILE_TRANSFER_BYTES : Z := 1048576.
Definition fragment_size : nat := 58.
Definition max_path : nat := 60.

(** the file system: contents that can be read, paths that can be written *)
Record FileSystem : Type := MkFs { fs_read : bytes -> option bytes; fs_can_write : bytes -> bool }.

(** ** Sending *)

(** One reading loop: [rest] is what the stream has not delivered yet, [good]
    its state, [slots] how many elements of the vector are left. A read that
    delivers less than asked sets the end-of-file state. *)
Fixpoint read_fragments (fuel slots : nat) (src dest idx size acquired : Z) (rest : bytes)
  : result FtError (list FileFragment) :=
  match slots with
  | O => Err OutOfBounds
  | S slots =>
      let data := take fragment_size rest in
      let bytes_read := Z.of_nat (length data) in
      let acquired := acquired + bytes_read in
      let fragment := MkFragment src dest idx (acquired =? size) bytes_read data in
      if (length rest <? fragment_size)%nat then
        (* the vector was sized in advance: the rest keeps its initial value *)
        Ok (fragment :: repeat (MkFragment src dest 0 false 0 []) slots)
      else
        match fuel with
        | O => Err OutOfBounds
        | S fuel =>
            let? more := read_fragments fuel slots src dest (idx + 1) size acquired (drop fragment_size rest) in
            Ok (fragment :: more)
        end
  end.

(** [std::ceil((double)size / fragment_size)] *)
Definition num_fragments (size : nat) : nat := (size + fragment_size - 1) / fragment_size.

(** the fragments published, and the number returned *)
Definition send_file (c : FileTransferConfig) (fs : FileSystem) (path : bytes)
  : result FtError (list FtEvent * Z) :=
  match fs_read fs path with
  | None => Err (Thrown COULD_NOT_READ_FILE)
  | Some content =>
      let size := Z.of_nat (length content) in
      if MAX_FILE_TRANSFER_BYTES <? size then Err (Thrown FILE_TOO_LARGE)
      else
        let? fragments := read_fragments (length content) (num_fragments (length content))
                            (ft_local_id c) (remote_id c) 0 size 0 content in
        Ok (map PublishFragment fragments, Z.of_nat (length fragments))
  end.

(** ** Receiving *)

(** the body of the file: [write(data, num_bytes)] of each fragment *)
Fixpoint write_fragments (frags : list (Z * FileFragment)) : result FtError bytes :=
  match frags with
  | [] => Ok []
  | (_, f) :: frags =>
      if Z.of_nat (length (ff_data f)) <? ff_num_bytes f then Err OutOfBounds
      else let? rest := write_fragments frags in Ok (take (Z.to_nat (ff_num_bytes f)) (ff_data f) ++ rest)
  end.

Definition handle_receive_fragment (c : FileTransferConfig) (fs : FileSystem) (fragment : FileFragment)
    (st : FileTransfer) : result FtError (FileTransfer * list FtEvent) :=
  let receive := al_insert_new (ff_fragment fragment) fragment
                   (default [] (al_lookup (ff_src fragment) (receive_files st))) in
  let st := MkFileTransfer (al_insert (ff_src fragment) receive (receive_files st)) (requests st)
              (waiting_for_request_ack st) in
  match last receive with
  | Some (_, l) =>
      if ff_is_last l && (Z.of_nat (length receive) =? ff_fragment l + 1) then
        let request := default empty_request (al_lookup (ff_src fragment) (requests st)) in
        (* [operator[]] creates the entry *)
        let st := MkFileTransfer (receive_files st) (al_insert (ff_src fragment) request (requests st))
                    (waiting_for_request_ack st) in
        if fs_can_write fs (tr_file request) then
          let? content := write_fragments receive in
          let response := MkResponse (tr_dest request) (tr_src request) true None None in
          Ok (st, WriteFile (tr_file request) content
                  :: if ft_daemon c then [PublishResponse response] else [Exit true])
        else
          let response := MkResponse (tr_dest request) (tr_src request) false (Some COULD_NOT_WRITE_FILE) None in
          Ok (st, if ft_daemon c then [PublishResponse response] else [Exit false])
      else Ok (st, [])
  | None => Ok (st, [])
  end.

(** ** Requests *)

Definition handle_remote_transfer_request (c : FileTransferConfig) (fs : FileSystem)
    (request : TransferRequest) (st : FileTransfer) : result FtError (FileTransfer * list FtEvent) :=
  let remember (st : FileTransfer) :=
    MkFileTransfer (receive_files st) (al_insert (tr_src request) request (requests st))
      (waiting_for_request_ack st) in
  match tr_push_or_pull request with
  | PUSH =>
      Ok (remember (MkFileTransfer (al_insert (tr_src request) [] (receive_files st)) (requests st)
                      (waiting_for_request_ack st)), [])
  | PULL =>
      let respond ok err n := PublishResponse (MkResponse (tr_dest request) (tr_src request) ok err n) in
      match send_file c fs (tr_file request) with
      | Ok (evs, n) => Ok (remember st, evs ++ [respond true None (Some n)])
      | Err (Thrown e) =>
          if ft_daemon c then Ok (remember st, [respond false (Some e) None]) else Ok (st, [Exit false])
      | Err OutOfBounds => Err OutOfBounds
      end
  end.

Definition handle_ack (request : TransferRequest) (st : FileTransfer) : FileTransfer :=
  MkFileTransfer (receive_files st) (requests st) false.

Definition handle_receive_response (c : FileTransferConfig) (response : TransferResponse) : list FtEvent :=
  if ft_daemon c then []
  else if rs_transfer_successful response then [] else [Exit false].

(** [push_file]: the request, then (once it is acknowledged) the file *)
Definition push_request (c : FileTransferConfig) (st : FileTransfer) : FileTransfer * list FtEvent :=
  (MkFileTransfer (receive_files st) (requests st) true,
   [PublishRequest (MkRequest (ft_local_id c) (remote_id c) PUSH (ft_remote_file c))]).

Definition push_poll (c : FileTransferConfig) (fs : FileSystem) (timed_out : bool) (st : FileTransfer)
  : result FtError (option (list FtEvent)) :=
  if timed_out then Ok (Some [])
  else if waiting_for_request_ack st then Ok None
  else let? (evs, _) := send_file c fs (local_file c) in Ok (Some evs).

Definition pull_file (c : FileTransferConfig) (st : FileTransfer) : FileTransfer * list FtEvent :=
  let request := MkRequest (remote_id c) (ft_local_id c) PULL (local_file c) in
  (MkFileTransfer (al_insert (tr_src request) [] (receive_files st))
     (al_insert (tr_src request) request (requests st)) (waiting_for_request_ack st),
   [PublishRequest (MkRequest (ft_local_id c) (remote_id c) PULL (ft_remote_file c))]).

(** the checks of the constructor; [false]: the program exits *)
Definition config_ok (c : FileTransferConfig) : bool :=
  match ft_action c with
  | WAIT => true
  | _ =>
      bool_decide (is_Some (ft_remote_id c)) && bool_decide (is_Some (ft_local_file c))
      && bool_decide (is_Some (ft_remote_id c)) && negb (max_path <? length (ft_remote_file c))%nat
  end.

(** ** The fragments of a file *)

(** Reference: consecutive pieces of 58 bytes, numbered, the last one marked. *)
Fixpoint chop (fuel : nat) (s : bytes) : list bytes :=
  match fuel with
  | O => []
  | S fuel => match s with [] => [] | _ => take fragment_size s :: chop fuel (drop fragment_size s) end
  end.

Definition fragments_of (src dest idx : Z) (pieces : list bytes) : list FileFragment :=
  imap (fun i p => MkFragment src dest (idx + Z.of_nat i) (Nat.eqb (S i) (length pieces))
                     (Z.of_nat (length p)) p) pieces.

Lemma fragments_of_cons src dest idx p pieces :
  pieces <> [] ->
  fragments_of src dest idx (p :: pieces)
  = MkFragment src dest idx false (Z.of_nat (length p)) p :: fragments_of src dest (idx + 1) pieces.
Proof.
  intros Hne. unfold fragments_of. cbn [imap length]. f_equal.
  - replace (Nat.eqb 1 (S (length pieces))) with false; [f_equal; lia|]. destruct pieces; [done | reflexivity].
  - apply imap_ext. intros i x _. simpl. f_equal. lia.
Qed.

Lemma num_fragments_step n : (fragment_size <= n)%nat -> num_fragments n = S (num_fragments (n - fragment_size)).
Proof.
  unfold num_fragments, fragment_size. intros H.
  replace (n + 58 - 1)%nat with (1 * 58 + (n - 58 + 58 - 1))%nat by lia.
  rewrite Nat.div_add_l by lia. lia.
Qed.

Lemma chop_nonempty s : s <> [] -> exists fuel', length s = S fuel' /\ chop (length s) s <> [].
Proof. destruct s; [done|]. intros _. eexists. split; [reflexivity|]. done. Qed.

Lemma chop_fuel : forall f f' s, (length s <= f)%nat -> (length s <= f')%nat -> chop f s = chop f' s.
Proof.
  induction f as [|f IH]; intros f' s H H'.
  - destruct s; [|simpl in H; lia]. by destruct f'.
  - destruct s as [|c s]; [by destruct f'|]. destruct f' as [|f']; [simpl in H'; lia|].
    cbn [chop]. f_equal. apply IH; rewrite length_drop; simpl in *; unfold fragment_size; lia.
Qed.

Definition pieces (s : bytes) : list bytes := chop (length s) s.

Lemma pieces_step s : s <> [] -> pieces s = take fragment_size s :: pieces (drop fragment_size s).
Proof.
  intros Hne. destruct s as [|c s]; [done|]. unfold pieces. cbn [length chop]. f_equal.
  apply chop_fuel; [|done]. rewrite length_drop. simpl. unfold fragment_size. lia.
Qed.

Lemma concat_pieces s : concat (pieces s) = s.
Proof.
  remember (length s) as n eqn:E. revert s E. induction (lt_wf n) as [n _ IH]. intros s ->.
  destruct (decide (s = [])) as [->|Hne]; [done|]. rewrite pieces_step by done. cbn [concat].
  rewrite (IH (length (drop fragment_size s))); [apply take_drop | | done].
  rewrite length_drop. destruct s; [done|]. simpl. unfold fragment_size. lia.
Qed.

(** The loop yields the reference fragments, or runs past the vector when the
    size is a multiple of the fragment size. *)
Lemma read_fragments_spec src dest size : forall n rest fuel idx acquired,
  length rest = n -> (n <= fuel)%nat -> size = acquired + Z.of_nat n ->
  read_fragments fuel (num_fragments n) src dest idx size acquired rest =
    if Nat.eqb (n mod fragment_size) 0 then Err OutOfBounds
    else Ok (fragments_of src dest idx (pieces rest)).
Proof.
  intros n. induction (lt_wf n) as [n _ IH]. intros rest fuel idx acquired Hn Hf Hsz.
  destruct (Nat.lt_ge_cases n fragment_size) as [Hlt|Hge].
  - destruct (Nat.eq_dec n 0%nat) as [->|Hne]; [by destruct fuel|].
    assert (H1 : num_fragments n = 1%nat).
    { unfold num_fragments, fragment_size in *. symmetry. apply (Nat.div_unique _ _ 1 (n - 1)); lia. }
    rewrite H1, Nat.mod_small by done. destruct (Nat.eqb_spec n 0); [done|].
    assert (Hne' : rest <> []) by (intros ->; simpl in Hn; lia).
    rewrite pieces_step by done. rewrite take_ge, drop_ge by lia.
    assert (Hlt' : (length rest <? fragment_size)%nat = true) by (apply Nat.ltb_lt; lia).
    destruct fuel; cbn [read_fragments repeat]; rewrite Hlt', take_ge by lia;
      (replace (acquired + Z.of_nat (length rest) =? size) with true by (symmetry; apply Z.eqb_eq; lia));
      unfold fragments_of; simpl; do 3 f_equal; lia.
  - rewrite num_fragments_step by done. destruct fuel as [|fuel]; [unfold fragment_size in *; lia|].
    cbn [read_fragments].
    replace (length rest <? fragment_size)%nat with false by (symmetry; apply Nat.ltb_ge; lia).
    assert (Ht : length (take fragment_size rest) = fragment_size) by (rewrite length_take; lia).
    rewrite Ht. rewrite (IH (n - fragment_size)%nat); try (rewrite ?length_drop; unfold fragment_size in *; lia).
    assert (Hmod : ((n - fragment_size) mod fragment_size = n mod fragment_size)%nat).
    { replace n with (n - fragment_size + 1 * fragment_size)%nat at 2 by lia.
      rewrite Nat.Div0.mod_add. done. }
    rewrite Hmod. destruct (Nat.eqb_spec (n mod fragment_size) 0) as [|Hm]; [done|]. cbn [rbind]. f_equal.
    assert (Hrest : drop fragment_size rest <> []).
    { intros E. apply (f_equal length) in E. rewrite length_drop, Hn in E. simpl in E.
      assert (En : n = fragment_size) by lia. by rewrite En, Nat.Div0.mod_same in Hm. }
    rewrite (pieces_step rest) by (by destruct rest).
    rewrite fragments_of_cons by (rewrite (pieces_step _ Hrest); done). rewrite Ht.
    replace (acquired + Z.of_nat fragment_size =? size) with false; [done|].
    symmetry. apply Z.eqb_neq. destruct (drop fragment_size rest) eqn:E; [done|].
    apply (f_equal length) in E. rewrite length_drop in E. simpl in E. lia.
Qed.

(** A readable file within the size limit is published as its 58 byte pieces, numbered from 0
    with the last one marked, and their number is returned, unless its size is a multiple of 58:
    then the reading loop writes past the end of the vector of fragments. *)
Lemma send_file_fragments c fs path content :
  fs_read fs path = Some content -> Z.of_nat (length content) <= MAX_FILE_TRANSFER_BYTES ->
  send_file c fs path =
    if Nat.eqb (length content mod fragment_size) 0 then Err OutOfBounds
    else Ok (map PublishFragment (fragments_of (ft_local_id c) (remote_id c) 0 (pieces content)),
             Z.of_nat (length (pieces content))).
Proof.
  intros Hr Hs. unfold send_file. rewrite Hr.
  replace (MAX_FILE_TRANSFER_BYTES <? _) with false by (symmetry; apply Z.ltb_ge; lia).
  rewrite (read_fragments_spec _ _ _ (length content)) by lia.
  destruct (Nat.eqb _ _); [done|]. cbn [rbind]. do 2 f_equal. unfold fragments_of. by rewrite length_imap.
Qed.

(** ** Reception: any order, duplicates, losses *)

Fixpoint receive_all (c : FileTransferConfig) (fs : FileSystem) (ds : list FileFragment) (st : FileTransfer)
  : result FtError (FileTransfer * list FtEvent) :=
  match ds with
  | [] => Ok (st, [])
  | d :: ds =>
      let? (st, evs) := handle_receive_fragment c fs d st in
      let? (st, evs') := receive_all c fs ds st in
      Ok (st, evs ++ evs')
  end.

Section Reception.
Variables (c : FileTransferConfig) (fs : FileSystem) (src dest : Z) (content : bytes) (req : TransferRequest).
Hypothesis Hdaemon : ft_daemon c = true.
Hypothesis Hwrite : fs_can_write fs (tr_file req) = true.

Let frs : list FileFragment := fragments_of src dest 0 (pieces content).

Lemma frs_lookup i f :
  frs !! i = Some f ->
  ff_src f = src /\ ff_fragment f = Z.of_nat i /\ ff_num_bytes f = Z.of_nat (length (ff_data f)) /\
  ff_is_last f = Nat.eqb (S i) (length frs) /\ pieces content !! i = Some (ff_data f).
Proof.
  unfold frs, fragments_of. rewrite length_imap, list_lookup_imap.
  destruct (pieces content !! i) as [p|]; simpl; [|done]. intros [= <-]. done.
Qed.

(** what has been received from [src] *)
Definition received (R : list (Z * FileFragment)) : Prop :=
  StronglySorted Z.lt (map fst R) /\
  forall k f, (k, f) ∈ R -> exists i, k = Z.of_nat i /\ frs !! i = Some f.

Lemma received_insert R f : received R -> f ∈ frs -> received (al_insert_new (ff_fragment f) f R).
Proof.
  intros [S H] Hf. split; [by apply al_insert_new_sorted|]. intros k g Hin.
  unfold al_insert_new in Hin. destruct (al_lookup _ R) eqn:E; [by apply H|].
  apply list_elem_of_lookup in Hf as [i Hi]. pose proof (frs_lookup i f Hi) as (_ & Hk & _).
  assert (Hl : al_lookup k (al_insert (ff_fragment f) f R) = Some g)
    by (apply al_sorted_lookup; [by apply al_insert_sorted | done]).
  rewrite al_lookup_insert in Hl. destruct (k =? ff_fragment f) eqn:Ek; to_prop.
  - injection Hl as <-. exists i. split; [congruence | done].
  - by apply H, al_lookup_elem.
Qed.

Definition complete : list (Z * FileFragment) := imap (fun i f => (Z.of_nat i, f)) frs.

(** As many fragments as the file has, and they are all there in order. *)
Lemma received_complete R : received R -> length R = length frs -> R = complete.
Proof.
  intros [S H] Hlen.
  assert (Hkeys : map fst R = map (fun i => 0 + Z.of_nat i) (seq 0 (length (map fst R)))).
  { apply sorted_dense; [done|]. rewrite Forall_forall. intros z Hz.
    apply list_elem_of_fmap in Hz as [[k f] [-> Hin]]. destruct (H k f Hin) as (i & -> & Hi).
    apply lookup_lt_Some in Hi. simpl. rewrite length_map. lia. }
  apply list_eq_same_length with (n := length frs); [|done|].
  - unfold complete. by rewrite length_imap.
  - intros i [k f] [k' f'] Hi HR HC. unfold complete in HC. rewrite list_lookup_imap in HC.
    destruct (frs !! i) as [g|] eqn:Eg; [|done]. injection HC as <- <-.
    assert (Hk : map fst R !! i = Some k) by (by rewrite (list_lookup_fmap fst), HR).
    rewrite Hkeys, (list_lookup_fmap (fun i => 0 + Z.of_nat i)) in Hk.
    rewrite lookup_seq_lt in Hk by (rewrite length_map; lia). injection Hk as <-.
    destruct (H _ f (list_elem_of_lookup_2 _ _ _ HR)) as (j & Hj & Hfj).
    replace j with i in Hfj by (simpl in Hj; lia). rewrite Eg in Hfj. by injection Hfj as ->.
Qed.

Lemma write_fragments_data : forall (l : list (Z * FileFragment)),
  Forall (fun e => ff_num_bytes (snd e) = Z.of_nat (length (ff_data (snd e)))) l ->
  write_fragments l = Ok (concat (map (fun e => ff_data (snd e)) l)).
Proof.
  induction 1 as [|[k f] l Hf Hl IH]; [done|]. cbn [write_fragments snd] in *. rewrite Hf, Z.ltb_irrefl, IH.
  cbn [rbind]. rewrite Nat2Z.id, take_ge by lia. done.
Qed.

Lemma write_complete : write_fragments complete = Ok content.
Proof.
  rewrite write_fragments_data.
  - f_equal. transitivity (concat (pieces content)); [|apply concat_pieces]. f_equal. apply list_eq. intros i.
    rewrite (list_lookup_fmap (fun e : Z * FileFragment => ff_data (snd e))). unfold complete.
    rewrite list_lookup_imap. destruct (frs !! i) as [f|] eqn:E; simpl.
    + by apply frs_lookup in E as (_ & _ & _ & _ & ->).
    + symmetry. apply lookup_ge_None_2. apply lookup_ge_None_1 in E.
      unfold frs, fragments_of in E. by rewrite length_imap in E.
  - rewrite Forall_forall. intros [k f] Hin. apply list_elem_of_lookup in Hin as [i Hi].
    unfold complete in Hi. rewrite list_lookup_imap in Hi. destruct (frs !! i) as [g|] eqn:E; [|done].
    injection Hi as <- <-. by apply frs_lookup in E as (_ & _ & ? & _).
Qed.

(** the receiver's state between fragments *)
Definition receiving (st : FileTransfer) : Prop :=
  received (default [] (al_lookup src (receive_files st))) /\ al_lookup src (requests st) = Some req.

(** One fragment: nothing is written, or the whole file is. *)
Lemma receive_step f st :
  receiving st -> f ∈ frs ->
  exists st' evs, handle_receive_fragment c fs f st = Ok (st', evs) /\ receiving st' /\
    default [] (al_lookup src (receive_files st')) =
      al_insert_new (ff_fragment f) f (default [] (al_lookup src (receive_files st))) /\
    (forall p d, WriteFile p d ∈ evs -> p = tr_file req /\ d = content) /\
    (al_insert_new (ff_fragment f) f (default [] (al_lookup src (receive_files st))) = complete ->
     WriteFile (tr_file req) content ∈ evs).
Proof.
  intros [Hr Hq] Hf. unfold handle_receive_fragment. cbv zeta.
  assert (Hsrc : ff_src f = src) by (apply list_elem_of_lookup in Hf as [i Hi]; by apply frs_lookup in Hi as [? _]).
  rewrite Hsrc. set (R := al_insert_new _ _ _).
  assert (HR : received R) by (by apply received_insert).
  assert (Hne : R <> []) by apply al_insert_new_nonempty.
  assert (Hst : forall rq w, rq = requests st \/ rq = al_insert src req (requests st) ->
            receiving (MkFileTransfer (al_insert src R (receive_files st)) rq w) /\
            default [] (al_lookup src (al_insert src R (receive_files st))) = R).
  { intros rq w Hrq. unfold receiving. simpl. rewrite al_lookup_insert, Z.eqb_refl. simpl. split; [|done].
    split; [done|]. destruct Hrq as [-> | ->]; [done|]. by rewrite al_lookup_insert, Z.eqb_refl. }
  destruct (last R) as [[k l]|] eqn:El; [|by apply last_None in El].
  assert (Hl : exists i, k = Z.of_nat i /\ frs !! i = Some l) by (apply HR; by apply last_Some_elem_of).
  destruct Hl as (i & -> & Hi). pose proof (frs_lookup i l Hi) as (_ & Hfrag & _ & Hlast & _).
  destruct (ff_is_last l && _) eqn:Ec.
  - to_prop. assert (HRc : R = complete).
    { apply received_complete; [done|]. rewrite Hlast in *. apply Nat.eqb_eq in H. lia. }
    simpl. rewrite Hq. simpl. rewrite Hwrite, HRc, write_complete. simpl. rewrite Hdaemon.
    eexists _, _. split; [reflexivity|]. rewrite <- HRc.
    destruct (Hst (al_insert src req (requests st)) (waiting_for_request_ack st)) as [H1 H2]; [auto|].
    split; [exact H1|]. split; [exact H2|]. split; [|intros _; set_solver].
    intros p d. rewrite !elem_of_cons, elem_of_nil. intros [[= -> ->]|[?|?]]; done.
  - eexists _, _. split; [reflexivity|].
    destruct (Hst (requests st) (waiting_for_request_ack st)) as [H1 H2]; [auto|].
    split; [exact H1|]. split; [exact H2|]. split; [set_solver|].
    intros HRc. exfalso. rewrite HRc in El. unfold complete in El.
    assert (Hlen : length R = length frs) by (rewrite HRc; apply length_imap).
    rewrite last_lookup, length_imap, list_lookup_imap in El.
    destruct (frs !! pred (length frs)) as [g|] eqn:Eg; [|done]. injection El as Hk ->.
    pose proof (lookup_lt_Some _ _ _ Eg) as Hlt. assert (i = pred (length frs)) by lia. subst i.
    rewrite Hlast, Hfrag, Hlen in Ec.
    replace (S (pred (length frs))) with (length frs) in Ec by lia. rewrite Nat.eqb_refl in Ec.
    simpl in Ec. to_prop. lia.
Qed.

Lemma receive_all_spec : forall ds st,
  receiving st -> Forall (fun f => f ∈ frs) ds ->
  exists st' evs, receive_all c fs ds st = Ok (st', evs) /\ receiving st' /\
    default [] (al_lookup src (receive_files st')) =
      foldl (fun R f => al_insert_new (ff_fragment f) f R) (default [] (al_lookup src (receive_files st))) ds /\
    (forall p d, WriteFile p d ∈ evs -> p = tr_file req /\ d = content) /\
    (ds <> [] -> default [] (al_lookup src (receive_files st')) = complete ->
     WriteFile (tr_file req) content ∈ evs).
Proof.
  induction ds as [|f ds IH]; intros st Hst F; cbn [receive_all foldl].
  { exists st, []. split_and!; auto; set_solver. }
  apply Forall_cons in F as [Hf F].
  destruct (receive_step f st Hst Hf) as (st1 & ev1 & -> & Hst1 & HR1 & Hw1 & Hc1). cbn [rbind].
  destruct (IH st1 Hst1 F) as (st2 & ev2 & E2 & Hst2 & HR2 & Hw2 & Hc2). rewrite E2. cbn [rbind].
  exists st2, (ev1 ++ ev2). split; [done|]. split; [done|]. rewrite HR1 in HR2. split; [exact HR2|]. split.
  - intros p d. rewrite elem_of_app. intros [?|?]; eauto.
  - intros _ Hcmp. apply elem_of_app. destruct (decide (ds = [])) as [->|Hne]; [left | right; auto].
    apply Hc1. by rewrite HR2 in Hcmp.
Qed.

(** every delivered fragment is in the map *)
Lemma insert_all_lookup ds : forall R f,
  Forall (fun f => f ∈ frs) ds -> received R -> f ∈ ds ->
  al_lookup (ff_fragment f) (foldl (fun R f => al_insert_new (ff_fragment f) f R) R ds) = Some f.
Proof.
  assert (Hkeep : forall ds R k f, al_lookup k R = Some f ->
            al_lookup k (foldl (fun R f => al_insert_new (ff_fragment f) f R) R ds) = Some f).
  { clear. induction ds as [|g ds IH]; intros R k f H; simpl; [done|]. apply IH.
    by rewrite al_insert_new_lookup, H. }
  induction ds as [|g ds IH]; intros R f F HR Hf; [set_solver|]. simpl.
  apply Forall_cons in F as [Hg F]. apply elem_of_cons in Hf as [->|Hf].
  - apply Hkeep. rewrite al_insert_new_lookup, Z.eqb_refl.
    destruct (al_lookup (ff_fragment g) R) as [h|] eqn:E; [|done].
    apply al_lookup_elem in E. destruct HR as [_ HR]. destruct (HR _ _ E) as (i & Hi & Hh).
    apply list_elem_of_lookup in Hg as [j Hj]. pose proof (frs_lookup j g Hj) as (_ & Hk & _).
    assert (i = j) by lia. subst j. congruence.
  - apply IH; auto. by apply received_insert.
Qed.

Lemma all_received_complete R :
  received R -> (forall f, f ∈ frs -> al_lookup (ff_fragment f) R = Some f) -> R = complete.
Proof.
  intros HR Hall. apply received_complete; [done|]. destruct HR as [S H]. apply Nat.le_antisymm.
  - pose proof (sorted_length (map fst R) 0 (Z.of_nat (length frs)) S) as Hle.
    rewrite length_map in Hle. apply Nat2Z.inj_le. specialize (Hle ltac:(
      rewrite Forall_forall; intros z Hz; apply list_elem_of_fmap in Hz as [[k f] [-> Hin]];
      destruct (H k f Hin) as (i & -> & Hi); apply lookup_lt_Some in Hi; simpl; lia) ltac:(lia)). lia.
  - rewrite <- (length_map fst R).
    replace (length frs) with (length (map (fun f => ff_fragment f) frs)) by apply length_map.
    apply NoDup_incl_length.
    + apply NoDup_ListNoDup. apply NoDup_alt. intros i j z Hi Hj.
      rewrite (list_lookup_fmap (fun f => ff_fragment f)) in Hi, Hj.
      destruct (frs !! i) as [f|] eqn:Ei; [|done]. destruct (frs !! j) as [g|] eqn:Ej; [|done].
      apply frs_lookup in Ei as (_ & Ei & _). apply frs_lookup in Ej as (_ & Ej & _).
      simpl in Hi, Hj. injection Hi as <-. injection Hj as Hj. lia.
    + intros z Hz. apply in_map_iff in Hz as [f [<- Hf]]. apply list_elem_of_In in Hf.
      apply Hall, al_lookup_elem in Hf. apply in_map_iff. exists (ff_fragment f, f).
      split; [done | by apply list_elem_of_In].
Qed.

(** C37: After a request, any sequence of deliveries of the fragments of a file, in any order and
    with repetitions, is handled without an error, writes nothing but the complete content to the
    requested path, and writes it once every fragment has been delivered. *)
Theorem file_received_exactly ds st :
  receiving st -> ds <> [] -> Forall (fun f => f ∈ frs) ds ->
  exists st' evs, receive_all c fs ds st = Ok (st', evs) /\
    (forall p d, WriteFile p d ∈ evs -> p = tr_file req /\ d = content) /\
    ((forall f, f ∈ frs -> f ∈ ds) -> WriteFile (tr_file req) content ∈ evs).
Proof.
  intros Hst Hne F. destruct (receive_all_spec ds st Hst F) as (st' & evs & E & Hst' & HR & Hw & Hc).
  exists st', evs. split; [done|]. split; [done|]. intros Hall. apply Hc; [done|].
  apply all_received_complete; [apply Hst'|]. intros f Hf. rewrite HR.
  apply insert_all_lookup; [done | apply Hst | by apply Hall].
Qed.

End Reception.

(** ** Evaluation *)
Module FileTransferWitness.

Definition file : bytes := map Z.of_nat (seq 0 70).
Definition config : FileTransferConfig := MkFtConfig true 1 (Some 2) None [] WAIT.
Definition fs : FileSystem := MkFs (fun p => if bool_decide (p = B "a") then Some file else None) (fun _ => true).

Example send_file_fragments_witness :
  send_file config fs (B "a") =
    Ok (map PublishFragment (fragments_of 1 2 0 [map Z.of_nat (seq 0 58); map Z.of_nat (seq 58 12)]), 2).
Proof.
  rewrite (send_file_fragments config fs (B "a") file eq_refl ltac:(vm_compute; discriminate)).
  vm_compute. reflexivity.
Qed.

Definition request : TransferRequest := MkRequest 2 1 PUSH (B "out").

(** the two fragments out of order, one of them twice *)
Definition delivery : list FileFragment :=
  match fragments_of 2 1 0 (pieces file) with f0 :: f1 :: _ => [f1; f0; f1] | _ => [] end.

Lemma file_received_exactly_witness :
  exists st' evs, receive_all config fs delivery (MkFileTransfer [(2, [])] [(2, request)] false) = Ok (st', evs)
    /\ WriteFile (B "out") file ∈ evs.
Proof.
  destruct (file_received_exactly config fs 2 1 file request eq_refl eq_refl delivery
    (MkFileTransfer [(2, [])] [(2, request)] false)) as (st' & evs & E & _ & H).
  - split; [|reflexivity]. split; [constructor|]. intros k f Hf. inversion Hf.
  - discriminate.
  - apply (bool_decide_unpack _). vm_compute. exact I.
  - exists st', evs. split; [exact E|]. apply H. apply Forall_forall.
    apply (bool_decide_unpack _). vm_compute. exact I.
Defined.

End FileTransferWitness.
