(* ===== verification/Mosh.v ===== *)
(** * apps/acomms/goby_mosh_relay/mosh_relay.cpp

    UDP datagrams cut into [MoshPacket]s and put together again. The
    [std::set] of fragments is ordered by [frag_num]; as with the map, inserting
    a fragment whose number is present has no effect. *)

From Stdlib Require Import Sorting.Sorted.
From S2P Require Import Prelude AssocList.

Definition MOSH_FRAGMENT_SIZE : nat := 59.

Record MoshPacket : Type := MkMosh {
  mp_src : Z;
  mp_dest : Z;
  mp_frag_num : Z;
  mp_frag_len : Z;
  mp_is_last_frag : bool;
  mp_fragment : bytes
}.

(** the ordered set *)
Abbreviation Packetizer := (list (Z * MoshPacket)).

Definition insert_fragment (frag : MoshPacket) (p : Packetizer) : Packetizer :=
  al_insert_new (mp_frag_num frag) frag p.

(** the loop of the constructor; [frag->resize], then [std::copy] into it *)
Fixpoint packetize_loop (count : nat) (i : nat) (n : nat) (src dest : Z) (input : bytes) (p : Packetizer)
  : Packetizer :=
  match count with
  | O => p
  | S count =>
      let len := Nat.min MOSH_FRAGMENT_SIZE (length input - i * MOSH_FRAGMENT_SIZE) in
      let piece := take len (drop (i * MOSH_FRAGMENT_SIZE) input) in
      let previous := match al_lookup (Z.of_nat i - 1) p with Some q => mp_fragment q | None => [] end in
      let body := piece ++ drop len (take MOSH_FRAGMENT_SIZE previous
                                       ++ repeat 0 (MOSH_FRAGMENT_SIZE - length previous)) in
      let packet := MkMosh src dest (Z.of_nat i) (Z.of_nat len) (Nat.eqb (i + 1) n) body in
      packetize_loop count (S i) n src dest input (insert_fragment packet p)
  end.

Definition packetize (src dest : Z) (input : bytes) : Packetizer :=
  let n := ((length input + MOSH_FRAGMENT_SIZE - 1) / MOSH_FRAGMENT_SIZE)%nat in
  packetize_loop n 0 n src dest input [].

Definition add_fragment (frag : MoshPacket) (p : Packetizer) : Packetizer * bool :=
  let p := insert_fragment frag p in
  if mp_is_last_frag frag && negb (Z.of_nat (length p) =? mp_frag_num frag + 1) then ([], false)
  else (p, mp_is_last_frag frag).

(** [out] is sized for full fragments; the copies follow each other, the rest
    stays zero, and the end is cut by what the last fragment lacks *)
Definition reassemble (p : Packetizer) : bytes :=
  match last p with
  | None => []
  | Some (_, l) =>
      let copied := concat (map (fun e => take (Z.to_nat (mp_frag_len (snd e))) (mp_fragment (snd e))) p) in
      let out := copied ++ repeat 0 (MOSH_FRAGMENT_SIZE * length p - length copied) in
      take (length out - (MOSH_FRAGMENT_SIZE - Z.to_nat (mp_frag_len l))) out
  end.

(** ** The relay *)

Record MoshRelay : Type := MkRelay { mr_src_modem_id : Z; mr_dest_modem_id : Z; mr_packets : list (Z * Packetizer) }.

Inductive MoshEvent : Type :=
| PublishPacket (p : MoshPacket)
| SendUdp (payload : bytes).

Definition handle_udp_receive (r : MoshRelay) (datagram : bytes) : list MoshEvent :=
  map (fun e => PublishPacket (snd e)) (packetize (mr_src_modem_id r) (mr_dest_modem_id r) datagram).

Definition handle_goby_receive (packet : MoshPacket) (r : MoshRelay) : MoshRelay * list MoshEvent :=
  if (mp_dest packet =? mr_src_modem_id r) && (mp_src packet =? mr_dest_modem_id r) then
    let '(p, ready) := add_fragment packet (default [] (al_lookup (mp_src packet) (mr_packets r))) in
    if ready then
      (MkRelay (mr_src_modem_id r) (mr_dest_modem_id r) (al_erase (mp_src packet) (mr_packets r)),
       [SendUdp (reassemble p)])
    else
      (MkRelay (mr_src_modem_id r) (mr_dest_modem_id r) (al_insert (mp_src packet) p (mr_packets r)), [])
  else (r, []).

(** ** The fragments of a datagram *)

Definition num_frags (input : bytes) : nat := ((length input + MOSH_FRAGMENT_SIZE - 1) / MOSH_FRAGMENT_SIZE)%nat.

(** the bytes of fragment [i] *)
Definition piece (input : bytes) (i : nat) : bytes := take MOSH_FRAGMENT_SIZE (drop (i * MOSH_FRAGMENT_SIZE) input).

(** what matters of a packet: number, length, flag and the bytes it carries *)
Definition carries (input : bytes) (i : nat) (e : Z * MoshPacket) : Prop :=
  fst e = Z.of_nat i /\ mp_frag_num (snd e) = Z.of_nat i /\
  mp_frag_len (snd e) = Z.of_nat (length (piece input i)) /\
  take (Z.to_nat (mp_frag_len (snd e))) (mp_fragment (snd e)) = piece input i /\
  mp_is_last_frag (snd e) = Nat.eqb (S i) (num_frags input).

Lemma al_insert_snoc {A} k (v : A) l :
  Forall (fun e => fst e < k) l -> al_insert k v l = l ++ [(k, v)].
Proof.
  induction 1 as [|[j w] l Hj _ IH]; simpl in *; [done|].
  replace (k =? j) with false by (symmetry; apply Z.eqb_neq; lia).
  replace (k <? j) with false by (symmetry; apply Z.ltb_ge; lia). by rewrite IH.
Qed.

Lemma al_lookup_below {A} k (l : list (Z * A)) :
  Forall (fun e => fst e < k) l -> al_lookup k l = None.
Proof.
  induction 1 as [|[j w] l Hj _ IH]; simpl in *; [done|].
  replace (k =? j) with false by (symmetry; apply Z.eqb_neq; lia). done.
Qed.

Lemma insert_fragment_snoc frag p :
  Forall (fun e => fst e < mp_frag_num frag) p -> insert_fragment frag p = p ++ [(mp_frag_num frag, frag)].
Proof.
  intros H. unfold insert_fragment, al_insert_new. rewrite al_lookup_below by done. by apply al_insert_snoc.
Qed.

(** fragments [0 .. i) *)
Definition prefix_of (input : bytes) (i : nat) (p : Packetizer) : Prop :=
  length p = i /\ forall j e, p !! j = Some e -> carries input j e.

Lemma prefix_below input i p : prefix_of input i p -> Forall (fun e => fst e < Z.of_nat i) p.
Proof.
  intros [Hl H]. rewrite Forall_forall. intros e He. apply list_elem_of_lookup in He as [j Hj].
  pose proof (lookup_lt_Some _ _ _ Hj). destruct (H j e Hj) as [-> _]. lia.
Qed.

Lemma prefix_snoc input i p e : prefix_of input i p -> carries input i e -> prefix_of input (S i) (p ++ [e]).
Proof.
  intros [Hl H] He. split; [rewrite length_app; simpl; lia|]. intros j e' Hj.
  apply lookup_app_Some in Hj as [Hj|[Hge Hj]]; [by apply H|].
  apply list_lookup_singleton_Some in Hj as [Hj <-]. replace j with i by lia. done.
Qed.

Lemma packetize_loop_spec src dest input : forall count i p,
  (i + count = num_frags input)%nat -> prefix_of input i p ->
  prefix_of input (num_frags input) (packetize_loop count i (num_frags input) src dest input p).
Proof.
  induction count as [|count IH]; intros i p Hc Hp; cbn [packetize_loop].
  { replace (num_frags input) with i by lia. done. }
  apply IH; [lia|]. set (packet := MkMosh _ _ _ _ _ _).
  rewrite insert_fragment_snoc by (by eapply prefix_below). apply prefix_snoc; [done|].
  assert (Hpiece : take (Nat.min MOSH_FRAGMENT_SIZE (length input - i * MOSH_FRAGMENT_SIZE))
                     (drop (i * MOSH_FRAGMENT_SIZE) input) = piece input i).
  { unfold piece. rewrite <- take_take. f_equal. rewrite take_ge; [done|]. rewrite length_drop. lia. }
  assert (Hlen : length (piece input i) = Nat.min MOSH_FRAGMENT_SIZE (length input - i * MOSH_FRAGMENT_SIZE)).
  { unfold piece. rewrite length_take, length_drop. done. }
  unfold carries. cbn [fst snd]. split; [done|]. split; [done|]. split; [unfold packet; cbn [mp_frag_len]; by rewrite Hlen|]. split.
  - unfold packet. cbn [mp_frag_len mp_fragment]. rewrite Nat2Z.id, Hpiece, <- Hlen. apply take_app_length.
  - unfold packet. cbn [mp_is_last_frag]. f_equal. lia.
Qed.

Lemma packetize_prefix src dest input :
  prefix_of input (num_frags input) (packetize src dest input).
Proof. unfold packetize. apply packetize_loop_spec; [done|]. split; done. Qed.

Lemma concat_pieces_upto input : forall n,
  concat (map (piece input) (seq 0 n)) = take (n * MOSH_FRAGMENT_SIZE) input.
Proof.
  induction n as [|n IH]; [done|]. rewrite seq_S, map_app, concat_app, IH. cbn [map concat].
  rewrite app_nil_r. unfold piece. cbn [Nat.add].
  rewrite <- (take_drop (n * MOSH_FRAGMENT_SIZE) (take (S n * MOSH_FRAGMENT_SIZE) input)).
  rewrite take_take, Nat.min_l by (unfold MOSH_FRAGMENT_SIZE; lia). f_equal.
  rewrite take_drop_commute. do 2 f_equal. unfold MOSH_FRAGMENT_SIZE. lia.
Qed.

Lemma num_frags_bounds input :
  input <> [] -> (0 < num_frags input)%nat /\
  (length input <= num_frags input * MOSH_FRAGMENT_SIZE < length input + MOSH_FRAGMENT_SIZE)%nat.
Proof.
  intros Hne. assert (0 < length input)%nat by (destruct input; simpl; [done | lia]).
  unfold num_frags, MOSH_FRAGMENT_SIZE.
  pose proof (Nat.div_mod_eq (length input + 59 - 1) 59).
  pose proof (Nat.mod_upper_bound (length input + 59 - 1) 59 ltac:(lia)). nia.
Qed.

Lemma prefix_copied input n p :
  prefix_of input n p ->
  map (fun e => take (Z.to_nat (mp_frag_len (snd e))) (mp_fragment (snd e))) p = map (piece input) (seq 0 n).
Proof.
  intros [Hl H]. apply list_eq. intros i.
  rewrite (list_lookup_fmap (fun e : Z * MoshPacket => take (Z.to_nat (mp_frag_len (snd e))) (mp_fragment (snd e)))),
    (list_lookup_fmap (piece input)).
  destruct (p !! i) as [e|] eqn:E.
  - pose proof (lookup_lt_Some _ _ _ E). rewrite lookup_seq_lt by lia. simpl.
    destruct (H i e E) as (_ & _ & _ & -> & _). done.
  - apply lookup_ge_None_1 in E. rewrite (lookup_ge_None_2 (seq 0 _)); [done|]. rewrite length_seq. lia.
Qed.

Abbreviation copied := (fun p : Packetizer =>
  concat (map (fun e => take (Z.to_nat (mp_frag_len (snd e))) (mp_fragment (snd e))) p)).

(** Full fragments but for the last one: the copies are the result. *)
Lemma reassemble_copied p k l n :
  last p = Some (k, l) -> mp_frag_len l = Z.of_nat n -> (n <= MOSH_FRAGMENT_SIZE)%nat ->
  (length (copied p) = MOSH_FRAGMENT_SIZE * (length p - 1) + n)%nat -> reassemble p = copied p.
Proof.
  intros Hlast Hn Hle Hlen. unfold reassemble. rewrite Hlast, Hn, Nat2Z.id.
  assert (Hp : (0 < length p)%nat) by (destruct p; [done | simpl; lia]).
  rewrite length_app, repeat_length.
  match goal with |- take ?k _ = _ => replace k with (length (copied p)) end.
  - apply take_app_length.
  - unfold MOSH_FRAGMENT_SIZE in *. lia.
Qed.

(** A complete set of fragments gives back the datagram. *)
Lemma reassemble_prefix input p :
  input <> [] -> prefix_of input (num_frags input) p -> reassemble p = input.
Proof.
  intros Hne Hp. destruct (num_frags_bounds input Hne) as [Hpos Hb]. pose proof Hp as [Hl H].
  assert (Hcop : copied p = input)
    by (cbv beta; rewrite (prefix_copied input _ p Hp), concat_pieces_upto, take_ge; [done | lia]).
  destruct (last p) as [[k l]|] eqn:E.
  2: { apply last_None in E. subst p. simpl in Hl. lia. }
  pose proof E as E'. rewrite last_lookup in E'. destruct (H _ _ E') as (_ & _ & Hlen & _). cbn [snd] in Hlen.
  assert (Hlast : length (piece input (pred (length p)))
                  = (length input - pred (length p) * MOSH_FRAGMENT_SIZE)%nat).
  { unfold piece. rewrite length_take, length_drop. unfold MOSH_FRAGMENT_SIZE in *. nia. }
  rewrite (reassemble_copied p k l _ E Hlen); [done | |].
  - unfold piece. rewrite length_take. lia.
  - rewrite Hcop, Hlast. unfold MOSH_FRAGMENT_SIZE in *. nia.
Qed.

(** ** Delivery in order *)

Fixpoint add_all (frags : list MoshPacket) (p : Packetizer) : Packetizer * bool :=
  match frags with
  | [] => (p, false)
  | [f] => add_fragment f p
  | f :: frags => let '(p, _) := add_fragment f p in add_all frags p
  end.

Lemma add_all_prefix input : forall (frags : Packetizer) (i : nat) (p : Packetizer),
  frags <> [] -> (i + length frags = num_frags input)%nat -> prefix_of input i p ->
  (forall j e, frags !! j = Some e -> carries input (i + j) e) ->
  exists p', add_all (map snd frags) p = (p', true) /\ prefix_of input (num_frags input) p'.
Proof.
  induction frags as [|[k f] frags IH]; intros i p Hne Hlen Hp Hf; [done|]. cbn [length] in Hlen.
  pose proof (Hf 0%nat (k, f) eq_refl) as Hc. rewrite Nat.add_0_r in Hc.
  pose proof Hc as (Hk & Hnum & _ & _ & Hlast). cbn [fst snd] in *.
  assert (Hins : insert_fragment f p = p ++ [(k, f)]).
  { rewrite Hk, <- Hnum. apply insert_fragment_snoc. rewrite Hnum. by eapply prefix_below. }
  assert (Hp' : prefix_of input (S i) (p ++ [(k, f)])) by (by apply prefix_snoc).
  assert (Hadd : add_fragment f p = (p ++ [(k, f)], mp_is_last_frag f)).
  { unfold add_fragment. rewrite Hins. destruct Hp' as [-> _]. rewrite Hnum.
    replace (Z.of_nat (S i) =? Z.of_nat i + 1) with true by (symmetry; apply Z.eqb_eq; lia).
    by rewrite andb_false_r. }
  destruct frags as [|[k2 f2] frags].
  - simpl in *. rewrite Hadd, Hlast. exists (p ++ [(k, f)]).
    replace (num_frags input) with (S i) by lia. rewrite Nat.eqb_refl. done.
  - cbn [map snd add_all]. rewrite Hadd. apply (IH (S i)); [done | lia | done |].
    intros j e Hj. replace (S i + j)%nat with (i + S j)%nat by lia. by apply Hf.
Qed.

(** The fragments of a non-empty datagram, added in order, are accepted as complete with the
    last one and reassemble to the datagram. *)
Lemma packetizer_roundtrip src dest input :
  input <> [] ->
  exists p, add_all (map snd (packetize src dest input)) [] = (p, true) /\ reassemble p = input.
Proof.
  intros Hne. destruct (num_frags_bounds input Hne) as [Hpos _].
  pose proof (packetize_prefix src dest input) as Hpk. pose proof Hpk as [Hlen Hc].
  destruct (add_all_prefix input (packetize src dest input) 0 []) as (p & Hp & Hpre).
  - intros E. rewrite E in Hlen. simpl in Hlen. lia.
  - done.
  - split; done.
  - intros j e Hj. by apply Hc.
  - exists p. split; [done|]. by apply reassemble_prefix.
Qed.

(** ** Loss *)

Lemma add_all_app : forall l1 l2 p,
  l2 <> [] -> add_all (l1 ++ l2) p = add_all l2 (foldl (fun p f => fst (add_fragment f p)) p l1).
Proof.
  induction l1 as [|f l1 IH]; intros l2 p Hne; [done|]. cbn [app foldl]. rewrite <- IH by done.
  assert (Hne' : l1 ++ l2 <> []) by (destruct l1; done).
  cbn [add_all]. destruct (l1 ++ l2) as [|g l]; [done|]. by destruct (add_fragment f p).
Qed.

(** the fragments before the last one are just collected *)
Lemma add_prefix input : forall (frags : Packetizer) (i : nat) (p : Packetizer),
  (i + length frags < num_frags input)%nat -> prefix_of input i p ->
  (forall j e, frags !! j = Some e -> carries input (i + j) e) ->
  prefix_of input (i + length frags) (foldl (fun p f => fst (add_fragment f p)) p (map snd frags)).
Proof.
  induction frags as [|[k f] frags IH]; intros i p Hlen Hp Hf; cbn [length map foldl snd] in *.
  { by rewrite Nat.add_0_r. }
  pose proof (Hf 0%nat (k, f) eq_refl) as Hc. rewrite Nat.add_0_r in Hc.
  pose proof Hc as (Hk & Hnum & _ & _ & Hlast). cbn [fst snd] in *.
  replace (i + S (length frags))%nat with (S i + length frags)%nat by lia. apply IH; [lia | |].
  - unfold add_fragment. rewrite Hlast.
    replace (Nat.eqb (S i) (num_frags input)) with false by (symmetry; apply Nat.eqb_neq; lia). cbn [andb fst].
    rewrite insert_fragment_snoc by (rewrite Hnum; by eapply prefix_below). rewrite Hnum, <- Hk. by apply prefix_snoc.
  - intros j e Hj. replace (S i + j)%nat with (i + S j)%nat by lia. by apply Hf.
Qed.

(** fragments whose numbers are already present change nothing *)
Lemma add_known input : forall (frags : Packetizer) (i : nat) (p : Packetizer),
  (i + length frags < num_frags input)%nat ->
  (forall j, (j < i + length frags)%nat -> is_Some (al_lookup (Z.of_nat j) p)) ->
  (forall j e, frags !! j = Some e -> carries input (i + j) e) ->
  foldl (fun p f => fst (add_fragment f p)) p (map snd frags) = p.
Proof.
  induction frags as [|[k f] frags IH]; intros i p Hlen Hp Hf; cbn [length map foldl snd] in *; [done|].
  pose proof (Hf 0%nat (k, f) eq_refl) as (Hk & Hnum & _ & _ & Hlast). rewrite Nat.add_0_r in *. cbn [fst snd] in *.
  assert (Hadd : fst (add_fragment f p) = p).
  { unfold add_fragment. rewrite Hlast.
    replace (Nat.eqb (S i) (num_frags input)) with false by (symmetry; apply Nat.eqb_neq; lia). cbn [andb fst].
    unfold insert_fragment, al_insert_new. rewrite Hnum. destruct (Hp i ltac:(lia)) as [g ->]. done. }
  rewrite Hadd. apply (IH (S i)); [lia | intros j Hj; apply Hp; lia |].
  intros j e Hj. replace (S i + j)%nat with (i + S j)%nat by lia. by apply Hf.
Qed.

Lemma prefix_known input i p j : prefix_of input i p -> (j < i)%nat -> is_Some (al_lookup (Z.of_nat j) p).
Proof.
  intros [Hl H] Hj. destruct (lookup_lt_is_Some_2 p j) as [[k e] He]; [lia|].
  destruct (H j _ He) as [Hk _]. cbn [fst] in Hk. subst k. apply al_lookup_key, list_elem_of_fmap.
  exists (Z.of_nat j, e). split; [done | by eapply list_elem_of_lookup_2].
Qed.

(** the fragments of [a] but the last, completed by the last of [b] *)
Lemma mixed_reassembly a b n p1 f :
  num_frags a = n -> num_frags b = n -> (1 < n)%nat -> prefix_of a (n - 1) p1 ->
  carries b (n - 1) (Z.of_nat (n - 1), f) ->
  reassemble (p1 ++ [(Z.of_nat (n - 1), f)]) =
    take ((n - 1) * MOSH_FRAGMENT_SIZE) a ++ drop ((n - 1) * MOSH_FRAGMENT_SIZE) b.
Proof.
  intros Na Nb Hn [L1 C1] (_ & _ & Hflen & Htake & _). cbn [fst snd] in *.
  assert (Ha : a <> []) by (intros ->; vm_compute in Na; lia).
  assert (Hb : b <> []) by (intros ->; vm_compute in Nb; lia).
  destruct (num_frags_bounds a Ha) as [_ Hba]. destruct (num_frags_bounds b Hb) as [_ Hbb].
  rewrite Na in Hba. rewrite Nb in Hbb. set (p2 := p1 ++ _).
  assert (Hdrop : piece b (n - 1) = drop ((n - 1) * MOSH_FRAGMENT_SIZE) b).
  { unfold piece. rewrite take_ge; [done|]. rewrite length_drop. unfold MOSH_FRAGMENT_SIZE in *. lia. }
  assert (Hcop : copied p2 = take ((n - 1) * MOSH_FRAGMENT_SIZE) a ++ drop ((n - 1) * MOSH_FRAGMENT_SIZE) b).
  { unfold p2. rewrite map_app, concat_app. cbv beta. cbn [map concat snd].
    rewrite (prefix_copied a _ p1 (conj L1 C1)), concat_pieces_upto, Htake, app_nil_r. by rewrite Hdrop. }
  rewrite <- Hcop. apply (reassemble_copied p2 (Z.of_nat (n - 1)) f (length (piece b (n - 1)))).
  - unfold p2. by rewrite last_snoc.
  - exact Hflen.
  - unfold piece. rewrite length_take. lia.
  - rewrite Hcop. unfold p2. rewrite !length_app, length_take, L1, Hdrop. cbn [length].
    unfold MOSH_FRAGMENT_SIZE in *. lia.
Qed.

(** When the last fragment of a datagram is lost, the next datagram with as many fragments is
    reassembled from the earlier fragments of the first and its own last fragment. *)
Lemma lost_last_fragment_mixes_datagrams a b src dest :
  num_frags a = num_frags b -> (1 < num_frags a)%nat ->
  exists p, add_all (map snd (take (num_frags a - 1) (packetize src dest a)) ++ map snd (packetize src dest b)) []
            = (p, true) /\
    reassemble p = take ((num_frags a - 1) * MOSH_FRAGMENT_SIZE) a
                   ++ drop ((num_frags b - 1) * MOSH_FRAGMENT_SIZE) b.
Proof.
  intros Hab Hn. set (n := num_frags a) in *.
  pose proof (packetize_prefix src dest a) as [La Ca]. pose proof (packetize_prefix src dest b) as [Lb Cb].
  fold n in La. rewrite <- Hab in Lb.
  set (pa := packetize src dest a) in *. set (pb := packetize src dest b) in *.
  assert (Hlt : length (take (n - 1) pa) = (n - 1)%nat) by (rewrite length_take; lia).
  assert (P1 : prefix_of a (n - 1) (foldl (fun p f => fst (add_fragment f p)) [] (map snd (take (n - 1) pa)))).
  { rewrite <- Hlt at 1. apply (add_prefix a _ 0); [fold n; lia | split; done |].
    intros j e Hj. apply lookup_take_Some in Hj as [Hj _]. by apply Ca. }
  set (p1 := foldl _ [] _) in P1.
  destruct (lookup_lt_is_Some_2 pb (n - 1)) as [[k f] Hf]; [lia|].
  assert (Epb : pb = take (n - 1) pb ++ [(k, f)]).
  { rewrite <- (take_S_r _ _ _ Hf). rewrite take_ge; [done | lia]. }
  destruct (Cb _ _ Hf) as (Hk & Hnum & Hflen & Htake & Hlast). cbn [fst snd] in *.
  rewrite Epb, map_app, !app_assoc, add_all_app by done. rewrite foldl_app. fold p1.
  assert (Hlb : length (take (n - 1) pb) = (n - 1)%nat) by (rewrite length_take; lia).
  rewrite (add_known b (take (n - 1) pb) 0 p1).
  2: { rewrite Hlb, <- Hab. lia. }
  2: { intros j Hj. eapply prefix_known; [exact P1|]. lia. }
  2: { intros j e Hj. apply lookup_take_Some in Hj as [Hj _]. by apply Cb. }
  cbn [map snd add_all]. unfold add_fragment.
  rewrite insert_fragment_snoc by (rewrite Hnum; by eapply prefix_below).
  rewrite Hlast, <- Hab. replace (Nat.eqb (S (n - 1)) n) with true by (symmetry; apply Nat.eqb_eq; lia).
  destruct P1 as [L1 C1]. rewrite length_app, L1, Hnum. cbn [length andb].
  replace (Z.of_nat (n - 1 + 1) =? Z.of_nat (n - 1) + 1) with true by (symmetry; apply Z.eqb_eq; lia).
  cbn [negb]. eexists. split; [reflexivity|].
  apply mixed_reassembly; [done | by rewrite <- Hab | done | by split |]. rewrite <- Hk. by apply Cb.
Qed.

(** ** Evaluation *)
Module MoshWitness.

Definition datagram (x : Z) : bytes := repeat x 100.

Example packetizer_roundtrip_witness :
  exists p, add_all (map snd (packetize 1 2 (datagram 7))) [] = (p, true) /\ reassemble p = datagram 7.
Proof. exact (packetizer_roundtrip 1 2 (datagram 7) ltac:(discriminate)). Qed.

Example lost_last_fragment_mixes_datagrams_witness :
  exists p, add_all (map snd (take 1 (packetize 1 2 (datagram 7))) ++ map snd (packetize 1 2 (datagram 9))) []
            = (p, true) /\ reassemble p = repeat 7 59 ++ repeat 9 41.
Proof.
  exact (lost_last_fragment_mixes_datagrams (datagram 7) (datagram 9) 1 2 eq_refl ltac:(vm_compute; lia)).
Qed.

End MoshWitness.
