(* ===== verification/IpCodecs.v ===== *)
(** * acomms/ip_codecs.{h,cpp}: field codecs and the checksum of IP packets *)

From S2P Require Import Prelude.

(** linear arithmetic with division by constants *)
#[local] Ltac Zify.zify_post_hook ::= Z.to_euclidean_division_equations.

(** ** Network byte order *)

(** the bytes of an [unsigned short] exchanged *)
Definition swap16 (val : Z) : Z :=
  Z.lor (Z.shiftl (Z.land val 255) 8) (Z.land (Z.shiftr val 8) 255).

(** [NetShortCodec]: the 16 bit value put in the bit set, and back *)
Definition net_short_encode (wire_value : Z) : Z := swap16 (Z.land wire_value 65535).
Definition net_short_decode (bits : Z) : Z := swap16 (u16 bits).

Record FlagsFragOffset : Type := MkFlags {
  dont_fragment : bool;
  more_fragments : bool;
  fragment_offset : Z
}.

(** [IPv4FlagsFragOffsetCodec] *)
Definition flags_encode (v : FlagsFragOffset) : Z :=
  let val := Z.land (fragment_offset v) 8191 in
  let val := if dont_fragment v then Z.lor val 16384 else val in
  let val := if more_fragments v then Z.lor val 8192 else val in
  swap16 val.

Definition flags_decode (bits : Z) : FlagsFragOffset :=
  let val := swap16 (u16 bits) in
  MkFlags (negb (Z.land val 16384 =? 0)) (negb (Z.land val 8192 =? 0)) (Z.land val 8191).

(** ** The Internet checksum *)

(** the loop over 16 bit words in network order, the last byte padded *)
Fixpoint sum_words (data : bytes) (sum : Z) : Z :=
  match data with
  | hi :: lo :: rest => sum_words rest (u32 (sum + (256 * hi + lo)))
  | [b] => u32 (sum + Z.land (Z.shiftl b 8) 65280)
  | [] => sum
  end.

(** [while (sum >> 16) sum = (sum & 0xFFFF) + (sum >> 16);] *)
Fixpoint fold_carry (fuel : nat) (sum : Z) : Z :=
  match fuel with
  | O => sum
  | S fuel =>
      if Z.shiftr sum 16 =? 0 then sum
      else fold_carry fuel (u32 (Z.land sum 65535 + Z.shiftr sum 16))
  end.

(** three turns fold any 32 bit sum *)
Definition net_checksum (data : bytes) : Z :=
  u16 (Z.lnot (fold_carry 3 (sum_words data 0))).

(** ** Bytes *)

Lemma swap16_bytes hi lo : is_byte hi -> is_byte lo -> swap16 (256 * hi + lo) = 256 * lo + hi.
Proof.
  intros Hh Hl. unfold is_byte, swap16 in *.
  replace (Z.land (256 * hi + lo) 255) with lo.
  2: { change 255 with (Z.ones 8). rewrite Z.land_ones by lia. change (2 ^ 8) with 256. lia. }
  replace (Z.land (Z.shiftr (256 * hi + lo) 8) 255) with hi.
  2: { change 255 with (Z.ones 8). rewrite Z.land_ones, Z.shiftr_div_pow2 by lia. change (2 ^ 8) with 256. lia. }
  rewrite Z.shiftl_mul_pow2 by lia. change (2 ^ 8) with 256.
  rewrite <- Z.lxor_lor.
  - rewrite <- Z.add_nocarry_lxor; [lia|]. apply Z.bits_inj'. intros n Hn.
    rewrite Z.land_spec, Z.bits_0. destruct (Z.lt_ge_cases n 8).
    + change 256 with (2 ^ 8). rewrite Z.mul_pow2_bits_low by lia. done.
    + rewrite (Z.bits_above_log2 hi n); [apply andb_false_r | lia |].
      destruct (Z.eq_dec hi 0) as [->|]; [simpl; lia|]. apply Z.log2_lt_pow2; [lia|].
      pose proof (Z.pow_le_mono_r 2 8 n ltac:(lia) ltac:(lia)). change (2 ^ 8) with 256 in *. lia.
  - apply Z.bits_inj'. intros n Hn.
    rewrite Z.land_spec, Z.bits_0. destruct (Z.lt_ge_cases n 8).
    + change 256 with (2 ^ 8). rewrite Z.mul_pow2_bits_low by lia. done.
    + rewrite (Z.bits_above_log2 hi n); [apply andb_false_r | lia |].
      destruct (Z.eq_dec hi 0) as [->|]; [simpl; lia|]. apply Z.log2_lt_pow2; [lia|].
      pose proof (Z.pow_le_mono_r 2 8 n ltac:(lia) ltac:(lia)). change (2 ^ 8) with 256 in *. lia.
Qed.

Lemma split16 v : 0 <= v < 65536 -> v = 256 * (v / 256) + v mod 256 /\ is_byte (v / 256) /\ is_byte (v mod 256).
Proof. unfold is_byte. lia. Qed.

Lemma swap16_swap16 v : 0 <= v < 65536 -> 0 <= swap16 v < 65536 /\ swap16 (swap16 v) = v.
Proof.
  intros H. destruct (split16 v H) as (E & Hh & Hl). rewrite E. rewrite swap16_bytes by done.
  rewrite swap16_bytes by done. unfold is_byte in *. split; lia.
Qed.

Lemma land_65535 v : Z.land v 65535 = v mod 65536.
Proof. change 65535 with (Z.ones 16). by rewrite Z.land_ones. Qed.

(** Both 16 bit codecs decode what they encode. *)
Lemma net_short_roundtrip v flags :
  0 <= v < 65536 -> 0 <= fragment_offset flags < 8192 ->
  0 <= net_short_encode v < 65536 /\ net_short_decode (net_short_encode v) = v /\
  0 <= flags_encode flags < 65536 /\ flags_decode (flags_encode flags) = flags.
Proof.
  intros Hv Hf. unfold net_short_encode, net_short_decode. rewrite land_65535, Z.mod_small by done.
  destruct (swap16_swap16 v Hv) as [H1 H2].
  split; [done|]. split; [unfold u16; by rewrite wrap_small|].
  unfold flags_encode, flags_decode. destruct flags as [df mf off]. simpl in *.
  set (val := if mf then _ else _).
  assert (Hval : (((0 <=? val) && (val <? 65536)) && Bool.eqb (negb (Z.land val 16384 =? 0)) df
                  && Bool.eqb (negb (Z.land val 8192 =? 0)) mf && (Z.land val 8191 =? off)) = true).
  { pose (P (o : Z) := forallb (fun df : bool => forallb (fun mf : bool =>
       let v := Z.land o 8191 in let v := if df then Z.lor v 16384 else v in
       let v := if mf then Z.lor v 8192 else v in
       ((0 <=? v) && (v <? 65536)) && Bool.eqb (negb (Z.land v 16384 =? 0)) df
       && Bool.eqb (negb (Z.land v 8192 =? 0)) mf && (Z.land v 8191 =? o)) [true; false]) [true; false]).
    assert (HP : P off = true) by (apply (Z_range_forall (Z.to_nat 8192) P); [vm_compute; reflexivity | lia]).
    unfold P in HP. rewrite forallb_forall in HP. specialize (HP df ltac:(destruct df; simpl; auto)).
    rewrite forallb_forall in HP. exact (HP mf ltac:(destruct mf; simpl; auto)). }
  to_prop. apply Bool.eqb_prop in H4, H3.
  destruct (swap16_swap16 val ltac:(lia)) as [H1' H2']. split; [done|].
  unfold u16. rewrite wrap_small by exact H1'. rewrite H2'. by rewrite H4, H3, H0.
Qed.

(** ** Sums modulo 2^16 - 1 *)

(** the mathematical sum of the words *)
Fixpoint word_sum (data : bytes) : Z :=
  match data with
  | hi :: lo :: rest => 256 * hi + lo + word_sum rest
  | [b] => 256 * b
  | [] => 0
  end.

Lemma list_pair_ind (P : bytes -> Prop) :
  P [] -> (forall b, P [b]) -> (forall hi lo rest, P rest -> P (hi :: lo :: rest)) -> forall l, P l.
Proof.
  intros H0 H1 H2 l. assert (H : P l /\ forall x, P (x :: l)); [|apply H].
  induction l as [|y l [IH1 IH2]]; split; auto.
Qed.

Lemma word_sum_bounds l : wf_bytes l -> 0 <= word_sum l <= 65535 * Z.of_nat (length l).
Proof.
  induction l as [|b|hi lo rest IH] using list_pair_ind; cbn [word_sum length]; intros W.
  - lia.
  - apply Forall_cons in W as [Hb _]. unfold is_byte in Hb. lia.
  - apply Forall_cons in W as [Hh W]. apply Forall_cons in W as [Hl W]. specialize (IH W).
    unfold is_byte in *. lia.
Qed.

Lemma land_high b : is_byte b -> Z.land (Z.shiftl b 8) 65280 = 256 * b.
Proof.
  intros H. apply Z.eqb_eq.
  apply (Z_range_forall 256 (fun b => Z.land (Z.shiftl b 8) 65280 =? 256 * b)); [vm_compute; reflexivity | exact H].
Qed.

Lemma sum_words_exact l : forall s,
  wf_bytes l -> 0 <= s -> s + word_sum l < 2 ^ 32 -> sum_words l s = s + word_sum l.
Proof.
  induction l as [|b|hi lo rest IH] using list_pair_ind; cbn [sum_words word_sum]; intros s W Hs Hb.
  - lia.
  - apply Forall_cons in W as [Hb' _]. rewrite land_high by done. unfold u32, is_byte in *. apply wrap_small. lia.
  - apply Forall_cons in W as [Hh W]. apply Forall_cons in W as [Hl W].
    pose proof (word_sum_bounds rest W). unfold is_byte in *.
    rewrite IH; [|done| |]; unfold u32; rewrite wrap_small by lia; lia.
Qed.

(** the folded sum: the residue in [1, 65535], zero only for zero *)
Definition folded (s : Z) : Z := if s =? 0 then 0 else (s - 1) mod 65535 + 1.

Lemma fold_carry_exact s : 0 <= s < 2 ^ 32 -> fold_carry 3 s = folded s.
Proof.
  assert (Hstep : forall t, 0 <= t < 2 ^ 32 -> u32 (Z.land t 65535 + Z.shiftr t 16) = t mod 65536 + t / 65536).
  { intros t Ht. rewrite land_65535, Z.shiftr_div_pow2 by lia. apply wrap_small. lia. }
  assert (Hz : forall t, 0 <= t -> (Z.shiftr t 16 =? 0) = (t <? 65536)).
  { intros t Ht. rewrite Z.shiftr_div_pow2 by lia. change (2 ^ 16) with 65536.
    destruct (Z.ltb_spec t 65536); [apply Z.eqb_eq; lia | apply Z.eqb_neq; lia]. }
  assert (Hf : forall t, 0 <= t < 65536 -> t = folded t).
  { intros t Ht. unfold folded. destruct (Z.eqb_spec t 0); [done|]. lia. }
  intros Hs. unfold fold_carry. rewrite Hz by lia.
  destruct (Z.ltb_spec s 65536); [apply Hf; lia|].
  rewrite Hstep by done. set (t := s mod 65536 + s / 65536).
  assert (Ht : 0 <= t < 131072) by (unfold t; lia). rewrite Hz by lia.
  assert (Hft : folded s = folded t).
  { unfold folded, t. destruct (Z.eqb_spec s 0); [lia|].
    destruct (Z.eqb_spec (s mod 65536 + s / 65536) 0); [lia|]. lia. }
  rewrite Hft. destruct (Z.ltb_spec t 65536); [apply Hf; lia|].
  rewrite Hstep by lia. set (u := t mod 65536 + t / 65536).
  assert (Hu : 0 <= u < 65536) by (unfold u; lia). rewrite Hz by lia.
  assert (Hfu : folded t = folded u).
  { unfold folded, u. destruct (Z.eqb_spec t 0); [lia|].
    destruct (Z.eqb_spec (t mod 65536 + t / 65536) 0); [lia|]. lia. }
  rewrite Hfu. destruct (Z.ltb_spec u 65536); [apply Hf; lia | lia].
Qed.

Lemma net_checksum_exact l :
  wf_bytes l -> word_sum l < 2 ^ 32 -> net_checksum l = 65535 - folded (word_sum l).
Proof.
  intros W H. unfold net_checksum. pose proof (word_sum_bounds l W).
  rewrite sum_words_exact, fold_carry_exact by (done || lia). rewrite Z.add_0_l.
  assert (0 <= folded (word_sum l) <= 65535) by (unfold folded; destruct (Z.eqb_spec (word_sum l) 0); lia).
  unfold u16, wrap, Z.lnot. change (2 ^ 16) with 65536. lia.
Qed.

Lemma word_sum_app a b : Nat.even (length a) = true -> word_sum (a ++ b) = word_sum a + word_sum b.
Proof.
  induction a as [|x|hi lo rest IH] using list_pair_ind; cbn [length word_sum app]; intros H; [lia | done |].
  rewrite IH by exact H. lia.
Qed.

(** the two bytes of a checksum *)
Definition checksum_bytes (c : Z) : bytes := [Z.land (Z.shiftr c 8) 255; Z.land c 255].

Lemma checksum_bytes_sum c : 0 <= c < 65536 -> wf_bytes (checksum_bytes c) /\ word_sum (checksum_bytes c) = c.
Proof.
  intros H. unfold checksum_bytes. change 255 with (Z.ones 8).
  rewrite !Z.land_ones, Z.shiftr_div_pow2 by lia. change (2 ^ 8) with 256. cbn [word_sum].
  split; [repeat constructor; lia | lia].
Qed.

(** a packet whose checksum field holds the checksum computed over a zero field
    verifies *)
Lemma net_checksum_verifies a b :
  wf_bytes a -> wf_bytes b -> Nat.even (length a) = true ->
  word_sum a + word_sum b + 65535 < 2 ^ 32 ->
  let c := net_checksum (a ++ [0; 0] ++ b) in
  0 <= c < 65536 /\ net_checksum (a ++ checksum_bytes c ++ b) = 0.
Proof.
  intros Wa Wb He Hsum c.
  assert (H0 : word_sum (a ++ [0; 0] ++ b) = word_sum a + word_sum b).
  { rewrite word_sum_app by done. cbn [app word_sum]. lia. }
  assert (W0 : wf_bytes (a ++ [0; 0] ++ b)).
  { apply wf_bytes_app. split; [done|]. repeat constructor; try lia. done. }
  pose proof (word_sum_bounds a Wa). pose proof (word_sum_bounds b Wb).
  assert (Hc : c = 65535 - folded (word_sum a + word_sum b)).
  { unfold c. rewrite net_checksum_exact; [by rewrite H0 | done | lia]. }
  assert (Hr : 0 <= folded (word_sum a + word_sum b) <= 65535)
    by (unfold folded; destruct (Z.eqb_spec (word_sum a + word_sum b) 0); lia).
  split; [lia|]. destruct (checksum_bytes_sum c ltac:(lia)) as [Wc Sc].
  assert (Hs1 : word_sum (a ++ checksum_bytes c ++ b) = word_sum a + word_sum b + c).
  { rewrite word_sum_app by done. rewrite word_sum_app by done. lia. }
  rewrite net_checksum_exact.
  - rewrite Hs1, Hc. unfold folded in *. destruct (Z.eqb_spec (word_sum a + word_sum b) 0) as [E|E].
    + rewrite E. reflexivity.
    + set (s := word_sum a + word_sum b) in *. destruct (Z.eqb_spec (s + (65535 - ((s - 1) mod 65535 + 1))) 0); lia.
  - repeat (apply wf_bytes_app; split); done.
  - lia.
Qed.

(** an IPv4 header with its checksum field at offset 10 *)
Definition sample_header : bytes := [69; 0; 0; 115; 0; 0; 64; 0; 64; 17].
Definition sample_addresses : bytes := [192; 168; 0; 1; 192; 168; 0; 199].

Example sample_checksum :
  net_checksum (sample_header ++ [0; 0] ++ sample_addresses) = 47201 /\
  net_checksum (sample_header ++ checksum_bytes 47201 ++ sample_addresses) = 0.
Proof. split; vm_compute; reflexivity. Qed.
