(* ===== verification/IpGateway.v ===== *)
(** * apps/acomms/goby_ip_gateway/ip_gateway.cpp: IP over the acoustic link

    The gateway maps IPv4 addresses to modem identifiers and UDP ports to small
    port numbers, replaces the IP and UDP headers by a [NetworkHeader], queues
    the packets by destination, and rebuilds IP packets on reception. The DCCL
    codecs of the headers, the address functions of the C library and the
    serialisation of the control message are parameters. *)

From Stdlib Require Import SpecFloat.
From S2P Require Import Prelude AssocList Double As Proto IpCodecs.

(** linear arithmetic with division by constants *)
#[local] Ltac Zify.zify_post_hook ::= Z.to_euclidean_division_equations.

Definition MIN_IPV4_HEADER_LENGTH : Z := 5.
Definition UDP_HEADER_SIZE : Z := 8.
Definition ICMP_HEADER_SIZE : Z := 8.
Definition ICMP_TYPE : Z := 250.
Definition IPV4_VERSION : Z := 4.
Definition ICMP_CODE : Z := 0.
Definition IPPROTO_ICMP : Z := 1.
Definition IPPROTO_UDP : Z := 17.

(** ** acomms/protobuf/network_header.proto *)

Record NetworkHeader : Type := MkNetHeader {
  nh_protocol : Z;
  nh_srcdest_addr : Z;
  nh_srcdest_port : list Z
}.

Record IPv4Header : Type := MkIPv4 {
  ip_ihl : Z;
  ip_version : Z;
  ip_total_length : Z;
  ip_flags : FlagsFragOffset;
  ip_ttl : Z;
  ip_protocol : Z;
  ip_header_checksum : Z;
  ip_source : bytes;
  ip_dest : bytes
}.

Record UDPHeader : Type := MkUDP {
  udp_source_port : Z;
  udp_dest_port : Z;
  udp_length : Z;
  udp_checksum : Z
}.

Record ICMPHeader : Type := MkICMP { icmp_type : Z; icmp_code : Z; icmp_checksum : Z }.

(** the headers the gateway writes: no options, no fragmentation *)
Definition plain_header (total_length protocol : Z) (source dest : bytes) : IPv4Header :=
  MkIPv4 MIN_IPV4_HEADER_LENGTH IPV4_VERSION total_length (MkFlags false false 0) 63 protocol 0 source dest.

(** ** Configuration and state *)

Record IPGatewayConfig : Type := MkGwConfig {
  gw_local_ipv4_address : bytes;
  gw_cidr_netmask_prefix : Z;
  gw_autonomy_collaboration : bool;
  gw_gamma_autonomy : double;
  gw_gamma_collaboration : double;
  gw_gateway_id : Z;
  gw_total_ports : Z;
  gw_static_udp_port : list Z;
  gw_bypass_mac : bool;
  gw_bypass_mac_slot : option ModemTransmission;
  gw_queue_size : nat;
  gw_only_rate : option Z
}.

(** [port_map] is the bimap of goby ports and UDP ports *)
Record IPGateway : Type := MkGateway {
  gw_cfg : IPGatewayConfig;
  local_address : Z;
  local_modem_id : Z;
  netmask : Z;
  port_map : list (Z * Z);
  dynamic_port_index : Z;
  dynamic_udp_fds : nat;
  outgoing : list (Z * list bytes)
}.

Definition set_port_map (v : list (Z * Z)) (g : IPGateway) : IPGateway :=
  MkGateway (gw_cfg g) (local_address g) (local_modem_id g) (netmask g) v (dynamic_port_index g)
    (dynamic_udp_fds g) (outgoing g).
Definition set_dynamic_port_index (v : Z) (g : IPGateway) : IPGateway :=
  MkGateway (gw_cfg g) (local_address g) (local_modem_id g) (netmask g) (port_map g) v
    (dynamic_udp_fds g) (outgoing g).
Definition set_dynamic_udp_fds (v : nat) (g : IPGateway) : IPGateway :=
  MkGateway (gw_cfg g) (local_address g) (local_modem_id g) (netmask g) (port_map g)
    (dynamic_port_index g) v (outgoing g).
Definition set_outgoing (v : list (Z * list bytes)) (g : IPGateway) : IPGateway :=
  MkGateway (gw_cfg g) (local_address g) (local_modem_id g) (netmask g) (port_map g)
    (dynamic_port_index g) (dynamic_udp_fds g) v.

Definition total_addresses (c : IPGatewayConfig) : Z :=
  Z.shiftl 1 (32 - gw_cidr_netmask_prefix c) - 1.

Definition num_static (c : IPGatewayConfig) : Z := Z.of_nat (length (gw_static_udp_port c)).

(** External code: header codecs, [inet_aton]/[inet_ntoa] on host order
    addresses, and the serialisation of the queue report. *)
Class GatewayCodecs : Type := {
  nh_encode : NetworkHeader -> bytes;
  nh_decode : bytes -> option (NetworkHeader * bytes);
  ip_encode : IPv4Header -> bytes;
  ip_decode : bytes -> option IPv4Header;
  udp_encode : UDPHeader -> bytes;
  udp_decode : bytes -> option UDPHeader;
  icmp_encode : ICMPHeader -> bytes;
  inet_aton : bytes -> option Z;
  inet_ntoa : Z -> bytes;
  serialize_report : bytes -> list (Z * Z) -> bytes
}.

Inductive GwError : Type :=
| BadAddress       (* [inet_aton] failed: the address is uninitialised *)
| BadPort          (* [find] returned [end()], which is dereferenced *)
| BadLength        (* a string constructed outside the buffer *)
| DecodeError      (* an exception of the codec *)
| AssertionFailed  (* the constructor's [assert] *)
| Die.             (* [glog.is(DIE)] *)

Inductive GwEvent : Type :=
| WriteTun (packet : bytes)
| PublishTx (m : ModemTransmission)
| PublishDataResponse (m : ModemTransmission).

(** ** Addresses *)

(** pairs (source, destination) with the diagonal and source 0 left out,
    numbered by destination; [int] division truncates *)
Definition to_src_dest_pair (total srcdest : Z) : Z * Z :=
  let src := Z.rem (srcdest - 1) (total - 2) + 1 in
  let dest := Z.quot (srcdest - 1) (total - 2) in
  (if dest <=? src then src + 1 else src, dest).

Definition from_src_dest_pair (total src dest : Z) : Z :=
  if (src =? dest) || (src =? BROADCAST_ID) then -1
  else dest * (total - 2) + src - (if dest <? src then 1 else 0).

Definition gw_netmask (prefix : Z) : Z := 4294967295 - (Z.shiftl 1 (32 - prefix) - 1).

(** the part after [inet_aton], on a host order address *)
Definition address_to_modem_id (netmask address : Z) : Z :=
  let modem_id := Z.land address (Z.lxor netmask 4294967295) in
  if u32 (modem_id + netmask) =? 4294967295 then BROADCAST_ID else modem_id.

Definition modem_id_to_address (local_address netmask modem_id : Z) : Z :=
  if modem_id =? BROADCAST_ID then u32 (Z.land local_address netmask + Z.lxor netmask 4294967295)
  else u32 (Z.land local_address netmask + modem_id).

Section Gateway.
Context {GC : GatewayCodecs}.

Definition ipv4_to_goby_address (g : IPGateway) (ipv4_address : bytes) : result GwError Z :=
  match inet_aton ipv4_address with
  | Some a => Ok (address_to_modem_id (netmask g) a)
  | None => Err BadAddress
  end.

Definition goby_address_to_ipv4 (g : IPGateway) (modem_id : Z) : bytes :=
  inet_ntoa (modem_id_to_address (local_address g) (netmask g) modem_id).

(** ** Ports: the bimap *)

Definition left_find (k : Z) (m : list (Z * Z)) : option Z :=
  match List.find (fun e => fst e =? k) m with Some (_, v) => Some v | None => None end.

Definition right_find (v : Z) (m : list (Z * Z)) : option Z :=
  match List.find (fun e => snd e =? v) m with Some (k, _) => Some k | None => None end.

(** [insert] keeps both sides unique *)
Definition bimap_insert (e : Z * Z) (m : list (Z * Z)) : list (Z * Z) :=
  match left_find (fst e) m, right_find (snd e) m with
  | None, None => m ++ [e]
  | _, _ => m
  end.

(** [left.replace_data] fails, and changes nothing, when the value is taken *)
Definition replace_data (k v : Z) (m : list (Z * Z)) : list (Z * Z) :=
  match right_find v m with
  | Some k' => if k' =? k then m else m
  | None => map (fun e => if fst e =? k then (k, v) else e) m
  end.

(** the port map [init_dccl] builds *)
Definition init_port_map (c : IPGatewayConfig) : list (Z * Z) :=
  foldl (fun m i =>
      bimap_insert (Z.of_nat i,
        match gw_static_udp_port c !! i with Some p => p | None => - Z.of_nat i end) m)
    [] (seq 0 (Z.to_nat (gw_total_ports c))).

(** ** The address model of the arithmetic codec *)

(** [None]: the scale factor or the result does not fit an [int] *)
Definition ac_freq (c : IPGatewayConfig) (srcdest : Z) : option Z :=
  let '(s, d) := to_src_dest_pair (total_addresses c) srcdest in
  let N := total_addresses c + 1 in
  if 2 ^ 31 <=? N * N * 100 then None
  else
    let scale_factor := double_of_Z (N * N * 100) in
    let one := double_of_Z 1 in
    let p0 := ddiv one (double_of_Z (N - 2)) in
    let p1 := ddiv one (double_of_Z (N - 3)) in
    let p2 := ddiv one (double_of_Z (N * N - 6 * N + 9)) in
    if (s =? d) || (s =? BROADCAST_ID) then Some 0
    else if s =? gw_gateway_id c then
      int_cast (dmul (dmul scale_factor p0) (dsub one (gw_gamma_autonomy c)))
    else if d =? gw_gateway_id c then
      int_cast (dmul (dmul scale_factor p1) (dsub (gw_gamma_autonomy c) (gw_gamma_collaboration c)))
    else int_cast (dmul (dmul scale_factor p2) (gw_gamma_collaboration c)).

(** value bounds and frequencies of [AddrModel] *)
Definition addr_model (c : IPGatewayConfig) : option (list Z * list Z) :=
  let n := (total_addresses c - 1) * (total_addresses c - 1) in
  frequencies ← mapM (fun i => if gw_autonomy_collaboration c then ac_freq c (Z.of_nat i) else Some 10) (seq 0 (Z.to_nat n));
  Some (map Z.of_nat (seq 0 (S (Z.to_nat n))), frequencies).

(** the [assert] of the constructor, over every pair it prints *)
Definition pairs_ok (total : Z) : bool :=
  forallb (fun d => forallb (fun s =>
      (s =? 0) || (s =? d)
      || let '(s', d') := to_src_dest_pair total (from_src_dest_pair total s d) in (s' =? s) && (d' =? d))
    (map Z.of_nat (seq 0 (Z.to_nat total)))) (map Z.of_nat (seq 0 (Z.to_nat total))).

(** the settings [init_dccl] refuses *)
Definition config_dies (c : IPGatewayConfig) : bool :=
  let one := double_of_Z 1 in
  let zero := double_of_Z 0 in
  (gw_autonomy_collaboration c
   && (dlt one (gw_gamma_autonomy c) || dlt (gw_gamma_autonomy c) zero
       || dlt (gw_gamma_autonomy c) (gw_gamma_collaboration c) || dlt (gw_gamma_collaboration c) zero))
  || (gw_total_ports c <? num_static c).

(** the constructor, [init_dccl] and [init_tun] *)
Definition new_gateway (c : IPGatewayConfig) : result GwError IPGateway :=
  if negb (pairs_ok (total_addresses c)) then Err AssertionFailed
  else if config_dies c then Err Die
  else
    match inet_aton (gw_local_ipv4_address c) with
    | None => Err BadAddress
    | Some local_address =>
        let netmask := gw_netmask (gw_cidr_netmask_prefix c) in
        Ok (MkGateway c local_address (address_to_modem_id netmask local_address) netmask
              (init_port_map c) (num_static c) 0 [])
    end.

(** ** Packets *)

Definition set_bytes (offset : nat) (new s : bytes) : bytes :=
  take offset s ++ new ++ drop (offset + length new) s.

Definition substr (pos len : nat) (s : bytes) : bytes := take len (drop pos s).

Definition IPV4_CS_OFFSET : nat := 10.
Definition UDP_CS_OFFSET : nat := 6.
Definition ICMP_CS_OFFSET : nat := 2.

Definition write_udp_packet (ip_hdr : IPv4Header) (udp_hdr : UDPHeader) (payload : bytes) : GwEvent :=
  let ip_hdr := MkIPv4 (ip_ihl ip_hdr) (ip_version ip_hdr) (ip_total_length ip_hdr) (ip_flags ip_hdr)
                  (ip_ttl ip_hdr) (ip_protocol ip_hdr) 0 (ip_source ip_hdr) (ip_dest ip_hdr) in
  let udp_hdr := MkUDP (udp_source_port udp_hdr) (udp_dest_port udp_hdr) (udp_length udp_hdr) 0 in
  let udp_hdr_data := udp_encode udp_hdr in
  let ip_hdr_data := ip_encode ip_hdr in
  let udp_pseudo_header := substr 12 4 ip_hdr_data ++ substr 16 4 ip_hdr_data ++ [0; IPPROTO_UDP]
                           ++ substr 4 2 udp_hdr_data in
  let ip_checksum := net_checksum ip_hdr_data in
  let udp_checksum := net_checksum (udp_pseudo_header ++ udp_hdr_data ++ payload) in
  WriteTun (set_bytes IPV4_CS_OFFSET (checksum_bytes ip_checksum) ip_hdr_data
            ++ set_bytes UDP_CS_OFFSET (checksum_bytes udp_checksum) udp_hdr_data ++ payload).

Definition write_icmp_packet (ip_hdr : IPv4Header) (icmp_hdr : ICMPHeader) (payload : bytes) : GwEvent :=
  let ip_hdr := MkIPv4 (ip_ihl ip_hdr) (ip_version ip_hdr) (ip_total_length ip_hdr) (ip_flags ip_hdr)
                  (ip_ttl ip_hdr) (ip_protocol ip_hdr) 0 (ip_source ip_hdr) (ip_dest ip_hdr) in
  let icmp_hdr := MkICMP (icmp_type icmp_hdr) (icmp_code icmp_hdr) 0 in
  let icmp_hdr_data := icmp_encode icmp_hdr in
  let ip_hdr_data := ip_encode ip_hdr in
  let ip_checksum := net_checksum ip_hdr_data in
  let icmp_checksum := net_checksum (icmp_hdr_data ++ payload) in
  WriteTun (set_bytes IPV4_CS_OFFSET (checksum_bytes ip_checksum) ip_hdr_data
            ++ set_bytes ICMP_CS_OFFSET (checksum_bytes icmp_checksum) icmp_hdr_data ++ payload).

Definition write_icmp_control_message (g : IPGateway) (queue_report : list (Z * Z)) : GwEvent :=
  let control_data := serialize_report (gw_local_ipv4_address (gw_cfg g)) queue_report in
  write_icmp_packet
    (plain_header (MIN_IPV4_HEADER_LENGTH * 4 + ICMP_HEADER_SIZE + Z.of_nat (length control_data))
       IPPROTO_ICMP (gw_local_ipv4_address (gw_cfg g)) (gw_local_ipv4_address (gw_cfg g)))
    (MkICMP ICMP_TYPE ICMP_CODE 0) control_data.

Definition icmp_report_queue (g : IPGateway) : list GwEvent :=
  let queue_report :=
    omap (fun e => match snd e with [] => None | l => Some (fst e, Z.of_nat (length l)) end) (outgoing g) in
  let total_messages := foldr (fun e acc => snd e + acc) 0 queue_report in
  write_icmp_control_message g queue_report
  :: if (0 <? total_messages) && gw_bypass_mac (gw_cfg g) then
       match gw_bypass_mac_slot (gw_cfg g) with
       | Some s => [PublishTx s]
       | None =>
           let m := set_mt_type (Some DATA) (set_mt_src (Some (local_modem_id g)) empty_transmission) in
           [PublishTx (match gw_only_rate (gw_cfg g) with Some r => set_mt_rate (Some r) m | None => m end)]
       end
     else [].

(** ** From the tunnel to the link *)

Definition handle_udp_packet (ip_hdr : IPv4Header) (udp_hdr : UDPHeader) (payload : bytes) (g : IPGateway)
  : result GwError (IPGateway * list GwEvent) :=
  let? src := ipv4_to_goby_address g (ip_source ip_hdr) in
  let? dest := ipv4_to_goby_address g (ip_dest ip_hdr) in
  let srcdest := from_src_dest_pair (total_addresses (gw_cfg g)) src dest in
  match right_find (udp_dest_port udp_hdr) (port_map g) with
  | None => Ok (g, [])
  | Some dest_port =>
      let mapped :=
        match right_find (udp_source_port udp_hdr) (port_map g) with
        | Some src_port => Some (g, [src_port])
        | None =>
            if gw_total_ports (gw_cfg g) =? num_static (gw_cfg g) then None
            else
              let i := dynamic_port_index g in
              let next := if gw_total_ports (gw_cfg g) <=? i + 1 then num_static (gw_cfg g) else i + 1 in
              Some (set_dynamic_port_index next
                      (set_port_map (replace_data i (udp_source_port udp_hdr) (port_map g)) g),
                    [i; 0])
        end in
      match mapped with
      | None => Ok (g, [])
      | Some (g, ports) =>
          let nh := nh_encode (MkNetHeader IPPROTO_UDP (u32 srcdest) (ports ++ [dest_port])) in
          let q := default [] (al_lookup dest (outgoing g)) in
          let g := set_outgoing (al_insert dest (circular_push (gw_queue_size (gw_cfg g)) (nh ++ payload) q)
                                   (outgoing g)) g in
          Ok (g, icmp_report_queue g)
      end
  end.

(** one packet read from the tunnel; [buffer] is what was read *)
Definition receive_packet (buffer : bytes) (g : IPGateway) : result GwError (IPGateway * list GwEvent) :=
  match buffer with
  | [] => Ok (g, [])
  | b0 :: _ =>
      let ip_header_size := Z.to_nat (Z.land b0 15 * 4) in
      let version := Z.land (Z.shiftr b0 4) 15 in
      if negb (version =? 4) then Ok (g, [])
      else if (length buffer <? ip_header_size)%nat then Err BadLength
      else
        match ip_decode (take ip_header_size buffer) with
        | None => Err DecodeError
        | Some ip_hdr =>
            if ip_protocol ip_hdr =? IPPROTO_UDP then
              let len := ip_total_length ip_hdr - Z.of_nat ip_header_size - UDP_HEADER_SIZE in
              if (len <? 0) || (Z.of_nat (length buffer) <? ip_total_length ip_hdr) then Err BadLength
              else
                match udp_decode (substr ip_header_size 8 buffer) with
                | None => Err DecodeError
                | Some udp_hdr =>
                    handle_udp_packet ip_hdr udp_hdr (substr (ip_header_size + 8) (Z.to_nat len) buffer) g
                end
            else Ok (g, [])
        end
  end.

(** ** Data requests *)

(** frames taken from the queue of the destination until there are enough *)
Fixpoint take_frames (fuel : nat) (msg : ModemTransmission) (q : list bytes) : ModemTransmission * list bytes :=
  match fuel, q with
  | S fuel, frame :: q' =>
      if (Z.of_nat (frame_size msg) <? max_num_frames msg) then
        take_frames fuel (set_mt_frame (mt_frame msg ++ [frame]) (set_mt_ack_requested (Some false) msg)) q'
      else (msg, q)
  | _, _ => (msg, q)
  end.

(** the first destination with something to send *)
Definition first_nonempty (out : list (Z * list bytes)) : option (Z * bytes * list bytes) :=
  match List.find (fun e => negb (Nat.eqb (length (snd e)) 0)) out with
  | Some (d, frame :: q) => Some (d, frame, q)
  | _ => None
  end.

(** the flag is [had_data] *)
Definition fill_request (msg : ModemTransmission) (out : list (Z * list bytes))
  : ModemTransmission * list (Z * list bytes) * bool :=
  if negb (Z.of_nat (frame_size msg) <? max_num_frames msg) then (msg, out, false)
  else if negb (dest msg =? QUERY_DESTINATION_ID) then
    match al_lookup (dest msg) out with
    | None | Some [] => (msg, out, false)
    | Some q =>
        let '(msg', q') := take_frames (length q) msg q in
        (msg', al_insert (dest msg) q' out, true)
    end
  else
    match first_nonempty out with
    | Some (d, frame, q) =>
        (set_mt_frame (mt_frame msg ++ [frame])
           (set_mt_ack_requested (Some false) (set_mt_dest (Some d) msg)),
         al_insert d q out, true)
    | None => (msg, out, false)
    end.

Definition other_rate (c : IPGatewayConfig) (m : ModemTransmission) : bool :=
  match gw_only_rate c with Some r => negb (r =? rate m) | None => false end.

Definition gw_handle_data_request (orig_msg : ModemTransmission) (g : IPGateway) : IPGateway * list GwEvent :=
  if other_rate (gw_cfg g) orig_msg then (g, [])
  else
    let '(msg, out, had_data) := fill_request orig_msg (outgoing g) in
    let g := set_outgoing out g in
    (g, PublishDataResponse msg :: if had_data then icmp_report_queue g else []).

(** ** From the link to the tunnel *)

(** [bind_port n]: the port the system gives to the [n]th socket bound to port 0.
    The handler around [decode] catches [goby::Exception], which the exception of
    the codec, [dccl::Exception], is not: a frame that does not decode ends the
    program. *)
Definition receive_frame (bind_port : nat -> Z) (frame : bytes) (g : IPGateway)
  : result GwError (IPGateway * list GwEvent) :=
  match nh_decode frame with
  | None => Err DecodeError
  | Some (net_header, payload) =>
      let '(src, dest) := to_src_dest_pair (total_addresses (gw_cfg g)) (nh_srcdest_addr net_header) in
      let size := Z.of_nat (length payload) in
      let ip_hdr := plain_header (MIN_IPV4_HEADER_LENGTH * 4 + UDP_HEADER_SIZE + size)
                      (nh_protocol net_header) (goby_address_to_ipv4 g src) (goby_address_to_ipv4 g dest) in
      match nh_srcdest_port net_header with
      | [p0; p1] =>
          match left_find p0 (port_map g), left_find p1 (port_map g) with
          | Some source_port, Some _ =>
              let '(source_port, g) :=
                if source_port <? 0 then
                  let p := bind_port (dynamic_udp_fds g) in
                  (p, set_dynamic_udp_fds (S (dynamic_udp_fds g)) (set_port_map (replace_data p0 p (port_map g)) g))
                else (source_port, g) in
              let dest_port := default 0 (left_find p1 (port_map g)) in
              if dest_port <? 0 then Ok (g, [])
              else Ok (g, [write_udp_packet ip_hdr
                             (MkUDP source_port dest_port (UDP_HEADER_SIZE + size) 0) payload])
          | _, _ => Err BadPort
          end
      | _ => Ok (g, [])
      end
  end.

Fixpoint receive_frames (bind_port : nat -> Z) (frames : list bytes) (g : IPGateway)
  : result GwError (IPGateway * list GwEvent) :=
  match frames with
  | [] => Ok (g, [])
  | f :: frames =>
      let? (g, evs) := receive_frame bind_port f g in
      let? (g, evs') := receive_frames bind_port frames g in
      Ok (g, evs ++ evs')
  end.

Definition gw_handle_modem_receive (bind_port : nat -> Z) (modem_msg : ModemTransmission) (g : IPGateway)
  : result GwError (IPGateway * list GwEvent) :=
  if other_rate (gw_cfg g) modem_msg then Ok (g, []) else receive_frames bind_port (mt_frame modem_msg) g.

End Gateway.

(** ** The numbering of address pairs *)

(** With three addresses (a /30 network) the number of the pair (1, 0) is not
    read back: the division truncates towards zero. *)
Example src_dest_pair_three_addresses :
  from_src_dest_pair 3 1 0 = 0 /\ to_src_dest_pair 3 0 = (2, -1).
Proof. split; reflexivity. Qed.

(** the numbering of the pairs is injective and is read back *)
Lemma src_dest_pair_roundtrip total s d :
  4 <= total -> 0 < s < total -> 0 <= d < total -> s <> d ->
  0 <= from_src_dest_pair total s d < (total - 1) * (total - 1) /\
  to_src_dest_pair total (from_src_dest_pair total s d) = (s, d).
Proof.
  intros Ht Hs Hd Hne. unfold from_src_dest_pair, BROADCAST_ID.
  replace ((s =? d) || (s =? 0)) with false
    by (symmetry; apply orb_false_iff; split; apply Z.eqb_neq; lia).
  set (k := s - (if d <? s then 1 else 0)).
  assert (Hk : 0 <= k <= total - 2 /\ (1 <= k \/ (d = 0 /\ k = 0))) by (unfold k; destruct (Z.ltb_spec d s); lia).
  replace (d * (total - 2) + s - (if d <? s then 1 else 0)) with (d * (total - 2) + k) by (unfold k; lia).
  split; [nia|]. unfold to_src_dest_pair.
  destruct (Z.eq_dec k 0) as [Hk0|Hk0].
  - assert (d = 0) by lia. subst d. assert (Hs1 : s = 1) by (unfold k in Hk0; destruct (Z.ltb_spec 0 s); lia).
    rewrite Hk0. replace (0 * (total - 2) + 0 - 1) with (-1) by lia.
    assert (Hq : Z.quot (-1) (total - 2) = 0) by (apply Z.quot_small_iff; lia).
    assert (Hr : Z.rem (-1) (total - 2) = -1) by (apply Z.rem_small_iff; lia).
    rewrite Hq, Hr. cbn. by rewrite Hs1.
  - assert (Hr : Z.rem (d * (total - 2) + k - 1) (total - 2) = k - 1).
    { rewrite Z.rem_mod_nonneg by nia.
      replace (d * (total - 2) + k - 1) with (k - 1 + d * (total - 2)) by lia.
      rewrite Z.mod_add by lia. apply Z.mod_small. lia. }
    assert (Hq : Z.quot (d * (total - 2) + k - 1) (total - 2) = d).
    { rewrite Z.quot_div_nonneg by nia.
      replace (d * (total - 2) + k - 1) with (k - 1 + d * (total - 2)) by lia.
      rewrite Z.div_add by lia. rewrite Z.div_small by lia. lia. }
    rewrite Hr, Hq. f_equal. unfold k. destruct (Z.ltb_spec d s).
    + replace (d <=? s - 1 - 1 + 1) with true by (symmetry; apply Z.leb_le; lia). lia.
    + replace (d <=? s - 0 - 1 + 1) with false by (symmetry; apply Z.leb_gt; lia). lia.
Qed.

Lemma pairs_ok_from_four total : 4 <= total -> pairs_ok total = true.
Proof.
  intros Ht. unfold pairs_ok. apply forallb_forall. intros d Hd. apply forallb_forall. intros s Hs.
  apply in_map_iff in Hd as (d' & <- & Hd). apply in_map_iff in Hs as (s' & <- & Hs).
  apply in_seq in Hd, Hs. destruct (Z.eqb_spec (Z.of_nat s') 0); [done|].
  destruct (Z.eqb_spec (Z.of_nat s') (Z.of_nat d')); [done|]. cbn [orb].
  destruct (src_dest_pair_roundtrip total (Z.of_nat s') (Z.of_nat d')) as [_ ->]; [lia..|].
  by rewrite !Z.eqb_refl.
Qed.

(** The assertion of the constructor on the numbering of address pairs holds for every prefix
    up to 29 and fails for a prefix of 30. *)
Lemma constructor_assertion c :
  0 <= gw_cidr_netmask_prefix c <= 30 ->
  pairs_ok (total_addresses c) = negb (gw_cidr_netmask_prefix c =? 30).
Proof.
  intros Hp. unfold total_addresses. rewrite Z.shiftl_mul_pow2 by lia.
  destruct (Z.eqb_spec (gw_cidr_netmask_prefix c) 30) as [->|Hne]; [reflexivity|].
  apply pairs_ok_from_four.
  pose proof (Z.pow_le_mono_r 2 3 (32 - gw_cidr_netmask_prefix c) ltac:(lia) ltac:(lia)). lia.
Qed.

(** ** Addresses of the subnet *)

Lemma land_high_mask a n h :
  0 <= a -> 0 <= n -> 0 <= h ->
  Z.land a (Z.shiftl (Z.ones n) h) = (a / 2 ^ h) mod 2 ^ n * 2 ^ h.
Proof.
  intros Ha Hn Hh. rewrite <- Z.land_ones, <- Z.shiftr_div_pow2, <- Z.shiftl_mul_pow2 by lia.
  apply Z.bits_inj'. intros i Hi. rewrite Z.land_spec, !Z.shiftl_spec by lia.
  destruct (Z.lt_ge_cases i h).
  - rewrite !(Z.testbit_neg_r _ (i - h)) by lia. apply andb_false_r.
  - rewrite Z.land_spec, Z.shiftr_spec by lia. f_equal. f_equal. lia.
Qed.

(** the mask of a prefix, with [h] host bits *)
Lemma netmask_facts h :
  1 <= h <= 31 ->
  gw_netmask (32 - h) = 2 ^ 32 - 2 ^ h /\ gw_netmask (32 - h) = Z.shiftl (Z.ones (32 - h)) h /\
  Z.lxor (gw_netmask (32 - h)) 4294967295 = Z.ones h /\ Z.ones h = 2 ^ h - 1.
Proof.
  intros Hh.
  pose (P h := (h =? 0) || ((gw_netmask (32 - h) =? 2 ^ 32 - 2 ^ h)
     && (gw_netmask (32 - h) =? Z.shiftl (Z.ones (32 - h)) h)
     && (Z.lxor (gw_netmask (32 - h)) 4294967295 =? Z.ones h) && (Z.ones h =? 2 ^ h - 1))).
  assert (E : P h = true) by (apply (Z_range_forall 32 P); [vm_compute; reflexivity | lia]).
  unfold P in E. apply orb_true_iff in E as [E|E]; to_prop; [lia|]. auto.
Qed.

Lemma modem_address_roundtrip h local id :
  1 <= h <= 31 -> 0 <= local < 2 ^ 32 -> 0 <= id < 2 ^ h - 1 ->
  address_to_modem_id (gw_netmask (32 - h)) (modem_id_to_address local (gw_netmask (32 - h)) id) = id.
Proof.
  intros Hh Hl Hid. destruct (netmask_facts h Hh) as (E1 & E2 & E3 & E4).
  assert (Hpow : 2 ^ 32 = 2 ^ (32 - h) * 2 ^ h) by (rewrite <- Z.pow_add_r by lia; f_equal; lia).
  assert (Hp1 : 0 < 2 ^ h) by (apply Z.pow_pos_nonneg; lia).
  assert (Hp2 : 0 < 2 ^ (32 - h)) by (apply Z.pow_pos_nonneg; lia).
  set (net := (local / 2 ^ h) mod 2 ^ (32 - h)).
  assert (Hnet : 0 <= net < 2 ^ (32 - h)) by (apply Z.mod_pos_bound; lia).
  assert (Hland : Z.land local (gw_netmask (32 - h)) = net * 2 ^ h) by (rewrite E2; apply land_high_mask; lia).
  assert (Haddr : forall low, 0 <= low < 2 ^ h -> u32 (net * 2 ^ h + low) = net * 2 ^ h + low).
  { intros low Hlow. apply wrap_small. nia. }
  assert (Hlow : forall low, 0 <= low < 2 ^ h -> Z.land (net * 2 ^ h + low) (Z.ones h) = low).
  { intros low Hlow. rewrite Z.land_ones by lia. rewrite Z.add_comm, Z.mod_add by lia. by apply Z.mod_small. }
  unfold address_to_modem_id, modem_id_to_address. rewrite Hland, E3, E4. rewrite E4 in Hlow.
  unfold BROADCAST_ID. destruct (Z.eqb_spec id 0) as [->|Hne].
  - rewrite Haddr, Hlow by lia. rewrite E1. replace (2 ^ h - 1 + (2 ^ 32 - 2 ^ h)) with 4294967295 by lia. done.
  - rewrite Haddr, Hlow by lia. rewrite E1. unfold u32. rewrite wrap_small by nia.
    replace (id + (2 ^ 32 - 2 ^ h) =? 4294967295) with false; [done|].
    symmetry. apply Z.eqb_neq. lia.
Qed.

(** ** Documented behaviour of the header codecs *)

(** the headers the arithmetic models of a network with this many addresses and
    ports can encode *)
Definition nh_encodable (addresses ports : Z) (h : NetworkHeader) : Prop :=
  nh_protocol h = IPPROTO_UDP /\ 0 <= nh_srcdest_addr h < (addresses - 1) * (addresses - 1) /\
  (length (nh_srcdest_port h) <= 2)%nat /\ Forall (fun p => 0 <= p < ports) (nh_srcdest_port h).

Class NetHeaderLaws {GC : GatewayCodecs} (addresses ports : Z) : Prop := {
  nh_roundtrip : forall h p, nh_encodable addresses ports h -> nh_decode (nh_encode h ++ p) = Some (h, p)
}.

Class GatewayCodecLaws {GC : GatewayCodecs} : Prop := {
  ip_layout : forall h, ip_header_checksum h = 0 ->
    exists a b, ip_encode h = a ++ [0; 0] ++ b /\ length a = 10%nat /\ length b = 8%nat
                /\ wf_bytes a /\ wf_bytes b;
  udp_layout : forall h, udp_checksum h = 0 ->
    exists a, udp_encode h = a ++ [0; 0] /\ length a = 6%nat /\ wf_bytes a;
  inet_roundtrip : forall a, 0 <= a < 2 ^ 32 -> inet_aton (inet_ntoa a) = Some a
}.

Section GatewayProofs.
Context {GC : GatewayCodecs} {GL : GatewayCodecLaws}.

Lemma set_bytes_app off a old new b :
  off = length a -> length old = length new -> set_bytes off new (a ++ old ++ b) = a ++ new ++ b.
Proof.
  intros -> H. unfold set_bytes. rewrite take_app_length, drop_app_add, <- H, drop_app_length. done.
Qed.

(** the pseudo header read from headers [a ++ c ++ b] and [u ++ d] *)
Lemma pseudo_header_parts a c b u d :
  length a = 10%nat -> length c = 2%nat -> length b = 8%nat -> length u = 6%nat ->
  substr 12 4 (a ++ c ++ b) ++ substr 16 4 (a ++ c ++ b) ++ [0; IPPROTO_UDP] ++ substr 4 2 (u ++ d)
    = take 4 b ++ take 4 (drop 4 b) ++ [0; IPPROTO_UDP] ++ substr 4 2 u.
Proof.
  intros La Lc Lb Lu. unfold substr.
  replace (drop 12 (a ++ c ++ b)) with b by (rewrite !drop_app_ge by lia; by rewrite La, Lc).
  replace (drop 16 (a ++ c ++ b)) with (drop 4 b) by (rewrite !drop_app_ge by lia; by rewrite La, Lc).
  rewrite (drop_app_le u) by lia. rewrite take_app_le by (rewrite length_drop; lia). done.
Qed.

(** The packet written to the tunnel is an IPv4 header, a UDP header and the payload whose IPv4
    header checksum and whose UDP checksum over the pseudo header verify (the one's complement sum
    is zero). *)
Lemma written_udp_packet_verifies ip_hdr udp_hdr payload :
  wf_bytes payload -> Z.of_nat (length payload) <= 60000 ->
  exists ip udp, write_udp_packet ip_hdr udp_hdr payload = WriteTun (ip ++ udp ++ payload) /\
    length ip = 20%nat /\ length udp = 8%nat /\ net_checksum ip = 0 /\
    net_checksum (substr 12 4 ip ++ substr 16 4 ip ++ [0; IPPROTO_UDP] ++ substr 4 2 udp ++ udp ++ payload) = 0.
Proof.
  intros Wp Hp. unfold write_udp_packet. cbv zeta.
  set (ih := MkIPv4 _ _ _ _ _ _ 0 _ _). set (uh := MkUDP _ _ _ 0).
  destruct (ip_layout ih eq_refl) as (a & b & -> & La & Lb & Wa & Wb).
  destruct (udp_layout uh eq_refl) as (u & -> & Lu & Wu).
  replace (u ++ [0; 0]) with (u ++ [0; 0] ++ []) by done.
  rewrite (set_bytes_app IPV4_CS_OFFSET a [0; 0] (checksum_bytes _) b) by done.
  rewrite (set_bytes_app UDP_CS_OFFSET u [0; 0] (checksum_bytes _) []) by done.
  set (ipc := net_checksum (a ++ [0; 0] ++ b)).
  set (pseudo := substr 12 4 (a ++ [0; 0] ++ b) ++ _).
  assert (Hps : pseudo = take 4 b ++ take 4 (drop 4 b) ++ [0; IPPROTO_UDP] ++ substr 4 2 u)
    by (by apply pseudo_header_parts).
  assert (Lps : length pseudo = 12%nat).
  { rewrite Hps. unfold substr. rewrite !length_app, !length_take, !length_drop. cbn [length]. lia. }
  assert (Wps : wf_bytes pseudo).
  { rewrite Hps. unfold substr. repeat (apply wf_bytes_app; split); auto with goby.
    repeat constructor; unfold IPPROTO_UDP; lia. }
  set (udpc := net_checksum (pseudo ++ _)).
  assert (Eu : udpc = net_checksum ((pseudo ++ u) ++ [0; 0] ++ payload))
    by (unfold udpc; f_equal; by rewrite <- !app_assoc).
  assert (Hwp : word_sum payload <= 65535 * 60000) by (pose proof (word_sum_bounds payload Wp); nia).
  destruct (net_checksum_verifies a b Wa Wb) as [_ Vip]; [by rewrite La | |].
  { pose proof (word_sum_bounds a Wa). pose proof (word_sum_bounds b Wb). lia. }
  destruct (net_checksum_verifies (pseudo ++ u) payload) as [Hc Vudp].
  { by apply wf_bytes_app. }
  { done. }
  { by rewrite length_app, Lps, Lu. }
  { rewrite word_sum_app by (by rewrite Lps).
    pose proof (word_sum_bounds pseudo Wps). pose proof (word_sum_bounds u Wu). lia. }
  rewrite <- Eu in Vudp, Hc. fold ipc in Vip.
  exists (a ++ checksum_bytes ipc ++ b), (u ++ checksum_bytes udpc ++ []).
  split; [done|]. split; [rewrite !length_app, La, Lb; done|].
  split; [rewrite !length_app, Lu; done|]. split; [done|].
  etransitivity; [|exact Vudp]. f_equal.
  pose proof (pseudo_header_parts a (checksum_bytes ipc) b u (checksum_bytes udpc ++ []) La eq_refl Lb Lu) as E.
  rewrite <- Hps in E. rewrite <- E. by rewrite app_nil_r, <- !app_assoc.
Qed.

(** ** From tunnel to tunnel *)

(** two gateways of the same network, with [h] host bits *)
Definition same_network (h : Z) (g1 g2 : IPGateway) : Prop :=
  2 <= h <= 31 /\ gw_cidr_netmask_prefix (gw_cfg g1) = 32 - h /\ gw_cidr_netmask_prefix (gw_cfg g2) = 32 - h /\
  netmask g1 = gw_netmask (32 - h) /\ netmask g2 = gw_netmask (32 - h) /\
  0 <= local_address g1 < 2 ^ 32 /\ 0 <= local_address g2 < 2 ^ 32 /\
  Z.land (local_address g1) (netmask g1) = Z.land (local_address g2) (netmask g2).

Lemma goby_address_known h g1 g2 id :
  same_network h g1 g2 -> 0 <= id < 2 ^ h - 1 ->
  goby_address_to_ipv4 g2 id = goby_address_to_ipv4 g1 id /\
  ipv4_to_goby_address g1 (goby_address_to_ipv4 g1 id) = Ok id.
Proof.
  intros (Hh & _ & _ & M1 & M2 & L1 & L2 & Hn) Hid. split.
  - unfold goby_address_to_ipv4, modem_id_to_address. by rewrite Hn, M1, M2.
  - unfold ipv4_to_goby_address, goby_address_to_ipv4. rewrite inet_roundtrip.
    + rewrite M1. rewrite modem_address_roundtrip by lia. done.
    + unfold modem_id_to_address. destruct (_ =? _); apply (wrap_bound 32); lia.
Qed.

Lemma network_size h g : gw_cidr_netmask_prefix (gw_cfg g) = 32 - h -> 0 <= h ->
  total_addresses (gw_cfg g) = 2 ^ h - 1.
Proof.
  intros E Hh. unfold total_addresses. rewrite E. replace (32 - (32 - h)) with h by lia.
  rewrite Z.shiftl_mul_pow2 by lia. lia.
Qed.

(** C36: A UDP packet between mapped ports that enters the tunnel of one gateway is queued as a
    frame for the destination modem, and that frame, received by another gateway of the network
    (prefix 17 to 29), is written as the UDP packet with the same addresses, ports and payload. *)
Theorem udp_packet_crosses_link h nports `{!NetHeaderLaws (2 ^ h - 1) nports}
    g1 g2 s d sp dp ps pd total_length payload bind_port :
  3 <= h <= 15 -> same_network h g1 g2 -> (0 < gw_queue_size (gw_cfg g1))%nat ->
  0 < s < 2 ^ h - 1 -> 0 <= d < 2 ^ h - 1 -> s <> d ->
  right_find sp (port_map g1) = Some ps -> right_find dp (port_map g1) = Some pd ->
  left_find ps (port_map g2) = Some sp -> left_find pd (port_map g2) = Some dp -> 0 <= sp -> 0 <= dp ->
  0 <= ps < nports -> 0 <= pd < nports ->
  let ip_hdr := plain_header total_length IPPROTO_UDP (goby_address_to_ipv4 g1 s) (goby_address_to_ipv4 g1 d) in
  exists g1' evs frame q,
    handle_udp_packet ip_hdr (MkUDP sp dp 0 0) payload g1 = Ok (g1', evs) /\
    al_lookup d (outgoing g1') = Some q /\ last q = Some frame /\
    receive_frame bind_port frame g2 =
      Ok (g2, [write_udp_packet
                 (plain_header (28 + Z.of_nat (length payload)) IPPROTO_UDP
                    (goby_address_to_ipv4 g1 s) (goby_address_to_ipv4 g1 d))
                 (MkUDP sp dp (8 + Z.of_nat (length payload)) 0) payload]).
Proof.
  intros Hh3 Hnet Hq Hs Hd Hne Hsp Hdp Lsp Ldp Hsp0 Hdp0 Hps Hpd ip_hdr.
  destruct (goby_address_known h g1 g2 s Hnet ltac:(lia)) as [As As'].
  destruct (goby_address_known h g1 g2 d Hnet ltac:(lia)) as [Ad Ad'].
  destruct Hnet as (Hh & P1 & P2 & _).
  pose proof (Z.pow_le_mono_r 2 3 h ltac:(lia) ltac:(lia)) as Hp3. change (2 ^ 3) with 8 in Hp3.
  pose proof (Z.pow_le_mono_r 2 h 15 ltac:(lia) ltac:(lia)) as Hp15. change (2 ^ 15) with 32768 in Hp15.
  unfold handle_udp_packet, ip_hdr. cbn [ip_source ip_dest plain_header udp_dest_port udp_source_port].
  rewrite As'. cbn [rbind]. rewrite Ad'. cbn [rbind]. rewrite Hdp, Hsp.
  set (sd := from_src_dest_pair _ s d). set (frame := nh_encode _ ++ payload).
  eexists _, _, frame, _. split; [reflexivity|]. simpl. rewrite al_lookup_insert, Z.eqb_refl.
  split; [reflexivity|]. split; [by apply circular_push_last|].
  destruct (src_dest_pair_roundtrip (2 ^ h - 1) s d ltac:(lia) ltac:(lia) ltac:(lia) Hne) as [Hrange Hsd].
  rewrite <- (network_size h g1) in Hrange, Hsd by (done || lia). fold sd in Hrange, Hsd.
  assert (Hwrap : u32 sd = sd).
  { apply wrap_small. rewrite (network_size h g1) in Hrange by (done || lia). nia. }
  unfold receive_frame, frame. rewrite Hwrap. rewrite nh_roundtrip.
  2: { unfold nh_encodable. cbn [nh_srcdest_addr nh_srcdest_port nh_protocol app length].
       rewrite (network_size h g1) in Hrange by (done || lia). split_and!; [done | lia | lia | lia |].
       repeat constructor; lia. }
  cbn [nh_srcdest_addr nh_srcdest_port nh_protocol app]. rewrite (network_size h g2), <- (network_size h g1), Hsd by (done || lia).
  rewrite Lsp, Ldp. replace (sp <? 0) with false by (symmetry; apply Z.ltb_ge; lia). rewrite Ldp. cbn [default]. unfold id.
  replace (dp <? 0) with false by (symmetry; apply Z.ltb_ge; lia). by rewrite As, Ad.
Qed.

(** ** Dynamic source ports *)

(** A packet from an unmapped source port is sent with a header of three ports, the dynamic
    port, 0 and the destination, instead of two. *)
Lemma dynamic_source_port_header ip_hdr udp_hdr payload g s d pd :
  ipv4_to_goby_address g (ip_source ip_hdr) = Ok s -> ipv4_to_goby_address g (ip_dest ip_hdr) = Ok d ->
  right_find (udp_dest_port udp_hdr) (port_map g) = Some pd ->
  right_find (udp_source_port udp_hdr) (port_map g) = None ->
  gw_total_ports (gw_cfg g) <> num_static (gw_cfg g) -> (0 < gw_queue_size (gw_cfg g))%nat ->
  exists g' evs q addr, handle_udp_packet ip_hdr udp_hdr payload g = Ok (g', evs) /\
    al_lookup d (outgoing g') = Some q /\
    last q = Some (nh_encode (MkNetHeader IPPROTO_UDP addr [dynamic_port_index g; 0; pd]) ++ payload).
Proof.
  intros Hs Hd Hdp Hsp Hdyn Hq. unfold handle_udp_packet. rewrite Hs. cbn [rbind]. rewrite Hd. cbn [rbind].
  rewrite Hdp, Hsp. apply Z.eqb_neq in Hdyn. rewrite Hdyn.
  eexists _, _, _, _. split; [reflexivity|]. simpl. rewrite al_lookup_insert, Z.eqb_refl.
  split; [reflexivity|]. by apply circular_push_last.
Qed.

(** ** Data requests *)

Lemma take_frames_spec : forall fuel msg q,
  (length q <= fuel)%nat ->
  let k := Z.to_nat (max_num_frames msg - Z.of_nat (frame_size msg)) in
  take_frames fuel msg q =
    (match take k q with [] => msg | fs => set_mt_frame (mt_frame msg ++ fs) (set_mt_ack_requested (Some false) msg) end,
     drop k q).
Proof.
  induction fuel as [|fuel IH]; intros msg q Hf k.
  - destruct q; [|simpl in Hf; lia]. rewrite take_nil, drop_nil. done.
  - destruct q as [|frame q]; [rewrite take_nil, drop_nil; done|]. cbn [take_frames].
    destruct (Z.ltb_spec (Z.of_nat (frame_size msg)) (max_num_frames msg)) as [Hlt|Hge].
    + destruct k as [|k'] eqn:Ek; [unfold k in Ek; lia|]. rewrite IH by (simpl in Hf; lia).
      set (msg1 := set_mt_frame _ _).
      assert (E1 : Z.to_nat (max_num_frames msg1 - Z.of_nat (frame_size msg1)) = k').
      { unfold msg1, frame_size. simpl. rewrite length_app. simpl.
        change (max_num_frames _) with (max_num_frames msg). unfold k, frame_size in Ek. lia. }
      rewrite E1. cbn [take drop]. f_equal. destruct (take k' q) as [|f fs]; [done|].
      unfold msg1. simpl. by rewrite <- app_assoc.
    + assert (Ek : k = 0%nat) by (unfold k; lia). by rewrite Ek.
Qed.

(** A data request for a destination with queued frames takes them from the front, in order and
    as many as fit the request, and leaves the queues of the other destinations unchanged. *)
Lemma data_request_is_fifo msg out q :
  dest msg <> QUERY_DESTINATION_ID -> al_lookup (dest msg) out = Some q -> q <> [] ->
  Z.of_nat (frame_size msg) < max_num_frames msg ->
  let k := Z.to_nat (max_num_frames msg - Z.of_nat (frame_size msg)) in
  exists msg' out', fill_request msg out = (msg', out', true) /\
    mt_frame msg' = mt_frame msg ++ take k q /\ Z.of_nat (frame_size msg') <= max_num_frames msg /\
    al_lookup (dest msg) out' = Some (drop k q) /\
    forall d, d <> dest msg -> al_lookup d out' = al_lookup d out.
Proof.
  intros Hd Hq Hne Hlt k. unfold fill_request.
  replace (_ <? _) with true by (symmetry; apply Z.ltb_lt; lia). cbn [negb].
  apply Z.eqb_neq in Hd. rewrite Hd, Hq. cbn [negb]. destruct q as [|f q]; [done|].
  rewrite take_frames_spec by done. fold k.
  assert (Hk : (0 < k)%nat) by (unfold k; lia).
  destruct (take k (f :: q)) as [|g gs] eqn:Et.
  { apply (f_equal length) in Et. rewrite length_take in Et. simpl in Et. lia. }
  eexists _, _. split; [reflexivity|]. simpl. split; [done|]. split.
  - unfold frame_size. simpl. rewrite length_app, <- Et, length_take. unfold k, frame_size in *. lia.
  - split; [by rewrite al_lookup_insert, Z.eqb_refl|]. intros d Hne'. rewrite al_lookup_insert.
    apply Z.eqb_neq in Hne'. by rewrite Hne'.
Qed.

End GatewayProofs.

(** ** Evaluation *)
Module GatewayWitness.

Definition net_decode (s : bytes) : option (NetworkHeader * bytes) :=
  match s with
  | p :: a :: n :: rest => Some (MkNetHeader p a (take (Z.to_nat n) rest), drop (Z.to_nat n) rest)
  | _ => None
  end.

Definition net_encode (h : NetworkHeader) : bytes :=
  nh_protocol h :: nh_srcdest_addr h :: Z.of_nat (length (nh_srcdest_port h)) :: nh_srcdest_port h.

Definition addr4 (s : bytes) : bytes :=
  let a := match s with a :: _ => a | [] => 0 end in
  [u8 (Z.shiftr a 24); u8 (Z.shiftr a 16); u8 (Z.shiftr a 8); u8 a].

Definition short (v : Z) : bytes := [u8 (Z.shiftr v 8); u8 v].

Definition codecs : GatewayCodecs := {|
  nh_encode := net_encode;
  nh_decode := net_decode;
  ip_encode := fun h => [69; 0] ++ short (ip_total_length h) ++ [0; 0; 0; 0; u8 (ip_ttl h); u8 (ip_protocol h)]
                        ++ short (ip_header_checksum h) ++ addr4 (ip_source h) ++ addr4 (ip_dest h);
  ip_decode := fun _ => None;
  udp_encode := fun h => short (udp_source_port h) ++ short (udp_dest_port h) ++ short (udp_length h)
                         ++ short (udp_checksum h);
  udp_decode := fun _ => None;
  icmp_encode := fun h => [u8 (icmp_type h); u8 (icmp_code h)] ++ short (icmp_checksum h) ++ [0; 0; 0; 0];
  inet_aton := fun s => match s with [a] => Some a | _ => None end;
  inet_ntoa := fun a => [a];
  serialize_report := fun a _ => a
|}.
#[local] Existing Instance codecs.

Lemma codec_laws : GatewayCodecLaws.
Proof.
  constructor.
  - intros h E.
    exists ([69; 0] ++ short (ip_total_length h) ++ [0; 0; 0; 0; u8 (ip_ttl h); u8 (ip_protocol h)]),
      (addr4 (ip_source h) ++ addr4 (ip_dest h)).
    split; [unfold ip_encode, codecs, short; rewrite E; reflexivity|].
    split; [reflexivity|]. split; [reflexivity|]. unfold addr4, short.
    split; repeat (apply Forall_cons; split); try apply u8_is_byte; try apply Forall_nil; try (unfold is_byte; lia); exact I.
  - intros h E.
    exists (short (udp_source_port h) ++ short (udp_dest_port h) ++ short (udp_length h)).
    split; [unfold udp_encode, codecs, short; rewrite E; reflexivity|].
    split; [reflexivity|]. unfold short.
    repeat (apply Forall_cons; split); try apply u8_is_byte; try apply Forall_nil; exact I.
  - done.
Qed.
#[local] Existing Instance codec_laws.

Lemma net_header_laws : NetHeaderLaws 15 3.
Proof.
  constructor. intros [p a ports] rest _. simpl. rewrite Nat2Z.id.
  by rewrite take_app_length, drop_app_length.
Qed.
#[local] Existing Instance net_header_laws.

Definition config (local : Z) : IPGatewayConfig :=
  MkGwConfig [local] 28 false (double_of_Z 0) (double_of_Z 0) 1 3 [50000; 50001] false None 100 None.

Example constructor_assertion_witness :
  pairs_ok (total_addresses (config 3232235777)) = true.
Proof. exact (constructor_assertion (config 3232235777) ltac:(simpl; lia)). Qed.

Definition gateway (local : Z) : IPGateway :=
  match new_gateway (config local) with
  | Ok g => g
  | Err _ => MkGateway (config local) 0 0 0 [] 0 0 []
  end.

(** 192.168.1.1 and 192.168.1.2 *)
Definition g1 : IPGateway := Eval vm_compute in gateway 3232235777.
Definition g2 : IPGateway := Eval vm_compute in gateway 3232235778.

Lemma same : same_network 4 g1 g2.
Proof. unfold same_network. repeat split; vm_compute; try done; lia. Qed.

Example written_udp_packet_verifies_witness :
  exists ip udp, write_udp_packet (plain_header 30 IPPROTO_UDP [3232235777] [3232235778]) (MkUDP 50000 50001 10 0) [1; 2]
      = WriteTun (ip ++ udp ++ [1; 2]) /\ net_checksum ip = 0.
Proof.
  destruct (written_udp_packet_verifies (plain_header 30 IPPROTO_UDP [3232235777] [3232235778])
    (MkUDP 50000 50001 10 0) [1; 2] ltac:(repeat constructor; lia) ltac:(simpl; lia))
    as (ip & udp & H1 & _ & _ & H2 & _).
  exists ip, udp. split; assumption.
Qed.

Lemma udp_packet_crosses_link_witness :
  exists g1' evs frame q,
    handle_udp_packet (plain_header 30 IPPROTO_UDP [3232235777] [3232235778]) (MkUDP 50000 50001 0 0) [1; 2] g1
      = Ok (g1', evs) /\
    al_lookup 2 (outgoing g1') = Some q /\ last q = Some frame.
Proof.
  destruct (udp_packet_crosses_link 4 3 g1 g2 1 2 50000 50001 0 1 30 [1; 2] (fun _ => 0) ltac:(lia) same
    ltac:(vm_compute; lia) ltac:(lia) ltac:(lia) ltac:(lia) eq_refl eq_refl eq_refl eq_refl ltac:(lia) ltac:(lia)
    ltac:(lia) ltac:(lia)) as (g1' & evs & frame & q & H1 & H2 & H3 & _).
  exists g1', evs, frame, q. split; [exact H1|]. split; [exact H2 | exact H3].
Defined.

Example dynamic_source_port_header_witness :
  exists g' evs q addr,
    handle_udp_packet (plain_header 30 IPPROTO_UDP [3232235777] [3232235778]) (MkUDP 40000 50001 0 0) [1; 2] g1
      = Ok (g', evs) /\ al_lookup 2 (outgoing g') = Some q /\
    last q = Some (nh_encode (MkNetHeader IPPROTO_UDP addr [2; 0; 1]) ++ [1; 2]).
Proof.
  exact (dynamic_source_port_header (plain_header 30 IPPROTO_UDP [3232235777] [3232235778])
    (MkUDP 40000 50001 0 0) [1; 2] g1 1 2 1 eq_refl eq_refl eq_refl eq_refl ltac:(vm_compute; discriminate)
    ltac:(vm_compute; lia)).
Qed.

Example data_request_is_fifo_witness :
  exists msg' out',
    fill_request (set_mt_max_num_frames (Some 2) (set_mt_dest (Some 2) empty_transmission)) [(2, [[1]; [2]; [3]])]
      = (msg', out', true) /\ mt_frame msg' = [[1]; [2]].
Proof.
  destruct (data_request_is_fifo (set_mt_max_num_frames (Some 2) (set_mt_dest (Some 2) empty_transmission))
    [(2, [[1]; [2]; [3]])] [[1]; [2]; [3]] ltac:(discriminate) eq_refl ltac:(discriminate) ltac:(vm_compute; reflexivity))
    as (msg' & out' & H1 & H2 & _).
  exists msg', out'. split; [exact H1 | exact H2].
Qed.

End GatewayWitness.
